(* ===== verification/_CoqProject ===== *)
-Q . S2P
Prelude.v
GoStrings.v
GoTime.v
Price.v
Router.v
Receipt.v
Wire.v
Messages.v
Proposals.v
Db.v
Hex.v
Auth.v
Store.v
Settlement.v
Indexer.v
Sample.v
Ledger.v
StoreSpec.v
Outbox.v
SettlementSpec.v
IndexerSpec.v
Relay.v
Coordinator.v
Broker.v
BrokerSpec.v
Wiring.v
EventBroker.v
Anthropic.v
Daemon.v
DaemonSpec.v
Effects.v
Tuning.v
TuningSpec.v
Http.v
AuthHttp.v
ProviderAccount.v
Actions.v
ActionsSpec.v
Backends.v
Ollama.v
OpenAI.v
Claude.v
Codex.v
BackendsSpec.v
Disk.v
CodexHome.v
CredentialProxy.v
CommandAgent.v
CommandAgentSpec.v
ClientConfig.v
AccountClient.v
ProviderOps.v
ProviderOpsSpec.v
PublishSpec.v
Realtime.v
Host.v
HostSpec.v
Tui.v
TuiSpec.v
ReferencePrice.v
Flags.v
BackendCommands.v
BackendCommandsSpec.v
Login.v
LoginSpec.v
Hosting.v
HostingSpec.v
Serve.v
ServeSpec.v
Cli.v
CliSpec.v
ChainClient.v
Views.v
Startup.v
StartupSpec.v
ViewsSpec.v
WindowsHost.v
Services.v
LocalState.v
WindowsRunner.v
