(* ===== verification/Prelude.v ===== *)
(** * Myference: a verified model of the inference marketplace

    Myference rents idle computers for language-model inference.  A customer
    calls an OpenAI- or Anthropic-compatible endpoint of the broker; the broker
    reserves the worst-case cost on the customer's prepaid session, offers the
    job to a provider's machine over a relay connection, streams the output
    back, has the usage receipt signed by the provider, signs it itself and
    settles it on a chain contract, whose events it indexes into its database.
    A provider signs its machine in, configures and prices its backends, and
    serves them from the command line, a terminal interface or a service.

    ** Parts, files and sources

    A file [XSpec] holds the properties of [X] where they need other files.

    Go's language and standard library:
    - [Prelude]: errors and results, machine-width integers, shared tactics.
    - [GoStrings], [GoTime], [Hex]: strings, decimal text, times and RFC 3339
      text, hexadecimal text and SHA-256.  [Wire]: base64, JSON values, struct
      decoding.  [Http]: requests, responses and routes.  [Flags]: flag sets.
      [Effects]: programs whose effects fail or are cut short by a crash, with
      [Disk], files and directories.

    protocol/v1, shared by the broker and the provider:
    - [Price] (price.go), [Receipt] (receipt.go, signing.go), [Messages]
      (messages.go), [Proposals] (the JSON of receipts and job offers).

    The broker, server/internal and server/cmd:
    - [Router] (router/router.go): rates, worst-case cost, selection.
    - [Db]: the tables of migrations/*.sql and the SQL the sources use.
    - [Auth] (auth/device.go, browser.go, stream.go), [AuthHttp]
      (auth/http.go).
    - [Store] (store/store.go, inference.go, receipt.go, signers.go): every
      transaction of a request's life.  [Settlement] (chain/settlement.go),
      [ChainClient] (chain/client.go), [Indexer] (chain/indexer.go).
    - [Ledger], [StoreSpec], [Outbox], [SettlementSpec], [IndexerSpec] hold the
      properties of these; [Sample] is a concrete run of the broker on which
      witnesses are evaluated.
    - [Relay] (relay/hub.go), [Coordinator] (settlement/coordinator.go),
      [Broker] and [EventBroker] (api/openai.go), [Anthropic]
      (api/anthropic.go), [Realtime] (realtime/events.go), [ReferencePrice]
      (api/price.go).
    - [ProviderAccount] (store/provider_account.go, api/provider_account.go),
      [Actions] (api/provider_action.go, provider_actions.go of the server),
      [Views] (store/marketplace.go, operations.go, analytics.go and their
      handlers in api/).
    - [Wiring]: the inference endpoint over the real store, key service, hub and
      coordinator.  [Startup]: [run] of the server and the loops and routes it
      starts (cmd/myference-server/main.go, runtime.go), and the migrations
      (cmd/myference-migrate/main.go).

    The provider, cli/internal and cli/cmd/myference:
    - [Daemon] (provider/daemon.go, status.go, backend/backend.go).
    - [Backends] (what the backends share), [Ollama], [OpenAI], [Claude],
      [Codex] and [CodexHome] (backend/ollama, openai, claude, codex),
      [CredentialProxy] and [CommandAgent] (backend/command).
    - [ClientConfig] (config/config.go), [AccountClient] (account/),
      [ProviderOps] (providerops/service.go), [LocalState] (credential/ and the
      status file of provider/status.go), [Host] (host/discovery.go,
      configure.go), [Tui] (tui/model.go).
    - [Tuning] and [WindowsRunner] (platform/windows: config.go, journal.go,
      optimize.go, runner_windows.go), [WindowsHost] (docker.go, ollama.go,
      platform_windows.go), [Services] (platform/windows/service.go,
      platform/darwin/lifecycle.go, the platform files of the command).
    - [BackendCommands], [Login], [Hosting], [Serve], [Cli]
      (cmd/myference/main.go).  [PublishSpec] joins [ProviderOps],
      [AccountClient] and [Actions] across the wire.

    ** How the model reads

    A Go function that returns a value and an error returns a [result]; one
    that changes an object takes and returns its record; code that calls many
    dependencies runs in a state and error monad on a world [W].  A transaction
    maps a database to a database or an error (a rollback).  A goroutine, a
    timer or a network peer appears as a list of actions or wake-ups that
    interleave in any order; theorems quantify over that list.  Where a file
    operation or a command can fail or the process die before it, it is an
    effect that consumes a [Fate], and theorems quantify over the fates.  [now]
    is the clock, random bytes are arguments, and times count microseconds.
    uint64 values are integers whose wrap-around is written where the code can
    wrap.

    Parameters stand for code outside the repository, with what is relied on
    as named classes or hypotheses: hashing, ABI packing and elliptic-curve
    operations ([ECDSA], [EIP712]), address text ([Ethereum]), JSON text
    ([parse], [marshal]), [sort.Slice] ([SliceSort]), the tables of Unicode,
    RPC nodes, the contract bindings, the credential manager and keychain of
    the system ([CredentialManager], [Keychain]), child processes and HTTP.
    Every class has an instance.

    ** What the theorems show

    - Money.  In every database state reachable through the store, settlement
      and indexer operations the live holds of a session never exceed its
      balance, and across reorganisations of the chain what is held and settled
      never exceeds the allowance of the session in the contract ([Ledger]);
      what is charged for usage within the limits never exceeds what was
      reserved, receipts are prepared once with consecutive nonces
      ([StoreSpec]); prices are exact ([Price], [Router], [Tui], [ProviderOps]).
    - Requests.  The endpoint closes each reservation exactly once and bills
      the very text it streamed ([BrokerSpec]); through the real dependencies
      it keeps the ledger ([Wiring]); a completion is recorded once and the
      outbox is the history of every request ([Outbox]); the event stream loses
      and repeats nothing ([Realtime]).
    - Receipts.  Digests bind all fields, signatures recover their signer
      ([Receipt]); only receipts signed by the machine's authorised signer are
      queued, and an honest provider cannot be locked out ([Coordinator]).
    - Chain.  One settlement transaction is in flight ([SettlementSpec]);
      indexing is idempotent, complete and starts at the right block, and a
      rewind starts it again ([IndexerSpec]); the server only starts on the
      chain, contract and key it may use, and leaves nothing open
      ([StartupSpec]).
    - Relay.  Chunks are accepted in order and without gaps ([Messages],
      [Relay]); queues are bounded, a reconnecting machine replaces its session;
      a stream is complete or flagged as overflowed ([EventBroker]); the daemon
      only sends what the hub accepts, and delivers a job that is left alone
      ([DaemonSpec]); the Anthropic events do not depend on how the stream is
      cut ([Anthropic]).
    - Access.  Device codes, wallet challenges and stream tickets work once; an
      API key authorises exactly its scope ([Auth], [AuthHttp]); a request
      changes the state of an account only with a live session of it on the web
      origin or as one of its machines ([StartupSpec]).
    - Provider actions.  The store of actions refines an abstract lifecycle,
      its actions stay well formed ([ActionsSpec]), and what the command line
      reports as published is on the chain ([PublishSpec]).
    - Backends.  Usage stays within the limits of a job and text-only runs use
      no tools ([BackendsSpec]); an isolated agent reaches the model provider
      within its budget only ([CredentialProxy]), touches nothing but its own
      files, containers and networks, and leaves nothing ([CommandAgentSpec]).
    - The machine.  Configuration, credentials and status are written as a
      whole or not at all ([ClientConfig], [HostSpec], [LocalState]); no command
      loses a credential ([BackendCommandsSpec]); a login is complete or
      reported ([LoginSpec]); a session undoes what it did ([ServeSpec]); host
      changes are journaled and restored, and the native runner, down to
      processes and their priority classes, agrees with the effects this is
      proved of ([TuningSpec], [WindowsRunner]); the service is installed as a
      whole ([Services]).
    - Views.  Models, machines, activity and analytics agree with the rows they
      are read from ([ViewsSpec]); the terminal interface publishes what was
      reviewed ([TuiSpec]); the attestation of [status] verifies ([CliSpec]).

    ** Fuel and bounds

    Trimming and splitting strings, cutting frames, printing decimals, the
    search for the contract's first block and the synchronisation loop recurse
    on fuel.  String functions take the length of their input, of which every
    step consumes a byte; decimals the binary logarithm of the number; the
    search the number of bits of the interval; [sync_loop] the number of
    blocks left, with a theorem that this is enough.  Loops that wait take a
    number of waits and have no result when it is used up; the theorems about
    them say how many are enough: 451 waits of two seconds pass the fifteen
    minutes after which an action or a device authorization has expired
    ([ProviderOpsSpec], [LoginSpec]), 480 waits of a quarter of a second the two
    minutes given to Docker ([WindowsHost]), and a session ends within the
    seconds left until it is cancelled ([ServeSpec]).  A name of its own for a
    backend is found after as many suffixes as there are backends ([HostSpec]),
    and the ancestors of a process after as many steps as there are processes
    ([WindowsRunner]).

    ** What is not modelled

    Generated code (server/internal/chain/bindings) and the contract itself:
    [Ledger] states what is relied on of its events.  The kernel, DLLs and child
    processes beyond the effects named above, signals, the HTTP listener and
    TLS.  Concurrency inside PostgreSQL: the row locks and advisory locks of
    the sources are taken as making each transaction atomic, and identifiers of
    outbox rows as being in the order of the commits.  The 78-digit limit of
    numeric columns.  The concrete syntax of JSON and of HTTP.  The order of the
    hub's steps inside one inbound message: [AcceptInbound] is one step.  Rows
    of the database are values: a deadlock or a lost connection is an error of
    the transaction; texts are ordered byte by byte.  Left out as glue: the
    one-line [main] functions, the tickers of watchers whose ticks are
    modelled, the wiring of default dependencies, and the thin wrappers of
    cli/provider and the proxy command. *)

From stdpp Require Export base tactics list gmap strings option numbers sorting.
From Stdlib Require Export ZArith Lia Bool.
From Stdlib Require Import Ascii.

Declare Scope myf_scope.
Delimit Scope myf_scope with myf.
Open Scope Z_scope.

(** ** Errors and results

    Go returns [(value, error)] pairs; [result A] is the value of such a pair.
    Each sentinel error of the repository is a constructor; an anonymous
    [errors.New msg] is [ErrNew msg] and [fmt.Errorf("%s: %w", p, e)] is
    [ErrWrap p e]. *)
Inductive error :=
| ErrInvalidMessage | ErrMessageTooLarge | ErrUnsupportedVersion | ErrChunkSequence
| ErrOverflow | ErrMaximumExceeded | ErrInvalidReceipt
| ErrNoEligibleProvider | ErrInsufficientBudget
| ErrInsufficientBalance | ErrIneligibleRoute | ErrUsageLimitExceeded
| ErrInvalidTransition | ErrNoOutboxEvents | ErrNoSignedReceipts
| ErrTransactionReverted
| ErrUnauthorized | ErrDisconnected | ErrBackpressure
| ErrLeaseAlreadyAccepted | ErrRequestTerminal
| ErrAuthorizationPending | ErrAuthorizationExpired | ErrAuthorizationConsumed
| ErrInvalidCredential | ErrScopeDenied | ErrOriginDenied
| ErrProviderActionNotFound
| ErrActiveRecoveryJournal | ErrNotExist
| ErrTokenBudget | ErrUnexpectedEOF
| ErrNoRows | ErrConstraint | ErrEncode
| ErrNew (msg : string)
| ErrWrap (prefix : string) (cause : error).

#[export] Instance error_eq_dec : EqDecision error.
Proof. solve_decision. Defined.

Inductive result (A : Type) := Ok (a : A) | Err (e : error).
Arguments Ok {A} a.
Arguments Err {A} e.

#[export] Instance result_ret : MRet result := fun A a => Ok a.
#[export] Instance result_bind : MBind result := fun A B f r =>
  match r with Ok a => f a | Err e => Err e end.
#[export] Instance result_fmap : FMap result := fun A B f r =>
  match r with Ok a => Ok (f a) | Err e => Err e end.

(** [if cond { return err }] *)
Definition fail_if (b : bool) (e : error) : result unit :=
  if b then Err e else Ok tt.

(** The first row of a query, or [sql.ErrNoRows] turned into [e]. *)
Definition of_option {A} (o : option A) (e : error) : result A :=
  match o with Some a => Ok a | None => Err e end.

Definition is_ok {A} (r : result A) : bool :=
  match r with Ok _ => true | Err _ => false end.

(** ** Machine integers *)
Definition u64_mod : Z := 2 ^ 64.
Definition u64_max : Z := 2 ^ 64 - 1.
Definition u32_mod : Z := 2 ^ 32.
Definition i64_max : Z := 2 ^ 63 - 1.
Definition wrap64 (z : Z) : Z := z mod u64_mod.
Definition is_u64 (z : Z) : bool := (0 <=? z) && (z <? u64_mod).
Definition is_u16 (z : Z) : bool := (0 <=? z) && (z <? 2 ^ 16).

(** [bits.Add64], [bits.Mul64] and [bits.Div64] of the Go standard library.
    [Div64] panics when [y <= hi]; the panic is [None]. *)
Definition Add64 (x y carry : Z) : Z * Z :=
  let sum := x + y + carry in (sum mod u64_mod, sum / u64_mod).
Definition Mul64 (x y : Z) : Z * Z :=
  ((x * y) / u64_mod, (x * y) mod u64_mod).
Definition Div64 (hi lo y : Z) : option (Z * Z) :=
  if y <=? hi then None
  else Some ((hi * u64_mod + lo) / y, (hi * u64_mod + lo) mod y).

(** The ceiling of [n / d] for a positive [d]. *)
Definition ceil_div (n d : Z) : Z := (n + (d - 1)) / d.

(** ** Automation *)
(** Case analysis on every [match] and [if] of a hypothesis [H : _ = Ok _]
    (or [_ = Some _]), keeping the equations and dropping the impossible
    branches. *)
Ltac split_match H :=
  match type of H with
  | context [match ?x with _ => _ end] =>
      lazymatch x with
      | context [match _ with _ => _ end] => fail
      | _ => let E := fresh "E" in destruct x eqn:E
      end
  end.
Ltac inv_ok H :=
  cbn [mbind result_bind mret result_ret fmap result_fmap fail_if of_option] in H;
  repeat (split_match H;
          cbn [mbind result_bind mret result_ret fmap result_fmap fail_if of_option] in H;
          try discriminate H);
  try (injection H; clear H; intros; subst).

(** Boolean guards to propositions. *)
Ltac bools :=
  repeat match goal with
  | H : (_ && _) = true |- _ => apply andb_true_iff in H; destruct H
  | H : (_ || _) = false |- _ => apply orb_false_iff in H; destruct H
  | H : negb _ = true |- _ => apply negb_true_iff in H
  | H : negb _ = false |- _ => apply negb_false_iff in H
  | H : (_ =? _)%Z = true |- _ => apply Z.eqb_eq in H
  | H : (_ =? _)%Z = false |- _ => apply Z.eqb_neq in H
  | H : (_ <? _)%Z = true |- _ => apply Z.ltb_lt in H
  | H : (_ <? _)%Z = false |- _ => apply Z.ltb_ge in H
  | H : (_ <=? _)%Z = true |- _ => apply Z.leb_le in H
  | H : (_ <=? _)%Z = false |- _ => apply Z.leb_gt in H
  | H : bool_decide _ = true |- _ => apply bool_decide_eq_true in H
  | H : bool_decide _ = false |- _ => apply bool_decide_eq_false in H
  end.

Create HintDb myf discriminated.

(** One bind of a computation that succeeded: [step_ok H as x E] names its
    value and the equation of its first part. *)
Lemma bind_Ok {A B} (m : result A) (k : A -> result B) b :
  (m ≫= k) = Ok b <-> exists a, m = Ok a /\ k a = Ok b.
Proof.
  destruct m as [a|e]; simpl; split; [eauto|by intros (? & [= ->] & ?)|done|by intros (? & ? & _)].
Qed.

Lemma fail_if_Ok b e u : fail_if b e = Ok u <-> b = false.
Proof. destruct b, u; simpl; split; congruence. Qed.

Lemma of_option_Ok {A} (o : option A) e a : of_option o e = Ok a <-> o = Some a.
Proof. destruct o; simpl; split; congruence. Qed.

Tactic Notation "step_ok" ident(H) "as" simple_intropattern(x) ident(E) :=
  apply bind_Ok in H as (x & E & H).
Tactic Notation "skip_ok" ident(H) :=
  let a := fresh "a" in let E := fresh "E" in apply bind_Ok in H as (a & E & H); clear E; try clear a.

(** ** Shared lemmas *)
Lemma is_u64_spec z : is_u64 z = true <-> 0 <= z < u64_mod.
Proof. unfold is_u64. rewrite andb_true_iff, Z.leb_le, Z.ltb_lt. tauto. Qed.

Lemma ceil_div_spec n d q :
  0 < d -> ceil_div n d = q <-> d * (q - 1) < n <= d * q.
Proof.
  intros Hd. unfold ceil_div. split.
  - intros <-. pose proof (Z.div_mod (n + (d - 1)) d ltac:(lia)).
    pose proof (Z.mod_pos_bound (n + (d - 1)) d Hd). nia.
  - intros H. symmetry. apply (Z.div_unique _ _ _ (n + (d - 1) - d * q)); lia.
Qed.

Lemma ceil_div_exact n d : 0 < d -> n mod d = 0 -> ceil_div n d = n / d.
Proof.
  intros Hd Hm. apply ceil_div_spec; [done|].
  pose proof (Z.div_mod n d ltac:(lia)). lia.
Qed.

Lemma ceil_div_inexact n d : 0 < d -> n mod d <> 0 -> ceil_div n d = n / d + 1.
Proof.
  intros Hd Hm. apply ceil_div_spec; [done|].
  pose proof (Z.div_mod n d ltac:(lia)). pose proof (Z.mod_pos_bound n d Hd). lia.
Qed.

Lemma ceil_div_nonneg n d : 0 < d -> 0 <= n -> 0 <= ceil_div n d.
Proof. intros. unfold ceil_div. apply Z.div_pos; lia. Qed.

Lemma ceil_div_0 d : 0 < d -> ceil_div 0 d = 0.
Proof. intros. unfold ceil_div. apply Z.div_small. lia. Qed.

Lemma ceil_div_mono n m d : 0 < d -> n <= m -> ceil_div n d <= ceil_div m d.
Proof. intros. unfold ceil_div. apply Z.div_le_mono; lia. Qed.

#[export] Hint Resolve ceil_div_nonneg : myf.
