(* ===== verification/GoStrings.v ===== *)
(** * Go strings and decimal integers

    The operations of the Go packages [strings], [sort], [strconv] and
    [math/big] that the sources use, on byte strings: a Go [string] is a
    sequence of bytes, and a Rocq [string] is a sequence of 8-bit characters.
    The second half relates the textual form of an integer to its value:
    [big.Int.String], [strconv.FormatUint], [big.Int.SetString] in base 10 and
    [strconv.ParseUint]. *)

From S2P Require Import Prelude.
From Stdlib Require Import Ascii.
Open Scope string_scope.
Open Scope Z_scope.

Definition byte_of (c : ascii) : Z := Z.of_N (N_of_ascii c).
Definition of_byte (z : Z) : ascii := ascii_of_N (Z.to_N z).
Definition go_len (s : string) : Z := Z.of_nat (String.length s).

Fixpoint str (bytes : list Z) : string :=
  match bytes with
  | [] => ""
  | b :: rest => String (of_byte b) (str rest)
  end.

(** [[]byte(s)] *)
Fixpoint string_bytes (s : string) : list Z :=
  match s with
  | "" => []
  | String c r => byte_of c :: string_bytes r
  end.

(** [strings.ToUpper] on ASCII text *)
Definition upper_ascii (c : ascii) : ascii :=
  let n := byte_of c in if (97 <=? n) && (n <=? 122) then of_byte (n - 32) else c.
Fixpoint ToUpper (s : string) : string :=
  match s with
  | "" => ""
  | String c s' => String (upper_ascii c) (ToUpper s')
  end.

Fixpoint rev_string_onto (s acc : string) : string :=
  match s with
  | "" => acc
  | String c r => rev_string_onto r (String c acc)
  end.
Definition rev_string (s : string) : string := rev_string_onto s "".

Fixpoint HasPrefix (s prefix : string) : bool :=
  match prefix, s with
  | "", _ => true
  | String p prefix', String c s' => Ascii.eqb p c && HasPrefix s' prefix'
  | String _ _, "" => false
  end.

Fixpoint drop_bytes (n : nat) (s : string) : string :=
  match n, s with
  | O, _ => s
  | S n', String _ s' => drop_bytes n' s'
  | S _, "" => ""
  end.

Definition TrimPrefix (s prefix : string) : string :=
  if HasPrefix s prefix then drop_bytes (String.length prefix) s else s.

Definition HasSuffix (s suffix : string) : bool :=
  HasPrefix (rev_string s) (rev_string suffix).

Definition TrimSuffix (s suffix : string) : string :=
  if HasSuffix s suffix
  then rev_string (drop_bytes (String.length suffix) (rev_string s)) else s.

(** The UTF-8 encodings of the runes for which [unicode.IsSpace] holds. *)
Definition space_runes : list string :=
  map str ([ [9]; [10]; [11]; [12]; [13]; [32]; [194; 133]; [194; 160];
             [225; 154; 128] ]
           ++ map (fun k => [226; 128; k]) [128;129;130;131;132;133;134;135;136;137;138;168;169;175]
           ++ [ [226; 129; 159]; [227; 128; 128] ]).

(** Drops leading strings of the set [set]; each step drops at least one byte,
    so the length of the string is enough fuel. *)
Fixpoint trim_left_fuel (fuel : nat) (set : list string) (s : string) : string :=
  match fuel with
  | O => s
  | S fuel' =>
      match List.find (HasPrefix s) set with
      | Some rune => trim_left_fuel fuel' set (drop_bytes (String.length rune) s)
      | None => s
      end
  end.
Definition trim_left (set : list string) (s : string) : string :=
  trim_left_fuel (String.length s) set s.
Definition trim_right (set : list string) (s : string) : string :=
  rev_string (trim_left (map rev_string set) (rev_string s)).

Definition TrimSpace (s : string) : string := trim_right space_runes (trim_left space_runes s).
Definition is_blank (s : string) : bool := bool_decide (TrimSpace s = "").

Fixpoint ContainsByte (s : string) (c : ascii) : bool :=
  match s with
  | "" => false
  | String d s' => Ascii.eqb c d || ContainsByte s' c
  end.

Fixpoint ReplaceByte (s : string) (old new : ascii) : string :=
  match s with
  | "" => ""
  | String d s' => String (if Ascii.eqb d old then new else d) (ReplaceByte s' old new)
  end.

Definition lower_ascii (c : ascii) : ascii :=
  let n := byte_of c in if (65 <=? n) && (n <=? 90) then of_byte (n + 32) else c.
Fixpoint ToLower (s : string) : string :=
  match s with
  | "" => ""
  | String c s' => String (lower_ascii c) (ToLower s')
  end.

(** [strings.EqualFold], used in the sources on hexadecimal addresses only. *)
Definition EqualFold (a b : string) : bool := String.eqb (ToLower a) (ToLower b).

(** [strings.Cut(s, sep)] for a one-byte separator. *)
Fixpoint CutByte (s : string) (sep : ascii) : option (string * string) :=
  match s with
  | "" => None
  | String c s' =>
      if Ascii.eqb c sep then Some ("", s')
      else match CutByte s' sep with
           | Some (before, after) => Some (String c before, after)
           | None => None
           end
  end.

(** [strings.Split(s, sep)] for a one-byte separator. *)
Fixpoint SplitByte (s : string) (sep : ascii) : list string :=
  match s with
  | "" => [""]
  | String c s' =>
      if Ascii.eqb c sep then "" :: SplitByte s' sep
      else match SplitByte s' sep with
           | [] => [String c ""]
           | part :: rest => String c part :: rest
           end
  end.

Fixpoint Join (parts : list string) (sep : string) : string :=
  match parts with
  | [] => ""
  | [p] => p
  | p :: rest => p +:+ sep +:+ Join rest sep
  end.

(** Go compares strings byte by byte. *)
Fixpoint string_cmp (a b : string) : comparison :=
  match a, b with
  | "", "" => Eq
  | "", _ => Lt
  | _, "" => Gt
  | String x a', String y b' =>
      match (byte_of x ?= byte_of y)%Z with
      | Eq => string_cmp a' b'
      | c => c
      end
  end.
Definition string_ltb (a b : string) : bool :=
  match string_cmp a b with Lt => true | _ => false end.
Definition string_leb (a b : string) : bool := negb (string_ltb b a).

Fixpoint insert_string (x : string) (l : list string) : list string :=
  match l with
  | [] => [x]
  | y :: l' => if string_leb x y then x :: l else y :: insert_string x l'
  end.
(** [sort.Strings] (and [slices.Sort] at [string]): equal strings are
    indistinguishable, so any sorting algorithm gives this list. *)
Fixpoint sort_strings (l : list string) : list string :=
  match l with
  | [] => []
  | x :: l' => insert_string x (sort_strings l')
  end.

Definition contains (values : list string) (wanted : string) : bool :=
  existsb (String.eqb wanted) values.

(** ** Decimal integers *)
Definition digit_of (c : ascii) : option Z :=
  let n := byte_of c in
  if (48 <=? n) && (n <=? 57) then Some (n - 48) else None.
Definition digit_char (d : Z) : ascii := of_byte (48 + d).

Fixpoint parse_digits (acc : Z) (s : string) : option Z :=
  match s with
  | "" => Some acc
  | String c s' => match digit_of c with
                   | Some d => parse_digits (acc * 10 + d) s'
                   | None => None
                   end
  end.

Definition decimalDigits (s : string) : bool :=
  bool_decide (is_Some (parse_digits 0 s)).

(** At least one digit, nothing else. *)
Definition parse_nat (s : string) : option Z :=
  match s with "" => None | _ => parse_digits 0 s end.

(** [new(big.Int).SetString(s, 10)]: an optional sign and one or more digits. *)
Definition SetString10 (s : string) : option Z :=
  match s with
  | String "+" s' => parse_nat s'
  | String "-" s' => Z.opp <$> parse_nat s'
  | _ => parse_nat s
  end.

(** [strconv.ParseUint(s, 10, 64)] *)
Definition ParseUint (s : string) : option Z :=
  match parse_nat s with
  | Some n => if n <? u64_mod then Some n else None
  | None => None
  end.

(** The decimal digits of a non-negative integer, most significant first. *)
Fixpoint digits_fuel (fuel : nat) (n : Z) : string :=
  match fuel with
  | O => ""
  | S f =>
      if n <? 10 then String (digit_char n) ""
      else digits_fuel f (n / 10) +:+ String (digit_char (n mod 10)) ""
  end.
Definition format_nat (n : Z) : string := digits_fuel (S (Z.to_nat (Z.log2 n))) n.

(** [big.Int.String] *)
Definition BigString (n : Z) : string :=
  if n <? 0 then String "-" (format_nat (- n)) else format_nat n.

(** [strconv.FormatUint(value, 10)] *)
Definition FormatUint (n : Z) : string := format_nat n.

(** [big.Int.IsUint64], [big.Int.BitLen] *)
Definition IsUint64 (z : Z) : bool := is_u64 z.
Definition BitLen (z : Z) : Z := if z =? 0 then 0 else Z.log2 (Z.abs z) + 1.

(** ** Lemmas on strings *)
Lemma app_string_cons c s t : String c s +:+ t = String c (s +:+ t).
Proof. done. Qed.

Lemma app_string_nil_l s : "" +:+ s = s.
Proof. done. Qed.

Lemma app_string_nil_r s : s +:+ "" = s.
Proof. induction s; [done|]. rewrite app_string_cons. by f_equal. Qed.

Lemma app_string_assoc a b c : (a +:+ b) +:+ c = a +:+ (b +:+ c).
Proof. induction a; [done|]. rewrite !app_string_cons. by f_equal. Qed.

Lemma byte_of_inj a b : byte_of a = byte_of b -> a = b.
Proof.
  unfold byte_of. intros H. apply N2Z.inj in H.
  rewrite <- (ascii_N_embedding a), <- (ascii_N_embedding b). by f_equal.
Qed.

Lemma byte_of_range c : 0 <= byte_of c < 256.
Proof. unfold byte_of. pose proof (N_ascii_bounded c). lia. Qed.

Lemma byte_of_of_byte z : 0 <= z < 256 -> byte_of (of_byte z) = z.
Proof.
  intros H. unfold byte_of, of_byte. rewrite N_ascii_embedding by lia. lia.
Qed.

Lemma string_cmp_eq a b : string_cmp a b = Eq <-> a = b.
Proof.
  revert b. induction a as [|x a IH]; intros [|y b]; simpl; try done.
  destruct (Z.compare_spec (byte_of x) (byte_of y)) as [E|E|E].
  - apply byte_of_inj in E as ->. rewrite IH. split; congruence.
  - split; [done|]. intros [= -> ->]. lia.
  - split; [done|]. intros [= -> ->]. lia.
Qed.

Lemma string_cmp_antisym a b : string_cmp b a = CompOpp (string_cmp a b).
Proof.
  revert b. induction a as [|x a IH]; intros [|y b]; simpl; try done.
  rewrite (Z.compare_antisym (byte_of x) (byte_of y)).
  destruct (byte_of x ?= byte_of y)%Z; simpl; auto.
Qed.

Lemma string_cmp_lt_trans a b c :
  string_cmp a b = Lt -> string_cmp b c = Lt -> string_cmp a c = Lt.
Proof.
  revert b c. induction a as [|x a IH]; intros [|y b] [|z c]; simpl; try done.
  destruct (Z.compare_spec (byte_of x) (byte_of y)) as [E|E|E];
    destruct (Z.compare_spec (byte_of y) (byte_of z)) as [F|F|F];
    destruct (Z.compare_spec (byte_of x) (byte_of z)) as [G|G|G];
    intros; try done; try lia; eauto.
Qed.

Lemma string_ltb_irrefl a : string_ltb a a = false.
Proof. unfold string_ltb. rewrite (proj2 (string_cmp_eq a a) eq_refl). done. Qed.

Lemma string_ltb_trans a b c :
  string_ltb a b = true -> string_ltb b c = true -> string_ltb a c = true.
Proof.
  unfold string_ltb. destruct (string_cmp a b) eqn:E; try done.
  destruct (string_cmp b c) eqn:F; try done. by rewrite (string_cmp_lt_trans _ _ _ E F).
Qed.

Lemma string_ltb_total a b :
  string_ltb a b = false -> string_ltb b a = false -> a = b.
Proof.
  unfold string_ltb. rewrite (string_cmp_antisym a b).
  destruct (string_cmp a b) eqn:E; simpl; try done.
  intros _ _. by apply string_cmp_eq.
Qed.

Lemma contains_spec values wanted : contains values wanted = true <-> wanted ∈ values.
Proof.
  unfold contains. rewrite existsb_exists, list_elem_of_In. split.
  - intros (x & Hx & E). apply String.eqb_eq in E. by subst.
  - intros H. exists wanted. split; [done|]. apply String.eqb_refl.
Qed.

Lemma HasPrefix_app p s : HasPrefix (p +:+ s) p = true.
Proof.
  induction p as [|c p IH]; [by destruct s|]. rewrite app_string_cons. simpl.
  by rewrite Ascii.eqb_refl, IH.
Qed.

Lemma SplitByte_no_sep s sep :
  SplitByte s sep <> [] /\ Forall (fun part => ContainsByte part sep = false) (SplitByte s sep).
Proof.
  induction s as [|c s [IHn IH]]; simpl; [by repeat constructor|].
  destruct (Ascii.eqb_spec c sep) as [->|Hc]; [split; [done|by constructor]|].
  destruct (SplitByte s sep) as [|part rest]; [done|]. split; [done|].
  apply Forall_cons in IH as [Hp Hr]. constructor; [|done]. simpl. rewrite Hp.
  by destruct (Ascii.eqb_spec sep c); subst.
Qed.

Lemma SplitByte_app part rest sep :
  ContainsByte part sep = false -> SplitByte (part +:+ String sep rest) sep = part :: SplitByte rest sep.
Proof.
  induction part as [|c part IH]; intros H; simpl in H.
  - change ("" +:+ String sep rest) with (String sep rest). simpl. by rewrite Ascii.eqb_refl.
  - apply orb_false_iff in H as [Hc Hp]. rewrite app_string_cons. simpl. rewrite IH by done.
    rewrite Ascii.eqb_sym in Hc. by rewrite Hc.
Qed.

Lemma CutByte_app a b c : ContainsByte a c = false -> CutByte (a +:+ String c b) c = Some (a, b).
Proof.
  induction a as [|x a IH]; intros H; cbn [ContainsByte] in H.
  - change ("" +:+ String c b) with (String c b). cbn. by rewrite Ascii.eqb_refl.
  - apply orb_false_iff in H as [Hx Ha]. rewrite app_string_cons. cbn. rewrite Ascii.eqb_sym in Hx.
    by rewrite Hx, IH.
Qed.

Lemma SplitByte_single part sep : ContainsByte part sep = false -> SplitByte part sep = [part].
Proof.
  induction part as [|c part IH]; simpl; [done|]. intros H.
  apply orb_false_iff in H as [Hc Hp]. rewrite Ascii.eqb_sym in Hc. by rewrite Hc, IH.
Qed.

(** Splitting what was joined gives the parts back. *)
Lemma SplitByte_Join parts sep :
  parts <> [] -> Forall (fun part => ContainsByte part sep = false) parts ->
  SplitByte (Join parts (String sep "")) sep = parts.
Proof.
  intros Hne H. induction H as [|part parts Hp H IH]; [done|].
  destruct parts as [|next parts]; [by apply SplitByte_single|].
  change (Join (part :: next :: parts) (String sep "")) with
    (part +:+ (String sep "" +:+ Join (next :: parts) (String sep ""))).
  rewrite app_string_cons, app_string_nil_l, SplitByte_app by done. by rewrite IH.
Qed.

(** ** Lemmas on decimal integers *)
Lemma digit_of_char d : 0 <= d < 10 -> digit_of (digit_char d) = Some d.
Proof.
  intros H. unfold digit_of, digit_char. rewrite byte_of_of_byte by lia.
  replace (48 <=? 48 + d) with true by lia. replace (48 + d <=? 57) with true by lia.
  simpl. f_equal. lia.
Qed.

Lemma digit_of_Some c d : digit_of c = Some d -> 0 <= d < 10 /\ c = digit_char d.
Proof.
  unfold digit_of, digit_char. intros H. destruct (_ && _) eqn:E; [|done].
  injection H as <-. bools. split; [lia|]. apply byte_of_inj.
  rewrite byte_of_of_byte by lia. lia.
Qed.

Lemma parse_digits_app acc s t :
  parse_digits acc (s +:+ t) =
  match parse_digits acc s with Some n => parse_digits n t | None => None end.
Proof.
  revert acc. induction s as [|c s IH]; intros acc; [done|].
  rewrite app_string_cons. simpl. destruct (digit_of c); [apply IH|done].
Qed.

Lemma parse_digits_nonneg acc s n : 0 <= acc -> parse_digits acc s = Some n -> 0 <= n.
Proof.
  revert acc. induction s as [|c s IH]; intros acc Ha; simpl; [intros [= <-]; done|].
  destruct (digit_of c) eqn:E; [|done]. apply digit_of_Some in E as [? _].
  apply IH. lia.
Qed.

Lemma parse_digits_fuel f n :
  0 <= n < 10 ^ Z.of_nat f -> (0 < f)%nat -> parse_digits 0 (digits_fuel f n) = Some n.
Proof.
  revert n. induction f as [|f IH]; intros n Hn Hf; [lia|]. simpl.
  destruct (n <? 10) eqn:E; bools.
  - simpl. rewrite digit_of_char by lia. done.
  - assert (10 ^ Z.of_nat (S f) = 10 * 10 ^ Z.of_nat f) as Hp.
    { rewrite Nat2Z.inj_succ, Z.pow_succ_r by lia. done. }
    rewrite parse_digits_app, IH.
    + simpl. rewrite digit_of_char by (apply Z.mod_pos_bound; lia).
      f_equal. pose proof (Z.div_mod n 10 ltac:(lia)). lia.
    + split; [apply Z.div_pos; lia|]. apply Z.div_lt_upper_bound; lia.
    + destruct f; [simpl in Hn; lia|lia].
Qed.

Lemma digits_bound n : 0 <= n -> n < 10 ^ Z.of_nat (S (Z.to_nat (Z.log2 n))).
Proof.
  intros H. rewrite Nat2Z.inj_succ, Z2Nat.id by apply Z.log2_nonneg.
  destruct (decide (n = 0)) as [->|Hn]; [done|].
  pose proof (Z.log2_spec n ltac:(lia)) as [_ Hu]. eapply Z.lt_le_trans; [exact Hu|].
  apply Z.pow_le_mono_l. lia.
Qed.

Lemma digits_fuel_nonempty f n : (0 < f)%nat -> digits_fuel f n <> "".
Proof.
  destruct f; [lia|]. intros _. simpl. destruct (n <? 10); [done|].
  destruct (digits_fuel f (n / 10)); done.
Qed.

Lemma parse_nat_format n : 0 <= n -> parse_nat (format_nat n) = Some n.
Proof.
  intros Hn. pose proof (parse_digits_fuel (S (Z.to_nat (Z.log2 n))) n) as H.
  unfold parse_nat, format_nat in *.
  destruct (digits_fuel _ n) eqn:E.
  - exfalso. eapply digits_fuel_nonempty; [|exact E]. lia.
  - apply H; [split; [done|by apply digits_bound]|lia].
Qed.

Lemma format_nat_head n : exists d r, format_nat n = String (digit_char d) r.
Proof.
  unfold format_nat. generalize (Z.to_nat (Z.log2 n)) as f. intros f.
  revert n. induction f as [|f IH]; intros n.
  - simpl. destruct (n <? 10); simpl; eauto.
  - change (digits_fuel (S (S f)) n) with
      (if n <? 10 then String (digit_char n) ""
       else digits_fuel (S f) (n / 10) +:+ String (digit_char (n mod 10)) "").
    destruct (n <? 10); [eauto|]. destruct (IH (n / 10)) as (d & r & ->).
    rewrite app_string_cons. eauto.
Qed.

Lemma parse_nat_head c s :
  is_Some (parse_nat (String c s)) -> SetString10 (String c s) = parse_nat (String c s).
Proof.
  intros [n Hn]. unfold parse_nat in Hn. simpl in Hn.
  destruct (digit_of c) eqn:E; [|done]. apply digit_of_Some in E as [? ->].
  destruct (decide (z = 0 \/ z = 1 \/ z = 2 \/ z = 3 \/ z = 4 \/ z = 5 \/ z = 6 \/ z = 7 \/ z = 8 \/ z = 9))
    as [Hz|Hz]; [|lia].
  destruct_or!; subst; reflexivity.
Qed.

(** [big.Int.SetString] reads back what [big.Int.String] writes. *)
Lemma SetString10_BigString n : SetString10 (BigString n) = Some n.
Proof.
  unfold BigString. destruct (n <? 0) eqn:E; bools.
  - simpl. rewrite parse_nat_format by lia. simpl. f_equal. lia.
  - pose proof (parse_nat_format n E) as H.
    destruct (format_nat n) as [|c s] eqn:F; [done|].
    rewrite parse_nat_head; [done|]. by rewrite H.
Qed.

Lemma ParseUint_FormatUint n : is_u64 n = true -> ParseUint (FormatUint n) = Some n.
Proof.
  rewrite is_u64_spec. intros H. unfold ParseUint, FormatUint.
  rewrite parse_nat_format by lia. destruct (n <? u64_mod) eqn:E; [done|bools; lia].
Qed.

(** A digit string without a superfluous leading zero is the printed form of
    its value. *)
Lemma digits_fuel_enough f g n :
  0 <= n < 10 ^ Z.of_nat f -> 0 <= n < 10 ^ Z.of_nat g -> (0 < f)%nat -> (0 < g)%nat ->
  digits_fuel f n = digits_fuel g n.
Proof.
  revert g n. induction f as [|f IH]; intros [|g] n Hf Hg ? ?; try lia. simpl.
  destruct (n <? 10) eqn:E; [done|]. bools.
  rewrite Nat2Z.inj_succ, Z.pow_succ_r in Hf, Hg by lia.
  rewrite (IH g); [done| | | |].
  - split; [apply Z.div_pos; lia|]. apply Z.div_lt_upper_bound; lia.
  - split; [apply Z.div_pos; lia|]. apply Z.div_lt_upper_bound; lia.
  - destruct f; [simpl in Hf; lia|lia].
  - destruct g; [simpl in Hg; lia|lia].
Qed.

Lemma format_nat_step n :
  0 <= n -> format_nat n =
  if n <? 10 then String (digit_char n) ""
  else format_nat (n / 10) +:+ String (digit_char (n mod 10)) "".
Proof.
  intros Hn. destruct (n <? 10) eqn:E.
  - unfold format_nat. simpl. by rewrite E.
  - bools. unfold format_nat at 1.
    pose proof (digits_bound n Hn) as Hb.
    assert (0 < Z.to_nat (Z.log2 n))%nat as Hl.
    { pose proof (Z.log2_le_mono 2 n ltac:(lia)). change (Z.log2 2) with 1 in *. lia. }
    rewrite Nat2Z.inj_succ, Z.pow_succ_r in Hb by lia.
    cbn [digits_fuel]. replace (n <? 10) with false by lia. f_equal.
    unfold format_nat. apply digits_fuel_enough; [| |lia|lia].
    + split; [apply Z.div_pos; lia|]. apply Z.div_lt_upper_bound; lia.
    + split; [apply Z.div_pos; lia|]. apply digits_bound, Z.div_pos; lia.
Qed.

Lemma string_snoc_ind (P : string -> Prop) :
  P "" -> (forall s c, P s -> P (s +:+ String c "")) -> forall s, P s.
Proof.
  intros H0 Hs s.
  assert (forall k t, String.length t = k -> P t) as Hall; [|eauto].
  intros k. induction k as [|k IH]; intros t Hk.
  - by destruct t.
  - assert (exists u c, t = u +:+ String c "" /\ String.length u = k) as (u & c & -> & Hu).
    { clear IH. revert t Hk. induction k as [|k IH]; intros [|x t] Hk; simplify_eq/=.
      - exists "", x. by destruct t.
      - destruct (IH t ltac:(done)) as (u & c & -> & Hu).
        exists (String x u), c. rewrite app_string_cons. simpl. auto. }
    auto.
Qed.

(** No superfluous leading zero. *)
Definition canonical_digits (s : string) : bool :=
  match s with
  | "" => false
  | String c "" => true
  | String c _ => negb (Ascii.eqb c "0")
  end.

Lemma parse_digits_ge acc s n : 0 <= acc -> parse_digits acc s = Some n -> acc <= n.
Proof.
  revert acc. induction s as [|c s IH]; intros acc Ha; simpl; [intros [= <-]; lia|].
  destruct (digit_of c) eqn:E; [|done]. apply digit_of_Some in E as [? _].
  intros Hp. apply IH in Hp; lia.
Qed.

Lemma canonical_digits_pos c s n :
  Ascii.eqb c "0" = false -> parse_nat (String c s) = Some n -> 1 <= n.
Proof.
  intros Hc H. simpl in H. destruct (digit_of c) eqn:E; [|done].
  apply digit_of_Some in E as [Hd ->]. apply parse_digits_ge in H; [|lia].
  destruct (decide (z = 0)) as [->|]; [done|lia].
Qed.

Lemma canonical_digits_snoc s c :
  canonical_digits (s +:+ String c "") = true -> s = "" \/
  (canonical_digits s = true /\ exists x t, s = String x t /\ Ascii.eqb x "0" = false).
Proof.
  destruct s as [|x t]; [auto|]. rewrite app_string_cons. intros H. right.
  assert (Ascii.eqb x "0" = false) as Hx.
  { destruct t; rewrite ?app_string_nil_l, ?app_string_cons in H; simpl in H; by bools. }
  split; [|eauto]. destruct t; [done|]. simpl. by rewrite Hx.
Qed.

Lemma format_nat_canonical s :
  canonical_digits s = true -> forall n, parse_nat s = Some n -> format_nat n = s.
Proof.
  induction s as [|s c IH] using string_snoc_ind; [done|]. intros Hcan n Hn.
  assert (parse_digits 0 (s +:+ String c "") = Some n) as Hp.
  { destruct s; [done|]. rewrite app_string_cons in *. exact Hn. }
  rewrite parse_digits_app in Hp.
  destruct (parse_digits 0 s) as [m|] eqn:Em; [|done]. simpl in Hp.
  destruct (digit_of c) as [d|] eqn:Ed; [|done]. injection Hp as <-.
  apply digit_of_Some in Ed as [Hd ->].
  apply canonical_digits_snoc in Hcan as [->|(Hcan & x & t & -> & Hx)].
  - simpl in Em. injection Em as <-. rewrite format_nat_step by lia.
    replace (0 * 10 + d <? 10) with true by lia. done.
  - assert (1 <= m) as Hm by (eapply canonical_digits_pos; eauto).
    rewrite format_nat_step by lia. replace (m * 10 + d <? 10) with false by lia.
    replace ((m * 10 + d) / 10) with m by (apply (Z.div_unique _ _ _ d); lia).
    replace ((m * 10 + d) mod 10) with d by (apply (Z.mod_unique _ _ m); lia).
    by rewrite (IH Hcan m).
Qed.

Lemma format_nat_is_canonical n : 0 <= n -> canonical_digits (format_nat n) = true.
Proof.
  intros Hn. assert (forall k m, 0 <= m < 10 ^ Z.of_nat k -> canonical_digits (format_nat m) = true
    /\ (10 <= m -> exists x y t, format_nat m = String x (String y t))) as H.
  { intros k. induction k as [|k IH]; intros m Hm.
    - simpl in Hm. assert (m = 0) as -> by lia. split; [done|lia].
    - rewrite format_nat_step by lia. destruct (m <? 10) eqn:E; bools; [split; [done|lia]|].
      rewrite Nat2Z.inj_succ, Z.pow_succ_r in Hm by lia.
      destruct (IH (m / 10)) as [Hc Hl].
      { split; [apply Z.div_pos; lia|]. apply Z.div_lt_upper_bound; lia. }
      destruct (format_nat_head (m / 10)) as (d & r & Hf).
      assert (exists y t, r +:+ String (digit_char (m mod 10)) "" = String y t) as (y & t & Hr).
      { destruct r; rewrite ?app_string_cons; eauto. }
      rewrite Hf, app_string_cons, Hr. split; [|eauto]. simpl.
      destruct (decide (10 <= m / 10)) as [Hge|Hlt].
      + destruct (Hl Hge) as (x & y' & t' & Hx). rewrite Hf in Hx. simplify_eq.
        rewrite Hf in Hc. done.
      + rewrite format_nat_step in Hf by (apply Z.div_pos; lia).
        replace (m / 10 <? 10) with true in Hf by lia. injection Hf as Hd _.
        rewrite <- Hd. assert (1 <= m / 10) by (apply Z.div_le_lower_bound; lia).
        apply negb_true_iff, Ascii.eqb_neq. intros Hz.
        pose proof (digit_of_char (m / 10) ltac:(lia)) as Hdig.
        rewrite Hz in Hdig. change (digit_of "0"%char) with (Some 0) in Hdig. injection Hdig as Hdig. lia. }
  apply (H (S (Z.to_nat (Z.log2 n)))). split; [done|by apply digits_bound].
Qed.

(** ** Strings that are not blank *)
Lemma ContainsByte_app s t c : ContainsByte (s +:+ t) c = ContainsByte s c || ContainsByte t c.
Proof. induction s as [|d s IH]; [done|]. rewrite app_string_cons. simpl. by rewrite IH, orb_assoc. Qed.

Lemma ContainsByte_rev s c : ContainsByte (rev_string s) c = ContainsByte s c.
Proof.
  unfold rev_string.
  assert (forall acc, ContainsByte (rev_string_onto s acc) c = ContainsByte s c || ContainsByte acc c) as Hrev.
  { induction s as [|d s IH]; intros acc; [done|]. simpl. rewrite IH. simpl.
    by destruct (Ascii.eqb c d), (ContainsByte s c). }
  rewrite Hrev. simpl. by rewrite orb_false_r.
Qed.

Lemma HasPrefix_split p : forall s, HasPrefix s p = true -> s = p +:+ drop_bytes (String.length p) s.
Proof.
  induction p as [|a p IH]; intros s Hp; [by destruct s|]. destruct s as [|b s]; [done|].
  simpl in Hp. apply andb_true_iff in Hp as [Hc Hp]. apply Ascii.eqb_eq in Hc as ->.
  rewrite app_string_cons. simpl. f_equal. by apply IH.
Qed.

Lemma trim_left_contains set c s : forallb (fun rune => negb (ContainsByte rune c)) set = true ->
  ContainsByte s c = true -> ContainsByte (trim_left set s) c = true.
Proof.
  intros Hset. unfold trim_left. generalize (String.length s) as fuel. intros fuel. revert s.
  induction fuel as [|fuel IH]; intros s Hs; [done|]. simpl.
  destruct (List.find (HasPrefix s) set) as [rune|] eqn:F; [|done].
  apply List.find_some in F as [Hin Hp]. rewrite forallb_forall in Hset. specialize (Hset rune Hin).
  apply IH. rewrite (HasPrefix_split _ _ Hp), ContainsByte_app in Hs.
  apply orb_true_iff in Hs as [Hs|Hs]; [by rewrite Hs in Hset|done].
Qed.

(** A byte that occurs in no space rune survives trimming. *)
Lemma is_blank_byte c s : forallb (fun rune => negb (ContainsByte rune c)) space_runes = true ->
  ContainsByte s c = true -> is_blank s = false.
Proof.
  intros Hset Hs. unfold is_blank, TrimSpace, trim_right. apply bool_decide_eq_false_2. intros He.
  assert (ContainsByte (rev_string (trim_left (map rev_string space_runes)
    (rev_string (trim_left space_runes s)))) c = true) as Hc; [|by rewrite He in Hc].
  rewrite ContainsByte_rev. apply trim_left_contains; [|rewrite ContainsByte_rev; by apply trim_left_contains].
  rewrite forallb_forall in Hset |- *. intros r Hr. apply in_map_iff in Hr as (r0 & <- & Hr0).
  rewrite ContainsByte_rev. by apply Hset.
Qed.

(** ** Sorting keeps the elements *)
Lemma insert_string_Permutation x l : insert_string x l ≡ₚ x :: l.
Proof.
  induction l as [|y l IH]; cbn [insert_string]; [done|]. destruct (string_leb x y); [done|].
  rewrite IH. apply Permutation_swap.
Qed.
Lemma sort_strings_Permutation l : sort_strings l ≡ₚ l.
Proof. induction l as [|x l IH]; cbn [sort_strings]; [done|]. by rewrite insert_string_Permutation, IH. Qed.
