(* ===== verification/GoTime.v ===== *)
(** * Times

    A [time.Time] in UTC is its number of microseconds since the Unix epoch,
    the precision to which the sources truncate the times they store.
    [RFC3339Nano] is [Time.Format(time.RFC3339Nano)]. *)

From S2P Require Import Prelude GoStrings.
From Stdlib Require Import Ascii.
Open Scope string_scope.
Open Scope list_scope.
Open Scope Z_scope.

Definition Microsecond : Z := 1.
Definition Millisecond : Z := 1000 * Microsecond.
Definition Second : Z := 1000 * Millisecond.
Definition Minute : Z := 60 * Second.
Definition Hour : Z := 60 * Minute.
Definition day_length : Z := 24 * Hour.

(** [Time.Unix] *)
Definition Unix (t : Z) : Z := t / Second.

(** Year, month and day of a day number (proleptic Gregorian calendar). *)
Definition civil (days : Z) : Z * Z * Z :=
  let z := days + 719468 in
  let era := z / 146097 in
  let doe := z mod 146097 in
  let yoe := (doe - doe / 1460 + doe / 36524 - doe / 146096) / 365 in
  let doy := doe - (365 * yoe + yoe / 4 - yoe / 100) in
  let mp := (5 * doy + 2) / 153 in
  let day := doy - (153 * mp + 2) / 5 + 1 in
  let month := if mp <? 10 then mp + 3 else mp - 9 in
  (yoe + era * 400 + (if month <=? 2 then 1 else 0), month, day).

Fixpoint pad_left (n : nat) (s : string) : string :=
  match n with
  | O => s
  | S n' => String "0" (pad_left n' s)
  end.
Definition padded (width : nat) (n : Z) : string :=
  let s := FormatUint n in
  pad_left (width - String.length s) s.

Fixpoint trim_zeros (s : string) : string :=
  match s with
  | "" => ""
  | String c r => match trim_zeros r with
                  | "" => if Ascii.eqb c "0" then "" else String c ""
                  | r' => String c r'
                  end
  end.

Definition RFC3339Nano (t : Z) : string :=
  let '(year, month, day) := civil (t / day_length) in
  let in_day := t mod day_length in
  let fraction := trim_zeros (padded 6 (in_day mod Second)) in
  padded 4 year +:+ "-" +:+ padded 2 month +:+ "-" +:+ padded 2 day +:+ "T"
    +:+ padded 2 (in_day / Hour) +:+ ":" +:+ padded 2 (in_day mod Hour / Minute) +:+ ":"
    +:+ padded 2 (in_day mod Minute / Second)
    +:+ (if bool_decide (fraction = "") then "" else "." +:+ fraction) +:+ "Z".

(** [2006-01-02] *)
Definition DateOnly (t : Z) : string :=
  let '(year, month, day) := civil (t / day_length) in
  padded 4 year +:+ "-" +:+ padded 2 month +:+ "-" +:+ padded 2 day.

Example format_now : RFC3339Nano (1700000000 * Second + 120300) = "2023-11-14T22:13:20.1203Z".
Proof. vm_compute. reflexivity. Qed.
Example format_epoch : RFC3339Nano 0 = "1970-01-01T00:00:00Z".
Proof. vm_compute. reflexivity. Qed.
Example format_leap : DateOnly (951782400 * Second) = "2000-02-29".
Proof. vm_compute. reflexivity. Qed.

(** ** Parsing: [Time.UnmarshalJSON] on the text of a JSON string

    Date, [T], time, an optional fraction, then [Z] or a numeric offset; the
    fraction is kept to the microsecond. *)
Fixpoint read_digits (n : nat) (acc : Z) (s : string) : option (Z * string) :=
  match n, s with
  | O, _ => Some (acc, s)
  | S n', String c r =>
      match digit_of c with
      | Some d => read_digits n' (10 * acc + d) r
      | None => None
      end
  | S _, "" => None
  end.

Definition expect (c : ascii) (s : string) : option string :=
  match s with String c' r => if Ascii.eqb c c' then Some r else None | "" => None end.

(** The fraction after the dot: [weight] is the value of the next digit. *)
Fixpoint read_fraction (weight acc : Z) (s : string) : Z * string :=
  match s with
  | String c r => match digit_of c with
                  | Some d => read_fraction (weight / 10) (acc + d * weight) r
                  | None => (acc, s)
                  end
  | "" => (acc, s)
  end.

Definition leap (year : Z) : bool :=
  (year mod 4 =? 0) && (negb (year mod 100 =? 0) || (year mod 400 =? 0)).
Definition days_in (year month : Z) : Z :=
  if month =? 2 then (if leap year then 29 else 28)
  else if (month =? 4) || (month =? 6) || (month =? 9) || (month =? 11) then 30 else 31.

Definition days_of (year month day : Z) : Z :=
  let y := if month <=? 2 then year - 1 else year in
  let era := y / 400 in
  let yoe := y - era * 400 in
  let mp := if 2 <? month then month - 3 else month + 9 in
  let doy := (153 * mp + 2) / 5 + day - 1 in
  let doe := yoe * 365 + yoe / 4 - yoe / 100 + doy in
  era * 146097 + doe - 719468.

(** The offset in seconds, or [None]. *)
Definition read_zone (s : string) : option Z :=
  match s with
  | "Z" => Some 0
  | String sign r =>
      match read_digits 2 0 r with
      | None => None
      | Some (hours, r) =>
          match expect ":" r with
          | None => None
          | Some r =>
              match read_digits 2 0 r with
              | Some (minutes, "") =>
                  if (24 <=? hours) || (60 <=? minutes) then None
                  else if Ascii.eqb sign "+" then Some (hours * 3600 + minutes * 60)
                  else if Ascii.eqb sign "-" then Some (- (hours * 3600 + minutes * 60))
                  else None
              | _ => None
              end
          end
      end
  | "" => None
  end.

Definition ParseRFC3339 (s : string) : option Z :=
  '(year, s) ← read_digits 4 0 s; s ← expect "-" s;
  '(month, s) ← read_digits 2 0 s; s ← expect "-" s;
  '(day, s) ← read_digits 2 0 s; s ← expect "T" s;
  '(hour, s) ← read_digits 2 0 s; s ← expect ":" s;
  '(minute, s) ← read_digits 2 0 s; s ← expect ":" s;
  '(second, s) ← read_digits 2 0 s;
  if (month <? 1) || (12 <? month) || (day <? 1) || (days_in year month <? day)
     || (23 <? hour) || (59 <? minute) || (59 <? second)
  then None
  else
    '(fraction, s) ← match s with
                     | String c r =>
                         if Ascii.eqb c "." then
                           (if (match r with String d _ => negb (bool_decide (digit_of d = None)) | "" => false end)
                            then Some (read_fraction 100000 0 r) else None)
                         else Some (0, s)
                     | "" => Some (0, s)
                     end;
    offset ← read_zone s;
    Some (days_of year month day * day_length + (hour * 3600 + minute * 60 + second - offset) * Second + fraction).

(** ** Round trip *)
(** The calendar repeats every 146097 days. Within a period the year is found
    from the first days of the 400 years, the month and the day from the day of
    the year; both are checked by computation. *)
Fixpoint all_below (n : nat) (start : Z) (p : Z -> bool) : bool :=
  match n with
  | O => true
  | S n' => p start && all_below n' (start + 1) p
  end.

Lemma all_below_spec n p : forall start x, all_below n start p = true ->
  start <= x < start + Z.of_nat n -> p x = true.
Proof.
  induction n as [|n IH]; intros start x Ha Hx; [lia|]. simpl in Ha. bools.
  destruct (decide (x = start)) as [->|]; [done|]. apply (IH (start + 1)); [done|lia].
Qed.

Definition year_start (y : Z) : Z := 365 * y + y / 4 - y / 100.
Definition year_end (y : Z) : Z := if y =? 399 then 146097 else year_start (y + 1).
Definition doe_count (doe : Z) : Z := doe - doe / 1460 + doe / 36524 - doe / 146096.

Definition year_ok (y : Z) : bool :=
  (doe_count (year_start y) / 365 =? y) && (doe_count (year_end y - 1) / 365 =? y)
  && ((year_end y - year_start y =? 365) || (year_end y - year_start y =? 366) && leap (y + 1)).
Lemma years_ok y : 0 <= y < 400 -> year_ok y = true.
Proof. intros Hy. apply (all_below_spec 400 year_ok 0); [vm_compute; reflexivity|lia]. Qed.

Definition month_of (doy : Z) : Z := let mp := (5 * doy + 2) / 153 in if mp <? 10 then mp + 3 else mp - 9.
Definition day_of (doy : Z) : Z := let mp := (5 * doy + 2) / 153 in doy - (153 * mp + 2) / 5 + 1.
Definition doy_of (month day : Z) : Z :=
  let mp := if 2 <? month then month - 3 else month + 9 in (153 * mp + 2) / 5 + day - 1.
Definition doy_ok (doy : Z) : bool :=
  let m := month_of doy in let d := day_of doy in
  (doy_of m d =? doy) && (1 <=? m) && (m <=? 12) && (1 <=? d)
  && (if m =? 2 then d <=? 28 + (if doy =? 365 then 1 else 0)
      else d <=? (if (m =? 4) || (m =? 6) || (m =? 9) || (m =? 11) then 30 else 31)).
Lemma doys_ok doy : 0 <= doy < 366 -> doy_ok doy = true.
Proof. intros Hd. apply (all_below_spec 366 doy_ok 0); [vm_compute; reflexivity|lia]. Qed.

Lemma doe_count_step doe : 0 <= doe < 146096 -> doe_count doe <= doe_count (doe + 1).
Proof.
  intros H. unfold doe_count. rewrite (Z.div_small doe 146096) by lia.
  assert (doe / 36524 <= (doe + 1) / 36524) by (apply Z.div_le_mono; lia).
  assert ((doe + 1) / 1460 <= doe / 1460 + 1) as H1.
  { replace (doe / 1460 + 1) with ((doe + 1 * 1460) / 1460) by (rewrite Z.div_add by lia; lia).
    apply Z.div_le_mono; lia. }
  destruct (decide (doe = 146095)) as [->|]; [by apply Z.leb_le|].
  rewrite (Z.div_small (doe + 1) 146096) by lia. lia.
Qed.

Lemma doe_count_mono a n : 0 <= a -> a + Z.of_nat n <= 146096 -> doe_count a <= doe_count (a + Z.of_nat n).
Proof.
  induction n as [|n IH]; intros Ha Hn; [by rewrite Z.add_0_r|].
  etrans; [apply IH; lia|]. replace (a + Z.of_nat (S n)) with (a + Z.of_nat n + 1) by lia.
  apply doe_count_step. lia.
Qed.

Lemma year_of doe : 0 <= doe < 146097 ->
  let y := doe_count doe / 365 in 0 <= y < 400 /\ year_start y <= doe < year_end y.
Proof.
  intros Hd. simpl.
  assert (exists y, 0 <= y < 400 /\ year_start y <= doe < year_end y) as (y & Hy & Hr).
  { assert (forall n, (n < 400)%nat -> doe < year_end (Z.of_nat n) ->
      exists y, 0 <= y < 400 /\ year_start y <= doe < year_end y) as Hfind.
    { induction n as [|n IH]; intros Hn He.
      - exists 0. change (year_start 0) with 0. split; [lia|]. split; [lia|done].
      - destruct (decide (doe < year_end (Z.of_nat n))) as [Hlt|Hge]; [apply IH; [lia|done]|].
        exists (Z.of_nat (S n)). split; [lia|]. split; [|done].
        unfold year_end in Hge. replace (Z.of_nat n =? 399) with false in Hge by lia.
        replace (Z.of_nat (S n)) with (Z.of_nat n + 1) by lia. lia. }
    apply (Hfind 399%nat); [lia|]. change (doe < 146097). lia. }
  pose proof (years_ok y Hy) as Hok. unfold year_ok in Hok. bools.
  assert (year_end y <= 146097) as He.
  { unfold year_end. destruct (y =? 399) eqn:E; [lia|]. bools. unfold year_start.
    assert ((y + 1) / 4 < 100) by (apply Z.div_lt_upper_bound; lia).
    assert (0 <= (y + 1) / 100) by (apply Z.div_pos; lia). lia. }
  assert (0 <= year_start y) as Hs.
  { unfold year_start. assert (y / 100 <= y / 4) by (apply Z.div_le_compat_l; lia). lia. }
  assert (doe_count doe / 365 = y) as ->; [|done].
  pose proof (doe_count_mono (year_start y) (Z.to_nat (doe - year_start y)) Hs ltac:(lia)) as M1.
  pose proof (doe_count_mono doe (Z.to_nat (year_end y - 1 - doe)) ltac:(lia) ltac:(lia)) as M2.
  replace (year_start y + Z.of_nat (Z.to_nat (doe - year_start y))) with doe in M1 by lia.
  replace (doe + Z.of_nat (Z.to_nat (year_end y - 1 - doe))) with (year_end y - 1) in M2 by lia.
  apply (Z.div_le_mono _ _ 365) in M1, M2; lia.
Qed.

Lemma leap_400 y era : leap (y + era * 400) = leap y.
Proof.
  unfold leap.
  assert (forall k n, (y + k * n) mod n = y mod n) as E by (intros; apply Z_mod_plus_full).
  replace ((y + era * 400) mod 4) with (y mod 4) by (rewrite <- (E (era * 100) 4); f_equal; lia).
  replace ((y + era * 400) mod 100) with (y mod 100) by (rewrite <- (E (era * 4) 100); f_equal; lia).
  by rewrite E.
Qed.

(** What [civil] computes: a valid date whose day number is the given one. *)
Lemma civil_spec days : let '(year, month, day) := civil days in
  days_of year month day = days /\ 1 <= month <= 12 /\ 1 <= day <= days_in year month.
Proof.
  unfold civil. set (z := days + 719468). set (era := z / 146097). set (doe := z mod 146097).
  pose proof (Z.mod_pos_bound z 146097 ltac:(lia)) as Hdoe. fold doe in Hdoe.
  pose proof (Z.div_mod z 146097 ltac:(lia)) as Hz. fold era doe in Hz.
  destruct (year_of doe Hdoe) as [Hy Hr]. unfold doe_count in Hy, Hr.
  set (yoe := (doe - doe / 1460 + doe / 36524 - doe / 146096) / 365) in *.
  pose proof (years_ok yoe Hy) as Hok. unfold year_ok in Hok. bools.
  change (doe - (365 * yoe + yoe / 4 - yoe / 100)) with (doe - year_start yoe).
  set (doy := doe - year_start yoe) in *.
  assert (0 <= doy < 366) as Hdoy by lia.
  pose proof (doys_ok doy Hdoy) as Hd. unfold doy_ok in Hd. apply andb_true_iff in Hd as [Hd Hdays]. bools.
  fold (day_of doy) (month_of doy). 
  change (if (5 * doy + 2) / 153 <? 10 then (5 * doy + 2) / 153 + 3 else (5 * doy + 2) / 153 - 9) with (month_of doy).
  set (m := month_of doy) in *. set (d := day_of doy) in *.
  split_and!; try lia.
  - unfold days_of.
    replace (if m <=? 2 then yoe + era * 400 + (if m <=? 2 then 1 else 0) - 1
             else yoe + era * 400 + (if m <=? 2 then 1 else 0)) with (yoe + era * 400)
      by (destruct (m <=? 2); lia).
    rewrite Z.div_add by lia. rewrite (Z.div_small yoe 400) by lia.
    replace (yoe + era * 400 - (0 + era) * 400) with yoe by lia.
    fold (doy_of m d). unfold doy_of in *. unfold doy, year_start in *. lia.
  - revert Hdays. unfold days_in. destruct (m =? 2) eqn:Em; [|destruct ((m =? 4) || (m =? 6) || (m =? 9) || (m =? 11)); lia].
    destruct (doy =? 365) eqn:E365; [|destruct (leap (yoe + era * 400 + _)); lia].
    replace (m <=? 2) with true by lia.
    replace (yoe + era * 400 + 1) with (yoe + 1 + era * 400) by lia. rewrite leap_400.
    destruct (leap (yoe + 1)); [lia|]. rewrite andb_false_r, orb_false_r in *. lia.
Qed.

(** A fixed number of digits. *)
Fixpoint fixed (w : nat) (n : Z) : string :=
  match w with
  | O => ""
  | S w' => fixed w' (n / 10) +:+ String (digit_char (n mod 10)) ""
  end.

Fixpoint zeros (n : nat) : string := match n with O => "" | S n' => String "0" (zeros n') end.

Lemma zeros_snoc n : zeros n +:+ String "0" "" = zeros (S n).
Proof. induction n as [|n IH]; [done|]. cbn [zeros]. rewrite app_string_cons, IH. done. Qed.

Lemma fixed_0 w : fixed w 0 = zeros w.
Proof.
  induction w as [|w IH]; [done|]. cbn [fixed]. change (0 / 10) with 0. rewrite IH.
  change (digit_char (0 mod 10)) with "0"%char. apply zeros_snoc.
Qed.

Lemma pad_left_zeros n s : pad_left n s = zeros n +:+ s.
Proof. induction n as [|n IH]; [done|]. cbn [pad_left zeros]. by rewrite app_string_cons, IH. Qed.

Lemma length_snoc s c : String.length (s +:+ String c "") = S (String.length s).
Proof. induction s as [|x s IH]; [done|]. rewrite app_string_cons. cbn [String.length]. by rewrite IH. Qed.

Lemma pad_digits w : forall f n, (0 < w)%nat -> 0 <= n < 10 ^ Z.of_nat w -> n < 10 ^ Z.of_nat f -> (0 < f)%nat ->
  pad_left (w - String.length (digits_fuel f n)) (digits_fuel f n) = fixed w n.
Proof.
  induction w as [|w IH]; intros [|f] n Hw Hn Hf Hpos; try lia. cbn [digits_fuel].
  assert (10 ^ Z.of_nat (S w) = 10 * 10 ^ Z.of_nat w) as Ew by (rewrite Nat2Z.inj_succ, Z.pow_succ_r; lia).
  assert (10 ^ Z.of_nat (S f) = 10 * 10 ^ Z.of_nat f) as Ef by (rewrite Nat2Z.inj_succ, Z.pow_succ_r; lia).
  destruct (n <? 10) eqn:E; bools.
  - cbn [String.length fixed]. rewrite Z.div_small, Z.mod_small by lia. rewrite fixed_0, pad_left_zeros.
    f_equal. f_equal. lia.
  - assert (n / 10 < 10 ^ Z.of_nat w) by (apply Z.div_lt_upper_bound; lia).
    assert (n / 10 < 10 ^ Z.of_nat f) by (apply Z.div_lt_upper_bound; lia).
    assert (1 <= n / 10) by (apply Z.div_le_lower_bound; lia).
    cbn [fixed]. rewrite <- (IH f (n / 10)).
    + rewrite length_snoc, !pad_left_zeros, app_string_assoc. do 2 f_equal.
    + destruct w; [simpl in *; lia|lia].
    + lia.
    + done.
    + destruct f; [simpl in *; lia|lia].
Qed.

Lemma padded_fixed w n : (0 < w)%nat -> 0 <= n < 10 ^ Z.of_nat w -> padded w n = fixed w n.
Proof. intros Hw Hn. apply pad_digits; [done|done|apply digits_bound; lia|lia]. Qed.

Lemma read_digits_snoc n : forall acc s,
  read_digits (S n) acc s = match read_digits n acc s with Some (v, r) => read_digits 1 v r | None => None end.
Proof.
  induction n as [|n IH]; intros acc s; [by destruct s|].
  destruct s as [|c s]; [done|]. cbn [read_digits]. destruct (digit_of c); [|done]. apply (IH _ s).
Qed.

Lemma read_fixed w : forall n acc rest, 0 <= n < 10 ^ Z.of_nat w ->
  read_digits w acc (fixed w n +:+ rest) = Some (acc * 10 ^ Z.of_nat w + n, rest).
Proof.
  induction w as [|w IH]; intros n acc rest Hn.
  - cbn. simpl in Hn. f_equal. f_equal. lia.
  - assert (10 ^ Z.of_nat (S w) = 10 * 10 ^ Z.of_nat w) as Ew by (rewrite Nat2Z.inj_succ, Z.pow_succ_r; lia).
    rewrite read_digits_snoc. cbn [fixed]. rewrite app_string_assoc, app_string_cons, app_string_nil_l.
    rewrite IH by (split; [apply Z.div_pos; lia|apply Z.div_lt_upper_bound; lia]).
    cbn [read_digits]. rewrite digit_of_char by (apply Z.mod_pos_bound; lia).
    pose proof (Z.div_mod n 10 ltac:(lia)). do 2 f_equal. rewrite Ew. lia.
Qed.

Lemma read_padded w n rest : (0 < w)%nat -> 0 <= n < 10 ^ Z.of_nat w ->
  read_digits w 0 (padded w n +:+ rest) = Some (n, rest).
Proof. intros Hw Hn. rewrite padded_fixed, read_fixed by done. by rewrite Z.mul_0_l. Qed.

Fixpoint all_digits (s : string) : bool :=
  match s with "" => true | String c r => negb (bool_decide (digit_of c = None)) && all_digits r end.

Lemma all_digits_app a b : all_digits (a +:+ b) = all_digits a && all_digits b.
Proof.
  induction a as [|c a IH]; [done|]. rewrite app_string_cons. cbn [all_digits]. by rewrite IH, andb_assoc.
Qed.

Lemma all_digits_fixed w n : all_digits (fixed w n) = true.
Proof.
  revert n. induction w as [|w IH]; intros n; [done|]. cbn [fixed]. rewrite all_digits_app, IH.
  cbn [all_digits]. rewrite digit_of_char by (apply Z.mod_pos_bound; lia). done.
Qed.

Lemma all_digits_trim s : all_digits s = true -> all_digits (trim_zeros s) = true.
Proof.
  induction s as [|c s IH]; [done|]. cbn [all_digits trim_zeros]. intros H. apply andb_true_iff in H as [Hc Hs].
  specialize (IH Hs). destruct (trim_zeros s) as [|d r].
  - destruct (Ascii.eqb c "0"); [done|]. cbn [all_digits]. by rewrite Hc.
  - cbn [all_digits] in *. by rewrite Hc, IH.
Qed.

(** Trailing zeros do not change a fraction. *)
Lemma read_fraction_trim s : forall weight acc, all_digits s = true ->
  read_fraction weight acc (trim_zeros s +:+ "Z") = read_fraction weight acc (s +:+ "Z").
Proof.
  induction s as [|c s IH]; intros weight acc Hd; [done|].
  cbn [all_digits] in Hd. apply andb_true_iff in Hd as [Hc Hs]. rewrite (app_string_cons c s).
  cbn [trim_zeros read_fraction]. destruct (digit_of c) as [d|] eqn:Ec; [|done].
  rewrite <- (IH (weight / 10) (acc + d * weight) Hs).
  destruct (trim_zeros s) as [|d' r] eqn:Et.
  - destruct (Ascii.eqb_spec c "0") as [->|].
    + assert (d = 0) as -> by (vm_compute in Ec; congruence). rewrite app_string_nil_l. cbn [read_fraction].
      change (digit_of "Z") with (@None Z). by rewrite Z.mul_0_l, Z.add_0_r.
    + rewrite (app_string_cons c ""), app_string_nil_l. cbn [read_fraction]. by rewrite Ec.
  - rewrite (app_string_cons c (String d' r)). cbn [read_fraction]. by rewrite Ec.
Qed.

Lemma read_fraction_fixed m : 0 <= m < 1000000 ->
  read_fraction 100000 0 (fixed 6 m +:+ "Z") = (m, "Z").
Proof.
  intros Hm. cbn [fixed]. rewrite !app_string_assoc. repeat rewrite app_string_cons. rewrite !app_string_nil_l.
  pose proof (Z.div_mod m 10 ltac:(lia)). pose proof (Z.mod_pos_bound m 10 ltac:(lia)).
  set (q1 := m / 10) in *. pose proof (Z.div_mod q1 10 ltac:(lia)). pose proof (Z.mod_pos_bound q1 10 ltac:(lia)).
  set (q2 := q1 / 10) in *. pose proof (Z.div_mod q2 10 ltac:(lia)). pose proof (Z.mod_pos_bound q2 10 ltac:(lia)).
  set (q3 := q2 / 10) in *. pose proof (Z.div_mod q3 10 ltac:(lia)). pose proof (Z.mod_pos_bound q3 10 ltac:(lia)).
  set (q4 := q3 / 10) in *. pose proof (Z.div_mod q4 10 ltac:(lia)). pose proof (Z.mod_pos_bound q4 10 ltac:(lia)).
  set (q5 := q4 / 10) in *. pose proof (Z.mod_small q5 10 ltac:(lia)) as Hq5.
  cbn [read_fraction].
  do 6 (rewrite digit_of_char by lia; cbn [read_fraction]).
  change (digit_of "Z") with (@None Z). rewrite Hq5.
  change (100000 / 10) with 10000. change (10000 / 10) with 1000. change (1000 / 10) with 100.
  change (100 / 10) with 10. change (10 / 10) with 1. f_equal. lia.
Qed.

(** The text after the seconds. *)
Definition fraction_text (micro : Z) : string :=
  let fraction := trim_zeros (padded 6 micro) in
  (if bool_decide (fraction = "") then "" else "." +:+ fraction) +:+ "Z".

Lemma fraction_text_spec m : 0 <= m < 1000000 ->
  fraction_text m = "Z" /\ m = 0
  \/ exists c r, fraction_text m = String "." (String c r) /\ digit_of c <> None
                 /\ read_fraction 100000 0 (String c r) = (m, "Z").
Proof.
  intros Hm. unfold fraction_text. rewrite padded_fixed by (simpl; lia).
  pose proof (read_fraction_fixed m Hm) as Hr. rewrite <- read_fraction_trim in Hr by apply all_digits_fixed.
  pose proof (all_digits_trim _ (all_digits_fixed 6 m)) as Hd.
  destruct (trim_zeros (fixed 6 m)) as [|c r]; simpl.
  - left. split; [done|]. vm_compute in Hr. congruence.
  - right. exists c, (r +:+ "Z"). split; [done|]. split; [|done].
    cbn [all_digits] in Hd. bools. done.
Qed.

(** Reads one padded number and the separator after it. *)
Ltac read_field :=
  rewrite read_padded by (simpl; lia); cbn [mbind option_bind];
  rewrite app_string_cons, app_string_nil_l; cbn [expect mbind option_bind Ascii.eqb Bool.eqb].

(** Reading back what [RFC3339Nano] wrote, for the years 0 to 9999 that
    [Time.MarshalJSON] accepts. *)
Lemma ParseRFC3339_RFC3339Nano t :
  (let '(year, _, _) := civil (t / day_length) in 0 <= year <= 9999) ->
  ParseRFC3339 (RFC3339Nano t) = Some t.
Proof.
  intros Hy. unfold RFC3339Nano. pose proof (civil_spec (t / day_length)) as Hc.
  destruct (civil (t / day_length)) as [[year month] day]. destruct Hc as (Hd & Hm & Hday).
  assert (day <= 31) as H31.
  { destruct Hday as [_ Hday]. revert Hday. unfold days_in. destruct (month =? 2); [destruct (leap year); lia|].
    destruct (_ || _); lia. }
  pose proof (Z.mod_pos_bound t day_length ltac:(done)) as Hin. set (in_day := t mod day_length) in *.
  pose proof (Z.div_mod t day_length ltac:(done)) as Ht. fold in_day in Ht.
  unfold ParseRFC3339.
  change day_length with 86400000000 in *. change Hour with 3600000000. change Minute with 60000000.
  change Second with 1000000.
  assert (0 <= in_day / 3600000000 < 24) by (split; [apply Z.div_pos; lia|apply Z.div_lt_upper_bound; lia]).
  pose proof (Z.mod_pos_bound in_day 3600000000 ltac:(lia)) as Hh.
  pose proof (Z.mod_pos_bound in_day 60000000 ltac:(lia)) as Hmi.
  pose proof (Z.mod_pos_bound in_day 1000000 ltac:(lia)) as Hs.
  assert (0 <= in_day mod 3600000000 / 60000000 < 60)
    by (split; [apply Z.div_pos; lia|apply Z.div_lt_upper_bound; lia]).
  assert (0 <= in_day mod 60000000 / 1000000 < 60)
    by (split; [apply Z.div_pos; lia|apply Z.div_lt_upper_bound; lia]).
  fold (fraction_text (in_day mod 1000000)).
  do 5 read_field.
  rewrite read_padded by (simpl; lia). cbn [mbind option_bind].
  replace (_ || _) with false by (symmetry; rewrite !orb_false_iff, !Z.ltb_ge; lia).
  assert (forall fraction, fraction = in_day mod 1000000 ->
    days_of year month day * 86400000000 + (in_day / 3600000000 * 3600 + in_day mod 3600000000 / 60000000 * 60
      + in_day mod 60000000 / 1000000 - 0) * 1000000 + fraction = t) as Hsum.
  { intros fraction ->. rewrite Hd. pose proof (Z.div_mod in_day 3600000000 ltac:(lia)).
    pose proof (Z.div_mod (in_day mod 3600000000) 60000000 ltac:(lia)) as E1.
    rewrite (Z.mod_mod_divide in_day 3600000000 60000000) in E1 by (exists 60; lia).
    pose proof (Z.div_mod (in_day mod 60000000) 1000000 ltac:(lia)) as E2.
    rewrite (Z.mod_mod_divide in_day 60000000 1000000) in E2 by (exists 60; lia). lia. }
  destruct (fraction_text_spec (in_day mod 1000000) Hs) as [[-> Hzero]|(c & r & -> & Hc & Hr)].
  - cbn. f_equal. apply Hsum. lia.
  - cbn [Ascii.eqb Bool.eqb]. rewrite bool_decide_eq_false_2 by done. simpl negb. cbv iota.
    rewrite Hr. cbn [mbind option_bind read_zone]. f_equal. by apply Hsum.
Qed.
