(* ===== verification/Price.v ===== *)
(** * Usage pricing (protocol/v1/price.go)

    [Price.Charge] multiplies units by rates in 128 bits, divides with
    rounding up, adds with carry detection and compares with a maximum.  The
    reference is exact integer arithmetic: [charge_spec]. *)

From S2P Require Import Prelude.
Open Scope Z_scope.

Definition tokensPerMillion : Z := 1000000.
Definition millisPerSecond : Z := 1000.

Record Price := mkPrice {
  InputPerMillion : Z;
  OutputPerMillion : Z;
  ComputePerSecond : Z;
}.

(** [Div64] panics when [hi >= denominator]; the panic is the outer [None]. *)
Definition multiplyDivideCeil (units rate denominator : Z) : option (result Z) :=
  if (units =? 0) || (rate =? 0) then Some (Ok 0)
  else
    let '(hi, lo) := Mul64 units rate in
    if denominator <=? hi then Some (Err ErrOverflow)
    else
      match Div64 hi lo denominator with
      | None => None
      | Some (quotient, remainder) =>
          if remainder =? 0 then Some (Ok quotient)
          else
            let '(quotient, carry) := Add64 quotient 1 0 in
            if negb (carry =? 0) then Some (Err ErrOverflow)
            else Some (Ok quotient)
      end.

Definition Charge (p : Price) (inputTokens outputTokens computeMillis maxWei : Z)
  : option (result Z) :=
  match multiplyDivideCeil inputTokens (InputPerMillion p) tokensPerMillion with
  | None => None
  | Some (Err e) => Some (Err e)
  | Some (Ok input) =>
  match multiplyDivideCeil outputTokens (OutputPerMillion p) tokensPerMillion with
  | None => None
  | Some (Err e) => Some (Err e)
  | Some (Ok output) =>
  match multiplyDivideCeil computeMillis (ComputePerSecond p) millisPerSecond with
  | None => None
  | Some (Err e) => Some (Err e)
  | Some (Ok compute) =>
      let '(total, carry) := Add64 input output 0 in
      if negb (carry =? 0) then Some (Err ErrOverflow)
      else
        let '(total, carry) := Add64 total compute 0 in
        if negb (carry =? 0) then Some (Err ErrOverflow)
        else if maxWei <? total then Some (Err ErrMaximumExceeded)
        else Some (Ok total)
  end end end.

(** ** Reference *)

(** The exact charge, in unbounded integers. *)
Definition exact_charge (p : Price) (inputTokens outputTokens computeMillis : Z) : Z :=
  ceil_div (inputTokens * InputPerMillion p) tokensPerMillion
  + ceil_div (outputTokens * OutputPerMillion p) tokensPerMillion
  + ceil_div (computeMillis * ComputePerSecond p) millisPerSecond.

Definition charge_spec (p : Price) (inputTokens outputTokens computeMillis maxWei : Z)
  : result Z :=
  let total := exact_charge p inputTokens outputTokens computeMillis in
  if u64_mod <=? total then Err ErrOverflow
  else if maxWei <? total then Err ErrMaximumExceeded
  else Ok total.

Definition price_u64 (p : Price) : Prop :=
  is_u64 (InputPerMillion p) = true /\ is_u64 (OutputPerMillion p) = true
  /\ is_u64 (ComputePerSecond p) = true.

(** ** Lemmas *)
Lemma add64_spec x y :
  0 <= x < u64_mod -> 0 <= y < u64_mod ->
  Add64 x y 0 = if x + y <? u64_mod then (x + y, 0) else (x + y - u64_mod, 1).
Proof.
  intros Hx Hy. unfold Add64. rewrite Z.add_0_r.
  destruct (x + y <? u64_mod) eqn:E; bools; f_equal.
  - apply Z.mod_small. lia.
  - apply Z.div_small. lia.
  - symmetry. apply (Z.mod_unique _ _ 1); lia.
  - symmetry. apply (Z.div_unique _ _ _ (x + y - u64_mod)); lia.
Qed.

(** The 128-bit routine never panics and computes the rounded-up quotient,
    or reports overflow exactly when that quotient has no 64-bit value. *)
Lemma multiplyDivideCeil_spec units rate denominator :
  0 <= units < u64_mod -> 0 <= rate < u64_mod -> 1 < denominator < u64_mod ->
  multiplyDivideCeil units rate denominator =
  Some (if u64_mod <=? ceil_div (units * rate) denominator then Err ErrOverflow
        else Ok (ceil_div (units * rate) denominator)).
Proof.
  intros Hu Hr Hd. unfold multiplyDivideCeil.
  assert (0 < u64_mod) as Hm by (unfold u64_mod; lia).
  destruct (_ || _) eqn:E0.
  { apply orb_true_iff in E0 as [E0|E0]; bools; subst;
      rewrite ?Z.mul_0_l, ?Z.mul_0_r, ceil_div_0 by lia; by replace (u64_mod <=? 0) with false by lia. }
  bools. unfold Mul64, Div64.
  set (n := units * rate) in *. assert (0 < n) as Hn by (unfold n; nia).
  assert (n / u64_mod * u64_mod + n mod u64_mod = n) as Hsplit.
  { rewrite Z.mul_comm. symmetry. apply Z.div_mod. lia. }
  assert (0 <= n / u64_mod) by (apply Z.div_pos; lia).
  destruct (denominator <=? n / u64_mod) eqn:E1; bools.
  { replace (u64_mod <=? ceil_div n denominator) with true; [done|]. symmetry. apply Z.leb_le.
    unfold ceil_div. apply Z.div_le_lower_bound; [lia|].
    pose proof (Z.mod_pos_bound n u64_mod Hm). nia. }
  replace (denominator <=? n / u64_mod) with false by lia. rewrite Hsplit.
  assert (n / denominator < u64_mod) as Hq.
  { apply Z.div_lt_upper_bound; [lia|]. pose proof (Z.mod_pos_bound n u64_mod Hm). nia. }
  assert (0 <= n / denominator) by (apply Z.div_pos; lia).
  destruct (n mod denominator =? 0) eqn:E2; bools.
  { rewrite ceil_div_exact by lia. replace (u64_mod <=? n / denominator) with false by lia. done. }
  rewrite ceil_div_inexact by lia. rewrite add64_spec by lia.
  destruct (n / denominator + 1 <? u64_mod) eqn:E3; bools.
  - replace (u64_mod <=? n / denominator + 1) with false by lia. done.
  - replace (u64_mod <=? n / denominator + 1) with true by lia. done.
Qed.

(** C33. [Charge] implements the exact charge: for 64-bit inputs it never panics,
    and its result is the exact total, [ErrOverflow] exactly when the total
    exceeds 64 bits, and otherwise [ErrMaximumExceeded] exactly when it exceeds
    the maximum. *)
Theorem Charge_refines p i o c m :
  price_u64 p -> is_u64 i = true -> is_u64 o = true -> is_u64 c = true ->
  Charge p i o c m = Some (charge_spec p i o c m).
Proof.
  intros (Hi' & Ho' & Hc') Hi Ho Hc. rewrite is_u64_spec in *.
  unfold Charge, charge_spec, exact_charge.
  rewrite !multiplyDivideCeil_spec by (unfold tokensPerMillion, millisPerSecond, u64_mod in *; lia).
  set (a := ceil_div (i * _) _). set (b := ceil_div (o * _) _). set (d := ceil_div (c * _) _).
  assert (0 <= a) by (apply ceil_div_nonneg; unfold tokensPerMillion; nia).
  assert (0 <= b) by (apply ceil_div_nonneg; unfold tokensPerMillion; nia).
  assert (0 <= d) by (apply ceil_div_nonneg; unfold millisPerSecond; nia).
  destruct (u64_mod <=? a) eqn:Ea; bools; [by replace (u64_mod <=? a + b + d) with true by lia|].
  destruct (u64_mod <=? b) eqn:Eb; bools; [by replace (u64_mod <=? a + b + d) with true by lia|].
  destruct (u64_mod <=? d) eqn:Ed; bools; [by replace (u64_mod <=? a + b + d) with true by lia|].
  cbv beta iota. rewrite add64_spec by lia. destruct (a + b <? u64_mod) eqn:E1; bools.
  - cbv beta iota. change (negb (0 =? 0)) with false. cbv beta iota.
    rewrite add64_spec by lia. destruct (a + b + d <? u64_mod) eqn:E2; bools;
      cbv beta iota.
    + replace (u64_mod <=? a + b + d) with false by lia. simpl. by destruct (m <? a + b + d).
    + by replace (u64_mod <=? a + b + d) with true by lia.
  - by replace (u64_mod <=? a + b + d) with true by lia.
Qed.

Lemma Charge_refines_witness :
  Charge (mkPrice 3000000 7 1500) 10 1 2500 4000 = Some (Ok 3781).
Proof. rewrite Charge_refines; [reflexivity| |reflexivity..]. repeat split. Defined.

(** A larger usage is never charged less. *)
Lemma exact_charge_mono p i o c i' o' c' :
  price_u64 p -> i <= i' -> o <= o' -> c <= c' ->
  exact_charge p i o c <= exact_charge p i' o' c'.
Proof.
  intros (Hi & Ho & Hc) ? ? ?. rewrite is_u64_spec in *. unfold exact_charge.
  assert (0 < tokensPerMillion) by (unfold tokensPerMillion; lia).
  assert (0 < millisPerSecond) by (unfold millisPerSecond; lia).
  repeat apply Z.add_le_mono; apply ceil_div_mono; try done; nia.
Qed.
