(* ===== verification/Router.v ===== *)
(** * Provider routing (server/internal/router/router.go)

    Rate parsing, worst-case cost and the selection of the provider that
    serves a request.  [sort.Slice] promises a permutation in non-decreasing
    order and nothing about ties: [SliceSort] is that contract, every theorem
    about [Select] holds for any sorter that satisfies it, and
    [insertion_sorter] shows that one exists. *)

From S2P Require Import Prelude GoStrings.
From Stdlib Require Import Ascii Sorting.
Open Scope string_scope.
Open Scope list_scope.
Open Scope Z_scope.

Record Request := mkRequest {
  req_Model : string;
  req_Capabilities : list string;
  req_MaximumSpend : Z;
  req_SessionBalance : Z;
  req_PinMachineID : string;
}.

Record Candidate := mkCandidate {
  cand_MachineID : string;
  cand_OfferID : string;
  cand_Model : string;
  cand_Capabilities : list string;
  cand_ConfirmedBond : bool;
  cand_Healthy : bool;
  cand_Capacity : Z;
  cand_MaximumCost : Z;
  cand_PriceVersion : Z;
  cand_LatencyMilliseconds : Z;
  cand_SuccessBasisPoints : Z;
  cand_Reputation : Z;
  cand_InputPerMillion : string;
  cand_OutputPerMillion : string;
  cand_ComputePerSecond : string;
}.

Definition parseRate (value : string) : option Z :=
  if bool_decide (value = "")
     || ((1 <? go_len value) && HasPrefix value "0") then None
  else if negb (decimalDigits value) then None
  else match SetString10 value with
       | Some rate => if 256 <? BitLen rate then None else Some rate
       | None => None
       end.

Definition ValidRate (value : string) : bool := bool_decide (is_Some (parseRate value)).

(** The loop of [WorstCaseCost] over the three (units, rate, divisor) items. *)
Fixpoint worst_case_items (total : Z) (items : list (Z * string * Z)) : result Z :=
  match items with
  | [] => Ok total
  | (units, rate_text, divisor) :: rest =>
      match parseRate rate_text with
      | None => Err ErrNoEligibleProvider
      | Some rate =>
          let part := units * rate in
          let part := (part + (divisor - 1)) / divisor in
          worst_case_items (total + part) rest
      end
  end.

Definition WorstCaseCost (candidate : Candidate)
    (maximumInputTokens maximumOutputTokens maximumComputeMilliseconds : Z) : result Z :=
  match worst_case_items 0
          [ (maximumInputTokens, cand_InputPerMillion candidate, 1000000);
            (maximumOutputTokens, cand_OutputPerMillion candidate, 1000000);
            (maximumComputeMilliseconds, cand_ComputePerSecond candidate, 1000) ] with
  | Err e => Err e
  | Ok total => if negb (IsUint64 total) then Err ErrNoEligibleProvider else Ok total
  end.

Fixpoint has_pricing_items (values : list string) : bool :=
  match values with
  | [] => false
  | value :: rest =>
      match parseRate value with
      | None => false
      | Some rate => if negb (rate =? 0) then true else has_pricing_items rest
      end
  end.

Definition HasPricing (candidate : Candidate) : bool :=
  has_pricing_items [ cand_InputPerMillion candidate; cand_OutputPerMillion candidate;
                      cand_ComputePerSecond candidate ].

Fixpoint sum_rates_items (total : Z) (values : list string) : result string :=
  match values with
  | [] => Ok (BigString total)
  | value :: rest =>
      match parseRate value with
      | None => Err ErrNoEligibleProvider
      | Some rate => sum_rates_items (total + rate) rest
      end
  end.

Definition SumRates (input output compute : string) : result string :=
  sum_rates_items 0 [input; output; compute].

Definition containsAll (have required : list string) : bool :=
  forallb (fun wanted => existsb (fun capability => String.eqb capability wanted) have) required.

Definition CanRetry (outputStarted : bool) : bool := negb outputStarted.

(** The candidates the loop of [Select] does not skip before the budget test. *)
Definition routable (request : Request) (candidate : Candidate) : bool :=
  if negb (bool_decide (req_PinMachineID request = ""))
     && negb (String.eqb (cand_MachineID candidate) (req_PinMachineID request)) then false
  else
    negb (bool_decide (cand_MachineID candidate = "")
          || bool_decide (cand_OfferID candidate = "")
          || negb (String.eqb (cand_Model candidate) (req_Model request))
          || negb (cand_ConfirmedBond candidate)
          || negb (cand_Healthy candidate)
          || (cand_Capacity candidate =? 0)
          || (cand_MaximumCost candidate =? 0)
          || negb (containsAll (cand_Capabilities candidate) (req_Capabilities request))).

Definition over_budget (request : Request) (candidate : Candidate) : bool :=
  (req_MaximumSpend request <? cand_MaximumCost candidate)
  || (req_SessionBalance request <? cand_MaximumCost candidate).

Fixpoint select_loop (request : Request) (candidates : list Candidate)
    (eligible : list Candidate) (budgetBlocked : bool) : list Candidate * bool :=
  match candidates with
  | [] => (eligible, budgetBlocked)
  | candidate :: rest =>
      if negb (routable request candidate) then select_loop request rest eligible budgetBlocked
      else if over_budget request candidate then select_loop request rest eligible true
      else select_loop request rest (eligible ++ [candidate]) budgetBlocked
  end.

(** The comparison function given to [sort.Slice]. *)
Definition less (left right : Candidate) : bool :=
  if negb (cand_MaximumCost left =? cand_MaximumCost right)
  then cand_MaximumCost left <? cand_MaximumCost right
  else if negb (cand_LatencyMilliseconds left =? cand_LatencyMilliseconds right)
  then cand_LatencyMilliseconds left <? cand_LatencyMilliseconds right
  else if negb (cand_SuccessBasisPoints left =? cand_SuccessBasisPoints right)
  then cand_SuccessBasisPoints right <? cand_SuccessBasisPoints left
  else if negb (cand_Reputation left =? cand_Reputation right)
  then cand_Reputation right <? cand_Reputation left
  else string_ltb (cand_MachineID left) (cand_MachineID right).

Definition Select (sort_slice : list Candidate -> list Candidate)
    (request : Request) (candidates : list Candidate) : result Candidate :=
  if is_blank (req_Model request) || (req_MaximumSpend request =? 0)
  then Err ErrNoEligibleProvider
  else
    let '(eligible, budgetBlocked) := select_loop request candidates [] false in
    match sort_slice eligible with
    | [] => if budgetBlocked then Err ErrInsufficientBudget else Err ErrNoEligibleProvider
    | first :: _ => Ok first
    end.

(** ** What [sort.Slice] promises *)
Class SliceSort (sort_slice : list Candidate -> list Candidate) := {
  slice_permutation l : Permutation (sort_slice l) l;
  slice_sorted l : Sorted (fun a b => less b a = false) (sort_slice l);
}.

Fixpoint insert_candidate (x : Candidate) (l : list Candidate) : list Candidate :=
  match l with
  | [] => [x]
  | y :: l' => if less y x then y :: insert_candidate x l' else x :: l
  end.
Definition insertion_sorter (l : list Candidate) : list Candidate :=
  fold_right insert_candidate [] l.

(** ** Rates *)
Lemma parseRate_iff value rate :
  parseRate value = Some rate <-> value = BigString rate /\ 0 <= rate < 2 ^ 256.
Proof.
  unfold parseRate. split.
  - destruct (_ || _) eqn:E0; [done|]. apply orb_false_iff in E0 as [E0 Ez]. bools.
    destruct (decimalDigits value) eqn:Ed; [|done]. simpl.
    unfold decimalDigits in Ed. bools. destruct Ed as [n Hn].
    assert (parse_nat value = Some n) as Hp by (by destruct value).
    assert (SetString10 value = Some n) as ->.
    { destruct value; [done|]. rewrite parse_nat_head; [done|]. by rewrite Hp. }
    destruct (256 <? BitLen n) eqn:Eb; [done|]. intros [= ->]. bools.
    apply parse_digits_nonneg in Hn as Hn0; [|lia]. split.
    + unfold BigString. replace (rate <? 0) with false by lia.
      symmetry. apply format_nat_canonical; [|done].
      destruct value as [|c [|c' v]]; [done|done|]. cbn [canonical_digits].
      apply andb_false_iff in Ez as [Ez|Ez].
      * apply Z.ltb_ge in Ez. unfold go_len in Ez. simpl in Ez. lia.
      * simpl in Ez. rewrite andb_true_r in Ez. apply negb_true_iff.
        rewrite Ascii.eqb_sym. exact Ez.
    + split; [done|]. unfold BitLen in Eb. destruct (decide (rate = 0)) as [->|]; [done|].
      replace (rate =? 0) with false in Eb by lia. rewrite Z.abs_eq in Eb by lia.
      apply Z.log2_lt_pow2; lia.
  - intros [-> Hr]. unfold BigString. replace (rate <? 0) with false by lia.
    pose proof (parse_nat_format rate ltac:(lia)) as Hp.
    pose proof (format_nat_is_canonical rate ltac:(lia)) as Hc.
    destruct (format_nat rate) as [|c s] eqn:F; [done|].
    assert (bool_decide (String c s = "")
            || ((1 <? go_len (String c s)) && HasPrefix (String c s) "0") = false) as ->.
    { apply orb_false_iff. split; [done|]. destruct s as [|c' s]; [done|]. cbn [canonical_digits] in Hc. bools.
      cbn [HasPrefix]. rewrite Ascii.eqb_sym, Hc. by rewrite andb_false_r. }
    assert (decimalDigits (String c s) = true) as ->.
    { unfold decimalDigits. apply bool_decide_eq_true. exists rate. exact Hp. }
    cbv beta iota delta [negb]. rewrite parse_nat_head by (by rewrite Hp). rewrite Hp.
    destruct (256 <? BitLen rate) eqn:Eb; [|done]. bools. exfalso. unfold BitLen in Eb.
    destruct (decide (rate = 0)) as [->|]; [simpl in Eb; lia|].
    replace (rate =? 0) with false in Eb by lia. rewrite Z.abs_eq in Eb by lia.
    assert (Z.log2 rate < 256) by (apply Z.log2_lt_pow2; lia). lia.
Qed.

Lemma ValidRate_spec value : ValidRate value = true <-> exists r, parseRate value = Some r.
Proof. unfold ValidRate. rewrite bool_decide_eq_true. done. Qed.

(** ** Worst-case cost *)
Definition worst_total (rin rout rcomp units_in units_out units_ms : Z) : Z :=
  ceil_div (units_in * rin) 1000000 + ceil_div (units_out * rout) 1000000
  + ceil_div (units_ms * rcomp) 1000.

Lemma WorstCaseCost_spec candidate i o c w :
  WorstCaseCost candidate i o c = Ok w <->
  exists rin rout rcomp,
    parseRate (cand_InputPerMillion candidate) = Some rin
    /\ parseRate (cand_OutputPerMillion candidate) = Some rout
    /\ parseRate (cand_ComputePerSecond candidate) = Some rcomp
    /\ w = worst_total rin rout rcomp i o c /\ 0 <= w < u64_mod.
Proof.
  unfold WorstCaseCost, worst_total, ceil_div. cbn [worst_case_items]. split.
  - intros H. inv_ok H. bools. unfold IsUint64 in *. rewrite is_u64_spec in *.
    do 3 eexists. repeat split; eauto; lia.
  - intros (rin & rout & rcomp & -> & -> & -> & -> & Hw).
    replace (0 + (i * rin + (1000000 - 1)) / 1000000) with
      ((i * rin + (1000000 - 1)) / 1000000) by lia.
    unfold IsUint64. rewrite (proj2 (is_u64_spec _) Hw). done.
Qed.

(** The worst-case cost of a candidate is the exact sum of the three
    rounded-up products, defined exactly when the three rates are canonical
    256-bit decimals and the sum fits in 64 bits. *)
Theorem WorstCaseCost_exact candidate i o c w :
  WorstCaseCost candidate i o c = Ok w <->
  exists rin rout rcomp,
    parseRate (cand_InputPerMillion candidate) = Some rin
    /\ parseRate (cand_OutputPerMillion candidate) = Some rout
    /\ parseRate (cand_ComputePerSecond candidate) = Some rcomp
    /\ w = worst_total rin rout rcomp i o c /\ 0 <= w < u64_mod.
Proof. apply WorstCaseCost_spec. Qed.

Lemma WorstCaseCost_error candidate i o c e :
  WorstCaseCost candidate i o c = Err e -> e = ErrNoEligibleProvider.
Proof. unfold WorstCaseCost. cbn [worst_case_items]. intros H. inv_ok H; congruence. Qed.

(** ** Selection *)
Lemma select_loop_app request l eligible blocked :
  select_loop request l eligible blocked =
  (eligible ++ List.filter (fun c => routable request c && negb (over_budget request c)) l,
   blocked || existsb (fun c => routable request c && over_budget request c) l).
Proof.
  revert eligible blocked. induction l as [|c l IH]; intros eligible blocked; simpl.
  - by rewrite app_nil_r, orb_false_r.
  - destruct (routable request c); simpl; [|by rewrite IH].
    destruct (over_budget request c); simpl; rewrite IH; [by rewrite orb_true_r|].
    by rewrite <- app_assoc.
Qed.

Lemma less_irrefl a : less a a = false.
Proof. unfold less. rewrite !Z.eqb_refl. simpl. apply string_ltb_irrefl. Qed.

(** One lexicographic level, and the order that [less] negates. *)
Definition lex (x y : Z) (tail : Prop) : Prop := x < y \/ (x = y /\ tail).
Definition not_after (a b : Candidate) : Prop :=
  lex (cand_MaximumCost a) (cand_MaximumCost b)
    (lex (cand_LatencyMilliseconds a) (cand_LatencyMilliseconds b)
       (lex (cand_SuccessBasisPoints b) (cand_SuccessBasisPoints a)
          (lex (cand_Reputation b) (cand_Reputation a)
             (string_ltb (cand_MachineID b) (cand_MachineID a) = false)))).

Lemma lex_step (x y : Z) (t : bool) (P : Prop) :
  (t = false <-> P) -> (if negb (y =? x) then y <? x else t) = false <-> lex x y P.
Proof. unfold lex. intros H. destruct (Z.eqb_spec y x); simpl; rewrite ?Z.ltb_ge; intuition lia. Qed.

Lemma lex_trans x y z (P Q R : Prop) :
  (P -> Q -> R) -> lex x y P -> lex y z Q -> lex x z R.
Proof. unfold lex. intros H [|[? ?]] [|[? ?]]; intuition lia. Qed.

Lemma lex_total x y (P Q : Prop) : (P \/ Q) -> lex x y P \/ lex y x Q.
Proof. unfold lex. intros H. destruct (Z.lt_trichotomy x y) as [|[|]]; intuition. Qed.

Lemma less_not_after a b : less b a = false <-> not_after a b.
Proof.
  unfold less, not_after.
  apply lex_step, lex_step.
  rewrite (Z.eqb_sym (cand_SuccessBasisPoints b)), (Z.eqb_sym (cand_Reputation b)).
  by apply lex_step, lex_step.
Qed.

Lemma less_trans a b c : less b a = false -> less c b = false -> less c a = false.
Proof.
  rewrite !less_not_after. unfold not_after.
  apply lex_trans, lex_trans.
  cut (forall x y z (P Q R : Prop), (P -> Q -> R) -> lex y x P -> lex z y Q -> lex z x R).
  { intros Hrev. apply Hrev, Hrev. intros H1 H2.
    destruct (string_ltb (cand_MachineID c) (cand_MachineID a)) eqn:E; [|done].
    destruct (string_ltb (cand_MachineID a) (cand_MachineID b)) eqn:F.
    - by rewrite (string_ltb_trans _ _ _ E F) in H2.
    - rewrite (string_ltb_total _ _ F H1) in E. congruence. }
  unfold lex. intros x y z P Q R H [|[? ?]] [|[? ?]]; intuition lia.
Qed.

Lemma less_asym a b : less a b = true -> less b a = false.
Proof.
  intros H. apply less_not_after. assert (not_after a b \/ not_after b a) as [?|Hba]; [|done|].
  - unfold not_after. do 4 apply lex_total || idtac.
    destruct (string_ltb (cand_MachineID b) (cand_MachineID a)) eqn:E; [|by left]. right.
    destruct (string_ltb (cand_MachineID a) (cand_MachineID b)) eqn:F; [|done].
    pose proof (string_ltb_trans _ _ _ E F) as G. by rewrite string_ltb_irrefl in G.
  - apply less_not_after in Hba. congruence.
Qed.

Section Selection.
Context (sort_slice : list Candidate -> list Candidate) `{!SliceSort sort_slice}.

Lemma slice_head_minimal l x rest :
  sort_slice l = x :: rest -> x ∈ l /\ forall y, y ∈ l -> less y x = false.
Proof.
  intros H. pose proof (slice_permutation l) as Hp. pose proof (slice_sorted l) as Hs.
  rewrite H in Hp, Hs. split.
  - rewrite <- Hp. left.
  - intros y Hy. rewrite <- Hp in Hy. apply Sorted_StronglySorted in Hs.
    + inversion Hs as [|? ? _ Hall]; subst. rewrite Forall_forall in Hall.
      apply elem_of_cons in Hy as [->|Hy]; [apply less_irrefl|by apply Hall].
    + intros a b c. apply less_trans.
Qed.

Lemma slice_nil l : sort_slice l = [] -> l = [].
Proof. intros H. pose proof (slice_permutation l) as Hp. rewrite H in Hp. by apply Permutation_nil. Qed.

Lemma Select_Ok request candidates winner :
  Select sort_slice request candidates = Ok winner ->
  winner ∈ candidates /\ routable request winner = true /\ over_budget request winner = false
  /\ forall other, other ∈ candidates -> routable request other = true ->
       over_budget request other = false -> less other winner = false.
Proof using SliceSort0.
  unfold Select. rewrite select_loop_app. intros H. inv_ok H.
  apply slice_head_minimal in E0 as [Hin Hmin]. simpl in Hin, Hmin.
  rewrite list_elem_of_In, filter_In in Hin. destruct Hin as [Hin Hw].
  apply andb_true_iff in Hw as [Hw Hbudget]. apply negb_true_iff in Hbudget.
  repeat split; try done; [by apply list_elem_of_In|].
  intros other Ho Hr Hb. apply Hmin. rewrite list_elem_of_In, filter_In.
  split; [by apply list_elem_of_In|]. by rewrite Hr, Hb.
Qed.

Lemma over_budget_false request candidate : over_budget request candidate = false ->
  cand_MaximumCost candidate <= req_MaximumSpend request
  /\ cand_MaximumCost candidate <= req_SessionBalance request.
Proof. unfold over_budget. intros Hb. bools. lia. Qed.

(** C12. [Select] returns a routable candidate within both budgets that no
    other such candidate precedes in the (cost, latency, success, reputation,
    machine) order. *)
Theorem Select_optimal request candidates winner :
  Select sort_slice request candidates = Ok winner ->
  winner ∈ candidates /\ routable request winner = true
  /\ cand_MaximumCost winner <= req_MaximumSpend request
  /\ cand_MaximumCost winner <= req_SessionBalance request
  /\ forall other, other ∈ candidates -> routable request other = true ->
       over_budget request other = false -> less other winner = false.
Proof using SliceSort0.
  intros H. apply Select_Ok in H as (Hin & Hr & Hb & Hmin). apply over_budget_false in Hb as [H1 H2].
  by split_and!.
Qed.

(** [Select] fails exactly when no routable candidate is affordable; the
    error says whether affordability was the only obstacle. *)
Theorem Select_error request candidates e :
  Select sort_slice request candidates = Err e ->
  (forall c, c ∈ candidates -> is_blank (req_Model request) = false ->
     req_MaximumSpend request <> 0 ->
     routable request c = true -> over_budget request c = true)
  /\ (e = ErrInsufficientBudget <->
      is_blank (req_Model request) = false /\ req_MaximumSpend request <> 0
      /\ exists c, c ∈ candidates /\ routable request c = true /\ over_budget request c = true)
  /\ (e = ErrInsufficientBudget \/ e = ErrNoEligibleProvider).
Proof using SliceSort0.
  unfold Select. rewrite select_loop_app.
  destruct (is_blank _ || _) eqn:E0; simpl.
  { intros [= <-]. apply orb_true_iff in E0. split; [|split; [|by right]].
    - intros c _ Hb Hs. destruct E0 as [E0|E0]; bools; congruence.
    - split; [done|]. intros (Hb & Hs & _). destruct E0 as [E0|E0]; bools; congruence. }
  bools. destruct (sort_slice _) as [|x r] eqn:Es; [|done]. apply slice_nil in Es.
  set (blocked := existsb _ _).
  assert (forall c, c ∈ candidates -> routable request c = true -> over_budget request c = true) as Hall.
  { intros c Hc Hr. destruct (over_budget request c) eqn:Eo; [done|]. exfalso.
    assert (In c (List.filter (fun c => routable request c && negb (over_budget request c)) candidates))
      as Hf; [|by rewrite Es in Hf].
    apply filter_In. rewrite Hr, Eo. split; [by apply list_elem_of_In|done]. }
  assert (blocked = true <-> exists c, c ∈ candidates /\ routable request c = true
            /\ over_budget request c = true) as Hbl.
  { unfold blocked. rewrite existsb_exists. setoid_rewrite andb_true_iff.
    setoid_rewrite list_elem_of_In. naive_solver. }
  destruct blocked; intros [= <-]; (split; [by auto|]); (split; [|by auto]);
    (split; [|naive_solver]); [|done]. intros _. split; [done|]. split; [done|]. by apply Hbl.
Qed.
End Selection.

Lemma insertion_perm x l : Permutation (insert_candidate x l) (x :: l).
Proof.
  induction l as [|y l IH]; simpl; [done|]. destruct (less y x); [|done].
  rewrite IH. apply perm_swap.
Qed.

Lemma insertion_sorted x l :
  Sorted (fun a b => less b a = false) l ->
  Sorted (fun a b => less b a = false) (insert_candidate x l).
Proof.
  induction l as [|y l IH]; intros Hs; simpl; [by repeat constructor|].
  apply Sorted_inv in Hs as [Hs Hy]. destruct (less y x) eqn:E.
  - constructor; [by apply IH|]. apply less_asym in E.
    destruct l as [|z l]; simpl; [by constructor|].
    destruct (less z x); constructor; [|done]. by inversion Hy.
  - constructor; [by constructor|]. by constructor.
Qed.

#[export] Instance insertion_SliceSort : SliceSort insertion_sorter.
Proof.
  split; intros l; induction l as [|x l IH]; simpl; auto.
  - by rewrite insertion_perm, IH.
  - by apply insertion_sorted.
Qed.

(** Two candidates, the cheaper one too expensive for the session. *)
Definition sample_candidate (machine : string) (cost latency : Z) : Candidate :=
  mkCandidate machine "offer" "m" ["stream"; "text"] true true 1 cost 1 latency 9000 5 "1" "2" "3".
Definition sample_request (spend balance : Z) : Request :=
  mkRequest "m" ["text"; "stream"] spend balance "".

Lemma Select_optimal_witness :
  let cs := [sample_candidate "b" 7 30; sample_candidate "a" 7 20; sample_candidate "c" 9 1] in
  Select insertion_sorter (sample_request 8 100) cs = Ok (sample_candidate "a" 7 20)
  /\ less (sample_candidate "b" 7 30) (sample_candidate "a" 7 20) = false.
Proof.
  intros cs. split; [vm_compute; reflexivity|].
  apply (Select_optimal insertion_sorter (sample_request 8 100) cs); [vm_compute; reflexivity| |
    vm_compute; reflexivity|vm_compute; reflexivity]. left.
Defined.

Lemma Select_error_witness :
  ErrInsufficientBudget = ErrInsufficientBudget /\
  Select insertion_sorter (sample_request 8 5) [sample_candidate "a" 7 20] = Err ErrInsufficientBudget.
Proof.
  assert (Select insertion_sorter (sample_request 8 5) [sample_candidate "a" 7 20]
          = Err ErrInsufficientBudget) as H by (vm_compute; reflexivity).
  split; [|exact H].
  apply (Select_error insertion_sorter _ _ _ H). split; [reflexivity|]. split; [done|].
  exists (sample_candidate "a" 7 20). split; [left|]. split; reflexivity.
Defined.
