(* ===== verification/Receipt.v ===== *)
(** * Usage receipts and their signatures (protocol/v1/receipt.go, signing.go)

    A hash is a 32-byte array and an address a 20-byte array, both lists of
    bytes.  Keccak, the ABI encoder and the elliptic-curve operations are
    go-ethereum's: they are parameters of the signing functions, and the
    properties that need them state what they rely on in [ECDSA]. *)

From S2P Require Import Prelude.
Open Scope Z_scope.

Abbreviation bytes := (list Z) (only parsing).
Abbreviation Hash := (list Z) (only parsing).
Abbreviation Address := (list Z) (only parsing).

Definition MaximumFeeBasisPoints : Z := 1500.
Definition ReceiptStatusCompleted : Z := 1.

Definition HashIsZero (h : Hash) : bool := bool_decide (h = replicate 32 0).
Definition AddressIsZero (a : Address) : bool := bool_decide (a = replicate 20 0).

Record Receipt := mkReceipt {
  r_RequestID : Hash;
  r_SessionID : Hash;
  r_Customer : Address;
  r_Provider : Address;
  r_SettlementSigner : Address;
  r_OfferID : Hash;
  r_PriceVersion : Z;
  r_ModelHash : Hash;
  r_CapabilityHash : Hash;
  r_InputTokens : Z;
  r_OutputTokens : Z;
  r_ComputeMilliseconds : Z;
  r_MaximumCharge : Z;
  r_TotalCharge : Z;
  r_FeeBasisPoints : Z;
  r_FeeVersion : Z;
  r_Status : Z;
  r_CompletedAt : Z;
  r_InputHash : Hash;
  r_OutputHash : Hash;
  r_Nonce : Z;
}.

#[export] Instance Receipt_eq_dec : EqDecision Receipt.
Proof. solve_decision. Defined.

Definition ReceiptValidate (r : Receipt) : result unit :=
  if HashIsZero (r_RequestID r) || HashIsZero (r_SessionID r) || AddressIsZero (r_Customer r)
     || AddressIsZero (r_Provider r) || AddressIsZero (r_SettlementSigner r)
     || HashIsZero (r_OfferID r) || HashIsZero (r_ModelHash r) || HashIsZero (r_CapabilityHash r)
     || HashIsZero (r_InputHash r) || HashIsZero (r_OutputHash r)
  then Err ErrInvalidReceipt
  else if (r_PriceVersion r =? 0) || (r_FeeVersion r =? 0)
          || negb (r_Status r =? ReceiptStatusCompleted) || (r_CompletedAt r =? 0)
          || (r_Nonce r =? 0) || (MaximumFeeBasisPoints <? r_FeeBasisPoints r)
  then Err ErrInvalidReceipt
  else if r_MaximumCharge r <? r_TotalCharge r then Err ErrMaximumExceeded
  else Ok tt.

(** The values packed by [abi.Arguments.Pack], one constructor per ABI type. *)
Inductive abi_value :=
| AbiBytes32 (b : bytes) | AbiAddress (b : bytes) | AbiUint256 (z : Z)
| AbiUint64 (z : Z) | AbiUint16 (z : Z) | AbiUint8 (z : Z).

(** [common.BytesToAddress], [common.BytesToHash]: keep the last [n] bytes,
    or pad with zeros on the left. *)
Definition SetBytes (n : nat) (b : bytes) : bytes :=
  let b := drop (length b - n) b in replicate (n - length b) 0 ++ b.
Definition BytesToAddress (b : bytes) : Address := SetBytes 20 b.
Definition BytesToHash (b : bytes) : Hash := SetBytes 32 b.

Section Signing.
(** go-ethereum: Keccak-256 of the concatenated arguments, the ABI encoder,
    and the secp256k1 operations; [PrivateKey], [PublicKey] are its key types. *)
Context {PrivateKey PublicKey : Type}.
Context (Keccak256 : list bytes -> Hash) (Pack : list abi_value -> result bytes).
Context (Sign : bytes -> PrivateKey -> result bytes) (SigToPub : bytes -> bytes -> result PublicKey)
  (PublicOf : PrivateKey -> PublicKey) (PubkeyToAddress : PublicKey -> Address).
(** The byte strings hashed by the package variables. *)
Context (receiptTypeText domainTypeText nameText versionText : bytes).

Definition receiptTypeHash : Hash := Keccak256 [receiptTypeText].
Definition domainTypeHash : Hash := Keccak256 [domainTypeText].

Definition domain_values (chainID : Z) (contract : Address) : list abi_value :=
  [ AbiBytes32 domainTypeHash; AbiBytes32 (Keccak256 [nameText]); AbiBytes32 (Keccak256 [versionText]);
    AbiUint256 chainID; AbiAddress (BytesToAddress contract) ].

Definition receipt_values (r : Receipt) : list abi_value :=
  [ AbiBytes32 receiptTypeHash; AbiBytes32 (r_RequestID r); AbiBytes32 (r_SessionID r);
    AbiAddress (BytesToAddress (r_Customer r)); AbiAddress (BytesToAddress (r_Provider r));
    AbiAddress (BytesToAddress (r_SettlementSigner r)); AbiBytes32 (r_OfferID r);
    AbiUint64 (r_PriceVersion r); AbiBytes32 (r_ModelHash r); AbiBytes32 (r_CapabilityHash r);
    AbiUint64 (r_InputTokens r); AbiUint64 (r_OutputTokens r); AbiUint64 (r_ComputeMilliseconds r);
    AbiUint64 (r_MaximumCharge r); AbiUint64 (r_TotalCharge r); AbiUint16 (r_FeeBasisPoints r);
    AbiUint64 (r_FeeVersion r); AbiUint8 (r_Status r); AbiUint64 (r_CompletedAt r);
    AbiBytes32 (r_InputHash r); AbiBytes32 (r_OutputHash r); AbiUint64 (r_Nonce r) ].

Definition ReceiptDigest (receipt : Receipt) (chainID : Z) (contract : Address) : result Hash :=
  if negb (is_ok (ReceiptValidate receipt)) || (chainID =? 0) || AddressIsZero contract
  then Err ErrInvalidReceipt
  else
    domainEncoded ← Pack (domain_values chainID contract);
    let domain := Keccak256 [domainEncoded] in
    encoded ← Pack (receipt_values receipt);
    let structHash := Keccak256 [encoded] in
    Ok (Keccak256 [[25; 1]; domain; structHash]).

(** [signature[64] += 27] and [-= 27] on a byte. *)
Definition add_v (delta : Z) (signature : bytes) : bytes :=
  match signature !! 64%nat with
  | Some v => <[64%nat := (v + delta) mod 256]> signature
  | None => signature
  end.

Definition SignReceipt (receipt : Receipt) (chainID : Z) (contract : Address)
    (key : option PrivateKey) : result bytes :=
  match key with
  | None => Err (ErrNew "receipt signer key is required")
  | Some key =>
      digest ← ReceiptDigest receipt chainID contract;
      signature ← Sign digest key;
      Ok (add_v 27 signature)
  end.

Definition RecoverReceiptSigner (receipt : Receipt) (chainID : Z) (contract : Address)
    (signature : bytes) : result Address :=
  if negb (length signature =? 65)%nat then Err ErrInvalidReceipt
  else
    digest ← ReceiptDigest receipt chainID contract;
    let normalized :=
      match signature !! 64%nat with
      | Some v => if 27 <=? v then add_v (-27) signature else signature
      | None => signature
      end in
    publicKey ← SigToPub digest normalized;
    Ok (PubkeyToAddress publicKey).

(** What go-ethereum documents of [crypto.Sign] and [crypto.SigToPub]: a
    signature has 65 bytes, the last one (V) is 0 or 1, and it recovers to the
    signer's public key. *)
Class ECDSA := {
  sign_length digest key signature :
    Sign digest key = Ok signature -> length signature = 65%nat;
  sign_v digest key signature :
    Sign digest key = Ok signature -> signature !! 64%nat = Some 0 \/ signature !! 64%nat = Some 1;
  sign_recover digest key signature :
    Sign digest key = Ok signature -> SigToPub digest signature = Ok (PublicOf key);
}.

Lemma add_v_v delta (signature : bytes) v :
  signature !! 64%nat = Some v -> add_v delta signature !! 64%nat = Some ((v + delta) mod 256).
Proof.
  intros Hv. unfold add_v. rewrite Hv. apply list_lookup_insert_eq.
  by eapply lookup_lt_Some.
Qed.

Lemma add_v_length delta signature : length (add_v delta signature) = length signature.
Proof. unfold add_v. destruct (signature !! 64%nat); [|done]. by rewrite length_insert. Qed.

Lemma add_v_back (signature : bytes) v :
  signature !! 64%nat = Some v -> v = 0 \/ v = 1 -> add_v (-27) (add_v 27 signature) = signature.
Proof.
  intros Hl Hv. unfold add_v at 1. rewrite (add_v_v _ _ _ Hl).
  unfold add_v. rewrite Hl, list_insert_insert_eq, list_insert_id; [done|].
  rewrite Hl. f_equal. destruct Hv; subst; reflexivity.
Qed.

Lemma recover_signed `{!ECDSA} receipt chainID contract key signature :
  SignReceipt receipt chainID contract (Some key) = Ok signature ->
  RecoverReceiptSigner receipt chainID contract signature = Ok (PubkeyToAddress (PublicOf key)).
Proof.
  unfold SignReceipt, RecoverReceiptSigner. intros Hok.
  destruct (ReceiptDigest receipt chainID contract) as [digest|] eqn:Hd; [|done]. simpl in Hok.
  destruct (Sign digest key) as [sig|] eqn:Hs; [|done]. simpl in Hok. injection Hok as <-.
  assert (exists v, sig !! 64%nat = Some v /\ (v = 0 \/ v = 1)) as (v & Hv & H01).
  { destruct (sign_v _ _ _ Hs); eauto. }
  rewrite add_v_length, (sign_length _ _ _ Hs). simpl negb. cbv iota. simpl.
  rewrite (add_v_v _ _ _ Hv), (add_v_back _ _ Hv H01).
  replace (27 <=? (v + 27) mod 256) with true by (destruct H01; subst; reflexivity).
  rewrite (sign_recover _ _ _ Hs). done.
Qed.

(** The broker recovers from a provider's receipt signature exactly the
    address of the key that signed it: the recovery byte that [SignReceipt]
    shifts by 27 is undone by [RecoverReceiptSigner]. *)
Theorem RecoverReceiptSigner_SignReceipt `{!ECDSA} receipt chainID contract key signature :
  SignReceipt receipt chainID contract (Some key) = Ok signature ->
  RecoverReceiptSigner receipt chainID contract signature = Ok (PubkeyToAddress (PublicOf key)).
Proof. apply recover_signed. Qed.

(** ** What a signature binds *)
Definition value_wf (v : abi_value) : Prop :=
  match v with
  | AbiBytes32 b => length b = 32%nat
  | AbiAddress b => length b = 20%nat
  | AbiUint256 z => 0 <= z < 2 ^ 256
  | AbiUint64 z => 0 <= z < u64_mod
  | AbiUint16 z => 0 <= z < 2 ^ 16
  | AbiUint8 z => 0 <= z < 2 ^ 8
  end.
Definition value_type (v : abi_value) : nat :=
  match v with
  | AbiBytes32 _ => 0 | AbiAddress _ => 1 | AbiUint256 _ => 2
  | AbiUint64 _ => 3 | AbiUint16 _ => 4 | AbiUint8 _ => 5
  end%nat.

(** The ABI encoding of static values of fixed types is injective, and a
    Keccak-256 hash has 32 bytes. *)
Class EIP712 := {
  pack_injective vs ws b :
    Forall value_wf vs -> Forall value_wf ws -> map value_type vs = map value_type ws ->
    Pack vs = Ok b -> Pack ws = Ok b -> vs = ws;
  keccak_length x : length (Keccak256 x) = 32%nat;
}.

Definition keccak_collision : Prop :=
  exists x y, concat x <> concat y /\ Keccak256 x = Keccak256 y.

Definition receipt_wf (r : Receipt) : Prop :=
  Forall value_wf (receipt_values r)
  /\ length (r_Customer r) = 20%nat /\ length (r_Provider r) = 20%nat
  /\ length (r_SettlementSigner r) = 20%nat.

Lemma SetBytes_id n (b : bytes) : length b = n -> SetBytes n b = b.
Proof. intros <-. unfold SetBytes. rewrite Nat.sub_diag, drop_0, Nat.sub_diag. done. Qed.

Lemma receipt_values_inj r1 r2 :
  receipt_wf r1 -> receipt_wf r2 -> receipt_values r1 = receipt_values r2 -> r1 = r2.
Proof.
  intros (_ & C1 & P1 & S1) (_ & C2 & P2 & S2) Heq. unfold receipt_values in Heq.
  unfold BytesToAddress in Heq. rewrite !SetBytes_id in Heq by done.
  destruct r1, r2. simpl in *. simplify_eq. done.
Qed.

Lemma domain_values_wf `{!EIP712} chain contract :
  is_u64 chain = true -> length contract = 20%nat -> Forall value_wf (domain_values chain contract).
Proof.
  intros Hc Hl. apply is_u64_spec in Hc. unfold u64_mod in Hc. unfold domain_values.
  rewrite !Forall_cons, Forall_nil. simpl. unfold BytesToAddress. rewrite SetBytes_id by done.
  repeat split; try apply keccak_length; try done; lia.
Qed.

(** C32. A receipt digest binds every field of the receipt, the chain and the
    contract: two signed statements with the same digest are the same
    statement, unless Keccak-256 has a collision. *)
Theorem ReceiptDigest_binding `{!EIP712} r1 r2 chain1 chain2 contract1 contract2 digest :
  receipt_wf r1 -> receipt_wf r2 -> is_u64 chain1 = true -> is_u64 chain2 = true ->
  length contract1 = 20%nat -> length contract2 = 20%nat ->
  ReceiptDigest r1 chain1 contract1 = Ok digest ->
  ReceiptDigest r2 chain2 contract2 = Ok digest ->
  (r1 = r2 /\ chain1 = chain2 /\ contract1 = contract2) \/ keccak_collision.
Proof.
  intros W1 W2 C1 C2 L1 L2 D1 D2. unfold ReceiptDigest in D1, D2.
  destruct (negb _ || _ || _); [done|]. destruct (negb _ || _ || _); [done|].
  destruct (Pack (domain_values chain1 contract1)) as [d1|] eqn:P1; [|done].
  destruct (Pack (domain_values chain2 contract2)) as [d2|] eqn:P2; [|done]. simpl in D1, D2.
  destruct (Pack (receipt_values r1)) as [e1|] eqn:Q1; [|done].
  destruct (Pack (receipt_values r2)) as [e2|] eqn:Q2; [|done]. simpl in D1, D2.
  rewrite <- D2 in D1. injection D1 as D. clear D2.
  pose proof (keccak_length [d1]) as K1. pose proof (keccak_length [d2]) as K2.
  destruct (decide (concat [[25; 1]; Keccak256 [d1]; Keccak256 [e1]]
                    = concat [[25; 1]; Keccak256 [d2]; Keccak256 [e2]])) as [Hc|Hc].
  2: { right. exists [[25; 1]; Keccak256 [d1]; Keccak256 [e1]],
         [[25; 1]; Keccak256 [d2]; Keccak256 [e2]]. auto. }
  simpl in Hc. injection Hc as Hc. rewrite !app_nil_r in Hc.
  apply app_inj_1 in Hc as [Hd He]; [|lia].
  destruct (decide (d1 = d2)) as [<-|Nd];
    [|right; exists [d1], [d2]; simpl; rewrite !app_nil_r; auto].
  destruct (decide (e1 = e2)) as [<-|Ne];
    [|right; exists [e1], [e2]; simpl; rewrite !app_nil_r; auto].
  left. split.
  - apply receipt_values_inj; [done..|].
    apply (pack_injective _ _ e1); [by destruct W1|by destruct W2|done..].
  - assert (domain_values chain1 contract1 = domain_values chain2 contract2) as Hdom.
    { apply (pack_injective _ _ d1); [by apply domain_values_wf..|done|done|done]. }
    unfold domain_values, BytesToAddress in Hdom. rewrite !SetBytes_id in Hdom by done.
    by simplify_eq.
Qed.
End Signing.

(** ** A concrete instance

    Keys are bytes; a signature is 64 copies of the key's byte followed by the
    recovery byte; hashing keeps a prefix.  It is not cryptography: it shows
    that the documented laws are consistent and lets the theorems be run. *)
Module Toy.
Definition Keccak256 (parts : list bytes) : Hash := SetBytes 32 (take 32 (concat parts)).
Definition Sign (digest : bytes) (key : Z) : result bytes := Ok (replicate 64 key ++ [1]).
Definition SigToPub (digest signature : bytes) : result Z := of_option (signature !! 0%nat) ErrInvalidReceipt.
Definition PubkeyToAddress (public : Z) : Address := replicate 20 public.
Definition flatten_value (v : abi_value) : bytes :=
  match v with
  | AbiBytes32 b | AbiAddress b => b
  | AbiUint256 z | AbiUint64 z | AbiUint16 z | AbiUint8 z => [z]
  end.
Definition Pack (vs : list abi_value) : result bytes := Ok (concat (map flatten_value vs)).

#[export] Instance toy_ECDSA : ECDSA Sign SigToPub id.
Proof.
  split; intros digest key signature [= <-]; [|right|]; reflexivity.
Qed.

Lemma flatten_injective vs ws :
  Forall value_wf vs -> Forall value_wf ws -> map value_type vs = map value_type ws ->
  concat (map flatten_value vs) = concat (map flatten_value ws) -> vs = ws.
Proof.
  intros Hv. revert ws. induction Hv as [|v vs Hv _ IH]; intros ws Hw Ht Hc.
  - by destruct ws.
  - destruct Hw as [|w ws Hw Hws]; [done|]. simpl in Ht, Hc. injection Ht as Ht Hts.
    apply app_inj_1 in Hc as [Hf Hc].
    + f_equal; [|by apply IH]. destruct v, w; simpl in *; congruence.
    + destruct v, w; simpl in *; congruence.
Qed.

#[export] Instance toy_EIP712 : EIP712 Keccak256 Pack.
Proof.
  split.
  - intros vs ws b Hv Hw Ht [= <-] [= E]. by apply flatten_injective.
  - intros x. unfold Keccak256, SetBytes. rewrite length_app, length_replicate, length_drop. lia.
Qed.

Definition receipt (total : Z) : Receipt :=
  mkReceipt (replicate 32 1) (replicate 32 2) (replicate 20 3) (replicate 20 4) (replicate 20 5)
    (replicate 32 6) 1 (replicate 32 7) (replicate 32 8) 10 20 30 100 total 250 1 1 1700000000
    (replicate 32 9) (replicate 32 10) 1.

Abbreviation digest_of r := (ReceiptDigest Keccak256 Pack [1] [2] [3] [4] r 10143 (replicate 20 9)).

Lemma RecoverReceiptSigner_SignReceipt_witness :
  exists signature,
    SignReceipt Keccak256 Pack Sign [1] [2] [3] [4] (receipt 42) 10143 (replicate 20 9) (Some 77)
    = Ok signature
    /\ RecoverReceiptSigner Keccak256 Pack SigToPub PubkeyToAddress [1] [2] [3] [4]
         (receipt 42) 10143 (replicate 20 9) signature = Ok (replicate 20 77).
Proof.
  exists (replicate 64 77 ++ [28]). split; [vm_compute; reflexivity|].
  apply (RecoverReceiptSigner_SignReceipt Keccak256 Pack Sign SigToPub id PubkeyToAddress
           [1] [2] [3] [4] (receipt 42) 10143 (replicate 20 9) 77). vm_compute. reflexivity.
Defined.

Lemma ReceiptDigest_binding_witness :
  exists digest, digest_of (receipt 42) = Ok digest /\
  ((receipt 42 = receipt 42 /\ 10143 = 10143 /\ replicate 20 9 = replicate 20 9)
   \/ keccak_collision Keccak256).
Proof.
  destruct (digest_of (receipt 42)) as [digest|e] eqn:E; [|vm_compute in E; discriminate].
  exists digest. split; [reflexivity|].
  assert (receipt_wf Keccak256 [1] (receipt 42)) as W.
  { split; [|repeat split]. repeat (constructor; [vm_compute; auto; split; congruence|]). constructor. }
  exact (ReceiptDigest_binding Keccak256 Pack [1] [2] [3] [4] (receipt 42) (receipt 42)
           10143 10143 (replicate 20 9) (replicate 20 9) digest
           W W eq_refl eq_refl eq_refl eq_refl E E).
Defined.
End Toy.
