(* ===== verification/Wire.v ===== *)
(** * Wire formats: base64, JSON values and strict struct decoding

    What the sources use of [encoding/base64] and [encoding/json]: the
    standard base64 alphabet with padding, and the decoding of a JSON value
    into a Go struct with [DisallowUnknownFields].  A JSON document is its
    value tree; the concrete syntax (whitespace, string escapes) is left to
    the parser, a parameter of the functions that read bytes. *)

From S2P Require Import Prelude GoStrings.
From Stdlib Require Import Ascii.
Open Scope string_scope.
Open Scope list_scope.
Open Scope Z_scope.

(** ** base64.StdEncoding *)
Definition b64_char (v : Z) : ascii :=
  of_byte (if v <? 26 then 65 + v
           else if v <? 52 then 97 + (v - 26)
           else if v <? 62 then 48 + (v - 52)
           else if v =? 62 then 43 else 47).

Definition b64_value (c : ascii) : option Z :=
  let n := byte_of c in
  if (65 <=? n) && (n <=? 90) then Some (n - 65)
  else if (97 <=? n) && (n <=? 122) then Some (n - 97 + 26)
  else if (48 <=? n) && (n <=? 57) then Some (n - 48 + 52)
  else if n =? 43 then Some 62
  else if n =? 47 then Some 63
  else None.

(** The decoder skips carriage returns and line feeds. *)
Fixpoint strip_newlines (s : string) : string :=
  match s with
  | "" => ""
  | String c r => if (byte_of c =? 10) || (byte_of c =? 13) then strip_newlines r
                  else String c (strip_newlines r)
  end.

Definition is_pad (c : ascii) : bool := byte_of c =? 61.

(** Groups of four characters; only the last one may be padded, and nothing
    follows it.  The bits below the last decoded byte are not checked. *)
Fixpoint b64_groups (s : string) : option (list Z) :=
  match s with
  | "" => Some []
  | String a (String b (String c (String d rest))) =>
      match b64_value a, b64_value b with
      | Some va, Some vb =>
          if is_pad c then
            if is_pad d then
              match rest with "" => Some [va * 4 + vb / 16] | _ => None end
            else None
          else
            match b64_value c with
            | None => None
            | Some vc =>
                if is_pad d then
                  match rest with
                  | "" => Some [va * 4 + vb / 16; (vb mod 16) * 16 + vc / 4]
                  | _ => None
                  end
                else
                  match b64_value d, b64_groups rest with
                  | Some vd, Some tail =>
                      Some (va * 4 + vb / 16 :: (vb mod 16) * 16 + vc / 4
                              :: (vc mod 4) * 64 + vd :: tail)
                  | _, _ => None
                  end
            end
      | _, _ => None
      end
  | _ => None
  end.

Definition b64_decode (s : string) : option (list Z) := b64_groups (strip_newlines s).

Fixpoint b64_encode (bs : list Z) : string :=
  match bs with
  | [] => ""
  | [x] => String (b64_char (x / 4)) (String (b64_char ((x mod 4) * 16)) "==")
  | [x; y] => String (b64_char (x / 4)) (String (b64_char ((x mod 4) * 16 + y / 16))
                (String (b64_char ((y mod 16) * 4)) "="))
  | x :: y :: z :: rest =>
      String (b64_char (x / 4)) (String (b64_char ((x mod 4) * 16 + y / 16))
        (String (b64_char ((y mod 16) * 4 + z / 64)) (String (b64_char (z mod 64)) (b64_encode rest))))
  end.

Definition is_byte (b : Z) : bool := (0 <=? b) && (b <? 256).

(** ** JSON values *)
Set Warnings "-register-all".
Inductive json :=
| JNull
| JBool (b : bool)
| JNum (text : string)
| JStr (s : string)
| JArr (items : list json)
| JObj (members : list (string * json)).

(** A setter stores a JSON value into one field of a struct, or rejects it. *)
Definition setter (T : Type) : Type := json -> T -> option T.

Definition set_with {T A} (decode : json -> option A) (store : A -> T -> T) : setter T :=
  fun v t => match v with
             | JNull => Some t
             | _ => match decode v with Some a => Some (store a t) | None => None end
             end.

Definition as_string (v : json) : option string :=
  match v with JStr s => Some s | _ => None end.
Definition as_bool (v : json) : option bool :=
  match v with JBool b => Some b | _ => None end.
(** An unsigned integer of [width] bits: the number literal must be plain digits. *)
Definition as_uint (width : Z) (v : json) : option Z :=
  match v with
  | JNum t => match ParseUint t with
              | Some n => if n <? 2 ^ width then Some n else None
              | None => None
              end
  | _ => None
  end.
(** [[]byte] is a base64 string. *)
Definition as_bytes (v : json) : option (list Z) :=
  match v with JStr s => b64_decode s | _ => None end.

(** A fixed-size byte array is an array of numbers: missing elements are zero,
    a null leaves its element unchanged, extra elements are ignored. *)
Fixpoint as_array (n : nat) (items : list json) : option (list Z) :=
  match n, items with
  | O, _ => Some []
  | S n', [] => Some (replicate n 0)
  | S n', v :: rest =>
      match (match v with JNull => Some 0 | _ => as_uint 8 v end), as_array n' rest with
      | Some b, Some tail => Some (b :: tail)
      | _, _ => None
      end
  end.
Definition as_byte_array (n : nat) (v : json) : option (list Z) :=
  match v with JArr items => as_array n items | _ => None end.

Definition as_string_element (v : json) : option string :=
  match v with JNull => Some "" | _ => as_string v end.
Definition as_string_slice (v : json) : option (list string) :=
  match v with JArr items => mapM as_string_element items | _ => None end.

(** A key selects the field of that name, or else the field whose name is
    equal under case folding; an unknown key is an error. *)
Definition find_field {T} (fields : list (string * setter T)) (key : string) : option (setter T) :=
  match List.find (fun f => String.eqb (fst f) key) fields with
  | Some f => Some (snd f)
  | None => option_map snd (List.find (fun f => EqualFold (fst f) key) fields)
  end.

Fixpoint decode_members {T} (fields : list (string * setter T)) (members : list (string * json)) (t : T)
  : option T :=
  match members with
  | [] => Some t
  | (key, v) :: rest =>
      match find_field fields key with
      | None => None
      | Some set => match set v t with
                    | Some t' => decode_members fields rest t'
                    | None => None
                    end
      end
  end.

(** Decoding into a struct whose current value is [t]. *)
Definition decode_struct {T} (fields : list (string * setter T)) (v : json) (t : T) : option T :=
  match v with
  | JNull => Some t
  | JObj members => decode_members fields members t
  | _ => None
  end.

(** [json.Marshal] writes each byte of a string that is not part of a valid
    UTF-8 sequence as U+FFFD. *)
Definition in_range (lo hi : Z) (c : ascii) : bool := (lo <=? byte_of c) && (byte_of c <=? hi).
Definition second_of_three (a b : ascii) : bool :=
  (byte_of a =? 224) && in_range 160 191 b || (byte_of a =? 237) && in_range 128 159 b
  || (in_range 225 236 a || in_range 238 239 a) && in_range 128 191 b.
Definition second_of_four (a b : ascii) : bool :=
  (byte_of a =? 240) && in_range 144 191 b || (byte_of a =? 244) && in_range 128 143 b
  || in_range 241 243 a && in_range 128 191 b.
Definition replacement : string := str [239; 191; 189].

Fixpoint coerce_utf8 (s : string) : string :=
  match s with
  | "" => ""
  | String a r =>
      if byte_of a <? 128 then String a (coerce_utf8 r)
      else
        match r with
        | String b r2 =>
            if in_range 194 223 a && in_range 128 191 b then String a (String b (coerce_utf8 r2))
            else
              match r2 with
              | String c r3 =>
                  if second_of_three a b && in_range 128 191 c
                  then String a (String b (String c (coerce_utf8 r3)))
                  else
                    match r3 with
                    | String d r4 =>
                        if second_of_four a b && in_range 128 191 c && in_range 128 191 d
                        then String a (String b (String c (String d (coerce_utf8 r4))))
                        else replacement +:+ coerce_utf8 r
                    | "" => replacement +:+ coerce_utf8 r
                    end
              | "" => replacement +:+ coerce_utf8 r
              end
        | "" => replacement +:+ coerce_utf8 r
        end
  end.
Definition valid_utf8 (s : string) : bool := String.eqb (coerce_utf8 s) s.
Definition jstr (s : string) : json := JStr (coerce_utf8 s).

(** Encoding: a member, or nothing under [omitempty]. *)
Definition member (key : string) (v : json) : list (string * json) := [(key, v)].
Definition omit_if (empty : bool) (key : string) (v : json) : list (string * json) :=
  if empty then [] else [(key, v)].
Definition num (n : Z) : json := JNum (FormatUint n).
Definition of_bytes (b : list Z) : json := JStr (b64_encode b).
Definition of_byte_array (b : list Z) : json := JArr (map num b).

(** ** Lemmas *)
Lemma b64_char_spec v :
  0 <= v < 64 -> b64_value (b64_char v) = Some v
                 /\ is_pad (b64_char v) = false
                 /\ ((byte_of (b64_char v) =? 10) || (byte_of (b64_char v) =? 13)) = false.
Proof.
  intros Hv.
  assert (forallb (fun n => let v := Z.of_nat n in
            bool_decide (b64_value (b64_char v) = Some v) && negb (is_pad (b64_char v))
            && negb ((byte_of (b64_char v) =? 10) || (byte_of (b64_char v) =? 13))) (seq 0 64) = true) as H
    by (vm_compute; reflexivity).
  rewrite forallb_forall in H. specialize (H (Z.to_nat v)).
  rewrite in_seq, Z2Nat.id in H by lia. specialize (H ltac:(lia)). cbv zeta in H.
  apply andb_true_iff in H as [H H2]. apply andb_true_iff in H as [H H1].
  apply negb_true_iff in H1, H2. apply bool_decide_eq_true in H. auto.
Qed.

Lemma byte_split x : 0 <= x < 256 ->
  0 <= x / 4 < 64 /\ 0 <= x mod 4 < 4 /\ 0 <= x / 16 < 16 /\ 0 <= x mod 16 < 16
  /\ 0 <= x / 64 < 4 /\ 0 <= x mod 64 < 64
  /\ x = 4 * (x / 4) + x mod 4 /\ x = 16 * (x / 16) + x mod 16 /\ x = 64 * (x / 64) + x mod 64.
Proof.
  intros H. repeat split; try (apply Z.div_mod; lia); try (apply Z.mod_pos_bound; lia); try (apply Z.div_pos; lia);
    apply Z.div_lt_upper_bound; lia.
Qed.

Ltac b64_step :=
  repeat match goal with
  | |- context [b64_char ?v] =>
      let H1 := fresh in let H2 := fresh in let H3 := fresh in
      destruct (b64_char_spec v) as (H1 & H2 & H3); [lia|];
      let c := fresh "c" in generalize dependent (b64_char v); intros c H1 H2 H3;
      try rewrite H1; try rewrite H2; try rewrite H3
  end.

Lemma strip_newlines_encode bs :
  Forall (fun b => is_byte b = true) bs -> strip_newlines (b64_encode bs) = b64_encode bs.
Proof.
  induction bs as [bs IH] using (well_founded_induction (Wf_nat.well_founded_ltof _ (@length Z))).
  intros Hb. destruct bs as [|x [|y [|z rest]]]; [done|..];
    repeat (apply Forall_cons in Hb as [? Hb]);
    repeat match goal with H : is_byte _ = true |- _ =>
      unfold is_byte in H; bools end;
    repeat match goal with H : 0 <= ?x, G : ?x < 256 |- _ =>
      pose proof (byte_split x (conj H G)); clear H G end; destruct_and?.
  - cbn [b64_encode strip_newlines]. by b64_step.
  - cbn [b64_encode strip_newlines]. by b64_step.
  - cbn [b64_encode strip_newlines].
    rewrite IH; [by b64_step|unfold Wf_nat.ltof; simpl; lia|done].
Qed.

Lemma b64_groups_encode bs :
  Forall (fun b => is_byte b = true) bs -> b64_groups (b64_encode bs) = Some bs.
Proof.
  induction bs as [bs IH] using (well_founded_induction (Wf_nat.well_founded_ltof _ (@length Z))).
  intros Hb. destruct bs as [|x [|y [|z rest]]]; [done|..];
    repeat (apply Forall_cons in Hb as [? Hb]);
    repeat match goal with H : is_byte _ = true |- _ =>
      unfold is_byte in H; bools end;
    repeat match goal with H : 0 <= ?x, G : ?x < 256 |- _ =>
      pose proof (byte_split x (conj H G)); clear H G end; destruct_and?.
  - cbn [b64_encode b64_groups]. b64_step.
    change (is_pad "=") with true. cbv iota. do 2 f_equal.
    replace ((x mod 4 * 16) / 16) with (x mod 4) by (rewrite Z.div_mul; lia). lia.
  - cbn [b64_encode b64_groups]. b64_step.
    change (is_pad "=") with true. cbv iota.
    replace ((x mod 4 * 16 + y / 16) / 16) with (x mod 4)
      by (apply (Z.div_unique _ _ _ (y / 16)); lia).
    replace ((x mod 4 * 16 + y / 16) mod 16) with (y / 16)
      by (apply (Z.mod_unique _ _ (x mod 4)); lia).
    replace ((y mod 16 * 4) / 4) with (y mod 16) by (rewrite Z.div_mul; lia).
    do 2 f_equal; [lia|]. f_equal. lia.
  - cbn [b64_encode b64_groups].
    rewrite IH; [|unfold Wf_nat.ltof; simpl; lia|done]. b64_step.
    replace ((x mod 4 * 16 + y / 16) / 16) with (x mod 4)
      by (apply (Z.div_unique _ _ _ (y / 16)); lia).
    replace ((x mod 4 * 16 + y / 16) mod 16) with (y / 16)
      by (apply (Z.mod_unique _ _ (x mod 4)); lia).
    replace ((y mod 16 * 4 + z / 64) / 4) with (y mod 16)
      by (apply (Z.div_unique _ _ _ (z / 64)); lia).
    replace ((y mod 16 * 4 + z / 64) mod 4) with (z / 64)
      by (apply (Z.mod_unique _ _ (y mod 16)); lia).
    do 2 f_equal; [lia|]. f_equal; [lia|]. f_equal. lia.
Qed.

(** [base64.StdEncoding] decodes what it encodes. *)
Lemma b64_decode_encode bs :
  Forall (fun b => is_byte b = true) bs -> b64_decode (b64_encode bs) = Some bs.
Proof. intros H. unfold b64_decode. rewrite strip_newlines_encode by done. by apply b64_groups_encode. Qed.

Lemma as_uint_num width n :
  0 <= n < 2 ^ width -> n < u64_mod -> as_uint width (num n) = Some n.
Proof.
  intros Hn Hu. simpl. rewrite ParseUint_FormatUint by (apply is_u64_spec; lia).
  replace (n <? 2 ^ width) with true by lia. done.
Qed.

Lemma as_array_num bs :
  Forall (fun b => is_byte b = true) bs -> as_array (length bs) (map num bs) = Some bs.
Proof.
  induction 1 as [|b bs Hb _ IH]; [done|]. simpl length. cbn [map as_array].
  unfold is_byte in Hb. bools. change (match num b with JNull => Some 0 | _ => as_uint 8 (num b) end)
    with (as_uint 8 (num b)).
  rewrite as_uint_num, IH; [done|lia|unfold u64_mod; lia].
Qed.

Lemma as_byte_array_of n bs :
  length bs = n -> Forall (fun b => is_byte b = true) bs ->
  as_byte_array n (of_byte_array bs) = Some bs.
Proof. intros <- H. by apply as_array_num. Qed.

Lemma as_string_jstr s : valid_utf8 s = true -> as_string (jstr s) = Some s.
Proof. unfold valid_utf8. intros H%String.eqb_eq. simpl. by rewrite H. Qed.

Lemma as_string_slice_of l :
  Forall (fun s => valid_utf8 s = true) l -> as_string_slice (JArr (map jstr l)) = Some l.
Proof.
  simpl. induction 1 as [|s l Hs _ IH]; [done|]. simpl.
  apply String.eqb_eq in Hs. by rewrite Hs, IH.
Qed.

Lemma as_bytes_of bs : Forall (fun b => is_byte b = true) bs -> as_bytes (of_bytes bs) = Some bs.
Proof. apply b64_decode_encode. Qed.

(** Storing the members of an object one after the other. *)
Lemma decode_members_app {T} (fields : list (string * setter T)) m1 m2 t :
  decode_members fields (m1 ++ m2) t =
  match decode_members fields m1 t with Some t' => decode_members fields m2 t' | None => None end.
Proof.
  revert t. induction m1 as [|[key v] m1 IH]; intros t; simpl; [done|].
  destruct (find_field fields key); [|done]. destruct (_ v t); [apply IH|done].
Qed.

(** One member of an encoded struct: present, or omitted because the field
    holds its zero value. *)
Lemma decode_member {T A} (fields : list (string * setter T)) (dec : json -> option A) store key v rest a t :
  find_field fields key = Some (set_with dec store) -> v <> JNull -> dec v = Some a ->
  decode_members fields (member key v ++ rest) t = decode_members fields rest (store a t).
Proof. intros Hf Hv Hd. simpl. rewrite Hf. unfold set_with. destruct v; try done; by rewrite Hd. Qed.

Lemma decode_omit {T A} (fields : list (string * setter T)) (dec : json -> option A) store b key v rest a t :
  find_field fields key = Some (set_with dec store) -> v <> JNull -> dec v = Some a ->
  (b = true -> store a t = t) ->
  decode_members fields (omit_if b key v ++ rest) t = decode_members fields rest (store a t).
Proof.
  intros Hf Hv Hd Hz. unfold omit_if. destruct b; [by rewrite Hz|].
  by apply (decode_member fields dec store key v rest a t).
Qed.
