(* ===== verification/Messages.v ===== *)
(** * Relay protocol messages (protocol/v1/messages.go)

    Validation of every message, the envelope that carries them, and the
    tracker that orders output chunks.  [time.Now()] is the argument [now];
    times are integers. *)

From S2P Require Import Prelude GoStrings Wire Receipt.
From Stdlib Require Import Ascii.
Open Scope string_scope.
Open Scope list_scope.
Open Scope Z_scope.

Definition MaximumWorkspaceFiles : Z := 64.
Definition MaximumWorkspaceBytes : Z := Z.shiftl 512 10.
Definition ProtocolVersion : Z := 1.

Definition MessageHello := "hello".
Definition MessageCapacity := "capacity".
Definition MessageJobOffer := "job_offer".
Definition MessageJobAccept := "job_accept".
Definition MessageOutputChunk := "output_chunk".
Definition MessageCancel := "cancel".
Definition MessageReceiptProposal := "receipt_proposal".
Definition MessageReceiptSignature := "receipt_signature".

Definition knownMessageType (messageType : string) : bool :=
  contains [MessageHello; MessageCapacity; MessageJobOffer; MessageJobAccept; MessageOutputChunk;
            MessageCancel; MessageReceiptProposal; MessageReceiptSignature] messageType.

(** ** Message bodies *)
Record Hello := mkHello { h_MachineID : string }.

Definition HelloValidate (m : Hello) : result unit :=
  if is_blank (h_MachineID m) then Err ErrInvalidMessage else Ok tt.

Record OfferCapacity := mkOfferCapacity {
  oc_OfferID : string;
  oc_Model : string;
  oc_PriceVersion : Z;
  oc_BackendKind : string;
  oc_OfferHash : string;
  oc_ModelHash : string;
  oc_CapabilityHash : string;
  oc_Capabilities : list string;
  oc_EvidenceKind : string;
  oc_EvidenceDigest : string;
  oc_MeteringMode : string;
}.

Definition nonempty (s : string) : bool := negb (bool_decide (s = "")).

(** The loop over the three hashes: the number provided, or a malformed one. *)
Fixpoint count_hashes (hashes : list string) (provided : Z) : result Z :=
  match hashes with
  | [] => Ok provided
  | hash :: rest =>
      if nonempty hash then
        if negb (go_len hash =? 66) || negb (HasPrefix hash "0x") then Err ErrInvalidMessage
        else count_hashes rest (provided + 1)
      else count_hashes rest provided
  end.

Fixpoint check_capabilities (capabilities : list string) (previous : string) : result unit :=
  match capabilities with
  | [] => Ok tt
  | capability :: rest =>
      if (negb (String.eqb capability "stream") && negb (String.eqb capability "text")
          && negb (String.eqb capability "workspace"))
         || string_leb capability previous
      then Err ErrInvalidMessage
      else check_capabilities rest capability
  end.

Definition OfferCapacityValidate (o : OfferCapacity) : result unit :=
  _ ← fail_if (is_blank (oc_OfferID o) || is_blank (oc_Model o) || (oc_PriceVersion o =? 0))
        ErrInvalidMessage;
  let hashes := [oc_OfferHash o; oc_ModelHash o; oc_CapabilityHash o] in
  provided ← count_hashes hashes 0;
  _ ← fail_if (negb (provided =? 0)
               && (negb (provided =? Z.of_nat (length hashes)) || is_blank (oc_BackendKind o)))
        ErrInvalidMessage;
  _ ← check_capabilities (oc_Capabilities o) "";
  _ ← fail_if (negb (provided =? 0) && bool_decide (oc_Capabilities o = [])) ErrInvalidMessage;
  if nonempty (oc_EvidenceKind o) || nonempty (oc_EvidenceDigest o) || nonempty (oc_MeteringMode o)
  then
    _ ← fail_if (bool_decide (oc_EvidenceDigest o = "")
                 || negb (contains ["provider_claimed"; "ollama_digest"; "upstream_model"; "runtime_image"]
                            (oc_EvidenceKind o))) ErrInvalidMessage;
    fail_if (negb (String.eqb (oc_MeteringMode o) "tokens_and_compute")
             && negb (String.eqb (oc_MeteringMode o) "compute_only")) ErrInvalidMessage
  else Ok tt.

Record Capacity := mkCapacity { cap_Available : Z; cap_Offers : list OfferCapacity }.

Fixpoint validate_offers (offers : list OfferCapacity) : result unit :=
  match offers with
  | [] => Ok tt
  | offer :: rest => _ ← OfferCapacityValidate offer; validate_offers rest
  end.
Definition CapacityValidate (m : Capacity) : result unit := validate_offers (cap_Offers m).

Record WorkspaceFile := mkWorkspaceFile { wf_Path : string; wf_ContentBase64 : string }.

Record JobOffer := mkJobOffer {
  jo_RequestID : string;
  jo_Model : string;
  jo_OfferID : string;
  jo_Prompt : string;
  jo_PriceVersion : Z;
  jo_MaximumSpend : Z;
  jo_MaximumOutputTokens : Z;
  jo_LeaseExpiresAt : Z;
  jo_Workspace : list WorkspaceFile;
}.

(** [path.Clean] of the Go standard library: empty and ["."] elements vanish,
    [".."] removes the element before it when there is one to remove, and is
    kept at the front of a relative path.  [out] is the output, last first. *)
Fixpoint clean_elements (rooted : bool) (elements out : list string) : list string :=
  match elements with
  | [] => out
  | e :: rest =>
      if String.eqb e "" || String.eqb e "." then clean_elements rooted rest out
      else if String.eqb e ".." then
        match out with
        | prev :: out' =>
            if String.eqb prev ".." then clean_elements rooted rest (".." :: out)
            else clean_elements rooted rest out'
        | [] => if rooted then clean_elements rooted rest [] else clean_elements rooted rest [".."]
        end
      else clean_elements rooted rest (e :: out)
  end.

Definition path_Clean (p : string) : string :=
  let rooted := HasPrefix p "/" in
  let out := rev (clean_elements rooted (SplitByte p "/") []) in
  if rooted then String "/" (Join out "/")
  else match out with [] => "." | _ => Join out "/" end.

(** [windowsAbsolutePath], the regular expression [^[A-Za-z]:[\\/]] *)
Definition is_letter (c : ascii) : bool :=
  let n := byte_of c in ((65 <=? n) && (n <=? 90)) || ((97 <=? n) && (n <=? 122)).
Definition windowsAbsolutePath (name : string) : bool :=
  match name with
  | String drive (String colon (String slash _)) =>
      is_letter drive && Ascii.eqb colon ":" && (Ascii.eqb slash "\" || Ascii.eqb slash "/")
  | _ => false
  end.

(** The checks on one workspace path; the result is the cleaned path. *)
Definition check_path (path : string) : result string :=
  let name := TrimSpace path in
  let clean := path_Clean (ReplaceByte name "\" "/") in
  if bool_decide (name = "") || ContainsByte name "\" || String.eqb clean "." || String.eqb clean ".."
     || HasPrefix clean "../" || HasPrefix clean "/" || windowsAbsolutePath name
     || negb (String.eqb clean name)
  then Err ErrInvalidMessage
  else Ok clean.

Fixpoint workspace_loop (files : list WorkspaceFile) (total : Z) (paths : list string)
  : result (Z * list string) :=
  match files with
  | [] => Ok (total, paths)
  | file :: rest =>
      clean ← check_path (wf_Path file);
      if contains paths clean then Err ErrInvalidMessage
      else
        match b64_decode (wf_ContentBase64 file) with
        | None => Err ErrInvalidMessage
        | Some decoded =>
            if MaximumWorkspaceBytes - total <? Z.of_nat (length decoded) then Err ErrInvalidMessage
            else workspace_loop rest (total + Z.of_nat (length decoded)) (paths ++ [clean])
        end
  end.

(** The final pass over neighbours of the sorted paths. *)
Fixpoint no_adjacent_nesting (sorted : list string) : result unit :=
  match sorted with
  | previous :: ((current :: _) as rest) =>
      if HasPrefix current (previous +:+ "/") then Err ErrInvalidMessage
      else no_adjacent_nesting rest
  | _ => Ok tt
  end.

Definition JobOfferValidate (now : Z) (m : JobOffer) : result unit :=
  if is_blank (jo_RequestID m) || is_blank (jo_Model m) || is_blank (jo_OfferID m)
     || is_blank (jo_Prompt m) || (jo_PriceVersion m =? 0) || (jo_MaximumSpend m =? 0)
     || (jo_MaximumOutputTokens m =? 0) || negb (now <? jo_LeaseExpiresAt m)
  then Err ErrInvalidMessage
  else if MaximumWorkspaceFiles <? Z.of_nat (length (jo_Workspace m)) then Err ErrInvalidMessage
  else
    state ← workspace_loop (jo_Workspace m) 0 [];
    no_adjacent_nesting (sort_strings (snd state)).

Record JobAccept := mkJobAccept { ja_RequestID : string }.

Definition JobAcceptValidate (m : JobAccept) : result unit :=
  if is_blank (ja_RequestID m) then Err ErrInvalidMessage else Ok tt.

Record OutputChunk := mkOutputChunk {
  ch_RequestID : string;
  ch_Sequence : Z;
  ch_Data : string;
  ch_Done : bool;
  ch_InputTokens : Z;
  ch_OutputTokens : Z;
  ch_ComputeMilliseconds : Z;
  ch_ErrorCode : string;
}.

Definition OutputChunkValidate (m : OutputChunk) : result unit :=
  if is_blank (ch_RequestID m) || (ch_Sequence m =? 0)
     || (bool_decide (ch_Data m = "") && negb (ch_Done m))
     || (nonempty (ch_ErrorCode m)
         && (negb (ch_Done m) || nonempty (ch_Data m) || negb (ch_InputTokens m =? 0)
             || negb (ch_OutputTokens m =? 0) || negb (ch_ComputeMilliseconds m =? 0)))
  then Err ErrInvalidMessage
  else if nonempty (ch_ErrorCode m) && negb (String.eqb (ch_ErrorCode m) "backend_failed")
          && negb (String.eqb (ch_ErrorCode m) "cancelled")
  then Err ErrInvalidMessage
  else Ok tt.

Record Cancel := mkCancel { cn_RequestID : string; cn_Reason : string }.

Definition CancelValidate (m : Cancel) : result unit :=
  if is_blank (cn_RequestID m) || is_blank (cn_Reason m) then Err ErrInvalidMessage else Ok tt.

Record ReceiptProposal := mkReceiptProposal {
  rp_RequestID : string;
  rp_ChainID : Z;
  rp_Contract : Address;
  rp_Receipt : Receipt;
}.

Definition ReceiptProposalValidate (m : ReceiptProposal) : result unit :=
  if is_blank (rp_RequestID m) || (rp_ChainID m =? 0) || AddressIsZero (rp_Contract m)
  then Err ErrInvalidMessage
  else ReceiptValidate (rp_Receipt m).

Record ReceiptSignature := mkReceiptSignature {
  rs_RequestID : string;
  rs_Signer : Address;
  rs_Signature : bytes;
}.

Definition ReceiptSignatureValidate (m : ReceiptSignature) : result unit :=
  if is_blank (rs_RequestID m) || AddressIsZero (rs_Signer m)
     || negb (Z.of_nat (length (rs_Signature m)) =? 65)
  then Err ErrInvalidMessage
  else Ok tt.

(** ** Envelopes

    [Validatable] is the Go interface of the same name together with the JSON
    shape of the struct: its encoder, its zero value and its fields. *)
Class Validatable (M : Type) := {
  Validate : M -> result unit;
  Marshal : M -> json;
  zero_value : M;
  json_fields : list (string * setter M);
}.

(** A [json.RawMessage] body: absent, or one JSON value. *)
Record Envelope := mkEnvelope {
  env_Version : Z;
  env_Type : string;
  env_ID : string;
  env_Body : option json;
}.

Definition envelope_fields : list (string * setter Envelope) :=
  [ ("version", set_with (as_uint 16) (fun v e => mkEnvelope v (env_Type e) (env_ID e) (env_Body e)));
    ("type", set_with as_string (fun v e => mkEnvelope (env_Version e) v (env_ID e) (env_Body e)));
    ("id", set_with as_string (fun v e => mkEnvelope (env_Version e) (env_Type e) v (env_Body e)));
    ("body", fun v e => Some (mkEnvelope (env_Version e) (env_Type e) (env_ID e) (Some v))) ].

Definition envelope_json (e : Envelope) : json :=
  JObj [ ("version", num (env_Version e)); ("type", jstr (env_Type e)); ("id", jstr (env_ID e));
         ("body", match env_Body e with Some v => v | None => JNull end) ].

Definition NewEnvelope {M} `{Validatable M} (id messageType : string) (message : M) : result Envelope :=
  if is_blank id || negb (knownMessageType messageType) then Err ErrInvalidMessage
  else
    _ ← Validate message;
    Ok (mkEnvelope ProtocolVersion messageType id (Some (Marshal message))).

(** [parse] reads the bytes of a message as exactly one JSON value. *)
Definition decodeStrict {T} (parse : string -> option json) (fields : list (string * setter T))
    (zero : T) (data : string) : option T :=
  match parse data with
  | Some v => decode_struct fields v zero
  | None => None
  end.

Fixpoint take_bytes (n : nat) (s : string) : string :=
  match n, s with
  | S n', String c r => String c (take_bytes n' r)
  | _, _ => ""
  end.

Definition DecodeEnvelope (parse : string -> option json) (reader : string) (maximumBytes : Z)
  : result Envelope :=
  if maximumBytes <=? 0 then Err ErrInvalidMessage
  else
    let data := take_bytes (Z.to_nat (maximumBytes + 1)) reader in
    if maximumBytes <? go_len data then Err ErrMessageTooLarge
    else
      match decodeStrict parse envelope_fields (mkEnvelope 0 "" "" None) data with
      | None => Err ErrInvalidMessage
      | Some envelope =>
          if negb (env_Version envelope =? ProtocolVersion) then Err ErrUnsupportedVersion
          else if is_blank (env_ID envelope) || negb (knownMessageType (env_Type envelope))
                  || bool_decide (env_Body envelope = None)
          then Err ErrInvalidMessage
          else Ok envelope
      end.

Definition DecodeBody {M} `{Validatable M} (e : Envelope) : result M :=
  match env_Body e with
  | None => Err ErrInvalidMessage
  | Some body =>
      match decode_struct json_fields body zero_value with
      | None => Err ErrInvalidMessage
      | Some target => _ ← Validate target; Ok target
      end
  end.

#[export] Instance Validatable_Hello : Validatable Hello := {|
  Validate := HelloValidate;
  Marshal m := JObj (member "machine_id" (jstr (h_MachineID m)));
  zero_value := mkHello "";
  json_fields := [ ("machine_id", set_with as_string (fun v _ => mkHello v)) ];
|}.

#[export] Instance Validatable_JobAccept : Validatable JobAccept := {|
  Validate := JobAcceptValidate;
  Marshal m := JObj (member "request_id" (jstr (ja_RequestID m)));
  zero_value := mkJobAccept "";
  json_fields := [ ("request_id", set_with as_string (fun v _ => mkJobAccept v)) ];
|}.

#[export] Instance Validatable_Cancel : Validatable Cancel := {|
  Validate := CancelValidate;
  Marshal m := JObj (member "request_id" (jstr (cn_RequestID m)) ++ member "reason" (jstr (cn_Reason m)));
  zero_value := mkCancel "" "";
  json_fields := [ ("request_id", set_with as_string (fun v m => mkCancel v (cn_Reason m)));
                   ("reason", set_with as_string (fun v m => mkCancel (cn_RequestID m) v)) ];
|}.

Definition chunk_fields : list (string * setter OutputChunk) :=
  let u := as_uint 64 in
  [ ("request_id", set_with as_string (fun v m => mkOutputChunk v (ch_Sequence m) (ch_Data m) (ch_Done m)
       (ch_InputTokens m) (ch_OutputTokens m) (ch_ComputeMilliseconds m) (ch_ErrorCode m)));
    ("sequence", set_with u (fun v m => mkOutputChunk (ch_RequestID m) v (ch_Data m) (ch_Done m)
       (ch_InputTokens m) (ch_OutputTokens m) (ch_ComputeMilliseconds m) (ch_ErrorCode m)));
    ("data", set_with as_string (fun v m => mkOutputChunk (ch_RequestID m) (ch_Sequence m) v (ch_Done m)
       (ch_InputTokens m) (ch_OutputTokens m) (ch_ComputeMilliseconds m) (ch_ErrorCode m)));
    ("done", set_with as_bool (fun v m => mkOutputChunk (ch_RequestID m) (ch_Sequence m) (ch_Data m) v
       (ch_InputTokens m) (ch_OutputTokens m) (ch_ComputeMilliseconds m) (ch_ErrorCode m)));
    ("input_tokens", set_with u (fun v m => mkOutputChunk (ch_RequestID m) (ch_Sequence m) (ch_Data m)
       (ch_Done m) v (ch_OutputTokens m) (ch_ComputeMilliseconds m) (ch_ErrorCode m)));
    ("output_tokens", set_with u (fun v m => mkOutputChunk (ch_RequestID m) (ch_Sequence m) (ch_Data m)
       (ch_Done m) (ch_InputTokens m) v (ch_ComputeMilliseconds m) (ch_ErrorCode m)));
    ("compute_milliseconds", set_with u (fun v m => mkOutputChunk (ch_RequestID m) (ch_Sequence m)
       (ch_Data m) (ch_Done m) (ch_InputTokens m) (ch_OutputTokens m) v (ch_ErrorCode m)));
    ("error_code", set_with as_string (fun v m => mkOutputChunk (ch_RequestID m) (ch_Sequence m)
       (ch_Data m) (ch_Done m) (ch_InputTokens m) (ch_OutputTokens m) (ch_ComputeMilliseconds m) v)) ].

Definition chunk_json (m : OutputChunk) : json :=
  JObj (member "request_id" (jstr (ch_RequestID m))
        ++ member "sequence" (num (ch_Sequence m))
        ++ omit_if (bool_decide (ch_Data m = "")) "data" (jstr (ch_Data m))
        ++ omit_if (negb (ch_Done m)) "done" (JBool (ch_Done m))
        ++ omit_if (ch_InputTokens m =? 0) "input_tokens" (num (ch_InputTokens m))
        ++ omit_if (ch_OutputTokens m =? 0) "output_tokens" (num (ch_OutputTokens m))
        ++ omit_if (ch_ComputeMilliseconds m =? 0) "compute_milliseconds" (num (ch_ComputeMilliseconds m))
        ++ omit_if (bool_decide (ch_ErrorCode m = "")) "error_code" (jstr (ch_ErrorCode m))).

#[export] Instance Validatable_OutputChunk : Validatable OutputChunk := {|
  Validate := OutputChunkValidate;
  Marshal := chunk_json;
  zero_value := mkOutputChunk "" 0 "" false 0 0 0 "";
  json_fields := chunk_fields;
|}.

#[export] Instance Validatable_ReceiptSignature : Validatable ReceiptSignature := {|
  Validate := ReceiptSignatureValidate;
  Marshal m := JObj (member "request_id" (jstr (rs_RequestID m))
                     ++ member "signer" (of_byte_array (rs_Signer m))
                     ++ member "signature" (of_bytes (rs_Signature m)));
  zero_value := mkReceiptSignature "" (replicate 20 0) [];
  json_fields :=
    [ ("request_id", set_with as_string (fun v m => mkReceiptSignature v (rs_Signer m) (rs_Signature m)));
      ("signer", set_with (as_byte_array 20)
                   (fun v m => mkReceiptSignature (rs_RequestID m) v (rs_Signature m)));
      ("signature", set_with as_bytes
                      (fun v m => mkReceiptSignature (rs_RequestID m) (rs_Signer m) v)) ];
|}.

Definition offer_fields : list (string * setter OfferCapacity) :=
  let st (store : string -> OfferCapacity -> OfferCapacity) := set_with as_string store in
  [ ("offer_id", st (fun v o => mkOfferCapacity v (oc_Model o) (oc_PriceVersion o) (oc_BackendKind o)
       (oc_OfferHash o) (oc_ModelHash o) (oc_CapabilityHash o) (oc_Capabilities o) (oc_EvidenceKind o)
       (oc_EvidenceDigest o) (oc_MeteringMode o)));
    ("model", st (fun v o => mkOfferCapacity (oc_OfferID o) v (oc_PriceVersion o) (oc_BackendKind o)
       (oc_OfferHash o) (oc_ModelHash o) (oc_CapabilityHash o) (oc_Capabilities o) (oc_EvidenceKind o)
       (oc_EvidenceDigest o) (oc_MeteringMode o)));
    ("price_version", set_with (as_uint 64) (fun v o => mkOfferCapacity (oc_OfferID o) (oc_Model o) v
       (oc_BackendKind o) (oc_OfferHash o) (oc_ModelHash o) (oc_CapabilityHash o) (oc_Capabilities o)
       (oc_EvidenceKind o) (oc_EvidenceDigest o) (oc_MeteringMode o)));
    ("backend_kind", st (fun v o => mkOfferCapacity (oc_OfferID o) (oc_Model o) (oc_PriceVersion o) v
       (oc_OfferHash o) (oc_ModelHash o) (oc_CapabilityHash o) (oc_Capabilities o) (oc_EvidenceKind o)
       (oc_EvidenceDigest o) (oc_MeteringMode o)));
    ("offer_hash", st (fun v o => mkOfferCapacity (oc_OfferID o) (oc_Model o) (oc_PriceVersion o)
       (oc_BackendKind o) v (oc_ModelHash o) (oc_CapabilityHash o) (oc_Capabilities o) (oc_EvidenceKind o)
       (oc_EvidenceDigest o) (oc_MeteringMode o)));
    ("model_hash", st (fun v o => mkOfferCapacity (oc_OfferID o) (oc_Model o) (oc_PriceVersion o)
       (oc_BackendKind o) (oc_OfferHash o) v (oc_CapabilityHash o) (oc_Capabilities o) (oc_EvidenceKind o)
       (oc_EvidenceDigest o) (oc_MeteringMode o)));
    ("capability_hash", st (fun v o => mkOfferCapacity (oc_OfferID o) (oc_Model o) (oc_PriceVersion o)
       (oc_BackendKind o) (oc_OfferHash o) (oc_ModelHash o) v (oc_Capabilities o) (oc_EvidenceKind o)
       (oc_EvidenceDigest o) (oc_MeteringMode o)));
    ("capabilities", set_with as_string_slice (fun v o => mkOfferCapacity (oc_OfferID o) (oc_Model o)
       (oc_PriceVersion o) (oc_BackendKind o) (oc_OfferHash o) (oc_ModelHash o) (oc_CapabilityHash o) v
       (oc_EvidenceKind o) (oc_EvidenceDigest o) (oc_MeteringMode o)));
    ("evidence_kind", st (fun v o => mkOfferCapacity (oc_OfferID o) (oc_Model o) (oc_PriceVersion o)
       (oc_BackendKind o) (oc_OfferHash o) (oc_ModelHash o) (oc_CapabilityHash o) (oc_Capabilities o) v
       (oc_EvidenceDigest o) (oc_MeteringMode o)));
    ("evidence_digest", st (fun v o => mkOfferCapacity (oc_OfferID o) (oc_Model o) (oc_PriceVersion o)
       (oc_BackendKind o) (oc_OfferHash o) (oc_ModelHash o) (oc_CapabilityHash o) (oc_Capabilities o)
       (oc_EvidenceKind o) v (oc_MeteringMode o)));
    ("metering_mode", st (fun v o => mkOfferCapacity (oc_OfferID o) (oc_Model o) (oc_PriceVersion o)
       (oc_BackendKind o) (oc_OfferHash o) (oc_ModelHash o) (oc_CapabilityHash o) (oc_Capabilities o)
       (oc_EvidenceKind o) (oc_EvidenceDigest o) v)) ].

Definition zero_offer : OfferCapacity := mkOfferCapacity "" "" 0 "" "" "" "" [] "" "" "".

Definition omit_string (key value : string) : list (string * json) :=
  omit_if (bool_decide (value = "")) key (jstr value).

Definition offer_json (o : OfferCapacity) : json :=
  JObj (member "offer_id" (jstr (oc_OfferID o)) ++ member "model" (jstr (oc_Model o))
        ++ member "price_version" (num (oc_PriceVersion o))
        ++ omit_string "backend_kind" (oc_BackendKind o) ++ omit_string "offer_hash" (oc_OfferHash o)
        ++ omit_string "model_hash" (oc_ModelHash o)
        ++ omit_string "capability_hash" (oc_CapabilityHash o)
        ++ omit_if (bool_decide (oc_Capabilities o = [])) "capabilities" (JArr (map jstr (oc_Capabilities o)))
        ++ omit_string "evidence_kind" (oc_EvidenceKind o)
        ++ omit_string "evidence_digest" (oc_EvidenceDigest o)
        ++ omit_string "metering_mode" (oc_MeteringMode o)).

Definition as_offers (v : json) : option (list OfferCapacity) :=
  match v with
  | JArr items => mapM (fun item => decode_struct offer_fields item zero_offer) items
  | _ => None
  end.

#[export] Instance Validatable_Capacity : Validatable Capacity := {|
  Validate := CapacityValidate;
  Marshal m := JObj (member "available" (num (cap_Available m))
                     ++ member "offers" (JArr (map offer_json (cap_Offers m))));
  zero_value := mkCapacity 0 [];
  json_fields :=
    [ ("available", set_with (as_uint 32) (fun v m => mkCapacity v (cap_Offers m)));
      ("offers", set_with as_offers (fun v m => mkCapacity (cap_Available m) v)) ];
|}.

(** ** The chunk tracker

    Missing map entries read as zero values.  [Accept] holds the mutex for
    its whole state change, so one call is one step. *)
Record ChunkTracker := mkChunkTracker { last : gmap string Z; closed : gmap string bool }.

Definition NewChunkTracker : ChunkTracker := mkChunkTracker ∅ ∅.

Definition last_of (t : ChunkTracker) (id : string) : Z := default 0 (last t !! id).
Definition closed_of (t : ChunkTracker) (id : string) : bool := default false (closed t !! id).

Definition Accept (t : ChunkTracker) (chunk : OutputChunk) : result ChunkTracker :=
  _ ← OutputChunkValidate chunk;
  if closed_of t (ch_RequestID chunk)
     || negb (ch_Sequence chunk =? wrap64 (last_of t (ch_RequestID chunk) + 1))
  then Err ErrChunkSequence
  else
    Ok (mkChunkTracker (<[ch_RequestID chunk := ch_Sequence chunk]> (last t))
          (if ch_Done chunk then <[ch_RequestID chunk := true]> (closed t) else closed t)).

(** A run of the tracker over a list of chunks: rejected chunks leave the
    state unchanged; the accepted ones are collected in order. *)
Fixpoint run_tracker (t : ChunkTracker) (chunks : list OutputChunk) : ChunkTracker * list OutputChunk :=
  match chunks with
  | [] => (t, [])
  | chunk :: rest =>
      match Accept t chunk with
      | Err _ => run_tracker t rest
      | Ok t' => let '(final, accepted) := run_tracker t' rest in (final, chunk :: accepted)
      end
  end.

(** ** Properties of the chunk tracker *)
Definition for_request (id : string) (chunks : list OutputChunk) : list OutputChunk :=
  List.filter (fun c => String.eqb (ch_RequestID c) id) chunks.

(** Every request's last accepted sequence number is a uint64. *)
Definition tracker_ok (t : ChunkTracker) : Prop := forall id, 0 <= last_of t id < u64_mod.

Lemma Accept_inv t chunk t' :
  Accept t chunk = Ok t' -> tracker_ok t ->
  let id := ch_RequestID chunk in
  closed_of t id = false /\ ch_Sequence chunk = last_of t id + 1
  /\ last_of t' id = last_of t id + 1 /\ closed_of t' id = ch_Done chunk
  /\ (forall other, other <> id -> last_of t' other = last_of t other /\ closed_of t' other = closed_of t other)
  /\ tracker_ok t'.
Proof.
  intros H Hok id. unfold Accept in H. destruct (OutputChunkValidate chunk) eqn:V; [|done].
  cbn [mbind result_bind] in H. destruct (_ || _) eqn:G; [done|]. injection H as <-.
  unfold OutputChunkValidate in V. destruct (_ || _ || _ || _) eqn:V' in V; [done|]. clear V. bools.
  fold id in H, H0 |- *. specialize (Hok id) as Hid.
  assert (ch_Sequence chunk = last_of t id + 1) as Hseq.
  { unfold wrap64 in *. destruct (Z.eq_dec (last_of t id + 1) u64_mod) as [e|ne].
    - rewrite e, Z.mod_same in H0 by done. done.
    - rewrite Z.mod_small in H0 by lia. done. }
  assert (last_of t id + 1 < u64_mod) as Hlt.
  { rewrite H0 in Hseq. rewrite <- Hseq. unfold wrap64. by apply Z.mod_pos_bound. }
  unfold last_of, closed_of in *. cbn [last closed]. rewrite lookup_insert_eq. split_and!; try done.
  - destruct (ch_Done chunk) eqn:D; [by rewrite lookup_insert_eq|]. done.
  - intros other Ho. rewrite lookup_insert_ne by done. split; [done|].
    destruct (ch_Done chunk); [by rewrite lookup_insert_ne by done|done].
  - intros i. unfold last_of. cbn [last]. destruct (decide (i = id)) as [->|Hi].
    + rewrite lookup_insert_eq. simpl. lia.
    + rewrite lookup_insert_ne by done. apply Hok.
Qed.

Lemma run_tracker_request chunks : forall t id, tracker_ok t ->
  let acc := for_request id (snd (run_tracker t chunks)) in
  map ch_Sequence acc = seqZ (last_of t id + 1) (Z.of_nat (length acc))
  /\ Forall (fun c => ch_Done c = false) (removelast acc)
  /\ (closed_of t id = true -> acc = []).
Proof.
  induction chunks as [|c chunks IH]; intros t id Hok; simpl; [done|].
  destruct (Accept t c) as [t'|e] eqn:E; [|by apply IH].
  destruct (run_tracker t' chunks) as [final accepted] eqn:R. simpl.
  destruct (Accept_inv _ _ _ E Hok) as (Hc & Hs & Hl & Hd & Hother & Hok').
  specialize (IH t' id Hok'). rewrite R in IH. simpl in IH. destruct IH as (IH1 & IH2 & IH3).
  destruct (String.eqb_spec (ch_RequestID c) id) as [<-|Hne]; simpl.
  - split_and!.
    + rewrite IH1, Hs, Hl. rewrite (seqZ_cons (last_of t (ch_RequestID c) + 1)) by lia. f_equal. f_equal; lia.
    + destruct (for_request _ accepted) as [|c' rest] eqn:F; [constructor|].
      simpl. constructor; [|exact IH2].
      destruct (ch_Done c) eqn:D; [|done]. specialize (IH3 Hd). discriminate IH3.
    + congruence.
  - destruct (Hother id) as [Hl' Hc']; [congruence|]. rewrite Hl' in IH1. rewrite Hc' in IH3. done.
Qed.

Lemma Accept_local t u chunk :
  last_of t (ch_RequestID chunk) = last_of u (ch_RequestID chunk) ->
  closed_of t (ch_RequestID chunk) = closed_of u (ch_RequestID chunk) ->
  is_ok (Accept t chunk) = is_ok (Accept u chunk).
Proof.
  intros Hl Hc. unfold Accept. destruct (OutputChunkValidate chunk); [|done].
  cbn [mbind result_bind]. rewrite Hl, Hc. by destruct (_ || _).
Qed.

Lemma run_tracker_isolated chunks : forall t u id, tracker_ok t -> tracker_ok u ->
  last_of t id = last_of u id -> closed_of t id = closed_of u id ->
  for_request id (snd (run_tracker t chunks)) = snd (run_tracker u (for_request id chunks)).
Proof.
  induction chunks as [|c chunks IH]; intros t u id Ht Hu Hl Hc; simpl; [done|].
  destruct (String.eqb_spec (ch_RequestID c) id) as [<-|Hne]; simpl.
  - pose proof (Accept_local t u c Hl Hc) as Hsame.
    destruct (Accept t c) as [t'|e] eqn:E, (Accept u c) as [u'|e'] eqn:F; try done; [|by apply IH].
    destruct (Accept_inv _ _ _ E Ht) as (_ & _ & Lt & Ct & _ & Ht').
    destruct (Accept_inv _ _ _ F Hu) as (_ & _ & Lu & Cu & _ & Hu').
    specialize (IH t' u' (ch_RequestID c) Ht' Hu' ltac:(congruence) ltac:(congruence)).
    destruct (run_tracker t' chunks), (run_tracker u' _). simpl in *.
    rewrite String.eqb_refl. by f_equal.
  - destruct (Accept t c) as [t'|e] eqn:E; [|by apply IH].
    destruct (Accept_inv _ _ _ E Ht) as (_ & _ & _ & _ & Hother & Ht').
    destruct (Hother id) as [Hl' Hc']; [congruence|].
    specialize (IH t' u id Ht' Hu ltac:(congruence) ltac:(congruence)).
    destruct (run_tracker t' chunks). simpl in *.
    destruct (String.eqb_spec (ch_RequestID c) id); [done|]. done.
Qed.

Lemma tracker_ok_new : tracker_ok NewChunkTracker.
Proof. intros id. unfold last_of. simpl. rewrite lookup_empty. simpl. unfold u64_mod. lia. Qed.

(** Whatever chunks reach a fresh tracker and in whatever interleaving, the
    chunks accepted for one request carry the sequence numbers 1, 2, 3, ...
    without gap, duplicate or wrap-around, none follows a chunk marked done,
    and which ones are accepted does not depend on other requests' chunks. *)
Theorem ChunkTracker_in_order (chunks : list OutputChunk) (id : string) :
  let acc := for_request id (snd (run_tracker NewChunkTracker chunks)) in
  map ch_Sequence acc = seqZ 1 (Z.of_nat (length acc))
  /\ Forall (fun c => ch_Done c = false) (removelast acc)
  /\ acc = snd (run_tracker NewChunkTracker (for_request id chunks)).
Proof.
  intros acc. destruct (run_tracker_request chunks NewChunkTracker id tracker_ok_new) as (H1 & H2 & _).
  split_and!; [exact H1|exact H2|]. by apply run_tracker_isolated; try apply tracker_ok_new.
Qed.

(** ** Properties of envelopes

    [Codec M] is what the envelope layer needs of a message type: a value that
    a Go program can hold ([representable]: integers within their width, byte
    arrays of their length, valid UTF-8) decodes from its own encoding. *)
Class Codec (M : Type) `{Validatable M} := {
  representable : M -> Prop;
  decode_Marshal : forall m, representable m -> decode_struct json_fields (Marshal m) zero_value = Some m;
}.

Definition utf8 (s : string) : Prop := valid_utf8 s = true.
Definition uint64 (n : Z) : Prop := 0 <= n < u64_mod.
Definition byte_list (bs : list Z) : Prop := Forall (fun b => is_byte b = true) bs.

(** Decodes the first remaining member of an encoded struct. *)
Ltac decode_field :=
  first
    [ erewrite decode_member; [|reflexivity|done|first [by apply as_string_jstr|apply as_uint_num; unfold uint64, u64_mod in *; lia]]
    | erewrite decode_omit;
        [|reflexivity|done
         |first [by apply as_string_jstr|reflexivity|apply as_uint_num; unfold uint64, u64_mod in *; lia
                |by apply as_string_slice_of]
         |intros; bools; subst; reflexivity] ];
  cbv beta;
  cbn [ch_RequestID ch_Sequence ch_Data ch_Done ch_InputTokens ch_OutputTokens ch_ComputeMilliseconds
       ch_ErrorCode oc_OfferID oc_Model oc_PriceVersion oc_BackendKind oc_OfferHash oc_ModelHash
       oc_CapabilityHash oc_Capabilities oc_EvidenceKind oc_EvidenceDigest oc_MeteringMode].

#[export] Program Instance Codec_Hello : Codec Hello := {|
  representable m := utf8 (h_MachineID m) |}.
Next Obligation. intros [id] Hm. cbn in Hm. simpl. apply String.eqb_eq in Hm. by rewrite Hm. Qed.

#[export] Program Instance Codec_JobAccept : Codec JobAccept := {|
  representable m := utf8 (ja_RequestID m) |}.
Next Obligation. intros [id] Hm. cbn in Hm. simpl. apply String.eqb_eq in Hm. by rewrite Hm. Qed.

#[export] Program Instance Codec_Cancel : Codec Cancel := {|
  representable m := utf8 (cn_RequestID m) /\ utf8 (cn_Reason m) |}.
Next Obligation.
  intros [id reason] [H1 H2]. cbn in H1, H2. apply String.eqb_eq in H1, H2. simpl. by rewrite H1, H2.
Qed.

#[export] Program Instance Codec_OutputChunk : Codec OutputChunk := {|
  representable m := utf8 (ch_RequestID m) /\ utf8 (ch_Data m) /\ utf8 (ch_ErrorCode m)
    /\ uint64 (ch_Sequence m) /\ uint64 (ch_InputTokens m) /\ uint64 (ch_OutputTokens m)
    /\ uint64 (ch_ComputeMilliseconds m) |}.
Next Obligation.
  intros [id seq data done_ inp out ms code] (H1 & H2 & H3 & H4 & H5 & H6 & H7).
  cbn [ch_RequestID ch_Sequence ch_Data ch_Done ch_InputTokens ch_OutputTokens ch_ComputeMilliseconds
       ch_ErrorCode] in *.
  change (decode_members chunk_fields
    (member "request_id" (jstr id) ++ member "sequence" (num seq)
     ++ omit_if (bool_decide (data = "")) "data" (jstr data) ++ omit_if (negb done_) "done" (JBool done_)
     ++ omit_if (inp =? 0) "input_tokens" (num inp) ++ omit_if (out =? 0) "output_tokens" (num out)
     ++ omit_if (ms =? 0) "compute_milliseconds" (num ms)
     ++ omit_if (bool_decide (code = "")) "error_code" (jstr code))
    (mkOutputChunk "" 0 "" false 0 0 0 "") = Some (mkOutputChunk id seq data done_ inp out ms code)).
  rewrite <- (app_nil_r (omit_if (bool_decide (code = "")) _ _)).
  do 8 decode_field. done.
Qed.

#[export] Program Instance Codec_ReceiptSignature : Codec ReceiptSignature := {|
  representable m := utf8 (rs_RequestID m) /\ length (rs_Signer m) = 20%nat /\ byte_list (rs_Signer m)
    /\ byte_list (rs_Signature m) |}.
Next Obligation.
  intros [id signer sig] (H1 & H2 & H3 & H4). cbn [rs_RequestID rs_Signer rs_Signature] in *.
  cbn [Marshal Validatable_ReceiptSignature decode_struct rs_RequestID rs_Signer rs_Signature].
  rewrite <- (app_nil_r (member "signature" _)).
  erewrite decode_member; [|reflexivity|done|by apply as_string_jstr].
  erewrite decode_member; [|reflexivity|done|by apply as_byte_array_of].
  erewrite decode_member; [|reflexivity|done|by apply as_bytes_of]. done.
Qed.

Definition offer_representable (o : OfferCapacity) : Prop :=
  utf8 (oc_OfferID o) /\ utf8 (oc_Model o) /\ uint64 (oc_PriceVersion o) /\ utf8 (oc_BackendKind o)
  /\ utf8 (oc_OfferHash o) /\ utf8 (oc_ModelHash o) /\ utf8 (oc_CapabilityHash o)
  /\ Forall utf8 (oc_Capabilities o) /\ utf8 (oc_EvidenceKind o) /\ utf8 (oc_EvidenceDigest o)
  /\ utf8 (oc_MeteringMode o).

Lemma decode_offer o : offer_representable o ->
  decode_struct offer_fields (offer_json o) zero_offer = Some o.
Proof.
  destruct o as [oid model pv kind oh mh ch caps ek ed mm]. unfold offer_representable, offer_json, omit_string.
  cbn [decode_struct oc_OfferID oc_Model oc_PriceVersion oc_BackendKind oc_OfferHash oc_ModelHash
       oc_CapabilityHash oc_Capabilities oc_EvidenceKind oc_EvidenceDigest oc_MeteringMode].
  intros (? & ? & ? & ? & ? & ? & ? & ? & ? & ? & ?).
  rewrite <- (app_nil_r (omit_if (bool_decide (mm = "")) _ _)). unfold zero_offer.
  do 11 decode_field. done.
Qed.

Lemma as_offers_of offers : Forall offer_representable offers ->
  as_offers (JArr (map offer_json offers)) = Some offers.
Proof.
  cbn [as_offers]. induction 1 as [|o offers Ho _ IH]; [done|].
  cbn [map mapM]. rewrite decode_offer by done. simpl. by rewrite IH.
Qed.

#[export] Program Instance Codec_Capacity : Codec Capacity := {|
  representable m := 0 <= cap_Available m < u32_mod /\ Forall offer_representable (cap_Offers m) |}.
Next Obligation.
  intros [available offers] [H1 H2]. cbn [cap_Available cap_Offers] in *. unfold u32_mod in H1.
  cbn [Marshal Validatable_Capacity decode_struct cap_Available cap_Offers].
  rewrite <- (app_nil_r (member "offers" _)).
  erewrite decode_member; [|reflexivity|done|apply as_uint_num; unfold u64_mod; lia].
  erewrite decode_member; [|reflexivity|done|by apply as_offers_of]. done.
Qed.

Lemma take_bytes_all n s : (String.length s <= n)%nat -> take_bytes n s = s.
Proof.
  revert n. induction s as [|c s IH]; intros [|n] H; simpl in *; try done; [lia|].
  by rewrite IH by lia.
Qed.

Lemma decode_envelope_json e body :
  env_Body e = Some body -> utf8 (env_Type e) -> utf8 (env_ID e) -> 0 <= env_Version e < 2 ^ 16 ->
  decode_struct envelope_fields (envelope_json e) (mkEnvelope 0 "" "" None) = Some e.
Proof.
  destruct e as [v ty id b]. cbn [env_Body env_Type env_ID env_Version]. intros -> Ht Hi Hv.
  change (decode_members envelope_fields
    (member "version" (num v) ++ member "type" (jstr ty) ++ member "id" (jstr id) ++ [("body", body)])
    (mkEnvelope 0 "" "" None) = Some (mkEnvelope v ty id (Some body))).
  erewrite decode_member; [|reflexivity|done|apply as_uint_num; unfold u64_mod; lia].
  do 2 decode_field. done.
Qed.

Lemma known_utf8 ty : knownMessageType ty = true -> utf8 ty.
Proof.
  unfold knownMessageType. intros H%contains_spec.
  rewrite !elem_of_cons, elem_of_nil in H. unfold utf8.
  destruct H as [->|[->|[->|[->|[->|[->|[->|[->|[]]]]]]]]]; reflexivity.
Qed.

(** What [NewEnvelope] checked, and the two halves of a round trip. *)
Lemma NewEnvelope_Ok {M} `{Validatable M} id messageType (message : M) e :
  NewEnvelope id messageType message = Ok e ->
  e = mkEnvelope ProtocolVersion messageType id (Some (Marshal message))
  /\ is_blank id = false /\ knownMessageType messageType = true /\ Validate message = Ok tt.
Proof.
  unfold NewEnvelope. intros He. destruct (is_blank id || _) eqn:G; [done|].
  apply orb_false_iff in G as [Gi Gt]. apply negb_false_iff in Gt.
  destruct (Validate message) as [[]|] eqn:V; [|done]. by injection He as <-.
Qed.

Lemma DecodeEnvelope_json parse data maximumBytes id messageType body :
  is_blank id = false -> knownMessageType messageType = true -> utf8 id ->
  parse data = Some (envelope_json (mkEnvelope ProtocolVersion messageType id (Some body))) ->
  0 < go_len data <= maximumBytes ->
  DecodeEnvelope parse data maximumBytes = Ok (mkEnvelope ProtocolVersion messageType id (Some body)).
Proof.
  intros Gi Gt Hid Hp Hl. unfold DecodeEnvelope, decodeStrict. replace (maximumBytes <=? 0) with false by lia.
  rewrite take_bytes_all by (unfold go_len in Hl; lia). replace (maximumBytes <? go_len data) with false by lia.
  rewrite Hp. erewrite decode_envelope_json; [|done|by apply known_utf8|done|cbn; unfold ProtocolVersion; lia].
  cbn [env_Version env_ID env_Type env_Body]. by rewrite Gi, Gt.
Qed.

Lemma DecodeBody_Marshal {M} `{Codec M} version messageType id (message : M) :
  representable message -> Validate message = Ok tt ->
  DecodeBody (mkEnvelope version messageType id (Some (Marshal message))) = Ok message.
Proof. intros Hm V. unfold DecodeBody. cbn [env_Body]. rewrite decode_Marshal by done. by rewrite V. Qed.

(** Round trip through the wire: an envelope built from a valid message and
    written as a JSON document of at most [maximumBytes] bytes is decoded to
    the same envelope, and its body to the same message. *)
Theorem Envelope_roundtrip {M} `{Codec M} (parse : string -> option json)
    (id messageType : string) (message : M) (e : Envelope) (data : string) (maximumBytes : Z) :
  NewEnvelope id messageType message = Ok e ->
  representable message -> utf8 id ->
  parse data = Some (envelope_json e) -> 0 < go_len data <= maximumBytes ->
  DecodeEnvelope parse data maximumBytes = Ok e /\ DecodeBody e = Ok message.
Proof.
  intros He Hm Hid Hp Hl. apply NewEnvelope_Ok in He as (-> & Gi & Gt & V).
  split; [by apply DecodeEnvelope_json|by apply DecodeBody_Marshal].
Qed.

Definition sample_chunk : OutputChunk := mkOutputChunk "r1" 2 "hi" false 0 5 0 "".
Definition sample_parse (data : string) : option json :=
  if Ascii.eqb "{" (match data with String c _ => c | "" => " "%char end)
  then Some (JObj [("version", JNum "1"); ("type", JStr "output_chunk"); ("id", JStr "c1");
    ("body", JObj [("request_id", JStr "r1"); ("sequence", JNum "2"); ("data", JStr "hi"); ("output_tokens", JNum "5")])])
  else None.

Lemma Envelope_roundtrip_witness :
  exists e, NewEnvelope "c1" MessageOutputChunk sample_chunk = Ok e
  /\ DecodeEnvelope sample_parse "{...}" 100 = Ok e /\ DecodeBody e = Ok sample_chunk.
Proof.
  eexists. split; [reflexivity|].
  apply (Envelope_roundtrip sample_parse "c1" MessageOutputChunk sample_chunk _ "{...}" 100);
    [reflexivity| |reflexivity|reflexivity|vm_compute; split; [reflexivity|discriminate]].
  repeat split; try reflexivity; vm_compute; discriminate.
Defined.

(** ** Properties of workspace validation *)
Definition proper_element (e : string) : Prop := e <> "" /\ e <> "." /\ e <> "..".

(** The stack of [clean_elements]: proper elements on top of [".."]s. *)
Inductive cleaned : list string -> Prop :=
| cleaned_up n : cleaned (replicate n "..")
| cleaned_proper e out : proper_element e -> cleaned out -> cleaned (e :: out).

Lemma cleaned_tail e out : cleaned (e :: out) -> e <> ".." -> cleaned out.
Proof.
  intros H He. inversion H as [[|n] E|]; subst; done.
Qed.

Lemma cleaned_dots out : cleaned (".." :: out) -> exists n, out = replicate n "..".
Proof.
  intros H. inversion H as [[|n] E|e o [? [? ?]]]; subst; try done.
  by exists n.
Qed.

Lemma clean_elements_cleaned elements : forall out,
  Forall (fun e => ContainsByte e "/" = false) elements -> Forall (fun e => ContainsByte e "/" = false) out ->
  cleaned out ->
  cleaned (clean_elements false elements out)
  /\ Forall (fun e => ContainsByte e "/" = false) (clean_elements false elements out).
Proof.
  induction elements as [|e rest IH]; intros out He Ho Hc; [done|].
  apply Forall_cons in He as [He Hr]. cbn [clean_elements].
  destruct (String.eqb_spec e ""); [by apply IH|].
  destruct (String.eqb_spec e "."); [by apply IH|].
  cbn [orb]. destruct (String.eqb_spec e "..") as [->|Hdd].
  - destruct out as [|prev out']; [apply IH; [done|by constructor|by apply (cleaned_up 1)]|].
    apply Forall_cons in Ho as [Hp Ho].
    destruct (String.eqb_spec prev "..") as [->|Hprev].
    + apply IH; [done|by repeat constructor|].
      apply cleaned_dots in Hc as [k ->]. apply (cleaned_up (S (S k))).
    + apply IH; [done|done|]. by apply cleaned_tail in Hc.
  - apply IH; [done|by constructor|by constructor].
Qed.

Lemma cleaned_split out : cleaned out ->
  Forall proper_element out \/ exists pre, out = pre ++ [".."].
Proof.
  induction 1 as [n|e out He H [IH|[pre ->]]].
  - destruct n as [|n]; [by left|]. right. exists (replicate n ".."). by rewrite <- replicate_cons_app.
  - left. by constructor.
  - right. by exists (e :: pre).
Qed.

Lemma ReplaceByte_absent s old new : ContainsByte s old = false -> ReplaceByte s old new = s.
Proof.
  induction s as [|c s IH]; simpl; [done|]. intros H. apply orb_false_iff in H as [Hc Hs].
  rewrite Ascii.eqb_sym in Hc. by rewrite Hc, IH.
Qed.

Lemma HasPrefix_false_app s c : HasPrefix s (String c "") = false ->
  match s with String d _ => d <> c | "" => True end.
Proof. destruct s as [|d s]; [done|]. simpl. destruct (Ascii.eqb_spec c d); subst; [by destruct s|congruence]. Qed.

(** A path that passes [check_path] is the [Join] of proper elements. *)
Lemma check_path_proper path clean :
  check_path path = Ok clean ->
  clean = TrimSpace path /\ Forall proper_element (SplitByte clean "/").
Proof.
  unfold check_path. set (name := TrimSpace path). intros H. destruct (_ || _) eqn:G in H; [done|].
  injection H as <-. repeat apply orb_false_iff in G as [G ?].
  repeat match goal with H : _ || _ = false |- _ => apply orb_false_iff in H as [H ?] end.
  rewrite ReplaceByte_absent in * by done.
  match goal with H : negb (String.eqb (path_Clean name) name) = false |- _ =>
    apply negb_false_iff, String.eqb_eq in H; rewrite H in *; rename H into Hclean end.
  split; [done|].
  unfold path_Clean in Hclean.
  match goal with H : HasPrefix name "/" = false |- _ => rewrite H in Hclean end.
  destruct (SplitByte_no_sep name "/") as [Hne Hsep].
  destruct (clean_elements_cleaned (SplitByte name "/") []) as [Hc Hcs];
    [done|constructor|by apply (cleaned_up 0)|].
  set (out := clean_elements false (SplitByte name "/") []) in *.
  destruct (rev out) as [|e rest] eqn:R.
  { subst name. rewrite <- Hclean in *. done. }
  rewrite <- Hclean at 1. rewrite SplitByte_Join; [|done|rewrite <- R; by apply Forall_rev].
  destruct (cleaned_split out Hc) as [Hp|[pre Ep]]; [rewrite <- R; by apply Forall_rev|].
  exfalso. rewrite Ep, rev_app_distr in R. simpl in R. injection R as <- <-.
  destruct (rev pre) as [|next tail] eqn:R'.
  - simpl in Hclean. rewrite <- Hclean in *. done.
  - change (Join (".." :: next :: tail) "/") with ("../" +:+ Join (next :: tail) "/") in Hclean.
    rewrite <- Hclean, HasPrefix_app in *. done.
Qed.

Definition file_bytes (file : WorkspaceFile) : Z :=
  match b64_decode (wf_ContentBase64 file) with Some decoded => Z.of_nat (length decoded) | None => 0 end.
Definition total_bytes (files : list WorkspaceFile) : Z := foldr (fun f acc => file_bytes f + acc) 0 files.

Lemma workspace_loop_inv files : forall total paths total' paths',
  workspace_loop files total paths = Ok (total', paths') -> NoDup paths -> total <= MaximumWorkspaceBytes ->
  paths' = paths ++ map (fun f => TrimSpace (wf_Path f)) files /\ NoDup paths'
  /\ total' = total + total_bytes files /\ total' <= MaximumWorkspaceBytes
  /\ Forall (fun f => is_Some (b64_decode (wf_ContentBase64 f))
                      /\ Forall proper_element (SplitByte (TrimSpace (wf_Path f)) "/")) files.
Proof.
  induction files as [|f files IH]; intros total paths total' paths' H Hnd Ht; cbn [workspace_loop] in H.
  - injection H as <- <-. simpl. rewrite app_nil_r. split_and!; auto; lia.
  - destruct (check_path (wf_Path f)) as [clean|] eqn:E; [|done]. cbn [mbind result_bind] in H.
    apply check_path_proper in E as [-> Hp].
    destruct (contains paths _) eqn:C; [done|].
    assert (TrimSpace (wf_Path f) ∉ paths) as Hnew by (rewrite <- contains_spec, C; done).
    destruct (b64_decode (wf_ContentBase64 f)) as [decoded|] eqn:D; [|done].
    destruct (_ <? _) eqn:L; [done|]. bools.
    destruct (IH _ _ _ _ H) as (-> & Hnd' & -> & Hmax & Hall).
    { apply NoDup_app. split_and!; [done| |by apply NoDup_singleton].
      intros x Hx Hx'. apply list_elem_of_singleton in Hx' as ->. done. }
    { lia. }
    rewrite <- app_assoc in *. simpl. split_and!; try done.
    + unfold file_bytes. rewrite D. lia.
    + constructor; [|done]. by rewrite D.
Qed.

(** An offer that passes validation carries at most 64 files and at most
    512 KiB of decoded content, all paths are distinct, and no path element is
    empty, ["."] or [".."]: joined under any directory, every path stays
    strictly inside it. *)
Theorem JobOffer_workspace_safe (now : Z) (m : JobOffer) :
  JobOfferValidate now m = Ok tt ->
  Z.of_nat (length (jo_Workspace m)) <= 64
  /\ total_bytes (jo_Workspace m) <= 524288
  /\ NoDup (map (fun f => TrimSpace (wf_Path f)) (jo_Workspace m))
  /\ Forall (fun f => is_Some (b64_decode (wf_ContentBase64 f))
                      /\ Forall proper_element (SplitByte (TrimSpace (wf_Path f)) "/")) (jo_Workspace m)
  /\ now < jo_LeaseExpiresAt m.
Proof.
  unfold JobOfferValidate. intros H. destruct (_ || _) eqn:G in H; [done|]. bools.
  destruct (MaximumWorkspaceFiles <? _) eqn:L; [done|]. bools.
  destruct (workspace_loop _ _ _) as [[total paths]|] eqn:W; [|done].
  destruct (workspace_loop_inv _ _ _ _ _ W) as (-> & Hnd & -> & Hmax & Hall);
    [by apply NoDup_nil_2|done|].
  split_and!; try done.
Qed.

Definition sample_offer (paths : list string) : JobOffer :=
  mkJobOffer "r1" "m" "o" "hello" 1 100 16 20 (map (fun p => mkWorkspaceFile p "aGk=") paths).

Lemma JobOffer_workspace_safe_witness :
  Forall proper_element (SplitByte "src/main.go" "/").
Proof.
  destruct (JobOffer_workspace_safe 10 (sample_offer ["src/main.go"; "go.mod"])) as (_ & _ & _ & H & _);
    [vm_compute; reflexivity|].
  apply Forall_cons in H as [[_ H] _]. exact H.
Defined.

(** The check for a file that is also a directory compares neighbours of the
    sorted list only: with a path between the two in byte order, the
    conflicting pair is accepted. *)
Example nested_paths_rejected : JobOfferValidate 10 (sample_offer ["a"; "a/c"]) = Err ErrInvalidMessage.
Proof. vm_compute. reflexivity. Qed.
Example nested_paths_accepted : JobOfferValidate 10 (sample_offer ["a"; "a-b"; "a/c"]) = Ok tt.
Proof. vm_compute. reflexivity. Qed.
