(* ===== verification/Proposals.v ===== *)
(** * Receipts and job offers on the wire (protocol/v1/messages.go, receipt.go)

    The JSON shape of the two messages the broker sends to a provider besides
    [Cancel]: the receipt proposal and the job offer.  The validity of a job
    offer depends on the time at which it is checked, so its instance of
    [Validatable] does too. *)

From S2P Require Import Prelude GoStrings GoTime Wire Receipt Messages.
Open Scope string_scope.
Open Scope list_scope.
Open Scope Z_scope.

Definition receipt_fields : list (string * setter Receipt) :=
  [ ("request_id", set_with (as_byte_array 32) (fun v r => mkReceipt v (r_SessionID r) (r_Customer
       r) (r_Provider r) (r_SettlementSigner r) (r_OfferID r) (r_PriceVersion r) (r_ModelHash r)
       (r_CapabilityHash r) (r_InputTokens r) (r_OutputTokens r) (r_ComputeMilliseconds r)
       (r_MaximumCharge r) (r_TotalCharge r) (r_FeeBasisPoints r) (r_FeeVersion r) (r_Status r)
       (r_CompletedAt r) (r_InputHash r) (r_OutputHash r) (r_Nonce r)));
    ("session_id", set_with (as_byte_array 32) (fun v r => mkReceipt (r_RequestID r) v (r_Customer
       r) (r_Provider r) (r_SettlementSigner r) (r_OfferID r) (r_PriceVersion r) (r_ModelHash r)
       (r_CapabilityHash r) (r_InputTokens r) (r_OutputTokens r) (r_ComputeMilliseconds r)
       (r_MaximumCharge r) (r_TotalCharge r) (r_FeeBasisPoints r) (r_FeeVersion r) (r_Status r)
       (r_CompletedAt r) (r_InputHash r) (r_OutputHash r) (r_Nonce r)));
    ("customer", set_with (as_byte_array 20) (fun v r => mkReceipt (r_RequestID r) (r_SessionID r)
       v (r_Provider r) (r_SettlementSigner r) (r_OfferID r) (r_PriceVersion r) (r_ModelHash r)
       (r_CapabilityHash r) (r_InputTokens r) (r_OutputTokens r) (r_ComputeMilliseconds r)
       (r_MaximumCharge r) (r_TotalCharge r) (r_FeeBasisPoints r) (r_FeeVersion r) (r_Status r)
       (r_CompletedAt r) (r_InputHash r) (r_OutputHash r) (r_Nonce r)));
    ("provider", set_with (as_byte_array 20) (fun v r => mkReceipt (r_RequestID r) (r_SessionID r)
       (r_Customer r) v (r_SettlementSigner r) (r_OfferID r) (r_PriceVersion r) (r_ModelHash r)
       (r_CapabilityHash r) (r_InputTokens r) (r_OutputTokens r) (r_ComputeMilliseconds r)
       (r_MaximumCharge r) (r_TotalCharge r) (r_FeeBasisPoints r) (r_FeeVersion r) (r_Status r)
       (r_CompletedAt r) (r_InputHash r) (r_OutputHash r) (r_Nonce r)));
    ("settlement_signer", set_with (as_byte_array 20) (fun v r => mkReceipt (r_RequestID r)
       (r_SessionID r) (r_Customer r) (r_Provider r) v (r_OfferID r) (r_PriceVersion r) (r_ModelHash
       r) (r_CapabilityHash r) (r_InputTokens r) (r_OutputTokens r) (r_ComputeMilliseconds r)
       (r_MaximumCharge r) (r_TotalCharge r) (r_FeeBasisPoints r) (r_FeeVersion r) (r_Status r)
       (r_CompletedAt r) (r_InputHash r) (r_OutputHash r) (r_Nonce r)));
    ("offer_id", set_with (as_byte_array 32) (fun v r => mkReceipt (r_RequestID r) (r_SessionID r)
       (r_Customer r) (r_Provider r) (r_SettlementSigner r) v (r_PriceVersion r) (r_ModelHash r)
       (r_CapabilityHash r) (r_InputTokens r) (r_OutputTokens r) (r_ComputeMilliseconds r)
       (r_MaximumCharge r) (r_TotalCharge r) (r_FeeBasisPoints r) (r_FeeVersion r) (r_Status r)
       (r_CompletedAt r) (r_InputHash r) (r_OutputHash r) (r_Nonce r)));
    ("price_version", set_with (as_uint 64) (fun v r => mkReceipt (r_RequestID r) (r_SessionID r)
       (r_Customer r) (r_Provider r) (r_SettlementSigner r) (r_OfferID r) v (r_ModelHash r)
       (r_CapabilityHash r) (r_InputTokens r) (r_OutputTokens r) (r_ComputeMilliseconds r)
       (r_MaximumCharge r) (r_TotalCharge r) (r_FeeBasisPoints r) (r_FeeVersion r) (r_Status r)
       (r_CompletedAt r) (r_InputHash r) (r_OutputHash r) (r_Nonce r)));
    ("model_hash", set_with (as_byte_array 32) (fun v r => mkReceipt (r_RequestID r) (r_SessionID
       r) (r_Customer r) (r_Provider r) (r_SettlementSigner r) (r_OfferID r) (r_PriceVersion r) v
       (r_CapabilityHash r) (r_InputTokens r) (r_OutputTokens r) (r_ComputeMilliseconds r)
       (r_MaximumCharge r) (r_TotalCharge r) (r_FeeBasisPoints r) (r_FeeVersion r) (r_Status r)
       (r_CompletedAt r) (r_InputHash r) (r_OutputHash r) (r_Nonce r)));
    ("capability_hash", set_with (as_byte_array 32) (fun v r => mkReceipt (r_RequestID r)
       (r_SessionID r) (r_Customer r) (r_Provider r) (r_SettlementSigner r) (r_OfferID r)
       (r_PriceVersion r) (r_ModelHash r) v (r_InputTokens r) (r_OutputTokens r)
       (r_ComputeMilliseconds r) (r_MaximumCharge r) (r_TotalCharge r) (r_FeeBasisPoints r)
       (r_FeeVersion r) (r_Status r) (r_CompletedAt r) (r_InputHash r) (r_OutputHash r) (r_Nonce
       r)));
    ("input_tokens", set_with (as_uint 64) (fun v r => mkReceipt (r_RequestID r) (r_SessionID r)
       (r_Customer r) (r_Provider r) (r_SettlementSigner r) (r_OfferID r) (r_PriceVersion r)
       (r_ModelHash r) (r_CapabilityHash r) v (r_OutputTokens r) (r_ComputeMilliseconds r)
       (r_MaximumCharge r) (r_TotalCharge r) (r_FeeBasisPoints r) (r_FeeVersion r) (r_Status r)
       (r_CompletedAt r) (r_InputHash r) (r_OutputHash r) (r_Nonce r)));
    ("output_tokens", set_with (as_uint 64) (fun v r => mkReceipt (r_RequestID r) (r_SessionID r)
       (r_Customer r) (r_Provider r) (r_SettlementSigner r) (r_OfferID r) (r_PriceVersion r)
       (r_ModelHash r) (r_CapabilityHash r) (r_InputTokens r) v (r_ComputeMilliseconds r)
       (r_MaximumCharge r) (r_TotalCharge r) (r_FeeBasisPoints r) (r_FeeVersion r) (r_Status r)
       (r_CompletedAt r) (r_InputHash r) (r_OutputHash r) (r_Nonce r)));
    ("compute_milliseconds", set_with (as_uint 64) (fun v r => mkReceipt (r_RequestID r)
       (r_SessionID r) (r_Customer r) (r_Provider r) (r_SettlementSigner r) (r_OfferID r)
       (r_PriceVersion r) (r_ModelHash r) (r_CapabilityHash r) (r_InputTokens r) (r_OutputTokens r)
       v (r_MaximumCharge r) (r_TotalCharge r) (r_FeeBasisPoints r) (r_FeeVersion r) (r_Status r)
       (r_CompletedAt r) (r_InputHash r) (r_OutputHash r) (r_Nonce r)));
    ("maximum_charge", set_with (as_uint 64) (fun v r => mkReceipt (r_RequestID r) (r_SessionID r)
       (r_Customer r) (r_Provider r) (r_SettlementSigner r) (r_OfferID r) (r_PriceVersion r)
       (r_ModelHash r) (r_CapabilityHash r) (r_InputTokens r) (r_OutputTokens r)
       (r_ComputeMilliseconds r) v (r_TotalCharge r) (r_FeeBasisPoints r) (r_FeeVersion r) (r_Status
       r) (r_CompletedAt r) (r_InputHash r) (r_OutputHash r) (r_Nonce r)));
    ("total_charge", set_with (as_uint 64) (fun v r => mkReceipt (r_RequestID r) (r_SessionID r)
       (r_Customer r) (r_Provider r) (r_SettlementSigner r) (r_OfferID r) (r_PriceVersion r)
       (r_ModelHash r) (r_CapabilityHash r) (r_InputTokens r) (r_OutputTokens r)
       (r_ComputeMilliseconds r) (r_MaximumCharge r) v (r_FeeBasisPoints r) (r_FeeVersion r)
       (r_Status r) (r_CompletedAt r) (r_InputHash r) (r_OutputHash r) (r_Nonce r)));
    ("fee_basis_points", set_with (as_uint 16) (fun v r => mkReceipt (r_RequestID r) (r_SessionID
       r) (r_Customer r) (r_Provider r) (r_SettlementSigner r) (r_OfferID r) (r_PriceVersion r)
       (r_ModelHash r) (r_CapabilityHash r) (r_InputTokens r) (r_OutputTokens r)
       (r_ComputeMilliseconds r) (r_MaximumCharge r) (r_TotalCharge r) v (r_FeeVersion r) (r_Status
       r) (r_CompletedAt r) (r_InputHash r) (r_OutputHash r) (r_Nonce r)));
    ("fee_version", set_with (as_uint 64) (fun v r => mkReceipt (r_RequestID r) (r_SessionID r)
       (r_Customer r) (r_Provider r) (r_SettlementSigner r) (r_OfferID r) (r_PriceVersion r)
       (r_ModelHash r) (r_CapabilityHash r) (r_InputTokens r) (r_OutputTokens r)
       (r_ComputeMilliseconds r) (r_MaximumCharge r) (r_TotalCharge r) (r_FeeBasisPoints r) v
       (r_Status r) (r_CompletedAt r) (r_InputHash r) (r_OutputHash r) (r_Nonce r)));
    ("status", set_with (as_uint 8) (fun v r => mkReceipt (r_RequestID r) (r_SessionID r)
       (r_Customer r) (r_Provider r) (r_SettlementSigner r) (r_OfferID r) (r_PriceVersion r)
       (r_ModelHash r) (r_CapabilityHash r) (r_InputTokens r) (r_OutputTokens r)
       (r_ComputeMilliseconds r) (r_MaximumCharge r) (r_TotalCharge r) (r_FeeBasisPoints r)
       (r_FeeVersion r) v (r_CompletedAt r) (r_InputHash r) (r_OutputHash r) (r_Nonce r)));
    ("completed_at", set_with (as_uint 64) (fun v r => mkReceipt (r_RequestID r) (r_SessionID r)
       (r_Customer r) (r_Provider r) (r_SettlementSigner r) (r_OfferID r) (r_PriceVersion r)
       (r_ModelHash r) (r_CapabilityHash r) (r_InputTokens r) (r_OutputTokens r)
       (r_ComputeMilliseconds r) (r_MaximumCharge r) (r_TotalCharge r) (r_FeeBasisPoints r)
       (r_FeeVersion r) (r_Status r) v (r_InputHash r) (r_OutputHash r) (r_Nonce r)));
    ("input_hash", set_with (as_byte_array 32) (fun v r => mkReceipt (r_RequestID r) (r_SessionID
       r) (r_Customer r) (r_Provider r) (r_SettlementSigner r) (r_OfferID r) (r_PriceVersion r)
       (r_ModelHash r) (r_CapabilityHash r) (r_InputTokens r) (r_OutputTokens r)
       (r_ComputeMilliseconds r) (r_MaximumCharge r) (r_TotalCharge r) (r_FeeBasisPoints r)
       (r_FeeVersion r) (r_Status r) (r_CompletedAt r) v (r_OutputHash r) (r_Nonce r)));
    ("output_hash", set_with (as_byte_array 32) (fun v r => mkReceipt (r_RequestID r) (r_SessionID
       r) (r_Customer r) (r_Provider r) (r_SettlementSigner r) (r_OfferID r) (r_PriceVersion r)
       (r_ModelHash r) (r_CapabilityHash r) (r_InputTokens r) (r_OutputTokens r)
       (r_ComputeMilliseconds r) (r_MaximumCharge r) (r_TotalCharge r) (r_FeeBasisPoints r)
       (r_FeeVersion r) (r_Status r) (r_CompletedAt r) (r_InputHash r) v (r_Nonce r)));
    ("nonce", set_with (as_uint 64) (fun v r => mkReceipt (r_RequestID r) (r_SessionID r)
       (r_Customer r) (r_Provider r) (r_SettlementSigner r) (r_OfferID r) (r_PriceVersion r)
       (r_ModelHash r) (r_CapabilityHash r) (r_InputTokens r) (r_OutputTokens r)
       (r_ComputeMilliseconds r) (r_MaximumCharge r) (r_TotalCharge r) (r_FeeBasisPoints r)
       (r_FeeVersion r) (r_Status r) (r_CompletedAt r) (r_InputHash r) (r_OutputHash r) v)) ].

Definition zero_receipt : Receipt :=
  let hash := replicate 32 0 in let address := replicate 20 0 in
  mkReceipt hash hash address address address hash 0 hash hash 0 0 0 0 0 0 0 0 0 hash hash 0.

Definition receipt_json (r : Receipt) : json :=
  JObj (member "request_id" (of_byte_array (r_RequestID r))
        ++ member "session_id" (of_byte_array (r_SessionID r))
        ++ member "customer" (of_byte_array (r_Customer r))
        ++ member "provider" (of_byte_array (r_Provider r))
        ++ member "settlement_signer" (of_byte_array (r_SettlementSigner r))
        ++ member "offer_id" (of_byte_array (r_OfferID r))
        ++ member "price_version" (num (r_PriceVersion r))
        ++ member "model_hash" (of_byte_array (r_ModelHash r))
        ++ member "capability_hash" (of_byte_array (r_CapabilityHash r))
        ++ member "input_tokens" (num (r_InputTokens r))
        ++ member "output_tokens" (num (r_OutputTokens r))
        ++ member "compute_milliseconds" (num (r_ComputeMilliseconds r))
        ++ member "maximum_charge" (num (r_MaximumCharge r))
        ++ member "total_charge" (num (r_TotalCharge r))
        ++ member "fee_basis_points" (num (r_FeeBasisPoints r))
        ++ member "fee_version" (num (r_FeeVersion r))
        ++ member "status" (num (r_Status r))
        ++ member "completed_at" (num (r_CompletedAt r))
        ++ member "input_hash" (of_byte_array (r_InputHash r))
        ++ member "output_hash" (of_byte_array (r_OutputHash r))
        ++ member "nonce" (num (r_Nonce r))).

#[export] Instance Validatable_ReceiptProposal : Validatable ReceiptProposal := {|
  Validate := ReceiptProposalValidate;
  Marshal m := JObj (member "request_id" (jstr (rp_RequestID m)) ++ member "chain_id" (num (rp_ChainID m))
                     ++ member "contract" (of_byte_array (rp_Contract m))
                     ++ member "receipt" (receipt_json (rp_Receipt m)));
  zero_value := mkReceiptProposal "" 0 (replicate 20 0) zero_receipt;
  json_fields :=
    [ ("request_id", set_with as_string (fun v m =>
         mkReceiptProposal v (rp_ChainID m) (rp_Contract m) (rp_Receipt m)));
      ("chain_id", set_with (as_uint 64) (fun v m =>
         mkReceiptProposal (rp_RequestID m) v (rp_Contract m) (rp_Receipt m)));
      ("contract", set_with (as_byte_array 20) (fun v m =>
         mkReceiptProposal (rp_RequestID m) (rp_ChainID m) v (rp_Receipt m)));
      ("receipt", fun v m =>
         match decode_struct receipt_fields v (rp_Receipt m) with
         | Some r => Some (mkReceiptProposal (rp_RequestID m) (rp_ChainID m) (rp_Contract m) r)
         | None => None
         end) ];
|}.

(** ** Job offers *)
#[export] Instance WorkspaceFile_eq_dec : EqDecision WorkspaceFile.
Proof. solve_decision. Defined.

Definition as_time (v : json) : option Z := match v with JStr s => ParseRFC3339 s | _ => None end.
Definition time_json (t : Z) : json := JStr (RFC3339Nano t).

Definition file_fields : list (string * setter WorkspaceFile) :=
  [ ("path", set_with as_string (fun v f => mkWorkspaceFile v (wf_ContentBase64 f)));
    ("content_base64", set_with as_string (fun v f => mkWorkspaceFile (wf_Path f) v)) ].
Definition file_json (f : WorkspaceFile) : json :=
  JObj (member "path" (jstr (wf_Path f)) ++ member "content_base64" (jstr (wf_ContentBase64 f))).
Definition as_workspace (v : json) : option (list WorkspaceFile) :=
  match v with
  | JArr items => mapM (fun item => decode_struct file_fields item (mkWorkspaceFile "" "")) items
  | _ => None
  end.

Definition job_fields : list (string * setter JobOffer) :=
  [ ("request_id", set_with as_string (fun v m => mkJobOffer v (jo_Model m) (jo_OfferID m)
       (jo_Prompt m) (jo_PriceVersion m) (jo_MaximumSpend m) (jo_MaximumOutputTokens m)
       (jo_LeaseExpiresAt m) (jo_Workspace m)));
    ("model", set_with as_string (fun v m => mkJobOffer (jo_RequestID m) v (jo_OfferID m)
       (jo_Prompt m) (jo_PriceVersion m) (jo_MaximumSpend m) (jo_MaximumOutputTokens m)
       (jo_LeaseExpiresAt m) (jo_Workspace m)));
    ("offer_id", set_with as_string (fun v m => mkJobOffer (jo_RequestID m) (jo_Model m) v
       (jo_Prompt m) (jo_PriceVersion m) (jo_MaximumSpend m) (jo_MaximumOutputTokens m)
       (jo_LeaseExpiresAt m) (jo_Workspace m)));
    ("prompt", set_with as_string (fun v m => mkJobOffer (jo_RequestID m) (jo_Model m) (jo_OfferID
       m) v (jo_PriceVersion m) (jo_MaximumSpend m) (jo_MaximumOutputTokens m) (jo_LeaseExpiresAt m)
       (jo_Workspace m)));
    ("price_version", set_with (as_uint 64) (fun v m => mkJobOffer (jo_RequestID m) (jo_Model m)
       (jo_OfferID m) (jo_Prompt m) v (jo_MaximumSpend m) (jo_MaximumOutputTokens m)
       (jo_LeaseExpiresAt m) (jo_Workspace m)));
    ("maximum_spend", set_with (as_uint 64) (fun v m => mkJobOffer (jo_RequestID m) (jo_Model m)
       (jo_OfferID m) (jo_Prompt m) (jo_PriceVersion m) v (jo_MaximumOutputTokens m)
       (jo_LeaseExpiresAt m) (jo_Workspace m)));
    ("maximum_output_tokens", set_with (as_uint 64) (fun v m => mkJobOffer (jo_RequestID m)
       (jo_Model m) (jo_OfferID m) (jo_Prompt m) (jo_PriceVersion m) (jo_MaximumSpend m) v
       (jo_LeaseExpiresAt m) (jo_Workspace m)));
    ("lease_expires_at", set_with as_time (fun v m => mkJobOffer (jo_RequestID m) (jo_Model m)
       (jo_OfferID m) (jo_Prompt m) (jo_PriceVersion m) (jo_MaximumSpend m) (jo_MaximumOutputTokens
       m) v (jo_Workspace m)));
    ("workspace", set_with as_workspace (fun v m => mkJobOffer (jo_RequestID m) (jo_Model m)
       (jo_OfferID m) (jo_Prompt m) (jo_PriceVersion m) (jo_MaximumSpend m) (jo_MaximumOutputTokens
       m) (jo_LeaseExpiresAt m) v)) ].

Definition job_json (m : JobOffer) : json :=
  JObj (member "request_id" (jstr (jo_RequestID m))
        ++ member "model" (jstr (jo_Model m))
        ++ member "offer_id" (jstr (jo_OfferID m))
        ++ member "prompt" (jstr (jo_Prompt m))
        ++ member "price_version" (num (jo_PriceVersion m))
        ++ member "maximum_spend" (num (jo_MaximumSpend m))
        ++ member "maximum_output_tokens" (num (jo_MaximumOutputTokens m))
        ++ member "lease_expires_at" (time_json (jo_LeaseExpiresAt m))
        ++ omit_if (bool_decide (jo_Workspace m = [])) "workspace" (JArr (map file_json (jo_Workspace m)))).

(** At the time [now]. *)
Definition Validatable_JobOffer (now : Z) : Validatable JobOffer := {|
  Validate := JobOfferValidate now;
  Marshal := job_json;
  zero_value := mkJobOffer "" "" "" "" 0 0 0 0 [];
  json_fields := job_fields;
|}.

(** ** Round trips *)
Definition byte_array (n : nat) (bs : bytes) : Prop := length bs = n /\ byte_list bs.

Definition receipt_representable (r : Receipt) : Prop :=
  Forall (byte_array 32) [r_RequestID r; r_SessionID r; r_OfferID r; r_ModelHash r; r_CapabilityHash r;
                          r_InputHash r; r_OutputHash r]
  /\ Forall (byte_array 20) [r_Customer r; r_Provider r; r_SettlementSigner r]
  /\ Forall uint64 [r_PriceVersion r; r_InputTokens r; r_OutputTokens r; r_ComputeMilliseconds r;
                    r_MaximumCharge r; r_TotalCharge r; r_FeeVersion r; r_CompletedAt r; r_Nonce r]
  /\ 0 <= r_FeeBasisPoints r < 2 ^ 16 /\ 0 <= r_Status r < 2 ^ 8.

Lemma as_byte_array_rep n bs : byte_array n bs -> as_byte_array n (of_byte_array bs) = Some bs.
Proof. intros [Hl Hb]. by apply as_byte_array_of. Qed.

(** Decodes the first remaining member of an encoded receipt. *)
Ltac decode_member_of fields :=
  erewrite (decode_member fields);
    [|reflexivity|done
     |first [by apply as_byte_array_rep | by apply as_string_jstr
            |apply as_uint_num; unfold uint64, u64_mod in *; lia]];
  cbv beta;
  cbn [r_RequestID r_SessionID r_Customer r_Provider r_SettlementSigner r_OfferID r_PriceVersion r_ModelHash
       r_CapabilityHash r_InputTokens r_OutputTokens r_ComputeMilliseconds r_MaximumCharge r_TotalCharge
       r_FeeBasisPoints r_FeeVersion r_Status r_CompletedAt r_InputHash r_OutputHash r_Nonce
       jo_RequestID jo_Model jo_OfferID jo_Prompt jo_PriceVersion jo_MaximumSpend jo_MaximumOutputTokens
       jo_LeaseExpiresAt jo_Workspace].

Lemma decode_receipt r : receipt_representable r -> decode_struct receipt_fields (receipt_json r) zero_receipt = Some r.
Proof.
  destruct r as [h1 h2 a1 a2 a3 h3 u1 h4 h5 u2 u3 u4 u5 u6 fee u7 status u8 h6 h7 u9].
  unfold receipt_representable, receipt_json. cbn [decode_struct].
  cbn [r_RequestID r_SessionID r_Customer r_Provider r_SettlementSigner r_OfferID r_PriceVersion r_ModelHash
       r_CapabilityHash r_InputTokens r_OutputTokens r_ComputeMilliseconds r_MaximumCharge r_TotalCharge
       r_FeeBasisPoints r_FeeVersion r_Status r_CompletedAt r_InputHash r_OutputHash r_Nonce].
  rewrite !Forall_cons. intros (Hh & Ha & Hu & Hf & Hs). destruct_and?.
  rewrite <- (app_nil_r (member "nonce" _)). unfold zero_receipt.
  do 21 decode_member_of receipt_fields. done.
Qed.

#[export] Program Instance Codec_ReceiptProposal : Codec ReceiptProposal := {|
  representable m := utf8 (rp_RequestID m) /\ uint64 (rp_ChainID m) /\ byte_array 20 (rp_Contract m)
                     /\ receipt_representable (rp_Receipt m) |}.
Next Obligation.
  intros [id chain contract receipt] (H1 & H2 & H3 & H4). cbn [rp_RequestID rp_ChainID rp_Contract rp_Receipt] in *.
  cbn [Marshal Validatable_ReceiptProposal decode_struct rp_RequestID rp_ChainID rp_Contract rp_Receipt].
  erewrite decode_member; [|reflexivity|done|by apply as_string_jstr].
  erewrite decode_member; [|reflexivity|done|apply as_uint_num; unfold uint64, u64_mod in *; lia].
  erewrite decode_member; [|reflexivity|done|by apply as_byte_array_rep].
  pose proof (decode_receipt receipt H4) as Hr.
  cbn -[receipt_json decode_struct receipt_fields zero_receipt replicate]. by rewrite Hr.
Qed.

(** A time that [Time.MarshalJSON] accepts: its year has at most four digits. *)
Definition json_time (t : Z) : Prop :=
  let '(year, _, _) := civil (t / day_length) in 0 <= year <= 9999.

Definition job_representable (m : JobOffer) : Prop :=
  Forall utf8 [jo_RequestID m; jo_Model m; jo_OfferID m; jo_Prompt m]
  /\ Forall uint64 [jo_PriceVersion m; jo_MaximumSpend m; jo_MaximumOutputTokens m]
  /\ json_time (jo_LeaseExpiresAt m)
  /\ Forall (fun f => utf8 (wf_Path f) /\ utf8 (wf_ContentBase64 f)) (jo_Workspace m).

Lemma as_workspace_of files :
  Forall (fun f => utf8 (wf_Path f) /\ utf8 (wf_ContentBase64 f)) files ->
  as_workspace (JArr (map file_json files)) = Some files.
Proof.
  cbn [as_workspace]. induction 1 as [|[p c] files [Hp Hc] _ IH]; [done|]. cbn [map mapM].
  cbn [wf_Path wf_ContentBase64] in *.
  assert (decode_struct file_fields (file_json (mkWorkspaceFile p c)) (mkWorkspaceFile "" "")
          = Some (mkWorkspaceFile p c)) as ->.
  { unfold file_json. cbn [decode_struct wf_Path wf_ContentBase64].
    rewrite <- (app_nil_r (member "content_base64" _)).
    do 2 (erewrite decode_member; [|reflexivity|done|by apply as_string_jstr]). done. }
  simpl. by rewrite IH.
Qed.

Lemma decode_job m now : job_representable m ->
  decode_struct job_fields (job_json m) (@zero_value _ (Validatable_JobOffer now)) = Some m.
Proof.
  destruct m as [id model offer prompt pv ms mo lease files]. unfold job_representable, job_json.
  cbn [decode_struct zero_value Validatable_JobOffer jo_RequestID jo_Model jo_OfferID jo_Prompt jo_PriceVersion
       jo_MaximumSpend jo_MaximumOutputTokens jo_LeaseExpiresAt jo_Workspace].
  rewrite !Forall_cons. intros (Hs & Hu & Ht & Hw). destruct_and?.
  rewrite <- (app_nil_r (omit_if _ "workspace" _)).
  do 7 decode_member_of job_fields.
  erewrite (decode_member job_fields); [|reflexivity|done|by apply ParseRFC3339_RFC3339Nano].
  erewrite (decode_omit job_fields); [|reflexivity|done|by apply as_workspace_of|intros; bools; by subst].
  done.
Qed.

Definition Codec_JobOffer (now : Z) : @Codec JobOffer (Validatable_JobOffer now) :=
  @Build_Codec JobOffer (Validatable_JobOffer now) job_representable (fun m Hm => decode_job m now Hm).

Lemma JobOfferValidate_later now now' m :
  JobOfferValidate now m = Ok tt -> now' < jo_LeaseExpiresAt m -> JobOfferValidate now' m = Ok tt.
Proof.
  unfold JobOfferValidate. intros Hv Hl. replace (now' <? jo_LeaseExpiresAt m) with true by lia.
  destruct (now <? jo_LeaseExpiresAt m); [done|]. simpl in Hv. by rewrite orb_true_r in Hv.
Qed.

(** A job offer reaches the provider intact: the envelope the broker built
    from a valid offer, written as JSON, is read back by the provider as the
    same offer at any time before its lease expires, the lease time included
    (RFC 3339 text, microseconds), and is refused from then on. *)
Theorem JobOffer_delivered (parse : string -> option json) now now' id (m : JobOffer) e data maximumBytes :
  NewEnvelope (H := Validatable_JobOffer now) id MessageJobOffer m = Ok e ->
  job_representable m -> utf8 id ->
  parse data = Some (envelope_json e) -> 0 < go_len data <= maximumBytes ->
  DecodeEnvelope parse data maximumBytes = Ok e
  /\ DecodeBody (H := Validatable_JobOffer now') e
     = if now' <? jo_LeaseExpiresAt m then Ok m else Err ErrInvalidMessage.
Proof.
  intros He Hm Hid Hp Hl. apply (NewEnvelope_Ok (H := Validatable_JobOffer now)) in He as (-> & Gi & Gt & V).
  split; [by apply DecodeEnvelope_json|]. cbn [Marshal Validatable_JobOffer Validate] in *.
  destruct (now' <? jo_LeaseExpiresAt m) eqn:E.
  - apply (DecodeBody_Marshal (H0 := Codec_JobOffer now')); [done|].
    eapply JobOfferValidate_later; [exact V|lia].
  - unfold DecodeBody. cbn [env_Body json_fields zero_value Validatable_JobOffer].
    pose proof (decode_job m now' Hm) as Hd. cbn [zero_value Validatable_JobOffer] in Hd. rewrite Hd.
    cbn [Validate Validatable_JobOffer mbind result_bind].
    unfold JobOfferValidate. rewrite E. by rewrite orb_true_r.
Qed.

Module Sample.
Definition job : JobOffer :=
  mkJobOffer "0xaa" "llama" "o1" "user: hi" 1 500 4096 (1700000000 * Second + 120000000)
    [mkWorkspaceFile "src/a.go" "aGk="].
Definition envelope : Envelope :=
  mkEnvelope ProtocolVersion MessageJobOffer "offer-0xaa" (Some (job_json job)).
Definition parse (data : string) : option json :=
  if String.eqb data "{offer}" then Some (envelope_json envelope) else None.
End Sample.

Lemma JobOffer_delivered_witness :
  DecodeEnvelope Sample.parse "{offer}" 4096 = Ok Sample.envelope
  /\ DecodeBody (H := Validatable_JobOffer 7) Sample.envelope = Ok Sample.job.
Proof.
  refine (JobOffer_delivered Sample.parse 5 7 "offer-0xaa" Sample.job Sample.envelope "{offer}" 4096 _ _ _ _ _);
    [vm_compute; reflexivity| |reflexivity|reflexivity|split; [reflexivity|discriminate]].
  repeat split; repeat constructor; vm_compute; done.
Defined.
