(* ===== verification/Db.v ===== *)
(** * The broker's database

    The PostgreSQL schema of migrations/*.sql as the sources use it: a table is
    the list of its rows in insertion order, a nullable column an [option], a
    [numeric(78,0)] or [bigint] column an integer, a timestamp an integer.
    Queries are the list functions of the first section, so that
    [UPDATE ... WHERE] is [update], [INSERT] is [insert_row] with the unique keys
    of the table, and [INSERT ... ON CONFLICT] is [insert_or_nothing] or
    [upsert].  A transaction is a function from the database to the new
    database or an error; an error stands for a rollback. *)

From S2P Require Import Prelude GoStrings Receipt.
Open Scope string_scope.
Open Scope list_scope.
Open Scope Z_scope.

(** ** Queries *)
Section Queries.
Context {R : Type}.
Implicit Types (t : list R) (p : R -> bool) (f : R -> R).

Definition select p t : list R := List.filter p t.
Definition exists_row p t : bool := existsb p t.
Definition query_row p t : result R :=
  match select p t with
  | [] => Err ErrNoRows
  | row :: _ => Ok row
  end.
Definition update p f t : list R := map (fun row => if p row then f row else row) t.
Definition affected p t : Z := Z.of_nat (length (select p t)).
Definition delete_rows p t : list R := List.filter (fun row => negb (p row)) t.

(** [INSERT]: [conflict] recognises the rows that violate a unique key. *)
Definition insert_row (conflict : R -> bool) (row : R) t : result (list R) :=
  if exists_row conflict t then Err ErrConstraint else Ok (t ++ [row]).
(** [INSERT ... ON CONFLICT DO NOTHING]; the flag is [RowsAffected == 1]. *)
Definition insert_or_nothing (conflict : R -> bool) (row : R) t : list R * bool :=
  if exists_row conflict t then (t, false) else (t ++ [row], true).
(** [INSERT ... ON CONFLICT (key) DO UPDATE SET ...] *)
Definition upsert (conflict : R -> bool) f (row : R) t : list R :=
  if exists_row conflict t then update conflict f t else t ++ [row].

(** [sum(value) ... WHERE p] *)
Definition sum_where p (value : R -> Z) t : Z :=
  foldr (fun row acc => (if p row then value row else 0) + acc) 0 t.
(** [COALESCE(max(value),0) ... WHERE p] over positive values *)
Definition max_where p (value : R -> Z) t : Z :=
  foldr (fun row acc => if p row then Z.max (value row) acc else acc) 0 t.

(** [ORDER BY key] and [ORDER BY key DESC]; rows with equal keys keep the table's order. *)
Fixpoint insert_by (key : R -> Z) (row : R) (rows : list R) : list R :=
  match rows with
  | [] => [row]
  | other :: rest => if key row <=? key other then row :: rows else other :: insert_by key row rest
  end.
Definition order_by (key : R -> Z) (rows : list R) : list R := foldr (insert_by key) [] rows.
Definition order_desc (key : R -> Z) (rows : list R) : list R := order_by (fun row => - key row) rows.
(** [ORDER BY key LIMIT 1] *)
Fixpoint first_by (key : R -> Z) (rows : list R) : option R :=
  match rows with
  | [] => None
  | row :: rest =>
      match first_by key rest with
      | None => Some row
      | Some other => if key other <? key row then Some other else Some row
      end
  end.
End Queries.

(** [lower(a) = lower(b)] on addresses *)
Definition lower_eq (a b : string) : bool := EqualFold a b.
Definition is_null {A} (o : option A) : bool := match o with None => true | Some _ => false end.

(** A parameter bound to a [bigint]: [pgx] refuses a uint64 beyond the signed range. *)
Definition bigint (n : Z) : result unit := fail_if (i64_max <? n) ErrEncode.
(** A [CHECK] constraint of the table. *)
Definition check (b : bool) : result unit := fail_if (negb b) ErrConstraint.
(** Scanning a NULL into a Go string is an error. *)
Definition scan {A} (o : option A) : result A := of_option o ErrEncode.

(** ** Enumerations of the CHECK constraints *)
Inductive request_state :=
| Created | Reserved | Offered | Accepted | Streaming | Completed | Signed | Submitted | Settled
| Rejected | Expired | Cancelled | Failed.
#[export] Instance request_state_eq_dec : EqDecision request_state.
Proof. solve_decision. Defined.

Definition state_name (s : request_state) : string :=
  match s with
  | Created => "created" | Reserved => "reserved" | Offered => "offered" | Accepted => "accepted"
  | Streaming => "streaming" | Completed => "completed" | Signed => "signed" | Submitted => "submitted"
  | Settled => "settled" | Rejected => "rejected" | Expired => "expired" | Cancelled => "cancelled"
  | Failed => "failed"
  end.
Definition request_states : list request_state :=
  [Created; Reserved; Offered; Accepted; Streaming; Completed; Signed; Submitted; Settled;
   Rejected; Expired; Cancelled; Failed].
Definition state_of_name (name : string) : option request_state :=
  List.find (fun s => String.eqb (state_name s) name) request_states.
Definition state_eqb (a b : request_state) : bool := bool_decide (a = b).

Inductive session_state := StateOpen | StateClosing | StateClosed.
#[export] Instance session_state_eq_dec : EqDecision session_state.
Proof. solve_decision. Defined.
Definition session_state_of_name (name : string) : option session_state :=
  if String.eqb name "open" then Some StateOpen
  else if String.eqb name "closing" then Some StateClosing
  else if String.eqb name "closed" then Some StateClosed
  else None.

Inductive queue_state := QueueCosigned | QueueBroadcasting | QueueSettled | QueueFailed.
#[export] Instance queue_state_eq_dec : EqDecision queue_state.
Proof. solve_decision. Defined.

(** [chain.Receipt], the receipt as the contract's ABI has it. *)
Record ChainReceipt := mkChainReceipt {
  cr_RequestId : Hash; cr_SessionId : Hash; cr_Customer : Address; cr_Provider : Address;
  cr_SettlementSigner : Address; cr_OfferId : Hash; cr_PriceVersion : Z; cr_ModelHash : Hash;
  cr_CapabilityHash : Hash; cr_InputTokens : Z; cr_OutputTokens : Z; cr_ComputeMilliseconds : Z;
  cr_MaximumCharge : Z; cr_TotalCharge : Z; cr_FeeBasisPoints : Z; cr_FeeVersion : Z; cr_Status : Z;
  cr_CompletedAt : Z; cr_InputHash : Hash; cr_OutputHash : Hash; cr_Nonce : Z;
}.

(** [auth.APIKeyScope], stored as JSON in [api_keys.scope_json]. *)
Record KeyScope := mkKeyScope { ks_Models : list string; ks_Endpoints : list string; ks_MaxSpendWei : Z }.

(** ** Rows *)
Record AccountRow := mkAccountRow {
  ac_id : string; ac_wallet : string;
}.

Record MachineRow := mkMachineRow {
  mc_id : string; mc_account : string; mc_name : string; mc_created_at : Z;
  mc_revoked_at : option Z; mc_signer : option string;
}.

Record BackendRow := mkBackendRow {
  bk_id : string; bk_machine : string; bk_kind : string; bk_model : string; bk_enabled : bool;
}.

Record OfferRow := mkOfferRow {
  of_id : string; of_backend : string; of_version : Z; of_input : Z; of_output : Z; of_compute : Z;
}.

Record SessionRow := mkSessionRow {
  se_id : string; se_account : string; se_state : session_state; se_balance : Z; se_created_at : Z;
}.

Record RequestRow := mkRequestRow {
  rq_id : string; rq_session : string; rq_state : request_state; rq_machine : option string;
  rq_offer : option string; rq_price_version : option Z; rq_maximum_spend : option Z;
  rq_maximum_input : option Z; rq_maximum_output : option Z; rq_maximum_compute : option Z;
  rq_offer_hash : option string; rq_model_hash : option string; rq_capability_hash : option string;
  rq_updated_at : Z;
}.

Record RoutingRow := mkRoutingRow {
  rt_machine : string; rt_offer : string; rt_model : string; rt_backend_kind : option string;
  rt_capabilities : list string; rt_offer_hash : option string; rt_model_hash : option string;
  rt_capability_hash : option string; rt_evidence_kind : string; rt_evidence_digest : string;
  rt_metering_mode : string; rt_price_version : Z; rt_confirmed_bond : bool; rt_healthy : bool;
  rt_capacity : Z; rt_maximum_cost : Z; rt_input : Z; rt_output : Z; rt_compute : Z;
  rt_latency : Z; rt_success : Z; rt_reputation : Z; rt_updated_at : Z;
}.

Record ReservationRow := mkReservationRow {
  rv_request : string; rv_session : string; rv_amount : Z; rv_released_at : option Z;
}.

Record ProposalRow := mkProposalRow {
  pr_request : string; pr_session : string; pr_machine : string; pr_offer : string;
  pr_model : string; pr_price_version : Z; pr_input_tokens : Z; pr_output_tokens : Z;
  pr_compute : Z; pr_input_hash : bytes; pr_output_hash : bytes; pr_completed_at : Z;
}.

Record NonceRow := mkNonceRow {
  no_provider : string; no_nonce : Z; no_request : string;
}.

Record OutboxRow := mkOutboxRow {
  ob_id : Z; ob_aggregate_type : string; ob_aggregate_id : string; ob_event_type : string;
  ob_from : string; ob_to : string; ob_published_at : option Z;
}.

Record QueueRow := mkQueueRow {
  qu_request : string; qu_receipt : ChainReceipt; qu_provider_signature : bytes;
  qu_settlement_signature : bytes; qu_state : queue_state; qu_transaction_hash : option string;
  qu_raw_transaction : option bytes; qu_created_at : Z; qu_updated_at : Z;
}.

Record DeviceRow := mkDeviceRow {
  dv_code_hash : bytes; dv_user_code_hash : bytes; dv_machine_name : string;
  dv_account : option string; dv_signer : option string; dv_expires_at : Z;
  dv_approved_at : option Z; dv_exchanged_at : option Z;
}.

Record MachineTokenRow := mkMachineTokenRow {
  mt_machine : string; mt_token_hash : bytes; mt_revoked_at : option Z; mt_created_at : Z;
}.

Record ApiKeyRow := mkApiKeyRow {
  ak_id : string; ak_account : string; ak_key_hash : bytes; ak_scope : KeyScope;
  ak_revoked_at : option Z; ak_created_at : Z;
}.

Record BrowserSessionRow := mkBrowserSessionRow {
  bs_id : string; bs_account : string; bs_token_hash : bytes; bs_expires_at : Z;
  bs_revoked_at : option Z;
}.

Record WalletChallengeRow := mkWalletChallengeRow {
  wc_id : string; wc_address : string; wc_domain : string; wc_origin : string; wc_chain_id : Z;
  wc_nonce : string; wc_message : string; wc_issued_at : Z; wc_expires_at : Z;
  wc_consumed_at : option Z;
}.

Record StreamTicketRow := mkStreamTicketRow {
  st_id : string; st_account : string; st_token_hash : bytes; st_expires_at : Z;
  st_consumed_at : option Z;
}.

Record ChainAccountRow := mkChainAccountRow {
  ca_chain : Z; ca_contract : string; ca_address : string; ca_customer_balance : Z;
  ca_provider_bond : Z; ca_claimable : Z; ca_bond_exit_available_at : Z;
}.

Record ChainOfferRow := mkChainOfferRow {
  co_chain : Z; co_contract : string; co_provider : string; co_offer : string; co_version : Z;
  co_model_hash : string; co_capability_hash : string; co_input : Z; co_output : Z; co_compute : Z;
}.

Record ChainSessionRow := mkChainSessionRow {
  cs_chain : Z; cs_contract : string; cs_session : string; cs_customer : string; cs_allowance : Z;
  cs_spent : Z; cs_expires_at : Z; cs_close_available_at : Z; cs_finalized : bool;
}.

Record ChainSettlementRow := mkChainSettlementRow {
  ct_chain : Z; ct_contract : string; ct_request : string; ct_session : string;
  ct_provider : string; ct_provider_amount : Z; ct_fee_amount : Z; ct_transaction_hash : string;
  ct_block_number : Z;
}.

Record ChainSignerRow := mkChainSignerRow {
  cg_chain : Z; cg_contract : string; cg_provider : string; cg_signer : string; cg_allowed : bool;
}.

Record ChainSlashRow := mkChainSlashRow {
  cl_chain : Z; cl_contract : string; cl_request : string; cl_provider : string; cl_amount : Z;
  cl_block_number : Z; cl_transaction_hash : string; cl_indexed_at : Z;
}.

Record ChainBlockRow := mkChainBlockRow {
  cb_chain : Z; cb_contract : string; cb_number : Z; cb_hash : string; cb_parent_hash : string;
}.

Record ChainCursorRow := mkChainCursorRow {
  cc_chain : Z; cc_contract : string; cc_next_block : Z; cc_last_block : option Z;
  cc_last_block_hash : option string;
}.

Record ChainLogRow := mkChainLogRow {
  cx_chain : Z; cx_contract : string; cx_block_number : Z; cx_block_hash : string;
  cx_transaction_hash : string; cx_log_index : Z;
}.

(** Assignments to single columns. *)
Definition set_mc_revoked_at (v : option Z) (r : MachineRow) : MachineRow :=
  mkMachineRow (mc_id r) (mc_account r) (mc_name r) (mc_created_at r) v (mc_signer r).
Definition set_mc_signer (v : option string) (r : MachineRow) : MachineRow :=
  mkMachineRow (mc_id r) (mc_account r) (mc_name r) (mc_created_at r) (mc_revoked_at r) v.
Definition set_bk_enabled (v : bool) (r : BackendRow) : BackendRow :=
  mkBackendRow (bk_id r) (bk_machine r) (bk_kind r) (bk_model r) v.
Definition set_se_state (v : session_state) (r : SessionRow) : SessionRow :=
  mkSessionRow (se_id r) (se_account r) v (se_balance r) (se_created_at r).
Definition set_se_balance (v : Z) (r : SessionRow) : SessionRow :=
  mkSessionRow (se_id r) (se_account r) (se_state r) v (se_created_at r).
Definition set_se_account (v : string) (r : SessionRow) : SessionRow :=
  mkSessionRow (se_id r) v (se_state r) (se_balance r) (se_created_at r).
Definition set_rq_state (v : request_state) (r : RequestRow) : RequestRow :=
  mkRequestRow (rq_id r) (rq_session r) v (rq_machine r) (rq_offer r) (rq_price_version r)
  (rq_maximum_spend r) (rq_maximum_input r) (rq_maximum_output r) (rq_maximum_compute r)
  (rq_offer_hash r) (rq_model_hash r) (rq_capability_hash r) (rq_updated_at r).
Definition set_rq_updated_at (v : Z) (r : RequestRow) : RequestRow :=
  mkRequestRow (rq_id r) (rq_session r) (rq_state r) (rq_machine r) (rq_offer r)
  (rq_price_version r) (rq_maximum_spend r) (rq_maximum_input r) (rq_maximum_output r)
  (rq_maximum_compute r) (rq_offer_hash r) (rq_model_hash r) (rq_capability_hash r) v.
Definition set_rt_capacity (v : Z) (r : RoutingRow) : RoutingRow :=
  mkRoutingRow (rt_machine r) (rt_offer r) (rt_model r) (rt_backend_kind r) (rt_capabilities r)
  (rt_offer_hash r) (rt_model_hash r) (rt_capability_hash r) (rt_evidence_kind r)
  (rt_evidence_digest r) (rt_metering_mode r) (rt_price_version r) (rt_confirmed_bond r)
  (rt_healthy r) v (rt_maximum_cost r) (rt_input r) (rt_output r) (rt_compute r) (rt_latency r)
  (rt_success r) (rt_reputation r) (rt_updated_at r).
Definition set_rt_healthy (v : bool) (r : RoutingRow) : RoutingRow :=
  mkRoutingRow (rt_machine r) (rt_offer r) (rt_model r) (rt_backend_kind r) (rt_capabilities r)
  (rt_offer_hash r) (rt_model_hash r) (rt_capability_hash r) (rt_evidence_kind r)
  (rt_evidence_digest r) (rt_metering_mode r) (rt_price_version r) (rt_confirmed_bond r) v
  (rt_capacity r) (rt_maximum_cost r) (rt_input r) (rt_output r) (rt_compute r) (rt_latency r)
  (rt_success r) (rt_reputation r) (rt_updated_at r).
Definition set_rt_updated_at (v : Z) (r : RoutingRow) : RoutingRow :=
  mkRoutingRow (rt_machine r) (rt_offer r) (rt_model r) (rt_backend_kind r) (rt_capabilities r)
  (rt_offer_hash r) (rt_model_hash r) (rt_capability_hash r) (rt_evidence_kind r)
  (rt_evidence_digest r) (rt_metering_mode r) (rt_price_version r) (rt_confirmed_bond r)
  (rt_healthy r) (rt_capacity r) (rt_maximum_cost r) (rt_input r) (rt_output r) (rt_compute r)
  (rt_latency r) (rt_success r) (rt_reputation r) v.
Definition set_rv_amount (v : Z) (r : ReservationRow) : ReservationRow :=
  mkReservationRow (rv_request r) (rv_session r) v (rv_released_at r).
Definition set_rv_released_at (v : option Z) (r : ReservationRow) : ReservationRow :=
  mkReservationRow (rv_request r) (rv_session r) (rv_amount r) v.
Definition set_ob_published_at (v : option Z) (r : OutboxRow) : OutboxRow :=
  mkOutboxRow (ob_id r) (ob_aggregate_type r) (ob_aggregate_id r) (ob_event_type r) (ob_from r)
  (ob_to r) v.
Definition set_qu_state (v : queue_state) (r : QueueRow) : QueueRow :=
  mkQueueRow (qu_request r) (qu_receipt r) (qu_provider_signature r) (qu_settlement_signature r) v
  (qu_transaction_hash r) (qu_raw_transaction r) (qu_created_at r) (qu_updated_at r).
Definition set_qu_transaction_hash (v : option string) (r : QueueRow) : QueueRow :=
  mkQueueRow (qu_request r) (qu_receipt r) (qu_provider_signature r) (qu_settlement_signature r)
  (qu_state r) v (qu_raw_transaction r) (qu_created_at r) (qu_updated_at r).
Definition set_qu_raw_transaction (v : option bytes) (r : QueueRow) : QueueRow :=
  mkQueueRow (qu_request r) (qu_receipt r) (qu_provider_signature r) (qu_settlement_signature r)
  (qu_state r) (qu_transaction_hash r) v (qu_created_at r) (qu_updated_at r).
Definition set_qu_updated_at (v : Z) (r : QueueRow) : QueueRow :=
  mkQueueRow (qu_request r) (qu_receipt r) (qu_provider_signature r) (qu_settlement_signature r)
  (qu_state r) (qu_transaction_hash r) (qu_raw_transaction r) (qu_created_at r) v.
Definition set_dv_account (v : option string) (r : DeviceRow) : DeviceRow :=
  mkDeviceRow (dv_code_hash r) (dv_user_code_hash r) (dv_machine_name r) v (dv_signer r)
  (dv_expires_at r) (dv_approved_at r) (dv_exchanged_at r).
Definition set_dv_approved_at (v : option Z) (r : DeviceRow) : DeviceRow :=
  mkDeviceRow (dv_code_hash r) (dv_user_code_hash r) (dv_machine_name r) (dv_account r)
  (dv_signer r) (dv_expires_at r) v (dv_exchanged_at r).
Definition set_dv_exchanged_at (v : option Z) (r : DeviceRow) : DeviceRow :=
  mkDeviceRow (dv_code_hash r) (dv_user_code_hash r) (dv_machine_name r) (dv_account r)
  (dv_signer r) (dv_expires_at r) (dv_approved_at r) v.
Definition set_mt_token_hash (v : bytes) (r : MachineTokenRow) : MachineTokenRow :=
  mkMachineTokenRow (mt_machine r) v (mt_revoked_at r) (mt_created_at r).
Definition set_mt_revoked_at (v : option Z) (r : MachineTokenRow) : MachineTokenRow :=
  mkMachineTokenRow (mt_machine r) (mt_token_hash r) v (mt_created_at r).
Definition set_mt_created_at (v : Z) (r : MachineTokenRow) : MachineTokenRow :=
  mkMachineTokenRow (mt_machine r) (mt_token_hash r) (mt_revoked_at r) v.
Definition set_ak_revoked_at (v : option Z) (r : ApiKeyRow) : ApiKeyRow :=
  mkApiKeyRow (ak_id r) (ak_account r) (ak_key_hash r) (ak_scope r) v (ak_created_at r).
Definition set_bs_revoked_at (v : option Z) (r : BrowserSessionRow) : BrowserSessionRow :=
  mkBrowserSessionRow (bs_id r) (bs_account r) (bs_token_hash r) (bs_expires_at r) v.
Definition set_wc_consumed_at (v : option Z) (r : WalletChallengeRow) : WalletChallengeRow :=
  mkWalletChallengeRow (wc_id r) (wc_address r) (wc_domain r) (wc_origin r) (wc_chain_id r)
  (wc_nonce r) (wc_message r) (wc_issued_at r) (wc_expires_at r) v.
Definition set_st_consumed_at (v : option Z) (r : StreamTicketRow) : StreamTicketRow :=
  mkStreamTicketRow (st_id r) (st_account r) (st_token_hash r) (st_expires_at r) v.
Definition set_ca_customer_balance (v : Z) (r : ChainAccountRow) : ChainAccountRow :=
  mkChainAccountRow (ca_chain r) (ca_contract r) (ca_address r) v (ca_provider_bond r)
  (ca_claimable r) (ca_bond_exit_available_at r).
Definition set_ca_provider_bond (v : Z) (r : ChainAccountRow) : ChainAccountRow :=
  mkChainAccountRow (ca_chain r) (ca_contract r) (ca_address r) (ca_customer_balance r) v
  (ca_claimable r) (ca_bond_exit_available_at r).
Definition set_ca_claimable (v : Z) (r : ChainAccountRow) : ChainAccountRow :=
  mkChainAccountRow (ca_chain r) (ca_contract r) (ca_address r) (ca_customer_balance r)
  (ca_provider_bond r) v (ca_bond_exit_available_at r).
Definition set_ca_bond_exit_available_at (v : Z) (r : ChainAccountRow) : ChainAccountRow :=
  mkChainAccountRow (ca_chain r) (ca_contract r) (ca_address r) (ca_customer_balance r)
  (ca_provider_bond r) (ca_claimable r) v.
Definition set_cs_spent (v : Z) (r : ChainSessionRow) : ChainSessionRow :=
  mkChainSessionRow (cs_chain r) (cs_contract r) (cs_session r) (cs_customer r) (cs_allowance r) v
  (cs_expires_at r) (cs_close_available_at r) (cs_finalized r).
Definition set_cs_close_available_at (v : Z) (r : ChainSessionRow) : ChainSessionRow :=
  mkChainSessionRow (cs_chain r) (cs_contract r) (cs_session r) (cs_customer r) (cs_allowance r)
  (cs_spent r) (cs_expires_at r) v (cs_finalized r).
Definition set_cs_finalized (v : bool) (r : ChainSessionRow) : ChainSessionRow :=
  mkChainSessionRow (cs_chain r) (cs_contract r) (cs_session r) (cs_customer r) (cs_allowance r)
  (cs_spent r) (cs_expires_at r) (cs_close_available_at r) v.
Definition set_cg_allowed (v : bool) (r : ChainSignerRow) : ChainSignerRow :=
  mkChainSignerRow (cg_chain r) (cg_contract r) (cg_provider r) (cg_signer r) v.

(** ** The database *)
Record Db := mkDb {
  accounts : list AccountRow;
  machines : list MachineRow;
  backends : list BackendRow;
  offers : list OfferRow;
  sessions : list SessionRow;
  requests : list RequestRow;
  routing : list RoutingRow;
  reservations : list ReservationRow;
  proposals : list ProposalRow;
  nonces : list NonceRow;
  outbox : list OutboxRow;
  queue : list QueueRow;
  devices : list DeviceRow;
  machine_tokens : list MachineTokenRow;
  api_keys : list ApiKeyRow;
  browser_sessions : list BrowserSessionRow;
  wallet_challenges : list WalletChallengeRow;
  stream_tickets : list StreamTicketRow;
  chain_accounts : list ChainAccountRow;
  chain_offers : list ChainOfferRow;
  chain_sessions : list ChainSessionRow;
  chain_settlements : list ChainSettlementRow;
  chain_signers : list ChainSignerRow;
  chain_slashes : list ChainSlashRow;
  chain_blocks : list ChainBlockRow;
  chain_cursors : list ChainCursorRow;
  chain_logs : list ChainLogRow;
}.

Definition set_accounts (v : list AccountRow) (d : Db) : Db :=
  mkDb v (machines d) (backends d) (offers d) (sessions d) (requests d) (routing d)
  (reservations d) (proposals d) (nonces d) (outbox d) (queue d) (devices d) (machine_tokens d)
  (api_keys d) (browser_sessions d) (wallet_challenges d) (stream_tickets d) (chain_accounts d)
  (chain_offers d) (chain_sessions d) (chain_settlements d) (chain_signers d) (chain_slashes d)
  (chain_blocks d) (chain_cursors d) (chain_logs d).
Definition set_machines (v : list MachineRow) (d : Db) : Db :=
  mkDb (accounts d) v (backends d) (offers d) (sessions d) (requests d) (routing d)
  (reservations d) (proposals d) (nonces d) (outbox d) (queue d) (devices d) (machine_tokens d)
  (api_keys d) (browser_sessions d) (wallet_challenges d) (stream_tickets d) (chain_accounts d)
  (chain_offers d) (chain_sessions d) (chain_settlements d) (chain_signers d) (chain_slashes d)
  (chain_blocks d) (chain_cursors d) (chain_logs d).
Definition set_backends (v : list BackendRow) (d : Db) : Db :=
  mkDb (accounts d) (machines d) v (offers d) (sessions d) (requests d) (routing d)
  (reservations d) (proposals d) (nonces d) (outbox d) (queue d) (devices d) (machine_tokens d)
  (api_keys d) (browser_sessions d) (wallet_challenges d) (stream_tickets d) (chain_accounts d)
  (chain_offers d) (chain_sessions d) (chain_settlements d) (chain_signers d) (chain_slashes d)
  (chain_blocks d) (chain_cursors d) (chain_logs d).
Definition set_offers (v : list OfferRow) (d : Db) : Db :=
  mkDb (accounts d) (machines d) (backends d) v (sessions d) (requests d) (routing d)
  (reservations d) (proposals d) (nonces d) (outbox d) (queue d) (devices d) (machine_tokens d)
  (api_keys d) (browser_sessions d) (wallet_challenges d) (stream_tickets d) (chain_accounts d)
  (chain_offers d) (chain_sessions d) (chain_settlements d) (chain_signers d) (chain_slashes d)
  (chain_blocks d) (chain_cursors d) (chain_logs d).
Definition set_sessions (v : list SessionRow) (d : Db) : Db :=
  mkDb (accounts d) (machines d) (backends d) (offers d) v (requests d) (routing d)
  (reservations d) (proposals d) (nonces d) (outbox d) (queue d) (devices d) (machine_tokens d)
  (api_keys d) (browser_sessions d) (wallet_challenges d) (stream_tickets d) (chain_accounts d)
  (chain_offers d) (chain_sessions d) (chain_settlements d) (chain_signers d) (chain_slashes d)
  (chain_blocks d) (chain_cursors d) (chain_logs d).
Definition set_requests (v : list RequestRow) (d : Db) : Db :=
  mkDb (accounts d) (machines d) (backends d) (offers d) (sessions d) v (routing d)
  (reservations d) (proposals d) (nonces d) (outbox d) (queue d) (devices d) (machine_tokens d)
  (api_keys d) (browser_sessions d) (wallet_challenges d) (stream_tickets d) (chain_accounts d)
  (chain_offers d) (chain_sessions d) (chain_settlements d) (chain_signers d) (chain_slashes d)
  (chain_blocks d) (chain_cursors d) (chain_logs d).
Definition set_routing (v : list RoutingRow) (d : Db) : Db :=
  mkDb (accounts d) (machines d) (backends d) (offers d) (sessions d) (requests d) v
  (reservations d) (proposals d) (nonces d) (outbox d) (queue d) (devices d) (machine_tokens d)
  (api_keys d) (browser_sessions d) (wallet_challenges d) (stream_tickets d) (chain_accounts d)
  (chain_offers d) (chain_sessions d) (chain_settlements d) (chain_signers d) (chain_slashes d)
  (chain_blocks d) (chain_cursors d) (chain_logs d).
Definition set_reservations (v : list ReservationRow) (d : Db) : Db :=
  mkDb (accounts d) (machines d) (backends d) (offers d) (sessions d) (requests d) (routing d) v
  (proposals d) (nonces d) (outbox d) (queue d) (devices d) (machine_tokens d) (api_keys d)
  (browser_sessions d) (wallet_challenges d) (stream_tickets d) (chain_accounts d) (chain_offers d)
  (chain_sessions d) (chain_settlements d) (chain_signers d) (chain_slashes d) (chain_blocks d)
  (chain_cursors d) (chain_logs d).
Definition set_proposals (v : list ProposalRow) (d : Db) : Db :=
  mkDb (accounts d) (machines d) (backends d) (offers d) (sessions d) (requests d) (routing d)
  (reservations d) v (nonces d) (outbox d) (queue d) (devices d) (machine_tokens d) (api_keys d)
  (browser_sessions d) (wallet_challenges d) (stream_tickets d) (chain_accounts d) (chain_offers d)
  (chain_sessions d) (chain_settlements d) (chain_signers d) (chain_slashes d) (chain_blocks d)
  (chain_cursors d) (chain_logs d).
Definition set_nonces (v : list NonceRow) (d : Db) : Db :=
  mkDb (accounts d) (machines d) (backends d) (offers d) (sessions d) (requests d) (routing d)
  (reservations d) (proposals d) v (outbox d) (queue d) (devices d) (machine_tokens d) (api_keys d)
  (browser_sessions d) (wallet_challenges d) (stream_tickets d) (chain_accounts d) (chain_offers d)
  (chain_sessions d) (chain_settlements d) (chain_signers d) (chain_slashes d) (chain_blocks d)
  (chain_cursors d) (chain_logs d).
Definition set_outbox (v : list OutboxRow) (d : Db) : Db :=
  mkDb (accounts d) (machines d) (backends d) (offers d) (sessions d) (requests d) (routing d)
  (reservations d) (proposals d) (nonces d) v (queue d) (devices d) (machine_tokens d) (api_keys d)
  (browser_sessions d) (wallet_challenges d) (stream_tickets d) (chain_accounts d) (chain_offers d)
  (chain_sessions d) (chain_settlements d) (chain_signers d) (chain_slashes d) (chain_blocks d)
  (chain_cursors d) (chain_logs d).
Definition set_queue (v : list QueueRow) (d : Db) : Db :=
  mkDb (accounts d) (machines d) (backends d) (offers d) (sessions d) (requests d) (routing d)
  (reservations d) (proposals d) (nonces d) (outbox d) v (devices d) (machine_tokens d)
  (api_keys d) (browser_sessions d) (wallet_challenges d) (stream_tickets d) (chain_accounts d)
  (chain_offers d) (chain_sessions d) (chain_settlements d) (chain_signers d) (chain_slashes d)
  (chain_blocks d) (chain_cursors d) (chain_logs d).
Definition set_devices (v : list DeviceRow) (d : Db) : Db :=
  mkDb (accounts d) (machines d) (backends d) (offers d) (sessions d) (requests d) (routing d)
  (reservations d) (proposals d) (nonces d) (outbox d) (queue d) v (machine_tokens d) (api_keys d)
  (browser_sessions d) (wallet_challenges d) (stream_tickets d) (chain_accounts d) (chain_offers d)
  (chain_sessions d) (chain_settlements d) (chain_signers d) (chain_slashes d) (chain_blocks d)
  (chain_cursors d) (chain_logs d).
Definition set_machine_tokens (v : list MachineTokenRow) (d : Db) : Db :=
  mkDb (accounts d) (machines d) (backends d) (offers d) (sessions d) (requests d) (routing d)
  (reservations d) (proposals d) (nonces d) (outbox d) (queue d) (devices d) v (api_keys d)
  (browser_sessions d) (wallet_challenges d) (stream_tickets d) (chain_accounts d) (chain_offers d)
  (chain_sessions d) (chain_settlements d) (chain_signers d) (chain_slashes d) (chain_blocks d)
  (chain_cursors d) (chain_logs d).
Definition set_api_keys (v : list ApiKeyRow) (d : Db) : Db :=
  mkDb (accounts d) (machines d) (backends d) (offers d) (sessions d) (requests d) (routing d)
  (reservations d) (proposals d) (nonces d) (outbox d) (queue d) (devices d) (machine_tokens d) v
  (browser_sessions d) (wallet_challenges d) (stream_tickets d) (chain_accounts d) (chain_offers d)
  (chain_sessions d) (chain_settlements d) (chain_signers d) (chain_slashes d) (chain_blocks d)
  (chain_cursors d) (chain_logs d).
Definition set_browser_sessions (v : list BrowserSessionRow) (d : Db) : Db :=
  mkDb (accounts d) (machines d) (backends d) (offers d) (sessions d) (requests d) (routing d)
  (reservations d) (proposals d) (nonces d) (outbox d) (queue d) (devices d) (machine_tokens d)
  (api_keys d) v (wallet_challenges d) (stream_tickets d) (chain_accounts d) (chain_offers d)
  (chain_sessions d) (chain_settlements d) (chain_signers d) (chain_slashes d) (chain_blocks d)
  (chain_cursors d) (chain_logs d).
Definition set_wallet_challenges (v : list WalletChallengeRow) (d : Db) : Db :=
  mkDb (accounts d) (machines d) (backends d) (offers d) (sessions d) (requests d) (routing d)
  (reservations d) (proposals d) (nonces d) (outbox d) (queue d) (devices d) (machine_tokens d)
  (api_keys d) (browser_sessions d) v (stream_tickets d) (chain_accounts d) (chain_offers d)
  (chain_sessions d) (chain_settlements d) (chain_signers d) (chain_slashes d) (chain_blocks d)
  (chain_cursors d) (chain_logs d).
Definition set_stream_tickets (v : list StreamTicketRow) (d : Db) : Db :=
  mkDb (accounts d) (machines d) (backends d) (offers d) (sessions d) (requests d) (routing d)
  (reservations d) (proposals d) (nonces d) (outbox d) (queue d) (devices d) (machine_tokens d)
  (api_keys d) (browser_sessions d) (wallet_challenges d) v (chain_accounts d) (chain_offers d)
  (chain_sessions d) (chain_settlements d) (chain_signers d) (chain_slashes d) (chain_blocks d)
  (chain_cursors d) (chain_logs d).
Definition set_chain_accounts (v : list ChainAccountRow) (d : Db) : Db :=
  mkDb (accounts d) (machines d) (backends d) (offers d) (sessions d) (requests d) (routing d)
  (reservations d) (proposals d) (nonces d) (outbox d) (queue d) (devices d) (machine_tokens d)
  (api_keys d) (browser_sessions d) (wallet_challenges d) (stream_tickets d) v (chain_offers d)
  (chain_sessions d) (chain_settlements d) (chain_signers d) (chain_slashes d) (chain_blocks d)
  (chain_cursors d) (chain_logs d).
Definition set_chain_offers (v : list ChainOfferRow) (d : Db) : Db :=
  mkDb (accounts d) (machines d) (backends d) (offers d) (sessions d) (requests d) (routing d)
  (reservations d) (proposals d) (nonces d) (outbox d) (queue d) (devices d) (machine_tokens d)
  (api_keys d) (browser_sessions d) (wallet_challenges d) (stream_tickets d) (chain_accounts d) v
  (chain_sessions d) (chain_settlements d) (chain_signers d) (chain_slashes d) (chain_blocks d)
  (chain_cursors d) (chain_logs d).
Definition set_chain_sessions (v : list ChainSessionRow) (d : Db) : Db :=
  mkDb (accounts d) (machines d) (backends d) (offers d) (sessions d) (requests d) (routing d)
  (reservations d) (proposals d) (nonces d) (outbox d) (queue d) (devices d) (machine_tokens d)
  (api_keys d) (browser_sessions d) (wallet_challenges d) (stream_tickets d) (chain_accounts d)
  (chain_offers d) v (chain_settlements d) (chain_signers d) (chain_slashes d) (chain_blocks d)
  (chain_cursors d) (chain_logs d).
Definition set_chain_settlements (v : list ChainSettlementRow) (d : Db) : Db :=
  mkDb (accounts d) (machines d) (backends d) (offers d) (sessions d) (requests d) (routing d)
  (reservations d) (proposals d) (nonces d) (outbox d) (queue d) (devices d) (machine_tokens d)
  (api_keys d) (browser_sessions d) (wallet_challenges d) (stream_tickets d) (chain_accounts d)
  (chain_offers d) (chain_sessions d) v (chain_signers d) (chain_slashes d) (chain_blocks d)
  (chain_cursors d) (chain_logs d).
Definition set_chain_signers (v : list ChainSignerRow) (d : Db) : Db :=
  mkDb (accounts d) (machines d) (backends d) (offers d) (sessions d) (requests d) (routing d)
  (reservations d) (proposals d) (nonces d) (outbox d) (queue d) (devices d) (machine_tokens d)
  (api_keys d) (browser_sessions d) (wallet_challenges d) (stream_tickets d) (chain_accounts d)
  (chain_offers d) (chain_sessions d) (chain_settlements d) v (chain_slashes d) (chain_blocks d)
  (chain_cursors d) (chain_logs d).
Definition set_chain_slashes (v : list ChainSlashRow) (d : Db) : Db :=
  mkDb (accounts d) (machines d) (backends d) (offers d) (sessions d) (requests d) (routing d)
  (reservations d) (proposals d) (nonces d) (outbox d) (queue d) (devices d) (machine_tokens d)
  (api_keys d) (browser_sessions d) (wallet_challenges d) (stream_tickets d) (chain_accounts d)
  (chain_offers d) (chain_sessions d) (chain_settlements d) (chain_signers d) v (chain_blocks d)
  (chain_cursors d) (chain_logs d).
Definition set_chain_blocks (v : list ChainBlockRow) (d : Db) : Db :=
  mkDb (accounts d) (machines d) (backends d) (offers d) (sessions d) (requests d) (routing d)
  (reservations d) (proposals d) (nonces d) (outbox d) (queue d) (devices d) (machine_tokens d)
  (api_keys d) (browser_sessions d) (wallet_challenges d) (stream_tickets d) (chain_accounts d)
  (chain_offers d) (chain_sessions d) (chain_settlements d) (chain_signers d) (chain_slashes d) v
  (chain_cursors d) (chain_logs d).
Definition set_chain_cursors (v : list ChainCursorRow) (d : Db) : Db :=
  mkDb (accounts d) (machines d) (backends d) (offers d) (sessions d) (requests d) (routing d)
  (reservations d) (proposals d) (nonces d) (outbox d) (queue d) (devices d) (machine_tokens d)
  (api_keys d) (browser_sessions d) (wallet_challenges d) (stream_tickets d) (chain_accounts d)
  (chain_offers d) (chain_sessions d) (chain_settlements d) (chain_signers d) (chain_slashes d)
  (chain_blocks d) v (chain_logs d).
Definition set_chain_logs (v : list ChainLogRow) (d : Db) : Db :=
  mkDb (accounts d) (machines d) (backends d) (offers d) (sessions d) (requests d) (routing d)
  (reservations d) (proposals d) (nonces d) (outbox d) (queue d) (devices d) (machine_tokens d)
  (api_keys d) (browser_sessions d) (wallet_challenges d) (stream_tickets d) (chain_accounts d)
  (chain_offers d) (chain_sessions d) (chain_settlements d) (chain_signers d) (chain_slashes d)
  (chain_blocks d) (chain_cursors d) v.

(** Reads of a table through assignments to the others. *)
Ltac db_simpl :=
  cbn [accounts machines backends offers sessions requests routing reservations proposals nonces
    outbox queue devices machine_tokens api_keys browser_sessions wallet_challenges stream_tickets
    chain_accounts chain_offers chain_sessions chain_settlements chain_signers chain_slashes
    chain_blocks chain_cursors chain_logs set_accounts set_machines set_backends set_offers
    set_sessions set_requests set_routing set_reservations set_proposals set_nonces set_outbox
    set_queue set_devices set_machine_tokens set_api_keys set_browser_sessions
    set_wallet_challenges set_stream_tickets set_chain_accounts set_chain_offers
    set_chain_sessions set_chain_settlements set_chain_signers set_chain_slashes set_chain_blocks
    set_chain_cursors set_chain_logs].

Definition empty_db : Db :=
  mkDb [] [] [] [] [] [] [] [] [] [] [] [] [] [] [] [] [] [] [] [] [] [] [] [] [] [] [].

(** ** Lemmas on queries *)
Section QueryLemmas.
Context {R : Type}.
Implicit Types (t : list R) (p q : R -> bool) (f : R -> R) (value : R -> Z).

(** What a row adds to [sum_where p value]. *)
Definition share p value (row : R) : Z := if p row then value row else 0.

Lemma select_spec p t row : row ∈ select p t <-> row ∈ t /\ p row = true.
Proof. unfold select. rewrite !list_elem_of_In. apply filter_In. Qed.

Lemma query_row_Ok p t row : query_row p t = Ok row -> row ∈ t /\ p row = true.
Proof.
  unfold query_row. intros H. destruct (select p t) as [|r rest] eqn:E; [done|]. injection H as ->.
  apply select_spec. rewrite E. apply elem_of_cons. by left.
Qed.

Lemma query_row_Err p t e : query_row p t = Err e -> forall row, row ∈ t -> p row = false.
Proof.
  unfold query_row. intros H row Hr. destruct (select p t) as [|r rest] eqn:E; [|done].
  destruct (p row) eqn:P; [|done].
  assert (row ∈ select p t) as F by (by apply select_spec). rewrite E in F. by apply elem_of_nil in F.
Qed.

Lemma exists_row_spec p t : exists_row p t = true <-> exists row, row ∈ t /\ p row = true.
Proof.
  unfold exists_row. rewrite existsb_exists. by setoid_rewrite list_elem_of_In.
Qed.

Lemma exists_row_false p t : exists_row p t = false <-> forall row, row ∈ t -> p row = false.
Proof.
  split.
  - intros H row Hr. destruct (p row) eqn:P; [|done].
    rewrite (proj2 (exists_row_spec p t)) in H by eauto. done.
  - intros H. destruct (exists_row p t) eqn:E; [|done].
    apply exists_row_spec in E as (row & Hr & P). by rewrite H in P.
Qed.

Lemma elem_of_update p f t row :
  row ∈ update p f t <-> exists old, old ∈ t /\ row = (if p old then f old else old).
Proof.
  unfold update. rewrite list_elem_of_In, in_map_iff. setoid_rewrite list_elem_of_In.
  split; intros (old & H1 & H2); eauto.
Qed.

(** The first row of an updated selection. *)
Lemma query_row_update p f t :
  (forall row, p row = true -> p (f row) = true) ->
  query_row p (update p f t) = f <$> query_row p t.
Proof.
  intros H. unfold query_row, select, update. induction t as [|row t IH]; [done|]. simpl.
  destruct (p row) eqn:P; [by rewrite H|]. by rewrite P.
Qed.

Lemma query_row_unique {K} (key : R -> K) p t row :
  NoDup (map key t) -> row ∈ t -> p row = true -> (forall r, p r = true -> key r = key row) ->
  query_row p t = Ok row.
Proof.
  intros Hn Hr Hp Hk. destruct (query_row p t) as [r|e] eqn:E.
  - apply query_row_Ok in E as [Hr' Hp']. f_equal. revert Hn Hr Hr' Hk Hp Hp'. clear.
    induction t as [|x t IH]; simpl; intros Hn Hr Hr' Hk Hp Hp'; [by apply elem_of_nil in Hr|].
    apply NoDup_cons in Hn as [Hx Hn].
    assert (Hout : forall y, y ∈ t -> key y <> key x).
    { intros y Hy Ey. apply Hx. rewrite <- Ey, list_elem_of_In. apply in_map. by apply list_elem_of_In. }
    apply elem_of_cons in Hr as [->|Hr]; apply elem_of_cons in Hr' as [->|Hr']; auto.
    + exfalso. apply (Hout r Hr'). by apply Hk.
    + exfalso. apply (Hout row Hr). symmetry. by apply Hk.
  - exfalso. rewrite (query_row_Err p t e E row Hr) in Hp. done.
Qed.

Lemma insert_row_Ok conflict row t t' :
  insert_row conflict row t = Ok t' -> t' = t ++ [row] /\ forall r, r ∈ t -> conflict r = false.
Proof.
  unfold insert_row. intros H. destruct (exists_row conflict t) eqn:E; [done|]. injection H as <-.
  split; [done|]. by apply exists_row_false.
Qed.

Lemma map_update {K} (key : R -> K) p f t :
  (forall row, row ∈ t -> p row = true -> key (f row) = key row) ->
  map key (update p f t) = map key t.
Proof.
  intros H. unfold update. rewrite map_map. apply map_ext_in. intros row Hr. apply list_elem_of_In in Hr.
  destruct (p row) eqn:P; auto.
Qed.

Lemma sum_where_cons p value row t : sum_where p value (row :: t) = share p value row + sum_where p value t.
Proof. done. Qed.

Lemma sum_where_app p value t u : sum_where p value (t ++ u) = sum_where p value t + sum_where p value u.
Proof. induction t as [|row t IH]; [done|]. cbn [app]. rewrite !sum_where_cons, IH. lia. Qed.

Lemma sum_where_mono p value (g : R -> R) t :
  (forall row, row ∈ t -> share p value (g row) <= share p value row) ->
  sum_where p value (map g t) <= sum_where p value t.
Proof.
  induction t as [|row t IH]; intros H; [done|]. cbn [map]. rewrite !sum_where_cons.
  pose proof (H row ltac:(apply elem_of_cons; auto)).
  assert (sum_where p value (map g t) <= sum_where p value t)
    by (apply IH; intros; apply H, elem_of_cons; auto).
  lia.
Qed.

(** One row stops counting. *)
Lemma sum_where_drop p value (g : R -> R) t row :
  row ∈ t -> (forall r, r ∈ t -> share p value (g r) <= share p value r) -> share p value (g row) <= 0 ->
  sum_where p value (map g t) + share p value row <= sum_where p value t.
Proof.
  induction t as [|r t IH]; intros Hin H Hz; [by apply elem_of_nil in Hin|].
  cbn [map]. rewrite !sum_where_cons.
  assert (Hle : forall r, r ∈ t -> share p value (g r) <= share p value r)
    by (intros; apply H, elem_of_cons; auto).
  pose proof (H r ltac:(apply elem_of_cons; auto)) as Hr.
  apply elem_of_cons in Hin as [<-|Hin].
  - pose proof (sum_where_mono p value g t Hle) as Hm. lia.
  - specialize (IH Hin Hle Hz). lia.
Qed.

Lemma sum_where_zero p value t : (forall row, row ∈ t -> p row = false) -> sum_where p value t = 0.
Proof.
  induction t as [|row t IH]; intros H; [done|]. rewrite sum_where_cons. unfold share.
  rewrite H by (apply elem_of_cons; auto).
  rewrite IH by (intros; apply H, elem_of_cons; auto). done.
Qed.

Lemma sum_where_nonneg p value t : (forall row, row ∈ t -> 0 <= value row) -> 0 <= sum_where p value t.
Proof.
  induction t as [|row t IH]; intros H; [done|]. rewrite sum_where_cons. unfold share.
  pose proof (H row ltac:(apply elem_of_cons; auto)).
  assert (0 <= sum_where p value t) by (apply IH; intros; apply H, elem_of_cons; auto).
  destruct (p row); lia.
Qed.

(** A unique key selects one row. *)
Lemma unique_key {K} (key : R -> K) t a b :
  NoDup (map key t) -> a ∈ t -> b ∈ t -> key a = key b -> a = b.
Proof.
  induction t as [|r t IH]; simpl; intros Hn Ha Hb Hk; [by apply elem_of_nil in Ha|].
  apply NoDup_cons in Hn as [Hr Hn].
  assert (Hout : forall x, x ∈ t -> key x <> key r).
  { intros x Hx E. apply Hr. rewrite <- E, list_elem_of_In. apply in_map. by apply list_elem_of_In. }
  apply elem_of_cons in Ha as [->|Ha]; apply elem_of_cons in Hb as [->|Hb]; auto.
  - exfalso. by apply (Hout b).
  - exfalso. by apply (Hout a).
Qed.

Lemma NoDup_snoc {K} (key : R -> K) t row :
  NoDup (map key t) -> (forall r, r ∈ t -> key r <> key row) -> NoDup (map key (t ++ [row])).
Proof.
  intros Hn Hf. rewrite map_app. apply NoDup_app. split_and!; [done| |by apply NoDup_singleton].
  intros k Hk Hk'. simpl in Hk'. apply list_elem_of_singleton in Hk' as ->.
  apply list_elem_of_In, in_map_iff in Hk as (r & E & Hr). apply list_elem_of_In in Hr. by apply (Hf r).
Qed.
End QueryLemmas.

Lemma numeric_text z : SetString10 (BigString z) = Some z.
Proof. apply SetString10_BigString. Qed.
