(* ===== verification/Hex.v ===== *)
(** * Hexadecimal text

    [encoding/hex.DecodeString], the two hand-written encoders of the sources
    ([hashHex] in chain/settlement.go, [addressHex] in store/signers.go), and
    the interface to go-ethereum's own conversions; and SHA-256, the standard
    library's hash on lists of bytes, executable: the broker stores the digests
    of bearer credentials only. *)

From S2P Require Import Prelude GoStrings Receipt.
From Stdlib Require Import Ascii.
Open Scope string_scope.
Open Scope list_scope.
Open Scope Z_scope.

(** go-ethereum (package [common] and [crypto.Keccak256Hash]). *)
Class Ethereum := {
  Keccak256Hex : string -> string;       (* Keccak256Hash([]byte(s)).Hex() *)
  IsHexAddress : string -> bool;
  HexToAddress : string -> Address;
  HexToHash : string -> Hash;
  HashHex : Hash -> string;              (* Hash.Hex() *)
  AddressHex : Address -> string;        (* Address.Hex(), checksummed *)
}.

(** The characters of [digits], the constant of both encoders. *)
Definition hex_digit (n : Z) : ascii := if n <? 10 then of_byte (48 + n) else of_byte (87 + n).

Fixpoint hex_bytes (value : bytes) : string :=
  match value with
  | [] => ""
  | item :: rest =>
      String (hex_digit (Z.shiftr item 4)) (String (hex_digit (Z.land item 15)) (hex_bytes rest))
  end.

Definition hashHex (value : Hash) : string := "0x" +:+ hex_bytes value.
Definition addressHex (value : Address) : string := "0x" +:+ hex_bytes value.

(** [encoding/hex.DecodeString] *)
Definition hex_value (c : ascii) : option Z :=
  let n := byte_of c in
  if (48 <=? n) && (n <=? 57) then Some (n - 48)
  else if (97 <=? n) && (n <=? 102) then Some (n - 87)
  else if (65 <=? n) && (n <=? 70) then Some (n - 55)
  else None.

Fixpoint DecodeString (s : string) : option bytes :=
  match s with
  | "" => Some []
  | String a (String b rest) =>
      match hex_value a, hex_value b, DecodeString rest with
      | Some x, Some y, Some tail => Some (x * 16 + y :: tail)
      | _, _, _ => None
      end
  | String _ "" => None
  end.

(** ** Lemmas *)
Lemma hex_value_digit n : 0 <= n < 16 -> hex_value (hex_digit n) = Some n.
Proof.
  intros H. assert (forallb (fun k => bool_decide (hex_value (hex_digit (Z.of_nat k)) = Some (Z.of_nat k)))
                      (seq 0 16) = true) as A by (vm_compute; reflexivity).
  rewrite forallb_forall in A. specialize (A (Z.to_nat n)). rewrite in_seq, Z2Nat.id in A by lia.
  specialize (A ltac:(lia)). by apply bool_decide_eq_true in A.
Qed.

Lemma nibbles item : 0 <= item < 256 ->
  0 <= Z.shiftr item 4 < 16 /\ 0 <= Z.land item 15 < 16 /\ Z.shiftr item 4 * 16 + Z.land item 15 = item.
Proof.
  intros H. rewrite Z.shiftr_div_pow2 by lia. change 15 with (Z.ones 4). rewrite Z.land_ones by lia.
  change (2 ^ 4) with 16. pose proof (Z.div_mod item 16 ltac:(lia)).
  pose proof (Z.mod_pos_bound item 16 ltac:(lia)). split_and!; try lia.
Qed.

(** Decoding the digits of a byte array gives it back. *)
Lemma DecodeString_hex_bytes value :
  Forall (fun b => 0 <= b < 256) value -> DecodeString (hex_bytes value) = Some value.
Proof.
  induction 1 as [|item rest Hi _ IH]; [done|]. cbn [hex_bytes DecodeString].
  destruct (nibbles item Hi) as (H1 & H2 & H3).
  rewrite (hex_value_digit _ H1), (hex_value_digit _ H2), IH. by rewrite H3.
Qed.

Lemma hex_bytes_length value : String.length (hex_bytes value) = (2 * length value)%nat.
Proof. induction value as [|item rest IH]; [done|]. cbn [hex_bytes String.length length]. lia. Qed.

(** The encoders are injective on arrays. *)
Lemma hashHex_inj a b :
  Forall (fun x => 0 <= x < 256) a -> Forall (fun x => 0 <= x < 256) b -> hashHex a = hashHex b -> a = b.
Proof.
  intros Ha Hb H. apply (f_equal (drop_bytes 2)) in H.
  change (hex_bytes a = hex_bytes b) in H. apply (f_equal DecodeString) in H. rewrite !DecodeString_hex_bytes in H by done. by injection H.
Qed.

(** ** SHA-256 (crypto/sha256) *)
Definition w32 (z : Z) : Z := z mod u32_mod.
Definition rotr (n x : Z) : Z := Z.lor (Z.shiftr x n) (w32 (Z.shiftl x (32 - n))).
Definition Ch (x y z : Z) : Z := Z.lxor (Z.land x y) (Z.land (u32_mod - 1 - x) z).
Definition Maj (x y z : Z) : Z := Z.lxor (Z.lxor (Z.land x y) (Z.land x z)) (Z.land y z).
Definition Sigma0 (x : Z) : Z := Z.lxor (Z.lxor (rotr 2 x) (rotr 13 x)) (rotr 22 x).
Definition Sigma1 (x : Z) : Z := Z.lxor (Z.lxor (rotr 6 x) (rotr 11 x)) (rotr 25 x).
Definition sigma0 (x : Z) : Z := Z.lxor (Z.lxor (rotr 7 x) (rotr 18 x)) (Z.shiftr x 3).
Definition sigma1 (x : Z) : Z := Z.lxor (Z.lxor (rotr 17 x) (rotr 19 x)) (Z.shiftr x 10).

Definition round_constants : list Z :=
  [1116352408; 1899447441; 3049323471; 3921009573; 961987163; 1508970993; 2453635748; 2870763221;
   3624381080; 310598401; 607225278; 1426881987; 1925078388; 2162078206; 2614888103; 3248222580;
   3835390401; 4022224774; 264347078; 604807628; 770255983; 1249150122; 1555081692; 1996064986;
   2554220882; 2821834349; 2952996808; 3210313671; 3336571891; 3584528711; 113926993; 338241895;
   666307205; 773529912; 1294757372; 1396182291; 1695183700; 1986661051; 2177026350; 2456956037;
   2730485921; 2820302411; 3259730800; 3345764771; 3516065817; 3600352804; 4094571909; 275423344;
   430227734; 506948616; 659060556; 883997877; 958139571; 1322822218; 1537002063; 1747873779;
   1955562222; 2024104815; 2227730452; 2361852424; 2428436474; 2756734187; 3204031479;
   3329325298].
Definition initial_state : list Z :=
  [1779033703; 3144134277; 1013904242; 2773480762; 1359893119; 2600822924; 528734635; 1541459225].

(** Big-endian words of a block. *)
Fixpoint words_of (block : list Z) : list Z :=
  match block with
  | a :: b :: c :: d :: rest => ((a * 256 + b) * 256 + c) * 256 + d :: words_of rest
  | _ => []
  end.
Definition bytes_of_word (w : Z) : list Z :=
  [Z.shiftr w 24 mod 256; Z.shiftr w 16 mod 256; Z.shiftr w 8 mod 256; w mod 256].

(** The message schedule, last word first. *)
Fixpoint extend (n : nat) (rev_words : list Z) : list Z :=
  match n with
  | O => rev_words
  | S n' =>
      let w := w32 (sigma1 (nth 1 rev_words 0) + nth 6 rev_words 0
                    + sigma0 (nth 14 rev_words 0) + nth 15 rev_words 0) in
      extend n' (w :: rev_words)
  end.

Definition sha_round (s : list Z) (kw : Z * Z) : list Z :=
  match s with
  | [a; b; c; d; e; f; g; h] =>
      let t1 := h + Sigma1 e + Ch e f g + fst kw + snd kw in
      let t2 := Sigma0 a + Maj a b c in
      [w32 (t1 + t2); a; b; c; w32 (d + t1); e; f; g]
  | _ => s
  end.

Definition compress (state block : list Z) : list Z :=
  let schedule := rev (extend 48 (rev (words_of block))) in
  let final := fold_left sha_round (combine round_constants schedule) state in
  map (fun p => w32 (fst p + snd p)) (combine state final).

Fixpoint compress_blocks (blocks : nat) (state message : list Z) : list Z :=
  match blocks with
  | O => state
  | S n => compress_blocks n (compress state (firstn 64 message)) (skipn 64 message)
  end.

Definition sha_pad (message : list Z) : list Z :=
  let len := Z.of_nat (length message) in
  let zeros := (55 - len) mod 64 in
  message ++ [128] ++ replicate (Z.to_nat zeros) 0
    ++ bytes_of_word (Z.shiftr (8 * len) 32) ++ bytes_of_word (8 * len).

Definition Sum256 (message : list Z) : list Z :=
  let padded := sha_pad message in
  flat_map bytes_of_word (compress_blocks (length padded / 64) initial_state padded).

(** The test vector of FIPS 180-4 for the message [abc], and the empty message. *)
Example Sum256_abc : words_of (Sum256 [97; 98; 99]) =
  [0xba7816bf; 0x8f01cfea; 0x414140de; 0x5dae2223; 0xb00361a3; 0x96177a9c; 0xb410ff61; 0xf20015ad].
Proof. vm_compute. reflexivity. Qed.
Example Sum256_empty : words_of (Sum256 []) =
  [0xe3b0c442; 0x98fc1c14; 0x9afbf4c8; 0x996fb924; 0x27ae41e4; 0x649b934c; 0xa495991b; 0x7852b855].
Proof. vm_compute. reflexivity. Qed.
