(* ===== verification/Auth.v ===== *)
(** * Authentication (server/internal/auth)

    device.go, browser.go and stream.go: the device flow that registers a
    provider's machine, machine and API-key bearer tokens, wallet login and
    stream tickets.  [now] is the clock of the service in microseconds, random
    bytes are arguments, and a secret is stored as its SHA-256 digest. *)

From S2P Require Import Prelude GoStrings Wire Receipt Messages Db Hex GoTime.
From Stdlib Require Import Ascii.
Open Scope string_scope.
Open Scope list_scope.
Open Scope Z_scope.

(** ** Tokens *)
(** [base64.RawURLEncoding]: the URL alphabet, no padding. *)
Definition url_char (c : ascii) : ascii :=
  if Ascii.eqb c "+" then "-"%char else if Ascii.eqb c "/" then "_"%char else c.
Fixpoint raw_url (s : string) : string :=
  match s with
  | "" => ""
  | String c r => if is_pad c then raw_url r else String (url_char c) (raw_url r)
  end.
Definition randomToken (random : bytes) : string := raw_url (b64_encode random).
Definition randomID (prefix : string) (random : bytes) : string :=
  prefix +:+ "_" +:+ randomToken random.

Definition digest (value : string) : bytes := Sum256 (string_bytes value).

(** The identifier and the secret, when both are non-empty. *)
Definition splitCredential (token : string) : option (string * string) :=
  match CutByte token "." with
  | Some (id, secret) =>
      if bool_decide (id = "") || bool_decide (secret = "") then None else Some (id, secret)
  | None => None
  end.
Definition credential (id secret : string) : string := id +:+ "." +:+ secret.
(** [subtle.ConstantTimeCompare(a, b) == 1] *)
Definition ConstantTimeCompare (a b : bytes) : bool := bool_decide (a = b).

(** ** Device authorization *)
Record DeviceAuthorization := mkDeviceAuthorization {
  da_DeviceCode : string; da_UserCode : string; da_AccountID : string; da_SignerAddress : string;
  da_ExpiresAt : Z;
}.
Record AuthMachine := mkAuthMachine {
  am_ID : string; am_AccountID : string; am_Name : string; am_SignerAddress : string;
}.
Record MachinePrincipal := mkMachinePrincipal { mp_MachineID : string; mp_AccountID : string }.

Section Device.
Context `{Ethereum}.

Definition CreateDeviceAuthorization (now : Z) (device_random user_random : bytes)
    (machineName signerAddress : string) (lifetime : Z) (d : Db) : result (DeviceAuthorization * Db) :=
  if is_blank machineName || negb (IsHexAddress signerAddress)
     || AddressIsZero (HexToAddress signerAddress) || (lifetime <=? 0)
  then Err (ErrNew "machine name, signer address, and positive lifetime are required")
  else
    let signerAddress := AddressHex (HexToAddress signerAddress) in
    let deviceCode := randomToken device_random in
    let userCode := ToUpper (hex_bytes user_random) in
    let expiresAt := now + lifetime in
    rows ← insert_row (fun r => bool_decide (dv_code_hash r = digest deviceCode)
                                || bool_decide (dv_user_code_hash r = digest userCode))
             (mkDeviceRow (digest deviceCode) (digest userCode) machineName None (Some signerAddress)
                expiresAt None None) (devices d);
    Ok (mkDeviceAuthorization deviceCode userCode "" signerAddress expiresAt, set_devices rows d).
End Device.

Definition device_with_code (deviceCode : string) (r : DeviceRow) : bool :=
  bool_decide (dv_code_hash r = digest deviceCode).
Definition device_with_user_code (userCode : string) (r : DeviceRow) : bool :=
  bool_decide (dv_user_code_hash r = digest (ToUpper userCode)).

Definition find_or {A} (r : result A) (e : error) : result A :=
  match r with Ok a => Ok a | Err _ => Err e end.

Definition PollDeviceAuthorization (now : Z) (deviceCode : string) (d : Db) : result DeviceAuthorization :=
  row ← find_or (query_row (device_with_code deviceCode) (devices d)) ErrInvalidCredential;
  if negb (now <? dv_expires_at row) then Err ErrAuthorizationExpired
  else if negb (is_null (dv_exchanged_at row)) then Err ErrAuthorizationConsumed
  else
    match dv_approved_at row, dv_account row with
    | Some _, Some accountID => Ok (mkDeviceAuthorization "" "" accountID "" (dv_expires_at row))
    | _, _ => Err ErrAuthorizationPending
    end.

Definition approvable (now : Z) (userCode : string) (r : DeviceRow) : bool :=
  device_with_user_code userCode r && is_null (dv_approved_at r) && is_null (dv_exchanged_at r)
  && (now <? dv_expires_at r).

Definition ApproveDeviceAuthorization (now : Z) (userCode accountID : string) (d : Db) : result Db :=
  let rows := affected (approvable now userCode) (devices d) in
  _ ← check ((rows =? 0) || exists_row (fun r => String.eqb (ac_id r) accountID) (accounts d));
  if negb (rows =? 1) then Err ErrInvalidCredential
  else Ok (set_devices (update (approvable now userCode)
             (fun r => set_dv_approved_at (Some now) (set_dv_account (Some accountID) r)) (devices d)) d).

(** The unique index on the signer of machines that are not revoked. *)
Definition signer_taken (id signer : string) (d : Db) : bool :=
  exists_row (fun m => negb (String.eqb (mc_id m) id) && is_null (mc_revoked_at m)
                       && match mc_signer m with Some s => lower_eq s signer | None => false end) (machines d).

(** [INSERT INTO machines ... ON CONFLICT (account_id, name) DO UPDATE SET signer_address=..., revoked_at=NULL RETURNING id] *)
Definition register_machine (now : Z) (id account name signer : string) (d : Db) : result (string * Db) :=
  let key m := String.eqb (mc_account m) account && String.eqb (mc_name m) name in
  _ ← check (exists_row (fun a => String.eqb (ac_id a) account) (accounts d));
  match select key (machines d) with
  | existing :: _ =>
      _ ← check (negb (signer_taken (mc_id existing) signer d));
      Ok (mc_id existing,
          set_machines (update key (fun m => set_mc_revoked_at None (set_mc_signer (Some signer) m))
                          (machines d)) d)
  | [] =>
      _ ← check (negb (signer_taken id signer d));
      rows ← insert_row (fun m => String.eqb (mc_id m) id)
               (mkMachineRow id account name now None (Some signer)) (machines d);
      Ok (id, set_machines rows d)
  end.

Definition store_machine_token (now : Z) (machineID secret : string) (d : Db) : Db :=
  set_machine_tokens
    (upsert (fun r => String.eqb (mt_machine r) machineID)
       (fun r => set_mt_created_at now (set_mt_revoked_at None (set_mt_token_hash (digest secret) r)))
       (mkMachineTokenRow machineID (digest secret) None now) (machine_tokens d)) d.

Definition ExchangeDeviceAuthorization (now : Z) (id_random secret_random : bytes) (deviceCode : string)
    (d : Db) : result (AuthMachine * string * Db) :=
  row ← find_or (query_row (device_with_code deviceCode) (devices d)) ErrInvalidCredential;
  signer ← scan (dv_signer row);
  if negb (is_null (dv_exchanged_at row)) then Err ErrAuthorizationConsumed
  else if negb (now <? dv_expires_at row) then Err ErrAuthorizationExpired
  else
    match dv_account row with
    | None => Err ErrAuthorizationPending
    | Some accountID =>
        let secret := randomToken secret_random in
        '(machineID, d) ← register_machine now (randomID "mach" id_random) accountID
                            (dv_machine_name row) signer d;
        let d := store_machine_token now machineID secret d in
        let d := set_devices (update (device_with_code deviceCode) (set_dv_exchanged_at (Some now))
                                (devices d)) d in
        Ok (mkAuthMachine machineID accountID (dv_machine_name row) signer,
            credential machineID secret, d)
    end.

(** The join [machine_tokens mt JOIN machines m], both not revoked. *)
Definition AuthenticateMachine (token : string) (d : Db) : result MachinePrincipal :=
  match splitCredential token with
  | None => Err ErrInvalidCredential
  | Some (id, secret) =>
      match query_row (fun r => String.eqb (mt_machine r) id && is_null (mt_revoked_at r)) (machine_tokens d),
            query_row (fun m => String.eqb (mc_id m) id && is_null (mc_revoked_at m)) (machines d) with
      | Ok token_row, Ok machine =>
          if negb (ConstantTimeCompare (mt_token_hash token_row) (digest secret))
          then Err ErrInvalidCredential
          else Ok (mkMachinePrincipal (mc_id machine) (mc_account machine))
      | _, _ => Err ErrInvalidCredential
      end
  end.

Definition RevokeMachine (now : Z) (machineID : string) (d : Db) : Db :=
  set_machines (update (fun m => String.eqb (mc_id m) machineID) (set_mc_revoked_at (Some now))
                  (machines d)) d.

(** ** API keys *)
Record APIKeyPrincipal := mkAPIKeyPrincipal { kp_KeyID : string; kp_AccountID : string; kp_Scope : KeyScope }.

Definition CreateAPIKey (now : Z) (id_random secret_random : bytes) (accountID : string) (scope : KeyScope)
    (d : Db) : result (string * string * Db) :=
  if bool_decide (ks_Endpoints scope = []) || (ks_MaxSpendWei scope =? 0)
  then Err (ErrNew "endpoint and spend scopes are required")
  else
    let id := randomID "key" id_random in
    let secret := randomToken secret_random in
    _ ← check (exists_row (fun a => String.eqb (ac_id a) accountID) (accounts d));
    rows ← insert_row (fun r => String.eqb (ak_id r) id || bool_decide (ak_key_hash r = digest secret))
             (mkApiKeyRow id accountID (digest secret) scope None now) (api_keys d);
    Ok (id, credential id secret, set_api_keys rows d).

Definition allowsModel (models : list string) (model : string) : bool :=
  bool_decide (models = []) || contains models model.

Definition AuthorizeAPIKey (token model endpoint : string) (spend : Z) (d : Db) : result APIKeyPrincipal :=
  match splitCredential token with
  | None => Err ErrInvalidCredential
  | Some (id, secret) =>
      match query_row (fun r => String.eqb (ak_id r) id && is_null (ak_revoked_at r)) (api_keys d) with
      | Err _ => Err ErrInvalidCredential
      | Ok row =>
          if negb (ConstantTimeCompare (ak_key_hash row) (digest secret)) then Err ErrInvalidCredential
          else if negb (allowsModel (ks_Models (ak_scope row)) model)
                  || negb (contains (ks_Endpoints (ak_scope row)) endpoint)
                  || (ks_MaxSpendWei (ak_scope row) <? spend)
          then Err ErrScopeDenied
          else Ok (mkAPIKeyPrincipal (ak_id row) (ak_account row) (ak_scope row))
      end
  end.

Definition RevokeAPIKey (now : Z) (keyID : string) (d : Db) : Db :=
  set_api_keys (update (fun r => String.eqb (ak_id r) keyID) (set_ak_revoked_at (Some now)) (api_keys d)) d.

(** ** Wallet login (browser.go) *)
Record WalletChallenge := mkWalletChallenge {
  wl_ID : string; wl_Address : string; wl_Nonce : string; wl_Message : string; wl_ChainID : Z;
  wl_IssuedAt : Z; wl_ExpiresAt : Z; wl_Origin : string; wl_Domain : string;
}.
Record BrowserSession := mkBrowserSession {
  br_ID : string; br_Token : string; br_AccountID : string; br_WalletAddress : string; br_ExpiresAt : Z;
}.
Record PendingDevice := mkPendingDevice { pd_MachineName : string; pd_SignerAddress : string; pd_ExpiresAt : Z }.

Definition newline : string := str [10].

Definition challenge_message (domain origin address : string) (chainID : Z) (nonce : string)
    (issued expires : Z) : string :=
  "Myference account login" +:+ newline +:+ "Domain: " +:+ domain +:+ newline +:+ "Origin: " +:+ origin
  +:+ newline +:+ "Address: " +:+ address +:+ newline +:+ "Chain ID: " +:+ FormatUint chainID
  +:+ newline +:+ "Nonce: " +:+ nonce +:+ newline +:+ "Issued At: " +:+ RFC3339Nano issued
  +:+ newline +:+ "Expiration Time: " +:+ RFC3339Nano expires.

Section Browser.
Context `{Ethereum}.

Definition CreateWalletChallenge (now : Z) (id_random nonce_random : bytes)
    (domain origin address : string) (chainID lifetime : Z) (d : Db) : result (WalletChallenge * Db) :=
  if bool_decide (domain = "") || bool_decide (origin = "") || negb (IsHexAddress address)
     || (chainID =? 0) || (lifetime <=? 0)
  then Err (ErrNew "domain, origin, wallet, chain, and positive lifetime are required")
  else
    let id := randomID "challenge" id_random in
    let nonce := randomToken nonce_random in
    let wallet := AddressHex (HexToAddress address) in
    let expires := now + lifetime in
    let message := challenge_message domain origin wallet chainID nonce now expires in
    _ ← bigint chainID;
    rows ← insert_row (fun r => String.eqb (wc_id r) id || String.eqb (wc_nonce r) nonce)
             (mkWalletChallengeRow id wallet domain origin chainID nonce message now expires None)
             (wallet_challenges d);
    Ok (mkWalletChallenge id wallet nonce message chainID now expires origin domain,
        set_wallet_challenges rows d).

(** go-ethereum: the personal-message hash and the recovery of a signer's address. *)
Context (TextHash : bytes -> bytes) (SigToAddress : bytes -> bytes -> option Address).

(** [raw[64] -= 27] when it is at least 27 *)
Definition normalize_v (raw : bytes) : bytes :=
  match raw !! 64%nat with
  | Some v => if 27 <=? v then <[64%nat := v - 27]> raw else raw
  | None => raw
  end.

Definition validPersonalSignature (address message encoded : string) : bool :=
  match DecodeString (TrimPrefix encoded "0x") with
  | None => false
  | Some raw =>
      if negb (Z.of_nat (length raw) =? 65) then false
      else match SigToAddress (TextHash (string_bytes message)) (normalize_v raw) with
           | Some signer => EqualFold (AddressHex signer) address
           | None => false
           end
  end.

(** [SELECT id FROM accounts WHERE lower(wallet_address)=lower($1)], or a new account. *)
Definition wallet_account (random : bytes) (address : string) (d : Db) : result (string * Db) :=
  match query_row (fun a => lower_eq (ac_wallet a) address) (accounts d) with
  | Ok account => Ok (ac_id account, d)
  | Err _ =>
      let id := randomID "acct" random in
      rows ← insert_row (fun a => String.eqb (ac_id a) id || String.eqb (ac_wallet a) address)
               (mkAccountRow id address) (accounts d);
      Ok (id, set_accounts rows d)
  end.

Definition VerifyWalletChallenge (now : Z) (account_random session_random secret_random : bytes)
    (challengeID origin signature : string) (sessionLifetime : Z) (d : Db) : result (BrowserSession * Db) :=
  if sessionLifetime <=? 0 then Err (ErrNew "positive session lifetime is required")
  else
    row ← find_or (query_row (fun r => String.eqb (wc_id r) challengeID) (wallet_challenges d))
            ErrInvalidCredential;
    if negb (String.eqb (wc_origin row) origin) then Err ErrOriginDenied
    else if negb (is_null (wc_consumed_at row)) then Err ErrAuthorizationConsumed
    else if negb (now <? wc_expires_at row) then Err ErrAuthorizationExpired
    else if negb (validPersonalSignature (wc_address row) (wc_message row) signature)
    then Err ErrInvalidCredential
    else
      '(accountID, d) ← wallet_account account_random (wc_address row) d;
      let sessionID := randomID "session" session_random in
      let secret := randomToken secret_random in
      let session := mkBrowserSession sessionID (credential sessionID secret) accountID (wc_address row)
                       (now + sessionLifetime) in
      rows ← insert_row (fun r => String.eqb (bs_id r) sessionID || bool_decide (bs_token_hash r = digest secret))
               (mkBrowserSessionRow sessionID accountID (digest secret) (now + sessionLifetime) None)
               (browser_sessions d);
      let d := set_browser_sessions rows d in
      Ok (session, set_wallet_challenges (update (fun r => String.eqb (wc_id r) challengeID)
                                            (set_wc_consumed_at (Some now)) (wallet_challenges d)) d).
End Browser.

Definition AuthenticateBrowserSession (now : Z) (token : string) (d : Db) : result BrowserSession :=
  match splitCredential token with
  | None => Err ErrInvalidCredential
  | Some (id, secret) =>
      match query_row (fun r => String.eqb (bs_id r) id && is_null (bs_revoked_at r) && (now <? bs_expires_at r))
              (browser_sessions d) with
      | Err _ => Err ErrInvalidCredential
      | Ok row =>
          match query_row (fun a => String.eqb (ac_id a) (bs_account row)) (accounts d) with
          | Err _ => Err ErrInvalidCredential
          | Ok account =>
              if negb (ConstantTimeCompare (bs_token_hash row) (digest secret)) then Err ErrInvalidCredential
              else Ok (mkBrowserSession (bs_id row) "" (bs_account row) (ac_wallet account) (bs_expires_at row))
          end
      end
  end.

Definition RevokeBrowserSession (now : Z) (id : string) (d : Db) : result Db :=
  let live r := String.eqb (bs_id r) id && is_null (bs_revoked_at r) in
  if negb (affected live (browser_sessions d) =? 1) then Err ErrInvalidCredential
  else Ok (set_browser_sessions (update live (set_bs_revoked_at (Some now)) (browser_sessions d)) d).

Definition PendingDeviceOf (now : Z) (userCode : string) (d : Db) : result PendingDevice :=
  row ← find_or (query_row (device_with_user_code userCode) (devices d)) ErrInvalidCredential;
  signer ← scan (dv_signer row);
  if negb (now <? dv_expires_at row) then Err ErrAuthorizationExpired
  else if negb (is_null (dv_approved_at row)) || negb (is_null (dv_exchanged_at row))
  then Err ErrAuthorizationConsumed
  else Ok (mkPendingDevice (dv_machine_name row) signer (dv_expires_at row)).

(** Newest first. *)
Definition ListAPIKeys (accountID : string) (d : Db) : list ApiKeyRow :=
  order_desc ak_created_at
    (select (fun r => String.eqb (ak_account r) accountID && is_null (ak_revoked_at r)) (api_keys d)).

(** The handler of [DELETE /auth/api-keys/{id}]: only a key of the session's account. *)
Definition apiKeysDelete (now : Z) (id accountID : string) (d : Db) : result Db :=
  if existsb (fun r => String.eqb (ak_id r) id) (ListAPIKeys accountID d)
  then Ok (RevokeAPIKey now id d)
  else Err ErrInvalidCredential.

(** ** Stream tickets (stream.go) *)
Definition CreateStreamTicket (now : Z) (id_random secret_random : bytes) (accountID : string)
    (lifetime : Z) (d : Db) : result (string * Z * Db) :=
  if bool_decide (accountID = "") || (lifetime <=? 0)
  then Err (ErrNew "account and positive lifetime are required")
  else
    let id := randomID "stream" id_random in
    let secret := randomToken secret_random in
    _ ← check (exists_row (fun a => String.eqb (ac_id a) accountID) (accounts d));
    rows ← insert_row (fun r => String.eqb (st_id r) id || bool_decide (st_token_hash r = digest secret))
             (mkStreamTicketRow id accountID (digest secret) (now + lifetime) None) (stream_tickets d);
    Ok (credential id secret, now + lifetime, set_stream_tickets rows d).

Definition ConsumeStreamTicket (now : Z) (token : string) (d : Db) : result (string * Db) :=
  match splitCredential token with
  | None => Err ErrInvalidCredential
  | Some (id, secret) =>
      row ← find_or (query_row (fun r => String.eqb (st_id r) id) (stream_tickets d)) ErrInvalidCredential;
      if negb (ConstantTimeCompare (st_token_hash row) (digest secret)) then Err ErrInvalidCredential
      else if negb (is_null (st_consumed_at row)) then Err ErrAuthorizationConsumed
      else if negb (now <? st_expires_at row) then Err ErrAuthorizationExpired
      else Ok (st_account row,
               set_stream_tickets (update (fun r => String.eqb (st_id r) id) (set_st_consumed_at (Some now))
                                     (stream_tickets d)) d)
  end.

(** ** Lemmas on tokens *)
Lemma b64_char_url v : 0 <= v < 64 ->
  is_pad (b64_char v) = false /\ Ascii.eqb "." (url_char (b64_char v)) = false.
Proof.
  intros Hv. assert (forallb (fun k => negb (is_pad (b64_char (Z.of_nat k)))
      && negb (Ascii.eqb "." (url_char (b64_char (Z.of_nat k))))) (seq 0 64) = true) as A
    by (vm_compute; reflexivity).
  rewrite forallb_forall in A. specialize (A (Z.to_nat v)). rewrite in_seq, Z2Nat.id in A by lia.
  specialize (A ltac:(lia)). by bools.
Qed.

(** The text of random bytes is not empty and has no dot. *)
Lemma randomToken_spec random :
  byte_list random -> ContainsByte (randomToken random) "." = false
                      /\ (random <> [] -> randomToken random <> "").
Proof.
  unfold randomToken, byte_list.
  induction random as [bs IH] using (well_founded_induction (Wf_nat.well_founded_ltof _ (@length Z))).
  intros Hb. destruct bs as [|x [|y [|z rest]]]; [done|..];
    repeat (apply Forall_cons in Hb as [? Hb]);
    repeat match goal with H : is_byte _ = true |- _ => unfold is_byte in H; bools end;
    repeat match goal with H : 0 <= ?x, G : ?x < 256 |- _ =>
      pose proof (byte_split x (conj H G)); clear H G end; destruct_and?; cbn [b64_encode raw_url];
    repeat match goal with
    | |- context [b64_char ?v] =>
        let H1 := fresh in let H2 := fresh in
        destruct (b64_char_url v) as [H1 H2]; [lia|];
        let c := fresh "c" in generalize dependent (b64_char v); intros c H1 H2; rewrite H1;
        cbn [ContainsByte]; try rewrite H2
    end; try done.
  destruct (IH rest) as [IH1 _]; [unfold Wf_nat.ltof; simpl; lia|done|]. split; [exact IH1|done].
Qed.

Lemma splitCredential_credential id secret :
  id <> "" -> secret <> "" -> ContainsByte id "." = false -> splitCredential (credential id secret) = Some (id, secret).
Proof.
  intros Hi Hs Hc. unfold splitCredential, credential.
  change ("." +:+ secret) with (String "." secret). rewrite CutByte_app by done.
  by rewrite !bool_decide_eq_false_2 by done.
Qed.

(** Machine identifiers are what [splitCredential] expects. *)
Definition machine_ids_ok (d : Db) : Prop :=
  NoDup (map mc_id (machines d))
  /\ forall m, m ∈ machines d -> mc_id m <> "" /\ ContainsByte (mc_id m) "." = false.

Lemma register_machine_spec now random account name signer d id d' :
  machine_ids_ok d -> byte_list random ->
  register_machine now (randomID "mach" random) account name signer d = Ok (id, d') ->
  machine_ids_ok d' /\ machine_tokens d' = machine_tokens d /\ devices d' = devices d
  /\ exists m, m ∈ machines d' /\ mc_id m = id /\ mc_account m = account /\ mc_revoked_at m = None.
Proof.
  intros [Hn Hids] Hr. unfold register_machine. intros H. skip_ok H.
  set (key := fun m => String.eqb (mc_account m) account && String.eqb (mc_name m) name) in *.
  destruct (select key (machines d)) as [|old rest] eqn:E; skip_ok H.
  - step_ok H as rows E2. apply insert_row_Ok in E2 as [-> Hf]. injection H as <- <-.
    unfold machine_ids_ok. cbn [machines set_machines]. split_and!; try done.
    + apply NoDup_snoc; [done|]. intros r Hm. by apply String.eqb_neq, Hf.
    + intros m Hm. apply elem_of_app in Hm as [Hm|Hm]; [by apply Hids|].
      apply list_elem_of_singleton in Hm as ->. split; [done|].
      cbn [mc_id]. unfold randomID. rewrite !ContainsByte_app. by rewrite (proj1 (randomToken_spec random Hr)).
    + eexists. split; [apply elem_of_app; right; by apply list_elem_of_singleton|done].
  - injection H as <- <-. unfold machine_ids_ok. cbn [machines set_machines].
    assert (old ∈ select key (machines d)) as Ho by (rewrite E; apply elem_of_cons; auto).
    apply select_spec in Ho as [Ho Po]. split_and!; try done.
    + by rewrite map_update.
    + intros m (o & Hm & ->)%elem_of_update. specialize (Hids o Hm). by destruct (key o).
    + exists (set_mc_revoked_at None (set_mc_signer (Some signer) old)).
      split_and!; try done; [apply elem_of_update; exists old; by rewrite Po|].
      unfold key in Po. apply andb_true_iff in Po as [Po%String.eqb_eq _]. done.
Qed.

(** The token of a machine is the one stored last. *)
Lemma stored_machine_token now id secret d :
  exists tr, query_row (fun r => String.eqb (mt_machine r) id && is_null (mt_revoked_at r))
               (machine_tokens (store_machine_token now id secret d)) = Ok tr
             /\ mt_token_hash tr = digest secret.
Proof.
  set (tk := fun r => String.eqb (mt_machine r) id && is_null (mt_revoked_at r)).
  set (renew := fun r => set_mt_created_at now (set_mt_revoked_at None (set_mt_token_hash (digest secret) r))).
  cbn [machine_tokens store_machine_token set_machine_tokens]. fold renew. unfold upsert.
  destruct (exists_row _ (machine_tokens d)) eqn:X; destruct (query_row tk _) as [tr|e] eqn:Q.
  - apply query_row_Ok in Q as [(o & Ho & ->)%elem_of_update P]. exists (renew o).
    unfold tk in P. destruct (String.eqb (mt_machine o) id) eqn:Y; [done|].
    apply andb_true_iff in P as [P _]. congruence.
  - exfalso. apply exists_row_spec in X as (o & Ho & Po).
    assert (tk (renew o) = true) as T by (unfold tk, renew; cbn; by rewrite Po).
    rewrite (query_row_Err _ _ _ Q) in T; [done|]. apply elem_of_update. exists o. by rewrite Po.
  - apply query_row_Ok in Q as [Hin P]. exists tr. split; [done|]. apply elem_of_app in Hin as [Hin|Hin].
    + pose proof (proj1 (exists_row_false _ _) X tr Hin) as F. unfold tk in P. bools.
      cbv beta in F. congruence.
    + apply list_elem_of_singleton in Hin as ->. done.
  - exfalso. assert (tk (mkMachineTokenRow id (digest secret) None now) = true) as T
      by (unfold tk; cbn; by rewrite String.eqb_refl).
    rewrite (query_row_Err _ _ _ Q) in T; [done|]. apply elem_of_app. right. by apply list_elem_of_singleton.
Qed.

(** A device code is exchanged at most once, and only after an account
    approved it and before it expires; the token returned authenticates the
    registered machine, until the machine is revoked. *)
Theorem device_code_single_use now id_random secret_random code d machine token d' :
  machine_ids_ok d -> byte_list id_random -> byte_list secret_random -> secret_random <> [] ->
  ExchangeDeviceAuthorization now id_random secret_random code d = Ok (machine, token, d') ->
  (exists row, row ∈ devices d /\ dv_code_hash row = digest code /\ dv_exchanged_at row = None
     /\ dv_account row = Some (am_AccountID machine) /\ now < dv_expires_at row)
  /\ (forall now' r1 r2, ExchangeDeviceAuthorization now' r1 r2 code d' = Err ErrAuthorizationConsumed)
  /\ AuthenticateMachine token d' = Ok (mkMachinePrincipal (am_ID machine) (am_AccountID machine))
  /\ (forall now', AuthenticateMachine token (RevokeMachine now' (am_ID machine) d') = Err ErrInvalidCredential).
Proof.
  intros Hids Hir Hsr Hne H. unfold ExchangeDeviceAuthorization in H. step_ok H as row E.
  step_ok H as signer E2. apply of_option_Ok in E2.
  destruct (negb (is_null _)) eqn:G1 in H; [done|]. destruct (negb _) eqn:G2 in H; [done|].
  destruct (dv_account row) as [account|] eqn:A; [|done]. step_ok H as rm E3. destruct rm as [mid d1].
  injection H as <- <- <-. cbn [am_AccountID am_ID].
  apply register_machine_spec in E3 as (Hids1 & Et & Ed & m & Hm & Em & Ea & Er); [|done|done].
  destruct (query_row _ (devices d)) as [row'|] eqn:Q in E; [|done]. injection E as ->.
  pose proof (query_row_Ok _ _ _ Q) as [Hrow Pr]. unfold device_with_code in Pr. bools.
  destruct Hids1 as [Hn1 Hwf1]. destruct (Hwf1 m Hm) as [Hm1 Hm2].
  assert (splitCredential (credential mid (randomToken secret_random)) = Some (mid, randomToken secret_random)) as Hsplit.
  { apply splitCredential_credential; [congruence| |congruence]. by apply randomToken_spec. }
  split_and!.
  - exists row. split_and!; try done. by destruct (dv_exchanged_at row).
  - intros now' r1 r2. unfold ExchangeDeviceAuthorization. cbn [devices set_devices store_machine_token set_machine_tokens].
    rewrite Ed, query_row_update by (intros r; done). rewrite Q. cbn. by rewrite E2.
  - unfold AuthenticateMachine. rewrite Hsplit. cbn [machines machine_tokens set_devices].
    change (machines (store_machine_token now mid (randomToken secret_random) d1)) with (machines d1).
    rewrite (query_row_unique mc_id _ (machines d1) m); [|done|done|by rewrite Em, Er, String.eqb_refl|
      intros r Pm; apply andb_true_iff in Pm as [Pm%String.eqb_eq _]; congruence].
    destruct (stored_machine_token now mid (randomToken secret_random) d1) as (tr & -> & ->).
    unfold ConstantTimeCompare. rewrite bool_decide_eq_true_2 by done. simpl. by rewrite Em, Ea.
  - intros now'. unfold AuthenticateMachine. rewrite Hsplit. destruct (query_row _ (machine_tokens _)); [|done].
    destruct (query_row _ (machines _)) as [mr|] eqn:Q3; [|done]. exfalso. apply query_row_Ok in Q3 as [Hin P3].
    cbn [machines RevokeMachine set_machines] in Hin. apply elem_of_update in Hin as (o & Ho & ->).
    apply andb_true_iff in P3 as [P3 P4]. destruct (String.eqb (mc_id o) mid) eqn:Y; [done|congruence].
Qed.

(** A stream ticket opens one stream: once consumed, it is refused at any
    later time; it is consumed only by its secret and before it expires. *)
Theorem stream_ticket_single_use now token d account d' :
  ConsumeStreamTicket now token d = Ok (account, d') ->
  (forall now', ConsumeStreamTicket now' token d' = Err ErrAuthorizationConsumed)
  /\ exists id secret row, splitCredential token = Some (id, secret) /\ row ∈ stream_tickets d /\ st_id row = id
     /\ st_token_hash row = digest secret /\ st_account row = account /\ st_consumed_at row = None
     /\ now < st_expires_at row.
Proof.
  unfold ConsumeStreamTicket. intros H. destruct (splitCredential token) as [[id secret]|]; [|done].
  step_ok H as row E. destruct (query_row _ (stream_tickets d)) as [row'|] eqn:Q; [|done]. injection E as ->.
  destruct (negb _) eqn:G1 in H; [done|]. destruct (negb (is_null _)) eqn:G2 in H; [done|].
  destruct (negb _) eqn:G3 in H; [done|]. injection H as <- <-.
  pose proof (query_row_Ok _ _ _ Q) as [Hrow Pr]. apply String.eqb_eq in Pr. split.
  - intros now'. cbn [stream_tickets set_stream_tickets]. rewrite query_row_update by done. rewrite Q.
    cbn [fmap result_fmap find_or mbind result_bind].
    change (st_token_hash (set_st_consumed_at (Some now) row)) with (st_token_hash row). by rewrite G1.
  - exists id, secret, row. unfold ConstantTimeCompare in G1. bools. split_and!; try done.
    by destruct (st_consumed_at row).
Qed.

Section Wallet.
Context `{Ethereum}.
Context (TextHash : bytes -> bytes) (SigToAddress : bytes -> bytes -> option Address).

(** Wallet login needs a live challenge for the same origin, signed by the
    wallet it was issued to; a challenge logs in once; the session returned
    belongs to the account of that wallet. *)
Theorem wallet_challenge_single_use now r1 r2 r3 id origin signature lifetime d session d' :
  VerifyWalletChallenge TextHash SigToAddress now r1 r2 r3 id origin signature lifetime d = Ok (session, d') ->
  (exists row, row ∈ wallet_challenges d /\ wc_id row = id /\ wc_origin row = origin
     /\ wc_consumed_at row = None /\ now < wc_expires_at row
     /\ validPersonalSignature TextHash SigToAddress (wc_address row) (wc_message row) signature = true
     /\ br_WalletAddress session = wc_address row
     /\ exists account, account ∈ accounts d' /\ ac_id account = br_AccountID session
                        /\ lower_eq (ac_wallet account) (wc_address row) = true)
  /\ (forall now' s1 s2 s3 signature' lifetime', 0 < lifetime' ->
      VerifyWalletChallenge TextHash SigToAddress now' s1 s2 s3 id origin signature' lifetime' d'
      = Err ErrAuthorizationConsumed).
Proof.
  unfold VerifyWalletChallenge. intros Hv. destruct (lifetime <=? 0); [done|].
  step_ok Hv as row E. destruct (query_row _ (wallet_challenges d)) as [row'|] eqn:Q; [|done]. injection E as ->.
  destruct (negb _) eqn:G1 in Hv; [done|]. destruct (negb (is_null _)) eqn:G2 in Hv; [done|].
  destruct (negb (_ <? _)) eqn:G3 in Hv; [done|]. destruct (negb _) eqn:G4 in Hv; [done|].
  step_ok Hv as ad E1. destruct ad as [accountID d1]. step_ok Hv as rows E2. injection Hv as <- <-.
  pose proof (query_row_Ok _ _ _ Q) as [Hrow Pr]. apply String.eqb_eq in Pr. bools. apply String.eqb_eq in G1.
  assert (wallet_challenges d1 = wallet_challenges d
          /\ exists account, account ∈ accounts d1 /\ ac_id account = accountID
                             /\ lower_eq (ac_wallet account) (wc_address row) = true) as [Ew Hacc].
  { unfold wallet_account in E1. destruct (query_row _ (accounts d)) as [a|] eqn:Qa.
    - injection E1 as <- <-. apply query_row_Ok in Qa as [Ha Pa]. split; [done|]. by exists a.
    - step_ok E1 as arows E3. injection E1 as <- <-. apply insert_row_Ok in E3 as [-> _]. split; [done|].
      eexists. split; [apply elem_of_app; right; by apply list_elem_of_singleton|]. split; [done|].
      unfold lower_eq, EqualFold. apply String.eqb_refl. }
  split.
  - exists row. split_and!; try done. by destruct (wc_consumed_at row).
  - intros now' s1 s2 s3 signature' lifetime' Hl. replace (lifetime' <=? 0) with false by lia.
    cbn [wallet_challenges set_wallet_challenges set_browser_sessions]. rewrite Ew.
    rewrite query_row_update by done. rewrite Q. cbn [fmap result_fmap find_or mbind result_bind].
    change (wc_origin (set_wc_consumed_at (Some now) row)) with (wc_origin row). rewrite G1.
    by rewrite String.eqb_refl.
Qed.
End Wallet.

(** An API key grants exactly its scope: a request is authorised if and
    only if the token names a key that is not revoked, carries its secret, and
    the key's scope covers the model, the endpoint and the spend. *)
Theorem AuthorizeAPIKey_iff token model endpoint spend d principal :
  NoDup (map ak_id (api_keys d)) ->
  AuthorizeAPIKey token model endpoint spend d = Ok principal <->
  exists id secret row, splitCredential token = Some (id, secret)
    /\ row ∈ api_keys d /\ ak_id row = id /\ ak_revoked_at row = None /\ ak_key_hash row = digest secret
    /\ (ks_Models (ak_scope row) = [] \/ model ∈ ks_Models (ak_scope row))
    /\ endpoint ∈ ks_Endpoints (ak_scope row) /\ spend <= ks_MaxSpendWei (ak_scope row)
    /\ principal = mkAPIKeyPrincipal id (ak_account row) (ak_scope row).
Proof.
  intros Hn. unfold AuthorizeAPIKey. split.
  - intros H. destruct (splitCredential token) as [[id secret]|]; [|done].
    destruct (query_row _ _) as [row|] eqn:Q; [|done]. apply query_row_Ok in Q as [Hrow P].
    apply andb_true_iff in P as [P1%String.eqb_eq P2].
    destruct (negb _) eqn:G1 in H; [done|]. destruct (_ || _ || _) eqn:G2 in H; [done|]. injection H as <-.
    unfold ConstantTimeCompare, allowsModel in *. apply orb_false_iff in G2 as [G2 G3].
    apply orb_false_iff in G2 as [G2 G4]. apply negb_false_iff in G1, G2, G4. apply bool_decide_eq_true in G1.
    apply Z.ltb_ge in G3. apply orb_true_iff in G2. rewrite bool_decide_eq_true, contains_spec in G2.
    apply contains_spec in G4. exists id, secret, row. split_and!; try done; [by destruct (ak_revoked_at row)|by subst].
  - intros (id & secret & row & -> & Hrow & <- & Hrev & Hhash & Hm & He & Hs & ->).
    rewrite (query_row_unique ak_id _ _ row); [|done|done|by rewrite Hrev, String.eqb_refl|
      by intros r [P%String.eqb_eq _]%andb_true_iff].
    unfold ConstantTimeCompare, allowsModel. rewrite bool_decide_eq_true_2 by done.
    rewrite (proj2 (contains_spec _ _) He). replace (ks_MaxSpendWei _ <? spend) with false by lia.
    assert (bool_decide (ks_Models (ak_scope row) = []) || contains (ks_Models (ak_scope row)) model = true) as ->.
    { apply orb_true_iff. rewrite bool_decide_eq_true, contains_spec. done. }
    done.
Qed.

(** ** Views: what the authentication operations leave alone *)
Section AuthViews.
Context {A : Type} (view : Db -> A).
Context (view_accounts : forall rows d, view (set_accounts rows d) = view d)
  (view_sessions : forall rows d, view (set_browser_sessions rows d) = view d)
  (view_challenges : forall rows d, view (set_wallet_challenges rows d) = view d)
  (view_machines : forall rows d, view (set_machines rows d) = view d)
  (view_tokens : forall rows d, view (set_machine_tokens rows d) = view d)
  (view_devices : forall rows d, view (set_devices rows d) = view d).

Lemma view_VerifyWalletChallenge `{Ethereum} th sa now r1 r2 r3 id o sg l d x d' :
  VerifyWalletChallenge th sa now r1 r2 r3 id o sg l d = Ok (x, d') -> view d' = view d.
Proof.
  unfold VerifyWalletChallenge. intros Hv. destruct (l <=? 0); [done|]. skip_ok Hv.
  do 4 (destruct (negb _) in Hv; [done|]). step_ok Hv as y E. destruct y as [aid d1]. skip_ok Hv.
  injection Hv as _ <-. rewrite view_challenges, view_sessions.
  unfold wallet_account in E. destruct (query_row _ _); [by injection E as _ <-|].
  skip_ok E. injection E as _ <-. apply view_accounts.
Qed.

Lemma view_ExchangeDeviceAuthorization now r1 r2 c d m t d' :
  ExchangeDeviceAuthorization now r1 r2 c d = Ok (m, t, d') -> view d' = view d.
Proof.
  unfold ExchangeDeviceAuthorization. intros H. do 2 (skip_ok H). do 2 (destruct (negb _) in H; [done|]).
  destruct (dv_account _); [|done]. step_ok H as x E. destruct x as [mid d1]. injection H as _ _ <-.
  unfold store_machine_token. rewrite view_devices, view_tokens.
  unfold register_machine in E. skip_ok E. destruct (select _ _); skip_ok E; [skip_ok E|];
    injection E as _ <-; apply view_machines.
Qed.

Lemma view_CreateDeviceAuthorization `{Ethereum} now r1 r2 n a l d x d' :
  CreateDeviceAuthorization now r1 r2 n a l d = Ok (x, d') -> view d' = view d.
Proof.
  unfold CreateDeviceAuthorization. intros Hc. destruct (_ || _) in Hc; [done|]. skip_ok Hc.
  injection Hc as _ <-. apply view_devices.
Qed.

Lemma view_ApproveDeviceAuthorization now u a d d' :
  ApproveDeviceAuthorization now u a d = Ok d' -> view d' = view d.
Proof.
  unfold ApproveDeviceAuthorization. intros H. skip_ok H. destruct (negb _) in H; [done|].
  injection H as <-. apply view_devices.
Qed.
End AuthViews.
