(* ===== verification/Store.v ===== *)
(** * The broker's store (server/internal/store)

    store.go, inference.go and receipt.go: the operations that accept a
    request, reserve the customer's balance for it, record its result or its
    failure, and turn the result into a receipt.  Every exported method is one
    transaction: [now] is the database's [now()], an error leaves the database
    as it was. *)

From S2P Require Import Prelude GoStrings Price Router Receipt Messages Db Hex GoTime.
From Stdlib Require Import Ascii.
Open Scope string_scope.
Open Scope list_scope.
Open Scope Z_scope.

(** ** store.go *)
Definition CreateAccount (id wallet : string) (d : Db) : result Db :=
  rows ← insert_row (fun r => String.eqb (ac_id r) id || String.eqb (ac_wallet r) wallet)
           (mkAccountRow id wallet) (accounts d);
  Ok (set_accounts rows d).

Definition CreateMachine (now : Z) (id account name : string) (d : Db) : result Db :=
  _ ← check (exists_row (fun r => String.eqb (ac_id r) account) (accounts d));
  rows ← insert_row (fun r => String.eqb (mc_id r) id
                              || (String.eqb (mc_account r) account && String.eqb (mc_name r) name))
           (mkMachineRow id account name now None None) (machines d);
  Ok (set_machines rows d).

Definition CreateBackend (id machine kind model : string) (d : Db) : result Db :=
  _ ← check (exists_row (fun r => String.eqb (mc_id r) machine) (machines d));
  rows ← insert_row (fun r => String.eqb (bk_id r) id
                              || (String.eqb (bk_machine r) machine && String.eqb (bk_kind r) kind
                                  && String.eqb (bk_model r) model))
           (mkBackendRow id machine kind model true) (backends d);
  Ok (set_backends rows d).

Definition CreateOffer (id backend : string) (version input output compute : Z) (d : Db) : result Db :=
  _ ← check (exists_row (fun r => String.eqb (bk_id r) backend) (backends d));
  _ ← bigint version;
  _ ← check (0 <? version);
  rows ← insert_row (fun r => String.eqb (of_id r) id && (of_version r =? version))
           (mkOfferRow id backend version input output compute) (offers d);
  Ok (set_offers rows d).

Definition CreateSession (now : Z) (id account state : string) (d : Db) : result Db :=
  _ ← check (exists_row (fun r => String.eqb (ac_id r) account) (accounts d));
  st ← of_option (session_state_of_name state) ErrConstraint;
  rows ← insert_row (fun r => String.eqb (se_id r) id) (mkSessionRow id account st 0 now) (sessions d);
  Ok (set_sessions rows d).

Definition CreateRequest (now : Z) (id session state : string) (d : Db) : result Db :=
  _ ← check (exists_row (fun r => String.eqb (se_id r) session) (sessions d));
  st ← of_option (state_of_name state) ErrConstraint;
  rows ← insert_row (fun r => String.eqb (rq_id r) id)
           (mkRequestRow id session st None None None None None None None None None None now) (requests d);
  Ok (set_requests rows d).

Definition transitions (current next : request_state) : bool :=
  match current, next with
  | Created, (Reserved | Cancelled | Failed) => true
  | Reserved, (Offered | Cancelled | Expired | Failed) => true
  | Offered, (Accepted | Rejected | Expired | Cancelled) => true
  | Accepted, (Streaming | Cancelled | Failed) => true
  | Streaming, (Completed | Cancelled | Failed) => true
  | Completed, (Signed | Failed) => true
  | Signed, Submitted => true
  | Submitted, Settled => true
  | _, _ => false
  end.

(** [UPDATE requests SET state=..., updated_at=now() WHERE id=...] *)
Definition set_request_state (now : Z) (id : string) (state : request_state) (d : Db) : Db :=
  set_requests (update (fun r => String.eqb (rq_id r) id)
                  (fun r => set_rq_updated_at now (set_rq_state state r)) (requests d)) d.

Definition next_outbox_id (d : Db) : Z := max_where (fun _ => true) ob_id (outbox d) + 1.

(** [INSERT INTO outbox ...] of a ["request.<to>"] event *)
Definition emit (id from to : string) (d : Db) : Db :=
  set_outbox (outbox d ++ [mkOutboxRow (next_outbox_id d) "request" id ("request." +:+ to) from to None]) d.

Definition find_request (id : string) (d : Db) : result RequestRow :=
  query_row (fun r => String.eqb (rq_id r) id) (requests d).

Definition TransitionRequest (now : Z) (requestID next : string) (d : Db) : result Db :=
  current ← find_request requestID d;
  match state_of_name next with
  | None => Err ErrInvalidTransition
  | Some state =>
      if negb (transitions (rq_state current) state) then Err ErrInvalidTransition
      else Ok (emit requestID (state_name (rq_state current)) next
                 (set_request_state now requestID state d))
  end.

Definition ClaimOutbox (now : Z) (d : Db) : result (OutboxRow * Db) :=
  event ← of_option (first_by ob_id (select (fun r => is_null (ob_published_at r)) (outbox d)))
            ErrNoOutboxEvents;
  Ok (event, set_outbox (update (fun r => ob_id r =? ob_id event) (set_ob_published_at (Some now))
                           (outbox d)) d).

(** ** inference.go *)
Record RoutingState := mkRoutingState {
  rs_MachineID : string; rs_OfferID : string; rs_Model : string; rs_BackendKind : string;
  rs_EvidenceKind : string; rs_EvidenceDigest : string; rs_MeteringMode : string;
  rs_Capabilities : list string; rs_PriceVersion : Z; rs_MaximumCost : Z; rs_LatencyMilliseconds : Z;
  rs_ConfirmedBond : bool; rs_Healthy : bool; rs_Capacity : Z; rs_SuccessBasisPoints : Z;
  rs_Reputation : Z; rs_InputPerMillion : Z; rs_OutputPerMillion : Z; rs_ComputePerSecond : Z;
}.

Record InferenceReservation := mkInferenceReservation {
  ir_RequestID : string; ir_SessionID : string; ir_AccountID : string; ir_MachineID : string;
  ir_OfferID : string; ir_PriceVersion : Z; ir_MaximumSpend : Z; ir_MaximumInputTokens : Z;
  ir_MaximumOutputTokens : Z; ir_MaximumComputeMilliseconds : Z;
}.

(** [store.ReceiptProposal]; the message of the same name is in Messages. *)
Record Completion := mkCompletion {
  cp_RequestID : string; cp_SessionID : string; cp_MachineID : string; cp_OfferID : string;
  cp_Model : string; cp_PriceVersion : Z; cp_InputTokens : Z; cp_OutputTokens : Z;
  cp_ComputeMilliseconds : Z; cp_InputHash : Hash; cp_OutputHash : Hash; cp_CompletedAt : Z;
}.

Definition decimal (value : Z) : string := FormatUint value.
(** A decimal text bound to a [numeric] parameter. *)
Definition numeric (text : string) : result Z := of_option (SetString10 text) ErrEncode.

Definition normalizedEvidence (kind digest metering model : string) : string * string * string :=
  let '(kind, digest) :=
    if bool_decide (kind = "") || bool_decide (digest = "") then ("provider_claimed", model)
    else (kind, digest) in
  let metering := if bool_decide (metering = "") then "tokens_and_compute" else metering in
  (kind, digest, metering).

Definition runtimeEvidenceEligible (previousDigest : string) (previousVersion : Z)
    (offered : OfferCapacity) : bool :=
  bool_decide (previousDigest = "") || String.eqb previousDigest (oc_Model offered)
  || String.eqb previousDigest (oc_EvidenceDigest offered) || (previousVersion <? oc_PriceVersion offered).

Definition meteringRatesEligible (mode input output : string) : bool :=
  negb (String.eqb mode "compute_only") || (String.eqb input "0" && String.eqb output "0").

Definition routingRates (mode input output compute : string) : string * bool :=
  if negb (ValidRate input) || negb (ValidRate output) || negb (ValidRate compute)
     || negb (meteringRatesEligible mode input output) then ("", false)
  else match SumRates input output compute with
       | Ok maximum => (maximum, true)
       | Err _ => ("", false)
       end.

(** The requests that occupy a machine. *)
Definition executing_state (s : request_state) : bool :=
  match s with Reserved | Offered | Accepted | Streaming => true | _ => false end.

Definition routing_key (machineID offerID : string) (r : RoutingRow) : bool :=
  String.eqb (rt_machine r) machineID && String.eqb (rt_offer r) offerID.

(** [UPDATE provider_routing_state SET capacity=capacity+delta, updated_at=now() ...];
    the column is a non-negative [integer]. *)
Definition add_capacity (now : Z) (machineID offerID : string) (delta : Z) (d : Db) : result Db :=
  let key := routing_key machineID offerID in
  _ ← check (forallb (fun r => negb (key r) || ((0 <=? rt_capacity r + delta)
                                                && (rt_capacity r + delta <? 2 ^ 31))) (routing d));
  Ok (set_routing (update key (fun r => set_rt_updated_at now (set_rt_capacity (rt_capacity r + delta) r))
                     (routing d)) d).

(** The join [inference_reservations r JOIN requests q ON q.id=r.request_id]
    of the machine's live reservations. *)
Definition executing (machineID offerID : string) (d : Db) : Z :=
  affected (fun rv =>
      is_null (rv_released_at rv)
      && exists_row (fun q => String.eqb (rq_id q) (rv_request rv)
                              && bool_decide (rq_machine q = Some machineID)
                              && bool_decide (rq_offer q = Some offerID)
                              && executing_state (rq_state q)) (requests d))
    (reservations d).

Section Ethereum.
Context `{Ethereum}.

Definition UpsertRoutingState (now : Z) (state : RoutingState) (d : Db) : result Db :=
  let capabilities := sort_strings (rs_Capabilities state) in
  let '(evidenceKind, evidenceDigest, meteringMode) :=
    normalizedEvidence (rs_EvidenceKind state) (rs_EvidenceDigest state) (rs_MeteringMode state)
      (rs_Model state) in
  _ ← bigint (rs_PriceVersion state);
  _ ← bigint (rs_LatencyMilliseconds state);
  _ ← bigint (rs_Reputation state);
  _ ← fail_if (2 ^ 31 <=? rs_Capacity state) ErrEncode;
  maximumCost ← numeric (decimal (rs_MaximumCost state));
  input ← numeric (decimal (rs_InputPerMillion state));
  output ← numeric (decimal (rs_OutputPerMillion state));
  compute ← numeric (decimal (rs_ComputePerSecond state));
  _ ← check (0 <? rs_PriceVersion state);
  _ ← check (rs_SuccessBasisPoints state <=? 10000);
  _ ← check (contains ["provider_claimed"; "ollama_digest"; "upstream_model"; "runtime_image"] evidenceKind);
  _ ← check (contains ["tokens_and_compute"; "compute_only"] meteringMode);
  _ ← check (exists_row (fun r => String.eqb (mc_id r) (rs_MachineID state)) (machines d));
  _ ← check (exists_row (fun r => String.eqb (of_id r) (rs_OfferID state)
                                  && (of_version r =? rs_PriceVersion state)) (offers d));
  let row := mkRoutingRow (rs_MachineID state) (rs_OfferID state) (rs_Model state)
      (Some (rs_BackendKind state)) capabilities (Some (Keccak256Hex (rs_OfferID state)))
      (Some (Keccak256Hex (rs_Model state))) (Some (Keccak256Hex (Join capabilities ",")))
      evidenceKind evidenceDigest meteringMode (rs_PriceVersion state) (rs_ConfirmedBond state)
      (rs_Healthy state) (rs_Capacity state) maximumCost input output compute
      (rs_LatencyMilliseconds state) (rs_SuccessBasisPoints state) (rs_Reputation state) now in
  Ok (set_routing (upsert (routing_key (rs_MachineID state) (rs_OfferID state)) (fun _ => row) row
                     (routing d)) d).
End Ethereum.

(** One row scanned into a candidate. *)
Definition scan_candidate (r : RoutingRow) : result Candidate :=
  let maximum := BigString (rt_maximum_cost r) in
  let inputRate := BigString (rt_input r) in
  let outputRate := BigString (rt_output r) in
  let computeRate := BigString (rt_compute r) in
  match SetString10 maximum with
  | None => Err (ErrNew "invalid routing cost")
  | Some maximumValue =>
      if maximumValue <? 0 then Err (ErrNew "invalid routing cost")
      else
        let MaximumCost := if IsUint64 maximumValue then maximumValue else u64_max in
        if negb (ValidRate inputRate) || negb (ValidRate outputRate) || negb (ValidRate computeRate)
        then Err (ErrNew "invalid routing rate")
        else Ok (mkCandidate (rt_machine r) (rt_offer r) (rt_model r) (rt_capabilities r)
                   (rt_confirmed_bond r) (rt_healthy r) (rt_capacity r) MaximumCost (rt_price_version r)
                   (rt_latency r) (rt_success r) (rt_reputation r) inputRate outputRate computeRate)
  end.

Fixpoint scan_candidates (rows : list RoutingRow) : result (list Candidate) :=
  match rows with
  | [] => Ok []
  | r :: rest => candidate ← scan_candidate r; tail ← scan_candidates rest; Ok (candidate :: tail)
  end.

Definition RoutingCandidates (model : string) (d : Db) : result (list Candidate) :=
  scan_candidates (select (fun r => String.eqb (rt_model r) model) (routing d)).

Definition set_healthy_capacity (now healthy_capacity : Z) (r : RoutingRow) : RoutingRow :=
  set_rt_updated_at now (set_rt_healthy true (set_rt_capacity healthy_capacity r)).

(** [UPDATE provider_routing_state SET capacity=0, updated_at=now() WHERE machine_id=$1] *)
Definition clear_capacity (now : Z) (machineID : string) (d : Db) : Db :=
  set_routing (update (fun r => String.eqb (rt_machine r) machineID)
                 (fun r => set_rt_updated_at now (set_rt_capacity 0 r)) (routing d)) d.

(** The loop of [UpdateProviderCapacity] over the advertised offers. *)
Fixpoint update_capacities (now : Z) (machineID : string) (available : Z) (offers : list OfferCapacity)
    (d : Db) : result Db :=
  match offers with
  | [] => Ok d
  | offer :: rest =>
      _ ← bigint (oc_PriceVersion offer);
      let capacity := Z.max 0 (available - executing machineID (oc_OfferID offer) d) in
      let d := set_routing (update (fun r => routing_key machineID (oc_OfferID offer) r
                                             && (rt_price_version r =? oc_PriceVersion offer))
                              (set_healthy_capacity now capacity) (routing d)) d in
      update_capacities now machineID available rest d
  end.

Definition UpdateProviderCapacity (now : Z) (machineID : string) (capacity : Capacity) (d : Db) : result Db :=
  let available := if cap_Available capacity =? 0 then 0 else 1 in
  update_capacities now machineID available (cap_Offers capacity) (clear_capacity now machineID d).

(** [SELECT EXISTS(SELECT 1 FROM chain_provider_signers ... AND allowed)] *)
Definition signer_allowed (chainID : Z) (contract provider signer : string) (d : Db) : bool :=
  exists_row (fun r => (cg_chain r =? chainID) && lower_eq (cg_contract r) contract
                       && lower_eq (cg_provider r) provider && lower_eq (cg_signer r) signer
                       && cg_allowed r) (chain_signers d).

(** The row of [chain_offers o JOIN chain_accounts a] for one published offer version. *)
Definition published_offer (chainID : Z) (contract provider offerHash : string) (version : Z)
    (modelHash capabilityHash : string) (r : ChainOfferRow) : bool :=
  (co_chain r =? chainID) && lower_eq (co_contract r) contract && lower_eq (co_provider r) provider
  && String.eqb (co_offer r) offerHash && (co_version r =? version)
  && String.eqb (co_model_hash r) modelHash && String.eqb (co_capability_hash r) capabilityHash.

Definition offer_accounts (d : Db) (o : ChainOfferRow) : list (ChainOfferRow * ChainAccountRow) :=
  map (pair o) (select (fun a => (ca_chain a =? co_chain o) && String.eqb (ca_contract a) (co_contract o)
                                 && lower_eq (ca_address a) (co_provider o)) (chain_accounts d)).

(** [INSERT INTO backends ... ON CONFLICT (machine_id,kind,model) DO UPDATE SET enabled=true RETURNING id] *)
Definition upsert_backend (id machine kind model : string) (d : Db) : result (string * Db) :=
  let key r := String.eqb (bk_machine r) machine && String.eqb (bk_kind r) kind
               && String.eqb (bk_model r) model in
  match select key (backends d) with
  | existing :: _ => Ok (bk_id existing, set_backends (update key (set_bk_enabled true) (backends d)) d)
  | [] =>
      rows ← insert_row (fun r => String.eqb (bk_id r) id) (mkBackendRow id machine kind model true)
               (backends d);
      Ok (id, set_backends rows d)
  end.

Section Reconcile.
Context `{Ethereum}.

(** The statement that stores the routing row of a reconciled offer: on a
    conflict, latency, success rate and reputation are kept. *)
Definition store_route (now : Z) (machineID : string) (offered : OfferCapacity) (capabilities : list string)
    (evidenceKind evidenceDigest meteringMode : string) (available maximumCost input output compute : Z)
    (d : Db) : Db :=
  let row (latency success reputation : Z) :=
    mkRoutingRow machineID (oc_OfferID offered) (oc_Model offered) (Some (oc_BackendKind offered))
      capabilities (Some (oc_OfferHash offered)) (Some (oc_ModelHash offered))
      (Some (oc_CapabilityHash offered)) evidenceKind evidenceDigest meteringMode (oc_PriceVersion offered)
      true true available maximumCost input output compute latency success reputation now in
  set_routing (upsert (routing_key machineID (oc_OfferID offered))
                 (fun old => row (rt_latency old) (rt_success old) (rt_reputation old)) (row 0 0 0)
                 (routing d)) d.

(** One iteration of the loop of [ReconcileProviderCapacity]; [continue] is
    [Ok] with the database as it then is. *)
Definition reconcile_offer (now : Z) (machineID : string) (capacityAvailable chainID : Z)
    (contractAddress wallet : string) (offered : OfferCapacity) (d : Db) : result Db :=
  if bool_decide (oc_OfferHash offered = "") then Ok d
  else
    let capabilities := sort_strings (oc_Capabilities offered) in
    if negb (String.eqb (Keccak256Hex (oc_OfferID offered)) (oc_OfferHash offered))
       || negb (String.eqb (Keccak256Hex (oc_Model offered)) (oc_ModelHash offered))
       || negb (String.eqb (Keccak256Hex (Join capabilities ",")) (oc_CapabilityHash offered))
    then Err ErrIneligibleRoute
    else
      let '(evidenceKind, evidenceDigest, meteringMode) :=
        normalizedEvidence (oc_EvidenceKind offered) (oc_EvidenceDigest offered) (oc_MeteringMode offered)
          (oc_Model offered) in
      let '(previousDigest, previousVersion) :=
        match query_row (routing_key machineID (oc_OfferID offered)) (routing d) with
        | Ok r => (rt_evidence_digest r, rt_price_version r)
        | Err _ => ("", 0)
        end in
      if negb (runtimeEvidenceEligible previousDigest previousVersion offered) then Ok d
      else
        '(backendID, d) ← upsert_backend ("backend:" +:+ machineID +:+ ":" +:+ oc_OfferID offered)
                            machineID (oc_BackendKind offered) (oc_Model offered) d;
        _ ← bigint chainID;
        _ ← bigint (oc_PriceVersion offered);
        match flat_map (offer_accounts d)
                (select (published_offer chainID contractAddress wallet (oc_OfferHash offered)
                           (oc_PriceVersion offered) (oc_ModelHash offered) (oc_CapabilityHash offered))
                   (chain_offers d)) with
        | [] => Ok d
        | (o, a) :: _ =>
            let input := BigString (co_input o) in
            let output := BigString (co_output o) in
            let compute := BigString (co_compute o) in
            let bond := BigString (ca_provider_bond a) in
            if String.eqb bond "0" || negb (ca_bond_exit_available_at a =? 0) then Ok d
            else
              let '(maximumCost, ratesOK) := routingRates meteringMode input output compute in
              if negb ratesOK then Ok d
              else
                inputValue ← numeric input;
                outputValue ← numeric output;
                computeValue ← numeric compute;
                maximumValue ← numeric maximumCost;
                _ ← check (0 <? oc_PriceVersion offered);
                let d := set_offers
                           (fst (insert_or_nothing
                                   (fun r => String.eqb (of_id r) (oc_OfferID offered)
                                             && (of_version r =? oc_PriceVersion offered))
                                   (mkOfferRow (oc_OfferID offered) backendID (oc_PriceVersion offered)
                                      inputValue outputValue computeValue) (offers d))) d in
                let available :=
                  if 0 <? capacityAvailable
                  then if 0 <? executing machineID (oc_OfferID offered) d then 0 else 1
                  else 0 in
                Ok (store_route now machineID offered capabilities evidenceKind evidenceDigest meteringMode
                      available maximumValue inputValue outputValue computeValue d)
        end.

Fixpoint reconcile_offers (now : Z) (machineID : string) (capacityAvailable chainID : Z)
    (contractAddress wallet : string) (offers : list OfferCapacity) (d : Db) : result Db :=
  match offers with
  | [] => Ok d
  | offered :: rest =>
      d ← reconcile_offer now machineID capacityAvailable chainID contractAddress wallet offered d;
      reconcile_offers now machineID capacityAvailable chainID contractAddress wallet rest d
  end.

(** [SELECT a.wallet_address,m.signer_address FROM machines m JOIN accounts a ...] *)
Definition machine_owner (machineID : string) (d : Db) : result (string * string) :=
  match flat_map (fun m =>
          flat_map (fun a => match mc_signer m with Some s => [(ac_wallet a, s)] | None => [] end)
            (select (fun a => String.eqb (ac_id a) (mc_account m)) (accounts d)))
          (select (fun m => String.eqb (mc_id m) machineID && is_null (mc_revoked_at m)) (machines d)) with
  | [] => Err ErrNoRows
  | owner :: _ => Ok owner
  end.

Definition ReconcileProviderCapacity (now : Z) (machineID : string) (capacity : Capacity) (chainID : Z)
    (contractAddress : string) (d : Db) : result Db :=
  if negb (is_ok (CapacityValidate capacity)) then Err ErrIneligibleRoute
  else
    let d := clear_capacity now machineID d in
    '(wallet, signer) ← machine_owner machineID d;
    if negb (EqualFold wallet signer)
       && ((i64_max <? chainID) || negb (signer_allowed chainID contractAddress wallet signer d))
    then Err ErrIneligibleRoute
    else reconcile_offers now machineID (cap_Available capacity) chainID contractAddress wallet
           (cap_Offers capacity) d.
End Reconcile.

Definition OpenSession (accountID : string) (d : Db) : result (string * Z) :=
  row ← of_option (first_by se_created_at
                     (select (fun r => String.eqb (se_account r) accountID
                                       && bool_decide (se_state r = StateOpen)) (sessions d))) ErrNoRows;
  match SetString10 (BigString (se_balance row)) with
  | None => Err (ErrNew "invalid confirmed session balance")
  | Some value =>
      if value <? 0 then Err (ErrNew "invalid confirmed session balance")
      else if negb (IsUint64 value) then Ok (se_id row, u64_max)
      else Ok (se_id row, value)
  end.

(** [SELECT COALESCE(sum(amount),0) ... WHERE session_id=$1 AND released_at IS NULL] *)
Definition live_in (sessionID : string) (r : ReservationRow) : bool :=
  String.eqb (rv_session r) sessionID && is_null (rv_released_at r).
Definition locked_amount (sessionID : string) (d : Db) : Z :=
  sum_where (live_in sessionID) rv_amount (reservations d).

(** The writes of [ReserveInference] once every guard has passed. *)
Definition reserve_writes (now : Z) (ir : InferenceReservation) (worstCase : Z)
    (offerHash modelHash capabilityHash : string) (d : Db) : result Db :=
  d ← add_capacity now (ir_MachineID ir) (ir_OfferID ir) (-1) d;
  _ ← fail_if (bool_decide (offerHash = "") || bool_decide (modelHash = "")
               || bool_decide (capabilityHash = "")) ErrIneligibleRoute;
  _ ← bigint (ir_MaximumInputTokens ir);
  _ ← bigint (ir_MaximumOutputTokens ir);
  _ ← bigint (ir_MaximumComputeMilliseconds ir);
  spend ← numeric (decimal worstCase);
  rows ← insert_row (fun r => String.eqb (rq_id r) (ir_RequestID ir))
           (mkRequestRow (ir_RequestID ir) (ir_SessionID ir) Created (Some (ir_MachineID ir))
              (Some (ir_OfferID ir)) (Some (ir_PriceVersion ir)) (Some spend)
              (Some (ir_MaximumInputTokens ir)) (Some (ir_MaximumOutputTokens ir))
              (Some (ir_MaximumComputeMilliseconds ir)) (Some offerHash) (Some modelHash)
              (Some capabilityHash) now)
           (requests d);
  let d := set_requests rows d in
  holds ← insert_row (fun r => String.eqb (rv_request r) (ir_RequestID ir))
            (mkReservationRow (ir_RequestID ir) (ir_SessionID ir) spend None) (reservations d);
  let d := set_reservations holds d in
  let d := set_request_state now (ir_RequestID ir) Reserved d in
  let d := emit (ir_RequestID ir) "created" "reserved" d in
  let d := set_request_state now (ir_RequestID ir) Offered d in
  Ok (emit (ir_RequestID ir) "reserved" "offered" d).

Definition routable_row (machineID offerID : string) (priceVersion : Z) (r : RoutingRow) : bool :=
  routing_key machineID offerID r && (rt_price_version r =? priceVersion)
  && rt_confirmed_bond r && rt_healthy r && (0 <? rt_capacity r).

Definition rate_candidate (inputRate outputRate computeRate : string) : Candidate :=
  mkCandidate "" "" "" [] false false 0 0 0 0 0 0 inputRate outputRate computeRate.

Definition ReserveInference (now : Z) (ir : InferenceReservation) (d : Db) : result Db :=
  if (ir_MaximumInputTokens ir =? 0) || (ir_MaximumOutputTokens ir =? 0)
     || (ir_MaximumComputeMilliseconds ir =? 0)
  then Err ErrIneligibleRoute
  else
    session ← query_row (fun r => String.eqb (se_id r) (ir_SessionID ir)) (sessions d);
    if negb (String.eqb (se_account session) (ir_AccountID ir))
       || negb (bool_decide (se_state session = StateOpen))
    then Err ErrInsufficientBalance
    else
      match SetString10 (BigString (se_balance session)),
            SetString10 (BigString (locked_amount (ir_SessionID ir) d)) with
      | Some confirmed, Some locked =>
          if (confirmed <? 0) || (locked <? 0) || (confirmed <? locked) then Err ErrInsufficientBalance
          else
            _ ← bigint (ir_PriceVersion ir);
            row ← match query_row (routable_row (ir_MachineID ir) (ir_OfferID ir) (ir_PriceVersion ir))
                          (routing d) with
                  | Ok row => Ok row
                  | Err _ => Err ErrIneligibleRoute
                  end;
            offerHash ← scan (rt_offer_hash row);
            modelHash ← scan (rt_model_hash row);
            capabilityHash ← scan (rt_capability_hash row);
            let candidate := rate_candidate (BigString (rt_input row)) (BigString (rt_output row))
                               (BigString (rt_compute row)) in
            match WorstCaseCost candidate (ir_MaximumInputTokens ir) (ir_MaximumOutputTokens ir)
                    (ir_MaximumComputeMilliseconds ir) with
            | Err _ => Err ErrIneligibleRoute
            | Ok worstCase =>
                if (worstCase =? 0) || (ir_MaximumSpend ir <? worstCase) then Err ErrIneligibleRoute
                else if confirmed - locked <? worstCase then Err ErrInsufficientBalance
                else reserve_writes now ir worstCase offerHash modelHash capabilityHash d
            end
      | _, _ => Err ErrInsufficientBalance
      end.

Definition within (usage : Z) (maximum : option Z) : bool :=
  match maximum with Some m => usage <=? m | None => false end.
Definition beyond (usage : Z) (maximum : option Z) : bool :=
  match maximum with Some m => m <? usage | None => false end.

(** The rows of the conditional update of [CompleteInference]. *)
Definition completable (c : Completion) (r : RequestRow) : bool :=
  String.eqb (rq_id r) (cp_RequestID c) && String.eqb (rq_session r) (cp_SessionID c)
  && state_eqb (rq_state r) Streaming
  && within (cp_InputTokens c) (rq_maximum_input r) && within (cp_OutputTokens c) (rq_maximum_output r)
  && within (cp_ComputeMilliseconds c) (rq_maximum_compute r).

Definition exceeds_limits (c : Completion) (r : RequestRow) : bool :=
  String.eqb (rq_id r) (cp_RequestID c) && state_eqb (rq_state r) Streaming
  && (beyond (cp_InputTokens c) (rq_maximum_input r) || beyond (cp_OutputTokens c) (rq_maximum_output r)
      || beyond (cp_ComputeMilliseconds c) (rq_maximum_compute r)).

Definition CompleteInference (now : Z) (c : Completion) (d : Db) : result Db :=
  _ ← bigint (cp_InputTokens c);
  _ ← bigint (cp_OutputTokens c);
  _ ← bigint (cp_ComputeMilliseconds c);
  if negb (affected (completable c) (requests d) =? 1) then
    if exists_row (fun r => String.eqb (pr_request r) (cp_RequestID c)) (proposals d) then Ok d
    else if exists_row (exceeds_limits c) (requests d) then Err ErrUsageLimitExceeded
    else Err ErrInvalidTransition
  else
    let d := set_requests (update (completable c)
                             (fun r => set_rq_updated_at now (set_rq_state Completed r)) (requests d)) d in
    _ ← bigint (cp_PriceVersion c);
    _ ← check (0 <? cp_PriceVersion c);
    _ ← check (exists_row (fun r => String.eqb (mc_id r) (cp_MachineID c)) (machines d));
    _ ← check (exists_row (fun r => String.eqb (of_id r) (cp_OfferID c)
                                    && (of_version r =? cp_PriceVersion c)) (offers d));
    rows ← insert_row (fun r => String.eqb (pr_request r) (cp_RequestID c))
             (mkProposalRow (cp_RequestID c) (cp_SessionID c) (cp_MachineID c) (cp_OfferID c) (cp_Model c)
                (cp_PriceVersion c) (cp_InputTokens c) (cp_OutputTokens c) (cp_ComputeMilliseconds c)
                (cp_InputHash c) (cp_OutputHash c) (cp_CompletedAt c))
             (proposals d);
    let d := set_proposals rows d in
    d ← add_capacity now (cp_MachineID c) (cp_OfferID c) 1 d;
    Ok (emit (cp_RequestID c) "streaming" "completed" d).

Definition live_hold (requestID : string) (r : ReservationRow) : bool :=
  String.eqb (rv_request r) requestID && is_null (rv_released_at r).

Definition AbortInference (now : Z) (requestID terminalState : string) (d : Db) : result Db :=
  if negb (String.eqb terminalState "failed") && negb (String.eqb terminalState "cancelled")
  then Err ErrInvalidTransition
  else
    request ← find_request requestID d;
    machineID ← scan (rq_machine request);
    offerID ← scan (rq_offer request);
    let state := rq_state request in
    if String.eqb (state_name state) terminalState then Ok d
    else
      terminal ← of_option (state_of_name terminalState) ErrInvalidTransition;
      if negb (transitions state terminal) then Err ErrInvalidTransition
      else
        let d := set_request_state now requestID terminal d in
        let rows := affected (live_hold requestID) (reservations d) in
        let d := set_reservations (update (live_hold requestID) (set_rv_released_at (Some now))
                                     (reservations d)) d in
        d ← (if (rows =? 1) && executing_state state then add_capacity now machineID offerID 1 d else Ok d);
        Ok (emit requestID (state_name state) terminalState d).

(** ** receipt.go *)
Record ReceiptDomain := mkReceiptDomain {
  rd_ChainID : Z; rd_ContractAddress : string; rd_SettlementSigner : string;
  rd_FeeBasisPoints : Z; rd_FeeVersion : Z;
}.

Fixpoint exact_charge_items (total : Z) (items : list (Z * string * Z)) : result Z :=
  match items with
  | [] => if negb (IsUint64 total) then Err ErrInvalidReceipt else Ok total
  | (units, rate_text, denominator) :: rest =>
      match SetString10 rate_text with
      | None => Err ErrInvalidReceipt
      | Some rate =>
          if rate <? 0 then Err ErrInvalidReceipt
          else
            let part := units * rate in
            let part := if 0 <? part then part + (denominator - 1) else part in
            exact_charge_items (total + part / denominator) rest
      end
  end.

Definition exactCharge (inputTokens outputTokens milliseconds : Z) (inputRate outputRate computeRate : string)
  : result Z :=
  exact_charge_items 0 [ (inputTokens, inputRate, 1000000); (outputTokens, outputRate, 1000000);
                         (milliseconds, computeRate, 1000) ].

Definition parseHash (value : string) : Hash * bool :=
  if negb (go_len value =? 66) || negb (HasPrefix value "0x") then (replicate 32 0, false)
  else match DecodeString (drop_bytes 2 value) with
       | Some decoded => (BytesToHash decoded, Z.of_nat (length decoded) =? 32)
       | None => (replicate 32 0, false)
       end.

(** The six-way join that [PrepareReceipt] starts from. *)
Record CompletedRequest := mkCompletedRequest {
  cq_proposal : ProposalRow; cq_customer : string; cq_provider : string; cq_signer : string;
  cq_maximum : string;
}.

Definition completed_request (requestID : string) (d : Db) : result CompletedRequest :=
  let joined :=
    flat_map (fun rp =>
    flat_map (fun r =>
    flat_map (fun se =>
    flat_map (fun c =>
    flat_map (fun m =>
    map (fun p => (rp, r, c, m, p))
      (select (fun p => String.eqb (ac_id p) (mc_account m)) (accounts d)))
      (select (fun m => String.eqb (mc_id m) (pr_machine rp) && is_null (mc_revoked_at m)) (machines d)))
      (select (fun c => String.eqb (ac_id c) (se_account se)) (accounts d)))
      (select (fun se => String.eqb (se_id se) (pr_session rp)) (sessions d)))
      (select (fun r => String.eqb (rq_id r) (pr_request rp) && state_eqb (rq_state r) Completed) (requests d)))
      (select (fun rp => String.eqb (pr_request rp) requestID) (proposals d)) in
  match joined with
  | [] => Err ErrNoRows
  | (rp, r, c, m, p) :: _ =>
      signer ← scan (mc_signer m);
      maximum ← scan (rq_maximum_spend r);
      Ok (mkCompletedRequest rp (ac_wallet c) (ac_wallet p) signer (BigString maximum))
  end.

(** The nonce of a receipt: the one already assigned to the request, or the
    next one of the provider. *)
Definition receipt_nonce (provider requestID : string) (d : Db) : result (Z * Db) :=
  match select (fun r => String.eqb (no_request r) requestID) (nonces d) with
  | row :: _ => Ok (no_nonce row, d)
  | [] =>
      let nonce := max_where (fun r => lower_eq (no_provider r) provider) no_nonce (nonces d) + 1 in
      _ ← bigint nonce;
      rows ← insert_row (fun r => (String.eqb (no_provider r) provider && (no_nonce r =? nonce))
                                  || String.eqb (no_request r) requestID)
               (mkNonceRow provider nonce requestID) (nonces d);
      Ok (nonce, set_nonces rows d)
  end.

(** The conditional update of the hold: the exact charge replaces the amount,
    a zero charge releases it. *)
Definition charge_hold (now total : Z) (r : ReservationRow) : ReservationRow :=
  set_rv_released_at (if total =? 0 then Some (default now (rv_released_at r)) else None)
    (set_rv_amount total r).

Section Receipts.
Context `{Ethereum}.

Definition PrepareReceipt (now : Z) (requestID : string) (domain : ReceiptDomain) (d : Db)
  : result (Receipt * string * string * Db) :=
  if (rd_ChainID domain =? 0) || negb (IsHexAddress (rd_ContractAddress domain))
     || negb (IsHexAddress (rd_SettlementSigner domain)) || (rd_FeeVersion domain =? 0)
     || (MaximumFeeBasisPoints <? rd_FeeBasisPoints domain)
  then Err ErrInvalidReceipt
  else
    found ← completed_request requestID d;
    let proposal := cq_proposal found in
    request ← find_request requestID d;
    offerHashText ← scan (rq_offer_hash request);
    modelHashText ← scan (rq_model_hash request);
    capabilityHashText ← scan (rq_capability_hash request);
    let '(offerID, validOffer) := parseHash offerHashText in
    let '(modelHash, validModel) := parseHash modelHashText in
    let '(capabilityHash, validCapability) := parseHash capabilityHashText in
    if negb validOffer || negb validModel || negb validCapability then Err ErrInvalidReceipt
    else
      _ ← bigint (rd_ChainID domain);
      offer ← query_row (published_offer (rd_ChainID domain) (rd_ContractAddress domain)
                           (cq_provider found) (HashHex offerID) (pr_price_version proposal)
                           (HashHex modelHash) (HashHex capabilityHash)) (chain_offers d);
      total ← exactCharge (pr_input_tokens proposal) (pr_output_tokens proposal) (pr_compute proposal)
                (BigString (co_input offer)) (BigString (co_output offer)) (BigString (co_compute offer));
      maximumValue ← of_option (SetString10 (cq_maximum found)) ErrMaximumExceeded;
      if negb (IsUint64 maximumValue) || (maximumValue <? total) then Err ErrMaximumExceeded
      else
        _ ← numeric (decimal total);
        let hold r := String.eqb (rv_request r) requestID && (total <=? rv_amount r) in
        if negb (affected hold (reservations d) =? 1) then Err ErrMaximumExceeded
        else
          let d := set_reservations (update hold (charge_hold now total) (reservations d)) d in
          '(nonce, d) ← receipt_nonce (cq_provider found) requestID d;
          let requestHash := HexToHash requestID in
          let sessionHash := HexToHash (pr_session proposal) in
          if HashIsZero requestHash || HashIsZero sessionHash
             || negb (Z.of_nat (length (pr_input_hash proposal)) =? 32)
             || negb (Z.of_nat (length (pr_output_hash proposal)) =? 32)
          then Err ErrInvalidReceipt
          else
            let receipt :=
              mkReceipt requestHash sessionHash (HexToAddress (cq_customer found))
                (HexToAddress (cq_provider found)) (HexToAddress (rd_SettlementSigner domain)) offerID
                (pr_price_version proposal) modelHash capabilityHash (pr_input_tokens proposal)
                (pr_output_tokens proposal) (pr_compute proposal) maximumValue total
                (rd_FeeBasisPoints domain) (rd_FeeVersion domain) ReceiptStatusCompleted
                (wrap64 (Unix (pr_completed_at proposal))) (BytesToHash (pr_input_hash proposal))
                (BytesToHash (pr_output_hash proposal)) nonce in
            _ ← ReceiptValidate receipt;
            Ok (receipt, pr_machine proposal, cq_signer found, d).
End Receipts.

(** ** signers.go *)
Definition ProviderSignerAllowed (chainID : Z) (contract : string) (provider signer : Address) (d : Db)
  : result bool :=
  let providerAddress := addressHex provider in
  let signerAddress := addressHex signer in
  if EqualFold providerAddress signerAddress then Ok true
  else
    _ ← bigint chainID;
    Ok (signer_allowed chainID contract providerAddress signerAddress d).

(** ** Views

    An observation of the database that ignores the tables a group of
    operations writes is unchanged by these operations. *)
Section RoutingViews.
Context {A : Type} (view : Db -> A).
Context (view_routing : forall rows d, view (set_routing rows d) = view d)
  (view_backends : forall rows d, view (set_backends rows d) = view d)
  (view_offers : forall rows d, view (set_offers rows d) = view d).

Lemma view_add_capacity now m o delta d d' : add_capacity now m o delta d = Ok d' -> view d' = view d.
Proof. unfold add_capacity. intros H. skip_ok H. injection H as <-. apply view_routing. Qed.

Lemma view_update_capacities now m a offers : forall d d',
  update_capacities now m a offers d = Ok d' -> view d' = view d.
Proof.
  induction offers as [|o offers IH]; intros d d' H; cbn [update_capacities] in H; [by injection H as <-|].
  skip_ok H. apply IH in H. rewrite H. apply view_routing.
Qed.

Lemma view_UpdateProviderCapacity now m c d d' : UpdateProviderCapacity now m c d = Ok d' -> view d' = view d.
Proof. unfold UpdateProviderCapacity. intros H%view_update_capacities. rewrite H. apply view_routing. Qed.

Lemma view_upsert_backend id m k mo d x : upsert_backend id m k mo d = Ok x -> view (snd x) = view d.
Proof.
  unfold upsert_backend. intros H. destruct (select _ _).
  - step_ok H as rows E. injection H as <-. apply view_backends.
  - injection H as <-. apply view_backends.
Qed.

Context `{Ethereum}.

Lemma view_reconcile_offer now m a c addr w o d d' :
  reconcile_offer now m a c addr w o d = Ok d' -> view d' = view d.
Proof.
  unfold reconcile_offer. intros Hr. destruct (bool_decide _); [by injection Hr as <-|].
  destruct (_ || _ || _) in Hr; [done|].
  destruct (normalizedEvidence _ _ _ _) as [[ek ed] mm].
  destruct (match query_row _ _ with Ok _ => _ | Err _ => _ end) as [pd pv].
  destruct (negb (runtimeEvidenceEligible _ _ _)); [by injection Hr as <-|].
  step_ok Hr as x E. apply view_upsert_backend in E. destruct x as [bid d1]. simpl in E. rewrite <- E.
  do 2 (skip_ok Hr). destruct (flat_map _ _) as [|[co ca] rest]; [by injection Hr as <-|].
  destruct (_ || _) in Hr; [by injection Hr as <-|].
  destruct (routingRates _ _ _ _) as [mc ok]. destruct (negb ok); [by injection Hr as <-|].
  do 5 (skip_ok Hr). injection Hr as <-. unfold store_route. by rewrite view_routing, view_offers.
Qed.

Lemma view_reconcile_offers now m a c addr w offers : forall d d',
  reconcile_offers now m a c addr w offers d = Ok d' -> view d' = view d.
Proof.
  induction offers as [|o offers IH]; intros d d' Hr; cbn [reconcile_offers] in Hr; [by injection Hr as <-|].
  step_ok Hr as d1 E. apply view_reconcile_offer in E. apply IH in Hr. congruence.
Qed.

Lemma view_ReconcileProviderCapacity now m c ch addr d d' :
  ReconcileProviderCapacity now m c ch addr d = Ok d' -> view d' = view d.
Proof.
  unfold ReconcileProviderCapacity. intros Hr. destruct (negb _); [done|].
  step_ok Hr as x E. destruct x as [w s]. destruct (_ && _) in Hr; [done|].
  apply view_reconcile_offers in Hr. rewrite Hr. apply view_routing.
Qed.

Lemma view_UpsertRoutingState now st d d' : UpsertRoutingState now st d = Ok d' -> view d' = view d.
Proof.
  unfold UpsertRoutingState. intros Hr. destruct (normalizedEvidence _ _ _ _) as [[ek ed] mm].
  do 14 (skip_ok Hr). injection Hr as <-. apply view_routing.
Qed.
End RoutingViews.
