(* ===== verification/Settlement.v ===== *)
(** * Settlement queue and coordinator

    server/internal/chain/settlement.go (the queue of co-signed receipts and
    the batches sent to the contract), the parts of chain/client.go it uses,
    and the receipt hand-shake of settlement/coordinator.go.  A transaction is
    opaque: the contract bindings that build it and the RPC node are
    parameters. *)

From S2P Require Import Prelude GoStrings Receipt Messages Db Hex Store.
From Stdlib Require Import Ascii.
Open Scope string_scope.
Open Scope list_scope.
Open Scope Z_scope.

Record SignedReceipt := mkSignedReceipt {
  sr_Receipt : ChainReceipt; sr_ProviderSignature : bytes; sr_SettlementSignature : bytes;
}.

Definition request_in (requestID : string) (from : request_state) (r : RequestRow) : bool :=
  String.eqb (rq_id r) requestID && state_eqb (rq_state r) from.

(** Moves a request along one edge, if it is at its start, and records the event. *)
Definition transitionSettlementRequest (now : Z) (requestID : string) (from to : request_state) (d : Db) : Db :=
  let changed := affected (request_in requestID from) (requests d) in
  let d := set_requests (update (request_in requestID from)
                           (fun r => set_rq_updated_at now (set_rq_state to r)) (requests d)) d in
  if changed =? 1 then emit requestID (state_name from) (state_name to) d else d.

(** The receipt is stored as JSON and read back by [SettleBatch]; the ABI type
    holds fixed-width integers and byte arrays only, so the row keeps it as is. *)
Definition Enqueue (now : Z) (signed : SignedReceipt) (d : Db) : result Db :=
  let requestID := hashHex (cr_RequestId (sr_Receipt signed)) in
  let '(rows, inserted) :=
    insert_or_nothing (fun r => String.eqb (qu_request r) requestID)
      (mkQueueRow requestID (sr_Receipt signed) (sr_ProviderSignature signed)
         (sr_SettlementSignature signed) QueueCosigned None None now now) (queue d) in
  let d := set_queue rows d in
  Ok (if inserted then transitionSettlementRequest now requestID Completed Signed d else d).

(** ** chain/client.go *)
Fixpoint ContainsString (s sub : string) : bool :=
  HasPrefix s sub || match s with "" => false | String _ s' => ContainsString s' sub end.

(** The text of an error of the RPC client. *)
Definition error_text (e : error) : string := match e with ErrNew msg => msg | _ => "" end.

Section Chain.
Context {Transaction : Type}.
(** go-ethereum: the transaction's hash and encoding. *)
Context (TransactionHash : Transaction -> string) (MarshalBinary : Transaction -> result bytes)
  (UnmarshalBinary : bytes -> result Transaction).

(** What the node answers during one call. *)
Record Rpc := mkRpc {
  SendTransaction : Transaction -> result unit;
  TransactionReceipt : Transaction -> result unit;
  WaitMined : Transaction -> result Z;       (* the receipt's status *)
}.

Definition wait (rpc : Rpc) (transaction : Transaction) : result unit :=
  status ← WaitMined rpc transaction;
  if negb (status =? 1) then Err ErrTransactionReverted else Ok tt.

(** What a settlement does outside: the transaction of the database it commits,
    and its calls to the node. *)
Inductive Effect := Committed (d : Db) | Sent (t : Transaction) | Asked (t : Transaction) | Awaited (t : Transaction).

Definition Broadcast (rpc : Rpc) (transaction : Transaction) : list Effect * result unit :=
  match SendTransaction rpc transaction with
  | Ok _ => ([Sent transaction; Awaited transaction], wait rpc transaction)
  | Err e =>
      if negb (is_ok (TransactionReceipt rpc transaction))
         && negb (ContainsString (ToLower (error_text e)) "already known")
      then ([Sent transaction; Asked transaction], Err e)
      else ([Sent transaction; Asked transaction; Awaited transaction], wait rpc transaction)
  end.

(** ** SettlementQueue *)
Definition broadcasting (r : QueueRow) : bool :=
  bool_decide (qu_state r = QueueBroadcasting) && negb (is_null (qu_raw_transaction r)).

Definition pendingBroadcast (d : Db) : result (option (string * Transaction)) :=
  match first_by qu_updated_at (select broadcasting (queue d)) with
  | None => Ok None
  | Some row =>
      hash ← scan (qu_transaction_hash row);
      raw ← scan (qu_raw_transaction row);
      transaction ← UnmarshalBinary raw;
      Ok (Some (hash, transaction))
  end.

(** The updates of the batch, in order. *)
Fixpoint mark_broadcasting (now : Z) (hash : string) (raw : bytes) (ids : list string) (d : Db) : Db :=
  match ids with
  | [] => d
  | id :: rest =>
      let d := set_queue (update (fun r => String.eqb (qu_request r) id)
                            (fun r => set_qu_updated_at now (set_qu_raw_transaction (Some raw)
                               (set_qu_transaction_hash (Some hash) (set_qu_state QueueBroadcasting r))))
                            (queue d)) d in
      mark_broadcasting now hash raw rest (transitionSettlementRequest now id Signed Submitted d)
  end.

Definition cosigned_batch (limit : Z) (d : Db) : list QueueRow :=
  firstn (Z.to_nat limit)
    (order_by qu_created_at (select (fun r => bool_decide (qu_state r = QueueCosigned)) (queue d))).

(** The transaction of [SettleBatch]: what it commits, and what it will broadcast.
    [PrepareSettlement] builds and signs the contract call. *)
Definition settle_transaction
    (PrepareSettlement : list ChainReceipt -> list bytes -> list bytes -> result Transaction)
    (now limit : Z) (d : Db) : result (Transaction * Db) :=
  let rows := cosigned_batch limit d in
  if bool_decide (rows = []) then Err ErrNoSignedReceipts
  else
    transaction ← PrepareSettlement (map qu_receipt rows) (map qu_provider_signature rows)
                    (map qu_settlement_signature rows);
    raw ← MarshalBinary transaction;
    Ok (transaction,
        mark_broadcasting now (TransactionHash transaction) raw (map qu_request rows) d).

(** The database after the call, its effects in order, the hash returned, and the error if any. *)
Definition SettleBatch
    (PrepareSettlement : list ChainReceipt -> list bytes -> list bytes -> result Transaction)
    (rpc : Rpc) (now limit : Z) (d : Db) : Db * list Effect * string * option error :=
  let broadcast hash transaction before d :=
    match Broadcast rpc transaction with
    | (effects, Ok _) => (d, before ++ effects, hash, None)
    | (effects, Err e) => (d, before ++ effects, hash, Some e)
    end in
  if limit <=? 0 then (d, [], "", Some ErrNoSignedReceipts)
  else
    match pendingBroadcast d with
    | Err e => (d, [], "", Some e)
    | Ok (Some (hash, transaction)) => broadcast hash transaction [] d
    | Ok None =>
        match settle_transaction PrepareSettlement now limit d with
        | Err e => (d, [], "", Some e)
        | Ok (transaction, d') => broadcast (TransactionHash transaction) transaction [Committed d'] d'
        end
    end.
End Chain.

Arguments mkRpc {Transaction} _ _ _.
Arguments Committed {Transaction} _.

(** ** settlement/coordinator.go *)
Definition toChainReceipt (value : Receipt) : ChainReceipt :=
  mkChainReceipt (r_RequestID value) (r_SessionID value) (BytesToAddress (r_Customer value))
    (BytesToAddress (r_Provider value)) (BytesToAddress (r_SettlementSigner value)) (r_OfferID value)
    (r_PriceVersion value) (r_ModelHash value) (r_CapabilityHash value) (r_InputTokens value)
    (r_OutputTokens value) (r_ComputeMilliseconds value) (r_MaximumCharge value) (r_TotalCharge value)
    (r_FeeBasisPoints value) (r_FeeVersion value) (r_Status value) (r_CompletedAt value)
    (r_InputHash value) (r_OutputHash value) (r_Nonce value).
