(* ===== verification/Indexer.v ===== *)
(** * Chain indexer (server/internal/chain/indexer.go)

    The projection of the contract's events into the database, the cursor and
    the rewind on a reorganisation.  Logs arrive decoded: the ABI bindings are
    generated code, [decode] is their answer for one log. *)

From S2P Require Import Prelude GoStrings Receipt Messages Db Hex Store Settlement.
Open Scope string_scope.
Open Scope list_scope.
Open Scope Z_scope.

Definition indexBatchSize : Z := 100.
Definition maximumInitialHistory : Z := 10000.

(** ** Finding the first block with code *)
Section FirstCodeBlock.
(** [CodeAt(contract, block)] of the node *)
Context (CodeAt : Z -> result bytes).

(** The search loop; [fuel] bounds the number of halvings. *)
Fixpoint search_code (fuel : nat) (low high : Z) : result Z :=
  match fuel with
  | O => Ok low
  | S fuel' =>
      if low <? high then
        let mid := low + (high - low) / 2 in
        code ← CodeAt mid;
        if bool_decide (code = []) then search_code fuel' (mid + 1) high
        else search_code fuel' low mid
      else Ok low
  end.

Definition firstCodeBlock (configured head : Z) : result Z :=
  code ← CodeAt configured;
  if negb (bool_decide (code = [])) then Ok configured
  else
    code ← CodeAt head;
    if bool_decide (code = [])
    then Err (ErrNew "contract bytecode is unavailable at the confirmed chain head")
    else search_code (Z.to_nat (head - configured)) configured head.
End FirstCodeBlock.

Definition batchEnd (next target size : Z) : Z :=
  if (size =? 0) || (wrap64 (target - next) <? wrap64 (size - 1)) then target
  else wrap64 (next + size - 1).

(** ** Events *)
Inductive ChainEvent :=
| Deposited (customer : string) (amount : Z)
| WithdrawalRequested (account : string) (amount : Z)
| Claimed (account : string) (amount : Z)
| BondDeposited (provider : string) (total : Z)
| ProviderSignerSet (provider signer : string) (allowed : bool)
| BondExitRequested (provider : string) (available_at : Z)
| BondExitFinalized (provider : string) (amount : Z)
| OfferPublished (provider offer : string) (version : Z) (model_hash capability_hash : string)
    (input output compute : Z)
| SessionOpened (session customer : string) (allowance expires_at : Z)
| SessionCloseRequested (session : string) (available_at : Z)
| SessionClosed (session : string) (returned : Z)
| ReceiptSettled (request session provider : string) (provider_amount fee_amount : Z)
| ProviderSlashed (request provider : string) (amount : Z)
| OtherEvent.

(** The fields of [types.Log] that the indexer stores. *)
Record Log := mkLog {
  lg_BlockNumber : Z; lg_BlockHash : string; lg_TxHash : string; lg_Index : Z; lg_Payload : bytes;
}.

Record Indexer := mkIndexer {
  ix_contract : string; ix_chainID : Z; ix_startBlock : Z; ix_confirmations : Z; ix_feeRecipient : string;
}.

Definition set_startBlock (v : Z) (i : Indexer) : Indexer :=
  mkIndexer (ix_contract i) (ix_chainID i) v (ix_confirmations i) (ix_feeRecipient i).

Section Indexer.
Variable i : Indexer.
Variable decode : Log -> result ChainEvent.

Definition here (chain : Z) (contract : string) : bool :=
  (chain =? ix_chainID i) && String.eqb contract (ix_contract i).
Definition account_key (address : string) (r : ChainAccountRow) : bool :=
  here (ca_chain r) (ca_contract r) && String.eqb (ca_address r) address.
Definition session_key (session : string) (r : ChainSessionRow) : bool :=
  here (cs_chain r) (cs_contract r) && String.eqb (cs_session r) session.

Definition cursor (d : Db) : result (Z * option Z * string) :=
  match query_row (fun r => here (cc_chain r) (cc_contract r)) (chain_cursors d) with
  | Err _ => Ok (ix_startBlock i, None, "")
  | Ok row =>
      match cc_last_block row with
      | None => Ok (cc_next_block row, None, "")
      | Some last => Ok (cc_next_block row, Some last, default "" (cc_last_block_hash row))
      end
  end.

Definition insertLog (log : Log) (d : Db) : result (Db * bool) :=
  _ ← bigint (lg_BlockNumber log);
  let '(rows, inserted) :=
    insert_or_nothing (fun r => here (cx_chain r) (cx_contract r)
                                && String.eqb (cx_transaction_hash r) (lg_TxHash log)
                                && (cx_log_index r =? lg_Index log))
      (mkChainLogRow (ix_chainID i) (ix_contract i) (lg_BlockNumber log) (lg_BlockHash log)
         (lg_TxHash log) (lg_Index log)) (chain_logs d) in
  Ok (set_chain_logs rows d, inserted).

(** Statements on [chain_accounts] *)
Definition update_account (address : string) (f : ChainAccountRow -> ChainAccountRow) (d : Db) : Db :=
  set_chain_accounts (update (account_key address) f (chain_accounts d)) d.
Definition upsert_account (address : string) (f : ChainAccountRow -> ChainAccountRow)
    (balance bond claimable : Z) (d : Db) : Db :=
  set_chain_accounts (upsert (account_key address) f
    (mkChainAccountRow (ix_chainID i) (ix_contract i) address balance bond claimable 0)
    (chain_accounts d)) d.
Definition add_balance (amount : Z) (r : ChainAccountRow) : ChainAccountRow :=
  set_ca_customer_balance (ca_customer_balance r + amount) r.
Definition add_claimable (amount : Z) (r : ChainAccountRow) : ChainAccountRow :=
  set_ca_claimable (ca_claimable r + amount) r.
Definition credit_claimable (address : string) (amount : Z) (d : Db) : Db :=
  upsert_account address (add_claimable amount) 0 0 amount d.

(** [INSERT INTO sessions SELECT ... FROM accounts ... ON CONFLICT(id) DO UPDATE]: nothing
    when no account owns the wallet, an error when two do. *)
Definition open_session (now : Z) (session customer : string) (allowance : Z) (d : Db) : result Db :=
  match select (fun a => lower_eq (ac_wallet a) customer) (accounts d) with
  | [] => Ok d
  | [account] =>
      _ ← check (0 <=? allowance);
      Ok (set_sessions (upsert (fun r => String.eqb (se_id r) session)
            (fun r => set_se_balance allowance (set_se_state StateOpen (set_se_account (ac_id account) r)))
            (mkSessionRow session (ac_id account) StateOpen allowance now) (sessions d)) d)
  | _ => Err ErrConstraint
  end.

Definition apply_settled (now : Z) (log : Log) (requestID session provider : string)
    (providerAmount feeAmount : Z) (d : Db) : result Db :=
  let settledCharge := providerAmount + feeAmount in
  _ ← match query_row (fun r => String.eqb (rv_request r) requestID) (reservations d) with
      | Ok hold =>
          match SetString10 (BigString (rv_amount hold)) with
          | Some heldAmount =>
              fail_if (negb (heldAmount =? settledCharge))
                (ErrNew "settled charge does not match local reservation")
          | None => Err (ErrNew "settled charge does not match local reservation")
          end
      | Err _ => Ok tt
      end;
  _ ← bigint (lg_BlockNumber log);
  let '(rows, inserted) :=
    insert_or_nothing (fun r => here (ct_chain r) (ct_contract r) && String.eqb (ct_request r) requestID)
      (mkChainSettlementRow (ix_chainID i) (ix_contract i) requestID session provider providerAmount
         feeAmount (lg_TxHash log) (lg_BlockNumber log)) (chain_settlements d) in
  let d := set_chain_settlements rows d in
  if negb inserted then Ok d
  else
    let d := set_chain_sessions (update (session_key session)
                (fun r => set_cs_spent (cs_spent r + providerAmount + feeAmount) r) (chain_sessions d)) d in
    let d := set_sessions (update (fun r => String.eqb (se_id r) session)
                (fun r => set_se_balance (Z.max 0 (se_balance r - providerAmount - feeAmount)) r)
                (sessions d)) d in
    let d := credit_claimable provider providerAmount d in
    let d := credit_claimable (ix_feeRecipient i) feeAmount d in
    let d := set_queue (update (fun r => String.eqb (qu_request r) requestID
                                         && bool_decide (qu_state r = QueueBroadcasting))
                          (fun r => set_qu_updated_at now (set_qu_state QueueSettled r)) (queue d)) d in
    let d := set_reservations (update (fun r => String.eqb (rv_request r) requestID)
                (fun r => set_rv_released_at (Some (default now (rv_released_at r))) r)
                (reservations d)) d in
    Ok (transitionSettlementRequest now requestID Submitted Settled d).

Definition applyEvent (now : Z) (log : Log) (event : ChainEvent) (d : Db) : result Db :=
  match event with
  | Deposited customer amount => Ok (upsert_account customer (add_balance amount) amount 0 0 d)
  | WithdrawalRequested account amount =>
      Ok (update_account account (fun r => add_claimable amount (add_balance (- amount) r)) d)
  | Claimed account amount => Ok (update_account account (add_claimable (- amount)) d)
  | BondDeposited provider total =>
      Ok (upsert_account provider (set_ca_provider_bond total) 0 total 0 d)
  | ProviderSignerSet provider signer allowed =>
      Ok (set_chain_signers (upsert
            (fun r => here (cg_chain r) (cg_contract r) && String.eqb (cg_provider r) provider
                      && String.eqb (cg_signer r) signer) (set_cg_allowed allowed)
            (mkChainSignerRow (ix_chainID i) (ix_contract i) provider signer allowed) (chain_signers d)) d)
  | BondExitRequested provider available_at =>
      _ ← bigint available_at;
      Ok (update_account provider (set_ca_bond_exit_available_at available_at) d)
  | BondExitFinalized provider amount =>
      Ok (update_account provider (fun r => add_claimable amount
            (set_ca_bond_exit_available_at 0 (set_ca_provider_bond 0 r))) d)
  | OfferPublished provider offer version model_hash capability_hash input output compute =>
      _ ← bigint version;
      Ok (set_chain_offers (fst (insert_or_nothing
            (fun r => here (co_chain r) (co_contract r) && String.eqb (co_provider r) provider
                      && String.eqb (co_offer r) offer && (co_version r =? version))
            (mkChainOfferRow (ix_chainID i) (ix_contract i) provider offer version model_hash
               capability_hash input output compute) (chain_offers d))) d)
  | SessionOpened session customer allowance expires_at =>
      _ ← bigint expires_at;
      let d := set_chain_sessions (fst (insert_or_nothing (session_key session)
                 (mkChainSessionRow (ix_chainID i) (ix_contract i) session customer allowance 0
                    expires_at 0 false) (chain_sessions d))) d in
      let d := update_account customer (add_balance (- allowance)) d in
      open_session now session customer allowance d
  | SessionCloseRequested session available_at =>
      _ ← bigint available_at;
      let d := set_chain_sessions (update (session_key session)
                 (set_cs_close_available_at available_at) (chain_sessions d)) d in
      Ok (set_sessions (update (fun r => String.eqb (se_id r) session
                                         && bool_decide (se_state r = StateOpen))
                          (set_se_state StateClosing) (sessions d)) d)
  | SessionClosed session returned =>
      row ← query_row (session_key session) (chain_sessions d);
      let d := set_chain_sessions (update (session_key session) (set_cs_finalized true)
                 (chain_sessions d)) d in
      let d := update_account (cs_customer row) (add_balance returned) d in
      Ok (set_sessions (update (fun r => String.eqb (se_id r) session)
                          (fun r => set_se_balance 0 (set_se_state StateClosed r)) (sessions d)) d)
  | ReceiptSettled request session provider provider_amount fee_amount =>
      apply_settled now log request session provider provider_amount fee_amount d
  | ProviderSlashed request provider amount =>
      _ ← bigint (lg_BlockNumber log);
      _ ← check (0 <? amount);
      let d := set_chain_slashes (fst (insert_or_nothing
                 (fun r => here (cl_chain r) (cl_contract r) && String.eqb (cl_request r) request
                           && String.eqb (cl_provider r) provider
                           && String.eqb (cl_transaction_hash r) (lg_TxHash log))
                 (mkChainSlashRow (ix_chainID i) (ix_contract i) request provider amount
                    (lg_BlockNumber log) (lg_TxHash log) now) (chain_slashes d))) d in
      let d := update_account provider
                 (fun r => set_ca_bond_exit_available_at
                             (if ca_provider_bond r - amount =? 0 then 0 else ca_bond_exit_available_at r)
                             (set_ca_provider_bond (ca_provider_bond r - amount) r)) d in
      Ok (credit_claimable (ix_feeRecipient i) amount d)
  | OtherEvent => Ok d
  end.

Definition applyLog (now : Z) (log : Log) (d : Db) : result Db :=
  event ← decode log; applyEvent now log event d.

(** The loop of [indexRange]: a log already stored is skipped. *)
Fixpoint index_logs (now : Z) (logs : list Log) (d : Db) : result Db :=
  match logs with
  | [] => Ok d
  | log :: rest =>
      '(d, inserted) ← insertLog log d;
      d ← (if (inserted : bool) then applyLog now log d else Ok d);
      index_logs now rest d
  end.

(** The node: the header (hash, parent hash) of a block and the contract's logs of a range. *)
Record Node := mkNode {
  nd_Header : Z -> result (string * string);
  nd_Logs : Z -> Z -> result (list Log);
}.

Definition indexRange (node : Node) (now from to : Z) (d : Db) : result Db :=
  '(hash, parent) ← nd_Header node to;
  logs ← nd_Logs node from to;
  _ ← bigint to;
  let d := set_chain_blocks (upsert (fun r => here (cb_chain r) (cb_contract r) && (cb_number r =? to))
             (fun _ => mkChainBlockRow (ix_chainID i) (ix_contract i) to hash parent)
             (mkChainBlockRow (ix_chainID i) (ix_contract i) to hash parent) (chain_blocks d)) d in
  d ← index_logs now logs d;
  _ ← bigint (wrap64 (to + 1));
  let row := mkChainCursorRow (ix_chainID i) (ix_contract i) (wrap64 (to + 1)) (Some to) (Some hash) in
  Ok (set_chain_cursors (upsert (fun r => here (cc_chain r) (cc_contract r)) (fun _ => row) row
                           (chain_cursors d)) d).

Fixpoint revert_settlements (now : Z) (ids : list string) (d : Db) : Db :=
  match ids with
  | [] => d
  | id :: rest =>
      let d := set_reservations (update (fun r => String.eqb (rv_request r) id && (0 <? rv_amount r))
                 (set_rv_released_at None) (reservations d)) d in
      let d := set_queue (update (fun r => String.eqb (qu_request r) id
                                           && bool_decide (qu_state r = QueueSettled))
                 (fun r => set_qu_updated_at now (set_qu_state QueueBroadcasting r)) (queue d)) d in
      revert_settlements now rest (transitionSettlementRequest now id Settled Submitted d)
  end.

Definition rewind (now : Z) (d : Db) : Db :=
  let reverted := map ct_request
                    (select (fun r => here (ct_chain r) (ct_contract r)) (chain_settlements d)) in
  let d := revert_settlements now reverted d in
  let d := set_chain_slashes (delete_rows (fun r => here (cl_chain r) (cl_contract r)) (chain_slashes d)) d in
  let d := set_chain_settlements (delete_rows (fun r => here (ct_chain r) (ct_contract r)) (chain_settlements d)) d in
  let d := set_chain_sessions (delete_rows (fun r => here (cs_chain r) (cs_contract r)) (chain_sessions d)) d in
  let d := set_chain_offers (delete_rows (fun r => here (co_chain r) (co_contract r)) (chain_offers d)) d in
  let d := set_chain_signers (delete_rows (fun r => here (cg_chain r) (cg_contract r)) (chain_signers d)) d in
  let d := set_chain_accounts (delete_rows (fun r => here (ca_chain r) (ca_contract r)) (chain_accounts d)) d in
  let d := set_chain_blocks (delete_rows (fun r => here (cb_chain r) (cb_contract r)) (chain_blocks d)) d in
  let d := set_chain_cursors (delete_rows (fun r => here (cc_chain r) (cc_contract r)) (chain_cursors d)) d in
  set_chain_logs (delete_rows (fun r => here (cx_chain r) (cx_contract r)) (chain_logs d)) d.
End Indexer.

(** The loop [for next <= target]: each range commits on its own. *)
Fixpoint sync_loop (fuel : nat) (i : Indexer) (decode : Log -> result ChainEvent) (node : Node)
    (now next target : Z) (d : Db) : Db * option error :=
  match fuel with
  | O => (d, None)
  | S fuel' =>
      if next <=? target then
        let end_ := batchEnd next target indexBatchSize in
        match indexRange i decode node now next end_ d with
        | Err e => (d, Some e)
        | Ok d' =>
            if end_ =? u64_max then (d', None)
            else sync_loop fuel' i decode node now (end_ + 1) target d'
        end
      else (d, None)
  end.

(** [Sync] may move the configured start block of the indexer. *)
Definition Sync (i : Indexer) (decode : Log -> result ChainEvent) (node : Node)
    (CodeAt : Z -> result bytes) (head : result Z) (now : Z) (d : Db) : Indexer * Db * option error :=
  match head with
  | Err e => (i, d, Some e)
  | Ok head =>
      if head <? ix_confirmations i then (i, d, None)
      else
        let target := head - ix_confirmations i in
        match cursor i d with
        | Err e => (i, d, Some e)
        | Ok (next, last, lastHash) =>
            let found :=
              if (next <? target) && (maximumInitialHistory <? target - next) then
                first ← firstCodeBlock CodeAt next target;
                Ok (first, if is_null last || (next <? first) then set_startBlock first i else i)
              else Ok (next, i) in
            match found with
            | Err e => (i, d, Some e)
            | Ok (next, i) =>
                let '(next, d) :=
                  match last with
                  | None => (next, d)
                  | Some block =>
                      let canonical := match nd_Header node block with
                                       | Ok (hash, _) => String.eqb hash lastHash
                                       | Err _ => false
                                       end in
                      if canonical then (next, d) else (ix_startBlock i, rewind i now d)
                  end in
                let '(d, err) := sync_loop (Z.to_nat (target - next + 1)) i decode node now next target d in
                (i, d, err)
            end
        end
  end.
