(* ===== verification/Sample.v ===== *)
(** * A concrete run of the broker

    A toy instance of go-ethereum's conversions and a small database built with
    the operations of the store: one customer with an open session of 1000, one
    provider whose machine is registered by the device flow and whose offer,
    at rates 2, 3 and 5, is published on the chain.  The witnesses
    of the conditional theorems are evaluated on it. *)

From S2P Require Import Prelude GoStrings Price Router Receipt Messages Db Hex Auth Store Settlement Indexer.
From Stdlib Require Import Ascii.
Open Scope string_scope.
Open Scope list_scope.
Open Scope Z_scope.

Definition decode_hex (n : nat) (s : string) : bytes :=
  SetBytes n (default [] (DecodeString (TrimPrefix s "0x"))).

#[export] Instance toy_ethereum : Ethereum := {|
  Keccak256Hex s := hashHex (SetBytes 32 (string_bytes s));
  IsHexAddress s := (go_len s =? 42) && HasPrefix s "0x";
  HexToAddress := decode_hex 20;
  HexToHash := decode_hex 32;
  HashHex := hashHex;
  AddressHex := addressHex;
|}.

Definition customer_wallet := addressHex (replicate 20 17).
Definition provider_wallet := addressHex (replicate 20 34).
Definition contract_address := addressHex (replicate 20 51).
Definition session_id := hashHex (replicate 32 1).
Definition request_id := hashHex (replicate 32 2).

Definition sample_indexer : Indexer := mkIndexer contract_address 1 0 0 (addressHex (replicate 20 68)).
Definition sample_log : Log := mkLog 1 "0xb1" "0xt1" 0 [].
Definition sample_event (event : ChainEvent) (d : Db) : result Db :=
  applyEvent sample_indexer 10 sample_log event d.

Definition value_of (r : result Db) : Db := match r with Ok d => d | Err _ => empty_db end.

(** The device flow registers the provider's machine. *)
Definition device_code : string := Eval vm_compute in randomToken (replicate 32 9).
Definition user_code : string := Eval vm_compute in ToUpper (hex_bytes [222; 173; 190; 239]).
Definition machine_id : string := Eval vm_compute in randomID "mach" (replicate 12 7).

Definition db_1 : Db := Eval vm_compute in value_of (CreateAccount "customer" customer_wallet empty_db).
Definition db_2 : Db := Eval vm_compute in value_of (CreateAccount "provider" provider_wallet db_1).
Definition db_3 : Db := Eval vm_compute in
  value_of (snd <$> CreateDeviceAuthorization 1 (replicate 32 9) [222; 173; 190; 239] "rig" provider_wallet 100 db_2).
Definition db_4 : Db := Eval vm_compute in value_of (ApproveDeviceAuthorization 2 user_code "provider" db_3).
Definition db_5 : Db := Eval vm_compute in
  value_of (snd <$> ExchangeDeviceAuthorization 3 (replicate 12 7) (replicate 32 8) device_code db_4).

(** The provider bonds and publishes its offer, the customer opens a session. *)
Definition bond_event : ChainEvent := BondDeposited provider_wallet 100000.
Definition offer_event : ChainEvent :=
  OfferPublished provider_wallet (Keccak256Hex "o1") 1 (Keccak256Hex "llama") (Keccak256Hex "text") 2 3 5.
Definition session_event : ChainEvent := SessionOpened session_id customer_wallet 1000 99.
Definition db_6 : Db := Eval vm_compute in value_of (sample_event bond_event db_5).
Definition db_7 : Db := Eval vm_compute in value_of (sample_event offer_event db_6).
Definition db_8 : Db := Eval vm_compute in value_of (sample_event session_event db_7).

(** The provider's daemon advertises its capacity. *)
Definition sample_capacity : Capacity :=
  mkCapacity 1 [mkOfferCapacity "o1" "llama" 1 "ollama" (Keccak256Hex "o1") (Keccak256Hex "llama")
                  (Keccak256Hex "text") ["text"] "" "" ""].
Definition db_ready : Db := Eval vm_compute in
  value_of (ReconcileProviderCapacity 15 machine_id sample_capacity 1 contract_address db_8).

(** One request, from reservation to receipt. *)
Definition sample_reservation : InferenceReservation :=
  mkInferenceReservation request_id session_id "customer" machine_id "o1" 1 500 2000000 1000000 2000.
Definition sample_completion : Completion :=
  mkCompletion request_id session_id machine_id "o1" "llama" 1 1000000 1000000 1000
    (replicate 32 3) (replicate 32 4) 1700000000000000.
Definition sample_domain : ReceiptDomain :=
  mkReceiptDomain 1 contract_address (addressHex (replicate 20 85)) 250 1.

Definition db_reserved : Db := Eval vm_compute in value_of (ReserveInference 20 sample_reservation db_ready).
Definition db_accepted : Db := Eval vm_compute in value_of (TransitionRequest 21 request_id "accepted" db_reserved).
Definition db_streaming : Db := Eval vm_compute in value_of (TransitionRequest 22 request_id "streaming" db_accepted).
Definition db_completed : Db := Eval vm_compute in value_of (CompleteInference 23 sample_completion db_streaming).
Definition sample_prepared : result (Receipt * string * string * Db) := Eval vm_compute in
  PrepareReceipt 24 request_id sample_domain db_completed.
Definition db_prepared : Db := Eval vm_compute in value_of (snd <$> sample_prepared).
Definition sample_receipt : option Receipt := Eval vm_compute in
  match sample_prepared with Ok (r, _, _, _) => Some r | Err _ => None end.

Example sample_reserved : locked_amount session_id db_reserved = 17.
Proof. vm_compute. reflexivity. Qed.
Example sample_charged : locked_amount session_id db_prepared = 10.
Proof. vm_compute. reflexivity. Qed.

(** ** Witnesses of the authentication theorems *)
Lemma device_code_single_use_witness :
  exists machine token d', ExchangeDeviceAuthorization 3 (replicate 12 7) (replicate 32 8) device_code db_4
                           = Ok (machine, token, d')
  /\ ExchangeDeviceAuthorization 4 [] [] device_code d' = Err ErrAuthorizationConsumed.
Proof.
  do 3 eexists. split; [vm_compute; reflexivity|].
  eapply (device_code_single_use 3 (replicate 12 7) (replicate 32 8) device_code db_4).
  - split; [by apply NoDup_nil_2|]. intros m Hm. by apply elem_of_nil in Hm.
  - by repeat constructor.
  - by repeat constructor.
  - done.
  - vm_compute. reflexivity.
Defined.

Definition ticket_db : Db := Eval vm_compute in
  value_of (snd <$> CreateStreamTicket 1 (replicate 12 5) (replicate 24 6) "customer" 60 db_1).
Definition ticket : string := Eval vm_compute in
  credential (randomID "stream" (replicate 12 5)) (randomToken (replicate 24 6)).

Lemma stream_ticket_single_use_witness :
  exists account d', ConsumeStreamTicket 10 ticket ticket_db = Ok (account, d')
  /\ ConsumeStreamTicket 11 ticket d' = Err ErrAuthorizationConsumed.
Proof.
  do 2 eexists. split; [vm_compute; reflexivity|].
  eapply (stream_ticket_single_use 10 ticket ticket_db). vm_compute. reflexivity.
Defined.

(** A signature scheme whose signatures start with the address. *)
Definition toy_text_hash (message : bytes) : bytes := message.
Definition toy_recover (message signature : bytes) : option Address := Some (firstn 20 signature).
Definition challenge_db : Db := Eval vm_compute in
  value_of (snd <$> CreateWalletChallenge 1 [1] [2] "myference" "https://app" customer_wallet 1 60 db_1).
Definition challenge_id : string := Eval vm_compute in randomID "challenge" [1].
Definition wallet_signature : string := Eval vm_compute in
  "0x" +:+ hex_bytes (replicate 20 17 ++ replicate 45 0).

Lemma wallet_challenge_single_use_witness :
  exists session d', VerifyWalletChallenge toy_text_hash toy_recover 10 [3] [4] [5] challenge_id "https://app"
                       wallet_signature 3600 challenge_db = Ok (session, d')
  /\ VerifyWalletChallenge toy_text_hash toy_recover 11 [6] [7] [8] challenge_id "https://app"
       wallet_signature 3600 d' = Err ErrAuthorizationConsumed.
Proof.
  do 2 eexists. split; [vm_compute; reflexivity|].
  eapply (wallet_challenge_single_use toy_text_hash toy_recover 10 [3] [4] [5] challenge_id "https://app"
            wallet_signature 3600 challenge_db); [vm_compute; reflexivity|lia].
Defined.

Definition key_scope : KeyScope := mkKeyScope ["llama"] ["chat"] 500.
Definition key_db : Db := Eval vm_compute in
  value_of (snd <$> CreateAPIKey 1 [1] (replicate 32 2) "customer" key_scope db_1).
Definition key_token : string := Eval vm_compute in credential (randomID "key" [1]) (randomToken (replicate 32 2)).

Lemma AuthorizeAPIKey_iff_witness :
  AuthorizeAPIKey key_token "llama" "chat" 500 key_db
  = Ok (mkAPIKeyPrincipal (randomID "key" [1]) "customer" key_scope).
Proof.
  apply (AuthorizeAPIKey_iff key_token "llama" "chat" 500 key_db).
  - vm_compute. by apply NoDup_singleton.
  - exists (randomID "key" [1]), (randomToken (replicate 32 2)),
      (mkApiKeyRow (randomID "key" [1]) "customer" (digest (randomToken (replicate 32 2))) key_scope None 1).
    split_and!; try reflexivity.
    + vm_compute. apply elem_of_cons. by left.
    + right. apply elem_of_cons. by left.
    + apply elem_of_cons. by left.
Defined.
