(* ===== verification/Ledger.v ===== *)
(** * The reservation ledger

    The invariant that makes the broker solvent: in every session that is not
    closed, the live reservations never exceed the confirmed balance.  It is
    proved over every state-changing operation of the store, the settlement
    queue and the indexer, as a step relation on the database.  With the
    rewinds of a reorganisation among the steps, what is held and settled in a
    session stays within its allowance in the contract. *)

From S2P Require Import Prelude GoStrings Price Router Receipt Messages Db Hex Auth Store Settlement Indexer Sample.
From stdpp Require Import relations.
Open Scope string_scope.
Open Scope list_scope.
Open Scope Z_scope.

(** The states in which a request still holds its reservation. *)
Definition holding (s : request_state) : bool :=
  match s with
  | Created | Reserved | Offered | Accepted | Streaming | Completed | Signed | Submitted => true
  | Settled | Rejected | Expired | Cancelled | Failed => false
  end.

Definition live_sum (sessionID : string) (rvs : list ReservationRow) : Z :=
  sum_where (live_in sessionID) rv_amount rvs.

(** The invariant, over the three tables it speaks of: what the sessions hold is
    within their [limit], where they have one. *)
Record ledger_ok (limit : SessionRow -> option Z) (ses : list SessionRow) (rqs : list RequestRow)
    (rvs : list ReservationRow) : Prop := {
  lk_sessions : NoDup (map se_id ses);
  lk_requests : NoDup (map rq_id rqs);
  lk_holds : NoDup (map rv_request rvs);
  lk_amounts : forall rv, rv ∈ rvs -> 0 <= rv_amount rv;
  lk_hold_request : forall rv, rv ∈ rvs ->
    exists rq, rq ∈ rqs /\ rq_id rq = rv_request rv /\ rq_session rq = rv_session rv;
  lk_request_session : forall rq, rq ∈ rqs -> exists se, se ∈ ses /\ se_id se = rq_session rq;
  lk_limit : forall se l, se ∈ ses -> limit se = Some l -> live_sum (se_id se) rvs <= l;
  lk_live : forall rq rv, rq ∈ rqs -> rv ∈ rvs -> rv_request rv = rq_id rq ->
    holding (rq_state rq) = true -> rv_released_at rv = None \/ rv_amount rv = 0;
}.

Arguments lk_sessions {limit}. Arguments lk_requests {limit}. Arguments lk_holds {limit}. Arguments lk_amounts {limit}.
Arguments lk_hold_request {limit}. Arguments lk_request_session {limit}. Arguments lk_limit {limit}. Arguments lk_live {limit}.

Definition kept (limit : SessionRow -> option Z) (d : Db) : Prop := ledger_ok limit (sessions d) (requests d) (reservations d).

(** The confirmed balance limits a session until it is closed. *)
Definition funds (se : SessionRow) : option Z := if bool_decide (se_state se = StateClosed) then None else Some (se_balance se).
Abbreviation db_ok := (kept funds).

Lemma lk_solvent d : db_ok d -> forall se, se ∈ sessions d -> se_state se <> StateClosed -> live_sum (se_id se) (reservations d) <= se_balance se.
Proof. intros H se Hse Hst. apply (lk_limit _ _ _ H se _ Hse). unfold funds. by rewrite bool_decide_false. Qed.
Lemma funds_Some se l : funds se = Some l -> se_state se <> StateClosed /\ l = se_balance se.
Proof. unfold funds. destruct (bool_decide _) eqn:E; [done|]. intros [= <-]. by apply bool_decide_eq_false in E. Qed.

Section Tables.
Context {limit : SessionRow -> option Z}.
Abbreviation ledger_ok := (ledger_ok limit).

Lemma live_sum_fresh ses rqs rvs id :
  ledger_ok ses rqs rvs -> (forall se, se ∈ ses -> se_id se <> id) -> live_sum id rvs = 0.
Proof.
  intros H Hf. apply sum_where_zero. intros rv Hrv. unfold live_in.
  destruct (String.eqb_spec (rv_session rv) id) as [E|]; [|done].
  destruct (lk_hold_request _ _ _ H rv Hrv) as (rq & Hrq & _ & Es).
  destruct (lk_request_session _ _ _ H rq Hrq) as (se & Hse & Ei).
  exfalso. apply (Hf se Hse). congruence.
Qed.

(** ** How the three tables may change *)
(** Requests change state along edges that never start to hold again. *)
Lemma ledger_update_requests ses rqs rvs p f :
  ledger_ok ses rqs rvs ->
  (forall r, r ∈ rqs -> p r = true ->
     rq_id (f r) = rq_id r /\ rq_session (f r) = rq_session r
     /\ (holding (rq_state (f r)) = true -> holding (rq_state r) = true)) ->
  ledger_ok ses (update p f rqs) rvs.
Proof.
  intros H Hf. destruct H as [H1 H2 H3 H4 H5 H6 H7 H8].
  assert (Hkeep : forall r, r ∈ rqs ->
    rq_id (if p r then f r else r) = rq_id r /\ rq_session (if p r then f r else r) = rq_session r
    /\ (holding (rq_state (if p r then f r else r)) = true -> holding (rq_state r) = true)).
  { intros r Hr. destruct (p r) eqn:P; auto. }
  split; try done.
  - rewrite map_update; [done|]. intros r Hr P. by apply Hf.
  - intros rv Hrv. destruct (H5 rv Hrv) as (rq & Hrq & E1 & E2).
    exists (if p rq then f rq else rq). destruct (Hkeep rq Hrq) as (K1 & K2 & _).
    split_and!; [|congruence|congruence]. apply elem_of_update. eauto.
  - intros rq (old & Ho & ->)%elem_of_update. destruct (Hkeep old Ho) as (_ & -> & _). by apply H6.
  - intros rq rv (old & Ho & ->)%elem_of_update Hrv E Hh. destruct (Hkeep old Ho) as (K1 & _ & K3).
    apply (H8 old rv); auto. congruence.
Qed.

(** A new request without a reservation. *)
Lemma ledger_new_request ses rqs rvs rq :
  ledger_ok ses rqs rvs -> (forall r, r ∈ rqs -> rq_id r <> rq_id rq) ->
  (exists se, se ∈ ses /\ se_id se = rq_session rq) -> ledger_ok ses (rqs ++ [rq]) rvs.
Proof.
  intros H Hf Hs. destruct H as [H1 H2 H3 H4 H5 H6 H7 H8]. split; try done.
  - by apply NoDup_snoc.
  - intros rv Hrv. destruct (H5 rv Hrv) as (q & Hq & E). exists q. split; [|done]. set_solver.
  - intros q Hq. apply elem_of_app in Hq as [Hq|Hq]; [by apply H6|].
    apply list_elem_of_singleton in Hq as ->. done.
  - intros q rv Hq Hrv E Hh. apply elem_of_app in Hq as [Hq|Hq]; [by eapply H8|].
    apply list_elem_of_singleton in Hq as ->.
    destruct (H5 rv Hrv) as (q & Hq & E' & _). exfalso. apply (Hf q Hq). congruence.
Qed.

(** A new hold for a request that has none, within the balance of its session. *)
Lemma ledger_new_hold ses rqs rvs rv :
  ledger_ok ses rqs rvs -> (forall r, r ∈ rvs -> rv_request r <> rv_request rv) ->
  (exists rq, rq ∈ rqs /\ rq_id rq = rv_request rv /\ rq_session rq = rv_session rv) ->
  0 <= rv_amount rv -> rv_released_at rv = None ->
  (forall se l, se ∈ ses -> se_id se = rv_session rv -> limit se = Some l ->
     live_sum (se_id se) rvs + rv_amount rv <= l) ->
  ledger_ok ses rqs (rvs ++ [rv]).
Proof.
  intros H Hf Hrq Ha Hl Hb. destruct H as [H1 H2 H3 H4 H5 H6 H7 H8]. split; try done.
  - by apply NoDup_snoc.
  - intros r Hr. apply elem_of_app in Hr as [Hr|Hr]; [by apply H4|].
    apply list_elem_of_singleton in Hr as ->. done.
  - intros r Hr. apply elem_of_app in Hr as [Hr|Hr]; [by apply H5|].
    apply list_elem_of_singleton in Hr as ->. done.
  - intros se l Hse Hst. unfold live_sum in *. rewrite sum_where_app, sum_where_cons.
    unfold share, live_in at 2. destruct (String.eqb_spec (rv_session rv) (se_id se)) as [E|].
    + rewrite Hl. simpl. specialize (Hb se l Hse (eq_sym E) Hst). lia.
    + specialize (H7 se l Hse Hst). simpl. lia.
  - intros q r Hq Hr E Hh. apply elem_of_app in Hr as [Hr|Hr]; [by eapply H8|].
    apply list_elem_of_singleton in Hr as ->. by left.
Qed.

(** Holds change so that no session holds more and holding requests stay live. *)
Lemma ledger_update_holds ses rqs rvs p f :
  ledger_ok ses rqs rvs ->
  (forall r, r ∈ rvs -> p r = true ->
     rv_request (f r) = rv_request r /\ rv_session (f r) = rv_session r /\ 0 <= rv_amount (f r)
     /\ (rv_released_at (f r) = None -> rv_amount (f r) <> 0 ->
         rv_released_at r = None /\ rv_amount (f r) <= rv_amount r)
     /\ (rv_released_at (f r) <> None -> rv_amount (f r) <> 0 ->
         forall rq, rq ∈ rqs -> rq_id rq = rv_request r -> holding (rq_state rq) = false)) ->
  ledger_ok ses rqs (update p f rvs).
Proof.
  intros H Hf. destruct H as [H1 H2 H3 H4 H5 H6 H7 H8]. split; try done.
  - rewrite map_update; [done|]. intros r Hr P. by apply Hf.
  - intros rv (old & Ho & ->)%elem_of_update. destruct (p old) eqn:P; [|by apply H4]. by apply (Hf old).
  - intros rv (old & Ho & ->)%elem_of_update. destruct (p old) eqn:P; [|by apply H5].
    destruct (Hf old Ho P) as (-> & -> & _). by apply H5.
  - intros se l Hse Hst. etrans; [|by apply (H7 se l)]. apply sum_where_mono. intros r Hr.
    destruct (p r) eqn:P; [|done]. destruct (Hf r Hr P) as (E1 & E2 & Ha & Hl & _).
    specialize (H4 r Hr). unfold share, live_in. rewrite E2.
    destruct (String.eqb_spec (rv_session r) (se_id se)); [|done]. simpl.
    destruct (rv_released_at (f r)) eqn:F; simpl; [by destruct (is_null _)|].
    destruct (Z.eq_dec (rv_amount (f r)) 0) as [E|E]; [rewrite E; by destruct (is_null _)|].
    destruct (Hl eq_refl E) as [-> Hle]. done.
  - intros rq rv Hrq (old & Ho & ->)%elem_of_update E Hh. destruct (p old) eqn:P; [|by eapply H8].
    destruct (Hf old Ho P) as (E1 & _ & _ & _ & Hn).
    destruct (rv_released_at (f old)) eqn:F; [|by left].
    destruct (Z.eq_dec (rv_amount (f old)) 0) as [|Hz]; [by right|].
    rewrite (Hn ltac:(done) Hz rq Hrq ltac:(congruence)) in Hh. done.
Qed.

(** Sessions change so that no open one loses balance it needs. *)
Lemma ledger_update_sessions ses rqs rvs p f :
  ledger_ok ses rqs rvs ->
  (forall s, s ∈ ses -> p s = true -> se_id (f s) = se_id s
     /\ (forall l, limit (f s) = Some l -> live_sum (se_id s) rvs <= l)) ->
  ledger_ok (update p f ses) rqs rvs.
Proof.
  intros H Hf. destruct H as [H1 H2 H3 H4 H5 H6 H7 H8]. split; try done.
  - rewrite map_update; [done|]. intros r Hr P. by apply Hf.
  - intros rq Hrq. destruct (H6 rq Hrq) as (se & Hse & E). exists (if p se then f se else se).
    split; [apply elem_of_update; eauto|]. destruct (p se) eqn:P; [|done].
    destruct (Hf se Hse P) as (-> & _). done.
  - intros se l (old & Ho & ->)%elem_of_update Hst. destruct (p old) eqn:P; [|by apply H7].
    destruct (Hf old Ho P) as (-> & Hb). by apply Hb.
Qed.

Lemma ledger_new_session ses rqs rvs se :
  ledger_ok ses rqs rvs -> (forall s, s ∈ ses -> se_id s <> se_id se) -> (forall l, limit se = Some l -> 0 <= l) ->
  ledger_ok (ses ++ [se]) rqs rvs.
Proof.
  intros H Hf Hb. pose proof (live_sum_fresh _ _ _ _ H Hf) as Hz.
  destruct H as [H1 H2 H3 H4 H5 H6 H7 H8]. split; try done.
  - by apply NoDup_snoc.
  - intros rq Hrq. destruct (H6 rq Hrq) as (s & Hs & E). exists s. split; [set_solver|done].
  - intros s l Hs Hst. apply elem_of_app in Hs as [Hs|Hs]; [by apply H7|].
    apply list_elem_of_singleton in Hs as ->. rewrite Hz. by apply Hb.
Qed.
(** A receipt of [c] is settled: its hold is live, or empty, and its request
    submitted, or neither its session nor a hold is known. *)
Definition settles (request session : string) (c : Z) (ses : list SessionRow) (rqs : list RequestRow) (rvs : list ReservationRow) : Prop :=
  (exists rv rq, rv ∈ rvs /\ rv_request rv = request /\ rv_session rv = session /\ (rv_released_at rv = None \/ rv_amount rv = 0)
     /\ rv_amount rv = c /\ rq ∈ rqs /\ rq_id rq = request /\ rq_state rq = Submitted)
  \/ ((forall se, se ∈ ses -> se_id se <> session) /\ (forall rv, rv ∈ rvs -> rv_request rv <> request)).

Definition release_hold (now : Z) (request : string) : list ReservationRow -> list ReservationRow :=
  update (fun r => String.eqb (rv_request r) request) (fun r => set_rv_released_at (Some (default now (rv_released_at r))) r).
Definition settle_request (now : Z) (request : string) : list RequestRow -> list RequestRow :=
  update (request_in request Submitted) (fun r => set_rq_updated_at now (set_rq_state Settled r)).

(** What a session holds goes down by the charge that is settled in it. *)
Lemma live_sum_settled ses rqs rvs now request session c se :
  ledger_ok ses rqs rvs -> 0 <= c -> settles request session c ses rqs rvs -> se ∈ ses ->
  live_sum (se_id se) (release_hold now request rvs) + (if String.eqb (se_id se) session then c else 0) <= live_sum (se_id se) rvs.
Proof.
  intros H Hc Hs Hse. unfold live_sum, release_hold, update.
  assert (forall r, r ∈ rvs -> share (live_in (se_id se)) rv_amount
            (if String.eqb (rv_request r) request then set_rv_released_at (Some (default now (rv_released_at r))) r else r)
            <= share (live_in (se_id se)) rv_amount r) as Hmono.
  { intros r Hr. destruct (String.eqb _ _); [|done]. pose proof (lk_amounts _ _ _ H r Hr).
    unfold share, live_in. cbn. rewrite andb_false_r. destruct (_ && _); lia. }
  destruct (String.eqb_spec (se_id se) session) as [E|_]; [|rewrite Z.add_0_r; by apply sum_where_mono].
  destruct Hs as [(rv & rq & Hrv & Erv & Es & Hl & Ec & _)|[Hno _]]; [|by apply Hno in Hse].
  destruct Hl as [Hl|Hz]; [|replace c with 0 by lia; rewrite Z.add_0_r; by apply sum_where_mono].
  pose proof (sum_where_drop (live_in (se_id se)) rv_amount _ rvs rv Hrv Hmono) as Hd. cbn beta in Hd.
  rewrite Erv, String.eqb_refl in Hd.
  assert (share (live_in (se_id se)) rv_amount rv = c) as Hsh by (unfold share, live_in; by rewrite Hl, Es, E, String.eqb_refl).
  rewrite Hsh in Hd. apply Hd. unfold share, live_in. cbn. by rewrite andb_false_r.
Qed.

Lemma ledger_settled limit' ses rqs rvs now request session c f :
  ledger_ok ses rqs rvs -> 0 <= c -> settles request session c ses rqs rvs -> (forall se, se_id (f se) = se_id se) ->
  (forall se l', se ∈ ses -> limit' (if String.eqb (se_id se) session then f se else se) = Some l' ->
     exists l, limit se = Some l /\ l <= l' + (if String.eqb (se_id se) session then c else 0)) ->
  Ledger.ledger_ok limit' (update (fun r => String.eqb (se_id r) session) f ses) (settle_request now request rqs) (release_hold now request rvs).
Proof.
  intros H Hc Hs Hid Hf. pose proof (fun se => live_sum_settled ses rqs rvs now request session c se H Hc Hs) as Hlive.
  assert (ledger_ok ses (settle_request now request rqs) rvs) as G1.
  { apply (ledger_update_requests _ _ _ _ _ H). intros r Hr P. by split_and!. }
  assert (ledger_ok ses (settle_request now request rqs) (release_hold now request rvs)) as G2.
  { apply (ledger_update_holds _ _ _ _ _ G1). intros r Hr P%String.eqb_eq.
    split_and!; try done; [exact (lk_amounts _ _ _ H r Hr)|].
    intros _ Hz rq (old & Ho & ->)%elem_of_update Eo.
    destruct Hs as [(rv & rq0 & Hrv & Erv & Es & Hl & Ec & Hq0 & Eq0 & Est0)|[_ Hno]]; [|by apply Hno in Hr].
    destruct (request_in request Submitted old) eqn:Q; [done|].
    assert (old = rq0) as -> by (apply (unique_key rq_id rqs); [apply H|done|done|congruence]).
    unfold request_in, state_eqb in Q. rewrite Eq0, String.eqb_refl, Est0 in Q. done. }
  destruct G2 as [H1 H2 H3 H4 H5 H6 H7 H8]. split; try done.
  - rewrite map_update; [done|]. intros r _ _. apply Hid.
  - intros rq Hrq. destruct (H6 rq Hrq) as (se & Hse & E).
    exists (if String.eqb (se_id se) session then f se else se). split; [apply elem_of_update; eauto|].
    destruct (String.eqb _ _); [by rewrite Hid|done].
  - intros se l' (old & Ho & ->)%elem_of_update Hl'. destruct (Hf old l' Ho Hl') as (l & Hl & Hle).
    pose proof (lk_limit _ _ _ H old l Ho Hl). specialize (Hlive old Ho).
    destruct (String.eqb (se_id old) session); rewrite ?Hid; lia.
Qed.
End Tables.

(** A limit that new sessions, whose balance is zero, keep and that gives open
    sessions no less than their balance. *)
Record fair (limit : SessionRow -> option Z) (d : Db) : Prop := {
  fair_new : forall se l, (forall old, old ∈ sessions d -> se_id old <> se_id se) -> se_balance se = 0 -> limit se = Some l -> 0 <= l;
  fair_open : forall se l, se ∈ sessions d -> se_state se = StateOpen -> limit se = Some l -> se_balance se <= l;
}.
Arguments fair_new {limit}. Arguments fair_open {limit}.
Lemma funds_fair d : fair funds d.
Proof. split; [intros se l _ E [_ ->]%funds_Some|intros se l _ _ [_ ->]%funds_Some]; lia. Qed.

Section Operations.
Context {limit : SessionRow -> option Z}.
Abbreviation ledger_ok := (ledger_ok limit).

(** ** Operations that leave the three tables alone *)
Definition same_ledger (d d' : Db) : Prop :=
  sessions d' = sessions d /\ requests d' = requests d /\ reservations d' = reservations d.

Lemma same_ledger_ok d d' : same_ledger d d' -> kept limit d -> kept limit d'.
Proof. unfold same_ledger, kept. intros (-> & -> & ->). done. Qed.

Lemma same_ledger_refl d : same_ledger d d.
Proof. done. Qed.


Definition ledger_view (d : Db) : list SessionRow * list RequestRow * list ReservationRow :=
  (sessions d, requests d, reservations d).

Lemma same_ledger_view d d' : ledger_view d' = ledger_view d -> same_ledger d d'.
Proof. unfold ledger_view. intros [= H1 H2 H3]. done. Qed.

Lemma add_capacity_same now m o delta d d' : add_capacity now m o delta d = Ok d' -> same_ledger d d'.
Proof. intros H. apply same_ledger_view. by apply (view_add_capacity ledger_view) in H. Qed.

Lemma receipt_nonce_same p id d n d' : receipt_nonce p id d = Ok (n, d') -> same_ledger d d'.
Proof.
  unfold receipt_nonce. intros H. destruct (select _ _); [|by injection H as _ <-].
  skip_ok H. step_ok H as rows E. by injection H as _ <-.
Qed.

(** ** Operations on requests *)
Lemma set_request_state_ok now id s d :
  kept limit d ->
  (forall r, r ∈ requests d -> rq_id r = id -> holding s = true -> holding (rq_state r) = true) ->
  kept limit (set_request_state now id s d).
Proof.
  intros H Hh. apply (ledger_update_requests _ _ _ _ _ H). intros r Hr P. apply String.eqb_eq in P.
  split_and!; [done|done|]. simpl. by apply Hh.
Qed.

Lemma find_request_Ok id d r : find_request id d = Ok r -> r ∈ requests d /\ rq_id r = id.
Proof. intros [H P%String.eqb_eq]%query_row_Ok. done. Qed.

Lemma state_of_name_spec name s : state_of_name name = Some s -> name = state_name s.
Proof. intros H. apply List.find_some in H as [_ H]. apply String.eqb_eq in H. done. Qed.

Lemma transitions_holding a b : transitions a b = true -> holding a = true.
Proof. by destruct a, b. Qed.

Lemma unique_request d a b : kept limit d -> a ∈ requests d -> b ∈ requests d -> rq_id a = rq_id b -> a = b.
Proof. intros H. apply unique_key, H. Qed.

Lemma TransitionRequest_ok now id next d d' : kept limit d -> TransitionRequest now id next d = Ok d' -> kept limit d'.
Proof.
  intros H Ht. unfold TransitionRequest in Ht. step_ok Ht as cur E. apply find_request_Ok in E as [Hc <-].
  destruct (state_of_name next) as [s|]; [|done]. destruct (transitions _ s) eqn:T; [|done].
  injection Ht as <-. apply (set_request_state_ok now (rq_id cur) s d H). intros r Hr E _.
  rewrite (unique_request d r cur) by auto. by eapply transitions_holding.
Qed.

Lemma transition_settlement_ok now id from to d :
  kept limit d -> (holding to = true -> holding from = true) ->
  kept limit (transitionSettlementRequest now id from to d).
Proof.
  intros H Hh. unfold transitionSettlementRequest.
  assert (kept limit (set_requests (update (request_in id from)
            (fun r => set_rq_updated_at now (set_rq_state to r)) (requests d)) d)) as G.
  { apply (ledger_update_requests _ _ _ _ _ H). intros r Hr P. unfold request_in in P. bools.
    split_and!; [done|done|]. unfold state_eqb in *. bools. simpl. by subst. }
  by destruct (_ =? 1).
Qed.

Lemma Enqueue_ok now sr d d' : kept limit d -> Enqueue now sr d = Ok d' -> kept limit d'.
Proof.
  intros H He. unfold Enqueue in He. destruct (insert_or_nothing _ _ _) as [rows ins]. injection He as <-.
  destruct ins; [|exact H]. by apply (transition_settlement_ok _ _ _ _ (set_queue rows d) H).
Qed.

Lemma mark_broadcasting_ok now h raw ids : forall d, kept limit d -> kept limit (mark_broadcasting now h raw ids d).
Proof.
  induction ids as [|id ids IH]; intros d H; [done|]. cbn [mark_broadcasting]. apply IH.
  by apply transition_settlement_ok.
Qed.

Lemma settle_transaction_ok {T} th mb prep now count d (t : T) d' :
  kept limit d -> settle_transaction th mb prep now count d = Ok (t, d') -> kept limit d'.
Proof.
  intros H Hs. unfold settle_transaction in Hs. destruct (bool_decide _); [done|].
  step_ok Hs as tx E1. step_ok Hs as raw E2. injection Hs as <- <-. by apply mark_broadcasting_ok.
Qed.

Lemma CreateSession_ok now id acc st d d' : fair limit d -> kept limit d -> CreateSession now id acc st d = Ok d' -> kept limit d'.
Proof.
  intros Hf H Hc. unfold CreateSession in Hc. skip_ok Hc. step_ok Hc as s E. step_ok Hc as rows E2.
  injection Hc as <-. apply insert_row_Ok in E2 as [-> Hn].
  assert (forall r, r ∈ sessions d -> se_id r <> id) as Hfresh by (intros r Hr; by apply String.eqb_neq, Hn).
  apply (ledger_new_session _ _ _ _ H); [done|]. intros l Hl. by apply (fair_new _ Hf (mkSessionRow id acc s 0 now) l Hfresh eq_refl Hl).
Qed.

Lemma CreateRequest_ok now id ses st d d' : kept limit d -> CreateRequest now id ses st d = Ok d' -> kept limit d'.
Proof.
  intros H Hc. unfold CreateRequest in Hc. step_ok Hc as u E1. step_ok Hc as s E. step_ok Hc as rows E2.
  injection Hc as <-. apply insert_row_Ok in E2 as [-> Hf]. apply fail_if_Ok, negb_false_iff in E1.
  apply exists_row_spec in E1 as (se & Hse & E1). apply String.eqb_eq in E1.
  apply (ledger_new_request _ _ _ _ H).
  - intros r Hr. by apply String.eqb_neq, Hf.
  - eauto.
Qed.

(** A hold is released when its request stops holding. *)
Lemma release_ok now id s d :
  kept limit d -> holding s = false ->
  kept limit (set_reservations (update (live_hold id) (set_rv_released_at (Some now)) (reservations d))
           (set_request_state now id s d)).
Proof.
  intros H Hs.
  assert (kept limit (set_request_state now id s d)) as G by (apply set_request_state_ok; [done|congruence]).
  apply (ledger_update_holds _ _ _ _ _ G). intros r Hr P. unfold live_hold in P. bools.
  apply String.eqb_eq in H0. split_and!; try done.
  - exact (lk_amounts _ _ _ H r Hr).
  - intros _ _ rq (old & Ho & ->)%elem_of_update. simpl.
    destruct (String.eqb_spec (rq_id old) id); simpl; [done|congruence].
Qed.

Lemma AbortInference_ok now id st d d' : kept limit d -> AbortInference now id st d = Ok d' -> kept limit d'.
Proof.
  intros H Ha. unfold AbortInference in Ha. destruct (_ && _) eqn:T in Ha; [done|].
  step_ok Ha as rq E. step_ok Ha as m E1. step_ok Ha as o E2.
  destruct (String.eqb _ st) in Ha; [by injection Ha as <-|]. step_ok Ha as term E3.
  apply of_option_Ok, state_of_name_spec in E3 as ->. destruct (transitions _ term); [|done].
  step_ok Ha as d2 E4. injection Ha as <-.
  assert (holding term = false) as Ht by (by destruct term).
  pose proof (release_ok now id term d H Ht) as G.
  destruct (_ && _) in E4; [|injection E4 as <-; exact G].
  apply add_capacity_same in E4. by apply (same_ledger_ok _ _ E4).
Qed.

Lemma CompleteInference_ok now c d d' : kept limit d -> CompleteInference now c d = Ok d' -> kept limit d'.
Proof.
  intros H Hc. unfold CompleteInference in Hc. do 3 (skip_ok Hc).
  destruct (negb _) in Hc.
  { destruct (exists_row _ _) in Hc; [by injection Hc as <-|]. by destruct (exists_row _ _) in Hc. }
  do 4 (skip_ok Hc). step_ok Hc as rows E. step_ok Hc as d2 E2. injection Hc as <-.
  apply add_capacity_same in E2.
  assert (kept limit (set_requests (update (completable c)
            (fun r => set_rq_updated_at now (set_rq_state Completed r)) (requests d)) d)) as G.
  { apply (ledger_update_requests _ _ _ _ _ H). intros r Hr P. split_and!; [done|done|].
    unfold completable, state_eqb in P. bools. intros _. by rewrite H4. }
  apply (same_ledger_ok d2); [done|]. by apply (same_ledger_ok _ _ E2).
Qed.

Lemma numeric_decimal n : 0 <= n -> numeric (decimal n) = Ok n.
Proof.
  intros H. unfold numeric, decimal, FormatUint. pose proof (SetString10_BigString n) as E.
  unfold BigString in E. replace (n <? 0) with false in E by lia. by rewrite E.
Qed.

Lemma WorstCaseCost_nonneg c i o m w : WorstCaseCost c i o m = Ok w -> 0 <= w < u64_mod.
Proof.
  unfold WorstCaseCost. destruct (worst_case_items _ _) as [t|]; [|done].
  destruct (IsUint64 t) eqn:U; [|done]. intros [= <-]. by apply is_u64_spec.
Qed.

(** The guards of [ReserveInference] that a success went through. *)
Lemma ReserveInference_inv now ir d d' :
  ReserveInference now ir d = Ok d' ->
  exists se row w oh mh ch,
    se ∈ sessions d /\ se_id se = ir_SessionID ir /\ se_account se = ir_AccountID ir
    /\ se_state se = StateOpen
    /\ row ∈ routing d /\ routable_row (ir_MachineID ir) (ir_OfferID ir) (ir_PriceVersion ir) row = true
    /\ WorstCaseCost (rate_candidate (BigString (rt_input row)) (BigString (rt_output row))
         (BigString (rt_compute row))) (ir_MaximumInputTokens ir) (ir_MaximumOutputTokens ir)
         (ir_MaximumComputeMilliseconds ir) = Ok w
    /\ 0 < w <= ir_MaximumSpend ir
    /\ locked_amount (ir_SessionID ir) d + w <= se_balance se
    /\ reserve_writes now ir w oh mh ch d = Ok d'.
Proof.
  unfold ReserveInference. intros H. destruct (_ || _ || _) in H; [done|].
  step_ok H as se E. apply query_row_Ok in E as [Hse Eid%String.eqb_eq].
  destruct (_ || _) eqn:G in H; [done|]. bools. apply String.eqb_eq in H0.
  rewrite !numeric_text in H. destruct (_ || _ || _) eqn:G in H; [done|]. bools.
  skip_ok H. step_ok H as row E2.
  destruct (query_row _ (routing d)) as [row'|] eqn:E3; [|done]. injection E2 as ->.
  apply query_row_Ok in E3 as [Hrow Pr].
  step_ok H as oh E4. step_ok H as mh E5. step_ok H as ch E6.
  destruct (WorstCaseCost _ _ _ _) as [w|] eqn:W; [|done].
  destruct (_ || _) eqn:G2 in H; [done|]. destruct (_ <? _) eqn:G3 in H; [done|]. bools.
  pose proof (WorstCaseCost_nonneg _ _ _ _ _ W).
  exists se, row, w, oh, mh, ch. split_and!; try done; lia.
Qed.

Lemma reserve_writes_ok now ir w oh mh ch d d' :
  fair limit d -> kept limit d -> 0 <= w ->
  (exists se, se ∈ sessions d /\ se_id se = ir_SessionID ir /\ se_state se = StateOpen
              /\ locked_amount (ir_SessionID ir) d + w <= se_balance se) ->
  reserve_writes now ir w oh mh ch d = Ok d' -> kept limit d'.
Proof.
  intros Hfair H Hw (se & Hse & Eid & Est & Hb) Hr. unfold reserve_writes in Hr.
  step_ok Hr as d1 E. apply add_capacity_same in E as (S1 & S2 & S3). do 4 (skip_ok Hr).
  rewrite numeric_decimal in Hr by done. apply bind_Ok in Hr as (spend & [= <-] & Hr).
  step_ok Hr as rows E1. step_ok Hr as holds E2. injection Hr as <-.
  apply insert_row_Ok in E1 as [-> F1]. apply insert_row_Ok in E2 as [-> F2].
  cbn [reservations set_requests] in F2 |- *. rewrite S2 in F1 |- *. rewrite S3 in F2 |- *.
  set (rq := mkRequestRow _ _ Created _ _ _ _ _ _ _ _ _ _ _).
  set (rv := mkReservationRow _ _ w None).
  assert (ledger_ok (sessions d) (requests d ++ [rq]) (reservations d)) as G1.
  { apply (ledger_new_request _ _ _ _ H); [|eauto]. intros r Hq. by apply String.eqb_neq, F1. }
  assert (ledger_ok (sessions d) (requests d ++ [rq]) (reservations d ++ [rv])) as G2.
  { apply (ledger_new_hold _ _ _ _ G1); try done.
    - intros r Hq. by apply String.eqb_neq, F2.
    - exists rq. split_and!; [set_solver|done|done].
    - intros s l Hs Es Hl. assert (s = se) as -> by (apply (unique_key se_id (sessions d)); [apply H|done|done|simpl in *; congruence]).
      etrans; [|exact (fair_open _ Hfair se l Hse Est Hl)]. rewrite Eid. exact Hb. }
  assert (forall r, r ∈ requests d ++ [rq] -> rq_id r = ir_RequestID ir -> holding (rq_state r) = true) as Hh.
  { intros r Hr Er. apply elem_of_app in Hr as [Hr|Hr].
    - exfalso. apply F1 in Hr. apply String.eqb_neq in Hr. done.
    - apply list_elem_of_singleton in Hr as ->. done. }
  match goal with |- kept limit (emit _ _ _ (set_request_state _ _ _ (emit _ _ _ (set_request_state _ _ _ ?x)))) =>
    set (d3 := x) end.
  assert (kept limit d3) as G3 by (unfold kept, d3; cbn; rewrite S1; exact G2).
  assert (kept limit (set_request_state now (ir_RequestID ir) Reserved d3)) as G4.
  { apply set_request_state_ok; [done|]. intros r Hr Er _. by apply Hh. }
  apply (set_request_state_ok now (ir_RequestID ir) Offered _ G4).
  intros r (old & Ho & ->)%elem_of_update Er _. destruct (String.eqb (rq_id old) _) eqn:Q; [done|].
  by apply Hh.
Qed.

Lemma ReserveInference_ok now ir d d' : fair limit d -> kept limit d -> ReserveInference now ir d = Ok d' -> kept limit d'.
Proof.
  intros Hf H Hr. apply ReserveInference_inv in Hr as (se & row & w & oh & mh & ch & ? & ? & ? & ? & ? & ? & ? & ? & ? & Hw).
  eapply reserve_writes_ok; [done|done| |by exists se|done]. lia.
Qed.

(** ** Receipts *)
Lemma completed_request_Ok id d q :
  completed_request id d = Ok q ->
  cq_proposal q ∈ proposals d /\ pr_request (cq_proposal q) = id
  /\ exists rq m, rq ∈ requests d /\ rq_id rq = id /\ rq_state rq = Completed
     /\ rq_maximum_spend rq = Some m /\ cq_maximum q = BigString m.
Proof.
  unfold completed_request. intros H. destruct (flat_map _ _) as [|[[[[rp r] c] m] p] rest] eqn:E; [done|].
  step_ok H as sg E1. step_ok H as mx E2. injection H as <-. apply of_option_Ok in E1, E2. cbn.
  assert (In (rp, r, c, m, p) ((rp, r, c, m, p) :: rest)) as Hin by (by left). rewrite <- E in Hin.
  apply in_flat_map in Hin as (rp' & Hrp & Hin). apply in_flat_map in Hin as (r' & Hr & Hin).
  apply in_flat_map in Hin as (se' & _ & Hin). apply in_flat_map in Hin as (c' & _ & Hin).
  apply in_flat_map in Hin as (m' & _ & Hin). apply in_map_iff in Hin as (p' & [= -> -> -> -> ->] & _).
  apply list_elem_of_In, select_spec in Hrp as [Hrp Prp%String.eqb_eq].
  apply list_elem_of_In, select_spec in Hr as [Hr Pr]. unfold state_eqb in Pr. bools.
  apply String.eqb_eq in H. split_and!; [done|done|]. exists r, mx. split_and!; congruence.
Qed.

Section Receipts.
Context `{Ethereum}.

Definition chargeable (id : string) (total : Z) (r : ReservationRow) : bool :=
  String.eqb (rv_request r) id && (total <=? rv_amount r).

(** Everything a returned receipt guarantees about the database. *)
Lemma PrepareReceipt_inv now id dom d receipt mach signer d' :
  PrepareReceipt now id dom d = Ok (receipt, mach, signer, d') ->
  exists pr rq offer d1,
    pr ∈ proposals d /\ pr_request pr = id
    /\ rq ∈ requests d /\ rq_id rq = id /\ rq_state rq = Completed
    /\ rq_maximum_spend rq = Some (r_MaximumCharge receipt) /\ 0 <= r_MaximumCharge receipt < u64_mod
    /\ offer ∈ chain_offers d
    /\ exactCharge (pr_input_tokens pr) (pr_output_tokens pr) (pr_compute pr) (BigString (co_input offer))
         (BigString (co_output offer)) (BigString (co_compute offer)) = Ok (r_TotalCharge receipt)
    /\ r_TotalCharge receipt <= r_MaximumCharge receipt
    /\ affected (chargeable id (r_TotalCharge receipt)) (reservations d) = 1
    /\ d1 = set_reservations (update (chargeable id (r_TotalCharge receipt))
              (charge_hold now (r_TotalCharge receipt)) (reservations d)) d
    /\ (exists provider, receipt_nonce provider id d1 = Ok (r_Nonce receipt, d'))
    /\ ReceiptValidate receipt = Ok tt.
Proof.
  unfold PrepareReceipt. intros Hp. destruct (_ || _) in Hp; [done|].
  step_ok Hp as q E. apply completed_request_Ok in E as (Hpr & Eid & rq & m & Hrq & Erq & Est & Em & Eq).
  step_ok Hp as rq2 E2. step_ok Hp as t1 E3. step_ok Hp as t2 E4. step_ok Hp as t3 E5.
  destruct (parseHash t1) as [h1 v1], (parseHash t2) as [h2 v2], (parseHash t3) as [h3 v3].
  destruct (_ || _) in Hp; [done|]. skip_ok Hp. step_ok Hp as offer E6. apply query_row_Ok in E6 as [Ho _].
  step_ok Hp as total E7. step_ok Hp as mv E8. apply of_option_Ok in E8. rewrite Eq, numeric_text in E8.
  injection E8 as <-. destruct (_ || _) eqn:G in Hp; [done|]. bools. skip_ok Hp.
  destruct (negb _) eqn:G2 in Hp; [done|]. step_ok Hp as nd E9. destruct nd as [nonce d2].
  destruct (_ || _) in Hp; [done|]. step_ok Hp as u E10. injection Hp as <- _ _ <-.
  destruct u. apply is_u64_spec in H0. bools.
  exists (cq_proposal q), rq, offer. eexists. cbn [r_MaximumCharge r_TotalCharge r_Nonce].
  split_and!; try done; try lia. by eexists.
Qed.

Lemma exact_charge_items_nonneg items : forall total w,
  exact_charge_items total items = Ok w -> 0 <= w < u64_mod.
Proof.
  induction items as [|[[u r] dn] items IH]; intros total w Hx; cbn [exact_charge_items] in Hx.
  - destruct (IsUint64 total) eqn:U; [|done]. injection Hx as <-. by apply is_u64_spec.
  - destruct (SetString10 r); [|done]. destruct (_ <? 0); [done|]. by apply IH in Hx.
Qed.

Lemma PrepareReceipt_ok now id dom d receipt mach signer d' :
  kept limit d -> PrepareReceipt now id dom d = Ok (receipt, mach, signer, d') -> kept limit d'.
Proof.
  intros Hd Hp. apply PrepareReceipt_inv in Hp as
    (pr & rq & offer & d1 & _ & _ & Hrq & Eid & Est & _ & _ & _ & Ex & _ & _ & -> & (p & En) & _).
  apply receipt_nonce_same in En. apply (same_ledger_ok _ _ En).
  set (total := r_TotalCharge receipt) in *.
  assert (0 <= total) as Ht by (apply exact_charge_items_nonneg in Ex; lia).
  apply (ledger_update_holds _ _ _ _ _ Hd). intros r Hr P. unfold chargeable in P. bools.
  apply String.eqb_eq in H0.
  assert (rv_released_at r = None \/ rv_amount r = 0) as Hl
    by (apply (lk_live _ _ _ Hd rq); [done|done|congruence|by rewrite Est]).
  unfold charge_hold. split_and!; try done; cbn [rv_released_at rv_amount set_rv_released_at set_rv_amount].
  - destruct (Z.eqb_spec total 0); [done|]. intros _ _. split; [|lia]. destruct Hl; [done|lia].
  - destruct (Z.eqb_spec total 0); done.
Qed.
End Receipts.
End Operations.
#[export] Hint Resolve same_ledger_refl : myf.

(** ** Chain events

    What the contract guarantees about the events it emits: a session is
    opened once, and a settled receipt is one that this broker co-signed and
    submitted, for the session that holds its reservation.  (A receipt settled
    for a session unknown here changes nothing here.) *)
Definition contract_event (event : ChainEvent) (d : Db) : Prop :=
  match event with
  | SessionOpened session _ _ _ => forall se, se ∈ sessions d -> se_id se <> session
  | ReceiptSettled request session _ provider_amount fee_amount =>
      (exists rv rq, rv ∈ reservations d /\ rv_request rv = request /\ rv_session rv = session
         /\ rv_released_at rv = None
         /\ rq ∈ requests d /\ rq_id rq = request /\ rq_state rq = Submitted)
      \/ ((forall se, se ∈ sessions d -> se_id se <> session)
          /\ (forall rv, rv ∈ reservations d -> rv_request rv <> request))
  | _ => True
  end.

Lemma transition_settlement_tables now id from to d :
  let d' := transitionSettlementRequest now id from to d in
  sessions d' = sessions d /\ reservations d' = reservations d
  /\ requests d' = update (request_in id from) (fun r => set_rq_updated_at now (set_rq_state to r)) (requests d).
Proof. cbv zeta. unfold transitionSettlementRequest. by destruct (_ =? 1). Qed.

Section Events.
Variable i : Indexer.

(** The three tables after a settlement is applied. *)
Lemma apply_settled_tables now log req s p pa fa d d' :
  apply_settled i now log req s p pa fa d = Ok d' ->
  (forall rv, query_row (fun r => String.eqb (rv_request r) req) (reservations d) = Ok rv ->
     rv_amount rv = pa + fa)
  /\ (same_ledger d d' \/
      (sessions d' = update (fun r => String.eqb (se_id r) s)
                       (fun r => set_se_balance (Z.max 0 (se_balance r - pa - fa)) r) (sessions d)
       /\ requests d' = update (request_in req Submitted)
                          (fun r => set_rq_updated_at now (set_rq_state Settled r)) (requests d)
       /\ reservations d' = update (fun r => String.eqb (rv_request r) req)
                              (fun r => set_rv_released_at (Some (default now (rv_released_at r))) r)
                              (reservations d))).
Proof.
  unfold apply_settled. intros H. step_ok H as u E. split.
  - intros rv Hq. rewrite Hq, numeric_text in E. apply fail_if_Ok in E. bools. done.
  - skip_ok H. destruct (insert_or_nothing _ _ _) as [rows ins].
    destruct (negb ins); injection H as <-; [by left|right].
    destruct (transition_settlement_tables now req Submitted Settled
      (set_reservations (update (fun r => String.eqb (rv_request r) req)
         (fun r => set_rv_released_at (Some (default now (rv_released_at r))) r) (reservations d))
         (set_requests (requests d) (set_sessions (update (fun r => String.eqb (se_id r) s)
         (fun r => set_se_balance (Z.max 0 (se_balance r - pa - fa)) r) (sessions d)) d)))) as (E1 & E2 & E3).
    match goal with |- context [transitionSettlementRequest _ _ _ _ ?x] =>
      destruct (transition_settlement_tables now req Submitted Settled x) as (-> & -> & ->) end.
    done.
Qed.

Lemma held_charge req (d : Db) rv c :
  NoDup (map rv_request (reservations d)) -> rv ∈ reservations d -> rv_request rv = req ->
  (forall rv, query_row (fun r => String.eqb (rv_request r) req) (reservations d) = Ok rv -> rv_amount rv = c) -> rv_amount rv = c.
Proof.
  intros Hn Hrv Erv Ham. apply Ham. destruct (query_row _ _) as [x|e] eqn:Q.
  - apply query_row_Ok in Q as [Hx Ex%String.eqb_eq]. f_equal. apply (unique_key rv_request (reservations d)); [done|done|done|congruence].
  - pose proof (query_row_Err _ _ _ Q rv Hrv) as F. simpl in F. by rewrite Erv, String.eqb_refl in F.
Qed.

Lemma settled_ok now log req s p pa fa d d' :
  db_ok d -> contract_event (ReceiptSettled req s p pa fa) d ->
  apply_settled i now log req s p pa fa d = Ok d' -> db_ok d'.
Proof.
  intros H Hc Ha. apply apply_settled_tables in Ha as [Ham [Hs|(E1 & E2 & E3)]]; [by apply (same_ledger_ok _ _ Hs)|].
  unfold kept. rewrite E1, E2, E3. clear E1 E2 E3 d'. destruct Hc as [(rv & rq & Hrv & Erv & Es & El & Hrq)|[Hno Hhold]].
  - assert (rv_amount rv = pa + fa) as Eamt by (apply (held_charge req d); [apply H|done..]).
    apply (ledger_settled (limit := funds) funds _ _ _ now req s (pa + fa)); [done| | |done|].
    + rewrite <- Eamt. exact (lk_amounts _ _ _ H rv Hrv).
    + left. exists rv, rq. split_and!; try done; [by left|apply Hrq..].
    + intros se l' Hse Hl. assert (se_state se <> StateClosed /\ se_balance se <= l' + (if String.eqb (se_id se) s then pa + fa else 0)) as [Hst Hle]
        by (destruct (String.eqb _ _); apply funds_Some in Hl as [Hst ->]; cbn in *; split; (done || lia)).
      exists (se_balance se). split; [unfold funds; by rewrite bool_decide_false|done].
  - apply (ledger_settled (limit := funds) funds _ _ _ now req s 0); [done|done|by right|done|].
    intros se l' Hse. rewrite (proj2 (String.eqb_neq _ _) (Hno se Hse)). intros Hl. exists l'. split; [done|lia].
Qed.
End Events.

Lemma applyEvent_ok i now log ev d d' :
  db_ok d -> contract_event ev d -> applyEvent i now log ev d = Ok d' -> db_ok d'.
Proof.
  intros H Hc He.
  destruct ev; cbn [applyEvent] in He; try (injection He as <-; exact H);
    try (skip_ok He; injection He as <-; exact H).
  - (* SessionOpened *)
    skip_ok He. unfold open_session in He. cbn [accounts set_chain_accounts update_account set_chain_sessions] in He.
    destruct (select _ _) as [|a [|b rest]]; [by injection He as <-| |done].
    step_ok He as u E. apply fail_if_Ok, negb_false_iff, Z.leb_le in E. injection He as <-.
    unfold kept. cbn. unfold upsert.
    rewrite (proj2 (exists_row_false (fun r => String.eqb (se_id r) session) (sessions d)));
      [|intros se Hse; by apply String.eqb_neq, Hc].
    apply (ledger_new_session _ _ _ _ H); [intros se Hse; by apply Hc|by intros l [_ ->]%funds_Some].
  - (* SessionCloseRequested *)
    skip_ok He. injection He as <-. apply (ledger_update_sessions _ _ _ _ _ H). intros se Hse P. bools.
    split; [done|]. intros l [_ ->]%funds_Some. apply (lk_solvent _ H se Hse). congruence.
  - (* SessionClosed *)
    step_ok He as row E. injection He as <-. apply (ledger_update_sessions _ _ _ _ _ H).
    intros se _ _. split; [done|]. by intros l [Hst _]%funds_Some.
  - (* ReceiptSettled *) by eapply settled_ok.
  - (* ProviderSlashed *) do 2 (skip_ok He). by injection He as <-.
Qed.

(** ** The step relation *)
Section Steps.
Context `{Ethereum}.

(** The operations of the store and of the settlement queue. *)
Inductive operation (d d' : Db) : Prop :=
| step_account id w : CreateAccount id w d = Ok d' -> operation d d'
| step_machine now id a n : CreateMachine now id a n d = Ok d' -> operation d d'
| step_backend id m k mo : CreateBackend id m k mo d = Ok d' -> operation d d'
| step_offer id b v ri ro rc : CreateOffer id b v ri ro rc d = Ok d' -> operation d d'
| step_device now r1 r2 n a l x : CreateDeviceAuthorization now r1 r2 n a l d = Ok (x, d') -> operation d d'
| step_approve now u a : ApproveDeviceAuthorization now u a d = Ok d' -> operation d d'
| step_exchange now r1 r2 c m t : ExchangeDeviceAuthorization now r1 r2 c d = Ok (m, t, d') -> operation d d'
| step_revoke now m : d' = RevokeMachine now m d -> operation d d'
| step_login th sa now r1 r2 r3 id o sg l x :
    VerifyWalletChallenge th sa now r1 r2 r3 id o sg l d = Ok (x, d') -> operation d d'
| step_session now id a s : CreateSession now id a s d = Ok d' -> operation d d'
| step_request now id s st : CreateRequest now id s st d = Ok d' -> operation d d'
| step_transition now id next : TransitionRequest now id next d = Ok d' -> operation d d'
| step_claim now e : ClaimOutbox now d = Ok (e, d') -> operation d d'
| step_routing now st : UpsertRoutingState now st d = Ok d' -> operation d d'
| step_capacity now m c : UpdateProviderCapacity now m c d = Ok d' -> operation d d'
| step_reconcile now m c ch addr : ReconcileProviderCapacity now m c ch addr d = Ok d' -> operation d d'
| step_reserve now ir : ReserveInference now ir d = Ok d' -> operation d d'
| step_complete now c : CompleteInference now c d = Ok d' -> operation d d'
| step_abort now id st : AbortInference now id st d = Ok d' -> operation d d'
| step_prepare now id dom r m s : PrepareReceipt now id dom d = Ok (r, m, s, d') -> operation d d'
| step_enqueue now sr : Enqueue now sr d = Ok d' -> operation d d'
| step_settle (T : Type) th mb prep now limit (t : T) :
    settle_transaction th mb prep now limit d = Ok (t, d') -> operation d d'.

(** An operation, or an event of the contract. *)
Inductive step (d d' : Db) : Prop :=
| step_operation : operation d d' -> step d d'
| step_event i now log ev : contract_event ev d -> applyEvent i now log ev d = Ok d' -> step d d'.

Lemma operation_ok {limit} d d' : fair limit d -> kept limit d -> operation d d' -> kept limit d'.
Proof.
  intros Hf Hd Hs. destruct Hs as
    [id w E|now id a n E|id m k mo E|id b v ri ro rc E|now r1 r2 n a l x E|now u a E|now r1 r2 c m t E|now m E|th sa now r1 r2 r3 id o sg l x E|now id a s E|now id s st E|now id nx E|now e E|now st E
    |now m c E|now m c ch addr E|now ir E|now c E|now id st E|now id dom r m s E|now sr E
    |T th mb prep now count t E].
  - unfold CreateAccount in E. skip_ok E. by injection E as <-.
  - unfold CreateMachine in E. do 2 (skip_ok E). by injection E as <-.
  - unfold CreateBackend in E. do 2 (skip_ok E). by injection E as <-.
  - unfold CreateOffer in E. do 4 (skip_ok E). by injection E as <-.
  - eapply same_ledger_ok; [|exact Hd]. apply same_ledger_view. by apply (view_CreateDeviceAuthorization ledger_view) in E.
  - eapply same_ledger_ok; [|exact Hd]. apply same_ledger_view. by apply (view_ApproveDeviceAuthorization ledger_view) in E.
  - eapply same_ledger_ok; [|exact Hd]. apply same_ledger_view. by apply (view_ExchangeDeviceAuthorization ledger_view) in E.
  - by subst d'.
  - eapply same_ledger_ok; [|exact Hd]. apply same_ledger_view. by apply (view_VerifyWalletChallenge ledger_view) in E.
  - by eapply CreateSession_ok.
  - by eapply CreateRequest_ok.
  - by eapply TransitionRequest_ok.
  - unfold ClaimOutbox in E. skip_ok E. by injection E as _ <-.
  - eapply same_ledger_ok; [|exact Hd]. apply same_ledger_view. by apply (view_UpsertRoutingState ledger_view) in E.
  - eapply same_ledger_ok; [|exact Hd]. apply same_ledger_view. by apply (view_UpdateProviderCapacity ledger_view) in E.
  - eapply same_ledger_ok; [|exact Hd]. apply same_ledger_view. by apply (view_ReconcileProviderCapacity ledger_view) in E.
  - by eapply ReserveInference_ok.
  - by eapply CompleteInference_ok.
  - by eapply AbortInference_ok.
  - by eapply PrepareReceipt_ok.
  - by eapply Enqueue_ok.
  - by eapply settle_transaction_ok.
Qed.
Lemma step_ok d d' : db_ok d -> step d d' -> db_ok d'.
Proof.
  intros Hd [Ho|i now log ev Hc E]; [by apply (operation_ok d); [apply funds_fair|..]|by eapply applyEvent_ok].
Qed.

Lemma empty_ok : db_ok empty_db.
Proof.
  split; try (by apply NoDup_nil_2); cbn; set_solver.
Qed.

Lemma reachable_ok d : rtc step empty_db d -> db_ok d.
Proof.
  intros Hr. remember empty_db as d0 eqn:E0. assert (db_ok d0) as H0 by (subst; apply empty_ok).
  clear E0. induction Hr; eauto using step_ok.
Qed.

(** What the operations before a payment rely on: the live holds of a session
    are covered by its balance, and are those of its requests. *)
Definition solvent_session (d : Db) (se : SessionRow) : Prop := 0 <= locked_amount (se_id se) d <= se_balance se.
Definition holds_of_requests (d : Db) : Prop :=
  forall rv, rv ∈ reservations d -> rv_released_at rv = None ->
    exists rq, rq ∈ requests d /\ rq_id rq = rv_request rv /\ rq_session rq = rv_session rv.
End Steps.

(** ** Reorganisations of the chain

    A reorganisation throws the projection away: settled charges become live
    holds again, sessions keep the balance they had, and the events of the new
    chain are applied from the start, between other operations.  What survives
    is the allowance each session has in the contract: holds and settled
    charges together never exceed it. *)
Section Reorganisations.
Context {ethereum : Ethereum} (i : Indexer) (allowance : string -> Z).

Definition settled_in (session : string) (r : ChainSettlementRow) : bool :=
  here i (ct_chain r) (ct_contract r) && String.eqb (ct_session r) session.
Definition charged (r : ChainSettlementRow) : Z := ct_provider_amount r + ct_fee_amount r.
Definition settled_sum (session : string) (rows : list ChainSettlementRow) : Z := sum_where (settled_in session) charged rows.
(** What the allowance leaves after the charges that are settled. *)
Definition room (rows : list ChainSettlementRow) (se : SessionRow) : option Z :=
  Some (allowance (se_id se) - settled_sum (se_id se) rows).

Record committed (d : Db) : Prop := {
  cm_tables : kept (room (chain_settlements d)) d;
  cm_balance : forall se, se ∈ sessions d -> se_state se <> StateClosed ->
    se_balance se + settled_sum (se_id se) (chain_settlements d) <= allowance (se_id se);
  cm_settled : forall session, settled_sum session (chain_settlements d) <= allowance session;
  cm_charges : forall ct, ct ∈ chain_settlements d -> 0 <= charged ct;
  cm_holds : forall ct rv, ct ∈ chain_settlements d -> rv ∈ reservations d -> rv_request rv = ct_request ct ->
    rv_session rv = ct_session ct /\ rv_amount rv <= charged ct;
}.

(** *** Operations

    They settle nothing, give a session no balance and raise no hold. *)
Record framed (d d' : Db) : Prop := {
  fr_settlements : chain_settlements d' = chain_settlements d;
  fr_sessions : forall se, se ∈ sessions d' -> se ∈ sessions d \/ se_balance se = 0;
  fr_holds : forall rv, rv ∈ reservations d' ->
    (exists old, old ∈ reservations d /\ rv_request old = rv_request rv /\ rv_session old = rv_session rv /\ rv_amount rv <= rv_amount old)
    \/ (forall old, old ∈ reservations d -> rv_request old <> rv_request rv);
}.
Definition frame_view (d : Db) := (chain_settlements d, sessions d, reservations d).
Lemma view_framed d d' : frame_view d' = frame_view d -> framed d d'.
Proof.
  intros [= E1 E2 E3]. split; [done|rewrite E2; by left|]. rewrite E3. intros rv Hrv. left. by exists rv.
Qed.
Lemma framed_holds d d' p f :
  chain_settlements d' = chain_settlements d -> sessions d' = sessions d -> reservations d' = update p f (reservations d) ->
  (forall r, r ∈ reservations d -> p r = true -> rv_request (f r) = rv_request r /\ rv_session (f r) = rv_session r /\ rv_amount (f r) <= rv_amount r) ->
  framed d d'.
Proof.
  intros E1 E2 E3 Hf. split; [done|rewrite E2; by left|]. rewrite E3. intros rv (old & Ho & ->)%elem_of_update.
  left. exists old. destruct (p old) eqn:P; [|done]. destruct (Hf old Ho P) as (-> & -> & ?). done.
Qed.

Lemma mark_broadcasting_frame now h raw ids : forall d, frame_view (mark_broadcasting now h raw ids d) = frame_view d.
Proof.
  induction ids as [|id ids IH]; intros d; [done|]. cbn [mark_broadcasting]. rewrite IH.
  unfold frame_view, transitionSettlementRequest. by destruct (_ =? 1).
Qed.

Lemma operation_framed d d' : operation d d' -> framed d d'.
Proof.
  intros Hs. destruct Hs as
    [id w E|now id a n E|id m k mo E|id b v ri ro rc E|now r1 r2 n a l x E|now u a E|now r1 r2 c m t E|now m E|th sa now r1 r2 r3 id o sg l x E|now id a s E|now id s st E|now id nx E|now e E|now st E
    |now m c E|now m c ch addr E|now ir E|now c E|now id st E|now id dom r m s E|now sr E
    |T th mb prep now count t E].
  - unfold CreateAccount in E. skip_ok E. by injection E as <-; apply view_framed.
  - unfold CreateMachine in E. do 2 (skip_ok E). by injection E as <-; apply view_framed.
  - unfold CreateBackend in E. do 2 (skip_ok E). by injection E as <-; apply view_framed.
  - unfold CreateOffer in E. do 4 (skip_ok E). by injection E as <-; apply view_framed.
  - apply view_framed. by apply (view_CreateDeviceAuthorization frame_view) in E.
  - apply view_framed. by apply (view_ApproveDeviceAuthorization frame_view) in E.
  - apply view_framed. by apply (view_ExchangeDeviceAuthorization frame_view) in E.
  - by subst d'; apply view_framed.
  - apply view_framed. by apply (view_VerifyWalletChallenge frame_view) in E.
  - unfold CreateSession in E. skip_ok E. step_ok E as st E1. step_ok E as rows E2. injection E as <-.
    apply insert_row_Ok in E2 as [-> _]. split; cbn.
    + done.
    + intros se Hse. apply elem_of_app in Hse as [Hse|Hse]; [by left|right]. by apply list_elem_of_singleton in Hse as ->.
    + intros rv Hrv. left. by exists rv.
  - unfold CreateRequest in E. do 3 (skip_ok E). by injection E as <-; apply view_framed.
  - unfold TransitionRequest in E. step_ok E as cur E1. destruct (state_of_name nx); [|done]. destruct (transitions _ _); [|done].
    by injection E as <-; apply view_framed.
  - unfold ClaimOutbox in E. skip_ok E. by injection E as _ <-; apply view_framed.
  - apply view_framed. by apply (view_UpsertRoutingState frame_view) in E.
  - apply view_framed. by apply (view_UpdateProviderCapacity frame_view) in E.
  - apply view_framed. by apply (view_ReconcileProviderCapacity frame_view) in E.
  - apply ReserveInference_inv in E as (se & row & w & oh & mh & ch & _ & _ & _ & _ & _ & _ & _ & _ & _ & E).
    unfold reserve_writes in E. step_ok E as d1 E1. apply (view_add_capacity frame_view) in E1; [|done]. injection E1 as F1 F2 F3.
    do 4 (skip_ok E). step_ok E as v Ev. step_ok E as rows E2. step_ok E as holds E3. injection E as <-.
    apply insert_row_Ok in E3 as [-> Hn]. cbn in Hn |- *. split; cbn; [done|rewrite F2; by left|].
    rewrite F3 in Hn |- *. intros rv Hrv. apply elem_of_app in Hrv as [Hrv|Hrv]; [left; by exists rv|right].
    apply list_elem_of_singleton in Hrv as ->. intros old Ho. cbn. by apply String.eqb_neq, Hn.
  - unfold CompleteInference in E. do 3 (skip_ok E). destruct (negb _) in E.
    { destruct (exists_row _ _) in E; [by injection E as <-; apply view_framed|]. by destruct (exists_row _ _) in E. }
    do 4 (skip_ok E). step_ok E as rows E1. step_ok E as d2 E2. injection E as <-. apply (view_add_capacity frame_view) in E2; [|done].
    apply view_framed. exact E2.
  - unfold AbortInference in E. destruct (_ && _) in E; [done|]. step_ok E as rq E0. step_ok E as m E1. step_ok E as o E2.
    destruct (String.eqb _ st) in E; [by injection E as <-; apply view_framed|]. step_ok E as term E3.
    destruct (transitions _ term); [|done]. step_ok E as d2 E4. injection E as <-.
    assert (frame_view d2 = frame_view (set_reservations (update (live_hold id) (set_rv_released_at (Some now)) (reservations d))
              (set_request_state now id term d))) as F.
    { destruct (_ && _) in E4; [|by injection E4 as <-]. by apply (view_add_capacity frame_view) in E4. }
    injection F as F1 F2 F3. by apply (framed_holds _ _ (live_hold id) (set_rv_released_at (Some now))).
  - apply PrepareReceipt_inv in E as (pr & rq & offer & d1 & _ & _ & _ & _ & _ & _ & _ & _ & _ & _ & _ & -> & (p & En) & _).
    assert (frame_view d' = frame_view (set_reservations (update (chargeable id (r_TotalCharge r)) (charge_hold now (r_TotalCharge r)) (reservations d)) d)) as F.
    { unfold receipt_nonce in En. destruct (select _ _); [|by injection En as _ <-]. skip_ok En. step_ok En as rows E1. by injection En as _ <-. }
    injection F as F1 F2 F3. apply (framed_holds _ _ (chargeable id (r_TotalCharge r)) (charge_hold now (r_TotalCharge r))); [done..|].
    intros x Hx P. unfold chargeable in P. bools. unfold charge_hold. cbn. split_and!; [done|done|lia].
  - unfold Enqueue in E. destruct (insert_or_nothing _ _ _) as [rows ins]. injection E as <-. apply view_framed.
    destruct ins; [|done]. unfold frame_view, transitionSettlementRequest. by destruct (_ =? 1).
  - unfold settle_transaction in E. destruct (bool_decide _); [done|]. step_ok E as tx E1. step_ok E as raw E2. injection E as _ <-.
    apply view_framed, mark_broadcasting_frame.
Qed.

(** A new hold is not filed under a receipt that is settled already: the
    identifiers of requests are random. *)
Definition fresh_holds (d d' : Db) : Prop :=
  forall rv, rv ∈ reservations d' -> (exists old, old ∈ reservations d /\ rv_request old = rv_request rv)
    \/ (forall ct, ct ∈ chain_settlements d -> ct_request ct <> rv_request rv).

Lemma settled_sum_nonneg d session : committed d -> 0 <= settled_sum session (chain_settlements d).
Proof. intros H. apply sum_where_nonneg, H. Qed.

Lemma room_fair d : committed d -> fair (room (chain_settlements d)) d.
Proof.
  intros H. split.
  - intros se l _ _ [= <-]. pose proof (cm_settled _ H (se_id se)). lia.
  - intros se l Hse Hst [= <-]. pose proof (cm_balance _ H se Hse ltac:(congruence)). lia.
Qed.

Lemma operation_committed d d' : committed d -> operation d d' -> fresh_holds d d' -> committed d'.
Proof.
  intros H Ho Hn. pose proof (operation_framed d d' Ho) as F. destruct F as [F1 F2 F3]. split; rewrite ?F1; try apply H.
  - apply (operation_ok d); [by apply room_fair|apply H|done].
  - intros se Hse Hst. destruct (F2 se Hse) as [Hd|Hz]; [by apply (cm_balance _ H)|]. pose proof (cm_settled _ H (se_id se)). lia.
  - intros ct rv Hct Hrv E. destruct (F3 rv Hrv) as [(old & Hold & E1 & E2 & E3)|Hnone].
    + destruct (cm_holds _ H ct old Hct Hold ltac:(congruence)) as [E4 E5]. split; [congruence|lia].
    + destruct (Hn rv Hrv) as [(old & Hold & E1)|Hfresh]; [by apply Hnone in Hold|by apply Hfresh in Hct].
Qed.

(** *** Events

    What the contract guarantees ([contracts/src/MyferenceMarket.sol]): a
    session is opened with its allowance before any of its receipts is
    settled, and a receipt that is settled is one this broker submitted, whose
    hold is live - after a rewind, live again - or one of a session unknown
    here, whose charges the contract keeps within the allowance. *)
Definition chain_event (event : ChainEvent) (d : Db) : Prop :=
  match event with
  | SessionOpened session _ amount _ =>
      amount = allowance session /\ (forall ct, ct ∈ chain_settlements d -> ct_session ct <> session)
  | ReceiptSettled request session _ provider_amount fee_amount =>
      0 <= provider_amount /\ 0 <= fee_amount
      /\ ((exists rv rq, rv ∈ reservations d /\ rv_request rv = request /\ rv_session rv = session
             /\ (rv_released_at rv = None \/ rv_amount rv = 0)
             /\ rq ∈ requests d /\ rq_id rq = request /\ rq_state rq = Submitted)
          \/ ((forall se, se ∈ sessions d -> se_id se <> session)
              /\ (forall rv, rv ∈ reservations d -> rv_request rv <> request)
              /\ settled_sum session (chain_settlements d) + provider_amount + fee_amount <= allowance session))
  | _ => True
  end.

(** Changes of sessions that only move their balances and states. *)
Lemma committed_sessions d d' p f :
  committed d -> chain_settlements d' = chain_settlements d -> requests d' = requests d -> reservations d' = reservations d ->
  sessions d' = update p f (sessions d) ->
  (forall se, se ∈ sessions d -> p se = true -> se_id (f se) = se_id se
     /\ (se_state (f se) <> StateClosed -> se_balance (f se) + settled_sum (se_id se) (chain_settlements d) <= allowance (se_id se))) ->
  committed d'.
Proof.
  intros H E1 E2 E3 E4 Hf. split; rewrite ?E1, ?E3; try apply H.
  - unfold kept. rewrite E2, E3, E4. apply (ledger_update_sessions _ _ _ _ _ (cm_tables _ H)). intros se Hse P.
    destruct (Hf se Hse P) as [Ei _]. split; [done|]. unfold room. rewrite Ei. intros l Hl.
    by apply (lk_limit _ _ _ (cm_tables _ H) se).
  - rewrite E4. intros se (old & Ho & ->)%elem_of_update. destruct (p old) eqn:P; [|by apply (cm_balance _ H)].
    destruct (Hf old Ho P) as [-> Hb]. exact Hb.
Qed.

Lemma settled_sum_none session rows : (forall ct, ct ∈ rows -> ct_session ct <> session) -> settled_sum session rows = 0.
Proof.
  intros Hn. apply sum_where_zero. intros ct Hct. unfold settled_in. rewrite (proj2 (String.eqb_neq _ _) (Hn ct Hct)). apply andb_false_r.
Qed.

Lemma committed_same d d' : committed d -> same_ledger d d' -> chain_settlements d' = chain_settlements d -> committed d'.
Proof.
  intros H (E1 & E2 & E3) E4. split; rewrite ?E4, ?E1, ?E3; try apply H. unfold kept. rewrite E1, E2, E3. apply H.
Qed.

Lemma opened_committed now log session amount customer expires d d' :
  committed d -> chain_event (SessionOpened session customer amount expires) d ->
  applyEvent i now log (SessionOpened session customer amount expires) d = Ok d' -> committed d'.
Proof.
  intros H [-> Hnone] He. apply settled_sum_none in Hnone. cbn [applyEvent] in He. skip_ok He. unfold open_session in He.
  cbn [accounts set_chain_accounts update_account set_chain_sessions] in He.
  destruct (select _ _) as [|a [|b rest]]; [by injection He as <-; apply (committed_same d)| |done].
  step_ok He as u E. apply fail_if_Ok, negb_false_iff, Z.leb_le in E. injection He as <-.
  destruct (exists_row (fun r => String.eqb (se_id r) session) (sessions d)) eqn:X.
  - eapply (committed_sessions d _ (fun r => String.eqb (se_id r) session)); [done..| |].
    { cbn [sessions set_sessions set_chain_accounts set_chain_sessions update_account]. unfold upsert. rewrite X. reflexivity. }
    intros se Hse P%String.eqb_eq. split; [done|]. intros _. cbn. rewrite P, Hnone. lia.
  - pose proof (proj1 (exists_row_false _ _) X) as Hf. cbn beta in Hf.
    split; cbn [chain_settlements set_sessions sessions reservations set_chain_accounts set_chain_sessions update_account]; try apply H.
    + unfold kept. cbn. unfold upsert. rewrite X. apply (ledger_new_session _ _ _ _ (cm_tables _ H)).
      * intros se Hse. by apply String.eqb_neq, Hf.
      * intros l [= <-]. cbn. rewrite Hnone. lia.
    + unfold upsert. rewrite X. intros se Hse Hst. apply elem_of_app in Hse as [Hse|Hse]; [by apply (cm_balance _ H)|].
      apply list_elem_of_singleton in Hse as ->. cbn. rewrite Hnone. lia.
Qed.

Lemma transition_settlements now id from to d :
  chain_settlements (transitionSettlementRequest now id from to d) = chain_settlements d.
Proof. unfold transitionSettlementRequest. by destruct (_ =? 1). Qed.

(** The tables after a settlement, with the row that records it. *)
Lemma apply_settled_rows now log req s p pa fa d d' :
  apply_settled i now log req s p pa fa d = Ok d' ->
  let row := mkChainSettlementRow (ix_chainID i) (ix_contract i) req s p pa fa (lg_TxHash log) (lg_BlockNumber log) in
  (same_ledger d d' /\ chain_settlements d' = chain_settlements d)
  \/ (sessions d' = update (fun r => String.eqb (se_id r) s) (fun r => set_se_balance (Z.max 0 (se_balance r - pa - fa)) r) (sessions d)
      /\ requests d' = update (request_in req Submitted) (fun r => set_rq_updated_at now (set_rq_state Settled r)) (requests d)
      /\ reservations d' = update (fun r => String.eqb (rv_request r) req)
                             (fun r => set_rv_released_at (Some (default now (rv_released_at r))) r) (reservations d)
      /\ chain_settlements d' = chain_settlements d ++ [row]).
Proof.
  intros Ha row. unfold apply_settled in Ha. step_ok Ha as u E. skip_ok Ha. unfold insert_or_nothing in Ha.
  destruct (exists_row _ (chain_settlements d)); cbn [negb] in Ha; injection Ha as <-; [by left|right].
  match goal with |- context [transitionSettlementRequest now req Submitted Settled ?x] => set (released := x) end.
  destruct (transition_settlement_tables now req Submitted Settled released) as (E1 & E2 & E3).
  rewrite E1, E2, E3, transition_settlements. unfold released. split_and!; reflexivity.
Qed.

Lemma settled_sum_snoc session rows row :
  settled_sum session (rows ++ [row]) = settled_sum session rows + (if settled_in session row then charged row else 0).
Proof. unfold settled_sum. rewrite sum_where_app, sum_where_cons. unfold share, sum_where. cbn. lia. Qed.

Lemma receipt_committed now log req s p pa fa d d' :
  committed d -> chain_event (ReceiptSettled req s p pa fa) d -> apply_settled i now log req s p pa fa d = Ok d' -> committed d'.
Proof.
  intros H (Hpa & Hfa & Hc) Ha. pose proof (apply_settled_tables i now log req s p pa fa d d' Ha) as [Ham _].
  apply apply_settled_rows in Ha as [[Hs Ect]|(E1 & E2 & E3 & E4)]; [by apply (committed_same d)|].
  set (row := mkChainSettlementRow _ _ req s p pa fa _ _) in E4.
  assert (forall session, settled_sum session (chain_settlements d') = settled_sum session (chain_settlements d) + (if String.eqb session s then pa + fa else 0)) as Hsum.
  { intros session. rewrite E4, settled_sum_snoc. unfold settled_in, charged, here. cbn. rewrite Z.eqb_refl, String.eqb_refl. cbn.
    by rewrite String.eqb_sym. }
  assert (settles req s (pa + fa) (sessions d) (requests d) (reservations d)
          /\ settled_sum s (chain_settlements d) + (pa + fa) <= allowance s) as [Hset Hroom].
  { destruct Hc as [(rv & rq & Hrv & Erv & Es & El & Hrq)|(Hno & Hhold & Hle)]; [|split; [by right|lia]].
    assert (rv_amount rv = pa + fa) as Eamt by (apply (held_charge req d); [apply (cm_tables _ H)|done..]).
    assert (settles req s (pa + fa) (sessions d) (requests d) (reservations d)) as Hset
      by (left; exists rv, rq; split_and!; try done; apply Hrq).
    split; [done|]. destruct (lk_hold_request _ _ _ (cm_tables _ H) rv Hrv) as (q & Hq & _ & Eq).
    destruct (lk_request_session _ _ _ (cm_tables _ H) q Hq) as (se & Hse & Ese).
    assert (se_id se = s) as Eid by congruence.
    pose proof (live_sum_settled _ _ _ now req s (pa + fa) se (cm_tables _ H) ltac:(lia) Hset Hse) as Hl.
    pose proof (lk_limit _ _ _ (cm_tables _ H) se _ Hse eq_refl) as Hb. rewrite Eid, String.eqb_refl in *.
    assert (0 <= live_sum s (release_hold now req (reservations d))).
    { apply sum_where_nonneg. intros r (old & Ho & ->)%elem_of_update. pose proof (lk_amounts _ _ _ (cm_tables _ H) old Ho).
      by destruct (String.eqb _ _). }
    lia. }
  split.
  - unfold kept. rewrite E1, E2, E3. apply (ledger_settled _ _ _ _ now req s (pa + fa) _ (cm_tables _ H)); [lia|done|done|].
    intros se l' Hse. unfold room. intros [= <-]. eexists. split; [reflexivity|].
    destruct (String.eqb (se_id se) s) eqn:E; cbn [se_id set_se_balance]; rewrite Hsum, E; lia.
  - rewrite E1. intros se (old & Ho & ->)%elem_of_update. destruct (String.eqb (se_id old) s) eqn:E.
    + cbn [se_id se_state se_balance set_se_balance]. intros Hst. rewrite Hsum, E. apply String.eqb_eq in E. subst s.
      pose proof (cm_balance _ H old Ho Hst). lia.
    + intros Hst. rewrite Hsum, E. pose proof (cm_balance _ H old Ho Hst). lia.
  - intros session. rewrite Hsum. destruct (String.eqb_spec session s) as [->|]; [lia|]. pose proof (cm_settled _ H session). lia.
  - rewrite E4. intros ct Hct. apply elem_of_app in Hct as [Hct|Hct]; [by apply H|]. apply list_elem_of_singleton in Hct as ->.
    unfold charged. cbn. lia.
  - rewrite E3, E4. intros ct rv Hct (old & Ho & ->)%elem_of_update. set (r' := if String.eqb _ _ then _ else old).
    assert (rv_request r' = rv_request old /\ rv_session r' = rv_session old /\ rv_amount r' = rv_amount old) as (-> & -> & ->)
      by (unfold r'; by destruct (String.eqb _ _)).
    apply elem_of_app in Hct as [Hct|Hct]; [by apply (cm_holds _ H)|]. apply list_elem_of_singleton in Hct as ->. cbn. intros Ereq.
    destruct Hc as [(rv & rq & Hrv & Erv & Es & _)|(_ & Hhold & _)]; [|by apply Hhold in Ho].
    assert (old = rv) as -> by (apply (unique_key rv_request (reservations d)); [apply (cm_tables _ H)|done|done|congruence]).
    split; [done|]. by rewrite (held_charge req d rv (pa + fa)) by (done || apply (cm_tables _ H)).
Qed.

Ltac move_sessions d H :=
  match goal with |- committed ?x => refine (committed_sessions d x _ _ H eq_refl eq_refl eq_refl eq_refl _) end.

Lemma event_committed now log ev d d' :
  committed d -> chain_event ev d -> applyEvent i now log ev d = Ok d' -> committed d'.
Proof.
  intros H Hc He. destruct ev; cbn [applyEvent] in He;
    try (by injection He as <-; apply (committed_same d)); try (skip_ok He; by injection He as <-; apply (committed_same d)).
  - by eapply (opened_committed now log).
  - skip_ok He. injection He as <-.
    move_sessions d H. intros se Hse P. cbn beta in P. bools. split; [done|].
    intros _. apply (cm_balance _ H se Hse). congruence.
  - step_ok He as row E. injection He as <-. by move_sessions d H.
  - by eapply receipt_committed.
  - do 2 (skip_ok He). by injection He as <-; apply (committed_same d).
Qed.

(** *** The rewind *)
Definition revive (id : string) : list ReservationRow -> list ReservationRow :=
  update (fun r => String.eqb (rv_request r) id && (0 <? rv_amount r)) (set_rv_released_at None).
Definition resubmit (now : Z) (id : string) : list RequestRow -> list RequestRow :=
  update (request_in id Settled) (fun r => set_rq_updated_at now (set_rq_state Submitted r)).

Lemma live_sum_revive session id c rvs : NoDup (map rv_request rvs) -> 0 <= c ->
  (forall rv, rv ∈ rvs -> 0 <= rv_amount rv) ->
  (forall rv, rv ∈ rvs -> rv_request rv = id -> rv_session rv = session -> rv_amount rv <= c) ->
  live_sum session (revive id rvs) <= live_sum session rvs + c.
Proof.
  intros Hnd Hc Hpos Hle. unfold live_sum, revive, update. induction rvs as [|rv rvs IH]; [cbn; lia|].
  cbn [map]. rewrite !sum_where_cons. cbn [map] in Hnd. apply NoDup_cons in Hnd as [Hnew Hnd].
  destruct (String.eqb_spec (rv_request rv) id) as [E|_]; cbn [andb].
  - replace (map _ rvs) with rvs; cycle 1.
    { symmetry. rewrite <- (map_id rvs) at 2. apply map_ext_in. intros r Hr%list_elem_of_In.
      rewrite (proj2 (String.eqb_neq (rv_request r) id)); [done|]. intros Er. apply Hnew. rewrite E, <- Er. apply list_elem_of_fmap. by exists r. }
    pose proof (Hpos rv ltac:(by left)). specialize (Hle rv ltac:(by left) E).
    unfold share, live_in. destruct (0 <? rv_amount rv); cbn; destruct (String.eqb_spec (rv_session rv) session) as [Es|]; cbn; try lia;
      specialize (Hle Es); destruct (is_null (rv_released_at rv)); lia.
  - assert (sum_where (live_in session) rv_amount
        (map (fun r => if String.eqb (rv_request r) id && (0 <? rv_amount r) then set_rv_released_at None r else r) rvs)
        <= sum_where (live_in session) rv_amount rvs + c); [|lia].
    apply IH; [done|intros r Hr; apply Hpos; by right|intros r Hr; apply Hle; by right].
Qed.

Lemma ledger_revive limit' ses rqs rvs now limit id session c :
  ledger_ok limit ses rqs rvs -> 0 <= c ->
  (forall rv, rv ∈ rvs -> rv_request rv = id -> rv_session rv = session /\ rv_amount rv <= c) ->
  (forall se l', se ∈ ses -> limit' se = Some l' -> exists l, limit se = Some l /\ l + (if String.eqb session (se_id se) then c else 0) <= l') ->
  ledger_ok limit' ses (resubmit now id rqs) (revive id rvs).
Proof.
  intros [H1 H2 H3 H4 H5 H6 H7 H8] Hc Hhold Hl.
  assert (forall r, rv_request (if String.eqb (rv_request r) id && (0 <? rv_amount r) then set_rv_released_at None r else r) = rv_request r
          /\ rv_session (if String.eqb (rv_request r) id && (0 <? rv_amount r) then set_rv_released_at None r else r) = rv_session r
          /\ rv_amount (if String.eqb (rv_request r) id && (0 <? rv_amount r) then set_rv_released_at None r else r) = rv_amount r) as Hkeep
    by (intros r; by destruct (_ && _)).
  split; try done.
  - unfold resubmit. by rewrite map_update.
  - unfold revive. by rewrite map_update.
  - intros rv (old & Ho & ->)%elem_of_update. destruct (Hkeep old) as (_ & _ & ->). by apply H4.
  - intros rv (old & Ho & ->)%elem_of_update. destruct (Hkeep old) as (-> & -> & _). destruct (H5 old Ho) as (rq & Hrq & E1 & E2).
    exists (if request_in id Settled rq then set_rq_updated_at now (set_rq_state Submitted rq) else rq).
    split; [apply elem_of_update; eauto|]. by destruct (request_in _ _ _).
  - intros rq (old & Ho & ->)%elem_of_update. destruct (H6 old Ho) as (se & Hse & E). exists se. split; [done|]. by destruct (request_in _ _ _).
  - intros se l' Hse Hl'. destruct (Hl se l' Hse Hl') as (l & El & Hle). pose proof (H7 se l Hse El) as Hb.
    pose proof (live_sum_revive (se_id se) id (if String.eqb session (se_id se) then c else 0) rvs H3) as Hr.
    cut (live_sum (se_id se) (revive id rvs) <= live_sum (se_id se) rvs + (if String.eqb session (se_id se) then c else 0)); [lia|].
    apply Hr; [by destruct (String.eqb _ _)|done|]. intros rv Hrv Er Es. destruct (Hhold rv Hrv Er) as [E Hm].
    by rewrite <- E, Es, String.eqb_refl.
  - intros rq rv (rq0 & Hq0 & ->)%elem_of_update (rv0 & Hr0 & ->)%elem_of_update. destruct (Hkeep rv0) as (-> & _ & ->). intros E Hh.
    destruct (String.eqb (rv_request rv0) id) eqn:Ei; cbn [andb].
    + destruct (0 <? rv_amount rv0) eqn:Ea; [by left|right]. pose proof (H4 rv0 Hr0). lia.
    + destruct (request_in id Settled rq0) eqn:Q; [|by apply (H8 rq0)]. exfalso. unfold request_in in Q. bools.
      apply String.eqb_neq in Ei. apply Ei. rewrite E. cbn. by apply String.eqb_eq.
Qed.

Definition same_hold (r r' : ReservationRow) : Prop :=
  rv_request r' = rv_request r /\ rv_session r' = rv_session r /\ rv_amount r' = rv_amount r.
Lemma revive_same id rvs rv : rv ∈ revive id rvs -> exists old, old ∈ rvs /\ same_hold old rv.
Proof. intros (old & Ho & ->)%elem_of_update. exists old. split; [done|]. by destruct (_ && _). Qed.

Lemma revert_tables now id d :
  let d' := revert_settlements now [id] d in
  sessions d' = sessions d /\ chain_settlements d' = chain_settlements d
  /\ requests d' = resubmit now id (requests d) /\ reservations d' = revive id (reservations d).
Proof.
  cbn [revert_settlements]. match goal with |- context [transitionSettlementRequest now id Settled Submitted ?x] => set (revived := x) end.
  destruct (transition_settlement_tables now id Settled Submitted revived) as (F1 & F2 & F3).
  rewrite F1, F2, F3, transition_settlements. unfold revived. split_and!; reflexivity.
Qed.
Lemma revert_cons now id ids d : revert_settlements now (id :: ids) d = revert_settlements now ids (revert_settlements now [id] d).
Proof. done. Qed.

(** The charges of the settlements that are still to be reverted. *)
Lemma revert_committed now rows : forall d,
  kept (room rows) d -> (forall ct, ct ∈ rows -> here i (ct_chain ct) (ct_contract ct) = true /\ 0 <= charged ct) ->
  (forall ct rv, ct ∈ rows -> rv ∈ reservations d -> rv_request rv = ct_request ct -> rv_session rv = ct_session ct /\ rv_amount rv <= charged ct) ->
  let d' := revert_settlements now (map ct_request rows) d in
  kept (room []) d' /\ sessions d' = sessions d /\ chain_settlements d' = chain_settlements d
  /\ (forall rv, rv ∈ reservations d' -> exists old, old ∈ reservations d /\ same_hold old rv).
Proof.
  induction rows as [|ct rows IH]; intros d Hk Hrows Hholds; cbv zeta.
  { split_and!; [done..|]. intros rv Hrv. by exists rv. }
  cbn [map]. rewrite revert_cons. set (next := revert_settlements now [ct_request ct] d).
  destruct (revert_tables now (ct_request ct) d) as (E1 & E2 & E3 & E4). fold next in E1, E2, E3, E4.
  destruct (IH next) as (K1 & K2 & K3 & K4).
  - unfold kept. rewrite E1, E3, E4. destruct (Hrows ct ltac:(by left)) as [Hhere Hpos].
    apply (ledger_revive _ _ _ _ now (room (ct :: rows)) (ct_request ct) (ct_session ct) (charged ct) Hk Hpos).
    + intros rv Hrv Er. apply Hholds; [by left|done|done].
    + intros se l' _ [= <-]. eexists. split; [reflexivity|]. unfold settled_sum. rewrite sum_where_cons. unfold share, settled_in at 1.
      rewrite Hhere. cbn [andb]. destruct (String.eqb _ _); lia.
  - intros c Hc. apply Hrows. by right.
  - intros c rv Hc Hrv. rewrite E4 in Hrv. apply revive_same in Hrv as (old & Ho & S1 & S2 & S3). rewrite S1, S2, S3.
    apply Hholds; [by right|done].
  - split_and!; [done|congruence|congruence|]. intros rv Hrv. destruct (K4 rv Hrv) as (mid & Hm & S1 & S2 & S3).
    rewrite E4 in Hm. apply revive_same in Hm as (old & Ho & T1 & T2 & T3). exists old. split; [done|]. split_and!; congruence.
Qed.

Lemma settled_sum_select session rows :
  settled_sum session (select (fun r => here i (ct_chain r) (ct_contract r)) rows) = settled_sum session rows.
Proof.
  unfold settled_sum, select. induction rows as [|r rows IH]; [done|]. cbn [List.filter]. rewrite (sum_where_cons _ _ r rows), <- IH.
  assert (here i (ct_chain r) (ct_contract r) = false -> share (settled_in session) charged r = 0) as Hs
    by (intros E; unfold share, settled_in; by rewrite E).
  destruct (here i (ct_chain r) (ct_contract r)); [by rewrite sum_where_cons|by rewrite Hs].
Qed.
Lemma settled_sum_deleted session rows :
  settled_sum session (delete_rows (fun r => here i (ct_chain r) (ct_contract r)) rows) = 0.
Proof.
  apply sum_where_zero. intros r Hr. unfold delete_rows in Hr. apply list_elem_of_In, filter_In in Hr as [_ Hr].
  unfold settled_in. apply negb_true_iff in Hr. by rewrite Hr.
Qed.

Lemma rewind_committed now d : (forall session, 0 <= allowance session) -> committed d -> committed (rewind i now d).
Proof.
  intros Hall H. set (rows := select (fun r => here i (ct_chain r) (ct_contract r)) (chain_settlements d)).
  set (reverted := revert_settlements now (map ct_request rows) d).
  destruct (revert_committed now rows d) as (Hk & E1 & E2 & Hsame).
  { destruct (cm_tables _ H) as [H1 H2 H3 H4 H5 H6 H7 H8]. split; try done.
    intros se l Hse [= <-]. unfold rows. rewrite settled_sum_select. by apply (H7 se). }
  { intros ct [Hct Hh]%select_spec. split; [done|by apply H]. }
  { intros ct rv [Hct _]%select_spec. by apply H. }
  fold reverted in Hk, E1, E2, Hsame.
  assert (sessions (rewind i now d) = sessions d /\ requests (rewind i now d) = requests reverted
          /\ reservations (rewind i now d) = reservations reverted
          /\ chain_settlements (rewind i now d) = delete_rows (fun r => here i (ct_chain r) (ct_contract r)) (chain_settlements d))
    as (T1 & T2 & T3 & T4).
  { rewrite <- E1, <- E2. split_and!; reflexivity. }
  assert (forall ct, ct ∈ chain_settlements (rewind i now d) -> ct ∈ chain_settlements d) as Hold.
  { rewrite T4. unfold delete_rows. intros ct [Hct _]%list_elem_of_In%filter_In. by apply list_elem_of_In. }
  split; try (intros session); rewrite ?T4, ?settled_sum_deleted.
  - unfold kept in *. rewrite T1, T2, T3. rewrite E1 in Hk. destruct Hk as [H1 H2 H3 H4 H5 H6 H7 H8]. split; try done.
    intros se l Hse [= <-]. rewrite settled_sum_deleted. by apply (H7 se).
  - rewrite T1. intros Hse Hst. pose proof (cm_balance _ H session Hse Hst). pose proof (settled_sum_nonneg d (se_id session) H). lia.
  - apply Hall.
  - rewrite <- T4. intros Hct. by apply H, Hold.
  - intros rv. rewrite <- T4, T3. intros Hct Hrv. destruct (Hsame rv Hrv) as (old & Ho & S1 & S2 & S3). rewrite S1, S2, S3.
    apply (cm_holds _ H session old); [by apply Hold|done].
Qed.

(** *** Any interleaving *)
Inductive chain_step (d d' : Db) : Prop :=
| chain_operation : operation d d' -> fresh_holds d d' -> chain_step d d'
| chain_applied now log ev : chain_event ev d -> applyEvent i now log ev d = Ok d' -> chain_step d d'
| chain_rewound now : d' = rewind i now d -> chain_step d d'.

Lemma chain_step_committed d d' : (forall session, 0 <= allowance session) -> committed d -> chain_step d d' -> committed d'.
Proof.
  intros Ha H [Ho Hn|now log ev Hc E|now ->]; [by apply (operation_committed d)|by eapply event_committed|by apply rewind_committed].
Qed.
Lemma empty_committed : (forall session, 0 <= allowance session) -> committed empty_db.
Proof.
  intros Ha. split; [|set_solver..|exact Ha|set_solver|set_solver]. split; try (by apply NoDup_nil_2); cbn; set_solver.
Qed.
Lemma reachable_committed d : (forall session, 0 <= allowance session) -> rtc chain_step empty_db d -> committed d.
Proof.
  intros Ha Hr. remember empty_db as d0 eqn:E0. assert (committed d0) as H0 by (subst; by apply empty_committed).
  clear E0. induction Hr; eauto using chain_step_committed.
Qed.

(** C2. Reorganisations of the chain overdraw no session: however the operations
    of the broker, the events of the contract and rewinds of the projection
    interleave, what a session holds and what was settled in it together never
    exceed the allowance the session has in the contract, and neither do the
    settled charges and the balance the broker still offers in a session that is
    not closed.  The steps take the identifiers of requests to be fresh and the
    contract to keep what [chain_event] says of it. *)
Theorem allowance_never_exceeded d :
  (forall session, 0 <= allowance session) -> rtc chain_step empty_db d ->
  (forall session, locked_amount session d + settled_sum session (chain_settlements d) <= allowance session)
  /\ (forall se, se ∈ sessions d -> se_state se <> StateClosed ->
      se_balance se + settled_sum (se_id se) (chain_settlements d) <= allowance (se_id se)).
Proof.
  intros Ha Hr. apply reachable_committed in Hr; [|done]. split; [|apply Hr]. intros session.
  destruct (exists_row (fun se => String.eqb (se_id se) session) (sessions d)) eqn:X.
  - apply exists_row_spec in X as (se & Hse & <-%String.eqb_eq).
    pose proof (lk_limit _ _ _ (cm_tables _ Hr) se _ Hse eq_refl) as Hl. unfold live_sum in Hl. unfold locked_amount. lia.
  - pose proof (proj1 (exists_row_false _ _) X) as Hf. cbn beta in Hf.
    replace (locked_amount session d) with 0; [pose proof (cm_settled _ Hr session); lia|]. symmetry.
    apply (live_sum_fresh _ _ _ session (cm_tables _ Hr)). intros se Hse. by apply String.eqb_neq, Hf.
Qed.

End Reorganisations.

Ltac sample_step constructor :=
  eapply rtc_l; [eapply constructor; vm_compute; reflexivity|].

Lemma sample_ready : rtc step empty_db db_ready.
Proof.
  apply (rtc_l _ _ db_1); [apply step_operation, (step_account _ _ "customer" customer_wallet); vm_compute; reflexivity|].
  apply (rtc_l _ _ db_2); [apply step_operation, (step_account _ _ "provider" provider_wallet); vm_compute; reflexivity|].
  apply (rtc_l _ _ db_3).
  { eapply step_operation, (step_device _ _ 1 (replicate 32 9) [222; 173; 190; 239] "rig" provider_wallet 100). vm_compute. reflexivity. }
  apply (rtc_l _ _ db_4); [apply step_operation, (step_approve _ _ 2 user_code "provider"); vm_compute; reflexivity|].
  apply (rtc_l _ _ db_5).
  { eapply step_operation, (step_exchange _ _ 3 (replicate 12 7) (replicate 32 8) device_code). vm_compute. reflexivity. }
  apply (rtc_l _ _ db_6).
  { apply (step_event _ _ sample_indexer 10 sample_log bond_event); [done|vm_compute; reflexivity]. }
  apply (rtc_l _ _ db_7).
  { apply (step_event _ _ sample_indexer 10 sample_log offer_event); [done|vm_compute; reflexivity]. }
  apply (rtc_l _ _ db_8).
  { apply (step_event _ _ sample_indexer 10 sample_log session_event); [|vm_compute; reflexivity].
    intros se Hse. by apply elem_of_nil in Hse. }
  apply (rtc_l _ _ db_ready); [|apply rtc_refl].
  apply step_operation, (step_reconcile _ _ 15 machine_id sample_capacity 1 contract_address). vm_compute. reflexivity.
Qed.

Lemma sample_reachable : rtc step empty_db db_prepared.
Proof.
  etrans; [apply sample_ready|].
  apply (rtc_l _ _ db_reserved); [apply step_operation, (step_reserve _ _ 20 sample_reservation); vm_compute; reflexivity|].
  apply (rtc_l _ _ db_accepted); [apply step_operation, (step_transition _ _ 21 request_id "accepted"); vm_compute; reflexivity|].
  apply (rtc_l _ _ db_streaming); [apply step_operation, (step_transition _ _ 22 request_id "streaming"); vm_compute; reflexivity|].
  apply (rtc_l _ _ db_completed); [apply step_operation, (step_complete _ _ 23 sample_completion); vm_compute; reflexivity|].
  apply (rtc_l _ _ db_prepared); [|apply rtc_refl].
  eapply step_operation, (step_prepare _ _ 24 request_id sample_domain). vm_compute. reflexivity.
Qed.

(** ** A reorganisation *)
Definition sample_allowance (session : string) : Z := if String.eqb session session_id then 1000 else 0.
Definition settled_event : ChainEvent := ReceiptSettled request_id session_id provider_wallet 9 1.
Definition reorg_signed : SignedReceipt :=
  mkSignedReceipt (toChainReceipt (default (mkReceipt [] [] [] [] [] [] 0 [] [] 0 0 0 0 0 0 0 0 0 [] [] 0) sample_receipt))
    (replicate 65 1) (replicate 65 2).
Definition db_enqueued : Db := Eval vm_compute in value_of (Enqueue 30 reorg_signed db_prepared).
Definition db_broadcast : Db := Eval vm_compute in
  value_of (snd <$> settle_transaction hashHex Ok (fun receipts _ _ => Ok (map cr_Nonce receipts)) 31 10 db_enqueued).
Definition db_settled : Db := Eval vm_compute in value_of (sample_event settled_event db_broadcast).
Definition db_rewound : Db := Eval vm_compute in rewind sample_indexer 50 db_settled.
Definition db_reopened : Db := Eval vm_compute in value_of (sample_event session_event db_rewound).
Definition db_resettled : Db := Eval vm_compute in value_of (sample_event settled_event db_reopened).
Definition db_closed : Db := Eval vm_compute in value_of (sample_event (SessionClosed session_id 990) db_settled).
Definition db_replayed : Db := Eval vm_compute in value_of (sample_event session_event (rewind sample_indexer 50 db_closed)).

Example reorganisation_amounts :
  map (fun d => (locked_amount session_id d, settled_sum sample_indexer session_id (chain_settlements d), map se_balance (sessions d)))
    [db_broadcast; db_settled; db_rewound; db_reopened; db_resettled]
  = [(10, 0, [1000]); (0, 10, [990]); (10, 0, [990]); (10, 0, [1000]); (0, 10, [990])].
Proof. vm_compute. reflexivity. Qed.

Lemma chain_unsettled {ethereum : Ethereum} allowance d d' :
  operation d d' -> chain_settlements d = [] -> chain_step sample_indexer allowance d d'.
Proof. intros Ho E. apply chain_operation; [done|]. intros rv _. right. rewrite E. intros ct Hct. by apply elem_of_nil in Hct. Qed.

Ltac chain_op constructor := apply chain_unsettled; [eapply constructor; vm_compute; reflexivity|reflexivity].
Ltac chain_quiet := eapply (chain_applied _ _ _ _ 10 sample_log); [exact I|vm_compute; reflexivity].

Lemma sample_reorganised : rtc (chain_step sample_indexer sample_allowance) empty_db db_resettled.
Proof.
  apply (rtc_l _ _ db_1); [chain_op (step_account empty_db db_1 "customer" customer_wallet)|].
  apply (rtc_l _ _ db_2); [chain_op (step_account db_1 db_2 "provider" provider_wallet)|].
  apply (rtc_l _ _ db_3); [chain_op (step_device db_2 db_3 1 (replicate 32 9) [222; 173; 190; 239] "rig" provider_wallet 100)|].
  apply (rtc_l _ _ db_4); [chain_op (step_approve db_3 db_4 2 user_code "provider")|].
  apply (rtc_l _ _ db_5); [chain_op (step_exchange db_4 db_5 3 (replicate 12 7) (replicate 32 8) device_code)|].
  apply (rtc_l _ _ db_6); [apply (chain_applied _ _ _ _ 10 sample_log bond_event); [exact I|vm_compute; reflexivity]|].
  apply (rtc_l _ _ db_7); [apply (chain_applied _ _ _ _ 10 sample_log offer_event); [exact I|vm_compute; reflexivity]|].
  apply (rtc_l _ _ db_8).
  { apply (chain_applied _ _ _ _ 10 sample_log session_event); [split; [reflexivity|intros ct Hct; by apply elem_of_nil in Hct]|vm_compute; reflexivity]. }
  apply (rtc_l _ _ db_ready); [chain_op (step_reconcile db_8 db_ready 15 machine_id sample_capacity 1 contract_address)|].
  apply (rtc_l _ _ db_reserved); [chain_op (step_reserve db_ready db_reserved 20 sample_reservation)|].
  apply (rtc_l _ _ db_accepted); [chain_op (step_transition db_reserved db_accepted 21 request_id "accepted")|].
  apply (rtc_l _ _ db_streaming); [chain_op (step_transition db_accepted db_streaming 22 request_id "streaming")|].
  apply (rtc_l _ _ db_completed); [chain_op (step_complete db_streaming db_completed 23 sample_completion)|].
  apply (rtc_l _ _ db_prepared); [chain_op (step_prepare db_completed db_prepared 24 request_id sample_domain)|].
  apply (rtc_l _ _ db_enqueued); [chain_op (step_enqueue db_prepared db_enqueued 30 reorg_signed)|].
  apply (rtc_l _ _ db_broadcast).
  { chain_op (step_settle db_enqueued db_broadcast bytes hashHex Ok (fun receipts _ _ => Ok (map cr_Nonce receipts)) 31 10). }
  apply (rtc_l _ _ db_settled).
  { apply (chain_applied _ _ _ _ 10 sample_log settled_event); [|vm_compute; reflexivity]. split_and!; [lia|lia|left].
    do 2 eexists. split_and!; [by left|reflexivity|reflexivity|by left|by left|reflexivity|reflexivity]. }
  apply (rtc_l _ _ db_rewound); [apply (chain_rewound _ _ _ _ 50); vm_compute; reflexivity|].
  apply (rtc_l _ _ db_reopened).
  { apply (chain_applied _ _ _ _ 10 sample_log session_event); [split; [reflexivity|intros ct Hct; by apply elem_of_nil in Hct]|vm_compute; reflexivity]. }
  apply rtc_once. apply (chain_applied _ _ _ _ 10 sample_log settled_event); [|vm_compute; reflexivity]. split_and!; [lia|lia|left].
  do 2 eexists. split_and!; [by left|reflexivity|reflexivity|by left|by left|reflexivity|reflexivity].
Qed.


(** After a rewind the holds can exceed the balance, until the events of the new
    chain are applied. *)
Definition fat_reservation : InferenceReservation :=
  mkInferenceReservation "next" session_id "customer" machine_id "o1" 1 985 486000000 1000000 2000.
Lemma rewind_overdraws :
  exists d, ReserveInference 40 fat_reservation db_settled = Ok d
  /\ map (fun d => (locked_amount session_id d, map se_balance (sessions d))) [d; rewind sample_indexer 50 d]
     = [(985, [990]); (995, [990])].
Proof. eexists. split; vm_compute; reflexivity. Qed.

Lemma allowance_never_exceeded_witness :
  locked_amount session_id db_resettled + settled_sum sample_indexer session_id (chain_settlements db_resettled) <= 1000.
Proof.
  apply (allowance_never_exceeded sample_indexer sample_allowance db_resettled); [|exact sample_reorganised].
  intros session. unfold sample_allowance. destruct (String.eqb session session_id); lia.
Defined.

(** While the events of the new chain are applied one range after the other, a
    session that is closed in the contract is open again with its whole
    allowance, from the range that opens it to the one that closes it. *)
Lemma closed_session_reopens :
  map se_state (sessions db_closed) = [StateClosed]
  /\ sample_event session_event (rewind sample_indexer 50 db_closed) = Ok db_replayed
  /\ map (fun se => (se_state se, se_balance se)) (sessions db_replayed) = [(StateOpen, 1000)]
  /\ is_ok (ReserveInference 60 (mkInferenceReservation "again" session_id "customer" machine_id "o1" 1 500 2000000 1000000 2000)
             db_replayed) = true.
Proof. split_and!; vm_compute; reflexivity. Qed.
