(* ===== verification/StoreSpec.v ===== *)
(** * What the store's operations guarantee

    Charges against reservations, receipts and their nonces, the release of
    holds, retries, and the outbox. *)

From S2P Require Import Prelude GoStrings Price Router Receipt Messages Db Hex Auth Store Settlement Indexer Sample Ledger.
From stdpp Require Import relations.
Open Scope string_scope.
Open Scope list_scope.
Open Scope Z_scope.

(** ** Charges *)
Lemma exactCharge_total i o c rin rout rcomp :
  0 <= i -> 0 <= o -> 0 <= c -> 0 <= rin -> 0 <= rout -> 0 <= rcomp ->
  exactCharge i o c (BigString rin) (BigString rout) (BigString rcomp) =
  if IsUint64 (worst_total rin rout rcomp i o c) then Ok (worst_total rin rout rcomp i o c)
  else Err ErrInvalidReceipt.
Proof.
  intros. unfold exactCharge, worst_total. cbn [exact_charge_items]. rewrite !numeric_text.
  replace (rin <? 0) with false by lia. replace (rout <? 0) with false by lia.
  replace (rcomp <? 0) with false by lia.
  assert (forall u r dn, 0 <= u -> 0 <= r -> 0 < dn ->
    (if 0 <? u * r then u * r + (dn - 1) else u * r) / dn = ceil_div (u * r) dn) as Hp.
  { intros u r dn Hu Hr Hd. unfold ceil_div. destruct (Z.ltb_spec 0 (u * r)); [done|].
    assert (u * r = 0) as -> by nia. by rewrite !Z.div_small by lia. }
  rewrite !Hp by lia.
  replace (0 + ceil_div (i * rin) 1000000) with (ceil_div (i * rin) 1000000) by lia.
  by destruct (IsUint64 _).
Qed.

Lemma worst_total_mono rin rout rcomp i o c i' o' c' :
  0 <= rin -> 0 <= rout -> 0 <= rcomp -> 0 <= i <= i' -> 0 <= o <= o' -> 0 <= c <= c' ->
  0 <= worst_total rin rout rcomp i o c <= worst_total rin rout rcomp i' o' c'.
Proof.
  intros. unfold worst_total.
  pose proof (ceil_div_mono (i * rin) (i' * rin) 1000000 ltac:(lia) ltac:(nia)).
  pose proof (ceil_div_mono (o * rout) (o' * rout) 1000000 ltac:(lia) ltac:(nia)).
  pose proof (ceil_div_mono (c * rcomp) (c' * rcomp) 1000 ltac:(lia) ltac:(nia)).
  pose proof (ceil_div_nonneg (i * rin) 1000000 ltac:(lia) ltac:(nia)).
  pose proof (ceil_div_nonneg (o * rout) 1000000 ltac:(lia) ltac:(nia)).
  pose proof (ceil_div_nonneg (c * rcomp) 1000 ltac:(lia) ltac:(nia)). lia.
Qed.

(** C11. Usage within the limits of a reservation never costs more than the
    amount reserved: if [WorstCaseCost] at the limits is [w], the exact charge
    of any usage within them succeeds and is at most [w]. *)
Theorem exactCharge_within_worst_case rin rout rcomp i o c i' o' c' w :
  0 <= rin -> 0 <= rout -> 0 <= rcomp -> 0 <= i <= i' -> 0 <= o <= o' -> 0 <= c <= c' ->
  WorstCaseCost (rate_candidate (BigString rin) (BigString rout) (BigString rcomp)) i' o' c' = Ok w ->
  exists t, exactCharge i o c (BigString rin) (BigString rout) (BigString rcomp) = Ok t /\ 0 <= t <= w.
Proof.
  intros Hrin Hrout Hrcomp Hi Ho Hc Hw. apply WorstCaseCost_spec in Hw as (a & b & e & Ha & Hb & He & -> & Hu).
  assert (forall r x, parseRate (BigString r) = Some x -> x = r) as Hparse.
  { intros r x Hx. apply parseRate_iff in Hx as [Hx _].
    apply (f_equal SetString10) in Hx. rewrite !numeric_text in Hx. congruence. }
  cbn in Ha, Hb, He. apply Hparse in Ha as ->, Hb as ->, He as ->.
  pose proof (worst_total_mono rin rout rcomp i o c i' o' c') as Hm.
  exists (worst_total rin rout rcomp i o c). rewrite exactCharge_total by lia.
  unfold IsUint64. rewrite (proj2 (is_u64_spec _)) by lia. split; [done|lia].
Qed.

Lemma exactCharge_within_worst_case_witness :
  exists t, exactCharge 1000000 1000000 1000 "2" "3" "5" = Ok t /\ 0 <= t <= 17.
Proof.
  apply (exactCharge_within_worst_case 2 3 5 1000000 1000000 1000 2000000 1000000 2000 17); try lia.
  vm_compute. reflexivity.
Defined.

(** ** Receipts and nonces *)
Section Receipts.
Context `{Ethereum}.

Lemma affected_update {R} (p : R -> bool) f (t : list R) :
  (forall r, r ∈ t -> p r = true -> p (f r) = true) -> affected p (update p f t) = affected p t.
Proof.
  intros Hp. unfold affected. f_equal. induction t as [|r t IH]; [done|].
  cbn [update select map List.filter]. pose proof (Hp r ltac:(apply elem_of_cons; auto)) as Hr.
  assert (length (select p (update p f t)) = length (select p t)) as Hl
    by (apply IH; intros; apply Hp; [apply elem_of_cons; auto|done]).
  unfold select, update in Hl. destruct (p r) eqn:P.
  - rewrite Hr by done. simpl. by f_equal.
  - by rewrite P.
Qed.

Lemma update_fixed {R} (p : R -> bool) f (t : list R) : (forall r, r ∈ t -> (if p r then f r else r) = r) -> update p f t = t.
Proof.
  unfold update. induction t as [|r t IH]; intros Hf; [done|]. cbn [map]. rewrite Hf by (by left). f_equal. apply IH.
  intros x Hx. apply Hf. by right.
Qed.

(** What [PrepareReceipt] reads besides the holds and the nonces. *)
Lemma receipt_nonce_again p id d n d' : receipt_nonce p id d = Ok (n, d') -> receipt_nonce p id d' = Ok (n, d').
Proof.
  unfold receipt_nonce. intros Hn. destruct (select _ (nonces d)) as [|row rest] eqn:E.
  - skip_ok Hn. step_ok Hn as rows E2. apply insert_row_Ok in E2 as [-> _]. injection Hn as <- <-.
    cbn [nonces set_nonces]. unfold select in *. rewrite List.filter_app, E. cbn.
    by rewrite String.eqb_refl.
  - injection Hn as <- <-. by rewrite E.
Qed.

Lemma set_reservations_id d : set_reservations (reservations d) d = d.
Proof. by destruct d. Qed.

Lemma receipt_nonce_tables p id d n d' : receipt_nonce p id d = Ok (n, d') -> exists rows, d' = set_nonces rows d.
Proof.
  unfold receipt_nonce. intros Hn. destruct (select _ (nonces d)) as [|row rest] eqn:E.
  - skip_ok Hn. step_ok Hn as rows E2. injection Hn as <- <-. by exists rows.
  - injection Hn as <- <-. exists (nonces d). by destruct d.
Qed.

Lemma receipt_nonce_row p id d n d' : receipt_nonce p id d = Ok (n, d') ->
  exists row rest, select (fun r => String.eqb (no_request r) id) (nonces d') = row :: rest /\ no_nonce row = n.
Proof.
  unfold receipt_nonce. intros Hn. destruct (select _ (nonces d)) as [|row rest] eqn:E.
  - skip_ok Hn. step_ok Hn as rows E2. apply insert_row_Ok in E2 as [-> _]. injection Hn as <- <-.
    cbn [nonces set_nonces]. unfold select in *. rewrite List.filter_app, E. cbn. rewrite String.eqb_refl. by eexists _, _.
  - injection Hn as <- <-. by exists row, rest.
Qed.

Lemma charge_hold_again now now' total r : charge_hold now' total (charge_hold now total r) = charge_hold now total r.
Proof. unfold charge_hold, set_rv_released_at, set_rv_amount. cbn. by destruct (total =? 0). Qed.

Lemma charge_hold_affected id total now (rvs : list ReservationRow) :
  affected (chargeable id total) (update (chargeable id total) (charge_hold now total) rvs)
  = affected (chargeable id total) rvs.
Proof.
  apply affected_update. intros r _ P. unfold chargeable in *. bools. cbn. rewrite H0. cbn. lia.
Qed.

Lemma query_row_app {R} (p : R -> bool) (t more : list R) row : query_row p t = Ok row -> query_row p (t ++ more) = Ok row.
Proof. unfold query_row, select. rewrite List.filter_app. by destruct (List.filter p t). Qed.

Lemma select_within {R} (p q : R -> bool) (t : list R) : (forall r, p r = true -> q r = true) -> select p (select q t) = select p t.
Proof.
  intros Hpq. unfold select. induction t as [|r t IH]; [done|]. cbn [List.filter]. destruct (q r) eqn:Q; cbn [List.filter]; rewrite IH; [done|].
  destruct (p r) eqn:P; [|done]. apply Hpq in P. congruence.
Qed.

(** What [PrepareReceipt] reads of a request is the same; anything else may
    differ, and more offers may be published. *)
Record request_kept (id : string) (d d2 : Db) : Prop := mkRequestKept {
  kp_completed : completed_request id d2 = completed_request id d;
  kp_request : find_request id d2 = find_request id d;
  kp_hold : select (fun r => String.eqb (rv_request r) id) (reservations d2)
            = select (fun r => String.eqb (rv_request r) id) (reservations d);
  kp_nonce : select (fun r => String.eqb (no_request r) id) (nonces d2) = select (fun r => String.eqb (no_request r) id) (nonces d);
  kp_offers : exists more, chain_offers d2 = chain_offers d ++ more;
}.

Lemma hold_charged now now' id total d d1 d2 :
  reservations d1 = update (chargeable id total) (charge_hold now total) (reservations d) -> request_kept id d1 d2 ->
  affected (chargeable id total) (reservations d2) = affected (chargeable id total) (reservations d)
  /\ update (chargeable id total) (charge_hold now' total) (reservations d2) = reservations d2.
Proof.
  intros E1 K. set (same := fun r => String.eqb (rv_request r) id).
  assert (forall r, chargeable id total r = true -> same r = true) as Hp by (intros r P; by apply andb_true_iff in P as [P _]).
  pose proof (kp_hold _ _ _ K) as Kh. fold same in Kh. split.
  - unfold affected. rewrite <- (select_within _ same (reservations d2) Hp), Kh, select_within by done.
    fold (affected (chargeable id total) (reservations d1)). rewrite E1. apply charge_hold_affected.
  - apply update_fixed. intros r Hr. destruct (chargeable id total r) eqn:P; [|done].
    assert (r ∈ select same (reservations d2)) as Hs by (apply select_spec; split; [done|by apply Hp]).
    rewrite Kh in Hs. apply select_spec in Hs as [Hs _]. rewrite E1 in Hs. apply elem_of_update in Hs as (o & _ & ->).
    destruct (chargeable id total o) eqn:O; [apply charge_hold_again|congruence].
Qed.

Lemma completed_request_not id d :
  (forall rq, rq ∈ requests d -> rq_id rq = id -> rq_state rq <> Completed) -> completed_request id d = Err ErrNoRows.
Proof.
  intros Hno. unfold completed_request.
  assert (forall pr, pr ∈ proposals d -> pr_request pr = id ->
    select (fun r => String.eqb (rq_id r) (pr_request pr) && state_eqb (rq_state r) Completed) (requests d) = []) as Hnil.
  { intros pr Hpr Er. destruct (select _ (requests d)) as [|rq rest] eqn:S; [done|].
    assert (rq ∈ rq :: rest) as Hrq by (by left). rewrite <- S in Hrq. apply select_spec in Hrq as [Hrq P].
    apply andb_true_iff in P as [P1%String.eqb_eq P2]. unfold state_eqb in P2. apply bool_decide_eq_true in P2. exfalso.
    apply (Hno rq Hrq); [congruence|done]. }
  set (rows := select (fun rp => String.eqb (pr_request rp) id) (proposals d)).
  assert (forall pr, pr ∈ rows -> pr ∈ proposals d /\ pr_request pr = id) as Hrows
    by (intros pr [Hpr P%String.eqb_eq]%select_spec; done).
  clearbody rows. induction rows as [|pr rows IH]; [done|]. cbn [flat_map].
  destruct (Hrows pr ltac:(by left)) as [Hpr Er]. rewrite (Hnil pr Hpr Er). cbn [flat_map app]. apply IH. intros x Hx. apply Hrows. by right.
Qed.


(** [PrepareReceipt] charges the exact price and keeps exactly that amount
    held: see [PrepareReceipt_inv] for the other guarantees. *)
Lemma PrepareReceipt_hold now id domain d receipt machine signer d' :
  db_ok d -> PrepareReceipt now id domain d = Ok (receipt, machine, signer, d') ->
  exists rv, rv ∈ reservations d' /\ rv_request rv = id /\ rv_amount rv = r_TotalCharge receipt
             /\ (rv_released_at rv = None <-> r_TotalCharge receipt <> 0).
Proof.
  intros Hd Hp. apply PrepareReceipt_inv in Hp as
    (pr & rq & offer & d1 & _ & _ & _ & _ & _ & _ & _ & _ & _ & _ & Ha & -> & (p & En) & _).
  apply receipt_nonce_same in En as (_ & _ & ->). cbn [reservations set_reservations].
  unfold affected in Ha. destruct (select _ (reservations d)) as [|rv rest] eqn:E; [done|].
  assert (rv ∈ select (chargeable id (r_TotalCharge receipt)) (reservations d)) as Hrv
    by (rewrite E; apply elem_of_cons; auto).
  apply select_spec in Hrv as [Hrv Pv].
  exists (charge_hold now (r_TotalCharge receipt) rv). split; [apply elem_of_update; exists rv; by rewrite Pv|].
  unfold chargeable in Pv. bools. apply String.eqb_eq in H0. split_and!; [done|done|].
  unfold charge_hold. cbn. destruct (Z.eqb_spec (r_TotalCharge receipt) 0); split; congruence.
Qed.
End Receipts.


(** ** Nonces

    Every operation but [PrepareReceipt] leaves the table alone. *)
Definition same_nonces (d d' : Db) : Prop := nonces d' = nonces d.

Ltac op_cases H :=
  repeat first
    [ discriminate H
    | skip_ok H
    | match type of H with
      | context [match ?x with _ => _ end] =>
          lazymatch x with context [match _ with _ => _ end] => fail | _ => destruct x end
      end ].
Ltac same_table H := op_cases H; try (injection H; intros; subst); try reflexivity.

Lemma transition_settlement_nonces now id from to d :
  same_nonces d (transitionSettlementRequest now id from to d).
Proof. unfold transitionSettlementRequest. by destruct (_ =? 1). Qed.

Lemma mark_broadcasting_nonces now h raw ids : forall d, same_nonces d (mark_broadcasting now h raw ids d).
Proof.
  unfold same_nonces. induction ids as [|id ids IH]; intros d; [done|]. cbn [mark_broadcasting].
  rewrite IH, transition_settlement_nonces. done.
Qed.

Lemma applyEvent_nonces i now log ev d d' : applyEvent i now log ev d = Ok d' -> same_nonces d d'.
Proof.
  unfold same_nonces. intros H. destruct ev; cbn [applyEvent] in H;
    unfold open_session, apply_settled in H; try (by same_table H).
  skip_ok H. skip_ok H. destruct (insert_or_nothing _ _ _) as [rows ins]. destruct (negb ins).
  - by injection H as <-.
  - injection H as <-. by rewrite transition_settlement_nonces.
Qed.

Definition of_provider (provider : string) (r : NonceRow) : bool := lower_eq (no_provider r) provider.

Definition nonces_ok (ns : list NonceRow) : Prop :=
  (forall p, map no_nonce (select (of_provider p) ns) = seqZ 1 (Z.of_nat (length (select (of_provider p) ns))))
  /\ NoDup (map no_request ns).

Lemma foldr_max_seqZ n : foldr Z.max 0 (seqZ 1 (Z.of_nat n)) = Z.of_nat n.
Proof.
  induction n as [|n IH]; [done|]. replace (Z.of_nat (S n)) with (Z.of_nat n + 1) by lia.
  rewrite seqZ_app by lia. rewrite foldr_app. change (seqZ (1 + Z.of_nat n) 1) with [1 + Z.of_nat n]. cbn.
  assert (forall l a, foldr Z.max a l = Z.max a (foldr Z.max 0 l) \/ (a < 0)) as Hg.
  { intros l a. destruct (Z.lt_ge_cases a 0); [by right|left]. induction l as [|x l IHl]; simpl; lia. }
  destruct (Hg (seqZ 1 (Z.of_nat n)) (Z.max (1 + Z.of_nat n) 0)) as [->|]; lia.
Qed.

Lemma max_where_foldr {R} (p : R -> bool) v (t : list R) : max_where p v t = foldr Z.max 0 (map v (select p t)).
Proof.
  induction t as [|r t IH]; [done|]. unfold max_where, select in *. simpl. destruct (p r); simpl; by rewrite IH.
Qed.

Lemma lower_eq_same q p x : lower_eq q p = true -> lower_eq x p = lower_eq x q.
Proof. unfold lower_eq, EqualFold. intros H%String.eqb_eq. by rewrite H. Qed.

Lemma receipt_nonce_ok p id d n d' :
  nonces_ok (nonces d) -> receipt_nonce p id d = Ok (n, d') -> nonces_ok (nonces d').
Proof.
  intros [Hseq Hnd] Hn. unfold receipt_nonce in Hn. destruct (select _ (nonces d)) as [|row rest] eqn:E.
  2: { by injection Hn as _ <-. }
  skip_ok Hn. step_ok Hn as rows E2. apply insert_row_Ok in E2 as [-> Hf]. injection Hn as _ <-.
  cbn [nonces set_nonces]. split.
  - intros q. unfold select. rewrite List.filter_app. cbn [List.filter].
    destruct (of_provider q (mkNonceRow p _ id)) eqn:Q; [|by rewrite app_nil_r].
    unfold of_provider in Q. cbn in Q.
    rewrite map_app, length_app. cbn [map length no_nonce].
    change (List.filter (of_provider q) (nonces d)) with (select (of_provider q) (nonces d)). rewrite Hseq.
    assert (select (of_provider q) (nonces d) = select (of_provider p) (nonces d)) as ->.
    { unfold select. apply List.filter_ext. intros x. by apply lower_eq_same. }
    rewrite Nat2Z.inj_add, seqZ_app by lia. f_equal. rewrite max_where_foldr.
    change (fun r => lower_eq (no_provider r) p) with (of_provider p).
    rewrite Hseq, foldr_max_seqZ. change (Z.of_nat 1) with 1.
    replace (Z.of_nat (length (select (of_provider p) (nonces d))) + 1)
      with (1 + Z.of_nat (length (select (of_provider p) (nonces d)))) by lia. done.
  - apply NoDup_snoc; [done|]. intros r Hr. specialize (Hf r Hr). apply orb_false_iff in Hf as [_ Hf].
    by apply String.eqb_neq in Hf.
Qed.

Section NonceSteps.
Context `{Ethereum}.

Lemma step_nonces d d' : nonces_ok (nonces d) -> step d d' -> nonces_ok (nonces d').
Proof.
  intros Hn Hs. destruct Hs as
    [[id w E|now id a n E|id m k mo E|id b v ri ro rc E|now r1 r2 n a l x E|now u a E|now r1 r2 c m t E|now m E|th sa now r1 r2 r3 id o sg l x E|now id a s E|now id s st E|now id nx E|now e E|now st E
    |now m c E|now m c ch addr E|now ir E|now c E|now id st E|now id dom r m s E|now sr E
    |T th mb prep now limit t E]|i now log ev Hc E];
    [..| |apply PrepareReceipt_inv in E as (pr & rq & offer & d1 & _ & _ & _ & _ & _ & _ & _ & _ & _ & _ & _ & -> & (p & En) & _);
      by eapply receipt_nonce_ok in En| | |];
    enough (nonces d' = nonces d) as -> by done.
  - unfold CreateAccount in E. by same_table E.
  - unfold CreateMachine in E. by same_table E.
  - unfold CreateBackend in E. by same_table E.
  - unfold CreateOffer in E. by same_table E.
  - by apply (view_CreateDeviceAuthorization nonces) in E.
  - by apply (view_ApproveDeviceAuthorization nonces) in E.
  - by apply (view_ExchangeDeviceAuthorization nonces) in E.
  - by subst d'.
  - by apply (view_VerifyWalletChallenge nonces) in E.
  - unfold CreateSession in E. by same_table E.
  - unfold CreateRequest in E. by same_table E.
  - unfold TransitionRequest in E. by same_table E.
  - unfold ClaimOutbox in E. by same_table E.
  - by apply (view_UpsertRoutingState nonces) in E.
  - by apply (view_UpdateProviderCapacity nonces) in E.
  - by apply (view_ReconcileProviderCapacity nonces) in E.
  - apply ReserveInference_inv in E as (se & row & w & oh & mh & ch & _ & _ & _ & _ & _ & _ & _ & _ & _ & E).
    unfold reserve_writes in E. step_ok E as d1 E1. apply (view_add_capacity nonces) in E1; [|done].
    rewrite <- E1. by same_table E.
  - unfold CompleteInference in E. do 3 (skip_ok E). destruct (negb _) in E; [by same_table E|].
    do 4 (skip_ok E). step_ok E as rows E1. step_ok E as d1 E2. apply (view_add_capacity nonces) in E2; [|done].
    injection E as <-. exact E2.
  - unfold AbortInference in E. destruct (_ && _) in E; [done|]. do 3 (skip_ok E).
    destruct (String.eqb _ _) in E; [by injection E as <-|]. skip_ok E. destruct (negb _) in E; [done|].
    step_ok E as d1 E1. injection E as <-. destruct (_ && _) in E1; [by apply (view_add_capacity nonces) in E1|].
    by injection E1 as <-.
  - unfold Enqueue in E. destruct (insert_or_nothing _ _ _) as [rows ins]. injection E as <-.
    destruct ins; [|done]. by rewrite transition_settlement_nonces.
  - unfold settle_transaction in E. destruct (bool_decide _); [done|]. step_ok E as tx E1. step_ok E as raw E2.
    injection E as _ <-. apply mark_broadcasting_nonces.
  - by apply applyEvent_nonces in E.
Qed.

(** The nonces assigned to a provider's receipts are 1, 2, 3, ... in the
    order of assignment, whatever the spelling of its address, and no request
    has two: the contract never sees a gap or a reused nonce from the broker. *)
Theorem nonces_sequential d provider :
  rtc step empty_db d ->
  map no_nonce (select (of_provider provider) (nonces d))
    = seqZ 1 (Z.of_nat (length (select (of_provider provider) (nonces d))))
  /\ NoDup (map no_request (nonces d)).
Proof.
  intros Hr. enough (nonces_ok (nonces d)) as [H1 H2] by (split; [apply H1|done]).
  remember empty_db as d0 eqn:E0. assert (nonces_ok (nonces d0)) as H0.
  { subst d0. split; [done|]. apply NoDup_nil_2. }
  clear E0. induction Hr; eauto using step_nonces.
Qed.
End NonceSteps.

Lemma nonces_sequential_witness : NoDup (map no_request (nonces db_prepared)).
Proof. destruct (nonces_sequential db_prepared provider_wallet sample_reachable) as [_ H]. exact H. Defined.

(** ** Reserving and releasing *)
Lemma NoDup_affected {R K} (key : R -> K) (p : R -> bool) (t : list R) row :
  NoDup (map key t) -> row ∈ t -> p row = true -> (forall r, p r = true -> key r = key row) ->
  affected p t = 1.
Proof.
  intros Hn Hr Hp Hk. unfold affected, select. induction t as [|x t IH]; [by apply elem_of_nil in Hr|].
  apply NoDup_cons in Hn as [Hx Hn].
  assert (Hout : forall y, y ∈ t -> key y <> key x).
  { intros y Hy Ey. apply Hx. rewrite <- Ey, list_elem_of_In. apply in_map. by apply list_elem_of_In. }
  apply elem_of_cons in Hr as [->|Hr]; cbn [List.filter].
  - rewrite Hp. cbn [length]. assert (List.filter p t = []) as ->; [|done].
    destruct (List.filter p t) as [|y rest] eqn:E; [done|]. exfalso.
    assert (In y (y :: rest)) as Hy by (by left). rewrite <- E in Hy. apply filter_In in Hy as [Hy Py].
    apply (Hout y); [by apply list_elem_of_In|by apply Hk].
  - destruct (p x) eqn:Px; [|by apply IH]. exfalso. apply (Hout row Hr). symmetry. by apply Hk.
Qed.

(** What a successful [ReserveInference] leaves behind, table by table. *)
Lemma reserve_writes_tables now ir w oh mh ch d d' :
  0 <= w -> reserve_writes now ir w oh mh ch d = Ok d' ->
  sessions d' = sessions d
  /\ routing d' = update (routing_key (ir_MachineID ir) (ir_OfferID ir))
                    (fun r => set_rt_updated_at now (set_rt_capacity (rt_capacity r + -1) r)) (routing d)
  /\ reservations d' = reservations d ++ [mkReservationRow (ir_RequestID ir) (ir_SessionID ir) w None]
  /\ requests d' = requests d ++ [mkRequestRow (ir_RequestID ir) (ir_SessionID ir) Offered
       (Some (ir_MachineID ir)) (Some (ir_OfferID ir)) (Some (ir_PriceVersion ir)) (Some w)
       (Some (ir_MaximumInputTokens ir)) (Some (ir_MaximumOutputTokens ir))
       (Some (ir_MaximumComputeMilliseconds ir)) (Some oh) (Some mh) (Some ch) now]
  /\ (forall r, r ∈ requests d -> rq_id r <> ir_RequestID ir)
  /\ (forall r, r ∈ reservations d -> rv_request r <> ir_RequestID ir)
  /\ map (fun e => (ob_aggregate_id e, ob_from e, ob_to e)) (outbox d')
     = map (fun e => (ob_aggregate_id e, ob_from e, ob_to e)) (outbox d)
       ++ [(ir_RequestID ir, "created", "reserved"); (ir_RequestID ir, "reserved", "offered")].
Proof.
  intros Hw H. unfold reserve_writes in H. step_ok H as d1 E. unfold add_capacity in E. skip_ok E.
  injection E as <-. do 4 (skip_ok H). rewrite numeric_decimal in H by done.
  apply bind_Ok in H as (spend & [= <-] & H).
  step_ok H as rows E1. step_ok H as holds E2. injection H as <-.
  apply insert_row_Ok in E1 as [-> F1]. apply insert_row_Ok in E2 as [-> F2].
  cbn [reservations requests set_requests set_routing] in F1, F2.
  assert (forall t f row, (forall r : RequestRow, r ∈ t -> String.eqb (rq_id r) (ir_RequestID ir) = false) ->
            rq_id row = ir_RequestID ir -> update (fun r => String.eqb (rq_id r) (ir_RequestID ir)) f (t ++ [row])
            = t ++ [f row]) as Hu.
  { intros t f row Ht Er. unfold update. rewrite map_app. cbn. rewrite Er, String.eqb_refl. f_equal.
    rewrite <- (map_id t) at 2. apply map_ext_in. intros r Hr. apply list_elem_of_In in Hr. by rewrite Ht. }
  split_and!; try done.
  - cbn [requests emit set_outbox set_request_state set_requests set_reservations set_routing].
    rewrite Hu by done. by rewrite Hu.
  - intros r Hr. by apply String.eqb_neq, F1.
  - intros r Hr. by apply String.eqb_neq, F2.
  - cbn. rewrite !map_app. by rewrite <- app_assoc.
Qed.

Lemma update_id {R} (p : R -> bool) f (t : list R) : (forall r, r ∈ t -> p r = false) -> update p f t = t.
Proof.
  intros H. unfold update. rewrite <- (map_id t) at 2. apply map_ext_in. intros r Hr.
  apply list_elem_of_In in Hr. by rewrite H.
Qed.

Section Release.
Context `{Ethereum}.

Definition reserved_row (now : Z) (ir : InferenceReservation) (w : Z) (oh mh ch : string) : RequestRow :=
  mkRequestRow (ir_RequestID ir) (ir_SessionID ir) Offered (Some (ir_MachineID ir)) (Some (ir_OfferID ir))
    (Some (ir_PriceVersion ir)) (Some w) (Some (ir_MaximumInputTokens ir)) (Some (ir_MaximumOutputTokens ir))
    (Some (ir_MaximumComputeMilliseconds ir)) (Some oh) (Some mh) (Some ch) now.

(** A successful reservation, seen from outside. *)
Lemma ReserveInference_spec now ir d d' :
  ReserveInference now ir d = Ok d' ->
  exists w oh mh ch, 0 < w <= ir_MaximumSpend ir
    /\ find_request (ir_RequestID ir) d' = Ok (reserved_row now ir w oh mh ch)
    /\ requests d' = requests d ++ [reserved_row now ir w oh mh ch]
    /\ reservations d' = reservations d ++ [mkReservationRow (ir_RequestID ir) (ir_SessionID ir) w None]
    /\ (forall r, r ∈ requests d -> rq_id r <> ir_RequestID ir)
    /\ (forall r, r ∈ reservations d -> rv_request r <> ir_RequestID ir)
    /\ routing d' = update (routing_key (ir_MachineID ir) (ir_OfferID ir))
         (fun r => set_rt_updated_at now (set_rt_capacity (rt_capacity r + -1) r)) (routing d).
Proof.
  intros Hr. apply ReserveInference_inv in Hr as
    (se & row & w & oh & mh & ch & _ & _ & _ & _ & _ & _ & _ & Hw & _ & Hd).
  apply reserve_writes_tables in Hd as (_ & E1 & E2 & E3 & F1 & F2 & _); [|lia].
  exists w, oh, mh, ch. split_and!; try done; try lia. unfold find_request, query_row, select. rewrite E3.
  rewrite List.filter_app. replace (List.filter _ (requests d)) with (@nil RequestRow).
  - cbn. by rewrite String.eqb_refl.
  - symmetry. destruct (List.filter _ _) as [|y rest] eqn:E; [done|].
    assert (In y (y :: rest)) as Hy by (by left). rewrite <- E in Hy. apply filter_In in Hy as [Hy Py].
    apply String.eqb_eq in Py. apply list_elem_of_In in Hy. by apply F1 in Hy.
Qed.

(** Cancelling right after a reservation undoes it: the balance locked in
    every session and the capacity of every route are what they were, the hold
    is released and the request is cancelled. *)
Theorem reserve_then_cancel now now' ir d d1 :
  db_ok d -> (forall r, r ∈ routing d -> 0 <= rt_capacity r < 2 ^ 31) ->
  ReserveInference now ir d = Ok d1 ->
  exists d2, AbortInference now' (ir_RequestID ir) "cancelled" d1 = Ok d2
    /\ (forall session, locked_amount session d2 = locked_amount session d)
    /\ map (fun r => (rt_machine r, rt_offer r, rt_capacity r)) (routing d2)
       = map (fun r => (rt_machine r, rt_offer r, rt_capacity r)) (routing d)
    /\ (exists rq, find_request (ir_RequestID ir) d2 = Ok rq /\ rq_state rq = Cancelled).
Proof.
  intros Hok Hcap Hr. apply ReserveInference_spec in Hr as (w & oh & mh & ch & Hw & Ef & E1 & E2 & F1 & F2 & E3).
  set (rv := mkReservationRow _ _ w None) in *. set (rq := reserved_row now ir w oh mh ch) in *.
  assert (affected (live_hold (ir_RequestID ir)) (reservations d1) = 1) as Ha.
  { unfold affected, select. rewrite E2, List.filter_app. replace (List.filter _ (reservations d)) with (@nil ReservationRow).
    - unfold rv, live_hold. cbn. by rewrite String.eqb_refl.
    - symmetry. destruct (List.filter _ _) as [|y rest] eqn:E; [done|].
      assert (In y (y :: rest)) as Hy by (by left). rewrite <- E in Hy. apply filter_In in Hy as [Hy Py].
      unfold live_hold in Py. apply andb_true_iff in Py as [Py%String.eqb_eq _].
      apply list_elem_of_In in Hy. by apply F2 in Hy. }
  unfold AbortInference. cbn [String.eqb negb andb]. rewrite Ef. cbn [mbind result_bind scan of_option].
  cbn. rewrite Ha. cbn. unfold add_capacity. cbn [routing set_reservations set_request_state set_requests].
  set (key := routing_key (ir_MachineID ir) (ir_OfferID ir)) in *.
  assert (forallb (fun r => negb (key r) || ((0 <=? rt_capacity r + 1) && (rt_capacity r + 1 <? 2 ^ 31)))
            (routing d1) = true) as Hchk.
  { apply forallb_forall. intros r Hin. rewrite E3 in Hin. apply list_elem_of_In, elem_of_update in Hin as (o & Ho & ->).
    specialize (Hcap o Ho). destruct (key o) eqn:K; [|by rewrite K]. cbn [rt_capacity set_rt_updated_at set_rt_capacity].
    apply orb_true_iff. right. lia. }
  unfold check. rewrite Hchk. cbn. eexists. split; [done|]. split_and!.
  - intros session. unfold locked_amount. cbn [reservations emit set_outbox set_routing set_reservations].
    rewrite E2. unfold update. rewrite map_app, sum_where_app. cbn.
    unfold rv, live_hold, live_in. cbn. rewrite String.eqb_refl. cbn. rewrite andb_false_r.
    fold (live_in session). rewrite Z.add_0_r. f_equal.
    apply (update_id (live_hold (ir_RequestID ir)) (set_rv_released_at (Some now'))). intros r Hin.
    unfold live_hold. apply andb_false_iff. left. apply String.eqb_neq. by apply F2.
  - cbn [routing emit set_outbox set_routing]. rewrite E3. unfold update. rewrite !map_map. apply map_ext. intros r.
    destruct (key r) eqn:K.
    + assert (key (set_rt_updated_at now (set_rt_capacity (rt_capacity r + -1) r)) = true) as -> by done.
      cbn. f_equal. lia.
    + by rewrite K.
  - exists (set_rq_updated_at now' (set_rq_state Cancelled rq)). split; [|done].
    unfold find_request in *. cbn [requests emit set_outbox set_routing set_reservations set_request_state set_requests].
    rewrite query_row_update by done. by rewrite Ef.
Qed.

Lemma offered_abort_refused now now' ir d d1 :
  ReserveInference now ir d = Ok d1 ->
  AbortInference now' (ir_RequestID ir) "failed" d1 = Err ErrInvalidTransition
  /\ 1 <= executing (ir_MachineID ir) (ir_OfferID ir) d1.
Proof.
  intros Hr. apply ReserveInference_spec in Hr as (w & oh & mh & ch & Hw & Ef & E1 & E2 & F1 & F2 & E3). split.
  - unfold AbortInference. cbn [String.eqb negb andb]. rewrite Ef. done.
  - unfold executing, affected, select. rewrite E2, List.filter_app, length_app. cbn.
    assert (exists_row (fun q => String.eqb (rq_id q) (ir_RequestID ir)
        && bool_decide (rq_machine q = Some (ir_MachineID ir))
        && bool_decide (rq_offer q = Some (ir_OfferID ir)) && executing_state (rq_state q)) (requests d1) = true) as ->.
    { apply exists_row_spec. exists (reserved_row now ir w oh mh ch). split; [rewrite E1; set_solver|].
      cbn. by rewrite String.eqb_refl, !bool_decide_eq_true_2. }
    cbn. lia.
Qed.

(** A request that was just reserved cannot be failed: the state table has
    no edge from [offered] to [failed], so the abort that the broker issues
    when the provider cannot be reached is refused, the hold stays live and
    the machine keeps counting as executing. *)
Theorem offered_cannot_fail now now' ir d d1 :
  ReserveInference now ir d = Ok d1 ->
  AbortInference now' (ir_RequestID ir) "failed" d1 = Err ErrInvalidTransition
  /\ 1 <= executing (ir_MachineID ir) (ir_OfferID ir) d1.
Proof. apply offered_abort_refused. Qed.
End Release.

Lemma reserve_then_cancel_witness :
  exists d2, AbortInference 21 request_id "cancelled" db_reserved = Ok d2 /\ locked_amount session_id d2 = 0.
Proof.
  destruct (reserve_then_cancel 20 21 sample_reservation db_ready db_reserved) as (d2 & H1 & H2 & _).
  - apply (reachable_ok _ sample_ready).
  - intros r Hr. vm_compute in Hr. apply list_elem_of_singleton in Hr as ->. vm_compute. split; [discriminate|reflexivity].
  - vm_compute. reflexivity.
  - exists d2. split; [exact H1|]. rewrite H2. vm_compute. reflexivity.
Defined.

Lemma offered_cannot_fail_witness :
  AbortInference 21 request_id "failed" db_reserved = Err ErrInvalidTransition
  /\ 1 <= executing machine_id "o1" db_reserved.
Proof. apply (offered_cannot_fail 20 21 sample_reservation db_ready). vm_compute. reflexivity. Defined.
