(* ===== verification/Outbox.v ===== *)
(** * Completions, the outbox and the request history

    A completion is accepted once and only within the reserved limits; the
    outbox records every change of a request's state, in order, and hands each
    event to one publisher. *)

From S2P Require Import Prelude GoStrings Price Router Receipt Messages Db Hex Auth Store Settlement Indexer Sample Ledger StoreSpec.
From stdpp Require Import relations.
Open Scope string_scope.
Open Scope list_scope.
Open Scope Z_scope.

(** ** Completion *)
Lemma affected_0 {R} (p : R -> bool) (t : list R) : (forall r, r ∈ t -> p r = false) -> affected p t = 0.
Proof.
  intros H. unfold affected, select. replace (List.filter p t) with (@nil R); [done|].
  induction t as [|r t IH]; [done|]. simpl. rewrite H by (apply elem_of_cons; auto).
  apply IH. intros. apply H, elem_of_cons; auto.
Qed.

(** Once a completion of a request is recorded, none is recorded again. *)
Lemma completed_once now c d d' pr :
  pr ∈ proposals d -> pr_request pr = cp_RequestID c -> CompleteInference now c d = Ok d' -> d' = d.
Proof.
  intros Hpr Er H. unfold CompleteInference in H. do 3 (skip_ok H).
  destruct (negb _) in H; [destruct (exists_row _ (proposals d)) in H; [by injection H|by destruct (exists_row _ _) in H]|].
  do 4 (skip_ok H). step_ok H as rows E. apply insert_row_Ok in E as [_ E]. exfalso.
  specialize (E pr Hpr). cbn in E. by rewrite Er, String.eqb_refl in E.
Qed.

Definition proposal_row (c : Completion) : ProposalRow :=
  mkProposalRow (cp_RequestID c) (cp_SessionID c) (cp_MachineID c) (cp_OfferID c) (cp_Model c)
    (cp_PriceVersion c) (cp_InputTokens c) (cp_OutputTokens c) (cp_ComputeMilliseconds c)
    (cp_InputHash c) (cp_OutputHash c) (cp_CompletedAt c).

(** C15. A completion that succeeds either finds one of its request recorded,
    and changes nothing, or concerns a streaming request of its session, with usage
    within all three reserved limits; then it is recorded with its contents and
    the request is completed.  After that, the same completion succeeds and
    changes nothing, at any time; and one with other contents, for the same request,
    changes nothing either, whether it succeeds or fails, in that database or
    any other that still has its completions. *)
Theorem CompleteInference_once now c d d' :
  CompleteInference now c d = Ok d' ->
  ((d' = d /\ exists pr, pr ∈ proposals d /\ pr_request pr = cp_RequestID c)
   \/ (exists rq mi mo mc, rq ∈ requests d /\ rq_id rq = cp_RequestID c /\ rq_session rq = cp_SessionID c
        /\ rq_state rq = Streaming
        /\ rq_maximum_input rq = Some mi /\ cp_InputTokens c <= mi
        /\ rq_maximum_output rq = Some mo /\ cp_OutputTokens c <= mo
        /\ rq_maximum_compute rq = Some mc /\ cp_ComputeMilliseconds c <= mc
        /\ proposals d' = proposals d ++ [proposal_row c]
        /\ set_rq_updated_at now (set_rq_state Completed rq) ∈ requests d'))
  /\ (forall now', CompleteInference now' c d' = Ok d')
  /\ (forall now' c2 d2 d3, cp_RequestID c2 = cp_RequestID c -> proposals d' ⊆ proposals d2 ->
        CompleteInference now' c2 d2 = Ok d3 -> d3 = d2).
Proof.
  intros H. pose proof H as H0. unfold CompleteInference in H. step_ok H as u1 B1. step_ok H as u2 B2. step_ok H as u3 B3.
  destruct (negb _) eqn:G in H.
  - destruct (exists_row _ (proposals d)) eqn:X in H; [|by destruct (exists_row _ _) in H]. injection H as <-.
    pose proof X as (pr & Hpr & Ep%String.eqb_eq)%exists_row_spec. split; [left; split; [done|by exists pr]|]. split.
    + intros now'. unfold CompleteInference. rewrite B1, B2, B3. cbn [mbind result_bind]. by rewrite G, X.
    + intros now' c2 d2 d3 Ec Hs. apply (completed_once _ _ _ _ pr); [by apply Hs|congruence].
  - do 4 (skip_ok H). step_ok H as rows E. step_ok H as d2 E2. injection H as <-.
    apply insert_row_Ok in E as [-> _].
    pose proof (view_add_capacity requests ltac:(done) _ _ _ _ _ _ E2) as V1.
    pose proof (view_add_capacity proposals ltac:(done) _ _ _ _ _ _ E2) as V2. cbn in V1, V2. split; [|split].
    + right. apply negb_false_iff, Z.eqb_eq in G. unfold affected in G.
      destruct (select _ (requests d)) as [|rq rest] eqn:S; [done|].
      assert (rq ∈ select (completable c) (requests d)) as Hrq by (rewrite S; apply elem_of_cons; auto).
      apply select_spec in Hrq as [Hrq P]. pose proof P as P'. unfold completable, within, state_eqb in P.
      destruct (rq_maximum_input rq) as [mi|] eqn:E1; [|by rewrite !andb_false_r in P].
      destruct (rq_maximum_output rq) as [mo|] eqn:E3; [|by rewrite !andb_false_r in P].
      destruct (rq_maximum_compute rq) as [mc|] eqn:E4; [|by rewrite !andb_false_r in P].
      bools. apply String.eqb_eq in H. apply String.eqb_eq in H5.
      exists rq, mi, mo, mc. cbn [proposals requests emit set_outbox]. split_and!; try done.
      rewrite V1. apply elem_of_update. exists rq. by rewrite P'.
    + intros now'. unfold CompleteInference. rewrite B1, B2, B3. cbn [mbind result_bind].
      cbn [requests proposals emit set_outbox]. rewrite V1, affected_0.
      * cbn [Z.eqb negb]. rewrite V2. rewrite (proj2 (exists_row_spec _ _)); [done|].
        eexists. split; [apply elem_of_app; right; by apply list_elem_of_singleton|]. apply String.eqb_refl.
      * intros r (o & Ho & ->)%elem_of_update. destruct (completable c o) eqn:P; [|done].
        unfold completable. cbn. by rewrite andb_false_r.
    + intros now' c2 d3 d4 Ec Hs. apply (completed_once _ _ _ _ (proposal_row c)); [|done]. apply Hs.
      cbn [proposals emit set_outbox]. rewrite V2. apply elem_of_app. right. by left.
Qed.

Lemma CompleteInference_once_witness :
  CompleteInference 50 sample_completion db_completed = Ok db_completed.
Proof. apply (CompleteInference_once 23 sample_completion db_streaming). vm_compute. reflexivity. Defined.

(** ** Publishing *)
Lemma first_by_None {R} (key : R -> Z) rows : first_by key rows = None -> rows = [].
Proof. destruct rows; [done|]. simpl. destruct (first_by key rows); [|done]. by destruct (_ <? _). Qed.

Lemma first_by_spec {R} (key : R -> Z) rows row :
  first_by key rows = Some row -> row ∈ rows /\ forall r, r ∈ rows -> key row <= key r.
Proof.
  revert row. induction rows as [|x rows IH]; intros row H; [done|]. simpl in H.
  destruct (first_by key rows) as [o|] eqn:E.
  - destruct (IH o eq_refl) as [Ho Hmin]. destruct (Z.ltb_spec (key o) (key x)); injection H as <-.
    + split; [apply elem_of_cons; auto|]. intros r Hr. apply elem_of_cons in Hr as [->|Hr]; [lia|by apply Hmin].
    + split; [apply elem_of_cons; auto|]. intros r Hr. apply elem_of_cons in Hr as [->|Hr]; [lia|].
      specialize (Hmin r Hr). lia.
  - injection H as <-. apply first_by_None in E as ->. split; [apply elem_of_cons; auto|].
    intros r Hr. by apply list_elem_of_singleton in Hr as ->.
Qed.

Definition unpublished (d : Db) : list OutboxRow := select (fun e => is_null (ob_published_at e)) (outbox d).

(** A claim takes the oldest unpublished event, and takes exactly that one
    out of the unpublished events: no event is claimed twice, none is skipped,
    and [ErrNoOutboxEvents] means that none is left. *)
Theorem ClaimOutbox_exactly_once now d :
  match ClaimOutbox now d with
  | Ok (e, d') =>
      e ∈ unpublished d /\ (forall o, o ∈ unpublished d -> ob_id e <= ob_id o)
      /\ unpublished d' = List.filter (fun o => negb (ob_id o =? ob_id e)) (unpublished d)
  | Err err => err = ErrNoOutboxEvents /\ unpublished d = []
  end.
Proof.
  unfold ClaimOutbox. fold (unpublished d). destruct (first_by ob_id (unpublished d)) as [e|] eqn:E; cbn.
  - destruct (first_by_spec _ _ _ E) as [He Hmin]. split_and!; [done|done|].
    unfold unpublished. cbn [outbox set_outbox]. unfold select, update.
    induction (outbox d) as [|o rows IH]; [done|]. cbn [map List.filter].
    destruct (ob_id o =? ob_id e) eqn:P.
    + cbn. rewrite IH. destruct (is_null (ob_published_at o)); [|done]. cbn. by rewrite P.
    + destruct (is_null (ob_published_at o)); [|done]. cbn. rewrite P. cbn. by f_equal.
  - apply first_by_None in E. done.
Qed.

(** ** The history of a request *)
Definition event_of (e : OutboxRow) : string * (string * string) := (ob_aggregate_id e, (ob_from e, ob_to e)).
Definition events (d : Db) : list (string * (string * string)) := map event_of (outbox d).
Definition history (id : string) (evs : list (string * (string * string))) : list (string * string) :=
  map snd (List.filter (fun e => String.eqb (fst e) id) evs).

(** A path of allowed transitions, given by its edges. *)
Inductive path : request_state -> list (string * string) -> request_state -> Prop :=
| path_nil s : path s [] s
| path_snoc a es b c : path a es b -> transitions b c = true ->
    path a (es ++ [(state_name b, state_name c)]) c.

Record history_ok (rqs : list RequestRow) (evs : list (string * (string * string))) : Prop := {
  hk_path : forall rq, rq ∈ rqs -> exists s0, path s0 (history (rq_id rq) evs) (rq_state rq);
  hk_known : forall e, e ∈ evs -> exists rq, rq ∈ rqs /\ rq_id rq = fst e;
}.

Lemma history_app id e1 e2 : history id (e1 ++ e2) = history id e1 ++ history id e2.
Proof. unfold history. by rewrite List.filter_app, map_app. Qed.

Lemma history_one id i f t : history id [(i, (f, t))] = if String.eqb i id then [(f, t)] else [].
Proof. unfold history. simpl. by destruct (String.eqb i id). Qed.

(** One request moves along one edge and the event is appended. *)
Lemma history_step rqs evs rqs' id a b :
  NoDup (map rq_id rqs) -> history_ok rqs evs -> transitions a b = true ->
  (exists rq, rq ∈ rqs /\ rq_id rq = id /\ rq_state rq = a) ->
  (forall r', r' ∈ rqs' -> exists r, r ∈ rqs /\ rq_id r' = rq_id r
     /\ rq_state r' = if String.eqb (rq_id r) id then b else rq_state r) ->
  (forall r, r ∈ rqs -> exists r', r' ∈ rqs' /\ rq_id r' = rq_id r) ->
  history_ok rqs' (evs ++ [(id, (state_name a, state_name b))]).
Proof.
  intros Hn [Hp Hk] Ht (rq0 & Hrq0 & Eid & Est) Hback Hfwd. split.
  - intros r' Hr'. destruct (Hback r' Hr') as (r & Hr & Ei & Es). destruct (Hp r Hr) as (s0 & P).
    exists s0. rewrite Ei, Es, history_app, history_one. rewrite (String.eqb_sym id).
    destruct (String.eqb_spec (rq_id r) id) as [E|E]; [|by rewrite app_nil_r].
    assert (r = rq0) as -> by (apply (unique_key rq_id rqs); congruence). rewrite Est in P. by constructor.
  - intros e He. apply elem_of_app in He as [He|He].
    + destruct (Hk e He) as (r & Hr & Er). destruct (Hfwd r Hr) as (r' & Hr' & Er'). exists r'. split; congruence.
    + apply list_elem_of_singleton in He as ->. destruct (Hfwd rq0 Hrq0) as (r' & Hr' & Er'). exists r'. split; [done|].
      simpl. congruence.
Qed.

Lemma history_new rqs evs rq :
  history_ok rqs evs -> (forall r, r ∈ rqs -> rq_id r <> rq_id rq) -> history_ok (rqs ++ [rq]) evs.
Proof.
  intros [Hp Hk] Hf. split.
  - intros r Hr. apply elem_of_app in Hr as [Hr|Hr]; [by apply Hp|]. apply list_elem_of_singleton in Hr as ->.
    exists (rq_state rq). replace (history (rq_id rq) evs) with (@nil (string * string)); [constructor|].
    unfold history. destruct (List.filter _ evs) as [|e rest] eqn:E; [done|]. exfalso.
    assert (In e (e :: rest)) as He by (by left). rewrite <- E in He. apply filter_In in He as [He Pe%String.eqb_eq].
    apply list_elem_of_In in He. destruct (Hk e He) as (r & Hr & Er). apply (Hf r Hr). congruence.
  - intros e He. destruct (Hk e He) as (r & Hr & Er). exists r. split; [set_solver|done].
Qed.

Definition db_history_ok (d : Db) : Prop := history_ok (requests d) (events d).

Lemma events_emit id f t d : events (emit id f t d) = events d ++ [(id, (f, t))].
Proof. unfold events. cbn. by rewrite map_app. Qed.

(** The state of one request is set and the event emitted. *)
Lemma history_emit now id a b d :
  NoDup (map rq_id (requests d)) -> db_history_ok d -> transitions a b = true ->
  (exists rq, rq ∈ requests d /\ rq_id rq = id /\ rq_state rq = a) ->
  db_history_ok (emit id (state_name a) (state_name b) (set_request_state now id b d)).
Proof.
  intros Hn H Ht Hex. unfold db_history_ok. rewrite events_emit.
  apply (history_step (requests d) _ _ id a b Hn H Ht Hex).
  - intros r' (r & Hr & ->)%elem_of_update. exists r. split; [done|]. by destruct (String.eqb (rq_id r) id).
  - intros r Hr. eexists. split; [apply elem_of_update; exists r; split; [done|reflexivity]|].
    by destruct (String.eqb (rq_id r) id).
Qed.

Lemma db_history_view d d' : requests d' = requests d -> outbox d' = outbox d -> db_history_ok d -> db_history_ok d'.
Proof. unfold db_history_ok, events. by intros -> ->. Qed.

Lemma transition_settlement_history now id a b d :
  db_ok d -> db_history_ok d -> transitions a b = true ->
  db_history_ok (transitionSettlementRequest now id a b d).
Proof.
  intros Hok H Ht. unfold transitionSettlementRequest. unfold db_history_ok.
  destruct (affected _ _ =? 1) eqn:E.
  - rewrite events_emit. apply Z.eqb_eq in E. unfold affected in E.
    destruct (select (request_in id a) (requests d)) as [|rq rest] eqn:S; [done|].
    assert (rq ∈ select (request_in id a) (requests d)) as Hrq by (rewrite S; apply elem_of_cons; auto).
    apply select_spec in Hrq as [Hrq P]. pose proof P as P'. unfold request_in, state_eqb in P'.
    apply andb_true_iff in P' as [P1%String.eqb_eq P2%bool_decide_eq_true].
    apply (history_step (requests d) _ _ id a b (lk_requests _ _ _ Hok) H Ht).
    + by exists rq.
    + intros r' (r & Hr & ->)%elem_of_update. exists r. split; [done|].
      destruct (String.eqb_spec (rq_id r) id) as [Ei|Ei].
      * assert (r = rq) as -> by (apply (unique_request (limit := funds) d); [done|done|done|congruence]). by rewrite P.
      * unfold request_in. by rewrite (proj2 (String.eqb_neq _ _) Ei).
    + intros r Hr. eexists. split; [apply elem_of_update; exists r; split; [done|reflexivity]|].
      by destruct (request_in id a r).
  - cbn [requests set_requests]. rewrite update_id; [exact H|]. intros r Hr.
    destruct (request_in id a r) eqn:P; [|done]. exfalso.
    rewrite (NoDup_affected rq_id _ _ r) in E; [done|apply Hok|done|done|].
    intros x Px. unfold request_in in P, Px. apply andb_true_iff in P as [P%String.eqb_eq _].
    apply andb_true_iff in Px as [Px%String.eqb_eq _]. congruence.
Qed.

Lemma mark_broadcasting_history now h raw ids : forall d, db_ok d -> db_history_ok d ->
  db_history_ok (mark_broadcasting now h raw ids d).
Proof.
  induction ids as [|id ids IH]; intros d Hok H; [done|]. cbn [mark_broadcasting].
  apply IH; [by apply transition_settlement_ok|by apply transition_settlement_history].
Qed.

Lemma reserve_history now ir w oh mh ch d d' :
  db_ok d -> db_history_ok d -> 0 <= w -> reserve_writes now ir w oh mh ch d = Ok d' -> db_history_ok d'.
Proof.
  intros Hok H Hw Hr. apply reserve_writes_tables in Hr as (_ & _ & _ & E & Hf & _ & Eo); [|done].
  set (row s := mkRequestRow (ir_RequestID ir) (ir_SessionID ir) s (Some (ir_MachineID ir))
    (Some (ir_OfferID ir)) (Some (ir_PriceVersion ir)) (Some w) (Some (ir_MaximumInputTokens ir))
    (Some (ir_MaximumOutputTokens ir)) (Some (ir_MaximumComputeMilliseconds ir)) (Some oh) (Some mh) (Some ch) now).
  assert (forall a b evs, transitions a b = true -> history_ok (requests d ++ [row a]) evs ->
    history_ok (requests d ++ [row b]) (evs ++ [(ir_RequestID ir, (state_name a, state_name b))])) as Hstep.
  { intros a b evs Ht Hh. apply (history_step (requests d ++ [row a]) evs _ (ir_RequestID ir) a b).
    - apply NoDup_snoc; [apply Hok|done].
    - done.
    - done.
    - exists (row a). split; [set_solver|done].
    - intros r' Hr'. apply elem_of_app in Hr' as [Hr'|Hr'].
      + exists r'. split; [set_solver|]. apply Hf in Hr'. by rewrite (proj2 (String.eqb_neq _ _) Hr').
      + apply list_elem_of_singleton in Hr' as ->. exists (row a). split; [set_solver|]. cbn.
        by rewrite String.eqb_refl.
    - intros r Hr. apply elem_of_app in Hr as [Hr|Hr]; [exists r; split; [set_solver|done]|].
      apply list_elem_of_singleton in Hr as ->. exists (row b). split; [set_solver|done]. }
  unfold db_history_ok. rewrite E.
  assert (events d' = (events d ++ [(ir_RequestID ir, ("created", "reserved"))])
                      ++ [(ir_RequestID ir, ("reserved", "offered"))]) as ->.
  { unfold events. rewrite <- app_assoc.
    apply (f_equal (map (fun x : string * string * string => (x.1.1, (x.1.2, x.2))))) in Eo.
    rewrite map_app, !map_map in Eo. exact Eo. }
  apply (Hstep Reserved Offered); [done|]. apply (Hstep Created Reserved); [done|].
  apply history_new; [done|]. intros r Hr. by apply Hf.
Qed.

Lemma complete_history now c d d' :
  db_ok d -> db_history_ok d -> CompleteInference now c d = Ok d' -> db_history_ok d'.
Proof.
  intros Hok H Hc. unfold CompleteInference in Hc. do 3 (skip_ok Hc). destruct (negb _) eqn:G in Hc.
  { destruct (exists_row _ (proposals d)) in Hc; [by injection Hc as <-|]. by destruct (exists_row _ _) in Hc. }
  do 4 (skip_ok Hc). step_ok Hc as rows E. step_ok Hc as d2 E2. injection Hc as <-.
  pose proof (view_add_capacity requests ltac:(done) _ _ _ _ _ _ E2) as V1.
  pose proof (view_add_capacity outbox ltac:(done) _ _ _ _ _ _ E2) as V2. cbn in V1, V2.
  apply negb_false_iff, Z.eqb_eq in G. unfold affected in G.
  destruct (select _ (requests d)) as [|rq rest] eqn:S; [done|].
  assert (rq ∈ select (completable c) (requests d)) as Hrq by (rewrite S; apply elem_of_cons; auto).
  apply select_spec in Hrq as [Hrq P].
  assert (forall r, completable c r = true -> rq_id r = cp_RequestID c /\ rq_state r = Streaming) as Hcc.
  { intros r Pr. unfold completable, state_eqb in Pr. bools. by apply String.eqb_eq in H0. }
  destruct (Hcc rq P) as [Ei Es].
  unfold db_history_ok. rewrite events_emit. cbn [requests emit set_outbox]. unfold events. rewrite V1, V2.
  apply (history_step (requests d) _ _ (cp_RequestID c) Streaming Completed (lk_requests _ _ _ Hok) H eq_refl).
  - by exists rq.
  - intros r' (r & Hr & ->)%elem_of_update. exists r. split; [done|].
    destruct (String.eqb_spec (rq_id r) (cp_RequestID c)) as [E'|E'].
    + assert (r = rq) as -> by (apply (unique_request (limit := funds) d); [done|done|done|congruence]). by rewrite P.
    + destruct (completable c r) eqn:Pr; [|done]. apply Hcc in Pr. destruct Pr. congruence.
  - intros r Hr. eexists. split; [apply elem_of_update; exists r; split; [done|reflexivity]|].
    by destruct (completable c r).
Qed.

Lemma abort_history now id st d d' :
  db_ok d -> db_history_ok d -> AbortInference now id st d = Ok d' -> db_history_ok d'.
Proof.
  intros Hok H Ha. unfold AbortInference in Ha. destruct (_ && _) in Ha; [done|].
  step_ok Ha as rq E. do 2 (skip_ok Ha). apply find_request_Ok in E as [Hrq Ei].
  destruct (String.eqb _ st) in Ha; [by injection Ha as <-|]. step_ok Ha as term E3.
  apply of_option_Ok, state_of_name_spec in E3 as ->. destruct (transitions _ term) eqn:T; [|done].
  step_ok Ha as d2 E4. injection Ha as <-.
  assert (requests d2 = requests (set_request_state now id term d) /\ outbox d2 = outbox d) as [V1 V2].
  { destruct (_ && _) in E4; [|by injection E4 as <-].
    split; [by apply (view_add_capacity requests) in E4|by apply (view_add_capacity outbox) in E4]. }
  assert (db_history_ok (emit id (state_name (rq_state rq)) (state_name term) (set_request_state now id term d))) as G.
  { apply history_emit; [apply Hok|done|done|by exists rq]. }
  revert G. unfold db_history_ok. rewrite !events_emit. cbn [requests emit set_outbox]. unfold events.
  by rewrite V1, V2.
Qed.

Lemma applyEvent_history i now log ev d d' :
  db_ok d -> db_history_ok d -> applyEvent i now log ev d = Ok d' -> db_history_ok d'.
Proof.
  intros Hok H He.
  destruct ev; cbn [applyEvent] in He; unfold open_session in He;
    try (apply (db_history_view d); [by same_table He|by same_table He|exact H]).
  unfold apply_settled in He. do 2 (skip_ok He). destruct (insert_or_nothing _ _ _) as [rows ins].
  destruct (negb ins); injection He as <-; [exact H|].
  match goal with |- db_history_ok (transitionSettlementRequest _ _ _ _ ?x) => set (dx := x) end.
  (* The tables that matter are those of [d]; the holds and balances are not read. *)
  pose proof (transition_settlement_history now request Submitted Settled d Hok H eq_refl) as G.
  revert G. unfold db_history_ok, transitionSettlementRequest, events. by destruct (_ =? 1).
Qed.

Section HistorySteps.
Context `{Ethereum}.

Lemma step_history d d' : db_ok d -> db_history_ok d -> step d d' -> db_history_ok d'.
Proof.
  intros Hok Hn Hs. destruct Hs as
    [[id w E|now id a n E|id m k mo E|id b v ri ro rc E|now r1 r2 n a l x E|now u a E|now r1 r2 c m t E|now m E
    |th sa now r1 r2 r3 id o sg l x E|now id a s E|now id s st E|now id nx E|now e E|now st E
    |now m c E|now m c ch addr E|now ir E|now c E|now id st E|now id dom r m s E|now sr E
    |T th mb prep now limit t E]|i now log ev Hc E].
  - apply (db_history_view d); [| |done]; unfold CreateAccount in E; by same_table E.
  - apply (db_history_view d); [| |done]; unfold CreateMachine in E; by same_table E.
  - apply (db_history_view d); [| |done]; unfold CreateBackend in E; by same_table E.
  - apply (db_history_view d); [| |done]; unfold CreateOffer in E; by same_table E.
  - apply (db_history_view d); [| |done]; [by apply (view_CreateDeviceAuthorization requests) in E|by apply (view_CreateDeviceAuthorization outbox) in E].
  - apply (db_history_view d); [| |done]; [by apply (view_ApproveDeviceAuthorization requests) in E|by apply (view_ApproveDeviceAuthorization outbox) in E].
  - apply (db_history_view d); [| |done]; [by apply (view_ExchangeDeviceAuthorization requests) in E|by apply (view_ExchangeDeviceAuthorization outbox) in E].
  - by subst d'.
  - apply (db_history_view d); [| |done]; [by apply (view_VerifyWalletChallenge requests) in E|by apply (view_VerifyWalletChallenge outbox) in E].
  - apply (db_history_view d); [| |done]; unfold CreateSession in E; by same_table E.
  - unfold CreateRequest in E. do 2 (skip_ok E). step_ok E as rows E2. injection E as <-.
    apply insert_row_Ok in E2 as [-> Hf]. apply history_new; [done|]. intros r Hr. by apply String.eqb_neq, Hf.
  - unfold TransitionRequest in E. step_ok E as cur E1. apply find_request_Ok in E1 as [Hcur <-].
    destruct (state_of_name nx) as [s|] eqn:Es; [|done]. apply state_of_name_spec in Es as ->.
    destruct (transitions _ s) eqn:T; [|done]. injection E as <-.
    apply history_emit; [apply Hok|done|done|by exists cur].
  - unfold ClaimOutbox in E. step_ok E as ev E1. injection E as _ <-. unfold db_history_ok, events.
    cbn [requests outbox set_outbox]. unfold update. rewrite map_map.
    erewrite map_ext; [exact Hn|]. intros o. by destruct (_ =? _).
  - apply (db_history_view d); [| |done]; [by apply (view_UpsertRoutingState requests) in E|by apply (view_UpsertRoutingState outbox) in E].
  - apply (db_history_view d); [| |done]; [by apply (view_UpdateProviderCapacity requests) in E|by apply (view_UpdateProviderCapacity outbox) in E].
  - apply (db_history_view d); [| |done]; [by apply (view_ReconcileProviderCapacity requests) in E|by apply (view_ReconcileProviderCapacity outbox) in E].
  - apply ReserveInference_inv in E as (se & row & w & oh & mh & ch & _ & _ & _ & _ & _ & _ & _ & Hw & _ & E).
    eapply reserve_history; [done|done| |done]. lia.
  - by eapply complete_history.
  - by eapply abort_history.
  - apply PrepareReceipt_inv in E as (pr & rq & offer & d1 & _ & _ & _ & _ & _ & _ & _ & _ & _ & _ & _ & -> & (p & En) & _).
    apply receipt_nonce_tables in En as [rows ->]. exact Hn.
  - unfold Enqueue in E. destruct (insert_or_nothing _ _ _) as [rows ins]. injection E as <-.
    destruct ins; [|exact Hn]. by apply transition_settlement_history.
  - unfold settle_transaction in E. destruct (bool_decide _); [done|]. step_ok E as tx E1. step_ok E as raw E2.
    injection E as _ <-. by apply mark_broadcasting_history.
  - by eapply applyEvent_history.
Qed.

Lemma reachable_history d : rtc step empty_db d -> db_ok d /\ db_history_ok d.
Proof.
  intros Hr. remember empty_db as d0 eqn:E0.
  assert (db_ok d0 /\ db_history_ok d0) as H0.
  { subst d0. split; [apply empty_ok|]. split; intros x Hx; by apply elem_of_nil in Hx. }
  clear E0. induction Hr as [|x y z Hs Hr IH]; [done|]. apply IH. destruct H0. split; [by eapply step_ok|by eapply step_history].
Qed.

(** The outbox tells the whole truth about every request: its events, in
    order, form a path of the state machine [transitions] that starts in the
    state the request was created in and ends in its present state. *)
Theorem outbox_is_history d rq :
  rtc step empty_db d -> rq ∈ requests d ->
  exists s0, path s0 (history (rq_id rq) (events d)) (rq_state rq).
Proof.
  intros Hr Hrq. destruct (reachable_history d Hr) as [_ Hh]. by apply (hk_path _ _ Hh).
Qed.
End HistorySteps.

Lemma outbox_is_history_witness :
  exists s0, path s0 [("created", "reserved"); ("reserved", "offered"); ("offered", "accepted");
                      ("accepted", "streaming"); ("streaming", "completed")] Completed.
Proof.
  destruct (requests db_prepared) as [|rq rest] eqn:E; [vm_compute in E; discriminate E|].
  destruct (outbox_is_history db_prepared rq sample_reachable) as [s0 H].
  - rewrite E. apply elem_of_cons. by left.
  - exists s0. vm_compute in E. injection E as Erq _. subst rq. exact H.
Defined.
