(* ===== verification/SettlementSpec.v ===== *)
(** * What the settlement queue guarantees

    One transaction is in flight at a time, it is committed to the database
    before it is broadcast, and it is broadcast again until it is mined. *)

From S2P Require Import Prelude GoStrings Router Receipt Messages Db Hex Auth Store Settlement Indexer Sample Ledger StoreSpec Outbox.
Open Scope string_scope.
Open Scope list_scope.
Open Scope Z_scope.

(** A row in flight has a transaction that was committed and is not known to be
    mined; all rows in flight have the same one. *)
Definition in_flight (q : list QueueRow) : Prop := exists r, r ∈ q /\ broadcasting r = true.
Definition carries_transaction (hash : string) (raw : bytes) (r : QueueRow) : Prop :=
  qu_transaction_hash r = Some hash /\ qu_raw_transaction r = Some raw.
Definition one_transaction (q : list QueueRow) : Prop :=
  exists hash raw, forall r, r ∈ q -> broadcasting r = true -> carries_transaction hash raw r.

Lemma mark_broadcasting_queue now hash raw ids : forall d r,
  r ∈ queue (mark_broadcasting now hash raw ids d) ->
  r ∈ queue d \/ (qu_request r ∈ ids /\ carries_transaction hash raw r).
Proof.
  induction ids as [|id ids IH]; intros d r Hr; [by left|]. cbn [mark_broadcasting] in Hr.
  apply IH in Hr as [Hr|[Hr Hc]]; [|right; split; [by right|done]].
  assert (queue (transitionSettlementRequest now id Signed Submitted
    (set_queue (update (fun r => String.eqb (qu_request r) id)
      (fun r => set_qu_updated_at now (set_qu_raw_transaction (Some raw)
        (set_qu_transaction_hash (Some hash) (set_qu_state QueueBroadcasting r)))) (queue d)) d))
    = update (fun r => String.eqb (qu_request r) id)
      (fun r => set_qu_updated_at now (set_qu_raw_transaction (Some raw)
        (set_qu_transaction_hash (Some hash) (set_qu_state QueueBroadcasting r)))) (queue d)) as E.
  { unfold transitionSettlementRequest. by destruct (_ =? 1). }
  rewrite E in Hr. apply elem_of_update in Hr as (o & Ho & ->).
  destruct (String.eqb_spec (qu_request o) id) as [<-|]; [right|by left]. split; [by left|done].
Qed.

Lemma insert_by_length {R} (key : R -> Z) row rows : length (insert_by key row rows) = S (length rows).
Proof. induction rows as [|x rows IH]; [done|]. simpl. destruct (_ <=? _); simpl; lia. Qed.

Lemma elem_of_insert_by {R} (key : R -> Z) row rows x : x ∈ insert_by key row rows <-> x = row \/ x ∈ rows.
Proof.
  induction rows as [|y rows IH]; simpl; [by rewrite elem_of_cons|].
  destruct (_ <=? _); rewrite !elem_of_cons; [done|]. rewrite IH. tauto.
Qed.

Lemma elem_of_order_by {R} (key : R -> Z) rows (x : R) : x ∈ order_by key rows <-> x ∈ rows.
Proof.
  unfold order_by. induction rows as [|y rows IH]; simpl; [done|].
  rewrite elem_of_insert_by, IH, elem_of_cons. done.
Qed.

Lemma cosigned_batch_spec limit d r : r ∈ cosigned_batch limit d -> r ∈ queue d /\ qu_state r = QueueCosigned.
Proof.
  unfold cosigned_batch. intros H. rewrite list_elem_of_In in H.
  assert (In r (order_by qu_created_at (select (fun r => bool_decide (qu_state r = QueueCosigned)) (queue d)))) as H2.
  { rewrite <- (firstn_skipn (Z.to_nat limit)). apply in_or_app. by left. }
  apply list_elem_of_In, elem_of_order_by, select_spec in H2 as [H2 P]. bools. done.
Qed.

Section Queue.
Context {Transaction : Type} (TransactionHash : Transaction -> string)
  (MarshalBinary : Transaction -> result bytes) (UnmarshalBinary : bytes -> result Transaction).
Context (PrepareSettlement : list ChainReceipt -> list bytes -> list bytes -> result Transaction).
Abbreviation SettleBatch := (Settlement.SettleBatch TransactionHash MarshalBinary UnmarshalBinary PrepareSettlement).

Lemma pendingBroadcast_Ok_None d :
  pendingBroadcast UnmarshalBinary d = Ok None -> forall r, r ∈ queue d -> broadcasting r = false.
Proof.
  intros H r Hr. unfold pendingBroadcast in H. destruct (first_by _ _) as [row|] eqn:E.
  - step_ok H as h E1. step_ok H as rw E2. by step_ok H as t E3.
  - apply first_by_None in E. destruct (broadcasting r) eqn:B; [|done].
    assert (r ∈ select broadcasting (queue d)) as Hin by by apply select_spec. rewrite E in Hin. by apply elem_of_nil in Hin.
Qed.

(** The transaction that is sent again is that of the row longest in flight. *)
Definition longest_in_flight (q : list QueueRow) (hash : string) (t : Transaction) : Prop :=
  exists row raw, row ∈ q /\ broadcasting row = true /\ carries_transaction hash raw row /\ UnmarshalBinary raw = Ok t
  /\ forall r, r ∈ q -> broadcasting r = true -> qu_updated_at row <= qu_updated_at r.
Lemma pendingBroadcast_Ok_Some d hash t : pendingBroadcast UnmarshalBinary d = Ok (Some (hash, t)) ->
  longest_in_flight (queue d) hash t.
Proof.
  intros H. unfold pendingBroadcast in H. destruct (first_by _ _) as [row|] eqn:E; [|done].
  step_ok H as h E1. step_ok H as raw E2. step_ok H as t' E3. injection H as <- <-.
  apply first_by_spec in E as [Hin Hmin]. apply select_spec in Hin as [Hin B]. unfold scan in E1, E2.
  destruct (qu_transaction_hash row) eqn:Eh; [|done]. destruct (qu_raw_transaction row) eqn:Er; [|done].
  injection E1 as ->. injection E2 as ->. exists row, raw. split_and!; try done. intros r Hr Br. apply Hmin. by apply select_spec.
Qed.

(** The calls that send one transaction. *)
Definition sends (t : Transaction) (effects : list (Effect (Transaction := Transaction))) : Prop :=
  exists rest, effects = Sent t :: rest /\ rest ⊆ [Asked t; Awaited t].
Lemma Broadcast_sends rpc t effects r : Broadcast rpc t = (effects, r) -> sends t effects.
Proof.
  unfold Broadcast. destruct (SendTransaction rpc t); [|destruct (_ && _)]; intros [= <- _]; (eexists; split; [reflexivity|]);
    intros x Hx; rewrite list_elem_of_In in *; cbn [In] in *; tauto.
Qed.

(** C23. Settlement sends one transaction at a time, and commits it before it
    sends it.  While a row is in flight a call changes nothing and builds no
    transaction: all it does is to send the transaction of the row that is
    longest in flight again (or nothing, when that does not decode).  When none
    is, it either does nothing, or builds a transaction from co-signed rows, at most
    [limit] of them, commits it with them, and then sends that
    transaction and no other; the rows then in flight are among those, with that
    transaction.  Rows in flight that have one transaction still have one after the
    call. *)
Theorem SettleBatch_single_flight rpc now limit d d' effects hash err :
  SettleBatch rpc now limit d = (d', effects, hash, err) ->
  (one_transaction (queue d) -> one_transaction (queue d'))
  /\ (in_flight (queue d) -> d' = d /\ (effects = [] \/ exists t, longest_in_flight (queue d) hash t /\ sends t effects))
  /\ (~ in_flight (queue d) -> d' = d /\ effects = [] \/
      exists t raw rest, settle_transaction TransactionHash MarshalBinary PrepareSettlement now limit d = Ok (t, d')
        /\ effects = Committed d' :: rest /\ sends t rest /\ hash = TransactionHash t /\ MarshalBinary t = Ok raw
        /\ (let batch := cosigned_batch limit d in batch <> [] /\ Z.of_nat (length batch) <= limit
            /\ Forall (fun r => r ∈ queue d /\ qu_state r = QueueCosigned) batch
            /\ forall r, r ∈ queue d' -> broadcasting r = true -> qu_request r ∈ map qu_request batch /\ carries_transaction hash raw r)).
Proof.
  intros H. unfold Settlement.SettleBatch in H. destruct (limit <=? 0) eqn:L; [injection H as <- <- <- <-; by auto|].
  destruct (pendingBroadcast UnmarshalBinary d) as [[[h t]|]|e] eqn:P; [| |injection H as <- <- <- <-; by auto].
  - destruct (Broadcast rpc t) as [calls r] eqn:B. apply Broadcast_sends in B. apply pendingBroadcast_Ok_Some in P.
    assert (d' = d /\ effects = calls /\ hash = h) as (-> & -> & ->) by (destruct r; by injection H as <- <- <- _).
    split; [done|]. split; [|intros []; destruct P as (row & raw & P1 & P2 & _); by exists row]. intros _. split; [done|]. right. by exists t.
  - pose proof (pendingBroadcast_Ok_None d P) as Hnone.
    destruct (settle_transaction _ _ _ now limit d) as [[t d1]|e] eqn:S; [|injection H as <- <- <- <-; by auto].
    destruct (Broadcast rpc t) as [calls r] eqn:B. apply Broadcast_sends in B.
    assert (d' = d1 /\ effects = Committed d1 :: calls /\ hash = TransactionHash t) as (-> & -> & ->)
      by (destruct r; by injection H as <- <- <- _).
    pose proof S as S'. unfold settle_transaction in S'. destruct (bool_decide _) eqn:Hne in S'; [done|]. step_ok S' as t' E1. step_ok S' as raw E2.
    injection S' as -> Ed. apply bool_decide_eq_false in Hne.
    assert (forall r, r ∈ queue d1 -> broadcasting r = true ->
      qu_request r ∈ map qu_request (cosigned_batch limit d) /\ carries_transaction (TransactionHash t) raw r) as Hall.
    { intros q Hq Bq. rewrite <- Ed in Hq. apply mark_broadcasting_queue in Hq as [Hq|Hq]; [|done]. rewrite (Hnone q Hq) in Bq. done. }
    split_and!.
    + intros _. exists (TransactionHash t), raw. intros q Hq Bq. by apply Hall.
    + intros (q & Hq & Bq). by rewrite (Hnone q Hq) in Bq.
    + intros _. right. exists t, raw, calls. split_and!; try done.
      * cbv zeta. split_and!; [done| | |done].
        -- apply Z.leb_gt in L. unfold cosigned_batch. rewrite length_take. lia.
        -- apply Forall_forall. intros q Hq. by eapply cosigned_batch_spec.
Qed.

(** A transaction that reverted blocks the queue: while it is the oldest
    one in flight every call returns [ErrTransactionReverted] and leaves the
    database alone, whatever receipts wait behind it. *)
Theorem reverted_transaction_blocks rpc now limit d hash transaction status :
  0 < limit -> pendingBroadcast UnmarshalBinary d = Ok (Some (hash, transaction)) ->
  TransactionReceipt rpc transaction = Ok tt -> WaitMined rpc transaction = Ok status -> status <> 1 ->
  exists effects, SettleBatch rpc now limit d = (d, effects, hash, Some ErrTransactionReverted).
Proof.
  intros Hl Hp Ht Hw Hst. unfold Settlement.SettleBatch. replace (limit <=? 0) with false by lia. rewrite Hp.
  enough (snd (Broadcast rpc transaction) = Err ErrTransactionReverted) as Hb
    by (destruct (Broadcast rpc transaction) as [effects r]; cbn in Hb; rewrite Hb; by exists effects).
  unfold Broadcast, wait. rewrite Ht, Hw. cbn [is_ok negb andb mbind result_bind].
  rewrite (proj2 (Z.eqb_neq _ _) Hst). by destruct (SendTransaction rpc transaction).
Qed.
End Queue.

(** ** A concrete queue *)
Definition toy_prepare (receipts : list ChainReceipt) (_ _ : list bytes) : result bytes :=
  Ok (map cr_Nonce receipts).
Definition sample_signed : SignedReceipt :=
  mkSignedReceipt (toChainReceipt (default (mkReceipt [] [] [] [] [] [] 0 [] [] 0 0 0 0 0 0 0 0 0 [] [] 0)
                                     sample_receipt)) (replicate 65 1) (replicate 65 2).
Definition db_signed : Db := Eval vm_compute in value_of (Enqueue 30 sample_signed db_prepared).
Definition down : Rpc (Transaction := bytes) :=
  mkRpc (fun _ => Err (ErrNew "nonce too low")) (fun _ => Ok tt) (fun _ => Ok 0).
Definition settle_sample (d : Db) : Db * list (Effect (Transaction := bytes)) * string * option error :=
  SettleBatch hashHex Ok Ok toy_prepare down 40 10 d.
Definition db_submitted : Db := Eval vm_compute in fst (fst (fst (settle_sample db_signed))).

(** A first call commits and sends; a second one, in flight, only sends again. *)
Lemma SettleBatch_single_flight_witness :
  one_transaction (queue db_submitted)
  /\ exists effects hash err t, settle_sample db_submitted = (db_submitted, effects, hash, err)
     /\ longest_in_flight Ok (queue db_submitted) hash t /\ sends t effects.
Proof.
  split.
  - destruct (settle_sample db_signed) as [[[d effects] hash] err] eqn:E.
    destruct (SettleBatch_single_flight hashHex Ok Ok toy_prepare down 40 10 db_signed _ _ _ _ E) as (H1 & _).
    assert (d = db_submitted) as -> by (vm_compute in E; injection E as <- _ _ _; vm_compute; reflexivity). apply H1.
    exists "", []. intros r Hr Hs. vm_compute in Hr. apply list_elem_of_singleton in Hr as ->. done.
  - destruct (settle_sample db_submitted) as [[[d effects] hash] err] eqn:E.
    destruct (SettleBatch_single_flight hashHex Ok Ok toy_prepare down 40 10 db_submitted _ _ _ _ E) as (_ & H2 & _).
    destruct H2 as [-> H2]; [eexists; split; [by left|vm_compute; reflexivity]|].
    destruct H2 as [->|(t & H3 & H4)]; [vm_compute in E; discriminate E|]. by exists effects, hash, err, t.
Defined.

Lemma reverted_transaction_blocks_witness :
  exists effects, settle_sample db_submitted = (db_submitted, effects, "0x01", Some ErrTransactionReverted).
Proof.
  apply (reverted_transaction_blocks hashHex Ok Ok toy_prepare down 40 10 db_submitted "0x01" [1] 0);
    [lia|vm_compute; reflexivity|reflexivity|reflexivity|lia].
Defined.
