(* ===== verification/IndexerSpec.v ===== *)
(** * What the indexer guarantees

    The search for the first block with code is a correct binary search, a
    log is applied once however often it is delivered, a synchronisation
    covers every block up to its target, and a rewind takes the projection
    back to the start. *)

From S2P Require Import Prelude GoStrings Receipt Messages Db Hex Auth Store Settlement Indexer Sample Ledger StoreSpec Outbox.
Open Scope string_scope.
Open Scope list_scope.
Open Scope Z_scope.

(** ** The binary search *)
Section Search.
Context (CodeAt : Z -> result bytes) (code : Z -> bytes).
Context (node_answers : forall block, CodeAt block = Ok (code block)).
(** Bytecode, once deployed, stays. *)
Context (code_stays : forall a b, a <= b -> code a <> [] -> code b <> []).

Lemma search_code_spec fuel : forall low high,
  low <= high -> high - low <= Z.of_nat fuel -> code high <> [] ->
  exists n, search_code CodeAt fuel low high = Ok n /\ low <= n <= high /\ code n <> []
            /\ forall b, low <= b < n -> code b = [].
Proof.
  induction fuel as [|fuel IH]; intros low high Hle Hf Hh; cbn [search_code].
  - exists low. assert (low = high) as -> by lia. split_and!; try done; lia.
  - destruct (Z.ltb_spec low high).
    + rewrite node_answers. cbn [mbind result_bind].
      pose proof (Z.div_pos (high - low) 2 ltac:(lia) ltac:(lia)).
      pose proof (Z.div_lt (high - low) 2 ltac:(lia) ltac:(lia)).
      set (mid := low + (high - low) / 2) in *.
      destruct (bool_decide (code mid = [])) eqn:E; bools.
      * destruct (IH (mid + 1) high ltac:(lia) ltac:(lia) Hh) as (n & -> & Hn & Hc & Hb).
        exists n. split_and!; try done; try lia. intros b Hb'.
        destruct (Z.le_gt_cases (mid + 1) b); [apply Hb; lia|].
        destruct (decide (code b = [])) as [|Hne]; [done|]. exfalso.
        by apply (code_stays b mid ltac:(lia) Hne).
      * destruct (IH low mid ltac:(lia) ltac:(lia) E) as (n & -> & Hn & Hc & Hb).
        exists n. split_and!; try done; lia.
    + exists low. assert (low = high) as -> by lia. split_and!; try done; lia.
Qed.

(** On a chain whose bytecode appears once and stays, [firstCodeBlock]
    terminates and returns the first block of the range at which the contract
    has code, or its error when it has none at the head. *)
Theorem firstCodeBlock_least configured head :
  configured <= head ->
  match firstCodeBlock CodeAt configured head with
  | Ok n => configured <= n <= head /\ code n <> [] /\ forall b, configured <= b < n -> code b = []
  | Err _ => forall b, configured <= b <= head -> code b = []
  end.
Proof.
  intros Hle. unfold firstCodeBlock. rewrite !node_answers. cbn [mbind result_bind].
  destruct (bool_decide (code configured = [])) eqn:E1; bools; cbn [negb].
  - destruct (bool_decide (code head = [])) eqn:E2; bools.
    + intros b Hb. destruct (decide (code b = [])) as [|Hne]; [done|]. exfalso.
      by apply (code_stays b head ltac:(lia) Hne).
    + destruct (search_code_spec (Z.to_nat (head - configured)) configured head Hle ltac:(lia) E2) as
        (n & -> & Hn & Hc & Hb). done.
  - split_and!; [lia|lia|done|]. intros b Hb. lia.
Qed.
End Search.

Definition sample_code (block : Z) : bytes := if block <? 700 then [] else [96].

Lemma firstCodeBlock_least_witness :
  firstCodeBlock (fun b => Ok (sample_code b)) 10 1000 = Ok 700
  /\ forall b, 10 <= b < 700 -> sample_code b = [].
Proof.
  split; [vm_compute; reflexivity|].
  refine (proj2 (proj2 (firstCodeBlock_least (fun b => Ok (sample_code b)) sample_code (fun b => eq_refl) _ 10 1000 _)));
    [|lia].
  intros x y Hxy Hx. unfold sample_code in *. destruct (Z.ltb_spec x 700); [done|].
  by replace (y <? 700) with false by lia.
Defined.

(** ** Logs are applied once *)
Section Logs.
Variable i : Indexer.
Variable decode : Log -> result ChainEvent.

Definition log_key (log : Log) (r : ChainLogRow) : bool :=
  here i (cx_chain r) (cx_contract r) && String.eqb (cx_transaction_hash r) (lg_TxHash log)
  && (cx_log_index r =? lg_Index log).
Definition indexed (d : Db) (log : Log) : Prop := exists_row (log_key log) (chain_logs d) = true.

Lemma transition_settlement_view {A} (view : Db -> A) now id from to d :
  (forall rows d, view (set_requests rows d) = view d) -> (forall rows d, view (set_outbox rows d) = view d) ->
  view (transitionSettlementRequest now id from to d) = view d.
Proof.
  intros Hr Ho. unfold transitionSettlementRequest, emit.
  destruct (_ =? 1); [by rewrite Ho, Hr|by rewrite Hr].
Qed.

Lemma applyEvent_logs now log ev d d' : applyEvent i now log ev d = Ok d' -> chain_logs d' = chain_logs d.
Proof.
  intros H. destruct ev; cbn [applyEvent] in H; unfold open_session, apply_settled in H; try (by same_table H).
  do 2 (skip_ok H). destruct (insert_or_nothing _ _ _) as [rows ins]. destruct (negb ins); injection H as <-; [done|].
  by rewrite (transition_settlement_view chain_logs).
Qed.

Lemma here_self : here i (ix_chainID i) (ix_contract i) = true.
Proof. unfold here. by rewrite Z.eqb_refl, String.eqb_refl. Qed.

Lemma insertLog_spec log d d' ins :
  insertLog i log d = Ok (d', ins) ->
  indexed d' log /\ (forall other, indexed d other -> indexed d' other)
  /\ (ins = false -> d' = d) /\ (lg_BlockNumber log <= i64_max).
Proof.
  unfold insertLog. intros H. step_ok H as u E. apply fail_if_Ok in E. bools.
  unfold insert_or_nothing in H. fold (log_key log) in H.
  destruct (exists_row (log_key log) (chain_logs d)) eqn:X; injection H as <- <-.
  - split_and!; [exact X|done| |done]. intros _. by destruct d.
  - split_and!; [| |done|done].
    + unfold indexed. apply exists_row_spec. eexists. split; [apply elem_of_app; right; by apply list_elem_of_singleton|].
      unfold log_key. cbn. by rewrite here_self, String.eqb_refl, Z.eqb_refl.
    + intros other Ho. unfold indexed in *. apply exists_row_spec in Ho as (r & Hr & Pr).
      apply exists_row_spec. exists r. split; [set_solver|done].
Qed.

Lemma index_logs_spec now logs : forall d d', index_logs i decode now logs d = Ok d' ->
  (forall log, log ∈ logs -> indexed d' log /\ lg_BlockNumber log <= i64_max)
  /\ (forall other, indexed d other -> indexed d' other).
Proof.
  induction logs as [|log logs IH]; intros d d' H; cbn [index_logs] in H.
  - injection H as <-. split; [|done]. intros log Hl. by apply elem_of_nil in Hl.
  - step_ok H as x E. destruct x as [d1 ins]. step_ok H as d2 E2.
    destruct (insertLog_spec _ _ _ _ E) as (H1 & H2 & _ & H3).
    assert (chain_logs d2 = chain_logs d1) as E3.
    { destruct ins; [|by injection E2 as <-]. unfold applyLog in E2. step_ok E2 as ev E4. by apply applyEvent_logs in E2. }
    destruct (IH _ _ H) as [IH1 IH2]. split.
    + intros l Hl. apply elem_of_cons in Hl as [->|Hl]; [|by apply IH1]. split; [|done].
      apply IH2. unfold indexed in *. by rewrite E3.
    + intros other Ho. apply IH2. unfold indexed in *. rewrite E3. by apply H2.
Qed.

(** C31. Applying logs is idempotent: once a list of logs was indexed, any part
    of it delivered again, in any order and at any later time, changes nothing. *)
Theorem index_logs_idempotent now now' logs again d d' :
  index_logs i decode now logs d = Ok d' -> again ⊆ logs ->
  index_logs i decode now' again d' = Ok d'.
Proof.
  intros H Hsub. apply index_logs_spec in H as [H _].
  induction again as [|log again IH]; [done|]. cbn [index_logs].
  destruct (H log) as [Hi Hb]; [apply Hsub, elem_of_cons; auto|].
  assert (insertLog i log d' = Ok (d', false)) as ->.
  { unfold insertLog, bigint. replace (i64_max <? lg_BlockNumber log) with false by lia. cbn [fail_if mbind result_bind].
    unfold insert_or_nothing. fold (log_key log). rewrite Hi. by destruct d'. }
  cbn [mbind result_bind]. apply IH. intros l Hl. apply Hsub, elem_of_cons. auto.
Qed.
End Logs.

Definition sample_decode (log : Log) : result ChainEvent :=
  Ok (Deposited customer_wallet (lg_Index log)).
Definition log_a : Log := mkLog 5 "0xb5" "0xta" 3 [].
Definition log_b : Log := mkLog 6 "0xb6" "0xtb" 4 [].

Lemma index_logs_idempotent_witness :
  exists d', index_logs sample_indexer sample_decode 1 [log_a; log_b] db_ready = Ok d'
  /\ index_logs sample_indexer sample_decode 9 [log_b; log_a] d' = Ok d'.
Proof.
  eexists. split; [vm_compute; reflexivity|].
  eapply (index_logs_idempotent sample_indexer sample_decode 1 9 [log_a; log_b] [log_b; log_a] db_ready).
  - vm_compute. reflexivity.
  - set_solver.
Defined.

(** ** Synchronisation covers the chain *)
Lemma batchEnd_spec next target size :
  0 <= next <= target -> target < u64_mod -> 0 < size < u64_mod ->
  next <= batchEnd next target size <= target
  /\ (batchEnd next target size < target -> batchEnd next target size = next + size - 1).
Proof.
  intros Hn Ht Hs. unfold batchEnd, wrap64. replace (size =? 0) with false by lia. cbn [orb].
  rewrite !(Z.mod_small (target - next)), (Z.mod_small (size - 1)) by lia.
  destruct (Z.ltb_spec (target - next) (size - 1)); [lia|]. rewrite Z.mod_small by lia. lia.
Qed.

Section Sync.
Variable i : Indexer.
Variable decode : Log -> result ChainEvent.
Variable node : Node.
(** The contract's logs, as the node returns them for any range. *)
Variable all : list Log.
Hypothesis node_logs : forall from to,
  nd_Logs node from to
  = Ok (List.filter (fun log => (from <=? lg_BlockNumber log) && (lg_BlockNumber log <=? to)) all).

Lemma indexRange_spec now from to d d' :
  indexRange i decode node now from to d = Ok d' -> 0 <= to ->
  (exists hash parent, nd_Header node to = Ok (hash, parent) /\ cursor i d' = Ok (to + 1, Some to, hash))
  /\ (forall log, log ∈ all -> from <= lg_BlockNumber log <= to -> indexed i d' log)
  /\ (forall log, indexed i d log -> indexed i d' log) /\ to < i64_max.
Proof.
  unfold indexRange. intros H Ht. step_ok H as x E. destruct x as [hash parent]. step_ok H as logs E2.
  rewrite node_logs in E2. injection E2 as <-. step_ok H as u1 E3. step_ok H as d1 E4. step_ok H as u2 E5.
  injection H as <-. apply fail_if_Ok, Z.ltb_ge in E3, E5.
  assert (to < i64_max) as Hlt.
  { unfold wrap64 in E5. rewrite Z.mod_small in E5; [lia|]. unfold i64_max, u64_mod in *. lia. }
  assert (wrap64 (to + 1) = to + 1) as Hw by (unfold wrap64; apply Z.mod_small; unfold i64_max, u64_mod in *; lia).
  rewrite Hw. destruct (index_logs_spec i decode _ _ _ _ E4) as [H1 H2]. split_and!; [|..|done].
  - exists hash, parent. split; [done|]. unfold cursor. cbn [chain_cursors set_chain_cursors]. unfold upsert.
    set (key := fun r => here i (cc_chain r) (cc_contract r)).
    set (row := mkChainCursorRow (ix_chainID i) (ix_contract i) (to + 1) (Some to) (Some hash)).
    assert (key row = true) as Hk by apply here_self.
    destruct (exists_row key (chain_cursors d1)) eqn:X.
    + rewrite query_row_update by done. apply exists_row_spec in X as (r & Hr & Pr).
      destruct (query_row key (chain_cursors d1)) as [r'|e] eqn:Q; [done|].
      by rewrite (query_row_Err _ _ _ Q r Hr) in Pr.
    + destruct (query_row key (chain_cursors d1 ++ [row])) as [r|e] eqn:Q.
      * apply query_row_Ok in Q as [Hr Pr]. apply elem_of_app in Hr as [Hr|Hr].
        -- by rewrite (proj1 (exists_row_false _ _) X r Hr) in Pr.
        -- apply list_elem_of_singleton in Hr as ->. done.
      * rewrite (query_row_Err _ _ _ Q row) in Hk; [done|]. set_solver.
  - intros log Hl Hb. unfold indexed. cbn [chain_logs set_chain_cursors]. apply H1.
    rewrite list_elem_of_In. apply filter_In. split; [by apply list_elem_of_In|lia].
  - intros log Hl. unfold indexed. cbn [chain_logs set_chain_cursors]. by apply H2.
Qed.

Lemma sync_loop_spec now target fuel : forall next d d',
  0 <= next <= target -> target < u64_mod -> target - next < Z.of_nat fuel ->
  sync_loop fuel i decode node now next target d = (d', None) ->
  (exists hash parent, nd_Header node target = Ok (hash, parent)
                       /\ cursor i d' = Ok (target + 1, Some target, hash))
  /\ (forall log, log ∈ all -> next <= lg_BlockNumber log <= target -> indexed i d' log)
  /\ (forall log, indexed i d log -> indexed i d' log).
Proof.
  induction fuel as [|fuel IH]; intros next d d' Hn Ht Hf H; [lia|]. cbn [sync_loop] in H.
  replace (next <=? target) with true in H by lia.
  destruct (batchEnd_spec next target indexBatchSize Hn Ht ltac:(unfold indexBatchSize, u64_mod; lia)) as [Hb Hb'].
  set (last := batchEnd next target indexBatchSize) in *.
  destruct (indexRange i decode node now next last d) as [d1|e] eqn:R; [|done].
  apply indexRange_spec in R as (Hc & Hl & Hk & Hlt); [|lia].
  replace (last =? u64_max) with false in H by (unfold u64_max, i64_max in *; lia).
  destruct (Z.eq_dec last target) as [E|E].
  - assert (d1 = d') as ->; [|rewrite E in *; done].
    destruct fuel; cbn [sync_loop] in H; [by injection H|].
    replace (last + 1 <=? target) with false in H by lia. by injection H.
  - destruct (IH (last + 1) d1 d') as (IH1 & IH2 & IH3); [lia|lia|lia|done|]. split_and!; [done| |].
    + intros log Hlog Hblock. destruct (Z.le_gt_cases (lg_BlockNumber log) last).
      * apply IH3, Hl; [done|lia].
      * apply IH2; [done|lia].
    + intros log Hlog. by apply IH3, Hk.
Qed.

End Sync.

Definition sample_logs : list Log := [log_a; log_b; mkLog 205 "0xb7" "0xtc" 9 []].
Definition sample_node : Node :=
  mkNode (fun b => Ok (FormatUint b, FormatUint (b - 1)))
    (fun from to => Ok (List.filter (fun log => (from <=? lg_BlockNumber log) && (lg_BlockNumber log <=? to))
                          sample_logs)).


(** ** Rewinding *)
Section Rewind.
Variable i : Indexer.

Definition in_projection (d : Db) : Prop :=
  exists_row (fun r => here i (cx_chain r) (cx_contract r)) (chain_logs d) = true
  \/ exists_row (fun r => here i (ct_chain r) (ct_contract r)) (chain_settlements d) = true
  \/ exists_row (fun r => here i (ca_chain r) (ca_contract r)) (chain_accounts d) = true
  \/ exists_row (fun r => here i (cs_chain r) (cs_contract r)) (chain_sessions d) = true
  \/ exists_row (fun r => here i (co_chain r) (co_contract r)) (chain_offers d) = true
  \/ exists_row (fun r => here i (cg_chain r) (cg_contract r)) (chain_signers d) = true.

Lemma delete_none {R} (p : R -> bool) (t : list R) : exists_row p (delete_rows p t) = false.
Proof.
  apply exists_row_false. intros r Hr. unfold delete_rows in Hr. apply list_elem_of_In, filter_In in Hr as [_ Hr].
  by apply negb_true_iff in Hr.
Qed.

Lemma delete_keeps {R} (p q : R -> bool) (t : list R) :
  (forall r, q r = true -> p r = false) -> select q (delete_rows p t) = select q t.
Proof.
  intros H. unfold select, delete_rows. induction t as [|r t IH]; [done|]. simpl.
  destruct (p r) eqn:P; simpl; rewrite IH; [|done]. destruct (q r) eqn:Q; [|done]. by rewrite H in P.
Qed.

Lemma revert_view {A} (view : Db -> A) now ids :
  (forall rows d, view (set_requests rows d) = view d) -> (forall rows d, view (set_outbox rows d) = view d) ->
  (forall rows d, view (set_reservations rows d) = view d) -> (forall rows d, view (set_queue rows d) = view d) ->
  forall d, view (revert_settlements now ids d) = view d.
Proof.
  intros H1 H2 H3 H4. induction ids as [|id ids IH]; intros d; [done|]. cbn [revert_settlements].
  rewrite IH, (transition_settlement_view view) by done. by rewrite H4, H3.
Qed.

(** A rewind empties the projection of this contract, so the next
    synchronisation starts at the start block with no last block to check;
    the projections of other contracts and the balances of the sessions are
    kept. *)
Theorem rewind_restarts now d :
  let d' := rewind i now d in
  cursor i d' = Ok (ix_startBlock i, None, "") /\ ~ in_projection d'
  /\ sessions d' = sessions d
  /\ (forall chain contract, here i chain contract = false ->
      select (fun r => (ca_chain r =? chain) && String.eqb (ca_contract r) contract) (chain_accounts d')
      = select (fun r => (ca_chain r =? chain) && String.eqb (ca_contract r) contract) (chain_accounts d)).
Proof.
  cbv zeta. unfold rewind. set (ids := map _ _).
  set (d0 := revert_settlements now ids d). split_and!.
  - unfold cursor. cbn [chain_cursors set_chain_logs set_chain_cursors].
    destruct (query_row _ (delete_rows _ _)) as [r|e] eqn:Q; [|done]. exfalso.
    apply query_row_Ok in Q as [Hr Pr]. by rewrite (proj1 (exists_row_false _ _) (delete_none _ _) r Hr) in Pr.
  - unfold in_projection. db_simpl. rewrite !delete_none. naive_solver.
  - db_simpl. by apply (revert_view sessions).
  - intros chain contract Hn. db_simpl. rewrite delete_keeps.
    + unfold d0. by rewrite (revert_view chain_accounts).
    + intros r Pr. apply andb_true_iff in Pr as [->%Z.eqb_eq ->%String.eqb_eq]. exact Hn.
Qed.
End Rewind.
