(* ===== verification/Relay.v ===== *)
(** * The relay hub (server/internal/relay/hub.go)

    One hub serves every provider connection.  A session is a pointer in the
    code, so the hub keeps session identities and a heap of sessions; a
    subscriber is a Go channel, so it has an identity and a buffer.  A buffered
    channel is the list of its pending values with its capacity checked at the
    send; [select { case c <- v: default: }] is a send that gives up on a full
    buffer.  The goroutines of the hub (one reader, writer and heartbeat per
    connection, the broker that drains [Events], subscribers) interleave: a
    run is any list of [Action]s.  A reader holds a lock for parts of
    [AcceptInbound] only, so a session says how far its reader has come, and an
    action takes it through its next critical section or channel operation. *)

From S2P Require Import Prelude GoStrings GoTime Wire Receipt Messages.
Open Scope string_scope.
Open Scope list_scope.
Open Scope Z_scope.

Record Options := mkOptions {
  op_QueueSize : Z;
  op_HeartbeatTimeout : Z;
  op_MaximumMessage : Z;
}.

Record Event := mkEvent {
  ev_MachineID : string;
  ev_Type : string;
  ev_Envelope : Envelope;
}.

(** Where the reader of a connection is: in [connection.Read]; in
    [AcceptInbound], before the switch, before it notes that the output of a
    chunk's request started, before [publish], within it with the subscribers
    that are left, before the send to [events]; or past its loop, before and
    after the deferred [unregister]. *)
Inductive Reader :=
| Reading
| Switching (envelope : Envelope)
| Starting (envelope : Envelope) (chunk : OutputChunk)
| Publishing (envelope : Envelope)
| PublishingTo (envelope : Envelope) (remaining : gset nat)
| Offering (envelope : Envelope)
| Leaving
| Returned.

(** [ss_machine] is the local [machineID] of [ServeHTTP], [ss_open] says that
    nothing closed the connection, and [ss_written] lists the frames written to
    the connection. *)
Record session := mkSession {
  ss_machine : string;
  ss_outbound : list Envelope;
  ss_lastSeen : Z;
  ss_open : bool;
  ss_reader : Reader;
  ss_written : list Envelope;
}.

Record Hub := mkHub {
  hub_options : Options;
  hub_sessions : gmap string nat;
  hub_heap : gmap nat session;
  hub_outputStarted : gset string;
  hub_chunks : ChunkTracker;
  hub_events : list Event;
  hub_subscribers : gmap string (gset nat);
  hub_channels : gmap nat (list Event);
  hub_fresh : nat;
}.

Definition EventCapacity : nat := 64.
Definition SubscriberCapacity : nat := 8.

Definition set_sessions_map v (h : Hub) := mkHub (hub_options h) v (hub_heap h) (hub_outputStarted h)
  (hub_chunks h) (hub_events h) (hub_subscribers h) (hub_channels h) (hub_fresh h).
Definition set_heap v (h : Hub) := mkHub (hub_options h) (hub_sessions h) v (hub_outputStarted h)
  (hub_chunks h) (hub_events h) (hub_subscribers h) (hub_channels h) (hub_fresh h).
Definition set_chunks started tracker (h : Hub) := mkHub (hub_options h) (hub_sessions h) (hub_heap h) started
  tracker (hub_events h) (hub_subscribers h) (hub_channels h) (hub_fresh h).
Definition set_events v (h : Hub) := mkHub (hub_options h) (hub_sessions h) (hub_heap h) (hub_outputStarted h)
  (hub_chunks h) v (hub_subscribers h) (hub_channels h) (hub_fresh h).
Definition set_subscribers v (h : Hub) := mkHub (hub_options h) (hub_sessions h) (hub_heap h)
  (hub_outputStarted h) (hub_chunks h) (hub_events h) v (hub_channels h) (hub_fresh h).
Definition set_channels v (h : Hub) := mkHub (hub_options h) (hub_sessions h) (hub_heap h)
  (hub_outputStarted h) (hub_chunks h) (hub_events h) (hub_subscribers h) v (hub_fresh h).
Definition set_fresh v (h : Hub) := mkHub (hub_options h) (hub_sessions h) (hub_heap h)
  (hub_outputStarted h) (hub_chunks h) (hub_events h) (hub_subscribers h) (hub_channels h) v.

Definition positive_or (value fallback : Z) : Z := if value <=? 0 then fallback else value.

Definition NewHub (o : Options) : Hub :=
  mkHub (mkOptions (positive_or (op_QueueSize o) 16) (positive_or (op_HeartbeatTimeout o) (30 * Second))
           (positive_or (op_MaximumMessage o) (Z.shiftl 1 20)))
    ∅ ∅ ∅ NewChunkTracker [] ∅ ∅ 0.

(** [select { case channel <- value: default: }] *)
Definition try_push {A} (capacity : nat) (buffer : list A) (value : A) : option (list A) :=
  if decide (length buffer < capacity)%nat then Some (buffer ++ [value]) else None.

Definition requestID (envelope : Envelope) : string :=
  if String.eqb (env_Type envelope) MessageJobAccept then
    match DecodeBody (M := JobAccept) envelope with Ok v => ja_RequestID v | Err _ => "" end
  else if String.eqb (env_Type envelope) MessageOutputChunk then
    match DecodeBody (M := OutputChunk) envelope with Ok v => ch_RequestID v | Err _ => "" end
  else if String.eqb (env_Type envelope) MessageReceiptSignature then
    match DecodeBody (M := ReceiptSignature) envelope with Ok v => rs_RequestID v | Err _ => "" end
  else "".

(** One send of [publish]: a full subscriber misses the event. *)
Definition publish_to (event : Event) (channels : gmap nat (list Event)) (subscriber : nat)
  : gmap nat (list Event) :=
  match try_push SubscriberCapacity (default [] (channels !! subscriber)) event with
  | Some buffer => <[subscriber := buffer]> channels
  | None => channels
  end.

(** What [publish] goes through; it holds the read lock meanwhile, which the
    steps below do not rely on. *)
Definition publish (request : string) (h : Hub) : gset nat :=
  if String.eqb request "" then ∅ else default ∅ (hub_subscribers h !! request).

Definition Send (machineID : string) (envelope : Envelope) (h : Hub) : Hub * result unit :=
  match hub_sessions h !! machineID with
  | None => (h, Err ErrDisconnected)
  | Some id =>
      match hub_heap h !! id with
      | None => (h, Err ErrDisconnected)
      | Some current =>
          match try_push (Z.to_nat (op_QueueSize (hub_options h))) (ss_outbound current) envelope with
          | Some outbound =>
              (set_heap (<[id := mkSession (ss_machine current) outbound (ss_lastSeen current)
                                   (ss_open current) (ss_reader current) (ss_written current)]>
                           (hub_heap h)) h, Ok tt)
          | None => (h, Err ErrBackpressure)
          end
      end
  end.

(** [Subscribe] returns the new channel; [unsubscribe] is the function it returns. *)
Definition Subscribe (request : string) (h : Hub) : Hub * nat :=
  let events := hub_fresh h in
  let subscribers := default ∅ (hub_subscribers h !! request) in
  (set_fresh (S events) (set_channels (<[events := []]> (hub_channels h))
     (set_subscribers (<[request := {[events]} ∪ subscribers]> (hub_subscribers h)) h)), events).

Definition unsubscribe (request : string) (events : nat) (h : Hub) : Hub :=
  let left := default ∅ (hub_subscribers h !! request) ∖ {[events]} in
  set_subscribers (if decide (left = ∅) then delete request (hub_subscribers h)
                   else <[request := left]> (hub_subscribers h)) h.

Definition CanRetry (request : string) (h : Hub) : bool :=
  negb (bool_decide (request ∈ hub_outputStarted h)).
Definition Connected (machineID : string) (h : Hub) : bool :=
  bool_decide (is_Some (hub_sessions h !! machineID)).

Definition unregister (machineID : string) (current : nat) (h : Hub) : Hub :=
  if decide (hub_sessions h !! machineID = Some current)
  then set_sessions_map (delete machineID (hub_sessions h)) h else h.

Definition close_session (s : session) : session :=
  mkSession (ss_machine s) (ss_outbound s) (ss_lastSeen s) false (ss_reader s) (ss_written s).
Definition at_reader (reader : Reader) (s : session) : session :=
  mkSession (ss_machine s) (ss_outbound s) (ss_lastSeen s) (ss_open s) reader (ss_written s).
(** The loop of [ServeHTTP] ends, the connection closed. *)
Definition end_session (s : session) : session := at_reader Leaving (close_session s).
Definition seen_at (now : Z) (s : session) : session :=
  mkSession (ss_machine s) (ss_outbound s) now (ss_open s) (ss_reader s) (ss_written s).
Definition on_session (id : nat) (f : session -> session) (h : Hub) : Hub :=
  set_heap (alter f id (hub_heap h)) h.

(** The part of [ServeHTTP] before its loop: authenticate, then replace the
    session of the machine. *)
Definition connect (auth : option (string -> result string)) (authorization : string) (now : Z) (h : Hub)
  : result (Hub * nat) :=
  let token := TrimPrefix authorization "Bearer " in
  match auth with
  | None => Err ErrUnauthorized
  | Some auth =>
      if String.eqb token "" then Err ErrUnauthorized
      else
        match auth token with
        | Err _ => Err ErrUnauthorized
        | Ok machineID =>
            if String.eqb machineID "" then Err ErrUnauthorized
            else
              let id := hub_fresh h in
              let h := match hub_sessions h !! machineID with
                       | Some old => on_session old close_session h
                       | None => h
                       end in
              let h := set_heap (<[id := mkSession machineID [] now true Reading []]> (hub_heap h)) h in
              Ok (set_fresh (S id) (set_sessions_map (<[machineID := id]> (hub_sessions h)) h), id)
        end
  end.

Section Inbound.
(** The application behind the hub and its capacity handler. *)
Context {W : Type} (CapacityHandler : option (string -> Capacity -> W -> W * result unit)).
Context (parse : string -> option json).

(** One step of [AcceptInbound], from where it is to where it gets to, or to
    what it returns.  [choice] is the subscriber that [publish] comes to next. *)
Definition AcceptInbound (machineID : string) (reader : Reader) (choice : nat) (h : Hub) (w : W)
  : Hub * W * (Reader + result unit) :=
  match reader with
  | Switching envelope =>
      if String.eqb (env_Type envelope) MessageHello then
        match DecodeBody (M := Hello) envelope with
        | Ok hello => (h, w, inr (if String.eqb (h_MachineID hello) machineID then Ok tt else Err ErrInvalidMessage))
        | Err _ => (h, w, inr (Err ErrInvalidMessage))
        end
      else if String.eqb (env_Type envelope) MessageCapacity then
        match DecodeBody (M := Capacity) envelope with
        | Ok capacity =>
            match CapacityHandler with
            | None => (h, w, inl (Publishing envelope))
            | Some handler =>
                match handler machineID capacity w with
                | (w, Ok _) => (h, w, inl (Publishing envelope))
                | (w, Err e) => (h, w, inr (Err e))
                end
            end
        | Err e => (h, w, inr (Err e))
        end
      else if String.eqb (env_Type envelope) MessageJobAccept then
        match DecodeBody (M := JobAccept) envelope with
        | Ok _ => (h, w, inl (Publishing envelope))
        | Err e => (h, w, inr (Err e))
        end
      else if String.eqb (env_Type envelope) MessageOutputChunk then
        match DecodeBody (M := OutputChunk) envelope with
        | Ok chunk =>
            match Accept (hub_chunks h) chunk with
            | Ok tracker => (set_chunks (hub_outputStarted h) tracker h, w, inl (Starting envelope chunk))
            | Err e => (h, w, inr (Err e))
            end
        | Err e => (h, w, inr (Err e))
        end
      else if String.eqb (env_Type envelope) MessageReceiptSignature then
        match DecodeBody (M := ReceiptSignature) envelope with
        | Ok _ => (h, w, inl (Publishing envelope))
        | Err e => (h, w, inr (Err e))
        end
      else (h, w, inr (Err ErrInvalidMessage))
  | Starting envelope chunk =>
      (set_chunks ({[ch_RequestID chunk]} ∪ hub_outputStarted h) (hub_chunks h) h, w, inl (Publishing envelope))
  | Publishing envelope => (h, w, inl (PublishingTo envelope (publish (requestID envelope) h)))
  | PublishingTo envelope remaining =>
      if bool_decide (remaining = ∅) then (h, w, inl (Offering envelope))
      else if bool_decide (choice ∈ remaining) then
        (set_channels (publish_to (mkEvent machineID (env_Type envelope) envelope) (hub_channels h) choice) h, w,
         inl (PublishingTo envelope (remaining ∖ {[choice]})))
      else (h, w, inl reader)
  | Offering envelope =>
      match try_push EventCapacity (hub_events h) (mkEvent machineID (env_Type envelope) envelope) with
      | Some events => (set_events events h, w, inr (Ok tt))
      | None => (h, w, inr (Err ErrBackpressure))
      end
  | Reading | Leaving | Returned => (h, w, inl reader)
  end.

(** The loop of [ServeHTTP] reads a payload; one that does not decode ends it. *)
Definition receive (id : nat) (payload : string) (now : Z) (h : Hub) : Hub :=
  match hub_heap h !! id with
  | Some current =>
      match ss_reader current with
      | Reading =>
          let h := on_session id (seen_at now) h in
          match DecodeEnvelope parse payload (op_MaximumMessage (hub_options h)) with
          | Err _ => on_session id end_session h
          | Ok envelope => on_session id (at_reader (Switching envelope)) h
          end
      | _ => h
      end
  | None => h
  end.

(** The reader goes on with [AcceptInbound]; an error ends the loop. *)
Definition went (id : nat) (outcome : Reader + result unit) (h : Hub) : Hub :=
  match outcome with
  | inl reader => on_session id (at_reader reader) h
  | inr (Ok _) => on_session id (at_reader Reading) h
  | inr (Err _) => on_session id end_session h
  end.
Definition advance (id choice : nat) (h : Hub) (w : W) : Hub * W :=
  match hub_heap h !! id with
  | Some current =>
      let '(h, w, outcome) := AcceptInbound (ss_machine current) (ss_reader current) choice h w in (went id outcome h, w)
  | None => (h, w)
  end.
(** The deferred [unregister]. *)
Definition leave (id : nat) (h : Hub) : Hub :=
  match hub_heap h !! id with
  | Some current =>
      match ss_reader current with
      | Leaving => on_session id (at_reader Returned) (unregister (ss_machine current) id h)
      | _ => h
      end
  | None => h
  end.

(** [connection.Read] failed: the loop returns. *)
Definition hangup (id : nat) (h : Hub) : Hub :=
  match hub_heap h !! id with
  | Some current => match ss_reader current with Reading => on_session id end_session h | _ => h end
  | None => h
  end.

(** One iteration of [writeLoop]; [sent] is the outcome of [connection.Write]. *)
Definition write_one (sent : bool) (s : session) : session :=
  match ss_outbound s with
  | [] => s
  | envelope :: rest =>
      if ss_open s && sent
      then mkSession (ss_machine s) rest (ss_lastSeen s) (ss_open s) (ss_reader s)
             (ss_written s ++ [envelope])
      else mkSession (ss_machine s) rest (ss_lastSeen s) false (ss_reader s) (ss_written s)
  end.

(** One tick of [heartbeatLoop]. *)
Definition heartbeat (id : nat) (now : Z) (h : Hub) : Hub :=
  match hub_heap h !! id with
  | Some current =>
      if op_HeartbeatTimeout (hub_options h) <? now - ss_lastSeen current
      then on_session id close_session (unregister (ss_machine current) id h)
      else h
  | None => h
  end.

(** ** Runs *)
Inductive Action :=
| Connect (auth : option (string -> result string)) (authorization : string) (now : Z)
| Payload (id : nat) (payload : string) (now : Z)
| Advance (id choice : nat)
| Hangup (id : nat)
| Leave (id : nat)
| WriteOne (id : nat) (sent : bool)
| Tick (id : nat) (now : Z)
| SendTo (machineID : string) (envelope : Envelope)
| Subscribed (request : string)
| Unsubscribed (request : string) (channel : nat)
| TakeEvent
| TakeFrom (channel : nat).

(** One action; the second component is the event it takes from [Events()]. *)
Definition perform (a : Action) (h : Hub) (w : W) : Hub * W * list Event :=
  match a with
  | Connect auth authorization now =>
      match connect auth authorization now h with
      | Ok (h, _) => (h, w, [])
      | Err _ => (h, w, [])
      end
  | Payload id payload now => (receive id payload now h, w, [])
  | Advance id choice => let '(h, w) := advance id choice h w in (h, w, [])
  | Leave id => (leave id h, w, [])
  | Hangup id => (hangup id h, w, [])
  | WriteOne id sent => (on_session id (write_one sent) h, w, [])
  | Tick id now => (heartbeat id now h, w, [])
  | SendTo machineID envelope => (fst (Send machineID envelope h), w, [])
  | Subscribed request => (fst (Subscribe request h), w, [])
  | Unsubscribed request channel => (unsubscribe request channel h, w, [])
  | TakeEvent =>
      match hub_events h with
      | [] => (h, w, [])
      | event :: rest => (set_events rest h, w, [event])
      end
  | TakeFrom channel => (set_channels (alter tail channel (hub_channels h)) h, w, [])
  end.

Fixpoint run (actions : list Action) (h : Hub) (w : W) : Hub * W * list Event :=
  match actions with
  | [] => (h, w, [])
  | a :: rest =>
      let '(h, w, taken) := perform a h w in
      let '(h, w, later) := run rest h w in
      (h, w, taken ++ later)
  end.
End Inbound.
Arguments Action : clear implicits.

(** ** Output order *)
Definition envelope_chunk (envelope : Envelope) : option OutputChunk :=
  if String.eqb (env_Type envelope) MessageOutputChunk then
    match DecodeBody (M := OutputChunk) envelope with Ok c => Some c | Err _ => None end
  else None.
Definition event_chunks (request : string) (events : list Event) : list OutputChunk :=
  for_request request (omap (fun e => envelope_chunk (ev_Envelope e)) events).

(** The chunk that a reader had accepted and did not offer yet, and whether the
    output of its request was noted. *)
Definition held (reader : Reader) : option (bool * OutputChunk) :=
  match reader with
  | Starting envelope chunk => Some (false, chunk)
  | Publishing envelope | PublishingTo envelope _ | Offering envelope => pair true <$> envelope_chunk envelope
  | Reading | Switching _ | Leaving | Returned => None
  end.
(** The chunk of the envelope that a reader is handling. *)
Definition in_hand (reader : Reader) : option OutputChunk :=
  match reader with
  | Switching envelope | Starting envelope _ => envelope_chunk envelope
  | other => snd <$> held other
  end.
Definition reader_at (h : Hub) (id : nat) : Reader := from_option ss_reader Returned (hub_heap h !! id).
Definition held_at (h : Hub) (id : nat) : option (bool * OutputChunk) := held (reader_at h id).

(** What the tracker knows of a chunk that it accepted. *)
Definition recorded (h : Hub) (c : OutputChunk) : Prop :=
  0 < ch_Sequence c <= last_of (hub_chunks h) (ch_RequestID c)
  /\ (ch_Done c = true -> closed_of (hub_chunks h) (ch_RequestID c) = true /\ ch_Sequence c = last_of (hub_chunks h) (ch_RequestID c)).
Abbreviation sequences request log := (map ch_Sequence (event_chunks request log)).

(** [log] is what was ever sent to [events]. *)
Record flow_ok (log : list Event) (h : Hub) : Prop := mkFlowOk {
  fo_tracker : tracker_ok (hub_chunks h);
  fo_started : forall request, request ∈ hub_outputStarted h -> 0 < last_of (hub_chunks h) request;
  fo_logged : forall request c, c ∈ event_chunks request log -> recorded h c /\ request ∈ hub_outputStarted h;
  fo_held : forall i b c, held_at h i = Some (b, c) -> recorded h c /\ (b = true -> ch_RequestID c ∈ hub_outputStarted h);
  fo_nodup : forall request, NoDup (sequences request log);
  fo_fresh : forall i b c, held_at h i = Some (b, c) -> ch_Sequence c ∉ sequences (ch_RequestID c) log;
  fo_apart : forall i j bi bj ci cj, i <> j -> held_at h i = Some (bi, ci) -> held_at h j = Some (bj, cj) ->
    ch_RequestID ci = ch_RequestID cj -> ch_Sequence ci <> ch_Sequence cj;
  fo_starting : forall i envelope c, reader_at h i = Starting envelope c -> envelope_chunk envelope = Some c;
}.

Lemma for_request_app id a b : for_request id (a ++ b) = for_request id a ++ for_request id b.
Proof. apply List.filter_app. Qed.
Lemma event_chunks_app request a b : event_chunks request (a ++ b) = event_chunks request a ++ event_chunks request b.
Proof. unfold event_chunks. by rewrite omap_app, for_request_app. Qed.
Lemma event_chunks_one request m ty envelope :
  event_chunks request [mkEvent m ty envelope]
  = match envelope_chunk envelope with
    | Some c => if String.eqb (ch_RequestID c) request then [c] else []
    | None => []
    end.
Proof. unfold event_chunks. cbn. by destruct (envelope_chunk envelope). Qed.
Lemma event_chunks_request request log c : c ∈ event_chunks request log -> ch_RequestID c = request.
Proof. intros Hc. apply list_elem_of_In, filter_In in Hc as [_ Hc]. by apply String.eqb_eq. Qed.

(** ** What the steps do to the flow *)
Inductive flow_step (id : nat) (h h' : Hub) : list Event -> Prop :=
| flow_quiet :
    hub_chunks h' = hub_chunks h -> hub_outputStarted h' = hub_outputStarted h ->
    (forall i, held_at h' i = held_at h i \/ held_at h' i = None) ->
    (forall i envelope c, reader_at h' i = Starting envelope c -> reader_at h i = Starting envelope c) ->
    flow_step id h h' []
| flow_accept envelope c :
    held_at h id = None -> in_hand (reader_at h id) = Some c -> reader_at h' id = Starting envelope c -> envelope_chunk envelope = Some c ->
    (forall i, i <> id -> reader_at h' i = reader_at h i) ->
    Accept (hub_chunks h) c = Ok (hub_chunks h') -> hub_outputStarted h' = hub_outputStarted h ->
    flow_step id h h' []
| flow_start envelope c :
    reader_at h id = Starting envelope c -> reader_at h' id = Publishing envelope ->
    (forall i, i <> id -> reader_at h' i = reader_at h i) ->
    hub_chunks h' = hub_chunks h -> hub_outputStarted h' = {[ch_RequestID c]} ∪ hub_outputStarted h ->
    flow_step id h h' []
| flow_offer m envelope :
    held_at h id = pair true <$> envelope_chunk envelope -> reader_at h' id = Reading ->
    (forall i, i <> id -> reader_at h' i = reader_at h i) ->
    hub_chunks h' = hub_chunks h -> hub_outputStarted h' = hub_outputStarted h ->
    flow_step id h h' [mkEvent m (env_Type envelope) envelope].

Lemma recorded_same h h' c : hub_chunks h' = hub_chunks h -> recorded h c -> recorded h' c.
Proof. unfold recorded. by intros ->. Qed.

Lemma recorded_accept h h' c c' : tracker_ok (hub_chunks h) -> Accept (hub_chunks h) c = Ok (hub_chunks h') ->
  recorded h c' -> recorded h' c' /\ (ch_RequestID c' = ch_RequestID c -> ch_Sequence c' < ch_Sequence c /\ ch_Done c' = false).
Proof.
  intros Ht Ha [Hs Hd]. apply Accept_inv in Ha as (Hopen & Hseq & Hl & Hdone & Hother & _); [|done]. unfold recorded.
  destruct (decide (ch_RequestID c' = ch_RequestID c)) as [E|Hne].
  - rewrite E in *. assert (ch_Done c' = false) as Hf by (destruct (ch_Done c'); [destruct (Hd eq_refl); congruence|done]).
    rewrite Hl, Hf. split; [split; [lia|done]|]. intros _. split; [lia|done].
  - destruct (Hother _ Hne) as [-> ->]. split; [done|]. congruence.
Qed.

Lemma held_others h h' id i : (forall i, i <> id -> reader_at h' i = reader_at h i) -> i <> id -> held_at h' i = held_at h i.
Proof. unfold held_at. by intros H Hi; rewrite H. Qed.

Lemma flow_ok_quiet log h h' :
  hub_chunks h' = hub_chunks h -> hub_outputStarted h' = hub_outputStarted h ->
  (forall i, held_at h' i = held_at h i \/ held_at h' i = None) ->
  (forall i envelope c, reader_at h' i = Starting envelope c -> reader_at h i = Starting envelope c) ->
  flow_ok log h -> flow_ok log h'.
Proof.
  intros Hc Hs Hh Hst []. assert (forall i b c, held_at h' i = Some (b, c) -> held_at h i = Some (b, c)) as Hh'.
  { intros i b c Hi. destruct (Hh i); congruence. }
  split; rewrite ?Hc, ?Hs; try done; [..|eauto].
  - intros request c Hin. destruct (fo_logged0 request c Hin). split; [by eapply recorded_same|done].
  - intros i b c Hi. destruct (fo_held0 i b c (Hh' _ _ _ Hi)). split; [by eapply recorded_same|done].
  - eauto.
  - intros i j bi bj ci cj Hij Hi Hj. eauto.
Qed.

Lemma flow_ok_accept log h h' id envelope c :
  held_at h id = None -> reader_at h' id = Starting envelope c -> envelope_chunk envelope = Some c ->
  (forall i, i <> id -> reader_at h' i = reader_at h i) ->
  Accept (hub_chunks h) c = Ok (hub_chunks h') -> hub_outputStarted h' = hub_outputStarted h ->
  flow_ok log h -> flow_ok log h'.
Proof.
  intros Hnone Hid He Ho Ha Hs [].
  pose proof (fun c' => recorded_accept h h' c c' fo_tracker0 Ha) as Hrec.
  assert (held_at h' id = Some (false, c)) as Hself by (unfold held_at; by rewrite Hid).
  apply Accept_inv in Ha as (Hopen & Hseq & Hl & Hdone & Hother & Hok); [|done].
  assert (recorded h' c) as Hc by (split; rewrite Hl; [pose proof (fo_tracker0 (ch_RequestID c)); lia|intros; split; congruence]).
  assert (forall i b c', held_at h' i = Some (b, c') -> i = id /\ b = false /\ c' = c \/ i <> id /\ held_at h i = Some (b, c')) as Hcase.
  { intros i b c' Hi. destruct (decide (i = id)) as [->|Hne]; [left; split_and!; congruence|]. right.
    by rewrite (held_others h h' id) in Hi. }
  split; rewrite ?Hs; try done.
  - intros request Hr. specialize (fo_started0 request Hr).
    destruct (decide (request = ch_RequestID c)) as [->|Hne]; [lia|]. by destruct (Hother _ Hne) as [-> _].
  - intros request c' Hin. destruct (fo_logged0 request c' Hin) as [Hr ?]. split; [by apply Hrec|done].
  - intros i b c' Hi. destruct (Hcase i b c' Hi) as [(-> & -> & ->)|[Hne Hold]]; [done|].
    destruct (fo_held0 i b c' Hold). split; [by apply Hrec|done].
  - intros i b c' Hi. destruct (Hcase i b c' Hi) as [(-> & -> & ->)|[Hne Hold]]; [|by eapply fo_fresh0].
    intros Hin. apply list_elem_of_fmap in Hin as (d & Hd & Hin). pose proof (event_chunks_request _ _ _ Hin) as Er.
    destruct (fo_logged0 _ d Hin) as [Hr _]. destruct (proj2 (Hrec d Hr) Er). lia.
  - assert (forall i b d, i <> id -> held_at h i = Some (b, d) -> ch_RequestID d = ch_RequestID c -> ch_Sequence d <> ch_Sequence c) as Hnew.
    { intros i b d Hne Hi Er. destruct (fo_held0 i b d Hi) as [Hr _]. destruct (proj2 (Hrec d Hr) Er). lia. }
    intros i j bi bj ci cj Hij Hi Hj Er.
    destruct (Hcase i bi ci Hi) as [(-> & -> & ->)|[Hni Hoi]], (Hcase j bj cj Hj) as [(-> & -> & ->)|[Hnj Hoj]]; [done|..].
    + apply not_eq_sym. by eapply Hnew.
    + by eapply Hnew.
    + by eapply (fo_apart0 i j).
  - intros i e d Hi. destruct (decide (i = id)) as [->|Hne]; [congruence|]. rewrite Ho in Hi by done. eauto.
Qed.

Lemma flow_ok_start log h h' id envelope c :
  reader_at h id = Starting envelope c -> reader_at h' id = Publishing envelope ->
  (forall i, i <> id -> reader_at h' i = reader_at h i) ->
  hub_chunks h' = hub_chunks h -> hub_outputStarted h' = {[ch_RequestID c]} ∪ hub_outputStarted h ->
  flow_ok log h -> flow_ok log h'.
Proof.
  intros Hid Hid' Ho Hc Hs []. assert (envelope_chunk envelope = Some c) as He by eauto.
  assert (held_at h id = Some (false, c)) as Hold by (unfold held_at; by rewrite Hid).
  assert (held_at h' id = Some (true, c)) as Hnew by (unfold held_at; rewrite Hid'; cbn; by rewrite He).
  assert (forall i b c', held_at h' i = Some (b, c') -> exists b', held_at h i = Some (b', c') /\ (i = id \/ b' = b)) as Hcase.
  { intros i b c' Hi. destruct (decide (i = id)) as [->|Hne]; [exists false; split; [congruence|by left]|].
    exists b. rewrite <- (held_others h h' id) by done. auto. }
  split; rewrite ?Hc, ?Hs; try done.
  - intros request Hr. apply elem_of_union in Hr as [Hr%elem_of_singleton|Hr]; [|auto]. subst.
    destruct (fo_held0 _ _ _ Hold) as [[? _] _]. lia.
  - intros request c' Hin. destruct (fo_logged0 request c' Hin). split; [by eapply recorded_same|]. apply elem_of_union. by right.
  - intros i b c' Hi. destruct (Hcase i b c' Hi) as (b' & Hi' & Hb). destruct (fo_held0 i b' c' Hi') as [Hr Hst].
    split; [by eapply recorded_same|]. intros ->. apply elem_of_union. destruct Hb as [->| ->]; [left|right; auto]. apply elem_of_singleton. congruence.
  - intros i b c' Hi. destruct (Hcase i b c' Hi) as (b' & Hi' & _). by eapply fo_fresh0.
  - intros i j bi bj ci cj Hij Hi Hj. destruct (Hcase i _ _ Hi) as (? & ? & _), (Hcase j _ _ Hj) as (? & ? & _). by eapply (fo_apart0 i j).
  - intros i e d Hi. destruct (decide (i = id)) as [->|Hne]; [congruence|]. rewrite Ho in Hi by done. eauto.
Qed.

Lemma flow_ok_offer log h h' id m ty envelope :
  held_at h id = pair true <$> envelope_chunk envelope -> reader_at h' id = Reading ->
  (forall i, i <> id -> reader_at h' i = reader_at h i) ->
  hub_chunks h' = hub_chunks h -> hub_outputStarted h' = hub_outputStarted h ->
  flow_ok log h -> flow_ok (log ++ [mkEvent m ty envelope]) h'.
Proof.
  intros Hid Hid' Ho Hc Hs Hf. assert (held_at h' id = None) as Hnone by (unfold held_at; by rewrite Hid').
  assert (flow_ok log h') as Hf'.
  { apply (flow_ok_quiet log h); try done.
    - intros i. destruct (decide (i = id)) as [->|Hne]; [by right|left; by apply (held_others h h' id)].
    - intros i e d Hi. destruct (decide (i = id)) as [->|Hne]; [congruence|by rewrite <- Ho]. }
  assert (forall i b d, held_at h' i = Some (b, d) -> i <> id /\ held_at h i = Some (b, d)) as Hcase.
  { intros i b d Hi. destruct (decide (i = id)) as [->|Hne]; [congruence|]. by rewrite <- (held_others h h' id). }
  assert (forall request c, c ∈ event_chunks request [mkEvent m ty envelope] ->
    held_at h id = Some (true, c) /\ ch_RequestID c = request /\ event_chunks request [mkEvent m ty envelope] = [c]) as Hone.
  { intros request c. rewrite event_chunks_one, Hid. destruct (envelope_chunk envelope) as [d|]; [|by intros ?%elem_of_nil].
    destruct (String.eqb_spec (ch_RequestID d) request); [|by intros ?%elem_of_nil]. intros ->%list_elem_of_singleton. done. }
  destruct Hf, Hf' as []. split; try done.
  - intros request c. rewrite event_chunks_app, elem_of_app. intros [Hin|Hin]; [by apply fo_logged1|].
    apply Hone in Hin as (Hh & <- & _). destruct (fo_held0 _ _ _ Hh). rewrite Hs. split; [by eapply recorded_same|auto].
  - intros request. rewrite event_chunks_app, map_app. apply NoDup_app. split_and!; [done| |].
    + intros s Hs1 Hs2. apply list_elem_of_fmap in Hs2 as (c & -> & Hin). apply Hone in Hin as (Hh & <- & _). by eapply fo_fresh0.
    + destruct (event_chunks request [_]) as [|c l] eqn:E; [by constructor|].
      destruct (Hone request c) as (_ & _ & E'); [rewrite E; by left|]. rewrite E in E'. injection E' as ->. apply NoDup_singleton.
  - intros i b c Hi Hin. destruct (Hcase i b c Hi) as [Hne Hi']. rewrite event_chunks_app, map_app in Hin.
    apply elem_of_app in Hin as [Hin|Hin]; [by eapply fo_fresh1|].
    apply list_elem_of_fmap in Hin as (d & Hd & Hin). apply Hone in Hin as (Hh & Er & _). by eapply (fo_apart0 i id).
Qed.

Lemma flow_ok_step id log h h' events : flow_step id h h' events -> flow_ok log h -> flow_ok (log ++ events) h'.
Proof.
  intros [] Hf; rewrite ?app_nil_r.
  - by eapply flow_ok_quiet.
  - by eapply flow_ok_accept.
  - by eapply flow_ok_start.
  - by eapply flow_ok_offer.
Qed.

(** *** Over one connection *)
Definition inflight (request : string) (id : nat) (h : Hub) : list OutputChunk :=
  match held_at h id with Some (_, c) => for_request request [c] | None => [] end.
Definition line (request : string) (id : nat) (log : list Event) (h : Hub) : list OutputChunk :=
  event_chunks request log ++ inflight request id h.
(** No other reader handles a chunk of the request, and its chunks are in order. *)
Record single (request : string) (id : nat) (log : list Event) (h : Hub) : Prop := mkSingle {
  sg_others : forall i c, i <> id -> in_hand (reader_at h i) = Some c -> ch_RequestID c <> request;
  sg_sorted : StronglySorted Z.lt (map ch_Sequence (line request id log h));
  sg_done : Forall (fun c => ch_Done c = false) (removelast (line request id log h));
}.
(** A step that brings no chunk of the request into the hands of another reader. *)
Definition stays (request : string) (id : nat) (h h' : Hub) : Prop :=
  forall i c, i <> id -> in_hand (reader_at h' i) = Some c -> in_hand (reader_at h i) = Some c \/ ch_RequestID c <> request.

Lemma held_in_hand reader c : held reader = Some (true, c) -> in_hand reader = Some c.
Proof. destruct reader; cbn; try done; by intros ->. Qed.
Lemma for_request_other request c : ch_RequestID c <> request -> for_request request [c] = [].
Proof. intros H. unfold for_request. cbn. by rewrite (proj2 (String.eqb_neq _ _) H). Qed.

Lemma sorted_prefix (l l' : list OutputChunk) : l' `prefix_of` l ->
  StronglySorted Z.lt (map ch_Sequence l) /\ Forall (fun c => ch_Done c = false) (removelast l) ->
  StronglySorted Z.lt (map ch_Sequence l') /\ Forall (fun c => ch_Done c = false) (removelast l').
Proof.
  intros [k ->] [Hs Hd]. rewrite map_app in Hs. split; [by eapply StronglySorted_app_1_l|].
  destruct k as [|c k]; [by rewrite app_nil_r in Hd|]. rewrite removelast_app in Hd by done. apply Forall_app in Hd as [Hd _].
  destruct l' as [|d l'] using rev_ind; [done|]. rewrite removelast_last. by apply Forall_app in Hd as [Hd _].
Qed.

Lemma line_recorded request id log h c : flow_ok log h -> c ∈ line request id log h -> recorded h c /\ ch_RequestID c = request.
Proof.
  intros [] Hc. apply elem_of_app in Hc as [Hc|Hc].
  - destruct (fo_logged0 _ _ Hc). split; [done|by eapply event_chunks_request].
  - unfold inflight in Hc. destruct (held_at h id) as [[b d]|] eqn:E; [|by apply elem_of_nil in Hc].
    apply list_elem_of_In, filter_In in Hc as [[<-|[]] Er]. apply String.eqb_eq in Er. destruct (fo_held0 _ _ _ E). done.
Qed.

Lemma single_step request id i log h h' events :
  flow_step i h h' events -> stays request id h h' -> flow_ok log h -> single request id log h -> single request id (log ++ events) h'.
Proof.
  intros Hst Hstays Hf [Ho Hs Hd].
  assert (forall j c, j <> id -> in_hand (reader_at h' j) = Some c -> ch_RequestID c <> request) as Ho'.
  { intros j c Hj Hc. destruct (Hstays j c Hj Hc); eauto. }
  enough (StronglySorted Z.lt (map ch_Sequence (line request id (log ++ events) h'))
          /\ Forall (fun c => ch_Done c = false) (removelast (line request id (log ++ events) h'))) as [? ?] by (by split).
  assert (snd <$> held_at h' id = snd <$> held_at h id -> line request id log h' = line request id log h) as Hsame.
  { unfold line, inflight. destruct (held_at h' id) as [[b c]|], (held_at h id) as [[b' c']|]; cbn; intros [=]; by subst. }
  assert (i <> id -> (forall j, j <> i -> reader_at h' j = reader_at h j) -> held_at h' id = held_at h id) as Hkeep
    by (intros Hne Hother; apply (held_others h h' i); auto).
  destruct Hst as [Hc Hst Hh _|envelope c Hnone Hhand Hid He Hother Ha Hst|envelope c Hid Hid' Hother Hc Hst|m envelope Hid Hid' Hother Hc Hst];
    rewrite ?app_nil_r.
  - apply (sorted_prefix (line request id log h)); [|done]. destruct (Hh id) as [E|E]; [rewrite Hsame by (by rewrite E); done|].
    unfold line, inflight at 1. rewrite E, app_nil_r. by eexists.
  - destruct (decide (i = id)) as [->|Hne]; [|rewrite Hsame by (by rewrite (Hkeep Hne Hother)); done].
    assert (held_at h' id = Some (false, c)) as Hh by (unfold held_at; by rewrite Hid).
    destruct (decide (ch_RequestID c = request)) as [<-|Hr].
    2: { unfold line, inflight in *. rewrite Hh, for_request_other by done. rewrite Hnone in *. done. }
    assert (line (ch_RequestID c) id log h' = line (ch_RequestID c) id log h ++ [c]) as ->.
    { unfold line, inflight. rewrite Hh, Hnone, app_nil_r. unfold for_request. cbn. by rewrite String.eqb_refl. }
    assert (forall d, d ∈ line (ch_RequestID c) id log h -> ch_Sequence d < ch_Sequence c /\ ch_Done d = false) as Hl.
    { intros d Hin. destruct (line_recorded _ _ _ _ _ Hf Hin) as [Hr Er].
      exact (proj2 (recorded_accept h h' c d (fo_tracker _ _ Hf) Ha Hr) Er). }
    rewrite map_app, removelast_last. split; [|apply Forall_forall; intros d Hin; by apply Hl].
    apply StronglySorted_app_2; [|done|repeat constructor].
    intros x y Hx Hy. apply list_elem_of_singleton in Hy as ->. apply list_elem_of_fmap in Hx as (d & -> & Hin). by apply Hl.
  - rewrite Hsame; [done|]. destruct (decide (i = id)) as [->|Hne]; [|by rewrite (Hkeep Hne Hother)].
    unfold held_at. rewrite Hid, Hid'. cbn. by rewrite (fo_starting _ _ Hf _ _ _ Hid).
  - assert (event_chunks request [mkEvent m (env_Type envelope) envelope] = match held_at h i with Some (_, c) => for_request request [c] | None => [] end) as He.
    { rewrite event_chunks_one, Hid. by destruct (envelope_chunk envelope). }
    unfold line in *. rewrite event_chunks_app, He. destruct (decide (i = id)) as [->|Hne].
    + fold (inflight request id h). unfold inflight at 2 4, held_at. rewrite Hid'. by rewrite app_nil_r.
    + unfold inflight in *. rewrite (Hkeep Hne Hother). destruct (held_at h i) as [[b c]|] eqn:Ei; [|by rewrite app_nil_r].
      assert (b = true) as -> by (destruct (envelope_chunk envelope); cbn in Hid; congruence).
      rewrite (for_request_other request c); [by rewrite app_nil_r|]. apply (Ho i); [done|]. by eapply held_in_hand.
Qed.

Section RelayProofs.
Context {W : Type} (CapacityHandler : option (string -> Capacity -> W -> W * result unit)).
Context (parse : string -> option json).

(** *** The actions *)
Lemma reader_at_on_session i f h j :
  reader_at (on_session i f h) j = if decide (i = j) then from_option (fun s => ss_reader (f s)) Returned (hub_heap h !! j) else reader_at h j.
Proof.
  unfold reader_at. cbn. case_decide as E; [subst; rewrite lookup_alter_eq; by destruct (hub_heap h !! j)|by rewrite lookup_alter_ne].
Qed.
Lemma reader_at_keeps i f h j : (forall s, ss_reader (f s) = ss_reader s) -> reader_at (on_session i f h) j = reader_at h j.
Proof. intros Hf. rewrite reader_at_on_session. case_decide as E; [|done]. subst. unfold reader_at. destruct (hub_heap h !! j); cbn; auto. Qed.
Lemma reader_at_set i reader h j s : hub_heap h !! i = Some s ->
  reader_at (on_session i (at_reader reader) h) j = if decide (i = j) then reader else reader_at h j.
Proof. intros Hs. rewrite reader_at_on_session. case_decide as E; [subst; by rewrite Hs|done]. Qed.
Lemma reader_at_end i h j s : hub_heap h !! i = Some s ->
  reader_at (on_session i end_session h) j = if decide (i = j) then Leaving else reader_at h j.
Proof. intros Hs. rewrite reader_at_on_session. case_decide as E; [subst; by rewrite Hs|done]. Qed.
Lemma reader_at_heap h h' j : hub_heap h' = hub_heap h -> reader_at h' j = reader_at h j.
Proof. unfold reader_at. by intros ->. Qed.

(** What a step that touches no reader but [id]'s does to the flow, when it
    leaves the tracker, the notes and [events] alone. *)
Definition flow (h : Hub) := (hub_chunks h, hub_outputStarted h).
Lemma quiet_step id h h' : flow h' = flow h -> (forall j, j <> id -> reader_at h' j = reader_at h j) ->
  (held_at h' id = held_at h id \/ held_at h' id = None) ->
  (forall envelope c, reader_at h' id = Starting envelope c -> reader_at h id = Starting envelope c) ->
  flow_step id h h' [].
Proof.
  intros [= Hc Hs] Ho Hh Hst. apply flow_quiet; try done.
  - intros i. destruct (decide (i = id)) as [->|Hne]; [done|left; by apply (held_others h h' id)].
  - intros i. destruct (decide (i = id)) as [->|Hne]; [done|by rewrite Ho].
Qed.

(** What one step of [AcceptInbound] leaves alone, and what it makes of the
    flow when its reader goes on to [next]. *)
Definition next_reader (outcome : Reader + result unit) : Reader :=
  match outcome with inl reader => reader | inr (Ok _) => Reading | inr (Err _) => Leaving end.
Lemma AcceptInbound_heap m reader choice h w h' w' outcome :
  AcceptInbound CapacityHandler m reader choice h w = (h', w', outcome) ->
  hub_heap h' = hub_heap h /\ hub_sessions h' = hub_sessions h.
Proof.
  unfold AcceptInbound. intros Ha. repeat match type of Ha with match ?x with _ => _ end = _ => destruct x end; simplify_eq; done.
Qed.
Lemma AcceptInbound_step id current choice h w h1 w' outcome h' :
  hub_heap h !! id = Some current ->
  AcceptInbound CapacityHandler (ss_machine current) (ss_reader current) choice h w = (h1, w', outcome) ->
  flow h' = flow h1 -> (forall j, reader_at h' j = if decide (id = j) then next_reader outcome else reader_at h j) ->
  (exists events, flow_step id h h' events /\ hub_events h1 = hub_events h ++ events)
  /\ (forall c, in_hand (next_reader outcome) = Some c -> in_hand (ss_reader current) = Some c).
Proof.
  intros Hcur Ha [= Hc Hs] Hr. set (reader := ss_reader current) in *.
  assert (reader_at h id = reader) as Hid by (unfold reader_at; by rewrite Hcur).
  assert (reader_at h' id = next_reader outcome) as Hid' by (rewrite Hr; by case_decide).
  assert (forall j, j <> id -> reader_at h' j = reader_at h j) as Ho by (intros j Hj; rewrite Hr; by case_decide).
  assert (flow h1 = flow h -> hub_events h1 = hub_events h ->
    held (next_reader outcome) = held reader \/ held (next_reader outcome) = None ->
    (forall e c, next_reader outcome <> Starting e c) ->
    (exists events, flow_step id h h' events /\ hub_events h1 = hub_events h ++ events)) as Hquiet.
  { intros [= E1 E2] E3 Hh Hn. exists []. split; [|by rewrite app_nil_r]. apply quiet_step; [unfold flow; congruence|done| |].
    - unfold held_at. by rewrite Hid, Hid'.
    - intros e c He. rewrite Hid' in He. by destruct (Hn e c). }
  destruct reader as [|envelope|envelope c|envelope|envelope remaining|envelope| |] eqn:Er; cbn [AcceptInbound] in Ha.
  - injection Ha as <- <- <-. split; [apply Hquiet; auto; done|done].
  - repeat match type of Ha with
    | (if String.eqb ?a ?b then _ else _) = _ => destruct (String.eqb_spec a b) as [Ht|?]
    | match ?x with _ => _ end = _ => destruct x eqn:?
    end; simplify_eq; cbn [next_reader] in *.
    all: try (split; [apply Hquiet; auto; done|done]).
    all: try (split; [apply Hquiet; auto; try done; right; cbn; unfold envelope_chunk; rewrite Ht; done|cbn; unfold envelope_chunk; by rewrite Ht]).
    + destruct (String.eqb _ _); cbn; (split; [apply Hquiet; auto; done|done]).
    + assert (envelope_chunk envelope = Some a) as He.
      { unfold envelope_chunk. rewrite Ht. cbn. by match goal with H : DecodeBody envelope = _ |- _ => rewrite H end. }
      split; [|cbn; congruence]. exists []. split; [|cbn; by rewrite app_nil_r].
      apply (flow_accept _ _ _ envelope a); try done; [unfold held_at; by rewrite Hid|by rewrite Hid|by rewrite Hc].
  - injection Ha as <- <- <-. split.
    + exists []. split; [|cbn; by rewrite app_nil_r]. by apply (flow_start _ _ _ envelope c).
    + cbn. intros d. by destruct (envelope_chunk envelope).
  - injection Ha as <- <- <-. split; [apply Hquiet; auto; done|done].
  - repeat case_bool_decide; simplify_eq; cbn [next_reader] in *; (split; [apply Hquiet; auto; done|done]).
  - destruct (try_push _ _ _) as [events|] eqn:P; simplify_eq; cbn [next_reader] in *; [|split; [apply Hquiet; auto; done|done]].
    split; [|done]. unfold try_push in P. case_decide; [|done]. injection P as <-.
    eexists. split; [|reflexivity]. apply flow_offer; try done. unfold held_at. by rewrite Hid.
  - injection Ha as <- <- <-. split; [apply Hquiet; auto; done|done].
  - injection Ha as <- <- <-. split; [apply Hquiet; auto; done|done].
Qed.

(** Only a chunk of the request that arrives over another connection gets into
    the hands of another reader. *)
Definition carried_by (request : string) (owner : nat) (a : Action) : Prop :=
  match a with
  | Payload i payload _ => forall maximum envelope c, DecodeEnvelope parse payload maximum = Ok envelope ->
      envelope_chunk envelope = Some c -> ch_RequestID c = request -> i = owner
  | _ => True
  end.

Definition stepped (a : Action) (h h' : Hub) (taken : list Event) : Prop :=
  exists id events, flow_step id h h' events /\ taken ++ hub_events h' = hub_events h ++ events
    /\ forall request owner, carried_by request owner a -> stays request owner h h'.

Lemma stays_same request owner h h' : (forall i c, in_hand (reader_at h' i) = Some c -> in_hand (reader_at h i) = Some c) -> stays request owner h h'.
Proof. intros H i c _ Hc. left. auto. Qed.

(** Steps that leave every reader as it was, or ended. *)
Lemma stepped_quiet a h h' taken : flow h' = flow h -> taken ++ hub_events h' = hub_events h ->
  (forall i, reader_at h' i = reader_at h i \/ reader_at h' i = Leaving \/ reader_at h' i = Returned \/ reader_at h' i = Reading) ->
  stepped a h h' taken.
Proof.
  intros [= Hc Hs] He Hr. exists 0%nat, []. split_and!; [|by rewrite app_nil_r|].
  - apply flow_quiet; try done.
    + intros i. unfold held_at. destruct (Hr i) as [->|[->|[->| ->]]]; auto.
    + intros i e c. destruct (Hr i) as [->|[->|[->| ->]]]; done.
  - intros request owner _. apply stays_same. intros i c. destruct (Hr i) as [->|[->|[->| ->]]]; done.
Qed.

Lemma unregister_heap m i h : hub_heap (unregister m i h) = hub_heap h.
Proof. unfold unregister. by case_decide. Qed.
Lemma unregister_flow m i h : flow (unregister m i h) = flow h /\ hub_events (unregister m i h) = hub_events h.
Proof. unfold unregister. by case_decide. Qed.

Lemma reader_at_went id outcome h h1 current : hub_heap h1 = hub_heap h -> hub_heap h !! id = Some current ->
  forall j, reader_at (went id outcome h1) j = if decide (id = j) then next_reader outcome else reader_at h j.
Proof.
  intros Hheap Hcur j. assert (hub_heap h1 !! id = Some current) as Hcur1 by (by rewrite Hheap).
  destruct outcome as [reader|[[]|e]]; cbn [went]; rewrite ?(reader_at_set _ _ _ _ _ Hcur1), ?(reader_at_end _ _ _ _ Hcur1); cbn [next_reader];
    case_decide; try done; by apply reader_at_heap.
Qed.

Lemma stepped_advance id choice h w h' w' : advance CapacityHandler id choice h w = (h', w') -> stepped (Advance id choice) h h' [].
Proof.
  unfold advance. intros Ha. destruct (hub_heap h !! id) as [current|] eqn:Hcur; [|injection Ha as <- <-; apply stepped_quiet; auto].
  destruct (AcceptInbound _ _ _ _ _ _) as [[h1 w1] outcome] eqn:Hacc. injection Ha as <- _.
  pose proof (AcceptInbound_heap _ _ _ _ _ _ _ _ Hacc) as [Hheap _].
  pose proof (reader_at_went id outcome h h1 current Hheap Hcur) as Hr.
  destruct (AcceptInbound_step id current choice h w h1 w1 outcome (went id outcome h1) Hcur Hacc) as ((events & Hst & He) & Hhand);
    [by destruct outcome as [reader|[[]|e]]|exact Hr|].
  exists id, events. split_and!; [done| |].
  - cbn [app]. rewrite <- He. by destruct outcome as [reader|[[]|e]].
  - intros request owner _. apply stays_same. intros i c. rewrite Hr. case_decide as E; [|done]. subst i. intros Hc. apply Hhand in Hc.
    unfold reader_at. by rewrite Hcur.
Qed.

Lemma stepped_leave id h : stepped (Leave id) h (leave id h) [].
Proof.
  unfold leave. destruct (hub_heap h !! id) as [current|] eqn:Hcur; [|apply stepped_quiet; auto].
  destruct (ss_reader current); try (apply stepped_quiet; auto; done).
  destruct (unregister_flow (ss_machine current) id h) as [Hf He]. apply stepped_quiet; [exact Hf|exact He|]. intros i.
  rewrite (reader_at_set _ _ _ _ current) by (by rewrite unregister_heap). case_decide; [auto|left; apply reader_at_heap, unregister_heap].
Qed.

Lemma stepped_receive id payload now h : stepped (Payload id payload now) h (receive parse id payload now h) [].
Proof.
  unfold receive. destruct (hub_heap h !! id) as [current|] eqn:Hcur; [|apply stepped_quiet; auto].
  destruct (ss_reader current) eqn:Er; try (apply stepped_quiet; auto; done).
  set (h1 := on_session id (seen_at now) h).
  assert (forall i, reader_at h1 i = reader_at h i) as H1 by (intros i; by apply reader_at_keeps).
  assert (hub_heap h1 !! id = Some (seen_at now current)) as Hcur1 by (cbn; by rewrite lookup_alter_eq, Hcur).
  destruct (DecodeEnvelope _ _ _) as [envelope|] eqn:D.
  2: { apply stepped_quiet; [done..|]. intros i. rewrite (reader_at_end _ _ _ _ Hcur1). case_decide; [auto|left; apply H1]. }
  assert (forall j, reader_at (on_session id (at_reader (Switching envelope)) h1) j = if decide (id = j) then Switching envelope else reader_at h j) as Hr.
  { intros j. rewrite (reader_at_set _ _ _ _ _ Hcur1). by rewrite H1. }
  exists id, []. split_and!; [|cbn; by rewrite app_nil_r|].
  - apply quiet_step; [done|intros j Hj; rewrite Hr; by case_decide| |intros e c; rewrite Hr; by case_decide].
    right. unfold held_at. rewrite Hr. by case_decide.
  - intros request owner Hcarry i c Hi. rewrite Hr. case_decide as E; [|by left]. subst i. cbn. intros He. right. intros Er'.
    apply Hi. by eapply Hcarry.
Qed.

Lemma stepped_perform a h w h' w' taken : perform CapacityHandler parse a h w = (h', w', taken) ->
  (forall i, hub_heap h !! i <> None -> (i < hub_fresh h)%nat) -> stepped a h h' taken.
Proof.
  intros Hp Hfresh. destruct a; simpl in Hp.
  - destruct (connect auth authorization now h) as [[g i]|] eqn:C; simplify_eq; [|apply stepped_quiet; auto].
    unfold connect in C. destruct auth as [auth|]; [|done].
    destruct (String.eqb _ ""); [done|]. destruct (auth _) as [m|]; [|done]. destruct (String.eqb m ""); [done|]. injection C as <- <-.
    apply stepped_quiet; [by destruct (hub_sessions h !! m)..|]. intros j.
    destruct (decide (hub_fresh h = j)) as [<-|Hne]; [right; right; right; unfold reader_at; cbn; by rewrite lookup_insert_eq|].
    left. unfold reader_at at 1. cbn. rewrite lookup_insert_ne by done.
    destruct (hub_sessions h !! m) as [old|]; [|done]. by apply (reader_at_keeps old close_session h j).
  - simplify_eq. apply stepped_receive.
  - destruct (advance CapacityHandler id choice h w) as [g v] eqn:E. simplify_eq. by eapply stepped_advance.
  - simplify_eq. apply stepped_quiet; [unfold hangup; by repeat case_match..|]. intros i. unfold hangup.
    destruct (hub_heap h !! id) as [s|] eqn:Hs; [|auto]. destruct (ss_reader s); auto.
    rewrite (reader_at_end _ _ _ _ Hs). case_decide; auto.
  - simplify_eq. apply stepped_leave.
  - simplify_eq. apply stepped_quiet; [done..|]. intros i. left. apply reader_at_keeps. intros s. unfold write_one. by repeat case_match.
  - simplify_eq. unfold heartbeat. destruct (hub_heap h !! id) as [s|]; [|apply stepped_quiet; auto].
    destruct (_ <? _); [|apply stepped_quiet; auto]. destruct (unregister_flow (ss_machine s) id h) as [Hf He].
    apply stepped_quiet; [exact Hf|exact He|]. intros i. left. rewrite reader_at_keeps by done. apply reader_at_heap, unregister_heap.
  - simplify_eq. apply stepped_quiet; [unfold Send; by repeat case_match..|]. intros i. left. unfold Send.
    destruct (hub_sessions h !! machineID) as [j|]; [|done]. destruct (hub_heap h !! j) as [s|] eqn:Hs; [|done].
    destruct (try_push _ _ _); [|done]. unfold reader_at. cbn. destruct (decide (j = i)) as [->|]; [by rewrite lookup_insert_eq, Hs|].
    by rewrite lookup_insert_ne.
  - simplify_eq. apply stepped_quiet; auto.
  - simplify_eq. apply stepped_quiet; auto.
  - destruct (hub_events h) as [|event rest] eqn:E; simplify_eq; apply stepped_quiet; auto.
  - simplify_eq. apply stepped_quiet; auto.
Qed.
End RelayProofs.

(** ** Sessions and queues *)
Section Sessions.
Context {W : Type} (CapacityHandler : option (string -> Capacity -> W -> W * result unit)).
Context (parse : string -> option json).

(** What a hub holds is well formed: identities are below [hub_fresh], every
    buffer is within its capacity, and a request is in [subscribers] only
    while a channel is subscribed to it. *)
Record hub_ok (h : Hub) : Prop := mkHubOk {
  ok_session : forall m id, hub_sessions h !! m = Some id ->
    exists s, hub_heap h !! id = Some s /\ ss_machine s = m;
  ok_heap : forall id s, hub_heap h !! id = Some s ->
    (id < hub_fresh h)%nat /\ (length (ss_outbound s) <= Z.to_nat (op_QueueSize (hub_options h)))%nat;
  ok_events : (length (hub_events h) <= EventCapacity)%nat;
  ok_channels : forall c buffer, hub_channels h !! c = Some buffer ->
    (c < hub_fresh h)%nat /\ (length buffer <= SubscriberCapacity)%nat;
  ok_subscribers : forall request cs, hub_subscribers h !! request = Some cs ->
    cs <> ∅ /\ forall c, c ∈ cs -> is_Some (hub_channels h !! c);
  ok_remaining : forall id s envelope cs, hub_heap h !! id = Some s -> ss_reader s = PublishingTo envelope cs ->
    forall c, c ∈ cs -> is_Some (hub_channels h !! c);
}.

Lemma try_push_bound {A} n (l : list A) x l' : try_push n l x = Some l' -> (length l' <= n)%nat.
Proof. unfold try_push. case_decide; intros; simplify_eq. rewrite length_app. simpl. lia. Qed.

Lemma hub_ok_new o : hub_ok (NewHub o).
Proof. split; simpl; intros; try (by rewrite lookup_empty in *); unfold EventCapacity; lia. Qed.

Lemma hub_ok_on_session id f h :
  (forall s, ss_machine (f s) = ss_machine s /\ (length (ss_outbound (f s)) <= length (ss_outbound s))%nat) ->
  (forall s envelope cs, hub_heap h !! id = Some s -> ss_reader (f s) = PublishingTo envelope cs ->
     forall c, c ∈ cs -> is_Some (hub_channels h !! c)) ->
  hub_ok h -> hub_ok (on_session id f h).
Proof.
  intros Hf Hr [H1 H2 H3 H4 H5 H6]. split; try done; cbn [on_session set_heap hub_heap hub_sessions hub_fresh hub_options hub_channels].
  - intros m i Hi. destruct (H1 m i Hi) as (s & Hs & Hm).
    destruct (decide (id = i)) as [->|Hne].
    + exists (f s). rewrite lookup_alter_eq, Hs. destruct (Hf s) as [E _]. simpl. split; congruence.
    + exists s. by rewrite lookup_alter_ne.
  - intros i s. destruct (decide (id = i)) as [->|Hne].
    + rewrite lookup_alter_eq. destruct (hub_heap h !! i) as [s0|] eqn:E; simpl; [|done].
      intros [= <-]. destruct (H2 i s0 E), (Hf s0). split; [done|lia].
    + rewrite lookup_alter_ne by done. apply H2.
  - intros i s e cs. destruct (decide (id = i)) as [->|Hne].
    + rewrite lookup_alter_eq. destruct (hub_heap h !! i) as [s0|] eqn:E; simpl; [|done]. intros [= <-]. by apply Hr.
    + rewrite lookup_alter_ne by done. apply H6.
Qed.
(** The reader stays, or goes on to where it has no subscribers left. *)
Lemma hub_ok_session id f h : (forall s, ss_machine (f s) = ss_machine s /\ (length (ss_outbound (f s)) <= length (ss_outbound s))%nat) ->
  (forall s, ss_reader (f s) = ss_reader s \/ forall e cs, ss_reader (f s) <> PublishingTo e cs) -> hub_ok h -> hub_ok (on_session id f h).
Proof.
  intros Hf Hr Hok. apply hub_ok_on_session; [done| |done]. intros s e cs Hs He.
  destruct (Hr s) as [E|E]; [rewrite E in He; by eapply ok_remaining|by apply E in He].
Qed.

Lemma hub_ok_unregister m id h : hub_ok h -> hub_ok (unregister m id h).
Proof.
  intros [H1 H2 H3 H4 H5 H6]. unfold unregister. case_decide; [|by split].
  split; try done. simpl. intros m' i. rewrite lookup_delete_Some. intros [_ Hi]. by apply H1.
Qed.

Lemma hub_ok_end id h : hub_ok h -> hub_ok (on_session id end_session h).
Proof. apply hub_ok_session; [intros s; split; [done|simpl; lia]|by right]. Qed.

Lemma publish_to_channels event channels c c' buffer :
  publish_to event channels c !! c' = Some buffer ->
  (c' = c /\ (length buffer <= SubscriberCapacity)%nat) \/ channels !! c' = Some buffer.
Proof.
  unfold publish_to. destruct (try_push _ _ event) as [b|] eqn:E; [|auto].
  destruct (decide (c = c')) as [->|Hne].
  - rewrite lookup_insert_eq. intros [= <-]. left. split; [done|]. by eapply try_push_bound.
  - rewrite lookup_insert_ne by done. auto.
Qed.

Lemma publish_to_Some event channels c c' :
  is_Some (channels !! c') -> is_Some (publish_to event channels c !! c').
Proof.
  intros Hc. unfold publish_to. destruct (try_push _ _ event) as [b|]; [|done].
  destruct (decide (c = c')) as [->|]; [by rewrite lookup_insert_eq|by rewrite lookup_insert_ne].
Qed.

Lemma hub_ok_publish_to event choice h : is_Some (hub_channels h !! choice) -> hub_ok h ->
  hub_ok (set_channels (publish_to event (hub_channels h) choice) h).
Proof.
  intros Hc [H1 H2 H3 H4 H5 H6]. split; try done; cbn [set_channels hub_channels hub_fresh hub_subscribers hub_heap].
  - intros c buffer Hb. destruct (publish_to_channels _ _ _ _ _ Hb) as [[-> Hl]|Hold]; [|by apply H4].
    split; [|done]. destruct Hc as [b0 Hb0]. by apply (H4 _ _ Hb0).
  - intros r cs Hr. destruct (H5 r cs Hr) as [Hne Hcs]. split; [done|]. intros c Hin. by apply publish_to_Some, Hcs.
  - intros i s e cs Hi Hs c Hin. apply publish_to_Some. by eapply H6.
Qed.

(** The subscribers that [publish] goes through have a channel. *)
Lemma publish_channels request h c : hub_ok h -> c ∈ publish request h -> is_Some (hub_channels h !! c).
Proof.
  intros Hok. unfold publish. destruct (String.eqb request ""); [set_solver|].
  destruct (hub_subscribers h !! request) as [cs|] eqn:E; cbn; [|set_solver]. by eapply ok_subscribers.
Qed.

Lemma hub_ok_AcceptInbound id current choice h w h' w' outcome :
  hub_heap h !! id = Some current ->
  AcceptInbound CapacityHandler (ss_machine current) (ss_reader current) choice h w = (h', w', outcome) ->
  hub_ok h -> hub_ok h' /\ forall e cs, next_reader outcome = PublishingTo e cs -> forall c, c ∈ cs -> is_Some (hub_channels h' !! c).
Proof.
  intros Hcur Ha Hok.
  assert (forall started tracker, hub_ok (set_chunks started tracker h)) as Hc by (intros; destruct Hok; by split).
  pose proof (fun e cs => ok_remaining _ Hok id current e cs Hcur) as Hrem.
  destruct (ss_reader current) as [|envelope|envelope c|envelope|envelope remaining|envelope| |] eqn:Er; cbn [AcceptInbound] in Ha.
  - simplify_eq. done.
  - repeat match type of Ha with match ?x with _ => _ end = _ => destruct x end; simplify_eq; (split; [auto|]); cbn; try done;
      by destruct (String.eqb _ _).
  - simplify_eq. split; [apply Hc|done].
  - simplify_eq. split; [done|]. intros e cs [= <- <-] c Hin. by eapply publish_channels.
  - specialize (Hrem _ _ eq_refl). repeat case_bool_decide; simplify_eq; [done| |by split; [done|intros e cs [= <- <-]]].
    split; [by apply hub_ok_publish_to; [apply Hrem|]|]. intros e cs [= <- <-] c Hin.
    cbn. apply publish_to_Some, Hrem. by apply elem_of_difference in Hin as [Hin _].
  - destruct (try_push _ _ _) as [events|] eqn:P; simplify_eq; [|done]. split; [|done].
    destruct Hok as [H1 H2 H3 H4 H5 H6]. split; try done. by eapply try_push_bound.
  - simplify_eq. done.
  - simplify_eq. done.
Qed.

Lemma hub_ok_advance id choice h w h' w' : advance CapacityHandler id choice h w = (h', w') -> hub_ok h -> hub_ok h'.
Proof.
  unfold advance. intros Ha Hok. destruct (hub_heap h !! id) as [current|] eqn:Hcur; [|by simplify_eq].
  destruct (AcceptInbound _ _ _ _ _ _) as [[h1 w1] outcome] eqn:A. injection Ha as <- _.
  destruct (hub_ok_AcceptInbound _ _ _ _ _ _ _ _ Hcur A Hok) as [Hok1 Hnext].
  destruct outcome as [reader|[[]|e]]; cbn [went next_reader] in *; [|apply hub_ok_session; [done|by right|done]|by apply hub_ok_end].
  apply hub_ok_on_session; [done| |done]. intros s e cs _. apply Hnext.
Qed.

Lemma hub_ok_receive id payload now h : hub_ok h -> hub_ok (receive parse id payload now h).
Proof.
  unfold receive. intros Hok. destruct (hub_heap h !! id) as [current|]; [|done]. destruct (ss_reader current); try done.
  assert (hub_ok (on_session id (seen_at now) h)) as H1 by (apply hub_ok_session; [done|by left|done]).
  destruct (DecodeEnvelope _ _ _) as [envelope|]; [|by apply hub_ok_end]. apply hub_ok_session; [done|by right|done].
Qed.

Lemma hub_ok_connect auth a now h h' id :
  connect auth a now h = Ok (h', id) -> hub_ok h ->
  hub_ok h' /\ id = hub_fresh h /\ hub_heap h !! id = None
  /\ exists m, hub_sessions h' = <[m := id]> (hub_sessions h).
Proof.
  unfold connect. intros Hc Hok. destruct auth as [auth|]; [|done].
  destruct (String.eqb _ ""); [done|]. destruct (auth _) as [m|]; [|done].
  destruct (String.eqb m ""); [done|]. injection Hc as <- <-.
  set (h1 := match hub_sessions h !! m with Some old => on_session old close_session h | None => h end).
  assert (hub_ok h1 /\ hub_fresh h1 = hub_fresh h /\ hub_sessions h1 = hub_sessions h
          /\ hub_options h1 = hub_options h) as (Hok1 & Hf & Hs & Ho).
  { unfold h1. destruct (hub_sessions h !! m); split_and!; try done. apply hub_ok_session; [done|by left|done]. }
  assert (hub_heap h !! hub_fresh h = None) as Hnone.
  { destruct (hub_heap h !! hub_fresh h) eqn:E; [|done]. apply (ok_heap _ Hok) in E. lia. }
  assert (hub_heap h1 !! hub_fresh h = None) as Hnone1.
  { destruct (hub_heap h1 !! hub_fresh h) eqn:E; [|done]. apply (ok_heap _ Hok1) in E. lia. }
  split_and!; try done; [|exists m; simpl; by rewrite Hs].
  destruct Hok1 as [H1 H2 H3 H4 H5 H6]. split; try done;
    cbn [set_fresh set_sessions_map set_heap hub_sessions hub_heap hub_fresh hub_options hub_channels].
  - intros m' i. destruct (decide (m = m')) as [->|Hne].
    + rewrite lookup_insert_eq. intros [= <-]. rewrite lookup_insert_eq. eauto.
    + rewrite lookup_insert_ne by done. intros Hi. destruct (H1 m' i Hi) as (s & Hs' & Hm).
      exists s. rewrite lookup_insert_ne by congruence. done.
  - intros i s. destruct (decide (hub_fresh h = i)) as [<-|Hne].
    + rewrite lookup_insert_eq. intros [= <-]. simpl. lia.
    + rewrite lookup_insert_ne by done. intros Hi. destruct (H2 i s Hi). lia.
  - intros c b Hb. destruct (H4 c b Hb). lia.
  - intros i s e cs. destruct (decide (hub_fresh h = i)) as [<-|Hne]; [rewrite lookup_insert_eq; by intros [= <-]|].
    rewrite lookup_insert_ne by done. apply H6.
Qed.

Lemma hub_ok_Send m e h : hub_ok h -> hub_ok (fst (Send m e h)).
Proof.
  intros Hok. unfold Send. destruct (hub_sessions h !! m) as [id|]; [|done].
  destruct (hub_heap h !! id) as [s|] eqn:E; [|done].
  destruct (try_push _ _ e) as [outbound|] eqn:P; [|done]. apply try_push_bound in P. simpl.
  destruct Hok as [H1 H2 H3 H4 H5 H6]. split; try done; simpl.
  - intros m' i Hi. destruct (H1 m' i Hi) as (s' & Hs & Hm).
    destruct (decide (id = i)) as [->|]; [rewrite lookup_insert_eq; simplify_eq; eauto|].
    rewrite lookup_insert_ne by done. eauto.
  - intros i s'. destruct (decide (id = i)) as [->|]; [rewrite lookup_insert_eq|rewrite lookup_insert_ne by done].
    + intros [= <-]. destruct (H2 i s E). split; [done|]. done.
    + apply H2.
  - intros i s' e' cs. destruct (decide (id = i)) as [->|]; [rewrite lookup_insert_eq|rewrite lookup_insert_ne by done; apply H6].
    intros [= <-]. exact (H6 i s e' cs E).
Qed.

Lemma hub_ok_Subscribe request h : hub_ok h -> hub_ok (fst (Subscribe request h)).
Proof.
  intros [H1 H2 H3 H4 H5 H6]. split; simpl.
  - exact H1.
  - intros i s Hi. destruct (H2 i s Hi). split; [lia|done].
  - exact H3.
  - intros c b. destruct (decide (hub_fresh h = c)) as [<-|].
    + rewrite lookup_insert_eq. intros [= <-]. simpl. lia.
    + rewrite lookup_insert_ne by done. intros Hb. destruct (H4 c b Hb). lia.
  - intros r cs. destruct (decide (request = r)) as [->|].
    + rewrite lookup_insert_eq. intros [= <-]. split; [set_solver|].
      intros c Hc. destruct (decide (hub_fresh h = c)) as [<-|Hne]; [by rewrite lookup_insert_eq|].
      rewrite lookup_insert_ne by done. apply elem_of_union in Hc as [Hc|Hc]; [set_solver|].
      destruct (hub_subscribers h !! r) as [cs|] eqn:E; [|set_solver]. by eapply H5.
    + rewrite lookup_insert_ne by done. intros Hr. destruct (H5 r cs Hr) as [Hne Hcs]. split; [done|].
      intros c Hc. destruct (decide (hub_fresh h = c)) as [<-|]; [by rewrite lookup_insert_eq|].
      rewrite lookup_insert_ne by done. by apply Hcs.
  - intros i s e cs Hi Hs c Hc. destruct (decide (hub_fresh h = c)) as [<-|]; [by rewrite lookup_insert_eq|].
    rewrite lookup_insert_ne by done. by eapply H6.
Qed.

Lemma hub_ok_unsubscribe request c h : hub_ok h -> hub_ok (unsubscribe request c h).
Proof.
  intros [H1 H2 H3 H4 H5 H6]. split; try done. simpl. intros r cs. case_decide.
  - rewrite lookup_delete_Some. intros [_ Hr]. by eapply H5.
  - destruct (decide (request = r)) as [->|]; [rewrite lookup_insert_eq|rewrite lookup_insert_ne by done; apply H5].
    intros [= <-]. split; [done|]. intros c' Hc'. apply elem_of_difference in Hc' as [Hc' _].
    destruct (hub_subscribers h !! r) as [cs|] eqn:E; [|set_solver]. by eapply H5.
Qed.

Lemma write_one_smaller sent s : ss_machine (write_one sent s) = ss_machine s
  /\ (length (ss_outbound (write_one sent s)) <= length (ss_outbound s))%nat.
Proof. unfold write_one. destruct (ss_outbound s) as [|e l] eqn:E; [by rewrite E|]. case_match; simpl; auto with lia. Qed.

Lemma write_one_reader sent s : ss_reader (write_one sent s) = ss_reader s.
Proof. unfold write_one. by repeat case_match. Qed.

Lemma hub_ok_perform a h w h' w' taken :
  perform CapacityHandler parse a h w = (h', w', taken) -> hub_ok h -> hub_ok h'.
Proof.
  intros Hp Hok. destruct a; simpl in Hp.
  - destruct (connect _ _ _ h) as [[g i]|] eqn:C; simplify_eq; [|done]. by eapply hub_ok_connect.
  - simplify_eq. by apply hub_ok_receive.
  - destruct (advance _ _ _ h w) as [g v] eqn:A. simplify_eq. by eapply hub_ok_advance.
  - simplify_eq. unfold hangup. repeat case_match; try done. by apply hub_ok_end.
  - simplify_eq. unfold leave. repeat case_match; try done. apply hub_ok_session; [done|by right|by apply hub_ok_unregister].
  - simplify_eq. apply hub_ok_session; [apply write_one_smaller|left; apply write_one_reader|done].
  - simplify_eq. unfold heartbeat. repeat case_match; try done.
    apply hub_ok_session; [done|by left|]. by apply hub_ok_unregister.
  - simplify_eq. by apply hub_ok_Send.
  - simplify_eq. by apply hub_ok_Subscribe.
  - simplify_eq. by apply hub_ok_unsubscribe.
  - destruct (hub_events h) as [|e l] eqn:E; simplify_eq; [done|].
    destruct Hok as [H1 H2 H3 H4 H5 H6]. split; try done. simpl. rewrite E in H3. simpl in H3. lia.
  - simplify_eq. assert (forall c, is_Some (hub_channels h !! c) -> is_Some (alter tail channel (hub_channels h) !! c)) as Hsome.
    { intros c Hc. destruct (decide (channel = c)) as [->|]; [by rewrite lookup_alter_eq, fmap_is_Some|by rewrite lookup_alter_ne]. }
    destruct Hok as [H1 H2 H3 H4 H5 H6]. split; try done; simpl.
    + intros c b. destruct (decide (channel = c)) as [->|]; [rewrite lookup_alter_eq|by rewrite lookup_alter_ne by done; apply H4].
      destruct (hub_channels h !! c) as [b0|] eqn:E; simpl; [|done]. intros [= <-].
      destruct (H4 c b0 E). split; [done|]. destruct b0; simpl in *; lia.
    + intros r cs Hr. destruct (H5 r cs Hr) as [Hne Hcs]. split; [done|]. intros c Hc. by apply Hsome, Hcs.
    + intros i s e cs Hi Hs c Hc. by eapply Hsome, H6.
Qed.

Lemma hub_ok_run actions : forall h w h' w' taken,
  run CapacityHandler parse actions h w = (h', w', taken) -> hub_ok h -> hub_ok h'.
Proof.
  induction actions as [|a actions IH]; intros h w h' w' taken Hr Hok; simpl in Hr; [by simplify_eq|].
  destruct (perform _ _ a h w) as [[h1 w1] t1] eqn:P. destruct (run _ _ actions h1 w1) as [[h2 w2] t2] eqn:R.
  simplify_eq. eapply IH; [exact R|]. by eapply hub_ok_perform.
Qed.

(** The hub's memory stays bounded and consistent: after any run every
    registered machine points to a session opened for that machine, no queue
    exceeds its capacity, and a request has an entry in [subscribers] only
    while some live channel is subscribed to it. *)
Theorem relay_bounded (o : Options) (actions : list Action) (w : W) :
  let '(h, _, _) := run CapacityHandler parse actions (NewHub o) w in hub_ok h.
Proof.
  destruct (run _ _ actions (NewHub o) w) as [[h v] taken] eqn:R.
  eapply hub_ok_run; [exact R|apply hub_ok_new].
Qed.

(** *** Reconnection *)
(** An action of another connection or machine. *)
Definition foreign (id : nat) (machine : string) (a : Action) : Prop :=
  match a with
  | Connect (Some auth) authorization _ => auth (TrimPrefix authorization "Bearer ") <> Ok machine
  | Payload i _ _ | Advance i _ | Hangup i | Leave i | Tick i _ => i <> id
  | _ => True
  end.

Lemma unregister_foreign m m' i id h : i <> id ->
  hub_sessions h !! m = Some id -> hub_sessions (unregister m' i h) !! m = Some id.
Proof.
  intros Hi Hm. unfold unregister. case_decide; [|done]. simpl.
  rewrite lookup_delete_ne; [done|]. intros ->. congruence.
Qed.

Lemma receive_sessions id payload now h : hub_sessions (receive parse id payload now h) = hub_sessions h.
Proof. unfold receive. by repeat case_match. Qed.
Lemma advance_sessions id choice h w : hub_sessions (fst (advance CapacityHandler id choice h w)) = hub_sessions h.
Proof.
  unfold advance. destruct (hub_heap h !! id) as [current|]; [|done].
  destruct (AcceptInbound _ _ _ _ _ _) as [[h1 w1] outcome] eqn:A. apply AcceptInbound_heap in A as [_ A].
  by destruct outcome as [reader|[[]|e]].
Qed.

Lemma perform_foreign a h w h' w' taken m id :
  perform CapacityHandler parse a h w = (h', w', taken) -> foreign id m a ->
  hub_sessions h !! m = Some id -> hub_sessions h' !! m = Some id.
Proof.
  intros Hp Hf Hm. destruct a; simpl in Hp, Hf.
  - destruct (connect auth authorization now h) as [[g i]|] eqn:C; simplify_eq; [|done].
    unfold connect in C. destruct auth as [auth|]; [|done].
    destruct (String.eqb _ ""); [done|]. destruct (auth _) as [m'|]; [|done].
    destruct (String.eqb m' ""); [done|]. injection C as <- _. simpl.
    rewrite lookup_insert_ne by congruence. by destruct (hub_sessions h !! m').
  - simplify_eq. by rewrite receive_sessions.
  - pose proof (advance_sessions id0 choice h w) as Hs. destruct (advance _ _ _ h w) as [g v]. simplify_eq. cbn in Hs. by rewrite Hs.
  - simplify_eq. unfold hangup. by repeat case_match.
  - simplify_eq. unfold leave. repeat case_match; try done. by apply unregister_foreign.
  - by simplify_eq.
  - simplify_eq. unfold heartbeat. repeat case_match; try done. simpl. by apply unregister_foreign.
  - simplify_eq. unfold Send. by repeat case_match.
  - by simplify_eq.
  - by simplify_eq.
  - destruct (hub_events h); by simplify_eq.
  - by simplify_eq.
Qed.

(** A reconnect is never undone by the connection it replaced: once a
    machine connected again, its new session stays registered and reachable
    whatever the old connection's reader, deferred cleanup and heartbeat and
    all other machines do, until the new connection itself ends. *)
Theorem relay_reconnect auth authorization now h h1 machine id actions w :
  connect (Some auth) authorization now h = Ok (h1, id) ->
  auth (TrimPrefix authorization "Bearer ") = Ok machine ->
  Forall (foreign id machine) actions ->
  let '(h2, _, _) := run CapacityHandler parse actions h1 w in
  hub_sessions h2 !! machine = Some id /\ Connected machine h2 = true.
Proof.
  intros Hc Hauth Hall.
  assert (hub_sessions h1 !! machine = Some id) as Hm.
  { unfold connect in Hc. rewrite Hauth in Hc. destruct (String.eqb _ ""); [done|].
    destruct (String.eqb machine ""); [done|]. injection Hc as <- <-. simpl. by rewrite lookup_insert_eq. }
  clear Hc. revert h1 w Hm.
  induction Hall as [|a actions Ha _ IH]; intros h1 w Hm; simpl.
  - split; [done|]. unfold Connected. by rewrite Hm.
  - destruct (perform _ _ a h1 w) as [[h2 w2] t2] eqn:P. specialize (IH h2 w2).
    destruct (run _ _ actions h2 w2) as [[h3 w3] t3]. apply IH. by eapply perform_foreign.
Qed.

(** *** Frames of one connection *)
(** The frames written to an open connection and those still queued, in order. *)
Definition frames (s : session) : list Envelope := ss_written s ++ ss_outbound s.

Definition extends (s s' : session) : Prop :=
  ss_open s' = true -> ss_open s = true /\ ss_written s `prefix_of` ss_written s'
                      /\ frames s `prefix_of` frames s'.

Lemma extends_refl s : extends s s.
Proof. intros ->. done. Qed.

Lemma extends_trans s1 s2 s3 : extends s1 s2 -> extends s2 s3 -> extends s1 s3.
Proof.
  intros H12 H23 H3. destruct (H23 H3) as (H2 & W2 & F2). destruct (H12 H2) as (H1 & W1 & F1).
  split_and!; [done|by etrans|by etrans].
Qed.

Lemma extends_on_session i f h id s :
  (forall x, extends x (f x)) -> hub_heap h !! id = Some s ->
  exists s', hub_heap (on_session i f h) !! id = Some s' /\ extends s s'.
Proof.
  intros Hf Hs. simpl. destruct (decide (i = id)) as [->|].
  - exists (f s). by rewrite lookup_alter_eq, Hs.
  - exists s. rewrite lookup_alter_ne by done. split; [done|apply extends_refl].
Qed.

Lemma extends_close s : extends s (close_session s). Proof. done. Qed.
Lemma extends_end s : extends s (end_session s). Proof. done. Qed.
Lemma extends_at reader s : extends s (at_reader reader s). Proof. by intros ?. Qed.
Lemma extends_seen now s : extends s (seen_at now s). Proof. by intros ?. Qed.
Lemma extends_write sent s : extends s (write_one sent s).
Proof.
  unfold write_one. destruct (ss_outbound s) as [|e l] eqn:E; [apply extends_refl|].
  destruct (ss_open s && sent) eqn:G; [|done]. intros Ho. unfold frames. simpl in *. rewrite E.
  split_and!; [done|by exists [e]|]. by rewrite <- app_assoc.
Qed.

Lemma perform_extends a h w h' w' taken id s :
  perform CapacityHandler parse a h w = (h', w', taken) -> hub_ok h -> hub_heap h !! id = Some s ->
  exists s', hub_heap h' !! id = Some s' /\ extends s s'.
Proof.
  intros Hp Hok Hs.
  assert (exists s', hub_heap h !! id = Some s' /\ extends s s') as Hsame by (exists s; split; [done|apply extends_refl]).
  destruct a; simpl in Hp.
  - destruct (connect auth authorization now h) as [[g i]|] eqn:C; simplify_eq; [|done].
    destruct (hub_ok_connect _ _ _ _ _ _ C Hok) as (_ & -> & Hnone & _).
    unfold connect in C. destruct auth as [auth|]; [|done].
    destruct (String.eqb _ ""); [done|]. destruct (auth _) as [m|]; [|done].
    destruct (String.eqb m ""); [done|]. injection C as <-. simpl.
    rewrite lookup_insert_ne by congruence.
    destruct (hub_sessions h !! m); [|done]. by apply extends_on_session.
  - simplify_eq. unfold receive. destruct (hub_heap h !! id0) as [current|]; [|done]. destruct (ss_reader current); try done.
    destruct (extends_on_session id0 (seen_at now) h id s (extends_seen now) Hs) as (s1 & Hs1 & He1).
    destruct (DecodeEnvelope _ _ _) as [envelope|];
      [destruct (extends_on_session id0 (at_reader (Switching envelope)) _ id s1 (extends_at _) Hs1) as (s2 & Hs2 & He2)
      |destruct (extends_on_session id0 end_session _ id s1 extends_end Hs1) as (s2 & Hs2 & He2)];
      (exists s2; split; [done|by eapply extends_trans]).
  - unfold advance in Hp. destruct (hub_heap h !! id0) as [current|]; [|by simplify_eq].
    destruct (AcceptInbound _ _ _ _ _ _) as [[h1 w1] outcome] eqn:A. simplify_eq. apply AcceptInbound_heap in A as [A _].
    rewrite <- A in Hs. destruct outcome as [reader|[[]|e]]; cbn [went];
      (apply extends_on_session; [first [apply extends_at|apply extends_end]|done]).
  - simplify_eq. unfold hangup. destruct (hub_heap h !! id0) as [current|]; [|done]. destruct (ss_reader current); try done.
    apply extends_on_session; [apply extends_end|done].
  - simplify_eq. unfold leave. destruct (hub_heap h !! id0) as [current|]; [|done]. destruct (ss_reader current); try done.
    apply extends_on_session; [apply extends_at|]. by rewrite unregister_heap.
  - simplify_eq. apply extends_on_session; [apply extends_write|done].
  - simplify_eq. unfold heartbeat. repeat case_match; try done.
    apply extends_on_session; [apply extends_close|]. by rewrite unregister_heap.
  - simplify_eq. unfold Send. destruct (hub_sessions h !! machineID) as [i|]; [|done].
    destruct (hub_heap h !! i) as [c|] eqn:E; [|done]. destruct (try_push _ _ _) as [o|] eqn:P; [|done]. simpl.
    destruct (decide (i = id)) as [->|]; [rewrite lookup_insert_eq|by rewrite lookup_insert_ne].
    eexists. split; [done|]. simplify_eq. intros Ho. simpl in Ho. unfold frames. simpl. split_and!; [done..|].
    unfold try_push in P. case_decide; simplify_eq. rewrite app_assoc. by eexists.
  - by simplify_eq.
  - by simplify_eq.
  - destruct (hub_events h); by simplify_eq.
  - by simplify_eq.
Qed.

(** Envelopes reach a provider in the order they were sent: along any run
    the frames written to a connection, followed by its queue, only grow at
    the end while the connection is open - nothing queued is dropped,
    duplicated or overtaken - and a closed connection is never written again. *)
Theorem relay_fifo o before w h w1 t0 id s : forall actions h' w' taken,
  run CapacityHandler parse before (NewHub o) w = (h, w1, t0) ->
  hub_heap h !! id = Some s ->
  run CapacityHandler parse actions h w1 = (h', w', taken) ->
  exists s', hub_heap h' !! id = Some s' /\ extends s s'.
Proof.
  intros actions h' w' taken R0 Hs R.
  pose proof (hub_ok_run _ _ _ _ _ _ R0 (hub_ok_new o)) as Hok. clear R0.
  revert h w1 s taken Hok Hs R. induction actions as [|a actions IH]; intros h w1 s taken Hok Hs R; simpl in R.
  - simplify_eq. exists s. split; [done|apply extends_refl].
  - destruct (perform _ _ a h w1) as [[h2 w2] t2] eqn:P.
    destruct (run _ _ actions h2 w2) as [[h3 w3] t3] eqn:R'. simplify_eq.
    destruct (perform_extends _ _ _ _ _ _ _ _ P Hok Hs) as (s2 & Hs2 & He2).
    destruct (IH h2 w2 s2 t3 (hub_ok_perform _ _ _ _ _ _ P Hok) Hs2 R') as (s3 & Hs3 & He3).
    exists s3. split; [done|]. by eapply extends_trans.
Qed.
(** *** Output order *)
Lemma reader_at_new o i : reader_at (NewHub o) i = Returned.
Proof. unfold reader_at. cbn. by rewrite lookup_empty. Qed.
Lemma held_at_new o i : held_at (NewHub o) i = None.
Proof. unfold held_at. by rewrite reader_at_new. Qed.
Lemma flow_ok_new o : flow_ok [] (NewHub o).
Proof.
  split; cbn.
  - apply tracker_ok_new.
  - intros request Hr. set_solver.
  - intros request c Hc. by apply elem_of_nil in Hc.
  - intros i b c Hi. by rewrite held_at_new in Hi.
  - intros request. constructor.
  - intros i b c Hi. by rewrite held_at_new in Hi.
  - intros i j bi bj ci cj _ Hi. by rewrite held_at_new in Hi.
  - intros i e c Hi. by rewrite reader_at_new in Hi.
Qed.
Lemma single_new request owner o : single request owner [] (NewHub o).
Proof.
  split; [|by repeat constructor..]. intros i c _ Hi. by rewrite reader_at_new in Hi.
Qed.

(** What was sent to [events] before an action is, after it, what was taken and
    what is still there. *)
Lemma flow_run actions : forall log before h w h' w' taken,
  run CapacityHandler parse actions h w = (h', w', taken) -> hub_ok h -> log = before ++ hub_events h -> flow_ok log h ->
  flow_ok (before ++ taken ++ hub_events h') h'
  /\ forall request owner, Forall (carried_by parse request owner) actions -> single request owner log h ->
       single request owner (before ++ taken ++ hub_events h') h'.
Proof.
  induction actions as [|a actions IH]; intros log before h w h' w' taken R Hok Hlog Hf; simpl in R.
  { injection R as <- <- <-. subst log. split; [done|]. by intros request owner _ Hs. }
  destruct (perform _ _ a h w) as [[h1 w1] t1] eqn:P. destruct (run _ _ actions h1 w1) as [[h2 w2] t2] eqn:R'. simplify_eq.
  assert (forall i, hub_heap h !! i <> None -> (i < hub_fresh h)%nat) as Hfresh.
  { intros i Hi. destruct (hub_heap h !! i) as [s|] eqn:E; [|done]. apply (ok_heap _ Hok) in E. lia. }
  destruct (stepped_perform CapacityHandler parse a h w h1 w1 t1 P Hfresh) as (id & events & Hst & He & Hstays).
  pose proof (flow_ok_step _ _ _ _ _ Hst Hf) as Hf1.
  assert ((before ++ hub_events h) ++ events = (before ++ t1) ++ hub_events h1) as Hlog1 by (by rewrite <- !app_assoc, He).
  destruct (IH _ (before ++ t1) h1 w1 h' w' t2 R' (hub_ok_perform _ _ _ _ _ _ P Hok) Hlog1 Hf1) as [Hfin Hsingle].
  assert ((before ++ t1) ++ t2 ++ hub_events h' = before ++ (t1 ++ t2) ++ hub_events h') as Hassoc by (by rewrite <- !app_assoc).
  rewrite Hassoc in Hfin, Hsingle. split; [exact Hfin|].
  intros request owner Hall Hs. apply Forall_cons in Hall as [Ha Hall]. apply Hsingle; [done|].
  eapply single_step; [exact Hst|by apply Hstays|done|done].
Qed.

(** C9. Through the hub the output of a request stays in order, however
    connections, providers and subscribers interleave between the critical
    sections of the hub.  The chunks of a request that are taken from [Events]
    have positive and distinct sequence numbers, none above that of one marked
    done; once one was taken the hub refuses to retry the request elsewhere, for
    good; and when the chunks of the request all arrive over one connection, they
    are taken in the order of their sequence numbers and nothing follows the one
    marked done.  Over two connections they may overtake each other between the
    tracker and [Events]: [two_connections_overtake]. *)
Theorem relay_output_order (o : Options) (actions : list Action) (w : W) (request : string) :
  let '(h, _, taken) := run CapacityHandler parse actions (NewHub o) w in
  let chunks := event_chunks request taken in
  NoDup (map ch_Sequence chunks) /\ Forall (fun c => 0 < ch_Sequence c) chunks
  /\ (forall c d, c ∈ chunks -> d ∈ chunks -> ch_Done d = true -> ch_Sequence c <= ch_Sequence d)
  /\ (chunks <> [] -> CanRetry request h = false)
  /\ forall id, Forall (carried_by parse request id) actions ->
       StronglySorted Z.lt (map ch_Sequence chunks) /\ Forall (fun c => ch_Done c = false) (removelast chunks).
Proof.
  destruct (run _ _ actions (NewHub o) w) as [[h v] taken] eqn:R.
  destruct (flow_run _ [] [] _ _ _ _ _ R (hub_ok_new o) eq_refl (flow_ok_new o)) as [Hf Hsingle]. cbn [app] in Hf, Hsingle. cbv zeta.
  assert (forall c, c ∈ event_chunks request taken -> recorded h c /\ request ∈ hub_outputStarted h /\ ch_RequestID c = request) as Hlog.
  { intros c Hc. destruct (fo_logged _ _ Hf request c) as [? ?]; [rewrite event_chunks_app; apply elem_of_app; by left|].
    split_and!; [done..|by eapply event_chunks_request]. }
  split_and!.
  - pose proof (fo_nodup _ _ Hf request) as Hn. rewrite event_chunks_app, map_app in Hn. by apply NoDup_app in Hn as [? _].
  - apply Forall_forall. intros c Hc. destruct (Hlog c Hc) as ([? _] & _). lia.
  - intros c d Hc Hd Hdone. destruct (Hlog c Hc) as ([? _] & _ & Ec), (Hlog d Hd) as ([_ Hd'] & _ & Ed).
    destruct (Hd' Hdone) as [_ ->]. rewrite Ec in *. rewrite Ed. lia.
  - intros Hne. destruct (event_chunks request taken) as [|c l] eqn:E; [done|]. destruct (Hlog c) as (_ & Hs & _); [by left|].
    unfold CanRetry. by rewrite bool_decide_eq_true_2.
  - intros id Hall. destruct (Hsingle request id Hall (single_new _ _ _)) as [_ Hs Hd].
    apply (sorted_prefix (line request id (taken ++ hub_events h) h)); [|done].
    unfold line. rewrite event_chunks_app, <- app_assoc. by eexists.
Qed.
End Sessions.

(** ** A sample run *)
Module Sample.
Definition no_parse (s : string) : option json := None.
Definition auth (token : string) : result string :=
  if String.eqb token "t1" then Ok "mach_1" else Err ErrInvalidCredential.
Definition options := mkOptions 2 (30 * Second) 4096.
Definition chunk (sequence : Z) (data : string) (done : bool) :=
  mkOutputChunk "0xaa" sequence data done 0 0 0 "".
Definition frame (c : OutputChunk) := mkEnvelope ProtocolVersion MessageOutputChunk "e" (Some (chunk_json c)).
(** A parser that knows the frames of the sample. *)
Definition parse (s : string) : option json :=
  if String.eqb s "one" then Some (envelope_json (frame (chunk 1 "hi" false)))
  else if String.eqb s "two" then Some (envelope_json (frame (chunk 2 "" true)))
  else None.
(** A frame that is read and handled without a pause. *)
Definition handled (id : nat) (payload : string) (now : Z) : list Action :=
  [Payload id payload now; Advance id 0; Advance id 0; Advance id 0; Advance id 1; Advance id 0; Advance id 0].
Definition actions : list Action :=
  [Connect (Some auth) "Bearer t1" 0; Subscribed "0xaa"] ++ handled 0 "one" 1 ++ handled 0 "two" 2
  ++ [TakeEvent; TakeEvent; SendTo "mach_1" (frame (chunk 1 "x" false));
      Connect (Some auth) "Bearer t1" 3; Hangup 0; Leave 0; Tick 0 99].
Definition final := run (W := unit) None parse actions (NewHub options) tt.

Example delivered : map ch_Sequence (event_chunks "0xaa" (snd final)) = [1; 2].
Proof. vm_compute. reflexivity. Qed.

Example reconnected : hub_sessions (fst (fst final)) !! "mach_1" = Some 2%nat.
Proof. vm_compute. reflexivity. Qed.
(** The machine reconnects while the reader of its first connection is between
    the tracker and [Events]. *)
Definition overtaking : list Action :=
  [Connect (Some auth) "Bearer t1" 0; Payload 0 "one" 1; Advance 0 0; Connect (Some auth) "Bearer t1" 2]
  ++ handled 1 "two" 3 ++ [Advance 0 0; Advance 0 0; Advance 0 0; Advance 0 0; TakeEvent; TakeEvent].
Lemma two_connections_overtake :
  map ch_Sequence (event_chunks "0xaa" (snd (run (W := unit) None parse overtaking (NewHub options) tt))) = [2; 1].
Proof. vm_compute. reflexivity. Qed.
End Sample.

Definition sample_hub : Hub := fst (fst (run (W := unit) None Sample.parse (take 19 Sample.actions) (NewHub Sample.options) tt)).

Definition sample_reconnected : Hub * nat :=
  match connect (Some Sample.auth) "Bearer t1" 3 sample_hub with Ok p => p | Err _ => (sample_hub, 0%nat) end.

Lemma relay_reconnect_witness :
  let '(h2, _, _) := run (W := unit) None Sample.parse [Hangup 0; Leave 0; Tick 0 99; Payload 0 "one" 5]
                       (fst sample_reconnected) tt in
  hub_sessions h2 !! "mach_1" = Some 2%nat /\ Connected "mach_1" h2 = true.
Proof.
  refine (relay_reconnect None Sample.parse Sample.auth "Bearer t1" 3 sample_hub
           (fst sample_reconnected) "mach_1" 2 [Hangup 0; Leave 0; Tick 0 99; Payload 0 "one" 5] tt _ _ _).
  - vm_compute. reflexivity.
  - reflexivity.
  - repeat constructor; simpl; lia.
Defined.

Definition sample_session : session :=
  default (mkSession "" [] 0 false Reading []) (hub_heap sample_hub !! 0%nat).
Definition sample_written : Hub :=
  fst (fst (run (W := unit) None Sample.parse [WriteOne 0 true] sample_hub tt)).

Lemma relay_fifo_witness :
  exists s', hub_heap sample_written !! 0%nat = Some s' /\ extends sample_session s'.
Proof.
  refine (relay_fifo (W := unit) None Sample.parse Sample.options (take 19 Sample.actions) tt sample_hub tt
            (snd (run (W := unit) None Sample.parse (take 19 Sample.actions) (NewHub Sample.options) tt))
            0 sample_session [WriteOne 0 true] sample_written tt [] _ _ _);
    vm_compute; reflexivity.
Defined.

Example sample_written_frames :
  length (ss_written (default sample_session (hub_heap sample_written !! 0%nat))) = 1%nat.
Proof. vm_compute. reflexivity. Qed.

(** Both chunks come over the first connection. *)
Lemma actions_carried : Forall (carried_by Sample.parse "0xaa" 0) Sample.actions.
Proof.
  unfold Sample.actions, Sample.handled. cbn [app].
  repeat (apply Forall_cons; split; [first [exact I|intros ? ? ? _ _ _; reflexivity]|]). apply Forall_nil_2.
Qed.
Lemma relay_output_order_witness :
  let '(h, _, taken) := run (W := unit) None Sample.parse Sample.actions (NewHub Sample.options) tt in
  let chunks := event_chunks "0xaa" taken in
  length chunks = 2%nat /\ StronglySorted Z.lt (map ch_Sequence chunks) /\ CanRetry "0xaa" h = false.
Proof.
  pose proof (relay_output_order (W := unit) None Sample.parse Sample.options Sample.actions tt "0xaa") as H.
  assert (length (event_chunks "0xaa" (snd (run (W := unit) None Sample.parse Sample.actions (NewHub Sample.options) tt))) = 2%nat) as Hlen
    by (vm_compute; reflexivity).
  destruct (run None Sample.parse Sample.actions (NewHub Sample.options) tt) as [[h v] taken]. cbn [snd] in Hlen.
  destruct H as (_ & _ & _ & Hretry & Hone). split; [exact Hlen|]. split; [exact (proj1 (Hone 0%nat actions_carried))|].
  apply Hretry. intros Hn. rewrite Hn in Hlen. discriminate Hlen.
Defined.
