(* ===== verification/Coordinator.v ===== *)
(** * The settlement coordinator (server/internal/settlement/coordinator.go)

    [Complete] records a completion, prepares the receipt, asks the provider's
    machine to sign it through the hub, checks the signature and enqueues the
    co-signed receipt.  While it waits, other goroutines change the hub and the
    database: [others] is what they did before the loop ends.  The wait itself
    is a list of the wake-ups of its [select]. *)

From S2P Require Import Prelude GoStrings GoTime Wire Receipt Messages Proposals Db Hex Store Settlement Sample Relay.
Open Scope string_scope.
Open Scope list_scope.
Open Scope Z_scope.

(** chain.ReceiptTerms, the fields the coordinator reads *)
Record ReceiptTerms := mkReceiptTerms {
  te_ChainID : Z;
  te_Contract : Address;
  te_SettlementSigner : Address;
  te_FeeBasisPoints : Z;
  te_FeeVersion : Z;
}.

(** One wake-up of the [select]: the context ended, the timer fired, or an
    event arrived on the subscription. *)
Inductive Wake := ContextDone (e : error) | TimerFired | Received (event : Event).

(** [make([]byte, 20); copy(contract[:], b)] *)
Definition copy_address (b : bytes) : Address := take 20 b ++ replicate (20 - length (take 20 b)) 0.

Section Coordinator.
Context `{Ethereum}.
Context {PublicKey : Type} (Keccak256 : list bytes -> Hash) (Pack : list abi_value -> result bytes)
  (SigToPub : bytes -> bytes -> result PublicKey) (PubkeyToAddress : PublicKey -> Address)
  (receiptTypeText domainTypeText nameText versionText : bytes).
(** The RPC calls of the broker's chain client. *)
Context (broker_ReceiptTerms : result ReceiptTerms) (broker_SignReceipt : ChainReceipt -> result bytes).

Abbreviation Recover := (RecoverReceiptSigner Keccak256 Pack SigToPub PubkeyToAddress
  receiptTypeText domainTypeText nameText versionText).

Definition receipt_domain (terms : ReceiptTerms) : ReceiptDomain :=
  mkReceiptDomain (te_ChainID terms) (AddressHex (te_Contract terms))
    (AddressHex (te_SettlementSigner terms)) (te_FeeBasisPoints terms) (te_FeeVersion terms).

(** The body of the [event] case once the event is a signature of the machine. *)
Definition accept_signature (now : Z) (terms : ReceiptTerms) (receipt : Receipt) (expectedSigner : string)
    (envelope : Envelope) (d : Db) : result Db :=
  let contract := copy_address (te_Contract terms) in
  signed ← DecodeBody (M := ReceiptSignature) envelope;
  match Recover receipt (te_ChainID terms) contract (rs_Signature signed) with
  | Err _ => Err (ErrNew "provider receipt signature is invalid")
  | Ok recovered =>
      if negb (bool_decide (recovered = rs_Signer signed))
         || negb (EqualFold (AddressHex (BytesToAddress recovered)) expectedSigner)
      then Err (ErrNew "provider receipt signature is invalid")
      else
        match ProviderSignerAllowed (te_ChainID terms) (AddressHex (te_Contract terms))
                (r_Provider receipt) (rs_Signer signed) d with
        | Ok true =>
            settlementSignature ← broker_SignReceipt (toChainReceipt receipt);
            Enqueue now (mkSignedReceipt (toChainReceipt receipt) (rs_Signature signed) settlementSignature) d
        | _ => Err (ErrNew "provider receipt signer is not authorized")
        end
  end.

(** The loop; [None] while it still waits. *)
Fixpoint await_signature (now : Z) (terms : ReceiptTerms) (receipt : Receipt) (machineID expectedSigner : string)
    (wakes : list Wake) (d : Db) : option (result Db) :=
  match wakes with
  | [] => None
  | ContextDone e :: _ => Some (Err e)
  | TimerFired :: _ => Some (Err (ErrNew "provider receipt signature timed out"))
  | Received event :: rest =>
      if negb (String.eqb (ev_Type event) MessageReceiptSignature)
         || negb (String.eqb (ev_MachineID event) machineID)
      then await_signature now terms receipt machineID expectedSigner rest d
      else Some (accept_signature now terms receipt expectedSigner (ev_Envelope event) d)
  end.

(** The result: the database and hub after the call, and its error; the error
    is absent while the call still waits. *)
Definition Complete (now : Z) (completed : Completion) (others : Db * Hub -> Db * Hub) (wakes : list Wake)
    (d : Db) (hub : Hub) : Db * Hub * option (result unit) :=
  match CompleteInference now completed d with
  | Err e => (d, hub, Some (Err e))
  | Ok d =>
      match broker_ReceiptTerms with
      | Err e => (d, hub, Some (Err e))
      | Ok terms =>
          match PrepareReceipt now (cp_RequestID completed) (receipt_domain terms) d with
          | Err e => (d, hub, Some (Err e))
          | Ok (receipt, machineID, expectedSigner, d) =>
              let contract := copy_address (te_Contract terms) in
              let '(hub, events) := Subscribe (cp_RequestID completed) hub in
              let proposal := mkReceiptProposal (cp_RequestID completed) (te_ChainID terms) contract receipt in
              let cancel hub := unsubscribe (cp_RequestID completed) events hub in
              match NewEnvelope ("receipt-" +:+ cp_RequestID completed) MessageReceiptProposal proposal with
              | Err e => (d, cancel hub, Some (Err e))
              | Ok envelope =>
                  match Send machineID envelope hub with
                  | (hub, Err e) => (d, cancel hub, Some (Err e))
                  | (hub, Ok _) =>
                      let '(d, hub) := others (d, hub) in
                      match await_signature now terms receipt machineID expectedSigner wakes d with
                      | None => (d, hub, None)
                      | Some (Err e) => (d, cancel hub, Some (Err e))
                      | Some (Ok d) => (d, cancel hub, Some (Ok tt))
                      end
                  end
              end
          end
      end
  end.

(** ** What a success means *)
(** A queue row carries a receipt whose provider signature was checked. *)
Definition countersigned (terms : ReceiptTerms) (receipt : Receipt) (expectedSigner : string) (d : Db)
    (signed : SignedReceipt) : Prop :=
  sr_Receipt signed = toChainReceipt receipt
  /\ exists signer,
       Recover receipt (te_ChainID terms) (copy_address (te_Contract terms)) (sr_ProviderSignature signed) = Ok signer
       /\ EqualFold (AddressHex (BytesToAddress signer)) expectedSigner = true
       /\ ProviderSignerAllowed (te_ChainID terms) (AddressHex (te_Contract terms)) (r_Provider receipt) signer d
          = Ok true
       /\ broker_SignReceipt (toChainReceipt receipt) = Ok (sr_SettlementSignature signed).

(** The message that carries a provider signature. *)
Definition carries (envelope : Envelope) (signed : SignedReceipt) : Prop :=
  exists body, DecodeBody (M := ReceiptSignature) envelope = Ok body /\ rs_Signature body = sr_ProviderSignature signed.

Lemma accept_signature_Ok now terms receipt signer envelope d d' :
  accept_signature now terms receipt signer envelope d = Ok d' ->
  exists signed, carries envelope signed /\ countersigned terms receipt signer d signed /\ Enqueue now signed d = Ok d'.
Proof.
  unfold accept_signature. intros Ha. step_ok Ha as signed Eb.
  destruct (Recover _ _ _ _) as [recovered|] eqn:R; [|done].
  destruct (negb _ || negb _) eqn:G; [done|]. bools.
  destruct (ProviderSignerAllowed _ _ _ _ d) as [[]|] eqn:P; [|done..].
  step_ok Ha as ss Es. exists (mkSignedReceipt (toChainReceipt receipt) (rs_Signature signed) ss).
  split; [by exists signed|]. split; [|exact Ha].
  split; [done|]. exists recovered. subst recovered. done.
Qed.

Lemma await_signature_Ok now terms receipt machine signer wakes d d' :
  await_signature now terms receipt machine signer wakes d = Some (Ok d') ->
  exists event signed, In (Received event) wakes /\ ev_MachineID event = machine /\ ev_Type event = MessageReceiptSignature
    /\ carries (ev_Envelope event) signed /\ countersigned terms receipt signer d signed /\ Enqueue now signed d = Ok d'.
Proof.
  induction wakes as [|[e| |event] wakes IH]; cbn [await_signature]; [done..|].
  destruct (_ || _) eqn:G.
  - intros H'. destruct (IH H') as (event' & signed & Hin & Hrest). exists event', signed. split; [by right|exact Hrest].
  - intros [= Ha]. apply accept_signature_Ok in Ha as (signed & Hrest). apply orb_false_iff in G as [G1%negb_false_iff G2%negb_false_iff].
    exists event, signed. apply String.eqb_eq in G1, G2. split; [by left|]. split; [done|]. split; [done|exact Hrest].
Qed.

(** C5. Only co-signed receipts are queued.  When [Complete] succeeds, the
    completion was recorded, the receipt of the request was prepared under the
    terms that the broker's chain client gave, and proposed to the machine that
    serves the request; a signature that this machine then sent recovers, for the
    chain and contract of those terms, to the signer that the machine has
    registered, whom the chain authorises for the provider, in the database at
    that moment, [others] being what other goroutines did while the coordinator
    waited; and the receipt was enqueued with that signature and the broker's
    own. *)
Theorem Complete_countersigned now completed others wakes d hub d' hub' :
  Complete now completed others wakes d hub = (d', hub', Some (Ok tt)) ->
  exists terms d1 receipt machine signer d2 envelope hub2 event signed,
    let d3 := fst (others (d2, hub2)) in
    CompleteInference now completed d = Ok d1
    /\ broker_ReceiptTerms = Ok terms
    /\ PrepareReceipt now (cp_RequestID completed) (receipt_domain terms) d1 = Ok (receipt, machine, signer, d2)
    /\ NewEnvelope ("receipt-" +:+ cp_RequestID completed) MessageReceiptProposal
         (mkReceiptProposal (cp_RequestID completed) (te_ChainID terms) (copy_address (te_Contract terms)) receipt) = Ok envelope
    /\ Send machine envelope (fst (Subscribe (cp_RequestID completed) hub)) = (hub2, Ok tt)
    /\ In (Received event) wakes /\ ev_MachineID event = machine /\ ev_Type event = MessageReceiptSignature
    /\ carries (ev_Envelope event) signed
    /\ countersigned terms receipt signer d3 signed
    /\ Enqueue now signed d3 = Ok d'.
Proof.
  unfold Complete. intros Hc.
  destruct (CompleteInference now completed d) as [d1|] eqn:E1; [|simplify_eq].
  destruct broker_ReceiptTerms as [terms|] eqn:E2; [|simplify_eq].
  destruct (PrepareReceipt _ _ _ d1) as [[[[receipt machine] signer] d2]|] eqn:E3; [|simplify_eq].
  destruct (Subscribe _ hub) as [hub1 events] eqn:E4.
  destruct (NewEnvelope _ _ _) as [envelope|] eqn:E5; [|simplify_eq].
  destruct (Send machine envelope hub1) as [hub2 [[]|e]] eqn:E6; [|simplify_eq].
  destruct (others (d2, hub2)) as [d3 hub3] eqn:E7.
  destruct (await_signature _ _ _ _ _ wakes d3) as [[d4|]|] eqn:E8; simplify_eq.
  destruct (await_signature_Ok _ _ _ _ _ _ _ _ E8) as (event & signed & Hin & Hm & Ht & Hcar & Hs & He).
  exists terms, d1, receipt, machine, signer, d2, envelope, hub2, event, signed. rewrite E7. cbn [fst]. by split_and!.
Qed.

(** ** An honest provider is heard *)
(** What the loop skips: any other kind of event, and any other machine. *)
Definition skipped (machineID : string) (w : Wake) : Prop :=
  match w with
  | Received event => ev_Type event <> MessageReceiptSignature \/ ev_MachineID event <> machineID
  | _ => False
  end.

Lemma await_skip now terms receipt machine signer before after d :
  Forall (skipped machine) before ->
  await_signature now terms receipt machine signer (before ++ after) d
  = await_signature now terms receipt machine signer after d.
Proof.
  induction 1 as [|w before Hw _ IH]; [done|]. destruct w as [| |event]; [done..|]. simpl.
  destruct Hw as [Hw|Hw]; rewrite (proj2 (String.eqb_neq _ _) Hw); simpl; [done|by rewrite orb_true_r].
Qed.

Section Live.
Context {PrivateKey : Type} (Sign : bytes -> PrivateKey -> result bytes) (PublicOf : PrivateKey -> PublicKey).
Context `{!ECDSA Sign SigToPub PublicOf}.
Abbreviation SignedBy := (SignReceipt Keccak256 Pack Sign receiptTypeText domainTypeText nameText versionText).

(** An honest provider cannot be locked out: when the machine answers with
    the signature its registered key makes over the prepared receipt, the
    receipt is enqueued with that signature, whatever messages of other
    machines or of other kinds arrived on the subscription before it. *)
Theorem honest_signature_enqueued now terms receipt machine signer (key : PrivateKey) id signature envelope
    settlement before after d :
  let address := PubkeyToAddress (PublicOf key) in
  SignedBy receipt (te_ChainID terms) (copy_address (te_Contract terms)) (Some key) = Ok signature ->
  DecodeBody (M := ReceiptSignature) envelope = Ok (mkReceiptSignature id address signature) ->
  EqualFold (AddressHex (BytesToAddress address)) signer = true ->
  ProviderSignerAllowed (te_ChainID terms) (AddressHex (te_Contract terms)) (r_Provider receipt) address d = Ok true ->
  broker_SignReceipt (toChainReceipt receipt) = Ok settlement ->
  Forall (skipped machine) before ->
  await_signature now terms receipt machine signer
    (before ++ Received (mkEvent machine MessageReceiptSignature envelope) :: after) d
  = Some (Enqueue now (mkSignedReceipt (toChainReceipt receipt) signature settlement) d).
Proof.
  intros address Hs Hb He Ha Hk Hskip. rewrite await_skip by done. cbn [await_signature ev_Type ev_MachineID].
  rewrite String.eqb_refl. simpl negb. rewrite String.eqb_refl. simpl. f_equal.
  unfold accept_signature. rewrite Hb. cbn [mbind result_bind rs_Signature rs_Signer].
  rewrite (recover_signed _ _ _ _ _ _ _ _ _ _ _ _ _ _ _ Hs). fold address.
  rewrite bool_decide_eq_true_2 by done. rewrite He. simpl. rewrite Ha, Hk. done.
Qed.
End Live.
End Coordinator.

(** ** A sample hand-shake *)
Module Handshake.
Definition terms := mkReceiptTerms 1 (replicate 20 51) (replicate 20 85) 250 1.
Definition broker_sign (r : ChainReceipt) : result bytes := Ok (replicate 65 7).
Definition key : Z := 34.
Definition receipt : Receipt := match sample_receipt with Some r => r | None => zero_receipt end.
Definition signature : bytes := Eval vm_compute in
  match SignReceipt Toy.Keccak256 Toy.Pack Toy.Sign [1] [2] [3] [4] receipt 1 (replicate 20 51) (Some key) with
  | Ok s => s | Err _ => [] end.
Definition signed := mkReceiptSignature request_id (replicate 20 34) signature.
Definition envelope (m : ReceiptSignature) : Envelope :=
  mkEnvelope ProtocolVersion MessageReceiptSignature "s" (Some (Marshal m)).
Definition wakes : list Wake :=
  [Received (mkEvent "mach_other" MessageReceiptSignature (envelope signed));
   Received (mkEvent machine_id MessageJobAccept (envelope signed));
   Received (mkEvent machine_id MessageReceiptSignature (envelope signed))].
Definition hub : Hub :=
  match connect (Some (fun _ => Ok machine_id)) "Bearer t" 0 (NewHub (mkOptions 0 0 0)) with
  | Ok (h, _) => h | Err _ => NewHub (mkOptions 0 0 0) end.
Definition outcome : Db * Hub * option (result unit) :=
  Complete Toy.Keccak256 Toy.Pack Toy.SigToPub Toy.PubkeyToAddress [1] [2] [3] [4] (Ok terms) broker_sign
    24 sample_completion (fun w => w) wakes db_streaming hub.
End Handshake.

Lemma Complete_countersigned_witness :
  exists receipt machine signer d2 d3 signed,
    PrepareReceipt 24 (cp_RequestID sample_completion) (receipt_domain Handshake.terms)
      (value_of (CompleteInference 24 sample_completion db_streaming)) = Ok (receipt, machine, signer, d2)
    /\ countersigned Toy.Keccak256 Toy.Pack Toy.SigToPub Toy.PubkeyToAddress [1] [2] [3] [4]
         Handshake.broker_sign Handshake.terms receipt signer d3 signed
    /\ sr_ProviderSignature signed = Handshake.signature.
Proof.
  destruct (Complete_countersigned Toy.Keccak256 Toy.Pack Toy.SigToPub Toy.PubkeyToAddress [1] [2] [3] [4]
    (Ok Handshake.terms) Handshake.broker_sign 24 sample_completion (fun w => w) Handshake.wakes db_streaming
    Handshake.hub (fst (fst Handshake.outcome)) (snd (fst Handshake.outcome)))
    as (terms & d1 & receipt & machine & signer & d2 & envelope & hub2 & event & signed & H1 & [= <-] & H3 & _ & _ & Hin & Hm & Ht & Hc & Hs & _).
  - vm_compute. reflexivity.
  - exists receipt, machine, signer, d2, d2, signed. split; [rewrite H1; exact H3|]. split; [exact Hs|].
    destruct Hc as (body & Hb & <-).
    assert (event = mkEvent machine_id MessageReceiptSignature (Handshake.envelope Handshake.signed)) as ->.
    { destruct Hin as [E|[E|[E|[]]]]; injection E as <-; [|vm_compute in Ht; discriminate Ht|reflexivity].
      exfalso. cbn [ev_MachineID] in Hm. subst machine. vm_compute in H1. injection H1 as <-. vm_compute in H3. discriminate H3. }
    vm_compute in Hb. injection Hb as <-. reflexivity.
Defined.

Lemma honest_signature_enqueued_witness :
  await_signature Toy.Keccak256 Toy.Pack Toy.SigToPub Toy.PubkeyToAddress [1] [2] [3] [4]
    Handshake.broker_sign 25 Handshake.terms Handshake.receipt machine_id provider_wallet Handshake.wakes db_prepared
  = Some (Enqueue 25 (mkSignedReceipt (toChainReceipt Handshake.receipt) Handshake.signature (replicate 65 7))
            db_prepared).
Proof.
  refine (honest_signature_enqueued Toy.Keccak256 Toy.Pack Toy.SigToPub Toy.PubkeyToAddress [1] [2] [3] [4]
    Handshake.broker_sign Toy.Sign id 25 Handshake.terms Handshake.receipt machine_id provider_wallet Handshake.key
    request_id Handshake.signature (Handshake.envelope Handshake.signed) (replicate 65 7)
    (take 2 Handshake.wakes) [] db_prepared _ _ _ _ _ _);
    try (vm_compute; reflexivity).
  { exact Toy.toy_ECDSA. }
  constructor; [unfold skipped; right; vm_compute; discriminate|].
  constructor; [unfold skipped; left; vm_compute; discriminate|constructor].
Defined.
