(* ===== verification/Broker.v ===== *)
(** * The inference endpoint (server/internal/api/openai.go)

    [ServeHTTP] of the OpenAI-compatible handler: admission (parsing, limits,
    authorisation, pricing and selection), reservation, the job offer, the wait
    for its acceptance and the streaming loop.  The dependencies are functions
    on an arbitrary world [W], so whatever other goroutines do between two calls
    is covered; every call that changes the world is recorded in a trace.  The
    [select] loops consume a list of wake-ups. *)

From S2P Require Import Prelude GoStrings GoTime Wire Receipt Router Messages Proposals Hex Relay.
From Stdlib Require Import Ascii.
Open Scope string_scope.
Open Scope list_scope.
Open Scope Z_scope.

Record Principal := mkPrincipal { pp_AccountID : string; pp_SessionID : string; pp_SessionBalance : Z }.

Record Proposal := mkProposal {
  po_RequestID : string; po_SessionID : string; po_MachineID : string; po_OfferID : string;
  po_Model : string; po_PriceVersion : Z; po_InputTokens : Z; po_OutputTokens : Z;
  po_ComputeMilliseconds : Z; po_InputHash : bytes; po_OutputHash : bytes; po_CompletedAt : Z;
}.

Record Reservation := mkReservation {
  re_RequestID : string; re_SessionID : string; re_AccountID : string; re_MachineID : string;
  re_OfferID : string; re_PriceVersion : Z; re_MaximumSpend : Z; re_MaximumInputTokens : Z;
  re_MaximumOutputTokens : Z; re_MaximumComputeMilliseconds : Z;
}.

(** ** What the handler writes to the client *)
Inductive Reply :=
| HTTPError (code : Z) (text : string)
| StartStream (requestID : string)        (* the headers, status 200 and a flush *)
| SSE (value : json)                      (* [writeSSE] *)
| DoneFrame.                              (* ["data: [DONE]\n\n"] *)

Record Dependencies (W : Type) := mkDependencies {
  dp_configured : bool;                   (* no dependency is nil *)
  dp_Connected : string -> W -> bool;
  dp_Send : string -> Envelope -> W -> W * result unit;
  dp_Authorize : string -> string -> string -> Z -> W -> result Principal;
  dp_Candidates : string -> W -> result (list Candidate);
  dp_Reserve : Reservation -> W -> W * result unit;
  dp_Transition : string -> string -> W -> W * result unit;
  dp_Abort : string -> string -> W -> W * result unit;
  dp_Persist : Proposal -> W -> W * result unit;
  dp_Now : W -> Z;
  dp_Write : Reply -> W -> W * bool;      (* the response writer *)
}.
Arguments mkDependencies {W} _ _ _ _ _ _ _ _ _ _ _.
Arguments dp_configured {W} _. Arguments dp_Connected {W} _ _ _. Arguments dp_Send {W} _ _ _ _.
Arguments dp_Authorize {W} _ _ _ _ _ _. Arguments dp_Candidates {W} _ _ _. Arguments dp_Reserve {W} _ _ _.
Arguments dp_Transition {W} _ _ _ _. Arguments dp_Abort {W} _ _ _ _. Arguments dp_Persist {W} _ _ _.
Arguments dp_Now {W} _ _. Arguments dp_Write {W} _ _ _.

(** ** The request *)
Record chatMessage := mkChatMessage { cm_Role : string; cm_Content : string }.

Record chatRequest := mkChatRequest {
  cq_Model : string; cq_Stream : bool; cq_Messages : list chatMessage;
  cq_Workspace : list WorkspaceFile; cq_MaxTokens : Z; cq_MaxCompletionTokens : Z;
}.

Definition message_fields : list (string * setter chatMessage) :=
  [ ("role", set_with as_string (fun v m => mkChatMessage v (cm_Content m)));
    ("content", set_with as_string (fun v m => mkChatMessage (cm_Role m) v)) ].
Definition as_messages (v : json) : option (list chatMessage) :=
  match v with
  | JArr items => mapM (fun item => decode_struct message_fields item (mkChatMessage "" "")) items
  | _ => None
  end.
Definition chat_fields : list (string * setter chatRequest) :=
  [ ("model", set_with as_string (fun v r => mkChatRequest v (cq_Stream r) (cq_Messages r) (cq_Workspace r)
                 (cq_MaxTokens r) (cq_MaxCompletionTokens r)));
    ("stream", set_with as_bool (fun v r => mkChatRequest (cq_Model r) v (cq_Messages r) (cq_Workspace r)
                 (cq_MaxTokens r) (cq_MaxCompletionTokens r)));
    ("messages", set_with as_messages (fun v r => mkChatRequest (cq_Model r) (cq_Stream r) v (cq_Workspace r)
                 (cq_MaxTokens r) (cq_MaxCompletionTokens r)));
    ("myference_workspace", set_with as_workspace (fun v r => mkChatRequest (cq_Model r) (cq_Stream r)
                 (cq_Messages r) v (cq_MaxTokens r) (cq_MaxCompletionTokens r)));
    ("max_tokens", set_with (as_uint 64) (fun v r => mkChatRequest (cq_Model r) (cq_Stream r) (cq_Messages r)
                 (cq_Workspace r) v (cq_MaxCompletionTokens r)));
    ("max_completion_tokens", set_with (as_uint 64) (fun v r => mkChatRequest (cq_Model r) (cq_Stream r)
                 (cq_Messages r) (cq_Workspace r) (cq_MaxTokens r) v)) ].

(** What the handler reads of the HTTP request; the body is its first JSON
    value, if one can be read within the size limit, and the endpoint is the
    context value set by the Anthropic adapter. *)
Record HttpRequest := mkHttpRequest {
  hr_Method : string; hr_Path : string; hr_MaxSpend : string; hr_Authorization : string;
  hr_Machine : string; hr_Body : option json; hr_Endpoint : option string;
}.

Definition authorizedEndpoint (endpoint : option string) (fallback : string) : string :=
  default fallback endpoint.

Definition newline : string := str [10].
Fixpoint renderPrompt (messages : list chatMessage) : string :=
  match messages with
  | [] => ""
  | m :: rest => cm_Role m +:+ ": " +:+ cm_Content m +:+ newline +:+ renderPrompt rest
  end.

Definition maximumComputeMilliseconds : Z := 120000.

(** ** Admission *)
Definition set_cand_Capacity v (c : Candidate) := mkCandidate (cand_MachineID c) (cand_OfferID c) (cand_Model c)
  (cand_Capabilities c) (cand_ConfirmedBond c) (cand_Healthy c) v (cand_MaximumCost c) (cand_PriceVersion c)
  (cand_LatencyMilliseconds c) (cand_SuccessBasisPoints c) (cand_Reputation c) (cand_InputPerMillion c)
  (cand_OutputPerMillion c) (cand_ComputePerSecond c).
Definition set_cand_MaximumCost v (c : Candidate) := mkCandidate (cand_MachineID c) (cand_OfferID c) (cand_Model c)
  (cand_Capabilities c) (cand_ConfirmedBond c) (cand_Healthy c) (cand_Capacity c) v (cand_PriceVersion c)
  (cand_LatencyMilliseconds c) (cand_SuccessBasisPoints c) (cand_Reputation c) (cand_InputPerMillion c)
  (cand_OutputPerMillion c) (cand_ComputePerSecond c).

Inductive refusal := Refuse (code : Z) (text : string).

Record Plan := mkPlan {
  pl_input : chatRequest; pl_prompt : string; pl_principal : Principal; pl_selected : Candidate;
  pl_maximumInput : Z; pl_maximumOutput : Z; pl_maximumSpend : Z;
}.

(** The request's own checks: the decoded body, its output limit and spend limit. *)
Definition validate_request (configured : bool) (r : HttpRequest) : refusal + (chatRequest * Z * Z) :=
  if negb (String.eqb (hr_Method r) "POST") || negb (String.eqb (hr_Path r) "/v1/chat/completions")
  then inl (Refuse 404 "404 page not found")
  else if negb configured then inl (Refuse 503 "service unavailable")
  else
    match hr_Body r ≫= fun v => decode_struct chat_fields v (mkChatRequest "" false [] [] 0 0) with
    | None => inl (Refuse 400 "invalid streaming chat request")
    | Some input =>
        if negb (cq_Stream input) || is_blank (cq_Model input) || bool_decide (length (cq_Messages input) = 0%nat)
        then inl (Refuse 400 "invalid streaming chat request")
        else
          let maximumOutputTokens := cq_MaxCompletionTokens input in
          let maximumOutputTokens :=
            if maximumOutputTokens =? 0 then cq_MaxTokens input else maximumOutputTokens in
          let maximumOutputTokens := if maximumOutputTokens =? 0 then 4096 else maximumOutputTokens in
          if (1000000 <? maximumOutputTokens)
             || (negb (cq_MaxTokens input =? 0) && negb (cq_MaxCompletionTokens input =? 0))
          then inl (Refuse 400 "invalid output token limit")
          else
            match ParseUint (hr_MaxSpend r) with
            | None => inl (Refuse 400 "valid X-Myference-Max-Spend is required")
            | Some maximumSpend =>
                if maximumSpend =? 0 then inl (Refuse 400 "valid X-Myference-Max-Spend is required")
                else inr (input, maximumOutputTokens, maximumSpend)
            end
    end.

Section Handler.
Context {W : Type} (deps : Dependencies W) (sort_slice : list Candidate -> list Candidate).

(** The body of the loop over the candidates. *)
Definition price_candidate (w : W) (maximumInputTokens maximumOutputTokens : Z) (c : Candidate) : Candidate :=
  if negb (dp_Connected deps (cand_MachineID c) w) then set_cand_Capacity 0 c
  else if negb (ValidRate (cand_InputPerMillion c)) || negb (ValidRate (cand_OutputPerMillion c))
          || negb (ValidRate (cand_ComputePerSecond c)) then set_cand_MaximumCost 0 c
  else if negb (HasPricing c) then set_cand_MaximumCost 0 c
  else
    match WorstCaseCost c maximumInputTokens maximumOutputTokens maximumComputeMilliseconds with
    | Err _ => set_cand_MaximumCost 0 c
    | Ok cost => set_cand_MaximumCost cost c
    end.

(** Everything before the request is created. *)
Definition admission (r : HttpRequest) (w : W) : refusal + Plan :=
  match validate_request (dp_configured deps) r with
  | inl refused => inl refused
  | inr (input, maximumOutputTokens, maximumSpend) =>
      let token := TrimSpace (TrimPrefix (hr_Authorization r) "Bearer ") in
      match dp_Authorize deps token (cq_Model input) (authorizedEndpoint (hr_Endpoint r) (hr_Path r))
              maximumSpend w with
      | Err _ => inl (Refuse 401 "unauthorized")
      | Ok principal =>
          match dp_Candidates deps (cq_Model input) w with
          | Err _ => inl (Refuse 503 "routing unavailable")
          | Ok candidates =>
              let requiredCapabilities :=
                ["text"; "stream"] ++ (if bool_decide (cq_Workspace input = []) then [] else ["workspace"]) in
              let prompt := renderPrompt (cq_Messages input) in
              let maximumInputTokens := wrap64 (go_len prompt * 4 + 256) in
              let candidates := map (price_candidate w maximumInputTokens maximumOutputTokens) candidates in
              match Select sort_slice (mkRequest (cq_Model input) requiredCapabilities maximumSpend
                                         (pp_SessionBalance principal) (hr_Machine r)) candidates with
              | Err e =>
                  if decide (e = ErrInsufficientBudget)
                  then inl (Refuse 402 "request or session budget is below the required reservation")
                  else inl (Refuse 503 "no eligible provider")
              | Ok selected =>
                  if negb (dp_Connected deps (cand_MachineID selected) w)
                  then inl (Refuse 503 "no eligible provider")
                  else inr (mkPlan input prompt principal selected maximumInputTokens maximumOutputTokens
                              maximumSpend)
              end
          end
      end
  end.

(** ** Serving *)
(** The calls the handler makes, with their success. *)
Inductive Call :=
| CReserve (r : Reservation) (ok : bool)
| CTransition (id next : string) (ok : bool)
| CAbort (id state : string) (ok : bool)
| CPersist (p : Proposal) (ok : bool)
| CSend (machine : string) (envelope : Envelope) (ok : bool)
| CReply (r : Reply) (ok : bool).

Definition State : Type := W * list Call.

Definition reply (r : Reply) (s : State) : State * bool :=
  let '(w, ok) := dp_Write deps r (fst s) in ((w, snd s ++ [CReply r ok]), ok).
Definition call (f : W -> W * result unit) (c : bool -> Call) (s : State) : State * bool :=
  let '(w, e) := f (fst s) in ((w, snd s ++ [c (is_ok e)]), is_ok e).
Definition send machine envelope := call (dp_Send deps machine envelope) (CSend machine envelope).
Definition transition id next := call (dp_Transition deps id next) (CTransition id next).
Definition abort id state (s : State) : State := fst (call (dp_Abort deps id state) (CAbort id state) s).
Definition persist p := call (dp_Persist deps p) (CPersist p).
Definition reserve r := call (dp_Reserve deps r) (CReserve r).

Definition cancel (machineID requestID : string) (s : State) : State :=
  match NewEnvelope ("cancel-" +:+ requestID) MessageCancel (mkCancel requestID "customer_cancelled") with
  | Ok envelope => fst (send machineID envelope s)
  | Err _ => s
  end.

(** [salt] is what [rand.Read] filled, or its failure. *)
Definition saltedHash (salt : result bytes) (value : string) : bytes :=
  match salt with
  | Ok salt => Sum256 (salt ++ string_bytes value)
  | Err _ => Sum256 (string_bytes value)
  end.
Definition randomID (random : bytes) : string := "0x" +:+ hex_bytes random.

(** One wake-up of a [select]: the context ended, the timer fired, the
    stream overflowed, or an event arrived on it. *)
Inductive Wakeup := Disconnected | Elapsed | Overflowed | Arrived (event : Event).

(** [None] while it still waits; else the outcome and the later wake-ups. *)
Fixpoint waitAccepted (wakes : list Wakeup) : option (bool * list Wakeup) :=
  match wakes with
  | [] => None
  | Arrived event :: rest =>
      if String.eqb (ev_Type event) MessageJobAccept then Some (true, rest) else waitAccepted rest
  | _ :: rest => Some (false, rest)
  end.

(** *** The frames of the stream *)
Definition content_frame (requestID content : string) : json :=
  JObj [("choices", JArr [JObj [("delta", JObj [("content", jstr content)]); ("index", num 0)]]);
        ("id", jstr requestID); ("object", jstr "chat.completion.chunk")].
Definition error_frame (code message : string) : json :=
  JObj [("error", JObj [("code", jstr code); ("message", jstr message); ("type", jstr "provider_error")])].
Definition final_frame (requestID model : string) (inputTokens outputTokens : Z) : json :=
  JObj [("choices", JArr [JObj [("delta", JObj []); ("finish_reason", jstr "stop"); ("index", num 0)]]);
        ("id", jstr requestID); ("model", jstr model); ("object", jstr "chat.completion.chunk");
        ("usage", JObj [("completion_tokens", num outputTokens); ("prompt_tokens", num inputTokens);
                        ("total_tokens", num (wrap64 (inputTokens + outputTokens)))])].

Section Stream.
Context (plan : Plan) (requestID : string) (inputSalt outputSalt : result bytes).
Abbreviation machine := (cand_MachineID (pl_selected plan)).

Definition fail_cancelled (state : string) (s : State) : State :=
  abort requestID state (cancel machine requestID s).

(** The error frame and the end of the stream. *)
Definition end_with_error (code message : string) (s : State) : State :=
  fst (reply DoneFrame (fst (reply (SSE (error_frame code message)) s))).

(** [if !streaming { transition to streaming }]; [false] when it failed. *)
Definition start_streaming (streaming : bool) (s : State) : State * bool :=
  if streaming then (s, true) else transition requestID "streaming" s.

(** The part for a chunk with data: [inl] when the handler returns. *)
Definition forward_data (chunk : OutputChunk) (streaming : bool) (output : string) (s : State)
  : State + (bool * string * State) :=
  if bool_decide (ch_Data chunk = "") then inr (streaming, output, s)
  else
    match start_streaming streaming s with
    | (s, false) => inl (fail_cancelled "failed" s)
    | (s, true) =>
        match reply (SSE (content_frame requestID (ch_Data chunk))) s with
        | (s, false) => inl (fail_cancelled "failed" s)
        | (s, true) => inr (true, output +:+ ch_Data chunk, s)
        end
    end.

Definition proposal_of (chunk : OutputChunk) (output : string) (now : Z) : Proposal :=
  mkProposal requestID (pp_SessionID (pl_principal plan)) machine (cand_OfferID (pl_selected plan))
    (cq_Model (pl_input plan)) (cand_PriceVersion (pl_selected plan)) (ch_InputTokens chunk)
    (ch_OutputTokens chunk) (ch_ComputeMilliseconds chunk) (saltedHash inputSalt (pl_prompt plan))
    (saltedHash outputSalt output) now.

(** The part for the chunk marked done. *)
Definition finish (chunk : OutputChunk) (streaming : bool) (output : string) (s : State) : State :=
  match start_streaming streaming s with
  | (s, false) => abort requestID "failed" s
  | (s, true) =>
      if (pl_maximumInput plan <? ch_InputTokens chunk) || (pl_maximumOutput plan <? ch_OutputTokens chunk)
         || (maximumComputeMilliseconds <? ch_ComputeMilliseconds chunk)
      then end_with_error "usage_limit_exceeded" "provider usage exceeded reserved limits"
             (fail_cancelled "failed" s)
      else
        match persist (proposal_of chunk output (dp_Now deps (fst s))) s with
        | (s, false) => abort requestID "failed" s
        | (s, true) =>
            fst (reply DoneFrame
              (fst (reply (SSE (final_frame requestID (cq_Model (pl_input plan)) (ch_InputTokens chunk)
                                  (ch_OutputTokens chunk))) s)))
        end
  end.

(** The streaming loop; [false] while it still waits. *)
Fixpoint stream (wakes : list Wakeup) (streaming : bool) (output : string) (s : State) : State * bool :=
  match wakes with
  | [] => (s, false)
  | Elapsed :: _ => (fail_cancelled "failed" s, true)
  | Disconnected :: _ => (fail_cancelled "cancelled" s, true)
  | Overflowed :: _ => (fail_cancelled "failed" s, true)
  | Arrived event :: rest =>
      if negb (String.eqb (ev_Type event) MessageOutputChunk) then stream rest streaming output s
      else
        match DecodeBody (M := OutputChunk) (ev_Envelope event) with
        | Err _ => (fail_cancelled "failed" s, true)
        | Ok chunk =>
            match forward_data chunk streaming output s with
            | inl s => (s, true)
            | inr (streaming, output, s) =>
                if negb (bool_decide (ch_ErrorCode chunk = "")) then
                  (end_with_error (ch_ErrorCode chunk) "provider execution failed"
                     (abort requestID "failed" s), true)
                else if ch_Done chunk then (finish chunk streaming output s, true)
                else stream rest streaming output s
            end
        end
  end.

Definition reservation_of : Reservation :=
  mkReservation requestID (pp_SessionID (pl_principal plan)) (pp_AccountID (pl_principal plan)) machine
    (cand_OfferID (pl_selected plan)) (cand_PriceVersion (pl_selected plan))
    (cand_MaximumCost (pl_selected plan)) (pl_maximumInput plan) (pl_maximumOutput plan)
    maximumComputeMilliseconds.

Definition job_of (now : Z) : JobOffer :=
  mkJobOffer requestID (cq_Model (pl_input plan)) (cand_OfferID (pl_selected plan)) (pl_prompt plan)
    (cand_PriceVersion (pl_selected plan)) (cand_MaximumCost (pl_selected plan)) (pl_maximumOutput plan)
    (now + maximumComputeMilliseconds * Millisecond) (cq_Workspace (pl_input plan)).

(** [h.dependencies.Hub.Send] of the job offer, when it could be built. *)
Definition offer (s : State) : State * bool :=
  let now := dp_Now deps (fst s) in
  match NewEnvelope (H := Validatable_JobOffer now) ("offer-" +:+ requestID) MessageJobOffer (job_of now) with
  | Err _ => (s, false)
  | Ok envelope => send machine envelope s
  end.

(** From the reservation on; [flusher] says the response can be flushed. *)
Definition serve (flusher : bool) (wakes : list Wakeup) (s : State) : State * bool :=
  match reserve reservation_of s with
  | (s, false) => (fst (reply (HTTPError 402 "reservation unavailable") s), true)
  | (s, true) =>
      match offer s with
      | (s, false) =>
          (fst (reply (HTTPError 503 "provider unavailable") (abort requestID "failed" s)), true)
      | (s, true) =>
          match waitAccepted wakes with
          | None => (s, false)
          | Some (false, _) =>
              (fst (reply (HTTPError 504 "provider did not accept") (fail_cancelled "failed" s)), true)
          | Some (true, wakes) =>
              match transition requestID "accepted" s with
              | (s, false) =>
                  (fst (reply (HTTPError 500 "reservation transition failed") (fail_cancelled "failed" s)), true)
              | (s, true) =>
                  if negb flusher then
                    (fst (reply (HTTPError 500 "streaming unavailable") (fail_cancelled "failed" s)), true)
                  else stream wakes false "" (fst (reply (StartStream requestID) s))
              end
          end
      end
  end.
End Stream.

(** [random] is what [rand.Read] gave for the request id. *)
Definition ServeHTTP (r : HttpRequest) (random inputSalt outputSalt : result bytes) (flusher : bool)
    (wakes : list Wakeup) (w : W) : State * bool :=
  match admission r w with
  | inl (Refuse code text) => (fst (reply (HTTPError code text) (w, [])), true)
  | inr plan =>
      match random with
      | Err _ => (fst (reply (HTTPError 500 "request creation failed") (w, [])), true)
      | Ok random => serve plan (randomID random) inputSalt outputSalt flusher wakes (w, [])
      end
  end.
End Handler.
