(* ===== verification/BrokerSpec.v ===== *)
(** * What the inference endpoint guarantees

    Properties of [ServeHTTP] for every implementation of its dependencies, and
    one consequence of its wiring to the store (server/cmd/myference-server). *)

From S2P Require Import Prelude GoStrings GoTime Wire Receipt Router Messages Proposals Hex Relay Broker.
From Stdlib Require Import Ascii.
Open Scope string_scope.
Open Scope list_scope.
Open Scope Z_scope.

(** ** Traces *)
Definition is_end (c : Call) : bool :=
  match c with CAbort _ _ _ | CPersist _ true => true | _ => false end.
Definition is_reserved (c : Call) : bool := match c with CReserve _ true => true | _ => false end.
Definition ends (trace : list Call) : nat := length (List.filter is_end trace).
Definition reserved (trace : list Call) : nat := length (List.filter is_reserved trace).

Section Trace.
Context {W : Type} (deps : Dependencies W).
Abbreviation State := (W * list Call)%type.

(** [s'] made calls after [s] that all satisfy [P]. *)
Definition made (P : Call -> Prop) (s s' : State) : Prop := exists t, snd s' = snd s ++ t /\ Forall P t.

Lemma made_refl P s : made P s s.
Proof. exists []. by rewrite app_nil_r. Qed.
Lemma made_trans P s1 s2 s3 : made P s1 s2 -> made P s2 s3 -> made P s1 s3.
Proof.
  intros (t1 & E1 & F1) (t2 & E2 & F2). exists (t1 ++ t2). rewrite E2, E1, app_assoc. split; [done|].
  by apply Forall_app.
Qed.
Lemma made_weaken (P Q : Call -> Prop) s s' : (forall c, P c -> Q c) -> made P s s' -> made Q s s'.
Proof. intros HPQ (t & E & F). exists t. split; [done|]. by eapply Forall_impl. Qed.

Lemma reply_trace r s : snd (fst (reply deps r s)) = snd s ++ [CReply r (snd (reply deps r s))].
Proof. unfold reply. by destruct (dp_Write deps r (fst s)). Qed.
Lemma call_trace f c (s : State) : snd (fst (call f c s)) = snd s ++ [c (snd (call f c s))].
Proof. unfold call. by destruct (f (fst s)). Qed.

Lemma made_reply (P : Call -> Prop) r s s' ok : reply deps r s = (s', ok) -> (forall ok, P (CReply r ok)) -> made P s s'.
Proof. intros E HP. exists [CReply r ok]. pose proof (reply_trace r s) as T. rewrite E in T. split; [done|by constructor]. Qed.
Lemma made_call (P : Call -> Prop) f c (s s' : State) ok : call f c s = (s', ok) -> P (c ok) -> made P s s'.
Proof. intros E HP. exists [c ok]. pose proof (call_trace f c s) as T. rewrite E in T. split; [done|by constructor]. Qed.

Lemma made_reply_fst (P : Call -> Prop) r s : (forall ok, P (CReply r ok)) -> made P s (fst (reply deps r s)).
Proof. intros HP. destruct (reply deps r s) as [s' ok] eqn:E. by eapply made_reply. Qed.

Lemma made_cancel (P : Call -> Prop) m id s : (forall m e ok, P (CSend m e ok)) -> made P s (cancel deps m id s).
Proof.
  intros HP. unfold cancel. destruct (NewEnvelope _ _ _) as [e|]; [|apply made_refl].
  unfold send. destruct (call _ _ s) as [s' ok] eqn:E. simpl. eapply made_call; [exact E|done].
Qed.

Lemma made_abort (P : Call -> Prop) id state s : (forall ok, P (CAbort id state ok)) -> made P s (abort deps id state s).
Proof. intros HP. unfold abort. destruct (call _ _ s) as [s' ok] eqn:E. eapply made_call; [exact E|done]. Qed.

(** Counting: a made list without ends keeps the count. *)
Lemma ends_made s s' : made (fun c => is_end c = false) s s' -> ends (snd s') = ends (snd s).
Proof.
  intros (t & -> & F). unfold ends. rewrite List.filter_app, length_app.
  replace (List.filter is_end t) with (@nil Call); [simpl; lia|]. induction F as [|c t Hc _ IH]; [done|].
  simpl. by rewrite Hc.
Qed.
Lemma reserved_made s s' : made (fun c => is_reserved c = false) s s' -> reserved (snd s') = reserved (snd s).
Proof.
  intros (t & -> & F). unfold reserved. rewrite List.filter_app, length_app.
  replace (List.filter is_reserved t) with (@nil Call); [simpl; lia|]. induction F as [|c t Hc _ IH]; [done|].
  simpl. by rewrite Hc.
Qed.

Lemma ends_reply r s : ends (snd (fst (reply deps r s))) = ends (snd s).
Proof. apply ends_made, made_reply_fst. done. Qed.
Lemma ends_cancel m id s : ends (snd (cancel deps m id s)) = ends (snd s).
Proof. apply ends_made, made_cancel. done. Qed.
Lemma ends_abort id state s : ends (snd (abort deps id state s)) = S (ends (snd s)).
Proof.
  unfold abort. rewrite call_trace. unfold ends. rewrite List.filter_app, length_app. simpl. lia.
Qed.
Lemma ends_call f c (s s' : State) ok : call f c s = (s', ok) -> is_end (c ok) = false -> ends (snd s') = ends (snd s).
Proof. intros E Hc. eapply ends_made, made_call; [exact E|done]. Qed.

Section Stream.
Context (plan : Plan) (id : string) (isalt osalt : result bytes).

Lemma ends_fail state s : ends (snd (fail_cancelled deps plan id state s)) = S (ends (snd s)).
Proof. unfold fail_cancelled. by rewrite ends_abort, ends_cancel. Qed.

Lemma ends_start streaming s s' ok :
  start_streaming deps id streaming s = (s', ok) -> ends (snd s') = ends (snd s).
Proof. unfold start_streaming, transition. destruct streaming; [by intros [= <- <-]|]. intros E. by eapply ends_call. Qed.

Lemma ends_forward chunk streaming output s :
  match forward_data deps plan id chunk streaming output s with
  | inl s' => ends (snd s') = S (ends (snd s))
  | inr (_, _, s') => ends (snd s') = ends (snd s)
  end.
Proof.
  unfold forward_data. destruct (bool_decide _); [done|].
  destruct (start_streaming deps id streaming s) as [s1 []] eqn:E; apply ends_start in E; [|by rewrite ends_fail, E].
  destruct (reply deps _ s1) as [s2 []] eqn:R;
    pose proof (ends_reply (SSE (content_frame id (ch_Data chunk))) s1) as Er; rewrite R in Er; simpl in Er.
  - by rewrite Er, E.
  - by rewrite ends_fail, Er, E.
Qed.

Lemma ends_finish chunk streaming output s :
  ends (snd (finish deps plan id isalt osalt chunk streaming output s)) = S (ends (snd s)).
Proof.
  unfold finish. destruct (start_streaming deps id streaming s) as [s1 []] eqn:E; apply ends_start in E;
    [|by rewrite ends_abort, E].
  destruct (_ || _ || _); [unfold end_with_error; by rewrite !ends_reply, ends_fail, E|].
  unfold persist. destruct (call _ _ s1) as [s2 ok] eqn:P. destruct ok.
  - rewrite !ends_reply. pose proof (call_trace (dp_Persist deps (proposal_of plan id isalt osalt chunk output (dp_Now deps (fst s1))))
      (CPersist (proposal_of plan id isalt osalt chunk output (dp_Now deps (fst s1)))) s1) as T.
    rewrite P in T. simpl in T. rewrite T. unfold ends in *. rewrite List.filter_app, length_app. simpl. lia.
  - rewrite ends_abort. by rewrite (ends_call _ _ _ _ _ P), E.
Qed.

Lemma ends_stream wakes : forall streaming output s s' finished,
  stream deps plan id isalt osalt wakes streaming output s = (s', finished) ->
  ends (snd s') = ((if finished then 1 else 0) + ends (snd s))%nat.
Proof.
  induction wakes as [|[| | |event] wakes IH]; intros streaming output s s' finished; simpl.
  - by intros [= <- <-].
  - intros [= <- <-]. by rewrite ends_fail.
  - intros [= <- <-]. by rewrite ends_fail.
  - intros [= <- <-]. by rewrite ends_fail.
  - destruct (negb _); [apply IH|].
    destruct (DecodeBody (ev_Envelope event)) as [chunk|]; [|intros [= <- <-]; by rewrite ends_fail].
    pose proof (ends_forward chunk streaming output s) as F.
    destruct (forward_data deps plan id chunk streaming output s) as [s1|[[st out] s1]].
    + intros [= <- <-]. done.
    + destruct (negb _); [|destruct (ch_Done chunk)].
      * intros [= <- <-]. unfold end_with_error. by rewrite !ends_reply, ends_abort, F.
      * intros [= <- <-]. by rewrite ends_finish, F.
      * intros Hs. apply IH in Hs. by rewrite Hs, F.
Qed.

(** [P] holds of every call after the reservation. *)
Context (P : Call -> Prop).
Context (P_reply : forall r ok, P (CReply r ok)) (P_send : forall m e ok, P (CSend m e ok))
  (P_transition : forall i n ok, P (CTransition i n ok)) (P_abort : forall i st ok, P (CAbort i st ok))
  (P_persist : forall p ok, P (CPersist p ok)).

Lemma made_fail state s : made P s (fail_cancelled deps plan id state s).
Proof. unfold fail_cancelled. eapply made_trans; [by apply made_cancel|by apply made_abort]. Qed.

Lemma made_start streaming s s' ok : start_streaming deps id streaming s = (s', ok) -> made P s s'.
Proof.
  unfold start_streaming, transition. destruct streaming; [intros [= <- <-]; apply made_refl|].
  intros E. by eapply made_call.
Qed.

Lemma made_replies r1 r2 s : made P s (fst (reply deps r1 (fst (reply deps r2 s)))).
Proof. eapply made_trans; by apply made_reply_fst. Qed.

Lemma made_forward chunk streaming output s :
  match forward_data deps plan id chunk streaming output s with
  | inl s' | inr (_, _, s') => made P s s'
  end.
Proof.
  unfold forward_data. destruct (bool_decide _); [apply made_refl|].
  destruct (start_streaming deps id streaming s) as [s1 []] eqn:E; apply made_start in E;
    [|eapply made_trans; [exact E|apply made_fail]].
  destruct (reply deps _ s1) as [s2 []] eqn:R; apply (made_reply P) in R; try done.
  - by eapply made_trans.
  - eapply made_trans; [exact E|]. eapply made_trans; [exact R|apply made_fail].
Qed.

Lemma made_finish chunk streaming output s :
  made P s (finish deps plan id isalt osalt chunk streaming output s).
Proof.
  unfold finish. destruct (start_streaming deps id streaming s) as [s1 []] eqn:E; apply made_start in E;
    eapply made_trans; try exact E; [|by apply made_abort].
  destruct (_ || _ || _); [eapply made_trans; [apply made_fail|apply made_replies]|].
  unfold persist. destruct (call _ _ s1) as [s2 []] eqn:C; apply (made_call P) in C; try done;
    eapply made_trans; try exact C; [apply made_replies|by apply made_abort].
Qed.

Lemma made_stream wakes : forall streaming output s s' finished,
  stream deps plan id isalt osalt wakes streaming output s = (s', finished) -> made P s s'.
Proof.
  induction wakes as [|[| | |event] wakes IH]; intros streaming output s s' finished; simpl;
    try (intros [= <- <-]; first [apply made_refl|apply made_fail]).
  destruct (negb _); [apply IH|].
  destruct (DecodeBody (ev_Envelope event)) as [chunk|]; [|intros [= <- <-]; apply made_fail].
  pose proof (made_forward chunk streaming output s) as F.
  destruct (forward_data deps plan id chunk streaming output s) as [s1|[[st out] s1]]; [by intros [= <- <-]|].
  destruct (negb _); [|destruct (ch_Done chunk)].
  - intros [= <- <-]. eapply made_trans; [exact F|]. eapply made_trans; [by apply made_abort|apply made_replies].
  - intros [= <- <-]. eapply made_trans; [exact F|apply made_finish].
  - intros Hs. eapply made_trans; [exact F|]. by eapply IH.
Qed.
End Stream.

(** [serve] reserves first; what follows makes no reservation. *)
Definition after_reservation (c : Call) : Prop := match c with CReserve _ _ => False | _ => True end.

Lemma serve_made plan id isalt osalt flusher wakes w s' finished :
  serve deps plan id isalt osalt flusher wakes (w, []) = (s', finished) ->
  exists ok t, snd s' = CReserve (reservation_of plan id) ok :: t /\ Forall after_reservation t
    /\ ends (snd s') = (if ok && finished then 1 else 0)%nat.
Proof.
  unfold serve, reserve. intros Hs.
  destruct (call _ _ (w, [])) as [s1 ok] eqn:R.
  pose proof (call_trace (dp_Reserve deps (reservation_of plan id)) (CReserve (reservation_of plan id)) (w, [])) as T.
  rewrite R in T. simpl in T.
  assert (forall s2 f, made after_reservation s1 s2 -> ends (snd s2) = (if ok && f then 1 else 0)%nat ->
    exists ok t, snd s2 = CReserve (reservation_of plan id) ok :: t /\ Forall after_reservation t
      /\ ends (snd s2) = (if ok && f then 1 else 0)%nat) as Hdone.
  { intros s2 f (t & E & F) He. exists ok, t. rewrite E, T in *. done. }
  assert (ends (snd s1) = 0%nat) as E1 by (rewrite T; by destruct ok).
  destruct ok; [|simplify_eq; apply Hdone; [by apply made_reply_fst|by rewrite ends_reply]].
  unfold offer in Hs.
  destruct (NewEnvelope _ _ _) as [envelope|].
  2:{ simplify_eq. apply Hdone; [eapply made_trans; [by apply made_abort|by apply made_reply_fst]|].
      by rewrite ends_reply, ends_abort, E1. }
  unfold send in Hs. destruct (call _ _ s1) as [s2 ok] eqn:S.
  assert (made after_reservation s1 s2) as M2 by by eapply made_call.
  assert (ends (snd s2) = 0%nat) as E2 by (rewrite (ends_call _ _ _ _ _ S); done).
  destruct ok.
  2:{ simplify_eq. apply Hdone; [eapply made_trans; [exact M2|]; eapply made_trans; [by apply made_abort|by apply made_reply_fst]|].
      by rewrite ends_reply, ends_abort, E2. }
  destruct (waitAccepted wakes) as [[[] rest]|]; [| |by simplify_eq; apply Hdone].
  2:{ simplify_eq. apply Hdone; [eapply made_trans; [exact M2|]; eapply made_trans; [by apply made_fail|by apply made_reply_fst]|].
      by rewrite ends_reply, ends_fail, E2. }
  unfold transition in Hs. destruct (call _ _ s2) as [s3 ok] eqn:C.
  assert (made after_reservation s1 s3) as M3 by (eapply made_trans; [exact M2|]; by eapply made_call).
  assert (ends (snd s3) = 0%nat) as E3 by (rewrite (ends_call _ _ _ _ _ C); done).
  destruct ok.
  2:{ simplify_eq. apply Hdone; [eapply made_trans; [exact M3|]; eapply made_trans; [by apply made_fail|by apply made_reply_fst]|].
      by rewrite ends_reply, ends_fail, E3. }
  destruct (negb flusher).
  { simplify_eq. apply Hdone; [eapply made_trans; [exact M3|]; eapply made_trans; [by apply made_fail|by apply made_reply_fst]|].
      by rewrite ends_reply, ends_fail, E3. }
  apply Hdone.
  - eapply made_trans; [exact M3|]. eapply made_trans; [by apply made_reply_fst|]. by eapply made_stream.
  - rewrite (ends_stream _ _ _ _ _ _ _ _ _ _ Hs), ends_reply, E3. by destruct finished.
Qed.

Lemma reserved_trace r ok t : Forall after_reservation t ->
  reserved (CReserve r ok :: t) = (if ok then 1 else 0)%nat.
Proof.
  intros F. unfold reserved. simpl.
  assert (List.filter is_reserved t = []) as E.
  { induction F as [|c t Hc _ IH]; [done|]. simpl. by destruct c. }
  destruct ok; simpl; by rewrite E.
Qed.

(** C3. Every reservation is closed exactly once: the handler reserves at most
    once; when it returns after a successful reservation it has either
    persisted the completion or asked for an abort, never both and never
    neither, whatever its dependencies answer and wherever it returns; without
    a reservation, and while it still waits, it has done neither. *)
Theorem reservation_closed_once sort_slice r random isalt osalt flusher wakes w :
  let '(s, finished) := ServeHTTP deps sort_slice r random isalt osalt flusher wakes w in
  (reserved (snd s) <= 1)%nat
  /\ ends (snd s) = (if finished then reserved (snd s) else 0)%nat.
Proof.
  unfold ServeHTTP.
  assert (forall code text, let s := fst (reply deps (HTTPError code text) (w, [])) in
    (reserved (snd s) <= 1)%nat /\ ends (snd s) = reserved (snd s)) as Hrefuse.
  { intros code text. simpl. rewrite reply_trace. unfold reserved, ends. simpl. lia. }
  destruct (admission deps sort_slice r w) as [[code text]|plan]; [apply Hrefuse|].
  destruct random as [random|]; [|apply Hrefuse].
  destruct (serve deps plan (randomID random) isalt osalt flusher wakes (w, [])) as [s' finished] eqn:E.
  destruct (serve_made _ _ _ _ _ _ _ _ _ E) as (ok & t & Et & F & He).
  rewrite He, Et, (reserved_trace _ _ _ F). destruct ok, finished; simpl; lia.
Qed.

(** ** Admission *)
Section Admission.
Context (sort_slice : list Candidate -> list Candidate) `{!SliceSort sort_slice}.

Lemma price_candidate_cost w i o c : cand_Capacity (price_candidate deps w i o c) <> 0 ->
  cand_MaximumCost (price_candidate deps w i o c) <> 0 ->
  dp_Connected deps (cand_MachineID c) w = true
  /\ WorstCaseCost c i o maximumComputeMilliseconds = Ok (cand_MaximumCost (price_candidate deps w i o c)).
Proof.
  unfold price_candidate. destruct (dp_Connected deps (cand_MachineID c) w); simpl; [|done].
  destruct (_ || _ || _); [done|]. destruct (negb (HasPricing c)); [done|].
  destruct (WorstCaseCost c i o _) as [cost|]; [|done]. done.
Qed.

Lemma price_candidate_id w i o c : let p := price_candidate deps w i o c in
  cand_MachineID p = cand_MachineID c /\ cand_OfferID p = cand_OfferID c
  /\ cand_PriceVersion p = cand_PriceVersion c /\ cand_Model p = cand_Model c.
Proof. unfold price_candidate. simpl. repeat case_match; done. Qed.

Lemma admission_plan r w plan : admission deps sort_slice r w = inr plan ->
  exists input candidates c,
    validate_request (dp_configured deps) r = inr (input, pl_maximumOutput plan, pl_maximumSpend plan)
    /\ pl_input plan = input
    /\ dp_Authorize deps (TrimSpace (TrimPrefix (hr_Authorization r) "Bearer ")) (cq_Model input)
         (authorizedEndpoint (hr_Endpoint r) (hr_Path r)) (pl_maximumSpend plan) w = Ok (pl_principal plan)
    /\ dp_Candidates deps (cq_Model input) w = Ok candidates /\ c ∈ candidates
    /\ pl_selected plan = price_candidate deps w (pl_maximumInput plan) (pl_maximumOutput plan) c
    /\ cand_Capacity (pl_selected plan) <> 0 /\ cand_MaximumCost (pl_selected plan) <> 0
    /\ cand_MaximumCost (pl_selected plan) <= pl_maximumSpend plan
    /\ cand_MaximumCost (pl_selected plan) <= pp_SessionBalance (pl_principal plan)
    /\ cand_Model (pl_selected plan) = cq_Model input.
Proof using SliceSort0.
  unfold admission. destruct (validate_request _ r) as [|[[input out] spend]] eqn:V; [done|].
  destruct (dp_Authorize deps _ _ _ _ w) as [principal|] eqn:A; [|done].
  destruct (dp_Candidates deps _ w) as [candidates|] eqn:C; [|done].
  destruct (Select _ _ _) as [selected|e] eqn:S; [|by destruct (decide _)].
  destruct (negb _); [done|]. intros [= <-]. simpl.
  apply Select_Ok in S as (Hin & Hr & Hb & _); [|done]. apply over_budget_false in Hb as [B1 B2]. simpl in B1, B2.
  apply list_elem_of_In, in_map_iff in Hin as (c & <- & Hc).
  exists input, candidates, c. unfold routable in Hr.
  destruct (_ && _) in Hr; [done|]. bools. apply list_elem_of_In in Hc. simpl in *.
  match goal with H : String.eqb _ _ = true |- _ => apply String.eqb_eq in H end.
  by split_and!.
Qed.
End Admission.
End Trace.

(** Nothing is reserved that the customer did not authorise or cannot pay:
    a reservation is made for the authorised principal on a connected machine
    that offers the requested model, for exactly the worst-case cost of that
    offer under the limits handed to the provider, and that cost is positive
    and within both the request's spend limit and the session balance. *)
Theorem reservation_affordable {W} (deps : Dependencies W) sort_slice `{!SliceSort sort_slice}
    r random isalt osalt flusher wakes w reservation ok :
  CReserve reservation ok ∈ snd (fst (ServeHTTP deps sort_slice r random isalt osalt flusher wakes w)) ->
  exists input principal candidates c spend,
    validate_request (dp_configured deps) r = inr (input, re_MaximumOutputTokens reservation, spend)
    /\ dp_Authorize deps (TrimSpace (TrimPrefix (hr_Authorization r) "Bearer ")) (cq_Model input)
         (authorizedEndpoint (hr_Endpoint r) (hr_Path r)) spend w = Ok principal
    /\ dp_Candidates deps (cq_Model input) w = Ok candidates /\ c ∈ candidates
    /\ cand_Model c = cq_Model input /\ dp_Connected deps (cand_MachineID c) w = true
    /\ (re_MachineID reservation, re_OfferID reservation, re_PriceVersion reservation)
       = (cand_MachineID c, cand_OfferID c, cand_PriceVersion c)
    /\ (re_SessionID reservation, re_AccountID reservation) = (pp_SessionID principal, pp_AccountID principal)
    /\ WorstCaseCost c (re_MaximumInputTokens reservation) (re_MaximumOutputTokens reservation)
         (re_MaximumComputeMilliseconds reservation) = Ok (re_MaximumSpend reservation)
    /\ re_MaximumSpend reservation <> 0
    /\ re_MaximumSpend reservation <= spend /\ re_MaximumSpend reservation <= pp_SessionBalance principal.
Proof.
  unfold ServeHTTP. intros Hin.
  assert (forall code text, CReserve reservation ok ∈ snd (fst (reply deps (HTTPError code text) (w, []))) -> False) as Hno.
  { intros code text. rewrite reply_trace. simpl. rewrite list_elem_of_singleton. done. }
  destruct (admission deps sort_slice r w) as [[code text]|plan] eqn:A; [by apply Hno in Hin|].
  destruct random as [random|]; [|by apply Hno in Hin].
  destruct (serve deps plan (randomID random) isalt osalt flusher wakes (w, [])) as [s' finished] eqn:E.
  destruct (serve_made _ _ _ _ _ _ _ _ _ _ E) as (ok' & t & Et & F & _). simpl in Hin. rewrite Et in Hin.
  apply elem_of_cons in Hin as [[= -> _]|Hin]; [|rewrite Forall_forall in F; by apply F in Hin].
  apply admission_plan in A as (input & candidates & c & V & <- & Hauth & Hc & Hin & Hsel & Hcap & Hcost & B1 & B2 & Hm);
    [|done].
  rewrite Hsel in Hcap, Hcost. destruct (price_candidate_cost _ _ _ _ _ Hcap Hcost) as [Hconn Hwc].
  destruct (price_candidate_id deps w (pl_maximumInput plan) (pl_maximumOutput plan) c) as (I1 & I2 & I3 & I4).
  exists (pl_input plan), (pl_principal plan), candidates, c, (pl_maximumSpend plan). simpl.
  rewrite Hsel in *. rewrite I1, I2, I3, <- I4. by split_and!.
Qed.

(** ** What is billed is what was streamed *)
(** The text of a content frame. *)
Definition content_of (c : Call) : option string :=
  match c with
  | CReply (SSE (JObj ((_, JArr [JObj ((_, JObj [("content", JStr text)]) :: _)]) :: _))) _ => Some text
  | _ => None
  end.
Definition streamed (trace : list Call) : list string := omap content_of trace.
Definition concat_all (parts : list string) : string := foldr String.append "" parts.

Lemma concat_all_snoc parts x : concat_all (parts ++ [x]) = concat_all parts +:+ x.
Proof.
  induction parts as [|p parts IH]; simpl; [by rewrite app_string_nil_r|].
  rewrite app_string_assoc. f_equal. exact IH.
Qed.

Section Billing.
Context {W : Type} (deps : Dependencies W).
Context (plan : Plan) (id : string) (isalt osalt : result bytes).

(** Neither output nor bill. *)
Definition silent (c : Call) : Prop :=
  content_of c = None /\ match c with CPersist _ _ => False | _ => True end.

(** The bill [p] matches the frames of the trace and the limits of the plan. *)
Definition billed (trace : list Call) (p : Proposal) : Prop :=
  exists chunk datas now,
    p = proposal_of plan id isalt osalt chunk (concat_all datas) now
    /\ streamed trace = map coerce_utf8 datas
    /\ ch_InputTokens chunk <= pl_maximumInput plan /\ ch_OutputTokens chunk <= pl_maximumOutput plan
    /\ ch_ComputeMilliseconds chunk <= maximumComputeMilliseconds.

Definition faithful (trace : list Call) : Prop := forall p ok, CPersist p ok ∈ trace -> billed trace p.
Definition unbilled (trace : list Call) : Prop := forall p ok, CPersist p ok ∉ trace.

Lemma streamed_silent t u : Forall silent u -> streamed (t ++ u) = streamed t.
Proof.
  intros F. unfold streamed. rewrite omap_app. replace (omap content_of u) with (@nil string); [apply app_nil_r|].
  induction F as [|c u [Hc _] _ IH]; [done|]. simpl. by rewrite Hc.
Qed.

Lemma persist_silent p ok t u : Forall silent u -> CPersist p ok ∈ t ++ u -> CPersist p ok ∈ t.
Proof.
  intros F [H|H]%elem_of_app; [done|]. rewrite Forall_forall in F. by apply F in H as [_ ?].
Qed.

Lemma faithful_made (s s' : W * list Call) : made silent s s' -> faithful (snd s) -> faithful (snd s').
Proof.
  intros (t & -> & F) Hf p ok Hp. apply persist_silent in Hp; [|done].
  destruct (Hf p ok Hp) as (chunk & datas & now & H1 & H2 & H3).
  exists chunk, datas, now. by rewrite streamed_silent.
Qed.
Lemma unbilled_made (s s' : W * list Call) : made silent s s' -> unbilled (snd s) -> unbilled (snd s').
Proof. intros (t & -> & F) Hu p ok Hp. apply persist_silent in Hp; [|done]. by eapply Hu. Qed.
Lemma streamed_made (s s' : W * list Call) : made silent s s' -> streamed (snd s') = streamed (snd s).
Proof. intros (t & -> & F). by apply streamed_silent. Qed.
Lemma unbilled_faithful t : unbilled t -> faithful t.
Proof. intros Hu p ok Hp. by apply Hu in Hp. Qed.

Lemma silent_fail state s : made silent s (fail_cancelled deps plan id state s).
Proof. unfold fail_cancelled. eapply made_trans; [by apply made_cancel|by apply made_abort]. Qed.
Lemma silent_start streaming s s' ok : start_streaming deps id streaming s = (s', ok) -> made silent s s'.
Proof.
  unfold start_streaming, transition. destruct streaming; [intros [= <- <-]; apply made_refl|].
  intros E. by eapply made_call.
Qed.

(** What the loop knows: the output so far is what was streamed, unbilled. *)
Definition running (output : string) (s : W * list Call) : Prop :=
  unbilled (snd s) /\ exists datas, output = concat_all datas /\ streamed (snd s) = map coerce_utf8 datas.

Lemma running_made output s s' : made silent s s' -> running output s -> running output s'.
Proof.
  intros M [Hu (datas & H1 & H2)]. split; [by eapply unbilled_made|]. exists datas.
  by rewrite (streamed_made _ _ M).
Qed.

Lemma running_faithful output s s' : made silent s s' -> running output s -> faithful (snd s').
Proof. intros M [Hu _]. by eapply unbilled_faithful, unbilled_made. Qed.

Lemma forward_billing chunk streaming output s : running output s ->
  match forward_data deps plan id chunk streaming output s with
  | inl s' => faithful (snd s')
  | inr (_, output', s') => running output' s'
  end.
Proof.
  intros Hr. unfold forward_data. destruct (bool_decide _); [done|].
  destruct (start_streaming deps id streaming s) as [s1 ok] eqn:E; apply silent_start in E.
  destruct ok; [|eapply running_faithful; [eapply made_trans; [exact E|apply silent_fail]|done]].
  pose proof (running_made output _ _ E Hr) as [Hu (datas & H1 & H2)].
  pose proof (reply_trace deps (SSE (content_frame id (ch_Data chunk))) s1) as T.
  destruct (reply deps _ s1) as [s2 ok] eqn:R. simpl in T.
  assert (unbilled (snd s2)) as Hu2.
  { rewrite T. intros p ok' Hp. apply elem_of_app in Hp as [Hp|Hp]; [by eapply Hu|].
    by apply list_elem_of_singleton in Hp. }
  destruct ok.
  - split; [done|]. exists (datas ++ [ch_Data chunk]). split; [by rewrite concat_all_snoc, H1|].
    rewrite T, map_app. unfold streamed in *. rewrite omap_app, H2. done.
  - apply (faithful_made s2); [apply silent_fail|by apply unbilled_faithful].
Qed.

Lemma silent_replies r1 r2 s :
  (forall ok, content_of (CReply r1 ok) = None) -> (forall ok, content_of (CReply r2 ok) = None) ->
  made silent s (fst (reply deps r1 (fst (reply deps r2 s)))).
Proof. intros H1 H2. eapply made_trans; apply made_reply_fst; intros ok; split; done. Qed.

Lemma finish_billing chunk streaming output s : running output s ->
  faithful (snd (finish deps plan id isalt osalt chunk streaming output s)).
Proof.
  intros Hr. unfold finish. destruct (start_streaming deps id streaming s) as [s1 ok] eqn:E; apply silent_start in E.
  destruct ok; [|eapply running_faithful; [|exact Hr]; eapply made_trans; [exact E|by apply made_abort]].
  destruct (_ || _ || _) eqn:L.
  { eapply running_faithful; [|exact Hr]. eapply made_trans; [exact E|].
    eapply made_trans; [apply silent_fail|]. by apply silent_replies. }
  bools. pose proof (running_made output _ _ E Hr) as [Hu (datas & H1' & H2')].
  set (p := proposal_of plan id isalt osalt chunk output (dp_Now deps (fst s1))).
  pose proof (call_trace (dp_Persist deps p) (CPersist p) s1) as T. fold p.
  unfold persist. destruct (call _ _ s1) as [s2 ok] eqn:P. simpl in T.
  assert (faithful (snd s2)) as Hf.
  { intros q ok' Hq. rewrite T in Hq. apply elem_of_app in Hq as [Hq|Hq]; [by apply Hu in Hq|].
    apply list_elem_of_singleton in Hq. injection Hq as -> _.
    exists chunk, datas, (dp_Now deps (fst s1)). split; [by rewrite <- H1'|].
    split; [|lia]. rewrite T. unfold streamed in *. rewrite omap_app, H2'. simpl. apply app_nil_r. }
  destruct ok; (eapply faithful_made; [|exact Hf]); [by apply silent_replies|by apply made_abort].
Qed.

Lemma stream_billing wakes : forall streaming output s s' finished,
  stream deps plan id isalt osalt wakes streaming output s = (s', finished) -> running output s ->
  faithful (snd s').
Proof.
  induction wakes as [|[| | |event] wakes IH]; intros streaming output s s' finished; simpl;
    try (intros [= <- <-] Hr; eapply running_faithful; [|exact Hr]; first [apply made_refl|apply silent_fail]).
  destruct (negb _); [apply IH|].
  destruct (DecodeBody (ev_Envelope event)) as [chunk|].
  2:{ intros [= <- <-] Hr. eapply running_faithful; [apply silent_fail|exact Hr]. }
  intros Hs Hr. pose proof (forward_billing chunk streaming output s Hr) as F.
  destruct (forward_data deps plan id chunk streaming output s) as [s1|[[st out] s1]]; [by simplify_eq|].
  destruct (negb _); [|destruct (ch_Done chunk)].
  - simplify_eq. eapply running_faithful; [|exact F].
    eapply made_trans; [by apply made_abort|by apply silent_replies].
  - simplify_eq. by apply finish_billing.
  - by eapply IH.
Qed.

Lemma serve_billing flusher wakes w s' finished :
  serve deps plan id isalt osalt flusher wakes (w, []) = (s', finished) -> faithful (snd s').
Proof.
  unfold serve, reserve. intros Hs.
  assert (running "" (w, [])) as Hr by (split; [intros p ok; simpl; set_solver|by exists []]).
  destruct (call _ _ (w, [])) as [s1 ok] eqn:R. apply (made_call silent) in R; [|done].
  apply (running_made _ _ _ R) in Hr. clear R. destruct ok.
  2:{ simplify_eq. eapply running_faithful; [|exact Hr]. by apply made_reply_fst. }
  destruct (offer deps plan id s1) as [s2 ok] eqn:O.
  assert (made silent s1 s2) as M2.
  { unfold offer, send in O. destruct (NewEnvelope _ _ _); [by eapply made_call|].
    simplify_eq. apply made_refl. }
  apply (running_made _ _ _ M2) in Hr. clear M2 O. destruct ok.
  2:{ simplify_eq. eapply running_faithful; [|exact Hr].
      eapply made_trans; [by apply made_abort|by apply made_reply_fst]. }
  destruct (waitAccepted wakes) as [[[] rest]|].
  2:{ simplify_eq. eapply running_faithful; [|exact Hr].
      eapply made_trans; [apply silent_fail|by apply made_reply_fst]. }
  2:{ simplify_eq. eapply running_faithful; [apply made_refl|exact Hr]. }
  unfold transition in Hs. destruct (call _ _ s2) as [s3 ok] eqn:T. apply (made_call silent) in T; [|done].
  apply (running_made _ _ _ T) in Hr. clear T. destruct ok.
  2:{ simplify_eq. eapply running_faithful; [|exact Hr].
      eapply made_trans; [apply silent_fail|by apply made_reply_fst]. }
  destruct (negb flusher).
  { simplify_eq. eapply running_faithful; [|exact Hr].
    eapply made_trans; [apply silent_fail|by apply made_reply_fst]. }
  eapply stream_billing; [exact Hs|]. eapply running_made; [|exact Hr]. by apply made_reply_fst.
Qed.
End Billing.

(** C4. A completion is billed for exactly what the customer was sent: the
    proposal the handler persists is the one of its own plan and request, its
    token counts are within the limits of the reservation, and its output hash
    is the salted hash of the data whose frames were written to the client, in
    order and without omission. *)
Theorem billed_is_streamed {W} (deps : Dependencies W) sort_slice r random isalt osalt flusher wakes w p ok :
  let trace := snd (fst (ServeHTTP deps sort_slice r random isalt osalt flusher wakes w)) in
  CPersist p ok ∈ trace ->
  exists plan random', random = Ok random' /\ admission deps sort_slice r w = inr plan
    /\ billed plan (randomID random') isalt osalt trace p.
Proof.
  unfold ServeHTTP. simpl. intros Hin.
  assert (forall code text, CPersist p ok ∈ snd (fst (reply deps (HTTPError code text) (w, []))) -> False) as Hno.
  { intros code text. rewrite reply_trace. simpl. rewrite list_elem_of_singleton. done. }
  destruct (admission deps sort_slice r w) as [[code text]|plan] eqn:A; [by apply Hno in Hin|].
  destruct random as [random|]; [|by apply Hno in Hin].
  destruct (serve deps plan (randomID random) isalt osalt flusher wakes (w, [])) as [s' finished] eqn:E.
  exists plan, random. split; [done|]. split; [done|]. by apply (serve_billing _ _ _ _ _ _ _ _ _ _ E p ok).
Qed.

(** ** Invariants of the world *)
Section Invariant.
Context {W : Type} (deps : Dependencies W) (I : W -> Prop).
Context (I_send : forall m e w, I w -> I (fst (dp_Send deps m e w)))
  (I_reserve : forall r w, I w -> I (fst (dp_Reserve deps r w)))
  (I_transition : forall i n w, I w -> I (fst (dp_Transition deps i n w)))
  (I_abort : forall i st w, I w -> I (fst (dp_Abort deps i st w)))
  (I_persist : forall p w, I w -> I (fst (dp_Persist deps p w)))
  (I_write : forall r w, I w -> I (fst (dp_Write deps r w))).
Abbreviation J := (fun s : W * list Call => I (fst s)).

Lemma inv_reply r s : J s -> J (fst (reply deps r s)).
Proof. intros H. unfold reply. pose proof (I_write r _ H). by destruct (dp_Write deps r (fst s)). Qed.
Lemma inv_call f c (s : W * list Call) : (forall w, I w -> I (fst (f w))) -> J s -> J (fst (call f c s)).
Proof. intros Hf H. unfold call. pose proof (Hf _ H). by destruct (f (fst s)). Qed.
Lemma inv_abort i st s : J s -> J (abort deps i st s).
Proof. intros H. by apply inv_call; [apply I_abort|]. Qed.
Lemma inv_cancel m i s : J s -> J (cancel deps m i s).
Proof. intros H. unfold cancel. destruct (NewEnvelope _ _ _); [|done]. by apply inv_call; [apply I_send|]. Qed.

Context (plan : Plan) (id : string) (isalt osalt : result bytes).

Lemma inv_fail st s : J s -> J (fail_cancelled deps plan id st s).
Proof. intros H. by apply inv_abort, inv_cancel. Qed.
Lemma inv_start streaming s : J s -> J (fst (start_streaming deps id streaming s)).
Proof. intros H. unfold start_streaming. destruct streaming; [done|]. by apply inv_call; [apply I_transition|]. Qed.

Lemma inv_forward chunk streaming output s : J s ->
  match forward_data deps plan id chunk streaming output s with inl s' | inr (_, _, s') => J s' end.
Proof.
  intros H. unfold forward_data. destruct (bool_decide _); [done|].
  pose proof (inv_start streaming s H) as H1. destruct (start_streaming deps id streaming s) as [s1 []]; [|by apply inv_fail].
  pose proof (inv_reply (SSE (content_frame id (ch_Data chunk))) s1 H1) as H2.
  destruct (reply deps _ s1) as [s2 []]; [done|by apply inv_fail].
Qed.

Lemma inv_finish chunk streaming output s : J s -> J (finish deps plan id isalt osalt chunk streaming output s).
Proof.
  intros H. unfold finish.
  pose proof (inv_start streaming s H) as H1. destruct (start_streaming deps id streaming s) as [s1 []]; [|by apply inv_abort].
  destruct (_ || _ || _); [by apply inv_reply, inv_reply, inv_fail|].
  unfold persist. set (p := proposal_of _ _ _ _ _ _ _).
  pose proof (inv_call (dp_Persist deps p) (CPersist p) s1 (I_persist p) H1) as H2.
  destruct (call _ _ s1) as [s2 []]; [by apply inv_reply, inv_reply|by apply inv_abort].
Qed.

Lemma inv_stream wakes : forall streaming output s, J s ->
  J (fst (stream deps plan id isalt osalt wakes streaming output s)).
Proof.
  induction wakes as [|[| | |event] wakes IH]; intros streaming output s H; simpl; try done; try by apply inv_fail.
  destruct (negb _); [by apply IH|]. destruct (DecodeBody (ev_Envelope event)) as [chunk|]; [|by apply inv_fail].
  pose proof (inv_forward chunk streaming output s H) as F.
  destruct (forward_data deps plan id chunk streaming output s) as [s1|[[st out] s1]]; [done|].
  destruct (negb _); [by apply inv_reply, inv_reply, inv_abort|].
  destruct (ch_Done chunk); [by apply inv_finish|by apply IH].
Qed.

Lemma inv_serve flusher wakes s : J s -> J (fst (serve deps plan id isalt osalt flusher wakes s)).
Proof.
  intros H. unfold serve, reserve.
  pose proof (inv_call (dp_Reserve deps (reservation_of plan id)) (CReserve (reservation_of plan id)) s (I_reserve _) H) as H1.
  destruct (call _ _ s) as [s1 []]; [|by apply inv_reply].
  assert (J (fst (offer deps plan id s1))) as H2.
  { unfold offer. destruct (NewEnvelope _ _ _); [|done]. by apply inv_call; [apply I_send|]. }
  destruct (offer deps plan id s1) as [s2 []]; [|by apply inv_reply, inv_abort].
  destruct (waitAccepted wakes) as [[[] rest]|]; [|by apply inv_reply, inv_fail|done].
  unfold transition.
  pose proof (inv_call (dp_Transition deps id "accepted") (CTransition id "accepted") s2 (I_transition _ _) H2) as H3.
  destruct (call _ _ s2) as [s3 []]; [|by apply inv_reply, inv_fail].
  destruct (negb flusher); [by apply inv_reply, inv_fail|]. by apply inv_stream, inv_reply.
Qed.
End Invariant.

Lemma ServeHTTP_invariant {W} (deps : Dependencies W) (I : W -> Prop) sort_slice r random isalt osalt flusher wakes w :
  (forall m e w, I w -> I (fst (dp_Send deps m e w))) -> (forall r w, I w -> I (fst (dp_Reserve deps r w))) ->
  (forall i n w, I w -> I (fst (dp_Transition deps i n w))) -> (forall i st w, I w -> I (fst (dp_Abort deps i st w))) ->
  (forall p w, I w -> I (fst (dp_Persist deps p w))) -> (forall r w, I w -> I (fst (dp_Write deps r w))) ->
  I w -> I (fst (fst (ServeHTTP deps sort_slice r random isalt osalt flusher wakes w))).
Proof.
  intros H1 H2 H3 H4 H5 H6 Hw. unfold ServeHTTP.
  destruct (admission deps sort_slice r w) as [[code text]|plan]; [by apply (inv_reply deps I)|].
  destruct random as [random|]; [|by apply (inv_reply deps I)]. by apply (inv_serve deps I).
Qed.

(** ** A sample request on toy dependencies *)
Module Served.
Definition candidate : Candidate :=
  mkCandidate "mach_1" "o1" "llama" ["stream"; "text"] true true 1 0 3 20 10000 5 "2" "3" "5".
Definition deps : Dependencies unit :=
  mkDependencies true (fun _ _ => true) (fun _ _ w => (w, Ok tt))
    (fun _ _ _ _ _ => Ok (mkPrincipal "customer" "s1" 5000)) (fun _ _ => Ok [candidate])
    (fun _ w => (w, Ok tt)) (fun _ _ w => (w, Ok tt)) (fun _ _ w => (w, Ok tt)) (fun _ w => (w, Ok tt))
    (fun _ => 1700000000 * Second) (fun _ w => (w, true)).
Definition request : HttpRequest :=
  mkHttpRequest "POST" "/v1/chat/completions" "1000" "Bearer k.s" ""
    (Some (JObj [("model", JStr "llama"); ("stream", JBool true);
                 ("messages", JArr [JObj [("role", JStr "user"); ("content", JStr "hi")]])])) None.
Definition id : string := Eval vm_compute in randomID [1; 2; 3].
Definition arrived (messageType : string) (body : json) : Wakeup :=
  Arrived (mkEvent "mach_1" messageType (mkEnvelope 1 messageType "e" (Some body))).
Definition chunk sequence data done tokens : Wakeup :=
  arrived MessageOutputChunk (chunk_json (mkOutputChunk id sequence data done tokens tokens tokens "")).
Definition wakeups : list Wakeup :=
  [arrived MessageJobAccept (Marshal (mkJobAccept id)); chunk 1 "he" false 0; chunk 2 "llo" false 0; chunk 3 "" true 7].
Definition run := ServeHTTP deps insertion_sorter request (Ok [1; 2; 3]) (Ok [9]) (Ok [8]) true wakeups tt.
Definition reservation : Reservation := Eval vm_compute in
  match snd (fst run) with CReserve r _ :: _ => r | _ => mkReservation "" "" "" "" "" 0 0 0 0 0 end.
Definition proposal : Proposal := Eval vm_compute in
  match omap (fun c => match c with CPersist p _ => Some p | _ => None end) (snd (fst run)) with
  | p :: _ => p | [] => mkProposal "" "" "" "" "" 0 0 0 0 [] [] 0 end.

Example spend : re_MaximumSpend reservation = 602.
Proof. vm_compute. reflexivity. Qed.
Example output : streamed (snd (fst run)) = ["he"; "llo"].
Proof. vm_compute. reflexivity. Qed.
End Served.

Lemma reservation_affordable_witness :
  exists spend principal, re_MaximumSpend Served.reservation <= spend
    /\ re_MaximumSpend Served.reservation <= pp_SessionBalance principal.
Proof.
  destruct (reservation_affordable Served.deps insertion_sorter Served.request (Ok [1; 2; 3]) (Ok [9]) (Ok [8]) true
    Served.wakeups tt Served.reservation true)
    as (input & principal & candidates & c & spend & _ & _ & _ & _ & _ & _ & _ & _ & _ & _ & H1 & H2).
  - vm_compute. by left.
  - exists spend, principal. by split.
Defined.

Lemma billed_is_streamed_witness :
  exists plan random', Ok [1; 2; 3] = Ok random' /\ admission Served.deps insertion_sorter Served.request tt = inr plan
    /\ billed plan (randomID random') (Ok [9]) (Ok [8]) (snd (fst Served.run)) Served.proposal.
Proof.
  apply (billed_is_streamed Served.deps insertion_sorter Served.request (Ok [1; 2; 3]) (Ok [9]) (Ok [8]) true
    Served.wakeups tt Served.proposal true).
  vm_compute. repeat first [by left | right].
Defined.
