(* ===== verification/Wiring.v ===== *)
(** * The wired server (server/cmd/myference-server/main.go)

    The dependencies that [run] gives to the inference endpoint: the store, the
    key service, the hub and the settlement coordinator, over one [Server]
    world.  [others] is what other goroutines do to the database and the hub
    while the coordinator waits for a signature; its timer always fires in the
    end, so the call returns. *)

From S2P Require Import Prelude GoStrings GoTime Wire Receipt Router Messages Proposals Db Hex Auth Store.
From S2P Require Import Settlement Indexer Sample Ledger StoreSpec Relay Coordinator Broker BrokerSpec.
Open Scope string_scope.
Open Scope list_scope.
Open Scope Z_scope.

Record Server := mkServer { sv_now : Z; sv_db : Db; sv_hub : Hub }.

(** A transaction on the server's database. *)
Definition transact (f : Db -> result Db) (w : Server) : Server * result unit :=
  match f (sv_db w) with
  | Ok d => (mkServer (sv_now w) d (sv_hub w), Ok tt)
  | Err e => (w, Err e)
  end.

(** The capacity handler of the hub; the chain is Monad testnet. *)
Definition capacity_handler (contract : string) (machineID : string) (capacity : Capacity) (w : Server)
  : Server * result unit :=
  transact (ReconcileProviderCapacity (sv_now w) machineID capacity 10143 contract) w.

(** The authenticator of the hub. *)
Definition hub_auth (d : Db) (token : string) : result string :=
  principal ← AuthenticateMachine token d; Ok (mp_MachineID principal).

Definition authorize (token model endpoint : string) (maximum : Z) (w : Server) : result Principal :=
  principal ← AuthorizeAPIKey token model endpoint maximum (sv_db w);
  '(sessionID, balance) ← OpenSession (kp_AccountID principal) (sv_db w);
  Ok (mkPrincipal (kp_AccountID principal) sessionID balance).

Definition inference_reservation (r : Reservation) : InferenceReservation :=
  mkInferenceReservation (re_RequestID r) (re_SessionID r) (re_AccountID r) (re_MachineID r) (re_OfferID r)
    (re_PriceVersion r) (re_MaximumSpend r) (re_MaximumInputTokens r) (re_MaximumOutputTokens r)
    (re_MaximumComputeMilliseconds r).

Definition completion_of (p : Proposal) : Completion :=
  mkCompletion (po_RequestID p) (po_SessionID p) (po_MachineID p) (po_OfferID p) (po_Model p) (po_PriceVersion p)
    (po_InputTokens p) (po_OutputTokens p) (po_ComputeMilliseconds p) (po_InputHash p) (po_OutputHash p)
    (po_CompletedAt p).

Section Wiring.
Context `{Ethereum}.
Context {PublicKey : Type} (Keccak256 : list bytes -> Hash) (Pack : list abi_value -> result bytes)
  (SigToPub : bytes -> bytes -> result PublicKey) (PubkeyToAddress : PublicKey -> Address)
  (receiptTypeText domainTypeText nameText versionText : bytes).
Context (broker_ReceiptTerms : result ReceiptTerms) (broker_SignReceipt : ChainReceipt -> result bytes).
Context (others : Db * Hub -> Db * Hub) (wakes : list Wake).
(** Whether the client still takes a piece of the response. *)
Context (client : Reply -> bool).

Definition persist_completion (p : Proposal) (w : Server) : Server * result unit :=
  let '(d, hub, outcome) :=
    Complete Keccak256 Pack SigToPub PubkeyToAddress receiptTypeText domainTypeText nameText versionText
      broker_ReceiptTerms broker_SignReceipt (sv_now w) (completion_of p) others (wakes ++ [TimerFired])
      (sv_db w) (sv_hub w) in
  (mkServer (sv_now w) d hub,
   match outcome with Some r => r | None => Err (ErrNew "provider receipt signature timed out") end).

Definition server_dependencies : Dependencies Server :=
  mkDependencies true (fun m w => Connected m (sv_hub w))
    (fun m e w => let '(hub, r) := Send m e (sv_hub w) in (mkServer (sv_now w) (sv_db w) hub, r))
    authorize
    (fun model w => RoutingCandidates model (sv_db w))
    (fun r w => transact (ReserveInference (sv_now w) (inference_reservation r)) w)
    (fun id next w => transact (TransitionRequest (sv_now w) id next) w)
    (fun id state w => transact (AbortInference (sv_now w) id state) w)
    persist_completion
    sv_now
    (fun r w => (w, client r)).

(** ** Solvency end to end *)
Lemma await_timer now terms receipt m s ws d :
  await_signature Keccak256 Pack SigToPub PubkeyToAddress receiptTypeText domainTypeText nameText versionText
    broker_SignReceipt now terms receipt m s (ws ++ [TimerFired]) d <> None.
Proof. induction ws as [|[e| |event] ws IH]; simpl; try done. by destruct (_ || _). Qed.

Lemma Complete_reachable now c ws d hub d' hub' r :
  (forall d hub, rtc step d (fst (others (d, hub)))) ->
  Complete Keccak256 Pack SigToPub PubkeyToAddress receiptTypeText domainTypeText nameText versionText
    broker_ReceiptTerms broker_SignReceipt now c others ws d hub = (d', hub', r) ->
  rtc step d d'.
Proof.
  intros Hothers. unfold Complete. intros Hc.
  destruct (CompleteInference now c d) as [d1|] eqn:E1; [|simplify_eq; constructor].
  assert (rtc step d d1) as R1 by (apply rtc_once; by eapply step_operation, step_complete).
  destruct broker_ReceiptTerms as [terms|]; [|by simplify_eq].
  destruct (PrepareReceipt _ _ _ d1) as [[[[receipt machine] signer] d2]|] eqn:E3; [|by simplify_eq].
  assert (rtc step d d2) as R2 by (eapply rtc_r; [exact R1|by eapply step_operation, step_prepare]).
  destruct (Subscribe _ hub) as [hub1 events].
  destruct (NewEnvelope _ _ _) as [envelope|]; [|by simplify_eq].
  destruct (Send machine envelope hub1) as [hub2 [u|e]]; [|by simplify_eq].
  pose proof (Hothers d2 hub2) as Ho. destruct (others (d2, hub2)) as [d3 hub3]. simpl in Ho.
  assert (rtc step d d3) as R3 by (by etrans).
  destruct (await_signature _ _ _ _ _ _ _ _ _ _ _ _ _ _ _ _) as [[d4|]|] eqn:E8; simplify_eq; try done.
  destruct (await_signature_Ok _ _ _ _ _ _ _ _ _ _ _ _ _ _ _ _ _ E8) as (event & signed & _ & _ & _ & _ & _ & He).
  eapply rtc_r; [exact R3|by eapply step_operation, step_enqueue].
Qed.

Lemma transact_reachable f w : (forall d', f (sv_db w) = Ok d' -> step (sv_db w) d') ->
  rtc step (sv_db w) (sv_db (fst (transact f w))).
Proof. intros Hf. unfold transact. destruct (f (sv_db w)) as [d|]; [|constructor]. apply rtc_once. by apply Hf. Qed.


(** ** The hold of an unanswered request *)
(** C0. A request whose provider does not accept in time keeps what it
    reserved.  Once its reservation is written and its job offer sent, when the
    wait ends first the handler answers 504, cancels the job and asks to fail
    the request; but the store has no edge from [offered] to [failed]: the
    abort is refused, at this or any other time, and the database the handler
    leaves is the one the reservation made.  There a positive amount of the
    customer's session is still held for the request, and the route of the
    provider's offer still has one unit of capacity less. *)
Theorem unaccepted_request_keeps_hold plan id isalt osalt flusher rest w d1 :
  ReserveInference (sv_now w) (inference_reservation (reservation_of plan id)) (sv_db w) = Ok d1 ->
  snd (offer server_dependencies plan id (mkServer (sv_now w) d1 (sv_hub w), [])) = true ->
  let '(s, finished) := serve server_dependencies plan id isalt osalt flusher (Elapsed :: rest) (w, []) in
  finished = true /\ sv_db (fst s) = d1
  /\ (exists trace ok, snd s = trace ++ [CReply (HTTPError 504 "provider did not accept") ok])
  /\ (forall later, AbortInference later id "failed" (sv_db (fst s)) = Err ErrInvalidTransition)
  /\ (exists amount, 0 < amount /\ mkReservationRow id (pp_SessionID (pl_principal plan)) amount None ∈ reservations (sv_db (fst s)))
  /\ routing (sv_db (fst s))
     = update (routing_key (cand_MachineID (pl_selected plan)) (cand_OfferID (pl_selected plan)))
         (fun row => set_rt_updated_at (sv_now w) (set_rt_capacity (rt_capacity row - 1) row)) (routing (sv_db w)).
Proof.
  intros Hr Ho.
  assert (forall later, AbortInference later id "failed" d1 = Err ErrInvalidTransition) as Hnever
    by (intros later; by destruct (offered_abort_refused (sv_now w) later _ _ _ Hr)).
  pose proof (ReserveInference_spec _ _ _ _ Hr) as (held & _ & _ & _ & Hheld & _ & _ & Erows & _ & _ & Eroutes).
  unfold serve, reserve, call. cbn [server_dependencies dp_Reserve fst snd app]. unfold transact.
  rewrite Hr. cbn [is_ok]. set (s1 := (mkServer (sv_now w) d1 (sv_hub w), [CReserve _ true])).
  destruct (offered_abort_refused (sv_now w) (sv_now w) _ _ _ Hr) as [Habort _].
  assert (exists hub trace, offer server_dependencies plan id s1 = ((mkServer (sv_now w) d1 hub, trace), true)) as (hub & trace & ->).
  { unfold offer, send, call in *. cbn [fst snd s1] in *. destruct (NewEnvelope _ _ _) as [envelope|]; [|done].
    cbn [server_dependencies dp_Send sv_hub sv_now sv_db] in *.
    destruct (Send _ envelope (sv_hub w)) as [hub r]. simpl in *. rewrite Ho. by eexists _, _. }
  cbn [waitAccepted].
  assert (forall s : Server * list Call, sv_db (fst s) = d1 -> sv_now (fst s) = sv_now w ->
    sv_db (fst (fail_cancelled server_dependencies plan id "failed" s)) = d1) as Hfail.
  { intros [v t] Hd Hn. simpl in Hd, Hn. unfold fail_cancelled, cancel, abort, send, call.
    assert (forall v' t', sv_db v' = d1 -> sv_now v' = sv_now w ->
      sv_db (fst (fst (let '(w0, e) := dp_Abort server_dependencies id "failed" (fst (v', t')) in
                       ((w0, snd (v', t') ++ [CAbort id "failed" (is_ok e)]), is_ok e)))) = d1) as Hab.
    { intros v' t' Hd' Hn'. cbn [server_dependencies dp_Abort fst]. unfold transact. rewrite Hd', Hn'.
      cbn [inference_reservation reservation_of ir_RequestID re_RequestID] in Habort. by rewrite Habort. }
    destruct (NewEnvelope _ _ _) as [envelope|]; [|by apply Hab].
    cbn [server_dependencies dp_Send fst]. destruct (Send _ envelope (sv_hub v)) as [hub' r]. by apply Hab. }
  specialize (Hfail (mkServer (sv_now w) d1 hub, trace) eq_refl eq_refl).
  destruct (fail_cancelled _ _ _ _ _) as [v t]. simpl in Hfail. cbn. rewrite Hfail. split_and!; [done|done|eauto|exact Hnever| |].
  - exists held. split; [lia|]. rewrite Erows. apply elem_of_app. right. by left.
  - exact Eroutes.
Qed.
End Wiring.

(** ** A sample server *)
Module Live.
Definition plan : Plan :=
  mkPlan (mkChatRequest "llama" true [mkChatMessage "user" "hi"] [] 0 0) "user: hi" 
    (mkPrincipal "customer" session_id 1000)
    (mkCandidate machine_id "o1" "llama" ["text"; "stream"] true true 1 700 1 0 10000 0 "2" "3" "5")
    2000000 1000000 700.
Definition server : Server := mkServer 20 db_ready Handshake.hub.
Definition deps : Dependencies Server :=
  server_dependencies Toy.Keccak256 Toy.Pack Toy.SigToPub Toy.PubkeyToAddress [1] [2] [3] [4]
    (Ok Handshake.terms) Handshake.broker_sign (fun x => x) [] (fun _ => true).
Definition reserved_db : Db := Eval vm_compute in
  value_of (ReserveInference 20 (inference_reservation (reservation_of plan request_id)) db_ready).
End Live.


Lemma unaccepted_request_keeps_hold_witness :
  let '(s, finished) := serve Live.deps Live.plan request_id (Ok [2]) (Ok [3]) true [Elapsed] (Live.server, []) in
  finished = true /\ sv_db (fst s) = Live.reserved_db
  /\ (exists trace ok, snd s = trace ++ [CReply (HTTPError 504 "provider did not accept") ok])
  /\ (forall later, AbortInference later request_id "failed" (sv_db (fst s)) = Err ErrInvalidTransition)
  /\ (exists amount, 0 < amount /\ mkReservationRow request_id session_id amount None ∈ reservations (sv_db (fst s)))
  /\ routing (sv_db (fst s))
     = update (routing_key machine_id "o1") (fun row => set_rt_updated_at 20 (set_rt_capacity (rt_capacity row - 1) row)) (routing db_ready).
Proof.
  apply (unaccepted_request_keeps_hold Toy.Keccak256 Toy.Pack Toy.SigToPub Toy.PubkeyToAddress [1] [2] [3] [4]
    (Ok Handshake.terms) Handshake.broker_sign (fun x => x) [] (fun _ => true) Live.plan request_id (Ok [2]) (Ok [3])
    true [] Live.server Live.reserved_db); vm_compute; reflexivity.
Defined.
