(* ===== verification/EventBroker.v ===== *)
(** * The event broker (server/internal/api/openai.go)

    One goroutine drains the hub's [Events] and hands each event to the stream
    registered for its request: a channel of 32 events and a flag channel of
    one slot that is raised when an event had to be dropped. *)

From S2P Require Import Prelude GoStrings Wire Messages Relay.
Open Scope string_scope.
Open Scope list_scope.
Open Scope Z_scope.

Record brokerStream := mkBrokerStream { bs_events : list Event; bs_overflow : bool }.
Definition StreamCapacity : nat := 32.

Abbreviation eventBroker := (gmap string brokerStream).

Definition register (request : string) (b : eventBroker) : eventBroker :=
  <[request := mkBrokerStream [] false]> b.
Definition unregister (request : string) (b : eventBroker) : eventBroker := delete request b.

Definition eventRequestID (event : Event) : string :=
  if String.eqb (ev_Type event) MessageJobAccept then
    match DecodeBody (M := JobAccept) (ev_Envelope event) with Ok m => ja_RequestID m | Err _ => "" end
  else if String.eqb (ev_Type event) MessageOutputChunk then
    match DecodeBody (M := OutputChunk) (ev_Envelope event) with Ok m => ch_RequestID m | Err _ => "" end
  else "".

(** One iteration of [run]. *)
Definition dispatch (event : Event) (b : eventBroker) : eventBroker :=
  let request := eventRequestID event in
  if String.eqb request "" then b
  else
    match b !! request with
    | None => b
    | Some stream =>
        match try_push StreamCapacity (bs_events stream) event with
        | Some events => <[request := mkBrokerStream events (bs_overflow stream)]> b
        | None => <[request := mkBrokerStream (bs_events stream) true]> b
        end
    end.

(** The handler's side: receive from [events]. *)
Definition take_event (request : string) (b : eventBroker) : eventBroker * option Event :=
  match b !! request with
  | Some (mkBrokerStream (event :: rest) overflow) =>
      (<[request := mkBrokerStream rest overflow]> b, Some event)
  | _ => (b, None)
  end.

(** ** Interleavings of the broker, the handler of one request, and others *)
Inductive BrokerAction :=
| Dispatched (event : Event)
| Taken
| OtherRegistered (request : string)
| OtherUnregistered (request : string)
| OtherTaken (request : string).

Definition broker_step (request : string) (a : BrokerAction) (b : eventBroker) : eventBroker * list Event :=
  match a with
  | Dispatched event => (dispatch event b, [])
  | Taken => let '(b, e) := take_event request b in (b, option_list e)
  | OtherRegistered other => (if String.eqb other request then b else register other b, [])
  | OtherUnregistered other => (if String.eqb other request then b else unregister other b, [])
  | OtherTaken other => (if String.eqb other request then b else fst (take_event other b), [])
  end.

(** The events the handler received. *)
Fixpoint broker_run (request : string) (actions : list BrokerAction) (b : eventBroker)
  : eventBroker * list Event :=
  match actions with
  | [] => (b, [])
  | a :: rest =>
      let '(b, taken) := broker_step request a b in
      let '(b, later) := broker_run request rest b in
      (b, taken ++ later)
  end.

Definition dispatched (request : string) (actions : list BrokerAction) : list Event :=
  omap (fun a => match a with
                 | Dispatched event => if String.eqb (eventRequestID event) request then Some event else None
                 | _ => None
                 end) actions.

Definition stream_of (request : string) (b : eventBroker) : brokerStream :=
  default (mkBrokerStream [] false) (b !! request).

Lemma take_other request other b : other <> request -> fst (take_event other b) !! request = b !! request.
Proof.
  intros Hne. unfold take_event. destruct (b !! other) as [[[|event rest] overflow]|] eqn:E; try done.
  cbn [fst]. by rewrite lookup_insert_ne.
Qed.

Lemma broker_step_spec request a b stream : request <> "" -> b !! request = Some stream ->
  let '(b', taken) := broker_step request a b in
  exists stream', b' !! request = Some stream'
  /\ (bs_overflow stream = true -> bs_overflow stream' = true)
  /\ (length (bs_events stream) <= StreamCapacity -> length (bs_events stream') <= StreamCapacity)%nat
  /\ exists new, bs_events stream ++ new = taken ++ bs_events stream'
     /\ (new = dispatched request [a] \/ new = [] /\ bs_overflow stream' = true).
Proof.
  intros Hr Hb. destruct a as [event| |other|other|other]; simpl.
  - unfold dispatch. destruct (String.eqb_spec (eventRequestID event) "") as [E|E].
    { exists stream. split_and!; try done. exists []. rewrite app_nil_r. split; [done|left].
      by rewrite E, (proj2 (String.eqb_neq _ _) (not_eq_sym Hr)). }
    destruct (String.eqb_spec (eventRequestID event) request) as [->|Hne].
    + rewrite Hb. unfold try_push. case_decide as Hlt.
      * eexists. rewrite lookup_insert_eq. split_and!; [done|done|simpl; rewrite length_app; simpl; lia|].
        exists [event]. split; [done|by left].
      * eexists. rewrite lookup_insert_eq. split_and!; [done|done|done|]. exists []. rewrite app_nil_r.
        split; [done|by right].
    + exists stream. split_and!; try done.
      * destruct (b !! eventRequestID event); [|done]. by case_match; rewrite lookup_insert_ne.
      * exists []. rewrite app_nil_r. split; [done|by left].
  - unfold take_event. rewrite Hb. destruct stream as [[|event rest] overflow].
    + exists (mkBrokerStream [] overflow). split_and!; try done. exists []. by split; [|left].
    + eexists. rewrite lookup_insert_eq. split_and!; [done|done|simpl; lia|]. exists []. rewrite app_nil_r.
      by split; [|left].
  - exists stream. split_and!; try done.
    + destruct (String.eqb_spec other request); [done|]. unfold register. by rewrite lookup_insert_ne.
    + exists []. rewrite app_nil_r. by split; [|left].
  - exists stream. split_and!; try done.
    + destruct (String.eqb_spec other request); [done|]. unfold unregister. by rewrite lookup_delete_ne.
    + exists []. rewrite app_nil_r. by split; [|left].
  - exists stream. split_and!; try done.
    + destruct (String.eqb_spec other request); [done|]. by rewrite take_other.
    + exists []. rewrite app_nil_r. by split; [|left].
Qed.

Lemma broker_run_spec request actions : request <> "" -> forall b stream,
  b !! request = Some stream -> (length (bs_events stream) <= StreamCapacity)%nat ->
  let '(b', taken) := broker_run request actions b in
  exists stream', b' !! request = Some stream'
  /\ (bs_overflow stream = true -> bs_overflow stream' = true)
  /\ (length (bs_events stream') <= StreamCapacity)%nat
  /\ exists new, bs_events stream ++ new = taken ++ bs_events stream'
     /\ new `sublist_of` dispatched request actions
     /\ (new = dispatched request actions \/ bs_overflow stream' = true).
Proof.
  intros Hr. induction actions as [|a actions IH]; intros b stream Hb Hl; cbn [broker_run].
  - exists stream. split_and!; try done. exists []. rewrite app_nil_r. by split_and!; [| |left].
  - pose proof (broker_step_spec request a b stream Hr Hb) as S.
    destruct (broker_step request a b) as [b1 t1]. destruct S as (s1 & H1 & O1 & L1 & new1 & E1 & D1).
    specialize (IH b1 s1 H1 (L1 Hl)). destruct (broker_run request actions b1) as [b2 t2].
    destruct IH as (s2 & H2 & O2 & L2 & new2 & E2 & S2 & D2).
    exists s2. split_and!; [done|auto|done|]. exists (new1 ++ new2).
    assert (dispatched request (a :: actions) = dispatched request [a] ++ dispatched request actions) as Ed.
    { unfold dispatched. by rewrite <- omap_app. }
    rewrite Ed. split_and!.
    + by rewrite app_assoc, E1, <- app_assoc, E2, app_assoc.
    + apply sublist_app; [|done]. destruct D1 as [->|[-> _]]; [done|apply sublist_nil_l].
    + destruct D1 as [->|[_ Ho]]; [|right; by apply O2]. destruct D2 as [->|]; [by left|by right].
Qed.

(** No event is lost silently: from the moment a request is registered,
    what its handler received followed by what still waits in its channel is
    the sequence of that request's events from the hub, in order, unless the
    overflow flag is raised, and then it is a subsequence of it; the channel
    never holds more than its 32 events. *)
Theorem events_complete_or_overflow request actions b :
  request <> "" ->
  let '(b', taken) := broker_run request actions (register request b) in
  let stream := stream_of request b' in
  (taken ++ bs_events stream) `sublist_of` dispatched request actions
  /\ (bs_overflow stream = false -> taken ++ bs_events stream = dispatched request actions)
  /\ (length (bs_events stream) <= StreamCapacity)%nat.
Proof.
  intros Hr. pose proof (broker_run_spec request actions Hr (register request b) (mkBrokerStream [] false)) as R.
  destruct (broker_run request actions (register request b)) as [b' taken].
  destruct R as (stream & Hs & _ & Hl & new & E & S & D).
  { unfold register. apply lookup_insert_eq. }
  { simpl. lia. }
  unfold stream_of. rewrite Hs. simpl in *. subst new. split_and!; [done| |done].
  intros Ho. destruct D as [|D]; [done|congruence].
Qed.

Definition sample_accept : Event :=
  mkEvent "m" MessageJobAccept (mkEnvelope 1 MessageJobAccept "a" (Some (Marshal (mkJobAccept "0xaa")))).

Lemma events_complete_or_overflow_witness :
  let '(b', taken) := broker_run "0xaa" [Dispatched sample_accept; Dispatched sample_accept; Taken] (register "0xaa" ∅) in
  let stream := stream_of "0xaa" b' in
  (taken ++ bs_events stream) `sublist_of` [sample_accept; sample_accept]
  /\ (bs_overflow stream = false -> taken ++ bs_events stream = [sample_accept; sample_accept])
  /\ (length (bs_events stream) <= StreamCapacity)%nat.
Proof. apply (events_complete_or_overflow "0xaa" [Dispatched sample_accept; Dispatched sample_accept; Taken] ∅). done. Defined.
