(* ===== verification/Anthropic.v ===== *)
(** * The Anthropic adapter (server/internal/api/anthropic.go)

    The Messages endpoint translates its request into a chat request, runs the
    inference endpoint, and rewrites the server-sent events the endpoint writes.
    The rewriting is a state machine over a byte buffer. JSON text is a
    parameter: [marshal] and [parse]. *)

From S2P Require Import Prelude GoStrings GoTime Wire Receipt Router Messages Proposals Relay Broker.
From Stdlib Require Import Ascii.
Open Scope string_scope.
Open Scope list_scope.
Open Scope Z_scope.

(** ** The request *)
Record anthropicRequest := mkAnthropicRequest {
  ar_Model : string; ar_MaxTokens : Z; ar_Stream : bool; ar_System : string;
  ar_Messages : list chatMessage; ar_Workspace : list WorkspaceFile;
}.

Definition anthropic_fields : list (string * setter anthropicRequest) :=
  [ ("model", set_with as_string (fun v r => mkAnthropicRequest v (ar_MaxTokens r) (ar_Stream r) (ar_System r)
                 (ar_Messages r) (ar_Workspace r)));
    ("max_tokens", set_with (as_uint 64) (fun v r => mkAnthropicRequest (ar_Model r) v (ar_Stream r) (ar_System r)
                 (ar_Messages r) (ar_Workspace r)));
    ("stream", set_with as_bool (fun v r => mkAnthropicRequest (ar_Model r) (ar_MaxTokens r) v (ar_System r)
                 (ar_Messages r) (ar_Workspace r)));
    ("system", set_with as_string (fun v r => mkAnthropicRequest (ar_Model r) (ar_MaxTokens r) (ar_Stream r) v
                 (ar_Messages r) (ar_Workspace r)));
    ("messages", set_with as_messages (fun v r => mkAnthropicRequest (ar_Model r) (ar_MaxTokens r) (ar_Stream r)
                 (ar_System r) v (ar_Workspace r)));
    ("myference_workspace", set_with as_workspace (fun v r => mkAnthropicRequest (ar_Model r) (ar_MaxTokens r)
                 (ar_Stream r) (ar_System r) (ar_Messages r) v)) ].

(** The chat request marshalled for the inference endpoint. *)
Definition message_json (m : chatMessage) : json :=
  JObj [("role", jstr (cm_Role m)); ("content", jstr (cm_Content m))].
Definition chat_json (r : chatRequest) : json :=
  JObj (member "model" (jstr (cq_Model r)) ++ member "stream" (JBool (cq_Stream r))
        ++ member "messages" (JArr (map message_json (cq_Messages r)))
        ++ omit_if (bool_decide (cq_Workspace r = [])) "myference_workspace" (JArr (map file_json (cq_Workspace r)))
        ++ omit_if (cq_MaxTokens r =? 0) "max_tokens" (num (cq_MaxTokens r))
        ++ omit_if (cq_MaxCompletionTokens r =? 0) "max_completion_tokens" (num (cq_MaxCompletionTokens r))).

(** The request before the adapter: [body] is its first JSON value and [alone]
    says nothing follows it; [x_api_key] and [version] are headers. *)
Definition translate (r : HttpRequest) (version x_api_key : string) (alone : bool)
  : refusal + (HttpRequest * string) :=
  if negb (String.eqb (hr_Method r) "POST") || negb (String.eqb (hr_Path r) "/v1/messages")
  then inl (Refuse 404 "404 page not found")
  else if negb (String.eqb version "2023-06-01")
  then inl (Refuse 400 "supported anthropic-version is required")
  else
    match hr_Body r ≫= fun v => decode_struct anthropic_fields v (mkAnthropicRequest "" 0 false "" [] []) with
    | None => inl (Refuse 400 "invalid streaming messages request")
    | Some input =>
        if bool_decide (ar_Model input = "") || (ar_MaxTokens input =? 0) || negb (ar_Stream input)
           || bool_decide (length (ar_Messages input) = 0%nat) || negb alone
        then inl (Refuse 400 "invalid streaming messages request")
        else
          let messages := if bool_decide (ar_System input = "") then ar_Messages input
                          else mkChatMessage "system" (ar_System input) :: ar_Messages input in
          let encoded := chat_json (mkChatRequest (ar_Model input) true messages (ar_Workspace input)
                                      (ar_MaxTokens input) 0) in
          let key := TrimSpace x_api_key in
          inr (mkHttpRequest (hr_Method r) "/v1/chat/completions" (hr_MaxSpend r)
                 (if bool_decide (key = "") then hr_Authorization r else "Bearer " +:+ key)
                 (hr_Machine r) (Some encoded) (Some "/v1/messages"), ar_Model input)
    end.

(** ** The response writer *)
Inductive Output :=
| OHeader (status : Z)                     (* target.WriteHeader, with the stream headers below 400 *)
| ORaw (payload : string)
| OEvent (name : string) (value : json).

Record anthropicWriter := mkWriter {
  aw_buffer : string; aw_status : Z; aw_started : bool; aw_stopped : bool; aw_model : string; aw_id : string;
}.

Definition set_buffer v w := mkWriter v (aw_status w) (aw_started w) (aw_stopped w) (aw_model w) (aw_id w).
Definition set_stopped w := mkWriter (aw_buffer w) (aw_status w) (aw_started w) true (aw_model w) (aw_id w).

Definition message_start (id model : string) : json :=
  JObj [("message", JObj [("content", JArr []); ("id", jstr id); ("model", jstr model); ("role", jstr "assistant");
                          ("stop_reason", JNull); ("type", jstr "message");
                          ("usage", JObj [("input_tokens", num 0); ("output_tokens", num 0)])]);
        ("type", jstr "message_start")].
Definition block_start : json :=
  JObj [("content_block", JObj [("text", jstr ""); ("type", jstr "text")]); ("index", num 0);
        ("type", jstr "content_block_start")].

Definition WriteHeader (status : Z) (w : anthropicWriter) : anthropicWriter * list Output :=
  if negb (aw_status w =? 0) then (w, [])
  else if 400 <=? status
  then (mkWriter (aw_buffer w) status (aw_started w) (aw_stopped w) (aw_model w) (aw_id w), [OHeader status])
  else (mkWriter (aw_buffer w) status true (aw_stopped w) (aw_model w) (aw_id w),
        [OHeader status; OEvent "message_start" (message_start (aw_id w) (aw_model w));
         OEvent "content_block_start" block_start]).

(** [strings.Index(raw, "\n\n")]: the text before the first blank line and after it. *)
Definition is_newline (c : ascii) : bool := byte_of c =? 10.
Fixpoint next_frame (s : string) : option (string * string) :=
  match s with
  | String a ((String b rest) as tail) =>
      if is_newline a && is_newline b then Some ("", rest)
      else match next_frame tail with
           | Some (frame, rest) => Some (String a frame, rest)
           | None => None
           end
  | _ => None
  end.

(** All the complete frames of a buffer and what is left. *)
Fixpoint frames_fuel (fuel : nat) (s : string) : list string * string :=
  match fuel with
  | O => ([], s)
  | S fuel' =>
      match next_frame s with
      | None => ([], s)
      | Some (frame, rest) => let '(frames, remainder) := frames_fuel fuel' rest in (frame :: frames, remainder)
      end
  end.
Definition frames (s : string) : list string * string := frames_fuel (String.length s) s.

(** The payload of the last [data: ] line of a frame. *)
Definition data_line (frame : string) : string :=
  fold_left (fun data line => if HasPrefix line "data: " then TrimPrefix line "data: " else data)
    (SplitByte frame (of_byte 10)) "".

(** *** Decoding a chunk: [json.Unmarshal] skips unknown members *)
Fixpoint decode_known {T} (fields : list (string * setter T)) (members : list (string * json)) (t : T) : option T :=
  match members with
  | [] => Some t
  | (key, v) :: rest =>
      match find_field fields key with
      | None => decode_known fields rest t
      | Some set => match set v t with Some t' => decode_known fields rest t' | None => None end
      end
  end.
Definition decode_loose {T} (fields : list (string * setter T)) (v : json) (t : T) : option T :=
  match v with JNull => Some t | JObj members => decode_known fields members t | _ => None end.
Definition nested {A T} (fields : list (string * setter A)) (get : T -> A) (store : A -> T -> T) : setter T :=
  fun v t => match decode_loose fields v (get t) with Some a => Some (store a t) | None => None end.

Record chunkError := mkChunkError { ce_Type : string; ce_Code : string; ce_Message : string }.
Record choice := mkChoice { co_Content : string; co_FinishReason : option string }.
Record chunk := mkChunk { ck_Error : option chunkError; ck_Choices : list choice; ck_Prompt : Z; ck_Completion : Z }.

Definition error_fields : list (string * setter chunkError) :=
  [ ("type", set_with as_string (fun v e => mkChunkError v (ce_Code e) (ce_Message e)));
    ("code", set_with as_string (fun v e => mkChunkError (ce_Type e) v (ce_Message e)));
    ("message", set_with as_string (fun v e => mkChunkError (ce_Type e) (ce_Code e) v)) ].
Definition delta_fields : list (string * setter string) := [ ("content", set_with as_string (fun v _ => v)) ].
Definition choice_fields : list (string * setter choice) :=
  [ ("delta", nested delta_fields co_Content (fun v c => mkChoice v (co_FinishReason c)));
    ("finish_reason", fun v c => match v with
                                 | JNull => Some (mkChoice (co_Content c) None)
                                 | _ => match as_string v with
                                        | Some s => Some (mkChoice (co_Content c) (Some s)) | None => None end
                                 end) ].
Definition as_choices (v : json) : option (list choice) :=
  match v with JArr items => mapM (fun i => decode_loose choice_fields i (mkChoice "" None)) items | _ => None end.
Definition usage_fields : list (string * setter (Z * Z)) :=
  [ ("prompt_tokens", set_with (as_uint 64) (fun v u => (v, snd u)));
    ("completion_tokens", set_with (as_uint 64) (fun v u => (fst u, v))) ].
Definition chunk_members : list (string * setter chunk) :=
  [ ("error", fun v c =>
       match v with
       | JNull => Some (mkChunk None (ck_Choices c) (ck_Prompt c) (ck_Completion c))
       | _ => match decode_loose error_fields v (default (mkChunkError "" "" "") (ck_Error c)) with
              | Some e => Some (mkChunk (Some e) (ck_Choices c) (ck_Prompt c) (ck_Completion c))
              | None => None
              end
       end);
    ("choices", set_with as_choices (fun v c => mkChunk (ck_Error c) v (ck_Prompt c) (ck_Completion c)));
    ("usage", nested usage_fields (fun c => (ck_Prompt c, ck_Completion c))
                (fun u c => mkChunk (ck_Error c) (ck_Choices c) (fst u) (snd u))) ].

Definition error_event (e : chunkError) : json :=
  JObj [("error", JObj [("type", jstr (ce_Type e)); ("code", jstr (ce_Code e)); ("message", jstr (ce_Message e))]);
        ("type", jstr "error")].
Definition delta_event (text : string) : json :=
  JObj [("delta", JObj [("text", jstr text); ("type", jstr "text_delta")]); ("index", num 0);
        ("type", jstr "content_block_delta")].
Definition block_stop : json := JObj [("index", num 0); ("type", jstr "content_block_stop")].
Definition message_delta (tokens : Z) : json :=
  JObj [("delta", JObj [("stop_reason", jstr "end_turn")]); ("type", jstr "message_delta");
        ("usage", JObj [("output_tokens", num tokens)])].
Definition message_stop : json := JObj [("type", jstr "message_stop")].

Section Writer.
Context (marshal : json -> string) (parse : string -> option json).

(** The body of the loop of [process] for one frame. *)
Definition process_frame (frame : string) (w : anthropicWriter) : anthropicWriter * list Output :=
  let data := data_line frame in
  if bool_decide (data = "") then (w, [])
  else if String.eqb data "[DONE]" then
    (if aw_stopped w then (w, []) else (set_stopped w, [OEvent "message_stop" message_stop]))
  else
    match parse data ≫= fun v => decode_loose chunk_members v (mkChunk None [] 0 0) with
    | None => (w, [])
    | Some c =>
        match ck_Error c with
        | Some e => (set_stopped w, [OEvent "error" (error_event e)])
        | None =>
            match ck_Choices c with
            | [] => (w, [])
            | first :: _ =>
                (w, (if bool_decide (co_Content first = "") then []
                     else [OEvent "content_block_delta" (delta_event (co_Content first))])
                    ++ match co_FinishReason first with
                       | None => []
                       | Some _ => [OEvent "content_block_stop" block_stop;
                                    OEvent "message_delta" (message_delta (ck_Completion c))]
                       end)
            end
        end
    end.

Fixpoint process_frames (fs : list string) (w : anthropicWriter) : anthropicWriter * list Output :=
  match fs with
  | [] => (w, [])
  | f :: rest =>
      let '(w, out) := process_frame f w in
      let '(w, later) := process_frames rest w in
      (w, out ++ later)
  end.

Definition process (w : anthropicWriter) : anthropicWriter * list Output :=
  let '(fs, remainder) := frames (aw_buffer w) in process_frames fs (set_buffer remainder w).

Definition Write (payload : string) (w : anthropicWriter) : anthropicWriter * list Output :=
  let '(w, started) := if aw_status w =? 0 then WriteHeader 200 w else (w, []) in
  if 400 <=? aw_status w then (w, started ++ [ORaw payload])
  else let '(w, out) := process (set_buffer (aw_buffer w +:+ payload) w) in (w, started ++ out).

Definition Flush (w : anthropicWriter) : anthropicWriter * list Output := process w.

(** *** What the inference endpoint writes *)
Definition blank_line : string := str [10; 10].
Definition reply_output (r : Reply) (w : anthropicWriter) : anthropicWriter * list Output :=
  match r with
  | HTTPError code text =>
      let '(w, out) := WriteHeader code w in
      let '(w, body) := Write (text +:+ newline) w in (w, out ++ body)
  | StartStream id =>
      WriteHeader 200 (mkWriter (aw_buffer w) (aw_status w) (aw_started w) (aw_stopped w) (aw_model w) id)
  | SSE v => Write ("data: " +:+ marshal v +:+ blank_line) w
  | DoneFrame => Write ("data: [DONE]" +:+ blank_line) w
  end.

Fixpoint reply_outputs (rs : list Reply) (w : anthropicWriter) : anthropicWriter * list Output :=
  match rs with
  | [] => (w, [])
  | r :: rest =>
      let '(w, out) := reply_output r w in
      let '(w, later) := reply_outputs rest w in
      (w, out ++ later)
  end.
End Writer.

(** ** Frames do not depend on how the bytes are cut *)
Lemma next_frame_cons a b s : next_frame (String a (String b s)) =
  if is_newline a && is_newline b then Some ("", s)
  else match next_frame (String b s) with
       | Some (frame, rest) => Some (String a frame, rest)
       | None => None
       end.
Proof. reflexivity. Qed.

Lemma next_frame_app s : forall t frame rest, next_frame s = Some (frame, rest) -> next_frame (s +:+ t) = Some (frame, rest +:+ t).
Proof.
  induction s as [|a s IH]; intros t frame rest Hs; [done|]. destruct s as [|b s]; [done|].
  specialize (IH t). rewrite !app_string_cons in *. rewrite next_frame_cons in *.
  destruct (is_newline a && is_newline b); [by injection Hs as <- <-|].
  destruct (next_frame (String b s)) as [[f r]|]; [|done].
  injection Hs as <- <-. by rewrite (IH f r eq_refl).
Qed.

Lemma next_frame_shorter s : forall frame rest, next_frame s = Some (frame, rest) ->
  (String.length rest + 2 <= String.length s)%nat.
Proof.
  induction s as [|a s IH]; intros frame rest Hs; [done|]. destruct s as [|b s]; [done|]. rewrite next_frame_cons in Hs.
  destruct (is_newline a && is_newline b); [injection Hs as _ <-; simpl; lia|].
  destruct (next_frame (String b s)) as [[f r]|]; [|done]. injection Hs as _ <-.
  specialize (IH f r eq_refl). simpl in *. lia.
Qed.

Lemma frames_fuel_enough f1 : forall f2 s, (String.length s <= f1)%nat -> (String.length s <= f2)%nat ->
  frames_fuel f1 s = frames_fuel f2 s.
Proof.
  induction f1 as [|f1 IH]; intros [|f2] s H1 H2; try done.
  - destruct s; [done|simpl in H1; lia].
  - destruct s; [done|simpl in H2; lia].
  - cbn [frames_fuel]. destruct (next_frame s) as [[frame rest]|] eqn:E; [|done].
    apply next_frame_shorter in E. by rewrite (IH f2 rest) by lia.
Qed.

Lemma frames_unfold s : frames s =
  match next_frame s with
  | None => ([], s)
  | Some (frame, rest) => let '(fs, remainder) := frames rest in (frame :: fs, remainder)
  end.
Proof.
  unfold frames. destruct (String.length s) as [|n] eqn:El.
  - destruct s; [done|discriminate].
  - cbn [frames_fuel]. destruct (next_frame s) as [[frame rest]|] eqn:E; [|done].
    apply next_frame_shorter in E. by rewrite (frames_fuel_enough n (String.length rest)) by lia.
Qed.

(** The frames of a longer buffer: those of its beginning, then those of what
    the beginning left followed by the new bytes. *)
Lemma frames_app s t : frames (s +:+ t) =
  let '(fs, remainder) := frames s in
  let '(fs', remainder') := frames (remainder +:+ t) in (fs ++ fs', remainder').
Proof.
  remember (String.length s) as n eqn:En. revert s En. induction (lt_wf n) as [n _ IH]. intros s ->.
  rewrite (frames_unfold s). destruct (next_frame s) as [[frame rest]|] eqn:E.
  - rewrite frames_unfold, (next_frame_app _ _ _ _ E). pose proof (next_frame_shorter _ _ _ E).
    rewrite (IH (String.length rest) ltac:(lia) rest eq_refl).
    destruct (frames rest) as [fs remainder]. by destruct (frames (remainder +:+ t)).
  - by destruct (frames (s +:+ t)).
Qed.

Lemma frames_remainder s : next_frame (snd (frames s)) = None.
Proof.
  remember (String.length s) as n eqn:En. revert s En. induction (lt_wf n) as [n _ IH]. intros s ->.
  rewrite frames_unfold. destruct (next_frame s) as [[frame rest]|] eqn:E; [|done].
  pose proof (next_frame_shorter _ _ _ E). specialize (IH (String.length rest) ltac:(lia) rest eq_refl).
  by destruct (frames rest).
Qed.

Section WriterProofs.
Context (marshal : json -> string) (parse : string -> option json).

Lemma process_frame_status f w : let w' := fst (process_frame parse f w) in
  aw_status w' = aw_status w /\ aw_buffer w' = aw_buffer w.
Proof. unfold process_frame. repeat case_match; done. Qed.

Lemma process_frames_status fs : forall w, let w' := fst (process_frames parse fs w) in
  aw_status w' = aw_status w /\ aw_buffer w' = aw_buffer w.
Proof.
  induction fs as [|f fs IH]; intros w; [done|]. simpl.
  pose proof (process_frame_status f w) as Hf. destruct (process_frame parse f w) as [w1 o1]. simpl in Hf.
  specialize (IH w1). destruct (process_frames parse fs w1) as [w2 o2]. simpl in *. destruct IH, Hf. split; congruence.
Qed.

Lemma process_frames_app fs gs w :
  process_frames parse (fs ++ gs) w =
  let '(w1, o1) := process_frames parse fs w in let '(w2, o2) := process_frames parse gs w1 in (w2, o1 ++ o2).
Proof.
  revert w. induction fs as [|f fs IH]; intros w; simpl; [by destruct (process_frames parse gs w)|].
  destruct (process_frame parse f w) as [w1 o1]. rewrite IH.
  destruct (process_frames parse fs w1) as [w2 o2]. destruct (process_frames parse gs w2) as [w3 o3].
  by rewrite app_assoc.
Qed.

(** A frame is read without looking at the buffer. *)
Lemma process_frame_buffer f b w : process_frame parse f (set_buffer b w) =
  (set_buffer b (fst (process_frame parse f w)), snd (process_frame parse f w)).
Proof.
  unfold process_frame, set_buffer, set_stopped. destruct w as [b0 st sr sp mo i]. cbn.
  repeat (case_match; simplify_eq/=; try done).
Qed.
Lemma process_frames_buffer fs : forall b w, process_frames parse fs (set_buffer b w) =
  (set_buffer b (fst (process_frames parse fs w)), snd (process_frames parse fs w)).
Proof.
  induction fs as [|f fs IH]; intros b w; [done|]. simpl. rewrite process_frame_buffer.
  destruct (process_frame parse f w) as [w1 o1]. simpl. rewrite IH.
  by destruct (process_frames parse fs w1) as [w2 o2].
Qed.

(** [process] after more bytes arrived. *)
Definition absorb (p : string) (w : anthropicWriter) : anthropicWriter * list Output :=
  process parse (set_buffer (aw_buffer w +:+ p) w).

Lemma absorb_status p w : aw_status (fst (absorb p w)) = aw_status w.
Proof.
  unfold absorb, process. destruct (frames _) as [fs r].
  pose proof (process_frames_status fs (set_buffer r (set_buffer (aw_buffer w +:+ p) w))) as [H _]. exact H.
Qed.

Lemma absorb_split p1 p2 w : absorb (p1 +:+ p2) w =
  let '(w1, o1) := absorb p1 w in let '(w2, o2) := absorb p2 w1 in (w2, o1 ++ o2).
Proof.
  assert (forall p v, absorb p v = let '(fs, r) := frames (aw_buffer v +:+ p) in
    (set_buffer r (fst (process_frames parse fs v)), snd (process_frames parse fs v))) as Habs.
  { intros p v. unfold absorb, process. cbn [aw_buffer set_buffer]. destruct (frames _) as [fs r].
    change (set_buffer r (set_buffer (aw_buffer v +:+ p) v)) with (set_buffer r v).
    apply process_frames_buffer. }
  rewrite (Habs (p1 +:+ p2)), (Habs p1). rewrite <- app_string_assoc, (frames_app (aw_buffer w +:+ p1) p2).
  destruct (frames (aw_buffer w +:+ p1)) as [fs r1]. rewrite Habs. cbn [aw_buffer set_buffer].
  destruct (frames (r1 +:+ p2)) as [gs r2]. rewrite process_frames_buffer, process_frames_app.
  destruct (process_frames parse fs w) as [w1 o1]. simpl. by destruct (process_frames parse gs w1) as [w2 o2].
Qed.

(** The translation does not depend on how the stream is cut: writing a
    payload in two pieces, wherever it is cut, leaves the adapter in the same
    state and emits the same events as writing it at once. *)
Theorem Write_split p1 p2 w :
  aw_status w < 400 ->
  let '(w1, o1) := Write parse p1 w in
  let '(w2, o2) := Write parse p2 w1 in
  Write parse (p1 +:+ p2) w = (w2, o1 ++ o2).
Proof.
  intros Hst.
  assert (forall p v, aw_status v <> 0 -> aw_status v < 400 -> Write parse p v = absorb p v) as Hlive.
  { intros p v Hz H4. unfold Write. replace (aw_status v =? 0) with false by lia. cbv iota beta.
    replace (400 <=? aw_status v) with false by lia. unfold absorb. by destruct (process parse _). }
  assert (exists w0 o0, aw_status w0 <> 0 /\ aw_status w0 < 400
    /\ forall p, Write parse p w = (fst (absorb p w0), o0 ++ snd (absorb p w0))) as (w0 & o0 & Hz & H4 & Hw).
  { destruct (decide (aw_status w = 0)) as [Z0|Z0].
    - exists (fst (WriteHeader 200 w)), (snd (WriteHeader 200 w)). unfold Write, WriteHeader. rewrite Z0. simpl.
      split_and!; [done|done|]. intros p. unfold absorb. by destruct (process parse _).
    - exists w, []. split_and!; [done|done|]. intros p. rewrite Hlive by done. by destruct (absorb p w). }
  rewrite !Hw, absorb_split. pose proof (absorb_status p1 w0) as Hs1.
  destruct (absorb p1 w0) as [w1 o1]. simpl in Hs1 |- *. rewrite Hlive by congruence || lia.
  destruct (absorb p2 w1) as [w2 o2]. simpl. by rewrite app_assoc.
Qed.
End WriterProofs.

Module Cut.
Definition chunk_value : json :=
  JObj [("choices", JArr [JObj [("delta", JObj [("content", JStr "hi")])]])].
Definition parse (s : string) : option json := if String.eqb s "{chunk}" then Some chunk_value else None.
Definition first : string := "data: {ch".
Definition second : string := "unk}" +:+ str [10; 10] +:+ "data: [DONE]" +:+ str [10; 10].
Definition fresh : anthropicWriter := mkWriter "" 200 true false "llama" "r1".
End Cut.

Lemma Write_split_witness :
  snd (Write Cut.parse (Cut.first +:+ Cut.second) Cut.fresh)
  = [OEvent "content_block_delta" (delta_event "hi"); OEvent "message_stop" message_stop]
  /\ let '(w1, o1) := Write Cut.parse Cut.first Cut.fresh in
     let '(w2, o2) := Write Cut.parse Cut.second w1 in
     Write Cut.parse (Cut.first +:+ Cut.second) Cut.fresh = (w2, o1 ++ o2).
Proof.
  split; [vm_compute; reflexivity|]. apply (Write_split Cut.parse Cut.first Cut.second Cut.fresh). reflexivity.
Defined.
