(* ===== verification/Daemon.v ===== *)
(** * The provider daemon (cli/internal/provider/daemon.go, status.go)

    One daemon serves one relay connection: a read loop, a heartbeat and one
    goroutine per accepted job.  A backend is an arbitrary program that emits
    pieces of text through a callback that may fail, and returns its usage or
    an error: a finite tree.  A goroutine of a job is what is left of that tree.
    The mutexes of the code make each method one step; a run is any list of
    [Action]s.  A write to the connection succeeds, fails and leaves the
    connection open, or fails because it is gone.  [Error] is the text of an
    error. *)

From S2P Require Import Prelude GoStrings GoTime Wire Receipt Messages Proposals Relay.
Open Scope string_scope.
Open Scope list_scope.
Open Scope Z_scope.

(** ** Request state *)
Record Cursor := mkCursor { cu_Sequence : Z; cu_Done : bool }.

Record request := mkRequest {
  rq_accepted : bool;
  rq_sequence : Z;
  rq_terminal : bool;
  rq_outputSeen : bool;
}.

Definition RequestState := gmap string request.
Definition NewRequestState : RequestState := ∅.

Definition AcceptRequest (id : string) (s : RequestState) : result RequestState :=
  match s !! id with
  | Some existing => if rq_accepted existing then Err ErrLeaseAlreadyAccepted
                     else Ok (<[id := mkRequest true 0 false false]> s)
  | None => Ok (<[id := mkRequest true 0 false false]> s)
  end.

Definition RecordChunk (chunk : OutputChunk) (s : RequestState) : result RequestState :=
  _ ← OutputChunkValidate chunk;
  match s !! ch_RequestID chunk with
  | None => Err ErrRequestTerminal
  | Some current =>
      if negb (rq_accepted current) || rq_terminal current then Err ErrRequestTerminal
      else if negb (ch_Sequence chunk =? wrap64 (rq_sequence current + 1)) then Err ErrChunkSequence
      else Ok (<[ch_RequestID chunk := mkRequest (rq_accepted current) (ch_Sequence chunk) (ch_Done chunk) true]> s)
  end.

Definition CancelRequest (id : string) (s : RequestState) : result RequestState :=
  match s !! id with
  | None => Err ErrRequestTerminal
  | Some current =>
      if rq_terminal current then Err ErrRequestTerminal
      else Ok (<[id := mkRequest (rq_accepted current) (rq_sequence current) true (rq_outputSeen current)]> s)
  end.

Definition CanRetry (id : string) (s : RequestState) : bool :=
  match s !! id with None => true | Some current => negb (rq_outputSeen current) end.

Definition CursorOf (id : string) (s : RequestState) : Cursor :=
  match s !! id with
  | None => mkCursor 0 false
  | Some current => mkCursor (rq_sequence current) (rq_terminal current)
  end.

Definition Restore (id : string) (cursor : Cursor) (s : RequestState) : RequestState :=
  <[id := mkRequest true (cu_Sequence cursor) (cu_Done cursor) (0 <? cu_Sequence cursor)]> s.

(** ** The bounded outbound queue *)
Record OutboundQueue := mkOutboundQueue { oq_size : nat; oq_messages : list Envelope }.
Definition NewOutboundQueue (size : nat) : OutboundQueue := mkOutboundQueue size [].
Definition TryPush (message : Envelope) (q : OutboundQueue) : result OutboundQueue :=
  match try_push (oq_size q) (oq_messages q) message with
  | Some messages => Ok (mkOutboundQueue (oq_size q) messages)
  | None => Err ErrBackpressure
  end.

(** ** Status (status.go) *)
Record OfferStatus := mkOfferStatus { os_OfferID : string; os_Model : string; os_Healthy : bool; os_Error : string }.

Record RequestStatus := mkRequestStatus {
  st_RequestID : string;
  st_OfferID : string;
  st_Model : string;
  st_State : string;
  st_InputTokens : Z;
  st_OutputTokens : Z;
  st_ComputeMilliseconds : Z;
  st_EarningsWei : string;
  st_Error : string;
  st_StartedAt : Z;
  st_CompletedAt : Z;
}.

Record StatusSnapshot := mkStatusSnapshot {
  sn_Connected : bool;
  sn_StartedAt : Z;
  sn_UpdatedAt : Z;
  sn_Requests : Z;
  sn_InputTokens : Z;
  sn_OutputTokens : Z;
  sn_ComputeMilliseconds : Z;
  sn_RunEarningsWei : string;
  sn_RecentRequests : list RequestStatus;
  sn_Offers : list OfferStatus;
}.

(** [time.Time{}] *)
Definition zero_time : Z := - 62135596800 * Second.
(** [int64(n)] for a uint64 *)
Definition to_int64 (n : Z) : Z := if n <=? i64_max then n else n - u64_mod.

Definition set_recent v (s : StatusSnapshot) := mkStatusSnapshot (sn_Connected s) (sn_StartedAt s) (sn_UpdatedAt s)
  (sn_Requests s) (sn_InputTokens s) (sn_OutputTokens s) (sn_ComputeMilliseconds s) (sn_RunEarningsWei s) v (sn_Offers s).
Definition set_offers v (s : StatusSnapshot) := mkStatusSnapshot (sn_Connected s) (sn_StartedAt s) (sn_UpdatedAt s)
  (sn_Requests s) (sn_InputTokens s) (sn_OutputTokens s) (sn_ComputeMilliseconds s) (sn_RunEarningsWei s)
  (sn_RecentRequests s) v.
Definition set_updated v (s : StatusSnapshot) := mkStatusSnapshot (sn_Connected s) (sn_StartedAt s) v
  (sn_Requests s) (sn_InputTokens s) (sn_OutputTokens s) (sn_ComputeMilliseconds s) (sn_RunEarningsWei s)
  (sn_RecentRequests s) (sn_Offers s).
Definition set_connected_flag v (s : StatusSnapshot) := mkStatusSnapshot v (sn_StartedAt s) (sn_UpdatedAt s)
  (sn_Requests s) (sn_InputTokens s) (sn_OutputTokens s) (sn_ComputeMilliseconds s) (sn_RunEarningsWei s)
  (sn_RecentRequests s) (sn_Offers s).
Definition set_earnings v (s : StatusSnapshot) := mkStatusSnapshot (sn_Connected s) (sn_StartedAt s) (sn_UpdatedAt s)
  (sn_Requests s) (sn_InputTokens s) (sn_OutputTokens s) (sn_ComputeMilliseconds s) v
  (sn_RecentRequests s) (sn_Offers s).

Record Usage := mkUsage { us_InputTokens : Z; us_OutputTokens : Z; us_ComputeMilliseconds : Z }.

Definition count_usage (u : Usage) (s : StatusSnapshot) := mkStatusSnapshot (sn_Connected s) (sn_StartedAt s)
  (sn_UpdatedAt s) (wrap64 (sn_Requests s + 1)) (wrap64 (sn_InputTokens s + us_InputTokens u))
  (wrap64 (sn_OutputTokens s + us_OutputTokens u)) (wrap64 (sn_ComputeMilliseconds s + us_ComputeMilliseconds u))
  (sn_RunEarningsWei s) (sn_RecentRequests s) (sn_Offers s).

Definition offerStatuses (offers : list OfferCapacity) : list OfferStatus :=
  map (fun offer => mkOfferStatus (oc_OfferID offer) (oc_Model offer) true "") offers.

Fixpoint update_first (id : string) (update : RequestStatus -> RequestStatus) (l : list RequestStatus)
  : option (list RequestStatus) :=
  match l with
  | [] => None
  | r :: rest =>
      if String.eqb (st_RequestID r) id then Some (update r :: rest)
      else match update_first id update rest with Some rest => Some (r :: rest) | None => None end
  end.

Definition updateRequestLocked (id : string) (update : RequestStatus -> RequestStatus) (s : StatusSnapshot)
  : StatusSnapshot :=
  if String.eqb id "" then s
  else
    match update_first id update (sn_RecentRequests s) with
    | Some l => set_recent l s
    | None => set_recent (update (mkRequestStatus id "" "" "" 0 0 0 "" "" zero_time zero_time)
                          :: sn_RecentRequests s) s
    end.

Definition recentLimit : nat := 20.
Definition active (r : RequestStatus) : bool :=
  String.eqb (st_State r) "active" || String.eqb (st_State r) "settling".

Fixpoint trim_loop (terminal : nat) (l : list RequestStatus) : list RequestStatus :=
  match l with
  | [] => []
  | r :: rest =>
      if active r then r :: trim_loop terminal rest
      else if (recentLimit <=? terminal)%nat then trim_loop terminal rest
      else r :: trim_loop (S terminal) rest
  end.
Definition trimRequestsLocked (s : StatusSnapshot) : StatusSnapshot :=
  set_recent (trim_loop 0 (sn_RecentRequests s)) s.

Fixpoint set_health (id : string) (healthy : bool) (message : string) (l : list OfferStatus) : list OfferStatus :=
  match l with
  | [] => []
  | o :: rest => if String.eqb (os_OfferID o) id then mkOfferStatus (os_OfferID o) (os_Model o) healthy message :: rest
                 else o :: set_health id healthy message rest
  end.
Definition setOfferHealthLocked (id : string) (healthy : bool) (message : string) (s : StatusSnapshot) :=
  set_offers (set_health id healthy message (sn_Offers s)) s.

(** ** Backends (cli/internal/backend/backend.go) *)
Record BackendFile := mkBackendFile { bf_Path : string; bf_Content : list Z }.
Record BackendRequest := mkBackendRequest {
  br_Model : string; br_Prompt : string; br_Workspace : list BackendFile; br_MaximumOutputTokens : Z }.

(** What [Generate] does with its callback. *)
Inductive generation :=
| Return (usage : Usage)
| Fail (e : error)
| Emit (content : string) (next : result unit -> generation).

Definition Backend := BackendRequest -> generation.

(** ** The daemon *)
Record Config {PrivateKey : Type} := mkConfig {
  cf_RelayURL : string;
  cf_Token : string;
  cf_MachineID : string;
  cf_Offers : list OfferCapacity;
  cf_HeartbeatInterval : Z;
  cf_DrainTimeout : Z;
  cf_SignerKey : option PrivateKey;
  cf_ChainID : Z;
  cf_Contract : Address;
}.
Arguments Config : clear implicits.
Arguments mkConfig {PrivateKey}.

(** The messages the daemon sends. *)
Inductive Outgoing :=
| OHello (m : Hello) | OCapacity (m : Capacity) | OAccept (m : JobAccept) | OChunk (m : OutputChunk)
| OSignature (m : ReceiptSignature).

Definition message_type (m : Outgoing) : string :=
  match m with
  | OHello _ => MessageHello | OCapacity _ => MessageCapacity | OAccept _ => MessageJobAccept
  | OChunk _ => MessageOutputChunk | OSignature _ => MessageReceiptSignature
  end.
Definition envelope_of (id : string) (m : Outgoing) : result Envelope :=
  match m with
  | OHello m => NewEnvelope id MessageHello m
  | OCapacity m => NewEnvelope id MessageCapacity m
  | OAccept m => NewEnvelope id MessageJobAccept m
  | OChunk m => NewEnvelope id MessageOutputChunk m
  | OSignature m => NewEnvelope id MessageReceiptSignature m
  end.

(** The goroutine of a job: [jb_rest] is [None] until it calls [Generate]. *)
Record job := mkJob {
  jb_offer : JobOffer;
  jb_backend : Backend;
  jb_sequence : Z;
  jb_rest : option generation;
}.

(** The outcome of [connection.Write] on an open connection. *)
Inductive write := Sent | Refused (e : error) | Broken (e : error).

(** [dm_cancelled] holds the requests whose context was cancelled, [dm_threads]
    the goroutines [wg] counts, [dm_written] every message written. *)
Record Daemon {PrivateKey : Type} := mkDaemon {
  dm_config : Config PrivateKey;
  dm_backends : gmap string Backend;
  dm_state : RequestState;
  dm_jobs : gset string;
  dm_cancelled : gset string;
  dm_threads : gmap string job;
  dm_status : StatusSnapshot;
  dm_earningsRecorded : gset string;
  dm_serving : bool;
  dm_open : bool;
  dm_written : list Outgoing;
}.
Arguments Daemon : clear implicits.
Arguments mkDaemon {PrivateKey}.

Section Daemon.
Context {PrivateKey PublicKey : Type} (Keccak256 : list bytes -> Hash) (Pack : list abi_value -> result bytes)
  (Sign : bytes -> PrivateKey -> result bytes) (PublicOf : PrivateKey -> PublicKey)
  (PubkeyToAddress : PublicKey -> Address)
  (receiptTypeText domainTypeText nameText versionText : bytes).
Context (parse : string -> option json) (Error : error -> string).

Abbreviation SignReceipt := (SignReceipt Keccak256 Pack Sign receiptTypeText domainTypeText nameText versionText).
Abbreviation daemon := (Daemon PrivateKey).

Definition set_state v (d : daemon) := mkDaemon (dm_config d) (dm_backends d) v (dm_jobs d) (dm_cancelled d)
  (dm_threads d) (dm_status d) (dm_earningsRecorded d) (dm_serving d) (dm_open d) (dm_written d).
Definition set_jobs jobs cancelled threads (d : daemon) := mkDaemon (dm_config d) (dm_backends d) (dm_state d) jobs
  cancelled threads (dm_status d) (dm_earningsRecorded d) (dm_serving d) (dm_open d) (dm_written d).
Definition set_status v (d : daemon) := mkDaemon (dm_config d) (dm_backends d) (dm_state d) (dm_jobs d)
  (dm_cancelled d) (dm_threads d) v (dm_earningsRecorded d) (dm_serving d) (dm_open d) (dm_written d).
Definition set_recorded v (d : daemon) := mkDaemon (dm_config d) (dm_backends d) (dm_state d) (dm_jobs d)
  (dm_cancelled d) (dm_threads d) (dm_status d) v (dm_serving d) (dm_open d) (dm_written d).
Definition set_link serving open written (d : daemon) := mkDaemon (dm_config d) (dm_backends d) (dm_state d)
  (dm_jobs d) (dm_cancelled d) (dm_threads d) (dm_status d) (dm_earningsRecorded d) serving open written.
Definition on_status (now : Z) (f : StatusSnapshot -> StatusSnapshot) (d : daemon) : daemon :=
  set_status (set_updated now (f (dm_status d))) d.

Definition NewDaemon (now : Z) (config : Config PrivateKey) (backends : gmap string Backend) : daemon :=
  let config := mkConfig (cf_RelayURL config) (cf_Token config) (cf_MachineID config) (cf_Offers config)
    (positive_or (cf_HeartbeatInterval config) (10 * Second)) (positive_or (cf_DrainTimeout config) (30 * Second))
    (cf_SignerKey config) (cf_ChainID config) (cf_Contract config) in
  mkDaemon config backends NewRequestState ∅ ∅ ∅
    (mkStatusSnapshot false now now 0 0 0 0 "" [] (offerStatuses (cf_Offers config))) ∅ false false [].

Definition found {A} (o : option A) : bool := match o with Some _ => true | None => false end.

Fixpoint check_backends (offers : list OfferCapacity) (backends : gmap string Backend) : bool :=
  match offers with
  | [] => true
  | offer :: rest =>
      if negb (is_ok (OfferCapacityValidate offer)) || negb (found (backends !! oc_OfferID offer))
      then false else check_backends rest backends
  end.

Definition validateBackends (offers : list OfferCapacity) (backends : gmap string Backend) : result unit :=
  if bool_decide (length offers = 0%nat) then Err (ErrNew "at least one enabled backend is required")
  else if check_backends offers backends then Ok tt else Err (ErrNew "every offer requires a valid backend").

Definition validate (d : daemon) : result unit :=
  if is_blank (cf_RelayURL (dm_config d)) || is_blank (cf_Token (dm_config d)) || is_blank (cf_MachineID (dm_config d))
  then Err (ErrNew "relay URL, machine token, and machine ID are required")
  else validateBackends (cf_Offers (dm_config d)) (dm_backends d).

Definition UpdateBackends (now : Z) (offers : list OfferCapacity) (backends : gmap string Backend) (d : daemon)
  : daemon * result unit :=
  match (if bool_decide (length offers = 0%nat) then Ok tt else validateBackends offers backends) with
  | Err e => (d, Err e)
  | Ok _ =>
      let c := dm_config d in
      let d := mkDaemon (mkConfig (cf_RelayURL c) (cf_Token c) (cf_MachineID c) offers (cf_HeartbeatInterval c)
          (cf_DrainTimeout c) (cf_SignerKey c) (cf_ChainID c) (cf_Contract c)) backends (dm_state d) (dm_jobs d)
          (dm_cancelled d) (dm_threads d) (dm_status d) (dm_earningsRecorded d) (dm_serving d) (dm_open d)
          (dm_written d) in
      (on_status now (set_offers (offerStatuses offers)) d, Ok tt)
  end.

(** [d.StatusSnapshot()]: slices are values here, so the copy is the value. *)
Definition Snapshot (d : daemon) : StatusSnapshot := dm_status d.

Definition setConnected (now : Z) (connected : bool) (d : daemon) : daemon :=
  on_status now (set_connected_flag connected) d.

Definition recordRequestStarted (now : Z) (offer : JobOffer) (d : daemon) : daemon :=
  on_status now (fun s => trimRequestsLocked (set_recent
    (mkRequestStatus (jo_RequestID offer) (jo_OfferID offer) (jo_Model offer) "active" 0 0 0 "" "" now zero_time
     :: sn_RecentRequests s) s)) d.

Definition settling (u : Usage) (r : RequestStatus) : RequestStatus :=
  mkRequestStatus (st_RequestID r) (st_OfferID r) (st_Model r) "settling" (us_InputTokens u) (us_OutputTokens u)
    (us_ComputeMilliseconds u) (st_EarningsWei r) (st_Error r) (st_StartedAt r) (st_CompletedAt r).
Definition recordCompletion (now : Z) (id offer : string) (usage : Usage) (d : daemon) : daemon :=
  on_status now (fun s => setOfferHealthLocked offer true ""
    (updateRequestLocked id (settling usage) (count_usage usage s))) d.

Definition failed (now : Z) (message : string) (r : RequestStatus) : RequestStatus :=
  mkRequestStatus (st_RequestID r) (st_OfferID r) (st_Model r) "failed" (st_InputTokens r) (st_OutputTokens r)
    (st_ComputeMilliseconds r) (st_EarningsWei r) message (st_StartedAt r) now.
Definition recordRequestFailed (now : Z) (id message : string) (d : daemon) : daemon :=
  on_status now (fun s => trimRequestsLocked (updateRequestLocked id (failed now message) s)) d.

Definition recordOfferHealth (now : Z) (offer : string) (healthy : bool) (message : string) (d : daemon) : daemon :=
  on_status now (setOfferHealthLocked offer healthy message) d.

Definition earnings_of (receipt : Receipt) : Z :=
  let total := r_TotalCharge receipt in
  let fee := Z.quot (total * r_FeeBasisPoints receipt) 10000 in total - fee.

Definition completed (receipt : Receipt) (r : RequestStatus) : RequestStatus :=
  mkRequestStatus (st_RequestID r) (st_OfferID r) (st_Model r) "completed" (r_InputTokens receipt)
    (r_OutputTokens receipt) (r_ComputeMilliseconds receipt) (BigString (earnings_of receipt)) (st_Error r)
    (st_StartedAt r) (to_int64 (r_CompletedAt receipt) * Second).

Definition run_earnings (s : StatusSnapshot) : Z := default 0 (SetString10 (sn_RunEarningsWei s)).

Definition recordReceipt (now : Z) (proposal : ReceiptProposal) (d : daemon) : daemon :=
  let receipt := rp_Receipt proposal in
  let earnings := earnings_of receipt in
  let status := updateRequestLocked (rp_RequestID proposal) (completed receipt) (dm_status d) in
  let '(status, recorded) :=
    if decide (rp_RequestID proposal ∈ dm_earningsRecorded d) then (status, dm_earningsRecorded d)
    else (set_earnings (BigString (run_earnings status + earnings)) status,
          {[rp_RequestID proposal]} ∪ dm_earningsRecorded d) in
  set_recorded recorded (set_status (set_updated now (trimRequestsLocked status)) d).

Definition CapacityOf (d : daemon) : Capacity :=
  let offers := cf_Offers (dm_config d) in mkCapacity (Z.of_nat (length offers) mod u32_mod) offers.

Definition signProposal (proposal : ReceiptProposal) (d : daemon) : result ReceiptSignature :=
  match cf_SignerKey (dm_config d) with
  | None => Err (ErrNew "receipt proposal domain does not match this machine")
  | Some key =>
      if negb (rp_ChainID proposal =? cf_ChainID (dm_config d))
         || negb (bool_decide (rp_Contract proposal = cf_Contract (dm_config d)))
      then Err (ErrNew "receipt proposal domain does not match this machine")
      else
        let signer := PubkeyToAddress (PublicOf key) in
        signature ← SignReceipt (rp_Receipt proposal) (rp_ChainID proposal) (rp_Contract proposal) (Some key);
        Ok (mkReceiptSignature (rp_RequestID proposal) signer signature)
  end.

(** *** Sending *)
Definition write_payload (message : Outgoing) (w : write) (d : daemon) : daemon * result unit :=
  if dm_open d then
    match w with
    | Sent => (set_link (dm_serving d) true (dm_written d ++ [message]) d, Ok tt)
    | Refused e => (d, Err (ErrWrap "write relay" e))
    | Broken e => (set_link (dm_serving d) false (dm_written d) d, Err (ErrWrap "write relay" e))
    end
  else (d, Err (ErrWrap "write relay" ErrDisconnected)).

Definition message_id (now : Z) (m : Outgoing) : string :=
  message_type m +:+ "-" +:+ BigString (1000 * now).

Definition send (now : Z) (message : Outgoing) (w : write) (d : daemon) : daemon * result unit :=
  match envelope_of (message_id now message) message with
  | Err e => (d, Err e)
  | Ok _ => write_payload message w d
  end.

Definition sendChunk (now : Z) (chunk : OutputChunk) (w : write) (d : daemon) : daemon * result unit :=
  match RecordChunk chunk (dm_state d) with
  | Err e => (d, Err e)
  | Ok state => send now (OChunk chunk) w (set_state state d)
  end.

(** *** Jobs *)
Definition removeJob (id : string) (d : daemon) : daemon :=
  set_jobs (dm_jobs d ∖ {[id]}) (dm_cancelled d) (dm_threads d) d.
Definition cancel (now : Z) (id : string) (d : daemon) : daemon :=
  if decide (id ∈ dm_jobs d) then
    let d := set_jobs (dm_jobs d) ({[id]} ∪ dm_cancelled d) (dm_threads d) d in
    let d := match CancelRequest id (dm_state d) with Ok state => set_state state d | Err _ => d end in
    recordRequestFailed now id "cancelled" d
  else d.
Definition cancelAll (d : daemon) : daemon :=
  set_jobs (dm_jobs d) (dm_jobs d ∪ dm_cancelled d) (dm_threads d) d.

Fixpoint configured (offer : JobOffer) (offers : list OfferCapacity) : bool :=
  match offers with
  | [] => false
  | candidate :: rest =>
      (String.eqb (oc_OfferID candidate) (jo_OfferID offer) && String.eqb (oc_Model candidate) (jo_Model offer)
       && (oc_PriceVersion candidate =? jo_PriceVersion offer)) || configured offer rest
  end.

Definition startJob (now : Z) (offer : JobOffer) (w : write) (d : daemon) : daemon * result unit :=
  match dm_backends d !! jo_OfferID offer with
  | None => (d, Err ErrInvalidMessage)
  | Some selected =>
      if negb (configured offer (cf_Offers (dm_config d))) || (jo_LeaseExpiresAt offer <? now)
      then (d, Err ErrInvalidMessage)
      else
        match AcceptRequest (jo_RequestID offer) (dm_state d) with
        | Err e => (d, Err e)
        | Ok state =>
            let d := set_jobs ({[jo_RequestID offer]} ∪ dm_jobs d) (dm_cancelled d) (dm_threads d) (set_state state d) in
            match send now (OAccept (mkJobAccept (jo_RequestID offer))) w d with
            | (d, Err e) =>
                (removeJob (jo_RequestID offer)
                   (set_jobs (dm_jobs d) ({[jo_RequestID offer]} ∪ dm_cancelled d) (dm_threads d) d), Err e)
            | (d, Ok _) =>
                let d := recordRequestStarted now offer d in
                (set_jobs (dm_jobs d) (dm_cancelled d)
                   (<[jo_RequestID offer := mkJob offer selected 0 None]> (dm_threads d)) d, Ok tt)
            end
        end
  end.

Fixpoint decode_workspace (files : list WorkspaceFile) : option (list BackendFile) :=
  match files with
  | [] => Some []
  | file :: rest =>
      match b64_decode (wf_ContentBase64 file), decode_workspace rest with
      | Some content, Some files => Some (mkBackendFile (wf_Path file) content :: files)
      | _, _ => None
      end
  end.

Definition finish_job (id : string) (d : daemon) : daemon :=
  let d := removeJob id d in set_jobs (dm_jobs d) (dm_cancelled d) (delete id (dm_threads d)) d.
Definition put_job (id : string) (j : job) (d : daemon) : daemon :=
  set_jobs (dm_jobs d) (dm_cancelled d) (<[id := j]> (dm_threads d)) d.

(** What the goroutine does up to its next send, and the send. *)
Definition job_step (now : Z) (id : string) (w : write) (d : daemon) : daemon :=
  match dm_threads d !! id with
  | None => d
  | Some j =>
      let offer := jb_offer j in
      let sequence := wrap64 (jb_sequence j + 1) in
      match jb_rest j with
      | None =>
          match decode_workspace (jo_Workspace offer) with
          | None => finish_job id (recordRequestFailed now (jo_RequestID offer) "invalid workspace file" d)
          | Some files =>
              put_job id (mkJob offer (jb_backend j) (jb_sequence j)
                (Some (jb_backend j (mkBackendRequest (jo_Model offer) (jo_Prompt offer) files
                         (jo_MaximumOutputTokens offer))))) d
          end
      | Some (Emit content next) =>
          let '(d, r) := sendChunk now (mkOutputChunk (jo_RequestID offer) sequence content false 0 0 0 "") w d in
          put_job id (mkJob offer (jb_backend j) sequence (Some (next r))) d
      | Some (Fail e) =>
          let d := recordOfferHealth now (jo_OfferID offer) false (Error e) d in
          let d := recordRequestFailed now (jo_RequestID offer) (Error e) d in
          let '(d, _) := sendChunk now (mkOutputChunk (jo_RequestID offer) sequence "" true 0 0 0 "backend_failed") w d in
          finish_job id d
      | Some (Return usage) =>
          let chunk := mkOutputChunk (jo_RequestID offer) sequence "" true (us_InputTokens usage)
                         (us_OutputTokens usage) (us_ComputeMilliseconds usage) "" in
          match sendChunk now chunk w d with
          | (d, Err e) => finish_job id (recordRequestFailed now (jo_RequestID offer) (Error e) d)
          | (d, Ok _) => finish_job id (recordCompletion now (jo_RequestID offer) (jo_OfferID offer) usage d)
          end
      end
  end.

(** *** Serving *)
(** The deferred function of [Serve]: without interruption every job is
    cancelled; when the context ended ([interrupted]) the jobs may drain. *)
Definition stop (now : Z) (interrupted : bool) (d : daemon) : daemon :=
  let d := setConnected now false d in
  let d := set_link false (dm_open d) (dm_written d) d in
  if interrupted then d else cancelAll d.

(** [Serve] up to its loop. It does not run while a call is in progress. *)
Definition start_serving (now : Z) (dialed interrupted : bool) (hello capacity : write) (d : daemon) : daemon :=
  if dm_serving d || negb (bool_decide (dm_threads d = ∅)) then d
  else
    match validate d with
    | Err _ => d
    | Ok _ =>
        if negb dialed then d
        else
          let d := set_link true true (dm_written d) (setConnected now true d) in
          match send now (OHello (mkHello (cf_MachineID (dm_config d)))) hello d with
          | (d, Err _) => stop now interrupted d
          | (d, Ok _) =>
              match send now (OCapacity (CapacityOf d)) capacity d with
              | (d, Err _) => stop now interrupted d
              | (d, Ok _) => d
              end
          end
    end.

(** The body of the loop on a payload it read. *)
Definition dispatch (now : Z) (payload : string) (w : write) (d : daemon) : daemon * result unit :=
  match DecodeEnvelope parse payload (Z.shiftl 1 20) with
  | Err e => (d, Err e)
  | Ok envelope =>
      if String.eqb (env_Type envelope) MessageJobOffer then
        match DecodeBody (M := JobOffer) (H := Validatable_JobOffer now) envelope with
        | Err e => (d, Err e)
        | Ok offer => startJob now offer w d
        end
      else if String.eqb (env_Type envelope) MessageCancel then
        match DecodeBody (M := Cancel) envelope with
        | Err e => (d, Err e)
        | Ok m => (cancel now (cn_RequestID m) d, Ok tt)
        end
      else if String.eqb (env_Type envelope) MessageReceiptProposal then
        match DecodeBody (M := ReceiptProposal) envelope with
        | Err e => (d, Err e)
        | Ok proposal =>
            match signProposal proposal d with
            | Err e => (d, Err e)
            | Ok signature =>
                match send now (OSignature signature) w d with
                | (d, Err e) => (d, Err e)
                | (d, Ok _) => (recordReceipt now proposal d, Ok tt)
                end
            end
        end
      else (d, Err ErrInvalidMessage)
  end.

Definition serve_one (now : Z) (payload : string) (interrupted : bool) (w : write) (d : daemon) : daemon :=
  if dm_serving d then
    match dispatch now payload w d with
    | (d, Ok _) => d
    | (d, Err _) => stop now interrupted d
    end
  else d.

(** One tick of [heartbeat]. *)
Definition heartbeat (now : Z) (w : write) (d : daemon) : daemon :=
  if dm_serving d then
    match send now (OCapacity (CapacityOf d)) w d with
    | (d, Ok _) => d
    | (d, Err _) => set_link (dm_serving d) false (dm_written d) d
    end
  else d.

Inductive Action :=
| Update (now : Z) (offers : list OfferCapacity) (backends : gmap string Backend)
| Serve (now : Z) (dialed interrupted : bool) (hello capacity : write)
| Payload (now : Z) (payload : string) (interrupted : bool) (w : write)
| ReadFailed (now : Z) (interrupted : bool)
| DrainTimeout
| Close
| Tick (now : Z) (w : write)
| JobStep (now : Z) (id : string) (w : write).

Definition perform (a : Action) (d : daemon) : daemon :=
  match a with
  | Update now offers backends => fst (UpdateBackends now offers backends d)
  | Serve now dialed interrupted hello capacity => start_serving now dialed interrupted hello capacity d
  | Payload now payload interrupted w => serve_one now payload interrupted w d
  | ReadFailed now interrupted => if dm_serving d then stop now interrupted d else d
  | DrainTimeout => if dm_serving d then d else cancelAll d
  | Close => if dm_serving d || negb (bool_decide (dm_threads d = ∅)) then d
             else set_link false false (dm_written d) d
  | Tick now w => heartbeat now w d
  | JobStep now id w => job_step now id w d
  end.

Definition run (actions : list Action) (d : daemon) : daemon := foldl (fun d a => perform a d) d actions.
End Daemon.
