(* ===== verification/DaemonSpec.v ===== *)
(** * Properties of the provider daemon

    What the daemon writes on its connections in any run: requests accepted
    once, output only after acceptance, and output that the hub's chunk tracker
    accepts.  What its status reports: bounded history and earnings counted
    once per request. *)

From S2P Require Import Prelude GoStrings GoTime Wire Receipt Messages Proposals Relay Daemon.
From Stdlib Require Import Ascii.
Open Scope string_scope.
Open Scope list_scope.
Open Scope Z_scope.

(** ** Envelopes of the daemon *)
Lemma message_id_ok now m : is_blank (message_id now m) = false.
Proof. apply (is_blank_byte "-"%char); [reflexivity|]. unfold message_id. by destruct m. Qed.

Definition chunk_of (m : Outgoing) : option OutputChunk := match m with OChunk c => Some c | _ => None end.
Definition accept_of (m : Outgoing) : option string :=
  match m with OAccept a => Some (ja_RequestID a) | _ => None end.
Definition chunks_of (written : list Outgoing) : list OutputChunk := omap chunk_of written.
Definition accepts_of (written : list Outgoing) : list string := omap accept_of written.

(** ** The hub's tracker over a log *)
Lemma run_tracker_app t a b :
  run_tracker t (a ++ b) = let '(u, l) := run_tracker t a in let '(v, m) := run_tracker u b in (v, l ++ m).
Proof.
  revert t. induction a as [|c a IH]; intros t; simpl; [by destruct (run_tracker t b)|].
  destruct (Accept t c) as [t'|]; [|apply IH]. rewrite IH.
  destruct (run_tracker t' a) as [u l]. by destruct (run_tracker u b).
Qed.

Definition tracker_of (written : list Outgoing) : ChunkTracker := fst (run_tracker NewChunkTracker (chunks_of written)).
Definition tracked (written : list Outgoing) : Prop :=
  snd (run_tracker NewChunkTracker (chunks_of written)) = chunks_of written.

Lemma tracker_of_other written m : chunk_of m = None -> chunks_of (written ++ [m]) = chunks_of written.
Proof. intros Hm. unfold chunks_of. rewrite omap_app. simpl. rewrite Hm. apply app_nil_r. Qed.

Lemma tracked_snoc written c t : tracked written -> Accept (tracker_of written) c = Ok t ->
  tracked (written ++ [OChunk c]) /\ tracker_of (written ++ [OChunk c]) = t.
Proof.
  unfold tracked, tracker_of. intros Ht Ha. unfold chunks_of in *. rewrite omap_app. simpl. rewrite run_tracker_app.
  destruct (run_tracker NewChunkTracker (omap chunk_of written)) as [u l]. simpl in *. rewrite Ha. simpl.
  by rewrite Ht.
Qed.

Lemma Accept_at t c : OutputChunkValidate c = Ok tt -> closed_of t (ch_RequestID c) = false ->
  ch_Sequence c = wrap64 (last_of t (ch_RequestID c) + 1) ->
  exists t', Accept t c = Ok t' /\ last_of t' (ch_RequestID c) = ch_Sequence c
    /\ closed_of t' (ch_RequestID c) = ch_Done c
    /\ forall id, id <> ch_RequestID c -> last_of t' id = last_of t id /\ closed_of t' id = closed_of t id.
Proof.
  intros Hv Hc Hs. unfold Accept. rewrite Hv. cbn [mbind result_bind]. rewrite Hc, Hs, Z.eqb_refl. simpl.
  eexists. split; [reflexivity|]. unfold last_of, closed_of in *. cbn [last closed].
  rewrite lookup_insert_eq. rewrite <- Hs. split; [done|]. split.
  - destruct (ch_Done c); [by rewrite lookup_insert_eq|done].
  - intros id Hid. rewrite lookup_insert_ne by done. split; [done|].
    destruct (ch_Done c); [by rewrite lookup_insert_ne by done|done].
Qed.

(** ** The invariant of the wire *)
Section Protocol.
Context {PrivateKey PublicKey : Type} (Keccak256 : list bytes -> Hash) (Pack : list abi_value -> result bytes)
  (Sign : bytes -> PrivateKey -> result bytes) (PublicOf : PrivateKey -> PublicKey)
  (PubkeyToAddress : PublicKey -> Address)
  (receiptTypeText domainTypeText nameText versionText : bytes).
Context (parse : string -> option json) (Error : error -> string).
Abbreviation perform := (perform Keccak256 Pack Sign PublicOf PubkeyToAddress
  receiptTypeText domainTypeText nameText versionText parse Error).
Abbreviation run := (run Keccak256 Pack Sign PublicOf PubkeyToAddress
  receiptTypeText domainTypeText nameText versionText parse Error).
Abbreviation daemon := (Daemon PrivateKey).
Implicit Type d : daemon.

(** The daemon's cursor of a request and the hub's. *)
Definition agree (t : ChunkTracker) (id : string) (r : request) : Prop :=
  last_of t id = rq_sequence r /\ (closed_of t id = true -> rq_terminal r = true).

Record inv (st : RequestState) (th : gmap string job) (op : bool) (wr : list Outgoing) : Prop := mkInv {
  in_accepted : forall id r, st !! id = Some r -> rq_accepted r = true;
  in_accepts : forall id, id ∈ accepts_of wr -> is_Some (st !! id);
  in_nodup : NoDup (accepts_of wr);
  in_threads : forall id j, th !! id = Some j -> jo_RequestID (jb_offer j) = id /\ id ∈ accepts_of wr;
  in_before : forall before c after, wr = before ++ OChunk c :: after -> ch_RequestID c ∈ accepts_of before;
  in_tracked : tracked wr;
  in_fresh : forall id, st !! id = None -> last_of (tracker_of wr) id = 0 /\ closed_of (tracker_of wr) id = false;
  in_agree : op = true -> forall id r, st !! id = Some r -> is_Some (th !! id) -> agree (tracker_of wr) id r;
}.
Definition dinv d : Prop := inv (dm_state d) (dm_threads d) (dm_open d) (dm_written d).

Lemma accepts_of_snoc wr m : accepts_of (wr ++ [m]) = accepts_of wr ++ match accept_of m with Some id => [id] | None => [] end.
Proof. unfold accepts_of. rewrite omap_app. simpl. by destruct (accept_of m). Qed.

Lemma before_snoc wr m : (forall before c after, wr = before ++ OChunk c :: after -> ch_RequestID c ∈ accepts_of before) ->
  (forall c, m = OChunk c -> ch_RequestID c ∈ accepts_of wr) ->
  forall before c after, wr ++ [m] = before ++ OChunk c :: after -> ch_RequestID c ∈ accepts_of before.
Proof.
  intros Hw Hm before c after He. destruct after as [|x after _] using rev_ind.
  - apply app_inj_tail in He as [<- ->]. by apply Hm.
  - rewrite app_comm_cons, app_assoc in He. apply app_inj_tail in He as [He _]. by eapply Hw.
Qed.

(** Messages that are neither chunks nor acceptances. *)
Definition plain (m : Outgoing) : bool := match m with OChunk _ | OAccept _ => false | _ => true end.

Lemma inv_plain st th op wr m : plain m = true -> inv st th op wr -> inv st th op (wr ++ [m]).
Proof.
  intros Hm [H1 H2 H3 H4 H5 H6 H7 H8].
  assert (accepts_of (wr ++ [m]) = accepts_of wr) as Ha
    by (rewrite accepts_of_snoc; by destruct m; rewrite ?app_nil_r).
  assert (chunks_of (wr ++ [m]) = chunks_of wr) as Hc by (apply tracker_of_other; by destruct m).
  split; unfold tracked, tracker_of in *; rewrite ?Ha, ?Hc; try done.
  apply before_snoc; [done|]. intros c ->. done.
Qed.

Lemma inv_close st th op wr : inv st th op wr -> inv st th false wr.
Proof. intros [H1 H2 H3 H4 H5 H6 H7 H8]. by split. Qed.
Lemma inv_reopen st op wr : inv st ∅ op wr -> inv st ∅ true wr.
Proof.
  intros [H1 H2 H3 H4 H5 H6 H7 H8]. split; try done.
  intros _ id r _ [j Hj]. by rewrite lookup_empty in Hj.
Qed.
Lemma inv_drop st th op wr id : inv st th op wr -> inv st (delete id th) op wr.
Proof.
  intros [H1 H2 H3 H4 H5 H6 H7 H8]. split; try done.
  - intros i j Hj. apply lookup_delete_Some in Hj as [_ Hj]. by apply H4.
  - intros Ho i r Hr [j Hj]. apply lookup_delete_Some in Hj as [_ Hj]. apply H8; done.
Qed.
Lemma inv_put st th op wr id j j' : inv st th op wr -> th !! id = Some j -> jb_offer j' = jb_offer j ->
  inv st (<[id := j']> th) op wr.
Proof.
  intros [H1 H2 H3 H4 H5 H6 H7 H8] Hj Ho. split; try done.
  - intros i k Hk. apply lookup_insert_Some in Hk as [[<- <-]|[_ Hk]]; [|by apply H4]. rewrite Ho. by apply H4.
  - intros Hop i r Hr [k Hk]. apply lookup_insert_Some in Hk as [[<- _]|[_ Hk]]; apply H8; done.
Qed.

Lemma inv_cancelled st th op wr id st' : CancelRequest id st = Ok st' -> inv st th op wr -> inv st' th op wr.
Proof.
  unfold CancelRequest. intros Hc [H1 H2 H3 H4 H5 H6 H7 H8].
  destruct (st !! id) as [current|] eqn:E; [|done]. destruct (rq_terminal current) eqn:T; [done|]. injection Hc as <-.
  split; try done.
  - intros i r Hr. apply lookup_insert_Some in Hr as [[<- <-]|[_ Hr]]; [by apply (H1 id current)|by eapply H1].
  - intros i Hi. apply lookup_insert_is_Some. destruct (decide (id = i)); [by left|right]. split; [done|by apply H2].
  - intros i Hi. apply lookup_insert_None in Hi as [Hi _]. by apply H7.
  - intros Hop i r Hr Hth. apply lookup_insert_Some in Hr as [[<- <-]|[_ Hr]]; [|by apply H8].
    destruct (H8 Hop id current E Hth) as [Hl _]. split; [exact Hl|done].
Qed.

(** A job sends its next chunk. *)
Lemma inv_chunk st th op wr id j c st' : inv st th op wr -> th !! id = Some j -> ch_RequestID c = id ->
  RecordChunk c st = Ok st' ->
  inv st' th false wr /\ (op = true -> inv st' th true (wr ++ [OChunk c])).
Proof.
  intros [H1 H2 H3 H4 H5 H6 H7 H8] Hj Hid Hr. unfold RecordChunk in Hr.
  destruct (OutputChunkValidate c) as [[]|] eqn:Hv; [|done]. cbn [mbind result_bind] in Hr. rewrite Hid in Hr.
  destruct (st !! id) as [current|] eqn:E; [|done].
  destruct (_ || _) eqn:T; [done|]. bools. destruct (negb _) eqn:S; [done|]. bools. injection Hr as <-.
  assert (forall i r, <[id:=mkRequest (rq_accepted current) (ch_Sequence c) (ch_Done c) true]> st !! i = Some r ->
    rq_accepted r = true) as A1.
  { intros i r Hr. apply lookup_insert_Some in Hr as [[<- <-]|[_ Hr]]; [done|by eapply H1]. }
  assert (forall i, i ∈ accepts_of wr ->
    is_Some (<[id:=mkRequest (rq_accepted current) (ch_Sequence c) (ch_Done c) true]> st !! i)) as A2.
  { intros i Hi. apply lookup_insert_is_Some. destruct (decide (id = i)); [by left|right]. split; [done|by apply H2]. }
  split.
  { split; try done. intros i Hi. apply lookup_insert_None in Hi as [Hi _]. by apply H7. }
  intros Hop. destruct (H8 Hop id current E ltac:(by eexists)) as [Hl Hc].
  destruct (Accept_at (tracker_of wr) c Hv) as (t & Ha & Hlast & Hclosed & Hother).
  { rewrite Hid. destruct (closed_of (tracker_of wr) id); [|done]. rewrite Hc in *; done. }
  { rewrite Hid, Hl. done. }
  destruct (tracked_snoc wr c t H6 Ha) as [Ht Htr]. rewrite Hid in Hlast, Hclosed, Hother.
  assert (accepts_of (wr ++ [OChunk c]) = accepts_of wr) as Hacc by (rewrite accepts_of_snoc; apply app_nil_r).
  split; rewrite ?Hacc, ?Htr; try done.
  - apply before_snoc; [done|]. intros c' [= <-]. rewrite Hid. by apply (H4 id j).
  - intros i Hi. apply lookup_insert_None in Hi as [Hi Hne]. destruct (Hother i) as [-> ->]; [done|]. by apply H7.
  - intros _ i r Hr Hth. apply lookup_insert_Some in Hr as [[<- <-]|[Hne Hr]].
    + split; [done|]. simpl. by rewrite Hclosed.
    + destruct (Hother i) as [Ei Ec]; [done|]. unfold agree. rewrite Ei, Ec. by apply H8.
Qed.

(** A job is accepted, and starts unless its acceptance could not be written. *)
Lemma inv_accept st th op wr id st' : inv st th op wr -> AcceptRequest id st = Ok st' ->
  inv st' th op wr
  /\ forall j, jo_RequestID (jb_offer j) = id -> inv st' (<[id := j]> th) op (wr ++ [OAccept (mkJobAccept id)]).
Proof.
  intros [H1 H2 H3 H4 H5 H6 H7 H8] Ha.
  assert (st !! id = None /\ st' = <[id := mkRequest true 0 false false]> st) as [E ->].
  { unfold AcceptRequest in Ha. destruct (st !! id) as [r|] eqn:E; [|by injection Ha as <-].
    by rewrite (H1 id r E) in Ha. }
  assert (id ∉ accepts_of wr) as Hnew by (intros Hin; destruct (H2 id Hin) as [r Hr]; congruence).
  assert (th !! id = None) as Hth.
  { destruct (th !! id) as [j|] eqn:Ej; [|done]. by destruct (H4 id j Ej). }
  assert (forall i r, <[id:=mkRequest true 0 false false]> st !! i = Some r -> rq_accepted r = true) as A1.
  { intros i r Hr. apply lookup_insert_Some in Hr as [[<- <-]|[_ Hr]]; [done|by eapply H1]. }
  split.
  - split; try done.
    + intros i Hi. apply lookup_insert_is_Some. destruct (decide (id = i)); [by left|right]. split; [done|by apply H2].
    + intros i Hi. apply lookup_insert_None in Hi as [Hi _]. by apply H7.
    + intros Hop i r Hr Hj. apply lookup_insert_Some in Hr as [[<- <-]|[_ Hr]]; [|by apply H8].
      rewrite Hth in Hj. by destruct Hj.
  - intros j Hj.
    assert (chunks_of (wr ++ [OAccept (mkJobAccept id)]) = chunks_of wr) as Hc by by apply tracker_of_other.
    assert (accepts_of (wr ++ [OAccept (mkJobAccept id)]) = accepts_of wr ++ [id]) as Hacc by apply accepts_of_snoc.
    split; unfold tracked, tracker_of in *; rewrite ?Hc, ?Hacc; try done.
    + intros i Hi. apply lookup_insert_is_Some. destruct (decide (id = i)); [by left|right]. split; [done|].
      apply elem_of_app in Hi as [Hi|Hi]; [by apply H2|]. apply list_elem_of_singleton in Hi. congruence.
    + apply NoDup_app. split_and!; [done| |by apply NoDup_singleton].
      intros x Hx Hin. apply list_elem_of_singleton in Hin as ->. done.
    + intros i k Hk. apply lookup_insert_Some in Hk as [[<- <-]|[_ Hk]].
      * split; [done|]. apply elem_of_app. right. by apply list_elem_of_singleton.
      * destruct (H4 i k Hk). split; [done|]. apply elem_of_app. by left.
    + apply before_snoc; [done|]. intros c. done.
    + intros i Hi. apply lookup_insert_None in Hi as [Hi _]. by apply H7.
    + intros Hop i r Hr Hk. apply lookup_insert_Some in Hr as [[<- <-]|[Hne Hr]].
      * unfold agree. destruct (H7 id E) as [-> ->]. by split.
      * rewrite lookup_insert_ne in Hk by done. by apply H8.
Qed.

(** *** Every operation keeps it *)
(** What the invariant looks at. *)
Definition wire d := (dm_state d, dm_threads d, dm_open d, dm_written d).
Lemma dinv_wire d d' : wire d' = wire d -> dinv d -> dinv d'.
Proof. unfold wire, dinv. by intros [= -> -> -> ->]. Qed.

Lemma wire_recordReceipt now p d : wire (recordReceipt now p d) = wire d.
Proof. unfold recordReceipt. by case_decide. Qed.

Lemma dinv_finish id d : dinv d -> dinv (finish_job id d).
Proof. apply inv_drop. Qed.

(** A write of [m]: nothing changed, the connection broke, or [m] was written. *)
Lemma write_cases m w d : let '(d', r) := write_payload m w d in
  dm_state d' = dm_state d /\ dm_threads d' = dm_threads d /\ dm_backends d' = dm_backends d
  /\ match r with
     | Ok _ => dm_open d = true /\ dm_open d' = true /\ dm_written d' = dm_written d ++ [m]
     | Err _ => dm_written d' = dm_written d
                /\ (dm_open d' = false \/ dm_open d' = dm_open d /\ dm_open d = true /\ exists e, w = Refused e)
     end.
Proof.
  unfold write_payload. destruct (dm_open d) eqn:Eo; [|rewrite Eo; split_and!; try done; by left].
  destruct w; simpl; split_and!; try done.
  - right. split_and!; [done|done|by eexists].
  - by left.
Qed.

Lemma send_cases now m w d : let '(d', r) := send now m w d in
  match r with
  | Ok _ => (d', r) = write_payload m w d
  | Err _ => d' = d \/ (d', r) = write_payload m w d
  end.
Proof.
  unfold send. destruct (envelope_of _ m); [|by left]. destruct (write_payload m w d) as [d' [u|e]] eqn:E; [done|by right].
Qed.

Lemma dinv_send now m w d : plain m = true -> dinv d -> dinv (fst (send now m w d)).
Proof.
  intros Hm Hd. pose proof (send_cases now m w d) as Hs. pose proof (write_cases m w d) as Hw.
  assert (dinv (fst (write_payload m w d))) as Hwr.
  { unfold dinv. destruct (write_payload m w d) as [d' [u|e]]; simpl;
      destruct Hw as (-> & -> & _ & Hw).
    - destruct Hw as (Ho & -> & ->). apply inv_plain; [done|]. unfold dinv in Hd. by rewrite Ho in Hd.
    - destruct Hw as [-> [->|(-> & _)]]; [|done]. by eapply inv_close. }
  destruct (send now m w d) as [d' [u|e]]; simpl; [by rewrite <- Hs in Hwr|].
  destruct Hs as [->|Hs]; [done|by rewrite <- Hs in Hwr].
Qed.

Lemma dinv_cancel now id d : dinv d -> dinv (cancel now id d).
Proof.
  unfold cancel. intros Hd. case_decide; [|done]. simpl.
  destruct (CancelRequest id (dm_state d)) as [st|] eqn:E; [|done].
  exact (inv_cancelled _ _ _ _ _ _ E Hd).
Qed.

Lemma dinv_sendChunk now c w d id j : dinv d -> dm_threads d !! id = Some j -> ch_RequestID c = id ->
  (forall e, w <> Refused e) -> dinv (fst (sendChunk now c w d)) /\ dm_threads (fst (sendChunk now c w d)) = dm_threads d.
Proof.
  intros Hd Hj Hid Hw. unfold sendChunk. destruct (RecordChunk c (dm_state d)) as [st|] eqn:Hr; [|done].
  destruct (inv_chunk _ _ _ _ _ _ _ _ Hd Hj Hid Hr) as [Hoff Hon].
  assert (OutputChunkValidate c = Ok tt) as Hv.
  { unfold RecordChunk in Hr. by destruct (OutputChunkValidate c) as [[]|]. }
  unfold send, envelope_of, NewEnvelope. rewrite message_id_ok. cbn [orb negb]. 
  change (negb (knownMessageType MessageOutputChunk)) with false. cbv iota.
  change (Validate c) with (OutputChunkValidate c). rewrite Hv. cbn [mbind result_bind].
  pose proof (write_cases (OChunk c) w (set_state st d)) as Hc.
  destruct (write_payload (OChunk c) w (set_state st d)) as [d' [u|e]]; simpl in Hc |- *.
  - destruct Hc as (E1 & E2 & _ & E3 & E4 & E5). unfold dinv. rewrite E1, E2, E4, E5. split; [|done]. by apply Hon.
  - destruct Hc as (E1 & E2 & _ & E3 & [E4|(_ & _ & e' & ->)]); [|by destruct (Hw e')].
    unfold dinv. rewrite E1, E2, E3, E4. done.
Qed.

Lemma dinv_startJob now offer w d : (forall e, w <> Refused e) -> dinv d -> dinv (fst (startJob now offer w d)).
Proof.
  intros Hw Hd. unfold startJob. destruct (dm_backends d !! _) as [selected|]; [|done].
  destruct (negb _ || _); [done|]. destruct (AcceptRequest _ _) as [st|] eqn:Ha; [|done].
  destruct (inv_accept _ _ _ _ _ _ Hd Ha) as [Hno Hyes].
  set (d1 := set_jobs _ _ _ (set_state st d)).
  pose proof (send_cases now (OAccept (mkJobAccept (jo_RequestID offer))) w d1) as Hs.
  pose proof (write_cases (OAccept (mkJobAccept (jo_RequestID offer))) w d1) as Hc.
  destruct (send now _ w d1) as [d2 [u|e]]; simpl.
  - rewrite <- Hs in Hc. destruct Hc as (E1 & E2 & _ & E3 & E4 & E5). unfold dinv. simpl.
    rewrite E1, E2, E4, E5. simpl in E3 |- *. rewrite E3 in Hyes. by apply Hyes.
  - destruct Hs as [->|Hs]; [done|]. rewrite <- Hs in Hc. destruct Hc as (E1 & E2 & _ & E3 & [E4|(_ & _ & e' & ->)]).
    + unfold dinv. simpl. rewrite E1, E2, E3, E4. simpl. by eapply inv_close.
    + by destruct (Hw e').
Qed.

Lemma dinv_job_step now id w d : (forall e, w <> Refused e) -> dinv d -> dinv (job_step Error now id w d).
Proof.
  intros Hw Hd. unfold job_step. destruct (dm_threads d !! id) as [j|] eqn:Hj; [|done].
  destruct (in_threads _ _ _ _ Hd id j Hj) as [Hid _].
  destruct (jb_rest j) as [[usage|e|content next]|].
  - set (c := mkOutputChunk _ _ _ _ _ _ _ _). destruct (dinv_sendChunk now c w d id j Hd Hj Hid Hw) as [Hi _].
    destruct (sendChunk now c w d) as [d' [u|e]]; simpl in Hi; apply dinv_finish; exact Hi.
  - set (c := mkOutputChunk _ _ _ _ _ _ _ _). set (d1 := recordRequestFailed _ _ _ _).
    destruct (dinv_sendChunk now c w d1 id j Hd Hj Hid Hw) as [Hi _].
    destruct (sendChunk now c w d1) as [d' r]; simpl in Hi. apply dinv_finish; exact Hi.
  - set (c := mkOutputChunk _ _ _ _ _ _ _ _). destruct (dinv_sendChunk now c w d id j Hd Hj Hid Hw) as [Hi Hth].
    destruct (sendChunk now c w d) as [d' r]; simpl in Hi, Hth.
    eapply (inv_put _ _ _ _ _ j); [exact Hi|by rewrite Hth|reflexivity].
  - destruct (decode_workspace _) as [files|].
    + eapply inv_put; [exact Hd|exact Hj|reflexivity].
    + apply dinv_finish. exact Hd.
Qed.

Lemma dinv_stop now interrupted d : dinv d -> dinv (stop now interrupted d).
Proof. unfold stop. by destruct interrupted. Qed.

Lemma dinv_dispatch now payload w d : (forall e, w <> Refused e) -> dinv d ->
  dinv (fst (dispatch Keccak256 Pack Sign PublicOf PubkeyToAddress
    receiptTypeText domainTypeText nameText versionText parse now payload w d)).
Proof.
  intros Hw Hd. unfold dispatch. destruct (DecodeEnvelope _ _ _) as [envelope|]; [|done].
  destruct (String.eqb (env_Type envelope) MessageJobOffer).
  { destruct (DecodeBody envelope); [by apply dinv_startJob|done]. }
  destruct (String.eqb (env_Type envelope) MessageCancel).
  { destruct (DecodeBody envelope); [by apply dinv_cancel|done]. }
  destruct (String.eqb (env_Type envelope) MessageReceiptProposal); [|done].
  destruct (DecodeBody envelope) as [proposal|]; [|done]. destruct (signProposal _ _ _ _ _ _ _ _ _ proposal d) as [s|]; [|done].
  pose proof (dinv_send now (OSignature s) w d eq_refl Hd) as Hi.
  destruct (send now (OSignature s) w d) as [d' [u|e]]; [|done].
  exact (dinv_wire _ _ (wire_recordReceipt now proposal d') Hi).
Qed.

(** The connection does not refuse a message and stay open. *)
Definition decisive (w : write) : bool := match w with Refused _ => false | _ => true end.
Definition decisive_action (a : Action) : bool :=
  match a with Payload _ _ _ w | JobStep _ _ w => decisive w | _ => true end.
Lemma decisive_spec w : decisive w = true -> forall e, w <> Refused e.
Proof. by destruct w. Qed.

Lemma dinv_perform a d : decisive_action a = true -> dinv d -> dinv (perform a d).
Proof.
  intros Ha Hd. destruct a as [now offers backends|now dialed interrupted hello capacity|now payload interrupted w
    |now interrupted| | |now w|now id w]; simpl in *.
  - unfold UpdateBackends. by destruct (if bool_decide _ then _ else _).
  - unfold start_serving. destruct (dm_serving d || _) eqn:G; [done|]. bools.
    destruct (validate d); [|done]. destruct (negb dialed); [done|].
    set (d1 := set_link true true _ _).
    assert (dinv d1) as H1. { unfold dinv, d1. simpl. unfold dinv in Hd. rewrite H0 in *. by eapply inv_reopen. }
    pose proof (dinv_send now (OHello (mkHello (cf_MachineID (dm_config d1)))) hello d1 eq_refl H1) as H2.
    destruct (send now _ hello d1) as [d2 [u|e]]; [|by apply dinv_stop]. simpl in H2.
    pose proof (dinv_send now (OCapacity (CapacityOf d2)) capacity d2 eq_refl H2) as H3.
    destruct (send now _ capacity d2) as [d3 [u'|e]]; [done|by apply dinv_stop].
  - unfold serve_one. destruct (dm_serving d); [|done].
    pose proof (dinv_dispatch now payload w d (decisive_spec w Ha) Hd) as Hi.
    destruct (dispatch _ _ _ _ _ _ _ _ _ _ now payload w d) as [d' [u|e]]; [done|by apply dinv_stop].
  - destruct (dm_serving d); [by apply dinv_stop|done].
  - by destruct (dm_serving d).
  - destruct (dm_serving d || _); [done|]. by eapply inv_close.
  - unfold heartbeat. destruct (dm_serving d); [|done].
    pose proof (dinv_send now (OCapacity (CapacityOf d)) w d eq_refl Hd) as Hi.
    destruct (send now _ w d) as [d' [u|e]]; [done|]. by eapply inv_close.
  - apply dinv_job_step; [by apply decisive_spec|done].
Qed.

Lemma dinv_run actions : forall d, Forall (fun a => decisive_action a = true) actions -> dinv d -> dinv (run actions d).
Proof.
  induction actions as [|a actions IH]; intros d Ha Hd; [done|]. apply Forall_cons in Ha as [Ha Hr].
  apply IH; [done|]. by apply dinv_perform.
Qed.

Lemma dinv_new now config backends : dinv (NewDaemon now config backends).
Proof.
  split; try done.
  - intros id Hid. by apply not_elem_of_nil in Hid.
  - constructor.
  - intros [|x b] c a; done.
Qed.

(** C6. In any run of the daemon, over any number of connections and with jobs
    and cancellations interleaved arbitrarily, it accepts a request at most
    once, sends output only for requests it accepted before, and every chunk
    it sends is the one the hub's chunk tracker expects next: the tracker
    refuses none of them.  (The connection is assumed not to refuse one
    message and stay usable.) *)
Theorem daemon_protocol actions now config backends :
  Forall (fun a => decisive_action a = true) actions ->
  let written := dm_written (run actions (NewDaemon now config backends)) in
  NoDup (accepts_of written)
  /\ (forall before c after, written = before ++ OChunk c :: after -> ch_RequestID c ∈ accepts_of before)
  /\ snd (run_tracker NewChunkTracker (chunks_of written)) = chunks_of written.
Proof.
  intros Ha written. destruct (dinv_run actions _ Ha (dinv_new now config backends)) as [_ _ H3 _ H5 H6 _ _].
  by split_and!.
Qed.
End Protocol.

(** ** The history of requests *)
Definition terminal (r : RequestStatus) : bool := negb (active r).
Definition terminals (l : list RequestStatus) : list RequestStatus := List.filter terminal l.

Lemma trim_loop_spec l : forall n,
  List.filter active (trim_loop n l) = List.filter active l
  /\ terminals (trim_loop n l) = take (recentLimit - n) (terminals l).
Proof.
  unfold terminals, terminal. induction l as [|r l IH]; intros n; cbn [trim_loop List.filter]; [by rewrite take_nil|].
  destruct (active r) eqn:Ea; cbn [negb List.filter]; rewrite ?Ea; cbn [negb].
  - destruct (IH n) as [-> ->]. done.
  - destruct (Nat.leb_spec recentLimit n) as [Hn|Hn].
    + destruct (IH n) as [-> ->]. replace (recentLimit - n)%nat with 0%nat by lia. done.
    + cbn [List.filter]. rewrite Ea. cbn [negb]. destruct (IH (S n)) as [-> ->].
      replace (recentLimit - n)%nat with (S (recentLimit - S n)) by lia. done.
Qed.

Lemma trim_loop_sublist l : forall n, trim_loop n l `sublist_of` l.
Proof.
  induction l as [|r l IH]; intros n; cbn [trim_loop]; [constructor|].
  destruct (active r); [apply sublist_skip, IH|]. destruct (recentLimit <=? n)%nat; [apply sublist_cons, IH|apply sublist_skip, IH].
Qed.

(** Trimming the history keeps its order, every request that is active or
    settling, and of the finished ones exactly the twenty most recent. *)
Theorem history_trimmed (s : StatusSnapshot) :
  let l := sn_RecentRequests s in
  let l' := sn_RecentRequests (trimRequestsLocked s) in
  l' `sublist_of` l /\ List.filter active l' = List.filter active l
  /\ terminals l' = take 20 (terminals l).
Proof.
  intros l l'. destruct (trim_loop_spec l 0) as [Ha Ht]. split_and!; [apply trim_loop_sublist|exact Ha|exact Ht].
Qed.

(** ** Earnings *)
(** The receipts that count: the first of each request not recorded yet. *)
Fixpoint first_receipts (seen : gset string) (ps : list ReceiptProposal) : list ReceiptProposal :=
  match ps with
  | [] => []
  | p :: rest => if decide (rp_RequestID p ∈ seen) then first_receipts seen rest
                 else p :: first_receipts ({[rp_RequestID p]} ∪ seen) rest
  end.
Definition total_earnings (ps : list ReceiptProposal) : Z :=
  foldr (fun p acc => earnings_of (rp_Receipt p) + acc) 0 ps.

Lemma earnings_update id f s : sn_RunEarningsWei (updateRequestLocked id f s) = sn_RunEarningsWei s.
Proof. unfold updateRequestLocked. destruct (String.eqb id ""); [done|]. by destruct (update_first _ _ _). Qed.

Lemma recordReceipt_earnings {K} now p (d : Daemon K) :
  let d' := recordReceipt now p d in
  if decide (rp_RequestID p ∈ dm_earningsRecorded d)
  then run_earnings (dm_status d') = run_earnings (dm_status d) /\ dm_earningsRecorded d' = dm_earningsRecorded d
  else run_earnings (dm_status d') = run_earnings (dm_status d) + earnings_of (rp_Receipt p)
       /\ dm_earningsRecorded d' = {[rp_RequestID p]} ∪ dm_earningsRecorded d.
Proof.
  unfold recordReceipt, run_earnings. case_decide; simpl; rewrite ?earnings_update; [done|].
  by rewrite SetString10_BigString.
Qed.

(** Earnings are counted once per request: after any sequence of signed
    receipts, repeated proposals included, the earnings of the run grew by the
    net amounts of the first receipt of each request, exactly (the total is a
    decimal text of unbounded size). *)
Theorem earnings_counted_once {K} (ps : list (Z * ReceiptProposal)) : forall (d : Daemon K),
  run_earnings (dm_status (foldl (fun d p => recordReceipt (fst p) (snd p) d) d ps))
  = run_earnings (dm_status d) + total_earnings (first_receipts (dm_earningsRecorded d) (map snd ps)).
Proof.
  induction ps as [|[now p] ps IH]; intros d; simpl; [lia|]. rewrite IH.
  pose proof (recordReceipt_earnings now p d) as Hr. simpl in Hr. case_decide; destruct Hr as [-> ->]; [done|].
  simpl. lia.
Qed.

(** ** A job that is left alone *)
(** What [Generate] emits, and how it ends, when its callback never fails. *)
Fixpoint script (g : generation) : list string * (Usage + error) :=
  match g with
  | Return usage => ([], inl usage)
  | Fail e => ([], inr e)
  | Emit content next => let '(contents, outcome) := script (next (Ok tt)) in (content :: contents, outcome)
  end.

Definition data_chunk (id : string) (sequence : Z) (content : string) : OutputChunk :=
  mkOutputChunk id sequence content false 0 0 0 "".
Fixpoint numbered (id : string) (sequence : Z) (contents : list string) : list OutputChunk :=
  match contents with
  | [] => []
  | content :: rest => data_chunk id (sequence + 1) content :: numbered id (sequence + 1) rest
  end.
Definition last_chunk (id : string) (sequence : Z) (outcome : Usage + error) : OutputChunk :=
  match outcome with
  | inl u => mkOutputChunk id sequence "" true (us_InputTokens u) (us_OutputTokens u) (us_ComputeMilliseconds u) ""
  | inr _ => mkOutputChunk id sequence "" true 0 0 0 "backend_failed"
  end.

Section Job.
Context {PrivateKey : Type} (Error : error -> string).
Implicit Type d : Daemon PrivateKey.

Lemma sendChunk_sent now c d k seen : dm_open d = true ->
  dm_state d !! ch_RequestID c = Some (mkRequest true k false seen) -> OutputChunkValidate c = Ok tt ->
  ch_Sequence c = wrap64 (k + 1) ->
  sendChunk now c Sent d =
    (set_link (dm_serving d) true (dm_written d ++ [OChunk c])
       (set_state (<[ch_RequestID c := mkRequest true (ch_Sequence c) (ch_Done c) true]> (dm_state d)) d), Ok tt).
Proof.
  intros Ho Hst Hv Hs. unfold sendChunk, RecordChunk. rewrite Hv. cbn [mbind result_bind]. rewrite Hst. simpl.
  rewrite Hs, Z.eqb_refl. cbn [negb]. unfold send, envelope_of, NewEnvelope. rewrite message_id_ok. cbn [orb].
  change (negb (knownMessageType MessageOutputChunk)) with false. cbv iota.
  change (Validate c) with (OutputChunkValidate c). rewrite Hv. cbn [mbind result_bind].
  unfold write_payload. simpl. by rewrite Ho.
Qed.

Lemma data_chunk_valid id k content : is_blank id = false -> content <> "" -> 0 < k ->
  OutputChunkValidate (data_chunk id k content) = Ok tt.
Proof.
  intros Hid Hc Hk. unfold OutputChunkValidate. simpl. rewrite Hid. replace (k =? 0) with false by lia.
  by rewrite bool_decide_eq_false_2.
Qed.
Lemma last_chunk_valid id k outcome : is_blank id = false -> 0 < k -> OutputChunkValidate (last_chunk id k outcome) = Ok tt.
Proof.
  intros Hid Hk. unfold OutputChunkValidate. destruct outcome; simpl; rewrite Hid;
    replace (k =? 0) with false by lia; done.
Qed.

Lemma job_runs now id g : forall d offer backend k seen,
  let '(contents, outcome) := script g in
  dm_open d = true -> dm_threads d !! id = Some (mkJob offer backend k (Some g)) -> jo_RequestID offer = id ->
  dm_state d !! id = Some (mkRequest true k false seen) -> is_blank id = false -> Forall (fun c => c <> "") contents ->
  0 <= k -> k + Z.of_nat (length contents) + 1 < u64_mod ->
  let d' := Nat.iter (S (length contents)) (job_step Error now id Sent) d in
  dm_written d' = dm_written d ++ map OChunk (numbered id k contents)
                    ++ [OChunk (last_chunk id (k + Z.of_nat (length contents) + 1) outcome)]
  /\ dm_threads d' !! id = None.
Proof.
  induction g as [usage|e|content next IH]; intros d offer backend k seen; simpl.
  - intros Ho Ht Hid Hst Hb _ Hk Hlt. unfold job_step. rewrite Ht. cbn [jb_rest jb_sequence jb_offer].
    unfold wrap64. rewrite Z.mod_small by lia. rewrite Hid. replace (k + Z.of_nat 0 + 1) with (k + 1) by lia.
    change (mkOutputChunk id (k + 1) "" true _ _ _ "") with (last_chunk id (k + 1) (inl usage)).
    rewrite (sendChunk_sent now (last_chunk id (k + 1) (inl usage)) d k seen Ho Hst (last_chunk_valid id (k + 1) (inl usage) Hb ltac:(lia)))
      by (simpl; unfold wrap64; by rewrite Z.mod_small by lia).
    simpl. split; [done|apply lookup_delete_eq].
  - intros Ho Ht Hid Hst Hb _ Hk Hlt. unfold job_step. rewrite Ht. cbn [jb_rest jb_sequence jb_offer].
    unfold wrap64. rewrite Z.mod_small by lia. rewrite Hid. replace (k + Z.of_nat 0 + 1) with (k + 1) by lia.
    change (mkOutputChunk id (k + 1) "" true 0 0 0 "backend_failed") with (last_chunk id (k + 1) (inr e)).
    set (d1 := recordRequestFailed now id (Error e) _).
    rewrite (sendChunk_sent now (last_chunk id (k + 1) (inr e)) d1 k seen Ho Hst (last_chunk_valid id (k + 1) (inr e) Hb ltac:(lia)))
      by (simpl; unfold wrap64; by rewrite Z.mod_small by lia).
    simpl. split; [done|apply lookup_delete_eq].
  - specialize (IH (Ok tt)). destruct (script (next (Ok tt))) as [contents outcome].
    intros Ho Ht Hid Hst Hb Hne Hk Hlt. apply Forall_cons in Hne as [Hc Hne]. simpl length in *.
    set (d1 := job_step Error now id Sent d).
    assert (d1 = put_job id (mkJob offer backend (k + 1) (Some (next (Ok tt))))
      (set_link (dm_serving d) true (dm_written d ++ [OChunk (data_chunk id (k + 1) content)])
       (set_state (<[id := mkRequest true (k + 1) false true]> (dm_state d)) d))) as E1.
    { unfold d1, job_step. rewrite Ht. cbn [jb_rest jb_sequence jb_offer jb_backend].
      unfold wrap64. rewrite Z.mod_small by lia. rewrite Hid.
      change (mkOutputChunk id (k + 1) content false 0 0 0 "") with (data_chunk id (k + 1) content).
      by rewrite (sendChunk_sent now (data_chunk id (k + 1) content) d k seen Ho Hst (data_chunk_valid id (k + 1) content Hb Hc ltac:(lia)))
        by (simpl; unfold wrap64; by rewrite Z.mod_small by lia). }
    specialize (IH d1 offer backend (k + 1) true).
    destruct IH as [Hw Hth].
    + by rewrite E1.
    + rewrite E1. apply lookup_insert_eq.
    + done.
    + rewrite E1. apply lookup_insert_eq.
    + done.
    + done.
    + lia.
    + lia.
    + cbv zeta. rewrite <- (Nat.iter_succ (S (length contents))), (Nat.iter_succ_r (S (length contents))). fold d1. split; [|exact Hth].
      rewrite Hw, E1. simpl. rewrite <- app_assoc. simpl.
      replace (k + 1 + Z.of_nat (length contents) + 1) with (k + Z.of_nat (S (length contents)) + 1) by lia. done.
Qed.

(** From its start to its last chunk. *)
Lemma job_completes now id d offer backend files :
  let g := backend (mkBackendRequest (jo_Model offer) (jo_Prompt offer) files (jo_MaximumOutputTokens offer)) in
  let '(contents, outcome) := script g in
  dm_open d = true -> dm_threads d !! id = Some (mkJob offer backend 0 None) -> jo_RequestID offer = id ->
  dm_state d !! id = Some (mkRequest true 0 false false) ->
  decode_workspace (jo_Workspace offer) = Some files ->
  is_blank id = false -> Forall (fun c => c <> "") contents -> Z.of_nat (length contents) + 1 < u64_mod ->
  let d' := Nat.iter (length contents + 2) (job_step Error now id Sent) d in
  dm_written d' = dm_written d ++ map OChunk (numbered id 0 contents)
                    ++ [OChunk (last_chunk id (Z.of_nat (length contents) + 1) outcome)]
  /\ dm_threads d' !! id = None.
Proof.
  intros g. destruct (script g) as [contents outcome] eqn:Hg. intros Ho Ht Hid Hst Hf Hb Hne Hlt.
  set (d1 := job_step Error now id Sent d).
  assert (d1 = put_job id (mkJob offer backend 0 (Some g)) d) as E1.
  { unfold d1, job_step. rewrite Ht. cbn [jb_rest jb_offer jb_backend jb_sequence]. by rewrite Hf. }
  pose proof (job_runs now id g d1 offer backend 0 false) as Hr. rewrite Hg in Hr.
  cbv zeta. replace (length contents + 2)%nat with (S (S (length contents))) by lia.
  rewrite (Nat.iter_succ_r (S (length contents))). fold d1. replace (dm_written d) with (dm_written d1) by (by rewrite E1).
  apply Hr; try done; rewrite E1; [done|apply lookup_insert_eq|done].
Qed.

End Job.

(** ** A sample session *)
Module Session.
Definition offers : list OfferCapacity := [mkOfferCapacity "o1" "llama" 1 "" "" "" "" [] "" "" ""].
Definition backend : Backend := fun request =>
  Emit (br_Model request) (fun r =>
    match r with
    | Err e => Fail e
    | Ok _ => Emit "!" (fun r => match r with Err e => Fail e | Ok _ => Return (mkUsage 3 2 40) end)
    end).
Definition config : Config Z := mkConfig "wss://relay" "token" "machine" offers 0 0 (Some 7) 1 (replicate 20 51).
Definition fresh : Daemon Z := NewDaemon 5 config {["o1" := backend]}.
Definition text (e : error) : string := "failed".
Definition prologue : list Action := [Serve 6 true false Sent Sent; Payload 7 "{offer}" false Sent].
Definition session (actions : list Action) : Daemon Z :=
  run Toy.Keccak256 Toy.Pack Toy.Sign id Toy.PubkeyToAddress [1] [2] [3] [4] Proposals.Sample.parse text actions fresh.
Definition steps : list Action := [JobStep 8 "0xaa" Sent; JobStep 8 "0xaa" Sent; JobStep 9 "0xaa" Sent; JobStep 9 "0xaa" Sent].
End Session.

Lemma daemon_protocol_witness :
  let written := dm_written (Session.session (Session.prologue ++ Session.steps)) in
  accepts_of written = ["0xaa"] /\ length (chunks_of written) = 3%nat
  /\ snd (run_tracker NewChunkTracker (chunks_of written)) = chunks_of written.
Proof.
  destruct (daemon_protocol Toy.Keccak256 Toy.Pack Toy.Sign id Toy.PubkeyToAddress [1] [2] [3] [4]
    Proposals.Sample.parse Session.text (Session.prologue ++ Session.steps) 5 Session.config
    {["o1" := Session.backend]}) as (_ & _ & Ht).
  - repeat constructor.
  - split_and!; [vm_compute; reflexivity|vm_compute; reflexivity|exact Ht].
Defined.

