(* ===== verification/Effects.v ===== *)
(** * Programs whose effects can fail or be cut short

    An effect of a program on its world (a file operation, an external command)
    may succeed, fail without happening, or never happen because the process
    dies before it.  A program consumes one [Fate] per effect, so quantifying
    over the list of fates covers every failure and every crash point; a list
    that ran out means that everything succeeds.  [triple] is the program logic:
    what holds when the program returns, when it returns an error, and in every
    world a crash can leave behind. *)

From S2P Require Import Prelude.
Open Scope list_scope.

Inductive Fate := Proceed | Fault (e : error) | Halt.

Inductive Outcome (A : Type) := Done (a : A) | Failed (e : error) | Halted.
Arguments Done {A} a.
Arguments Failed {A} e.
Arguments Halted {A}.

Definition Eff (W A : Type) : Type := list Fate -> W -> list Fate * W * Outcome A.

Section Eff.
Context {W : Type}.

#[global] Instance eff_ret : MRet (Eff W) := fun A a fates w => (fates, w, Done a).
#[global] Instance eff_bind : MBind (Eff W) := fun A B f m fates w =>
  match m fates w with
  | (fates, w, Done a) => f a fates w
  | (fates, w, Failed e) => (fates, w, Failed e)
  | (fates, w, Halted) => (fates, w, Halted)
  end.

(** [return err] *)
Definition fail {A} (e : error) : Eff W A := fun fates w => (fates, w, Failed e).
Definition of_result {A} (r : result A) : Eff W A := match r with Ok a => mret a | Err e => fail e end.
(** The error of [m] as a value. *)
Definition try {A} (m : Eff W A) : Eff W (result A) := fun fates w =>
  match m fates w with
  | (fates, w, Done a) => (fates, w, Done (Ok a))
  | (fates, w, Failed e) => (fates, w, Done (Err e))
  | (fates, w, Halted) => (fates, w, Halted)
  end.
(** [fmt.Errorf(prefix + ": %w", err)] on the error of [m]. *)
Definition wrap {A} (prefix : string) (m : Eff W A) : Eff W A := fun fates w =>
  match m fates w with
  | (fates, w, Failed e) => (fates, w, Failed (ErrWrap prefix e))
  | other => other
  end.

(** One effect: [f] happens, or its fate is to fail or to be cut short. *)
Definition effect {A} (f : W -> W * result A) : Eff W A := fun fates w =>
  match fates with
  | Fault e :: rest => (rest, w, Failed e)
  | Halt :: rest => (rest, w, Halted)
  | [] => let '(w, r) := f w in ([], w, match r with Ok a => Done a | Err e => Failed e end)
  | Proceed :: rest => let '(w, r) := f w in (rest, w, match r with Ok a => Done a | Err e => Failed e end)
  end.
(** An effect that cannot fail. *)
Definition sure (f : W -> W) : Eff W unit := fun fates w =>
  match fates with
  | [] => ([], f w, Done tt)
  | Halt :: rest => (rest, w, Halted)
  | _ :: rest => (rest, f w, Done tt)
  end.

(** ** The program logic *)
Definition triple {A} (P : W -> Prop) (m : Eff W A) (Q : A -> W -> Prop) (E : error -> W -> Prop)
    (C : W -> Prop) : Prop :=
  forall fates w, P w ->
    match m fates w with
    | (_, w', Done a) => Q a w'
    | (_, w', Failed e) => E e w'
    | (_, w', Halted) => C w'
    end.

Lemma triple_ret {A} (P : W -> Prop) (a : A) (Q : A -> W -> Prop) E C :
  (forall w, P w -> Q a w) -> triple P (mret a) Q E C.
Proof. intros HQ fates w Hw. by apply HQ. Qed.

Lemma triple_fail {A} (P : W -> Prop) e (Q : A -> W -> Prop) (E : error -> W -> Prop) C :
  (forall w, P w -> E e w) -> triple P (fail e) Q E C.
Proof. intros HE fates w Hw. by apply HE. Qed.

Lemma triple_bind {A B} P (m : Eff W A) (f : A -> Eff W B) R Q E C :
  triple P m R E C -> (forall a, triple (R a) (f a) Q E C) -> triple P (m ≫= f) Q E C.
Proof.
  intros Hm Hf fates w Hw. specialize (Hm fates w Hw). unfold mbind, eff_bind.
  destruct (m fates w) as [[fates' w'] [a|e|]]; [|done..]. by apply Hf.
Qed.

Lemma triple_try {A} P (m : Eff W A) (Q : result A -> W -> Prop) E C :
  triple P m (fun a => Q (Ok a)) (fun e => Q (Err e)) C -> triple P (try m) Q E C.
Proof.
  intros Hm fates w Hw. specialize (Hm fates w Hw). unfold try.
  by destruct (m fates w) as [[fates' w'] [a|e|]].
Qed.

Lemma triple_wrap {A} P (m : Eff W A) prefix Q (E : error -> W -> Prop) C :
  triple P m Q (fun e => E (ErrWrap prefix e)) C -> triple P (wrap prefix m) Q E C.
Proof.
  intros Hm fates w Hw. specialize (Hm fates w Hw). unfold wrap.
  by destruct (m fates w) as [[fates' w'] [a|e|]].
Qed.

Lemma triple_effect {A} (P : W -> Prop) (f : W -> W * result A) (Q : A -> W -> Prop) (E : error -> W -> Prop)
    (C : W -> Prop) :
  (forall w, P w -> match f w with (w', Ok a) => Q a w' | (w', Err e) => E e w' end) ->
  (forall w e, P w -> E e w) -> (forall w, P w -> C w) -> triple P (effect f) Q E C.
Proof.
  intros Hf HE HC fates w Hw. specialize (Hf w Hw). unfold effect.
  destruct fates as [|[|e|] rest]; [| |by apply HE|by apply HC];
    destruct (f w) as [w' [a|e]]; done.
Qed.

Lemma triple_sure (P : W -> Prop) f (Q : unit -> W -> Prop) E (C : W -> Prop) :
  (forall w, P w -> Q tt (f w)) -> (forall w, P w -> C w) -> triple P (sure f) Q E C.
Proof. intros Hf HC fates w Hw. unfold sure. destruct fates as [|[|e|] rest]; by auto. Qed.

Lemma triple_conseq {A} (P P' : W -> Prop) (m : Eff W A) (Q Q' : A -> W -> Prop) (E E' : error -> W -> Prop)
    (C C' : W -> Prop) :
  triple P' m Q' E' C' -> (forall w, P w -> P' w) -> (forall a w, Q' a w -> Q a w) ->
  (forall e w, E' e w -> E e w) -> (forall w, C' w -> C w) -> triple P m Q E C.
Proof.
  intros Hm HP HQ HE HC fates w Hw. specialize (Hm fates w (HP w Hw)).
  destruct (m fates w) as [[fates' w'] [a|e|]]; by auto.
Qed.

(** A precondition that does not depend on the world. *)
Lemma triple_pure {A} (X : Prop) P (m : Eff W A) Q E C :
  (X -> triple P m Q E C) -> triple (fun w => X /\ P w) m Q E C.
Proof. intros Hm fates w [Hx Hw]. by apply Hm. Qed.

Lemma triple_of_result {A} (P : W -> Prop) (r : result A) (Q : A -> W -> Prop) (E : error -> W -> Prop) C :
  (forall w, P w -> match r with Ok a => Q a w | Err e => E e w end) -> triple P (of_result r) Q E C.
Proof. intros Hr. destruct r; [by apply triple_ret|by apply triple_fail]. Qed.
End Eff.
