(* ===== verification/Tuning.v ===== *)
(** * Reversible host tuning (cli/internal/platform/windows)

    config.go, journal.go, optimize.go and the native runner's [Snapshot],
    [Apply] and [Restore] (runner_windows.go).  A [Machine] is what the code
    changes: the recovery journal, the power scheme, the keep-awake request and
    the running Ollama processes.  Every file operation and every external
    command is one effect that can fail or be cut short by a crash (WindowsRunner.v
    takes the commands apart).  The journal
    file holds a journal or text that does not decode; writing the temporary
    file does not touch it, and linking or renaming it does so atomically.
    [text] is the text of an error, [environ] the environment of the CLI. *)

From S2P Require Import Prelude GoStrings Effects.
From Stdlib Require Import Ascii.
Open Scope string_scope.
Open Scope list_scope.
Open Scope Z_scope.

(** ** Configuration (config.go) *)
Record Config := mkConfig {
  cf_KeepAlive : string;
  cf_ContextLength : Z;
  cf_MaxLoadedModels : Z;
  cf_NumParallel : Z;
  cf_FlashAttention : bool;
  cf_KVCacheType : string;
  cf_PerformancePowerPlan : bool;
  cf_ProcessPriority : string;
  cf_RequireACPower : bool;
}.

Definition DefaultConfig : Config := mkConfig "-1" 4096 1 1 true "q8_0" true "High" true.

Definition Validate (c : Config) : result unit :=
  if cf_ContextLength c <? 512 then Err (ErrNew "context length must be at least 512")
  else if cf_MaxLoadedModels c <? 1 then Err (ErrNew "max loaded models must be at least 1")
  else if cf_NumParallel c <? 1 then Err (ErrNew "num parallel must be at least 1")
  else if negb (contains ["f16"; "q8_0"; "q4_0"] (cf_KVCacheType c)) then Err (ErrNew "KV cache type is not supported")
  else if negb (contains ["Normal"; "AboveNormal"; "High"] (cf_ProcessPriority c))
  then Err (ErrNew "process priority is not supported")
  else Ok tt.

Definition ValidatePower (onACPower allowBattery : bool) (c : Config) : result unit :=
  if cf_RequireACPower c && negb onACPower && negb allowBattery
  then Err (ErrNew "AC power is required; connect AC power or use --allow-battery") else Ok tt.

(** ** The journal (journal.go) *)
Record OllamaProcessSettings := mkOllamaSettings {
  ol_Executable : string;
  ol_Priority : string;
  ol_Environment : list (string * option string);
}.

Record RecoveryJournal := mkJournal {
  rj_SessionKind : string;
  rj_OwnerPID : Z;
  rj_ActivePowerScheme : string;
  rj_Ollama : OllamaProcessSettings;
  rj_AppliedStages : list string;
}.

Inductive JournalFile := Written (journal : RecoveryJournal) | Corrupt.

Record Process := mkProcess { ps_Executable : string; ps_Environment : list string; ps_Priority : string }.

Record Machine := mkMachine {
  mc_journal : option JournalFile;
  mc_scheme : string;
  mc_awake : bool;
  mc_ollama : list Process;
}.

Definition set_journal v (m : Machine) := mkMachine v (mc_scheme m) (mc_awake m) (mc_ollama m).
Definition set_scheme v (m : Machine) := mkMachine (mc_journal m) v (mc_awake m) (mc_ollama m).
Definition set_awake v (m : Machine) := mkMachine (mc_journal m) (mc_scheme m) v (mc_ollama m).
Definition set_ollama v (m : Machine) := mkMachine (mc_journal m) (mc_scheme m) (mc_awake m) v.
(** The keep-awake request belongs to a thread of the CLI and dies with it. *)
Definition crash (m : Machine) : Machine := set_awake false m.

Definition with_stages (stages : list string) (j : RecoveryJournal) : RecoveryJournal :=
  mkJournal (rj_SessionKind j) (rj_OwnerPID j) (rj_ActivePowerScheme j) (rj_Ollama j) stages.

Definition validate (j : RecoveryJournal) : result unit :=
  if negb (String.eqb (rj_SessionKind j) "provider") then Err (ErrNew "recovery session kind is not supported")
  else if rj_OwnerPID j <=? 0 then Err (ErrNew "recovery session owner PID is required")
  else if is_blank (rj_ActivePowerScheme j) then Err (ErrNew "active power scheme is required")
  else Ok tt.

Abbreviation Run := (Eff Machine).

(** [os.MkdirAll], the temporary file, [os.Remove] of a temporary file: effects
    that leave the machine as modelled unchanged. *)
Definition elsewhere : Run unit := effect (fun m => (m, Ok tt)).
Definition exists_journal : Run bool := effect (fun m => (m, Ok (match mc_journal m with Some _ => true | None => false end))).
Definition link (j : RecoveryJournal) : Run unit :=
  effect (fun m => match mc_journal m with
                   | Some _ => (m, Err (ErrNew "file exists"))
                   | None => (set_journal (Some (Written j)) m, Ok tt)
                   end).
Definition rename (j : RecoveryJournal) : Run unit :=
  effect (fun m => (set_journal (Some (Written j)) m, Ok tt)).
(** [os.Open] of the journal: absent, or unreadable for another reason. *)
Definition read_file : Run JournalFile :=
  file ← wrap "open" (effect (fun m => (m, Ok (mc_journal m))));
  match file with Some f => mret f | None => fail ErrNotExist end.
Definition remove_journal : Run unit :=
  effect (fun m => match mc_journal m with
                   | Some _ => (set_journal None m, Ok tt)
                   | None => (m, Err ErrNotExist)
                   end).

Definition writeTemporary : Run unit := elsewhere.

Definition Save (j : RecoveryJournal) : Run unit :=
  _ ← of_result (validate j);
  _ ← wrap "create recovery state directory" elsewhere;
  present ← wrap "inspect recovery journal" exists_journal;
  if present : bool then fail ErrActiveRecoveryJournal
  else
    _ ← writeTemporary;
    linked ← try (link j);
    match linked with
    | Ok _ => mret tt
    | Err e =>
        present ← try exists_journal;
        match present with
        | Ok true => fail ErrActiveRecoveryJournal
        | _ => fail (ErrWrap "commit recovery journal" e)
        end
    end.

Definition Load : Run RecoveryJournal :=
  file ← read_file;
  match file with
  | Corrupt => fail (ErrWrap "decode recovery journal" (ErrNew "invalid JSON"))
  | Written j => match validate j with
                 | Ok _ => mret j
                 | Err e => fail (ErrWrap "validate recovery journal" e)
                 end
  end.

Definition replaceExisting (j : RecoveryJournal) : Run unit :=
  _ ← of_result (validate j);
  _ ← writeTemporary;
  wrap "replace recovery journal" (rename j).

Definition CompleteStage (stage : string) : Run unit :=
  let stage := TrimSpace stage in
  if String.eqb stage "" then fail (ErrNew "recovery stage is required")
  else
    journal ← Load;
    if contains (rj_AppliedStages journal) stage then mret tt
    else replaceExisting (with_stages (rj_AppliedStages journal ++ [stage]) journal).

Definition RollbackStages (j : RecoveryJournal) : list string := rev (rj_AppliedStages j).

Definition CompleteRecovery (restore : RecoveryJournal -> Run unit) : Run unit :=
  loaded ← try Load;
  match loaded with
  | Err ErrNotExist => mret tt
  | Err e => fail e
  | Ok journal =>
      _ ← restore journal;
      wrap "remove completed recovery journal" remove_journal
  end.

(** ** Planning (optimize.go) *)
Inductive OperationKind := OperationPowerPlan | OperationKeepAwake | OperationOllamaEnvironment | OperationProcessPriority.
#[export] Instance kind_eq_dec : EqDecision OperationKind.
Proof. solve_decision. Defined.

Definition kind_name (k : OperationKind) : string :=
  match k with
  | OperationPowerPlan => "power-plan"
  | OperationKeepAwake => "keep-awake"
  | OperationOllamaEnvironment => "ollama-environment"
  | OperationProcessPriority => "process-priority"
  end.

Record Operation := mkOperation {
  op_Stage : string;
  op_Kind : OperationKind;
  op_Args : list string;
  op_Environment : list (string * string);
  op_Priority : string;
}.

Record HostSnapshot := mkHostSnapshot { hs_OnACPower : bool; hs_Journal : RecoveryJournal }.

Definition boolString (value : bool) : string := if value then "1" else "0".

Definition tuning_environment (c : Config) : list (string * string) :=
  [("OLLAMA_MAX_LOADED_MODELS", BigString (cf_MaxLoadedModels c));
   ("OLLAMA_NUM_PARALLEL", BigString (cf_NumParallel c));
   ("OLLAMA_FLASH_ATTENTION", boolString (cf_FlashAttention c));
   ("OLLAMA_KV_CACHE_TYPE", cf_KVCacheType c)].

Definition plan_operations (c : Config) : list Operation :=
  (if cf_PerformancePowerPlan c
   then [mkOperation (kind_name OperationPowerPlan) OperationPowerPlan ["/setactive"; "SCHEME_MIN"] [] ""] else [])
  ++ [mkOperation (kind_name OperationKeepAwake) OperationKeepAwake [] [] "";
      mkOperation (kind_name OperationOllamaEnvironment) OperationOllamaEnvironment [] (tuning_environment c) "";
      mkOperation (kind_name OperationProcessPriority) OperationProcessPriority [] [] (cf_ProcessPriority c)].

Definition PlanProviderTuning (c : Config) (allowBattery : bool) (s : HostSnapshot) : result (list Operation) :=
  _ ← Validate c;
  _ ← ValidatePower (hs_OnACPower s) allowBattery c;
  Ok (plan_operations c).

(** ** The native runner (runner_windows.go) *)
Section Runner.
Context (environ : list string) (pid : Z) (onAC : option bool) (text : error -> string).

Definition managed : list string :=
  ["OLLAMA_MAX_LOADED_MODELS"; "OLLAMA_NUM_PARALLEL"; "OLLAMA_FLASH_ATTENTION"; "OLLAMA_KV_CACHE_TYPE"].

(** The name and value of an environment entry, [strings.Cut(item, "=")]. *)
Definition variable (item : string) : string := match CutByte item "=" with Some (name, _) => name | None => item end.
Definition value_of (item : string) : string := match CutByte item "=" with Some (_, v) => v | None => "" end.

(** [os.LookupEnv], whose names ignore case on Windows. *)
Definition lookup_environment (name : string) : option string :=
  match List.find (fun item => String.eqb (ToUpper (variable item)) name) environ with
  | Some item => Some (value_of item)
  | None => None
  end.
Definition originalOllamaEnvironment : list (string * option string) :=
  map (fun name => (name, lookup_environment name)) managed.

Definition environmentValues (values : list (string * string)) : list (string * option string) :=
  map (fun '(name, value) => (name, Some value)) values.

Definition mergeEnvironment (overrides : list (string * option string)) : list string :=
  List.filter (fun item => negb (contains (map fst overrides) (ToUpper (variable item)))) environ
  ++ omap (fun '(name, value) => match value with Some v => Some (name +:+ "=" +:+ v) | None => None end) overrides.

(** The priority class of a new process. *)
Definition default_priority : string := "Normal".

(** The executable and the priority come from the first Ollama process whose
    executable is known; each process before it overwrites both. *)
Definition capture (scheme : string) (processes : list Process) : RecoveryJournal :=
  let '(executable, priority) :=
    match List.find (fun p => negb (String.eqb (ps_Executable p) "")) processes with
    | Some p => (ps_Executable p, ps_Priority p)
    | None => ("", match last processes with Some p => ps_Priority p | None => "" end)
    end in
  mkJournal "provider" pid scheme (mkOllamaSettings executable priority originalOllamaEnvironment) [].

Definition Snapshot (c : Config) : Run HostSnapshot :=
  _ ← of_result (Validate c);
  scheme ← wrap "read active power scheme" (effect (fun m => (m, Ok (mc_scheme m))));
  processes ← wrap "list processes" (effect (fun m => (m, Ok (mc_ollama m))));
  power ← of_result (of_option onAC (ErrNew "could not determine AC/battery state"));
  mret (mkHostSnapshot power (capture scheme processes)).

Definition set_active (scheme : string) : Run unit := effect (fun m => (set_scheme scheme m, Ok tt)).
Definition startKeepAwake : Run unit :=
  effect (fun m => (set_awake true m, Ok tt)).
Definition stopKeepAwake : Run unit := sure (set_awake false).

Definition list_processes : Run (list Process) := effect (fun m => (m, Ok (mc_ollama m))).
(** A process that cannot be killed is kept. *)
Fixpoint kill_all (kept processes : list Process) : Run unit :=
  match processes with
  | [] => mret tt
  | p :: rest =>
      killed ← try (effect (fun m => (set_ollama (kept ++ rest) m, Ok tt)));
      kill_all (match killed with Ok _ => kept | Err _ => kept ++ [p] end) rest
  end.
Definition valid_priority (priority : string) : bool := contains ["AboveNormal"; "High"; "Normal"] priority.
Definition set_last_priority (priority : string) (l : list Process) : list Process :=
  match last l with
  | Some p => removelast l ++ [mkProcess (ps_Executable p) (ps_Environment p) priority]
  | None => l
  end.
Definition restartOllama (executable : string) (environment : list (string * option string)) (priority : string) : Run unit :=
  processes ← list_processes;
  _ ← kill_all [] processes;
  _ ← wrap "restart Ollama"
        (effect (fun m => (set_ollama (mc_ollama m ++ [mkProcess executable (mergeEnvironment environment) default_priority]) m, Ok tt)));
  if String.eqb priority "" then mret tt
  else if negb (valid_priority priority) then fail (ErrNew "unsupported process priority")
  else effect (fun m => (set_ollama (set_last_priority priority (mc_ollama m)) m, Ok tt)).

Fixpoint set_priorities (done : list Process) (priority : string) (processes : list Process) : Run unit :=
  match processes with
  | [] => mret tt
  | p :: rest =>
      let p' := mkProcess (ps_Executable p) (ps_Environment p) priority in
      _ ← effect (fun m => (set_ollama (done ++ p' :: rest) m, Ok tt));
      set_priorities (done ++ [p']) priority rest
  end.
Definition setRunningOllamaPriority (priority : string) : Run unit :=
  processes ← list_processes;
  match processes with
  | [] => mret tt
  | _ => if valid_priority priority then set_priorities [] priority processes
         else fail (ErrNew "unsupported process priority")
  end.

(** [snapshot] is the runner's copy of the journal it took. *)
Definition Apply (snapshot : RecoveryJournal) (o : Operation) : Run unit :=
  match op_Kind o with
  | OperationPowerPlan => set_active (default "" (op_Args o !! 1%nat))
  | OperationKeepAwake => startKeepAwake
  | OperationOllamaEnvironment =>
      if String.eqb (ol_Executable (rj_Ollama snapshot)) "" then mret tt
      else restartOllama (ol_Executable (rj_Ollama snapshot)) (environmentValues (op_Environment o)) ""
  | OperationProcessPriority => setRunningOllamaPriority (op_Priority o)
  end.

Fixpoint restore_loop (j : RecoveryJournal) (stages : list string) (ollama awake power : bool) : Run unit :=
  match stages with
  | [] => mret tt
  | stage :: rest =>
      if (String.eqb stage (kind_name OperationProcessPriority)
          || String.eqb stage (kind_name OperationOllamaEnvironment)) && negb ollama
      then
        _ ← (if String.eqb (ol_Executable (rj_Ollama j)) "" then mret tt
             else restartOllama (ol_Executable (rj_Ollama j)) (ol_Environment (rj_Ollama j)) (ol_Priority (rj_Ollama j)));
        restore_loop j rest true awake power
      else if String.eqb stage (kind_name OperationKeepAwake) && negb awake
      then _ ← stopKeepAwake; restore_loop j rest ollama true power
      else if String.eqb stage (kind_name OperationPowerPlan) && negb power
      then _ ← wrap "restore power scheme" (set_active (rj_ActivePowerScheme j)); restore_loop j rest ollama awake true
      else restore_loop j rest ollama awake power
  end.
Definition Restore (j : RecoveryJournal) : Run unit := restore_loop j (RollbackStages j) false false false.

(** ** Tuning sessions (optimize.go) *)
Definition applyJournaledOperation (snapshot : RecoveryJournal) (o : Operation) : Run unit :=
  _ ← wrap ("apply " +:+ op_Stage o) (Apply snapshot o);
  recorded ← try (CompleteStage (op_Stage o));
  match recorded with
  | Ok _ => mret tt
  | Err e =>
      loaded ← try Load;
      match loaded with
      | Ok journal =>
          if contains (rj_AppliedStages journal) (op_Stage o) then fail (ErrWrap ("record " +:+ op_Stage o) e)
          else
            restored ← try (Restore (with_stages (rj_AppliedStages journal ++ [op_Stage o]) journal));
            match restored with
            | Err e' => fail (ErrWrap ("record " +:+ op_Stage o +:+ ": " +:+ text e +:+ "; immediate restore failed") e')
            | Ok _ => fail (ErrWrap ("record " +:+ op_Stage o) e)
            end
      | Err _ => fail (ErrWrap ("record " +:+ op_Stage o) e)
      end
  end.

Fixpoint apply_all (snapshot : RecoveryJournal) (operations : list Operation) : Run unit :=
  match operations with
  | [] => mret tt
  | o :: rest =>
      applied ← try (applyJournaledOperation snapshot o);
      match applied with
      | Ok _ => apply_all snapshot rest
      | Err e =>
          rolled ← try (CompleteRecovery Restore);
          match rolled with
          | Err e' => fail (ErrWrap (text e +:+ "; rollback failed") e')
          | Ok _ => fail e
          end
      end
  end.

Definition StartProviderTuning (c : Config) (allowBattery : bool) : Run unit :=
  snapshot ← wrap "capture Windows recovery state" (Snapshot c);
  operations ← of_result (PlanProviderTuning c allowBattery snapshot);
  saved ← try (Save (hs_Journal snapshot));
  match saved with
  | Err ErrActiveRecoveryJournal =>
      fail (ErrWrap "stop the existing provider session before starting another" ErrActiveRecoveryJournal)
  | Err e => fail e
  | Ok _ => apply_all (hs_Journal snapshot) operations
  end.

Definition RestoreProviderTuning : Run unit := CompleteRecovery Restore.

(** [StartProviderSession] returns the restoring function; [once.Do] makes the
    second call return the first one's error. *)
Definition stop_session (before : option (result unit)) : Run (result unit) :=
  match before with
  | Some outcome => mret outcome
  | None => try RestoreProviderTuning
  end.
End Runner.
