(* ===== verification/TuningSpec.v ===== *)
(** * What host tuning guarantees

    The recovery journal is durable before the first change of the host and
    always names the changes recorded so far; a second session cannot disturb
    the first; a restoration that succeeds puts back what the journal recorded
    and one that fails keeps the journal.  A change that a crash separates from
    its record is not restored. *)

From S2P Require Import Prelude GoStrings Effects Tuning.
Open Scope string_scope.
Open Scope list_scope.
Open Scope Z_scope.

(** ** Programs that leave a part of the machine alone *)
Section Keeps.
Context {V : Type} (view : Machine -> V).

Definition keeps {A} (m : Run A) : Prop :=
  forall v, triple (fun w => view w = v) m (fun _ w => view w = v) (fun _ w => view w = v) (fun w => view w = v).

Lemma keeps_ret {A} (a : A) : keeps (mret a).
Proof. intros v. by apply triple_ret. Qed.
Lemma keeps_fail {A} e : keeps (fail (A := A) e).
Proof. intros v. by apply triple_fail. Qed.
Lemma keeps_bind {A B} (m : Run A) (f : A -> Run B) : keeps m -> (forall a, keeps (f a)) -> keeps (m ≫= f).
Proof. intros Hm Hf v. eapply triple_bind; [apply Hm|]. intros a. apply Hf. Qed.
Lemma keeps_try {A} (m : Run A) : keeps m -> keeps (try m).
Proof. intros Hm v. apply triple_try, Hm. Qed.
Lemma keeps_wrap {A} prefix (m : Run A) : keeps m -> keeps (wrap prefix m).
Proof. intros Hm v. apply triple_wrap, Hm. Qed.
Lemma keeps_effect {A} (f : Machine -> Machine * result A) :
  (forall w, view (fst (f w)) = view w) -> keeps (effect f).
Proof.
  intros Hf v. apply triple_effect; [|done..]. intros w Hw. specialize (Hf w).
  destruct (f w) as [w' [a|e]]; simpl in Hf; congruence.
Qed.
Lemma keeps_sure f : (forall w, view (f w) = view w) -> keeps (sure f).
Proof. intros Hf v. apply triple_sure; [|done]. intros w <-. apply Hf. Qed.
Lemma keeps_of_result {A} (r : result A) : keeps (of_result r).
Proof. destruct r; [apply keeps_ret|apply keeps_fail]. Qed.
End Keeps.

Create HintDb keeps.
#[export] Hint Resolve keeps_ret keeps_fail keeps_try keeps_wrap keeps_of_result : keeps.
#[export] Hint Extern 2 (keeps _ (_ ≫= _)) => apply keeps_bind; [|intros ?] : keeps.
#[export] Hint Extern 2 (keeps _ (effect _)) => apply keeps_effect; intros ?; cbn [fst]; (reflexivity || auto) : keeps.
#[export] Hint Extern 2 (keeps _ (sure _)) => apply keeps_sure; intros ?; reflexivity : keeps.
#[export] Hint Extern 3 (keeps _ (if ?b then _ else _)) => destruct b : keeps.

Section Runner.
Context (environ : list string) (pid : Z) (onAC : option bool) (text : error -> string).

(** Restarting Ollama changes the processes only. *)
Section Processes.
Context {V : Type} (view : Machine -> V) (view_ollama : forall l w, view (set_ollama l w) = view w).

Lemma keeps_kill processes : forall kept, keeps view (kill_all kept processes).
Proof.
  induction processes as [|p rest IH]; intros kept; simpl; auto 6 with keeps.
Qed.

Lemma keeps_restart exe env priority : keeps view (restartOllama environ exe env priority).
Proof. pose proof keeps_kill. unfold restartOllama, list_processes. auto 8 with keeps. Qed.

Lemma keeps_priorities priority processes : forall done, keeps view (set_priorities done priority processes).
Proof. induction processes as [|p rest IH]; intros done; simpl; auto 6 with keeps. Qed.
End Processes.

Abbreviation J := mc_journal.
Lemma keeps_Apply snapshot o : keeps J (Apply environ snapshot o).
Proof.
  pose proof (keeps_restart J (fun _ _ => eq_refl)). pose proof (keeps_priorities J (fun _ _ => eq_refl)).
  unfold Apply. destruct (op_Kind o); unfold set_active, startKeepAwake, setRunningOllamaPriority, list_processes;
    auto 8 with keeps.
Qed.

Lemma keeps_restore j stages : forall o a p, keeps J (restore_loop environ j stages o a p).
Proof.
  pose proof (keeps_restart J (fun _ _ => eq_refl)).
  induction stages as [|stage rest IH]; intros o a p; simpl; unfold stopKeepAwake, set_active; auto 8 with keeps.
Qed.

(** *** What each stage may change *)
(** Only what these stages are about differs from [w0]. *)
Definition touched (w0 : Machine) (stages : list string) (w : Machine) : Prop :=
  (kind_name OperationPowerPlan ∈ stages \/ mc_scheme w = mc_scheme w0)
  /\ (kind_name OperationKeepAwake ∈ stages \/ mc_awake w = mc_awake w0)
  /\ ((kind_name OperationOllamaEnvironment ∈ stages \/ kind_name OperationProcessPriority ∈ stages) \/ mc_ollama w = mc_ollama w0).
Lemma touched_mono w0 stages stages' w : stages ⊆ stages' -> touched w0 stages w -> touched w0 stages' w.
Proof. intros Hs (H1 & H2 & H3). split_and!; [destruct H1; auto|destruct H2; auto|destruct H3 as [[]|]; auto]. Qed.

Lemma triple_and {A} (P P' : Machine -> Prop) (m : Run A) Q Q' E E' C C' : triple P m Q E C -> triple P' m Q' E' C' ->
  triple (fun w => P w /\ P' w) m (fun a w => Q a w /\ Q' a w) (fun e w => E e w /\ E' e w) (fun w => C w /\ C' w).
Proof.
  intros H H' fates w [Hw Hw']. specialize (H fates w Hw). specialize (H' fates w Hw').
  by destruct (m fates w) as [[f' w'] [a|e|]].
Qed.

Definition keeping {A} (P : Machine -> Prop) (m : Run A) : Prop := triple P m (fun _ => P) (fun _ => P) P.
Lemma triple_touched {A} w0 stages (m : Run A) :
  (kind_name OperationPowerPlan ∈ stages \/ keeps mc_scheme m) -> (kind_name OperationKeepAwake ∈ stages \/ keeps mc_awake m) ->
  ((kind_name OperationOllamaEnvironment ∈ stages \/ kind_name OperationProcessPriority ∈ stages) \/ keeps mc_ollama m) ->
  keeping (touched w0 stages) m.
Proof.
  intros K1 K2 K3 fates w (H1 & H2 & H3).
  assert (forall V (view : Machine -> V) (X : Prop), X \/ keeps view m -> X \/ view w = view w0 ->
    match m fates w with (_, w', _) => X \/ view w' = view w0 end) as Hone.
  { intros V view X [Hx|K] [Hx'|Hv]; try (destruct (m fates w) as [[f' w'] ?]; by left). specialize (K (view w0) fates w Hv).
    destruct (m fates w) as [[f' w'] [a|e|]]; by right. }
  pose proof (Hone _ mc_scheme _ K1 H1). pose proof (Hone _ mc_awake _ K2 H2). pose proof (Hone _ mc_ollama _ K3 H3).
  by destruct (m fates w) as [[f' w'] [a|e|]].
Qed.

(** The journal's own operations change nothing else. *)
Section JournalOnly.
Context {V : Type} (view : Machine -> V) (view_journal : forall j w, view (Tuning.set_journal j w) = view w).
Lemma keeps_Load : keeps view Load.
Proof.
  unfold Load, read_file. apply keeps_bind.
  - apply keeps_bind; [apply keeps_wrap, keeps_effect; by intros w|]. intros []; auto with keeps.
  - intros [j|]; [destruct (validate j)|]; auto with keeps.
Qed.
Lemma keeps_CompleteStage stage : keeps view (CompleteStage stage).
Proof.
  pose proof keeps_Load. unfold CompleteStage, replaceExisting, writeTemporary, elsewhere, rename. destruct (String.eqb _ ""); [apply keeps_fail|].
  apply keeps_bind; [done|]. intros j. destruct (contains _ _); [apply keeps_ret|]. auto 8 with keeps.
Qed.
Lemma keeps_remove : keeps view remove_journal.
Proof. unfold remove_journal. apply keeps_effect. intros w. destruct (mc_journal w); [apply view_journal|done]. Qed.
End JournalOnly.

Lemma keeping_quiet {A} w0 stages (m : Run A) : keeps mc_scheme m -> keeps mc_awake m -> keeps mc_ollama m -> keeping (touched w0 stages) m.
Proof. intros. apply triple_touched; by right. Qed.

Lemma Apply_keeps snapshot o :
  (op_Kind o = OperationPowerPlan \/ keeps mc_scheme (Apply environ snapshot o))
  /\ (op_Kind o = OperationKeepAwake \/ keeps mc_awake (Apply environ snapshot o))
  /\ (op_Kind o = OperationOllamaEnvironment \/ op_Kind o = OperationProcessPriority \/ keeps mc_ollama (Apply environ snapshot o)).
Proof.
  pose proof (keeps_restart mc_scheme (fun _ _ => eq_refl)). pose proof (keeps_priorities mc_scheme (fun _ _ => eq_refl)).
  pose proof (keeps_restart mc_awake (fun _ _ => eq_refl)). pose proof (keeps_priorities mc_awake (fun _ _ => eq_refl)).
  unfold Apply. destruct (op_Kind o); unfold set_active, startKeepAwake, setRunningOllamaPriority, list_processes;
    split_and!; auto; right; auto 8 with keeps.
Qed.

Lemma Apply_touched w0 snapshot o stages : op_Stage o = kind_name (op_Kind o) -> op_Stage o ∈ stages ->
  keeping (touched w0 stages) (Apply environ snapshot o).
Proof.
  intros Es Hin. rewrite Es in Hin. destruct (Apply_keeps snapshot o) as (K1 & K2 & K3). apply triple_touched.
  - destruct K1 as [K|]; [rewrite K in Hin|]; auto.
  - destruct K2 as [K|]; [rewrite K in Hin|]; auto.
  - destruct K3 as [K|[K|]]; [rewrite K in Hin..|]; auto.
Qed.

(** A restoration touches what its stages are about only. *)
Lemma restore_touched w0 j (l stages : list string) : l ⊆ stages -> forall o a p, keeping (touched w0 stages) (restore_loop environ j l o a p).
Proof.
  induction l as [|stage rest IH]; intros Hs o a p; cbn [restore_loop]; [by apply triple_ret|].
  assert (rest ⊆ stages) as Hs' by (intros x Hx; apply Hs; by right). assert (stage ∈ stages) as Hin by (apply Hs; by left).
  specialize (IH Hs'). destruct (_ && negb o) eqn:E1.
  { eapply triple_bind; [|intros ?; apply IH]. apply andb_true_iff in E1 as [E1%orb_true_iff _]. rewrite !String.eqb_eq in E1.
    destruct (String.eqb _ ""); [by apply triple_ret|]. apply triple_touched; [right; by apply keeps_restart..|].
    left. destruct E1 as [->| ->]; auto. }
  destruct (_ && negb a) eqn:E2.
  { eapply triple_bind; [|intros ?; apply IH]. apply andb_true_iff in E2 as [->%String.eqb_eq _]. unfold stopKeepAwake.
    apply triple_touched; [right; auto with keeps|by left|right; auto with keeps]. }
  destruct (_ && negb p) eqn:E3; [|apply IH]. eapply triple_bind; [|intros ?; apply IH].
  apply andb_true_iff in E3 as [->%String.eqb_eq _]. unfold set_active. apply triple_touched; [by left|right; auto with keeps..].
Qed.

(** *** What a restoration puts back *)
(** What the journal recorded for each stage that was restored: the power
    scheme, no keep-awake request, and Ollama, when one was found, started with
    the recorded priority and the recorded values of the tuning variables. *)
Definition settled (j : RecoveryJournal) (stages : list string) (ollama awake power : bool) (w : Machine) : Prop :=
  (power = true \/ kind_name OperationPowerPlan ∈ stages -> mc_scheme w = rj_ActivePowerScheme j)
  /\ (awake = true \/ kind_name OperationKeepAwake ∈ stages -> mc_awake w = false)
  /\ (ollama = true \/ kind_name OperationOllamaEnvironment ∈ stages \/ kind_name OperationProcessPriority ∈ stages ->
      ol_Executable (rj_Ollama j) <> "" ->
      last (mc_ollama w) = Some (mkProcess (ol_Executable (rj_Ollama j)) (mergeEnvironment environ (ol_Environment (rj_Ollama j)))
        (if String.eqb (ol_Priority (rj_Ollama j)) "" then default_priority else ol_Priority (rj_Ollama j)))).
Abbreviation quiet m P Q := (triple P m (fun _ => Q) (fun _ _ => True) (fun _ => True)).

Lemma quiet_any {A} (m : Run A) P : quiet m P (fun _ => True).
Proof. intros fates w _. by destruct (m fates w) as [[f' w'] [a|e|]]. Qed.
Lemma quiet_keeps {A V} (view : Machine -> V) (m : Run A) (P : V -> Prop) : keeps view m -> quiet m (fun w => P (view w)) (fun w => P (view w)).
Proof. intros Hm fates w Hw. specialize (Hm (view w) fates w eq_refl). destruct (m fates w) as [[f' w'] [a|e|]]; [by rewrite Hm|done..]. Qed.

Lemma restart_spec exe env priority : quiet (restartOllama environ exe env priority) (fun _ => True)
  (fun w => last (mc_ollama w) = Some (mkProcess exe (mergeEnvironment environ env) (if String.eqb priority "" then default_priority else priority))).
Proof.
  unfold restartOllama. eapply triple_bind with (R := fun _ _ => True); [apply quiet_any|]. intros processes.
  eapply triple_bind with (R := fun _ _ => True); [apply quiet_any|]. intros _.
  eapply triple_bind with (R := fun _ w => last (mc_ollama w) = Some (mkProcess exe (mergeEnvironment environ env) default_priority)).
  { apply triple_wrap, triple_effect; [|done..]. intros w _. cbn. apply last_snoc. }
  intros _. destruct (String.eqb priority ""); [by apply triple_ret|]. destruct (negb _); [by apply triple_fail|].
  apply triple_effect; [|done..]. intros w Hw. cbn. unfold set_last_priority. rewrite Hw. apply last_snoc.
Qed.

Lemma restore_loop_spec j stages : forall o a p,
  quiet (restore_loop environ j stages o a p) (settled j [] o a p) (settled j stages o a p).
Proof.
  assert (forall (s x : string) l (b : bool), s <> x -> (b = true \/ x ∈ s :: l) -> b = true \/ x ∈ l) as Hskip.
  { intros s x l b Hne [Hb|Hin]; [by left|right]. apply elem_of_cons in Hin as [->|Hin]; done. }
  assert (forall (s x y : string) l (b : bool), s <> x -> s <> y -> (b = true \/ x ∈ s :: l \/ y ∈ s :: l) -> b = true \/ x ∈ l \/ y ∈ l) as Hskip2.
  { intros s x y l b Hx Hy [Hb|[Hin|Hin]]; [by left|right; left|right; right]; apply elem_of_cons in Hin as [->|Hin]; done. }
  induction stages as [|stage rest IH]; intros o a p; cbn [restore_loop]; [by apply triple_ret|].
  destruct ((String.eqb stage _ || String.eqb stage _) && negb o) eqn:E1.
  { eapply triple_bind with (R := fun _ => settled j [] true a p).
    - destruct (String.eqb _ "") eqn:Ee.
      { apply triple_ret. intros w (H1 & H2 & _). split_and!; [done..|]. intros _ Hne. by apply String.eqb_eq in Ee. }
      eapply triple_conseq; [eapply triple_and; [apply (quiet_keeps (fun w => (mc_scheme w, mc_awake w)) _ (fun v =>
          (p = true \/ kind_name OperationPowerPlan ∈ [] -> fst v = rj_ActivePowerScheme j)
          /\ (a = true \/ kind_name OperationKeepAwake ∈ [] -> snd v = false))); by apply keeps_restart|
        apply (restart_spec (ol_Executable (rj_Ollama j)) (ol_Environment (rj_Ollama j)) (ol_Priority (rj_Ollama j)))]|..]; try done.
      + intros w (H1 & H2 & _). done.
      + intros [] w [[H1 H2] H3]. split_and!; [done..|]. intros _ _. exact H3.
    - intros ?. eapply triple_conseq; [apply IH|done| |done|done]. intros u w (H1 & H2 & H3).
      apply andb_true_iff in E1 as [E1%orb_true_iff _]. rewrite !String.eqb_eq in E1.
      assert (stage <> kind_name OperationPowerPlan /\ stage <> kind_name OperationKeepAwake) as [N1 N2] by (destruct E1 as [->| ->]; by split).
      split_and!; intros Hin; [apply H1; by eapply Hskip|apply H2; by eapply Hskip|apply H3; by left]. }
  destruct (String.eqb stage (kind_name OperationKeepAwake) && negb a) eqn:E2.
  { apply andb_true_iff in E2 as [->%String.eqb_eq _].
    eapply triple_bind with (R := fun _ => settled j [] o true p).
    - apply triple_sure; [|done]. intros w (H1 & H2 & H3). by split_and!.
    - intros ?. eapply triple_conseq; [apply IH|done| |done|done]. intros u w (H1 & H2 & H3). split_and!; intros Hin.
      + apply H1. eapply Hskip; [|exact Hin]; discriminate.
      + apply H2. by left.
      + apply H3. eapply Hskip2; [| |exact Hin]; discriminate. }
  destruct (String.eqb stage (kind_name OperationPowerPlan) && negb p) eqn:E3.
  { apply andb_true_iff in E3 as [->%String.eqb_eq _].
    eapply triple_bind with (R := fun _ => settled j [] o a true).
    - apply triple_wrap, triple_effect; [|done..]. intros w (H1 & H2 & H3). by split_and!.
    - intros ?. eapply triple_conseq; [apply IH|done| |done|done]. intros u w (H1 & H2 & H3). split_and!; intros Hin.
      + apply H1. by left.
      + apply H2. eapply Hskip; [|exact Hin]; discriminate.
      + apply H3. eapply Hskip2; [| |exact Hin]; discriminate. }
  eapply triple_conseq; [apply IH|done| |done|done]. intros u w (H1 & H2 & H3). split_and!; intros Hin.
  - apply H1. destruct Hin as [->|[<-|Hin]%elem_of_cons]; [by left| |by right].
    rewrite String.eqb_refl in E3. destruct p; [by left|done].
  - apply H2. destruct Hin as [->|[<-|Hin]%elem_of_cons]; [by left| |by right].
    rewrite String.eqb_refl in E2. destruct a; [by left|done].
  - apply H3. destruct o; [by left|]. rewrite andb_true_r in E1. apply orb_false_iff in E1 as [Ea%String.eqb_neq Eb%String.eqb_neq].
    by eapply Hskip2.
Qed.

Lemma restore_spec j : quiet (Tuning.Restore environ j) (fun _ => True) (settled j (rj_AppliedStages j) false false false).
Proof.
  eapply triple_conseq; [apply restore_loop_spec| | |done..].
  - intros w _. split_and!; [intros [|Hin%not_elem_of_nil]..|intros [|[Hin%not_elem_of_nil|Hin%not_elem_of_nil]]]; done.
  - intros u w (H1 & H2 & H3). unfold RollbackStages in *.
    assert (forall x, x ∈ rev (rj_AppliedStages j) <-> x ∈ rj_AppliedStages j) as Hrev by (intros x; rewrite !list_elem_of_In; symmetry; apply in_rev).
    rewrite Hrev in H1. rewrite Hrev in H2. rewrite !Hrev in H3. by split_and!.
Qed.

(** *** What each stage does *)
(** What a stage that succeeded leaves behind; a kept Ollama is not started. *)
Definition applied (snapshot : RecoveryJournal) (o : Operation) (w : Machine) : Prop :=
  match op_Kind o with
  | OperationPowerPlan => mc_scheme w = default "" (op_Args o !! 1%nat)
  | OperationKeepAwake => mc_awake w = true
  | OperationOllamaEnvironment => ol_Executable (rj_Ollama snapshot) <> "" ->
      (ol_Executable (rj_Ollama snapshot), mergeEnvironment environ (environmentValues (op_Environment o)))
        ∈ map (fun p => (ps_Executable p, ps_Environment p)) (mc_ollama w)
  | OperationProcessPriority => Forall (fun p => ps_Priority p = op_Priority o) (mc_ollama w)
  end.
Definition started (w : Machine) := map (fun p => (ps_Executable p, ps_Environment p)) (mc_ollama w).

Lemma priorities_spec priority v processes : forall ready,
  quiet (set_priorities ready priority processes)
    (fun w => Forall (fun p => ps_Priority p = priority) ready /\ mc_ollama w = ready ++ processes /\ started w = v)
    (fun w => Forall (fun p => ps_Priority p = priority) (mc_ollama w) /\ started w = v).
Proof.
  induction processes as [|p rest IH]; intros ready; cbn [set_priorities].
  { apply triple_ret. intros w (Hf & -> & Hv). by rewrite app_nil_r. }
  set (p' := mkProcess (ps_Executable p) (ps_Environment p) priority).
  eapply triple_bind with (R := fun _ w => Forall (fun p => ps_Priority p = priority) (ready ++ [p'])
    /\ mc_ollama w = (ready ++ [p']) ++ rest /\ started w = v); [|intros ?; apply IH].
  apply triple_effect; [|done..]. intros w (Hf & Ho & Hv). split_and!.
  - apply Forall_app. split; [done|]. by repeat constructor.
  - cbn. by rewrite <- app_assoc.
  - rewrite <- Hv. unfold started. rewrite Ho. cbn. by rewrite !map_app.
Qed.

Lemma running_priority_spec priority v : quiet (setRunningOllamaPriority priority) (fun w => started w = v)
  (fun w => Forall (fun p => ps_Priority p = priority) (mc_ollama w) /\ started w = v).
Proof.
  unfold setRunningOllamaPriority, list_processes.
  eapply triple_bind with (R := fun l w => mc_ollama w = l /\ started w = v); [by apply triple_effect|]. intros l.
  destruct l as [|p rest]; [apply triple_ret; intros w [Hl Hv]; by rewrite Hl|].
  destruct (valid_priority priority); [|by apply triple_fail].
  eapply triple_conseq; [apply (priorities_spec priority v (p :: rest) [])| |done..]. by intros w [Hl Hv].
Qed.

Lemma Apply_applied snapshot o : quiet (Apply environ snapshot o) (fun _ => True) (applied snapshot o).
Proof.
  unfold Apply, applied. destruct (op_Kind o).
  - by apply triple_effect.
  - by apply triple_effect.
  - destruct (String.eqb _ "") eqn:E; [apply triple_ret; intros w _ Hne; by apply String.eqb_eq in E|].
    eapply triple_conseq; [apply restart_spec|done| |done..]. intros [] w Hw _.
    apply last_Some in Hw as [l ->]. rewrite map_app. apply elem_of_app. right. by left.
  - intros fates w _. pose proof (running_priority_spec (op_Priority o) (started w) fates w eq_refl) as H.
    destruct (setRunningOllamaPriority _ fates w) as [[f w'] [a|e|]]; [apply H|done..].
Qed.

(** [o'] does not undo what [o] did. *)
Definition spares (snapshot : RecoveryJournal) (o o' : Operation) : Prop :=
  quiet (Apply environ snapshot o') (applied snapshot o) (applied snapshot o).

Lemma applied_apart snapshot o o' : op_Kind o <> op_Kind o' ->
  (op_Kind o = OperationProcessPriority -> op_Kind o' <> OperationOllamaEnvironment) -> spares snapshot o o'.
Proof.
  intros Hne Hlast. destruct (Apply_keeps snapshot o') as (K1 & K2 & K3). unfold spares, applied. destruct (op_Kind o).
  - destruct K1 as [K|K]; [by rewrite K in Hne|]. apply (quiet_keeps mc_scheme _ (fun v => v = _) K).
  - destruct K2 as [K|K]; [by rewrite K in Hne|]. apply (quiet_keeps mc_awake _ (fun v => v = _) K).
  - destruct K3 as [K|[K|K]]; [by rewrite K in Hne| |].
    + intros fates w Hw. pose proof (running_priority_spec (op_Priority o') (started w) fates w eq_refl) as H.
      unfold Apply. rewrite K. destruct (setRunningOllamaPriority _ fates w) as [[f w'] [a|e|]]; [|done..].
      destruct H as [_ H]. unfold started in H. by rewrite H.
    + apply (quiet_keeps mc_ollama _ (fun v => _ -> _ ∈ map _ v) K).
  - destruct K3 as [K|[K|K]]; [by destruct (Hlast eq_refl)|by rewrite K in Hne|].
    apply (quiet_keeps mc_ollama _ (fun v => Forall _ v) K).
Qed.

Lemma plan_spares snapshot c : ForallOrdPairs (spares snapshot) (plan_operations c).
Proof.
  unfold plan_operations. destruct (cf_PerformancePowerPlan c); cbn [app];
    repeat (constructor; [repeat constructor; by apply applied_apart|]); constructor.
Qed.

(** A predicate that looks past the journal. *)
Definition apart_from_journal (P : Machine -> Prop) : Prop := forall j w, P (Tuning.set_journal j w) <-> P w.
Lemma applied_apart_journal snapshot o : apart_from_journal (applied snapshot o).
Proof. intros j w. unfold applied. by destruct (op_Kind o). Qed.

Lemma record_quiet snapshot o (P Q : Machine -> Prop) : apart_from_journal Q -> quiet (Apply environ snapshot o) P Q ->
  quiet (applyJournaledOperation environ text snapshot o) P Q.
Proof.
  intros HQ Ha. unfold applyJournaledOperation. eapply triple_bind with (R := fun _ => Q); [by apply triple_wrap|]. intros _.
  eapply triple_bind with (R := fun r w => match r with Ok _ => Q w | Err _ => True end).
  { apply triple_try. intros fates w Hw.
    pose proof (keeps_CompleteStage (Tuning.set_journal None) (fun _ _ => eq_refl) (op_Stage o) _ fates w eq_refl) as Hk.
    destruct (CompleteStage _ fates w) as [[f' w'] [a|e|]]; [|done..]. rewrite <- (HQ None), Hk. by apply HQ. }
  intros [u|e]; [by apply triple_ret|]. eapply triple_bind with (R := fun _ _ => True); [apply quiet_any|].
  intros [j'|e']; [|by apply triple_fail]. destruct (contains _ _); [by apply triple_fail|].
  eapply triple_bind with (R := fun _ _ => True); [apply quiet_any|]. intros [|]; by apply triple_fail.
Qed.

Lemma apply_all_quiet snapshot (P : Machine -> Prop) operations : apart_from_journal P ->
  Forall (fun o => quiet (Apply environ snapshot o) P P) operations -> quiet (apply_all environ text snapshot operations) P P.
Proof.
  intros HP. induction operations as [|o rest IH]; intros Ha; cbn [apply_all]; [by apply triple_ret|].
  apply Forall_cons in Ha as [Ho Hrest].
  eapply triple_bind with (R := fun r w => match r with Ok _ => P w | Err _ => True end); [by apply triple_try, record_quiet|].
  intros [u|e]; [by apply IH|]. eapply triple_bind with (R := fun _ _ => True); [apply quiet_any|].
  intros [|]; by apply triple_fail.
Qed.

Lemma apply_all_applied snapshot operations : ForallOrdPairs (spares snapshot) operations ->
  quiet (apply_all environ text snapshot operations) (fun _ => True) (fun w => Forall (fun o => applied snapshot o w) operations).
Proof.
  induction 1 as [|o rest Ho Hrest IH]; cbn [apply_all]; [by apply triple_ret|].
  eapply triple_bind with (R := fun r w => match r with Ok _ => applied snapshot o w | Err _ => True end).
  { apply triple_try, record_quiet; [apply applied_apart_journal|apply Apply_applied]. }
  intros [u|e].
  - pose proof (apply_all_quiet snapshot (applied snapshot o) rest (applied_apart_journal snapshot o) Ho) as Hkept.
    eapply triple_conseq; [exact (triple_and _ _ _ _ _ _ _ _ _ IH Hkept)|done| |done..].
    intros a w [H1 H2]. by constructor.
  - eapply triple_bind with (R := fun _ _ => True); [apply quiet_any|]. intros [|]; by apply triple_fail.
Qed.

(** ** The journal through each operation *)
Abbreviation holds j := (fun w => mc_journal w = Some (Written j)).

Lemma read_spec file : triple (fun w => mc_journal w = Some file) read_file
  (fun f w => f = file /\ mc_journal w = Some file)
  (fun e w => e <> ErrNotExist /\ mc_journal w = Some file) (fun w => mc_journal w = Some file).
Proof.
  eapply triple_bind with (R := fun f w => f = Some file /\ mc_journal w = Some file).
  - apply triple_wrap, triple_effect; [by intros w ->|by split|done].
  - intros f. apply triple_pure. intros ->. by apply triple_ret.
Qed.

Lemma Load_spec j : validate j = Ok tt ->
  triple (holds j) Load (fun j' w => j' = j /\ holds j w) (fun e w => e <> ErrNotExist /\ holds j w) (holds j).
Proof.
  intros Hv. eapply triple_bind; [apply read_spec|]. intros f. apply triple_pure. intros ->. rewrite Hv.
  by apply triple_ret.
Qed.

Lemma validate_stages stages j : validate (with_stages stages j) = validate j.
Proof. done. Qed.

Lemma CompleteStage_spec j stage : validate j = Ok tt -> TrimSpace stage = stage -> stage <> "" ->
  stage ∉ rj_AppliedStages j ->
  triple (holds j) (CompleteStage stage) (fun _ => holds (with_stages (rj_AppliedStages j ++ [stage]) j))
    (fun _ => holds j) (holds j).
Proof.
  intros Hv Ht Hne Hnew. unfold CompleteStage. rewrite Ht, (proj2 (String.eqb_neq _ _) Hne).
  eapply triple_bind.
  { eapply triple_conseq; [by apply (Load_spec j)|done|intros a w Hw; exact Hw|by intros e w [_ Hw]|done]. }
  intros j'. apply triple_pure. intros ->.
  destruct (contains (rj_AppliedStages j) stage) eqn:Ec; [by apply contains_spec in Ec|].
  unfold replaceExisting. rewrite validate_stages, Hv.
  eapply triple_bind with (R := fun _ => holds j); [by apply triple_ret|]. intros _.
  eapply triple_bind with (R := fun _ => holds j); [by apply triple_effect|]. intros _.
  by apply triple_wrap, triple_effect.
Qed.

Section Kept.
Context (w0 : Machine) (stages : list string).
(** The journal is [j], and only [stages] were touched. *)
Abbreviation G j := (fun w => mc_journal w = Some (Written j) /\ touched w0 stages w).

Lemma Load_kept j : validate j = Ok tt ->
  triple (G j) Load (fun j' w => j' = j /\ G j w) (fun e w => e <> ErrNotExist /\ G j w) (G j).
Proof.
  intros Hv. eapply triple_conseq; [refine (triple_and _ _ _ _ _ _ _ _ _ (Load_spec j Hv) (keeping_quiet w0 stages Load _ _ _)); by apply keeps_Load|..].
  - done.
  - by intros a w [[? ?] ?].
  - by intros e w [[? ?] ?].
  - done.
Qed.

Lemma restore_kept j j' : rj_AppliedStages j' ⊆ stages ->
  triple (G j) (Tuning.Restore environ j')
    (fun _ w => G j w /\ settled j' (rj_AppliedStages j') false false false w) (fun _ => G j) (G j).
Proof.
  intros Hs. eapply triple_conseq.
  - refine (triple_and _ _ _ _ _ _ _ _ _ (restore_spec j') (triple_and _ _ _ _ _ _ _ _ _
      (keeps_restore j' (RollbackStages j') false false false (Some (Written j))) (restore_touched w0 j' (RollbackStages j') stages _ false false false))).
    intros x. unfold RollbackStages. rewrite list_elem_of_In, <- in_rev, <- list_elem_of_In. apply Hs.
  - done.
  - by intros a w [? ?].
  - by intros e w [_ ?].
  - by intros w [_ ?].
Qed.

(** A rollback that ends put back what the journal recorded; one that does not
    keeps the journal. *)
Lemma recovery_spec j : validate j = Ok tt -> rj_AppliedStages j ⊆ stages ->
  triple (G j) (CompleteRecovery (Tuning.Restore environ))
    (fun _ w => (mc_journal w = None /\ touched w0 stages w) /\ settled j (rj_AppliedStages j) false false false w)
    (fun _ => G j) (G j).
Proof.
  intros Hv Hs. unfold CompleteRecovery.
  eapply triple_bind with (R := fun r w => (r = Ok j \/ exists e, r = Err e /\ e <> ErrNotExist) /\ G j w).
  - apply triple_try. eapply triple_conseq; [by apply (Load_kept j)|done| | |done].
    + intros a w [-> Hw]. split; [by left|done].
    + intros e w [He Hw]. split; [right; by exists e|done].
  - intros r. apply triple_pure. intros [->|(e & -> & He)].
    + eapply triple_bind; [by apply restore_kept|]. intros []. apply triple_wrap, triple_effect.
      * intros w [[Hw Ht] H]. by rewrite Hw.
      * by intros w e [? _].
      * by intros w [? _].
    + destruct e; try done; by apply triple_fail.
Qed.

Lemma record_spec j snapshot o : validate j = Ok tt -> TrimSpace (op_Stage o) = op_Stage o -> op_Stage o <> "" ->
  op_Stage o ∉ rj_AppliedStages j -> op_Stage o = kind_name (op_Kind o) -> rj_AppliedStages j ++ [op_Stage o] ⊆ stages ->
  triple (G j) (applyJournaledOperation environ text snapshot o)
    (fun _ => G (with_stages (rj_AppliedStages j ++ [op_Stage o]) j)) (fun _ => G j) (G j).
Proof.
  intros Hv Ht Hne Hnew Hk Hs. unfold applyJournaledOperation.
  assert (op_Stage o ∈ stages) as Hin by (apply Hs, elem_of_app; right; by left).
  eapply triple_bind with (R := fun _ => G j).
  { apply triple_wrap. exact (triple_and _ _ _ _ _ _ _ _ _ (keeps_Apply snapshot o _) (Apply_touched w0 snapshot o stages Hk Hin)). }
  intros _. eapply triple_bind with (R := fun r => match r with
    | Ok _ => G (with_stages (rj_AppliedStages j ++ [op_Stage o]) j) | Err _ => G j end).
  { apply triple_try. refine (triple_and _ _ _ _ _ _ _ _ _ (CompleteStage_spec j _ Hv Ht Hne Hnew) (keeping_quiet w0 stages _ _ _ _));
      by apply keeps_CompleteStage. }
  intros [u|e]; [by apply triple_ret|].
  eapply triple_bind with (R := fun r w => match r with Ok j' => j' = j | Err _ => True end /\ G j w).
  { apply triple_try. eapply triple_conseq; [by apply (Load_kept j)|done..| |done]. by intros a w [_ Hw]. }
  intros r. apply triple_pure. intros Hr. destruct r as [j'|e']; [subst j'|by apply triple_fail].
  destruct (contains _ _); [by apply triple_fail|].
  eapply triple_bind with (R := fun _ => G j); [|intros [?|?]; by apply triple_fail].
  apply triple_try. eapply triple_conseq; [by apply (restore_kept j)|done| |done..]. by intros a w [? _].
Qed.
End Kept.

(** A stage name that the journal records as it is. *)
Definition recordable (stage : string) : Prop := TrimSpace stage = stage /\ stage <> "".

(** The journal names the stages [now], and at most [next] was touched. *)
Definition recorded (w0 : Machine) (j : RecoveryJournal) (now next : list string) (w : Machine) : Prop :=
  mc_journal w = Some (Written (with_stages now j)) /\ touched w0 next w.
(** A rollback of what the journal named ended. *)
Definition rolled_back (w0 : Machine) (j : RecoveryJournal) (now next : list string) (w : Machine) : Prop :=
  (mc_journal w = None /\ touched w0 next w) /\ settled j now false false false w.

Lemma apply_all_spec w0 snapshot j operations : forall ready,
  validate j = Ok tt -> Forall recordable (map op_Stage operations) -> NoDup (ready ++ map op_Stage operations) ->
  Forall (fun o => op_Stage o = kind_name (op_Kind o)) operations ->
  let at_ k := ready ++ take k (map op_Stage operations) in
  triple (recorded w0 j ready ready) (apply_all environ text snapshot operations)
    (fun _ => recorded w0 j (at_ (length operations)) (at_ (length operations)))
    (fun _ w => exists k, rolled_back w0 j (at_ k) (at_ (S k)) w \/ recorded w0 j (at_ k) (at_ (S k)) w)
    (fun w => exists k, recorded w0 j (at_ k) (at_ (S k)) w).
Proof.
  induction operations as [|o rest IH]; intros ready Hv Hr Hnd Hk; cbn [apply_all map length].
  - apply triple_ret. intros w. by rewrite app_nil_r.
  - apply Forall_cons in Hr as [[Ht Hne] Hr]. apply Forall_cons in Hk as [Ho Hk].
    assert (op_Stage o ∉ ready) as Hnew.
    { intros Hin. apply NoDup_app in Hnd as (_ & Hd & _). apply (Hd _ Hin). apply elem_of_cons. by left. }
    assert (forall w, mc_journal w = Some (Written (with_stages ready j)) /\ touched w0 (ready ++ [op_Stage o]) w ->
      recorded w0 j (ready ++ take 0 (op_Stage o :: map op_Stage rest)) (ready ++ take 1 (op_Stage o :: map op_Stage rest)) w) as H0.
    { intros w Hw. cbn. by rewrite take_0, app_nil_r. }
    eapply triple_bind with (R := fun r w => match r with
      | Ok _ => recorded w0 j (ready ++ [op_Stage o]) (ready ++ [op_Stage o]) w
      | Err _ => mc_journal w = Some (Written (with_stages ready j)) /\ touched w0 (ready ++ [op_Stage o]) w end).
    + apply triple_try. eapply triple_conseq;
        [by apply (record_spec w0 (ready ++ [op_Stage o]) (with_stages ready j) snapshot o)| |done..|].
      * intros w [Hj Hw]. split; [done|]. eapply touched_mono; [|done]. apply list_subseteq_app_l. done.
      * intros w Hw. exists 0%nat. by apply H0.
    + intros [u|e].
      * specialize (IH (ready ++ [op_Stage o]) Hv Hr). rewrite <- app_assoc in IH. specialize (IH Hnd Hk). cbv beta zeta in IH.
        assert (forall k, (ready ++ [op_Stage o]) ++ take k (map op_Stage rest) = ready ++ take (S k) (op_Stage o :: map op_Stage rest)) as Hat
          by (intros k; cbn; by rewrite <- app_assoc).
        eapply triple_conseq; [exact IH|done| | |].
        -- cbv beta. intros a w. by rewrite Hat.
        -- intros e w [k Hw]. exists (S k). by rewrite !Hat in Hw.
        -- intros w [k Hw]. exists (S k). by rewrite !Hat in Hw.
      * eapply triple_bind with (R := fun r w => rolled_back w0 j ready (ready ++ [op_Stage o]) w
          \/ mc_journal w = Some (Written (with_stages ready j)) /\ touched w0 (ready ++ [op_Stage o]) w).
        -- apply triple_try. eapply triple_conseq; [apply (recovery_spec w0 (ready ++ [op_Stage o]) (with_stages ready j) Hv)| | | |].
           ++ apply list_subseteq_app_l. done.
           ++ done.
           ++ by left.
           ++ by right.
           ++ intros w Hw. exists 0%nat. by apply H0.
        -- assert (forall w, (rolled_back w0 j ready (ready ++ [op_Stage o]) w
             \/ mc_journal w = Some (Written (with_stages ready j)) /\ touched w0 (ready ++ [op_Stage o]) w) ->
             exists k, rolled_back w0 j (ready ++ take k (op_Stage o :: map op_Stage rest)) (ready ++ take (S k) (op_Stage o :: map op_Stage rest)) w
               \/ recorded w0 j (ready ++ take k (op_Stage o :: map op_Stage rest)) (ready ++ take (S k) (op_Stage o :: map op_Stage rest)) w) as Hend.
           { intros w [Hw|Hw]; exists 0%nat; [left; cbn; by rewrite take_0, app_nil_r|right; by apply H0]. }
           intros [?|?]; apply triple_fail; exact Hend.
Qed.

Lemma plan_stages c : Forall recordable (map op_Stage (plan_operations c)) /\ NoDup (map op_Stage (plan_operations c))
  /\ Forall (fun o => op_Stage o = kind_name (op_Kind o)) (plan_operations c).
Proof.
  unfold plan_operations. destruct (cf_PerformancePowerPlan c); cbn; (split_and!;
    [repeat constructor; try discriminate; vm_compute; reflexivity
    |apply (bool_decide_eq_true_1 _); vm_compute; reflexivity|by repeat constructor]).
Qed.

Lemma Snapshot_spec c w0 :
  triple (fun w => w = w0) (Snapshot environ pid onAC c)
    (fun s w => hs_Journal s = capture environ pid (mc_scheme w0) (mc_ollama w0) /\ w = w0)
    (fun _ w => w = w0) (fun w => w = w0).
Proof.
  unfold Snapshot. eapply triple_bind with (R := fun _ w => w = w0); [by apply triple_of_result; destruct (Validate c)|].
  intros _. eapply triple_bind with (R := fun s w => s = mc_scheme w0 /\ w = w0).
  { apply triple_wrap, triple_effect; [by intros w ->|done..]. }
  intros s. apply triple_pure. intros ->.
  eapply triple_bind with (R := fun l w => l = mc_ollama w0 /\ w = w0).
  { apply triple_wrap, triple_effect; [by intros w ->|done..]. }
  intros l. apply triple_pure. intros ->.
  eapply triple_bind with (R := fun _ w => w = w0); [by apply triple_of_result; destruct onAC|].
  intros power. by apply triple_ret.
Qed.

Lemma Save_spec j w0 : mc_journal w0 = None ->
  triple (fun w => w = w0) (Save j)
    (fun _ w => validate j = Ok tt /\ w = Tuning.set_journal (Some (Written j)) w0) (fun _ w => w = w0) (fun w => w = w0).
Proof.
  intros Hn. unfold Save. destruct (validate j) as [[]|e]; [|intros fates w ->; done].
  eapply triple_bind with (R := fun _ w => w = w0); [by apply triple_ret|]. intros _.
  eapply triple_bind with (R := fun _ w => w = w0); [by apply triple_wrap, triple_effect|]. intros _.
  eapply triple_bind with (R := fun b w => b = false /\ w = w0).
  { apply triple_wrap, triple_effect; [|done..]. intros w ->. by rewrite Hn. }
  intros b. apply triple_pure. intros ->.
  eapply triple_bind with (R := fun _ w => w = w0); [by apply triple_effect|]. intros _.
  eapply triple_bind with (R := fun r w => match r with Ok _ => w = Tuning.set_journal (Some (Written j)) w0 | Err _ => w = w0 end).
  { apply triple_try, triple_effect; [|done..]. intros w ->. by rewrite Hn. }
  intros [u|e]; [by apply triple_ret|].
  eapply triple_bind with (R := fun _ w => w = w0); [by apply triple_try, triple_effect|].
  intros [[]|]; by apply triple_fail.
Qed.

(** C26. Tuning is journaled.  Take a provider session that starts without a
    recovery journal, with whatever fails and wherever the machine stops.  When
    the session starts, every planned change was made and the journal on disk
    holds the settings found at the start and names every planned stage.  When
    it reports an error, the machine is untouched, or a rollback ended: the
    journal is gone and, for each of the [k] stages it named, the power scheme,
    the keep-awake request and Ollama are back as they were recorded; or the
    rollback failed and the journal is kept with the settings and the [k]
    stages it names.  When the machine stops, it is untouched or the journal is
    there in the same way.  In all of these at most the stages named in the
    journal and the single one after them were touched: the code records a stage
    after making its change, so the one change that was not recorded is neither
    named nor always undone ([unrecorded_change_lost], [failed_restart_not_undone]). *)
Theorem tuning_journaled c allowBattery fates w0 :
  mc_journal w0 = None ->
  let found := capture environ pid (mc_scheme w0) (mc_ollama w0) in
  let named k := take k (map op_Stage (plan_operations c)) in
  let kept k w := mc_journal w = Some (Written (with_stages (named k) found)) /\ touched w0 (named (S k)) w in
  match StartProviderTuning environ pid onAC text c allowBattery fates w0 with
  | (_, w, Done _) =>
      mc_journal w = Some (Written (with_stages (map op_Stage (plan_operations c)) found))
      /\ Forall (fun o => applied found o w) (plan_operations c)
  | (_, w, Failed _) =>
      w = w0
      \/ (exists k, mc_journal w = None /\ settled found (named k) false false false w /\ touched w0 (named (S k)) w)
      \/ exists k, kept k w
  | (_, w, Halted) => w = w0 \/ exists k, kept k w
  end.
Proof.
  intros Hn found named kept.
  cut (triple (fun w => w = w0) (StartProviderTuning environ pid onAC text c allowBattery)
    (fun _ w => mc_journal w = Some (Written (with_stages (map op_Stage (plan_operations c)) found))
                /\ Forall (fun o => applied found o w) (plan_operations c))
    (fun _ w => w = w0 \/ (exists k, mc_journal w = None /\ settled found (named k) false false false w /\ touched w0 (named (S k)) w)
                \/ exists k, kept k w)
    (fun w => w = w0 \/ exists k, kept k w)).
  { intros Ht. exact (Ht fates w0 eq_refl). }
  unfold StartProviderTuning. eapply triple_bind with (R := fun s w => hs_Journal s = found /\ w = w0).
  { apply triple_wrap. eapply triple_conseq; [apply (Snapshot_spec c w0)|done|done|by left|by left]. }
  intros s. apply triple_pure. intros Hs. rewrite Hs.
  eapply triple_bind with (R := fun ops w => ops = plan_operations c /\ w = w0).
  { apply triple_of_result. intros w ->. unfold PlanProviderTuning.
    destruct (Validate c); [|by left]. simpl. destruct (ValidatePower _ _ _); [done|by left]. }
  intros ops. apply triple_pure. intros ->.
  eapply triple_bind with (R := fun r w => match r with
    | Ok _ => validate found = Ok tt /\ w = Tuning.set_journal (Some (Written found)) w0 | Err _ => w = w0 end).
  { apply triple_try. eapply triple_conseq; [by apply (Save_spec found)|done|done|done|by left]. }
  intros [u|e]; [|destruct e; apply triple_fail; by left]. apply triple_pure. intros Hv.
  destruct (plan_stages c) as (Hr & Hd & Hk).
  pose proof (triple_and _ _ _ _ _ _ _ _ _ (apply_all_spec w0 found found (plan_operations c) [] Hv Hr Hd Hk)
    (apply_all_applied found (plan_operations c) (plan_spares found c))) as Hall. cbn [app] in Hall.
  eapply triple_conseq; [exact Hall|..].
  - intros w ->. split; [|done]. split; [|split_and!; by right].
    cbn. unfold found, capture. by destruct (match List.find _ _ with Some _ => _ | None => _ end).
  - intros a w [[Hj _] Ha]. split; [|done]. by rewrite take_ge in Hj by (by rewrite length_map).
  - intros e w [[k [[[Hw Ht] H]|Hw]] _]; [right; left|right; right]; by exists k.
  - intros w [[k Hw] _]. right. by exists k.
Qed.

(** A second session does not disturb the first: while a journal exists,
    starting another session fails, whatever the effects do, and changes
    nothing. *)
Theorem tuning_exclusive c allowBattery fates w0 file :
  mc_journal w0 = Some file ->
  match StartProviderTuning environ pid onAC text c allowBattery fates w0 with
  | (_, w, Done _) => False
  | (_, w, _) => w = w0
  end.
Proof.
  intros Hf.
  cut (triple (fun w => w = w0) (StartProviderTuning environ pid onAC text c allowBattery)
    (fun _ w => False) (fun _ w => w = w0) (fun w => w = w0)); [intros Ht; exact (Ht fates w0 eq_refl)|].
  unfold StartProviderTuning. eapply triple_bind with (R := fun s w => w = w0).
  { apply triple_wrap. eapply triple_conseq; [apply (Snapshot_spec c w0)|done|by intros a w [_ Hw]|done|done]. }
  intros s. eapply triple_bind with (R := fun _ w => w = w0); [by apply triple_of_result; destruct (PlanProviderTuning _ _ _)|].
  intros ops. eapply triple_bind with (R := fun r w => (exists e, r = Err e) /\ w = w0).
  - apply triple_try. unfold Save.
    assert (forall e, triple (fun w => w = w0) (fail (A := unit) e)
      (fun a w => (exists e, Ok a = Err e) /\ w = w0) (fun e w => (exists e', Err (A := unit) e = Err e') /\ w = w0)
      (fun w => w = w0)) as Hfail by (intros e; apply triple_fail; by eauto).
    eapply triple_bind with (R := fun _ w => w = w0).
    { apply triple_of_result. intros w ->. destruct (validate _); by eauto. }
    intros _. eapply triple_bind with (R := fun _ w => w = w0).
    { apply triple_wrap, triple_effect; by eauto. }
    intros _. eapply triple_bind with (R := fun b w => b = true /\ w = w0).
    { apply triple_wrap, triple_effect; [|by eauto|done]. intros w ->. by rewrite Hf. }
    intros b. apply triple_pure. intros ->. apply Hfail.
  - intros r. apply triple_pure. intros [e ->]. destruct e; by apply triple_fail.
Qed.

(** ** Restoration *)
(** A restoration either succeeds - then the journal is gone, and the power
    scheme, the keep-awake request and Ollama are what the journal recorded for
    each stage it names - or keeps the journal as it was for another attempt.
    Without a journal it does nothing. *)
Theorem restoration_complete_or_kept fates w :
  match mc_journal w with
  | Some (Written j) =>
      validate j = Ok tt ->
      match RestoreProviderTuning environ fates w with
      | (_, w', Done _) => mc_journal w' = None /\ settled j (rj_AppliedStages j) false false false w'
      | (_, w', _) => mc_journal w' = Some (Written j)
      end
  | _ => snd (fst (RestoreProviderTuning environ fates w)) = w
  end.
Proof.
  destruct (mc_journal w) as [[j|]|] eqn:Ej.
  - intros Hv. assert (touched w (rj_AppliedStages j) w) as Ht by (split_and!; by right).
    pose proof (recovery_spec w (rj_AppliedStages j) j Hv (reflexivity _) fates w (conj Ej Ht)) as Hr.
    fold (RestoreProviderTuning environ) in Hr.
    destruct (RestoreProviderTuning environ fates w) as [[f' w'] [u|e|]]; [|apply Hr..]. by destruct Hr as [[? _] ?].
  - unfold RestoreProviderTuning, CompleteRecovery, Load, read_file, mbind, eff_bind, try, wrap, effect.
    destruct fates as [|[|e|] fates]; rewrite ?Ej; done.
  - unfold RestoreProviderTuning, CompleteRecovery, Load, read_file, mbind, eff_bind, try, wrap, effect.
    destruct fates as [|[|e|] fates]; rewrite ?Ej; done.
Qed.
End Runner.

(** ** Changes that are not undone *)
Section Lost.
Context (environ : list string) (pid : Z) (text : error -> string).
Context (scheme : string) (awake : bool) (p : Process).
Context (Hpid : 0 < pid) (Hscheme : is_blank scheme = false) (Hexe : ps_Executable p <> "").

Definition at_start : Machine := mkMachine None scheme awake [p].
Definition start (fates : list Fate) := StartProviderTuning environ pid (Some true) text DefaultConfig false fates at_start.
Definition world {A} (r : list Fate * Machine * Outcome A) : Machine := snd (fst r).

Lemma captured : capture environ pid scheme [p]
  = mkJournal "provider" pid scheme (mkOllamaSettings (ps_Executable p) (ps_Priority p) (originalOllamaEnvironment environ)) [].
Proof. unfold capture. simpl. by rewrite (proj2 (String.eqb_neq _ _) Hexe). Qed.

Lemma validate_captured stages : validate (mkJournal "provider" pid scheme
  (mkOllamaSettings (ps_Executable p) (ps_Priority p) (originalOllamaEnvironment environ)) stages) = Ok tt.
Proof. unfold validate. simpl. replace (pid <=? 0) with false by lia. by rewrite Hscheme. Qed.

Definition seven : list Fate := replicate 7 Proceed.

Lemma trimmed : TrimSpace "power-plan" = "power-plan" /\ TrimSpace "keep-awake" = "keep-awake"
  /\ TrimSpace "ollama-environment" = "ollama-environment" /\ TrimSpace "process-priority" = "process-priority".
Proof. vm_compute. done. Qed.

(** Runs a program on concrete fates. *)
Ltac execute :=
  repeat first
    [ rewrite captured
    | rewrite validate_captured
    | rewrite (proj1 trimmed) | rewrite (proj1 (proj2 trimmed)) | rewrite (proj1 (proj2 (proj2 trimmed)))
    | rewrite (proj2 (String.eqb_neq _ _) Hexe)
    | progress (unfold StartProviderTuning, Snapshot, Save, apply_all, applyJournaledOperation, CompleteStage, Load, read_file,
        replaceExisting, with_stages, RestoreProviderTuning, CompleteRecovery, Restore, writeTemporary, elsewhere, exists_journal,
        link, rename, remove_journal, set_active, startKeepAwake, restartOllama, list_processes, Apply, wrap, try, fail,
        mbind, eff_bind, mret, eff_ret, effect, sure, of_result; simpl) ].

(** Eight effects: two queries, the four that save the journal, the change of
    the power scheme, and then the machine stops. *)
Lemma crash_after_power : start (replicate 7 Proceed ++ [Halt])
  = ([], mkMachine (Some (Written (capture environ pid scheme [p]))) "SCHEME_MIN" awake [p], Halted).
Proof. unfold start, at_start. execute. reflexivity. Qed.

(** A change is recorded after it happened, and only recorded changes are
    restored: when the machine stops between setting the power scheme and
    recording the stage, a restoration in which nothing fails reports success,
    removes the journal - and leaves the user's power scheme replaced. *)
Theorem unrecorded_change_lost :
  exists w, start (replicate 7 Proceed ++ [Halt]) = ([], w, Halted)
  /\ RestoreProviderTuning environ [] (crash w) = ([], mkMachine None "SCHEME_MIN" false [p], Done tt).
Proof. eexists. split; [exact crash_after_power|]. unfold crash. simpl. execute. reflexivity. Qed.

(** A restart of Ollama that fails after the kill is not undone either: the
    session reports the failure, rolls back, removes the journal, and the
    user's Ollama is gone. *)
Lemma failed_restart_not_undone e :
  exists err, start (replicate 16 Proceed ++ [Fault e]) = ([], mkMachine None scheme false [], Failed err).
Proof. eexists. unfold start, at_start. execute. reflexivity. Qed.

(** A session in which nothing fails restores the host: its start applies
    and records the four stages, and stopping it puts back the power scheme,
    drops the keep-awake request, restarts Ollama with the recorded priority
    and without the tuning variables, and removes the journal. *)
Theorem session_restored : valid_priority (ps_Priority p) = true ->
  exists tuned, start [] = ([], tuned, Done tt)
  /\ mc_scheme tuned = "SCHEME_MIN" /\ mc_awake tuned = true
  /\ mc_ollama tuned = [mkProcess (ps_Executable p)
                          (mergeEnvironment environ (environmentValues (tuning_environment DefaultConfig))) "High"]
  /\ stop_session environ None [] tuned
     = ([], mkMachine None scheme false
              [mkProcess (ps_Executable p) (mergeEnvironment environ (originalOllamaEnvironment environ)) (ps_Priority p)],
        Done (Ok tt)).
Proof.
  intros Hp. assert (ps_Priority p <> "") as Hne by (intros He; by rewrite He in Hp).
  eexists. split_and!.
  - unfold start, at_start. execute. reflexivity.
  - reflexivity.
  - reflexivity.
  - reflexivity.
  - unfold stop_session. execute. rewrite (proj2 (String.eqb_neq _ _) Hne), Hp. execute. reflexivity.
Qed.
End Lost.

(** ** A sample machine *)
Module Sample.
Definition environ : list string := ["PATH=C:\Windows"; "OLLAMA_NUM_PARALLEL=4"].
Definition ollama : Process := mkProcess "C:\ollama.exe" environ "AboveNormal".
Definition scheme : string := "381b4222-f694-41f0-9685-ff5bb260df2e".
Definition text (e : error) : string := "failed".
End Sample.

Lemma tuning_journaled_witness :
  let w := world (start Sample.environ 7 Sample.text Sample.scheme false Sample.ollama []) in
  let found := capture Sample.environ 7 Sample.scheme [Sample.ollama] in
  mc_journal w = Some (Written (with_stages ["power-plan"; "keep-awake"; "ollama-environment"; "process-priority"] found))
  /\ Forall (fun o => applied Sample.environ found o w) (plan_operations DefaultConfig).
Proof.
  pose proof (tuning_journaled Sample.environ 7 (Some true) Sample.text DefaultConfig false []
    (at_start Sample.scheme false Sample.ollama) eq_refl) as Ht.
  unfold start. destruct (StartProviderTuning _ _ _ _ _ _ _ _) as [[f w] [u|e|]] eqn:E; [exact Ht|by vm_compute in E..].
Defined.

Definition busy : Machine := mkMachine (Some Corrupt) "scheme" false [].
Lemma tuning_exclusive_witness :
  world (StartProviderTuning Sample.environ 7 (Some true) Sample.text DefaultConfig false [] busy) = busy.
Proof.
  pose proof (tuning_exclusive Sample.environ 7 (Some true) Sample.text DefaultConfig false [] busy Corrupt eq_refl) as Ht.
  destruct (StartProviderTuning _ _ _ _ _ _ _ _) as [[f w] [u|e|]]; [destruct Ht|exact Ht..].
Defined.

Lemma unrecorded_change_lost_witness :
  exists w, start Sample.environ 7 Sample.text Sample.scheme true Sample.ollama (replicate 7 Proceed ++ [Halt]) = ([], w, Halted)
  /\ RestoreProviderTuning Sample.environ [] (crash w) = ([], mkMachine None "SCHEME_MIN" false [Sample.ollama], Done tt).
Proof. apply unrecorded_change_lost; [reflexivity|vm_compute; reflexivity|discriminate]. Defined.

Lemma session_restored_witness :
  exists tuned, start Sample.environ 7 Sample.text Sample.scheme true Sample.ollama [] = ([], tuned, Done tt)
  /\ stop_session Sample.environ None [] tuned = ([], mkMachine None Sample.scheme false [Sample.ollama], Done (Ok tt)).
Proof.
  destruct (session_restored Sample.environ 7 Sample.text Sample.scheme true Sample.ollama) as (tuned & H1 & _ & _ & _ & H2);
    [reflexivity|vm_compute; reflexivity|discriminate|reflexivity|].
  exists tuned. split; [exact H1|exact H2].
Defined.
