(* ===== verification/Http.v ===== *)
(** * HTTP requests, responses and routes

    What the handlers of the broker use of [net/http]: the parts of a request
    they read, the response they write, and the patterns of [ServeMux].  A path
    is the list of its segments after the first slash, unescaped, so that
    "/auth/api-keys/k" is [["auth"; "api-keys"; "k"]]; the body of a request is
    its first JSON value, when there is one within the size limit. *)

From S2P Require Import Prelude GoStrings Wire.
Open Scope string_scope.
Open Scope list_scope.
Open Scope Z_scope.

Record Request := mkRequest {
  ht_Method : string; ht_Path : list string; ht_Origin : string; ht_Authorization : string;
  ht_ContentType : string; ht_Cookie : option string; ht_Body : option json;
}.

(** [ErrorText e] is the text of [e.Error()]. *)
Inductive Body := NoBody | Text (text : string) | ErrorText (e : error) | Json (value : json).

(** The cookie is the session cookie the response sets: a value with its
    expiry, or its removal. *)
Inductive SetCookie := KeepCookie | ClearCookie | NewCookie (value : string) (expires : Z).

Record Response := mkResponse {
  hp_Status : Z; hp_Cookie : SetCookie; hp_Body : Body; hp_Headers : list (string * string);
}.

(** [http.Error], [http.NotFound], [w.WriteHeader] and a JSON body. *)
Definition http_error (status : Z) (text : string) : Response := mkResponse status KeepCookie (Text text) [].
Definition not_found : Response := http_error 404 "404 page not found".
Definition write_header (status : Z) : Response := mkResponse status KeepCookie NoBody [].
Definition respond_json (status : Z) (value : json) : Response := mkResponse status KeepCookie (Json value) [].
Definition with_cookie (c : SetCookie) (r : Response) : Response :=
  mkResponse (hp_Status r) c (hp_Body r) (hp_Headers r).
Definition with_headers (headers : list (string * string)) (r : Response) : Response :=
  mkResponse (hp_Status r) (hp_Cookie r) (hp_Body r) (headers ++ hp_Headers r).

(** ** ServeMux

    A pattern has a method (or none), literal segments, wildcards that match one
    non-empty segment, and possibly a trailing slash that matches the rest. *)
Inductive segment := Lit (s : string) | Wild.
Record pattern := mkPattern { pt_Method : string; pt_Segments : list segment; pt_Rest : bool }.

Definition method_matches (wanted method : string) : bool :=
  String.eqb wanted "" || String.eqb wanted method
  || String.eqb wanted "GET" && String.eqb method "HEAD".

Fixpoint path_matches (segments : list segment) (rest : bool) (path : list string) : bool :=
  match segments, path with
  | [], [] => negb rest
  | [], _ :: _ => rest
  | Lit s :: segments, p :: path => String.eqb s p && path_matches segments rest path
  | Wild :: segments, p :: path => negb (String.eqb p "") && path_matches segments rest path
  | _ :: _, [] => false
  end.

(** The handler of the first pattern in the list that matches: the tables below
    list a more specific pattern before a more general one, which is how
    [ServeMux] resolves them.  A path that only other methods have is 405. *)
Fixpoint find_route {A} (routes : list (pattern * A)) (method : string) (path : list string) : option A :=
  match routes with
  | [] => None
  | (p, handler) :: rest =>
      if method_matches (pt_Method p) method && path_matches (pt_Segments p) (pt_Rest p) path
      then Some handler else find_route rest method path
  end.
Definition path_known {A} (routes : list (pattern * A)) (path : list string) : bool :=
  existsb (fun r => path_matches (pt_Segments (fst r)) (pt_Rest (fst r)) path) routes.
Definition no_route {A} (routes : list (pattern * A)) (path : list string) : Response :=
  if path_known routes path then http_error 405 "Method Not Allowed" else not_found.

(** [r.PathValue] of the only wildcard of a pattern, its [n]th segment. *)
Definition path_value (n : nat) (path : list string) : string := default "" (path !! n).

Definition route (method : string) (segments : list segment) : pattern := mkPattern method segments false.

Lemma find_route_In {A} (routes : list (pattern * A)) method path a :
  find_route routes method path = Some a ->
  exists p, (p, a) ∈ routes /\ method_matches (pt_Method p) method = true
            /\ path_matches (pt_Segments p) (pt_Rest p) path = true.
Proof.
  induction routes as [|[p b] rest IH]; cbn [find_route]; [done|].
  destruct (_ && _) eqn:E.
  - intros [= <-]. apply andb_true_iff in E as [E1 E2]. exists p. split_and!; [|done|done]. left.
  - intros Hf. destruct (IH Hf) as (q & Hq & H1 & H2). exists q. split_and!; [by right|done|done].
Qed.
