(* ===== verification/AuthHttp.v ===== *)
(** * The HTTP interface of authentication (server/internal/auth/http.go)

    [serve] is the handler returned by [NewHandler]: CORS, the routes of its
    mux, the origin and session checks of [withSession], and one definition per
    handler, each running the operations of Auth.v on the database.  A request
    reads the clock once ([now]); [Entropy] holds the values of the successive
    reads of [crypto/rand] in the handler. *)

From S2P Require Import Prelude GoStrings GoTime Wire Receipt Messages Db Hex Auth Sample Http.
Open Scope string_scope.
Open Scope list_scope.
Open Scope Z_scope.

Record HTTPConfig := mkHTTPConfig {
  hc_Domain : string; hc_VerificationURL : string; hc_ContractAddress : string;
  hc_AllowedOrigins : list string; hc_ChainID : Z; hc_SessionLifetime : Z; hc_SecureCookies : bool;
}.
Record Entropy := mkEntropy { en_first : bytes; en_second : bytes; en_third : bytes }.

(** ** Encoded views *)
Definition jtime (t : Z) : json := JStr (RFC3339Nano t).
Definition strings_json (l : list string) : json := JArr (map jstr l).
Definition SessionView (s : BrowserSession) : json :=
  JObj (member "account_id" (jstr (br_AccountID s)) ++ member "wallet_address" (jstr (br_WalletAddress s))
        ++ member "expires_at" (jtime (br_ExpiresAt s))).
Definition challenge_json (c : WalletChallenge) : json :=
  JObj (member "id" (jstr (wl_ID c)) ++ member "address" (jstr (wl_Address c)) ++ member "nonce" (jstr (wl_Nonce c))
        ++ member "message" (jstr (wl_Message c)) ++ member "chain_id" (num (wl_ChainID c))
        ++ member "issued_at" (jtime (wl_IssuedAt c)) ++ member "expires_at" (jtime (wl_ExpiresAt c))).
Definition DeviceHTTPAuthorization (config : HTTPConfig) (a : DeviceAuthorization) : json :=
  JObj (member "device_code" (jstr (da_DeviceCode a)) ++ member "user_code" (jstr (da_UserCode a))
        ++ member "verification_uri" (jstr (hc_VerificationURL config)) ++ member "expires_at" (jtime (da_ExpiresAt a))
        ++ member "signer_address" (jstr (da_SignerAddress a)) ++ member "chain_id" (num (hc_ChainID config))
        ++ member "contract_address" (jstr (hc_ContractAddress config))).
Definition machine_json (m : AuthMachine) : json :=
  JObj (member "id" (jstr (am_ID m)) ++ member "account_id" (jstr (am_AccountID m))
        ++ member "name" (jstr (am_Name m)) ++ member "signer_address" (jstr (am_SignerAddress m))).
Definition DeviceToken (m : AuthMachine) (token : string) : json :=
  JObj (member "machine" (machine_json m) ++ member "token" (jstr token)).
Definition pending_json (p : PendingDevice) : json :=
  JObj (member "machine_name" (jstr (pd_MachineName p)) ++ member "signer_address" (jstr (pd_SignerAddress p))
        ++ member "expires_at" (jtime (pd_ExpiresAt p))).
Definition scope_json (s : KeyScope) : json :=
  JObj (member "models" (strings_json (ks_Models s)) ++ member "endpoints" (strings_json (ks_Endpoints s))
        ++ member "max_spend_wei" (jstr (FormatUint (ks_MaxSpendWei s)))).
(** [time.Time{}]; [omitempty] has no effect on a struct. *)
Definition zero_time : Z := - 62135596800 * Second.
Definition APIKeyView (id token : string) (scope : KeyScope) (created : Z) : json :=
  JObj (member "id" (jstr id) ++ omit_if (String.eqb token "") "token" (jstr token)
        ++ member "scope" (scope_json scope) ++ member "created_at" (jtime created)).
Definition ticket_json (ticket : string) (expires : Z) : json :=
  JObj (member "ticket" (jstr ticket) ++ member "expires_at" (jtime expires)).

(** ** Decoded inputs *)
Definition one_field (name : string) : list (string * setter string) := [(name, set_with as_string (fun v _ => v))].
Definition two_fields (first second : string) : list (string * setter (string * string)) :=
  [ (first, set_with as_string (fun v p => (v, snd p))); (second, set_with as_string (fun v p => (fst p, v))) ].
(** [json:",string"]: the number is the text of a string, and the text "null" leaves the field alone. *)
Definition set_quoted_uint {T} (store : Z -> T -> T) : setter T := fun v t =>
  match v with
  | JNull => Some t
  | JStr s => if String.eqb s "null" then Some t else option_map (fun n => store n t) (ParseUint s)
  | _ => None
  end.
Definition scope_fields : list (string * setter KeyScope) :=
  [ ("models", set_with as_string_slice (fun v s => mkKeyScope v (ks_Endpoints s) (ks_MaxSpendWei s)));
    ("endpoints", set_with as_string_slice (fun v s => mkKeyScope (ks_Models s) v (ks_MaxSpendWei s)));
    ("max_spend_wei", set_quoted_uint (fun v s => mkKeyScope (ks_Models s) (ks_Endpoints s) v)) ].

Definition decodeJSON {T} (r : Request) (fields : list (string * setter T)) (zero : T) : Response + T :=
  if negb (HasPrefix (ht_ContentType r) "application/json") then inl (http_error 415 "application/json required")
  else match ht_Body r ≫= fun v => decode_struct fields v zero with
       | Some target => inr target
       | None => inl (http_error 400 "invalid JSON")
       end.

(** ** Responses *)
(** [errors.Is] with a sentinel error *)
Fixpoint errors_Is (e target : error) : bool :=
  bool_decide (e = target) || match e with ErrWrap _ cause => errors_Is cause target | _ => false end.
Definition error_status (e : error) : Z :=
  if errors_Is e ErrAuthorizationPending then 425
  else if errors_Is e ErrAuthorizationExpired then 410
  else if errors_Is e ErrAuthorizationConsumed then 409
  else if errors_Is e ErrInvalidCredential then 401
  else if errors_Is e ErrOriginDenied then 403
  else 400.
Definition write_error (e : error) : Response := mkResponse (error_status e) KeepCookie (ErrorText e) [].
Definition write (value : result json) (success : Z) : Response :=
  match value with
  | Ok v => if success =? 204 then write_header 204 else respond_json success v
  | Err e => write_error e
  end.

Definition SessionLifetime (config : HTTPConfig) : Z :=
  if hc_SessionLifetime config <=? 0 then 12 * Hour else hc_SessionLifetime config.
Definition ChainID (config : HTTPConfig) : Z := if hc_ChainID config =? 0 then 10143 else hc_ChainID config.
(** The defaults of [NewHandler]. *)
Definition with_defaults (config : HTTPConfig) : HTTPConfig :=
  mkHTTPConfig (hc_Domain config) (hc_VerificationURL config) (hc_ContractAddress config)
    (hc_AllowedOrigins config) (ChainID config) (SessionLifetime config) (hc_SecureCookies config).

Definition browserOrigin (config : HTTPConfig) (r : Request) : Response + string :=
  if contains (hc_AllowedOrigins config) (ht_Origin r) then inr (ht_Origin r)
  else inl (http_error 403 "origin denied").

Definition authenticate (now : Z) (r : Request) (d : Db) : Response + BrowserSession :=
  match ht_Cookie r with
  | None => inl (http_error 401 "authentication required")
  | Some cookie =>
      match AuthenticateBrowserSession now cookie d with
      | Ok session => inr session
      | Err _ => inl (http_error 401 "authentication required")
      end
  end.

Definition AuthenticateBrowserRequest (now : Z) (r : Request) (d : Db) : result BrowserSession :=
  match ht_Cookie r with
  | None => Err ErrInvalidCredential
  | Some cookie => AuthenticateBrowserSession now cookie d
  end.

Section Handlers.
Context `{Ethereum} (TextHash : bytes -> bytes) (SigToAddress : bytes -> bytes -> option Address).
Context (config : HTTPConfig).
Implicit Types (now : Z) (en : Entropy) (r : Request) (d : Db) (session : BrowserSession).

(** A transaction's outcome: the new database and the answer, or its error. *)
Definition answer {A} (d : Db) (result : result (A * Db)) (value : A -> json) (success : Z) : Db * Response :=
  match result with
  | Ok (a, d') => (d', write (Ok (value a)) success)
  | Err e => (d, write (Err e) success)
  end.
Definition decoded {T} r (fields : list (string * setter T)) (zero : T) d (k : T -> Db * Response) : Db * Response :=
  match decodeJSON r fields zero with
  | inl response => (d, response)
  | inr target => k target
  end.

Definition streamTicket now en r session d : Db * Response :=
  answer d (CreateStreamTicket now (en_first en) (en_second en) (br_AccountID session) Minute d)
    (fun p => ticket_json (fst p) (snd p)) 201.

Definition walletChallenge now en r d : Db * Response :=
  match browserOrigin config r with
  | inl response => (d, response)
  | inr origin =>
      decoded r (one_field "address") "" d (fun address =>
        answer d (CreateWalletChallenge now (en_first en) (en_second en) (hc_Domain config) origin address
                    (hc_ChainID config) (5 * Minute) d) challenge_json 201)
  end.

Definition walletVerify now en r d : Db * Response :=
  match browserOrigin config r with
  | inl response => (d, response)
  | inr origin =>
      decoded r (two_fields "challenge_id" "signature") ("", "") d (fun input =>
        match VerifyWalletChallenge TextHash SigToAddress now (en_first en) (en_second en) (en_third en)
                (fst input) origin (snd input) (hc_SessionLifetime config) d with
        | Err e => (d, write_error e)
        | Ok (session, d') =>
            (d', with_cookie (NewCookie (br_Token session) (br_ExpiresAt session))
                   (respond_json 200 (SessionView session)))
        end)
  end.

Definition session_get now r d : Db * Response :=
  match ht_Cookie r with
  | None => (d, write_header 204)
  | Some cookie =>
      match AuthenticateBrowserSession now cookie d with
      | Err _ => (d, with_cookie ClearCookie (write_header 204))
      | Ok session => (d, respond_json 200 (SessionView session))
      end
  end.

Definition sessionDelete now en r session d : Db * Response :=
  match RevokeBrowserSession now (br_ID session) d with
  | Err e => (d, write_error e)
  | Ok d' => (d', with_cookie ClearCookie (write_header 204))
  end.

Definition deviceCreate now en r d : Db * Response :=
  decoded r (two_fields "machine_name" "signer_address") ("", "") d (fun input =>
    answer d (CreateDeviceAuthorization now (en_first en) (en_second en) (fst input) (snd input) (10 * Minute) d)
      (DeviceHTTPAuthorization config) 201).

Definition deviceToken now en r d : Db * Response :=
  decoded r (one_field "device_code") "" d (fun code =>
    answer d (ExchangeDeviceAuthorization now (en_first en) (en_second en) code d)
      (fun p => DeviceToken (fst p) (snd p)) 200).

Definition deviceInspect now en r session d : Db * Response :=
  decoded r (one_field "user_code") "" d (fun code =>
    (d, write (pending_json <$> PendingDeviceOf now code d) 200)).

Definition deviceApprove now en r session d : Db * Response :=
  decoded r (one_field "user_code") "" d (fun code =>
    answer d ((fun d' => (tt, d')) <$> ApproveDeviceAuthorization now code (br_AccountID session) d)
      (fun _ => JObj []) 204).

Definition apiKeysList now en r session d : Db * Response :=
  (d, write (Ok (JArr (map (fun k => APIKeyView (ak_id k) "" (ak_scope k) (ak_created_at k))
                         (ListAPIKeys (br_AccountID session) d)))) 200).

Definition apiKeysCreate now en r session d : Db * Response :=
  decoded r scope_fields (mkKeyScope [] [] 0) d (fun scope =>
    answer d (CreateAPIKey now (en_first en) (en_second en) (br_AccountID session) scope d)
      (fun p => APIKeyView (fst p) (snd p) scope zero_time) 201).

Definition apiKeysDelete now en r session d : Db * Response :=
  let id := path_value 2 (ht_Path r) in
  if String.eqb id "" then (d, http_error 400 "missing API key")
  else answer d ((fun d' => (tt, d')) <$> Auth.apiKeysDelete now id (br_AccountID session) d)
         (fun _ => JObj []) 204.

Definition withSession (next : Z -> Entropy -> Request -> BrowserSession -> Db -> Db * Response)
    now en r d : Db * Response :=
  match browserOrigin config r with
  | inl response => (d, response)
  | inr _ =>
      match authenticate now r d with
      | inl response => (d, response)
      | inr session => next now en r session d
      end
  end.

(** ** The routes *)
Inductive endpoint :=
| WalletChallengeE | WalletVerifyE | SessionE | SessionDeleteE | DeviceCreateE | DeviceTokenE
| DeviceInspectE | DeviceApproveE | APIKeysListE | APIKeysCreateE | APIKeysDeleteE | StreamTicketE.

Definition NewHandler : list (pattern * endpoint) :=
  let at_ method segments := route method (map Lit ("auth" :: segments)) in
  [ (at_ "POST" ["wallet"; "challenge"], WalletChallengeE);
    (at_ "POST" ["wallet"; "verify"], WalletVerifyE);
    (at_ "GET" ["session"], SessionE);
    (at_ "DELETE" ["session"], SessionDeleteE);
    (at_ "POST" ["device"], DeviceCreateE);
    (at_ "POST" ["device"; "token"], DeviceTokenE);
    (at_ "POST" ["device"; "inspect"], DeviceInspectE);
    (at_ "POST" ["device"; "approve"], DeviceApproveE);
    (at_ "GET" ["api-keys"], APIKeysListE);
    (at_ "POST" ["api-keys"], APIKeysCreateE);
    (route "DELETE" [Lit "auth"; Lit "api-keys"; Wild], APIKeysDeleteE);
    (at_ "POST" ["stream-ticket"], StreamTicketE) ].

Definition run_endpoint (e : endpoint) now en r d : Db * Response :=
  match e with
  | WalletChallengeE => walletChallenge now en r d
  | WalletVerifyE => walletVerify now en r d
  | SessionE => session_get now r d
  | SessionDeleteE => withSession sessionDelete now en r d
  | DeviceCreateE => deviceCreate now en r d
  | DeviceTokenE => deviceToken now en r d
  | DeviceInspectE => withSession deviceInspect now en r d
  | DeviceApproveE => withSession deviceApprove now en r d
  | APIKeysListE => withSession apiKeysList now en r d
  | APIKeysCreateE => withSession apiKeysCreate now en r d
  | APIKeysDeleteE => withSession apiKeysDelete now en r d
  | StreamTicketE => withSession streamTicket now en r d
  end.

Definition cors (next : Request -> Db -> Db * Response) r d : Db * Response :=
  let headers := if contains (hc_AllowedOrigins config) (ht_Origin r)
                 then [("Access-Control-Allow-Origin", ht_Origin r);
                       ("Access-Control-Allow-Credentials", "true"); ("Vary", "Origin")] else [] in
  if String.eqb (ht_Method r) "OPTIONS"
  then (d, with_headers (headers ++ [("Access-Control-Allow-Headers", "Content-Type");
                                     ("Access-Control-Allow-Methods", "GET, POST, DELETE, OPTIONS")])
             (write_header 204))
  else let '(d', response) := next r d in (d', with_headers headers response).

Definition serve now en : Request -> Db -> Db * Response :=
  cors (fun r d =>
    match find_route NewHandler (ht_Method r) (ht_Path r) with
    | Some e => run_endpoint e now en r d
    | None => (d, no_route NewHandler (ht_Path r))
    end).
End Handlers.

(** ** Authority *)
(** The account in whose name a request acts: the origin is allowed and the
    cookie opens a live session. *)
Definition acts_for (config : HTTPConfig) (now : Z) (r : Request) (d : Db) (account : string) : Prop :=
  contains (hc_AllowedOrigins config) (ht_Origin r) = true
  /\ exists session, authenticate now r d = inr session /\ br_AccountID session = account.

Definition keys_of (account : string) (d : Db) : list ApiKeyRow :=
  select (fun k => String.eqb (ak_account k) account) (api_keys d).
Definition tickets_of (account : string) (d : Db) : list StreamTicketRow :=
  select (fun t => String.eqb (st_account t) account) (stream_tickets d).

(** What belongs to an account did not change: its API keys and stream tickets,
    its sessions go on, and no device was approved in its name. *)
Record untouched (account : string) (d d' : Db) : Prop := mkUntouched {
  ut_keys : keys_of account d' = keys_of account d;
  ut_tickets : tickets_of account d' = tickets_of account d;
  ut_sessions : forall s, s ∈ browser_sessions d -> bs_account s = account -> s ∈ browser_sessions d';
  ut_devices : forall v, v ∈ devices d' -> dv_account v = Some account ->
    exists v0, v0 ∈ devices d /\ dv_code_hash v0 = dv_code_hash v /\ dv_account v0 = Some account;
}.

Lemma untouched_refl account d : untouched account d d.
Proof. split; eauto. Qed.
#[export] Hint Resolve untouched_refl : myf.

(** An operation that leaves all four tables alone. *)
Lemma untouched_same account d d' :
  api_keys d' = api_keys d -> stream_tickets d' = stream_tickets d -> browser_sessions d' = browser_sessions d ->
  devices d' = devices d -> untouched account d d'.
Proof.
  intros E1 E2 E3 E4. unfold keys_of, tickets_of. split; rewrite ?E1, ?E2, ?E3, ?E4; eauto.
  - unfold keys_of. by rewrite E1.
  - unfold tickets_of. by rewrite E2.
Qed.

Lemma select_app {R} (p : R -> bool) t u : select p (t ++ u) = select p t ++ select p u.
Proof. apply List.filter_app. Qed.

(** Updating rows outside of [p]'s selection leaves the selection alone. *)
Lemma select_update_disjoint {R} (p q : R -> bool) (f : R -> R) t :
  (forall row, row ∈ t -> q row = true -> p row = false /\ p (f row) = false) ->
  select p (update q f t) = select p t.
Proof.
  unfold select, update. induction t as [|row t IH]; [done|]. intros Hq. cbn [map List.filter].
  rewrite IH by (intros x Hx; apply Hq; by right).
  destruct (q row) eqn:E; [|done]. destruct (Hq row) as [-> ->]; [left|done|done].
Qed.

Lemma untouched_CreateAPIKey now r1 r2 a scope d x d' account :
  a <> account -> CreateAPIKey now r1 r2 a scope d = Ok (x, d') -> untouched account d d'.
Proof.
  intros Ha E. unfold CreateAPIKey in E. destruct (_ || _) in E; [done|]. skip_ok E. step_ok E as rows E1.
  apply insert_row_Ok in E1 as [-> _]. injection E as _ <-. split; eauto.
  unfold keys_of. cbn [api_keys set_api_keys]. rewrite select_app. cbn. apply String.eqb_neq in Ha. rewrite Ha.
  by rewrite app_nil_r.
Qed.

Lemma untouched_CreateStreamTicket now r1 r2 a l d x d' account :
  a <> account -> CreateStreamTicket now r1 r2 a l d = Ok (x, d') -> untouched account d d'.
Proof.
  intros Ha E. unfold CreateStreamTicket in E. destruct (_ || _) in E; [done|]. skip_ok E. step_ok E as rows E1.
  apply insert_row_Ok in E1 as [-> _]. injection E as _ <-. split; eauto.
  unfold tickets_of. cbn [stream_tickets set_stream_tickets]. rewrite select_app. cbn. apply String.eqb_neq in Ha.
  by rewrite Ha, app_nil_r.
Qed.

Lemma ListAPIKeys_In account d k :
  k ∈ ListAPIKeys account d -> k ∈ api_keys d /\ ak_account k = account.
Proof.
  unfold ListAPIKeys. intros Hk.
  assert (forall key rows, k ∈ order_by key rows -> k ∈ rows) as Hord.
  { intros key rows. unfold order_by. induction rows as [|x rows IH]; cbn; [done|].
    assert (forall l, k ∈ insert_by key x l -> k = x \/ k ∈ l) as Hins.
    { induction l as [|y l IHl]; cbn; [by intros ->%list_elem_of_singleton; left|].
      destruct (key x <=? key y); rewrite !elem_of_cons; [tauto|]. intros [->|Hl]; [auto|].
      destruct (IHl Hl); auto. }
    intros [->|Hl]%Hins; [left|right; by apply IH]. }
  apply Hord, select_spec in Hk as [Hk [Ha _]%andb_true_iff]. by apply String.eqb_eq in Ha.
Qed.

Lemma untouched_apiKeysDelete now id a d d' account :
  NoDup (map ak_id (api_keys d)) -> a <> account -> Auth.apiKeysDelete now id a d = Ok d' -> untouched account d d'.
Proof.
  intros Hn Ha E. unfold Auth.apiKeysDelete in E. destruct (existsb _ _) eqn:X; [|done]. injection E as <-.
  apply existsb_exists in X as (k & Hk%list_elem_of_In & Ek%String.eqb_eq).
  apply ListAPIKeys_In in Hk as [Hk Hka]. split; eauto.
  unfold keys_of, RevokeAPIKey. cbn [api_keys set_api_keys]. apply select_update_disjoint.
  intros row Hrow Er%String.eqb_eq. assert (row = k) as -> by (apply (unique_key ak_id (api_keys d)); congruence).
  change (ak_account (set_ak_revoked_at (Some now) k)) with (ak_account k).
  assert (String.eqb (ak_account k) account = false) as -> by (apply String.eqb_neq; congruence). done.
Qed.

Lemma untouched_RevokeBrowserSession now id d d' a account :
  NoDup (map bs_id (browser_sessions d)) ->
  (exists s, s ∈ browser_sessions d /\ bs_id s = id /\ bs_account s = a) -> a <> account ->
  RevokeBrowserSession now id d = Ok d' -> untouched account d d'.
Proof.
  intros Hn (s & Hs & Hi & Hsa) Ha E. unfold RevokeBrowserSession in E. destruct (negb _) in E; [done|].
  injection E as <-. split; eauto. intros t Ht Hta. cbn [browser_sessions set_browser_sessions].
  apply elem_of_update. exists t. split; [done|]. destruct (_ && _) eqn:P; [|done]. exfalso.
  apply andb_true_iff in P as [P%String.eqb_eq _]. assert (t = s) by (apply (unique_key bs_id (browser_sessions d)); congruence).
  congruence.
Qed.

Lemma untouched_ApproveDeviceAuthorization now code a d d' account :
  a <> account -> ApproveDeviceAuthorization now code a d = Ok d' -> untouched account d d'.
Proof.
  intros Ha E. unfold ApproveDeviceAuthorization in E. skip_ok E. destruct (negb _) in E; [done|]. injection E as <-.
  split; eauto. cbn [devices set_devices]. intros v (v0 & Hv0 & ->)%elem_of_update Hv.
  destruct (approvable now code v0); [|by exists v0]. cbn in Hv. congruence.
Qed.

Lemma untouched_VerifyWalletChallenge `{Ethereum} th sa now r1 r2 r3 id o sg l d x d' account :
  VerifyWalletChallenge th sa now r1 r2 r3 id o sg l d = Ok (x, d') -> untouched account d d'.
Proof.
  intros E.
  split; unfold keys_of, tickets_of.
  - f_equal. by eapply view_VerifyWalletChallenge, E.
  - f_equal. by eapply view_VerifyWalletChallenge, E.
  - intros s Hs _. unfold VerifyWalletChallenge in E. destruct (l <=? 0); [done|]. skip_ok E.
    do 4 (destruct (negb _) in E; [done|]). step_ok E as y E1. destruct y as [aid d1]. step_ok E as rows E2.
    injection E as _ <-. apply insert_row_Ok in E2 as [-> _]. cbn. apply elem_of_app. left.
    unfold wallet_account in E1. destruct (query_row _ _); [by injection E1 as _ <-|].
    skip_ok E1. by injection E1 as _ <-.
  - intros v Hv Ha. exists v. split_and!; try done.
    unfold VerifyWalletChallenge in E. destruct (l <=? 0); [done|]. skip_ok E.
    do 4 (destruct (negb _) in E; [done|]). step_ok E as y E1. destruct y as [aid d1]. skip_ok E.
    injection E as _ <-. cbn in Hv.
    unfold wallet_account in E1. destruct (query_row _ _); [by injection E1 as _ <-|].
    skip_ok E1. by injection E1 as _ <-.
Qed.

Lemma untouched_CreateWalletChallenge `{Ethereum} now r1 r2 dm o a c l d x d' account :
  CreateWalletChallenge now r1 r2 dm o a c l d = Ok (x, d') -> untouched account d d'.
Proof.
  unfold CreateWalletChallenge. intros E. destruct (_ || _) in E; [done|]. do 2 (skip_ok E).
  injection E as _ <-. by apply untouched_same.
Qed.

Lemma untouched_CreateDeviceAuthorization `{Ethereum} now r1 r2 n a l d x d' account :
  CreateDeviceAuthorization now r1 r2 n a l d = Ok (x, d') -> untouched account d d'.
Proof.
  unfold CreateDeviceAuthorization. intros E. destruct (_ || _) in E; [done|]. step_ok E as rows E1.
  apply insert_row_Ok in E1 as [-> _]. injection E as _ <-. split; eauto.
  cbn [devices set_devices]. intros v [Hv|Hv]%elem_of_app Ha; [by exists v|].
  by apply list_elem_of_singleton in Hv as ->.
Qed.

Lemma untouched_ExchangeDeviceAuthorization now r1 r2 c d m t d' account :
  ExchangeDeviceAuthorization now r1 r2 c d = Ok (m, t, d') -> untouched account d d'.
Proof.
  intros E. assert (forall A (view : Db -> A), (forall rows d, view (set_machines rows d) = view d) ->
    (forall rows d, view (set_machine_tokens rows d) = view d) ->
    (forall rows d, view (set_devices rows d) = view d) -> view d' = view d) as V.
  { intros A view V1 V2 V3. by eapply view_ExchangeDeviceAuthorization, E. }
  split; unfold keys_of, tickets_of.
  - f_equal. by apply V.
  - f_equal. by apply V.
  - intros s Hs _. by rewrite (V _ browser_sessions).
  - intros v Hv Ha. unfold ExchangeDeviceAuthorization in E. do 2 (skip_ok E). do 2 (destruct (negb _) in E; [done|]).
    destruct (dv_account _) in E; [|done]. step_ok E as y E1. destruct y as [mid d1]. injection E as _ _ <-.
    cbn in Hv. apply elem_of_update in Hv as (v0 & Hv0 & ->). exists v0.
    assert (devices d1 = devices d) as <-.
    { unfold register_machine in E1. skip_ok E1. destruct (select _ _); skip_ok E1; [skip_ok E1|];
        by injection E1 as _ <-. }
    by destruct (device_with_code c v0).
Qed.

(** An authenticated session is a row of the table. *)
Lemma authenticate_row now r d session :
  authenticate now r d = inr session ->
  exists s, s ∈ browser_sessions d /\ bs_id s = br_ID session /\ bs_account s = br_AccountID session.
Proof.
  unfold authenticate, AuthenticateBrowserSession. intros E.
  destruct (ht_Cookie r) as [cookie|]; [|done]. destruct (splitCredential cookie) as [[id secret]|]; [|done].
  destruct (query_row _ (browser_sessions d)) as [row|] eqn:Q; [|done].
  destruct (query_row _ (accounts d)); [|done]. destruct (negb _) in E; [done|]. injection E as <-.
  apply query_row_Ok in Q as [Q _]. by exists row.
Qed.

Section Authority.
Context `{Ethereum} (TextHash : bytes -> bytes) (SigToAddress : bytes -> bytes -> option Address).
Context (config : HTTPConfig) (d : Db) (account : string).
Context (key_ids : NoDup (map ak_id (api_keys d))) (session_ids : NoDup (map bs_id (browser_sessions d))).

(** An operation whose error leaves the database alone. *)
Lemma untouched_answer {A} (m : result (A * Db)) value success d' response :
  (forall a d1, m = Ok (a, d1) -> untouched account d d1) ->
  answer d m value success = (d', response) -> untouched account d d'.
Proof. unfold answer. intros Hm E. destruct m as [[a d1]|e]; injection E as <- _; eauto with myf. Qed.

Lemma untouched_decoded {T} r (fields : list (string * setter T)) zero k d' response :
  (forall target d1 response, k target = (d1, response) -> untouched account d d1) ->
  decoded r fields zero d k = (d', response) -> untouched account d d'.
Proof. unfold decoded. intros Hk E. destruct (decodeJSON _ _ _); [injection E as <- _|]; eauto with myf. Qed.

Lemma untouched_withSession next now en r d' response :
  ~ acts_for config now r d account ->
  (forall session d1 response, br_AccountID session <> account ->
     (exists s, s ∈ browser_sessions d /\ bs_id s = br_ID session /\ bs_account s = br_AccountID session) ->
     next now en r session d = (d1, response) -> untouched account d d1) ->
  withSession config next now en r d = (d', response) -> untouched account d d'.
Proof.
  intros Hacts Hnext E. unfold withSession in E. unfold acts_for, browserOrigin in *.
  destruct (contains _ _); [|injection E as <- _; eauto with myf].
  destruct (authenticate now r d) as [?|session] eqn:A; [injection E as <- _; eauto with myf|].
  eapply Hnext; [|by apply authenticate_row in A|exact E]. intros Ha. apply Hacts. eauto.
Qed.

Lemma untouched_endpoint e now en r d' response :
  ~ acts_for config now r d account ->
  run_endpoint TextHash SigToAddress config e now en r d = (d', response) -> untouched account d d'.
Proof.
  intros Hacts E. destruct e; cbn [run_endpoint] in E.
  - unfold walletChallenge in E. destruct (browserOrigin config r); [injection E as <- _; eauto with myf|].
    eapply untouched_decoded, E. intros target d1 resp. apply untouched_answer. intros a d2.
    apply untouched_CreateWalletChallenge.
  - unfold walletVerify in E. destruct (browserOrigin config r); [injection E as <- _; eauto with myf|].
    eapply untouched_decoded, E. intros target d1 resp E1.
    cbv beta in E1.
    destruct (VerifyWalletChallenge TextHash SigToAddress _ _ _ _ _ _ _ _ _) as [[x d2]|] eqn:E2;
      injection E1 as <- _; [|eauto with myf].
    by eapply untouched_VerifyWalletChallenge.
  - unfold session_get in E. destruct (ht_Cookie r); [|injection E as <- _; eauto with myf].
    destruct (AuthenticateBrowserSession _ _ _); injection E as <- _; eauto with myf.
  - eapply untouched_withSession, E; [done|]. intros session d1 resp Hne Hrow E1. unfold sessionDelete in E1.
    destruct (RevokeBrowserSession _ _ _) as [d2|] eqn:E2; injection E1 as <- _; [|eauto with myf].
    by eapply untouched_RevokeBrowserSession.
  - eapply untouched_decoded, E. intros target d1 resp. apply untouched_answer. intros a d2.
    apply untouched_CreateDeviceAuthorization.
  - eapply untouched_decoded, E. intros target d1 resp. apply untouched_answer. intros [m t] d2.
    apply untouched_ExchangeDeviceAuthorization.
  - eapply untouched_withSession, E; [done|]. intros session d1 resp _ _. apply untouched_decoded.
    intros target d2 resp2 [= <- _]. eauto with myf.
  - eapply untouched_withSession, E; [done|]. intros session d1 resp Hne _. apply untouched_decoded.
    intros target d2 resp2. apply untouched_answer. intros [] d3.
    destruct (ApproveDeviceAuthorization _ _ _ _) as [d4|] eqn:E1; [|done]. intros [= <-].
    by eapply untouched_ApproveDeviceAuthorization.
  - eapply untouched_withSession, E; [done|]. intros session d1 resp _ _ [= <- _]. eauto with myf.
  - eapply untouched_withSession, E; [done|]. intros session d1 resp Hne _. apply untouched_decoded.
    intros target d2 resp2. apply untouched_answer. intros [id tok] d3. by apply untouched_CreateAPIKey.
  - eapply untouched_withSession, E; [done|]. intros session d1 resp Hne _. unfold apiKeysDelete.
    destruct (String.eqb _ ""); [intros [= <- _]; eauto with myf|]. apply untouched_answer. intros [] d3.
    destruct (Auth.apiKeysDelete _ _ _ _) as [d4|] eqn:E1; [|done]. intros [= <-].
    by eapply untouched_apiKeysDelete.
  - eapply untouched_withSession, E; [done|]. intros session d1 resp Hne _. apply untouched_answer.
    intros [t x] d3. by apply untouched_CreateStreamTicket.
Qed.

(** Only its own session changes what belongs to an account: a request
    whose origin is not allowed, or whose cookie does not open a live session of
    the account, leaves the account's API keys and stream tickets as they were,
    ends none of its sessions and approves no device in its name, whatever its
    route, method and body. *)
Theorem requests_act_for_their_session now en r d' response :
  ~ acts_for config now r d account ->
  serve TextHash SigToAddress config now en r d = (d', response) -> untouched account d d'.
Proof.
  intros Hacts E. unfold serve, cors in E. destruct (String.eqb (ht_Method r) "OPTIONS").
  - injection E as <- _. eauto with myf.
  - destruct (find_route _ _ _) as [e|] eqn:F.
    + destruct (run_endpoint TextHash SigToAddress config _ _ _ _ _) as [d1 resp] eqn:E1. injection E as <- _.
      by eapply untouched_endpoint.
    + injection E as <- _. eauto with myf.
Qed.
End Authority.

(** ** Login and logout *)
Lemma wallet_account_unique random address d id d' :
  NoDup (map ac_id (accounts d)) -> wallet_account random address d = Ok (id, d') ->
  NoDup (map ac_id (accounts d')) /\ browser_sessions d' = browser_sessions d
  /\ exists a, a ∈ accounts d' /\ ac_id a = id /\ lower_eq (ac_wallet a) address = true.
Proof.
  intros Hn E. unfold wallet_account in E. destruct (query_row _ (accounts d)) as [a|] eqn:Q.
  - injection E as <- <-. apply query_row_Ok in Q as [Ha Pa]. split_and!; [done|done|]. by exists a.
  - step_ok E as rows E1. injection E as <- <-. apply insert_row_Ok in E1 as [-> Hf]. split_and!; [|done|].
    + apply NoDup_snoc; [done|]. intros a Ha. specialize (Hf a Ha). apply orb_false_iff in Hf as [Hf _].
      by apply String.eqb_neq in Hf.
    + eexists. split; [apply elem_of_app; right; by apply list_elem_of_singleton|]. split; [done|].
      unfold lower_eq, EqualFold. apply String.eqb_refl.
Qed.

Lemma select_none {R} (p : R -> bool) t : (forall row, row ∈ t -> p row = false) -> select p t = [].
Proof.
  intros Hp. destruct (select p t) as [|row rest] eqn:E; [done|]. exfalso.
  assert (row ∈ select p t) as [Hrow P]%select_spec by (rewrite E; left). by rewrite Hp in P.
Qed.

Lemma update_none {R} (p : R -> bool) f t : (forall row, row ∈ t -> p row = false) -> update p f t = t.
Proof.
  intros Hp. unfold update. rewrite <- (map_id t) at 2. apply map_ext_in. intros row Hrow%list_elem_of_In.
  by rewrite Hp.
Qed.

(** The row appended last, when the condition excludes the earlier ones. *)
Lemma query_row_last {R} (p : R -> bool) t row :
  (forall old, old ∈ t -> p old = false) -> query_row p (t ++ [row]) = if p row then Ok row else Err ErrNoRows.
Proof.
  intros Hp. unfold query_row. rewrite select_app, select_none by done. unfold select. simpl. by destruct (p row).
Qed.

Lemma update_last {R} (p : R -> bool) f t row :
  (forall old, old ∈ t -> p old = false) -> update p f (t ++ [row]) = t ++ [if p row then f row else row].
Proof. intros Hp. unfold update. rewrite map_app. f_equal. by apply update_none. Qed.

Section Login.
Context `{Ethereum} (TextHash : bytes -> bytes) (SigToAddress : bytes -> bytes -> option Address).
Context (config : HTTPConfig).

(** The session a login stores is the one its token opens. *)
Lemma login_authenticates now r1 r2 r3 id origin signature lifetime d session d' :
  NoDup (map ac_id (accounts d)) -> byte_list r2 -> byte_list r3 -> r3 <> [] ->
  VerifyWalletChallenge TextHash SigToAddress now r1 r2 r3 id origin signature lifetime d = Ok (session, d') ->
  (exists wallet, forall now', AuthenticateBrowserSession now' (br_Token session) d'
     = if now' <? br_ExpiresAt session
       then Ok (mkBrowserSession (br_ID session) "" (br_AccountID session) wallet (br_ExpiresAt session))
       else Err ErrInvalidCredential)
  /\ (forall now', exists d'', RevokeBrowserSession now' (br_ID session) d' = Ok d''
      /\ forall later, AuthenticateBrowserSession later (br_Token session) d'' = Err ErrInvalidCredential).
Proof.
  intros Hn H2 H3 Hne E. unfold VerifyWalletChallenge in E. destruct (lifetime <=? 0); [done|]. skip_ok E.
  do 4 (destruct (negb _) in E; [done|]). step_ok E as y E1. destruct y as [account d1].
  step_ok E as rows E2. injection E as <- <-. cbn [br_ExpiresAt br_Token br_ID br_AccountID].
  apply wallet_account_unique in E1 as (Hn1 & Es & acc & Hacc & Eid & _); [|done].
  apply insert_row_Ok in E2 as [-> Hf].
  set (sid := randomID "session" r2) in *. set (secret := randomToken r3) in *.
  assert (splitCredential (credential sid secret) = Some (sid, secret)) as Hsplit.
  { apply splitCredential_credential; [done|by apply randomToken_spec|].
    unfold sid, randomID. rewrite !ContainsByte_app. by rewrite (proj1 (randomToken_spec r2 H2)). }
  set (new := mkBrowserSessionRow sid account (digest secret) (now + lifetime) None).
  assert (forall s b, s ∈ browser_sessions d1 -> String.eqb (bs_id s) sid && b = false) as Hsid.
  { intros s b Hs. specialize (Hf s Hs). apply orb_false_iff in Hf as [Hf _]. by rewrite Hf. }
  split.
  - exists (ac_wallet acc). intros now'. unfold AuthenticateBrowserSession. rewrite Hsplit.
    cbn [browser_sessions accounts set_wallet_challenges set_browser_sessions].
    rewrite query_row_last by (intros s Hs; rewrite <- andb_assoc; by apply Hsid).
    cbn. rewrite String.eqb_refl. destruct (now' <? now + lifetime); [|done]. cbn.
    rewrite (query_row_unique ac_id _ (accounts d1) acc); [|done|done|by apply String.eqb_eq|
      intros o Po; apply String.eqb_eq in Po; congruence].
    unfold ConstantTimeCompare. by rewrite bool_decide_eq_true_2.
  - intros now'. unfold RevokeBrowserSession. cbn [browser_sessions set_wallet_challenges set_browser_sessions].
    unfold affected. rewrite select_app, select_none by (intros s Hs; by apply Hsid).
    unfold select. simpl. rewrite String.eqb_refl. simpl. eexists. split; [reflexivity|].
    intros later. unfold AuthenticateBrowserSession. rewrite Hsplit. cbn [browser_sessions set_browser_sessions].
    rewrite update_last by (intros s Hs; by apply Hsid).
    rewrite query_row_last by (intros s Hs; rewrite <- andb_assoc; by apply Hsid).
    cbn. rewrite String.eqb_refl. cbn. by rewrite String.eqb_refl.
Qed.

(** A wallet login opens the session its cookie names: until the cookie
    expires, every request carrying it acts for the account of the wallet, and
    from then on none does; a DELETE of the session is answered 204, removes the
    cookie, and no later request carrying the cookie is authenticated. *)
Theorem login_opens_session now en r d d' response token expires :
  NoDup (map ac_id (accounts d)) -> byte_list (en_second en) -> byte_list (en_third en) -> en_third en <> [] ->
  walletVerify TextHash SigToAddress config now en r d = (d', response) ->
  hp_Cookie response = NewCookie token expires ->
  exists session, br_ExpiresAt session = expires
  /\ (forall later r', ht_Cookie r' = Some token ->
        authenticate later r' d' = if later <? expires then inr session
                                   else inl (http_error 401 "authentication required"))
  /\ (forall later en' r', ht_Cookie r' = Some token -> contains (hc_AllowedOrigins config) (ht_Origin r') = true ->
        later < expires ->
        exists d'', withSession config sessionDelete later en' r' d'
                    = (d'', with_cookie ClearCookie (write_header 204))
        /\ forall now3 r3, ht_Cookie r3 = Some token ->
             authenticate now3 r3 d'' = inl (http_error 401 "authentication required")).
Proof.
  intros Hn H2 H3 Hne E Hc. unfold walletVerify, browserOrigin, decoded, decodeJSON in E.
  destruct (contains _ _); [|by injection E as <- <-]. destruct (negb _) in E; [by injection E as <- <-|].
  destruct (_ ≫= _) as [input|] in E; [|by injection E as <- <-].
  destruct (VerifyWalletChallenge TextHash SigToAddress _ _ _ _ _ _ _ _ _) as [[s d1]|e] eqn:V;
    injection E as <- <-; [|done]. injection Hc as <- <-.
  destruct (login_authenticates _ _ _ _ _ _ _ _ _ _ _ Hn H2 H3 Hne V) as [(wallet & Ha) Hr].
  exists (mkBrowserSession (br_ID s) "" (br_AccountID s) wallet (br_ExpiresAt s)). split_and!; [done|..].
  - intros later r' Hk. unfold authenticate. rewrite Hk, Ha. by destruct (later <? _).
  - intros later en' r' Hk Ho Hlt. unfold withSession, browserOrigin. rewrite Ho. unfold authenticate. rewrite Hk, Ha.
    replace (later <? br_ExpiresAt s) with true by lia. unfold sessionDelete. cbn [br_ID].
    destruct (Hr later) as (d'' & -> & Hlater). exists d''. split; [done|]. intros now3 r3 Hk3. by rewrite Hk3, Hlater.
Qed.
End Login.

(** ** Witnesses *)
Module Web.
Definition config : HTTPConfig := mkHTTPConfig "myference" "https://app/devices" contract_address ["https://app"] 10143 (12 * Hour) true.
Definition entropy : Entropy := mkEntropy [3] [4] [5].
Definition post (path : list string) (cookie : option string) (body : json) : Request :=
  mkRequest "POST" path "https://app" "" "application/json" cookie (Some body).

(** The customer has an API key; the provider is logged in and tries to revoke it. *)
Definition two_accounts : Db := Eval vm_compute in
  set_browser_sessions [mkBrowserSessionRow "session_p" "provider" (digest "secret") 1000 None]
    (set_accounts (accounts db_2) key_db).
Definition revoke_other : Request :=
  mkRequest "DELETE" ["auth"; "api-keys"; randomID "key" [1]] "https://app" "" "" (Some "session_p.secret") None.

Lemma requests_act_for_their_session_witness :
  serve toy_text_hash toy_recover config 10 entropy revoke_other two_accounts
  = (two_accounts, mkResponse 401 KeepCookie (ErrorText ErrInvalidCredential)
       [("Access-Control-Allow-Origin", "https://app"); ("Access-Control-Allow-Credentials", "true"); ("Vary", "Origin")])
  /\ untouched "customer" two_accounts two_accounts.
Proof.
  split; [vm_compute; reflexivity|].
  eapply (requests_act_for_their_session toy_text_hash toy_recover config two_accounts "customer")
    with (now := 10) (en := entropy) (r := revoke_other).
  - vm_compute. by apply NoDup_singleton.
  - vm_compute. by apply NoDup_singleton.
  - intros [_ (session & Ha & Hs)]. vm_compute in Ha. injection Ha as <-. discriminate Hs.
  - vm_compute. reflexivity.
Defined.

Definition verify : Request :=
  post ["auth"; "wallet"; "verify"] None
    (JObj [("challenge_id", JStr challenge_id); ("signature", JStr wallet_signature)]).
Definition login_token : string := Eval vm_compute in credential (randomID "session" [4]) (randomToken [5]).

Lemma login_opens_session_witness :
  let '(d', response) := walletVerify toy_text_hash toy_recover config 10 entropy verify challenge_db in
  hp_Status response = 200 /\ hp_Cookie response = NewCookie login_token (10 + 12 * Hour)
  /\ exists session, authenticate 11 (post [] (Some login_token) JNull) d' = inr session /\ br_ExpiresAt session = 10 + 12 * Hour.
Proof.
  destruct (walletVerify toy_text_hash toy_recover config 10 entropy verify challenge_db) as [d' response] eqn:E.
  assert (hp_Status response = 200 /\ hp_Cookie response = NewCookie login_token (10 + 12 * Hour)) as [Hs Hc]
    by (vm_compute in E; injection E as <- <-; split; reflexivity).
  split; [exact Hs|]. split; [exact Hc|].
  destruct (login_opens_session toy_text_hash toy_recover config 10 entropy verify challenge_db d' response
              login_token (10 + 12 * Hour)) as (session & He & Ha & _).
  - vm_compute. by apply NoDup_singleton.
  - by repeat constructor.
  - by repeat constructor.
  - discriminate.
  - exact E.
  - exact Hc.
  - exists session. split; [|exact He]. exact (Ha 11 (post [] (Some login_token) JNull) eq_refl).
Defined.
End Web.
