(* ===== verification/ProviderAccount.v ===== *)
(** * The provider's account (store/provider_account.go, api/provider_account.go)

    The queries behind the provider's view of its account and of its chain
    state, over the tables of Db.v, and the two HTTP handlers that serve them.
    The machine and browser authentications the handlers call are those the
    server wires in (cmd/myference-server/main.go). *)

From S2P Require Import Prelude GoStrings GoTime Wire Receipt Messages Db Hex Auth Store Http AuthHttp.
From stdpp Require Import gmap strings.
Open Scope string_scope.
Open Scope list_scope.
Open Scope Z_scope.

Record ProviderAccountConfig := mkProviderAccountConfig {
  pc_ChainID : Z; pc_ContractAddress : string; pc_ExplorerURL : string; pc_Confirmations : Z;
  pc_MinimumBondWei : string;
}.
Record EditableOffer := mkEditableOffer {
  eo_OfferID : string; eo_Model : string; eo_BackendKind : string; eo_Capabilities : list string;
  eo_MeteringMode : string; eo_Version : Z; eo_InputPerMillionWei : string; eo_OutputPerMillionWei : string;
  eo_ComputePerSecondWei : string;
}.
Record ProviderAccountView := mkProviderAccountView {
  pv_ChainID : Z; pv_ContractAddress : string; pv_ExplorerURL : string; pv_Confirmations : Z;
  pv_WalletAddress : string; pv_MinimumBondWei : string; pv_ProviderBondWei : string; pv_ClaimableWei : string;
  pv_ProviderEarningsWei : string; pv_BondExitAvailableAt : Z; pv_Offers : list EditableOffer;
}.
Record ProviderOfferQuery := mkProviderOfferQuery {
  oq_OfferID : string; oq_OfferHash : string; oq_ModelHash : string; oq_CapabilityHash : string;
  oq_InputPerMillionWei : string; oq_OutputPerMillionWei : string; oq_ComputePerSecondWei : string;
}.
Record ProviderActionState := mkProviderActionState {
  as_WalletAddress : string; as_BondWei : string; as_ClaimableWei : string; as_ExitAvailableAt : Z;
  as_LatestVersions : gmap string Z; as_MatchingVersions : gmap string Z;
}.

(** [max(value) ... WHERE p]: NULL over no row. *)
Definition max_nullable {R} (p : R -> bool) (value : R -> Z) (t : list R) : option Z :=
  foldr (fun row acc => if p row then Some (match acc with Some m => Z.max (value row) m | None => value row end)
                        else acc) None t.

(** ** Queries *)
(** [SELECT wallet_address FROM accounts WHERE id=$1] *)
Definition account_wallet (accountID : string) (d : Db) : result string :=
  ac_wallet <$> query_row (fun a => String.eqb (ac_id a) accountID) (accounts d).

(** The bond, the claimable amount and the exit time on the chain; the defaults
    stay when the chain has no row for the wallet. *)
Definition chain_balances (config : ProviderAccountConfig) (wallet : string) (d : Db) : result (string * string * Z) :=
  _ ← bigint (pc_ChainID config);
  match query_row (fun r => (ca_chain r =? pc_ChainID config) && lower_eq (ca_contract r) (pc_ContractAddress config)
                            && lower_eq (ca_address r) wallet) (chain_accounts d) with
  | Ok r => Ok (BigString (ca_provider_bond r), BigString (ca_claimable r), ca_bond_exit_available_at r)
  | Err ErrNoRows => Ok ("0", "0", 0)
  | Err e => Err e
  end.

(** The wallet's offers on the configured contract. *)
Definition own_offer (config : ProviderAccountConfig) (wallet : string) (o : ChainOfferRow) : bool :=
  (co_chain o =? pc_ChainID config) && lower_eq (co_contract o) (pc_ContractAddress config)
  && lower_eq (co_provider o) wallet.
Definition hash_is (column : option string) (value : string) : bool :=
  match column with Some h => String.eqb h value | None => false end.
(** The join of [provider_routing_state] and [chain_offers] on the three hashes. *)
Definition published (r : RoutingRow) (o : ChainOfferRow) : bool :=
  hash_is (rt_offer_hash r) (co_offer o) && hash_is (rt_model_hash r) (co_model_hash o)
  && hash_is (rt_capability_hash r) (co_capability_hash o).

Definition editable (r : RoutingRow) (o : ChainOfferRow) : result EditableOffer :=
  kind ← scan (rt_backend_kind r);
  Ok (mkEditableOffer (rt_offer r) (rt_model r) kind (rt_capabilities r) (rt_metering_mode r) (co_version o)
        (BigString (co_input o)) (BigString (co_output o)) (BigString (co_compute o))).

(** [SELECT DISTINCT ON (offer_id) ... ORDER BY offer_id, version DESC]: one row
    per offer identifier, the one of the highest version. *)
Definition distinct_on_offer (joined : list (RoutingRow * ChainOfferRow)) : list (RoutingRow * ChainOfferRow) :=
  omap (fun offerID => first_by (fun p => - co_version (snd p))
                         (List.filter (fun p => String.eqb (rt_offer (fst p)) offerID) joined))
    (nodup String.string_dec (sort_strings (map (fun p => rt_offer (fst p)) joined))).

Definition account_offers (config : ProviderAccountConfig) (accountID wallet : string) (d : Db)
  : list (RoutingRow * ChainOfferRow) :=
  r ← List.filter (fun r => exists_row (fun m => String.eqb (mc_id m) (rt_machine r)
                                           && String.eqb (mc_account m) accountID) (machines d)) (routing d);
  map (fun o => (r, o)) (List.filter (fun o => own_offer config wallet o && published r o) (chain_offers d)).

Definition ProviderAccount (accountID : string) (config : ProviderAccountConfig) (d : Db) : result ProviderAccountView :=
  wallet ← account_wallet accountID d;
  '(bond, claimable, exit) ← chain_balances config wallet d;
  let earnings := sum_where (fun r => (ct_chain r =? pc_ChainID config)
                     && lower_eq (ct_contract r) (pc_ContractAddress config) && lower_eq (ct_provider r) wallet)
                    ct_provider_amount (chain_settlements d) in
  offers ← mapM (fun p => editable (fst p) (snd p)) (distinct_on_offer (account_offers config accountID wallet d));
  Ok (mkProviderAccountView (pc_ChainID config) (ToLower (pc_ContractAddress config)) (pc_ExplorerURL config)
        (pc_Confirmations config) wallet (pc_MinimumBondWei config) bond claimable (BigString earnings) exit offers).

(** [GROUP BY offer_id] with [max(version)]: the highest published version of
    each offer of one machine of the account. *)
Definition MachineOfferVersions (machineID accountID : string) (chainID : Z) (contract : string) (d : Db)
  : result (gmap string Z) :=
  _ ← bigint chainID;
  let config := mkProviderAccountConfig chainID contract "" 0 "" in
  let joined :=
    r ← routing d;
    m ← List.filter (fun m => String.eqb (mc_id m) (rt_machine r) && String.eqb (mc_id m) machineID
                              && String.eqb (mc_account m) accountID) (machines d);
    a ← List.filter (fun a => String.eqb (ac_id a) (mc_account m)) (accounts d);
    map (fun o => (rt_offer r, co_version o))
      (List.filter (fun o => own_offer config (ac_wallet a) o && published r o) (chain_offers d)) in
  Ok (foldr (fun p versions => <[fst p := match versions !! fst p with
                                          | Some v => Z.max (snd p) v | None => snd p end]> versions) ∅ joined).

Definition MachineBelongsToAccount (machineID accountID : string) (d : Db) : bool :=
  exists_row (fun m => String.eqb (mc_id m) machineID && String.eqb (mc_account m) accountID
                       && is_null (mc_revoked_at m)) (machines d).

(** The versions of one offer: the latest, and the latest with the same model,
    capabilities and rates.  A rate that is no decimal number is an error. *)
Definition offer_versions (config : ProviderAccountConfig) (wallet : string) (d : Db) (q : ProviderOfferQuery)
  : result (option Z * option Z) :=
  let own o := own_offer config wallet o && String.eqb (co_offer o) (oq_OfferHash q) in
  input ← numeric (oq_InputPerMillionWei q);
  output ← numeric (oq_OutputPerMillionWei q);
  compute ← numeric (oq_ComputePerSecondWei q);
  Ok (max_nullable own co_version (chain_offers d),
      max_nullable (fun o => own o && String.eqb (co_model_hash o) (oq_ModelHash q)
                       && String.eqb (co_capability_hash o) (oq_CapabilityHash q) && (co_input o =? input)
                       && (co_output o =? output) && (co_compute o =? compute)) co_version (chain_offers d)).

(** [uint64(latest.Int64)] when the maximum is not NULL. *)
Definition set_version (offerID : string) (v : option Z) (versions : gmap string Z) : gmap string Z :=
  match v with Some version => <[offerID := wrap64 version]> versions | None => versions end.

Fixpoint collect_versions (config : ProviderAccountConfig) (wallet : string) (d : Db) (offers : list ProviderOfferQuery)
    (latest matching : gmap string Z) : result (gmap string Z * gmap string Z) :=
  match offers with
  | [] => Ok (latest, matching)
  | q :: rest =>
      '(l, m) ← offer_versions config wallet d q;
      collect_versions config wallet d rest (set_version (oq_OfferID q) l latest) (set_version (oq_OfferID q) m matching)
  end.

Definition ProviderActionStateOf (accountID : string) (config : ProviderAccountConfig)
    (offers : list ProviderOfferQuery) (d : Db) : result ProviderActionState :=
  wallet ← account_wallet accountID d;
  '(bond, claimable, exit) ← chain_balances config wallet d;
  '(latest, matching) ← collect_versions config wallet d offers ∅ ∅;
  Ok (mkProviderActionState wallet bond claimable exit latest matching).

(** ** The handlers *)
(** [machineAccount] of main.go: the bearer token of a machine. *)
Definition machineAccount (r : Request) (d : Db) : result (string * string) :=
  let token := TrimSpace (TrimPrefix (ht_Authorization r) "Bearer ") in
  principal ← AuthenticateMachine token d;
  Ok (mp_MachineID principal, mp_AccountID principal).
(** [browserAccount] of main.go: the session cookie. *)
Definition browserAccount (now : Z) (r : Request) (d : Db) : result string :=
  session ← AuthenticateBrowserRequest now r d;
  Ok (br_AccountID session).

Definition offer_view_json (o : EditableOffer) : json :=
  JObj (member "offer_id" (jstr (eo_OfferID o)) ++ member "model" (jstr (eo_Model o))
        ++ member "backend_kind" (jstr (eo_BackendKind o)) ++ member "capabilities" (strings_json (eo_Capabilities o))
        ++ member "metering_mode" (jstr (eo_MeteringMode o)) ++ member "version" (num (eo_Version o))
        ++ member "input_per_million_wei" (jstr (eo_InputPerMillionWei o))
        ++ member "output_per_million_wei" (jstr (eo_OutputPerMillionWei o))
        ++ member "compute_per_second_wei" (jstr (eo_ComputePerSecondWei o))).
Definition account_view_json (v : ProviderAccountView) : json :=
  JObj (member "chain_id" (num (pv_ChainID v)) ++ member "contract_address" (jstr (pv_ContractAddress v))
        ++ member "explorer_url" (jstr (pv_ExplorerURL v)) ++ member "confirmations" (num (pv_Confirmations v))
        ++ member "wallet_address" (jstr (pv_WalletAddress v)) ++ member "minimum_bond_wei" (jstr (pv_MinimumBondWei v))
        ++ member "provider_bond_wei" (jstr (pv_ProviderBondWei v)) ++ member "claimable_wei" (jstr (pv_ClaimableWei v))
        ++ member "provider_earnings_wei" (jstr (pv_ProviderEarningsWei v))
        ++ member "bond_exit_available_at" (num (pv_BondExitAvailableAt v))
        ++ member "offers" (JArr (map offer_view_json (pv_Offers v)))).
(** [encoding/json] writes the keys of a map in increasing order. *)
Definition versions_json (versions : gmap string Z) : json :=
  JObj (map (fun id => (coerce_utf8 id, num (default 0 (versions !! id))))
          (sort_strings (map fst (map_to_list versions)))).

Definition account (now : Z) (config : ProviderAccountConfig) (r : Request) (d : Db) : Response :=
  let identity := if negb (is_blank (ht_Authorization r)) then snd <$> machineAccount r d else browserAccount now r d in
  match identity with
  | Err _ => http_error 401 "authentication required"
  | Ok accountID =>
      match ProviderAccount accountID config d with
      | Err _ => http_error 503 "provider account unavailable"
      | Ok view => respond_json 200 (account_view_json view)
      end
  end.

Definition versions (config : ProviderAccountConfig) (r : Request) (d : Db) : Response :=
  match machineAccount r d with
  | Err _ => http_error 401 "machine authentication required"
  | Ok (machineID, accountID) =>
      if negb (String.eqb machineID (path_value 3 (ht_Path r))) then not_found
      else match MachineOfferVersions machineID accountID (pc_ChainID config) (pc_ContractAddress config) d with
           | Err _ => http_error 503 "offer versions unavailable"
           | Ok found => respond_json 200 (versions_json found)
           end
  end.

(** ** The routes *)
Inductive AccountEndpoint := AccountE | VersionsE.
Definition provider_routes : list (pattern * AccountEndpoint) :=
  [ (route "GET" [Lit "api"; Lit "provider"; Lit "account"], AccountE);
    (route "GET" [Lit "api"; Lit "provider"; Lit "machines"; Wild; Lit "offer-versions"], VersionsE) ].
Definition NewProviderAccount (now : Z) (config : ProviderAccountConfig) (r : Request) (d : Db) : Response :=
  match find_route provider_routes (ht_Method r) (ht_Path r) with
  | Some AccountE => account now config r d
  | Some VersionsE => versions config r d
  | None => no_route provider_routes (ht_Path r)
  end.
