(* ===== verification/Actions.v ===== *)
(** * Provider actions (api/provider_action.go, cmd/myference-server/provider_actions.go)

    An action is a request of a provider (to publish offers, to deposit
    collateral, to start or finish an exit) that a wallet carries out on the
    chain.  [ProviderActionStore] keeps the actions in memory for fifteen
    minutes; [prepareProviderAction] checks the request against the indexed
    chain state and records a baseline; [verifyProviderAction] compares the
    chain state with the baseline.  An operation reads the clock where the
    source does ([now], and [purged] for the second reading of [Create]), and
    [random] is the outcome of [crypto/rand]. *)

From S2P Require Import Prelude GoStrings GoTime Wire Receipt Messages Db Hex Auth Store Http AuthHttp ProviderAccount.
From stdpp Require Import gmap strings.
Open Scope string_scope.
Open Scope list_scope.
Open Scope Z_scope.

(** ** Data *)
Definition ActionPublishOffer := "publish_offer".
Definition ActionDepositCollateral := "deposit_collateral".
Definition ActionRequestCollateralExit := "request_collateral_exit".
Definition ActionFinalizeCollateralExit := "finalize_collateral_exit".
Definition ActionPendingWallet := "pending_wallet".
Definition ActionPendingChain := "pending_chain".
Definition ActionConfirmed := "confirmed".
Definition ActionSourceMachine := "machine".
Definition ActionSourceBrowser := "browser".
Definition providerActionTTL : Z := 15 * Minute.
Definition maxProviderActions : Z := 1024.
Definition maxProviderActionOffers : Z := 64.

Record ProviderActionOffer := mkProviderActionOffer {
  po_OfferID : string; po_Model : string; po_Kind : string; po_Capabilities : list string;
  po_MeteringMode : string; po_InputPerMillionWei : string; po_OutputPerMillionWei : string;
  po_ComputePerSecondWei : string;
}.
Record ProviderActionInput := mkProviderActionInput {
  pi_Kind : string; pi_AmountWei : string; pi_Offers : list ProviderActionOffer;
}.
Record ProviderActionBaseline := mkProviderActionBaseline {
  bl_BondWei : string; bl_ClaimableWei : string; bl_ExitAvailableAt : Z; bl_Versions : gmap string Z;
}.
Record ProviderAction := mkProviderAction {
  pa_ID : string; pa_Kind : string; pa_Status : string; pa_WalletAddress : string; pa_AmountWei : string;
  pa_Offers : list ProviderActionOffer; pa_TransactionHashes : list string; pa_Versions : gmap string Z;
  pa_ExpiresAt : Z; pa_MachineID : string; pa_AccountID : string; pa_Baseline : ProviderActionBaseline;
}.
(** [ProviderActionStore.items] *)
Abbreviation Items := (gmap string ProviderAction).

Definition set_submitted (hashes : list string) (a : ProviderAction) : ProviderAction :=
  mkProviderAction (pa_ID a) (pa_Kind a) ActionPendingChain (pa_WalletAddress a) (pa_AmountWei a) (pa_Offers a)
    hashes (pa_Versions a) (pa_ExpiresAt a) (pa_MachineID a) (pa_AccountID a) (pa_Baseline a).
Definition set_confirmed (versions : gmap string Z) (a : ProviderAction) : ProviderAction :=
  mkProviderAction (pa_ID a) (pa_Kind a) ActionConfirmed (pa_WalletAddress a) (pa_AmountWei a) (pa_Offers a)
    (pa_TransactionHashes a) versions (pa_ExpiresAt a) (pa_MachineID a) (pa_AccountID a) (pa_Baseline a).

(** ** Validation *)
Definition validDecimal (value : string) (positive : bool) : bool :=
  match SetString10 value with
  | Some parsed => (BitLen parsed <=? 256)
                   && (negb positive && (0 <=? parsed) || positive && (0 <? parsed))
                   && String.eqb (BigString parsed) value
  | None => false
  end.

Definition validTransactionHash (value : string) : bool :=
  if negb (go_len value =? 66) || negb (HasPrefix value "0x") then false
  else match DecodeString (drop_bytes 2 value) with
       | Some decoded => Z.of_nat (length decoded) =? 32
       | None => false
       end.

(** [slices.Compact]: equal neighbours become one. *)
Fixpoint compact (l : list string) : list string :=
  match l with
  | x :: ((y :: _) as rest) => if String.eqb x y then compact rest else x :: compact rest
  | _ => l
  end.

Definition trim_offer (o : ProviderActionOffer) : ProviderActionOffer :=
  mkProviderActionOffer (TrimSpace (po_OfferID o)) (TrimSpace (po_Model o)) (TrimSpace (po_Kind o))
    (compact (sort_strings (po_Capabilities o))) (TrimSpace (po_MeteringMode o)) (po_InputPerMillionWei o)
    (po_OutputPerMillionWei o) (po_ComputePerSecondWei o).

(** The checks of one offer, already trimmed; [seen] are the earlier identifiers. *)
Definition check_offer (seen : gset string) (o : ProviderActionOffer) : result unit :=
  _ ← fail_if (String.eqb (po_OfferID o) "" || String.eqb (po_Model o) "" || String.eqb (po_Kind o) ""
               || bool_decide (po_Capabilities o = [])
               || negb (String.eqb (po_MeteringMode o) "tokens_and_compute")
                  && negb (String.eqb (po_MeteringMode o) "compute_only"))
        (ErrNew "offer identity and metering are required");
  _ ← fail_if (bool_decide (po_OfferID o ∈ seen)) (ErrNew "offer IDs must be unique");
  _ ← fail_if (negb (validDecimal (po_InputPerMillionWei o) false)
               || negb (validDecimal (po_OutputPerMillionWei o) false)
               || negb (validDecimal (po_ComputePerSecondWei o) false))
        (ErrNew "offer rates must be non-negative decimal integers");
  fail_if (String.eqb (po_MeteringMode o) "compute_only"
           && (negb (String.eqb (po_InputPerMillionWei o) "0") || negb (String.eqb (po_OutputPerMillionWei o) "0")))
    (ErrNew "compute-only offers require zero token rates").

Fixpoint check_offers (seen : gset string) (offers : list ProviderActionOffer) : result (list ProviderActionOffer) :=
  match offers with
  | [] => Ok []
  | o :: rest =>
      let o := trim_offer o in
      _ ← check_offer seen o;
      rest ← check_offers ({[po_OfferID o]} ∪ seen) rest;
      Ok (o :: rest)
  end.

Definition count {A} (l : list A) : Z := Z.of_nat (length l).

(** The validated input: the source trims it in place. *)
Definition validateProviderActionInput (input : ProviderActionInput) : result ProviderActionInput :=
  let kind := TrimSpace (pi_Kind input) in
  let trimmed offers := mkProviderActionInput kind (pi_AmountWei input) offers in
  if String.eqb kind ActionDepositCollateral then
    if negb (count (pi_Offers input) =? 0) || negb (validDecimal (pi_AmountWei input) true)
    then Err (ErrNew "deposit requires a positive amount_wei") else Ok (trimmed (pi_Offers input))
  else if String.eqb kind ActionRequestCollateralExit || String.eqb kind ActionFinalizeCollateralExit then
    if negb (count (pi_Offers input) =? 0) || negb (is_blank (pi_AmountWei input))
    then Err (ErrNew "collateral exit does not accept offers or an amount") else Ok (trimmed (pi_Offers input))
  else if String.eqb kind ActionPublishOffer then
    if negb (is_blank (pi_AmountWei input)) || (count (pi_Offers input) =? 0)
       || (maxProviderActionOffers <? count (pi_Offers input))
    then Err (ErrNew "offer publication requires one to 64 offers")
    else offers ← check_offers ∅ (pi_Offers input); Ok (trimmed offers)
  else Err (ErrNew "unsupported provider action").

(** ** The store *)
Definition live (now : Z) (a : ProviderAction) : bool := now <? pa_ExpiresAt a.

Definition purgeLocked (now : Z) (items : Items) : Items := filter (fun kv => live now (snd kv) = true) items.

Definition providerActionID (random : result bytes) : result string := randomToken <$> random.

Definition Create (now purged : Z) (random : result bytes) (machineID accountID wallet : string)
    (input : ProviderActionInput) (baseline : ProviderActionBaseline) (items : Items) : Items * result ProviderAction :=
  if is_blank accountID || is_blank wallet then (items, Err (ErrNew "provider account is required"))
  else
    match validateProviderActionInput input with
    | Err e => (items, Err e)
    | Ok input =>
        match providerActionID random with
        | Err e => (items, Err e)
        | Ok id =>
            let action := mkProviderAction id (pi_Kind input) ActionPendingWallet wallet (pi_AmountWei input)
                            (pi_Offers input) [] ∅ (now + providerActionTTL) machineID accountID baseline in
            let items := purgeLocked purged items in
            if maxProviderActions <=? Z.of_nat (size items)
            then (items, Err (ErrNew "too many provider actions"))
            else (<[id := action]> items, Ok action)
        end
    end.

(** The common prefix of [GetForAccount] and [Submitted]: an expired action is removed. *)
Definition find_live (now : Z) (id accountID : string) (items : Items) : Items * result ProviderAction :=
  match items !! id with
  | Some action =>
      if negb (live now action) then (delete id items, Err ErrProviderActionNotFound)
      else if negb (String.eqb (pa_AccountID action) accountID) then (items, Err ErrProviderActionNotFound)
      else (items, Ok action)
  | None => (delete id items, Err ErrProviderActionNotFound)
  end.

Definition GetForAccount (now : Z) (id accountID : string) (items : Items) : Items * result ProviderAction :=
  find_live now id accountID items.

Definition Submitted (now : Z) (id accountID : string) (hashes : list string) (items : Items)
  : Items * result ProviderAction :=
  match find_live now id accountID items with
  | (items, Err e) => (items, Err e)
  | (items, Ok action) =>
      if String.eqb (pa_Status action) ActionConfirmed then (items, Ok action)
      else if (count hashes =? 0) || (Z.max 1 (count (pa_Offers action)) <? count hashes)
      then (items, Err (ErrNew "transaction hashes do not match this action"))
      else if negb (forallb validTransactionHash hashes) then (items, Err (ErrNew "invalid transaction hash"))
      else let action := set_submitted hashes action in (<[id := action]> items, Ok action)
  end.

Definition cloneActionVersions (source : gmap string Z) : gmap string Z := source.

Definition Confirm (id accountID : string) (versions : gmap string Z) (items : Items)
  : Items * result ProviderAction :=
  match items !! id with
  | Some action =>
      if negb (String.eqb (pa_AccountID action) accountID) then (items, Err ErrProviderActionNotFound)
      else let action := set_confirmed (cloneActionVersions versions) action in (<[id := action]> items, Ok action)
  | None => (items, Err ErrProviderActionNotFound)
  end.

(** ** Preparation and verification (cmd/myference-server/provider_actions.go) *)
Definition decimalBig (value : string) : option Z :=
  match SetString10 value with
  | Some n => if n <? 0 then None else Some n
  | None => None
  end.

Definition sameOfferIdentity (existing : EditableOffer) (requested : ProviderActionOffer) : bool :=
  String.eqb (eo_Model existing) (po_Model requested) && String.eqb (eo_BackendKind existing) (po_Kind requested)
  && String.eqb (eo_MeteringMode existing) (po_MeteringMode requested)
  && bool_decide (sort_strings (eo_Capabilities existing) = sort_strings (po_Capabilities requested)).

Definition validateProviderActionState (input : ProviderActionInput) (state : ProviderActionState) (minimumBond : string)
  : result unit :=
  let kind := pi_Kind input in
  let exiting := negb (as_ExitAvailableAt state =? 0) in
  if String.eqb kind ActionPublishOffer then
    match decimalBig (as_BondWei state), decimalBig minimumBond with
    | Some bond, Some minimum =>
        fail_if ((bond <? minimum) || exiting) (ErrNew "provider collateral is insufficient or exiting")
    | _, _ => Err (ErrNew "provider collateral is insufficient or exiting")
    end
  else if String.eqb kind ActionDepositCollateral then
    fail_if exiting (ErrNew "collateral cannot be deposited during an exit")
  else if String.eqb kind ActionRequestCollateralExit then
    fail_if (String.eqb (as_BondWei state) "0" || exiting) (ErrNew "collateral exit is unavailable")
  else if String.eqb kind ActionFinalizeCollateralExit then
    fail_if (negb exiting) (ErrNew "collateral exit is not ready")
  else Ok tt.

(** A missing key of a Go map reads as zero. *)
Definition version_of (versions : gmap string Z) (offerID : string) : Z := default 0 (versions !! offerID).

(** The versions of the offers, when each is newer than the baseline's. *)
Fixpoint offer_confirmations (baseline matching : gmap string Z) (offers : list ProviderActionOffer)
    (versions : gmap string Z) : option (gmap string Z) :=
  match offers with
  | [] => Some versions
  | o :: rest =>
      let version := version_of matching (po_OfferID o) in
      if (version =? 0) || (version <=? version_of baseline (po_OfferID o)) then None
      else offer_confirmations baseline matching rest (<[po_OfferID o := version]> versions)
  end.

Definition providerActionConfirmed (action : ProviderAction) (state : ProviderActionState) : gmap string Z * bool :=
  let baseline := pa_Baseline action in
  let kind := pa_Kind action in
  if String.eqb kind ActionPublishOffer then
    match offer_confirmations (bl_Versions baseline) (as_MatchingVersions state) (pa_Offers action) ∅ with
    | Some versions => (versions, true)
    | None => (∅, false)
    end
  else if String.eqb kind ActionDepositCollateral then
    (∅, match decimalBig (bl_BondWei baseline), decimalBig (pa_AmountWei action), decimalBig (as_BondWei state) with
        | Some before, Some amount, Some current => before + amount <=? current
        | _, _, _ => false
        end)
  else if String.eqb kind ActionRequestCollateralExit then
    (∅, (bl_ExitAvailableAt baseline =? 0) && (0 <? as_ExitAvailableAt state))
  else if String.eqb kind ActionFinalizeCollateralExit then
    (∅, (0 <? bl_ExitAvailableAt baseline) && (as_ExitAvailableAt state =? 0) && String.eqb (as_BondWei state) "0")
  else (∅, false).

Section Server.
Context `{Ethereum}.

Definition providerOfferQuery (o : ProviderActionOffer) : ProviderOfferQuery :=
  mkProviderOfferQuery (po_OfferID o) (Keccak256Hex (po_OfferID o)) (Keccak256Hex (po_Model o))
    (Keccak256Hex (GoStrings.Join (sort_strings (po_Capabilities o)) ",")) (po_InputPerMillionWei o) (po_OutputPerMillionWei o)
    (po_ComputePerSecondWei o).
Definition providerOfferQueries (offers : list ProviderActionOffer) : list ProviderOfferQuery :=
  map providerOfferQuery offers.

(** [slices.IndexFunc] by the offer's identifier, then the identity check. *)
Definition known_identity (existing : list EditableOffer) (requested : ProviderActionOffer) : bool :=
  match List.find (fun e => String.eqb (eo_OfferID e) (po_OfferID requested)) existing with
  | Some e => sameOfferIdentity e requested
  | None => false
  end.

Definition prepareProviderAction (config : ProviderAccountConfig) (source machineID accountID : string)
    (input : ProviderActionInput) (d : Db) : result (string * ProviderActionBaseline) :=
  _ ← fail_if (String.eqb source ActionSourceMachine && negb (MachineBelongsToAccount machineID accountID d))
        (ErrNew "machine does not belong to this account");
  state ← ProviderActionStateOf accountID config (providerOfferQueries (pi_Offers input)) d;
  _ ← (if String.eqb source ActionSourceBrowser && String.eqb (pi_Kind input) ActionPublishOffer then
         view ← ProviderAccount accountID config d;
         fail_if (negb (forallb (known_identity (pv_Offers view)) (pi_Offers input)))
           (ErrNew "web pricing may only update an existing offer identity")
       else Ok tt);
  _ ← validateProviderActionState input state (pc_MinimumBondWei config);
  Ok (as_WalletAddress state,
      mkProviderActionBaseline (as_BondWei state) (as_ClaimableWei state) (as_ExitAvailableAt state)
        (as_LatestVersions state)).

Definition verifyProviderAction (config : ProviderAccountConfig) (action : ProviderAction) (d : Db)
  : result (gmap string Z * bool) :=
  state ← ProviderActionStateOf (pa_AccountID action) config (providerOfferQueries (pa_Offers action)) d;
  Ok (providerActionConfirmed action state).

(** ** The handlers *)
Definition offer_input_fields : list (string * setter ProviderActionOffer) :=
  [ ("offer_id", set_with as_string (fun v o => mkProviderActionOffer v (po_Model o) (po_Kind o) (po_Capabilities o)
       (po_MeteringMode o) (po_InputPerMillionWei o) (po_OutputPerMillionWei o) (po_ComputePerSecondWei o)));
    ("model", set_with as_string (fun v o => mkProviderActionOffer (po_OfferID o) v (po_Kind o) (po_Capabilities o)
       (po_MeteringMode o) (po_InputPerMillionWei o) (po_OutputPerMillionWei o) (po_ComputePerSecondWei o)));
    ("kind", set_with as_string (fun v o => mkProviderActionOffer (po_OfferID o) (po_Model o) v (po_Capabilities o)
       (po_MeteringMode o) (po_InputPerMillionWei o) (po_OutputPerMillionWei o) (po_ComputePerSecondWei o)));
    ("capabilities", set_with as_string_slice (fun v o => mkProviderActionOffer (po_OfferID o) (po_Model o) (po_Kind o)
       v (po_MeteringMode o) (po_InputPerMillionWei o) (po_OutputPerMillionWei o) (po_ComputePerSecondWei o)));
    ("metering_mode", set_with as_string (fun v o => mkProviderActionOffer (po_OfferID o) (po_Model o) (po_Kind o)
       (po_Capabilities o) v (po_InputPerMillionWei o) (po_OutputPerMillionWei o) (po_ComputePerSecondWei o)));
    ("input_per_million_wei", set_with as_string (fun v o => mkProviderActionOffer (po_OfferID o) (po_Model o)
       (po_Kind o) (po_Capabilities o) (po_MeteringMode o) v (po_OutputPerMillionWei o) (po_ComputePerSecondWei o)));
    ("output_per_million_wei", set_with as_string (fun v o => mkProviderActionOffer (po_OfferID o) (po_Model o)
       (po_Kind o) (po_Capabilities o) (po_MeteringMode o) (po_InputPerMillionWei o) v (po_ComputePerSecondWei o)));
    ("compute_per_second_wei", set_with as_string (fun v o => mkProviderActionOffer (po_OfferID o) (po_Model o)
       (po_Kind o) (po_Capabilities o) (po_MeteringMode o) (po_InputPerMillionWei o) (po_OutputPerMillionWei o) v)) ].
Definition zero_action_offer : ProviderActionOffer := mkProviderActionOffer "" "" "" [] "" "" "" "".
Definition as_action_offers (v : json) : option (list ProviderActionOffer) :=
  match v with
  | JArr items => mapM (fun item => decode_struct offer_input_fields item zero_action_offer) items
  | _ => None
  end.
Definition action_input_fields : list (string * setter ProviderActionInput) :=
  [ ("kind", set_with as_string (fun v i => mkProviderActionInput v (pi_AmountWei i) (pi_Offers i)));
    ("amount_wei", set_with as_string (fun v i => mkProviderActionInput (pi_Kind i) v (pi_Offers i)));
    ("offers", set_with as_action_offers (fun v i => mkProviderActionInput (pi_Kind i) (pi_AmountWei i) v)) ].
Definition hashes_fields : list (string * setter (list string)) :=
  [ ("transaction_hashes", set_with as_string_slice (fun v _ => v)) ].

Definition action_offer_json (o : ProviderActionOffer) : json :=
  JObj (member "offer_id" (jstr (po_OfferID o)) ++ member "model" (jstr (po_Model o)) ++ member "kind" (jstr (po_Kind o))
        ++ member "capabilities" (strings_json (po_Capabilities o)) ++ member "metering_mode" (jstr (po_MeteringMode o))
        ++ member "input_per_million_wei" (jstr (po_InputPerMillionWei o))
        ++ member "output_per_million_wei" (jstr (po_OutputPerMillionWei o))
        ++ member "compute_per_second_wei" (jstr (po_ComputePerSecondWei o))).
Definition action_json (a : ProviderAction) : json :=
  JObj (member "id" (jstr (pa_ID a)) ++ member "kind" (jstr (pa_Kind a)) ++ member "status" (jstr (pa_Status a))
        ++ member "wallet_address" (jstr (pa_WalletAddress a))
        ++ omit_if (String.eqb (pa_AmountWei a) "") "amount_wei" (jstr (pa_AmountWei a))
        ++ omit_if (bool_decide (pa_Offers a = [])) "offers" (JArr (map action_offer_json (pa_Offers a)))
        ++ omit_if (bool_decide (pa_TransactionHashes a = [])) "transaction_hashes" (strings_json (pa_TransactionHashes a))
        ++ omit_if (bool_decide (pa_Versions a = ∅)) "versions" (versions_json (pa_Versions a))
        ++ member "expires_at" (jtime (pa_ExpiresAt a))).

(** [http.Error(w, err.Error(), 400)]; the error of the JSON decoder is [ErrEncode]. *)
Definition bad_request (e : error) : Response := mkResponse 400 KeepCookie (ErrorText e) [].
(** [decodeProviderActionJSON]: the first JSON value of the body, strictly. *)
Definition decodeProviderActionJSON {T} (r : Request) (fields : list (string * setter T)) (zero : T) : option T :=
  ht_Body r ≫= fun v => decode_struct fields v zero.

Definition identity (now : Z) (r : Request) (d : Db) : result (string * string * string) :=
  if negb (is_blank (ht_Authorization r)) then
    '(machineID, accountID) ← machineAccount r d;
    Ok (ActionSourceMachine, machineID, accountID)
  else
    accountID ← browserAccount now r d;
    Ok (ActionSourceBrowser, "", accountID).

Definition create (config : ProviderAccountConfig) (now purged : Z) (random : result bytes) (r : Request) (d : Db)
    (items : Items) : Items * Response :=
  match identity now r d with
  | Err _ => (items, http_error 401 "authentication required")
  | Ok (source, machineID, accountID) =>
      match decodeProviderActionJSON r action_input_fields (mkProviderActionInput "" "" []) with
      | None => (items, bad_request ErrEncode)
      | Some input =>
          match prepareProviderAction config source machineID accountID input d with
          | Err e => (items, bad_request e)
          | Ok (wallet, baseline) =>
              match Create now purged random machineID accountID wallet input baseline items with
              | (items, Err e) => (items, bad_request e)
              | (items, Ok action) => (items, respond_json 201 (action_json action))
              end
          end
      end
  end.

Definition get (config : ProviderAccountConfig) (now : Z) (r : Request) (d : Db) (items : Items) : Items * Response :=
  match identity now r d with
  | Err _ => (items, http_error 401 "authentication required")
  | Ok (source, machineID, accountID) =>
      match GetForAccount now (path_value 3 (ht_Path r)) accountID items with
      | (items, Err _) => (items, not_found)
      | (items, Ok action) =>
          if String.eqb source ActionSourceMachine && negb (String.eqb (pa_MachineID action) machineID)
          then (items, not_found)
          else if String.eqb (pa_Status action) ActionPendingChain then
            match verifyProviderAction config action d with
            | Err _ => (items, http_error 503 "chain confirmation unavailable")
            | Ok (versions, true) =>
                match Confirm (pa_ID action) accountID versions items with
                | (items, Err _) => (items, not_found)
                | (items, Ok action) => (items, respond_json 200 (action_json action))
                end
            | Ok (_, false) => (items, respond_json 200 (action_json action))
            end
          else (items, respond_json 200 (action_json action))
      end
  end.

Definition submitted (now : Z) (r : Request) (d : Db) (items : Items) : Items * Response :=
  match identity now r d with
  | Err _ => (items, http_error 401 "authentication required")
  | Ok (source, _, accountID) =>
      if negb (String.eqb source ActionSourceBrowser) then (items, not_found)
      else
        match decodeProviderActionJSON r hashes_fields [] with
        | None => (items, bad_request ErrEncode)
        | Some hashes =>
            match Submitted now (path_value 3 (ht_Path r)) accountID hashes items with
            | (items, Err ErrProviderActionNotFound) => (items, not_found)
            | (items, Err e) => (items, bad_request e)
            | (items, Ok action) => (items, respond_json 200 (action_json action))
            end
        end
  end.

(** ** The routes *)
Inductive action_endpoint := CreateE | GetE | SubmittedE.
Definition NewProviderActions : list (pattern * action_endpoint) :=
  let prefix := [Lit "api"; Lit "provider"; Lit "actions"] in
  [ (route "POST" prefix, CreateE);
    (route "GET" (prefix ++ [Wild]), GetE);
    (route "POST" (prefix ++ [Wild; Lit "submitted"]), SubmittedE) ].

Definition serve_actions (config : ProviderAccountConfig) (now purged : Z) (random : result bytes) (r : Request) (d : Db)
    (items : Items) : Items * Response :=
  match find_route NewProviderActions (ht_Method r) (ht_Path r) with
  | Some CreateE => create config now purged random r d items
  | Some GetE => get config now r d items
  | Some SubmittedE => submitted now r d items
  | None => (items, no_route NewProviderActions (ht_Path r))
  end.
End Server.
