(* ===== verification/ActionsSpec.v ===== *)
(** * Correctness of the provider actions

    The canonical form of the decimals and the well-formedness of the stored
    actions, as an invariant of every history of the store; the abstract
    lifecycle of an action (opened with fixed terms, submitted, confirmed by
    the chain, forgotten after its expiry) and the simulation of the store and
    its handlers, interleaved in any order, by that lifecycle; what a confirmed
    publication says of the chain. *)

From S2P Require Import Prelude GoStrings GoTime Wire Receipt Messages Db Hex Auth Store Settlement Indexer Sample Http AuthHttp ProviderAccount Actions.
From stdpp Require Import gmap strings relations.
Open Scope string_scope.
Open Scope list_scope.
Open Scope Z_scope.

(** ** Canonical decimals *)
Lemma BitLen_bound n : 0 <= n -> (BitLen n <=? 256) = true <-> n < 2 ^ 256.
Proof.
  intros Hn. unfold BitLen. rewrite Z.leb_le. destruct (Z.eqb_spec n 0) as [->|Hz]; [lia|].
  rewrite Z.abs_eq by done. rewrite (Z.log2_lt_pow2 n 256) by lia. lia.
Qed.

(** An amount or rate is accepted exactly when it is the canonical decimal
    text of an integer below 2^256 (no sign, no leading zero, nothing else),
    positive where a positive one is required. *)
Theorem validDecimal_iff value positive :
  validDecimal value positive = true
  <-> exists n, value = BigString n /\ (if positive then 0 < n else 0 <= n) /\ n < 2 ^ 256.
Proof.
  unfold validDecimal. split.
  - destruct (SetString10 value) as [n|] eqn:E; [|done]. intros Hb.
    apply andb_true_iff in Hb as [Hb Ht%String.eqb_eq]. apply andb_true_iff in Hb as [Hb Hs].
    assert (if positive then 0 < n else 0 <= n) as Hn.
    { destruct positive; cbn in Hs; rewrite ?orb_false_r in Hs; lia. }
    exists n. split_and!; [done|done|]. apply BitLen_bound; [destruct positive; lia|done].
  - intros (n & -> & Hn & Hb). rewrite SetString10_BigString, String.eqb_refl.
    assert (0 <= n) as H0 by (destruct positive; lia). rewrite (proj2 (BitLen_bound n H0) Hb).
    destruct positive; cbn; rewrite ?orb_false_r, ?andb_true_r; lia.
Qed.

(** ** Well-formed actions *)
Definition action_kinds : list string :=
  [ActionPublishOffer; ActionDepositCollateral; ActionRequestCollateralExit; ActionFinalizeCollateralExit].
Definition action_statuses : list string := [ActionPendingWallet; ActionPendingChain; ActionConfirmed].

Record well_formed (a : ProviderAction) : Prop := mkWellFormed {
  wf_kind : pa_Kind a ∈ action_kinds;
  wf_status : pa_Status a ∈ action_statuses;
  wf_owner : is_blank (pa_AccountID a) = false /\ is_blank (pa_WalletAddress a) = false;
  wf_deposit : pa_Kind a = ActionDepositCollateral ->
    pa_Offers a = [] /\ exists n, pa_AmountWei a = BigString n /\ 0 < n < 2 ^ 256;
  wf_exit : pa_Kind a = ActionRequestCollateralExit \/ pa_Kind a = ActionFinalizeCollateralExit ->
    pa_Offers a = [] /\ is_blank (pa_AmountWei a) = true;
  wf_publish : pa_Kind a = ActionPublishOffer ->
    1 <= count (pa_Offers a) <= 64 /\ is_blank (pa_AmountWei a) = true;
  wf_offers : NoDup (map po_OfferID (pa_Offers a)) /\ Forall (fun o => check_offer ∅ o = Ok tt) (pa_Offers a);
  wf_hashes : Forall (fun h => validTransactionHash h = true) (pa_TransactionHashes a)
    /\ count (pa_TransactionHashes a) <= Z.max 1 (count (pa_Offers a));
  wf_submitted : (pa_Status a = ActionPendingWallet -> pa_TransactionHashes a = [])
    /\ (pa_Status a = ActionPendingChain -> pa_TransactionHashes a <> []);
}.

Definition items_ok (items : Items) : Prop :=
  map_Forall (fun id a => pa_ID a = id /\ well_formed a) items /\ Z.of_nat (size items) <= maxProviderActions.

Lemma check_offers_spec offers : forall seen trimmed, check_offers seen offers = Ok trimmed ->
  NoDup (map po_OfferID trimmed) /\ Forall (fun o => check_offer ∅ o = Ok tt) trimmed
  /\ (forall o, o ∈ trimmed -> po_OfferID o ∉ seen) /\ length trimmed = length offers.
Proof.
  induction offers as [|o offers IH]; intros seen trimmed E; cbn [check_offers] in E.
  - injection E as <-. split_and!; [by constructor|by constructor| |done]. intros o Ho. by apply elem_of_nil in Ho.
  - step_ok E as u E1. step_ok E as rest E2. injection E as <-. destruct (IH _ _ E2) as (Hn & Hf & Hs & Hl).
    assert (check_offer ∅ (trim_offer o) = Ok tt /\ po_OfferID (trim_offer o) ∉ seen) as [Hc Hseen].
    { unfold check_offer in *. step_ok E1 as u1 E3. step_ok E1 as u2 E4. rewrite E3.
      apply fail_if_Ok in E4. apply bool_decide_eq_false in E4. split; [|done]. destruct u. by rewrite <- E1. }
    split_and!.
    + cbn [map]. constructor; [|done]. intros (o' & Ho' & Hin)%list_elem_of_fmap. apply (Hs o' Hin).
      apply elem_of_union. left. by apply elem_of_singleton.
    + by constructor.
    + intros o' [->|Ho']%elem_of_cons; [done|].
      intros Hin. apply (Hs o' Ho'). apply elem_of_union. by right.
    + cbn. by rewrite Hl.
Qed.

(** What the validation of an input establishes. *)
Lemma validateProviderActionInput_spec input valid :
  validateProviderActionInput input = Ok valid ->
  pi_Kind valid ∈ action_kinds
  /\ (pi_Kind valid = ActionDepositCollateral ->
      pi_Offers valid = [] /\ exists n, pi_AmountWei valid = BigString n /\ 0 < n < 2 ^ 256)
  /\ (pi_Kind valid = ActionRequestCollateralExit \/ pi_Kind valid = ActionFinalizeCollateralExit ->
      pi_Offers valid = [] /\ is_blank (pi_AmountWei valid) = true)
  /\ (pi_Kind valid = ActionPublishOffer -> 1 <= count (pi_Offers valid) <= 64 /\ is_blank (pi_AmountWei valid) = true)
  /\ NoDup (map po_OfferID (pi_Offers valid)) /\ Forall (fun o => check_offer ∅ o = Ok tt) (pi_Offers valid).
Proof.
  unfold validateProviderActionInput. set (kind := TrimSpace (pi_Kind input)).
  assert (forall l : list ProviderActionOffer, negb (count l =? 0) = false -> l = []) as Hnil.
  { intros [|o l]; [done|]. unfold count. cbn [length]. intros Hc%negb_false_iff%Z.eqb_eq. exfalso. lia. }
  destruct (String.eqb_spec kind ActionDepositCollateral) as [K|K].
  { destruct (_ || _) eqn:G; [done|]. intros [= <-]. cbn [pi_Kind pi_Offers pi_AmountWei]. rewrite K.
    apply orb_false_iff in G as [G1%Hnil G2%negb_false_iff]. rewrite G1.
    apply validDecimal_iff in G2 as (n & Hn & Hp & Hb).
    split_and!; [by repeat constructor|by eauto|by intros [?|?]|done|by constructor|by constructor]. }
  destruct (String.eqb kind ActionRequestCollateralExit || String.eqb kind ActionFinalizeCollateralExit) eqn:K2.
  { destruct (negb (count (pi_Offers input) =? 0) || negb (is_blank (pi_AmountWei input))) eqn:G; [done|]. intros [= <-]. cbn [pi_Kind pi_Offers pi_AmountWei].
    apply orb_false_iff in G as [G1%Hnil G2%negb_false_iff]. rewrite G1.
    apply orb_true_iff in K2. rewrite !String.eqb_eq in K2.
    split_and!; [|done|done| |by constructor|by constructor].
    - destruct K2 as [-> | ->]; by repeat constructor.
    - intros E. destruct K2 as [K2|K2]; rewrite K2 in E; done. }
  destruct (String.eqb_spec kind ActionPublishOffer) as [K3|K3]; [|done].
  destruct (_ || _ || _) eqn:G; [done|]. intros E. step_ok E as trimmed E1. injection E as <-.
  cbn [pi_Kind pi_Offers pi_AmountWei]. rewrite K3.
  apply orb_false_iff in G as [G G3]. apply orb_false_iff in G as [G1%negb_false_iff G2].
  apply check_offers_spec in E1 as (Hn & Hf & _ & Hl). unfold maxProviderActionOffers, count in *.
  split_and!; [by repeat constructor|done|by intros [?|?]| |done|done].
  intros _. split; [lia|done].
Qed.

Lemma well_formed_created id input wallet machineID accountID baseline expires valid :
  is_blank accountID = false -> is_blank wallet = false -> validateProviderActionInput input = Ok valid ->
  well_formed (mkProviderAction id (pi_Kind valid) ActionPendingWallet wallet (pi_AmountWei valid) (pi_Offers valid)
                 [] ∅ expires machineID accountID baseline).
Proof.
  intros Ha Hw (Hk & Hd & He & Hp & Ho)%validateProviderActionInput_spec.
  split; cbn; [done|by repeat constructor|done|done|done|done|done| |done].
  split; [by constructor|unfold count; cbn; lia].
Qed.

Lemma well_formed_submitted hashes a :
  well_formed a -> negb (forallb validTransactionHash hashes) = false ->
  (count hashes =? 0) || (Z.max 1 (count (pa_Offers a)) <? count hashes) = false ->
  well_formed (set_submitted hashes a).
Proof.
  intros [] Hh Hc. apply orb_false_iff in Hc as [H0 Hc]. unfold count in *.
  split; cbn; [done|by repeat constructor|done|done|done|done|done|split|split].
  - apply negb_false_iff in Hh. rewrite forallb_forall in Hh. apply Forall_forall. intros h Hin. apply Hh. by apply list_elem_of_In.
  - unfold count. lia.
  - done.
  - intros _ ->. done.
Qed.

Lemma well_formed_confirmed versions a : well_formed a -> well_formed (set_confirmed versions a).
Proof. intros []. split; cbn; try done. by repeat constructor. Qed.

(** ** Histories of the store *)
Inductive StoreOp :=
| OpCreate (now purged : Z) (random : result bytes) (machineID accountID wallet : string) (input : ProviderActionInput)
    (baseline : ProviderActionBaseline)
| OpGetForAccount (now : Z) (id accountID : string)
| OpSubmitted (now : Z) (id accountID : string) (hashes : list string)
| OpConfirm (id accountID : string) (versions : gmap string Z).

Definition apply_op (op : StoreOp) (items : Items) : Items * result ProviderAction :=
  match op with
  | OpCreate now purged random machineID accountID wallet input baseline =>
      Create now purged random machineID accountID wallet input baseline items
  | OpGetForAccount now id accountID => GetForAccount now id accountID items
  | OpSubmitted now id accountID hashes => Submitted now id accountID hashes items
  | OpConfirm id accountID versions => Confirm id accountID versions items
  end.
Definition run_ops (ops : list StoreOp) (items : Items) : Items :=
  fold_left (fun items op => fst (apply_op op items)) ops items.

Lemma items_ok_subset items items' : items' ⊆ items -> items_ok items -> items_ok items'.
Proof.
  intros Hs [Hf Hc]. split.
  - intros id a Ha. apply Hf. by eapply lookup_weaken.
  - etransitivity; [|exact Hc]. apply Nat2Z.inj_le. by apply map_subseteq_size.
Qed.

Lemma items_ok_replace items id a a' :
  items !! id = Some a -> pa_ID a' = id -> well_formed a' -> items_ok items -> items_ok (<[id := a']> items).
Proof.
  intros Ha Hid Hw [Hf Hc]. split; [by apply map_Forall_insert_2|].
  rewrite map_size_insert_Some; [done|by eauto].
Qed.

Lemma purgeLocked_subset now items : purgeLocked now items ⊆ items.
Proof. apply map_filter_subseteq. Qed.

Lemma find_live_spec now id accountID items items' r :
  find_live now id accountID items = (items', r) ->
  (items' = items \/ (items' = delete id items /\ forall a, items !! id = Some a -> pa_ExpiresAt a <= now))
  /\ (forall a, r = Ok a -> items' = items /\ items !! id = Some a /\ pa_AccountID a = accountID /\ now < pa_ExpiresAt a).
Proof.
  unfold find_live, live. destruct (items !! id) as [a|] eqn:E; [|intros [= <- <-]; split; [right; by split|done]].
  destruct (negb _) eqn:G1.
  { intros [= <- <-]. split; [|done]. right. split; [done|]. intros a' [= <-].
    apply negb_true_iff, Z.ltb_ge in G1. done. }
  destruct (negb (String.eqb _ _)) eqn:G2; [intros [= <- <-]; split; [by left|done]|].
  intros [= <- <-]. split; [by left|]. intros a' [= <-]. bools. apply String.eqb_eq in G2. by split_and!.
Qed.

Lemma apply_op_ok op items : items_ok items -> items_ok (fst (apply_op op items)).
Proof.
  intros Hok. destruct op as [now purged random machineID accountID wallet input baseline|now id accountID|
    now id accountID hashes|id accountID versions]; cbn [apply_op].
  - unfold Create. destruct (_ || _) eqn:G; [done|]. apply orb_false_iff in G as [Ga Gw].
    destruct (validateProviderActionInput input) as [valid|] eqn:V; [|done].
    destruct (providerActionID random) as [id|]; [|done].
    pose proof (items_ok_subset _ _ (purgeLocked_subset purged items) Hok) as [Hf Hc].
    destruct (_ <=? _) eqn:L; [done|]. bools. cbn [fst]. split.
    + apply map_Forall_insert_2; [split; [done|by apply (well_formed_created _ input)]|done].
    + rewrite map_size_insert. destruct (purgeLocked purged items !! id); unfold Datatypes.id; lia.
  - unfold GetForAccount. destruct (find_live _ _ _ _) as [items' r] eqn:E. cbn [fst].
    apply find_live_spec in E as [[->|[-> _]] _]; [done|]. eapply items_ok_subset, Hok. apply delete_subseteq.
  - unfold Submitted. destruct (find_live _ _ _ _) as [items' r] eqn:E. apply find_live_spec in E as [E Er].
    destruct r as [a|e].
    + destruct (Er a eq_refl) as (-> & Ha & _ & _). destruct (String.eqb _ _); [done|].
      destruct (_ || _) eqn:G1; [done|]. destruct (negb _) eqn:G2; [done|]. cbn [fst].
      destruct Hok as [Hf Hc]. destruct (Hf _ _ Ha) as [Hid Hw].
      eapply items_ok_replace; [done|done|by apply well_formed_submitted|by split].
    + cbn [fst]. destruct E as [->|[-> _]]; [done|]. eapply items_ok_subset, Hok. apply delete_subseteq.
  - unfold Confirm. destruct (items !! id) as [a|] eqn:Ha; [|done]. destruct (negb _); [done|]. cbn [fst].
    destruct Hok as [Hf Hc]. destruct (Hf _ _ Ha) as [Hid Hw].
    eapply items_ok_replace; [done|done|by apply well_formed_confirmed|by split].
Qed.

(** C38. Every action the store ever holds is well formed, after any sequence of
    operations with any arguments: it is filed under its own identifier, its
    kind and status are among the declared ones, its amount and offers are what
    its kind requires (a canonical positive amount below 2^256 and no offer for
    a deposit; neither for an exit; one to 64 offers with distinct identifiers
    and canonical rates for a publication), its transaction hashes are valid,
    no more than the action needs, and present exactly from its submission;
    and the store never holds more than 1024 actions. *)
Theorem stored_actions_well_formed ops :
  map_Forall (fun id a => pa_ID a = id /\ well_formed a) (run_ops ops ∅)
  /\ Z.of_nat (size (run_ops ops ∅)) <= 1024.
Proof.
  change (items_ok (run_ops ops ∅)).
  assert (items_ok ∅) as H0 by (split; [apply map_Forall_empty|rewrite map_size_empty; done]).
  revert H0. generalize (∅ : Items). unfold run_ops. induction ops as [|op ops IH]; intros items Hok; [done|].
  cbn [fold_left]. by apply IH, apply_op_ok.
Qed.

(** ** The abstract lifecycle

    What a provider and its browser may rely on: the terms of an action are
    fixed when it is opened, and its phase moves from the wallet to the chain to
    confirmed. *)
Record Terms := mkTerms {
  tm_Kind : string; tm_Wallet : string; tm_Amount : string; tm_Offers : list ProviderActionOffer;
  tm_Expires : Z; tm_Machine : string; tm_Account : string; tm_Baseline : ProviderActionBaseline;
}.
Inductive Phase := PendingWallet | PendingChain (hashes : list string) | Confirmed (versions : gmap string Z).
Abbreviation Lifecycle := (gmap string (Terms * Phase)).

Definition terms_of (a : ProviderAction) : Terms :=
  mkTerms (pa_Kind a) (pa_WalletAddress a) (pa_AmountWei a) (pa_Offers a) (pa_ExpiresAt a) (pa_MachineID a)
    (pa_AccountID a) (pa_Baseline a).
Definition phase_of (a : ProviderAction) : Phase :=
  if String.eqb (pa_Status a) ActionConfirmed then Confirmed (pa_Versions a)
  else if String.eqb (pa_Status a) ActionPendingChain then PendingChain (pa_TransactionHashes a)
  else PendingWallet.
Definition abs_action (a : ProviderAction) : Terms * Phase := (terms_of a, phase_of a).
Definition abs (items : Items) : Lifecycle := abs_action <$> items.

Definition handed_over (a : ProviderAction) : Prop := pa_Status a = ActionPendingChain \/ pa_Status a = ActionConfirmed.

(** The action as it was opened, from its terms. *)
Definition opened (t : Terms) : ProviderAction :=
  mkProviderAction "" (tm_Kind t) ActionPendingWallet (tm_Wallet t) (tm_Amount t) (tm_Offers t) [] ∅ (tm_Expires t)
    (tm_Machine t) (tm_Account t) (tm_Baseline t).

(** What a creation was prepared with, and what the preparation gave. *)
Record Prepared := mkPrepared {
  pp_Source : string; pp_Machine : string; pp_Account : string; pp_Input : ProviderActionInput;
  pp_Wallet : string; pp_Baseline : ProviderActionBaseline;
}.
(** What a critical section of the store did, by its result: an operation that
    failed, or found the action confirmed already, did nothing. *)
Inductive Done :=
| Nothing | Opening (id : string) | Submission (id : string) (hashes : list string) | Confirmation (id : string) (versions : gmap string Z).

Section Lifecycle.
Context `{Ethereum} (config : ProviderAccountConfig).

(** The input of a creation, as it came, passes the checks against a database. *)
Definition prepared_in (d : Db) (p : Prepared) : Prop :=
  prepareProviderAction config (pp_Source p) (pp_Machine p) (pp_Account p) (pp_Input p) d = Ok (pp_Wallet p, pp_Baseline p).
(** The terms are the prepared input, validated and trimmed. *)
Definition terms_from (p : Prepared) (t : Terms) : Prop :=
  exists valid, validateProviderActionInput (pp_Input p) = Ok valid
    /\ (tm_Kind t, tm_Amount t, tm_Offers t) = (pi_Kind valid, pi_AmountWei valid, pi_Offers valid)
    /\ (tm_Wallet t, tm_Baseline t, tm_Machine t, tm_Account t) = (pp_Wallet p, pp_Baseline p, pp_Machine p, pp_Account p).
(** A database shows the effects of an action on the chain. *)
Definition shows_effects (d : Db) (t : Terms) (versions : gmap string Z) : Prop :=
  verifyProviderAction config (opened t) d = Ok (versions, true).

(** The abstract state: the broker's database at the moment, the creations that
    passed the checks, the actions whose effects were seen, and the actions. *)
Record Spec := mkSpec {
  sp_Db : Db; sp_prepared : list Prepared; sp_seen : list (string * gmap string Z); sp_actions : Lifecycle;
}.
(** Actions disappear when they expired. *)
Definition forgotten (now : Z) (s s' : Lifecycle) : Prop :=
  s' ⊆ s /\ forall id t p, s !! id = Some (t, p) -> s' !! id = None -> tm_Expires t <= now.

Inductive spec_does (now : Z) (s : Spec) : Done -> Spec -> Prop :=
| spec_database d : spec_does now s Nothing (mkSpec d (sp_prepared s) (sp_seen s) (sp_actions s))
| spec_prepare p : prepared_in (sp_Db s) p -> spec_does now s Nothing (mkSpec (sp_Db s) (p :: sp_prepared s) (sp_seen s) (sp_actions s))
| spec_look id t hashes versions : sp_actions s !! id = Some (t, PendingChain hashes) -> shows_effects (sp_Db s) t versions ->
    spec_does now s Nothing (mkSpec (sp_Db s) (sp_prepared s) ((id, versions) :: sp_seen s) (sp_actions s))
| spec_forget actions : forgotten now (sp_actions s) actions ->
    spec_does now s Nothing (mkSpec (sp_Db s) (sp_prepared s) (sp_seen s) actions)
| spec_open actions id t p : forgotten now (sp_actions s) actions -> actions !! id = None -> p ∈ sp_prepared s -> terms_from p t ->
    spec_does now s (Opening id) (mkSpec (sp_Db s) (sp_prepared s) (sp_seen s) (<[id := (t, PendingWallet)]> actions))
| spec_submit id t p hashes : sp_actions s !! id = Some (t, p) -> (forall v, p <> Confirmed v) -> hashes <> [] ->
    Forall (fun h => validTransactionHash h = true) hashes ->
    spec_does now s (Submission id hashes) (mkSpec (sp_Db s) (sp_prepared s) (sp_seen s) (<[id := (t, PendingChain hashes)]> (sp_actions s)))
| spec_confirm id t p versions : sp_actions s !! id = Some (t, p) -> p <> PendingWallet -> (id, versions) ∈ sp_seen s ->
    spec_does now s (Confirmation id versions) (mkSpec (sp_Db s) (sp_prepared s) (sp_seen s) (<[id := (t, Confirmed versions)]> (sp_actions s))).

(** ** The store under concurrent handlers

    A step is a change of the database by the rest of the broker, the
    preparation of a creation against the database of that moment, or one
    critical section of the store, with the verification against the database of
    that moment that follows the reading of an action; the number is what it reads of the
    store's clock.  [w_past] holds the databases before; [w_prepared] and [w_verified] the preparations and the
    verifications that succeeded, whose creation and confirmation may come at any
    later time; [w_used] the identifiers drawn so far. *)
Record World := mkWorld {
  w_Db : Db; w_past : list Db; w_items : Items; w_used : gset string;
  w_prepared : list Prepared; w_verified : list (string * string * gmap string Z);
}.
(** The databases the broker had. *)
Definition databases (w : World) : list Db := w_Db w :: w_past w.

Definition draw (random : result bytes) : gset string :=
  match providerActionID random with Ok id => {[id]} | Err _ => ∅ end.
(** [crypto/rand] does not repeat an identifier. *)
Definition fresh (random : result bytes) (w : World) : Prop :=
  forall id, providerActionID random = Ok id -> id ∉ w_used w.

(** The verification of the handler [get], on the action it has read. *)
Definition verified_by (account : string) (r : result ProviderAction) (d : Db) : list (string * string * gmap string Z) :=
  match r with
  | Ok a =>
      if String.eqb (pa_Status a) ActionPendingChain then
        match verifyProviderAction config a d with
        | Ok (versions, true) => [(pa_ID a, account, versions)]
        | _ => []
        end
      else []
  | Err _ => []
  end.
Definition created_by (now purged : Z) (random : result bytes) (p : Prepared) (items : Items) : Items * result ProviderAction :=
  Create now purged random (pp_Machine p) (pp_Account p) (pp_Wallet p) (pp_Input p) (pp_Baseline p) items.

Inductive does (w : World) : Z -> Done -> World -> Prop :=
| do_database now d : does w now Nothing (mkWorld d (databases w) (w_items w) (w_used w) (w_prepared w) (w_verified w))
| do_prepare now p : prepared_in (w_Db w) p ->
    does w now Nothing (mkWorld (w_Db w) (w_past w) (w_items w) (w_used w) (p :: w_prepared w) (w_verified w))
| do_create now purged random p : p ∈ w_prepared w -> fresh random w ->
    does w purged (match snd (created_by now purged random p (w_items w)) with Ok a => Opening (pa_ID a) | Err _ => Nothing end)
      (mkWorld (w_Db w) (w_past w) (fst (created_by now purged random p (w_items w))) (draw random ∪ w_used w) (w_prepared w) (w_verified w))
| do_get now id accountID :
    does w now Nothing
      (mkWorld (w_Db w) (w_past w) (fst (GetForAccount now id accountID (w_items w))) (w_used w) (w_prepared w)
         (verified_by accountID (snd (GetForAccount now id accountID (w_items w))) (w_Db w) ++ w_verified w))
| do_confirm now id accountID versions : (id, accountID, versions) ∈ w_verified w ->
    does w now (match snd (Confirm id accountID versions (w_items w)) with Ok _ => Confirmation id versions | Err _ => Nothing end)
      (mkWorld (w_Db w) (w_past w) (fst (Confirm id accountID versions (w_items w))) (w_used w) (w_prepared w) (w_verified w))
| do_submitted now id accountID hashes :
    does w now (match snd (Submitted now id accountID hashes (w_items w)) with
            | Ok a => if String.eqb (pa_Status a) ActionConfirmed then Nothing else Submission id hashes
            | Err _ => Nothing
            end)
      (mkWorld (w_Db w) (w_past w) (fst (Submitted now id accountID hashes (w_items w))) (w_used w) (w_prepared w) (w_verified w)).
Definition step (w w' : World) : Prop := exists now done, does w now done w'.

Definition initial (d : Db) : World := mkWorld d [] ∅ ∅ [] [].
Definition reachable (w : World) : Prop := exists d, rtc step (initial d) w.
Lemma reachable_later w w' : reachable w -> rtc step w w' -> reachable w'.
Proof. intros [d Hr] Hs. exists d. by etransitivity. Qed.

(** One of the broker's databases admitted the terms, or shows the effects. *)
Definition admitted (dbs : list Db) (t : Terms) : Prop := exists d p, d ∈ dbs /\ prepared_in d p /\ terms_from p t.
Definition evidence (dbs : list Db) (t : Terms) (versions : gmap string Z) : Prop := exists d, d ∈ dbs /\ shows_effects d t versions.
Lemma admitted_mono dbs dbs' t : dbs ⊆ dbs' -> admitted dbs t -> admitted dbs' t.
Proof. intros Hs (d & p & Hd & Hp). exists d, p. split; [by apply Hs|done]. Qed.
Lemma evidence_mono dbs dbs' t versions : dbs ⊆ dbs' -> evidence dbs t versions -> evidence dbs' t versions.
Proof. intros Hs (d & Hd & He). exists d. split; [by apply Hs|done]. Qed.

(** Identifiers of the store and of verifications are drawn; a verification
    concerns a submitted action and is evidence for its terms. *)
Record world_ok (w : World) : Prop := mkWorldOk {
  wo_items : forall id a, w_items w !! id = Some a -> pa_ID a = id /\ id ∈ w_used w;
  wo_prepared : forall p, p ∈ w_prepared w -> exists d, d ∈ databases w /\ prepared_in d p;
  wo_terms : forall id a, w_items w !! id = Some a -> admitted (databases w) (terms_of a)
    /\ (pa_Status a = ActionConfirmed -> evidence (databases w) (terms_of a) (pa_Versions a));
  wo_verified : forall id account versions, (id, account, versions) ∈ w_verified w ->
    id ∈ w_used w /\ forall a, w_items w !! id = Some a -> handed_over a /\ evidence (databases w) (terms_of a) versions;
}.

Lemma opened_verify a d : verifyProviderAction config (opened (terms_of a)) d = verifyProviderAction config a d.
Proof. done. Qed.

(** A step that keeps or removes actions. *)
Lemma world_ok_subset w d past items' used' prepared' verified' :
  world_ok w -> databases w ⊆ d :: past -> items' ⊆ w_items w -> w_used w ⊆ used' ->
  (forall p, p ∈ prepared' -> p ∈ w_prepared w \/ prepared_in d p) ->
  (forall id account versions, (id, account, versions) ∈ verified' ->
     (id, account, versions) ∈ w_verified w
     \/ id ∈ w_used w /\ forall a, items' !! id = Some a -> handed_over a /\ evidence (d :: past) (terms_of a) versions) ->
  world_ok (mkWorld d past items' used' prepared' verified').
Proof.
  intros [Hi Hp Ht Hv] Hdb Hs Hu Hnp Hn. split; unfold databases in *; cbn.
  - intros id a Ha. destruct (Hi id a) as [? ?]; [by eapply lookup_weaken|]. split; [done|by apply Hu].
  - intros p [Hin|Hin]%Hnp; [|exists d; split; [by left|done]]. destruct (Hp p Hin) as (d0 & Hd0 & Hp0). exists d0. split; [by apply Hdb|done].
  - intros id a Ha. destruct (Ht id a) as [Hadm Hev]; [by eapply lookup_weaken|].
    split; [by eapply admitted_mono|]. intros Hc. by eapply evidence_mono, Hev.
  - intros id account versions [Hin|[Hid Ha]]%Hn; [|split; [by apply Hu|done]].
    destruct (Hv _ _ _ Hin) as [Hid Ha]. split; [by apply Hu|]. intros a Hl. destruct (Ha a) as [? ?]; [by eapply lookup_weaken|].
    split; [done|by eapply evidence_mono].
Qed.

(** Replacing an action by one with the same terms, not back in the wallet's hands. *)
Lemma world_ok_replace w id a a' :
  world_ok w -> w_items w !! id = Some a -> pa_ID a' = pa_ID a -> terms_of a' = terms_of a -> handed_over a' ->
  (pa_Status a' = ActionConfirmed -> evidence (databases w) (terms_of a) (pa_Versions a')) ->
  world_ok (mkWorld (w_Db w) (w_past w) (<[id := a']> (w_items w)) (w_used w) (w_prepared w) (w_verified w)).
Proof.
  intros [Hi Hp Ht Hv] Ha Hid Hterms Hs Hev. split; cbn; [|exact Hp|..].
  - intros id' b [[<- <-]|[_ Hb]]%lookup_insert_Some; [|by apply Hi]. destruct (Hi _ _ Ha). by rewrite Hid.
  - intros id' b [[<- <-]|[_ Hb]]%lookup_insert_Some; [|by apply (Ht id')]. rewrite Hterms. split; [by apply (Ht id)|done].
  - intros id' account versions Hin. destruct (Hv _ _ _ Hin) as [Hu Hl]. split; [done|].
    intros b [[<- <-]|[_ Hb]]%lookup_insert_Some; [|by apply Hl]. split; [done|]. rewrite Hterms. by apply Hl.
Qed.

Lemma find_live_subset now id accountID items : fst (find_live now id accountID items) ⊆ items.
Proof.
  destruct (find_live now id accountID items) as [items' r] eqn:E.
  apply find_live_spec in E as [[->|[-> _]] _]; [done|apply delete_subseteq].
Qed.

Lemma databases_self w : databases w ⊆ w_Db w :: w_past w.
Proof. done. Qed.
#[local] Hint Resolve databases_self : core.

Lemma world_ok_step w clock done w' : world_ok w -> does w clock done w' -> world_ok w'.
Proof.
  intros Hok Hst. destruct Hst as [now d|now p Hp|now purged random p Hp Hf|now id accountID|now id accountID versions Hin|now id accountID hashes].
  - apply (world_ok_subset w); auto. by apply list_subseteq_cons.
  - apply (world_ok_subset w); auto. intros q [->|Hq]%elem_of_cons; auto.
  - unfold created_by, Create. assert (w_used w ⊆ draw random ∪ w_used w) as Hu by apply union_subseteq_r.
    assert (forall items', items' ⊆ w_items w ->
      world_ok (mkWorld (w_Db w) (w_past w) items' (draw random ∪ w_used w) (w_prepared w) (w_verified w))) as Hsub
      by (intros; apply (world_ok_subset w); auto).
    destruct (_ || _); [by apply Hsub|]. destruct (validateProviderActionInput (pp_Input p)) as [valid|] eqn:V; [|by apply Hsub].
    unfold draw, fresh in *. destruct (providerActionID random) as [id|]; [|by apply Hsub].
    destruct (_ <=? _); [apply Hsub, purgeLocked_subset|]. cbn [fst].
    pose proof (Hsub _ (purgeLocked_subset purged (w_items w))) as [Hi Hpr Ht Hv]. destruct Hok as [_ Hp0 _ Hv0]. cbn in Hi, Hpr, Ht, Hv.
    specialize (Hf id eq_refl). split; cbn; [|exact Hpr|..].
    + intros id' a [[<- <-]|[_ Ha]]%lookup_insert_Some; [|by apply Hi]. split; [done|]. apply elem_of_union. left.
      by apply elem_of_singleton.
    + intros id' a [[<- <-]|[_ Ha]]%lookup_insert_Some; [|by apply (Ht id')]. split; [|done].
      destruct (Hp0 p Hp) as (d & Hd & Hpd). exists d, p. split_and!; [done..|]. by exists valid.
    + intros id' account versions Hin. destruct (Hv _ _ _ Hin) as [Hid Ha]. split; [done|].
      intros a [[<- _]|[_ Hl]]%lookup_insert_Some; [|by apply Ha]. by destruct (Hv0 _ _ _ Hin).
  - apply (world_ok_subset w); auto; [apply find_live_subset|].
    intros id' account versions [Hin|Hin]%elem_of_app; [right|by left]. unfold GetForAccount in *.
    destruct (find_live now id accountID (w_items w)) as [items' r] eqn:E. cbn in *.
    apply find_live_spec in E as [_ Er]. unfold verified_by in Hin. destruct r as [a|]; [|by apply elem_of_nil in Hin].
    destruct (Er a eq_refl) as (-> & Ha & _ & _).
    destruct (String.eqb_spec (pa_Status a) ActionPendingChain) as [Hs|]; [|by apply elem_of_nil in Hin].
    destruct (verifyProviderAction config a (w_Db w)) as [[v []]|] eqn:V; try (by apply elem_of_nil in Hin).
    apply list_elem_of_singleton in Hin. injection Hin as -> -> ->. destruct Hok as [Hi _ _ _].
    destruct (Hi _ _ Ha) as [-> Hu]. split; [done|]. intros b Hb. rewrite Ha in Hb. injection Hb as <-. split; [by left|].
    exists (w_Db w). split; [by left|]. unfold shows_effects. by rewrite opened_verify.
  - unfold Confirm. destruct (w_items w !! id) as [a|] eqn:Ha; [|by destruct w]. destruct (negb _); [by destruct w|].
    cbn [fst]. destruct (wo_verified w Hok _ _ _ Hin) as [_ Hv]. eapply world_ok_replace; try done; [by right|].
    intros _. by apply Hv.
  - unfold Submitted. destruct (find_live now id accountID (w_items w)) as [items' r] eqn:E.
    pose proof (find_live_subset now id accountID (w_items w)) as Hs. rewrite E in Hs. cbn in Hs.
    apply find_live_spec in E as [_ Er].
    assert (world_ok (mkWorld (w_Db w) (w_past w) items' (w_used w) (w_prepared w) (w_verified w))) as Hsame by (apply (world_ok_subset w); auto).
    destruct r as [a|]; [|done]. destruct (Er a eq_refl) as (-> & Ha & _ & _).
    destruct (String.eqb _ _); [done|]. destruct (_ || _); [done|]. destruct (negb _); [done|]. cbn [fst].
    eapply world_ok_replace; try done. by left.
Qed.

Lemma reachable_world_ok w : reachable w -> world_ok w.
Proof.
  intros [d Hr]. assert (world_ok (initial d)) as H0.
  { split; cbn; [intros id a Ha; by rewrite lookup_empty in Ha|by intros p Hp%elem_of_nil|intros id a Ha; by rewrite lookup_empty in Ha|].
    intros id account versions Hin. by apply elem_of_nil in Hin. }
  revert H0. induction Hr as [|w1 w2 w3 (now & done & Hd) _ IH]; eauto using world_ok_step.
Qed.

(** ** The simulation *)
Lemma abs_insert id a items : abs (<[id := a]> items) = <[id := abs_action a]> (abs items).
Proof. apply fmap_insert. Qed.

Lemma abs_lookup id items : abs items !! id = abs_action <$> items !! id.
Proof. apply lookup_fmap. Qed.

Definition abs_world (w : World) : Spec :=
  mkSpec (w_Db w) (w_prepared w) (map (fun v => (fst (fst v), snd v)) (w_verified w)) (abs (w_items w)).

Lemma abs_forget now items items' :
  items' ⊆ items -> (forall id a, items !! id = Some a -> items' !! id = None -> pa_ExpiresAt a <= now) -> forgotten now (abs items) (abs items').
Proof.
  intros Hs Hx. split; [by apply map_fmap_mono|].
  intros id t p. rewrite !abs_lookup. destruct (items !! id) as [a|] eqn:E; [|done]. intros [= <- <-].
  destruct (items' !! id) eqn:E'; [done|]. intros _. by eapply Hx.
Qed.
Lemma forgotten_refl now s : forgotten now s s.
Proof. split; [done|]. congruence. Qed.

Lemma purgeLocked_expired now items id a :
  items !! id = Some a -> purgeLocked now items !! id = None -> pa_ExpiresAt a <= now.
Proof.
  intros Ha Hp. apply map_lookup_filter_None in Hp as [Hp|Hp]; [congruence|]. specialize (Hp a Ha).
  unfold live in Hp. cbn in Hp. destruct (now <? pa_ExpiresAt a) eqn:L; [done|]. lia.
Qed.

Lemma find_live_forget now id accountID items : forgotten now (abs items) (abs (fst (find_live now id accountID items))).
Proof.
  destruct (find_live now id accountID items) as [items' r] eqn:E. cbn [fst].
  apply find_live_spec in E as [[->|[-> Hx]] _]; apply (abs_forget now); [done|congruence|apply delete_subseteq|].
  intros id' a Ha Hd. apply lookup_delete_None in Hd as [<-|Hd]; [by apply Hx|congruence].
Qed.

Lemma step_lifecycle w clock done w' : reachable w -> does w clock done w' -> spec_does clock (abs_world w) done (abs_world w').
Proof.
  intros Hr%reachable_world_ok Hst. unfold abs_world at 2.
  destruct Hst as [now d|now p Hp|now purged random p Hp Hf|now id accountID|now id accountID versions Hin|now id accountID hashes];
    cbn [w_Db w_items w_prepared w_verified].
  - apply (spec_database _ (abs_world w)).
  - by apply (spec_prepare _ (abs_world w)).
  - assert (forall items, forgotten purged (abs (w_items w)) (abs items) -> spec_does purged (abs_world w) Nothing
      (mkSpec (w_Db w) (w_prepared w) (map (fun v => (fst (fst v), snd v)) (w_verified w)) (abs items))) as Hforget
      by (intros items Hi; by apply (spec_forget _ (abs_world w))).
    unfold created_by, Create. destruct (_ || _); [apply Hforget, forgotten_refl|].
    destruct (validateProviderActionInput (pp_Input p)) as [valid|] eqn:V; [|apply Hforget, forgotten_refl].
    destruct (providerActionID random) as [id|] eqn:R; [|apply Hforget, forgotten_refl]. specialize (Hf id R).
    assert (forgotten purged (abs (w_items w)) (abs (purgeLocked purged (w_items w)))) as Hpurge
      by (apply (abs_forget purged); [apply purgeLocked_subset|apply purgeLocked_expired]).
    destruct (_ <=? _); [by apply Hforget|]. cbn [fst snd pa_ID]. rewrite abs_insert.
    apply (spec_open _ (abs_world w) _ id _ p); [exact Hpurge| |exact Hp|by exists valid].
    rewrite abs_lookup. destruct (purgeLocked purged (w_items w) !! id) as [a|] eqn:E; [|done]. exfalso.
    destruct (wo_items w Hr id a) as [_ Hu]; [|done]. eapply lookup_weaken, purgeLocked_subset. exact E.
  - unfold GetForAccount. pose proof (find_live_forget now id accountID (w_items w)) as Hforget.
    destruct (find_live now id accountID (w_items w)) as [items' r] eqn:E. cbn [fst snd] in *.
    assert (spec_does now (abs_world w) Nothing
      (mkSpec (w_Db w) (w_prepared w) (map (fun v => (fst (fst v), snd v)) (w_verified w)) (abs items'))) as Hplain
      by (by apply (spec_forget _ (abs_world w))).
    apply find_live_spec in E as [_ Er]. unfold verified_by. destruct r as [a|]; [|exact Hplain].
    destruct (Er a eq_refl) as (-> & Ha & _ & _). destruct (String.eqb_spec (pa_Status a) ActionPendingChain) as [Hs|]; [|exact Hplain].
    destruct (verifyProviderAction config a (w_Db w)) as [[v []]|] eqn:V; try exact Hplain.
    destruct (wo_items w Hr _ _ Ha) as [-> _]. cbn [app map fst snd].
    apply (spec_look _ (abs_world w) id (terms_of a) (pa_TransactionHashes a)).
    + cbn. rewrite abs_lookup, Ha. cbn. unfold abs_action, phase_of. by rewrite Hs.
    + unfold shows_effects. by rewrite opened_verify.
  - unfold Confirm. destruct (w_items w !! id) as [a|] eqn:Ha; [|apply (spec_forget _ (abs_world w)), forgotten_refl].
    destruct (negb _); [apply (spec_forget _ (abs_world w)), forgotten_refl|].
    cbn [fst snd]. rewrite abs_insert. destruct (wo_verified w Hr _ _ _ Hin) as [_ Hv]. destruct (Hv a Ha) as [Hh _].
    apply (spec_confirm _ (abs_world w) id (terms_of a) (phase_of a)).
    + cbn. by rewrite abs_lookup, Ha.
    + unfold phase_of. by destruct Hh as [-> | ->].
    + cbn. apply list_elem_of_fmap. by exists (id, accountID, versions).
  - unfold Submitted. pose proof (find_live_forget now id accountID (w_items w)) as Hforget.
    destruct (find_live now id accountID (w_items w)) as [items' r] eqn:E. cbn [fst snd] in *.
    apply find_live_spec in E as [_ Er]. destruct r as [a|]; [|by apply (spec_forget _ (abs_world w))].
    destruct (Er a eq_refl) as (-> & Ha & _ & _).
    destruct (String.eqb_spec (pa_Status a) ActionConfirmed) as [Hc|Hs].
    { cbn [fst snd]. rewrite Hc. apply (spec_forget _ (abs_world w)), forgotten_refl. }
    destruct (_ || _) eqn:G1; [apply (spec_forget _ (abs_world w)), forgotten_refl|].
    destruct (negb _) eqn:G2; [apply (spec_forget _ (abs_world w)), forgotten_refl|]. cbn [fst snd].
    rewrite abs_insert. apply orb_false_iff in G1 as [G1 _]. apply negb_false_iff in G2. rewrite forallb_forall in G2.
    apply (spec_submit _ (abs_world w) id (terms_of a) (phase_of a)).
    + cbn. by rewrite abs_lookup, Ha.
    + intros v. unfold phase_of. apply String.eqb_neq in Hs. rewrite Hs. by destruct (String.eqb (pa_Status a) ActionPendingChain).
    + intros ->. done.
    + apply Forall_forall. intros h Hin. by apply G2, list_elem_of_In.
Qed.


(** ** The handlers are sequences of steps *)
Lemma actions_handler_steps now purged random r w items' response :
  fresh random w -> serve_actions config now purged random r (w_Db w) (w_items w) = (items', response) ->
  exists w', rtc step w w' /\ w_items w' = items' /\ databases w' = databases w.
Proof.
  intros Hf E. unfold serve_actions in E.
  assert (exists w', rtc step w w' /\ w_items w' = w_items w /\ databases w' = databases w) as Hstay by (by exists w).
  destruct (find_route _ _ _) as [[]|]; [| | |by injection E as <- _].
  - unfold create in E. destruct (identity now r _) as [[[source machineID] accountID]|]; [|by injection E as <- _].
    destruct (decodeProviderActionJSON _ _ _) as [input|]; [|by injection E as <- _].
    destruct (prepareProviderAction _ _ _ _ _ _) as [[wallet baseline]|] eqn:P; [|by injection E as <- _].
    set (p := mkPrepared source machineID accountID input wallet baseline).
    set (w1 := mkWorld (w_Db w) (w_past w) (w_items w) (w_used w) (p :: w_prepared w) (w_verified w)).
    eexists. split; [eapply rtc_l; [exists 0, Nothing; by apply (do_prepare w 0 p)|]; apply rtc_once; do 2 eexists;
      apply (do_create w1 now purged random p); [by left|done]|]. cbn [w_items w1]. split; [|done].
    unfold created_by. cbn [p pp_Machine pp_Account pp_Wallet pp_Input pp_Baseline].
    destruct (Create _ _ _ _ _ _ _ _ _) as [items2 [a|e]]; by injection E as <- _.
  - unfold get in E. destruct (identity now r _) as [[[source machineID] accountID]|]; [|by injection E as <- _].
    pose proof (do_get w now (path_value 3 (ht_Path r)) accountID) as Hget.
    destruct (GetForAccount _ _ _ _) as [items2 res]. cbn [fst snd] in Hget. unfold verified_by in Hget.
    assert (forall w2, does w now Nothing w2 -> w_items w2 = items2 -> databases w2 = databases w ->
      items' = items2 -> exists w', rtc step w w' /\ w_items w' = items' /\ databases w' = databases w) as Hone.
    { intros w2 H1 H2 H3 ->. exists w2. split; [apply rtc_once; by exists now, Nothing|done]. }
    destruct res as [a|]; [|injection E as <- _; by eapply Hone].
    destruct (_ && _) in E; [injection E as <- _; by eapply Hone|].
    destruct (String.eqb (pa_Status a) ActionPendingChain); [|injection E as <- _; by eapply Hone].
    destruct (verifyProviderAction config a _) as [[v []]|];
      [|injection E as <- _; by eapply Hone..].
    eexists. split; [eapply rtc_l; [exists now, Nothing; exact Hget|]; apply rtc_once; exists 0; eexists; eapply (do_confirm _ 0 (pa_ID a) accountID v);
      cbn; by left|]. cbn [w_items]. split; [|done]. destruct (Confirm _ _ _ _) as [items3 [b|]]; by injection E as <- _.
  - unfold submitted in E. destruct (identity now r _) as [[[source machineID] accountID]|]; [|by injection E as <- _].
    destruct (negb _) in E; [by injection E as <- _|].
    destruct (decodeProviderActionJSON _ _ _) as [hashes|]; [|by injection E as <- _].
    pose proof (do_submitted w now (path_value 3 (ht_Path r)) accountID hashes) as Hsub.
    destruct (Submitted _ _ _ _ _) as [items2 res]. cbn [fst snd] in Hsub. eexists. split; [apply rtc_once; do 2 eexists; exact Hsub|].
    cbn [w_items]. split; [|done]. destruct res as [a|e]; [by injection E as <- _|]. destruct e; by injection E as <- _.
Qed.

Lemma max_nullable_Some {R} (p : R -> bool) value (t : list R) m :
  max_nullable p value t = Some m ->
  (exists row, row ∈ t /\ p row = true /\ value row = m) /\ forall row, row ∈ t -> p row = true -> value row <= m.
Proof.
  revert m. induction t as [|row t IH]; intros m E; [done|]. cbn in E. destruct (p row) eqn:P.
  - injection E as <-. destruct (foldr _ None t) as [m0|] eqn:F.
    + destruct (IH m0 F) as [(r & Hr & Pr & Vr) Hm]. split.
      * destruct (Z.max_spec (value row) m0) as [[_ ->]|[_ ->]]; [exists r; split; [by right|done]|exists row; split; [by left|done]].
      * intros r' [->|Hr']%elem_of_cons P'; [lia|]. specialize (Hm r' Hr' P'). lia.
    + split; [exists row; split; [by left|done]|]. intros r' [->|Hr']%elem_of_cons P'; [lia|]. exfalso.
      clear -F Hr' P'. induction t as [|x t IH]; [by apply elem_of_nil in Hr'|]. cbn in F.
      apply elem_of_cons in Hr' as [<-|Hr']; [by rewrite P' in F|]. destruct (p x); [done|]. by apply IH.
  - destruct (IH m E) as [(r & Hr & Pr) Hm]. split; [exists r; split; [by right|done]|].
    intros r' [->|Hr']%elem_of_cons P'; [congruence|by apply Hm].
Qed.

Lemma set_version_lookup offerID v versions id x :
  set_version offerID v versions !! id = Some x ->
  (offerID = id /\ exists m, v = Some m /\ x = wrap64 m) \/ versions !! id = Some x.
Proof.
  unfold set_version. destruct v as [m|]; [|by right].
  intros [[<- <-]|[_ Hl]]%lookup_insert_Some; [left; split; [done|by exists m]|by right].
Qed.

Lemma collect_versions_matching wallet d qs : forall latest matching l m id x,
  collect_versions config wallet d qs latest matching = Ok (l, m) -> m !! id = Some x ->
  matching !! id = Some x
  \/ exists q lv v, q ∈ qs /\ oq_OfferID q = id /\ offer_versions config wallet d q = Ok (lv, Some v) /\ x = wrap64 v.
Proof.
  induction qs as [|q qs IH]; intros latest matching l m id x E Hm; cbn [collect_versions] in E.
  - injection E as <- <-. by left.
  - step_ok E as lm E1. destruct lm as [lv mv]. destruct (IH _ _ _ _ _ _ E Hm) as [Hs|(q' & lv' & v & Hq & Hr)].
    + apply set_version_lookup in Hs as [[Hid (v & -> & ->)]|Hs]; [|by left]. right. exists q, lv, v. split; [by left|done].
    + right. exists q', lv', v. split; [by right|done].
Qed.

Lemma offer_confirmations_spec baseline matching offers : forall acc versions o,
  offer_confirmations baseline matching offers acc = Some versions ->
  (forall id v, acc !! id = Some v -> v = version_of matching id) ->
  (forall id v, versions !! id = Some v -> v = version_of matching id)
  /\ (forall id, is_Some (acc !! id) -> is_Some (versions !! id))
  /\ (o ∈ offers -> is_Some (versions !! po_OfferID o) /\ version_of matching (po_OfferID o) <> 0
                    /\ version_of baseline (po_OfferID o) < version_of matching (po_OfferID o)).
Proof.
  induction offers as [|p offers IH]; intros acc versions o E Hacc; cbn [offer_confirmations] in E.
  - injection E as <-. split_and!; [done|done|by intros Hin%elem_of_nil].
  - destruct (_ || _) eqn:G; [done|]. bools.
    destruct (IH _ _ o E) as (Q1 & Q2 & Q3).
    { intros id v [[<- <-]|[_ Hl]]%lookup_insert_Some; [done|by apply Hacc]. }
    split_and!; [done| |].
    + intros id Hid. apply Q2. destruct (decide (id = po_OfferID p)) as [->|Hne];
        [by rewrite lookup_insert_eq|by rewrite lookup_insert_ne].
    + intros [->|Hin]%elem_of_cons; [|by apply Q3]. split_and!; [|done|lia]. apply Q2. by rewrite lookup_insert_eq.
Qed.

Lemma confirmed_offer_on_chain w id a o :
  reachable w -> w_items w !! id = Some a -> pa_Status a = ActionConfirmed -> pa_Kind a = ActionPublishOffer ->
  o ∈ pa_Offers a ->
  exists d wallet row, d ∈ databases w /\ account_wallet (pa_AccountID a) d = Ok wallet /\ row ∈ chain_offers d
  /\ own_offer config wallet row = true
  /\ co_offer row = Keccak256Hex (po_OfferID o) /\ co_model_hash row = Keccak256Hex (po_Model o)
  /\ co_capability_hash row = Keccak256Hex (GoStrings.Join (sort_strings (po_Capabilities o)) ",")
  /\ BigString (co_input row) = po_InputPerMillionWei o /\ BigString (co_output row) = po_OutputPerMillionWei o
  /\ BigString (co_compute row) = po_ComputePerSecondWei o
  /\ pa_Versions a !! po_OfferID o = Some (wrap64 (co_version row))
  /\ version_of (bl_Versions (pa_Baseline a)) (po_OfferID o) < wrap64 (co_version row).
Proof.
  intros Hr Ha Hs Hk Ho. destruct (wo_terms w (reachable_world_ok w Hr) _ _ Ha) as [Hadm Hev].
  destruct (Hev Hs) as (d & Hin & Hd). destruct Hadm as (d0 & p & _ & _ & valid & V & [= _ _ Hoff] & _). unfold shows_effects in Hd.
  apply validateProviderActionInput_spec in V as (_ & _ & _ & _ & Hn & Hc). rewrite <- Hoff in Hn, Hc.
  rewrite opened_verify in Hd. unfold verifyProviderAction in Hd. step_ok Hd as state E1. injection Hd as Hd.
  unfold providerActionConfirmed in Hd. rewrite Hk in Hd. change (String.eqb ActionPublishOffer ActionPublishOffer) with true in Hd.
  destruct (offer_confirmations _ _ _ _) as [versions|] eqn:C; [|done]. injection Hd as ->.
  destruct (offer_confirmations_spec _ _ _ _ _ o C) as (H1 & _ & H3); [by intros i v Hv; rewrite lookup_empty in Hv|].
  destruct (H3 Ho) as ([x Hx] & Hnz & Hlt). pose proof (H1 _ _ Hx) as ->.
  unfold ProviderActionStateOf in E1. step_ok E1 as wallet E2. step_ok E1 as bal E3. destruct bal as [[bond claim] exit].
  step_ok E1 as lm E4. destruct lm as [latest matching]. injection E1 as <-. cbn [as_MatchingVersions] in *.
  unfold version_of in Hnz, Hlt, Hx. destruct (matching !! po_OfferID o) as [x|] eqn:M; [|done]. cbn in Hnz, Hlt, Hx.
  destruct (collect_versions_matching _ _ _ _ _ _ _ _ _ E4 M) as [M0|(q & lv & v & Hq & Hid & Hov & ->)];
    [by rewrite lookup_empty in M0|].
  apply list_elem_of_fmap in Hq as (o' & -> & Ho'). cbn in Hid.
  assert (o' = o) as -> by (apply (unique_key po_OfferID (pa_Offers a)); congruence).
  rewrite Forall_forall in Hc. specialize (Hc o Ho). unfold check_offer in Hc. do 2 (skip_ok Hc).
  step_ok Hc as u Hrates. apply fail_if_Ok in Hrates. apply orb_false_iff in Hrates as [Hrates R3%negb_false_iff].
  apply orb_false_iff in Hrates as [R1%negb_false_iff R2%negb_false_iff].
  apply validDecimal_iff in R1 as (n1 & R1 & _). apply validDecimal_iff in R2 as (n2 & R2 & _).
  apply validDecimal_iff in R3 as (n3 & R3 & _).
  unfold offer_versions, providerOfferQuery, numeric in Hov. cbn in Hov. rewrite R1, R2, R3, !SetString10_BigString in Hov.
  cbn in Hov. injection Hov as _ Hmax. apply max_nullable_Some in Hmax as [(row & Hrow & P & <-) _].
  rewrite !andb_true_iff, !String.eqb_eq, !Z.eqb_eq in P.
  destruct P as [[[[[[Pown Poffer] Pmodel] Pcap] <-] <-] <-].
  exists d, wallet, row. rewrite R1, R2, R3. by split_and!.
Qed.

(** A publication is confirmed only by the chain: for every offer of a
    confirmed publication, the broker's database held a row of the wallet's
    published offers under the hashes of the offer's identifier, model and
    capabilities, with exactly the rates requested, at a version above the one
    recorded when the action was opened; and that version is the one the action
    reports. *)
Theorem confirmed_publication_on_chain w id a o :
  reachable w -> w_items w !! id = Some a -> pa_Status a = ActionConfirmed -> pa_Kind a = ActionPublishOffer ->
  o ∈ pa_Offers a ->
  exists d wallet row, d ∈ databases w /\ account_wallet (pa_AccountID a) d = Ok wallet /\ row ∈ chain_offers d
  /\ own_offer config wallet row = true
  /\ co_offer row = Keccak256Hex (po_OfferID o) /\ co_model_hash row = Keccak256Hex (po_Model o)
  /\ co_capability_hash row = Keccak256Hex (GoStrings.Join (sort_strings (po_Capabilities o)) ",")
  /\ BigString (co_input row) = po_InputPerMillionWei o /\ BigString (co_output row) = po_OutputPerMillionWei o
  /\ BigString (co_compute row) = po_ComputePerSecondWei o
  /\ pa_Versions a !! po_OfferID o = Some (wrap64 (co_version row))
  /\ version_of (bl_Versions (pa_Baseline a)) (po_OfferID o) < wrap64 (co_version row).
Proof. apply confirmed_offer_on_chain. Qed.

Lemma offer_confirmations_ids baseline matching offers : forall acc versions id,
  offer_confirmations baseline matching offers acc = Some versions -> is_Some (versions !! id) ->
  is_Some (acc !! id) \/ id ∈ map po_OfferID offers.
Proof.
  induction offers as [|p offers IH]; intros acc versions id E Hid; cbn [offer_confirmations] in E.
  - injection E as <-. by left.
  - destruct (_ || _); [done|]. destruct (IH _ _ _ E Hid) as [Hl|Hl]; [|right; by right].
    destruct (decide (id = po_OfferID p)) as [->|Hne]; [right; by left|left]. by rewrite lookup_insert_ne in Hl.
Qed.

(** A confirmed publication has versions of its offers only. *)
Lemma confirmed_versions_offered w id a offerID :
  reachable w -> w_items w !! id = Some a -> pa_Status a = ActionConfirmed -> pa_Kind a = ActionPublishOffer ->
  is_Some (pa_Versions a !! offerID) -> offerID ∈ map po_OfferID (pa_Offers a).
Proof.
  intros Hr Ha Hs Hk Hv. destruct (wo_terms w (reachable_world_ok w Hr) _ _ Ha) as [_ Hev].
  destruct (Hev Hs) as (d & _ & Hd). unfold shows_effects in Hd. rewrite opened_verify in Hd. unfold verifyProviderAction in Hd. step_ok Hd as state E1. injection Hd as Hd.
  unfold providerActionConfirmed in Hd. rewrite Hk in Hd. change (String.eqb ActionPublishOffer ActionPublishOffer) with true in Hd.
  destruct (offer_confirmations _ _ _ _) as [versions|] eqn:C; [|done]. injection Hd as ->.
  destruct (offer_confirmations_ids _ _ _ _ _ _ C Hv) as [[x Hx]|Hin]; [by rewrite lookup_empty in Hx|done].
Qed.

(** ** The terms of an action never change *)
Definition termed (id : string) (t : Terms) (w : World) : Prop :=
  id ∈ w_used w /\ forall a, w_items w !! id = Some a -> terms_of a = t.

Lemma termed_step id t w w' : termed id t w -> step w w' -> termed id t w'.
Proof.
  intros [Hu Ht] (clock & done & Hst). destruct Hst as [now d|now p Hp|now purged random p Hp Hf|
    now get_id accountID|now get_id accountID versions Hin|now get_id accountID hashes]; (split; [cbn|cbn [w_items]]); try done.
  - by apply elem_of_union_r.
  - unfold created_by, Create. destruct (_ || _); [done|]. destruct (validateProviderActionInput (pp_Input p)) as [valid|]; [|done].
    destruct (providerActionID random) as [drawn|] eqn:R; [|done]. specialize (Hf drawn R).
    assert (forall a, purgeLocked purged (w_items w) !! id = Some a -> terms_of a = t) as Hpurge
      by (intros a Ha; apply Ht; eapply lookup_weaken, purgeLocked_subset; exact Ha).
    destruct (_ <=? _); [done|]. cbn [fst]. intros a [[-> _]|[_ Ha]]%lookup_insert_Some; [done|by apply Hpurge].
  - intros a Ha. apply Ht. unfold GetForAccount in Ha. eapply lookup_weaken, find_live_subset. exact Ha.
  - unfold Confirm. destruct (w_items w !! get_id) as [b|] eqn:Hb; [|done]. destruct (negb _); [done|]. cbn [fst].
    intros a [[-> <-]|[_ Ha]]%lookup_insert_Some; [by rewrite <- (Ht b)|by apply Ht].
  - unfold Submitted. pose proof (find_live_subset now get_id accountID (w_items w)) as Hs.
    destruct (find_live now get_id accountID (w_items w)) as [items' r] eqn:E. cbn [fst] in Hs.
    assert (forall a, items' !! id = Some a -> terms_of a = t) as Hk by (intros a Ha; apply Ht; by eapply lookup_weaken).
    apply find_live_spec in E as [_ Er]. destruct r as [b|]; [|done]. destruct (Er b eq_refl) as (-> & Hb & _ & _).
    destruct (String.eqb _ _); [done|]. destruct (_ || _); [done|]. destruct (negb _); [done|]. cbn [fst].
    intros a [[-> <-]|[_ Ha]]%lookup_insert_Some; [by rewrite <- (Ht b)|by apply Ht].
Qed.

Lemma terms_kept w w' id a a' : reachable w -> rtc step w w' ->
  w_items w !! id = Some a -> w_items w' !! id = Some a' -> terms_of a' = terms_of a.
Proof.
  intros Hr Hs Ha. assert (termed id (terms_of a) w) as Ht.
  { split; [by destruct (wo_items w (reachable_world_ok w Hr) _ _ Ha)|]. intros b Hb. congruence. }
  clear Ha. induction Hs as [|w1 w2 w3 H12 _ IH]; [intros Ha'; by apply Ht|].
  apply IH; [eapply reachable_later; [done|by apply rtc_once]|by eapply termed_step].
Qed.
End Lifecycle.

(** ** Accounts *)
Section Isolation.
Context `{Ethereum} (config : ProviderAccountConfig).

Lemma identity_account_get now r d items :
  fst (get config now r d items) = items \/
  exists source machineID account, identity now r d = Ok (source, machineID, account)
  /\ forall id a, items !! id = Some a -> pa_AccountID a <> account ->
       fst (get config now r d items) !! id = Some a
       \/ fst (get config now r d items) !! id = None /\ pa_ExpiresAt a <= now.
Proof.
  unfold get. destruct (identity now r d) as [[[source machineID] account]|]; [right|by left].
  exists source, machineID, account. split; [done|]. intros id a Ha Hne. unfold GetForAccount.
  destruct (find_live now (path_value 3 (ht_Path r)) account items) as [items' res] eqn:E.
  apply find_live_spec in E as [Hi Hres].
  assert (items' !! id = Some a \/ items' !! id = None /\ pa_ExpiresAt a <= now) as Hkeep.
  { destruct Hi as [->|[-> Hx]]; [by left|]. destruct (decide (path_value 3 (ht_Path r) = id)) as [<-|Hid].
    - right. split; [by rewrite lookup_delete_eq|by apply Hx].
    - left. by rewrite lookup_delete_ne. }
  destruct res as [b|]; [|done]. destruct (Hres b eq_refl) as (-> & Hb & Hacc & _).
  destruct (_ && _); [done|]. destruct (String.eqb (pa_Status b) ActionPendingChain); [|done].
  destruct (verifyProviderAction config b d) as [[v []]|]; [|done..]. unfold Confirm.
  destruct (items !! pa_ID b) as [c|] eqn:Hc; [|done]. destruct (negb _) eqn:G; [done|]. cbn [fst].
  apply negb_false_iff, String.eqb_eq in G. left. rewrite lookup_insert_ne; [done|]. intros Heq. rewrite Heq in Hc. congruence.
Qed.

(** No request touches another account's actions: for an action of an
    account the request is not authenticated as (by a machine's bearer token or
    a browser session), any route, path and body leave it exactly as it was,
    unless it had expired, when it may be dropped. *)
Theorem actions_account_isolated now purged random r d items items' response id a :
  (forall drawn, providerActionID random = Ok drawn -> drawn <> id) ->
  items !! id = Some a ->
  (forall source machineID account, identity now r d = Ok (source, machineID, account) -> account <> pa_AccountID a) ->
  serve_actions config now purged random r d items = (items', response) ->
  items' !! id = Some a \/ items' !! id = None /\ pa_ExpiresAt a <= Z.max now purged.
Proof.
  intros Hdraw Ha Hid E. unfold serve_actions in E. destruct (find_route _ _ _) as [[]|]; [| | |injection E as <- _; by left].
  - unfold create in E. destruct (identity now r d) as [[[source machineID] account]|]; [|injection E as <- _; by left].
    destruct (decodeProviderActionJSON _ _ _) as [input|]; [|injection E as <- _; by left].
    destruct (prepareProviderAction _ _ _ _ _ _) as [[wallet baseline]|]; [|injection E as <- _; by left].
    assert (purgeLocked purged items !! id = Some a
            \/ purgeLocked purged items !! id = None /\ pa_ExpiresAt a <= Z.max now purged) as Hp.
    { destruct (purgeLocked purged items !! id) as [b|] eqn:Hb.
      - left. pose proof (lookup_weaken _ _ _ _ Hb (purgeLocked_subset purged items)). congruence.
      - right. split; [done|]. pose proof (purgeLocked_expired purged items id a Ha Hb). lia. }
    unfold Create in E. destruct (_ || _) in E; [injection E as <- _; by left|].
    destruct (validateProviderActionInput input) as [valid|]; [|injection E as <- _; by left].
    destruct (providerActionID random) as [drawn|]; [|injection E as <- _; by left].
    destruct (_ <=? _) in E; injection E as <- _; [done|]. rewrite lookup_insert_ne by auto. done.
  - pose proof (identity_account_get now r d items) as Hget. rewrite E in Hget. cbn [fst] in Hget.
    destruct Hget as [->|(source & machineID & account & Hi & Hk)]; [by left|].
    destruct (Hk id a Ha) as [|[? ?]]; [intros Heq; by eapply Hid|by left|right; split; [done|lia]].
  - unfold submitted in E. destruct (identity now r d) as [[[source machineID] account]|] eqn:Hi; [|injection E as <- _; by left].
    specialize (Hid _ _ _ eq_refl). destruct (negb _) in E; [injection E as <- _; by left|].
    destruct (decodeProviderActionJSON _ _ _) as [hashes|]; [|injection E as <- _; by left].
    assert (fst (Submitted now (path_value 3 (ht_Path r)) account hashes items) = items') as <-.
    { destruct (Submitted _ _ _ _ _) as [items2 [b|e]]; [|destruct e]; by injection E as <- _. }
    unfold Submitted. destruct (find_live now (path_value 3 (ht_Path r)) account items) as [items2 res] eqn:F.
    apply find_live_spec in F as [Hi2 Hres].
    destruct res as [b|e].
    + destruct (Hres b eq_refl) as (-> & Hb & Hacc & _). destruct (String.eqb _ _); [by left|].
      destruct (_ || _); [by left|]. destruct (negb _); [by left|]. left. cbn [fst].
      rewrite lookup_insert_ne; [done|]. intros Heq. rewrite Heq in Hb. congruence.
    + cbn [fst]. destruct Hi2 as [->|[-> Hx]]; [by left|]. destruct (decide (path_value 3 (ht_Path r) = id)) as [<-|Hne].
      * right. rewrite lookup_delete_eq. split; [done|]. specialize (Hx a Ha). lia.
      * left. by rewrite lookup_delete_ne.
Qed.
End Isolation.

(** ** A concrete history

    The provider's machine asks to publish its offer at a new rate; the offer
    is republished on the chain and the action confirmed. *)
Module Run.
Definition config : ProviderAccountConfig := mkProviderAccountConfig 1 contract_address "" 2 "1000".
Definition offer : ProviderActionOffer := mkProviderActionOffer "o1" "llama" "ollama" ["text"] "tokens_and_compute" "2" "3" "6".
Definition input : ProviderActionInput := mkProviderActionInput ActionPublishOffer "" [offer].
Definition republished : Db := Eval vm_compute in
  value_of (sample_event (OfferPublished provider_wallet (Keccak256Hex "o1") 2 (Keccak256Hex "llama")
                            (Keccak256Hex "text") 2 3 6) db_ready).
Definition transaction : string := Eval vm_compute in hashHex (replicate 32 7).
Definition id : string := Eval vm_compute in randomToken (replicate 24 1).
Definition baseline : ProviderActionBaseline := mkProviderActionBaseline "100000" "0" 0 {["o1" := 1]}.

Definition prepared : Prepared := mkPrepared ActionSourceMachine machine_id "provider" input provider_wallet baseline.
Definition w0 : World := mkWorld db_ready [] ∅ ∅ [prepared] [].
Definition w1 : World :=
  mkWorld db_ready [] (fst (created_by 100 100 (Ok (replicate 24 1)) prepared ∅)) {[id]} [prepared] [].
Definition w2 : World := mkWorld db_ready [] (fst (Submitted 101 id "provider" [transaction] (w_items w1))) {[id]} [prepared] [].
Definition w3 : World := mkWorld republished [db_ready] (w_items w2) {[id]} [prepared] [].
Definition w4 : World := mkWorld republished [db_ready] (w_items w2) {[id]} [prepared] [(id, "provider", {["o1" := 2]})].
Definition w5 : World :=
  mkWorld republished [db_ready] (fst (Confirm id "provider" {["o1" := 2]} (w_items w4))) {[id]} [prepared] [(id, "provider", {["o1" := 2]})].

Lemma prepare_step : does config (initial db_ready) 99 Nothing w0.
Proof. apply (do_prepare config (initial db_ready) 99). vm_compute. reflexivity. Qed.
Lemma create_step : does config w0 100 (Opening id) w1.
Proof.
  assert (draw (Ok (replicate 24 1)) ∪ w_used w0 = {[id]}) as Hu by (vm_compute; reflexivity).
  pose proof (do_create config w0 100 100 (Ok (replicate 24 1)) prepared ltac:(by left) ltac:(intros x _; apply not_elem_of_empty)) as Hd.
  rewrite Hu in Hd. exact Hd.
Qed.
Lemma submit_step : does config w1 101 (Submission id [transaction]) w2.
Proof. apply (do_submitted config w1 101 id "provider" [transaction]). Qed.
Lemma database_step : does config w2 101 Nothing w3.
Proof. apply (do_database config w2 101 republished). Qed.
Lemma get_step : does config w3 102 Nothing w4.
Proof.
  assert (verified_by config "provider" (snd (GetForAccount 102 id "provider" (w_items w3))) republished ++ w_verified w3
          = w_verified w4) as Hv by (vm_compute; reflexivity).
  assert (fst (GetForAccount 102 id "provider" (w_items w3)) = w_items w4) as Hi by (vm_compute; reflexivity).
  pose proof (do_get config w3 102 id "provider") as Hd. cbn [w3 w_Db] in Hd. rewrite Hv, Hi in Hd. exact Hd.
Qed.
Lemma confirm_step : does config w4 102 (Confirmation id {["o1" := 2]}) w5.
Proof. apply (do_confirm config w4 102 id "provider" {["o1" := 2]}). by left. Qed.
Lemma steps_before : reachable config w4.
Proof.
  exists db_ready. eapply rtc_l; [do 2 eexists; exact prepare_step|]. eapply rtc_l; [do 2 eexists; exact create_step|].
  eapply rtc_l; [do 2 eexists; exact submit_step|]. eapply rtc_l; [do 2 eexists; exact database_step|]. apply rtc_once. do 2 eexists. exact get_step.
Qed.
Lemma all_steps : reachable config w5.
Proof. eapply reachable_later; [exact steps_before|]. apply rtc_once. do 2 eexists. exact confirm_step. Qed.


Lemma confirmed_publication_on_chain_witness :
  exists d wallet row, account_wallet "provider" d = Ok wallet /\ row ∈ chain_offers d
                       /\ co_offer row = Keccak256Hex "o1" /\ BigString (co_compute row) = "6" /\ 1 < wrap64 (co_version row).
Proof.
  destruct (w_items w5 !! id) as [a|] eqn:E; [|vm_compute in E; discriminate E].
  assert (pa_Status a = ActionConfirmed /\ pa_Kind a = ActionPublishOffer /\ pa_Offers a = [offer]
          /\ pa_AccountID a = "provider" /\ version_of (bl_Versions (pa_Baseline a)) "o1" = 1) as (H1 & H2 & H3 & H4 & H5)
    by (vm_compute in E; injection E as <-; repeat split).
  destruct (confirmed_publication_on_chain config w5 id a offer all_steps E H1 H2) as
    (d & wallet & row & _ & Hw & Hrow & _ & Ho & _ & _ & _ & _ & Hc & _ & Hv); [rewrite H3; by left|].
  exists d, wallet, row. rewrite <- H4. split; [exact Hw|]. split; [exact Hrow|]. split; [exact Ho|]. split; [exact Hc|].
  rewrite <- H5. exact Hv.
Defined.

(** The customer's machine-less request for the provider's action. *)
Lemma actions_account_isolated_witness :
  let anonymous := mkRequest "GET" ["api"; "provider"; "actions"; id] "" "" "" None None in
  fst (serve_actions config 102 102 (Ok []) anonymous republished (w_items w2)) !! id = w_items w2 !! id.
Proof.
  intros anonymous. destruct (serve_actions config 102 102 (Ok []) anonymous republished (w_items w2)) as [items' response] eqn:S.
  destruct (w_items w2 !! id) as [a|] eqn:E; [|vm_compute in E; discriminate E]. cbn [fst].
  destruct (actions_account_isolated config 102 102 (Ok []) anonymous republished (w_items w2) items' response id a)
    as [Hk|[Hn Hx]].
  - intros drawn [= <-]. vm_compute. discriminate.
  - exact E.
  - intros source machineID account Hi. vm_compute in Hi. discriminate Hi.
  - exact S.
  - exact Hk.
  - exfalso. vm_compute in E. injection E as <-. vm_compute in Hx. by destruct Hx.
Defined.

(** [create] prepares the input as it came and only then trims it, so blanks
    around the kind skip the checks of the chain state, and blanks around an
    offer's identifier record no version for it: the action counts as confirmed
    although nothing was published after it was opened. *)
Definition strict : ProviderAccountConfig := mkProviderAccountConfig 1 contract_address "" 2 "200000".
Definition current : ProviderActionOffer := mkProviderActionOffer "o1" "llama" "ollama" ["text"] "tokens_and_compute" "2" "3" "5".
Definition padded : ProviderActionOffer := mkProviderActionOffer " o1" "llama" "ollama" ["text"] "tokens_and_compute" "2" "3" "5".

Lemma padded_input_skips_checks :
  prepareProviderAction strict ActionSourceMachine machine_id "provider" (mkProviderActionInput "publish_offer" "" [current]) db_ready
  = Err (ErrNew "provider collateral is insufficient or exiting")
  /\ is_ok (prepareProviderAction strict ActionSourceMachine machine_id "provider"
              (mkProviderActionInput " publish_offer" "" [current]) db_ready) = true
  /\ validateProviderActionInput (mkProviderActionInput " publish_offer" "" [current])
     = Ok (mkProviderActionInput "publish_offer" "" [current])
  /\ exists base a,
       prepareProviderAction config ActionSourceMachine machine_id "provider"
         (mkProviderActionInput "publish_offer" "" [padded]) db_ready = Ok (provider_wallet, base)
       /\ snd (Create 100 100 (Ok (replicate 24 1)) machine_id "provider" provider_wallet
                 (mkProviderActionInput "publish_offer" "" [padded]) base ∅) = Ok a
       /\ verifyProviderAction config a db_ready = Ok ({["o1" := 1]}, true).
Proof.
  split_and!; [vm_compute; reflexivity..|]. do 2 eexists. split; [vm_compute; reflexivity|].
  split; [vm_compute; reflexivity|]. vm_compute. reflexivity.
Qed.
End Run.
