(* ===== verification/Backends.v ===== *)
(** * What the backends share

    [Generate] of each backend is a [Backend] of Daemon.v: the tree of what it
    hands to its callback and of its result, for every answer of the callback.
    The runtime behind a backend is an argument: the reply of the HTTP server
    ([Reply]: its status, its body, and the error that cut the body short), or
    the outcome of the child process.  The text of a JSON document is read by
    [parse], and [elapsed] is the measured duration in milliseconds.  This file
    has the line scanner, the request limit and the predicate [generates] on
    everything a generation may do. *)

From S2P Require Import Prelude GoStrings Wire Receipt Messages Anthropic Daemon.
From Stdlib Require Import Ascii.
Open Scope string_scope.
Open Scope list_scope.
Open Scope Z_scope.

(** ** Lines of a stream (bufio.Scanner with a buffer of 1 MiB) *)
Definition max_token : Z := Z.shiftl 1 20.
Definition drop_cr (line : string) : string := TrimSuffix line (String (of_byte 13) "").

(** The lines up to the first that fills the buffer. *)
Fixpoint take_lines (parts : list string) : list string * bool :=
  match parts with
  | [] => ([], false)
  | part :: rest =>
      if max_token <=? go_len part then ([], true)
      else let '(lines, long) := take_lines rest in (drop_cr part :: lines, long)
  end.

(** [bufio.ScanLines] over the body; [cut] is the error that ended the reading. *)
Definition scan_lines (body : string) (cut : option error) : list string * option error :=
  let parts := SplitByte body (of_byte 10) in
  let parts := if String.eqb (List.last parts "") "" then removelast parts else parts in
  let '(lines, long) := take_lines parts in
  (lines, if long then Some (ErrNew "bufio.Scanner: token too long") else cut).

(** [rp_Ahead]: the reader had met the error that cuts the body before the lines
    in its buffer were consumed. *)
Record Reply := mkReply {
  rp_OK : bool; rp_Status : string; rp_Body : string; rp_Cut : option error; rp_Ahead : bool;
}.
(** The parts of [url.Parse] the constructors read. *)
Record Url := mkUrl { ur_Scheme : string; ur_Host : string; ur_Hostname : string }.


(** [statusError]: the trimmed first 4 KiB of the body after the status. *)
Definition status_error (prefix : string) (reply : Reply) : error :=
  ErrNew (prefix +:+ rp_Status reply +:+ ": " +:+ TrimSpace (take_bytes 4096 (rp_Body reply))).

(** A model a runtime lists ([backend.Model]). *)
Record Model := mkModel { md_Name : string; md_Digest : string; md_Size : Z }.

Definition loopback (host : string) : bool := contains ["127.0.0.1"; "localhost"; "::1"] host.
Definition trim_slashes (s : string) : string := trim_right ["/"] s.
(** The limit of a request, or 4096 when it has none. *)
Definition maximumOutput (input : BackendRequest) : Z :=
  if br_MaximumOutputTokens input =? 0 then 4096 else br_MaximumOutputTokens input.
(** [if err := emit(content); err != nil { return err }] *)
Definition emit_then (content : string) (k : generation) : generation :=
  Emit content (fun r => match r with Err e => Fail e | Ok _ => k end).


(** A pointer to a struct: null makes it nil, and a nil one is allocated. *)
Definition set_pointer {A T} (fields : list (string * setter A)) (zero : A) (get : T -> option A)
    (store : option A -> T -> T) : setter T := fun v t =>
  match v with
  | JNull => Some (store None t)
  | _ => option_map (fun a => store (Some a) t) (decode_loose fields v (default zero (get t)))
  end.

(** Everything a generation may hand over satisfies [P], and every usage it may
    return satisfies [Q], whatever the callback answers. *)
Inductive generates (P : string -> Prop) (Q : Usage -> Prop) : generation -> Prop :=
| generates_return u : Q u -> generates P Q (Return u)
| generates_fail e : generates P Q (Fail e)
| generates_emit c next : P c -> (forall r, generates P Q (next r)) -> generates P Q (Emit c next).
#[export] Hint Constructors generates : myf.

Lemma generates_then P Q content k : P content -> generates P Q k -> generates P Q (emit_then content k).
Proof. intros Hc Hk. constructor; [done|]. intros []; [done|constructor]. Qed.
#[export] Hint Resolve generates_then : myf.

Lemma generates_mono (P P' : string -> Prop) (Q Q' : Usage -> Prop) g :
  (forall c, P c -> P' c) -> (forall u, Q u -> Q' u) -> generates P Q g -> generates P' Q' g.
Proof. intros HP HQ. induction 1; constructor; auto. Qed.
