(* ===== verification/Ollama.v ===== *)
(** * The Ollama backend (cli/internal/backend/ollama/ollama.go)

    A local Ollama server: one streamed generation, one JSON document a line. *)

From S2P Require Import Prelude GoStrings Wire Receipt Messages Anthropic Daemon Backends.
From Stdlib Require Import Ascii.
Open Scope string_scope.
Open Scope list_scope.
Open Scope Z_scope.

Definition New (parsed : option Url) (baseURL : string) : result string :=
  match parsed with
  | None => Err (ErrNew "parse")
  | Some u => if negb (String.eqb (ur_Scheme u) "http") || negb (loopback (ur_Hostname u))
              then Err (ErrNew "Ollama URL must use loopback HTTP") else Ok (trim_slashes baseURL)
  end.

Definition statusError : Reply -> error := status_error "Ollama returned ".

(** A number literal that fits [int64]. *)
Definition as_int64 (v : json) : option Z :=
  match v with
  | JNum (String "-"%char digits) => n ← ParseUint digits; if n <=? 2 ^ 63 then Some (- n) else None
  | JNum digits => n ← ParseUint digits; if n <=? i64_max then Some n else None
  | _ => None
  end.
Definition model_fields : list (string * setter Model) :=
  [ ("Name", set_with as_string (fun v m => mkModel v (md_Digest m) (md_Size m)));
    ("Digest", set_with as_string (fun v m => mkModel (md_Name m) v (md_Size m)));
    ("Size", set_with as_int64 (fun v m => mkModel (md_Name m) (md_Digest m) v)) ].
Definition as_models (v : json) : option (list Model) :=
  match v with JArr items => mapM (fun i => decode_loose model_fields i (mkModel "" "" 0)) items | _ => None end.
Definition payload_fields : list (string * setter (list Model)) := [ ("models", set_with as_models (fun v _ => v)) ].

(** [get] is the GET of a URL; [first_json] the first JSON value of a body
    within its first 4 MiB. *)
Definition Models (get : string -> result Reply) (first_json : Reply -> result json) (baseURL : string) : result (list Model) :=
  reply ← get (baseURL +:+ "/api/tags");
  _ ← fail_if (negb (rp_OK reply)) (statusError reply);
  v ← first_json reply;
  of_option (decode_loose payload_fields v []) ErrEncode.

Record chunk := mkChunk {
  oc_Response : string; oc_Done : bool; oc_PromptEvalCount : Z; oc_EvalCount : Z; oc_TotalDuration : Z; oc_Error : string;
}.
Definition zero_chunk : chunk := mkChunk "" false 0 0 0 "".
Definition chunk_fields : list (string * setter chunk) :=
  [ ("response", set_with as_string (fun v c => mkChunk v (oc_Done c) (oc_PromptEvalCount c) (oc_EvalCount c) (oc_TotalDuration c) (oc_Error c)));
    ("done", set_with as_bool (fun v c => mkChunk (oc_Response c) v (oc_PromptEvalCount c) (oc_EvalCount c) (oc_TotalDuration c) (oc_Error c)));
    ("prompt_eval_count", set_with (as_uint 64) (fun v c => mkChunk (oc_Response c) (oc_Done c) v (oc_EvalCount c) (oc_TotalDuration c) (oc_Error c)));
    ("eval_count", set_with (as_uint 64) (fun v c => mkChunk (oc_Response c) (oc_Done c) (oc_PromptEvalCount c) v (oc_TotalDuration c) (oc_Error c)));
    ("total_duration", set_with (as_uint 64) (fun v c => mkChunk (oc_Response c) (oc_Done c) (oc_PromptEvalCount c) (oc_EvalCount c) v (oc_Error c)));
    ("error", set_with as_string (fun v c => mkChunk (oc_Response c) (oc_Done c) (oc_PromptEvalCount c) (oc_EvalCount c) (oc_TotalDuration c) v)) ].

Section Stream.
Context (parse : string -> option json).

Fixpoint stream (lines : list string) (ended : option error) : generation :=
  match lines with
  | [] => Fail (default ErrUnexpectedEOF ended)
  | line :: rest =>
      match parse line ≫= fun v => decode_loose chunk_fields v zero_chunk with
      | None => Fail (ErrWrap "decode Ollama stream" ErrEncode)
      | Some c =>
          if negb (String.eqb (oc_Error c) "") then Fail (ErrNew (oc_Error c))
          else
            let next := if oc_Done c
                        then Return (mkUsage (oc_PromptEvalCount c) (oc_EvalCount c) (oc_TotalDuration c / 1000000))
                        else stream rest ended in
            if String.eqb (oc_Response c) "" then next else emit_then (oc_Response c) next
      end
  end.

Definition request_body (input : BackendRequest) : json :=
  JObj [("model", jstr (br_Model input));
        ("options", JObj [("num_predict", num (maximumOutput input)); ("temperature", num 0)]);
        ("prompt", jstr (br_Prompt input)); ("stream", JBool true)].

(** [post] is the HTTP client: a URL and a JSON body to a reply. *)
Definition Generate (post : string -> json -> result Reply) (baseURL : string) : Backend := fun input =>
  if String.eqb (br_Model input) "" || String.eqb (br_Prompt input) "" || negb (bool_decide (br_Workspace input = []))
  then Fail (ErrNew "model, prompt, and content callback are required")
  else
    match post (baseURL +:+ "/api/generate") (request_body input) with
    | Err e => Fail e
    | Ok reply =>
        if negb (rp_OK reply) then Fail (statusError reply)
        else let '(lines, ended) := scan_lines (rp_Body reply) (rp_Cut reply) in stream lines ended
    end.
End Stream.
