(* ===== verification/OpenAI.v ===== *)
(** * The OpenAI-compatible backend (cli/internal/backend/openai/openai.go)

    A chat completion streamed as server-sent events. *)

From S2P Require Import Prelude GoStrings Wire Receipt Messages Anthropic Daemon Backends.
Open Scope string_scope.
Open Scope list_scope.
Open Scope Z_scope.

Definition New (parsed : option Url) (baseURL secret : string) : result (string * string) :=
  match parsed with
  | None => Err (ErrNew "invalid OpenAI-compatible URL")
  | Some u =>
      if String.eqb (ur_Host u) "" then Err (ErrNew "invalid OpenAI-compatible URL")
      else if negb (String.eqb (ur_Scheme u) "https") && negb (String.eqb (ur_Scheme u) "http" && loopback (ur_Hostname u))
      then Err (ErrNew "OpenAI-compatible URL must use HTTPS except on loopback")
      else if is_blank secret then Err (ErrNew "provider API secret is required")
      else Ok (trim_slashes baseURL, secret)
  end.

Definition endpoint (baseURL path : string) : string :=
  if HasSuffix baseURL "/v1" && HasPrefix path "/v1/" then baseURL +:+ TrimPrefix path "/v1" else baseURL +:+ path.

Definition statusError : Reply -> error := status_error "OpenAI-compatible provider returned ".

Definition data_fields : list (string * setter string) := [ ("id", set_with as_string (fun v _ => v)) ].
Definition as_data (v : json) : option (list string) :=
  match v with JArr items => mapM (fun i => decode_loose data_fields i "") items | _ => None end.
Definition list_fields : list (string * setter (list string)) := [ ("data", set_with as_data (fun v _ => v)) ].

(** [get] is the GET of a URL with an authorization header; [first_json] the
    first JSON value of a body within its first 4 MiB. *)
Definition Models (get : string -> string -> result Reply) (first_json : Reply -> result json) (baseURL secret : string)
  : result (list Model) :=
  reply ← get (endpoint baseURL "/v1/models") ("Bearer " +:+ secret);
  _ ← fail_if (negb (rp_OK reply)) (statusError reply);
  v ← first_json reply;
  ids ← of_option (decode_loose list_fields v []) ErrEncode;
  Ok (map (fun name => mkModel name "" 0) (List.filter (fun name => negb (String.eqb name "")) ids)).

Record chunk := mkChunk { cu_Contents : list string; cu_Usage : option (Z * Z) }.
Definition delta_fields : list (string * setter string) := [ ("content", set_with as_string (fun v _ => v)) ].
Definition choice_fields : list (string * setter string) := [ ("delta", nested delta_fields id (fun v _ => v)) ].
Definition usage_fields : list (string * setter (Z * Z)) :=
  [ ("prompt_tokens", set_with (as_uint 64) (fun v u => (v, snd u)));
    ("completion_tokens", set_with (as_uint 64) (fun v u => (fst u, v))) ].
Definition as_choices (v : json) : option (list string) :=
  match v with JArr items => mapM (fun i => decode_loose choice_fields i "") items | _ => None end.
Definition chunk_fields : list (string * setter chunk) :=
  [ ("choices", set_with as_choices (fun v c => mkChunk v (cu_Usage c)));
    ("usage", set_pointer usage_fields (0, 0) cu_Usage (fun v c => mkChunk (cu_Contents c) v)) ].

(** The non-empty contents of the choices, in order. *)
Fixpoint emit_choices (contents : list string) (k : generation) : generation :=
  match contents with
  | [] => k
  | content :: rest => if String.eqb content "" then emit_choices rest k else emit_then content (emit_choices rest k)
  end.
Definition has_content (contents : list string) : bool := existsb (fun c => negb (String.eqb c "")) contents.

(** After the loop: [done] tells whether [DONE] was read. *)
Definition conclude (limit elapsed : Z) (ended : option error) (done outputSeen usageSeen : bool) (usage : Z * Z) : generation :=
  match ended with
  | Some e => Fail e
  | None =>
      if negb done then Fail ErrUnexpectedEOF
      else if outputSeen && negb usageSeen
      then Fail (ErrNew "OpenAI-compatible provider omitted usage for streamed output")
      else if outputSeen && (snd usage =? 0)
      then Fail (ErrNew "OpenAI-compatible provider reported zero usage for streamed output")
      else if limit <? snd usage
      then Fail (ErrNew "OpenAI-compatible provider reported usage above the output token limit")
      else Return (mkUsage (fst usage) (snd usage) elapsed)
  end.

Section Stream.
Context (parse : string -> option json).

(** [ahead] is the error [scanner.Err] has at [DONE]. *)
Fixpoint stream (limit elapsed : Z) (lines : list string) (ended ahead : option error) (outputSeen usageSeen : bool)
    (usage : Z * Z) : generation :=
  match lines with
  | [] => conclude limit elapsed ended false outputSeen usageSeen usage
  | line :: rest =>
      if negb (HasPrefix line "data: ") then stream limit elapsed rest ended ahead outputSeen usageSeen usage
      else
        let data := TrimPrefix line "data: " in
        if String.eqb data "[DONE]" then conclude limit elapsed ahead true outputSeen usageSeen usage
        else
          match parse data ≫= fun v => decode_loose chunk_fields v (mkChunk [] None) with
          | None => Fail (ErrWrap "decode OpenAI-compatible stream" ErrEncode)
          | Some c =>
              emit_choices (cu_Contents c)
                (stream limit elapsed rest ended ahead (outputSeen || has_content (cu_Contents c))
                   (usageSeen || match cu_Usage c with Some _ => true | None => false end)
                   (default usage (cu_Usage c)))
          end
  end.

Definition request_body (input : BackendRequest) : json :=
  JObj [("max_completion_tokens", num (maximumOutput input));
        ("messages", JArr [JObj [("content", jstr (br_Prompt input)); ("role", jstr "user")]]);
        ("model", jstr (br_Model input)); ("stream", JBool true);
        ("stream_options", JObj [("include_usage", JBool true)])].

(** [post] sends the secret as the bearer token. *)
Definition Generate (post : string -> string -> json -> result Reply) (elapsed : Z) (baseURL secret : string) : Backend :=
  fun input =>
  if String.eqb (br_Model input) "" || String.eqb (br_Prompt input) "" || negb (bool_decide (br_Workspace input = []))
  then Fail (ErrNew "model, prompt, and callback are required")
  else
    match post (endpoint baseURL "/v1/chat/completions") ("Bearer " +:+ secret) (request_body input) with
    | Err e => Fail e
    | Ok reply =>
        if negb (rp_OK reply) then Fail (statusError reply)
        else
          let '(lines, ended) := scan_lines (rp_Body reply) (rp_Cut reply) in
          stream (maximumOutput input) elapsed lines ended (if rp_Ahead reply then rp_Cut reply else None) false false (0, 0)
    end.
End Stream.
