(* ===== verification/Claude.v ===== *)
(** * The native Claude backend (cli/internal/backend/claude/claude.go)

    One run of the Claude CLI: its arguments and environment, the bounded
    buffers its output is collected in, and the checks on its JSON result.  The
    run itself is an argument: the writes to the two streams and the error. *)

From S2P Require Import Prelude GoStrings Wire Receipt Messages Anthropic Daemon Backends.
Open Scope string_scope.
Open Scope list_scope.
Open Scope Z_scope.

Definition maximumResultBytes : Z := Z.shiftl 4 20.

(** ** The bounded buffer *)
Record boundedBuffer := mkBuffer { bb_bytes : string; bb_overflow : bool }.
Definition empty_buffer : boundedBuffer := mkBuffer "" false.
(** [Write], for a buffer of [limit] bytes. *)
Definition write_limited (limit : Z) (b : boundedBuffer) (value : string) : boundedBuffer :=
  let remaining := limit - go_len (bb_bytes b) in
  if remaining <=? 0 then mkBuffer (bb_bytes b) true
  else if remaining <? go_len value
  then mkBuffer (bb_bytes b +:+ take_bytes (Z.to_nat remaining) value) true
  else mkBuffer (bb_bytes b +:+ value) (bb_overflow b).
Definition write_bounded : boundedBuffer -> string -> boundedBuffer := write_limited maximumResultBytes.
Definition collect (writes : list string) : boundedBuffer := foldl write_bounded empty_buffer writes.

(** ** The command *)
Definition arguments (model : string) : list string :=
  ["-p"; "--model"; model; "--output-format"; "json"; "--no-session-persistence"; "--safe-mode"; "--strict-mcp-config";
   "--tools"; ""; "--disallowedTools"; "mcp__*"; "--max-turns"; "1"].
(** [lookup] is [os.LookupEnv]; [existing] the environment the command starts with. *)
Definition minimalEnvironment (lookup : string -> option string) (existing : list string) : list string :=
  List.filter (fun value => HasPrefix value "GO_WANT_CLAUDE_HELPER=") existing
  ++ omap (fun name => option_map (fun value => name +:+ "=" +:+ value) (lookup name))
       ["HOME"; "USERPROFILE"; "APPDATA"; "LOCALAPPDATA"; "PATH"; "SystemRoot"; "TMP"; "TEMP"].

Record Execution := mkExecution {
  ex_Stdout : list string; ex_Stderr : list string; ex_Error : option error; ex_Deadline : bool;
}.
Record Runner := mkRunner { rn_executable : string; rn_model : string; rn_timeout : Z }.
Definition newRunner (executable model : string) (timeout : Z) : result Runner :=
  if is_blank executable || is_blank model || (timeout <=? 0)
  then Err (ErrNew "Claude executable, model, and positive timeout are required")
  else Ok (mkRunner executable model timeout).

(** [looked] is [exec.LookPath("claude")]. *)
Definition New (looked : option string) (model : string) (timeout : Z) : result Runner :=
  match looked with
  | None => Err (ErrNew "Claude CLI is not installed or not available on PATH")
  | Some executable => newRunner executable model timeout
  end.
Definition Models (runner : Runner) : result (list Model) := Ok [mkModel (rn_model runner) "" 0].

(** ** The result *)
Record usageCounts := mkCounts { uc_Input : Z; uc_CacheCreation : Z; uc_CacheRead : Z; uc_Output : Z }.
Record resultDocument := mkDocument {
  rd_Type : string; rd_Subtype : string; rd_IsError : bool; rd_Result : string; rd_Usage : option usageCounts;
}.
Definition counts_fields : list (string * setter usageCounts) :=
  [ ("input_tokens", set_with (as_uint 64) (fun v u => mkCounts v (uc_CacheCreation u) (uc_CacheRead u) (uc_Output u)));
    ("cache_creation_input_tokens", set_with (as_uint 64) (fun v u => mkCounts (uc_Input u) v (uc_CacheRead u) (uc_Output u)));
    ("cache_read_input_tokens", set_with (as_uint 64) (fun v u => mkCounts (uc_Input u) (uc_CacheCreation u) v (uc_Output u)));
    ("output_tokens", set_with (as_uint 64) (fun v u => mkCounts (uc_Input u) (uc_CacheCreation u) (uc_CacheRead u) v)) ].
Definition document_fields : list (string * setter resultDocument) :=
  [ ("type", set_with as_string (fun v r => mkDocument v (rd_Subtype r) (rd_IsError r) (rd_Result r) (rd_Usage r)));
    ("subtype", set_with as_string (fun v r => mkDocument (rd_Type r) v (rd_IsError r) (rd_Result r) (rd_Usage r)));
    ("is_error", set_with as_bool (fun v r => mkDocument (rd_Type r) (rd_Subtype r) v (rd_Result r) (rd_Usage r)));
    ("result", set_with as_string (fun v r => mkDocument (rd_Type r) (rd_Subtype r) (rd_IsError r) v (rd_Usage r)));
    ("usage", set_pointer counts_fields (mkCounts 0 0 0 0) rd_Usage
       (fun v r => mkDocument (rd_Type r) (rd_Subtype r) (rd_IsError r) (rd_Result r) v)) ].

Section Run.
Context (parse : string -> option json).

Definition parseResult (raw : string) (maximumOutputTokens : Z) : result (string * Usage) :=
  match parse raw ≫= fun v => decode_loose document_fields v (mkDocument "" "" false "" None) with
  | None => Err (ErrNew "Claude returned invalid JSON")
  | Some r =>
      if negb (String.eqb (rd_Type r) "result") || rd_IsError r || String.eqb (rd_Subtype r) "error"
      then Err (ErrNew "Claude generation failed")
      else if is_blank (rd_Result r) then Err (ErrNew "Claude returned empty output")
      else
        match rd_Usage r with
        | None => Err (ErrNew "Claude omitted token usage")
        | Some u =>
            if uc_Output u =? 0 then Err (ErrNew "Claude omitted token usage")
            else if maximumOutputTokens <? uc_Output u
            then Err (ErrNew "Claude reported usage above the output token limit")
            else Ok (rd_Result r, mkUsage (wrap64 (wrap64 (uc_Input u + uc_CacheCreation u) + uc_CacheRead u)) (uc_Output u) 0)
        end
  end.

(** [job] is the outcome of creating the job's directory, [run] the execution
    of the executable with arguments, environment and standard input. *)
Definition Generate (runner : Runner) (lookup : string -> option string) (job : result unit)
    (run : string -> list string -> list string -> string -> Execution) (elapsed : Z) : Backend := fun input =>
  if negb (String.eqb (br_Model input) (rn_model runner)) || is_blank (br_Prompt input)
  then Fail (ErrNew "configured model, prompt, and callback are required")
  else if negb (bool_decide (br_Workspace input = []))
  then Fail (ErrNew "native Claude is a model-only provider and does not accept workspace files")
  else
    match job with
    | Err e => Fail e
    | Ok _ =>
        let ex := run (rn_executable runner) (arguments (rn_model runner)) (minimalEnvironment lookup []) (br_Prompt input) in
        match ex_Error ex with
        | Some e => if ex_Deadline ex then Fail (ErrNew "Claude generation timed out")
                    else Fail (ErrWrap "Claude generation failed" e)
        | None =>
            let output := collect (ex_Stdout ex) in
            if bb_overflow output || bb_overflow (collect (ex_Stderr ex))
            then Fail (ErrNew "Claude output exceeded the safe size limit")
            else
              match parseResult (bb_bytes output) (maximumOutput input) with
              | Err e => Fail e
              | Ok (text, usage) =>
                  emit_then text (Return (mkUsage (us_InputTokens usage) (us_OutputTokens usage) elapsed))
              end
        end
    end.
End Run.
