(* ===== verification/Codex.v ===== *)
(** * The native Codex backend (cli/internal/backend/codex/codex.go)

    One run of the Codex CLI in a job directory of its own: its arguments,
    environment and instructions, and the reading of its event stream, which
    refuses a turn that used a tool.  File operations and the run are arguments:
    [prepared] and [job] are the outcomes of [prepareProviderHome] and of
    creating the job, [events] the JSON values of the standard output with
    whether it ended cleanly. *)

From S2P Require Import Prelude GoStrings Wire Receipt Messages Anthropic Daemon Backends.
Open Scope string_scope.
Open Scope list_scope.
Open Scope Z_scope.

Definition errToolAttempt : error := ErrNew "Codex attempted to use a blocked tool".

Record Runner := mkRunner {
  rn_executable : string; rn_model : string; rn_sourceAuth : string; rn_personalSkills : string;
  rn_providerHome : string; rn_hookExecutable : string; rn_timeout : Z;
}.
Definition newRunner (executable model sourceAuth personalSkills providerHome hookExecutable : string) (timeout : Z)
  : result Runner :=
  if is_blank executable || is_blank model || is_blank sourceAuth || is_blank personalSkills || is_blank providerHome
     || is_blank hookExecutable || (timeout <=? 0)
  then Err (ErrNew "Codex executable, model, authentication, provider home, hook executable, and positive timeout are required")
  else Ok (mkRunner executable model sourceAuth personalSkills providerHome hookExecutable timeout).

(** The lookups of [New]: the CLI, the home and cache directories and the running
    executable; [join] is [filepath.Join]. *)
Definition New (join : list string -> string) (looked : option string) (userHome stateRoot hookExecutable : result string)
    (model : string) (timeout : Z) : result Runner :=
  executable ← of_option looked (ErrNew "Codex CLI is not installed or not available on PATH");
  userHome ← userHome;
  stateRoot ← stateRoot;
  hookExecutable ← hookExecutable;
  newRunner executable model (join [userHome; ".codex"; "auth.json"]) (join [userHome; ".agents"; "skills"])
    (join [stateRoot; "Myference"; "codex-provider"]) hookExecutable timeout.
(** [prepared] is the outcome of [prepareProviderHome]. *)
Definition Models (runner : Runner) (prepared : result unit) : result (list Model) :=
  _ ← prepared; Ok [mkModel (rn_model runner) "" 0].

Definition arguments (model : string) : list string :=
  ["exec"; "--ephemeral"; "--json"; "--ignore-rules"; "--dangerously-bypass-hook-trust"; "--sandbox"; "read-only";
   "--skip-git-repo-check"; "--model"; model; "-"].
(** [getenv] is [os.Getenv]; [windows] is [runtime.GOOS == "windows"]. *)
Definition environment (getenv : string -> string) (windows : bool) (runner : Runner) (marker : string) : list string :=
  omap (fun key => if String.eqb (getenv key) "" then None else Some (key +:+ "=" +:+ getenv key))
    ["PATH"; "PATHEXT"; "SYSTEMROOT"; "WINDIR"; "COMSPEC"; "TEMP"; "TMP"; "LOCALAPPDATA"; "APPDATA"; "ProgramFiles";
     "ProgramFiles(x86)"]
  ++ ["CODEX_HOME=" +:+ rn_providerHome runner; "HOME=" +:+ rn_providerHome runner;
      "USERPROFILE=" +:+ rn_providerHome runner; "MYFERENCE_CODEX_TOOL_MARKER=" +:+ marker]
  ++ (if windows then [] else ["SHELL=/bin/sh"]).
Definition instructions (limit : Z) : string :=
  "You are serving a model-only text request. Never call tools, run commands, inspect files, browse, edit, or delegate. Answer only from the user prompt in at most "
  +:+ FormatUint limit +:+ " output tokens." +:+ str [10].

(** ** The event stream *)
Record event := mkEvent {
  ev_Type : string; ev_Item : option (string * string); ev_Usage : option (Z * Z); ev_Error : option string;
}.
Definition zero_event : event := mkEvent "" None None None.
Definition item_fields : list (string * setter (string * string)) :=
  [ ("type", set_with as_string (fun v i => (v, snd i))); ("text", set_with as_string (fun v i => (fst i, v))) ].
Definition usage_fields : list (string * setter (Z * Z)) :=
  [ ("input_tokens", set_with (as_uint 64) (fun v u => (v, snd u)));
    ("output_tokens", set_with (as_uint 64) (fun v u => (fst u, v))) ].
Definition message_fields : list (string * setter string) := [ ("message", set_with as_string (fun v _ => v)) ].
Definition event_fields : list (string * setter event) :=
  [ ("type", set_with as_string (fun v e => mkEvent v (ev_Item e) (ev_Usage e) (ev_Error e)));
    ("item", set_pointer item_fields ("", "") ev_Item (fun v e => mkEvent (ev_Type e) v (ev_Usage e) (ev_Error e)));
    ("usage", set_pointer usage_fields (0, 0) ev_Usage (fun v e => mkEvent (ev_Type e) (ev_Item e) v (ev_Error e)));
    ("error", set_pointer message_fields "" ev_Error (fun v e => mkEvent (ev_Type e) (ev_Item e) (ev_Usage e) v)) ].

Record progress := mkProgress { pg_text : string; pg_usage : Z * Z; pg_completed : bool; pg_usageSeen : bool }.
Definition start : progress := mkProgress "" (0, 0) false false.

Definition is_item (kind : string) : bool := contains ["item.started"; "item.completed"; "item.updated"] kind.

(** One event. *)
Definition read_event (e : event) (p : progress) : result progress :=
  if String.eqb (ev_Type e) "turn.failed" || String.eqb (ev_Type e) "error" then
    Err (ErrNew ("Codex turn failed" +:+ match ev_Error e with
                                         | Some message => if String.eqb message "" then "" else ": " +:+ message
                                         | None => "" end))
  else if String.eqb (ev_Type e) "turn.completed" then
    Ok match ev_Usage e with
       | Some usage => mkProgress (pg_text p) usage true true
       | None => mkProgress (pg_text p) (pg_usage p) true (pg_usageSeen p)
       end
  else if is_item (ev_Type e) then
    match ev_Item e with
    | None => Ok p
    | Some (kind, text) =>
        if String.eqb kind "agent_message" then
          if String.eqb (ev_Type e) "item.completed"
          then Ok (mkProgress (pg_text p +:+ text) (pg_usage p) (pg_completed p) (pg_usageSeen p)) else Ok p
        else if String.eqb kind "reasoning" || String.eqb kind "error" then Ok p
        else Err (ErrWrap kind errToolAttempt)
    end
  else Ok p.

Fixpoint read_events (events : list json) (clean : bool) (p : progress) : result progress :=
  match events with
  | [] => if clean then Ok p else Err (ErrWrap "decode Codex output" ErrEncode)
  | v :: rest =>
      match decode_loose event_fields v zero_event with
      | None => Err (ErrWrap "decode Codex output" ErrEncode)
      | Some e => p ← read_event e p; read_events rest clean p
      end
  end.

Definition parseOutput (events : list json) (clean : bool) (maximumOutputTokens : Z) : result (string * Usage) :=
  p ← read_events events clean start;
  if negb (pg_completed p) then Err (ErrNew "Codex output ended before turn completion")
  else if negb (pg_usageSeen p) then Err (ErrNew "Codex turn omitted usage")
  else if String.eqb (pg_text p) "" then Err (ErrNew "Codex turn returned empty output")
  else if snd (pg_usage p) =? 0 then Err (ErrNew "Codex turn reported zero output usage")
  else if (maximumOutputTokens =? 0) || (maximumOutputTokens <? snd (pg_usage p))
  then Err (ErrNew "Codex output exceeded the reserved token limit")
  else Ok (pg_text p, mkUsage (fst (pg_usage p)) (snd (pg_usage p)) 0).

(** The run: the standard output as JSON values, the standard error, its error
    and the context's, and whether the hook left its marker. *)
Record Execution := mkExecution {
  ex_Events : list json; ex_Clean : bool; ex_Stderr : string; ex_Error : option error; ex_Context : option error;
  ex_Marker : result bool; ex_Elapsed : Z;
}.

(** The last 2048 bytes of the trimmed standard error. *)
Definition detail_of (stderr : string) : string :=
  let detail := TrimSpace stderr in
  if 2048 <? go_len detail then drop_bytes (Z.to_nat (go_len detail - 2048)) detail else detail.

Definition Generate (runner : Runner) (prepared : result unit) (job : result string) (instructed : string -> result unit)
    (getenv : string -> string) (windows : bool)
    (run : string -> list string -> list string -> string -> Execution) : Backend := fun input =>
  if negb (String.eqb (br_Model input) (rn_model runner)) || is_blank (br_Prompt input)
  then Fail (ErrNew "configured model, prompt, and callback are required")
  else if negb (bool_decide (br_Workspace input = []))
  then Fail (ErrNew "native Codex is a model-only provider and does not accept workspace files")
  else
    match _ ← prepared; directory ← job; _ ← instructed (instructions (maximumOutput input)); Ok directory with
    | Err e => Fail e
    | Ok directory =>
        let ex := run directory (arguments (rn_model runner))
                    (environment getenv windows runner (directory +:+ "/tool-attempted")) (br_Prompt input) in
        match ex_Marker ex with
        | Ok true => Fail errToolAttempt
        | Err e => Fail e
        | Ok false =>
            match ex_Error ex with
            | Some e =>
                match ex_Context ex with
                | Some cause => Fail (ErrWrap "Codex execution stopped" cause)
                | None =>
                    let detail := detail_of (ex_Stderr ex) in
                    Fail (ErrWrap ("Codex execution failed" +:+ if String.eqb detail "" then "" else ": " +:+ detail) e)
                end
            | None =>
                match parseOutput (ex_Events ex) (ex_Clean ex) (maximumOutput input) with
                | Err e => Fail e
                | Ok (text, usage) =>
                    emit_then text (Return (mkUsage (us_InputTokens usage) (us_OutputTokens usage) (Z.max 1 (ex_Elapsed ex))))
                end
            end
        end
    end.
