(* ===== verification/BackendsSpec.v ===== *)
(** * Correctness of the native backends

    What the daemon relies on ([Metered]: no empty piece of output and no usage
    above the request's limit), proved of three backends; what a successful
    generation says of the stream, the events or the document it was read from;
    and the composition with the daemon. *)

From S2P Require Import Prelude GoStrings GoTime Wire Receipt Messages Anthropic Daemon DaemonSpec Backends Ollama OpenAI Claude Codex.
From stdpp Require Import gmap strings.
Open Scope string_scope.
Open Scope list_scope.
Open Scope Z_scope.

Abbreviation nonempty_piece := (fun c : string => c <> "").

(** ** The interface *)
Class Metered (b : Backend) : Prop :=
  metered : forall input, generates nonempty_piece (fun u => us_OutputTokens u <= maximumOutput input) (b input).

Lemma generates_script P Q g : generates P Q g ->
  Forall P (fst (script g)) /\ forall u, snd (script g) = inl u -> Q u.
Proof.
  induction 1 as [u Hu|e|c next Hc Hn IH]; cbn.
  - split; [done|]. by intros u' [= <-].
  - by split.
  - destruct (IH (Ok tt)) as [H1 H2]. destruct (script (next (Ok tt))). cbn in *. split; [by constructor|done].
Qed.

Lemma is_blank_nonempty s : is_blank s = false -> s <> "".
Proof. by intros Hb ->. Qed.

(** ** OpenAI-compatible services *)
Lemma openai_emit_choices P Q contents k : (forall c, c <> "" -> P c) ->
  generates P Q k -> generates P Q (emit_choices contents k).
Proof.
  intros HP Hk. induction contents as [|c rest IH]; cbn; [done|]. destruct (String.eqb_spec c ""); [done|].
  by apply generates_then; [apply HP|].
Qed.

Lemma openai_conclude limit elapsed ended done outputSeen usageSeen usage P :
  generates P (fun u => us_OutputTokens u <= limit) (conclude limit elapsed ended done outputSeen usageSeen usage).
Proof.
  unfold conclude. destruct ended; [constructor|]. repeat case_match; try constructor. bools. cbn. lia.
Qed.

Lemma openai_stream parse limit elapsed lines ended ahead : forall outputSeen usageSeen usage,
  generates nonempty_piece (fun u => us_OutputTokens u <= limit)
    (OpenAI.stream parse limit elapsed lines ended ahead outputSeen usageSeen usage).
Proof.
  induction lines as [|line rest IH]; intros outputSeen usageSeen usage; cbn [OpenAI.stream]; [apply openai_conclude|].
  destruct (negb _); [apply IH|]. destruct (String.eqb _ "[DONE]"); [apply openai_conclude|].
  destruct (_ ≫= _) as [c|]; [|constructor]. by apply openai_emit_choices; [|apply IH].
Qed.

#[export] Instance openai_metered parse post elapsed baseURL secret : Metered (OpenAI.Generate parse post elapsed baseURL secret).
Proof.
  intros input. unfold OpenAI.Generate. destruct (_ || _); [constructor|]. destruct (post _ _ _) as [reply|]; [|constructor].
  destruct (negb _); [constructor|]. destruct (scan_lines _ _). apply openai_stream.
Qed.

(** ** Claude *)
#[export] Instance claude_metered parse runner lookup job run elapsed : Metered (Claude.Generate parse runner lookup job run elapsed).
Proof.
  intros input. unfold Claude.Generate. destruct (_ || _); [constructor|]. destruct (negb _); [constructor|].
  destruct job; [|constructor]. cbv zeta. destruct (Claude.ex_Error _); [case_match; constructor|].
  destruct (_ || _); [constructor|]. destruct (parseResult _ _ _) as [[text usage]|] eqn:E; [|constructor].
  unfold parseResult in E. destruct (_ ≫= _) as [r|]; [|done]. destruct (_ || _ || _); [done|].
  destruct (is_blank (rd_Result r)) eqn:B; [done|]. destruct (rd_Usage r) as [u|]; [|done].
  destruct (uc_Output u =? 0); [done|]. destruct (_ <? _) eqn:L; [done|]. injection E as <- <-.
  apply generates_then; [by apply is_blank_nonempty|]. constructor. cbn. lia.
Qed.

(** ** Codex *)
Lemma parseOutput_spec events clean limit text usage :
  parseOutput events clean limit = Ok (text, usage) ->
  exists p, read_events events clean start = Ok p /\ pg_completed p = true /\ text = pg_text p /\ text <> ""
            /\ us_OutputTokens usage = snd (pg_usage p) /\ us_OutputTokens usage <> 0 /\ us_OutputTokens usage <= limit.
Proof.
  unfold parseOutput. intros E. step_ok E as p E1. destruct (negb _) eqn:G1 in E; [done|].
  destruct (negb (pg_usageSeen p)); [done|]. destruct (String.eqb_spec (pg_text p) ""); [done|].
  destruct (_ =? 0) eqn:G2 in E; [done|]. destruct (_ || _) eqn:G3 in E; [done|]. injection E as <- <-.
  apply negb_false_iff in G1. apply orb_false_iff in G3 as [_ G3]. exists p. cbn. split_and!; try done; lia.
Qed.

#[export] Instance codex_metered runner prepared job instructed getenv windows run :
  Metered (Codex.Generate runner prepared job instructed getenv windows run).
Proof.
  intros input. unfold Codex.Generate. destruct (_ || _); [constructor|]. destruct (negb _); [constructor|].
  destruct (_ ≫= _) as [directory|]; [|constructor]. cbv zeta. destruct (Codex.ex_Marker _) as [[]|]; [constructor| |constructor].
  destruct (Codex.ex_Error _); [case_match; constructor|]. destruct (parseOutput _ _ _) as [[text usage]|] eqn:E; [|constructor].
  apply parseOutput_spec in E as (p & _ & _ & _ & Ht & _ & _ & Hu). apply generates_then; [done|]. constructor. cbn. lia.
Qed.

(** ** Ollama *)
Lemma ollama_pieces parse lines ended : generates nonempty_piece (fun _ => True) (Ollama.stream parse lines ended).
Proof.
  induction lines as [|line rest IH]; cbn [Ollama.stream]; [constructor|]. destruct (_ ≫= _) as [c|]; [|constructor].
  destruct (negb _); [constructor|]. cbv zeta.
  assert (generates nonempty_piece (fun _ => True)
    (if oc_Done c then Return (mkUsage (oc_PromptEvalCount c) (oc_EvalCount c) (oc_TotalDuration c / 1000000))
     else Ollama.stream parse rest ended)) as Hk by (destruct (oc_Done c); [by constructor|done]).
  destruct (String.eqb_spec (oc_Response c) ""); [done|by apply generates_then].
Qed.

(** ** The daemon running a metered backend *)
(** A job on a metered backend stays within its offer: whatever the
    service or the child process answers, the daemon sends the pieces of the
    output in order, none of them empty, and one final chunk, whose output
    tokens never exceed the maximum the offer reserved. *)
Theorem metered_job_within_offer {PrivateKey} Error now id (d : Daemon PrivateKey) offer backend `{!Metered backend} files :
  let '(contents, outcome) :=
    script (backend (mkBackendRequest (jo_Model offer) (jo_Prompt offer) files (jo_MaximumOutputTokens offer))) in
  dm_open d = true -> dm_threads d !! id = Some (mkJob offer backend 0 None) -> jo_RequestID offer = id ->
  dm_state d !! id = Some (mkRequest true 0 false false) ->
  decode_workspace (jo_Workspace offer) = Some files -> 0 < jo_MaximumOutputTokens offer ->
  is_blank id = false -> Z.of_nat (length contents) + 1 < u64_mod ->
  let d' := Nat.iter (length contents + 2) (job_step Error now id Sent) d in
  exists final, dm_written d' = dm_written d ++ map OChunk (numbered id 0 contents) ++ [OChunk final]
  /\ Forall nonempty_piece contents /\ ch_Done final = true /\ ch_RequestID final = id
  /\ ch_Sequence final = Z.of_nat (length contents) + 1
  /\ ch_OutputTokens final <= jo_MaximumOutputTokens offer.
Proof.
  pose proof (job_completes Error now id d offer backend files) as Hjob. cbv zeta in Hjob.
  destruct (generates_script _ _ _ (metered (mkBackendRequest (jo_Model offer) (jo_Prompt offer) files
              (jo_MaximumOutputTokens offer)))) as [Hp Hq].
  destruct (script _) as [contents outcome]. cbn [fst snd] in Hp, Hq.
  intros Ho Ht Hid Hst Hf Hm Hb Hlt. destruct (Hjob Ho Ht Hid Hst Hf Hb Hp Hlt) as [Hw _].
  exists (last_chunk id (Z.of_nat (length contents) + 1) outcome). split; [exact Hw|]. split; [done|].
  destruct outcome as [u|e]; [|repeat split; cbn; lia]. split; [done|]. split; [done|]. split; [done|].
  specialize (Hq u eq_refl). unfold maximumOutput in Hq. cbn in Hq |- *.
  destruct (jo_MaximumOutputTokens offer =? 0) eqn:Z0; lia.
Qed.

(** ** What a successful generation was read from *)
Definition pieces (contents : list string) : list string := List.filter (fun c => negb (String.eqb c "")) contents.

Lemma script_emit_then content k :
  script (emit_then content k) = (content :: fst (script k), snd (script k)).
Proof. cbn. by destruct (script k). Qed.

Section OllamaStream.
Context (parse : string -> option json).

Definition ollama_line (line : string) : option Ollama.chunk :=
  parse line ≫= fun v => decode_loose Ollama.chunk_fields v zero_chunk.
Definition going_on (c : Ollama.chunk) : Prop := oc_Error c = "" /\ oc_Done c = false.

(** The Ollama backend succeeds exactly on a complete stream: the lines are
    JSON chunks without an error up to one marked done; it then hands over the
    non-empty responses of those chunks, in order, and returns the counts of the
    last one.  A stream cut before its end is never reported as a success. *)
Theorem ollama_success_iff lines ended contents usage :
  script (Ollama.stream parse lines ended) = (contents, inl usage)
  <-> exists before line rest cs c, lines = before ++ line :: rest /\ mapM ollama_line before = Some cs
      /\ Forall going_on cs /\ ollama_line line = Some c /\ oc_Error c = "" /\ oc_Done c = true
      /\ contents = pieces (map oc_Response (cs ++ [c]))
      /\ usage = mkUsage (oc_PromptEvalCount c) (oc_EvalCount c) (oc_TotalDuration c / 1000000).
Proof.
  revert contents. induction lines as [|l lines IH]; intros contents; cbn [Ollama.stream].
  - split; [done|]. by intros ([|] & line & rest & cs & c & Hl & _).
  - fold (ollama_line l). destruct (ollama_line l) as [c|] eqn:El.
    2: { split; [done|]. intros ([|b before] & line & rest & cs & c & Hl & Hm & _ & Hc & _); injection Hl as -> _; [congruence|].
         cbn in Hm. by rewrite El in Hm. }
    destruct (String.eqb_spec (oc_Error c) "") as [He|He]; cbn [negb].
    2: { split; [done|]. intros ([|b before] & line & rest & cs & c' & Hl & Hm & Hg & Hc & He' & _); injection Hl as -> _; [congruence|].
         cbn in Hm. rewrite El in Hm. cbn in Hm. destruct (mapM ollama_line before); [|done]. cbn in Hm. injection Hm as <-.
         apply Forall_cons in Hg as [[Hg _] _]. congruence. }
    assert (forall k, script (if String.eqb (oc_Response c) "" then k else emit_then (oc_Response c) k)
                      = (pieces [oc_Response c] ++ fst (script k), snd (script k))) as Hemit.
    { intros k. unfold pieces. cbn. destruct (String.eqb (oc_Response c) ""); cbn; [by destruct (script k)|]. by destruct (script k). }
    rewrite Hemit. destruct (oc_Done c) eqn:Ed.
    + cbn. rewrite app_nil_r. split.
      * intros [= <- <-]. by exists [], l, lines, [], c.
      * intros ([|b before] & line & rest & cs & c' & Hl & Hm & Hg & Hc & _ & _ & -> & ->); injection Hl as -> _.
        -- cbn in Hm. injection Hm as <-. rewrite El in Hc. by injection Hc as <-.
        -- exfalso. cbn in Hm. rewrite El in Hm. cbn in Hm. destruct (mapM ollama_line before); [|done]. cbn in Hm.
           injection Hm as <-. apply Forall_cons in Hg as [[_ Hg] _]. congruence.
    + split.
      * intros [= Hc Hu].
        assert (script (Ollama.stream parse lines ended) = (fst (script (Ollama.stream parse lines ended)), inl usage)) as S
          by (rewrite <- Hu; apply surjective_pairing).
        apply IH in S as (before & line & rest & cs & c' & -> & Hm & Hg & Hl & He' & Hd & Hcts & ->).
        rewrite Hcts in Hc. exists (l :: before), line, rest, (c :: cs), c'. cbn [mapM]. rewrite El. cbn. rewrite Hm. split_and!; try done.
        { by constructor. }
        rewrite <- Hc. unfold pieces. cbn. by destruct (String.eqb (oc_Response c) "").
      * intros ([|b before] & line & rest & cs & c' & Hl & Hm & Hg & Hc & He' & Hd & -> & ->); injection Hl as -> ->; [congruence|].
        cbn in Hm. rewrite El in Hm. cbn in Hm. destruct (mapM ollama_line before) as [cs'|] eqn:M; [|done]. cbn in Hm.
        injection Hm as <-. apply Forall_cons in Hg as [_ Hg].
        assert (script (Ollama.stream parse (before ++ line :: rest) ended)
                = (pieces (map oc_Response (cs' ++ [c'])), inl (mkUsage (oc_PromptEvalCount c') (oc_EvalCount c') (oc_TotalDuration c' / 1000000)))) as ->.
        { apply IH. by exists before, line, rest, cs', c'. }
        cbn. unfold pieces. cbn. by destruct (String.eqb (oc_Response c) "").
Qed.
End OllamaStream.

(** ** Codex *)
Definition completed_message (e : event) : string :=
  if String.eqb (ev_Type e) "item.completed" then
    match ev_Item e with Some (kind, text) => if String.eqb kind "agent_message" then text else "" | None => "" end
  else "".
Definition harmless (e : event) : Prop :=
  forall kind text, is_item (ev_Type e) = true -> ev_Item e = Some (kind, text) ->
    kind ∈ ["agent_message"; "reasoning"; "error"].

Lemma contains_reflect values wanted : reflect (wanted ∈ values) (contains values wanted).
Proof. apply iff_reflect. symmetry. apply contains_spec. Qed.

Lemma read_event_Ok e p p' : read_event e p = Ok p' ->
  pg_text p' = pg_text p +:+ completed_message e /\ harmless e /\ (ev_Type e = "turn.failed" \/ ev_Type e = "error" -> False).
Proof.
  unfold read_event, completed_message, harmless. intros E.
  destruct (String.eqb_spec (ev_Type e) "turn.failed") as [|N1]; [done|].
  destruct (String.eqb_spec (ev_Type e) "error") as [|N2]; [done|]. cbn [orb] in E.
  destruct (String.eqb_spec (ev_Type e) "turn.completed") as [T|N3].
  { rewrite T. split_and!; [|done|by intros [?|?]]. rewrite app_string_nil_r. destruct (ev_Usage e); by injection E as <-. }
  destruct (is_item (ev_Type e)) eqn:I; [|injection E as <-; split_and!; [|done|by intros [?|?]]].
  2: { destruct (String.eqb_spec (ev_Type e) "item.completed") as [T|]; [by rewrite T in I|]. by rewrite app_string_nil_r. }
  destruct (ev_Item e) as [[kind text]|].
  2: { injection E as <-. split_and!; [|done|by intros [?|?]]. destruct (String.eqb (ev_Type e) "item.completed"); by rewrite app_string_nil_r. }
  destruct (String.eqb_spec kind "agent_message") as [->|K1].
  - destruct (String.eqb (ev_Type e) "item.completed"); injection E as <-; (split_and!; [|..|by intros [?|?]]);
      rewrite ?app_string_nil_r; try done; intros k t _ [= <- <-]; by repeat constructor.
  - destruct (String.eqb_spec kind "reasoning") as [->|K2].
    { injection E as <-. split_and!; [|intros k t _ [= <- <-]; by repeat constructor|by intros [?|?]].
      destruct (String.eqb (ev_Type e) "item.completed"); by rewrite app_string_nil_r. }
    destruct (String.eqb_spec kind "error") as [->|K3]; [|done].
    injection E as <-. split_and!; [|intros k t _ [= <- <-]; by repeat constructor|by intros [?|?]].
    destruct (String.eqb (ev_Type e) "item.completed"); by rewrite app_string_nil_r.
Qed.

Definition concat_text (texts : list string) : string := foldr (fun a b => a +:+ b) "" texts.

Lemma read_events_Ok events clean : forall p p', read_events events clean p = Ok p' ->
  exists es, mapM (fun v => decode_loose event_fields v zero_event) events = Some es /\ clean = true
  /\ Forall harmless es /\ Forall (fun e => ev_Type e <> "turn.failed" /\ ev_Type e <> "error") es
  /\ pg_text p' = pg_text p +:+ concat_text (map completed_message es).
Proof.
  induction events as [|v events IH]; intros p p' E; cbn [read_events] in E.
  - destruct clean; [|done]. injection E as <-. exists []. split_and!; try done. by rewrite app_string_nil_r.
  - destruct (decode_loose event_fields v zero_event) as [e|] eqn:D; [|done]. step_ok E as p1 E1.
    apply read_event_Ok in E1 as (Ht & Hh & Hf). destruct (IH p1 p' E) as (es & Hm & Hc & Hhs & Hfs & Htext).
    exists (e :: es). cbn [mapM]. rewrite D. cbn. rewrite Hm. split_and!; try done; [by constructor| |].
    + constructor; [|done]. split; intros Ht'; apply Hf; auto.
    + rewrite Htext, Ht. apply app_string_assoc.
Qed.

(** Codex serves text only: a run succeeds only when its hook left no
    marker, its event stream ended cleanly, no item of the stream is anything
    but a message, a reasoning step or an error notice, and no turn failed; the
    one piece of output is then the concatenation of the completed agent
    messages. *)
Theorem codex_serves_text_only runner prepared job instructed getenv windows run input contents usage :
  script (Codex.Generate runner prepared job instructed getenv windows run input) = (contents, inl usage) ->
  exists directory es,
    let ex := run directory (Codex.arguments (rn_model runner))
                (environment getenv windows runner (directory +:+ "/tool-attempted")) (br_Prompt input) in
    job = Ok directory /\ Codex.ex_Marker ex = Ok false /\ Codex.ex_Error ex = None /\ Codex.ex_Clean ex = true
    /\ mapM (fun v => decode_loose event_fields v zero_event) (Codex.ex_Events ex) = Some es
    /\ Forall harmless es /\ Forall (fun e => ev_Type e <> "turn.failed" /\ ev_Type e <> "error") es
    /\ contents = [concat_text (map completed_message es)] /\ contents <> [""].
Proof.
  unfold Codex.Generate. destruct (_ || _); [done|]. destruct (negb _); [done|].
  destruct (_ ≫= _) as [directory|] eqn:P; [|done]. cbv zeta.
  destruct (Codex.ex_Marker _) as [[]|] eqn:M; [done| |done]. destruct (Codex.ex_Error _) eqn:X; [by case_match|].
  destruct (parseOutput _ _ _) as [[text u]|] eqn:O; [|done]. cbn. intros [= <- _].
  apply parseOutput_spec in O as (p & Hr & _ & -> & Hne & _). apply read_events_Ok in Hr as (es & Hm & Hc & Hh & Hf & Ht).
  cbn in Ht. exists directory, es. split_and!; try done.
  - step_ok P as u1 P1. step_ok P as dir P2. step_ok P as u2 P3. by injection P as <-.
  - rewrite Ht. done.
  - intros [= Hn]. done.
Qed.

(** ** Claude's bounded buffers *)
Lemma go_len_app a b : go_len (a +:+ b) = go_len a + go_len b.
Proof.
  unfold go_len. rewrite <- Nat2Z.inj_add. f_equal. induction a as [|c a IH]; [done|]. rewrite app_string_cons. cbn.
  by rewrite IH.
Qed.

Lemma take_bytes_app n a b :
  take_bytes n (a +:+ b) = take_bytes n a +:+ take_bytes (n - String.length a) b.
Proof.
  revert n. induction a as [|c a IH]; intros [|n]; cbn [take_bytes]; try done.
  rewrite !app_string_cons. cbn [take_bytes String.length]. by rewrite IH.
Qed.

Lemma go_len_take n s : go_len (take_bytes n s) = Z.min (Z.of_nat n) (go_len s).
Proof.
  unfold go_len. revert n. induction s as [|c s IH]; intros [|n]; cbn [take_bytes String.length]; try lia.
  specialize (IH n). lia.
Qed.

(** The first [limit] bytes of [s], and whether there are more. *)
Definition clipped (limit : Z) (s : string) : boundedBuffer :=
  mkBuffer (take_bytes (Z.to_nat limit) s) (limit <? go_len s).

Lemma write_limited_spec limit s value : 0 <= limit -> value <> "" ->
  write_limited limit (clipped limit s) value = clipped limit (s +:+ value).
Proof.
  intros H0 Hv. assert (0 < go_len value) as Hpos by (unfold go_len; destruct value; [done|cbn; lia]).
  assert (go_len s = Z.of_nat (String.length s)) as Hs by done.
  unfold write_limited, clipped. cbn [bb_bytes bb_overflow]. rewrite go_len_take, go_len_app, take_bytes_app.
  rewrite Z2Nat.id by done. set (k := (Z.to_nat limit - String.length s)%nat).
  destruct (limit - Z.min limit (go_len s) <=? 0) eqn:E.
  - assert (k = 0%nat) as -> by lia. replace (limit <? go_len s + go_len value) with true by lia.
    f_equal. destruct value; cbn; by rewrite app_string_nil_r.
  - assert (Z.of_nat k = limit - go_len s) as Hk by lia.
    replace (Z.to_nat (limit - Z.min limit (go_len s))) with k by lia.
    destruct (limit - Z.min limit (go_len s) <? go_len value) eqn:E2.
    + by replace (limit <? go_len s + go_len value) with true by lia.
    + rewrite (take_bytes_all k value) by (unfold go_len in *; lia).
      replace (limit <? go_len s) with false by lia. by replace (limit <? go_len s + go_len value) with false by lia.
Qed.

Lemma collect_from limit writes s : 0 <= limit -> Forall nonempty_piece writes ->
  foldl (write_limited limit) (clipped limit s) writes = clipped limit (s +:+ concat_text writes).
Proof.
  intros H0 Hw. revert s. induction Hw as [|v writes Hv Hw IH]; intros s; cbn; [by rewrite app_string_nil_r|].
  rewrite write_limited_spec by done. rewrite IH. by rewrite app_string_assoc.
Qed.

(** Whatever the CLI writes, and however it splits its writes, the buffer
    holds the first four MiB of the output and its overflow flag tells exactly
    whether there was more. *)
Theorem bounded_buffer writes : Forall nonempty_piece writes ->
  collect writes = clipped maximumResultBytes (concat_text writes).
Proof.
  intros Hw. unfold collect, write_bounded. change empty_buffer with (clipped maximumResultBytes "").
  by rewrite collect_from.
Qed.

(** ** OpenAI-compatible streams *)
Section OpenAIStream.
Context (parse : string -> option json).

(** The chunks of the data lines; any other line is skipped. *)
Fixpoint openai_chunks (lines : list string) : option (list OpenAI.chunk) :=
  match lines with
  | [] => Some []
  | line :: rest =>
      if negb (HasPrefix line "data: ") then openai_chunks rest
      else c ← (parse (TrimPrefix line "data: ") ≫= fun v => decode_loose OpenAI.chunk_fields v (OpenAI.mkChunk [] None));
           cs ← openai_chunks rest; Some (c :: cs)
  end.
Definition last_usage (usage : Z * Z) (cs : list OpenAI.chunk) : Z * Z :=
  foldl (fun u c => default u (cu_Usage c)) usage cs.
Definition reports_usage (cs : list OpenAI.chunk) : bool :=
  existsb (fun c => match cu_Usage c with Some _ => true | None => false end) cs.
Definition deltas (cs : list OpenAI.chunk) : list string := pieces (concat (map cu_Contents cs)).

Lemma script_emit_choices contents k :
  script (emit_choices contents k) = (pieces contents ++ fst (script k), snd (script k)).
Proof.
  induction contents as [|c contents IH]; cbn [emit_choices]; [by destruct (script k)|].
  unfold pieces in *. cbn. destruct (String.eqb c ""); cbn [negb]; [done|]. rewrite script_emit_then, IH. done.
Qed.

Lemma pieces_app a b : pieces (a ++ b) = pieces a ++ pieces b.
Proof. apply List.filter_app. Qed.

Lemma has_content_pieces contents : has_content contents = true <-> pieces contents <> [].
Proof.
  unfold has_content, pieces. induction contents as [|c contents IH]; cbn; [done|].
  destruct (String.eqb c ""); cbn [negb orb]; [exact IH|done].
Qed.

Lemma conclude_Return limit elapsed ended done outputSeen usageSeen usage contents u :
  script (conclude limit elapsed ended done outputSeen usageSeen usage) = (contents, inl u) ->
  ended = None /\ done = true /\ contents = [] /\ u = mkUsage (fst usage) (snd usage) elapsed /\ snd usage <= limit
  /\ (outputSeen = true -> usageSeen = true /\ snd usage <> 0).
Proof.
  unfold conclude. destruct ended; [done|]. destruct done; [|done]. cbn [negb].
  destruct (outputSeen && negb usageSeen) eqn:G1; [done|]. destruct (outputSeen && (snd usage =? 0)) eqn:G2; [done|].
  destruct (limit <? snd usage) eqn:G3; [done|]. intros [= <- <-]. split_and!; try done; [lia|]. intros ->.
  cbn in G1, G2. split; [by apply negb_false_iff|lia].
Qed.

Lemma openai_stream_success limit elapsed ended ahead lines : forall outputSeen usageSeen usage contents u,
  script (OpenAI.stream parse limit elapsed lines ended ahead outputSeen usageSeen usage) = (contents, inl u) ->
  exists before rest cs, lines = before ++ "data: [DONE]" :: rest /\ openai_chunks before = Some cs
  /\ contents = deltas cs
  /\ u = mkUsage (fst (last_usage usage cs)) (snd (last_usage usage cs)) elapsed /\ us_OutputTokens u <= limit
  /\ (outputSeen = true \/ contents <> [] -> usageSeen || reports_usage cs = true /\ us_OutputTokens u <> 0).
Proof.
  induction lines as [|line lines IH]; intros outputSeen usageSeen usage contents u E; cbn [OpenAI.stream] in E.
  { apply conclude_Return in E as (_ & ? & _). done. }
  destruct (HasPrefix line "data: ") eqn:P; cbn [negb] in E.
  2: { destruct (IH _ _ _ _ _ E) as (before & rest & cs & -> & Hc & Hr). exists (line :: before), rest, cs.
       split; [done|]. cbn [openai_chunks]. by rewrite P. }
  destruct (String.eqb_spec (TrimPrefix line "data: ") "[DONE]") as [D|D].
  - apply conclude_Return in E as (_ & _ & -> & -> & Hl & Hu). exists [], lines, [].
    unfold TrimPrefix in D. rewrite P in D. apply HasPrefix_split in P. rewrite D in P.
    split; [by rewrite P|]. cbn. split_and!; try done. rewrite orb_false_r. intros [Ho|]; [by apply Hu|done].
  - destruct (parse _ ≫= _) as [c|] eqn:C; [|done]. rewrite script_emit_choices in E. injection E as E1 E2.
    assert (script (OpenAI.stream parse limit elapsed lines ended ahead (outputSeen || has_content (cu_Contents c))
              (usageSeen || match cu_Usage c with Some _ => true | None => false end) (default usage (cu_Usage c)))
            = (fst (script (OpenAI.stream parse limit elapsed lines ended ahead (outputSeen || has_content (cu_Contents c))
              (usageSeen || match cu_Usage c with Some _ => true | None => false end) (default usage (cu_Usage c)))), inl u)) as S
      by (rewrite <- E2; apply surjective_pairing).
    apply IH in S as (before & rest & cs & -> & Hc & Hd & Hu & Hl & Hp). rewrite Hd in E1, Hp.
    exists (line :: before), rest, (c :: cs). split; [done|]. cbn [openai_chunks]. rewrite P. cbn [negb]. rewrite C. cbn.
    rewrite Hc. split; [done|]. split; [unfold deltas in *; cbn; by rewrite pieces_app|]. split; [done|]. split; [done|].
    intros Hout. rewrite orb_assoc. apply Hp.
    destruct Hout as [->|Hne]; [by left|]. subst contents.
    destruct (decide (pieces (cu_Contents c) = [])) as [Hn|Hn]; [right; by rewrite Hn in Hne|].
    left. rewrite (proj2 (has_content_pieces _) Hn). by rewrite orb_true_r.
Qed.

(** The OpenAI-compatible backend succeeds only on a complete stream that
    reports its usage: the stream reached [DONE], every data line before it was
    a JSON chunk, the pieces handed over are the non-empty deltas in order, the
    usage is the last one reported, within the limit, and it is reported and not
    zero as soon as there is output. *)
Theorem openai_success_complete post elapsed baseURL secret input contents u :
  script (OpenAI.Generate parse post elapsed baseURL secret input) = (contents, inl u) ->
  exists reply before rest cs,
    post (OpenAI.endpoint baseURL "/v1/chat/completions") ("Bearer " +:+ secret) (OpenAI.request_body input) = Ok reply
    /\ fst (scan_lines (rp_Body reply) (rp_Cut reply)) = before ++ "data: [DONE]" :: rest
    /\ openai_chunks before = Some cs /\ contents = deltas cs
    /\ u = mkUsage (fst (last_usage (0, 0) cs)) (snd (last_usage (0, 0) cs)) elapsed
    /\ us_OutputTokens u <= maximumOutput input
    /\ (contents <> [] -> reports_usage cs = true /\ us_OutputTokens u <> 0).
Proof.
  unfold OpenAI.Generate. destruct (_ || _); [done|]. destruct (post _ _ _) as [reply|]; [|done].
  destruct (negb _); [done|]. destruct (scan_lines _ _) as [lines ended] eqn:S. intros E.
  apply openai_stream_success in E as (before & rest & cs & -> & Hc & Hd & Hu & Hl & Hp).
  exists reply, before, rest, cs. rewrite S. split_and!; try done. intros Hne. apply Hp. by right.
Qed.
End OpenAIStream.

(** ** Sample runs *)
Module BackendRun.
(** The documents of the samples. *)
Definition parse (text : string) : option json :=
  if String.eqb text "{delta}" then
    Some (JObj [("choices", JArr [JObj [("delta", JObj [("content", JStr "Hi")])]])])
  else if String.eqb text "{usage}" then
    Some (JObj [("choices", JArr []); ("usage", JObj [("prompt_tokens", num 3); ("completion_tokens", num 2)])])
  else None.
Definition body : string :=
  "data: {delta}" +:+ str [13; 10] +:+ str [10] +:+ "data: {usage}" +:+ str [10] +:+ "data: [DONE]" +:+ str [10].
Definition post (url authorization : string) (body_ : json) : result Reply :=
  if String.eqb url "https://api.example/v1/chat/completions" && String.eqb authorization "Bearer key"
  then Ok (mkReply true "200 OK" body None false) else Err (ErrNew "unreachable").
Definition openai : Backend := OpenAI.Generate parse post 40 "https://api.example/v1" "key".
Definition input : BackendRequest := mkBackendRequest "llama" "say hi" [] 8.

Definition runner : Codex.Runner := Codex.mkRunner "codex" "gpt" "auth" "skills" "home" "hook" 60.
Definition message (text : string) : json :=
  JObj [("type", JStr "item.completed"); ("item", JObj [("type", JStr "agent_message"); ("text", JStr text)])].
Definition execution : Codex.Execution :=
  Codex.mkExecution
    [message "Hel"; JObj [("type", JStr "item.started"); ("item", JObj [("type", JStr "reasoning")])]; message "lo";
     JObj [("type", JStr "turn.completed"); ("usage", JObj [("input_tokens", num 5); ("output_tokens", num 2)])]]
    true "" None None (Ok false) 25.
Definition codex : Backend :=
  Codex.Generate runner (Ok tt) (Ok "job") (fun _ => Ok tt) (fun _ => "") false (fun _ _ _ _ => execution).

(** A daemon that runs one job on the sample OpenAI backend. *)
Definition offer : JobOffer := mkJobOffer "0xaa" "llama" "o1" "say hi" 1 500 8 (1700000000 * GoTime.Second) [].
Definition daemon : Daemon Z :=
  mkDaemon Session.config {["o1" := openai]} {["0xaa" := mkRequest true 0 false false]} {["0xaa"]} ∅
    {["0xaa" := mkJob offer openai 0 None]} (dm_status Session.fresh) ∅ true true [].
End BackendRun.

Lemma openai_success_complete_witness :
  script (BackendRun.openai BackendRun.input) = (["Hi"], inl (mkUsage 3 2 40))
  /\ exists cs, openai_chunks BackendRun.parse ["data: {delta}"; ""; "data: {usage}"] = Some cs
     /\ deltas cs = ["Hi"] /\ reports_usage cs = true.
Proof.
  assert (script (BackendRun.openai BackendRun.input) = (["Hi"], inl (mkUsage 3 2 40))) as E by (vm_compute; reflexivity).
  split; [exact E|].
  destruct (openai_success_complete BackendRun.parse BackendRun.post 40 "https://api.example/v1" "key" BackendRun.input _ _ E)
    as (reply & before & rest & cs & Hp & Hl & Hc & Hd & _ & _ & Hu).
  vm_compute in Hp. injection Hp as <-. vm_compute in Hl.
  destruct before as [|l1 [|l2 [|l3 [|l4 before]]]]; injection Hl; intros; subst; try discriminate.
  exists cs. split; [exact Hc|]. split; [symmetry; exact Hd|]. apply Hu. discriminate.
Defined.

Lemma codex_serves_text_only_witness :
  script (BackendRun.codex (mkBackendRequest "gpt" "say hello" [] 8)) = (["Hello"], inl (mkUsage 5 2 25))
  /\ exists es, mapM (fun v => decode_loose event_fields v zero_event) (Codex.ex_Events BackendRun.execution) = Some es
     /\ concat_text (map completed_message es) = "Hello" /\ Forall harmless es.
Proof.
  assert (script (BackendRun.codex (mkBackendRequest "gpt" "say hello" [] 8)) = (["Hello"], inl (mkUsage 5 2 25))) as E
    by (vm_compute; reflexivity).
  split; [exact E|].
  destruct (codex_serves_text_only _ _ _ _ _ _ _ _ _ _ E) as (directory & es & _ & _ & _ & _ & Hm & Hh & _ & Hc & _).
  exists es. split; [exact Hm|]. split; [injection Hc as <-; reflexivity|exact Hh].
Defined.

Lemma bounded_buffer_witness :
  collect ["Hello "; "world"] = clipped maximumResultBytes "Hello world".
Proof. apply (bounded_buffer ["Hello "; "world"]). repeat constructor; discriminate. Defined.

Lemma metered_job_within_offer_witness :
  let d' := Nat.iter 3 (job_step Session.text 8 "0xaa" Sent) BackendRun.daemon in
  exists final, dm_written d' = [OChunk (data_chunk "0xaa" 1 "Hi"); OChunk final]
  /\ ch_Sequence final = 2 /\ ch_OutputTokens final <= 8.
Proof.
  destruct (metered_job_within_offer Session.text 8 "0xaa" BackendRun.daemon BackendRun.offer BackendRun.openai [])
    as (final & Hw & _ & _ & _ & Hs & Hl); try (vm_compute; reflexivity).
  exists final. split; [exact Hw|]. split; [exact Hs|exact Hl].
Defined.
