(* ===== verification/Disk.v ===== *)
(** * Files and directories

    What the command-line programs use of [os] and [path/filepath] on a Unix
    host, as effects (Effects.v) on a disk: its directories and its files by
    path.  A path exists when it is one of them or holds one. *)

From S2P Require Import Prelude GoStrings Messages Effects.
From Stdlib Require Import Ascii.
From stdpp Require Import gmap strings.
Open Scope string_scope.
Open Scope list_scope.
Open Scope Z_scope.

Record Disk := mkDisk { dk_Directories : gset string; dk_Files : gmap string string }.
Definition set_files f (d : Disk) : Disk := mkDisk (dk_Directories d) (f (dk_Files d)).

(** ** Paths *)
Definition below (root path : string) : bool := HasPrefix path (root +:+ "/").
Definition within (root path : string) : bool := String.eqb path root || below root path.
(** [filepath.Join(directory, relative)] and [filepath.Dir]. *)
Definition path_Join (directory relative : string) : string := path_Clean (directory +:+ "/" +:+ relative).
Definition path_Dir (path : string) : string :=
  match removelast (SplitByte path "/") with
  | [] => "."
  | parents => path_Clean (GoStrings.Join parents "/" +:+ "/")
  end.

Definition on_disk (d : Disk) (path : string) : bool :=
  existsb (within path) (elements (dk_Directories d) ++ map fst (map_to_list (dk_Files d))).
(** A file lies on the way to the path. *)
Definition blocked (d : Disk) (path : string) : bool :=
  existsb (fun file => within file path) (map fst (map_to_list (dk_Files d))).

(** ** Operations *)
Definition mkdir_all (path : string) : Eff Disk unit :=
  effect (fun d => if blocked d path then (d, Err (ErrNew "not a directory"))
                   else (mkDisk ({[path]} ∪ dk_Directories d) (dk_Files d), Ok tt)).
(** Whether [os.Stat] finds the path; any other error of it is the effect's. *)
Definition exists_path (path : string) : Eff Disk bool := effect (fun d => (d, Ok (on_disk d path))).
Definition read_file (path : string) : Eff Disk string :=
  effect (fun d => (d, of_option (dk_Files d !! path) ErrNotExist)).
Definition store (path data : string) : Eff Disk unit := effect (fun d => (set_files (<[path := data]>) d, Ok tt)).
(** [os.WriteFile]: the file is truncated, then written. *)
Definition write_file (path data : string) : Eff Disk unit := _ ← store path ""; store path data.
(** [os.OpenFile] with [O_CREATE|O_EXCL]. *)
Definition create_file (path : string) : Eff Disk unit :=
  effect (fun d => if on_disk d path then (d, Err (ErrNew "file exists")) else (set_files (<[path := ""]>) d, Ok tt)).
Definition removed (path : string) (d : Disk) : Disk :=
  mkDisk (filter (fun p => within path p = false) (dk_Directories d))
         (filter (fun f => within path (fst f) = false) (dk_Files d)).

(** ** Frames *)
(** The disks agree outside the paths of [P]. *)
Definition same_outside (P : string -> Prop) (d w : Disk) : Prop := forall path, ~ P path ->
  dk_Files w !! path = dk_Files d !! path /\ (path ∈ dk_Directories w <-> path ∈ dk_Directories d).

Lemma same_outside_refl P d : same_outside P d d.
Proof. by intros path _. Qed.
Lemma same_outside_trans P d1 d2 d3 : same_outside P d1 d2 -> same_outside P d2 d3 -> same_outside P d1 d3.
Proof.
  intros H1 H2 path Hp. destruct (H1 path Hp) as [F1 D1], (H2 path Hp) as [F2 D2]. by rewrite F2, D2, F1, D1.
Qed.
Lemma same_outside_files (P : string -> Prop) d path data : P path -> same_outside P d (set_files (<[path := data]>) d).
Proof.
  intros Hp other Ho. split; [|done]. cbn. apply lookup_insert_ne. by intros ->.
Qed.
Lemma same_outside_directory (P : string -> Prop) d path : P path -> same_outside P d (mkDisk ({[path]} ∪ dk_Directories d) (dk_Files d)).
Proof.
  intros Hp other Ho. split; [done|]. cbn. rewrite elem_of_union, elem_of_singleton. split; [|by right].
  intros [->|]; [by destruct Ho|done].
Qed.
Lemma same_outside_removed (P : string -> Prop) d path : (forall other, within path other = true -> P other) ->
  same_outside P d (removed path d).
Proof.
  intros HP other Ho. assert (within path other = false) as Hw by (destruct (within path other) eqn:E; [by destruct Ho; auto|done]).
  cbn. rewrite elem_of_filter. split; [|tauto]. destruct (dk_Files d !! other) as [v|] eqn:E.
  - by apply map_lookup_filter_Some.
  - apply map_lookup_filter_None. by left.
Qed.

Lemma on_disk_false d path : on_disk d path = false ->
  forall other, within path other = true -> dk_Files d !! other = None /\ other ∉ dk_Directories d.
Proof.
  intros Ho other Hw. assert (forall l, existsb (within path) l = false -> other ∉ l) as Hl.
  { intros l Hl Hin. enough (existsb (within path) l = true) by congruence. apply existsb_exists. exists other.
    split; [by apply list_elem_of_In|done]. }
  apply Hl in Ho. rewrite elem_of_app in Ho. split.
  - destruct (dk_Files d !! other) as [v|] eqn:E; [|done]. destruct Ho. right. apply list_elem_of_fmap.
    exists (other, v). split; [done|]. by apply elem_of_map_to_list.
  - intros Hin. destruct Ho. left. by apply elem_of_elements.
Qed.

Lemma on_disk_file d path v : dk_Files d !! path = Some v -> on_disk d path = true.
Proof.
  intros Hv. destruct (on_disk d path) eqn:E; [done|]. apply (on_disk_false _ _) with (other := path) in E as [? _];
    [congruence|]. unfold within. by rewrite String.eqb_refl.
Qed.

(** ** Replacing a file

    The new content is written to a temporary file that is then renamed over the
    file, so that a failure or a crash leaves either the old or the new one. *)
(** [Chmod], [Sync] and [Close] can fail, and change no content. *)
Definition sync : Eff Disk unit := effect (fun d => (d, Ok tt)).
Definition rename (from to : string) : Eff Disk unit :=
  effect (fun d => match dk_Files d !! from with
                   | None => (d, Err ErrNotExist)
                   | Some data => (set_files (fun files => <[to := data]> (delete from files)) d, Ok tt)
                   end).
(** [defer os.Remove(path)]: its error is ignored. *)
Definition remove_after {A} (path : string) (m : Eff Disk A) : Eff Disk A :=
  r ← try m; _ ← try (effect (fun d => (set_files (delete path) d, Ok tt))); of_result r.
(** [commit] renames the temporary file. *)
Definition replace_file (temporary : string) (encoded : result string) (commit : Eff Disk unit) : Eff Disk unit :=
  _ ← create_file temporary;
  remove_after temporary
    (_ ← sync;
     text ← of_result encoded;
     _ ← store temporary text;
     _ ← sync;
     _ ← sync;
     commit).

Section Replace.
Context (path temporary : string) (encoded : result string) (d : Disk).
Context (apart : path <> temporary).

(** The files other than [temporary] are those of before, but for the file
    itself, which may be the new one. *)
Definition kept (w : Disk) : Prop := forall other, other <> temporary -> dk_Files w !! other = dk_Files d !! other.
Definition written (w : Disk) : Prop := exists text, encoded = Ok text /\ dk_Files w !! path = Some text.
Definition replaced (w : Disk) : Prop := forall other, other <> temporary ->
  dk_Files w !! other = dk_Files d !! other \/ other = path /\ written w.

Lemma kept_replaced w : kept w -> replaced w.
Proof. intros Hk other Ho. left. by apply Hk. Qed.
Hint Resolve kept_replaced : core.

Lemma mkdir_all_kept directory : triple (fun w => w = d) (mkdir_all directory) (fun _ => kept) (fun _ => kept) kept.
Proof. apply triple_effect; [|by intros w e ->|by intros w ->]. intros w ->. by destruct (blocked d _). Qed.
Lemma store_kept text : triple kept (store temporary text)
  (fun _ w => dk_Files w !! temporary = Some text /\ kept w) (fun _ => kept) kept.
Proof.
  apply triple_effect; [|done..]. intros w Hk. cbn. split; [apply lookup_insert_eq|]. intros other Ho.
  cbn. rewrite lookup_insert_ne by done. by apply Hk.
Qed.
Lemma sync_kept (P : Disk -> Prop) : (forall w, P w -> kept w) -> triple P sync (fun _ => P) (fun _ => kept) kept.
Proof. intros HP. by apply triple_effect; [|auto..]. Qed.
Lemma rename_replaced text : encoded = Ok text ->
  triple (fun w => dk_Files w !! temporary = Some text /\ kept w) (rename temporary path)
    (fun _ w => replaced w /\ written w) (fun _ => kept) kept.
Proof.
  intros He. apply triple_effect; [|by intros w e []|by intros w []]. intros w [Ht Hk]. rewrite Ht.
  assert (written (set_files (fun files => <[path := text]> (delete temporary files)) w)) as Hw.
  { exists text. split; [done|]. apply lookup_insert_eq. }
  split; [|done]. intros other Ho. destruct (decide (other = path)) as [->|Hp]; [by right|].
  left. cbn. rewrite lookup_insert_ne, lookup_delete_ne by done. by apply Hk.
Qed.
Lemma removed_replaced w : replaced w /\ written w ->
  replaced (set_files (delete temporary) w) /\ written (set_files (delete temporary) w).
Proof.
  intros [Hs (text & He & Hp)]. assert (written (set_files (delete temporary) w)) as Hw.
  { exists text. split; [done|]. cbn. by rewrite lookup_delete_ne. }
  split; [|done]. intros other Ho. cbn. rewrite lookup_delete_ne by done. destruct (Hs other Ho) as [|[-> _]]; [by left|by right].
Qed.

Lemma replace_file_spec commit :
  (forall P Q, triple P (rename temporary path) Q (fun _ => kept) kept -> triple P commit Q (fun _ => kept) kept) ->
  triple kept (replace_file temporary encoded commit) (fun _ w => replaced w /\ written w) (fun _ => kept) replaced.
Proof.
  intros Hcommit. eapply triple_bind; [apply triple_effect with (Q := fun _ => kept); [|done|auto]|intros []].
  { intros w Hk. destruct (on_disk w temporary); [done|]. intros other Ho. cbn. rewrite lookup_insert_ne by done. by apply Hk. }
  pose (after := fun (r : result unit) (w : Disk) => match r with Ok _ => replaced w /\ written w | Err _ => kept w end).
  eapply (triple_bind _ _ _ after).
  { apply triple_try. eapply triple_conseq with (Q' := fun _ w => replaced w /\ written w) (E' := fun _ => kept) (C' := kept);
      [|done|intros a w Hw; exact Hw|intros e w Hw; exact Hw|exact kept_replaced].
    eapply triple_bind; [by apply sync_kept|intros []].
    eapply triple_bind with (R := fun text w => encoded = Ok text /\ kept w).
    { apply triple_of_result. by destruct encoded. }
    intros text. apply triple_pure. intros He. eapply triple_bind; [apply store_kept|intros []].
    do 2 (eapply triple_bind; [by apply sync_kept; intros w []|intros []]). by apply Hcommit, rename_replaced. }
  intros r. eapply (triple_bind _ _ _ (fun _ => after r)).
  - apply triple_try, triple_effect; [|done|].
    + intros w Hw. destruct r; [by apply removed_replaced|]. intros other Ho. cbn. rewrite lookup_delete_ne by done. by apply Hw.
    + intros w Hw. destruct r; [by destruct Hw|by apply kept_replaced].
  - intros _. apply triple_of_result. by destruct r.
Qed.
End Replace.
