(* ===== verification/CodexHome.v ===== *)
(** * The private home of the native Codex backend (cli/internal/backend/codex/codex.go)

    [prepareProviderHome] seeds the login of the provider's Codex home once,
    from the user's, and rewrites its configuration: no approvals, a read-only
    sandbox, a hook on every tool, and every personal skill disabled.  Each file
    operation is an effect (Disk.v).  [join] is [filepath.Join], [base] [filepath.Base], [quote]
    [strconv.Quote]. *)

From S2P Require Import Prelude GoStrings Effects Disk Backends Codex.
From stdpp Require Import gmap strings.
Open Scope string_scope.
Open Scope list_scope.
Open Scope Z_scope.

Section Home.
Context (join : list string -> string) (base quote : string -> string).

(** The files below [root] named SKILL.md in any case, sorted. *)
Definition skill_files (root : string) (files : gmap string string) : list string :=
  sort_strings (List.filter (fun path => below root path && EqualFold (base path) "SKILL.md")
                  (map fst (map_to_list files))).
Definition discoverSkills (root : string) : Eff Disk (list string) :=
  found ← exists_path root;
  if negb found then mret [] else effect (fun d => (d, Ok (skill_files root (dk_Files d)))).

(** [key = "value"] *)
Definition assigned (key value : string) : string := key +:+ " = " +:+ str [34] +:+ value +:+ str [34].

Definition skill_lines (path : string) : list string :=
  ["[[skills.config]]"; "path = " +:+ quote path; "enabled = false"; ""].
Definition configurationLines (hookExecutable : string) (disabledSkills : list string) : list string :=
  let hookCommand := quote hookExecutable +:+ " internal codex-deny-tool" in
  [assigned "approval_policy" "never"; assigned "sandbox_mode" "read-only"; assigned "web_search" "disabled"; "agents.enabled = false"; "";
   "[features]"; "hooks = true"; ""; "[[hooks.PreToolUse]]"; assigned "matcher" "*"; ""; "[[hooks.PreToolUse.hooks]]";
   assigned "type" "command"; "command = " +:+ quote hookCommand; "command_windows = " +:+ quote hookCommand; ""]
  ++ concat (map skill_lines disabledSkills).
Definition configuration (hookExecutable : string) (disabledSkills : list string) : string :=
  GoStrings.Join (configurationLines hookExecutable disabledSkills) (str [10]).

(** The login is copied only when the home has none. *)
Definition seed_login (runner : Runner) (authentication : string) : Eff Disk unit :=
  found ← exists_path authentication;
  if (found : bool) then mret tt
  else
    read ← try (read_file (rn_sourceAuth runner));
    match (read : result string) with
    | Err _ => fail (ErrNew "Codex CLI login not found; run `codex login` before adding a native Codex backend")
    | Ok raw =>
        if (go_len raw =? 0) || (Z.shiftl 4 20 <? go_len raw) then fail (ErrNew "Codex CLI login file is invalid")
        else wrap "seed private Codex login" (write_file authentication raw)
    end.

Definition prepareProviderHome (runner : Runner) : Eff Disk unit :=
  _ ← wrap "create private Codex provider home" (mkdir_all (rn_providerHome runner));
  _ ← seed_login runner (join [rn_providerHome runner; "auth.json"]);
  disabledSkills ← wrap "inspect personal Codex skills" (discoverSkills (rn_personalSkills runner));
  wrap "write private Codex provider config"
    (write_file (join [rn_providerHome runner; "config.toml"])
       (configuration (rn_hookExecutable runner) disabledSkills)).

(** ** What the preparation guarantees *)
Definition is_skill (root path : string) : Prop := below root path = true /\ EqualFold (base path) "SKILL.md" = true.

Lemma elem_of_skill_files root files path :
  path ∈ skill_files root files <-> is_Some (files !! path) /\ is_skill root path.
Proof.
  unfold skill_files. rewrite sort_strings_Permutation, list_elem_of_In, List.filter_In, andb_true_iff, <- list_elem_of_In.
  rewrite list_elem_of_fmap. split.
  - intros [([k v] & -> & Hkv%elem_of_map_to_list) Hs]. split; [by eexists|exact Hs].
  - intros [[v Hv] Hs]. split; [|exact Hs]. exists (path, v). split; [done|]. by apply elem_of_map_to_list.
Qed.

Lemma absent_root_no_skills d root : on_disk d root = false -> skill_files root (dk_Files d) = [].
Proof.
  intros Ho. destruct (skill_files root (dk_Files d)) as [|path rest] eqn:E; [done|]. exfalso.
  assert (path ∈ skill_files root (dk_Files d)) as Hp by (rewrite E; left).
  apply elem_of_skill_files in Hp as [[v Hv] [Hb _]].
  assert (within root path = true) as Hb' by (unfold within; by rewrite Hb, orb_true_r).
  apply (on_disk_false _ _ Ho) with (other := path) in Hb' as [Hn _]. congruence.
Qed.

Section Prepared.
Context (runner : Runner).
Let authentication := join [rn_providerHome runner; "auth.json"].
Let config := join [rn_providerHome runner; "config.toml"].

(** Only the configuration may differ, and the login when there was none: it is
    then empty or a copy of the user's. *)
Definition preserved (d w : Disk) : Prop := forall path,
  dk_Files w !! path = dk_Files d !! path \/ path = config
  \/ path = authentication /\ dk_Files d !! path = None
     /\ (dk_Files w !! path = Some "" \/ dk_Files w !! path = dk_Files d !! rn_sourceAuth runner).
(** So far only the login was touched. *)
Definition seeding (d w : Disk) : Prop := forall path,
  dk_Files w !! path = dk_Files d !! path
  \/ path = authentication /\ dk_Files d !! path = None
     /\ (dk_Files w !! path = Some "" \/ dk_Files w !! path = dk_Files d !! rn_sourceAuth runner).

Lemma seeding_preserved d w : seeding d w -> preserved d w.
Proof. intros Hs path. destruct (Hs path); auto. Qed.
Hint Resolve seeding_preserved : core.

Lemma preserved_config d w data : preserved d w -> preserved d (set_files (<[config := data]>) w).
Proof.
  intros Hp path. destruct (decide (path = config)) as [->|Hne]; [by right; left|]. destruct (Hp path) as [<-|H]; [left|right];
    cbn [set_files dk_Files]; by rewrite lookup_insert_ne by congruence.
Qed.

Lemma seed_login_spec d : triple (fun w => dk_Files w = dk_Files d) (seed_login runner authentication)
  (fun _ w => seeding d w) (fun _ w => seeding d w) (fun w => seeding d w).
Proof.
  assert (forall w, dk_Files w = dk_Files d -> seeding d w) as Hsame by (intros w E path; left; by rewrite E).
  unfold seed_login. eapply (triple_bind _ _ _ (fun b w => (b = false -> dk_Files w !! authentication = None) /\ dk_Files w = dk_Files d)).
  { apply triple_effect; [|auto..]. intros w E. split; [|done]. intros Ho. destruct (dk_Files w !! authentication) as [v|] eqn:V; [|done].
    apply on_disk_file in V. congruence. }
  intros [].
  { apply triple_ret. intros w [_ E]. auto. }
  eapply (triple_bind _ _ _ (fun r w => (dk_Files d !! authentication = None /\
     forall raw, r = Ok raw -> dk_Files d !! rn_sourceAuth runner = Some raw) /\ dk_Files w = dk_Files d)).
  { apply triple_try, triple_effect; [|intros w e [Hn E]; rewrite E in Hn; by split_and!; auto|intros w [_ E]; auto].
    intros w [Hn E]. rewrite E in Hn. specialize (Hn eq_refl). rewrite E.
    destruct (dk_Files d !! rn_sourceAuth runner) as [raw|] eqn:R; cbn; split_and!; try done. by intros raw' [= <-]. }
  intros [raw|e]; [|apply triple_fail; intros w [_ E]; auto].
  destruct (_ || _); [apply triple_fail; intros w [_ E]; auto|]. apply triple_pure. intros [Hn Hr]. specialize (Hr raw eq_refl).
  assert (forall w data, seeding d w -> data = "" \/ data = raw -> seeding d (set_files (<[authentication := data]>) w)) as Hstep.
  { intros w data Hs Hd path. cbn [set_files dk_Files]. destruct (decide (path = authentication)) as [->|Hne].
    - right. split; [done|]. split; [done|]. rewrite lookup_insert_eq, Hr. destruct Hd as [->| ->]; auto.
    - rewrite lookup_insert_ne by congruence. apply Hs. }
  apply triple_wrap. unfold write_file, store. eapply (triple_bind _ _ _ (fun _ => seeding d)).
  - apply triple_effect; [|auto..]. intros w E. apply Hstep; auto.
  - intros []. apply triple_effect; [|auto..]. intros w E. apply Hstep; auto.
Qed.

Lemma prepare_spec d :
  authentication <> config -> ~ is_skill (rn_personalSkills runner) authentication ->
  triple (fun w => w = d) (prepareProviderHome runner)
    (fun _ w => preserved d w /\ exists disabledSkills,
       dk_Files w !! config = Some (configuration (rn_hookExecutable runner) disabledSkills)
       /\ forall path, path ∈ disabledSkills <-> is_Some (dk_Files d !! path) /\ is_skill (rn_personalSkills runner) path)
    (fun _ w => preserved d w) (fun w => preserved d w).
Proof.
  intros Hne Hskill. unfold prepareProviderHome. fold authentication config.
  eapply (triple_bind _ _ _ (fun _ w => dk_Files w = dk_Files d)).
  { apply triple_wrap, triple_effect; [|intros w e ->; by left|intros w ->; by left].
    intros w ->. destruct (blocked d (rn_providerHome runner)); [by left|done]. }
  intros []. eapply (triple_bind _ _ _ (fun _ => seeding d)).
  { eapply triple_conseq; [apply (seed_login_spec d)|auto..]. }
  intros []. eapply (triple_bind _ _ _ (fun skills w => (forall path, path ∈ skills <-> is_Some (dk_Files d !! path) /\ is_skill (rn_personalSkills runner) path) /\ seeding d w)).
  { apply triple_wrap. unfold discoverSkills.
    assert (forall w, seeding d w -> forall path, path ∈ skill_files (rn_personalSkills runner) (dk_Files w)
              <-> is_Some (dk_Files d !! path) /\ is_skill (rn_personalSkills runner) path) as Hfiles.
    { intros w Hs path. rewrite elem_of_skill_files. destruct (Hs path) as [->|(-> & _)]; [done|tauto]. }
    eapply (triple_bind _ _ _ (fun found w => (found = on_disk w (rn_personalSkills runner)) /\ seeding d w)).
    - apply triple_effect; auto.
    - intros []; cbn [negb].
      + apply triple_effect; [|intros w e [_ Hs]; auto|intros w [_ Hs]; auto]. intros w [_ Hs]. auto.
      + apply triple_ret. intros w [Ho Hs]. split; [|done]. rewrite <- (absent_root_no_skills w (rn_personalSkills runner)) by done. auto. }
  intros skills. apply triple_pure. intros Hs. apply triple_wrap. unfold write_file.
  eapply (triple_bind _ _ _ (fun _ => preserved d)).
  - apply triple_effect; [|auto..]. intros w Hw. apply preserved_config. auto.
  - intros []. apply triple_effect; [|auto..]. intros w Hw. split; [by apply preserved_config|]. exists skills.
    split; [|done]. apply lookup_insert_eq.
Qed.

Lemma prepared_preserves d :
  authentication <> config -> ~ is_skill (rn_personalSkills runner) authentication ->
  triple (fun w => w = d) (prepareProviderHome runner) (fun _ w => preserved d w) (fun _ w => preserved d w) (fun w => preserved d w).
Proof. intros Hne Hs. eapply triple_conseq; [by apply (prepare_spec d)|auto..]. by intros a w [? _]. Qed.

(** Preparing the private Codex home never touches a file of the user nor an
    existing login, whatever operation fails or is cut short; when it succeeds,
    the configuration that sandboxes Codex disables exactly the personal skills
    of the user. *)
Theorem provider_home_prepared d :
  authentication <> config -> ~ is_skill (rn_personalSkills runner) authentication ->
  triple (fun w => w = d) (prepareProviderHome runner)
    (fun _ w => preserved d w /\ exists disabledSkills,
       dk_Files w !! config = Some (configuration (rn_hookExecutable runner) disabledSkills)
       /\ forall path, path ∈ disabledSkills <-> is_Some (dk_Files d !! path) /\ is_skill (rn_personalSkills runner) path)
    (fun _ w => preserved d w) (fun w => preserved d w).
Proof. apply prepare_spec. Qed.
End Prepared.
End Home.

(** ** A sample home *)
Module Home.
Definition join (parts : list string) : string := GoStrings.Join parts "/".
Definition base (path : string) : string := List.last (SplitByte path (of_byte 47)) "".
Definition runner : Runner := mkRunner "codex" "gpt" "/home/u/.codex/auth.json" "/home/u/.agents/skills" "/cache/codex" "/bin/myference" 60.
Definition disk : Disk :=
  mkDisk {["/tmp"]} {["/home/u/.codex/auth.json" := "{login}"; "/home/u/.agents/skills/a/skill.MD" := "text"]}.
Definition prepare (fates : list Fate) (d : Disk) : list Fate * Disk * Outcome unit :=
  prepareProviderHome join base (fun s => str [34] +:+ s +:+ str [34]) runner fates d.
Definition interrupted : Disk := snd (fst (prepare [Proceed; Proceed; Proceed; Proceed; Halt] disk)).
End Home.

Lemma provider_home_prepared_witness :
  exists disabled, dk_Files (snd (fst (Home.prepare [] Home.disk))) !! "/cache/codex/config.toml"
    = Some (configuration (fun s => str [34] +:+ s +:+ str [34]) "/bin/myference" disabled)
  /\ "/home/u/.agents/skills/a/skill.MD" ∈ disabled.
Proof.
  assert (is_skill Home.base (rn_personalSkills Home.runner) "/home/u/.agents/skills/a/skill.MD") as Hs
    by (split; vm_compute; reflexivity).
  pose proof (provider_home_prepared Home.join Home.base (fun s => str [34] +:+ s +:+ str [34]) Home.runner Home.disk) as H.
  assert (snd (Home.prepare [] Home.disk) = Done tt) as Hd by (vm_compute; reflexivity).
  specialize (H ltac:(discriminate) ltac:(intros [E _]; vm_compute in E; discriminate) [] Home.disk eq_refl).
  unfold Home.prepare in *. destruct (prepareProviderHome _ _ _ _ _ _) as [[fates w] [a|e|]]; try discriminate.
  destruct H as (_ & disabled & Hc & Hin). exists disabled. split; [exact Hc|]. apply Hin. split; [|exact Hs].
  exists "text". vm_compute. reflexivity.
Defined.

(** A crash while the login is being seeded leaves an empty login, which every
    later preparation keeps. *)
Lemma interrupted_seed_kept :
  dk_Files Home.interrupted !! "/cache/codex/auth.json" = Some ""
  /\ forall fates, dk_Files (snd (fst (Home.prepare fates Home.interrupted))) !! "/cache/codex/auth.json" = Some "".
Proof.
  assert (dk_Files Home.interrupted !! "/cache/codex/auth.json" = Some "") as Hi by (vm_compute; reflexivity).
  split; [exact Hi|]. intros fates.
  enough (preserved Home.join Home.runner Home.interrupted (snd (fst (Home.prepare fates Home.interrupted)))) as Hp.
  { destruct (Hp "/cache/codex/auth.json") as [->|[?|(_ & Hn & _)]]; [exact Hi|discriminate|].
    rewrite Hi in Hn. discriminate. }
  pose proof (prepared_preserves Home.join Home.base (fun s => str [34] +:+ s +:+ str [34]) Home.runner Home.interrupted
    ltac:(discriminate) ltac:(intros [E _]; vm_compute in E; discriminate) fates Home.interrupted eq_refl) as H.
  unfold Home.prepare. destruct (prepareProviderHome _ _ _ _ _ _) as [[fates' w] [a|e|]]; exact H.
Qed.
