(* ===== verification/CredentialProxy.v ===== *)
(** * The credential proxy of the command agents (cli/internal/backend/command)

    An isolated agent reaches its model provider through a proxy that holds the
    provider's secret.  The agent presents the job's token; the proxy counts its
    requests, refuses all but the model list and the inference paths, deducts
    the output tokens of each generation from the job's budget and rewrites its
    body so that the limit is explicit.  Requests are served concurrently: the
    two sections under the mutex ([admit_request] and [spend]) are the atomic steps.
    [parse] reads the first JSON value of a body, numbers as their text. *)

From S2P Require Import Prelude GoStrings Wire Messages.
From stdpp Require Import gmap strings.
Open Scope string_scope.
Open Scope list_scope.
Open Scope Z_scope.

Definition errTokenBudget : error := ErrTokenBudget.

(** ** Bodies *)
(** [payload[key] = value] on a map, whose keys [json.Marshal] sorts. *)
Fixpoint put (key : string) (value : json) (members : list (string * json)) : list (string * json) :=
  match members with
  | [] => [(key, value)]
  | (k, v) :: rest =>
      if String.eqb key k then (key, value) :: rest
      else if string_ltb key k then (key, value) :: members
      else (k, v) :: put key value rest
  end.
Definition member (key : string) (members : list (string * json)) : option json :=
  option_map snd (List.find (fun m => String.eqb (fst m) key) members).
(** A value decoded into [any]: every object is a map. *)
Fixpoint canonical (v : json) : json :=
  match v with
  | JObj members => JObj (foldl (fun acc m => put (fst m) (snd m) acc) [] (map (fun m => (fst m, canonical (snd m))) members))
  | JArr items => JArr (map canonical items)
  | _ => v
  end.

Record authorizedBody := mkAuthorized { ab_body : json; ab_tokens : Z }.

Definition allowedInferencePath (path : string) : bool :=
  String.eqb path "/v1/chat/completions" || String.eqb path "/v1/responses" || String.eqb path "/v1/messages".
Definition limit_key (path : string) (payload : list (string * json)) : string :=
  if String.eqb path "/v1/responses" then "max_output_tokens"
  else if String.eqb path "/v1/chat/completions" then
    match member "max_completion_tokens" payload with Some _ => "max_completion_tokens" | None => "max_tokens" end
  else "max_tokens".

Section Proxy.
Context (parse : string -> option json).

(** The document as [map[string]any]; null is a nil map. *)
Definition decode_payload (raw : string) : option (list (string * json)) :=
  match option_map canonical (parse raw) with
  | Some (JObj members) => Some members
  | Some JNull => Some []
  | _ => None
  end.

Definition authorizeInferenceBody (raw path model : string) (remaining : Z) : result authorizedBody :=
  payload ← of_option (decode_payload raw) (ErrNew "invalid agent API JSON");
  _ ← fail_if (match member "model" payload with Some (JStr m) => negb (String.eqb m model) | _ => true end)
        (ErrNew "agent model is not authorized");
  let key := limit_key path payload in
  tokens ← match member key payload with
           | None => Ok remaining
           | Some (JNum number) =>
               match ParseUint number with
               | Some parsed => if parsed =? 0 then Err (ErrNew "invalid agent output token limit") else Ok parsed
               | None => Err (ErrNew "invalid agent output token limit")
               end
           | Some _ => Err (ErrNew "invalid agent output token limit")
           end;
  _ ← fail_if ((tokens =? 0) || (remaining <? tokens)) errTokenBudget;
  Ok (mkAuthorized (JObj (put key (num tokens) payload)) tokens).

(** ** The handler *)
Record ProxyConfiguration := mkProxyConfiguration {
  pc_Kind : string; pc_Secret : string; pc_Model : string; pc_Token : string; pc_MaximumOutputTokens : Z;
}.
(** [ar_Body] is the body, or nothing when reading it fails or it is over 8 MiB. *)
Record AgentRequest := mkAgentRequest {
  ar_Authorization : string; ar_APIKey : string; ar_Method : string; ar_Path : string; ar_Body : option string;
}.
(** What the director sends to the provider; without a new body, the request's
    own. *)
Record Upstream := mkUpstream {
  up_Target : string; up_Path : string; up_Authorization : option string; up_APIKey : option string; up_Body : option json;
}.
Inductive Answer := Refuse (status : Z) (text : string) | RefuseError (status : Z) (e : error) | Forward (u : Upstream).

Record Budget := mkBudget { bu_remainingTokens : Z; bu_requests : Z }.

Definition targets (kind : string) : string :=
  if String.eqb kind "codex" then "https://api.openai.com"
  else if String.eqb kind "claude" then "https://api.anthropic.com"
  else if String.eqb kind "kimi" then "https://api.moonshot.ai" else "".

(** [credentialProxyHandler]: the initial budget, unless the configuration is
    refused; [host] is the host of the parsed target. *)
Definition credentialProxyHandler (host : option string) (c : ProxyConfiguration) : result Budget :=
  if match host with Some h => String.eqb h "" | None => true end
     || is_blank (pc_Model c) || is_blank (pc_Secret c) || is_blank (pc_Token c) || (pc_MaximumOutputTokens c =? 0)
  then Err (ErrNew "invalid credential proxy configuration")
  else Ok (mkBudget (pc_MaximumOutputTokens c) 0).

Definition director (c : ProxyConfiguration) (path : string) (body : option json) : Upstream :=
  if String.eqb (pc_Kind c) "claude"
  then mkUpstream (targets (pc_Kind c)) path None (Some (pc_Secret c)) body
  else mkUpstream (targets (pc_Kind c)) path (Some ("Bearer " +:+ pc_Secret c)) None body.

Definition authorized (c : ProxyConfiguration) (r : AgentRequest) : bool :=
  String.eqb (ar_Authorization r) ("Bearer " +:+ pc_Token c) || String.eqb (ar_APIKey r) (pc_Token c).

(** The first section: the request is answered, or its body is to be read. *)
Definition admit_request (c : ProxyConfiguration) (r : AgentRequest) (b : Budget) : Budget * option Answer :=
  if negb (authorized c r) then (b, Some (Refuse 401 "unauthorized"))
  else
    let b := mkBudget (bu_remainingTokens b) ((bu_requests b + 1) mod u32_mod) in
    (b, if 64 <? bu_requests b then Some (Refuse 429 "agent request limit exceeded")
        else if String.eqb (ar_Method r) "GET" && String.eqb (ar_Path r) "/v1/models"
        then Some (Forward (director c (ar_Path r) None))
        else if negb (String.eqb (ar_Method r) "POST") || negb (allowedInferencePath (ar_Path r))
        then Some (Refuse 403 "unsupported agent API request")
        else match ar_Body r with None => Some (Refuse 400 "invalid agent API request") | Some _ => None end).

(** The second section, for a request that was admitted. *)
Definition spend (c : ProxyConfiguration) (r : AgentRequest) (b : Budget) : Budget * Answer :=
  match authorizeInferenceBody (default "" (ar_Body r)) (ar_Path r) (pc_Model c) (bu_remainingTokens b) with
  | Ok rewritten => (mkBudget (bu_remainingTokens b - ab_tokens rewritten) (bu_requests b),
                     Forward (director c (ar_Path r) (Some (ab_body rewritten))))
  | Err e => (b, RefuseError (match e with ErrTokenBudget => 402 | _ => 403 end) e)
  end.

(** The requests in flight, by connection, and the answers so far. *)
Record Proxy := mkProxy { px_Budget : Budget; px_Waiting : gmap Z AgentRequest; px_Answers : list Answer }.
Inductive ProxyStep := Arrive (id : Z) (r : AgentRequest) | Resume (id : Z).

Definition proxy_step (c : ProxyConfiguration) (s : ProxyStep) (p : Proxy) : Proxy :=
  match s with
  | Arrive id r =>
      if bool_decide (is_Some (px_Waiting p !! id)) then p
      else
        match admit_request c r (px_Budget p) with
        | (b, Some a) => mkProxy b (px_Waiting p) (px_Answers p ++ [a])
        | (b, None) => mkProxy b (<[id := r]> (px_Waiting p)) (px_Answers p)
        end
  | Resume id =>
      match px_Waiting p !! id with
      | None => p
      | Some r => let '(b, a) := spend c r (px_Budget p) in mkProxy b (delete id (px_Waiting p)) (px_Answers p ++ [a])
      end
  end.
Definition proxy_run (c : ProxyConfiguration) (steps : list ProxyStep) (p : Proxy) : Proxy :=
  foldl (fun p s => proxy_step c s p) p steps.

(** ** The budget *)
(** The output limit a forwarded generation carries. *)
Definition output_limit (a : Answer) : Z :=
  match a with
  | Forward u =>
      match up_Body u with
      | Some (JObj members) =>
          match member (limit_key (up_Path u) members) members with
          | Some (JNum text) => default 0 (ParseUint text)
          | _ => 0
          end
      | _ => 0
      end
  | _ => 0
  end.
Definition granted (answers : list Answer) : Z := foldr (fun a total => output_limit a + total) 0 answers.
Definition is_forward (a : Answer) : bool := match a with Forward _ => true | _ => false end.
Definition forwards (answers : list Answer) : Z := Z.of_nat (length (List.filter is_forward answers)).

(** What may leave the proxy: the model list, or a generation of the configured
    model with a limit of its own, under the provider's credential only. *)
Definition permitted (c : ProxyConfiguration) (a : Answer) : Prop :=
  match a with
  | Forward u =>
      up_Target u = targets (pc_Kind c)
      /\ (up_Authorization u, up_APIKey u)
         = (if String.eqb (pc_Kind c) "claude" then (None, Some (pc_Secret c)) else (Some ("Bearer " +:+ pc_Secret c), None))
      /\ (up_Body u = None /\ up_Path u = "/v1/models"
          \/ allowedInferencePath (up_Path u) = true
             /\ exists members, up_Body u = Some (JObj members) /\ member "model" members = Some (JStr (pc_Model c))
                /\ 1 <= output_limit a)
  | _ => True
  end.

(** ** The sidecar's server: the health check is answered before the proxy. *)
Definition health_check (method path : string) : bool :=
  (String.eqb method "GET" || String.eqb method "HEAD") && String.eqb path "/healthz".
Definition configuration_fields : list (string * setter ProxyConfiguration) :=
  [ ("kind", set_with as_string (fun v c => mkProxyConfiguration v (pc_Secret c) (pc_Model c) (pc_Token c) (pc_MaximumOutputTokens c)));
    ("secret", set_with as_string (fun v c => mkProxyConfiguration (pc_Kind c) v (pc_Model c) (pc_Token c) (pc_MaximumOutputTokens c)));
    ("model", set_with as_string (fun v c => mkProxyConfiguration (pc_Kind c) (pc_Secret c) v (pc_Token c) (pc_MaximumOutputTokens c)));
    ("token", set_with as_string (fun v c => mkProxyConfiguration (pc_Kind c) (pc_Secret c) (pc_Model c) v (pc_MaximumOutputTokens c)));
    ("maximum_output_tokens", set_with (as_uint 64) (fun v c => mkProxyConfiguration (pc_Kind c) (pc_Secret c) (pc_Model c) (pc_Token c) v)) ].
Definition configuration_json (c : ProxyConfiguration) : json :=
  JObj [("kind", jstr (pc_Kind c)); ("secret", jstr (pc_Secret c)); ("model", jstr (pc_Model c)); ("token", jstr (pc_Token c));
        ("maximum_output_tokens", num (pc_MaximumOutputTokens c))].
(** [ServeProxy] up to listening: the configuration file's document. *)
Definition ServeProxy (host : string -> option string) (document : json) : result (ProxyConfiguration * Budget) :=
  c ← of_option (decode_struct configuration_fields document (mkProxyConfiguration "" "" "" "" 0)) ErrEncode;
  b ← credentialProxyHandler (host (targets (pc_Kind c))) c;
  Ok (c, b).

Lemma member_put_eq key value members : member key (put key value members) = Some value.
Proof.
  induction members as [|[k v] rest IH]; unfold member in *; cbn; [by rewrite String.eqb_refl|].
  destruct (String.eqb_spec key k) as [->|Hk]; cbn; [by rewrite String.eqb_refl|].
  destruct (string_ltb key k); cbn; [by rewrite String.eqb_refl|]. rewrite String.eqb_sym.
  by destruct (String.eqb_spec key k).
Qed.
Lemma member_put_ne key other value members : key <> other -> member other (put key value members) = member other members.
Proof.
  intros Hne. induction members as [|[k v] rest IH]; unfold member in *; cbn.
  - by destruct (String.eqb_spec key other).
  - destruct (String.eqb_spec key k) as [->|Hk]; cbn; [by destruct (String.eqb_spec k other)|].
    destruct (string_ltb key k); cbn; [by destruct (String.eqb_spec key other)|]. by destruct (String.eqb k other).
Qed.

Lemma limit_key_cases path payload :
  limit_key path payload = "max_output_tokens" \/ limit_key path payload = "max_completion_tokens"
  \/ limit_key path payload = "max_tokens".
Proof. unfold limit_key. repeat case_match; auto. Qed.
Lemma limit_key_put path payload value : limit_key path (put (limit_key path payload) value payload) = limit_key path payload.
Proof.
  unfold limit_key. destruct (String.eqb path "/v1/responses"); [done|]. destruct (String.eqb path "/v1/chat/completions"); [|done].
  destruct (member "max_completion_tokens" payload) eqn:M; [by rewrite member_put_eq|]. by rewrite member_put_ne, M.
Qed.

Lemma ParseUint_nonneg text n : ParseUint text = Some n -> 0 <= n.
Proof.
  unfold ParseUint. destruct (parse_nat text) as [m|] eqn:P; [|done]. destruct (_ <? _); [|done]. intros [= <-].
  unfold parse_nat in P. destruct text; [done|]. by apply parse_digits_nonneg in P.
Qed.

Lemma authorized_limit raw path model remaining a : 0 <= remaining <= u64_max ->
  authorizeInferenceBody raw path model remaining = Ok a ->
  exists members, ab_body a = JObj members /\ member "model" members = Some (JStr model)
  /\ member (limit_key path members) members = Some (num (ab_tokens a)) /\ 1 <= ab_tokens a <= remaining.
Proof.
  intros Hr. unfold authorizeInferenceBody. destruct (decode_payload raw) as [payload|]; [cbn|done].
  destruct (member "model" payload) as [[]|] eqn:M; try done. destruct (String.eqb_spec s model) as [->|]; [cbn|done].
  intros E. step_ok E as tokens T. step_ok E as u F. injection E as <-. cbn.
  unfold fail_if in F. destruct (_ || _) eqn:G in F; [done|]. apply orb_false_iff in G as [G1 G2].
  assert (0 <= tokens) as H0.
  { destruct (member (limit_key path payload) payload) as [v|]; [|injection T as <-; lia]. destruct v; try discriminate T.
    destruct (ParseUint text) as [n|] eqn:P; [|done]. destruct (n =? 0); [done|]. injection T as <-.
    by apply ParseUint_nonneg in P. }
  eexists. split; [done|]. rewrite limit_key_put, member_put_eq. split; [|split; [done|lia]].
  rewrite member_put_ne; [done|]. intros K. destruct (limit_key_cases path payload) as [E'|[E'|E']]; rewrite E' in K; done.
Qed.

(** The invariant of the proxy after [n] steps. *)
Record proxy_inv (c : ProxyConfiguration) (n : Z) (p : Proxy) : Prop := mkInv {
  pi_budget : granted (px_Answers p) + bu_remainingTokens (px_Budget p) = pc_MaximumOutputTokens c;
  pi_remaining : 0 <= bu_remainingTokens (px_Budget p) <= pc_MaximumOutputTokens c;
  pi_permitted : Forall (permitted c) (px_Answers p);
  pi_waiting : map_Forall (fun _ r => ar_Method r = "POST" /\ allowedInferencePath (ar_Path r) = true) (px_Waiting p);
  pi_counted : 0 <= bu_requests (px_Budget p);
  pi_forwards : n < u32_mod -> bu_requests (px_Budget p) <= n
    /\ forwards (px_Answers p) + Z.of_nat (size (px_Waiting p)) <= Z.min 64 (bu_requests (px_Budget p));
}.

Lemma granted_snoc answers a : granted (answers ++ [a]) = granted answers + output_limit a.
Proof. unfold granted. induction answers as [|b answers IH]; cbn; lia. Qed.
Lemma forwards_snoc answers a : forwards (answers ++ [a]) = forwards answers + if is_forward a then 1 else 0.
Proof. unfold forwards. rewrite List.filter_app, length_app. cbn. destruct (is_forward a); cbn; lia. Qed.

(** An answer that grants nothing, after the requests were counted. *)
Lemma proxy_inv_answer c n p b a : proxy_inv c n p ->
  bu_remainingTokens b = bu_remainingTokens (px_Budget p) -> output_limit a = 0 -> permitted c a -> 0 <= bu_requests b ->
  (n + 1 < u32_mod -> bu_requests b <= n + 1
     /\ forwards (px_Answers p) + (if is_forward a then 1 else 0) + Z.of_nat (size (px_Waiting p)) <= Z.min 64 (bu_requests b)) ->
  proxy_inv c (n + 1) (mkProxy b (px_Waiting p) (px_Answers p ++ [a])).
Proof.
  intros [] Hb Ho Hp Hc Hf. split; cbn.
  - rewrite granted_snoc, Hb. lia.
  - by rewrite Hb.
  - apply Forall_app; by repeat constructor.
  - done.
  - done.
  - rewrite forwards_snoc. done.
Qed.

Lemma director_permitted c path body :
  (body = None /\ path = "/v1/models"
   \/ allowedInferencePath path = true
      /\ exists members, body = Some (JObj members) /\ member "model" members = Some (JStr (pc_Model c))
         /\ 1 <= output_limit (Forward (director c path body))) ->
  permitted c (Forward (director c path body)).
Proof. unfold permitted, director. destruct (String.eqb (pc_Kind c) "claude"); done. Qed.

Lemma output_limit_forward c path body : up_Path (director c path body) = path /\ up_Body (director c path body) = body.
Proof. unfold director. by destruct (String.eqb (pc_Kind c) "claude"). Qed.

Lemma proxy_inv_arrive c n p id r : proxy_inv c n p -> 0 <= n -> proxy_inv c (n + 1) (proxy_step c (Arrive id r) p).
Proof.
  intros Hi Hn. pose proof Hi as []. cbn [proxy_step].
  destruct (bool_decide_reflect (is_Some (px_Waiting p !! id))) as [Hw|Hw].
  { split; try done. intros Hlt. destruct pi_forwards0; lia. }
  assert (px_Waiting p !! id = None) as Hnone by (by destruct (px_Waiting p !! id); [exfalso; eauto|]).
  assert (n + 1 < u32_mod -> (bu_requests (px_Budget p) + 1) mod u32_mod = bu_requests (px_Budget p) + 1) as Hmod
    by (intros Hlt; destruct pi_forwards0; [lia|]; apply Z.mod_small; lia).
  assert (0 <= (bu_requests (px_Budget p) + 1) mod u32_mod) as Hpos by (apply Z.mod_pos_bound; done).
  unfold admit_request. destruct (negb (authorized c r)).
  { apply proxy_inv_answer; try done. intros Hlt. cbn. destruct pi_forwards0; lia. }
  cbn [bu_requests]. destruct (64 <? _) eqn:Hmany.
  { apply proxy_inv_answer; try done. cbn. intros Hlt. rewrite Hmod in Hmany |- * by done. destruct pi_forwards0; lia. }
  assert (n + 1 < u32_mod -> bu_requests (px_Budget p) + 1 <= 64) as Hfew by (intros Hlt; rewrite Hmod in Hmany by done; lia).
  destruct (_ && _) eqn:Hmodels.
  { apply andb_true_iff in Hmodels as [_ Hp%String.eqb_eq]. apply proxy_inv_answer; try done.
    - cbn [output_limit]. by rewrite (proj2 (output_limit_forward _ _ _)).
    - apply director_permitted. by left.
    - cbn. intros Hlt. specialize (Hfew Hlt). rewrite Hmod by done. destruct pi_forwards0; lia. }
  destruct (_ || _) eqn:Hpath.
  { apply proxy_inv_answer; try done. cbn. intros Hlt. rewrite Hmod by done. destruct pi_forwards0; lia. }
  apply orb_false_iff in Hpath as [Hm%negb_false_iff%String.eqb_eq Ha%negb_false_iff]. destruct (ar_Body r).
  - split; cbn; try done; [by apply map_Forall_insert_2|]. intros Hlt. specialize (Hfew Hlt).
    rewrite Hmod, map_size_insert_None by done. destruct pi_forwards0; lia.
  - apply proxy_inv_answer; try done. cbn. intros Hlt. rewrite Hmod by done. destruct pi_forwards0; lia.
Qed.

Lemma proxy_inv_resume c n p id : pc_MaximumOutputTokens c <= u64_max ->
  proxy_inv c n p -> 0 <= n -> proxy_inv c (n + 1) (proxy_step c (Resume id) p).
Proof.
  intros Hmax Hi Hn. pose proof Hi as []. cbn [proxy_step]. destruct (px_Waiting p !! id) as [r|] eqn:W.
  2: { split; try done. intros Hlt. destruct pi_forwards0; lia. }
  assert (n + 1 < u32_mod -> bu_requests (px_Budget p) <= n + 1 /\
    forwards (px_Answers p) + 1 + Z.of_nat (size (delete id (px_Waiting p))) <= Z.min 64 (bu_requests (px_Budget p))) as Hsize.
  { intros Hlt. rewrite map_size_delete_Some by (rewrite W; eauto). destruct pi_forwards0; [lia|].
    assert (size (px_Waiting p) <> 0%nat) by (intros E%map_size_empty_inv; rewrite E in W; done). lia. }
  unfold spend. destruct (authorizeInferenceBody _ _ _ _) as [a|e] eqn:A.
  - apply authorized_limit in A as (members & Hb & Hmodel & Hlimit & Ht); [|lia].
    assert (output_limit (Forward (director c (ar_Path r) (Some (ab_body a)))) = ab_tokens a) as Ho.
    { cbn [output_limit]. destruct (output_limit_forward c (ar_Path r) (Some (ab_body a))) as [-> ->]. rewrite Hb, Hlimit. unfold num.
      rewrite ParseUint_FormatUint; [done|]. apply is_u64_spec. unfold u64_max, u64_mod in *. lia. }
    split; cbn [px_Answers px_Budget px_Waiting bu_remainingTokens bu_requests].
    + rewrite granted_snoc, Ho. lia.
    + lia.
    + apply Forall_app; split; [done|]. apply Forall_singleton, director_permitted. right. destruct (pi_waiting0 id r W) as [_ Ha].
      split; [done|]. exists members. rewrite Ho, Hb. split_and!; [done|done|lia].
    + by apply map_Forall_delete.
    + done.
    + rewrite forwards_snoc. cbn [is_forward]. done.
  - split; cbn [px_Answers px_Budget px_Waiting].
    + rewrite granted_snoc. cbn. lia.
    + done.
    + apply Forall_app; by repeat constructor.
    + by apply map_Forall_delete.
    + done.
    + rewrite forwards_snoc. cbn [is_forward]. intros Hlt. specialize (Hsize Hlt). lia.
Qed.

(** C10. However the requests of an agent interleave, the limits its proxy grants
    and what is left always add up to the job's output tokens; only the model
    list and generations of the configured model with a limit of their own are
    forwarded, under the provider's credential and not the agent's; and no more
    than 64 requests are, within 2^32 steps. *)
Theorem agent_budget_kept host c b steps :
  credentialProxyHandler host c = Ok b -> 0 <= pc_MaximumOutputTokens c <= u64_max ->
  let p := proxy_run c steps (mkProxy b ∅ []) in
  granted (px_Answers p) + bu_remainingTokens (px_Budget p) = pc_MaximumOutputTokens c
  /\ 0 <= bu_remainingTokens (px_Budget p)
  /\ Forall (permitted c) (px_Answers p)
  /\ (Z.of_nat (length steps) < u32_mod -> forwards (px_Answers p) <= 64).
Proof.
  intros Hc Hmax. cbv zeta.
  enough (proxy_inv c (Z.of_nat (length steps)) (proxy_run c steps (mkProxy b ∅ []))) as []
    by (split_and!; [done|lia|done|intros Hlt; destruct pi_forwards0; lia]).
  induction steps as [|s steps IH] using rev_ind.
  - unfold credentialProxyHandler in Hc. destruct (_ || _ || _ || _ || _); [done|]. injection Hc as <-.
    split; cbn; try done; lia.
  - unfold proxy_run. rewrite foldl_app, length_app. cbn. rewrite Nat2Z.inj_add.
    destruct s; [apply proxy_inv_arrive|apply proxy_inv_resume]; try done; lia.
Qed.
End Proxy.

(** ** A sample agent *)
Module Agent.
Definition parse (body : string) : option json :=
  if String.eqb body "{5}" then Some (JObj [("model", JStr "gpt"); ("max_tokens", JNum "5")])
  else if String.eqb body "{rest}" then Some (JObj [("model", JStr "gpt")]) else None.
Definition configuration : ProxyConfiguration := mkProxyConfiguration "codex" "secret" "gpt" "job-token" 8.
Definition call (body : string) : AgentRequest :=
  mkAgentRequest "Bearer job-token" "" "POST" "/v1/chat/completions" (Some body).
(** Two interleaved generations, then a third that the budget no longer covers. *)
Definition steps : list ProxyStep :=
  [Arrive 1 (call "{5}"); Arrive 2 (call "{rest}"); Resume 1; Resume 2; Arrive 3 (call "{5}"); Resume 3].
End Agent.

Lemma agent_budget_kept_witness :
  let p := proxy_run Agent.parse Agent.configuration Agent.steps (mkProxy (mkBudget 8 0) ∅ []) in
  map output_limit (px_Answers p) = [5; 3; 0] /\ granted (px_Answers p) + bu_remainingTokens (px_Budget p) = 8.
Proof.
  destruct (agent_budget_kept Agent.parse (Some "api.openai.com") Agent.configuration (mkBudget 8 0) Agent.steps) as (Hb & _);
    [reflexivity|split; vm_compute; discriminate|].
  split; [vm_compute; reflexivity|exact Hb].
Defined.
