(* ===== verification/CommandAgent.v ===== *)
(** * Isolated command agents (cli/internal/backend/command)

    One job of a command agent: its workspace is written to a private
    directory, a sidecar with the credential proxy is started between an
    internal network and an egress network, and the agent runs in a container
    on the internal network only.  Every Docker command and file operation is an
    effect (Effects.v) on the host: it may fail, and the process may die before
    it.  A removal that fails, which the code
    ignores, sets [ho_Leaked].  The names that
    the code draws at random and the paths of [os.MkdirTemp] are arguments. *)

From S2P Require Import Prelude GoStrings Wire Receipt Messages Anthropic Daemon Effects Disk Backends CredentialProxy.
From Stdlib Require Import Ascii.
From stdpp Require Import gmap strings.
Open Scope string_scope.
Open Scope list_scope.
Open Scope Z_scope.

(** ** The runner *)
Record Runner := mkRunner {
  rn_docker : string; rn_proxyBinary : string; rn_image : string; rn_kind : string; rn_model : string; rn_secret : string;
  rn_arguments : list string; rn_timeout : Z;
}.

Definition is_space_byte (c : ascii) : bool := let n := byte_of c in (n =? 32) || ((9 <=? n) && (n <=? 13)).
Definition is_hex_byte (c : ascii) : bool :=
  let n := byte_of c in ((48 <=? n) && (n <=? 57)) || ((97 <=? n) && (n <=? 102)).
Fixpoint all_bytes (p : ascii -> bool) (s : string) : bool :=
  match s with "" => true | String c rest => p c && all_bytes p rest end.
(** [pinnedImagePattern] *)
Definition pinnedImage (image : string) : bool :=
  let n := (String.length image - 72)%nat in
  let digest := drop_bytes n image in
  (0 <? Z.of_nat n) && all_bytes (fun c => negb (is_space_byte c)) (take_bytes n image)
  && HasPrefix digest "@sha256:" && all_bytes is_hex_byte (drop_bytes 8 digest).

Definition newRunner (docker proxyBinary image : string) (arguments : list string) (kind model secret : string) (timeout : Z)
  : result Runner :=
  if String.eqb docker "" || String.eqb proxyBinary "" || negb (pinnedImage image) || is_blank model || is_blank secret
     || (timeout <=? 0)
  then Err (ErrNew "docker, digest-pinned image, model, secret, and positive timeout are required")
  else if negb (String.eqb kind "codex") && negb (String.eqb kind "claude") && negb (String.eqb kind "kimi")
  then Err (ErrNew "unsupported isolated agent kind")
  else Ok (mkRunner docker proxyBinary image kind model secret arguments timeout).

Definition proxyBinaryName : string := "myference-agent-proxy".
(** The lookups of [New]: the Docker CLI, the environment, the running executable
    and whether a path is a file; [beside] is [filepath.Join(filepath.Dir(e), n)]. *)
Definition New (docker : option string) (getenv : string -> string) (executable : result string)
    (beside : string -> string -> string) (is_file : string -> bool)
    (image : string) (arguments : list string) (kind model secret : string) (timeout : Z) : result Runner :=
  docker ← of_option docker (ErrNew "Docker Desktop is required for isolated command agents");
  proxyBinary ← (if String.eqb (getenv "MYFERENCE_AGENT_PROXY") ""
                 then executable ← executable; Ok (beside executable proxyBinaryName)
                 else Ok (getenv "MYFERENCE_AGENT_PROXY"));
  _ ← fail_if (negb (is_file proxyBinary)) (ErrNew "myference-agent-proxy is required beside the CLI");
  newRunner docker proxyBinary image arguments kind model secret timeout.
(** [inspected] is the outcome of [docker image inspect]. *)
Definition Models (r : Runner) (inspected : result unit) : result (list Model) :=
  match inspected with
  | Err _ => Err (ErrNew "digest-pinned agent image is not present in Docker")
  | Ok _ => Ok [mkModel (rn_model r) "" 0]
  end.
Definition minimalDockerEnvironment (getenv : string -> string) : list string :=
  "PATH=/opt/homebrew/bin:/usr/local/bin:/usr/bin:/bin"
  :: if String.eqb (getenv "DOCKER_HOST") "" then [] else ["DOCKER_HOST=" +:+ getenv "DOCKER_HOST"].

Definition dockerArguments (r : Runner) (name workspace network proxyURL token : string) : list string :=
  let environment := ["HOME=/workspace"; "TMPDIR=/tmp"; "NO_COLOR=1"; "TERM=dumb"]
    ++ (if String.eqb (rn_kind r) "codex" then ["OPENAI_API_KEY=" +:+ token; "OPENAI_BASE_URL=" +:+ proxyURL]
        else if String.eqb (rn_kind r) "claude" then ["ANTHROPIC_API_KEY=" +:+ token; "ANTHROPIC_BASE_URL=" +:+ proxyURL]
        else if String.eqb (rn_kind r) "kimi" then ["MOONSHOT_API_KEY=" +:+ token; "OPENAI_BASE_URL=" +:+ proxyURL]
        else []) in
  ["run"; "--rm"; "--name"; name; "--network"; network; "--read-only"; "--cap-drop=ALL"; "--security-opt=no-new-privileges";
   "--pids-limit=256"; "--memory=2g"; "--cpus=2"; "--mount"; "type=bind,source=" +:+ workspace +:+ ",target=/workspace";
   "--tmpfs"; "/tmp:rw,noexec,nosuid,size=64m"; "--workdir"; "/workspace"]
  ++ concat (map (fun item => ["--env"; item]) environment) ++ [rn_image r] ++ rn_arguments r.

(** ** The command line of docker run
    Its options, up to the image: an option is [--name=value], one of the
    options without a value, or takes the argument after it as its value; the
    first argument that begins with no dash is the image, and what follows it the
    command of the container. *)
Definition switches : list string :=
  ["-d"; "--detach"; "--rm"; "--read-only"; "--privileged"; "-i"; "--interactive"; "-t"; "--tty"; "--init"; "-P"; "--publish-all";
   "--no-healthcheck"; "--oom-kill-disable"; "--sig-proxy"].
Fixpoint run_options (arguments : list string) : list (string * string) * list string :=
  match arguments with
  | [] => ([], [])
  | argument :: rest =>
      if negb (HasPrefix argument "-") then ([], arguments)
      else match CutByte argument "=" with
           | Some option => let '(options, command) := run_options rest in (option :: options, command)
           | None =>
               if existsb (String.eqb argument) switches
               then let '(options, command) := run_options rest in ((argument, "") :: options, command)
               else match rest with
                    | [] => ([(argument, "")], [])
                    | value :: rest => let '(options, command) := run_options rest in ((argument, value) :: options, command)
                    end
           end
  end.
(** The options and the command of a [docker run]. *)
Definition docker_run (arguments : list string) : list (string * string) * list string := run_options (tail arguments).
Definition option_values (name : string) (options : list (string * string)) : list string :=
  map snd (List.filter (fun option => String.eqb (fst option) name) options).
Definition run_networks (arguments : list string) : gset string :=
  list_to_set (option_values "--network" (fst (docker_run arguments))).

(** ** The host *)
Record Container := mkContainer { ct_Networks : gset string; ct_Arguments : list string }.
(** [ho_Networks] tells of each network whether it is internal. *)
Record Host := mkHost {
  ho_Disk : Disk; ho_Containers : gmap string Container; ho_Networks : gmap string bool;
  ho_Emitted : list string; ho_Leaked : bool;
}.
Abbreviation Job := (Eff Host).

Definition set_disk f (h : Host) : Host :=
  mkHost (f (ho_Disk h)) (ho_Containers h) (ho_Networks h) (ho_Emitted h) (ho_Leaked h).
Definition set_containers f (h : Host) : Host :=
  mkHost (ho_Disk h) (f (ho_Containers h)) (ho_Networks h) (ho_Emitted h) (ho_Leaked h).
Definition set_networks f (h : Host) : Host :=
  mkHost (ho_Disk h) (ho_Containers h) (f (ho_Networks h)) (ho_Emitted h) (ho_Leaked h).
Definition set_leaked (h : Host) : Host :=
  mkHost (ho_Disk h) (ho_Containers h) (ho_Networks h) (ho_Emitted h) true.
Definition emitted (chunk : string) (h : Host) : Host :=
  mkHost (ho_Disk h) (ho_Containers h) (ho_Networks h) (ho_Emitted h ++ [chunk]) (ho_Leaked h).

(** A file operation. *)
Definition on_host {A} (m : Eff Disk A) : Job A := fun fates h =>
  let '(fates, d, outcome) := m fates (ho_Disk h) in (fates, set_disk (fun _ => d) h, outcome).
(** An operation whose error is ignored: failing, it leaves something behind. *)
Definition removal (f : Host -> Host) : Job unit := fun fates h =>
  match fates with
  | [] => ([], f h, Done tt)
  | Proceed :: rest => (rest, f h, Done tt)
  | Fault _ :: rest => (rest, set_leaked h, Done tt)
  | Halt :: rest => (rest, h, Halted)
  end.
Definition RemoveAll (path : string) : Job unit := removal (set_disk (removed path)).
(** [docker rm -f] *)
Definition remove_container (name : string) : Job unit := removal (set_containers (delete name)).
Definition attached (network : string) (h : Host) : bool :=
  existsb (fun c => bool_decide (network ∈ ct_Networks (snd c))) (map_to_list (ho_Containers h)).
(** [docker network rm] refuses while a container is on the network; the refusal
    is ignored too. *)
Definition remove_network (name : string) : Job unit :=
  removal (fun h => if attached name h then h else set_networks (delete name) h).
(** [docker network create], [docker run], [docker network connect]: a container
    is on the networks that its [--network] options name.  Its [--name] is given
    once more, for the command that removes it. *)
Definition create_network (name : string) (internal : bool) : Job unit :=
  effect (fun h => match ho_Networks h !! name with
                   | Some _ => (h, Err (ErrNew "network exists"))
                   | None => (set_networks (<[name := internal]>) h, Ok tt)
                   end).
Definition start_container (name : string) (arguments : list string) : Job unit :=
  effect (fun h => match ho_Containers h !! name with
                   | Some _ => (h, Err (ErrNew "container exists"))
                   | None => (set_containers (<[name := mkContainer (run_networks arguments) arguments]>) h, Ok tt)
                   end).
Definition connect_network (network name : string) : Job unit :=
  effect (fun h => (set_containers (alter (fun c => mkContainer ({[network]} ∪ ct_Networks c) (ct_Arguments c)) name) h, Ok tt)).
Definition emit (chunk : string) : Job unit := effect (fun h => (emitted chunk h, Ok tt)).

(** [defer cleanup]: it runs once [m] returned, with a value or an error. *)
Definition deferred {A} (cleanup : Job unit) (m : Job A) : Job A :=
  r ← try m; _ ← cleanup; of_result r.
(** [if err != nil { cleanup; return err }] *)
Definition on_error {A} (cleanup : Job unit) (m : Job A) : Job A :=
  r ← try m; match r with Ok a => mret a | Err e => _ ← cleanup; fail e end.

(** ** The workspace *)
Definition bytes_string (content : list Z) : string := str content.
Definition relative_path (path : string) : string := path_Clean path.
Definition invalid_relative (relative : string) : bool :=
  String.eqb relative "." || HasPrefix relative "/" || String.eqb relative ".." || HasPrefix relative "../"
  || ContainsByte relative (of_byte 0).
(** A failed write is reported after the file is closed. *)
Definition write_and_close (target content : string) : Job unit :=
  written ← try (on_host (store target content));
  closed ← try (effect (fun h => (h, Ok tt)));
  _ ← of_result written; of_result closed.
Definition materialize_file (workspace : string) (file : BackendFile) : Job unit :=
  let relative := relative_path (bf_Path file) in
  if invalid_relative relative then fail (ErrNew "invalid workspace path")
  else
    let target := path_Join workspace relative in
    _ ← on_host (mkdir_all (path_Dir target));
    _ ← on_host (create_file target);
    write_and_close target (bytes_string (bf_Content file)).
Fixpoint materialize_files (workspace : string) (files : list BackendFile) : Job unit :=
  match files with
  | [] => mret tt
  | file :: rest => _ ← materialize_file workspace file; materialize_files workspace rest
  end.
(** [os.MkdirTemp] gives a path that nothing has. *)
Definition MkdirTemp (path : string) : Job unit :=
  on_host (effect (fun d => if on_disk d path then (d, Err (ErrNew "exists"))
                            else (mkDisk ({[path]} ∪ dk_Directories d) (dk_Files d), Ok tt))).
Definition chmod : Job unit := effect (fun h => (h, Ok tt)).
Definition materializeWorkspace (workspace : string) (files : list BackendFile) : Job unit :=
  _ ← MkdirTemp workspace;
  on_error (RemoveAll workspace) (_ ← chmod; materialize_files workspace files).

(** ** The sidecar *)
Record dockerProxy := mkDockerProxy {
  dp_name : string; dp_network : string; dp_egress : string; dp_directory : string; dp_token : string;
}.
Definition sidecar (jobName directory token : string) : dockerProxy :=
  mkDockerProxy (jobName +:+ "-proxy") (jobName +:+ "-internal") (jobName +:+ "-egress") directory token.
Definition Close (p : dockerProxy) : Job unit :=
  _ ← remove_container (dp_name p);
  _ ← remove_network (dp_network p);
  _ ← remove_network (dp_egress p);
  RemoveAll (dp_directory p).

Definition sidecarArguments (r : Runner) (p : dockerProxy) (configurationPath : string) : list string :=
  ["run"; "-d"; "--rm"; "--name"; dp_name p; "--network"; dp_network p; "--read-only"; "--cap-drop=ALL";
   "--security-opt=no-new-privileges"; "--pids-limit=64"; "--memory=128m"; "--cpus=0.25"; "--mount";
   "type=bind,source=" +:+ rn_proxyBinary r +:+ ",target=/myference-proxy,readonly"; "--mount";
   "type=bind,source=" +:+ configurationPath +:+ ",target=/proxy.json,readonly"; "--entrypoint"; "/myference-proxy"; rn_image r;
   "--config"; "/proxy.json"].
(** The health check, at most [attempts] times. *)
Fixpoint await_healthy (attempts : nat) : Job unit :=
  match attempts with
  | O => fail (ErrNew "isolated credential proxy did not become healthy")
  | S attempts =>
      healthErr ← try (effect (fun h => (h, Ok tt)));
      match healthErr with Ok _ => mret tt | Err _ => await_healthy attempts end
  end.

Section Run.
Context (marshal : json -> string).

Definition start_docker (r : Runner) (p : dockerProxy) (configurationPath : string) : Job dockerProxy :=
  _ ← wrap "create isolated agent network" (create_network (dp_network p) true);
  _ ← wrap "create proxy egress network" (create_network (dp_egress p) false);
  _ ← wrap "start isolated credential proxy"
        (start_container (dp_name p) (sidecarArguments r p configurationPath));
  _ ← wrap "connect credential proxy egress" (connect_network (dp_egress p) (dp_name p));
  _ ← await_healthy 50;
  mret p.

Definition startProxySidecar (r : Runner) (jobName directory model : string) (token : result string) (maximumOutputTokens : Z)
  : Job dockerProxy :=
  token ← of_result token;
  _ ← MkdirTemp directory;
  let configuration := mkProxyConfiguration (rn_kind r) (rn_secret r) model token maximumOutputTokens in
  let configurationPath := path_Join directory "proxy.json" in
  _ ← on_error (RemoveAll directory)
        (_ ← chmod; on_host (write_file configurationPath (marshal (configuration_json configuration))));
  let proxy := sidecar jobName directory token in
  on_error (Close proxy) (start_docker r proxy configurationPath).

(** ** The run *)
(** [input.MaximumOutputTokens * 4] in 64 bits, or 16 KiB. *)
Definition maximumOutputBytes (input : BackendRequest) : Z :=
  let limit := wrap64 (br_MaximumOutputTokens input * 4) in if limit =? 0 then Z.shiftl 16 10 else limit.
Definition line_chunk (line : string) : string := line +:+ str [10].

(** The output of the container: its lines, the error that ended the scanner,
    the error of [Wait] and of the context. *)
Record Execution := mkExecution {
  ex_Lines : list string; ex_Ended : option error; ex_Wait : option error; ex_Context : option error; ex_Elapsed : Z;
}.
Fixpoint read_output (name : string) (limit : Z) (lines : list string) (ended : option error) (outputBytes : Z) : Job unit :=
  match lines with
  | [] => match ended with Some e => _ ← remove_container name; fail e | None => mret tt end
  | line :: rest =>
      let chunk := line_chunk line in
      if wrap64 (limit - outputBytes) <? go_len chunk
      then _ ← remove_container name; fail (ErrNew "command agent exceeded output limit")
      else
        _ ← on_error (remove_container name) (emit chunk);
        read_output name limit rest ended (wrap64 (outputBytes + go_len chunk))
  end.
Definition wait (ex : Execution) : result Usage :=
  match ex_Wait ex with
  | Some e => match ex_Context ex with
              | Some cause => Err (ErrWrap "isolated agent stopped" cause)
              | None => Err (ErrWrap "isolated agent failed" e)
              end
  | None => Ok (mkUsage 0 0 (ex_Elapsed ex))
  end.

(** [pipe] is the outcome of [StdoutPipe]; [execute] what the container started
    with some arguments and standard input does. *)
Definition Generate (r : Runner) (workspace directory : string) (name token : result string) (pipe : result unit)
    (execute : list string -> string -> Execution) (input : BackendRequest) : Job Usage :=
  if negb (String.eqb (br_Model input) (rn_model r)) || is_blank (br_Prompt input)
  then fail (ErrNew "configured model, prompt, and callback are required")
  else
    _ ← materializeWorkspace workspace (br_Workspace input);
    deferred (RemoveAll workspace)
      (name ← of_result name;
       proxy ← startProxySidecar r name directory (br_Model input) token (br_MaximumOutputTokens input);
       deferred (Close proxy)
         (let arguments := dockerArguments r name workspace (dp_network proxy)
                             ("http://" +:+ dp_name proxy +:+ ":8080") (dp_token proxy) in
          let ex := execute arguments (br_Prompt input) in
          _ ← of_result pipe;
          _ ← start_container name arguments;
          deferred (remove_container name)
            (_ ← read_output name (maximumOutputBytes input) (ex_Lines ex) (ex_Ended ex) 0;
             of_result (wait ex)))).
End Run.
