(* ===== verification/CommandAgentSpec.v ===== *)
(** * What an isolated job leaves alone and leaves behind

    Whatever operation fails and wherever the process dies, a job touches only
    its own directories, containers and networks, and its agent is only ever on
    the internal network; and a job that returns, with a value or an error,
    leaves the host as it was unless a removal failed. *)

From S2P Require Import Prelude GoStrings Wire Receipt Messages Anthropic Daemon Effects Disk Backends CredentialProxy CommandAgent.
From Stdlib Require Import Ascii.
From stdpp Require Import gmap strings.
Open Scope string_scope.
Open Scope list_scope.
Open Scope Z_scope.

(** ** Paths below the workspace *)
Abbreviation unslashed := (fun e : string => ContainsByte e "/" = false).
Abbreviation plain := (fun e : string => proper_element e /\ unslashed e).

Lemma clean_elements_plain rooted elements : forall out, Forall plain elements ->
  clean_elements rooted elements out = rev elements ++ out.
Proof.
  induction elements as [|e rest IH]; intros out Hp; [done|]. apply Forall_cons in Hp as [[(H1 & H2 & H3) _] Hp].
  cbn [clean_elements]. destruct (String.eqb_spec e ""), (String.eqb_spec e "."), (String.eqb_spec e ".."); try done.
  cbn [orb]. rewrite IH by done. cbn. by rewrite <- app_assoc.
Qed.

(** A path made of plain elements after the first slash. *)
Definition absolute (elements : list string) : string := String "/" (GoStrings.Join elements "/").

Lemma Join_cons part parts : parts <> [] -> GoStrings.Join (part :: parts) "/" = part +:+ String "/" (GoStrings.Join parts "/").
Proof. by destruct parts. Qed.

Lemma split_absolute elements : elements <> [] -> Forall plain elements ->
  SplitByte (absolute elements) "/" = "" :: elements.
Proof.
  intros Hne Hp. unfold absolute. cbn. f_equal. apply SplitByte_Join; [done|]. eapply Forall_impl; [exact Hp|].
  by intros e [_ ?].
Qed.

Lemma clean_absolute elements : elements <> [] -> Forall plain elements -> path_Clean (absolute elements) = absolute elements.
Proof.
  intros Hne Hp. unfold path_Clean. replace (HasPrefix (absolute elements) "/") with true by (unfold absolute; by destruct (GoStrings.Join _ _)).
  rewrite split_absolute by done. cbn [clean_elements String.eqb orb]. rewrite clean_elements_plain, app_nil_r, rev_involutive by done.
  done.
Qed.

Lemma Join_app a b : a <> [] -> b <> [] -> GoStrings.Join (a ++ b) "/" = GoStrings.Join a "/" +:+ String "/" (GoStrings.Join b "/").
Proof.
  intros Ha Hb. induction a as [|x a IH]; [done|]. destruct a as [|y a]; [by apply Join_cons|].
  rewrite <- app_comm_cons, Join_cons by done. rewrite IH by done. rewrite (Join_cons x) by done.
  by rewrite app_string_assoc, app_string_cons.
Qed.

Lemma path_Join_absolute base relative : base <> [] -> relative <> [] -> Forall plain base -> Forall plain relative ->
  path_Join (absolute base) (GoStrings.Join relative "/") = absolute (base ++ relative).
Proof.
  intros Hb Hr Pb Pr. unfold path_Join. replace (absolute base +:+ "/" +:+ GoStrings.Join relative "/") with (absolute (base ++ relative)).
  - apply clean_absolute; [by destruct base|by apply Forall_app].
  - unfold absolute. rewrite Join_app by done. done.
Qed.

Lemma within_absolute base rest : base <> [] -> within (absolute base) (absolute (base ++ rest)) = true.
Proof.
  intros Hb. destruct (decide (rest = [])) as [->|Hr]; [rewrite app_nil_r; unfold within; by rewrite String.eqb_refl|].
  unfold within, below. replace (absolute (base ++ rest)) with ((absolute base +:+ "/") +:+ GoStrings.Join rest "/").
  - by rewrite HasPrefix_app, orb_true_r.
  - unfold absolute. rewrite Join_app by done. by rewrite !app_string_cons, app_string_assoc.
Qed.

Lemma removelast_app_ne {A} (a b : list A) : b <> [] -> removelast (a ++ b) = a ++ removelast b.
Proof. apply removelast_app. Qed.

Lemma path_Dir_absolute base relative : base <> [] -> relative <> [] -> Forall plain base -> Forall plain relative ->
  path_Dir (absolute (base ++ relative)) = absolute (base ++ removelast relative).
Proof.
  intros Hb Hr Pb Pr. set (l := base ++ removelast relative).
  assert (Forall plain l) as Pl.
  { apply Forall_app. split; [done|]. rewrite (app_removelast_last "" Hr) in Pr. by apply Forall_app in Pr as [? _]. }
  assert (l <> []) as Hl by (unfold l; by destruct base).
  unfold path_Dir. rewrite split_absolute; [|by destruct base|by apply Forall_app].
  change ("" :: base ++ relative) with (("" :: base) ++ relative). rewrite removelast_app by done. cbn [app]. fold l.
  rewrite Join_cons by done.
  replace (("" +:+ String "/" (GoStrings.Join l "/")) +:+ "/") with (String "/" (GoStrings.Join (l ++ [""]) "/"))
    by (rewrite Join_app by done; done).
  unfold path_Clean.
  replace (HasPrefix _ "/") with true by (cbn; by destruct (GoStrings.Join _ _)).
  assert (SplitByte (String "/" (GoStrings.Join (l ++ [""]) "/")) "/" = "" :: l ++ [""]) as ->.
  { cbn. f_equal. apply SplitByte_Join; [by destruct l|]. apply Forall_app. split; [|by repeat constructor].
    eapply Forall_impl; [exact Pl|]. by intros e [_ ?]. }
  cbn [clean_elements String.eqb orb].
  assert (forall es out, Forall plain es -> clean_elements true (es ++ [""]) out = clean_elements true es out) as Hz.
  { clear. intros es. induction es as [|e es IH]; intros out Hp; [done|]. apply Forall_cons in Hp as [[(H1 & H2 & H3) _] Hp].
    cbn [app clean_elements]. destruct (String.eqb_spec e ""), (String.eqb_spec e "."), (String.eqb_spec e ".."); try done.
    cbn [orb]. by apply IH. }
  rewrite Hz, clean_elements_plain, app_nil_r, rev_involutive by done. done.
Qed.

(** What the check of a workspace path accepts, cleaned. *)
Lemma relative_plain path : invalid_relative (relative_path path) = false ->
  exists relative, relative <> [] /\ Forall plain relative /\ relative_path path = GoStrings.Join relative "/".
Proof.
  unfold invalid_relative, relative_path. intros G. repeat apply orb_false_iff in G as [G ?].
  apply String.eqb_neq in G.
  match goal with H : String.eqb _ ".." = false |- _ => apply String.eqb_neq in H; rename H into Hdd end.
  match goal with H : HasPrefix _ "../" = false |- _ => rename H into Hup end.
  match goal with H : HasPrefix _ "/" = false |- _ => rename H into Habs end.
  unfold path_Clean in *. destruct (HasPrefix path "/") eqn:R.
  { cbn in Habs. by destruct (GoStrings.Join _ _). }
  destruct (SplitByte_no_sep path "/") as [Hne Hsep].
  destruct (clean_elements_cleaned (SplitByte path "/") []) as [Hc Hcs]; [done|constructor|by apply (cleaned_up 0)|].
  set (out := clean_elements false (SplitByte path "/") []) in *.
  destruct (rev out) as [|e rest] eqn:E; [done|]. exists (e :: rest). split; [done|]. split; [|done].
  destruct (cleaned_split out Hc) as [Hp|[pre Ep]].
  - rewrite <- E. apply Forall_rev. rewrite Forall_and. done.
  - exfalso. rewrite Ep, rev_app_distr in E. cbn in E. injection E as <- <-.
    destruct (rev pre) as [|next tail] eqn:R'; [done|]. rewrite Join_cons in Hup by done.
    change (".." +:+ String "/" (GoStrings.Join (next :: tail) "/")) with ("../" +:+ GoStrings.Join (next :: tail) "/") in Hup.
    by rewrite HasPrefix_app in Hup.
Qed.

(** ** Programs of the host *)
Lemma triple_removal (P Q : Host -> Prop) f E (C : Host -> Prop) :
  (forall h, P h -> Q (f h)) -> (forall h, P h -> Q (set_leaked h)) -> (forall h, P h -> C h) ->
  triple P (removal f) (fun _ => Q) E C.
Proof. intros Hf Hl HC fates h Hh. unfold removal. destruct fates as [|[|e|] rest]; by auto. Qed.

Lemma triple_on_error {A} P cleanup (m : Job A) Q R E C :
  triple P m Q (fun _ => R) C -> triple R cleanup (fun _ => E) (fun _ => E) C ->
  triple P (on_error cleanup m) Q (fun _ => E) C.
Proof.
  intros Hm Hc. eapply triple_bind; [eapply (triple_try _ _ (fun r w => match r with Ok a => Q a w | Err _ => R w end)), Hm|].
  intros [a|e]; [by apply triple_ret|]. eapply triple_bind; [apply Hc|]. intros []. by apply triple_fail.
Qed.

Lemma triple_deferred {A} P cleanup (m : Job A) R Q C :
  triple P m (fun _ => R) (fun _ => R) C -> triple R cleanup (fun _ => Q) (fun _ => Q) C ->
  triple P (deferred cleanup m) (fun _ => Q) (fun _ => Q) C.
Proof.
  intros Hm Hc. eapply triple_bind; [eapply (triple_try _ _ (fun _ => R)), Hm|]. intros r.
  eapply triple_bind; [apply Hc|]. intros []. apply triple_of_result. by destruct r.
Qed.

Lemma triple_pure_r {W A} (X : Prop) P (m : Eff W A) Q E C :
  (X -> triple P m Q E C) -> triple (fun w => P w /\ X) m Q E C.
Proof. intros Hm fates w [Hw Hx]. by apply Hm. Qed.

(** Disk operations confined to the paths of [P]. *)
Definition confined {A} (P : string -> Prop) (m : Eff Disk A) : Prop := forall d0,
  triple (same_outside P d0) m (fun _ => same_outside P d0) (fun _ => same_outside P d0) (same_outside P d0).

Lemma confined_bind {A B} P (m : Eff Disk A) (f : A -> Eff Disk B) :
  confined P m -> (forall a, confined P (f a)) -> confined P (m ≫= f).
Proof. intros Hm Hf d0. eapply triple_bind; [apply Hm|]. intros a. apply Hf. Qed.
Lemma confined_effect {A} P (f : Disk -> Disk * result A) :
  (forall d, same_outside P d (fst (f d))) -> confined P (effect f).
Proof.
  intros Hf d0. apply triple_effect; [|done..]. intros w Hw. specialize (Hf w). destruct (f w) as [w' [a|e]]; cbn in Hf;
    by eapply same_outside_trans.
Qed.
Lemma confined_store (P : string -> Prop) path data : P path -> confined P (store path data).
Proof. intros Hp. apply confined_effect. intros d. by apply same_outside_files. Qed.
Lemma confined_mkdir_all (P : string -> Prop) path : P path -> confined P (mkdir_all path).
Proof.
  intros Hp. apply confined_effect. intros d. destruct (blocked d path); [apply same_outside_refl|by apply same_outside_directory].
Qed.
Lemma confined_create_file (P : string -> Prop) path : P path -> confined P (create_file path).
Proof.
  intros Hp. apply confined_effect. intros d. destruct (on_disk d path); [apply same_outside_refl|by apply same_outside_files].
Qed.
Lemma confined_write_file (P : string -> Prop) path data : P path -> confined P (write_file path data).
Proof. intros Hp. apply confined_bind; [|intros ?]; by apply confined_store. Qed.

(** ** The command line of an agent *)
(** The options that an agent is run with, apart from its environment. *)
Lemma docker_run_options r name workspace network proxyURL token :
  exists rest, docker_run (dockerArguments r name workspace network proxyURL token)
    = ([("--rm", ""); ("--name", name); ("--network", network); ("--read-only", ""); ("--cap-drop", "ALL");
        ("--security-opt", "no-new-privileges"); ("--pids-limit", "256"); ("--memory", "2g"); ("--cpus", "2");
        ("--mount", "type=bind,source=" +:+ workspace +:+ ",target=/workspace");
        ("--tmpfs", "/tmp:rw,noexec,nosuid,size=64m"); ("--workdir", "/workspace")] ++ fst rest, snd rest)
    /\ rest = run_options (concat (map (fun item => ["--env"; item])
                 (["HOME=/workspace"; "TMPDIR=/tmp"; "NO_COLOR=1"; "TERM=dumb"]
                  ++ (if String.eqb (rn_kind r) "codex" then ["OPENAI_API_KEY=" +:+ token; "OPENAI_BASE_URL=" +:+ proxyURL]
                      else if String.eqb (rn_kind r) "claude" then ["ANTHROPIC_API_KEY=" +:+ token; "ANTHROPIC_BASE_URL=" +:+ proxyURL]
                      else if String.eqb (rn_kind r) "kimi" then ["MOONSHOT_API_KEY=" +:+ token; "OPENAI_BASE_URL=" +:+ proxyURL]
                      else []))) ++ rn_image r :: rn_arguments r).
Proof.
  eexists. split; [|reflexivity]. unfold docker_run, dockerArguments. cbv zeta.
  set (environment := concat _). cbn -[environment]. by destruct (run_options _).
Qed.

Lemma run_networks_internal r name workspace network proxyURL token :
  network ∈ run_networks (dockerArguments r name workspace network proxyURL token).
Proof.
  unfold run_networks. destruct (docker_run_options r name workspace network proxyURL token) as (rest & -> & _).
  apply elem_of_list_to_set. cbn. by left.
Qed.

Lemma run_options_environment items image command : HasPrefix image "-" = false ->
  run_options (concat (map (fun item => ["--env"; item]) items) ++ image :: command)
    = (map (fun item => ("--env", item)) items, image :: command).
Proof. intros Hi. induction items as [|item items IH]; cbn; [by rewrite Hi|]. by rewrite IH. Qed.

(** What the environment of an agent may hold: constants, the address of the
    proxy, and the job's token as the key of the provider. *)
Definition harmless (proxyURL token item : string) : Prop :=
  item ∈ ["HOME=/workspace"; "TMPDIR=/tmp"; "NO_COLOR=1"; "TERM=dumb"]
  \/ item ∈ ["OPENAI_BASE_URL=" +:+ proxyURL; "ANTHROPIC_BASE_URL=" +:+ proxyURL]
  \/ item ∈ ["OPENAI_API_KEY=" +:+ token; "ANTHROPIC_API_KEY=" +:+ token; "MOONSHOT_API_KEY=" +:+ token].

(** What [docker run] was told of an agent: one network, one directory of the
    host, no privilege and no option but these, an environment without secrets. *)
Record jailed (network workspace proxyURL token image : string) (command : list string) (c : Container) : Prop := mkJailed {
  jl_networks : ct_Networks c = {[network]};
  jl_mounts : option_values "--mount" (fst (docker_run (ct_Arguments c)))
                = ["type=bind,source=" +:+ workspace +:+ ",target=/workspace"];
  jl_options : Forall (fun name => name ∈ ["--rm"; "--name"; "--network"; "--read-only"; "--cap-drop"; "--security-opt";
                                           "--pids-limit"; "--memory"; "--cpus"; "--mount"; "--tmpfs"; "--workdir"; "--env"])
                 (map fst (fst (docker_run (ct_Arguments c))));
  jl_read_only : option_values "--read-only" (fst (docker_run (ct_Arguments c))) = [""];
  jl_capabilities : option_values "--cap-drop" (fst (docker_run (ct_Arguments c))) = ["ALL"];
  jl_security : option_values "--security-opt" (fst (docker_run (ct_Arguments c))) = ["no-new-privileges"];
  jl_tmpfs : option_values "--tmpfs" (fst (docker_run (ct_Arguments c))) = ["/tmp:rw,noexec,nosuid,size=64m"];
  jl_processes : option_values "--pids-limit" (fst (docker_run (ct_Arguments c))) = ["256"];
  jl_memory : option_values "--memory" (fst (docker_run (ct_Arguments c))) = ["2g"];
  jl_environment : Forall (harmless proxyURL token) (option_values "--env" (fst (docker_run (ct_Arguments c))));
  jl_command : snd (docker_run (ct_Arguments c)) = image :: command;
}.

Lemma option_values_app name options options' :
  option_values name (options ++ options') = option_values name options ++ option_values name options'.
Proof. unfold option_values. by rewrite List.filter_app, map_app. Qed.
Lemma option_values_environment name items : option_values name (map (fun item => ("--env", item)) items)
  = if String.eqb "--env" name then items else [].
Proof.
  unfold option_values. destruct (String.eqb "--env" name) eqn:E; induction items as [|item items IH]; cbn [map List.filter fst];
    rewrite ?E; cbn; congruence.
Qed.

Lemma dockerArguments_jailed r name workspace network proxyURL token networks :
  HasPrefix (rn_image r) "-" = false ->
  networks = run_networks (dockerArguments r name workspace network proxyURL token) ->
  jailed network workspace proxyURL token (rn_image r) (rn_arguments r)
    (mkContainer networks (dockerArguments r name workspace network proxyURL token)).
Proof.
  intros Hi ->. destruct (docker_run_options r name workspace network proxyURL token) as (rest & E & ->).
  rewrite run_options_environment in E by done. cbn [fst snd] in E.
  set (environment := _ ++ (if String.eqb (rn_kind r) "codex" then _ else _)) in E.
  assert (Forall (harmless proxyURL token) environment) as He.
  { unfold environment. destruct (String.eqb _ "codex"); [|destruct (String.eqb _ "claude"); [|destruct (String.eqb _ "kimi")]];
      cbn [app]; repeat (apply Forall_cons; split; [unfold harmless; rewrite !list_elem_of_In; cbn [In]; auto 20|]);
      apply Forall_nil_2. }
  split; cbn [ct_Networks ct_Arguments]; [unfold run_networks|..]; rewrite E; cbn [fst snd];
    rewrite ?option_values_app, ?option_values_environment; try reflexivity.
  - cbn [String.eqb]. rewrite app_nil_r. cbn. by rewrite union_empty_r_L.
  - rewrite map_app, map_map. apply Forall_app. split.
    + cbn [map fst]. repeat (apply Forall_cons; split; [rewrite list_elem_of_In; cbn [In]; auto 20|]). apply Forall_nil_2.
    + apply Forall_map, Forall_true. intros item. cbn [fst]. rewrite list_elem_of_In. cbn [In]. auto 20.
  - exact He.
Qed.

(** ** A job *)
Section Job.
Context (r : Runner) (name : string) (token : result string) (base temporary : list string) (h0 : Host).
Let workspace := absolute base.
Let directory := absolute temporary.
Let proxy := name +:+ "-proxy".
Let internal := name +:+ "-internal".
Let egress := name +:+ "-egress".

Definition own (path : string) : Prop := within workspace path = true \/ within directory path = true.

(** The rest of the host is as before, and the agent was started with the
    arguments of the job, and on no network that these do not name. *)
Record kept (w : Host) : Prop := mkKept {
  kp_disk : same_outside own (ho_Disk h0) (ho_Disk w);
  kp_containers : forall c, c <> name -> c <> proxy -> ho_Containers w !! c = ho_Containers h0 !! c;
  kp_networks : forall n, n <> internal -> n <> egress -> ho_Networks w !! n = ho_Networks h0 !! n;
  kp_agent : forall c, ho_Containers w !! name = Some c ->
    ct_Networks c = run_networks (ct_Arguments c) /\ ho_Networks w !! internal = Some true
    /\ exists t, token = Ok t
       /\ ct_Arguments c = dockerArguments r name workspace internal ("http://" +:+ proxy +:+ ":8080") t;
}.

Definition vacant (root : string) (w : Host) : Prop := forall path, within root path = true ->
  dk_Files (ho_Disk w) !! path = None /\ path ∉ dk_Directories (ho_Disk w).

(** What is absent when the job has at most [k] things to clean up: the
    workspace, the proxy's directory, its networks and container, the agent. *)
Record absent_at (k : nat) (w : Host) : Prop := mkAbsent {
  ab_agent : (k <= 3)%nat -> ho_Containers w !! name = None;
  ab_sidecar : (k <= 2)%nat ->
    ho_Containers w !! proxy = None /\ ho_Networks w !! internal = None /\ ho_Networks w !! egress = None;
  ab_directory : (k <= 1)%nat -> vacant directory w;
  ab_workspace : (k <= 0)%nat -> vacant workspace w;
}.
Definition clean (k : nat) (w : Host) : Prop := kept w /\ (ho_Leaked w = false -> absent_at k w).

Lemma clean_kept k w : clean k w -> kept w.
Proof. by intros []. Qed.
Lemma clean_mono k k' w : (k <= k')%nat -> clean k w -> clean k' w.
Proof. intros Hk [Hw Ha]. split; [done|]. intros Hl. destruct (Ha Hl). split; intros; auto with lia. Qed.
Lemma clean_leaked k k' w : clean k w -> clean k' (set_leaked w).
Proof. intros [[] _]. split; [|done]. by split. Qed.
Hint Resolve clean_kept clean_leaked : core.

Definition stable {A} (k : nat) (m : Job A) : Prop :=
  triple (clean k) m (fun _ => clean k) (fun _ => clean k) kept.

Lemma stable_bind {A B} k (m : Job A) (f : A -> Job B) : stable k m -> (forall a, stable k (f a)) -> stable k (m ≫= f).
Proof. intros Hm Hf. eapply triple_bind; [apply Hm|]. intros a. apply Hf. Qed.
Lemma stable_ret {A} k (a : A) : stable k (mret a).
Proof. by apply triple_ret. Qed.
Lemma stable_fail {A} k e : stable k (fail (A := A) e).
Proof. by apply triple_fail. Qed.
Lemma stable_of_result {A} k (x : result A) : stable k (of_result x).
Proof. destruct x; [apply stable_ret|apply stable_fail]. Qed.
Lemma stable_try {A} k (m : Job A) : stable k m -> stable k (try m).
Proof. intros Hm. apply triple_try, Hm. Qed.
Lemma stable_wrap {A} k prefix (m : Job A) : stable k m -> stable k (wrap prefix m).
Proof. intros Hm. apply triple_wrap, Hm. Qed.
Lemma stable_on_error {A} k cleanup (m : Job A) : stable k m -> stable k cleanup -> stable k (on_error cleanup m).
Proof. intros Hm Hc. eapply triple_on_error; [apply Hm|apply Hc]. Qed.
Lemma stable_effect {A} k (f : Host -> Host * result A) :
  (forall w, clean k w -> clean k (fst (f w))) -> stable k (effect f).
Proof.
  intros Hf. apply triple_effect; [|done|by eauto]. intros w Hw. specialize (Hf w Hw). by destruct (f w) as [w' [a|e]].
Qed.
Lemma stable_chmod k : stable k chmod.
Proof. by apply stable_effect. Qed.
Lemma stable_emit k chunk : stable k (emit chunk).
Proof.
  apply stable_effect. intros w [[] Ha]. split; [by split|]. intros Hl. destruct (Ha Hl). by split.
Qed.

Lemma vacant_outside (P : string -> Prop) root w w' : (forall path, within root path = true -> ~ P path) ->
  same_outside P (ho_Disk w) (ho_Disk w') -> vacant root w -> vacant root w'.
Proof. intros HP Hs Hv path Hp. destruct (Hs path) as [-> ->]; [by apply HP|]. by apply Hv. Qed.

Lemma clean_disk (P : string -> Prop) k w d : clean k w -> same_outside P (ho_Disk w) d ->
  (forall path, P path -> own path) -> ((k <= 1)%nat -> forall path, within directory path = true -> ~ P path) ->
  ((k <= 0)%nat -> forall path, within workspace path = true -> ~ P path) ->
  clean k (set_disk (fun _ => d) w).
Proof.
  intros [[] Ha] Hs Ho Hd Hw. split.
  - split; try done. cbn. eapply same_outside_trans; [done|]. intros path Hp. apply Hs. auto.
  - intros Hl. destruct (Ha Hl) as [H1 H2 H3 H4]. split; try done; intros Hk; [eapply (vacant_outside P _ w)|eapply (vacant_outside P _ w)]; auto.
Qed.

Lemma stable_on_host {A} (P : string -> Prop) k (m : Eff Disk A) : confined P m ->
  (forall path, P path -> own path) -> ((k <= 1)%nat -> forall path, within directory path = true -> ~ P path) ->
  ((k <= 0)%nat -> forall path, within workspace path = true -> ~ P path) ->
  stable k (on_host m).
Proof.
  intros Hm Ho Hd Hw fates w Hc. unfold on_host. specialize (Hm (ho_Disk w) fates (ho_Disk w) (same_outside_refl _ _)).
  destruct (m fates (ho_Disk w)) as [[fates' d] [a|e|]]; [| |eapply clean_kept]; by eapply clean_disk.
Qed.

(** *** The workspace *)
Context (base_plain : base <> [] /\ Forall plain base) (temporary_plain : temporary <> [] /\ Forall plain temporary).
Context (apart : forall path, within workspace path = true -> within directory path = false).

Abbreviation in_workspace := (fun path => within workspace path = true).
Lemma stable_in_workspace {A} k (m : Eff Disk A) : confined in_workspace m -> (1 <= k)%nat -> stable k (on_host m).
Proof.
  intros Hm Hk. eapply stable_on_host; [apply Hm|by left| |lia]. intros _ path Hd Hw. rewrite apart in Hd; [done|exact Hw].
Qed.
Lemma stable_in_directory {A} k (m : Eff Disk A) : confined (fun path => within directory path = true) m -> (2 <= k)%nat -> stable k (on_host m).
Proof. intros Hm Hk. eapply stable_on_host; [apply Hm|by right|lia|lia]. Qed.

Lemma stable_materialize_file k file : (1 <= k)%nat -> stable k (materialize_file workspace file).
Proof.
  intros Hk. unfold materialize_file. destruct (invalid_relative _) eqn:G; [apply stable_fail|].
  apply relative_plain in G as (relative & Hr & Pr & ->). destruct base_plain as [Hb Pb].
  unfold workspace at 1 2 3. rewrite path_Join_absolute, path_Dir_absolute by done.
  assert (in_workspace (absolute (base ++ relative))) as Ht by (by apply within_absolute).
  apply stable_bind; [|intros []; apply stable_bind; [|intros []]].
  - apply stable_in_workspace, Hk. apply confined_mkdir_all. by apply within_absolute.
  - apply stable_in_workspace, Hk. by apply confined_create_file.
  - apply stable_bind; [|intros written; apply stable_bind; [|intros closed; apply stable_bind; [|intros []]; apply stable_of_result]].
    + apply stable_try, stable_in_workspace, Hk. by apply confined_store.
    + apply stable_try. by apply stable_effect.
Qed.

Lemma stable_materialize_files k files : (1 <= k)%nat -> stable k (materialize_files workspace files).
Proof.
  intros Hk. induction files as [|file files IH]; [apply stable_ret|]. apply stable_bind; [by apply stable_materialize_file|done].
Qed.

(** A new directory is one more thing to clean up; removing it is one less. *)
Lemma clean_new_directory k root w : clean k w -> own root -> (k = 0%nat -> root = workspace) -> (k <= 1)%nat ->
  (k = 1%nat -> root = directory) ->
  clean (S k) (set_disk (fun d => mkDisk ({[root]} ∪ dk_Directories d) (dk_Files d)) w).
Proof.
  intros Hc Ho H0 Hk H1. apply (clean_disk (fun path => path = root)).
  - apply (clean_mono k); [lia|done].
  - by apply same_outside_directory.
  - by intros path ->.
  - intros Hk' path Hd ->. assert (k = 0%nat) as -> by lia. rewrite (H0 eq_refl) in Hd.
    rewrite apart in Hd; [done|]. unfold within. by rewrite String.eqb_refl.
  - lia.
Qed.

Lemma MkdirTemp_spec k root : own root -> (k = 0%nat -> root = workspace) -> (k <= 1)%nat -> (k = 1%nat -> root = directory) ->
  triple (clean k) (MkdirTemp root) (fun _ => clean (S k)) (fun _ => clean k) kept.
Proof.
  intros Ho H0 Hk H1 fates w Hc.
  assert (forall w, set_disk (fun _ => ho_Disk w) w = w) as Hid by (by intros []).
  unfold MkdirTemp, on_host, effect. destruct fates as [|[|e|] rest]; [| |by rewrite Hid|rewrite Hid; by eapply clean_kept].
  all: destruct (on_disk (ho_Disk w) root); [by rewrite Hid|]; by apply clean_new_directory.
Qed.

Lemma removed_vacant root d path : within root path = true ->
  dk_Files (removed root d) !! path = None /\ path ∉ dk_Directories (removed root d).
Proof.
  intros Hw. cbn. split.
  - apply map_lookup_filter_None. right. intros v _. cbn. congruence.
  - rewrite elem_of_filter. intros [? _]. congruence.
Qed.

Lemma clean_removed root k w : clean k w -> (forall path, within root path = true -> own path) ->
  clean k (set_disk (removed root) w).
Proof.
  intros [[] Ha] Ho. pose proof (same_outside_removed own (ho_Disk w) root Ho) as Hs. split.
  - split; try done. cbn. by eapply same_outside_trans.
  - intros Hl. destruct (Ha Hl) as [H1 H2 H3 H4]. split; try done; intros Hk path Hp; cbn [set_disk ho_Disk].
    + destruct (H3 Hk path Hp) as [Hf Hd]. cbn. rewrite elem_of_filter. split; [|tauto].
      apply map_lookup_filter_None. by left.
    + destruct (H4 Hk path Hp) as [Hf Hd]. cbn. rewrite elem_of_filter. split; [|tauto].
      apply map_lookup_filter_None. by left.
Qed.

Lemma RemoveAll_workspace : triple (clean 1) (RemoveAll workspace) (fun _ => clean 0) (fun _ => clean 0) kept.
Proof.
  apply triple_removal; [|eauto|eauto]. intros w Hc. apply (clean_removed workspace) in Hc as [Hw Ha]; [|by left].
  split; [done|]. intros Hl. destruct (Ha Hl). split; intros; auto with lia. intros path Hp. by apply removed_vacant.
Qed.
Lemma RemoveAll_directory : triple (clean 2) (RemoveAll directory) (fun _ => clean 1) (fun _ => clean 1) kept.
Proof.
  apply triple_removal; [|eauto|eauto]. intros w Hc. apply (clean_removed directory) in Hc as [Hw Ha]; [|by right].
  split; [done|]. intros Hl. destruct (Ha Hl). split; intros; auto with lia; try lia. intros path Hp. by apply removed_vacant.
Qed.

Lemma materializeWorkspace_spec files :
  triple (clean 0) (materializeWorkspace workspace files) (fun _ => clean 1) (fun _ => clean 0) kept.
Proof.
  assert (own workspace) as Ho by (left; unfold within; by rewrite String.eqb_refl).
  eapply triple_bind; [apply (MkdirTemp_spec 0 workspace Ho); (done || lia)|]. intros [].
  eapply triple_on_error; [|apply RemoveAll_workspace].
  apply stable_bind; [apply stable_chmod|]. intros []. by apply stable_materialize_files.
Qed.

(** *** Containers and networks *)
Context (free_networks : attached internal h0 = false /\ attached egress h0 = false).
Context (free : ho_Containers h0 !! name = None /\ ho_Containers h0 !! proxy = None
                /\ ho_Networks h0 !! internal = None /\ ho_Networks h0 !! egress = None).

Lemma names_apart : name <> proxy /\ internal <> egress.
Proof.
  split; intros E.
  - apply (f_equal String.length) in E. unfold proxy in E. revert E. clear. intros E.
    assert (forall a b, String.length (a +:+ b) = (String.length a + String.length b)%nat) as Hl
      by (intros a b; induction a; [done|]; rewrite app_string_cons; cbn; congruence).
    rewrite Hl in E. cbn in E. lia.
  - unfold internal, egress in E. revert E. clear. induction name as [|c s IH]; [done|].
    rewrite !app_string_cons. intros [= E]. auto.
Qed.

(** Without the job's containers, the containers are those of before. *)
Lemma containers_restored w : kept w -> ho_Containers w !! name = None -> ho_Containers w !! proxy = None ->
  ho_Containers w = ho_Containers h0.
Proof.
  intros [] Hn Hp. destruct free as (Fn & Fp & _). apply map_eq. intros c.
  destruct (decide (c = name)) as [->|]; [congruence|]. destruct (decide (c = proxy)) as [->|]; [congruence|]. auto.
Qed.

Lemma attached_containers network w w' : ho_Containers w = ho_Containers w' -> attached network w = attached network w'.
Proof. unfold attached. by intros ->. Qed.

Lemma attached_name network w c : ho_Containers w !! name = Some c -> network ∈ ct_Networks c -> attached network w = true.
Proof.
  intros Hc Hn. apply existsb_exists. exists (name, c). split; [by apply list_elem_of_In, elem_of_map_to_list|].
  by apply bool_decide_eq_true.
Qed.

Lemma remove_agent : triple (clean 4) (remove_container name) (fun _ => clean 3) (fun _ => clean 3) kept.
Proof.
  apply triple_removal; [|eauto|eauto]. intros w [[] Ha]. split.
  - split; cbn; try done; [intros c Hn Hp; rewrite lookup_delete_ne; auto|].
    intros c Hc. by rewrite lookup_delete_eq in Hc.
  - intros Hl. split; try lia. intros _. apply lookup_delete_eq.
Qed.
Lemma stable_remove_agent : stable 4 (remove_container name).
Proof.
  eapply triple_conseq; [apply remove_agent|done|..]; intros; try done; by apply (clean_mono 3); [lia|].
Qed.

(** During [Close]: what is already gone when nothing leaked. *)
Definition closing (P : Host -> Prop) (w : Host) : Prop := clean 3 w /\ (ho_Leaked w = false -> P w).

Lemma remove_proxy E : triple (clean 3) (remove_container proxy)
  (fun _ => closing (fun w => ho_Containers w !! proxy = None)) E kept.
Proof.
  destruct names_apart as [Hnp _]. apply triple_removal; [|intros h Hh; split; [eauto|done]|eauto]. intros w [[] Ha]. split; [split|].
  - split; cbn; try done; [intros c Hn Hp; rewrite lookup_delete_ne; auto|].
    intros c. rewrite lookup_delete_ne by done. apply kp_agent0.
  - intros Hl. split; try lia. intros _. cbn. rewrite lookup_delete_ne by done. by apply Ha.
  - intros _. apply lookup_delete_eq.
Qed.

Lemma remove_network_spec network (P : Host -> Prop) E :
  network = internal \/ network = egress ->
  (forall w, P w -> ho_Containers w !! proxy = None) -> (forall w, P w -> P (set_networks (delete network) w)) ->
  triple (closing P) (remove_network network) (fun _ => closing (fun w => P w /\ ho_Networks w !! network = None)) E kept.
Proof.
  intros Hnet Hproxy HP. apply triple_removal; [|intros h [Hh _]; split; [eauto|done]|intros h [Hh _]; eauto].
  intros w [Hc Hp]. destruct Hc as [Hk Ha]. pose proof Hk as []. destruct (attached network w) eqn:A.
  { split; [by split|]. intros Hl. exfalso. enough (attached network h0 = false) as Hf.
    { rewrite <- (attached_containers _ w h0), A in Hf; [done|]. apply containers_restored; [done|by apply Ha|by apply Hproxy, Hp]. }
    destruct free_networks, Hnet; by subst. }
  split; [split|].
  - split; cbn; try done; [intros n Hi He; rewrite lookup_delete_ne; destruct Hnet; subst; auto|].
    intros c Hc. destruct (kp_agent0 c Hc) as (Hn & Hi & Hargs). split; [done|]. split; [|done].
    rewrite lookup_delete_ne; [done|]. intros ->. enough (attached internal w = true) by congruence.
    eapply attached_name; [done|]. destruct Hargs as (t & _ & Ha'). rewrite Hn, Ha'. apply run_networks_internal.
  - intros Hl. split; try lia. intros _. by apply Ha.
  - intros Hl. split; [by apply HP, Hp|]. apply lookup_delete_eq.
Qed.

Lemma Close_spec t : triple (clean 3) (Close (sidecar name directory t)) (fun _ => clean 1) (fun _ => clean 1) kept.
Proof.
  destruct names_apart as [_ Hie]. unfold Close. cbn [sidecar dp_name dp_network dp_egress dp_directory]. fold proxy internal egress.
  eapply triple_bind; [apply remove_proxy|]. intros [].
  eapply triple_bind; [apply remove_network_spec; [by left|done|done]|]. intros [].
  eapply triple_bind; [apply remove_network_spec; [by right|by intros w []|]|].
  { intros w [Hp Hi]. split; [done|]. cbn. by rewrite lookup_delete_ne. }
  intros []. eapply triple_conseq; [apply RemoveAll_directory| |done..].
  intros w [[Hk Ha] Hp]. split; [done|]. intros Hl. destruct (Ha Hl), (Hp Hl) as [[Hc Hi] He]. split; try lia; auto with lia.
Qed.

(** *** The sidecar *)
Definition networked (w : Host) : Prop := clean 3 w /\ ho_Networks w !! internal = Some true.

Lemma networked_effect {A} (f : Host -> Host * result A) :
  (forall w, networked w -> networked (fst (f w))) -> triple networked (effect f) (fun _ => networked) (fun _ => clean 3) kept.
Proof.
  intros Hf. apply triple_effect; [|by intros w _ []|intros w []; eauto]. intros w Hw. specialize (Hf w Hw).
  destruct (f w) as [w' [a|e]]; [done|]. by destruct Hf.
Qed.

Lemma create_internal : triple (clean 2) (create_network internal true) (fun _ => networked) (fun _ => clean 3) kept.
Proof.
  assert (forall w, clean 2 w -> clean 3 w) as Hm by (intros w; apply clean_mono; lia).
  apply triple_effect; [|auto|eauto]. intros w Hc. destruct (ho_Networks w !! internal) eqn:N; [auto|].
  split; [|apply lookup_insert_eq]. destruct (Hm w Hc) as [[] Ha]. split.
  - split; cbn; try done; [intros n Hi He; rewrite lookup_insert_ne; auto|].
    intros c Hcn. destruct (kp_agent0 c Hcn) as (_ & Hs & _). congruence.
  - intros Hl. destruct (Ha Hl). by split; auto with lia.
Qed.

Lemma create_egress : triple networked (create_network egress false) (fun _ => networked) (fun _ => clean 3) kept.
Proof.
  destruct names_apart as [_ Hie]. apply networked_effect. intros w [[[] Ha] Hn]. destruct (ho_Networks w !! egress) eqn:N; [by split|].
  split; [|cbn; by rewrite lookup_insert_ne]. split.
  - split; cbn; try done; [intros n Hi He; rewrite lookup_insert_ne; auto|].
    intros c Hc. rewrite lookup_insert_ne by done. auto.
  - intros Hl. destruct (Ha Hl). by split; auto with lia.
Qed.

Lemma networked_containers f w : (forall c, c <> proxy -> f (ho_Containers w) !! c = ho_Containers w !! c) ->
  networked w -> networked (set_containers f w).
Proof.
  destruct names_apart as [Hnp _]. intros Hf [[[] Ha] Hn]. split; [|done]. split.
  - split; cbn; try done; [intros c Hcn Hcp; rewrite Hf; auto|]. intros c. rewrite Hf by done. auto.
  - intros Hl. destruct (Ha Hl). split; try lia. intros _. cbn. rewrite Hf; auto.
Qed.

Lemma stable_await_healthy attempts : triple networked (await_healthy attempts) (fun _ => networked) (fun _ => clean 3) kept.
Proof.
  induction attempts as [|attempts IH]; [apply triple_fail; by intros w []|].
  eapply triple_bind; [eapply (triple_try _ _ (fun _ => networked))|].
  - apply triple_effect; [done|done|intros w []; eauto].
  - intros [[]|e]; [by apply triple_ret|apply IH].
Qed.

Lemma start_docker_spec path t : triple (clean 2) (start_docker r (sidecar name directory t) path)
  (fun p w => networked w /\ p = sidecar name directory t) (fun _ => clean 3) kept.
Proof.
  unfold start_docker. cbn [sidecar dp_name dp_network dp_egress]. fold proxy internal egress.
  eapply triple_bind; [apply triple_wrap, create_internal|intros []].
  eapply triple_bind; [apply triple_wrap, create_egress|intros []].
  eapply triple_bind; [apply triple_wrap, networked_effect|intros []].
  { intros w Hw. destruct (ho_Containers w !! proxy); [done|]. apply networked_containers; [|done].
    intros c Hc. by apply lookup_insert_ne. }
  eapply triple_bind; [apply triple_wrap, networked_effect|intros []].
  { intros w Hw. apply networked_containers; [|done]. intros c Hc. by apply lookup_alter_ne. }
  eapply triple_bind; [apply stable_await_healthy|intros []]. by apply triple_ret.
Qed.

Lemma startProxySidecar_spec marshal model limit : triple (clean 1) (startProxySidecar marshal r name directory model token limit)
  (fun p w => networked w /\ exists t, token = Ok t /\ p = sidecar name directory t) (fun _ => clean 1) kept.
Proof.
  destruct temporary_plain as [Ht Pt]. unfold startProxySidecar.
  assert (own directory) as Ho by (right; unfold within; by rewrite String.eqb_refl).
  eapply (triple_bind _ _ _ (fun t w => token = Ok t /\ clean 1 w)).
  { apply triple_of_result. by destruct token. }
  intros t. apply triple_pure. intros Ht'. eapply triple_bind; [apply (MkdirTemp_spec 1 directory Ho); (done || lia)|]. intros [].
  cbv zeta. eapply triple_bind; [eapply triple_on_error; [|apply RemoveAll_directory]|].
  - apply stable_bind; [apply stable_chmod|]. intros []. apply stable_in_directory; [|lia]. apply confined_write_file.
    unfold directory at 2. change "proxy.json" with (GoStrings.Join ["proxy.json"] "/").
    rewrite path_Join_absolute; [by apply within_absolute|done|done|done|]. by repeat constructor.
  - intros []. eapply triple_on_error; [|apply (Close_spec t)]. eapply triple_conseq; [apply start_docker_spec|done|..]; try done.
    intros p w [Hn ->]. eauto.
Qed.

(** *** The run *)
Lemma stable_read_output limit lines ended : forall outputBytes, stable 4 (read_output name limit lines ended outputBytes).
Proof.
  induction lines as [|line lines IH]; intros outputBytes; cbn [read_output].
  - destruct ended; [|apply stable_ret]. apply stable_bind; [apply stable_remove_agent|intros []; apply stable_fail].
  - destruct (_ <? _).
    + apply stable_bind; [apply stable_remove_agent|intros []; apply stable_fail].
    + apply stable_bind; [|done]. apply stable_on_error; [apply stable_emit|apply stable_remove_agent].
Qed.

Lemma start_agent t : token = Ok t -> triple networked
  (start_container name (dockerArguments r name workspace internal ("http://" +:+ proxy +:+ ":8080") t))
  (fun _ => clean 4) (fun _ => clean 3) kept.
Proof.
  intros Ht. apply triple_effect; [|by intros w _ []|intros w []; eauto]. intros w [Hc Hn].
  destruct (ho_Containers w !! name) eqn:N; [done|]. apply (clean_mono 3 4) in Hc as [[] Ha]; [|lia]. split.
  - split; cbn; try done; [intros c Hcn Hcp; rewrite lookup_insert_ne; auto|].
    intros c. rewrite lookup_insert_eq. intros [= <-]. split_and!; [done|done|eauto].
  - intros Hl. split; lia.
Qed.

Lemma Generate_spec marshal pipe execute input :
  triple (clean 0) (Generate marshal r workspace directory (Ok name) token pipe execute input)
    (fun _ => clean 0) (fun _ => clean 0) kept.
Proof.
  unfold Generate. destruct (_ || _); [by apply triple_fail|].
  eapply triple_bind; [apply materializeWorkspace_spec|]. intros [].
  eapply triple_deferred; [|apply RemoveAll_workspace].
  eapply (triple_bind _ _ _ (fun n w => n = name /\ clean 1 w)); [by apply triple_ret|]. intros n. apply triple_pure. intros ->.
  eapply triple_bind; [apply startProxySidecar_spec|]. intros p. apply triple_pure_r. intros (t & Ht & ->).
  cbn [sidecar dp_name dp_network dp_egress dp_token]. fold proxy internal.
  eapply triple_deferred; [|apply (Close_spec t)].
  eapply triple_bind; [apply (triple_of_result _ _ (fun _ => networked)); intros w Hw; destruct pipe; [exact Hw|by destruct Hw]|]. intros [].
  eapply triple_bind; [by apply start_agent|]. intros [].
  eapply triple_deferred; [|apply remove_agent].
  apply stable_bind; [apply stable_read_output|]. intros []. apply stable_of_result.
Qed.

(** *** The host before the job *)
Context (fresh : ho_Leaked h0 = false /\ vacant workspace h0 /\ vacant directory h0).

Lemma clean_start : clean 0 h0.
Proof.
  destruct free as (Fn & Fp & Fi & Fe), fresh as (_ & Fw & Fd). split; [split|split]; try done.
  intros c Hc. congruence.
Qed.

Lemma clean_end w : clean 0 w -> ho_Leaked w = false ->
  ho_Disk w = ho_Disk h0 /\ ho_Containers w = ho_Containers h0 /\ ho_Networks w = ho_Networks h0.
Proof.
  intros [Hk Ha] Hl. destruct (Ha Hl) as [An As Ad Aw], fresh as (_ & Fw & Fd), free as (Fn & Fp & Fi & Fe).
  destruct (As ltac:(lia)) as (Ap & Ai & Ae). pose proof Hk as [].
  assert (forall path, dk_Files (ho_Disk w) !! path = dk_Files (ho_Disk h0) !! path
            /\ (path ∈ dk_Directories (ho_Disk w) <-> path ∈ dk_Directories (ho_Disk h0))) as Hd.
  { intros path. destruct (within workspace path) eqn:W.
    { destruct (Aw ltac:(lia) path W) as [-> ?], (Fw path W) as [-> ?]. by split. }
    destruct (within directory path) eqn:D.
    { destruct (Ad ltac:(lia) path D) as [-> ?], (Fd path D) as [-> ?]. by split. }
    apply kp_disk0. intros [?|?]; congruence. }
  split; [|split].
  - destruct (ho_Disk w) as [ds fs], (ho_Disk h0) as [ds0 fs0]. f_equal; [apply set_eq|apply map_eq]; intros path; apply Hd.
  - apply containers_restored; auto with lia.
  - apply map_eq. intros n. destruct (decide (n = internal)) as [->|]; [congruence|].
    destruct (decide (n = egress)) as [->|]; [congruence|]. auto.
Qed.
End Job.

(** What a job needs of the host: the names it draws are free, and its two
    directories are new and apart. *)
Record fresh_job (name : string) (base temporary : list string) (h : Host) : Prop := mkFresh {
  fj_base : base <> [] /\ Forall plain base;
  fj_temporary : temporary <> [] /\ Forall plain temporary;
  fj_apart : forall path, within (absolute base) path = true -> within (absolute temporary) path = false;
  fj_unattached : attached (name +:+ "-internal") h = false /\ attached (name +:+ "-egress") h = false;
  fj_free : ho_Containers h !! name = None /\ ho_Containers h !! (name +:+ "-proxy") = None
    /\ ho_Networks h !! (name +:+ "-internal") = None /\ ho_Networks h !! (name +:+ "-egress") = None;
  fj_vacant : ho_Leaked h = false /\ vacant (absolute base) h /\ vacant (absolute temporary) h;
}.

(** C27. Whatever fails and wherever the process dies, an isolated job touches
    nothing on the host but its two directories, its two containers and its two
    networks; and the agent, while its container exists, is on one network, which
    is internal, has one directory of the host, the workspace of the job, a
    read-only root, no capabilities and no new privileges, and in its environment
    the token of the job and the address of the proxy beside constants: read from
    the [docker run] command line that it was started with, which has no other
    option.  The host is one where the names and directories that the job draws at
    random are not in use, and the image is a name that does not begin with a
    dash: docker would read it as an option. *)
Theorem agent_sandboxed marshal r name token base temporary pipe execute input h :
  fresh_job name base temporary h -> HasPrefix (rn_image r) "-" = false ->
  let internal := name +:+ "-internal" in
  let sandboxed w :=
    same_outside (own base temporary) (ho_Disk h) (ho_Disk w)
    /\ (forall c, c <> name -> c <> name +:+ "-proxy" -> ho_Containers w !! c = ho_Containers h !! c)
    /\ (forall n, n <> internal -> n <> name +:+ "-egress" -> ho_Networks w !! n = ho_Networks h !! n)
    /\ forall c, ho_Containers w !! name = Some c ->
         ho_Networks w !! internal = Some true
         /\ exists t, token = Ok t
            /\ jailed internal (absolute base) ("http://" +:+ name +:+ "-proxy:8080") t (rn_image r) (rn_arguments r) c in
  triple (fun w => w = h)
    (Generate marshal r (absolute base) (absolute temporary) (Ok name) token pipe execute input)
    (fun _ => sandboxed) (fun _ => sandboxed) sandboxed.
Proof.
  intros Hf Hi internal sandboxed. assert (forall w, kept r name token base temporary h w -> sandboxed w) as Hs.
  { intros w [Hd Hc Hn Ha]. split_and!; [done..|]. intros [networks arguments] Hw.
    destruct (Ha _ Hw) as (E & Ht & t & -> & Earguments). cbn in E, Earguments. subst arguments. split; [done|].
    exists t. split; [done|]. rewrite app_string_assoc in E |- *. by apply dockerArguments_jailed. }
  destruct Hf. eapply triple_conseq; [by apply (Generate_spec r name token base temporary h)|..]; try done.
  - intros w ->. by apply clean_start.
  - intros a w Hc. apply Hs. exact (clean_kept _ _ _ _ _ _ _ _ Hc).
  - intros e w Hc. apply Hs. exact (clean_kept _ _ _ _ _ _ _ _ Hc).
Qed.

(** C28. An isolated job that returns, with its usage or with any error, leaves
    the files, the containers and the networks of the host as they were, unless
    a removal command failed. *)
Theorem agent_leaves_nothing marshal r name token base temporary pipe execute input h :
  fresh_job name base temporary h ->
  let restored w := ho_Leaked w = false ->
    ho_Disk w = ho_Disk h /\ ho_Containers w = ho_Containers h /\ ho_Networks w = ho_Networks h in
  triple (fun w => w = h)
    (Generate marshal r (absolute base) (absolute temporary) (Ok name) token pipe execute input)
    (fun _ => restored) (fun _ => restored) (fun _ => True).
Proof.
  intros [] restored. eapply triple_conseq; [by apply (Generate_spec r name token base temporary h)|..]; try done.
  - intros w ->. by apply clean_start.
  - intros a w Hc Hl. by apply (clean_end r name token base temporary h).
  - intros e w Hc Hl. by apply (clean_end r name token base temporary h).
Qed.

(** ** A sample job *)
Module AgentJob.
Definition image : string := "agent@sha256:" +:+ GoStrings.Join (repeat "ab" 32) "".
Definition runner : Runner := mkRunner "docker" "/bin/proxy" image "codex" "gpt" "secret" ["exec"; "-"] 60.
Definition host : Host :=
  mkHost (mkDisk {["/tmp"]} {["/etc/hosts" := "localhost"]}) {["db" := mkContainer {["bridge"]} []]} {["bridge" := false]} [] false.
Definition execute (_ : list string) (_ : string) : Execution := mkExecution ["Hello"; "world"] None None None 30.
Definition input : BackendRequest := mkBackendRequest "gpt" "say hello" [mkBackendFile "src/a.go" [104; 105]] 4.
Definition job (fates : list Fate) : list Fate * Host * Outcome Usage :=
  Generate (fun _ => "{}") runner "/tmp/job" "/tmp/proxy" (Ok "job-1") (Ok "token") (Ok tt) execute input fates host.
(** The second line of the output cannot be handed over. *)
Definition broken_pipe : list Fate := repeat Proceed 17 ++ [Fault ErrDisconnected].

Lemma fresh_job_host : fresh_job "job-1" ["tmp"; "job"] ["tmp"; "proxy"] host.
Proof.
  assert (forall root, on_disk (ho_Disk host) root = false -> vacant root host) as Hv
    by (intros root Ho path Hp; exact (on_disk_false _ _ Ho path Hp)).
  split.
  - split; [discriminate|]. by repeat constructor.
  - split; [discriminate|]. by repeat constructor.
  - intros path Hw. apply orb_true_iff in Hw as [->%String.eqb_eq|Hw%HasPrefix_split]; [reflexivity|]. rewrite Hw. reflexivity.
  - split; vm_compute; reflexivity.
  - split_and!; vm_compute; reflexivity.
  - split_and!; [reflexivity|apply Hv; vm_compute; reflexivity|apply Hv; vm_compute; reflexivity].
Qed.
End AgentJob.

Lemma agent_sandboxed_witness :
  let w := snd (fst (AgentJob.job (repeat Proceed 17 ++ [Halt]))) in
  (exists c, ho_Containers w !! "job-1" = Some c
     /\ jailed "job-1-internal" "/tmp/job" "http://job-1-proxy:8080" "token" AgentJob.image ["exec"; "-"] c)
  /\ ho_Containers w !! "db" = ho_Containers AgentJob.host !! "db".
Proof.
  pose proof (agent_sandboxed (fun _ => "{}") AgentJob.runner "job-1" (Ok "token") ["tmp"; "job"] ["tmp"; "proxy"] (Ok tt)
    AgentJob.execute AgentJob.input AgentJob.host AgentJob.fresh_job_host eq_refl
    (repeat Proceed 17 ++ [Halt]) AgentJob.host eq_refl) as H.
  change (absolute ["tmp"; "job"]) with "/tmp/job" in H. change (absolute ["tmp"; "proxy"]) with "/tmp/proxy" in H.
  fold (AgentJob.job (repeat Proceed 17 ++ [Halt])) in H. cbv zeta.
  set (w := snd (fst (AgentJob.job (repeat Proceed 17 ++ [Halt])))).
  assert (forall c, c <> "job-1" -> c <> "job-1-proxy" -> ho_Containers w !! c = ho_Containers AgentJob.host !! c) as Hc
    by (unfold w; destruct (AgentJob.job _) as [[fates w'] [a|e|]]; apply H).
  assert (forall c, ho_Containers w !! "job-1" = Some c -> exists t, Ok "token" = Ok t
    /\ jailed "job-1-internal" "/tmp/job" "http://job-1-proxy:8080" t AgentJob.image ["exec"; "-"] c) as Ha
    by (unfold w; destruct (AgentJob.job _) as [[fates w'] [a|e|]]; intros c Hw; destruct H as (_ & _ & _ & H); apply (H c Hw)).
  split; [|by apply Hc].
  destruct (ho_Containers w !! "job-1") as [c|] eqn:E; [|vm_compute in E; discriminate].
  exists c. split; [reflexivity|]. destruct (Ha c eq_refl) as (t & [= <-] & Hj). exact Hj.
Defined.

Lemma agent_leaves_nothing_witness :
  let w := snd (fst (AgentJob.job AgentJob.broken_pipe)) in
  snd (AgentJob.job AgentJob.broken_pipe) = Failed ErrDisconnected
  /\ ho_Emitted w = ["Hello" +:+ str [10]] /\ ho_Containers w = ho_Containers AgentJob.host.
Proof.
  pose proof (agent_leaves_nothing (fun _ => "{}") AgentJob.runner "job-1" (Ok "token") ["tmp"; "job"] ["tmp"; "proxy"] (Ok tt)
    AgentJob.execute AgentJob.input AgentJob.host AgentJob.fresh_job_host AgentJob.broken_pipe AgentJob.host eq_refl) as H.
  change (absolute ["tmp"; "job"]) with "/tmp/job" in H. change (absolute ["tmp"; "proxy"]) with "/tmp/proxy" in H.
  assert (snd (AgentJob.job AgentJob.broken_pipe) = Failed ErrDisconnected) as Hf by (vm_compute; reflexivity).
  cbv zeta. split; [exact Hf|]. split; [vm_compute; reflexivity|].
  assert (ho_Leaked (snd (fst (AgentJob.job AgentJob.broken_pipe))) = false) as Hl by (vm_compute; reflexivity).
  unfold AgentJob.job in *. destruct (Generate _ _ _ _ _ _ _ _ _ _ _) as [[fates w] [a|e|]]; try discriminate.
  exact (proj1 (proj2 (H Hl))).
Defined.
