(* ===== verification/ClientConfig.v ===== *)
(** * The provider's configuration file (cli/internal/config/config.go)

    [Load] reads a strict JSON document; [Save] writes it next to the file and
    renames it over the file, so that a failure or a crash leaves either the old
    or the new configuration.  [marshal] writes a JSON value and [parse] reads
    the first value of a text; [temporary] is the path [os.CreateTemp] draws. *)

From S2P Require Import Prelude GoStrings Wire Receipt Messages Proposals Effects Disk.
From stdpp Require Import gmap strings.
Open Scope string_scope.
Open Scope list_scope.
Open Scope Z_scope.

Record Backend := mkBackend {
  bk_Name : string; bk_OfferID : string; bk_Kind : string; bk_URL : string; bk_Model : string; bk_PriceVersion : Z;
  bk_Enabled : bool; bk_Image : string;
}.
Record Config := mkConfig {
  cf_ServerURL : string; cf_AccountID : string; cf_MachineID : string; cf_ChainID : Z; cf_ContractAddress : string;
  cf_SignerAddress : string; cf_Backends : list Backend;
}.

#[export] Instance Backend_eq_dec : EqDecision Backend.
Proof. solve_decision. Defined.

Definition EffectiveOfferID (b : Backend) : string :=
  if String.eqb (bk_OfferID b) "" then bk_Name b else bk_OfferID b.

(** ** The document *)
Definition zero_backend : Backend := mkBackend "" "" "" "" "" 0 false "".
Definition backend_fields : list (string * setter Backend) :=
  [ ("name", set_with as_string (fun v b => mkBackend v (bk_OfferID b) (bk_Kind b) (bk_URL b) (bk_Model b) (bk_PriceVersion b) (bk_Enabled b) (bk_Image b)));
    ("offer_id", set_with as_string (fun v b => mkBackend (bk_Name b) v (bk_Kind b) (bk_URL b) (bk_Model b) (bk_PriceVersion b) (bk_Enabled b) (bk_Image b)));
    ("kind", set_with as_string (fun v b => mkBackend (bk_Name b) (bk_OfferID b) v (bk_URL b) (bk_Model b) (bk_PriceVersion b) (bk_Enabled b) (bk_Image b)));
    ("url", set_with as_string (fun v b => mkBackend (bk_Name b) (bk_OfferID b) (bk_Kind b) v (bk_Model b) (bk_PriceVersion b) (bk_Enabled b) (bk_Image b)));
    ("model", set_with as_string (fun v b => mkBackend (bk_Name b) (bk_OfferID b) (bk_Kind b) (bk_URL b) v (bk_PriceVersion b) (bk_Enabled b) (bk_Image b)));
    ("price_version", set_with (as_uint 64) (fun v b => mkBackend (bk_Name b) (bk_OfferID b) (bk_Kind b) (bk_URL b) (bk_Model b) v (bk_Enabled b) (bk_Image b)));
    ("enabled", set_with as_bool (fun v b => mkBackend (bk_Name b) (bk_OfferID b) (bk_Kind b) (bk_URL b) (bk_Model b) (bk_PriceVersion b) v (bk_Image b)));
    ("image", set_with as_string (fun v b => mkBackend (bk_Name b) (bk_OfferID b) (bk_Kind b) (bk_URL b) (bk_Model b) (bk_PriceVersion b) (bk_Enabled b) v)) ].
Definition as_backends (v : json) : option (list Backend) :=
  match v with JArr items => mapM (fun item => decode_struct backend_fields item zero_backend) items | _ => None end.
Definition zero_config : Config := mkConfig "" "" "" 0 "" "" [].
Definition config_fields : list (string * setter Config) :=
  [ ("server_url", set_with as_string (fun v c => mkConfig v (cf_AccountID c) (cf_MachineID c) (cf_ChainID c) (cf_ContractAddress c) (cf_SignerAddress c) (cf_Backends c)));
    ("account_id", set_with as_string (fun v c => mkConfig (cf_ServerURL c) v (cf_MachineID c) (cf_ChainID c) (cf_ContractAddress c) (cf_SignerAddress c) (cf_Backends c)));
    ("machine_id", set_with as_string (fun v c => mkConfig (cf_ServerURL c) (cf_AccountID c) v (cf_ChainID c) (cf_ContractAddress c) (cf_SignerAddress c) (cf_Backends c)));
    ("chain_id", set_with (as_uint 64) (fun v c => mkConfig (cf_ServerURL c) (cf_AccountID c) (cf_MachineID c) v (cf_ContractAddress c) (cf_SignerAddress c) (cf_Backends c)));
    ("contract_address", set_with as_string (fun v c => mkConfig (cf_ServerURL c) (cf_AccountID c) (cf_MachineID c) (cf_ChainID c) v (cf_SignerAddress c) (cf_Backends c)));
    ("signer_address", set_with as_string (fun v c => mkConfig (cf_ServerURL c) (cf_AccountID c) (cf_MachineID c) (cf_ChainID c) (cf_ContractAddress c) v (cf_Backends c)));
    ("backends", set_with as_backends (fun v c => mkConfig (cf_ServerURL c) (cf_AccountID c) (cf_MachineID c) (cf_ChainID c) (cf_ContractAddress c) (cf_SignerAddress c) v)) ].

Definition backend_json (b : Backend) : json :=
  JObj (member "name" (jstr (bk_Name b)) ++ omit_if (String.eqb (bk_OfferID b) "") "offer_id" (jstr (bk_OfferID b))
        ++ member "kind" (jstr (bk_Kind b)) ++ member "url" (jstr (bk_URL b)) ++ member "model" (jstr (bk_Model b))
        ++ omit_if (bk_PriceVersion b =? 0) "price_version" (num (bk_PriceVersion b))
        ++ member "enabled" (JBool (bk_Enabled b)) ++ omit_if (String.eqb (bk_Image b) "") "image" (jstr (bk_Image b))).
Definition config_json (c : Config) : json :=
  JObj (member "server_url" (jstr (cf_ServerURL c)) ++ member "account_id" (jstr (cf_AccountID c))
        ++ member "machine_id" (jstr (cf_MachineID c)) ++ omit_if (cf_ChainID c =? 0) "chain_id" (num (cf_ChainID c))
        ++ omit_if (String.eqb (cf_ContractAddress c) "") "contract_address" (jstr (cf_ContractAddress c))
        ++ omit_if (String.eqb (cf_SignerAddress c) "") "signer_address" (jstr (cf_SignerAddress c))
        ++ omit_if (bool_decide (cf_Backends c = [])) "backends" (JArr (map backend_json (cf_Backends c)))).

Definition incomplete (c : Config) : bool :=
  String.eqb (cf_ServerURL c) "" || String.eqb (cf_AccountID c) "" || String.eqb (cf_MachineID c) "".

(** ** Files *)
Section File.
Context (parse : string -> option json) (marshal : json -> string).

Definition decode_config (text : string) : result Config :=
  c ← of_option (parse text ≫= fun v => decode_struct config_fields v zero_config) ErrEncode;
  _ ← fail_if (incomplete c) (ErrNew "server, account, and machine are required");
  Ok c.
Definition Load (path : string) : Eff Disk Config := text ← read_file path; of_result (decode_config text).

Definition Save (path temporary : string) (c : Config) : Eff Disk unit :=
  if incomplete c then fail (ErrNew "server, account, and machine are required")
  else
    _ ← mkdir_all (path_Dir path);
    replace_file temporary (Ok (marshal (config_json c))) (rename temporary path).

(** ** The document is read back *)
Definition backend_representable (b : Backend) : Prop :=
  Forall utf8 [bk_Name b; bk_OfferID b; bk_Kind b; bk_URL b; bk_Model b; bk_Image b] /\ uint64 (bk_PriceVersion b).
Definition config_representable (c : Config) : Prop :=
  Forall utf8 [cf_ServerURL c; cf_AccountID c; cf_MachineID c; cf_ContractAddress c; cf_SignerAddress c]
  /\ uint64 (cf_ChainID c) /\ Forall backend_representable (cf_Backends c).

Lemma as_string_utf8 s : utf8 s -> as_string (jstr s) = Some s.
Proof. apply as_string_jstr. Qed.
Lemma empty_text s : String.eqb s "" = true -> "" = s.
Proof. by intros ->%String.eqb_eq. Qed.
Lemma zero_number n : (n =? 0) = true -> 0 = n.
Proof. by intros ->%Z.eqb_eq. Qed.

(** The projections of the structs decoded so far. *)
Ltac projections :=
  cbv beta; cbn [bk_Name bk_OfferID bk_Kind bk_URL bk_Model bk_PriceVersion bk_Enabled bk_Image
    cf_ServerURL cf_AccountID cf_MachineID cf_ChainID cf_ContractAddress cf_SignerAddress cf_Backends].
Ltac text := match goal with |- as_string (jstr ?s) = _ => exact (as_string_utf8 s ltac:(assumption)) end.
Ltac uint := match goal with |- as_uint 64 (num ?n) = _ => exact (as_uint_num 64 n ltac:(assumption) ltac:(unfold uint64 in *; lia)) end.
Ltac decode_text fields := erewrite (decode_member fields); [|reflexivity|discriminate|text]; projections.
Ltac omit_text fields :=
  erewrite (decode_omit fields); [|reflexivity|discriminate|text|let E := fresh in intros E%empty_text; rewrite <- E; reflexivity]; projections.
Ltac omit_number fields :=
  erewrite (decode_omit fields); [|reflexivity|discriminate|uint|let E := fresh in intros E%zero_number; rewrite <- E; reflexivity]; projections.

Lemma decode_backend b : backend_representable b -> decode_struct backend_fields (backend_json b) zero_backend = Some b.
Proof.
  destruct b as [name offer kind url model version enabled image]. unfold backend_representable, backend_json, zero_backend.
  cbn [decode_struct bk_Name bk_OfferID bk_Kind bk_URL bk_Model bk_PriceVersion bk_Enabled bk_Image].
  rewrite !Forall_cons. intros (Hs & Hv). destruct_and?. rewrite <- (app_nil_r (omit_if _ "image" _)).
  decode_text backend_fields. omit_text backend_fields. do 3 decode_text backend_fields. omit_number backend_fields.
  erewrite (decode_member backend_fields); [|reflexivity|done|reflexivity]. projections. omit_text backend_fields. done.
Qed.

Lemma as_backends_of l : Forall backend_representable l -> as_backends (JArr (map backend_json l)) = Some l.
Proof.
  cbn [as_backends]. induction 1 as [|b l Hb _ IH]; [done|]. cbn [map mapM]. rewrite decode_backend, IH by done. done.
Qed.

Lemma decode_config_json c : config_representable c -> decode_struct config_fields (config_json c) zero_config = Some c.
Proof.
  destruct c as [server account machine chain contract signer backends]. unfold config_representable, config_json, zero_config.
  cbn [decode_struct cf_ServerURL cf_AccountID cf_MachineID cf_ChainID cf_ContractAddress cf_SignerAddress cf_Backends].
  rewrite !Forall_cons. intros (Hs & Hn & Hb). destruct_and?. rewrite <- (app_nil_r (omit_if _ "backends" _)).
  do 3 decode_text config_fields. omit_number config_fields. do 2 omit_text config_fields.
  erewrite (decode_omit config_fields); [|reflexivity|done|by apply as_backends_of|by intros ->%bool_decide_eq_true].
  done.
Qed.

(** ** The file is never torn *)
Lemma Save_config_spec path temporary c d : path <> temporary ->
  let encoded := Ok (marshal (config_json c)) in
  triple (fun w => w = d) (Save path temporary c)
    (fun _ w => written path encoded w) (fun _ => kept temporary d)
    (fun w => incomplete c = false /\ replaced path temporary encoded d w \/ kept temporary d w).
Proof.
  intros Hne encoded. unfold Save. destruct (incomplete c); [apply triple_fail; by intros w -> other _|].
  eapply triple_bind.
  { eapply triple_conseq; [apply (mkdir_all_kept temporary d)|done|intros a w Hw; exact Hw|done|auto]. }
  intros []. eapply triple_conseq; [by apply (replace_file_spec path temporary encoded d Hne)|done|by intros a w []|done|auto].
Qed.

(** What [Load] reads at a path. *)
Definition loads (d : Disk) (path : string) : result Config :=
  text ← of_option (dk_Files d !! path) ErrNotExist; decode_config text.

Lemma Load_loads path d : Load path [] d = ([], d, match loads d path with Ok c => Done c | Err e => Failed e end).
Proof.
  unfold Load, loads, read_file, effect, mbind, eff_bind, result_bind. destruct (dk_Files d !! path); cbn; [|done].
  by destruct (decode_config s).
Qed.

(** The provider's configuration survives failures and crashes: whatever
    file operation of [Save] fails, the old configuration is still the one that
    loads; when [Save] returns, the new one loads, exactly as it was; and after
    a crash one of the two does. *)
Theorem configuration_atomic path temporary c d :
  parse (marshal (config_json c)) = Some (config_json c) -> path <> temporary -> config_representable c ->
  triple (fun w => w = d) (Save path temporary c)
    (fun _ w => loads w path = Ok c) (fun _ w => loads w path = loads d path)
    (fun w => loads w path = loads d path \/ incomplete c = false /\ loads w path = Ok c).
Proof.
  intros Hparse Hne Hr. destruct (incomplete c) eqn:I.
  { unfold Save. rewrite I. apply triple_fail. by intros w ->. }
  assert (forall w, dk_Files w !! path = Some (marshal (config_json c)) -> loads w path = Ok c) as Hnew.
  { intros w E. unfold loads. rewrite E. change (decode_config (marshal (config_json c)) = Ok c). unfold decode_config.
    rewrite Hparse. change (Some ?v ≫= ?f) with (f v). cbv beta. rewrite decode_config_json by done. cbn. by rewrite I. }
  assert (forall w, dk_Files w !! path = dk_Files d !! path -> loads w path = loads d path) as Hold
    by (intros w E; unfold loads; by rewrite E).
  eapply triple_conseq; [by apply (Save_config_spec path temporary c d)|done|..].
  - intros a w (text & [= <-] & Hw). by apply Hnew.
  - intros e w Hk. by apply Hold, Hk.
  - intros w [[_ Hs]|Hk]; [|left; by apply Hold, Hk].
    destruct (Hs path Hne) as [E|[_ (text & [= <-] & E)]]; [by left; apply Hold|by right; split; [|apply Hnew]].
Qed.
End File.

(** ** A sample configuration *)
Module Saved.
Definition path : string := "/home/u/config.json".
Definition temporary : string := "/home/u/.myference-config-1".
Definition old : Config := mkConfig "https://api" "a1" "m1" 10143 "" "" [].
Definition new : Config :=
  mkConfig "https://api" "a1" "m1" 10143 "0xcc" "" [mkBackend "local" "o1" "ollama" "http://127.0.0.1:11434" "llama" 3 true ""].
Definition parse (text : string) : option json :=
  if String.eqb text "{old}" then Some (config_json old) else if String.eqb text "{new}" then Some (config_json new) else None.
Definition marshal (v : json) : string := "{new}".
Definition disk : Disk := mkDisk ∅ {[path := "{old}"]}.
Definition after (fates : list Fate) : Disk := snd (fst (Save marshal path temporary new fates disk)).
End Saved.

Lemma configuration_atomic_witness :
  loads Saved.parse (Saved.after []) Saved.path = Ok Saved.new
  /\ loads Saved.parse (Saved.after [Proceed; Proceed; Proceed; Fault ErrDisconnected]) Saved.path = Ok Saved.old.
Proof.
  assert (config_representable Saved.new) as Hr by (repeat constructor; vm_compute; intuition discriminate).
  pose proof (configuration_atomic Saved.parse Saved.marshal Saved.path Saved.temporary Saved.new Saved.disk
    eq_refl ltac:(discriminate) Hr) as H.
  split.
  - exact (H [] _ eq_refl).
  - assert (loads Saved.parse Saved.disk Saved.path = Ok Saved.old) as <- by (vm_compute; reflexivity).
    exact (H [Proceed; Proceed; Proceed; Fault ErrDisconnected] _ eq_refl).
Defined.
