(* ===== verification/AccountClient.v ===== *)
(** * The provider's client of the broker (cli/internal/account)

    Requests and responses are those of Http.v, so that the handlers of the
    broker can stand behind the client: a transport takes a request and the
    state of the other side to a response or a network error.  [fits] tells
    whether the text of a body is within the 64 KiB that are read, and
    [status_text] is the text of a status line. *)

From S2P Require Import Prelude GoStrings GoTime Wire Receipt Messages Proposals Anthropic Auth Http AuthHttp ProviderAccount Actions Backends.
From stdpp Require Import gmap strings.
Open Scope string_scope.
Open Scope list_scope.
Open Scope Z_scope.

Definition ErrPending : error := ErrNew "device authorization pending".
Definition ErrExpired : error := ErrNew "device authorization expired".
Definition ErrConsumed : error := ErrNew "device authorization consumed".

(** ** Data *)
Record ClientAuthorization := mkClientAuthorization {
  ca_DeviceCode : string; ca_UserCode : string; ca_VerificationURI : string; ca_ExpiresAt : Z; ca_ChainID : Z;
  ca_ContractAddress : string;
}.
Record ClientMachine := mkClientMachine { cm_ID : string; cm_AccountID : string; cm_Name : string; cm_SignerAddress : string }.
Record ClientToken := mkClientToken { ct_Machine : ClientMachine; ct_Token : string }.
(** [account.ProviderAction]: what the CLI reads of an action. *)
Record ClientAction := mkClientAction {
  cn_ID : string; cn_Kind : string; cn_Status : string; cn_WalletAddress : string; cn_AmountWei : string;
  cn_Offers : list ProviderActionOffer; cn_TransactionHashes : list string; cn_Versions : gmap string Z; cn_ExpiresAt : Z;
}.

Definition authorization_fields : list (string * setter ClientAuthorization) :=
  [ ("device_code", set_with as_string (fun v a => mkClientAuthorization v (ca_UserCode a) (ca_VerificationURI a) (ca_ExpiresAt a) (ca_ChainID a) (ca_ContractAddress a)));
    ("user_code", set_with as_string (fun v a => mkClientAuthorization (ca_DeviceCode a) v (ca_VerificationURI a) (ca_ExpiresAt a) (ca_ChainID a) (ca_ContractAddress a)));
    ("verification_uri", set_with as_string (fun v a => mkClientAuthorization (ca_DeviceCode a) (ca_UserCode a) v (ca_ExpiresAt a) (ca_ChainID a) (ca_ContractAddress a)));
    ("expires_at", set_with as_time (fun v a => mkClientAuthorization (ca_DeviceCode a) (ca_UserCode a) (ca_VerificationURI a) v (ca_ChainID a) (ca_ContractAddress a)));
    ("chain_id", set_with (as_uint 64) (fun v a => mkClientAuthorization (ca_DeviceCode a) (ca_UserCode a) (ca_VerificationURI a) (ca_ExpiresAt a) v (ca_ContractAddress a)));
    ("contract_address", set_with as_string (fun v a => mkClientAuthorization (ca_DeviceCode a) (ca_UserCode a) (ca_VerificationURI a) (ca_ExpiresAt a) (ca_ChainID a) v)) ].
Definition machine_fields : list (string * setter ClientMachine) :=
  [ ("id", set_with as_string (fun v m => mkClientMachine v (cm_AccountID m) (cm_Name m) (cm_SignerAddress m)));
    ("account_id", set_with as_string (fun v m => mkClientMachine (cm_ID m) v (cm_Name m) (cm_SignerAddress m)));
    ("name", set_with as_string (fun v m => mkClientMachine (cm_ID m) (cm_AccountID m) v (cm_SignerAddress m)));
    ("signer_address", set_with as_string (fun v m => mkClientMachine (cm_ID m) (cm_AccountID m) (cm_Name m) v)) ].
Definition token_fields : list (string * setter ClientToken) :=
  [ ("machine", nested machine_fields ct_Machine (fun v t => mkClientToken v (ct_Token t)));
    ("token", set_with as_string (fun v t => mkClientToken (ct_Machine t) v)) ].
(** A JSON object as [map[string]uint64]: a null value is zero. *)
Definition as_version (v : json) : option Z := match v with JNull => Some 0 | _ => as_uint 64 v end.
Definition as_versions (v : json) : option (gmap string Z) :=
  match v with
  | JObj members =>
      foldr (fun m acc => versions ← acc; n ← as_version (snd m);
                          Some (match versions !! fst m with Some _ => versions | None => <[fst m := n]> versions end))
        (Some ∅) members
  | JNull => Some ∅
  | _ => None
  end.
Definition as_client_offers (v : json) : option (list ProviderActionOffer) :=
  match v with
  | JArr items => mapM (fun item => decode_loose offer_input_fields item zero_action_offer) items
  | _ => None
  end.
Definition action_fields : list (string * setter ClientAction) :=
  [ ("id", set_with as_string (fun v a => mkClientAction v (cn_Kind a) (cn_Status a) (cn_WalletAddress a) (cn_AmountWei a) (cn_Offers a) (cn_TransactionHashes a) (cn_Versions a) (cn_ExpiresAt a)));
    ("kind", set_with as_string (fun v a => mkClientAction (cn_ID a) v (cn_Status a) (cn_WalletAddress a) (cn_AmountWei a) (cn_Offers a) (cn_TransactionHashes a) (cn_Versions a) (cn_ExpiresAt a)));
    ("status", set_with as_string (fun v a => mkClientAction (cn_ID a) (cn_Kind a) v (cn_WalletAddress a) (cn_AmountWei a) (cn_Offers a) (cn_TransactionHashes a) (cn_Versions a) (cn_ExpiresAt a)));
    ("wallet_address", set_with as_string (fun v a => mkClientAction (cn_ID a) (cn_Kind a) (cn_Status a) v (cn_AmountWei a) (cn_Offers a) (cn_TransactionHashes a) (cn_Versions a) (cn_ExpiresAt a)));
    ("amount_wei", set_with as_string (fun v a => mkClientAction (cn_ID a) (cn_Kind a) (cn_Status a) (cn_WalletAddress a) v (cn_Offers a) (cn_TransactionHashes a) (cn_Versions a) (cn_ExpiresAt a)));
    ("offers", set_with as_client_offers (fun v a => mkClientAction (cn_ID a) (cn_Kind a) (cn_Status a) (cn_WalletAddress a) (cn_AmountWei a) v (cn_TransactionHashes a) (cn_Versions a) (cn_ExpiresAt a)));
    ("transaction_hashes", set_with as_string_slice (fun v a => mkClientAction (cn_ID a) (cn_Kind a) (cn_Status a) (cn_WalletAddress a) (cn_AmountWei a) (cn_Offers a) v (cn_Versions a) (cn_ExpiresAt a)));
    ("versions", set_with as_versions (fun v a => mkClientAction (cn_ID a) (cn_Kind a) (cn_Status a) (cn_WalletAddress a) (cn_AmountWei a) (cn_Offers a) (cn_TransactionHashes a) v (cn_ExpiresAt a)));
    ("expires_at", set_with as_time (fun v a => mkClientAction (cn_ID a) (cn_Kind a) (cn_Status a) (cn_WalletAddress a) (cn_AmountWei a) (cn_Offers a) (cn_TransactionHashes a) (cn_Versions a) v)) ].
Definition zero_action : ClientAction := mkClientAction "" "" "" "" "" [] [] ∅ zero_time.

Definition offer_view_fields : list (string * setter EditableOffer) :=
  [ ("offer_id", set_with as_string (fun v o => mkEditableOffer v (eo_Model o) (eo_BackendKind o) (eo_Capabilities o) (eo_MeteringMode o) (eo_Version o) (eo_InputPerMillionWei o) (eo_OutputPerMillionWei o) (eo_ComputePerSecondWei o)));
    ("model", set_with as_string (fun v o => mkEditableOffer (eo_OfferID o) v (eo_BackendKind o) (eo_Capabilities o) (eo_MeteringMode o) (eo_Version o) (eo_InputPerMillionWei o) (eo_OutputPerMillionWei o) (eo_ComputePerSecondWei o)));
    ("backend_kind", set_with as_string (fun v o => mkEditableOffer (eo_OfferID o) (eo_Model o) v (eo_Capabilities o) (eo_MeteringMode o) (eo_Version o) (eo_InputPerMillionWei o) (eo_OutputPerMillionWei o) (eo_ComputePerSecondWei o)));
    ("capabilities", set_with as_string_slice (fun v o => mkEditableOffer (eo_OfferID o) (eo_Model o) (eo_BackendKind o) v (eo_MeteringMode o) (eo_Version o) (eo_InputPerMillionWei o) (eo_OutputPerMillionWei o) (eo_ComputePerSecondWei o)));
    ("metering_mode", set_with as_string (fun v o => mkEditableOffer (eo_OfferID o) (eo_Model o) (eo_BackendKind o) (eo_Capabilities o) v (eo_Version o) (eo_InputPerMillionWei o) (eo_OutputPerMillionWei o) (eo_ComputePerSecondWei o)));
    ("version", set_with (as_uint 64) (fun v o => mkEditableOffer (eo_OfferID o) (eo_Model o) (eo_BackendKind o) (eo_Capabilities o) (eo_MeteringMode o) v (eo_InputPerMillionWei o) (eo_OutputPerMillionWei o) (eo_ComputePerSecondWei o)));
    ("input_per_million_wei", set_with as_string (fun v o => mkEditableOffer (eo_OfferID o) (eo_Model o) (eo_BackendKind o) (eo_Capabilities o) (eo_MeteringMode o) (eo_Version o) v (eo_OutputPerMillionWei o) (eo_ComputePerSecondWei o)));
    ("output_per_million_wei", set_with as_string (fun v o => mkEditableOffer (eo_OfferID o) (eo_Model o) (eo_BackendKind o) (eo_Capabilities o) (eo_MeteringMode o) (eo_Version o) (eo_InputPerMillionWei o) v (eo_ComputePerSecondWei o)));
    ("compute_per_second_wei", set_with as_string (fun v o => mkEditableOffer (eo_OfferID o) (eo_Model o) (eo_BackendKind o) (eo_Capabilities o) (eo_MeteringMode o) (eo_Version o) (eo_InputPerMillionWei o) (eo_OutputPerMillionWei o) v)) ].
Definition zero_offer_view : EditableOffer := mkEditableOffer "" "" "" [] "" 0 "" "" "".
Definition as_offer_views (v : json) : option (list EditableOffer) :=
  match v with JArr items => mapM (fun item => decode_loose offer_view_fields item zero_offer_view) items | _ => None end.

(** [account.ProviderAccount] has the fields of the broker's view. *)
Definition set_view_texts (contract explorer wallet minimum bond claimable earnings : string) (v : ProviderAccountView) :=
  mkProviderAccountView (pv_ChainID v) contract explorer (pv_Confirmations v) wallet minimum bond claimable earnings
    (pv_BondExitAvailableAt v) (pv_Offers v).
Definition set_view_numbers (chain confirmations exit : Z) (v : ProviderAccountView) :=
  mkProviderAccountView chain (pv_ContractAddress v) (pv_ExplorerURL v) confirmations (pv_WalletAddress v) (pv_MinimumBondWei v)
    (pv_ProviderBondWei v) (pv_ClaimableWei v) (pv_ProviderEarningsWei v) exit (pv_Offers v).
Definition set_view_offers (offers : list EditableOffer) (v : ProviderAccountView) :=
  mkProviderAccountView (pv_ChainID v) (pv_ContractAddress v) (pv_ExplorerURL v) (pv_Confirmations v) (pv_WalletAddress v)
    (pv_MinimumBondWei v) (pv_ProviderBondWei v) (pv_ClaimableWei v) (pv_ProviderEarningsWei v) (pv_BondExitAvailableAt v) offers.
Definition account_fields : list (string * setter ProviderAccountView) :=
  let text f := set_with as_string (fun s v => f s v) in
  [ ("chain_id", set_with (as_uint 64) (fun n v => set_view_numbers n (pv_Confirmations v) (pv_BondExitAvailableAt v) v));
    ("contract_address", text (fun s v => set_view_texts s (pv_ExplorerURL v) (pv_WalletAddress v) (pv_MinimumBondWei v) (pv_ProviderBondWei v) (pv_ClaimableWei v) (pv_ProviderEarningsWei v) v));
    ("explorer_url", text (fun s v => set_view_texts (pv_ContractAddress v) s (pv_WalletAddress v) (pv_MinimumBondWei v) (pv_ProviderBondWei v) (pv_ClaimableWei v) (pv_ProviderEarningsWei v) v));
    ("confirmations", set_with (as_uint 64) (fun n v => set_view_numbers (pv_ChainID v) n (pv_BondExitAvailableAt v) v));
    ("wallet_address", text (fun s v => set_view_texts (pv_ContractAddress v) (pv_ExplorerURL v) s (pv_MinimumBondWei v) (pv_ProviderBondWei v) (pv_ClaimableWei v) (pv_ProviderEarningsWei v) v));
    ("minimum_bond_wei", text (fun s v => set_view_texts (pv_ContractAddress v) (pv_ExplorerURL v) (pv_WalletAddress v) s (pv_ProviderBondWei v) (pv_ClaimableWei v) (pv_ProviderEarningsWei v) v));
    ("provider_bond_wei", text (fun s v => set_view_texts (pv_ContractAddress v) (pv_ExplorerURL v) (pv_WalletAddress v) (pv_MinimumBondWei v) s (pv_ClaimableWei v) (pv_ProviderEarningsWei v) v));
    ("claimable_wei", text (fun s v => set_view_texts (pv_ContractAddress v) (pv_ExplorerURL v) (pv_WalletAddress v) (pv_MinimumBondWei v) (pv_ProviderBondWei v) s (pv_ProviderEarningsWei v) v));
    ("provider_earnings_wei", text (fun s v => set_view_texts (pv_ContractAddress v) (pv_ExplorerURL v) (pv_WalletAddress v) (pv_MinimumBondWei v) (pv_ProviderBondWei v) (pv_ClaimableWei v) s v));
    ("bond_exit_available_at", set_with (as_uint 64) (fun n v => set_view_numbers (pv_ChainID v) (pv_Confirmations v) n v));
    ("offers", set_with as_offer_views set_view_offers) ].
Definition zero_account : ProviderAccountView := mkProviderAccountView 0 "" "" 0 "" "" "" "" "" 0 [].

(** [json.Marshal] of a [ProviderActionInput]. *)
Definition action_input_json (i : ProviderActionInput) : json :=
  JObj (member "kind" (jstr (pi_Kind i)) ++ omit_if (String.eqb (pi_AmountWei i) "") "amount_wei" (jstr (pi_AmountWei i))
        ++ omit_if (bool_decide (pi_Offers i = [])) "offers" (JArr (map action_offer_json (pi_Offers i)))).

(** [NewClient] *)
Definition NewClient (parsed : option Url) (baseURL : string) : result string :=
  let invalid := Err (ErrNew "server URL must use HTTPS except on loopback") in
  match parsed with
  | None => invalid
  | Some u =>
      if String.eqb (ur_Host u) "" || negb (String.eqb (ur_Scheme u) "https")
                                      && negb (String.eqb (ur_Scheme u) "http" && loopback (ur_Hostname u))
      then invalid else Ok (TrimSuffix baseURL "/")
  end.

(** ** Requests *)
Section Client.
Context {W : Type} (send : Request -> W -> W * result Response) (fits : json -> bool) (status_text : Z -> string)
        (error_text : error -> string).

Definition body_text (b : Body) : string :=
  match b with Text t => t | ErrorText e => error_text e | _ => "" end.
(** What [request] makes of a response. *)
Definition interpret {T} (decode : json -> option T) (r : Response) : result T :=
  if (hp_Status r =? 200) || (hp_Status r =? 201) then
    match hp_Body r with
    | Json v => if fits v then of_option (decode v) ErrEncode else Err ErrEncode
    | _ => Err ErrEncode
    end
  else if hp_Status r =? 425 then Err ErrPending
  else if hp_Status r =? 410 then Err ErrExpired
  else if hp_Status r =? 409 then Err ErrConsumed
  else Err (ErrNew ("server returned " +:+ status_text (hp_Status r) +:+ ": " +:+ TrimSpace (take_bytes 4096 (body_text (hp_Body r))))).

Definition request {T} (method : string) (path : list string) (token : string) (input : option json)
    (decode : json -> option T) (w : W) : W * result T :=
  let r := mkRequest method path "" (if String.eqb token "" then "" else "Bearer " +:+ token)
             (match input with Some _ => "application/json" | None => "" end) None input in
  match send r w with
  | (w, Err e) => (w, Err e)
  | (w, Ok response) => (w, interpret decode response)
  end.
Definition post {T} (path : list string) (input : json) (decode : json -> option T) : W -> W * result T :=
  request "POST" path "" (Some input) decode.
Definition authorizedRequest {T} (method : string) (path : list string) (token : string) (input : option json)
    (decode : json -> option T) : W -> W * result T := request method path (TrimSpace token) input decode.

Definition CreateDeviceAuthorization (machineName signerAddress : string) : W -> W * result ClientAuthorization :=
  post ["auth"; "device"] (JObj [("machine_name", jstr machineName); ("signer_address", jstr signerAddress)])
    (fun v => decode_loose authorization_fields v (mkClientAuthorization "" "" "" zero_time 0 "")).
Definition ExchangeDeviceAuthorization (deviceCode : string) : W -> W * result ClientToken :=
  post ["auth"; "device"; "token"] (JObj [("device_code", jstr deviceCode)])
    (fun v => decode_loose token_fields v (mkClientToken (mkClientMachine "" "" "" "") "")).

Definition get_account (token : string) : W -> W * result ProviderAccountView :=
  authorizedRequest "GET" ["api"; "provider"; "account"] token None (fun v => decode_loose account_fields v zero_account).
Definition CreateProviderAction (token : string) (input : ProviderActionInput) : W -> W * result ClientAction :=
  authorizedRequest "POST" ["api"; "provider"; "actions"] token (Some (action_input_json input))
    (fun v => decode_loose action_fields v zero_action).
Definition get_action (token id : string) : W -> W * result ClientAction :=
  authorizedRequest "GET" ["api"; "provider"; "actions"; id] token None (fun v => decode_loose action_fields v zero_action).
Definition get_versions (token machineID : string) : W -> W * result (gmap string Z) :=
  authorizedRequest "GET" ["api"; "provider"; "machines"; machineID; "offer-versions"] token None as_versions.
End Client.

(** ** What the broker writes, the client reads *)
Lemma known_member {T A} (fields : list (string * setter T)) (dec : json -> option A) store key v rest a t :
  find_field fields key = Some (set_with dec store) -> v <> JNull -> dec v = Some a ->
  decode_known fields (member key v ++ rest) t = decode_known fields rest (store a t).
Proof. intros Hf Hv Hd. simpl. rewrite Hf. unfold set_with. destruct v; try done; by rewrite Hd. Qed.

Lemma known_omit {T A} (fields : list (string * setter T)) (dec : json -> option A) store b key v rest a t :
  find_field fields key = Some (set_with dec store) -> v <> JNull -> dec v = Some a -> (b = true -> store a t = t) ->
  decode_known fields (omit_if b key v ++ rest) t = decode_known fields rest (store a t).
Proof.
  intros Hf Hv Hd Hz. unfold omit_if. destruct b; [by rewrite Hz|]. by apply (known_member fields dec store key v rest a t).
Qed.

Lemma as_string_text s : utf8 s -> as_string (jstr s) = Some s.
Proof. apply as_string_jstr. Qed.

Definition valid_time (t : Z) : Prop := let '(year, _, _) := civil (t / day_length) in 0 <= year <= 9999.
Definition offer_representable (o : ProviderActionOffer) : Prop :=
  Forall utf8 [po_OfferID o; po_Model o; po_Kind o; po_MeteringMode o; po_InputPerMillionWei o; po_OutputPerMillionWei o;
               po_ComputePerSecondWei o] /\ Forall utf8 (po_Capabilities o).
Definition action_representable (a : ProviderAction) : Prop :=
  Forall utf8 [pa_ID a; pa_Kind a; pa_Status a; pa_WalletAddress a; pa_AmountWei a]
  /\ Forall offer_representable (pa_Offers a) /\ Forall utf8 (pa_TransactionHashes a)
  /\ map_Forall (fun id version => utf8 id /\ uint64 version) (pa_Versions a) /\ valid_time (pa_ExpiresAt a).

(** What of an action is public. *)
Definition public_action (a : ProviderAction) : ClientAction :=
  mkClientAction (pa_ID a) (pa_Kind a) (pa_Status a) (pa_WalletAddress a) (pa_AmountWei a) (pa_Offers a)
    (pa_TransactionHashes a) (pa_Versions a) (pa_ExpiresAt a).

Lemma as_versions_keys (versions : gmap string Z) keys :
  map_Forall (fun id version => utf8 id /\ uint64 version) versions ->
  NoDup keys -> Forall (fun id => is_Some (versions !! id)) keys ->
  exists found, as_versions (JObj (map (fun id => (coerce_utf8 id, num (default 0 (versions !! id)))) keys)) = Some found
  /\ forall id, found !! id = if decide (id ∈ keys) then versions !! id else None.
Proof.
  intros Hr Hn Hk. cbn [as_versions]. induction keys as [|key keys IH]; [by exists ∅|].
  apply NoDup_cons in Hn as [Hin Hn]. apply Forall_cons in Hk as [[version Hv] Hk]. destruct (IH Hn Hk) as (found & E & Hf).
  destruct (Hr key version Hv) as [Hu Hx]. unfold utf8, valid_utf8 in Hu. apply String.eqb_eq in Hu.
  exists (<[key := version]> found). cbn [map foldr fst snd]. rewrite Hu. cbn [map] in E. rewrite E. rewrite Hv.
  change (default 0 (Some version)) with version.
  split.
  - change (Some found ≫= ?f) with (f found). cbv beta.
    replace (as_version (num version)) with (Some version)
      by (symmetry; apply (as_uint_num 64); unfold uint64, u64_mod in *; lia).
    change (Some version ≫= ?f) with (f version). cbv beta.
    cbn [fst]. destruct (found !! key) as [x|] eqn:F; [|done]. exfalso. rewrite Hf in F. by destruct (decide (key ∈ keys)).
  - intros id. destruct (decide (id = key)) as [->|Hne].
    + rewrite lookup_insert_eq. by rewrite decide_True by left.
    + rewrite lookup_insert_ne by done. rewrite Hf. destruct (decide (id ∈ keys)) as [Hi|Hi].
      * by rewrite decide_True by (by right).
      * rewrite decide_False; [done|]. intros [|]%elem_of_cons; done.
Qed.

Lemma as_versions_of versions : map_Forall (fun id version => utf8 id /\ uint64 version) versions ->
  as_versions (versions_json versions) = Some versions.
Proof.
  intros Hr. unfold versions_json.
  assert (forall id, id ∈ sort_strings (map fst (map_to_list versions)) <-> is_Some (versions !! id)) as Hkeys.
  { intros id. rewrite sort_strings_Permutation, list_elem_of_fmap. split.
    - intros ([k v] & -> & Hkv%elem_of_map_to_list). by exists v.
    - intros [v Hv]. exists (id, v). split; [done|]. by apply elem_of_map_to_list. }
  destruct (as_versions_keys versions (sort_strings (map fst (map_to_list versions)))) as (found & E & Hf); [done| | |].
  - rewrite sort_strings_Permutation. apply NoDup_fst_map_to_list.
  - apply Forall_forall. intros id. apply Hkeys.
  - rewrite E. f_equal. apply map_eq. intros id. rewrite Hf. destruct (decide _) as [Hi|Hi]; [done|].
    rewrite Hkeys in Hi. by destruct (versions !! id); [destruct Hi|].
Qed.

Ltac offer_projections :=
  cbv beta; cbn [po_OfferID po_Model po_Kind po_Capabilities po_MeteringMode po_InputPerMillionWei po_OutputPerMillionWei
    po_ComputePerSecondWei].
Ltac as_text := match goal with |- as_string (jstr ?s) = _ => exact (as_string_text s ltac:(assumption)) end.

Lemma decode_offer_view o : offer_representable o ->
  decode_loose offer_input_fields (action_offer_json o) zero_action_offer = Some o.
Proof.
  destruct o as [id model kind capabilities metering input output compute]. unfold offer_representable, action_offer_json, zero_action_offer.
  cbn [decode_loose]. offer_projections. rewrite !Forall_cons. intros (Hs & Hc). destruct_and?.
  rewrite <- (app_nil_r (member "compute_per_second_wei" _)).
  do 3 (erewrite (known_member offer_input_fields); [|reflexivity|discriminate|as_text]; offer_projections).
  erewrite (known_member offer_input_fields); [|reflexivity|discriminate|by apply as_string_slice_of]; offer_projections.
  do 4 (erewrite (known_member offer_input_fields); [|reflexivity|discriminate|as_text]; offer_projections). done.
Qed.

Lemma as_client_offers_of offers : Forall offer_representable offers ->
  as_client_offers (JArr (map action_offer_json offers)) = Some offers.
Proof.
  cbn [as_client_offers]. induction 1 as [|o offers Ho _ IH]; [done|]. cbn [map mapM]. by rewrite decode_offer_view, IH.
Qed.

Ltac action_projections :=
  cbv beta; cbn [pa_ID pa_Kind pa_Status pa_WalletAddress pa_AmountWei pa_Offers pa_TransactionHashes pa_Versions pa_ExpiresAt
    cn_ID cn_Kind cn_Status cn_WalletAddress cn_AmountWei cn_Offers cn_TransactionHashes cn_Versions cn_ExpiresAt].

Lemma decode_public_action a : action_representable a ->
  decode_loose action_fields (action_json a) zero_action = Some (public_action a).
Proof.
  destruct a as [id kind status wallet amount offers hashes versions expires machine account baseline].
  unfold action_representable, action_json, zero_action, public_action. cbn [decode_loose]. action_projections.
  rewrite !Forall_cons. intros (Hs & Ho & Hh & Hv & He). destruct_and?. rewrite <- (app_nil_r (member "expires_at" _)).
  do 4 (erewrite (known_member action_fields); [|reflexivity|discriminate|as_text]; action_projections).
  erewrite (known_omit action_fields); [|reflexivity|discriminate|as_text|by intros ->%String.eqb_eq]; action_projections.
  erewrite (known_omit action_fields); [|reflexivity|discriminate|by apply as_client_offers_of|by intros ->%bool_decide_eq_true];
    action_projections.
  erewrite (known_omit action_fields); [|reflexivity|discriminate|by apply as_string_slice_of|by intros ->%bool_decide_eq_true];
    action_projections.
  erewrite (known_omit action_fields); [|reflexivity|discriminate|by apply as_versions_of|by intros ->%bool_decide_eq_true];
    action_projections.
  erewrite (known_member action_fields); [|reflexivity|discriminate|by apply ParseRFC3339_RFC3339Nano]; action_projections. done.
Qed.

(** ** What the client writes, the broker reads *)
Definition input_representable (i : ProviderActionInput) : Prop :=
  Forall utf8 [pi_Kind i; pi_AmountWei i] /\ Forall offer_representable (pi_Offers i).

Lemma decode_offer_input o : offer_representable o ->
  decode_struct offer_input_fields (action_offer_json o) zero_action_offer = Some o.
Proof.
  destruct o as [id model kind capabilities metering input output compute]. unfold offer_representable, action_offer_json, zero_action_offer.
  cbn [decode_struct]. offer_projections. rewrite !Forall_cons. intros (Hs & Hc). destruct_and?.
  rewrite <- (app_nil_r (member "compute_per_second_wei" _)).
  do 3 (erewrite (decode_member offer_input_fields); [|reflexivity|discriminate|as_text]; offer_projections).
  erewrite (decode_member offer_input_fields); [|reflexivity|discriminate|by apply as_string_slice_of]; offer_projections.
  do 4 (erewrite (decode_member offer_input_fields); [|reflexivity|discriminate|as_text]; offer_projections). done.
Qed.

Lemma as_action_offers_of offers : Forall offer_representable offers ->
  as_action_offers (JArr (map action_offer_json offers)) = Some offers.
Proof.
  cbn [as_action_offers]. induction 1 as [|o offers Ho _ IH]; [done|]. cbn [map mapM]. by rewrite decode_offer_input, IH.
Qed.

Lemma decode_action_input i : input_representable i ->
  decode_struct action_input_fields (action_input_json i) (mkProviderActionInput "" "" []) = Some i.
Proof.
  destruct i as [kind amount offers]. unfold input_representable, action_input_json. cbn [decode_struct pi_Kind pi_AmountWei pi_Offers].
  rewrite !Forall_cons. intros (Hs & Ho). destruct_and?. rewrite <- (app_nil_r (omit_if _ "offers" _)).
  erewrite (decode_member action_input_fields); [|reflexivity|discriminate|as_text]; cbv beta; cbn [pi_Kind pi_AmountWei pi_Offers].
  erewrite (decode_omit action_input_fields); [|reflexivity|discriminate|as_text|by intros ->%String.eqb_eq];
    cbv beta; cbn [pi_Kind pi_AmountWei pi_Offers].
  erewrite (decode_omit action_input_fields); [|reflexivity|discriminate|by apply as_action_offers_of|by intros ->%bool_decide_eq_true].
  done.
Qed.
