(* ===== verification/ProviderOps.v ===== *)
(** * Provider operations of the CLI (cli/internal/providerops/service.go)

    Prices in MON as exact amounts of wei, and the operations that open a
    provider action on the broker, send the user to the wallet and wait for its
    confirmation: publishing an offer, attaching one, deposits and exits, and
    the synchronisation of versions.  An operation is a state transformer on the
    world [W] that the broker, the clock and the configuration file share;
    [ProviderAPI] is the interface it has of the broker's client. *)

From S2P Require Import Prelude GoStrings GoTime Wire Receipt Messages AuthHttp ProviderAccount Actions ClientConfig AccountClient Backends.
From Stdlib Require Import Ascii.
From stdpp Require Import gmap strings.
Open Scope string_scope.
Open Scope list_scope.
Open Scope Z_scope.

(** ** Prices *)
Definition weiPerMON : Z := 10 ^ 18.
Definition maxUint256 : Z := Z.shiftl 1 256 - 1.
Definition invalid_amount : error :=
  ErrNew "MON amount must be a non-negative decimal with at most 18 fractional digits".

(** [strings.Repeat("0", n)] *)
Fixpoint zero_digits (n : nat) : string := match n with O => "" | S n => String "0" (zero_digits n) end.

Definition wei_amount (whole fraction : string) : result string :=
  units ← of_option (SetString10 whole) (ErrNew "invalid MON amount");
  let wei := units * weiPerMON in
  let wei := if String.eqb fraction "" then wei
             else wei + default 0 (SetString10 (fraction +:+ zero_digits (18 - String.length fraction))) in
  if maxUint256 <? wei then Err (ErrNew "MON amount exceeds uint256") else Ok (BigString wei).

Definition ParseMON (value : string) : result string :=
  if String.eqb value "" || negb (String.eqb (TrimSpace value) value) || HasPrefix value "-"
     || ContainsByte value "e" || ContainsByte value "E" || ContainsByte value "+"
  then Err invalid_amount
  else
    match SplitByte value "." with
    | [whole] => if String.eqb whole "" || negb (decimalDigits whole) then Err invalid_amount else wei_amount whole ""
    | [whole; fraction] =>
        if String.eqb whole "" || negb (decimalDigits whole) then Err invalid_amount
        else if String.eqb fraction "" || (18 <? go_len fraction) || negb (decimalDigits fraction) then Err invalid_amount
        else wei_amount whole fraction
    | _ => Err invalid_amount
    end.

(** ** The service *)
Record Rates := mkRates { ra_InputPerMillionMON : string; ra_OutputPerMillionMON : string; ra_ComputePerSecondMON : string }.

Definition offerShape (b : Backend) : list string * string :=
  if String.eqb (bk_Kind b) "kimi"
     || (String.eqb (bk_Kind b) "codex" || String.eqb (bk_Kind b) "claude") && negb (String.eqb (bk_Image b) "")
  then (["stream"; "text"; "workspace"], "compute_only")
  else (["stream"; "text"], "tokens_and_compute").

Definition Compatible (b : Backend) (o : EditableOffer) : bool :=
  let '(capabilities, metering) := offerShape b in
  String.eqb (bk_Model b) (eo_Model o) && String.eqb (bk_Kind b) (eo_BackendKind o)
  && bool_decide (sort_strings capabilities = sort_strings (eo_Capabilities o))
  && String.eqb metering (eo_MeteringMode o) && (0 <? eo_Version o).

Definition set_version (version : Z) (b : Backend) : Backend :=
  mkBackend (bk_Name b) (bk_OfferID b) (bk_Kind b) (bk_URL b) (bk_Model b) version (bk_Enabled b) (bk_Image b).
Definition set_offer (offerID : string) (version : Z) (b : Backend) : Backend :=
  mkBackend (bk_Name b) offerID (bk_Kind b) (bk_URL b) (bk_Model b) version (bk_Enabled b) (bk_Image b).
Definition set_backends (backends : list Backend) (c : Config) : Config :=
  mkConfig (cf_ServerURL c) (cf_AccountID c) (cf_MachineID c) (cf_ChainID c) (cf_ContractAddress c) (cf_SignerAddress c) backends.

(** The first backend that satisfies [p], changed by [f]. *)
Fixpoint change_first (p : Backend -> bool) (f : Backend -> Backend) (backends : list Backend) : list Backend :=
  match backends with
  | [] => []
  | b :: rest => if p b then f b :: rest else b :: change_first p f rest
  end.

Section Service.
Context {W : Type}.

(** State transformers that may fail. *)
Definition M (A : Type) : Type := W -> W * result A.
#[local] Instance M_ret : MRet M := fun A a w => (w, Ok a).
#[local] Instance M_bind : MBind M := fun A B f m w => match m w with (w, Ok a) => f a w | (w, Err e) => (w, Err e) end.
Definition throw {A} (e : error) : M A := fun w => (w, Err e).
Definition lift {A} (r : result A) : M A := fun w => (w, r).
Definition wrapped {A} (prefix : string) (m : M A) : M A := fun w =>
  match m w with (w, Err e) => (w, Err (ErrWrap prefix e)) | other => other end.

Class ProviderAPI := mkProviderAPI {
  api_Account : string -> M ProviderAccountView;
  api_Create : string -> ProviderActionInput -> M ClientAction;
  api_Action : string -> string -> M ClientAction;
  api_Versions : string -> string -> M (gmap string Z);
}.
(** [sv_Approval] is [approvalURL(s.WebURL, id)]; [sv_Now] the clock. *)
Record Service := mkService {
  sv_API : option ProviderAPI; sv_Token : string; sv_MachineID : string; sv_Approval : string -> result string;
  sv_LoadConfig : option (M Config); sv_SaveConfig : option (Config -> M unit); sv_OpenURL : option (string -> M unit);
  sv_Wait : M unit; sv_Now : W -> Z;
}.

(** [parsed] is [url.Parse(s.WebURL)], [render] writes it back with the approval
    path and the action. *)
Definition approvalURL (parsed : option Url) (render : string -> string) (actionID : string) : result string :=
  let invalid := Err (ErrNew "web URL must use HTTPS except on loopback") in
  match parsed with
  | None => invalid
  | Some u => if String.eqb (ur_Host u) "" || negb (String.eqb (ur_Scheme u) "https")
                                             && negb (String.eqb (ur_Scheme u) "http" && loopback (ur_Hostname u))
              then invalid else Ok (render actionID)
  end.

Definition ApprovalRequired (url : string) : error :=
  ErrNew ("open this URL to approve the wallet transaction: " +:+ url).

(** The loop of [execute], at most [fuel] rounds of it: nothing when it would go on. *)
Fixpoint poll (s : Service) (api : ProviderAPI) (fuel : nat) (action : ClientAction) (w : W) : option (W * result ClientAction) :=
  if String.eqb (cn_Status action) ActionConfirmed then Some (w, Ok action)
  else if negb (cn_ExpiresAt action =? zero_time) && (cn_ExpiresAt action <? sv_Now s w)
  then Some (w, Err (ErrNew "provider action expired"))
  else
    match fuel with
    | O => None
    | S fuel =>
        match wrapped "provider action was not completed" (sv_Wait s) w with
        | (w, Err e) => Some (w, Err e)
        | (w, Ok _) =>
            match wrapped "poll provider action" (api_Action (sv_Token s) (cn_ID action)) w with
            | (w, Err e) => Some (w, Err e)
            | (w, Ok action) => poll s api fuel action w
            end
        end
    end.

Definition open_approval (s : Service) (url : string) : M unit :=
  match sv_OpenURL s with
  | None => throw (ApprovalRequired url)
  | Some open => fun w => match open url w with (w, Err _) => (w, Err (ApprovalRequired url)) | other => other end
  end.
Definition start_action (s : Service) (api : ProviderAPI) (input : ProviderActionInput) : M ClientAction :=
  action ← wrapped "create provider action" (api_Create (sv_Token s) input);
  url ← lift (sv_Approval s (cn_ID action));
  _ ← open_approval s url;
  mret action.
Definition execute (s : Service) (fuel : nat) (input : ProviderActionInput) (w : W) : option (W * result ClientAction) :=
  match sv_API s with
  | None => Some (w, Err (ErrNew "provider API is unavailable"))
  | Some api =>
      match start_action s api input w with
      | (w, Err e) => Some (w, Err e)
      | (w, Ok action) => poll s api fuel action w
      end
  end.

Definition priced_offer (b : Backend) (rates : Rates) : result ProviderActionOffer :=
  let price name value := match ParseMON value with Ok wei => Ok wei | Err e => Err (ErrWrap name e) end in
  inputWei ← price "input price" (ra_InputPerMillionMON rates);
  outputWei ← price "output price" (ra_OutputPerMillionMON rates);
  computeWei ← price "compute price" (ra_ComputePerSecondMON rates);
  let '(capabilities, metering) := offerShape b in
  Ok (mkProviderActionOffer (EffectiveOfferID b) (bk_Model b) (bk_Kind b) capabilities metering inputWei outputWei computeWei).

(** The version a confirmed action gives the backend, in the configuration. *)
Definition record_version (s : Service) (b : Backend) (action : ClientAction) : M unit :=
  match sv_LoadConfig s, sv_SaveConfig s with
  | Some load, Some save =>
      cfg ← load;
      let named item := String.eqb (bk_Name item) (bk_Name b) in
      if negb (existsb named (cf_Backends cfg)) then throw (ErrNew "backend is no longer configured")
      else
        let version := default 0 (cn_Versions action !! EffectiveOfferID b) in
        if version =? 0 then throw (ErrNew "confirmed action did not publish offer")
        else save (set_backends (change_first named (set_version version) (cf_Backends cfg)) cfg)
  | _, _ => throw (ErrNew "configuration persistence is unavailable")
  end.

Definition Publish (s : Service) (fuel : nat) (b : Backend) (rates : Rates) (w : W) : option (W * result unit) :=
  match priced_offer b rates with
  | Err e => Some (w, Err e)
  | Ok offer =>
      match execute s fuel (mkProviderActionInput ActionPublishOffer "" [offer]) w with
      | None => None
      | Some (w, Err e) => Some (w, Err e)
      | Some (w, Ok action) => Some (record_version s b action w)
      end
  end.

Definition Account (s : Service) : M ProviderAccountView :=
  match sv_API s with
  | None => throw (ErrNew "provider API is unavailable")
  | Some api => api_Account (sv_Token s)
  end.

Definition Attach (s : Service) (backendName offerID : string) : M unit :=
  match sv_LoadConfig s, sv_SaveConfig s with
  | Some load, Some save =>
      cfg ← load;
      let named item := String.eqb (bk_Name item) backendName in
      b ← lift (of_option (List.find named (cf_Backends cfg)) (ErrNew "backend not found"));
      _ ← lift (fail_if (existsb (fun item => negb (named item) && String.eqb (EffectiveOfferID item) offerID) (cf_Backends cfg))
                  (ErrNew "wallet offer is already attached to another backend"));
      providerAccount ← Account s;
      offer ← lift (of_option (List.find (fun o => String.eqb (eo_OfferID o) offerID) (pv_Offers providerAccount))
                      (ErrNew "wallet offer not found"));
      _ ← lift (fail_if (negb (Compatible b offer)) (ErrNew "wallet offer is incompatible with backend"));
      save (set_backends (change_first named (set_offer (eo_OfferID offer) (eo_Version offer)) (cf_Backends cfg)) cfg)
  | _, _ => throw (ErrNew "configuration persistence is unavailable")
  end.

Definition discard {A} (r : option (W * result A)) : option (W * result unit) :=
  match r with
  | None => None
  | Some (w, Ok _) => Some (w, Ok tt)
  | Some (w, Err e) => Some (w, Err e)
  end.
Definition Deposit (s : Service) (fuel : nat) (amountMON : string) (w : W) : option (W * result unit) :=
  match ParseMON amountMON with
  | Err e => Some (w, Err e)
  | Ok amount =>
      if String.eqb amount "0" then Some (w, Err (ErrNew "deposit amount must be positive"))
      else discard (execute s fuel (mkProviderActionInput ActionDepositCollateral amount []) w)
  end.
Definition RequestExit (s : Service) (fuel : nat) (w : W) : option (W * result unit) :=
  discard (execute s fuel (mkProviderActionInput ActionRequestCollateralExit "" []) w).
Definition FinalizeExit (s : Service) (fuel : nat) (w : W) : option (W * result unit) :=
  discard (execute s fuel (mkProviderActionInput ActionFinalizeCollateralExit "" []) w).

Definition newer (versions : gmap string Z) (b : Backend) : option Z :=
  let version := default 0 (versions !! EffectiveOfferID b) in
  if (0 <? version) && negb (version =? bk_PriceVersion b) then Some version else None.
Definition SyncVersions (s : Service) : M bool :=
  match sv_API s, sv_LoadConfig s, sv_SaveConfig s with
  | Some api, Some load, Some save =>
      versions ← api_Versions (sv_Token s) (sv_MachineID s);
      cfg ← load;
      if existsb (fun b => match newer versions b with Some _ => true | None => false end) (cf_Backends cfg)
      then
        _ ← save (set_backends (map (fun b => match newer versions b with Some v => set_version v b | None => b end)
                    (cf_Backends cfg)) cfg);
        mret true
      else mret false
  | _, _, _ => throw (ErrNew "version synchronization is unavailable")
  end.
End Service.
