(* ===== verification/ProviderOpsSpec.v ===== *)
(** * Correctness of the provider operations

    A price in MON is exact to the wei and is accepted by the broker; waiting
    for a confirmation ends with the action's expiry; publishing and attaching
    change one backend of the configuration; and the version a publication
    writes there is one that the broker found on the chain. *)

From S2P Require Import Prelude GoStrings GoTime Wire Receipt Messages Db Hex AuthHttp ProviderAccount Actions ActionsSpec ClientConfig AccountClient Backends ProviderOps.
From Stdlib Require Import Ascii.
From stdpp Require Import gmap strings.
Open Scope string_scope.
Open Scope list_scope.
Open Scope Z_scope.

(** ** Prices *)
Definition digits (s : string) : Z := default 0 (parse_digits 0 s).
(** [value] is written as a whole part and at most 18 fractional digits. *)
Record written (value whole fraction : string) : Prop := mkWritten {
  wr_whole : whole <> "" /\ decimalDigits whole = true;
  wr_fraction : decimalDigits fraction = true /\ go_len fraction <= 18;
  wr_value : value = whole +:+ (if String.eqb fraction "" then "" else "." +:+ fraction);
}.
Definition mon_wei (whole fraction : string) : Z :=
  digits whole * 10 ^ 18 + digits fraction * 10 ^ (18 - go_len fraction).

Lemma decimalDigits_digits s : decimalDigits s = true -> parse_digits 0 s = Some (digits s) /\ 0 <= digits s.
Proof.
  unfold decimalDigits, digits. intros H%bool_decide_eq_true. destruct (parse_digits 0 s) as [n|] eqn:E; [|by destruct H].
  split; [done|]. by apply parse_digits_nonneg in E.
Qed.

Lemma digit_bytes s : forall acc, is_Some (parse_digits acc s) -> forall c, byte_of c < 48 \/ 57 < byte_of c -> ContainsByte s c = false.
Proof.
  induction s as [|d s IH]; intros acc Hp c Hc; [done|]. cbn in *. unfold digit_of in Hp.
  destruct ((48 <=? byte_of d) && (byte_of d <=? 57)) eqn:E; [|by destruct Hp].
  rewrite (IH _ Hp c Hc), orb_false_r. destruct (Ascii.eqb_spec c d) as [->|]; [lia|done].
Qed.

Lemma decimalDigits_free s c : decimalDigits s = true -> byte_of c < 48 \/ 57 < byte_of c -> ContainsByte s c = false.
Proof. intros H%bool_decide_eq_true. by apply (digit_bytes s 0). Qed.

Lemma parse_zero_digits n acc : parse_digits acc (zero_digits n) = Some (acc * 10 ^ Z.of_nat n).
Proof.
  revert acc. induction n as [|n IH]; intros acc; cbn [zero_digits parse_digits]; [f_equal; lia|].
  change (digit_of "0") with (Some 0). cbv iota. rewrite IH. f_equal.
  rewrite Nat2Z.inj_succ, Z.pow_succ_r by lia. lia.
Qed.

Lemma SetString10_digits s : s <> "" -> decimalDigits s = true -> SetString10 s = Some (digits s).
Proof.
  intros Hne Hd. destruct (decimalDigits_digits s Hd) as [Hp _]. destruct s as [|c s]; [done|].
  rewrite parse_nat_head; unfold parse_nat; by rewrite Hp.
Qed.

(** What [wei_amount] computes. *)
Lemma wei_amount_spec whole fraction : whole <> "" -> decimalDigits whole = true -> decimalDigits fraction = true ->
  go_len fraction <= 18 ->
  wei_amount whole fraction = if maxUint256 <? mon_wei whole fraction then Err (ErrNew "MON amount exceeds uint256")
                              else Ok (BigString (mon_wei whole fraction)).
Proof.
  intros Hw Dw Df Hl. unfold wei_amount. rewrite (SetString10_digits whole) by done. cbn [of_option mbind result_bind]. unfold mon_wei.
  destruct (String.eqb_spec fraction "") as [->|Hf].
  - change (digits "") with 0. by rewrite Z.mul_0_l, Z.add_0_r.
  - destruct (decimalDigits_digits fraction Df) as [Pf Hpos].
    assert (parse_digits 0 (fraction +:+ zero_digits (18 - String.length fraction)) = Some (digits fraction * 10 ^ (18 - go_len fraction))) as Hp.
    { rewrite parse_digits_app, Pf, parse_zero_digits. do 3 f_equal. unfold go_len in *. lia. }
    assert (SetString10 (fraction +:+ zero_digits (18 - String.length fraction)) = Some (digits fraction * 10 ^ (18 - go_len fraction))) as ->.
    { destruct fraction as [|c f]; [done|]. rewrite app_string_cons in *.
      assert (parse_nat (String c (f +:+ zero_digits (18 - String.length (String c f)))) = Some (digits (String c f) * 10 ^ (18 - go_len (String c f)))) as Hn by exact Hp.
      rewrite parse_nat_head by (rewrite Hn; by eexists). exact Hn. }
    done.
Qed.

Lemma Join_SplitByte s c : GoStrings.Join (SplitByte s c) (String c "") = s.
Proof.
  induction s as [|d s IH]; [done|]. cbn [SplitByte]. destruct (Ascii.eqb_spec d c) as [->|Hne].
  - destruct (SplitByte s c) as [|part rest] eqn:E; [by destruct (SplitByte_no_sep s c)|].
    change (GoStrings.Join ("" :: part :: rest) (String c "")) with (String c (GoStrings.Join (part :: rest) (String c ""))).
    by rewrite IH.
  - destruct (SplitByte s c) as [|part rest] eqn:E; [by destruct (SplitByte_no_sep s c)|].
    destruct rest as [|next rest]; cbn in *; [by rewrite IH|]. by rewrite <- IH.
Qed.

Definition amount_byte (c : ascii) : bool := (byte_of c =? 46) || ((48 <=? byte_of c) && (byte_of c <=? 57)).
Lemma written_bytes value whole fraction c : written value whole fraction -> amount_byte c = false -> ContainsByte value c = false.
Proof.
  intros [[_ Dw] [Df _] ->] Hc. unfold amount_byte in Hc. rewrite ContainsByte_app.
  assert (byte_of c < 48 \/ 57 < byte_of c) as Hd by lia. rewrite (decimalDigits_free whole c Dw Hd).
  destruct (String.eqb fraction ""); [done|]. rewrite ContainsByte_app, (decimalDigits_free fraction c Df Hd), orb_false_r.
  cbn. rewrite orb_false_r. destruct (Ascii.eqb_spec c ".") as [->|]; [by vm_compute in Hc|done].
Qed.

Lemma trim_left_id set s :
  Forall (fun rune => match rune with "" => False | String c _ => ContainsByte s c = false end) set -> trim_left set s = s.
Proof.
  intros Hs. unfold trim_left. destruct (String.length s); [done|]. cbn [trim_left_fuel].
  destruct (List.find (HasPrefix s) set) as [rune|] eqn:F; [|done]. exfalso. apply List.find_some in F as [Hin Hp].
  rewrite Forall_forall in Hs. specialize (Hs rune ltac:(by apply list_elem_of_In)). destruct rune as [|c rune]; [done|].
  destruct s as [|d s]; [done|]. cbn in Hp, Hs. apply andb_true_iff in Hp as [Hc _].
  by rewrite Hc in Hs.
Qed.

Lemma rev_string_onto_spec s : forall acc, rev_string_onto (rev_string_onto s acc) "" = rev_string_onto acc s.
Proof. induction s as [|c s IH]; intros acc; [done|]. cbn [rev_string_onto]. by rewrite IH. Qed.
Lemma rev_string_involutive s : rev_string (rev_string s) = s.
Proof. apply rev_string_onto_spec. Qed.

Lemma TrimSpace_id s : (forall c, amount_byte c = false -> ContainsByte s c = false) -> TrimSpace s = s.
Proof.
  intros Hs. unfold TrimSpace, trim_right.
  assert (forall set, forallb (fun rune => match rune with "" => false | String c _ => negb (amount_byte c) end) set = true ->
    forall t, (forall c, amount_byte c = false -> ContainsByte t c = false) -> trim_left set t = t) as Hset.
  { intros set Hset t Ht. apply trim_left_id, Forall_forall. intros rune Hin. rewrite forallb_forall in Hset.
    specialize (Hset rune ltac:(by apply list_elem_of_In)). destruct rune; [done|]. apply Ht. by apply negb_true_iff. }
  rewrite (Hset space_runes) by done. rewrite (Hset (map rev_string space_runes)); [|done|].
  - apply rev_string_involutive.
  - intros c Hc. rewrite ContainsByte_rev. by apply Hs.
Qed.

Lemma ParseMON_written value whole fraction : written value whole fraction -> ParseMON value = wei_amount whole fraction.
Proof.
  intros Hw. pose proof (fun c => written_bytes value whole fraction c Hw) as Hb. pose proof Hw as [[Hne Dw] [Df Hl] Hv].
  unfold ParseMON. rewrite TrimSpace_id, String.eqb_refl by done.
  assert (String.eqb value "" = false) as -> by (apply String.eqb_neq; rewrite Hv; by destruct whole).
  rewrite (Hb "e"%char), (Hb "E"%char), (Hb "+"%char) by done.
  assert (HasPrefix value "-" = false) as ->.
  { specialize (Hb "-"%char eq_refl). destruct value as [|c value]; [done|]. cbn in Hb |- *. apply orb_false_iff in Hb as [Hc _].
    by rewrite Hc. }
  cbn [orb negb]. assert (ContainsByte whole "." = false) as Hdot by (apply decimalDigits_free; [done|left; by vm_compute]).
  assert (String.eqb whole "" = false) as Hwe by (by apply String.eqb_neq).
  destruct (String.eqb_spec fraction "") as [->|Hf]; rewrite Hv.
  - rewrite app_string_nil_r, SplitByte_single, Hwe, Dw by done. done.
  - change (whole +:+ "." +:+ fraction) with (whole +:+ String "." fraction).
    rewrite SplitByte_app, SplitByte_single by (try apply decimalDigits_free; try done; left; by vm_compute).
    apply String.eqb_neq in Hf. rewrite Hwe, Dw, Hf, Df. cbn [orb negb]. replace (18 <? go_len fraction) with false by lia. done.
Qed.

Lemma ParseMON_Ok value w : ParseMON value = Ok w -> exists whole fraction, written value whole fraction.
Proof.
  unfold ParseMON. destruct (_ || _) eqn:G; [done|]. pose proof (Join_SplitByte value ".") as J.
  destruct (SplitByte value ".") as [|whole [|fraction [|? ?]]]; try done; cbn in J.
  - destruct (String.eqb_spec whole ""), (decimalDigits whole) eqn:D; try done. intros _. exists whole, "".
    split; [done|by split|]. by rewrite app_string_nil_r.
  - destruct (String.eqb_spec whole ""), (decimalDigits whole) eqn:D; try done. cbn [orb negb].
    destruct (String.eqb_spec fraction ""), (decimalDigits fraction) eqn:Df; try done; rewrite ?orb_true_r; try done.
    destruct (18 <? go_len fraction) eqn:L; [done|]. intros _. exists whole, fraction. split; [done|split; [done|lia]|].
    by rewrite (proj2 (String.eqb_neq _ _)).
Qed.

(** A price in MON is converted exactly: [ParseMON] accepts an amount when
    it is a decimal number with at most 18 fractional digits whose value in wei
    fits 256 bits, and returns that value; the broker's check of rates accepts
    whatever it returns. *)
Theorem ParseMON_exact value w :
  ParseMON value = Ok w <->
  exists whole fraction, written value whole fraction /\ mon_wei whole fraction < 2 ^ 256
    /\ w = BigString (mon_wei whole fraction) /\ validDecimal w false = true.
Proof.
  assert (maxUint256 = 2 ^ 256 - 1) as Hmax by reflexivity. split.
  - intros H. destruct (ParseMON_Ok value w H) as (whole & fraction & Hw). exists whole, fraction.
    rewrite (ParseMON_written _ _ _ Hw) in H. pose proof Hw as [[Hne Dw] [Df Hl] _]. rewrite wei_amount_spec in H by done.
    destruct (maxUint256 <? mon_wei whole fraction) eqn:L; [done|]. injection H as <-. split; [done|]. split; [lia|]. split; [done|].
    apply validDecimal_iff. exists (mon_wei whole fraction). split; [done|]. split; [|lia].
    destruct (decimalDigits_digits whole Dw), (decimalDigits_digits fraction Df). unfold mon_wei. lia.
  - intros (whole & fraction & Hw & Hlt & -> & _). rewrite (ParseMON_written _ _ _ Hw). destruct Hw as [[Hne Dw] [Df Hl] _].
    rewrite wei_amount_spec by done. by replace (maxUint256 <? mon_wei whole fraction) with false by lia.
Qed.

(** ** The configuration *)
(** The configuration file behind a service: what it loads is what was saved. *)
Class ConfigStore {W : Type} (s : Service (W := W)) := mkConfigStore {
  cs_config : W -> Config;
  cs_load : forall load w w' c, sv_LoadConfig s = Some load -> load w = (w', Ok c) -> w' = w /\ c = cs_config w;
  cs_save : forall save c w w', sv_SaveConfig s = Some save -> save c w = (w', Ok tt) -> cs_config w' = c;
}.
Arguments cs_config {_} _ {_} _.
Arguments cs_load {_} _ {_} _ _ _ _ _ _.
Arguments cs_save {_} _ {_} _ _ _ _ _ _.

Definition named (b item : Backend) : bool := String.eqb (bk_Name item) (bk_Name b).

Lemma find_change_first p f l :
  (forall b, p (f b) = p b) -> List.find p (change_first p f l) = f <$> List.find p l.
Proof.
  intros Hf. induction l as [|b l IH]; [done|]. cbn. destruct (p b) eqn:P; cbn; [by rewrite Hf, P|by rewrite P].
Qed.

Lemma existsb_find {A} (p : A -> bool) l : existsb p l = true -> exists a, List.find p l = Some a.
Proof. induction l as [|a l IH]; [done|]. cbn. destruct (p a); [by exists a|exact IH]. Qed.

(** No two backends have a name, or an offer, in common. *)
Definition exclusive (c : Config) : Prop :=
  NoDup (map bk_Name (cf_Backends c)) /\ NoDup (map EffectiveOfferID (cf_Backends c)).

Lemma change_first_names p f l : (forall b, bk_Name (f b) = bk_Name b) -> map bk_Name (change_first p f l) = map bk_Name l.
Proof.
  intros Hf. induction l as [|b l IH]; [done|]. cbn [change_first]. destruct (p b); cbn [map]; [by rewrite Hf|by rewrite IH].
Qed.

(** An identifier that no other backend has can be given to the one of a name. *)
Lemma change_first_offers backendName offerID f l :
  (forall b, EffectiveOfferID (f b) = offerID) -> NoDup (map bk_Name l) ->
  existsb (fun item => negb (String.eqb (bk_Name item) backendName) && String.eqb (EffectiveOfferID item) offerID) l = false ->
  NoDup (map EffectiveOfferID l) ->
  NoDup (map EffectiveOfferID (change_first (fun item => String.eqb (bk_Name item) backendName) f l)).
Proof.
  intros Hf. induction l as [|b l IH]; [done|]. cbn [map existsb change_first].
  intros [Hn Hnames]%NoDup_cons [Hb Hl]%orb_false_iff [Ho Hoffers]%NoDup_cons.
  destruct (String.eqb_spec (bk_Name b) backendName) as [<-|Hne]; cbn [map]; apply NoDup_cons; (split; [|auto]).
  - rewrite Hf. intros Hin. apply list_elem_of_fmap in Hin as (item & -> & Hitem).
    assert (bk_Name item <> bk_Name b) as Hd by (intros Heq; apply Hn; rewrite <- Heq; by apply list_elem_of_fmap_2).
    assert (existsb (fun x => negb (String.eqb (bk_Name x) (bk_Name b)) && String.eqb (EffectiveOfferID x) (EffectiveOfferID item)) l = true)
      as Ht; [|congruence].
    apply existsb_exists. exists item. split; [by apply list_elem_of_In|]. apply String.eqb_neq in Hd. by rewrite Hd, String.eqb_refl.
  - cbn [negb andb] in Hb. apply String.eqb_neq in Hb. intros Hin. apply Ho.
    clear -Hin Hb Hf. induction l as [|x l IH]; [done|]. cbn [change_first] in Hin.
    destruct (String.eqb (bk_Name x) backendName); cbn [map] in *; apply elem_of_cons in Hin as [Heq|Hin].
    + rewrite Hf in Heq. congruence.
    + by right.
    + rewrite Heq. by left.
    + right. by apply IH.
Qed.

Section Attach.
Context {W : Type} (s : Service (W := W)) `{!ConfigStore s}.

(** Attaching a wallet's offer to a backend keeps the configuration sound:
    when [Attach] succeeds, the backend of that name carries the offer, at the
    version the broker reported for it, and the offer is one of the account and
    has the backend's model, kind, capabilities and metering; and as before, no
    two backends have a name or an offer in common. *)
Theorem attach_exclusive backendName offerID w w' :
  offerID <> "" -> exclusive (cs_config s w) -> Attach s backendName offerID w = (w', Ok tt) ->
  exclusive (cs_config s w')
  /\ exists b item view offer,
       List.find (fun item => String.eqb (bk_Name item) backendName) (cf_Backends (cs_config s w)) = Some b
       /\ List.find (fun item => String.eqb (bk_Name item) backendName) (cf_Backends (cs_config s w')) = Some item
       /\ snd (Account s w) = Ok view /\ offer ∈ pv_Offers view /\ Compatible b offer = true
       /\ EffectiveOfferID item = offerID /\ eo_OfferID offer = offerID /\ bk_PriceVersion item = eo_Version offer.
Proof.
  intros Hne [Hnames Hoffers]. unfold Attach, mbind, M_bind, lift. destruct (sv_LoadConfig s) as [load|] eqn:El; [|done].
  destruct (sv_SaveConfig s) as [save|] eqn:Es; [|done]. destruct (load w) as [w1 [cfg|]] eqn:E1; [|done].
  destruct (cs_load s load w w1 cfg El E1) as [-> ->].
  destruct (List.find _ (cf_Backends (cs_config s w))) as [b|] eqn:Fb; [|done]. cbn [of_option].
  destruct (existsb _ _) eqn:X; [done|]. cbn [fail_if]. destruct (Account s w) as [w2 [view|]] eqn:Ea; [|done]. cbn [snd].
  destruct (List.find _ (pv_Offers view)) as [offer|] eqn:Fo; [|done]. cbn [of_option].
  destruct (Compatible b offer) eqn:C; [|done]. cbn [fail_if negb]. intros E2.
  apply List.find_some in Fo as [Hin Hid%String.eqb_eq]. pose proof (cs_save s save _ _ _ Es E2) as ->.
  assert (forall x, EffectiveOfferID (set_offer (eo_OfferID offer) (eo_Version offer) x) = offerID) as Heff.
  { intros x. unfold EffectiveOfferID, set_offer. cbn [bk_OfferID]. rewrite Hid. apply String.eqb_neq in Hne. by rewrite Hne. }
  cbn [set_backends cf_Backends]. split.
  - split; cbn [set_backends cf_Backends]; [by rewrite change_first_names|by apply (change_first_offers backendName offerID)].
  - exists b, (set_offer (eo_OfferID offer) (eo_Version offer) b), view, offer. rewrite find_change_first by done. rewrite Fb.
    split_and!; try done. by apply list_elem_of_In.
Qed.
End Attach.

Module Attached.
Definition local : Backend := mkBackend "local" "" "ollama" "http://127.0.0.1:11434" "llama" 1 true "".
Definition spare : Backend := mkBackend "spare" "o2" "ollama" "http://127.0.0.1:11434" "qwen" 5 true "".
Definition before : Config := mkConfig "https://api" "provider" "m1" 1 "" "" [spare; local].
Definition offer : EditableOffer :=
  mkEditableOffer "o1" "llama" "ollama" ["text"; "stream"] "tokens_and_compute" 7 "2" "3" "6".
Definition view : ProviderAccountView := mkProviderAccountView 1 "" "" 2 "" "" "" "" "" 0 [offer].
Definition api : ProviderAPI (W := Config) :=
  mkProviderAPI (fun _ w => (w, Ok view)) (fun _ _ w => (w, Err ErrDisconnected)) (fun _ _ w => (w, Err ErrDisconnected))
    (fun _ _ w => (w, Err ErrDisconnected)).
Definition service : Service (W := Config) :=
  mkService (Some api) "" "m1" (fun id => Ok id) (Some (fun c => (c, Ok c))) (Some (fun c _ => (c, Ok tt))) None
    (fun c => (c, Ok tt)) (fun _ => 0).
#[local] Instance service_store : ConfigStore service.
Proof.
  refine (mkConfigStore _ service (fun c => c) _ _).
  - intros load w w' c [= <-] [= <- <-]. done.
  - intros save c w w' [= <-] [= <-]. done.
Defined.
Definition after : Config := Eval vm_compute in fst (Attach service "local" "o1" before).

Lemma attach_exclusive_witness :
  NoDup (map EffectiveOfferID (cf_Backends after)) /\ map EffectiveOfferID (cf_Backends after) = ["o2"; "o1"].
Proof.
  split; [|vm_compute; reflexivity].
  destruct (attach_exclusive service "local" "o1" before after) as [[_ Hoffers] _]; [discriminate| |vm_compute; reflexivity|].
  - split; apply (bool_decide_unpack _); vm_compute; exact I.
  - exact Hoffers.
Defined.
End Attached.

(** ** Waiting ends *)
Section Waiting.
Context {W : Type} (s : Service (W := W)) (api : ProviderAPI (W := W)) (deadline tick : Z).

(** Every wait takes at least [tick], clocks do not run back, and the broker's
    actions expire by the [deadline] (15 minutes after they are opened). *)
Class Clock := mkClock {
  ck_tick : 0 < tick;
  ck_wait : forall w, sv_Now s w + tick <= sv_Now s (fst (sv_Wait s w));
  ck_action : forall token id w, sv_Now s w <= sv_Now s (fst (api_Action token id w));
  ck_create : forall token input w, sv_Now s w <= sv_Now s (fst (api_Create token input w));
  ck_open : forall open url w, sv_OpenURL s = Some open -> sv_Now s w <= sv_Now s (fst (open url w));
  ck_shown : forall token id w w' c, api_Action token id w = (w', Ok c) -> cn_ExpiresAt c <> zero_time /\ cn_ExpiresAt c <= deadline;
  ck_created : forall token input w w' c, api_Create token input w = (w', Ok c) -> cn_ExpiresAt c <> zero_time /\ cn_ExpiresAt c <= deadline;
}.
Context `{!Clock}.

Lemma poll_terminates fuel : forall c w, cn_ExpiresAt c <> zero_time /\ cn_ExpiresAt c <= deadline ->
  deadline < sv_Now s w + Z.of_nat fuel * tick -> exists out, poll s api fuel c w = Some out.
Proof.
  pose proof ck_tick as Htick.
  induction fuel as [|fuel IH]; intros c w [Hz Hd] Hf; cbn [poll]; (destruct (String.eqb _ _); [by eexists|]);
    (destruct (_ && _) eqn:G; [by eexists|]); unfold wrapped.
  - apply andb_false_iff in G as [G|G]; lia.
  - pose proof (ck_wait w) as Hw. destruct (sv_Wait s w) as [w1 [u|]]; [|by eexists]. cbn [fst] in Hw.
    pose proof (ck_action (sv_Token s) (cn_ID c) w1) as Ha. pose proof (ck_shown (sv_Token s) (cn_ID c) w1) as He.
    destruct (api_Action (sv_Token s) (cn_ID c) w1) as [w2 [c2|]]; [|by eexists]. cbn [fst] in Ha. apply IH; [by eapply He|lia].
Qed.

(** Waiting for the wallet ends: once the waits that are left reach beyond
    the expiry of the action, an operation that opens one and waits for its
    confirmation has returned, whatever the broker answers. *)
Theorem execute_terminates fuel input w :
  sv_API s = Some api -> deadline < sv_Now s w + Z.of_nat fuel * tick -> exists out, execute s fuel input w = Some out.
Proof.
  intros Hapi Hf. unfold execute. rewrite Hapi. unfold start_action, mbind, M_bind, wrapped, lift, mret, M_ret, open_approval.
  pose proof (ck_create (sv_Token s) input w) as Hc. pose proof (ck_created (sv_Token s) input w) as He.
  destruct (api_Create (sv_Token s) input w) as [w1 [c|]]; [|by eexists]. cbn [fst] in Hc.
  destruct (sv_Approval s (cn_ID c)) as [url|]; [|by eexists].
  destruct (sv_OpenURL s) as [open|] eqn:Eo; [|by eexists].
  pose proof (ck_open open url w1 Eo) as Ho. destruct (open url w1) as [w2 [u|]]; [|by eexists]. cbn [fst] in Ho.
  apply poll_terminates; [by eapply He|lia].
Qed.
End Waiting.

(** A broker that never confirms: the action expires after 15 minutes, and the
    operation ends within 451 waits of two seconds. *)
Module Expired.
Definition opened_action : ClientAction := mkClientAction "a1" ActionRequestCollateralExit ActionPendingWallet "" "" [] [] ∅ providerActionTTL.
Definition api : ProviderAPI (W := Z) :=
  mkProviderAPI (fun _ w => (w, Err ErrDisconnected)) (fun _ _ w => (w, Ok opened_action)) (fun _ _ w => (w, Ok opened_action))
    (fun _ _ w => (w, Err ErrDisconnected)).
Definition service : Service (W := Z) :=
  mkService (Some api) "" "m1" (fun id => Ok id) None None (Some (fun _ now => (now, Ok tt)))
    (fun now => (now + 2 * Second, Ok tt)) (fun now => now).
#[local] Instance service_clock : Clock service api providerActionTTL (2 * Second).
Proof.
  split; try done; cbn; try lia.
  - by intros open url w [= <-].
  - intros _ _ w w' c [= _ <-]. done.
  - intros _ _ w w' c [= _ <-]. done.
Defined.

Lemma execute_terminates_witness :
  exists out, execute service 451 (mkProviderActionInput ActionRequestCollateralExit "" []) 0 = Some out.
Proof. apply (execute_terminates service api providerActionTTL (2 * Second)); [reflexivity|vm_compute; reflexivity]. Defined.
End Expired.
