(* ===== verification/PublishSpec.v ===== *)
(** * The publication of an offer, from the command line to the chain

    The service of the CLI against the actions of the broker.  [Broker] is what
    the service may rely on: whatever it asks, the broker's store only takes
    steps of its own (others use it meanwhile), and an action that is answered
    is one that the store held then, opened for the input of the request.
    The section [OverHttp] shows
    that the client of the CLI over the broker's handlers is such a broker. *)

From S2P Require Import Prelude GoStrings GoTime Wire Receipt Messages Proposals Db Hex Anthropic Auth Store Settlement Indexer Sample Http AuthHttp ProviderAccount Actions ActionsSpec ClientConfig AccountClient Backends ProviderOps ProviderOpsSpec.
From stdpp Require Import gmap strings.
Open Scope string_scope.
Open Scope list_scope.
Open Scope Z_scope.

(** ** The interfaces *)
Section Interfaces.
Context `{Ethereum} (config : ProviderAccountConfig) {W : Type}.

(** The header a machine's token is sent in, once trimmed. *)
Definition bearer (token : string) : string := if String.eqb token "" then "" else "Bearer " +:+ token.
Definition authorized (token : string) : Request := mkRequest "" [] "" (bearer (TrimSpace token)) "" None None.
(** The action was opened for [input] and for the account of the machine whose
    token it is, in one of the broker's databases. *)
Definition opened_for (token : string) (input : ProviderActionInput) (w : World) (a : ProviderAction) : Prop :=
  (exists valid, validateProviderActionInput input = Ok valid /\ pa_Kind a = pi_Kind valid /\ pa_Offers a = pi_Offers valid)
  /\ exists d machine, d ∈ databases w /\ machineAccount (authorized token) d = Ok (machine, pa_AccountID a).
(** Between two states of the store, an answer: an action it held at some moment. *)
Definition answers (about : World -> ProviderAction -> Prop) (from to : World) (r : result ClientAction) : Prop :=
  match r with
  | Ok c => exists at_ a, rtc (step config) from at_ /\ w_items at_ !! cn_ID c = Some a /\ c = public_action a
      /\ about at_ a /\ rtc (step config) at_ to
  | Err _ => rtc (step config) from to
  end.

Class Broker (s : Service (W := W)) (api : ProviderAPI (W := W)) := mkBroker {
  br_actions : W -> World;
  br_create : forall input w, input_representable input ->
    answers (opened_for (sv_Token s) input) (br_actions w) (br_actions (fst (api_Create (sv_Token s) input w)))
      (snd (api_Create (sv_Token s) input w));
  br_action : forall id w, reachable config (br_actions w) ->
    answers (fun _ a => pa_ID a = id) (br_actions w) (br_actions (fst (api_Action (sv_Token s) id w)))
      (snd (api_Action (sv_Token s) id w));
  br_wait : forall w, rtc (step config) (br_actions w) (br_actions (fst (sv_Wait s w)));
  br_open : forall open url w, sv_OpenURL s = Some open -> rtc (step config) (br_actions w) (br_actions (fst (open url w)));
  br_load : forall load w, sv_LoadConfig s = Some load -> rtc (step config) (br_actions w) (br_actions (fst (load w)));
  br_save : forall save c w, sv_SaveConfig s = Some save -> rtc (step config) (br_actions w) (br_actions (fst (save c w)));
}.
End Interfaces.
Arguments br_actions {_ config _ s api _} _.
Arguments br_create {_ config _ s api _} _ _ _.
Arguments br_action {_ config _ s api _} _ _ _.
Arguments br_wait {_ config _ s api _} _.
Arguments br_open {_ config _ s api _} _ _ _ _.
Arguments br_load {_ config _ s api _} _ _ _.
Arguments br_save {_ config _ s api _} _ _ _ _.

(** The databases of the broker only grow in number. *)
Lemma databases_later `{Ethereum} config w w' : rtc (step config) w w' -> databases w ⊆ databases w'.
Proof.
  induction 1 as [|w1 w2 w3 (now & what & Hd) _ IH]; [done|]. etransitivity; [|exact IH].
  destruct Hd; try done. by apply list_subseteq_cons.
Qed.

(** ** Waiting for a confirmation *)
Section Execute.
Context `{Ethereum} (config : ProviderAccountConfig) {W : Type} (s : Service (W := W)) (api : ProviderAPI (W := W)).
Context `{!Broker config s api}.

(** What the loop keeps: the action at hand was shown by the store, and is
    about [terms]. *)
Definition tracked (terms : Terms) (w : W) (c : ClientAction) : Prop :=
  exists at_ a, reachable config at_ /\ rtc (step config) at_ (br_actions w) /\ w_items at_ !! cn_ID c = Some a
  /\ c = public_action a /\ terms_of a = terms.

Lemma tracked_later terms w w' c :
  tracked terms w c -> rtc (step config) (br_actions w) (br_actions w') -> tracked terms w' c.
Proof. intros (at_ & a & Hr & Hs & Ha) Hw. exists at_, a. split_and!; try apply Ha; [done|by etransitivity]. Qed.

Lemma tracked_reachable terms w c : tracked terms w c -> reachable config (br_actions w).
Proof. intros (at_ & a & Hr & Hs & _). by eapply reachable_later. Qed.

Lemma tracked_answer terms w w' c c' :
  tracked terms w c -> answers config (fun _ a => pa_ID a = cn_ID c) (br_actions w) (br_actions w') (Ok c') -> tracked terms w' c'.
Proof.
  intros (at_ & a & Hr & Hs & Ha & -> & Ht) (at' & a' & H1 & Ha' & -> & Hid & H2). exists at', a'.
  assert (rtc (step config) at_ at') as Hat by by etransitivity.
  split_and!; [by eapply reachable_later|done|done|done|].
  rewrite <- Ht. cbn [public_action cn_ID] in Ha', Hid. rewrite Hid in Ha'. by apply (terms_kept config at_ at' (pa_ID a) a a').
Qed.

Lemma poll_tracked terms fuel : forall c w w' c',
  tracked terms w c -> poll s api fuel c w = Some (w', Ok c') ->
  tracked terms w' c' /\ cn_Status c' = ActionConfirmed /\ rtc (step config) (br_actions w) (br_actions w').
Proof.
  induction fuel as [|fuel IH]; intros c w w' c' Ht E; cbn [poll] in E.
  - destruct (String.eqb_spec (cn_Status c) ActionConfirmed) as [Hs|]; [by injection E as <- <-|]. by destruct (_ && _).
  - destruct (String.eqb_spec (cn_Status c) ActionConfirmed) as [Hs|]; [by injection E as <- <-|]. destruct (_ && _); [done|].
    unfold wrapped in E. pose proof (br_wait w) as Hw. destruct (sv_Wait s w) as [w1 [[]|e]]; [|done]. cbn [fst] in Hw.
    pose proof (tracked_later _ _ _ _ Ht Hw) as Ht1. assert (Hsteps := Hw).
    pose proof (br_action (cn_ID c) w1 (tracked_reachable _ _ _ Ht1)) as Ha.
    destruct (api_Action (sv_Token s) (cn_ID c) w1) as [w2 [c2|e]]; [|done]. cbn [fst snd] in Ha.
    destruct (IH c2 w2 w' c') as (H1 & H2 & H3); [by eapply tracked_answer|done|].
    destruct Ha as (at_ & a & Ha1 & _ & _ & _ & Ha2). split_and!; try done. etransitivity; [exact Hsteps|].
    etransitivity; [exact Ha1|]. by etransitivity.
Qed.

(** An execution that returns an action returns one the store confirmed, for
    the input that was asked. *)
Lemma execute_confirmed fuel input w w' c :
  sv_API s = Some api -> input_representable input -> reachable config (br_actions w) ->
  execute s fuel input w = Some (w', Ok c) ->
  exists at_ a valid, reachable config at_ /\ rtc (step config) at_ (br_actions w') /\ w_items at_ !! cn_ID c = Some a /\ c = public_action a
  /\ pa_Status a = ActionConfirmed /\ validateProviderActionInput input = Ok valid
  /\ pa_Kind a = pi_Kind valid /\ pa_Offers a = pi_Offers valid
  /\ exists d machine, d ∈ databases (br_actions w') /\ machineAccount (authorized (sv_Token s)) d = Ok (machine, pa_AccountID a).
Proof.
  intros Hapi Hi Hr. unfold execute, start_action. rewrite Hapi. pose proof (br_create input w Hi) as Hc.
  unfold mbind, M_bind, wrapped, lift, mret, M_ret.
  destruct (api_Create (sv_Token s) input w) as [w1 [c1|e]]; [|done]. cbn [fst snd] in Hc.
  destruct (sv_Approval s (cn_ID c1)) as [url|]; [|done].
  destruct Hc as (at_ & a & H1 & Ha & Hc1 & ((valid & V & Hk & Ho) & d & machine & Hd & Hm) & H2).
  assert (tracked (terms_of a) w1 c1) as Ht.
  { exists at_, a. split_and!; try done. by eapply reachable_later. }
  unfold open_approval. destruct (sv_OpenURL s) as [open|] eqn:Eo; [|done].
  pose proof (br_open open url w1 Eo) as Hopen. destruct (open url w1) as [w2 [[]|]]; [|done]. cbn [fst] in Hopen.
  intros E. apply (poll_tracked (terms_of a)) in E as ((at' & a' & Hr' & Hs' & Ha' & -> & Ht') & Hs & Hpoll); [|by eapply tracked_later].
  exists at', a', valid. assert (pa_Kind a' = pa_Kind a /\ pa_Offers a' = pa_Offers a /\ pa_AccountID a' = pa_AccountID a) as (-> & -> & ->)
    by (by injection Ht').
  split_and!; try done. exists d, machine. split; [|done]. eapply (databases_later config at_); [|exact Hd].
  etransitivity; [exact H2|]. by etransitivity.
Qed.
End Execute.

(** ** Publishing *)
Lemma check_offers_single o offers : check_offers ∅ [o] = Ok offers -> offers = [trim_offer o].
Proof. cbn [check_offers]. intros E. step_ok E as u C. by injection E as <-. Qed.

Lemma publish_valid o valid :
  validateProviderActionInput (mkProviderActionInput ActionPublishOffer "" [o]) = Ok valid ->
  pi_Kind valid = ActionPublishOffer /\ pi_Offers valid = [trim_offer o].
Proof.
  unfold validateProviderActionInput. cbn [pi_Kind pi_AmountWei pi_Offers].
  change (TrimSpace ActionPublishOffer) with ActionPublishOffer.
  change (String.eqb ActionPublishOffer ActionDepositCollateral) with false.
  change (String.eqb ActionPublishOffer ActionRequestCollateralExit || String.eqb ActionPublishOffer ActionFinalizeCollateralExit) with false.
  change (String.eqb ActionPublishOffer ActionPublishOffer) with true. cbv iota.
  destruct (_ || _); [done|]. intros E. step_ok E as offers C. injection E as <-. by apply check_offers_single in C as ->.
Qed.

Lemma offerShape_sorted b : compact (sort_strings (fst (offerShape b))) = fst (offerShape b).
Proof. unfold offerShape. by destruct (_ || _). Qed.

Lemma digits_utf8 s : forall acc, is_Some (parse_digits acc s) -> utf8 s.
Proof.
  unfold utf8, valid_utf8. induction s as [|c s IH]; intros acc Hp; [done|]. cbn [parse_digits] in Hp. unfold digit_of in Hp.
  destruct ((48 <=? byte_of c) && (byte_of c <=? 57)) eqn:E; [|by destruct Hp].
  cbn [coerce_utf8]. replace (byte_of c <? 128) with true by lia. specialize (IH _ Hp). apply String.eqb_eq in IH. rewrite IH.
  apply String.eqb_refl.
Qed.

Lemma BigString_utf8 n : 0 <= n -> utf8 (BigString n).
Proof.
  intros Hn. pose proof (parse_nat_format n Hn) as Hp. unfold BigString. replace (n <? 0) with false by lia.
  apply (digits_utf8 _ 0). destruct (format_nat n); [done|]. unfold parse_nat in Hp. by eexists.
Qed.

Lemma ParseMON_utf8 value wei : ParseMON value = Ok wei -> utf8 wei.
Proof.
  intros H. destruct (ParseMON_Ok value wei H) as (whole & fraction & Hw). rewrite (ParseMON_written _ _ _ Hw) in H.
  pose proof Hw as [[Hne Dw] [Df Hl] _]. rewrite wei_amount_spec in H by done. destruct (_ <? _); [done|]. injection H as <-.
  apply BigString_utf8. destruct (decimalDigits_digits whole Dw), (decimalDigits_digits fraction Df). unfold mon_wei. lia.
Qed.

Lemma offerShape_utf8 b : Forall utf8 (fst (offerShape b)) /\ utf8 (snd (offerShape b)).
Proof. unfold offerShape. destruct (_ || _); split; repeat constructor. Qed.

Lemma EffectiveOfferID_utf8 b : backend_representable b -> utf8 (EffectiveOfferID b).
Proof.
  unfold backend_representable, EffectiveOfferID. rewrite !Forall_cons. intros [Hs _]. destruct_and?. by destruct (String.eqb _ _).
Qed.

(** What [priced_offer] makes of the prices. *)
Lemma priced_offer_spec b rates o : priced_offer b rates = Ok o ->
  ParseMON (ra_InputPerMillionMON rates) = Ok (po_InputPerMillionWei o)
  /\ ParseMON (ra_OutputPerMillionMON rates) = Ok (po_OutputPerMillionWei o)
  /\ ParseMON (ra_ComputePerSecondMON rates) = Ok (po_ComputePerSecondWei o)
  /\ po_OfferID o = EffectiveOfferID b /\ po_Model o = bk_Model b /\ po_Kind o = bk_Kind b
  /\ po_Capabilities o = fst (offerShape b) /\ po_MeteringMode o = snd (offerShape b).
Proof.
  unfold priced_offer. intros E. step_ok E as i Hi. step_ok E as out Ho. step_ok E as c Hc.
  destruct (ParseMON (ra_InputPerMillionMON rates)); [|done]. destruct (ParseMON (ra_OutputPerMillionMON rates)); [|done].
  destruct (ParseMON (ra_ComputePerSecondMON rates)); [|done]. injection Hi as ->. injection Ho as ->. injection Hc as ->.
  destruct (offerShape b). injection E as <-. done.
Qed.

Lemma priced_offer_representable b rates o :
  backend_representable b -> priced_offer b rates = Ok o -> input_representable (mkProviderActionInput ActionPublishOffer "" [o]).
Proof.
  intros Hb (Hi & Ho & Hc & Eid & Em & Ek & Ecap & Emet)%priced_offer_spec.
  apply ParseMON_utf8 in Hi, Ho, Hc. pose proof (EffectiveOfferID_utf8 b Hb) as Hid. destruct (offerShape_utf8 b) as [Hcap Hmet].
  destruct Hb as [Hb _]. rewrite !Forall_cons in Hb. destruct_and?.
  split; [by repeat constructor|]. constructor; [|done]. split; [|by rewrite Ecap].
  rewrite Eid, Em, Ek, Emet. by repeat constructor.
Qed.

Section Publish.
Context `{Ethereum} (config : ProviderAccountConfig) {W : Type} (s : Service (W := W)) (api : ProviderAPI (W := W)).
Context `{!Broker config s api} `{!ConfigStore s}.

(** What [record_version] leaves in the configuration. *)
Lemma record_version_spec b action w w' : record_version s b action w = (w', Ok tt) ->
  let version := default 0 (cn_Versions action !! EffectiveOfferID b) in
  version <> 0 /\ cs_config s w' = set_backends (change_first (named b) (set_version version) (cf_Backends (cs_config s w))) (cs_config s w)
  /\ exists item, List.find (named b) (cf_Backends (cs_config s w')) = Some item /\ bk_PriceVersion item = version.
Proof.
  unfold record_version. destruct (sv_LoadConfig s) as [load|] eqn:El; [|done]. destruct (sv_SaveConfig s) as [save|] eqn:Es; [|done].
  unfold mbind, M_bind. destruct (load w) as [w1 [cfg|]] eqn:E1; [|done]. destruct (cs_load s load w w1 cfg El E1) as [-> ->].
  destruct (negb _) eqn:G; [done|]. apply negb_false_iff, existsb_find in G as [item0 Hf].
  destruct (default 0 (cn_Versions action !! EffectiveOfferID b) =? 0) eqn:Z0; [done|]. intros E2.
  pose proof (cs_save s save _ _ _ Es E2) as Hc. cbv zeta. split; [lia|]. split; [exact Hc|].
  exists (set_version (default 0 (cn_Versions action !! EffectiveOfferID b)) item0). split; [|done].
  rewrite Hc. cbn [set_backends cf_Backends]. rewrite find_change_first by done. unfold named. by rewrite Hf.
Qed.

Lemma record_version_steps b action w :
  rtc (step config) (br_actions w) (br_actions (fst (record_version s b action w))).
Proof.
  unfold record_version. destruct (sv_LoadConfig s) as [load|] eqn:El; [|done]. destruct (sv_SaveConfig s) as [save|] eqn:Es; [|done].
  unfold mbind, M_bind. pose proof (br_load load w El) as H1. destruct (load w) as [w1 [cfg|]]; [|done].
  destruct (negb _); [done|]. destruct (_ =? 0); [done|]. etransitivity; [exact H1|]. by apply br_save.
Qed.

(** C13. Publishing an offer from the command line is true of the chain: when
    [Publish] succeeds, the token of the service was, in one of the databases the
    broker has had, that of a machine; one of those databases showed on the chain an offer of the
    wallet of that machine's account, with the backend's offer identifier, model and
    capabilities, at exactly the prices in MON that were given; and the version
    now in the configuration of the backend is the version of that offer.  The
    broker takes only steps of its own meanwhile, whatever others ask of it
    ([Broker]); the backend's texts are UTF-8. *)
Theorem publication_on_chain fuel b rates w w' :
  sv_API s = Some api -> backend_representable b -> reachable config (br_actions w) ->
  Publish s fuel b rates w = Some (w', Ok tt) ->
  exists d0 machine account d wallet row item,
    d0 ∈ databases (br_actions w') /\ machineAccount (authorized (sv_Token s)) d0 = Ok (machine, account)
    /\ d ∈ databases (br_actions w') /\ account_wallet account d = Ok wallet
    /\ row ∈ chain_offers d /\ own_offer config wallet row = true
    /\ co_offer row = Keccak256Hex (EffectiveOfferID b) /\ co_model_hash row = Keccak256Hex (TrimSpace (bk_Model b))
    /\ co_capability_hash row = Keccak256Hex (GoStrings.Join (fst (offerShape b)) ",")
    /\ ParseMON (ra_InputPerMillionMON rates) = Ok (BigString (co_input row))
    /\ ParseMON (ra_OutputPerMillionMON rates) = Ok (BigString (co_output row))
    /\ ParseMON (ra_ComputePerSecondMON rates) = Ok (BigString (co_compute row))
    /\ List.find (named b) (cf_Backends (cs_config s w')) = Some item /\ bk_PriceVersion item = wrap64 (co_version row).
Proof.
  intros Hapi Hb Hr E. unfold Publish in E. destruct (priced_offer b rates) as [o|] eqn:P; [|done].
  pose proof (priced_offer_representable b rates o Hb P) as Hi.
  destruct (priced_offer_spec b rates o P) as (Hin & Hout & Hcomp & Eid & Em & _ & Ecap & _).
  destruct (execute s fuel _ w) as [[w1 [c|e]]|] eqn:X; [|done..].
  destruct (execute_confirmed config s api fuel _ w w1 c Hapi Hi Hr X) as
    (at_ & a & valid & Hr' & Hat & Ha & -> & Hs & V & Hk & Ho & d0 & machine & Hd0 & Hm).
  apply publish_valid in V as [Vk Vo]. rewrite Vk in Hk. rewrite Vo in Ho. injection E as E.
  pose proof (record_version_steps b (public_action a) w1) as Hrec. rewrite E in Hrec. cbn [fst] in Hrec.
  apply record_version_spec in E as (Hnz & _ & item & Hitem & Hv). cbn [public_action cn_Versions] in Hnz, Hv.
  destruct (pa_Versions a !! EffectiveOfferID b) as [version|] eqn:L; [|done].
  assert (EffectiveOfferID b = po_OfferID (trim_offer o)) as Eoffer.
  { pose proof (confirmed_versions_offered config at_ _ a (EffectiveOfferID b) Hr' Ha Hs Hk ltac:(by eexists)) as Hin'.
    rewrite Ho in Hin'. by apply list_elem_of_singleton in Hin'. }
  destruct (confirmed_offer_on_chain config at_ _ a (trim_offer o) Hr' Ha Hs Hk) as
    (d & wallet & row & Hd & Hw & Hrow & Hown & H1 & H2 & H3 & H4 & H5 & H6 & H7 & _); [rewrite Ho; by left|].
  rewrite <- Eoffer in H1, H7. rewrite L in H7. injection H7 as ->.
  exists d0, machine, (pa_AccountID a), d, wallet, row, item. cbn [trim_offer po_Model po_Capabilities po_InputPerMillionWei po_OutputPerMillionWei
    po_ComputePerSecondWei] in H2, H3, H4, H5, H6.
  rewrite Em in H2. rewrite Ecap, offerShape_sorted in H3. rewrite Hin, Hout, Hcomp, H4, H5, H6.
  split_and!; try done.
  - by eapply databases_later, Hd0.
  - eapply (databases_later config at_); [|exact Hd]. by etransitivity.
  - rewrite H3. unfold offerShape. by destruct (_ || _).
Qed.
End Publish.

(** ** The client of the CLI over the broker's handlers *)
Section OverHttp.
Context `{Ethereum} (config : ProviderAccountConfig) {W : Type}.
Context (send : Request -> W -> W * result Response) (fits : json -> bool) (status_text : Z -> string) (error_text : error -> string).

(** The API of a service: the client over [send]. *)
Definition client_api : ProviderAPI :=
  mkProviderAPI (get_account send fits status_text error_text) (CreateProviderAction send fits status_text error_text)
    (get_action send fits status_text error_text) (get_versions send fits status_text error_text).

(** A request served from [from], which leaves the actions of [to]; bodies are
    JSON texts, so what the store holds is UTF-8, with the clock in the years of RFC 3339. *)
Definition handled (r : Request) (from to : World) (response : Response) : Prop :=
  rtc (step config) from to /\ map_Forall (fun _ => action_representable) (w_items to)
  /\ exists now purged random, serve_actions config now purged random r (w_Db from) (w_items from) = (w_items to, response).

(** The broker behind [send]: every request about actions is handled, or lost,
    while others use the store. *)
Class Transport := mkTransport {
  tr_actions : W -> World;
  tr_served : forall r w w' response, take 3 (ht_Path r) = ["api"; "provider"; "actions"] ->
    send r w = (w', Ok response) ->
    exists from to, rtc (step config) (tr_actions w) from /\ handled r from to response /\ rtc (step config) to (tr_actions w');
  tr_lost : forall r w w' e, send r w = (w', Err e) -> rtc (step config) (tr_actions w) (tr_actions w');
}.

Lemma handled_later r from to response : handled r from to response -> rtc (step config) from to.
Proof. by intros [Hs _]. Qed.

Lemma interpret_Ok {T} (decode : json -> option T) r t : interpret fits status_text error_text decode r = Ok t ->
  (hp_Status r = 200 \/ hp_Status r = 201) /\ exists v, hp_Body r = Json v /\ decode v = Some t.
Proof.
  unfold interpret. destruct (_ || _) eqn:Hst; [|by repeat destruct (_ =? _)].
  destruct (hp_Body r) as [| | |v] eqn:B; try done. destruct (fits v); [|done]. destruct (decode v) eqn:D; [|done].
  intros [= <-]. split; [lia|]. by exists v.
Qed.

(** A creation that is answered with an action has filed it, for its input. *)
Lemma create_answered now purged random r d items items' response v :
  create config now purged random r d items = (items', response) -> hp_Body response = Json v ->
  exists a input valid, v = action_json a /\ items' !! pa_ID a = Some a
  /\ decodeProviderActionJSON r action_input_fields (mkProviderActionInput "" "" []) = Some input
  /\ validateProviderActionInput input = Ok valid /\ pa_Kind a = pi_Kind valid /\ pa_Offers a = pi_Offers valid
  /\ exists source machine, identity now r d = Ok (source, machine, pa_AccountID a).
Proof.
  unfold create. destruct (identity now r d) as [[[source machineID] accountID]|]; [|by intros [= <- <-]].
  destruct (decodeProviderActionJSON _ _ _) as [input|] eqn:D; [|by intros [= <- <-]].
  destruct (prepareProviderAction _ _ _ _ _ _) as [[wallet baseline]|]; [|by intros [= <- <-]].
  unfold Create. destruct (_ || _); [by intros [= <- <-]|].
  destruct (validateProviderActionInput input) as [valid|] eqn:V; [|by intros [= <- <-]].
  destruct (providerActionID random) as [id|]; [|by intros [= <- <-]]. destruct (_ <=? _); [by intros [= <- <-]|].
  intros [= <- <-] [= <-]. eexists _, input, valid. split; [reflexivity|]. cbn [pa_ID pa_Kind pa_Offers pa_AccountID].
  rewrite lookup_insert_eq. split_and!; try done. by exists source, machineID.
Qed.

(** A reading that is answered with an action found it in the store. *)
Lemma get_answered now r d items items' response v :
  (forall id a, items !! id = Some a -> pa_ID a = id) ->
  get config now r d items = (items', response) -> hp_Body response = Json v ->
  exists a, v = action_json a /\ items' !! pa_ID a = Some a /\ pa_ID a = path_value 3 (ht_Path r).
Proof.
  intros Hid. unfold get, GetForAccount. destruct (identity now r d) as [[[source machineID] accountID]|]; [|by intros [= <- <-]].
  destruct (find_live now (path_value 3 (ht_Path r)) accountID items) as [items1 res] eqn:F.
  apply find_live_spec in F as [_ Hres]. destruct res as [a|]; [|by intros [= <- <-]].
  destruct (Hres a eq_refl) as (-> & Ha & _). pose proof (Hid _ _ Ha) as Ea.
  destruct (_ && _); [by intros [= <- <-]|]. destruct (String.eqb (pa_Status a) ActionPendingChain).
  - destruct (verifyProviderAction config a d) as [[versions []]|]; [| |by intros [= <- <-]].
    + unfold Confirm. rewrite Ea, Ha. destruct (negb _); [by intros [= <- <-]|]. intros [= <- <-] [= <-].
      exists (set_confirmed (cloneActionVersions versions) a). split; [done|]. cbn [pa_ID set_confirmed]. rewrite Ea.
      by rewrite lookup_insert_eq.
    + intros [= <- <-] [= <-]. exists a. rewrite Ea. done.
  - intros [= <- <-] [= <-]. exists a. rewrite Ea. done.
Qed.

Context `{!Transport} (s : Service (W := W)).
Context (wait_outside : forall w, rtc (step config) (tr_actions w) (tr_actions (fst (sv_Wait s w)))).
Context (open_outside : forall open url w, sv_OpenURL s = Some open ->
  rtc (step config) (tr_actions w) (tr_actions (fst (open url w)))).
Context (load_outside : forall load w, sv_LoadConfig s = Some load ->
  rtc (step config) (tr_actions w) (tr_actions (fst (load w)))).
Context (save_outside : forall save c w, sv_SaveConfig s = Some save ->
  rtc (step config) (tr_actions w) (tr_actions (fst (save c w)))).

Lemma get_route id :
  find_route NewProviderActions "GET" ["api"; "provider"; "actions"; id] = if String.eqb id "" then None else Some GetE.
Proof. cbn. by destruct (String.eqb id ""). Qed.

(** A request of the service: the broker answers an action it shows, or fails. *)
Lemma request_answers method path token input (about : World -> ProviderAction -> Prop) w :
  let r := mkRequest method path "" (bearer token) (match input with Some _ => "application/json" | None => "" end) None input in
  take 3 path = ["api"; "provider"; "actions"] ->
  (forall from to now purged random response v, rtc (step config) (tr_actions w) from -> rtc (step config) from to ->
     serve_actions config now purged random r (w_Db from) (w_items from) = (w_items to, response) -> hp_Body response = Json v ->
     exists a, v = action_json a /\ w_items to !! pa_ID a = Some a /\ about to a) ->
  let out := request send fits status_text error_text method path token input
               (fun v => decode_loose action_fields v zero_action) w in
  answers config about (tr_actions w) (tr_actions (fst out)) (snd out).
Proof.
  intros r Hroute Hserve. unfold request. fold (bearer token). fold r. destruct (send r w) as [w' [response|e]] eqn:E; [|by eapply tr_lost].
  destruct (tr_served r w w' response Hroute E) as (from & to & H1 & (H2 & Ht & now & purged & random & S) & H3).
  cbn [fst snd]. destruct (interpret _ _ _ _ response) as [c|e] eqn:I.
  - apply interpret_Ok in I as (_ & v & B & D). destruct (Hserve _ _ _ _ _ _ v H1 H2 S B) as (a & -> & Ha & Hab).
    rewrite decode_public_action in D by exact (Ht _ _ Ha). injection D as <-.
    exists to, a. split_and!; try done. by etransitivity.
  - cbn. etransitivity; [exact H1|]. by etransitivity.
Qed.

(** A request with a machine's token and no cookie acts for that machine. *)
Lemma bearer_identity now method path origin type token input d source machine account :
  identity now (mkRequest method path origin (bearer (TrimSpace token)) type None input) d = Ok (source, machine, account) ->
  machineAccount (authorized token) d = Ok (machine, account).
Proof.
  unfold identity. cbn [ht_Authorization]. destruct (negb (is_blank (bearer (TrimSpace token)))); [|done].
  change (machineAccount (mkRequest method path origin (bearer (TrimSpace token)) type None input) d) with (machineAccount (authorized token) d).
  destruct (machineAccount (authorized token) d) as [[m a]|]; [|done]. intros E. by injection E as _ <- <-.
Qed.

#[export] Instance client_broker : Broker config s client_api.
Proof.
  refine (mkBroker config s client_api tr_actions _ _ wait_outside open_outside load_outside save_outside).
  - intros input w Hi. cbn [client_api api_Create]. unfold CreateProviderAction, authorizedRequest.
    apply request_answers; [done|]. intros from to now purged random response v _ Hto S B.
    destruct (create_answered _ _ _ _ _ _ _ _ v S B) as (a & input' & valid & -> & Ha & D & V & Hk & Ho & source & machine & Hm).
    unfold decodeProviderActionJSON in D. cbn [ht_Body] in D.
    change (Some (action_input_json input) ≫= ?f) with (f (action_input_json input)) in D. cbv beta in D.
    rewrite decode_action_input in D by done. injection D as <-. exists a. split; [done|]. split; [exact Ha|]. split; [exists valid; by split_and!|].
    exists (w_Db from), machine. split; [|apply (bearer_identity _ _ _ _ _ _ _ _ _ _ _ Hm)]. eapply databases_later; [exact Hto|]. by left.
  - intros id w Hr. cbn [client_api api_Action]. unfold get_action, authorizedRequest.
    apply request_answers; [done|]. intros from to now purged random response v Hfrom _ S B.
    pose proof (reachable_later config _ _ Hr Hfrom) as Hok.
    unfold serve_actions in S. cbn [ht_Method ht_Path] in S. rewrite get_route in S.
    destruct (String.eqb id ""); [injection S as <- <-; unfold no_route in B; by destruct (path_known _ _)|].
    apply (get_answered now _ (w_Db from) (w_items from) (w_items to) response v) in S as (a & -> & Ha & Hid); [|clear S|exact B].
    + exists a. by split_and!.
    + intros id' a Ha. by destruct (wo_items config from (reachable_world_ok config from Hok) id' a Ha).
Defined.
End OverHttp.

(** ** A concrete publication

    The CLI publishes its backend at a new price: the browser submits the
    transaction when the approval page is opened, and the chain shows the offer
    when the action is read. *)
Module PublishRun.
Definition config : ProviderAccountConfig := mkProviderAccountConfig 1 contract_address "" 2 "1000".
Definition backend : Backend := mkBackend "local" "o1" "ollama" "http://127.0.0.1:11434" "llama" 1 true "".
Definition other_backend : Backend := mkBackend "spare" "o2" "ollama" "http://127.0.0.1:11434" "qwen" 5 true "".
Definition rates : Rates := mkRates "0.000000000000000002" "0.000000000000000003" "0.000000000000000006".
Definition offer : ProviderActionOffer :=
  mkProviderActionOffer "o1" "llama" "ollama" ["stream"; "text"] "tokens_and_compute" "2" "3" "6".
Definition input : ProviderActionInput := mkProviderActionInput ActionPublishOffer "" [offer].
Definition token : string := Eval vm_compute in
  match Auth.ExchangeDeviceAuthorization 3 (replicate 12 7) (replicate 32 8) device_code db_4 with
  | Ok (_, secret, _) => secret
  | Err _ => ""
  end.
Definition republished : Db := Eval vm_compute in
  value_of (sample_event (OfferPublished provider_wallet (Keccak256Hex "o1") 2 (Keccak256Hex "llama")
                            (Keccak256Hex "stream,text") 2 3 6) db_ready).
Definition id : string := Eval vm_compute in randomToken (replicate 24 1).
Definition baseline : ProviderActionBaseline := mkProviderActionBaseline "100000" "0" 0 {["o1" := 1]}.
Definition transaction : string := Eval vm_compute in hashHex (replicate 32 7).

Definition prepared : Prepared := mkPrepared ActionSourceMachine machine_id "provider" input provider_wallet baseline.
Definition w0 : World := initial db_ready.
Definition w1 : World :=
  mkWorld db_ready [] (fst (created_by 100 100 (Ok (replicate 24 1)) prepared ∅)) {[id]} [prepared] [].
Definition w2 : World := mkWorld republished [db_ready] (fst (Submitted 101 id "provider" [transaction] (w_items w1))) {[id]} [prepared] [].
Definition w3 : World :=
  mkWorld republished [db_ready] (fst (Confirm id "provider" {["o1" := 2]} (w_items w2))) {[id]} [prepared]
    [(id, "provider", {["o1" := 2]})].

Lemma creates : rtc (step config) w0 w1.
Proof.
  set (p := mkWorld db_ready [] ∅ ∅ [prepared] []). apply (rtc_l _ _ p).
  - do 2 eexists. apply (do_prepare config w0 99). vm_compute. reflexivity.
  - apply rtc_once. do 2 eexists. assert (draw (Ok (replicate 24 1)) ∪ w_used p = {[id]}) as Hu by (vm_compute; reflexivity).
    pose proof (do_create config p 100 100 (Ok (replicate 24 1)) prepared ltac:(by left) ltac:(intros x _; apply not_elem_of_empty)) as Hd.
    rewrite Hu in Hd. exact Hd.
Qed.
(** The user submits, and the indexer applies the offer. *)
Lemma submits : rtc (step config) w1 w2.
Proof.
  set (p := mkWorld db_ready [] (w_items w2) {[id]} [prepared] []). apply (rtc_l _ _ p).
  - do 2 eexists. exact (do_submitted config w1 101 id "provider" [transaction]).
  - apply rtc_once. do 2 eexists. exact (do_database config p 101 republished).
Qed.
Lemma confirms : rtc (step config) w2 w3.
Proof.
  set (v := mkWorld republished [db_ready] (w_items w2) {[id]} [prepared] [(id, "provider", {["o1" := 2]})]).
  apply (rtc_l _ _ v).
  - do 2 eexists. pose proof (do_get config w2 102 id "provider") as Hd.
    assert (verified_by config "provider" (snd (GetForAccount 102 id "provider" (w_items w2))) republished = [(id, "provider", {["o1" := 2]})])
      as Hv by (vm_compute; reflexivity).
    assert (fst (GetForAccount 102 id "provider" (w_items w2)) = w_items w2) as Hi by (vm_compute; reflexivity).
    change (w_Db w2) with republished in Hd. rewrite Hv, Hi in Hd. exact Hd.
  - apply rtc_once. do 2 eexists. exact (do_confirm config v 102 id "provider" {["o1" := 2]} ltac:(by left)).
Qed.

(** The broker behind the client, and the configuration file. *)
Record Site := mkSite { si_Phase : nat; si_Config : Config }.
Definition actions_of (site : Site) : World :=
  match si_Phase site with O => w0 | 1%nat => w1 | 2%nat => w2 | _ => w3 end.
#[local] Instance ProviderActionOffer_eq_dec : EqDecision ProviderActionOffer.
Proof. solve_decision. Defined.
#[local] Instance ProviderActionBaseline_eq_dec : EqDecision ProviderActionBaseline.
Proof. solve_decision. Defined.
#[local] Instance ProviderAction_eq_dec : EqDecision ProviderAction.
Proof. solve_decision. Defined.
(** A request that takes the store from one phase to the next is served. *)
Definition served (r : Request) (now : Z) (next : World) (site : Site) : Site * result Response :=
  let '(items, response) :=
    serve_actions config now now (Ok (replicate 24 1)) r (w_Db (actions_of site)) (w_items (actions_of site)) in
  if decide (items = w_items next) then (mkSite (S (si_Phase site)) (si_Config site), Ok response)
  else (site, Err ErrDisconnected).
Definition send (r : Request) (site : Site) : Site * result Response :=
  match si_Phase site with
  | O => served r 100 w1 site
  | 2%nat => served r 102 w3 site
  | _ => (site, Err ErrDisconnected)
  end.
Definition fits (_ : json) : bool := true.
Definition status_text (_ : Z) : string := "".
Definition error_text (_ : error) : string := "".
(** The user opens the page and submits the transaction. *)
Definition approve (_ : string) (site : Site) : Site * result unit :=
  (mkSite (match si_Phase site with 1%nat => 2%nat | phase => phase end) (si_Config site), Ok tt).
Definition api : ProviderAPI := client_api send fits status_text error_text.
Definition service : Service :=
  mkService (Some api) token machine_id (fun id => Ok ("https://web/provider/approve?action=" +:+ id))
    (Some (fun site => (site, Ok (si_Config site))))
    (Some (fun c site => (mkSite (si_Phase site) c, Ok tt)))
    (Some approve) (fun site => (site, Ok tt)) (fun _ => 101).
Definition before : Site :=
  mkSite 0 (mkConfig "https://api" "provider" machine_id 1 contract_address "" [other_backend; backend]).
Definition after : Site * result unit := Eval vm_compute in
  match Publish service 3 backend rates before with Some out => out | None => (before, Err ErrExpired) end.

Definition opened_action : ProviderAction :=
  mkProviderAction id ActionPublishOffer ActionPendingWallet provider_wallet "" [offer] [] ∅ (100 + providerActionTTL)
    machine_id "provider" baseline.
Lemma text_only w id a : w = w1 \/ w = w3 -> w_items w !! id = Some a -> action_representable a.
Proof.
  assert (w_items w1 = {[PublishRun.id := opened_action]}) as E1 by (vm_compute; reflexivity).
  assert (w_items w3 = {[PublishRun.id := set_confirmed {["o1" := 2]} (set_submitted [transaction] opened_action)]}) as E3
    by (vm_compute; reflexivity).
  intros [-> | ->]; rewrite ?E1, ?E3; intros [_ <-]%lookup_singleton_Some.
  all: split; [by repeat constructor|]; split; [by repeat constructor|]; split; [by repeat constructor|].
  all: split; [|vm_compute; split; discriminate].
  - apply map_Forall_empty.
  - by apply map_Forall_singleton.
Qed.

Lemma served_handled r now next site site' response :
  served r now next site = (site', Ok response) -> rtc (step config) (actions_of site) next -> next = w1 \/ next = w3 ->
  handled config r (actions_of site) next response /\ si_Phase site' = S (si_Phase site).
Proof.
  unfold served. destruct (serve_actions _ _ _ _ r _ _) as [items res] eqn:S. destruct (decide (items = w_items next)) as [->|]; [|done].
  intros [= <- <-] Hs Hn. split; [|done]. split; [done|]. split; [intros id a; by apply text_only|]. by exists now, now, (Ok (replicate 24 1)).
Qed.

Lemma served_lost r now next site site' e : served r now next site = (site', Err e) -> site' = site.
Proof. unfold served. destruct (serve_actions _ _ _ _ r _ _) as [items res]. destruct (decide _); [done|]. by intros [= <- _]. Qed.

#[local] Instance site_transport : Transport config send.
Proof.
  refine (mkTransport config send actions_of _ _).
  - intros r [[|[|[|phase]]] c] site' response _; cbn [send si_Phase]; try done; intros E.
    + apply served_handled in E as [Hh Hp]; [|exact creates|by left]. exists w0, w1. split; [done|].
      split; [done|]. unfold actions_of. by rewrite Hp.
    + apply served_handled in E as [Hh Hp]; [|exact confirms|by right]. exists w2, w3. split; [done|]. split; [done|].
      unfold actions_of. by rewrite Hp.
  - intros r [[|[|[|phase]]] c] site' e; cbn [send si_Phase].
    + by intros ->%served_lost.
    + by intros [= <- _].
    + by intros ->%served_lost.
    + by intros [= <- _].
Defined.

#[local] Instance site_broker : Broker config service api.
Proof.
  apply (client_broker config send fits status_text error_text service).
  - done.
  - intros open url site [= <-]. unfold approve. destruct (si_Phase site) as [|[|[|]]] eqn:E; cbn; unfold tr_actions; cbn;
      unfold actions_of; rewrite E; cbn; try done. exact submits.
  - by intros load site [= <-].
  - by intros save c site [= <-].
Defined.
#[local] Instance site_store : ConfigStore service.
Proof.
  refine (mkConfigStore _ service si_Config _ _).
  - intros load site site' c [= <-] [= <- <-]. done.
  - intros save c site site' [= <-] [= <-]. done.
Defined.

Lemma publication_on_chain_witness :
  exists d0 machine account d wallet row item,
    d0 ∈ [republished; db_ready] /\ machineAccount (authorized token) d0 = Ok (machine, account)
    /\ d ∈ [republished; db_ready] /\ account_wallet account d = Ok wallet /\ row ∈ chain_offers d /\ BigString (co_input row) = "2"
    /\ List.find (named backend) (cf_Backends (si_Config (fst after))) = Some item /\ bk_PriceVersion item = wrap64 (co_version row).
Proof.
  assert (backend_representable backend) as Hb by (repeat constructor; vm_compute; intuition discriminate).
  destruct (publication_on_chain config service api 3 backend rates before (fst after) eq_refl Hb) as
    (d0 & machine & account & d & wallet & row & item & Hd0 & Hm & Hd & Hw & Hrow & _ & _ & _ & _ & Hin & _ & _ & Hitem & Hv).
  - exists db_ready. apply rtc_refl.
  - vm_compute. reflexivity.
  - exists d0, machine, account, d, wallet, row, item. split; [exact Hd0|]. split; [exact Hm|]. split; [exact Hd|].
    split; [exact Hw|]. split; [exact Hrow|]. split; [|split; [exact Hitem|exact Hv]].
    vm_compute in Hin. injection Hin as Hin. symmetry. exact Hin.
Defined.
End PublishRun.
