(* ===== verification/Realtime.v ===== *)
(** * The stream of a request's events (server/internal/realtime/events.go)

    [ServeHTTP] consumes a stream ticket and then writes the events of the
    account's requests as server-sent events, from the cursor of the client on:
    it reads the outbox in batches of 100, and waits a second when there is
    nothing new.  A connection takes a number of frames and then fails
    ([wt_Room]); the polls of a connection see the states of the database at
    those times, or its error. *)

From S2P Require Import Prelude GoStrings Wire Db Hex Http Auth Store Settlement Indexer Sample Ledger StoreSpec SettlementSpec Outbox.
From stdpp Require Import relations.
Open Scope string_scope.
Open Scope list_scope.
Open Scope Z_scope.

(** ** The query *)
(** The joins on [requests] and [sessions], whose identifiers are primary keys. *)
Definition owned (accountID : string) (d : Db) (o : OutboxRow) : bool :=
  String.eqb (ob_aggregate_type o) "request"
  && exists_row (fun r => String.eqb (rq_id r) (ob_aggregate_id o)
       && exists_row (fun s => String.eqb (se_id s) (rq_session r) && String.eqb (se_account s) accountID) (sessions d))
       (requests d).
Definition available (cursor : Z) (accountID : string) (d : Db) : list OutboxRow :=
  firstn 100 (order_by ob_id (select (fun o => (cursor <? ob_id o) && owned accountID d o) (outbox d))).

(** ** Writing *)
(** ["id: %d\nevent: %s\ndata: %s\n\n"]; the payload has the two states. *)
Record Frame := mkFrame { fr_id : Z; fr_event : string; fr_from : string; fr_to : string }.
Definition frame_of (o : OutboxRow) : Frame := mkFrame (ob_id o) (ob_event_type o) (ob_from o) (ob_to o).

Record Writer := mkWriter { wt_Frames : list Frame; wt_Room : nat }.
Definition write_frame (f : Frame) (w : Writer) : Writer * result unit :=
  match wt_Room w with
  | O => (w, Err ErrDisconnected)
  | S room => (mkWriter (wt_Frames w ++ [f]) room, Ok tt)
  end.

Fixpoint write_rows (rows : list OutboxRow) (cursor : Z) (w : Writer) : Writer * Z * result unit :=
  match rows with
  | [] => (w, cursor, Ok tt)
  | o :: rest =>
      match write_frame (frame_of o) w with
      | (w, Err e) => (w, cursor, Err e)
      | (w, Ok _) => write_rows rest (ob_id o) w
      end
  end.
Definition writeAvailable (database : result Db) (cursor : Z) (accountID : string) (w : Writer) : Writer * Z * result unit :=
  match database with
  | Err e => (w, cursor, Err e)
  | Ok d => write_rows (available cursor accountID d) cursor w
  end.

(** The loop of [ServeHTTP] over its polls, until the request is done. *)
Fixpoint event_loop (polls : list (result Db)) (cursor : Z) (accountID : string) (w : Writer) : Writer :=
  match polls with
  | [] => w
  | database :: polls =>
      match writeAvailable database cursor accountID w with
      | (w, _, Err _) => w
      | (w, next, Ok _) => event_loop polls (if cursor <? next then next else cursor) accountID w
      end
  end.

(** [strconv.ParseInt(s, 10, 64)] whose error is ignored: zero for no number,
    the nearest number in range. *)
Definition int64_range (n : Z) : Z := Z.max (- 2 ^ 63) (Z.min (2 ^ 63 - 1) n).
Definition lastEventID (header : string) : Z := int64_range (default 0 (SetString10 header)).

Definition event_headers : list (string * string) :=
  [("Content-Type", "text/event-stream"); ("Cache-Control", "no-cache"); ("Referrer-Policy", "no-referrer")].
(** [streaming] tells whether the response can be flushed; the ticket of the
    query is consumed by [authorize]. *)
Definition ServeEvents (authorize : string -> Db -> result (string * Db)) (ticket header : string) (streaming : bool)
    (polls : list (result Db)) (room : nat) (d : Db) : Db * Response * list Frame :=
  let unauthorized := http_error 401 "unauthorized" in
  match authorize ticket d with
  | Err _ => (d, unauthorized, [])
  | Ok (accountID, d) =>
      if String.eqb ticket "" || String.eqb accountID "" then (d, unauthorized, [])
      else if negb streaming then (d, http_error 500 "streaming unavailable", [])
      else (d, mkResponse 200 KeepCookie NoBody event_headers,
            wt_Frames (event_loop polls (lastEventID header) accountID (mkWriter [] room)))
  end.

(** ** The outbox only grows *)
(** What of an event never changes. *)
Definition static (o : OutboxRow) : OutboxRow :=
  mkOutboxRow (ob_id o) (ob_aggregate_type o) (ob_aggregate_id o) (ob_event_type o) (ob_from o) (ob_to o) None.

(** Events are appended with new identifiers; requests keep their session and
    sessions their account. *)
Record grows (d d' : Db) : Prop := mkGrows {
  gr_events : exists new, map static (outbox d') = map static (outbox d) ++ new
    /\ forall n, n ∈ new -> 0 < ob_id n /\ forall o, o ∈ outbox d -> ob_id o < ob_id n;
  gr_sorted : StronglySorted Z.lt (map ob_id (outbox d)) -> StronglySorted Z.lt (map ob_id (outbox d'));
  gr_requests : forall r, r ∈ requests d -> exists r', r' ∈ requests d' /\ rq_id r' = rq_id r /\ rq_session r' = rq_session r;
  gr_sessions : forall s, s ∈ sessions d -> exists s', s' ∈ sessions d' /\ se_id s' = se_id s /\ se_account s' = se_account s;
}.

Lemma grows_tables d d' : outbox d' = outbox d -> requests d' = requests d -> sessions d' = sessions d -> grows d d'.
Proof.
  intros Ho Hr Hs. split; rewrite ?Ho, ?Hr, ?Hs; [|by eauto..]. exists []. rewrite app_nil_r. split; [done|].
  intros n Hn. by apply elem_of_nil in Hn.
Qed.
#[local] Instance grows_reflexive : Reflexive grows.
Proof. intros d. by apply grows_tables. Qed.

Lemma static_of o d d' new : map static (outbox d') = map static (outbox d) ++ new -> o ∈ outbox d ->
  exists o', o' ∈ outbox d' /\ static o' = static o.
Proof.
  intros E Ho. assert (static o ∈ map static (outbox d')) as Hs
    by (rewrite E; apply elem_of_app; left; by apply list_elem_of_fmap_2).
  apply list_elem_of_fmap in Hs as (o' & Eo & Ho'). by exists o'.
Qed.

#[local] Instance grows_transitive : Transitive grows.
Proof.
  intros d1 d2 d3 [(n1 & E1 & L1) O1 R1 S1] [(n2 & E2 & L2) O2 R2 S2]. split; [|by auto|..].
  - exists (n1 ++ n2). rewrite E2, E1, app_assoc. split; [done|]. intros n [Hn|Hn]%elem_of_app; [by apply L1|]. destruct (L2 n Hn) as [Hp L2']. split; [done|]. intros o Ho.
    destruct (static_of o d1 d2 n1 E1 Ho) as (o' & Ho' & Es). pose proof (L2' o' Ho') as Hl.
    apply (f_equal ob_id) in Es. cbn in Es. lia.
  - intros r (r' & Hr' & E & E')%R1. destruct (R2 r' Hr') as (r3 & Hr3 & F & F'). exists r3. split; [done|]. split; congruence.
  - intros r (r' & Hr' & E & E')%S1. destruct (S2 r' Hr') as (r3 & Hr3 & F & F'). exists r3. split; [done|]. split; congruence.
Qed.

Lemma max_where_ge {R} (p : R -> bool) value t row : row ∈ t -> p row = true -> value row <= max_where p value t.
Proof.
  intros Hin P. unfold max_where. induction t as [|x t IH]; [by apply elem_of_nil in Hin|]. cbn.
  apply elem_of_cons in Hin as [<-|Hin]; [rewrite P; lia|]. specialize (IH Hin). destruct (p x); lia.
Qed.

Lemma sorted_snoc l x : StronglySorted Z.lt l -> (forall y, y ∈ l -> y < x) -> StronglySorted Z.lt (l ++ [x]).
Proof.
  induction l as [|z l IH]; intros Hs Hx; cbn; [by repeat constructor|]. apply StronglySorted_inv in Hs as [Hs Hz].
  constructor; [apply IH; [done|]; intros y Hy; apply Hx; by right|]. apply Forall_app. split; [done|].
  repeat constructor. apply Hx. by left.
Qed.

Lemma next_outbox_id_above d o : o ∈ outbox d -> ob_id o < next_outbox_id d.
Proof. intros Ho. unfold next_outbox_id. pose proof (max_where_ge (fun _ => true) ob_id _ o Ho eq_refl). lia. Qed.

Lemma next_outbox_id_positive d : 0 < next_outbox_id d.
Proof.
  unfold next_outbox_id, max_where. enough (0 <= foldr (fun row acc => Z.max (ob_id row) acc) 0 (outbox d)) by lia.
  induction (outbox d) as [|o t IH]; cbn; lia.
Qed.

Lemma grows_emit id from to d : grows d (emit id from to d).
Proof.
  split; [| |by eauto..]; cbn [emit set_outbox outbox]; rewrite map_app.
  - eexists. split; [reflexivity|]. intros n Hn. cbn [map] in Hn. apply list_elem_of_singleton in Hn as ->. cbn [static ob_id].
    split; [apply next_outbox_id_positive|intros o]. apply next_outbox_id_above.
  - intros Hs. apply sorted_snoc; [done|]. intros y Hy. apply list_elem_of_fmap in Hy as (o & -> & Ho).
    by apply next_outbox_id_above.
Qed.

(** Tables whose rows keep their keys. *)
Lemma grows_rows d d' :
  outbox d' = outbox d ->
  (forall r, r ∈ requests d -> exists r', r' ∈ requests d' /\ rq_id r' = rq_id r /\ rq_session r' = rq_session r) ->
  (forall s, s ∈ sessions d -> exists s', s' ∈ sessions d' /\ se_id s' = se_id s /\ se_account s' = se_account s) -> grows d d'.
Proof.
  intros Ho Hr Hs. split; [|by rewrite Ho|done..]. exists []. rewrite Ho, app_nil_r. split; [done|]. intros n Hn. by apply elem_of_nil in Hn.
Qed.

Lemma update_keeps {R K1 K2} (k1 : R -> K1) (k2 : R -> K2) p f (t : list R) :
  (forall r, p r = true -> k1 (f r) = k1 r /\ k2 (f r) = k2 r) ->
  forall r, r ∈ t -> exists r', r' ∈ update p f t /\ k1 r' = k1 r /\ k2 r' = k2 r.
Proof.
  intros Hf r Hr. exists (if p r then f r else r). split; [apply elem_of_update; by exists r|]. destruct (p r) eqn:P; [by apply Hf|done].
Qed.
Lemma insert_keeps {R K1 K2} (k1 : R -> K1) (k2 : R -> K2) (new t : list R) :
  forall r, r ∈ t -> exists r', r' ∈ t ++ new /\ k1 r' = k1 r /\ k2 r' = k2 r.
Proof. intros r Hr. exists r. split; [apply elem_of_app; by left|done]. Qed.
Lemma rows_keep {R K1 K2} (k1 : R -> K1) (k2 : R -> K2) (t : list R) :
  forall r, r ∈ t -> exists r', r' ∈ t /\ k1 r' = k1 r /\ k2 r' = k2 r.
Proof. eauto. Qed.

Lemma grows_transition now id from to d : grows d (transitionSettlementRequest now id from to d).
Proof.
  unfold transitionSettlementRequest. set (d1 := set_requests _ d).
  assert (grows d d1) as H1 by (apply grows_rows; [done|by apply update_keeps|apply rows_keep]).
  destruct (_ =? 1); [|done]. etransitivity; [exact H1|apply grows_emit].
Qed.

Lemma grows_state now id state from to d : grows d (emit id from to (set_request_state now id state d)).
Proof.
  etransitivity; [|apply grows_emit]. apply grows_rows; [done|by apply update_keeps|apply rows_keep].
Qed.

Lemma mark_grows now h raw ids : forall d, grows d (mark_broadcasting now h raw ids d).
Proof.
  induction ids as [|id ids IH]; intros d; [done|]. cbn [mark_broadcasting]. etransitivity; [|apply IH].
  etransitivity; [|apply grows_transition]. by apply grows_tables.
Qed.

Lemma reserve_grows now ir w oh mh ch d d' : reserve_writes now ir w oh mh ch d = Ok d' -> grows d d'.
Proof.
  intros H. unfold reserve_writes in H. step_ok H as d1 E. unfold add_capacity in E. skip_ok E. injection E as <-.
  do 4 (skip_ok H). step_ok H as spend E0. step_ok H as rows E1. step_ok H as holds E2. injection H as <-.
  apply insert_row_Ok in E1 as [-> _]. do 2 (etransitivity; [|apply grows_state]).
  apply grows_rows; [done| |apply rows_keep]. apply insert_keeps.
Qed.

Lemma complete_grows now c d d' : CompleteInference now c d = Ok d' -> grows d d'.
Proof.
  intros Hc. unfold CompleteInference in Hc. do 3 (skip_ok Hc). destruct (negb _) in Hc.
  { destruct (exists_row _ (proposals d)) in Hc; [by injection Hc as <-|]. by destruct (exists_row _ _) in Hc. }
  do 4 (skip_ok Hc). step_ok Hc as rows E. step_ok Hc as d2 E2. injection Hc as <-.
  pose proof (view_add_capacity requests ltac:(done) _ _ _ _ _ _ E2) as V1.
  pose proof (view_add_capacity outbox ltac:(done) _ _ _ _ _ _ E2) as V2.
  pose proof (view_add_capacity sessions ltac:(done) _ _ _ _ _ _ E2) as V3. cbn in V1, V2, V3.
  etransitivity; [|apply grows_emit]. apply grows_rows; rewrite ?V1, ?V2, ?V3; [done|by apply update_keeps|apply rows_keep].
Qed.

Lemma abort_grows now id st d d' : AbortInference now id st d = Ok d' -> grows d d'.
Proof.
  intros Ha. unfold AbortInference in Ha. destruct (_ && _) in Ha; [done|]. step_ok Ha as rq E. do 2 (skip_ok Ha).
  destruct (String.eqb _ st) in Ha; [by injection Ha as <-|]. step_ok Ha as term E3. destruct (negb _) in Ha; [done|].
  step_ok Ha as d2 E4. injection Ha as <-. etransitivity; [|apply grows_emit].
  destruct (_ && _) in E4; [|by injection E4 as <-; apply grows_rows; [done|by apply update_keeps|apply rows_keep]].
  pose proof (view_add_capacity requests ltac:(done) _ _ _ _ _ _ E4) as V1.
  pose proof (view_add_capacity outbox ltac:(done) _ _ _ _ _ _ E4) as V2.
  pose proof (view_add_capacity sessions ltac:(done) _ _ _ _ _ _ E4) as V3. cbn in V1, V2, V3.
  apply grows_rows; rewrite ?V1, ?V2, ?V3; [done|by apply update_keeps|apply rows_keep].
Qed.

Lemma event_grows i now log ev d d' : contract_event ev d -> applyEvent i now log ev d = Ok d' -> grows d d'.
Proof.
  intros Hc He. destruct ev; cbn [applyEvent] in He; try (by apply grows_tables; same_table He).
  - skip_ok He. unfold open_session in He. destruct (select _ _) as [|account [|]]; [injection He as <-; by apply grows_tables| |done].
    skip_ok He. injection He as <-. cbn [contract_event] in Hc. apply grows_rows; [done|apply rows_keep|]. cbn [sessions set_sessions].
    unfold upsert. rewrite (proj2 (exists_row_false _ _)); [apply insert_keeps|].
    intros se Hse. by apply String.eqb_neq, Hc.
  - skip_ok He. injection He as <-. apply grows_rows; [done|apply rows_keep|by apply update_keeps].
  - step_ok He as row E. injection He as <-. apply grows_rows; [done|apply rows_keep|by apply update_keeps].
  - unfold apply_settled in He. do 2 (skip_ok He). destruct (insert_or_nothing _ _ _) as [rows ins].
    destruct (negb ins); injection He as <-; [by apply grows_tables|].
    etransitivity; [|apply grows_transition]. apply grows_rows; [reflexivity|apply rows_keep|].
    match goal with |- forall s, _ -> exists s', s' ∈ sessions ?x /\ _ => set (d2 := x) end.
    assert (sessions d2 = update (fun r => String.eqb (se_id r) session)
              (fun r => set_se_balance (Z.max 0 (se_balance r - provider_amount - fee_amount)) r) (sessions d)) as -> by reflexivity.
    by apply update_keeps.
Qed.

Section Steps.
Context `{Ethereum}.

(** Every step of the broker's database grows the outbox. *)
Lemma step_grows d d' : step d d' -> grows d d'.
Proof.
  intros Hs. destruct Hs as
    [[id w E|now id a n E|id m k mo E|id b v ri ro rc E|now r1 r2 n a l x E|now u a E|now r1 r2 c m t E|now m E
    |th sa now r1 r2 r3 id o sg l x E|now id a s E|now id s st E|now id nx E|now e E|now st E
    |now m c E|now m c ch addr E|now ir E|now c E|now id st E|now id dom r m s E|now sr E
    |T th mb prep now limit t E]|i now log ev Hc E].
  - apply grows_tables; unfold CreateAccount in E; by same_table E.
  - apply grows_tables; unfold CreateMachine in E; by same_table E.
  - apply grows_tables; unfold CreateBackend in E; by same_table E.
  - apply grows_tables; unfold CreateOffer in E; by same_table E.
  - apply grows_tables; [eapply (view_CreateDeviceAuthorization outbox), E|eapply (view_CreateDeviceAuthorization requests), E|
      eapply (view_CreateDeviceAuthorization sessions), E]; done.
  - apply grows_tables; [eapply (view_ApproveDeviceAuthorization outbox), E|eapply (view_ApproveDeviceAuthorization requests), E|
      eapply (view_ApproveDeviceAuthorization sessions), E]; done.
  - apply grows_tables; [eapply (view_ExchangeDeviceAuthorization outbox), E|eapply (view_ExchangeDeviceAuthorization requests), E|
      eapply (view_ExchangeDeviceAuthorization sessions), E]; done.
  - subst d'. by apply grows_tables.
  - apply grows_tables; [eapply (view_VerifyWalletChallenge outbox), E|eapply (view_VerifyWalletChallenge requests), E|
      eapply (view_VerifyWalletChallenge sessions), E]; done.
  - unfold CreateSession in E. do 2 (skip_ok E). step_ok E as rows E2. injection E as <-.
    apply insert_row_Ok in E2 as [-> _]. apply grows_rows; [done|apply rows_keep|apply insert_keeps].
  - unfold CreateRequest in E. do 2 (skip_ok E). step_ok E as rows E2. injection E as <-.
    apply insert_row_Ok in E2 as [-> _]. apply grows_rows; [done|apply insert_keeps|apply rows_keep].
  - unfold TransitionRequest in E. step_ok E as cur E1. destruct (state_of_name nx) as [s|]; [|done].
    destruct (negb _) in E; [done|]. injection E as <-. apply grows_state.
  - unfold ClaimOutbox in E. step_ok E as ev E1. injection E as _ <-. split; [| |apply rows_keep|apply rows_keep]; cbn [outbox set_outbox]; [|by rewrite map_update].
    exists []. rewrite app_nil_r. split; [|intros n Hn; by apply elem_of_nil in Hn].
    apply map_update. by intros r _ _.
  - apply grows_tables; [eapply (view_UpsertRoutingState outbox), E|eapply (view_UpsertRoutingState requests), E|
      eapply (view_UpsertRoutingState sessions), E]; done.
  - apply grows_tables; [eapply (view_UpdateProviderCapacity outbox), E|eapply (view_UpdateProviderCapacity requests), E|
      eapply (view_UpdateProviderCapacity sessions), E]; done.
  - apply grows_tables; [eapply (view_ReconcileProviderCapacity outbox), E|eapply (view_ReconcileProviderCapacity requests), E|
      eapply (view_ReconcileProviderCapacity sessions), E]; done.
  - apply ReserveInference_inv in E as (se & row & w & oh & mh & ch & _ & _ & _ & _ & _ & _ & _ & _ & _ & E).
    by eapply reserve_grows.
  - by eapply complete_grows.
  - by eapply abort_grows.
  - apply PrepareReceipt_inv in E as (pr & rq & offer & d1 & _ & _ & _ & _ & _ & _ & _ & _ & _ & _ & _ & -> & (p & En) & _).
    apply receipt_nonce_tables in En as [rows ->]. by apply grows_tables.
  - unfold Enqueue in E. destruct (insert_or_nothing _ _ _) as [rows ins]. injection E as <-.
    assert (grows d (set_queue rows d)) as Hq by by apply grows_tables.
    destruct ins; [|done]. etransitivity; [exact Hq|apply grows_transition].
  - unfold settle_transaction in E. destruct (bool_decide _); [done|]. step_ok E as tx E1. step_ok E as raw E2.
    injection E as _ <-. apply mark_grows.
  - by eapply event_grows.
Qed.
End Steps.

(** ** The events of an account *)
Definition events_of (accountID : string) (d : Db) : list Frame := map frame_of (select (owned accountID d) (outbox d)).
(** Those a client with this cursor has had. *)
Definition upto (cursor : Z) (fs : list Frame) : list Frame := List.filter (fun f => fr_id f <=? cursor) fs.
Definition after (cursor : Z) (fs : list Frame) : list Frame := List.filter (fun f => cursor <? fr_id f) fs.
Definition sorted_frames (fs : list Frame) : Prop := StronglySorted Z.lt (map fr_id fs).

Lemma filter_none {A} (p : A -> bool) l : Forall (fun x => p x = false) l -> List.filter p l = [].
Proof. induction 1 as [|x l Hx _ IH]; [done|]. cbn. by rewrite Hx. Qed.
Lemma filter_all {A} (p : A -> bool) l : Forall (fun x => p x = true) l -> List.filter p l = l.
Proof. induction 1 as [|x l Hx _ IH]; [done|]. cbn. by rewrite Hx, IH. Qed.

Lemma sorted_split c fs : sorted_frames fs -> fs = upto c fs ++ after c fs.
Proof.
  unfold sorted_frames, upto, after. induction fs as [|f fs IH]; [done|]. cbn [map List.filter].
  intros [Hs Hf]%StronglySorted_inv. specialize (IH Hs). destruct (Z.leb_spec (fr_id f) c) as [L|L].
  - replace (c <? fr_id f) with false by lia. cbn [app]. by f_equal.
  - replace (c <? fr_id f) with true by lia.
    assert (List.filter (fun g => fr_id g <=? c) fs = []) as Hn.
    { apply filter_none. rewrite Forall_map in Hf. eapply Forall_impl; [exact Hf|]. cbn. lia. }
    rewrite Hn in *. cbn [app] in *. by f_equal.
Qed.

Definition last_id (fs : list Frame) (cursor : Z) : Z := List.last (map fr_id fs) cursor.
Lemma last_id_app fs gs c : last_id (fs ++ gs) c = last_id gs (last_id fs c).
Proof.
  unfold last_id. destruct gs as [|g gs]; [by rewrite app_nil_r|]. rewrite map_app.
  destruct (exists_last (l := map fr_id (g :: gs)) ltac:(done)) as (l & x & E). rewrite E, app_assoc, !last_last. done.
Qed.

Lemma sorted_app l1 l2 : StronglySorted Z.lt (l1 ++ l2) ->
  StronglySorted Z.lt l1 /\ StronglySorted Z.lt l2 /\ forall x y, x ∈ l1 -> y ∈ l2 -> x < y.
Proof.
  induction l1 as [|z l1 IH]; cbn [app].
  - intros Hs. split_and!; [constructor|done|]. intros x y Hx. by apply elem_of_nil in Hx.
  - intros [Hs Hz]%StronglySorted_inv. apply Forall_app in Hz as [Hz1 Hz2]. destruct (IH Hs) as (H1 & H2 & H3).
    split_and!; [by constructor|done|]. intros x y [->|Hx]%elem_of_cons Hy; [by rewrite Forall_forall in Hz2; apply Hz2|by apply H3].
Qed.

Lemma sorted_last_id fs f c : sorted_frames fs -> f ∈ fs -> fr_id f <= last_id fs c.
Proof.
  unfold sorted_frames, last_id. intros Hs Hf. destruct (exists_last (l := fs)) as (l & x & ->); [intros ->; by apply elem_of_nil in Hf|].
  rewrite map_app in *. cbn [map] in *. rewrite last_last. apply sorted_app in Hs as (_ & _ & Hs).
  apply elem_of_app in Hf as [Hf|Hf%list_elem_of_singleton]; [|subst; lia].
  specialize (Hs (fr_id f) (fr_id x) ltac:(by apply list_elem_of_fmap_2) ltac:(by left)). lia.
Qed.

(** Sending a first part of what is after the cursor moves the cursor. *)
Lemma upto_sent c fs sent rest : sorted_frames fs -> after c fs = sent ++ rest -> upto (last_id sent c) fs = upto c fs ++ sent.
Proof.
  intros Hs Ha. destruct sent as [|f sent]; [by rewrite app_nil_r|]. set (c' := last_id (f :: sent) c).
  pose proof (sorted_split c fs Hs) as E. rewrite Ha in E.
  assert (sorted_frames (f :: sent) /\ forall x y, x ∈ f :: sent -> y ∈ rest -> fr_id x < fr_id y) as [Hs1 Hlt].
  { rewrite E in Hs. unfold sorted_frames in *. rewrite !map_app in Hs. apply sorted_app in Hs as (_ & Hs & _).
    apply sorted_app in Hs as (H1 & _ & H3). split; [done|]. intros x y Hx Hy. apply H3; by apply list_elem_of_fmap_2. }
  assert (forall g, g ∈ after c fs -> c < fr_id g) as Hc.
  { intros g Hg. apply list_elem_of_In, filter_In in Hg as [_ Hg]. lia. }
  rewrite Ha in Hc.
  assert (forall g, g ∈ f :: sent -> c < fr_id g <= c') as Hmid.
  { intros g Hg. split; [apply Hc, elem_of_app; by left|]. by apply sorted_last_id. }
  assert (forall g, g ∈ rest -> c' < fr_id g) as Hrest.
  { intros g Hg. unfold c', last_id. destruct (exists_last (l := f :: sent)) as (l & x & El); [done|]. rewrite El, map_app. cbn [map].
    rewrite last_last. apply Hlt; [|done]. rewrite El. apply elem_of_app. right. by left. }
  assert (c < c') as Hcc by (destruct (Hmid f) as [? ?]; [by left|lia]).
  rewrite E at 1. unfold upto at 1. rewrite !List.filter_app. fold (upto c fs).
  rewrite (filter_all _ (upto c fs)), (filter_all _ (f :: sent)), (filter_none _ rest); [by rewrite app_nil_r| | |];
    apply Forall_forall.
  - intros g Hg. specialize (Hrest g Hg). lia.
  - intros g Hg. specialize (Hmid g Hg). lia.
  - intros g Hg. apply list_elem_of_In, filter_In in Hg as [_ Hg]. lia.
Qed.

(** ** What the database shows later *)
Lemma exists_unique {R} (key : R -> string) (q : R -> bool) (t : list R) row i :
  NoDup (map key t) -> row ∈ t -> key row = i -> exists_row (fun r => String.eqb (key r) i && q r) t = q row.
Proof.
  intros Hn Hin <-. destruct (q row) eqn:Q.
  - apply exists_row_spec. exists row. by rewrite String.eqb_refl, Q.
  - apply exists_row_false. intros r Hr. destruct (String.eqb_spec (key r) (key row)) as [E|]; [|done].
    by rewrite (unique_key key t r row) by done.
Qed.

Lemma owned_stable accountID d d' o o' :
  db_ok d -> db_history_ok d -> db_ok d' -> grows d d' -> o ∈ outbox d -> static o' = static o ->
  owned accountID d' o' = owned accountID d o.
Proof.
  intros Hok Hh Hok' Hg Ho Es. unfold owned.
  assert (ob_aggregate_type o' = ob_aggregate_type o) as -> by (by injection Es).
  assert (ob_aggregate_id o' = ob_aggregate_id o) as -> by (by injection Es).
  destruct (hk_known _ _ Hh (event_of o)) as (r & Hr & Er); [by apply list_elem_of_fmap_2|].
  destruct (gr_requests _ _ Hg r Hr) as (r' & Hr' & Er' & Esr).
  destruct (lk_request_session _ _ _ Hok r Hr) as (s & Hs & Eid).
  destruct (gr_sessions _ _ Hg s Hs) as (s' & Hs' & Eid' & Eac).
  f_equal. cbn [fst event_of] in Er.
  rewrite (exists_unique rq_id _ (requests d') r') by (first [apply Hok'|done|congruence]).
  rewrite (exists_unique rq_id _ (requests d) r) by (first [apply Hok|done|congruence]).
  rewrite (exists_unique se_id _ (sessions d') s') by (first [apply Hok'|done|congruence]).
  rewrite (exists_unique se_id _ (sessions d) s) by (first [apply Hok|done|congruence]). by rewrite Eac.
Qed.

Lemma cons_eq_inv {A} (x y : A) l k : x :: l = y :: k -> x = y /\ l = k.
Proof. by intros [= -> ->]. Qed.

Section Reachable.
Context `{Ethereum}.

Lemma rtc_grows d d' : rtc step d d' -> grows d d'.
Proof. induction 1 as [|x y z Hs _ IH]; [reflexivity|]. etransitivity; [by apply step_grows|done]. Qed.

Lemma reachable_sorted d : rtc step empty_db d -> StronglySorted Z.lt (map ob_id (outbox d)).
Proof. intros Hr. apply (gr_sorted _ _ (rtc_grows _ _ Hr)). constructor. Qed.

(** Later, an account has the events it had, and newer ones. *)
Lemma events_grow accountID d d' : rtc step empty_db d -> rtc step d d' ->
  exists new, events_of accountID d' = events_of accountID d ++ new
  /\ forall o f, o ∈ outbox d -> f ∈ new -> ob_id o < fr_id f.
Proof.
  intros Hr Hs. destruct (reachable_history d Hr) as [Hok Hh].
  destruct (reachable_history d' ltac:(by etransitivity)) as [Hok' _]. pose proof (rtc_grows _ _ Hs) as Hg.
  destruct (gr_events _ _ Hg) as (new & E & Hlt). apply map_eq_app in E as (l1 & l2 & E0 & E1 & E2).
  exists (map frame_of (select (owned accountID d') l2)). unfold events_of. split.
  - unfold select. rewrite E0, List.filter_app, map_app. f_equal.
    assert (forall o o', o ∈ outbox d -> static o' = static o -> owned accountID d' o' = owned accountID d o) as Hstable
      by (intros; by apply owned_stable).
    clear E0. revert l1 E1 Hstable. generalize (outbox d). intros t. induction t as [|o t IH]; intros [|o' l1] E1 Hst;
      [done|discriminate E1|discriminate E1|].
    cbn [map] in E1. apply cons_eq_inv in E1 as [Eo E1]. cbn [List.filter]. rewrite (Hst o o' ltac:(apply elem_of_cons; by left) Eo).
    assert (forall x x', x ∈ t -> static x' = static x -> owned accountID d' x' = owned accountID d x) as Hst'
      by (intros x x' Hx; apply Hst; by right).
    specialize (IH l1 E1 Hst'). destruct (owned accountID d o); [|done]. cbn [map]. rewrite IH. f_equal.
    unfold frame_of. injection Eo as -> _ _ -> -> ->. done.
  - intros o f Ho Hf. apply list_elem_of_fmap in Hf as (n & -> & [Hn _]%select_spec). cbn [frame_of fr_id].
    destruct (Hlt (static n)) as [_ Hl]; [rewrite <- E2; by apply list_elem_of_fmap_2|]. by apply Hl.
Qed.
End Reachable.

(** ** A poll *)
Lemma order_by_sorted {R} (key : R -> Z) rows : StronglySorted Z.lt (map key rows) -> order_by key rows = rows.
Proof.
  induction rows as [|row rows IH]; [done|]. cbn [map]. intros [Hs Hf]%StronglySorted_inv. cbn [order_by foldr].
  fold (order_by key rows). rewrite (IH Hs). destruct rows as [|next rows]; [done|]. cbn [insert_by].
  apply Forall_cons in Hf as [Hf _]. by replace (key row <=? key next) with true by lia.
Qed.

Lemma sorted_select {R} (key : R -> Z) p rows : StronglySorted Z.lt (map key rows) -> StronglySorted Z.lt (map key (select p rows)).
Proof.
  unfold select. induction rows as [|row rows IH]; [done|]. cbn [map List.filter]. intros [Hs Hf]%StronglySorted_inv.
  specialize (IH Hs). destruct (p row); [|done]. cbn [map]. constructor; [done|]. rewrite Forall_forall in *.
  intros k Hk. apply list_elem_of_fmap in Hk as (r & -> & [Hr _]%select_spec). apply Hf. by apply list_elem_of_fmap_2.
Qed.

Lemma available_after cursor accountID d : StronglySorted Z.lt (map ob_id (outbox d)) ->
  map frame_of (available cursor accountID d) = firstn 100 (after cursor (events_of accountID d)).
Proof.
  intros Hs. unfold available. rewrite order_by_sorted by by apply sorted_select. rewrite <- firstn_map. f_equal.
  unfold select, after, events_of, select. clear Hs. induction (outbox d) as [|o t IH]; [done|]. cbn [List.filter].
  destruct (owned accountID d o); rewrite ?andb_true_r, ?andb_false_r; [|done]. cbn [map List.filter frame_of fr_id].
  destruct (cursor <? ob_id o); [|done]. cbn [map]. by rewrite IH.
Qed.

Lemma events_sorted accountID d : StronglySorted Z.lt (map ob_id (outbox d)) -> sorted_frames (events_of accountID d).
Proof. intros Hs. unfold sorted_frames, events_of. rewrite map_map. cbn [frame_of fr_id]. by apply sorted_select. Qed.

Lemma write_rows_spec rows : forall cursor w w' next r, write_rows rows cursor w = (w', next, r) ->
  exists sent rest, rows = sent ++ rest /\ wt_Frames w' = wt_Frames w ++ map frame_of sent
  /\ (wt_Room w = wt_Room w' + length sent)%nat
  /\ match r with Ok _ => rest = [] /\ next = last_id (map frame_of sent) cursor | Err _ => wt_Room w' = 0%nat /\ rest <> [] end.
Proof.
  induction rows as [|o rows IH]; intros cursor w w' next r E; cbn [write_rows] in E.
  - injection E as <- <- <-. exists [], []. cbn [map]. rewrite !app_nil_r. split_and!; [done|done|cbn; lia|done|done].
  - unfold write_frame in E. destruct (wt_Room w) as [|room] eqn:Hw.
    + injection E as <- <- <-. exists [], (o :: rows). cbn [map]. rewrite !app_nil_r. split_and!; [done|done|cbn; lia|done|discriminate].
    + destruct (IH _ _ _ _ _ E) as (sent & rest & -> & Hf & Hr & Hm). exists (o :: sent), rest. cbn in Hf, Hr.
      split_and!; [done|rewrite Hf, <- app_assoc; reflexivity|cbn; lia|]. destruct r; [|done]. destruct Hm as [-> ->]. split; [done|].
      symmetry. apply (last_id_app [frame_of o] (map frame_of sent) cursor).
Qed.

Lemma upto_app c fs gs : upto c (fs ++ gs) = upto c fs ++ upto c gs.
Proof. apply List.filter_app. Qed.

Lemma upto_upto c c' fs : c <= c' -> upto c (upto c' fs) = upto c fs.
Proof.
  intros L. unfold upto. induction fs as [|f fs IH]; [done|]. cbn. destruct (Z.leb_spec (fr_id f) c').
  - cbn. by rewrite IH.
  - rewrite IH. by replace (fr_id f <=? c) with false by lia.
Qed.

(** The cursor only moves forwards. *)
Lemma cursor_moves cursor fs sent : upto (last_id sent cursor) fs = upto cursor fs ++ sent ->
  (if cursor <? last_id sent cursor then last_id sent cursor else cursor) = last_id sent cursor.
Proof.
  set (c' := last_id sent cursor). intros Hu. destruct (Z.ltb_spec cursor c') as [|L]; [done|].
  rewrite <- (upto_upto c' cursor _ L) in Hu. pose proof (filter_length_le (fun f => fr_id f <=? c') (upto cursor fs)) as Hle.
  fold (upto c' (upto cursor fs)) in Hle. apply (f_equal length) in Hu. rewrite length_app in Hu.
  unfold c'. destruct sent as [|f sent]; [done|cbn [length] in Hu; lia].
Qed.

Section Stream.
Context `{Ethereum} (accountID : string).

Implicit Types (polls : list (result Db)).
(** What the database was at the polls, which are all in the past of [d]. *)
Definition past (d : Db) (database : result Db) : Prop :=
  match database with Ok d0 => rtc step empty_db d0 /\ rtc step d0 d | Err _ => True end.

(** What a poll sends is next after the cursor, as seen later too. *)
Lemma poll_sent d0 d cursor sent rest :
  rtc step empty_db d0 -> rtc step d0 d -> map frame_of (available cursor accountID d0) = sent ++ rest ->
  upto (last_id sent cursor) (events_of accountID d) = upto cursor (events_of accountID d) ++ sent.
Proof.
  intros Hr Hs E. rewrite available_after in E by by apply reachable_sorted.
  destruct (events_grow accountID d0 d Hr Hs) as (new & -> & Hnew). set (old := events_of accountID d0) in *.
  assert (sorted_frames old) as Hso by by apply events_sorted, reachable_sorted.
  assert (after cursor old = sent ++ rest ++ skipn 100 (after cursor old)) as Ea
    by (rewrite app_assoc, <- E; symmetry; apply firstn_skipn).
  destruct sent as [|f sent]; [by rewrite app_nil_r|]. set (c' := last_id (f :: sent) cursor) in *.
  assert (forall c, c <= c' -> upto c new = []) as Hnone.
  { intros c Hc. apply filter_none, Forall_forall. intros n Hn.
    assert (In c' (map fr_id old)) as Hin.
    { assert (In c' (map fr_id (f :: sent))) as Hl.
      { unfold c', last_id. destruct (exists_last (l := map fr_id (f :: sent)) ltac:(done)) as (l & x & ->).
        rewrite last_last. apply in_or_app. right. by left. }
      apply in_map_iff in Hl as (g & <- & Hg). apply in_map.
      assert (In g (after cursor old)) as Hg' by (rewrite Ea; apply in_or_app; by left). by apply filter_In in Hg' as [? _]. }
    apply in_map_iff in Hin as (g & Eg & Hg). apply in_map_iff in Hg as (o & <- & Ho%list_elem_of_In).
    apply select_spec in Ho as [Ho _]. specialize (Hnew o n Ho Hn). cbn [frame_of fr_id] in Eg. lia. }
  pose proof (upto_sent cursor old (f :: sent) _ Hso Ea) as Hu. fold c' in Hu.
  assert (cursor < c') as Hlt.
  { assert (f ∈ after cursor old) as Hf by (rewrite Ea; by left). apply list_elem_of_In, filter_In in Hf as [_ Hf].
    assert (sorted_frames (f :: sent)) as Hsent.
    { rewrite (sorted_split cursor old Hso), Ea in Hso. unfold sorted_frames in *. rewrite !map_app in Hso.
      apply sorted_app in Hso as (_ & Hso & _). by apply sorted_app in Hso as (Hso & _ & _). }
    pose proof (sorted_last_id _ f cursor Hsent ltac:(by left)) as Hle. fold c' in Hle. lia. }
  rewrite !upto_app, (Hnone c'), (Hnone cursor) by lia. by rewrite !app_nil_r.
Qed.

(** The frames of one connection. *)
Lemma event_loop_frames d polls : Forall (past d) polls -> forall cursor w,
  exists sent, wt_Frames (event_loop polls cursor accountID w) = wt_Frames w ++ sent
  /\ upto (last_id sent cursor) (events_of accountID d) = upto cursor (events_of accountID d) ++ sent.
Proof.
  induction 1 as [|database polls Hp _ IH]; intros cursor w; cbn [event_loop].
  - exists []. by rewrite !app_nil_r.
  - destruct (writeAvailable database cursor accountID w) as [[w1 next] r] eqn:E. unfold writeAvailable in E.
    destruct database as [d0|e]; [|injection E as <- _ <-; exists []; by rewrite !app_nil_r].
    destruct Hp as [Hr Hs]. apply write_rows_spec in E as (sent & rest & Ea & Ef & _ & Em).
    assert (upto (last_id (map frame_of sent) cursor) (events_of accountID d)
            = upto cursor (events_of accountID d) ++ map frame_of sent) as Hu
      by (apply (poll_sent d0 d cursor _ (map frame_of rest) Hr Hs); by rewrite Ea, map_app).
    destruct r as [u|e]; [|by exists (map frame_of sent)]. destruct Em as [-> ->].
    rewrite (cursor_moves _ _ _ Hu). set (c' := last_id (map frame_of sent) cursor) in *.
    destruct (IH c' w1) as (more & Em1 & Em2). exists (map frame_of sent ++ more). rewrite Em1, Ef, app_assoc. split; [done|].
    rewrite last_id_app. fold c'. by rewrite Em2, Hu, app_assoc.
Qed.
End Stream.

(** ** A client that reconnects *)
(** Its connections, each with its polls and its room: the client asks for what
    comes after the last event it had. *)
Fixpoint reconnects (connections : list (list (result Db) * nat)) (cursor : Z) (accountID : string) : list Frame :=
  match connections with
  | [] => []
  | (polls, room) :: rest =>
      let frames := wt_Frames (event_loop polls cursor accountID (mkWriter [] room)) in
      frames ++ reconnects rest (last_id frames cursor) accountID
  end.

Lemma reconnects_frames `{Ethereum} accountID d connections : Forall (fun c => Forall (past d) (fst c)) connections -> forall cursor,
  upto (last_id (reconnects connections cursor accountID) cursor) (events_of accountID d)
  = upto cursor (events_of accountID d) ++ reconnects connections cursor accountID.
Proof.
  induction 1 as [|[polls room] rest Hp _ IH]; intros cursor; cbn [reconnects]; [by rewrite app_nil_r|].
  destruct (event_loop_frames accountID d polls Hp cursor (mkWriter [] room)) as (sent & Ef & Eu). cbn [wt_Frames app] in Ef.
  rewrite Ef, last_id_app, IH, Eu. by rewrite app_assoc.
Qed.

Lemma outbox_ids_positive `{Ethereum} accountID d : rtc step empty_db d -> upto 0 (events_of accountID d) = [].
Proof.
  intros Hr. destruct (gr_events _ _ (rtc_grows _ _ Hr)) as (rows & E & Hp). cbn [empty_db outbox map app] in E.
  apply filter_none, Forall_forall. intros f Hf. apply list_elem_of_fmap in Hf as (o & -> & [Ho _]%select_spec).
  destruct (Hp (static o)) as [Hpos _]; [rewrite <- E; by apply list_elem_of_fmap_2|]. cbn in *. lia.
Qed.

(** ** Any order of commits *)
Lemma insert_by_strict {R} (key : R -> Z) row rows :
  StronglySorted Z.lt (map key rows) -> key row ∉ map key rows -> StronglySorted Z.lt (map key (insert_by key row rows)).
Proof.
  induction rows as [|other rows IH]; intros Hs Hn; [by repeat constructor|]. cbn [map] in Hs, Hn. apply not_elem_of_cons in Hn as [Hne Hn].
  pose proof Hs as [Hs' Hf]%StronglySorted_inv. cbn [insert_by]. destruct (Z.leb_spec (key row) (key other)).
  - cbn [map]. constructor; [done|]. constructor; [lia|]. eapply Forall_impl; [exact Hf|]. cbn. lia.
  - cbn [map]. constructor; [by apply IH|]. rewrite Forall_forall in *. intros k (r & -> & Hr)%list_elem_of_fmap.
    apply elem_of_insert_by in Hr as [->|Hr]; [lia|]. apply Hf. by apply list_elem_of_fmap_2.
Qed.

Lemma order_by_strict {R} (key : R -> Z) rows : NoDup (map key rows) -> StronglySorted Z.lt (map key (order_by key rows)).
Proof.
  unfold order_by. induction rows as [|row rows IH]; [constructor|]. cbn [map foldr]. intros [Hn Hd]%NoDup_cons.
  apply insert_by_strict; [by apply IH|]. intros (r & E & Hr)%list_elem_of_fmap. apply Hn. rewrite E.
  apply list_elem_of_fmap_2. by apply (elem_of_order_by key).
Qed.

(** The identifiers of the outbox are its primary key. *)
Definition keyed (database : result Db) : Prop :=
  match database with Ok d => NoDup (map ob_id (outbox d)) | Err _ => True end.
(** A frame is an event of the account in a database that was polled. *)
Definition polled (accountID : string) (polls : list (result Db)) (f : Frame) : Prop :=
  exists d, Ok d ∈ polls /\ f ∈ events_of accountID d.

Lemma available_spec cursor accountID d : NoDup (map ob_id (outbox d)) ->
  StronglySorted Z.lt (cursor :: map ob_id (available cursor accountID d))
  /\ forall o, o ∈ available cursor accountID d -> frame_of o ∈ events_of accountID d.
Proof.
  intros Hn. unfold available. set (p := fun o => (cursor <? ob_id o) && owned accountID d o).
  assert (NoDup (map ob_id (select p (outbox d)))) as Hp.
  { unfold select. revert Hn. clear. induction (outbox d) as [|o t IH]; [done|]. cbn [map List.filter]. intros [Hn Hd]%NoDup_cons.
    specialize (IH Hd). destruct (p o); [|done]. cbn [map]. apply NoDup_cons. split; [|done]. contradict Hn.
    apply list_elem_of_fmap in Hn as (x & E & Hx). rewrite E. apply list_elem_of_fmap_2. apply list_elem_of_In, filter_In in Hx as [Hx _].
    by apply list_elem_of_In. }
  apply (order_by_strict ob_id) in Hp.
  assert (forall o, o ∈ firstn 100 (order_by ob_id (select p (outbox d))) -> o ∈ outbox d /\ p o = true) as Hin.
  { intros o Ho. eapply elem_of_take in Ho as (i & Ho & _). apply list_elem_of_lookup_2 in Ho. by apply elem_of_order_by, select_spec in Ho. }
  split.
  - constructor.
    + rewrite <- (take_drop 100 (order_by ob_id (select p (outbox d)))), map_app in Hp. by apply sorted_app in Hp as (Hp & _ & _).
    + apply Forall_forall. intros k (o & -> & Ho)%list_elem_of_fmap. apply Hin in Ho as [_ Ho]. subst p. cbn in Ho.
      apply andb_true_iff in Ho as [Ho _]. lia.
  - intros o Ho. apply Hin in Ho as [Ho P]. subst p. cbn in P. apply andb_true_iff in P as [_ P]. unfold events_of.
    apply list_elem_of_fmap_2. by apply select_spec.
Qed.

Lemma sorted_from c fs gs : StronglySorted Z.lt (c :: map fr_id fs) -> StronglySorted Z.lt (last_id fs c :: map fr_id gs) ->
  StronglySorted Z.lt (c :: map fr_id (fs ++ gs)) /\ c <= last_id fs c.
Proof.
  revert c. induction fs as [|f fs IH]; intros c Hs Hg; [by cbn|]. cbn [map app] in *.
  pose proof Hs as [Hs' Hf]%StronglySorted_inv. apply Forall_cons in Hf as [Hf Hfs].
  assert (last_id (f :: fs) c = last_id fs (fr_id f)) as E by apply (last_id_app [f] fs c). rewrite E in *.
  destruct (IH _ Hs' Hg) as [H1 H2]. split; [|lia]. constructor; [done|]. pose proof H1 as [_ H3]%StronglySorted_inv.
  constructor; [done|]. eapply Forall_impl; [exact H3|]. cbn. lia.
Qed.

Lemma event_loop_order accountID all polls : Forall keyed polls -> polls ⊆ all -> forall cursor w,
  exists sent, wt_Frames (event_loop polls cursor accountID w) = wt_Frames w ++ sent
  /\ StronglySorted Z.lt (cursor :: map fr_id sent) /\ forall f, f ∈ sent -> polled accountID all f.
Proof.
  assert (forall cursor w, exists sent, wt_Frames w = wt_Frames w ++ sent
    /\ StronglySorted Z.lt (cursor :: map fr_id sent) /\ forall f, f ∈ sent -> polled accountID all f) as Hstop.
  { intros cursor w. exists []. rewrite app_nil_r. split; [done|]. split; [by repeat constructor|]. by intros f Hf%elem_of_nil. }
  induction 1 as [|database polls Hk _ IH]; intros Hsub cursor w; cbn [event_loop]; [apply Hstop|].
  assert (polls ⊆ all) as Hsub' by (intros x Hx; apply Hsub; by right).
  destruct (writeAvailable database cursor accountID w) as [[w1 next] r] eqn:E. unfold writeAvailable in E.
  destruct database as [d0|e]; [|injection E as <- _ <-; apply Hstop].
  destruct (available_spec cursor accountID d0 Hk) as [Hs Hin].
  apply write_rows_spec in E as (sent & rest & Ea & Ef & _ & Em). rewrite Ea in Hs, Hin.
  assert (StronglySorted Z.lt (cursor :: map fr_id (map frame_of sent))) as Hsent.
  { rewrite map_map. cbn [frame_of fr_id]. rewrite map_app in Hs.
    change (cursor :: map ob_id sent ++ map ob_id rest) with ((cursor :: map ob_id sent) ++ map ob_id rest) in Hs.
    by apply sorted_app in Hs as (Hs & _ & _). }
  assert (forall f, f ∈ map frame_of sent -> polled accountID all f) as Hpolled.
  { intros f (o & -> & Ho)%list_elem_of_fmap. exists d0. split; [apply Hsub; by left|]. apply Hin, elem_of_app. by left. }
  destruct r as [u|e]; [|by exists (map frame_of sent)]. destruct Em as [-> ->].
  set (c' := last_id (map frame_of sent) cursor) in *.
  assert (StronglySorted Z.lt (c' :: map fr_id [])) as Hnil by by repeat constructor.
  destruct (sorted_from cursor (map frame_of sent) [] Hsent Hnil) as [_ Hle]. fold c' in Hle.
  replace (if cursor <? c' then c' else cursor) with c' by (destruct (Z.ltb_spec cursor c'); lia).
  destruct (IH Hsub' c' w1) as (more & Em1 & Em2 & Em3). exists (map frame_of sent ++ more). rewrite Em1, Ef, app_assoc.
  split; [done|]. split; [by apply sorted_from|]. intros f [Hf|Hf]%elem_of_app; [by apply Hpolled|by apply Em3].
Qed.

Lemma reconnects_order accountID all connections :
  Forall (fun c => Forall keyed (fst c) /\ fst c ⊆ all) connections -> forall cursor,
  StronglySorted Z.lt (cursor :: map fr_id (reconnects connections cursor accountID))
  /\ forall f, f ∈ reconnects connections cursor accountID -> polled accountID all f.
Proof.
  induction 1 as [|[polls room] rest [Hk Hsub] _ IH]; intros cursor; cbn [reconnects].
  - split; [by repeat constructor|]. by intros f Hf%elem_of_nil.
  - destruct (event_loop_order accountID all polls Hk Hsub cursor (mkWriter [] room)) as (sent & Ef & Hs & Hp). cbn [wt_Frames app] in Ef.
    rewrite Ef. destruct (IH (last_id sent cursor)) as [H1 H2]. split; [by apply sorted_from|].
    intros f [Hf|Hf]%elem_of_app; [by apply Hp|by apply H2].
Qed.


(** Every poll of an open connection sends all that is new, or 100 events. *)
Lemma event_loop_catches_up `{Ethereum} accountID d polls : rtc step empty_db d -> forall cursor w,
  (length (after cursor (events_of accountID d)) <= 100 * polls)%nat ->
  (length (after cursor (events_of accountID d)) <= wt_Room w)%nat ->
  wt_Frames (event_loop (replicate polls (Ok d)) cursor accountID w) = wt_Frames w ++ after cursor (events_of accountID d).
Proof.
  intros Hr. pose proof (reachable_sorted d Hr) as Hs. pose proof (events_sorted accountID d Hs) as Hso.
  induction polls as [|polls IH]; intros cursor w Hn Hroom.
  - destruct (after cursor (events_of accountID d)); [by rewrite app_nil_r|cbn in Hn; lia].
  - cbn [replicate event_loop writeAvailable]. destruct (write_rows _ cursor w) as [[w1 next] r] eqn:E.
    apply write_rows_spec in E as (sent & rest & Ea & Ef & Erm & Em).
    pose proof (available_after cursor accountID d Hs) as Hav. rewrite Ea, map_app in Hav.
    set (pending := after cursor (events_of accountID d)) in *.
    assert (length (firstn 100 pending) = length sent + length rest)%nat as Hlen by (rewrite <- Hav, length_app, !length_map; done).
    rewrite length_take in Hlen. destruct r as [u|e]; [|destruct Em as [Em Hrest]; destruct rest; [done|cbn [length] in Hlen; lia]].
    destruct Em as [-> ->]. cbn [map] in Hav. rewrite app_nil_r in Hav.
    assert (pending = map frame_of sent ++ skipn 100 pending) as Ep by (rewrite Hav; symmetry; apply firstn_skipn).
    pose proof (upto_sent cursor _ _ _ Hso Ep) as Hu. rewrite (cursor_moves _ _ _ Hu).
    set (c' := last_id (map frame_of sent) cursor) in *.
    assert (after c' (events_of accountID d) = skipn 100 pending) as Hafter.
    { pose proof (sorted_split c' _ Hso) as H1. pose proof (sorted_split cursor _ Hso) as H2. fold pending in H2.
      rewrite Ep, app_assoc, <- Hu in H2. rewrite H2 in H1 at 1. by apply app_inv_head in H1. }
    rewrite IH, Hafter, Ef, <- app_assoc; [by rewrite <- Ep| |]; rewrite Hafter, length_drop; cbn [length] in *; lia.
Qed.

(** The stream catches up: on a connection that stays open long enough to
    take them, as many polls as there are hundreds of new events bring the
    client every event of its account that is after its cursor. *)
Theorem event_stream_live `{Ethereum} accountID d polls cursor room :
  rtc step empty_db d ->
  (length (after cursor (events_of accountID d)) <= 100 * polls)%nat ->
  (length (after cursor (events_of accountID d)) <= room)%nat ->
  wt_Frames (event_loop (replicate polls (Ok d)) cursor accountID (mkWriter [] room)) = after cursor (events_of accountID d).
Proof. intros Hr Hn Hroom. by rewrite event_loop_catches_up. Qed.

(** The client gives its cursor back as text. *)
Lemma lastEventID_text n : 0 <= n < 2 ^ 63 -> lastEventID (BigString n) = n.
Proof. intros Hn. unfold lastEventID. rewrite SetString10_BigString. cbn. unfold int64_range. lia. Qed.

(** ** Samples *)
Module Streamed.
Definition frames (l : list Frame) : list (Z * string) := map (fun f => (fr_id f, fr_event f)) l.
(** A first connection breaks after one event; the second has the rest. *)
Definition connections : list (list (result Db) * nat) :=
  [([Ok db_ready; Ok db_reserved], 1%nat); ([Ok db_accepted; Ok db_prepared], 9%nat)].

Lemma reachable_samples : Forall (fun d => rtc step empty_db d /\ rtc step d db_prepared) [db_ready; db_reserved; db_accepted; db_prepared].
Proof.
  assert (step db_ready db_reserved) as H1 by (apply step_operation, (step_reserve _ _ 20 sample_reservation); vm_compute; reflexivity).
  assert (step db_reserved db_accepted) as H2 by (apply step_operation, (step_transition _ _ 21 request_id "accepted"); vm_compute; reflexivity).
  assert (rtc step db_accepted db_prepared) as H3.
  { apply (rtc_l _ _ db_streaming); [apply step_operation, (step_transition _ _ 22 request_id "streaming"); vm_compute; reflexivity|].
    apply (rtc_l _ _ db_completed); [apply step_operation, (step_complete _ _ 23 sample_completion); vm_compute; reflexivity|].
    apply rtc_once. eapply step_operation, (step_prepare _ _ 24 request_id sample_domain). vm_compute. reflexivity. }
  pose proof sample_ready as H0.
  repeat constructor; eauto using rtc_l, rtc_r, rtc_refl. exact sample_reachable.
Qed.


Lemma event_stream_live_witness :
  frames (wt_Frames (event_loop [Ok db_prepared] 3 "customer" (mkWriter [] 2))) = [(4, "request.streaming"); (5, "request.completed")].
Proof.
  pose proof (event_stream_live "customer" db_prepared 1 3 2 sample_reachable ltac:(vm_compute; lia) ltac:(vm_compute; lia)) as Hx.
  cbn [replicate] in Hx. rewrite Hx. vm_compute. reflexivity.
Defined.

(** The identifiers of the outbox are drawn when an event is inserted, and
    transactions commit in any order: an event that is committed after one of a
    higher identifier has been read is never sent. *)
Definition late : Db := Eval vm_compute in
  set_outbox (List.filter (fun o => negb (ob_id o =? 3)) (outbox db_streaming)) db_streaming.
Lemma late_commit_lost :
  frames (wt_Frames (event_loop [Ok late; Ok db_streaming] 0 "customer" (mkWriter [] 9)))
  = [(1, "request.reserved"); (2, "request.offered"); (4, "request.streaming")]
  /\ frames (events_of "customer" db_streaming)
     = [(1, "request.reserved"); (2, "request.offered"); (3, "request.accepted"); (4, "request.streaming")].
Proof. split; vm_compute; reflexivity. Qed.
End Streamed.
