(* ===== verification/Host.v ===== *)
(** * Discovery and configuration of backends (cli/internal/host)

    Detectors list the models a machine could serve; [Apply] turns the selected
    ones into the configuration of the provider and stores their secrets, and
    undoes what it stored when it fails.  The world [W] holds the credential
    store and the configuration file.  [Unicode] stands for the tables of the
    package unicode beyond ASCII. *)

From S2P Require Import Prelude GoStrings Wire ClientConfig Backends ProviderOps.
From stdpp Require Import gmap strings.
Open Scope string_scope.
Open Scope list_scope.
Open Scope Z_scope.

(** [to_lower] is [strings.ToLower]; [alphanumeric] tells of the encoding of a
    rune whether it is a letter or a digit. *)
Class Unicode := mkUnicode { to_lower : string -> string; alphanumeric : string -> bool }.

(** ** Discovery (discovery.go) *)
Definition StateReady : string := "ready".
Definition ErrModelCatalogUnavailable : error := ErrNew "provider model catalog unavailable".

Record Candidate := mkCandidate {
  ca_ID : string; ca_Kind : string; ca_Name : string; ca_URL : string; ca_Model : string; ca_Digest : string;
  ca_Image : string; ca_State : string; ca_Hint : string; ca_Size : Z; ca_Selected : bool;
}.
Definition set_id (id : string) (c : Candidate) : Candidate :=
  mkCandidate id (ca_Kind c) (ca_Name c) (ca_URL c) (ca_Model c) (ca_Digest c) (ca_Image c) (ca_State c) (ca_Hint c)
    (ca_Size c) (ca_Selected c).
Record Result := mkResult { rs_Source : string; rs_Candidates : list Candidate; rs_Err : option error }.

(** The characters of a string; invalid bytes are U+FFFD. *)
Fixpoint split_runes (s : string) : list string :=
  match s with
  | "" => []
  | String a r =>
      if byte_of a <? 128 then String a "" :: split_runes r
      else
        match r with
        | "" => [s]
        | String b r2 =>
            if byte_of a <? 224 then String a (String b "") :: split_runes r2
            else
              match r2 with
              | "" => [s]
              | String c r3 =>
                  if byte_of a <? 240 then String a (String b (String c "")) :: split_runes r3
                  else
                    match r3 with
                    | "" => [s]
                    | String d r4 => String a (String b (String c (String d ""))) :: split_runes r4
                    end
              end
        end
  end.
Definition runes (s : string) : list string := split_runes (coerce_utf8 s).

Definition title (value : string) : string :=
  match value with "" => "" | String c rest => ToUpper (String c "") +:+ rest end.

Section Discovery.
Context `{Unicode}.

Definition StableID (c : Candidate) : string :=
  GoStrings.Join [to_lower (TrimSpace (ca_Kind c)); trim_slashes (to_lower (TrimSpace (ca_URL c))); TrimSpace (ca_Model c)] "|".
Definition identified (c : Candidate) : Candidate := set_id (StableID c) c.

(** [slices.SortFunc] by the model; the models of a source have distinct names. *)
Fixpoint insert_by_model (c : Candidate) (l : list Candidate) : list Candidate :=
  match l with
  | [] => [c]
  | d :: rest => if string_leb (ca_Model c) (ca_Model d) then c :: l else d :: insert_by_model c rest
  end.
Definition sort_candidates (l : list Candidate) : list Candidate := foldr insert_by_model [] l.

(** What a detector of Ollama finds: [connect] is [New] and then [Models]. *)
Definition detect_ollama (connect : string -> result (result (list Model))) (endpoint : string) : Result :=
  let endpoint := if String.eqb endpoint "" then "http://127.0.0.1:11434" else endpoint in
  match connect endpoint with
  | Err e => mkResult "ollama" [] (Some e)
  | Ok (Err e) => mkResult "ollama" [] (Some (ErrWrap "Ollama is installed but not running" e))
  | Ok (Ok models) =>
      let candidate m := identified (mkCandidate "" "ollama" "Ollama" endpoint (md_Name m) (md_Digest m) "" StateReady "" (md_Size m) false) in
      let candidates := sort_candidates (map candidate (List.filter (fun m => negb (is_blank (md_Name m))) models)) in
      if bool_decide (candidates = []) then mkResult "ollama" [] (Some (ErrNew "Ollama has no installed models; run `ollama pull <model>`"))
      else mkResult "ollama" candidates None
  end.

(** [found] is whether [LookPath] finds the executable. *)
Definition detect_cli (found : bool) (kind : string) (presets : list string) : Result :=
  if negb found then mkResult kind [] (Some (ErrNew (title kind +:+ " CLI is not installed or not available on PATH")))
  else mkResult kind (map (fun model => identified (mkCandidate "" kind (title kind) "" model "" "" StateReady "Uses the existing CLI login" 0 false))
                        presets) None.

Inductive Detector :=
| OllamaDetector (endpoint : string)
| CLIDetector (kind executable : string) (presets : list string).
Definition Detect (connect : string -> result (result (list Model))) (found : string -> bool) (d : Detector) : Result :=
  match d with
  | OllamaDetector endpoint => detect_ollama connect endpoint
  | CLIDetector kind executable presets => detect_cli (found executable) kind presets
  end.
Definition DefaultDetectors (endpoint : string) : list Detector :=
  [ OllamaDetector endpoint; CLIDetector "codex" "codex" ["gpt-5.6-terra"; "gpt-5.6-sol"];
    CLIDetector "claude" "claude" ["sonnet"; "opus"; "haiku"] ].

(** [Discover]: the goroutines that have not sent yet, and what was received.
    Once the context is done a goroutine may leave without sending. *)
Inductive discover_step (detect : Detector -> Result) : list Detector * list Result -> list Detector * list Result -> Prop :=
| discover_send before d after received :
    discover_step detect (before ++ d :: after, received) (before ++ after, received ++ [detect d])
| discover_done before d after received : discover_step detect (before ++ d :: after, received) (before ++ after, received).

(** The names, trimmed and in order, each once. *)
Fixpoint distinct_names (seen : gset string) (models : list Model) : list string :=
  match models with
  | [] => []
  | m :: rest =>
      let name := TrimSpace (md_Name m) in
      if negb (String.eqb name "") && negb (bool_decide (name ∈ seen)) then name :: distinct_names ({[name]} ∪ seen) rest
      else distinct_names seen rest
  end.
(** [connect] is [openai.New] and then [Models]. *)
Definition ListAPIModels (connect : string -> string -> result (result (list Model))) (baseURL secret : string) : result (list string) :=
  models ← connect baseURL secret;
  match models with
  | Err _ => Err ErrModelCatalogUnavailable
  | Ok models =>
      match sort_strings (distinct_names ∅ models) with
      | [] => Err ErrModelCatalogUnavailable
      | names => Ok names
      end
  end.

(** ** Configuration (configure.go) *)
Record Selection := mkSelection { sl_Candidate : Candidate; sl_Secret : string }.

Fixpoint safe_loop (rs : list string) (dash : bool) (written : string) : string :=
  match rs with
  | [] => written
  | r :: rest =>
      if alphanumeric r
      then safe_loop rest false (written +:+ (if dash && negb (String.eqb written "") then "-" else "") +:+ r)
      else safe_loop rest (negb (String.eqb written "")) written
  end.
Definition safeName (value : string) : string :=
  trim_right ["-"] (trim_left ["-"] (safe_loop (runes (to_lower value)) false "")).
Definition BackendName (c : Candidate) : string :=
  let prefix := if is_blank (ca_Name c) then ca_Kind c else ca_Name c in
  safeName (prefix +:+ "-" +:+ ca_Model c).

Definition has_name (name : string) (backends : list Backend) : bool :=
  existsb (fun item => String.eqb (bk_Name item) name) backends.
(** The loop over the suffixes, at most [fuel] of them. *)
Fixpoint unique_suffix (fuel : nat) (suffix : Z) (base : string) (backends : list Backend) : option string :=
  match fuel with
  | O => None
  | S fuel =>
      let name := base +:+ "-" +:+ BigString suffix in
      if has_name name backends then unique_suffix fuel (suffix + 1) base backends else Some name
  end.
Definition uniqueBackendName (base : string) (backends : list Backend) : option string :=
  if has_name base backends then unique_suffix (S (length backends)) 2 base backends else Some base.

Definition backend_candidate (b : Backend) : Candidate :=
  mkCandidate "" (bk_Kind b) "" (bk_URL b) (bk_Model b) "" (bk_Image b) "" "" 0 false.
Definition same_backend (c : Candidate) (b : Backend) : bool := String.eqb (StableID (backend_candidate b)) (StableID c).

(** The backend of a candidate: the one that is configured already, or a new one. *)
Definition place (c : Candidate) (backends : list Backend) : Backend * list Backend :=
  let url := if negb (String.eqb (ca_Kind c) "ollama") && negb (String.eqb (ca_Kind c) "openai") then "" else ca_URL c in
  match List.find (same_backend c) backends with
  | Some b =>
      let item := mkBackend (bk_Name b) (bk_OfferID b) (ca_Kind c) url (ca_Model c) (bk_PriceVersion b) true (ca_Image c) in
      (item, change_first (same_backend c) (fun _ => item) backends)
  | None =>
      let name := default "" (uniqueBackendName (BackendName c) backends) in
      let item := mkBackend name "" (ca_Kind c) url (ca_Model c) 0 true (ca_Image c) in
      (item, backends ++ [item])
  end.

Definition disabled (b : Backend) : Backend :=
  mkBackend (bk_Name b) (bk_OfferID b) (bk_Kind b) (bk_URL b) (bk_Model b) (bk_PriceVersion b) false (bk_Image b).

Context {W : Type}.
Record CredentialStore := mkCredentialStore {
  ks_Service : string;
  ks_Load : option (string -> string -> M (W := W) string);
  ks_Save : option (string -> string -> string -> M (W := W) unit);
  ks_Delete : option (string -> string -> M (W := W) unit);
}.
Record credentialChange := mkCredentialChange { cc_account : string; cc_previous : string; cc_existed : bool }.

Definition undo (store : CredentialStore) (change : credentialChange) (w : W) : W :=
  if cc_existed change then
    match ks_Save store with Some save => fst (save (ks_Service store) (cc_account change) (cc_previous change) w) | None => w end
  else match ks_Delete store with Some delete => fst (delete (ks_Service store) (cc_account change) w) | None => w end.
(** The changes, the last one first. *)
Definition rollback (store : CredentialStore) (changes : list credentialChange) (w : W) : W :=
  fold_left (fun w change => undo store change w) changes w.

Definition previous_secret (store : CredentialStore) (account : string) (w : W) : W * option string :=
  match ks_Load store with
  | None => (w, None)
  | Some load => match load (ks_Service store) account w with (w, Ok secret) => (w, Some secret) | (w, Err _) => (w, None) end
  end.

(** The loop over the selections: the backends so far, and the changes made. *)
Fixpoint apply_selections (store : CredentialStore) (machineID : string) (selections : list Selection) (backends : list Backend)
    (changes : list credentialChange) (w : W) : W * list credentialChange * result (list Backend) :=
  match selections with
  | [] => (w, changes, Ok backends)
  | selection :: rest =>
      let '(item, backends) := place (sl_Candidate selection) backends in
      if is_blank (sl_Secret selection) then apply_selections store machineID rest backends changes w
      else
        match ks_Save store with
        | Some save =>
            if String.eqb (ks_Service store) "" then (w, changes, Err (ErrNew "credential store is unavailable"))
            else
              let account := machineID +:+ "/" +:+ bk_Name item in
              let '(w, previous) := previous_secret store account w in
              match save (ks_Service store) account (sl_Secret selection) w with
              | (w, Err e) => (w, changes, Err (ErrWrap "store backend credential" e))
              | (w, Ok _) =>
                  let change := mkCredentialChange account (default "" previous) (match previous with Some _ => true | None => false end) in
                  apply_selections store machineID rest backends (change :: changes) w
              end
        | None => (w, changes, Err (ErrNew "credential store is unavailable"))
        end
  end.

(** [Apply]; [cancelled] is [ctx.Err()]. *)
Definition Apply (cancelled : option error) (current : Config) (selections : list Selection) (store : CredentialStore)
    (saveConfig : option (Config -> M (W := W) unit)) (w : W) : W * result Config :=
  match saveConfig, cancelled with
  | None, _ => (w, Err (ErrNew "configuration saver is required"))
  | _, Some e => (w, Err e)
  | Some save, None =>
      match apply_selections store (cf_MachineID current) selections (map disabled (cf_Backends current)) [] w with
      | (w, changes, Err e) => (rollback store changes w, Err e)
      | (w, changes, Ok backends) =>
          let updated := set_backends backends current in
          match save updated w with
          | (w, Err e) => (rollback store changes w, Err e)
          | (w, Ok _) => (w, Ok updated)
          end
      end
  end.
End Discovery.
