(* ===== verification/HostSpec.v ===== *)
(** * Correctness of the configuration of backends

    [Apply] is a transaction: when it fails the credential store and the
    configuration are as they were.  When it succeeds the enabled backends are
    the selected ones, under names of their own, and the loop that looks for a
    free name ends. *)

From S2P Require Import Prelude GoStrings Wire ClientConfig Backends ProviderOps ProviderOpsSpec Host.
From stdpp Require Import gmap strings.
Open Scope string_scope.
Open Scope list_scope.
Open Scope Z_scope.

(** ** Names *)
Lemma append_cancel a b c : a +:+ b = a +:+ c -> b = c.
Proof. induction a as [|x a IH]; [done|]. rewrite !app_string_cons. intros [= E]. by apply IH. Qed.

Lemma BigString_inj m n : BigString m = BigString n -> m = n.
Proof. intros E. apply (f_equal SetString10) in E. rewrite !SetString10_BigString in E. by injection E. Qed.

Lemma has_name_spec name backends : has_name name backends = true <-> name ∈ map bk_Name backends.
Proof.
  unfold has_name. rewrite existsb_exists, list_elem_of_fmap. split.
  - intros (b & Hb & <-%String.eqb_eq). exists b. split; [done|]. by apply list_elem_of_In.
  - intros (b & -> & Hb). exists b. split; [by apply list_elem_of_In|]. apply String.eqb_refl.
Qed.

Definition suffixed (base : string) (suffix : Z) : string := base +:+ "-" +:+ BigString suffix.

(** When every name tried is taken, there are as many backends as names. *)
Lemma unique_suffix_None fuel base backends : forall suffix, unique_suffix fuel suffix base backends = None ->
  incl (map (fun k => suffixed base (suffix + Z.of_nat k)) (seq 0 fuel)) (map bk_Name backends).
Proof.
  induction fuel as [|fuel IH]; intros suffix E; [intros name []|]. cbn [unique_suffix] in E.
  destruct (has_name _ backends) eqn:Hn; [|done]. apply has_name_spec in Hn. cbn [seq map]. intros name [<-|Hin].
  - rewrite Z.add_0_r. by apply list_elem_of_In.
  - apply (IH _ E). rewrite <- seq_shift, map_map in Hin. apply in_map_iff in Hin as (k & <- & Hk). apply in_map_iff. exists k.
    split; [|done]. f_equal. lia.
Qed.

Lemma unique_suffix_Some fuel base backends : forall suffix name,
  unique_suffix fuel suffix base backends = Some name -> has_name name backends = false.
Proof.
  induction fuel as [|fuel IH]; intros suffix name E; [done|]. cbn [unique_suffix] in E.
  destruct (has_name _ backends) eqn:Hn; [by eapply IH|]. by injection E as <-.
Qed.

(** The loop of [uniqueBackendName] ends, with a free name. *)
Lemma uniqueBackendName_found base backends :
  exists name, uniqueBackendName base backends = Some name /\ has_name name backends = false.
Proof.
  unfold uniqueBackendName. destruct (has_name base backends) eqn:Hb; [|by exists base].
  destruct (unique_suffix _ 2 base backends) as [name|] eqn:E; [exists name; split; [done|]; by eapply unique_suffix_Some|].
  exfalso. apply unique_suffix_None in E. apply NoDup_incl_length in E.
  - rewrite !length_map, length_seq in E. lia.
  - apply Finite.Injective_map_NoDup; [|apply seq_NoDup]. intros i j Eij. unfold suffixed in Eij.
    apply append_cancel in Eij. injection Eij as Eij%BigString_inj. lia.
Qed.

(** ** The backends *)
Section Apply.
Context `{Unicode}.

Lemma place_named c backends :
  map bk_Name (snd (place c backends)) = map bk_Name backends
  \/ exists name, has_name name backends = false /\ map bk_Name (snd (place c backends)) = map bk_Name backends ++ [name].
Proof.
  unfold place. destruct (List.find (same_backend c) backends) as [b|] eqn:F; cbn [snd].
  - left. induction backends as [|x l IH]; [done|]. cbn [List.find change_first] in *. destruct (same_backend c x) eqn:P.
    + by injection F as ->.
    + cbn [map]. by rewrite IH.
  - right. destruct (uniqueBackendName_found (BackendName c) backends) as (name & -> & Hn). exists name. split; [done|].
    by rewrite map_app.
Qed.

Lemma place_NoDup c backends : NoDup (map bk_Name backends) -> NoDup (map bk_Name (snd (place c backends))).
Proof.
  intros Hn. destruct (place_named c backends) as [->|(name & Hname & ->)]; [done|]. apply NoDup_app. split_and!; [done| |apply NoDup_singleton].
  intros x Hx ->%list_elem_of_singleton. apply has_name_spec in Hx. congruence.
Qed.

(** The identity that makes two candidates one backend; a CLI backend has no URL. *)
Definition well_addressed (c : Candidate) : Prop :=
  ca_Kind c = "ollama" \/ ca_Kind c = "openai" \/ ca_URL c = "".

Lemma place_item c backends : well_addressed c ->
  fst (place c backends) ∈ snd (place c backends) /\ same_backend c (fst (place c backends)) = true
  /\ bk_Enabled (fst (place c backends)) = true.
Proof.
  intros Hw. assert ((if negb (String.eqb (ca_Kind c) "ollama") && negb (String.eqb (ca_Kind c) "openai") then "" else ca_URL c) = ca_URL c) as Hu.
  { destruct Hw as [->|[->| ->]]; [done|done|by destruct (_ && _)]. }
  unfold place. rewrite Hu. destruct (List.find (same_backend c) backends) as [b|] eqn:F; cbn [fst snd].
  - split_and!; [|apply String.eqb_refl|done]. induction backends as [|x l IH]; [done|]. cbn [List.find change_first] in *.
    destruct (same_backend c x); [by left|]. right. by apply IH.
  - split_and!; [|apply String.eqb_refl|done]. apply elem_of_app. right. by left.
Qed.

(** Every other backend stays. *)
Lemma place_others c backends b : same_backend c b = false -> b ∈ backends -> b ∈ snd (place c backends).
Proof.
  intros Hs Hb. unfold place. destruct (List.find (same_backend c) backends); cbn [snd]; [|by apply elem_of_app; left].
  induction backends as [|x l IH]; [done|]. cbn [change_first]. apply elem_of_cons in Hb as [->|Hb].
  - rewrite Hs. by left.
  - destruct (same_backend c x); right; [done|by apply IH].
Qed.
Lemma place_back c backends b : b ∈ snd (place c backends) -> b = fst (place c backends) \/ b ∈ backends.
Proof.
  unfold place. destruct (List.find (same_backend c) backends); cbn [fst snd].
  - intros Hb. induction backends as [|x l IH]; [by apply elem_of_nil in Hb|]. cbn [change_first] in Hb.
    destruct (same_backend c x); apply elem_of_cons in Hb as [->|Hb]; [by left|right; by right|right; by left|].
    destruct (IH Hb); [by left|right; by right].
  - intros [Hb|Hb%list_elem_of_singleton]%elem_of_app; [by right|by left].
Qed.

Definition place_all (selections : list Selection) (backends : list Backend) : list Backend :=
  fold_left (fun backends s => snd (place (sl_Candidate s) backends)) selections backends.
(** An enabled backend of the candidate. *)
Definition serves (c : Candidate) (backends : list Backend) : Prop :=
  exists b, b ∈ backends /\ same_backend c b = true /\ bk_Enabled b = true.

Lemma serves_place c c' backends : well_addressed c' -> serves c backends -> serves c (snd (place c' backends)).
Proof.
  intros Hw (b & Hb & Hs & He). destruct (same_backend c' b) eqn:S'.
  - destruct (place_item c' backends Hw) as (Hi & Hsi & Hei). exists (fst (place c' backends)). split_and!; [done| |done].
    unfold same_backend in *. apply String.eqb_eq in Hs, S', Hsi. apply String.eqb_eq. congruence.
  - exists b. split_and!; [by apply place_others|done|done].
Qed.

Lemma place_all_spec selections : Forall (fun s => well_addressed (sl_Candidate s)) selections -> forall backends,
  (NoDup (map bk_Name backends) -> NoDup (map bk_Name (place_all selections backends)))
  /\ (forall c, serves c backends -> serves c (place_all selections backends))
  /\ (forall s, s ∈ selections -> serves (sl_Candidate s) (place_all selections backends))
  /\ forall b, b ∈ place_all selections backends -> bk_Enabled b = true ->
       b ∈ backends \/ exists s, s ∈ selections /\ same_backend (sl_Candidate s) b = true.
Proof.
  induction 1 as [|s rest Hw _ IH]; intros backends; cbn [place_all fold_left].
  - split_and!; [done|done|by intros s Hs%elem_of_nil|by left].
  - destruct (IH (snd (place (sl_Candidate s) backends))) as (H1 & H2 & H3 & H4).
    destruct (place_item (sl_Candidate s) backends Hw) as (Hi & Hsi & Hei). split_and!.
    + intros Hn. by apply H1, place_NoDup.
    + intros c Hc. by apply H2, serves_place.
    + intros x [->|Hx]%elem_of_cons; [|by apply H3]. apply H2. by exists (fst (place (sl_Candidate s) backends)).
    + intros b Hb He. destruct (H4 b Hb He) as [Hin|(x & Hx & Hs)]; [|right; exists x; split; [by right|done]].
      destruct (place_back _ _ _ Hin) as [->|Hin']; [|by left]. right. exists s. split; [by left|done].
Qed.
End Apply.

(** ** The transaction *)
Section Transaction.
Context {W : Type} (secrets : W -> gmap (string * string) string) (settings : W -> Config).

(** What the credential store and the saver do when they succeed; when they
    fail, they change nothing. *)
Class Keychain (load : string -> string -> M (W := W) string) (save : string -> string -> string -> M (W := W) unit)
    (delete : string -> string -> M (W := W) unit) (saveConfig : Config -> M (W := W) unit) := {
  load_reads service account w w' r : load service account w = (w', r) ->
    secrets w' = secrets w /\ settings w' = settings w /\ forall v, r = Ok v -> secrets w !! (service, account) = Some v;
  save_writes service account v w w' r : save service account v w = (w', r) ->
    settings w' = settings w /\ secrets w' = match r with Ok _ => <[(service, account) := v]> (secrets w) | Err _ => secrets w end;
  delete_removes service account w w' r : delete service account w = (w', r) ->
    settings w' = settings w /\ secrets w' = match r with Ok _ => base.delete (service, account) (secrets w) | Err _ => secrets w end;
  saveConfig_writes c w w' r : saveConfig c w = (w', r) ->
    secrets w' = secrets w /\ settings w' = match r with Ok _ => c | Err _ => settings w end;
}.

Context `{Unicode} load save delete saveConfig `{!Keychain load save delete saveConfig} (service : string).
Definition keychain : CredentialStore := mkCredentialStore service (Some load) (Some save) (Some delete).

(** A store that answers: it fails to load only what is not there, and what is
    there can be overwritten and deleted. *)
Record answering : Prop := mkAnswering {
  load_finds account w w' e : load service account w = (w', Err e) -> secrets w !! (service, account) = None;
  save_over account v w : is_Some (secrets w !! (service, account)) -> exists w', save service account v w = (w', Ok tt);
  delete_there account w : is_Some (secrets w !! (service, account)) -> exists w', delete service account w = (w', Ok tt);
}.

(** The credentials of the backends of a machine. *)
Definition backend_credential (machineID : string) (key : string * string) : Prop :=
  exists name, key = (service, machineID +:+ "/" +:+ name).
Definition others_kept (machineID : string) (m m' : gmap (string * string) string) : Prop :=
  forall key, ~ backend_credential machineID key -> m' !! key = m !! key.
Definition of_machine (machineID : string) (change : credentialChange) : Prop :=
  backend_credential machineID (service, cc_account change).
Lemma others_kept_trans machineID m1 m2 m3 : others_kept machineID m1 m2 -> others_kept machineID m2 m3 -> others_kept machineID m1 m3.
Proof. intros H1 H2 key Hk. by rewrite H2, H1. Qed.
Lemma others_kept_insert machineID name v m : others_kept machineID m (<[(service, machineID +:+ "/" +:+ name) := v]> m).
Proof. intros key Hk. apply lookup_insert_ne. intros <-. apply Hk. by exists name. Qed.

(** The credentials [m] come from [m0] by the changes, the last one first. *)
Inductive undoable (m0 : gmap (string * string) string) : list credentialChange -> gmap (string * string) string -> Prop :=
| undoable_nil : undoable m0 [] m0
| undoable_cons changes m account secret previous : undoable m0 changes m -> m !! (service, account) = previous ->
    undoable m0 (mkCredentialChange account (default "" previous) (match previous with Some _ => true | None => false end) :: changes)
      (<[(service, account) := secret]> m).

Lemma undo_others machineID change w : of_machine machineID change ->
  others_kept machineID (secrets w) (secrets (undo keychain change w)) /\ settings (undo keychain change w) = settings w.
Proof.
  intros (name & Ea). injection Ea as Ea. unfold undo. cbn [keychain ks_Save ks_Delete ks_Service]. rewrite Ea. destruct (cc_existed change).
  - destruct (save service _ _ w) as [w' r] eqn:E. destruct (save_writes _ _ _ _ _ _ E) as [Hc Hs]. cbn [fst].
    rewrite Hs. split; [|done]. destruct r; [apply others_kept_insert|done].
  - destruct (delete service _ w) as [w' r] eqn:E. destruct (delete_removes _ _ _ _ _ E) as [Hc Hs]. cbn [fst].
    rewrite Hs. split; [|done]. destruct r; [|done]. intros key Hk. apply lookup_delete_ne. intros <-. apply Hk. by exists name.
Qed.
Lemma rollback_others machineID changes : Forall (of_machine machineID) changes -> forall w,
  others_kept machineID (secrets w) (secrets (rollback keychain changes w)) /\ settings (rollback keychain changes w) = settings w.
Proof.
  unfold rollback. induction 1 as [|change changes Hm _ IH]; intros w; [done|]. cbn [fold_left].
  destruct (undo_others machineID change w Hm) as [H1 H2]. destruct (IH (undo keychain change w)) as [H3 H4].
  split; [by eapply others_kept_trans|by rewrite H4].
Qed.

Lemma rollback_restores m0 changes m : answering -> undoable m0 changes m -> forall w, secrets w = m ->
  secrets (rollback keychain changes w) = m0.
Proof.
  intros Ha. induction 1 as [|changes m account secret previous U IH Hp]; intros w Hw; [done|]. unfold rollback in *. cbn [fold_left].
  assert (is_Some (secrets w !! (service, account))) as Hin by (rewrite Hw, lookup_insert_eq; eauto).
  apply IH. destruct previous as [v|]; unfold undo; simpl.
  - destruct (save_over Ha account v w Hin) as [w' Hsave]. rewrite Hsave. cbn [fst].
    destruct (save_writes _ _ _ _ _ _ Hsave) as [_ ->]. rewrite Hw, insert_insert_eq. by apply insert_id.
  - destruct (delete_there Ha account w Hin) as (w' & Hdel). rewrite Hdel. cbn [fst].
    destruct (delete_removes _ _ _ _ _ Hdel) as [_ ->]. by rewrite Hw, delete_insert_eq, delete_id.
Qed.

(** The credentials after the selections are stored. *)
Fixpoint stored (machineID : string) (selections : list Selection) (backends : list Backend) (m : gmap (string * string) string)
    : gmap (string * string) string :=
  match selections with
  | [] => m
  | s :: rest =>
      let '(item, backends) := place (sl_Candidate s) backends in
      stored machineID rest backends
        (if is_blank (sl_Secret s) then m else <[(service, machineID +:+ "/" +:+ bk_Name item) := sl_Secret s]> m)
  end.

Lemma apply_selections_spec machineID m0 selections : forall backends changes w,
  Forall (of_machine machineID) changes ->
  match apply_selections keychain machineID selections backends changes w with
  | (w', changes', r) =>
      Forall (of_machine machineID) changes' /\ others_kept machineID (secrets w) (secrets w') /\ settings w' = settings w
      /\ (answering -> undoable m0 changes (secrets w) -> undoable m0 changes' (secrets w'))
      /\ match r with
         | Ok backends' => backends' = place_all selections backends /\ secrets w' = stored machineID selections backends (secrets w)
         | Err _ => True
         end
  end.
Proof.
  induction selections as [|s rest IH]; intros backends changes w F; [done|]. cbn [apply_selections stored place_all fold_left].
  destruct (place (sl_Candidate s) backends) as [item next]. cbn [snd]. destruct (is_blank (sl_Secret s)); [by apply IH|].
  cbn [keychain ks_Save ks_Service]. destruct (String.eqb service ""); [by split_and!|]. unfold previous_secret.
  change (ks_Load keychain) with (Some load). change (ks_Service keychain) with service. cbv iota.
  set (account := machineID +:+ "/" +:+ bk_Name item).
  destruct (load service account w) as [w1 r1] eqn:L. destruct (load_reads _ _ _ _ _ L) as (Hs1 & Hc1 & Hl).
  set (previous := match r1 with Ok v => Some v | Err _ => None end : option string).
  assert (answering -> secrets w !! (service, account) = previous) as Hp.
  { intros Ha. subst previous. destruct r1 as [v|e]; [by apply Hl|by eapply load_finds]. }
  set (change := mkCredentialChange account (default "" previous) (match previous with Some _ => true | None => false end)).
  destruct (save service account (sl_Secret s) w1) as [w' r] eqn:S. destruct (save_writes _ _ _ _ _ _ S) as [Hc Hs].
  assert (of_machine machineID change) as Hm by by exists (bk_Name item).
  enough (match apply_selections keychain machineID rest next (change :: changes) w' with
          | (w2, changes', r2) => r = Ok tt ->
              Forall (of_machine machineID) changes' /\ others_kept machineID (secrets w) (secrets w2) /\ settings w2 = settings w
              /\ (answering -> undoable m0 changes (secrets w) -> undoable m0 changes' (secrets w2))
              /\ match r2 with
                 | Ok backends' => backends' = place_all rest next /\ secrets w2 = stored machineID rest next (<[(service, account) := sl_Secret s]> (secrets w))
                 | Err _ => True
                 end
          end) as R.
  { subst change previous. destruct r1 as [v|e1]; cbn [default from_option] in R; fold account; rewrite S; destruct r as [[]|e].
    1,3: destruct (apply_selections keychain machineID rest next _ w') as [[w2 changes'] r2]; by apply R.
    all: split; [done|]; rewrite Hs, Hc, Hs1, Hc1; by split_and!. }
  specialize (IH next (change :: changes) w' ltac:(by constructor)).
  destruct (apply_selections keychain machineID rest next (change :: changes) w') as [[w2 changes'] r2]. intros ->.
  destruct IH as (F' & Ho & Hc' & Hu & Hr). rewrite Hs, Hs1 in Ho, Hu, Hr. rewrite Hc, Hc1 in Hc'. split_and!; try done.
  - eapply others_kept_trans; [apply others_kept_insert|exact Ho].
  - intros Ha U. apply Hu; [done|]. apply undoable_cons; [done|by apply Hp].
Qed.

End Transaction.

(** ** A keychain, and two configurations *)
Module HostRun.
#[export] Instance ascii_tables : Unicode :=
  mkUnicode ToLower (fun r => match r with String c "" => let b := byte_of c in (48 <=? b) && (b <=? 57) || (97 <=? b) && (b <=? 122) | _ => false end).
Record World := mkWorld { secrets : gmap (string * string) string; settings : Config; broken : bool }.

Definition load (service account : string) (w : World) : World * result string :=
  (w, of_option (secrets w !! (service, account)) (ErrNew "no such credential")).
Definition save (service account secret : string) (w : World) : World * result unit :=
  (mkWorld (<[(service, account) := secret]> (secrets w)) (settings w) (broken w), Ok tt).
Definition delete (service account : string) (w : World) : World * result unit :=
  (mkWorld (base.delete (service, account) (secrets w)) (settings w) (broken w), Ok tt).
Definition saveConfig (c : Config) (w : World) : World * result unit :=
  if broken w then (w, Err (ErrNew "disk full")) else (mkWorld (secrets w) c (broken w), Ok tt).

#[export] Instance lawful : Keychain secrets settings load save delete saveConfig.
Proof.
  split.
  - intros service account w w' r [= <- <-]. split_and!; [done|done|]. by destruct (secrets w !! _); [intros v [= ->]|].
  - by intros service account v w w' r [= <- <-].
  - by intros service account w w' r [= <- <-].
  - intros c w w' r. unfold saveConfig. by destruct (broken w); intros [= <- <-].
Defined.

Definition openai : Candidate :=
  mkCandidate "" "openai" "OpenAI" "https://api.openai.com" "gpt-5" "" "" StateReady "" 0 true.
Definition selections : list Selection := [mkSelection openai "sk-2"; mkSelection (identified openai) ""].
Definition current : Config :=
  mkConfig "https://b" "a" "m1" 1 "" "" [mkBackend "old" "offer" "ollama" "http://127.0.0.1:11434" "llama" 2 true ""].
Definition world (broken : bool) : World :=
  mkWorld {[("myference", "m1/openai-gpt-5") := "sk-1"]} current broken.
Lemma answers : answering secrets load save delete "myference".
Proof.
  split.
  - intros account w w' e [= _ E]. by destruct (secrets w !! _).
  - intros account v w _. by eexists.
  - intros account w _. by eexists.
Qed.

(** A store that is locked when [Apply] reads it: the rollback deletes the
    credential that was there. *)
Definition locked (service account : string) (w : World) : World * result string := (w, Err (ErrNew "the keychain is locked")).
Lemma locked_store_loses_secret :
  secrets (fst (Apply None current selections (mkCredentialStore "myference" (Some locked) (Some save) (Some delete)) (Some saveConfig) (world true)))
  = ∅ /\ secrets (world true) = {[("myference", "m1/openai-gpt-5") := "sk-1"]}.
Proof. split; vm_compute; reflexivity. Qed.
End HostRun.
#[local] Existing Instances HostRun.ascii_tables HostRun.lawful.

