(* ===== verification/Tui.v ===== *)
(** * The terminal user interface (cli/internal/tui/model.go)

    The state of the screens, what a message does to it and the commands it
    starts, and the text shown.  A message is handled against the world [W] the
    dependencies act on; [None] is a run-time panic.  A command is a value:
    [run_cmd] says what executing it does and the message it ends with.  The
    text inputs and the keys belong to the library bubbles ([TextInput]);
    [url_parse] is [url.Parse] and [error_text] the text of an error. *)

From S2P Require Import Prelude GoStrings Wire ProviderAccount Daemon ProviderOps ClientConfig Backends Host.
From Stdlib Require Import Ascii.
From stdpp Require Import gmap strings.
Open Scope string_scope.
Open Scope list_scope.
Open Scope Z_scope.

(** ** Data *)
Inductive Screen :=
| ScreenHome | ScreenProviders | ScreenAPI | ScreenReview | ScreenStatus | ScreenOffers | ScreenOfferAttach
| ScreenPricing | ScreenCollateral | ScreenCollateralDeposit.
Inductive priceStep := priceStepInput | priceStepOutput | priceStepCompute | priceStepReview.
Inductive apiStep := apiStepURL | apiStepKey | apiStepModel.
#[export] Instance Screen_eq_dec : EqDecision Screen.
Proof. solve_decision. Defined.

(** A text field of bubbles/textinput. *)
Class TextInput := mkTextInput {
  input : Type; key : Type; paste : Type; blink : Type;
  key_String : key -> string;
  new_input : string -> string -> bool -> input;  (* placeholder, prompt, password *)
  Value : input -> string;
  SetValue : string -> input -> input;
  Focus : input -> input;
  Blur : input -> input;
  SetWidth : Z -> input -> input;
  input_key : key -> input -> input * option blink;
  input_paste : paste -> input -> input * option blink;
  input_View : input -> string;
}.

Record offerRow := mkOfferRow { or_backend : Backend; or_offer : EditableOffer; or_wallet : bool }.
Definition zero_offer : EditableOffer := mkEditableOffer "" "" "" [] "" 0 "" "" "".
Definition zero_account : ProviderAccountView := mkProviderAccountView 0 "" "" 0 "" "" "" "" "" 0 [].
Definition zero_snapshot : StatusSnapshot := mkStatusSnapshot false 0 0 0 0 0 0 "" [] [].

(** ** Helpers *)
Definition move (cursor : Z) (key : string) (length : Z) : Z :=
  if length =? 0 then 0
  else if String.eqb key "up" || String.eqb key "k" then Z.rem (cursor - 1 + length) length
  else if String.eqb key "down" || String.eqb key "j" then Z.rem (cursor + 1) length
  else cursor.

Definition nl : string := str [10].
Definition menuRow (active : bool) (label : string) : string := (if active then "> " else "  ") +:+ label +:+ nl.

Definition short (value : string) (maximum : Z) : string :=
  if go_len value <=? maximum then value else String.substring 0 (Z.to_nat (maximum - 1)) value +:+ "…".

Definition formatWei (value : string) : string :=
  match SetString10 value with
  | None => "0"
  | Some integer =>
      if integer <? 0 then "0"
      else
        let whole := Z.quot integer (10 ^ 18) in
        let fraction := Z.rem integer (10 ^ 18) in
        if fraction =? 0 then BigString whole
        else
          let fractionText := BigString fraction in
          let fractionText := zero_digits (18 - String.length fractionText) +:+ fractionText in
          BigString whole +:+ "." +:+ trim_right ["0"] fractionText
  end.

Definition backendComputeOnly (item : Backend) : bool :=
  String.eqb (bk_Kind item) "kimi"
  || (String.eqb (bk_Kind item) "codex" || String.eqb (bk_Kind item) "claude") && negb (String.eqb (bk_Image item) "").

Definition ongoing (request : RequestStatus) : bool :=
  String.eqb (st_State request) "active" || String.eqb (st_State request) "settling".
Fixpoint append_visible (wanted : RequestStatus -> bool) (limit : nat) (visible requests : list RequestStatus) : list RequestStatus :=
  match requests with
  | [] => visible
  | request :: rest =>
      append_visible wanted limit
        (if wanted request && bool_decide (length visible < limit)%nat then visible ++ [request] else visible) rest
  end.
Definition visibleRequests (requests : list RequestStatus) (limit : nat) : list RequestStatus :=
  append_visible (fun r => negb (ongoing r)) limit (append_visible ongoing limit [] requests) requests.

(** [fmt.Sprintf] pads to a number of characters. *)
Fixpoint spaces (n : nat) : string := match n with O => "" | S n => String " " (spaces n) end.
Definition pad (n : nat) (s : string) : string := s +:+ spaces (n - length (runes s)).

(** [items[i]]: out of range is a panic. *)
Definition at_index {A} (items : list A) (i : Z) : option A := if i <? 0 then None else items !! Z.to_nat i.

(** ** The model and its commands *)
Section Tui.
Context `{TextInput}.

Record Session := mkSession {
  ss_screen : Screen; ss_candidates : list Candidate; ss_cursor : Z; ss_selected : gmap string bool;
  ss_secrets : gmap string string; ss_width : Z; ss_height : Z; ss_running : bool; ss_confirmQuit : bool;
  ss_busy : bool; ss_status : string; ss_err : option error; ss_snapshot : StatusSnapshot;
}.
Record APIForm := mkAPIForm {
  af_apiCompatible : bool; af_apiStep : apiStep; af_apiName : string; af_apiURL : input; af_apiKey : input;
  af_apiModel : input;
}.
Record Offers := mkOffers {
  of_pricingBackend : Backend; of_priceStep : priceStep; of_priceInput : input; of_priceOutput : input;
  of_priceCompute : input; of_depositAmount : input; of_account : ProviderAccountView; of_accountErr : option error;
  of_attachBackend : Backend; of_attachOffers : list EditableOffer;
}.
Record Model := mkModel { session :> Session; api_form :> APIForm; offers :> Offers }.

Definition set_screen (x : Screen) (m : Model) : Model :=
  mkModel (mkSession x (ss_candidates m) (ss_cursor m) (ss_selected m) (ss_secrets m) (ss_width m) (ss_height m)
    (ss_running m) (ss_confirmQuit m) (ss_busy m) (ss_status m) (ss_err m) (ss_snapshot m)) (api_form m) (offers m).
Definition set_candidates (x : list Candidate) (m : Model) : Model :=
  mkModel (mkSession (ss_screen m) x (ss_cursor m) (ss_selected m) (ss_secrets m) (ss_width m) (ss_height m)
    (ss_running m) (ss_confirmQuit m) (ss_busy m) (ss_status m) (ss_err m) (ss_snapshot m)) (api_form m) (offers m).
Definition set_cursor (x : Z) (m : Model) : Model :=
  mkModel (mkSession (ss_screen m) (ss_candidates m) x (ss_selected m) (ss_secrets m) (ss_width m) (ss_height m)
    (ss_running m) (ss_confirmQuit m) (ss_busy m) (ss_status m) (ss_err m) (ss_snapshot m)) (api_form m) (offers m).
Definition set_selected (x : gmap string bool) (m : Model) : Model :=
  mkModel (mkSession (ss_screen m) (ss_candidates m) (ss_cursor m) x (ss_secrets m) (ss_width m) (ss_height m)
    (ss_running m) (ss_confirmQuit m) (ss_busy m) (ss_status m) (ss_err m) (ss_snapshot m)) (api_form m) (offers m).
Definition set_secrets (x : gmap string string) (m : Model) : Model :=
  mkModel (mkSession (ss_screen m) (ss_candidates m) (ss_cursor m) (ss_selected m) x (ss_width m) (ss_height m)
    (ss_running m) (ss_confirmQuit m) (ss_busy m) (ss_status m) (ss_err m) (ss_snapshot m)) (api_form m) (offers m).
Definition set_width (x : Z) (m : Model) : Model :=
  mkModel (mkSession (ss_screen m) (ss_candidates m) (ss_cursor m) (ss_selected m) (ss_secrets m) x (ss_height m)
    (ss_running m) (ss_confirmQuit m) (ss_busy m) (ss_status m) (ss_err m) (ss_snapshot m)) (api_form m) (offers m).
Definition set_height (x : Z) (m : Model) : Model :=
  mkModel (mkSession (ss_screen m) (ss_candidates m) (ss_cursor m) (ss_selected m) (ss_secrets m) (ss_width m) x
    (ss_running m) (ss_confirmQuit m) (ss_busy m) (ss_status m) (ss_err m) (ss_snapshot m)) (api_form m) (offers m).
Definition set_running (x : bool) (m : Model) : Model :=
  mkModel (mkSession (ss_screen m) (ss_candidates m) (ss_cursor m) (ss_selected m) (ss_secrets m) (ss_width m)
    (ss_height m) x (ss_confirmQuit m) (ss_busy m) (ss_status m) (ss_err m) (ss_snapshot m)) (api_form m) (offers m).
Definition set_confirmQuit (x : bool) (m : Model) : Model :=
  mkModel (mkSession (ss_screen m) (ss_candidates m) (ss_cursor m) (ss_selected m) (ss_secrets m) (ss_width m)
    (ss_height m) (ss_running m) x (ss_busy m) (ss_status m) (ss_err m) (ss_snapshot m)) (api_form m) (offers m).
Definition set_busy (x : bool) (m : Model) : Model :=
  mkModel (mkSession (ss_screen m) (ss_candidates m) (ss_cursor m) (ss_selected m) (ss_secrets m) (ss_width m)
    (ss_height m) (ss_running m) (ss_confirmQuit m) x (ss_status m) (ss_err m) (ss_snapshot m)) (api_form m) (offers
    m).
Definition set_status (x : string) (m : Model) : Model :=
  mkModel (mkSession (ss_screen m) (ss_candidates m) (ss_cursor m) (ss_selected m) (ss_secrets m) (ss_width m)
    (ss_height m) (ss_running m) (ss_confirmQuit m) (ss_busy m) x (ss_err m) (ss_snapshot m)) (api_form m) (offers m).
Definition set_err (x : option error) (m : Model) : Model :=
  mkModel (mkSession (ss_screen m) (ss_candidates m) (ss_cursor m) (ss_selected m) (ss_secrets m) (ss_width m)
    (ss_height m) (ss_running m) (ss_confirmQuit m) (ss_busy m) (ss_status m) x (ss_snapshot m)) (api_form m) (offers
    m).
Definition set_snapshot (x : StatusSnapshot) (m : Model) : Model :=
  mkModel (mkSession (ss_screen m) (ss_candidates m) (ss_cursor m) (ss_selected m) (ss_secrets m) (ss_width m)
    (ss_height m) (ss_running m) (ss_confirmQuit m) (ss_busy m) (ss_status m) (ss_err m) x) (api_form m) (offers m).
Definition set_apiCompatible (x : bool) (m : Model) : Model :=
  mkModel (session m) (mkAPIForm x (af_apiStep m) (af_apiName m) (af_apiURL m) (af_apiKey m) (af_apiModel m)) (offers
    m).
Definition set_apiStep (x : apiStep) (m : Model) : Model :=
  mkModel (session m) (mkAPIForm (af_apiCompatible m) x (af_apiName m) (af_apiURL m) (af_apiKey m) (af_apiModel m))
    (offers m).
Definition set_apiName (x : string) (m : Model) : Model :=
  mkModel (session m) (mkAPIForm (af_apiCompatible m) (af_apiStep m) x (af_apiURL m) (af_apiKey m) (af_apiModel m))
    (offers m).
Definition set_apiURL (x : input) (m : Model) : Model :=
  mkModel (session m) (mkAPIForm (af_apiCompatible m) (af_apiStep m) (af_apiName m) x (af_apiKey m) (af_apiModel m))
    (offers m).
Definition set_apiKey (x : input) (m : Model) : Model :=
  mkModel (session m) (mkAPIForm (af_apiCompatible m) (af_apiStep m) (af_apiName m) (af_apiURL m) x (af_apiModel m))
    (offers m).
Definition set_apiModel (x : input) (m : Model) : Model :=
  mkModel (session m) (mkAPIForm (af_apiCompatible m) (af_apiStep m) (af_apiName m) (af_apiURL m) (af_apiKey m) x)
    (offers m).
Definition set_pricingBackend (x : Backend) (m : Model) : Model :=
  mkModel (session m) (api_form m) (mkOffers x (of_priceStep m) (of_priceInput m) (of_priceOutput m) (of_priceCompute
    m) (of_depositAmount m) (of_account m) (of_accountErr m) (of_attachBackend m) (of_attachOffers m)).
Definition set_priceStep (x : priceStep) (m : Model) : Model :=
  mkModel (session m) (api_form m) (mkOffers (of_pricingBackend m) x (of_priceInput m) (of_priceOutput m)
    (of_priceCompute m) (of_depositAmount m) (of_account m) (of_accountErr m) (of_attachBackend m) (of_attachOffers
    m)).
Definition set_priceInput (x : input) (m : Model) : Model :=
  mkModel (session m) (api_form m) (mkOffers (of_pricingBackend m) (of_priceStep m) x (of_priceOutput m)
    (of_priceCompute m) (of_depositAmount m) (of_account m) (of_accountErr m) (of_attachBackend m) (of_attachOffers
    m)).
Definition set_priceOutput (x : input) (m : Model) : Model :=
  mkModel (session m) (api_form m) (mkOffers (of_pricingBackend m) (of_priceStep m) (of_priceInput m) x
    (of_priceCompute m) (of_depositAmount m) (of_account m) (of_accountErr m) (of_attachBackend m) (of_attachOffers
    m)).
Definition set_priceCompute (x : input) (m : Model) : Model :=
  mkModel (session m) (api_form m) (mkOffers (of_pricingBackend m) (of_priceStep m) (of_priceInput m) (of_priceOutput
    m) x (of_depositAmount m) (of_account m) (of_accountErr m) (of_attachBackend m) (of_attachOffers m)).
Definition set_depositAmount (x : input) (m : Model) : Model :=
  mkModel (session m) (api_form m) (mkOffers (of_pricingBackend m) (of_priceStep m) (of_priceInput m) (of_priceOutput
    m) (of_priceCompute m) x (of_account m) (of_accountErr m) (of_attachBackend m) (of_attachOffers m)).
Definition set_account (x : ProviderAccountView) (m : Model) : Model :=
  mkModel (session m) (api_form m) (mkOffers (of_pricingBackend m) (of_priceStep m) (of_priceInput m) (of_priceOutput
    m) (of_priceCompute m) (of_depositAmount m) x (of_accountErr m) (of_attachBackend m) (of_attachOffers m)).
Definition set_accountErr (x : option error) (m : Model) : Model :=
  mkModel (session m) (api_form m) (mkOffers (of_pricingBackend m) (of_priceStep m) (of_priceInput m) (of_priceOutput
    m) (of_priceCompute m) (of_depositAmount m) (of_account m) x (of_attachBackend m) (of_attachOffers m)).
Definition set_attachBackend (x : Backend) (m : Model) : Model :=
  mkModel (session m) (api_form m) (mkOffers (of_pricingBackend m) (of_priceStep m) (of_priceInput m) (of_priceOutput
    m) (of_priceCompute m) (of_depositAmount m) (of_account m) (of_accountErr m) x (of_attachOffers m)).
Definition set_attachOffers (x : list EditableOffer) (m : Model) : Model :=
  mkModel (session m) (api_form m) (mkOffers (of_pricingBackend m) (of_priceStep m) (of_priceInput m) (of_priceOutput
    m) (of_priceCompute m) (of_depositAmount m) (of_account m) (of_accountErr m) (of_attachBackend m) x).

Context {W : Type}.
Record Dependencies := mkDependencies {
  dp_ListModels : option (string -> string -> M (W := W) (list string));
  dp_Configure : option (list Selection -> M (W := W) unit);
  dp_Start : option (M (W := W) unit);
  dp_Stop : option (W -> W);
  dp_Snapshot : option (M (W := W) StatusSnapshot);
  dp_Backends : list Backend;
  dp_LoadBackends : option (W -> list Backend);
  dp_Account : option (M (W := W) ProviderAccountView);
  dp_Attach : option (string -> string -> M (W := W) unit);
  dp_Publish : option (Backend -> Rates -> M (W := W) unit);
  dp_Deposit : option (string -> M (W := W) unit);
  dp_RequestExit : option (M (W := W) unit);
  dp_FinalizeExit : option (M (W := W) unit);
}.

Inductive MouseButton := MouseWheelUp | MouseWheelDown | MouseOther.
Inductive Msg :=
| WindowSizeMsg (width height : Z)
| catalogMsg (baseURL providerName secret : string) (models : list string) (err : option error)
| startedMsg (err : option error)
| configuredMsg (err : option error)
| snapshotMsg (snapshot : StatusSnapshot) (err : option error)
| pollStatusMsg
| accountMsg (account : ProviderAccountView) (err : option error)
| pollAccountMsg
| providerOperationMsg (status : string) (err : option error)
| PasteMsg (p : paste)
| MouseWheelMsg (button : MouseButton)
| KeyPressMsg (k : key)
| OtherMsg.

(** The commands: what the closures of the code do when they run. *)
Inductive Cmd :=
| NoCmd
| Quit
| Batch (first second : Cmd)
| Tick (seconds : Z) (message : Msg)
| InputCmd (b : blink)
| ListModelsCmd (baseURL providerName secret : string)
| StartCmd (selections : list Selection)
| ConfigureCmd (selections : list Selection)
| StartConfiguredCmd
| SnapshotCmd
| AccountCmd
| AttachCmd (item : Backend) (offer : EditableOffer)
| PublishCmd (item : Backend) (rates : Rates)
| DepositCmd (amount : string)
| RequestExitCmd
| FinalizeExitCmd.
Definition input_cmd (b : option blink) : Cmd := match b with Some b => InputCmd b | None => NoCmd end.

Definition err_of {A} (r : result A) : option error := match r with Ok _ => None | Err e => Some e end.

Context (dependencies : Dependencies) `{Unicode} (url_parse : string -> option Url) (error_text : error -> string).

(** The message a command that acts on the world ends with. *)
Definition run_cmd (c : Cmd) (w : W) : W * option Msg :=
  match c with
  | NoCmd | Quit | Batch _ _ | InputCmd _ => (w, None)
  | Tick _ message => (w, Some message)
  | ListModelsCmd baseURL providerName secret =>
      match dp_ListModels dependencies with
      | None => (w, None)
      | Some list_models =>
          match list_models baseURL secret w with
          | (w, Ok models) => (w, Some (catalogMsg baseURL providerName secret models None))
          | (w, Err e) => (w, Some (catalogMsg baseURL providerName secret [] (Some e)))
          end
      end
  | StartCmd selections =>
      let '(w, failed) := match dp_Configure dependencies with
                          | Some configure => let '(w, r) := configure selections w in (w, err_of r)
                          | None => (w, None)
                          end in
      match failed with
      | Some e => (w, Some (startedMsg (Some e)))
      | None =>
          match dp_Start dependencies with
          | Some start => let '(w, r) := start w in (w, Some (startedMsg (err_of r)))
          | None => (w, Some (startedMsg None))
          end
      end
  | ConfigureCmd selections =>
      match dp_Configure dependencies with
      | None => (w, Some (configuredMsg None))
      | Some configure => let '(w, r) := configure selections w in (w, Some (configuredMsg (err_of r)))
      end
  | StartConfiguredCmd =>
      match dp_Start dependencies with
      | None => (w, Some (startedMsg None))
      | Some start => let '(w, r) := start w in (w, Some (startedMsg (err_of r)))
      end
  | SnapshotCmd =>
      match dp_Snapshot dependencies with
      | None => (w, Some (snapshotMsg zero_snapshot None))
      | Some take =>
          match take w with
          | (w, Ok s) => (w, Some (snapshotMsg s None))
          | (w, Err e) => (w, Some (snapshotMsg zero_snapshot (Some e)))
          end
      end
  | AccountCmd =>
      match dp_Account dependencies with
      | None => (w, None)
      | Some get =>
          match get w with
          | (w, Ok a) => (w, Some (accountMsg a None))
          | (w, Err e) => (w, Some (accountMsg zero_account (Some e)))
          end
      end
  | AttachCmd item offer =>
      match dp_Attach dependencies with
      | None => (w, Some (providerOperationMsg "" (Some (ErrNew "Offer attachment is unavailable"))))
      | Some attach => let '(w, r) := attach (bk_Name item) (eo_OfferID offer) w in
                       (w, Some (providerOperationMsg "Offer attached." (err_of r)))
      end
  | PublishCmd item rates =>
      match dp_Publish dependencies with
      | None => (w, None)
      | Some publish => let '(w, r) := publish item rates w in (w, Some (providerOperationMsg "" (err_of r)))
      end
  | DepositCmd amount =>
      match dp_Deposit dependencies with
      | None => (w, None)
      | Some deposit => let '(w, r) := deposit amount w in (w, Some (providerOperationMsg "" (err_of r)))
      end
  | RequestExitCmd =>
      match dp_RequestExit dependencies with
      | None => (w, None)
      | Some request => let '(w, r) := request w in (w, Some (providerOperationMsg "" (err_of r)))
      end
  | FinalizeExitCmd =>
      match dp_FinalizeExit dependencies with
      | None => (w, None)
      | Some finalize => let '(w, r) := finalize w in (w, Some (providerOperationMsg "" (err_of r)))
      end
  end.

Definition present {A} (o : option A) : bool := match o with Some _ => true | None => false end.
Definition accountCommand : Cmd := if present (dp_Account dependencies) then AccountCmd else NoCmd.

(** ** Queries *)
Definition zlen {A} (l : list A) : Z := Z.of_nat (length l).
Definition is_selected (m : Model) (id : string) : bool := default false (ss_selected m !! id).
Definition secret_of (m : Model) (id : string) : string := default "" (ss_secrets m !! id).
Definition selections (m : Model) : list Selection :=
  map (fun c => mkSelection c (secret_of m (ca_ID c))) (List.filter (fun c => is_selected m (ca_ID c)) (ss_candidates m)).

Definition currentBackends (w : W) : list Backend :=
  match dp_LoadBackends dependencies with Some load => load w | None => dp_Backends dependencies end.
Definition offerRows (w : W) (m : Model) : list offerRow :=
  map (fun item => mkOfferRow item zero_offer false) (currentBackends w)
  ++ map (fun offer => mkOfferRow zero_backend offer true) (pv_Offers (of_account m)).
Definition attachedBackend (w : W) (offerID : string) : option Backend :=
  List.find (fun item => (0 <? bk_PriceVersion item) && String.eqb (EffectiveOfferID item) offerID) (currentBackends w).
Definition attachableBackends (w : W) (offer : EditableOffer) : list Backend :=
  List.filter (fun item => (bk_PriceVersion item =? 0) && Compatible item offer) (currentBackends w).
Definition compatibleOffers (w : W) (m : Model) (item : Backend) : list EditableOffer :=
  List.filter (fun offer => negb (present (attachedBackend w (eo_OfferID offer))) && Compatible item offer) (pv_Offers (of_account m)).
Definition walletOfferState (w : W) (offer : EditableOffer) : string :=
  match attachedBackend w (eo_OfferID offer) with
  | Some attached => "Attached here · " +:+ bk_Name attached
  | None =>
      let matches := zlen (attachableBackends w offer) in
      if matches =? 1 then "Ready to attach"
      else if 1 <? matches then BigString matches +:+ " matching local providers"
      else "No matching local provider"
  end.

(** ** Forms *)
Definition clearAPIForm (m : Model) : Model :=
  set_apiURL (Blur (SetValue "" (af_apiURL m))) (set_apiKey (Blur (SetValue "" (af_apiKey m)))
    (set_apiModel (Blur (SetValue "" (af_apiModel m))) (set_apiName "" (set_err None (set_busy false m))))).

Definition openAPIForm (compatible : bool) (m : Model) : Model :=
  let m := set_screen ScreenAPI (set_apiCompatible compatible (set_err None (set_busy false m))) in
  if compatible then set_apiStep apiStepURL (set_apiURL (Focus (af_apiURL m)) m)
  else set_apiStep apiStepKey (set_apiName "OpenAI"
         (set_apiURL (SetValue "https://api.openai.com" (af_apiURL m)) (set_apiKey (Focus (af_apiKey m)) m))).

Definition api_candidate (baseURL providerName name : string) : Candidate :=
  identified (mkCandidate "" "openai" providerName (trim_slashes baseURL) name "" "" StateReady "" 0 false).
Definition addAPICandidate (baseURL providerName secret : string) (m : Model) (name : string) : Model :=
  let candidate := api_candidate baseURL providerName name in
  let m := if existsb (fun existing => String.eqb (ca_ID existing) (ca_ID candidate)) (ss_candidates m) then m
           else set_candidates (ss_candidates m ++ [candidate]) m in
  set_secrets (<[ca_ID candidate := secret]> (ss_secrets m)) m.
Definition addAPICandidates (baseURL providerName secret : string) (models : list string) (m : Model) : Model :=
  fold_left (addAPICandidate baseURL providerName secret) models m.

Definition ask_model (failure : error) (m : Model) : Model :=
  set_err (Some failure) (set_apiStep apiStepModel
    (set_apiKey (Blur (af_apiKey m)) (set_apiModel (Focus (af_apiModel m)) m))).

Definition advanceAPI (m : Model) : Model * Cmd :=
  match af_apiStep m with
  | apiStepURL =>
      match url_parse (TrimSpace (Value (af_apiURL m))) with
      | Some parsed =>
          if String.eqb (ur_Host parsed) "" then (set_err (Some (ErrNew "Enter a valid provider URL")) m, NoCmd)
          else (set_apiName (ur_Hostname parsed) (set_apiStep apiStepKey (set_err None
                  (set_apiURL (Blur (af_apiURL m)) (set_apiKey (Focus (af_apiKey m)) m)))), NoCmd)
      | None => (set_err (Some (ErrNew "Enter a valid provider URL")) m, NoCmd)
      end
  | apiStepModel =>
      let name := TrimSpace (Value (af_apiModel m)) in
      if String.eqb name "" then (set_err (Some (ErrNew "Enter a model name")) m, NoCmd)
      else
        let m := addAPICandidates (Value (af_apiURL m)) (af_apiName m) (Value (af_apiKey m)) [name] m in
        (set_screen ScreenProviders (set_cursor 0 (clearAPIForm m)), NoCmd)
  | apiStepKey =>
      let secret := Value (af_apiKey m) in
      if is_blank secret then (set_err (Some (ErrNew "Enter an API key")) m, NoCmd)
      else if negb (present (dp_ListModels dependencies)) then (ask_model ErrModelCatalogUnavailable m, NoCmd)
      else (set_busy true (set_err None m), ListModelsCmd (Value (af_apiURL m)) (af_apiName m) secret)
  end.

Definition applyCatalog (baseURL providerName secret : string) (models : list string) (failed : option error) (m : Model) : Model :=
  let m := set_busy false m in
  match failed with
  | Some e => ask_model e m
  | None => set_screen ScreenProviders (set_cursor 0 (clearAPIForm (addAPICandidates baseURL providerName secret models m)))
  end.

Definition applyStarted (failed : option error) (m : Model) : Model :=
  let m := set_screen ScreenStatus (set_busy false (set_confirmQuit false (set_err failed m))) in
  match failed with
  | None => set_running true (set_status "Selected providers are connected." (set_secrets ∅ m))
  | Some _ => set_running false (set_status "Hosting could not start." m)
  end.

Definition applySnapshot (snapshot : StatusSnapshot) (failed : option error) (m : Model) : Model :=
  match failed with
  | Some _ => set_status "Live status is temporarily unavailable." m
  | None => set_snapshot snapshot
              (set_status (if sn_Connected snapshot then "Provider relay connected." else "Connecting to provider relay…") m)
  end.

Definition applyAccount (account : ProviderAccountView) (failed : option error) (m : Model) : Model :=
  let m := set_accountErr failed m in
  let loaded m := match failed with None => set_account account m | Some _ => m end in
  if bool_decide (ss_screen m = ScreenStatus) then loaded m else loaded (set_busy false (set_err failed m)).

Definition openPricing (item : Backend) (m : Model) : Model :=
  let m := set_screen ScreenPricing (set_pricingBackend item (set_err None (set_busy false m))) in
  if backendComputeOnly item
  then set_priceStep priceStepCompute (set_priceInput (SetValue "0" (of_priceInput m))
         (set_priceOutput (SetValue "0" (of_priceOutput m)) (set_priceCompute (Focus (of_priceCompute m)) m)))
  else set_priceStep priceStepInput (set_priceInput (Focus (of_priceInput m)) m).
Definition clearPricing (m : Model) : Model :=
  set_priceInput (Blur (SetValue "" (of_priceInput m))) (set_priceOutput (Blur (SetValue "" (of_priceOutput m)))
    (set_priceCompute (Blur (SetValue "" (of_priceCompute m))) m)).
Definition rates (m : Model) : Rates :=
  mkRates (Value (of_priceInput m)) (Value (of_priceOutput m)) (Value (of_priceCompute m)).

Definition advancePricing (m : Model) : Model * Cmd :=
  match of_priceStep m with
  | priceStepInput =>
      if is_blank (Value (of_priceInput m)) then (set_err (Some (ErrNew "Enter an input token price")) m, NoCmd)
      else (set_priceStep priceStepOutput (set_err None
              (set_priceInput (Blur (of_priceInput m)) (set_priceOutput (Focus (of_priceOutput m)) m))), NoCmd)
  | priceStepOutput =>
      if is_blank (Value (of_priceOutput m)) then (set_err (Some (ErrNew "Enter an output token price")) m, NoCmd)
      else (set_priceStep priceStepCompute (set_err None
              (set_priceOutput (Blur (of_priceOutput m)) (set_priceCompute (Focus (of_priceCompute m)) m))), NoCmd)
  | priceStepCompute =>
      if is_blank (Value (of_priceCompute m)) then (set_err (Some (ErrNew "Enter a compute price")) m, NoCmd)
      else (set_priceStep priceStepReview (set_err None (set_priceCompute (Blur (of_priceCompute m)) m)), NoCmd)
  | priceStepReview =>
      if negb (present (dp_Publish dependencies)) then (set_err (Some (ErrNew "Offer publishing is unavailable")) m, NoCmd)
      else (set_busy true (set_err None m), PublishCmd (of_pricingBackend m) (rates m))
  end.

Definition clear_deposit (m : Model) : Model := set_depositAmount (Blur (SetValue "" (of_depositAmount m))) m.
Definition goto (screen : Screen) (m : Model) : Model := set_screen screen (set_cursor 0 m).
Definition working (m : Model) : Model := set_busy true (set_err None m).

(** ** Keys *)
Definition home_key (key : string) (m : Model) : Model * Cmd :=
  let m := set_cursor (move (ss_cursor m) key 5) m in
  if String.eqb key "q" then (m, Quit)
  else if String.eqb key "enter" then
    let c := ss_cursor m in
    if c =? 0 then (goto ScreenProviders m, NoCmd)
    else if c =? 1 then (working (goto ScreenOffers m), accountCommand)
    else if c =? 2 then (working (goto ScreenCollateral m), accountCommand)
    else if c =? 3 then (goto ScreenStatus m, accountCommand)
    else if c =? 4 then (m, Quit)
    else (m, NoCmd)
  else (m, NoCmd).

Definition toggle (id : string) (m : Model) : Model := set_selected (<[id := negb (is_selected m id)]> (ss_selected m)) m.
Definition providers_key (key : string) (m : Model) : option Model :=
  let n := zlen (ss_candidates m) in
  let m := set_cursor (move (ss_cursor m) key (n + 2)) m in
  if String.eqb key "esc" then Some (goto ScreenHome m)
  else if String.eqb key "r" then Some (goto ScreenReview m)
  else if String.eqb key "space" then
    if ss_cursor m <? n then c ← at_index (ss_candidates m) (ss_cursor m); Some (toggle (ca_ID c) m) else Some m
  else if String.eqb key "enter" then
    if ss_cursor m =? n then Some (openAPIForm false m)
    else if ss_cursor m =? n + 1 then Some (openAPIForm true m)
    else Some m
  else Some m.

Definition enter_wallet (w : W) (offer : EditableOffer) (m : Model) : Model * Cmd :=
  match attachedBackend w (eo_OfferID offer) with
  | Some attached => (set_status ("Already attached to " +:+ bk_Name attached +:+ ".") m, NoCmd)
  | None =>
      match attachableBackends w offer with
      | [] => (set_status "Configure a matching provider first." m, NoCmd)
      | [item] => (working m, AttachCmd item offer)
      | _ => (set_status "Multiple matching local providers; select one under This machine." m, NoCmd)
      end
  end.
Definition enter_backend (w : W) (item : Backend) (m : Model) : Model * Cmd :=
  if 0 <? bk_PriceVersion item then
    (set_status ("Already attached as " +:+ EffectiveOfferID item +:+ " v" +:+ BigString (bk_PriceVersion item)
                 +:+ ". Press e to edit pricing.") m, NoCmd)
  else
    match compatibleOffers w m item with
    | [] => (openPricing item m, NoCmd)
    | [offer] => (working m, AttachCmd item offer)
    | matches => (set_attachOffers matches (set_attachBackend item (goto ScreenOfferAttach m)), NoCmd)
    end.
Definition offers_key (w : W) (key : string) (m : Model) : option (Model * Cmd) :=
  let rows := offerRows w m in
  let m := set_cursor (move (ss_cursor m) key (zlen rows)) m in
  let idle := negb (bool_decide (rows = [])) && negb (ss_busy m) in
  if String.eqb key "esc" then Some (goto ScreenHome m, NoCmd)
  else if String.eqb key "e" && idle then
    row ← at_index rows (ss_cursor m);
    Some (if or_wallet row then set_status "Select a provider under This machine to create or edit an offer." m
          else openPricing (or_backend row) m, NoCmd)
  else if String.eqb key "enter" && idle then
    row ← at_index rows (ss_cursor m);
    Some (if or_wallet row then enter_wallet w (or_offer row) m else enter_backend w (or_backend row) m)
  else if String.eqb key "s" && negb (ss_busy m) then
    if existsb (fun item => bk_Enabled item && (bk_PriceVersion item =? 0)) (currentBackends w)
    then Some (set_err (Some (ErrNew "Publish pricing for every enabled provider before starting")) m, NoCmd)
    else Some (working m, StartConfiguredCmd)
  else Some (m, NoCmd).

Definition attach_key (key : string) (m : Model) : option (Model * Cmd) :=
  let m := set_cursor (move (ss_cursor m) key (zlen (of_attachOffers m))) m in
  if String.eqb key "esc" && negb (ss_busy m) then Some (set_attachOffers [] (set_err None (goto ScreenOffers m)), NoCmd)
  else if String.eqb key "enter" && negb (bool_decide (of_attachOffers m = [])) && negb (ss_busy m) then
    offer ← at_index (of_attachOffers m) (ss_cursor m); Some (working m, AttachCmd (of_attachBackend m) offer)
  else Some (m, NoCmd).

Definition collateral_key (key : string) (m : Model) : Model * Cmd :=
  let exiting := negb (pv_BondExitAvailableAt (of_account m) =? 0) in
  if String.eqb key "esc" then (goto ScreenHome m, NoCmd)
  else if String.eqb key "d" && negb exiting then
    (set_screen ScreenCollateralDeposit (set_err None (set_depositAmount (Focus (of_depositAmount m)) m)), NoCmd)
  else if String.eqb key "x" && negb exiting && present (dp_RequestExit dependencies) then (set_busy true m, RequestExitCmd)
  else if String.eqb key "f" && exiting && present (dp_FinalizeExit dependencies) then (set_busy true m, FinalizeExitCmd)
  else (m, NoCmd).

Definition deposit_key (key : string) (m : Model) : Model * Cmd :=
  if String.eqb key "esc" && negb (ss_busy m) then (clear_deposit (set_screen ScreenCollateral (set_err None m)), NoCmd)
  else if String.eqb key "enter" && negb (ss_busy m) then
    if is_blank (Value (of_depositAmount m)) then (set_err (Some (ErrNew "Enter a deposit amount")) m, NoCmd)
    else if negb (present (dp_Deposit dependencies)) then (set_err (Some (ErrNew "Collateral operations are unavailable")) m, NoCmd)
    else (working m, DepositCmd (Value (of_depositAmount m)))
  else (m, NoCmd).

Definition status_key (key : string) (m : Model) : Model * Cmd :=
  if String.eqb key "esc" then (goto ScreenHome m, NoCmd)
  else if String.eqb key "r" && negb (ss_busy m) then (set_busy true m, StartCmd (selections m))
  else if String.eqb key "q" then if ss_running m then (set_confirmQuit true m, NoCmd) else (m, Quit)
  else (m, NoCmd).

Definition review_key (key : string) (m : Model) : Model * Cmd :=
  if String.eqb key "esc" then (goto ScreenProviders m, NoCmd)
  else if String.eqb key "enter" && negb (bool_decide (selections m = [])) && negb (ss_busy m) then
    (set_busy true (set_status "Saving provider configuration…" (set_err None m)), ConfigureCmd (selections m))
  else (m, NoCmd).

Definition screen_key (w : W) (key : string) (m : Model) : option (Model * Cmd) :=
  match ss_screen m with
  | ScreenHome => Some (home_key key m)
  | ScreenProviders => m ← providers_key key m; Some (m, NoCmd)
  | ScreenAPI =>
      if String.eqb key "esc" then Some (goto ScreenProviders (clearAPIForm m), NoCmd)
      else if String.eqb key "enter" then Some (advanceAPI m) else Some (m, NoCmd)
  | ScreenReview => Some (review_key key m)
  | ScreenStatus => Some (status_key key m)
  | ScreenOffers => offers_key w key m
  | ScreenOfferAttach => attach_key key m
  | ScreenPricing =>
      if String.eqb key "esc" && negb (ss_busy m) then Some (clearPricing (set_err None (goto ScreenOffers m)), NoCmd)
      else if String.eqb key "enter" && negb (ss_busy m) then Some (advancePricing m) else Some (m, NoCmd)
  | ScreenCollateral => Some (collateral_key key m)
  | ScreenCollateralDeposit => Some (deposit_key key m)
  end.

Definition HandleKey (key : string) (m : Model) (w : W) : option (W * Model * Cmd) :=
  if String.eqb key "ctrl+c" then Some (if ss_running m then (w, set_confirmQuit true m, NoCmd) else (w, m, Quit))
  else if ss_confirmQuit m then
    let answer := ToLower key in
    if String.eqb answer "y" then
      Some (match dp_Stop dependencies with Some stop => stop w | None => w end, set_running false m, Quit)
    else if String.eqb answer "n" || String.eqb answer "esc" then Some (w, set_confirmQuit false m, NoCmd)
    else Some (w, m, NoCmd)
  else '(m, c) ← screen_key w key m; Some (w, m, c).

(** ** Messages *)
Definition Resize (width height : Z) (m : Model) : Model :=
  let inputWidth := if width - 8 <? 20 then 20 else width - 8 in
  set_apiURL (SetWidth inputWidth (af_apiURL m)) (set_apiKey (SetWidth inputWidth (af_apiKey m))
    (set_apiModel (SetWidth inputWidth (af_apiModel m)) (set_priceInput (SetWidth inputWidth (of_priceInput m))
      (set_priceOutput (SetWidth inputWidth (of_priceOutput m)) (set_priceCompute (SetWidth inputWidth (of_priceCompute m))
        (set_depositAmount (SetWidth inputWidth (of_depositAmount m)) (set_width width (set_height height m)))))))).

(** A message for the field of the API form, of the pricing form or the deposit. *)
Definition to_api (f : input -> input * option blink) (m : Model) : Model * Cmd :=
  match af_apiStep m with
  | apiStepURL => let '(i, c) := f (af_apiURL m) in (set_apiURL i m, input_cmd c)
  | apiStepKey => let '(i, c) := f (af_apiKey m) in (set_apiKey i m, input_cmd c)
  | apiStepModel => let '(i, c) := f (af_apiModel m) in (set_apiModel i m, input_cmd c)
  end.
Definition to_pricing (f : input -> input * option blink) (m : Model) : Model * Cmd :=
  match of_priceStep m with
  | priceStepInput => let '(i, c) := f (of_priceInput m) in (set_priceInput i m, input_cmd c)
  | priceStepOutput => let '(i, c) := f (of_priceOutput m) in (set_priceOutput i m, input_cmd c)
  | priceStepCompute => let '(i, c) := f (of_priceCompute m) in (set_priceCompute i m, input_cmd c)
  | priceStepReview => (m, NoCmd)
  end.
Definition to_deposit (f : input -> input * option blink) (m : Model) : Model * Cmd :=
  let '(i, c) := f (of_depositAmount m) in (set_depositAmount i m, input_cmd c).
Definition to_field (f : input -> input * option blink) (m : Model) : option (Model * Cmd) :=
  match ss_screen m with
  | ScreenAPI => Some (to_api f m)
  | ScreenPricing => Some (to_pricing f m)
  | ScreenCollateralDeposit => Some (to_deposit f m)
  | _ => None
  end.

(** What a successful operation leaves. *)
Definition operation_done (status : string) (m : Model) : Model :=
  let m := set_status (if String.eqb status "" then "Provider action confirmed." else status) m in
  let m := if bool_decide (ss_screen m = ScreenOfferAttach) then set_attachOffers [] (goto ScreenOffers m) else m in
  let m := if bool_decide (ss_screen m = ScreenPricing) then clearPricing (set_screen ScreenOffers m) else m in
  if bool_decide (ss_screen m = ScreenCollateralDeposit) then clear_deposit (set_screen ScreenCollateral m) else m.

Definition reserved (key : string) : bool := String.eqb key "enter" || String.eqb key "esc" || String.eqb key "ctrl+c".

Definition Update (message : Msg) (m : Model) (w : W) : option (W * Model * Cmd) :=
  match message with
  | WindowSizeMsg width height => Some (w, Resize width height m, NoCmd)
  | catalogMsg baseURL providerName secret models failed => Some (w, applyCatalog baseURL providerName secret models failed m, NoCmd)
  | startedMsg failed =>
      let m := applyStarted failed m in
      Some (w, m, if ss_running m then Batch SnapshotCmd accountCommand else NoCmd)
  | configuredMsg failed =>
      let m := set_busy false (set_err failed m) in
      match failed with
      | None => Some (w, set_busy true (set_status "Providers saved. Publish pricing before starting." (goto ScreenOffers m)), accountCommand)
      | Some _ => Some (w, m, NoCmd)
      end
  | snapshotMsg snapshot failed =>
      let m := applySnapshot snapshot failed m in
      Some (w, m, if ss_running m then Tick 1 pollStatusMsg else NoCmd)
  | pollStatusMsg => Some (w, m, if ss_running m then SnapshotCmd else NoCmd)
  | accountMsg account failed =>
      let m := applyAccount account failed m in
      Some (w, m, if bool_decide (ss_screen m = ScreenStatus) then Tick 15 pollAccountMsg else NoCmd)
  | pollAccountMsg => Some (w, m, if bool_decide (ss_screen m = ScreenStatus) then accountCommand else NoCmd)
  | providerOperationMsg status failed =>
      let m := set_busy false (set_err failed m) in
      match failed with
      | None => Some (w, operation_done status m, accountCommand)
      | Some _ => Some (w, m, NoCmd)
      end
  | PasteMsg p =>
      match to_field (input_paste p) m with Some (m, c) => Some (w, m, c) | None => Some (w, m, NoCmd) end
  | MouseWheelMsg MouseWheelUp => HandleKey "up" m w
  | MouseWheelMsg MouseWheelDown => HandleKey "down" m w
  | MouseWheelMsg MouseOther => Some (w, m, NoCmd)
  | KeyPressMsg k =>
      let pressed := key_String k in
      match (if reserved pressed then None else to_field (input_key k) m) with
      | Some (m, c) => Some (w, m, c)
      | None => HandleKey pressed m w
      end
  | OtherMsg => Some (w, m, NoCmd)
  end.

Definition NewModel (candidates : list Candidate) : Model :=
  let field placeholder prompt password := SetWidth 64 (new_input placeholder prompt password) in
  mkModel
    (mkSession ScreenHome candidates 0
       (fold_left (fun selected c => if ca_Selected c then <[ca_ID c := true]> selected else selected) candidates ∅)
       ∅ 0 0 false false false "" None zero_snapshot)
    (mkAPIForm false apiStepURL "" (field "https://provider.example" "Base URL: " false) (field "API key" "API key: " true)
       (field "model-name" "Model: " false))
    (mkOffers zero_backend priceStepInput (field "" "Input / million tokens (MON): " false)
       (field "" "Output / million tokens (MON): " false) (field "" "Compute / second (MON): " false)
       (field "" "Deposit (MON): " false) zero_account None zero_backend []).

(** ** The text *)
Definition text (b : bool) (s : string) : string := if b then s else "".
Fixpoint join_indexed {A} (f : Z -> A -> string) (i : Z) (l : list A) : string :=
  match l with [] => "" | a :: rest => f i a +:+ join_indexed f (i + 1) rest end.
Definition required (prefix suffix : string) (failed : option error) : string :=
  match failed with Some e => prefix +:+ "Action required: " +:+ error_text e +:+ suffix | None => "" end.

Definition view_home (m : Model) : string :=
  "Host models without leaving your terminal." +:+ nl +:+ nl
  +:+ join_indexed (fun i item => menuRow (i =? ss_cursor m) item) 0
        ["Providers"; "Offers & Pricing"; "Collateral"; "Live Status"; "Quit"]
  +:+ nl +:+ "↑/↓ navigate • Enter select • q quit" +:+ nl.

(** The rows of the Providers screen that fit, from the first one on. *)
Definition window (m : Model) : Z * Z :=
  let total := zlen (ss_candidates m) + 2 in
  if 0 <? ss_height m then
    let limit := Z.max 1 (ss_height m - 7) in
    if limit <? total then
      let first := Z.min (Z.max 0 (ss_cursor m - limit + 1)) (total - limit) in (first, first + limit)
    else (0, total)
  else (0, total).
Definition candidate_label (m : Model) (c : Candidate) : string :=
  "[" +:+ (if is_selected m (ca_ID c) then "x" else " ") +:+ "] " +:+ pad 8 (ca_Name c) +:+ " " +:+ ca_Model c
  +:+ text (negb (String.eqb (ca_Digest c) "")) ("  " +:+ short (ca_Digest c) 18).
Definition provider_row (m : Model) (index : Z) : string :=
  let active := index =? ss_cursor m in
  if index =? zlen (ss_candidates m) then menuRow active "+ Add OpenAI"
  else if index =? zlen (ss_candidates m) + 1 then menuRow active "+ Add OpenAI-compatible"
  else match at_index (ss_candidates m) index with Some c => menuRow active (candidate_label m c) | None => "" end.
Definition window_rows (m : Model) : list Z :=
  let '(first, last) := window m in map (fun k => first + Z.of_nat k) (seq 0 (Z.to_nat (last - first))).
Definition view_providers (m : Model) : string :=
  "Discovered providers" +:+ nl +:+ nl
  +:+ foldr (fun index s => provider_row m index +:+ s) "" (window_rows m)
  +:+ nl +:+ "↑/↓ scroll • Space toggle • Enter configure • r review • Esc back • " +:+ BigString (ss_cursor m + 1) +:+ "/"
  +:+ BigString (zlen (ss_candidates m) + 2) +:+ nl.

Definition view_api (m : Model) : string :=
  (if af_apiCompatible m then "Add OpenAI-compatible provider" else "Add OpenAI") +:+ nl +:+ nl
  +:+ match af_apiStep m with
      | apiStepURL => input_View (af_apiURL m)
      | apiStepKey => input_View (af_apiKey m)
      | apiStepModel => "Model discovery is unavailable. Enter the model name manually." +:+ nl +:+ nl +:+ input_View (af_apiModel m)
      end
  +:+ text (ss_busy m) (nl +:+ "Loading models…")
  +:+ match ss_err m with Some e => nl +:+ error_text e | None => "" end
  +:+ nl +:+ nl +:+ "Enter continue • Esc cancel" +:+ nl.

Definition view_review (m : Model) : string :=
  let selected := selections m in
  BigString (zlen selected) +:+ " providers selected" +:+ nl +:+ nl
  +:+ join_indexed (fun _ s => "• " +:+ pad 8 (ca_Name (sl_Candidate s)) +:+ " " +:+ ca_Model (sl_Candidate s) +:+ nl) 0 selected
  +:+ text (bool_decide (selected = [])) ("Select at least one provider before starting." +:+ nl)
  +:+ text (ss_busy m && negb (String.eqb (ss_status m) "")) (nl +:+ ss_status m +:+ nl)
  +:+ nl +:+ "Enter save providers • Esc back" +:+ nl.

Definition request_line (r : RequestStatus) : string :=
  "• " +:+ pad 14 (short (st_RequestID r) 14) +:+ " " +:+ pad 18 (short (st_Model r) 18) +:+ " " +:+ pad 9 (st_State r)
  +:+ (if String.eqb (st_State r) "completed" then
         " " +:+ FormatUint (st_InputTokens r) +:+ " in · " +:+ FormatUint (st_OutputTokens r) +:+ " out · "
         +:+ formatWei (st_EarningsWei r) +:+ " MON earned"
       else if String.eqb (st_State r) "active" then " earning pending"
       else if String.eqb (st_State r) "settling" then " settlement pending"
       else if String.eqb (st_State r) "failed" then text (negb (String.eqb (st_Error r) "")) (" " +:+ short (st_Error r) 32)
       else "")
  +:+ nl.
Definition offer_line (o : OfferStatus) : string :=
  "• " +:+ pad 16 (os_Model o) +:+ " " +:+ (if os_Healthy o then "healthy" else "unhealthy")
  +:+ text (negb (String.eqb (os_Error o) "")) (" — " +:+ os_Error o) +:+ nl.
Definition view_run (m : Model) : string :=
  let snapshot := ss_snapshot m in
  let requests := visibleRequests (sn_RecentRequests snapshot) 8 in
  "This run: " +:+ FormatUint (sn_Requests snapshot) +:+ " completed · " +:+ formatWei (sn_RunEarningsWei snapshot) +:+ " MON earned" +:+ nl
  +:+ text (negb (bool_decide (requests = [])))
        (nl +:+ "Requests" +:+ nl +:+ join_indexed (fun _ => request_line) 0 requests
         +:+ text (zlen requests <? zlen (sn_RecentRequests snapshot))
               ("  … " +:+ BigString (zlen (sn_RecentRequests snapshot) - zlen requests) +:+ " older requests hidden" +:+ nl))
  +:+ nl +:+ "Providers" +:+ nl +:+ join_indexed (fun _ => offer_line) 0 (sn_Offers snapshot) +:+ nl.
Definition view_status (m : Model) : string :=
  "Hosting status: " +:+ (if ss_running m then if sn_Connected (ss_snapshot m) then "Connected" else "Starting" else "Stopped") +:+ nl +:+ nl
  +:+ (if negb (String.eqb (pv_ProviderEarningsWei (of_account m)) "") then
         "Lifetime earnings: " +:+ formatWei (pv_ProviderEarningsWei (of_account m)) +:+ " MON" +:+ nl
         +:+ "Claimable: " +:+ formatWei (pv_ClaimableWei (of_account m)) +:+ " MON" +:+ nl
       else match of_accountErr m with Some e => "Lifetime earnings unavailable: " +:+ error_text e +:+ nl | None => "" end)
  +:+ text (ss_running m) (view_run m)
  +:+ text (negb (String.eqb (ss_status m) "")) (ss_status m +:+ nl)
  +:+ required "" nl (ss_err m)
  +:+ (if ss_confirmQuit m then nl +:+ "Stop hosting and quit? y/N" +:+ nl else nl +:+ "r retry • q quit" +:+ nl).

Definition backend_state (w : W) (m : Model) (item : Backend) : string :=
  if 0 <? bk_PriceVersion item then "Public as " +:+ EffectiveOfferID item +:+ " v" +:+ BigString (bk_PriceVersion item)
  else match compatibleOffers w m item with
       | [] => "Not published"
       | [offer] => "Attach " +:+ eo_OfferID offer +:+ " v" +:+ BigString (eo_Version offer)
       | matches => BigString (zlen matches) +:+ " compatible offers"
       end.
Definition view_offers (w : W) (m : Model) : string :=
  let backends := currentBackends w in
  "Offers & Pricing" +:+ nl +:+ nl +:+ "This machine" +:+ nl
  +:+ text (bool_decide (backends = [])) ("  Configure a provider first." +:+ nl)
  +:+ join_indexed (fun i item => menuRow (i =? ss_cursor m)
        (pad 18 (bk_Name item) +:+ " " +:+ pad 20 (bk_Model item) +:+ " " +:+ backend_state w m item)) 0 backends
  +:+ nl +:+ "Wallet offers" +:+ nl
  +:+ text (bool_decide (pv_Offers (of_account m) = []) && negb (ss_busy m)) ("  No wallet offers found." +:+ nl)
  +:+ join_indexed (fun i row => let offer := or_offer row in menuRow (i =? ss_cursor m)
        (pad 18 (eo_OfferID offer) +:+ " " +:+ pad 20 (eo_Model offer) +:+ " v" +:+ BigString (eo_Version offer) +:+ " · "
         +:+ walletOfferState w offer)) (zlen backends) (drop (length backends) (offerRows w m))
  +:+ text (negb (String.eqb (ss_status m) "")) (nl +:+ ss_status m +:+ nl)
  +:+ required nl nl (ss_err m)
  +:+ text (ss_busy m) (nl +:+ "Loading wallet offers…" +:+ nl)
  +:+ nl +:+ "Enter reuse/select • e create/edit offer • s start hosting • Esc back" +:+ nl.

Definition view_attach (m : Model) : string :=
  "Attach wallet offer · " +:+ bk_Name (of_attachBackend m) +:+ " (" +:+ bk_Model (of_attachBackend m) +:+ ")" +:+ nl +:+ nl
  +:+ join_indexed (fun i offer => menuRow (i =? ss_cursor m) (pad 20 (eo_OfferID offer) +:+ " v" +:+ BigString (eo_Version offer)))
        0 (of_attachOffers m)
  +:+ text (ss_busy m) (nl +:+ "Saving attachment…") +:+ required nl "" (ss_err m)
  +:+ nl +:+ nl +:+ "Enter attach • Esc cancel" +:+ nl.

Definition view_pricing (m : Model) : string :=
  (if 0 <? bk_PriceVersion (of_pricingBackend m) then "Edit offer pricing" else "Create new offer")
  +:+ " · " +:+ bk_Name (of_pricingBackend m) +:+ " (" +:+ bk_Model (of_pricingBackend m) +:+ ")" +:+ nl +:+ nl
  +:+ match of_priceStep m with
      | priceStepInput => input_View (of_priceInput m)
      | priceStepOutput => input_View (of_priceOutput m)
      | priceStepCompute => input_View (of_priceCompute m)
      | priceStepReview =>
          text (negb (backendComputeOnly (of_pricingBackend m)))
            ("Input / million tokens: " +:+ Value (of_priceInput m) +:+ " MON" +:+ nl
             +:+ "Output / million tokens: " +:+ Value (of_priceOutput m) +:+ " MON" +:+ nl)
          +:+ "Compute / second: " +:+ Value (of_priceCompute m) +:+ " MON" +:+ nl +:+ nl +:+ "Enter open wallet approval"
      end
  +:+ text (ss_busy m) (nl +:+ "Waiting for wallet and chain confirmation…") +:+ required nl "" (ss_err m)
  +:+ nl +:+ nl +:+ "Enter continue • Esc cancel" +:+ nl.

Definition view_collateral (m : Model) : string :=
  "Collateral" +:+ nl +:+ nl
  +:+ (if ss_busy m then "Loading provider account…" +:+ nl
       else "Bond: " +:+ formatWei (pv_ProviderBondWei (of_account m)) +:+ " MON" +:+ nl
            +:+ "Claimable: " +:+ formatWei (pv_ClaimableWei (of_account m)) +:+ " MON" +:+ nl
            +:+ (if pv_BondExitAvailableAt (of_account m) =? 0 then nl +:+ "d Deposit • x Request exit" else nl +:+ "f Finalize exit"))
  +:+ text (negb (String.eqb (ss_status m) "")) (nl +:+ ss_status m) +:+ required nl "" (ss_err m)
  +:+ nl +:+ "Esc back" +:+ nl.
Definition view_deposit (m : Model) : string :=
  "Deposit collateral" +:+ nl +:+ nl +:+ input_View (of_depositAmount m)
  +:+ text (ss_busy m) (nl +:+ "Waiting for wallet and chain confirmation…") +:+ required nl "" (ss_err m)
  +:+ nl +:+ nl +:+ "Enter open wallet approval • Esc cancel" +:+ nl.

Definition ViewText (w : W) (m : Model) : string :=
  "Myference Hosting" +:+ nl +:+ "==================" +:+ nl +:+ nl
  +:+ match ss_screen m with
      | ScreenHome => view_home m
      | ScreenProviders => view_providers m
      | ScreenAPI => view_api m
      | ScreenReview => view_review m
      | ScreenStatus => view_status m
      | ScreenOffers => view_offers w m
      | ScreenOfferAttach => view_attach m
      | ScreenPricing => view_pricing m
      | ScreenCollateral => view_collateral m
      | ScreenCollateralDeposit => view_deposit m
      end.

(** ** The program
    Messages reach [Update] one at a time: the events of the terminal, and the
    messages of the commands that run meanwhile, in any order.  The rest of the
    machine may change the world between two of them. *)
Record Program := mkProgram { pg_model : Model; pg_world : W; pg_pending : list Cmd; pg_quit : bool }.
Definition terminal_event (message : Msg) : bool :=
  match message with WindowSizeMsg _ _ | PasteMsg _ | MouseWheelMsg _ | KeyPressMsg _ | OtherMsg => true | _ => false end.
Fixpoint spawn (c : Cmd) : list Cmd :=
  match c with NoCmd => [] | Batch a b => spawn a ++ spawn b | c => [c] end.
Definition is_quit (c : Cmd) : bool := match c with Quit => true | _ => false end.
Definition deliver (message : Msg) (pending : list Cmd) (m : Model) (w : W) : option Program :=
  '(w, m, c) ← Update message m w; Some (mkProgram m w (pending ++ spawn c) (is_quit c)).

Inductive program_step : Program -> Program -> Prop :=
| step_event message m w pending p : terminal_event message = true ->
    deliver message pending m w = Some p -> program_step (mkProgram m w pending false) p
| step_command before c after m w w' message p : run_cmd c w = (w', Some message) ->
    deliver message (before ++ after) m w' = Some p -> program_step (mkProgram m w (before ++ c :: after) false) p
| step_silent before c after m w w' : run_cmd c w = (w', None) ->
    program_step (mkProgram m w (before ++ c :: after) false) (mkProgram m w' (before ++ after) false)
| step_world m w w' pending : program_step (mkProgram m w pending false) (mkProgram m w' pending false).
Inductive running_program (candidates : list Candidate) : Program -> Prop :=
| program_started w : running_program candidates (mkProgram (NewModel candidates) w [] false)
| program_continues p q : running_program candidates p -> program_step p q -> running_program candidates q.
End Tui.
