(* ===== verification/TuiSpec.v ===== *)
(** * Correctness of the terminal user interface

    What a user sees is what is published; which messages can stop the program;
    the row of the cursor is on the screen; secrets are not shown; amounts of
    wei are shown exactly. *)

From S2P Require Import Prelude GoStrings Wire ProviderAccount Daemon ProviderOps ProviderOpsSpec ClientConfig Backends Host HostSpec Tui.
From Stdlib Require Import Ascii.
From stdpp Require Import gmap strings.
Open Scope string_scope.
Open Scope list_scope.
Open Scope Z_scope.

(** The text fields keep the text they are given: focus and width do not change
    it, and [SetValue] keeps the digit zero. *)
Class TextLaws (T : TextInput) := {
  Value_Focus i : Value (Focus i) = Value i;
  Value_Blur i : Value (Blur i) = Value i;
  Value_SetWidth n i : Value (SetWidth n i) = Value i;
  Value_zero i : Value (SetValue "0" i) = "0";
}.

(** ** The cursor *)
Lemma move_range cursor key length : 0 <= cursor -> 0 <= length ->
  0 <= move cursor key length /\ (cursor < length -> move cursor key length < length).
Proof.
  intros Hc Hl. unfold move. destruct (length =? 0) eqn:E; bools; [lia|].
  assert (forall x, 0 <= x -> 0 <= Z.rem x length < length) as R by (intros x Hx; apply Z.rem_bound_pos; lia).
  destruct (_ || _); [pose proof (R (cursor - 1 + length)); lia|]. destruct (_ || _); [pose proof (R (cursor + 1)); lia|lia].
Qed.

Section Spec.
Context `{T : TextInput} {W : Type} (dependencies : Dependencies (W := W)) `{Unicode} (url_parse : string -> option Url).
Context `{!TextLaws T}.

(** ** The invariant *)
(** The prices entered so far; a backend that is only charged for its time has
    none for its tokens. *)
Definition tokens_priced (m : Model) : Prop :=
  if backendComputeOnly (of_pricingBackend m) then Value (of_priceInput m) = "0" /\ Value (of_priceOutput m) = "0"
  else is_blank (Value (of_priceInput m)) = false /\ is_blank (Value (of_priceOutput m)) = false.
Definition priced (m : Model) : Prop :=
  match of_priceStep m with
  | priceStepInput => backendComputeOnly (of_pricingBackend m) = false
  | priceStepOutput => backendComputeOnly (of_pricingBackend m) = false /\ is_blank (Value (of_priceInput m)) = false
  | priceStepCompute => tokens_priced m
  | priceStepReview => tokens_priced m /\ is_blank (Value (of_priceCompute m)) = false
  end.
Record Inv (m : Model) : Prop := mkInv {
  inv_cursor : 0 <= ss_cursor m;
  inv_providers : ss_screen m = ScreenProviders -> ss_cursor m < zlen (ss_candidates m) + 2;
  inv_attach : ss_screen m = ScreenOfferAttach -> ss_cursor m < zlen (of_attachOffers m);
  inv_pricing : ss_screen m = ScreenPricing -> priced m;
}.

Ltac pair_eq := let Q := fresh in intros Q; apply pair_equal_spec in Q as [<- _].
Ltac inv_leaf I := split; cbn in *; intros; try done; try (pose proof (inv_cursor _ I); lia);
  first [apply (inv_cursor _ I)|by apply (inv_providers _ I)|by apply (inv_attach _ I)|by apply (inv_pricing _ I)|congruence|idtac].

Lemma Inv_plain (m : Model) : 0 <= ss_cursor m ->
  ss_screen m <> ScreenProviders -> ss_screen m <> ScreenOfferAttach -> ss_screen m <> ScreenPricing -> Inv m.
Proof. by split. Qed.
Lemma zlen_nonneg {A} (l : list A) : 0 <= zlen l.
Proof. unfold zlen. lia. Qed.
Lemma Inv_goto s m : s <> ScreenOfferAttach -> s <> ScreenPricing -> Inv (goto s m).
Proof. intros Ha Hp. split; cbn; try done. intros _. pose proof (zlen_nonneg (ss_candidates m)). lia. Qed.

Lemma Inv_clearAPIForm m : Inv m -> Inv (clearAPIForm m).
Proof. intros I. inv_leaf I. Qed.
Lemma Inv_openAPIForm compatible m : Inv m -> Inv (openAPIForm compatible m).
Proof. intros I. destruct compatible; inv_leaf I. Qed.
Lemma Inv_ask_model e m : Inv m -> Inv (ask_model e m).
Proof. intros I. inv_leaf I. Qed.

Lemma Inv_advanceAPI (m m' : Model) c : Inv m -> advanceAPI dependencies url_parse m = (m', c) -> Inv m'.

Proof.
  intros I. unfold advanceAPI. destruct (af_apiStep m).
  - destruct (url_parse _) as [u|]; [destruct (String.eqb _ _)|]; pair_eq; inv_leaf I.
  - destruct (is_blank _); [pair_eq; inv_leaf I|].
    destruct (negb _); pair_eq; [by apply Inv_ask_model|inv_leaf I].
  - destruct (String.eqb _ _); pair_eq; [inv_leaf I|by apply Inv_goto].
Qed.

Lemma Inv_openPricing item m : Inv m -> Inv (openPricing item m).
Proof.
  intros I. unfold openPricing. destruct (backendComputeOnly item) eqn:E; split; cbn; try done; try apply (inv_cursor _ I).
  intros _. unfold priced, tokens_priced. cbn. rewrite E. split; apply Value_zero.
Qed.
Lemma tokens_priced_positive m : tokens_priced m -> is_blank (Value (of_priceInput m)) = false /\ is_blank (Value (of_priceOutput m)) = false.
Proof. unfold tokens_priced. destruct (backendComputeOnly _); [intros [-> ->]; by vm_compute|done]. Qed.

Lemma Inv_advancePricing (m m' : Model) c : Inv m -> ss_screen m = ScreenPricing -> advancePricing dependencies m = (m', c) -> Inv m'.
Proof.
  intros I Hs. pose proof (inv_pricing _ I Hs) as P. unfold priced in P. unfold advancePricing.
  destruct (of_priceStep m) eqn:E.
  1-3: match goal with |- context [is_blank ?v] => destruct (is_blank v) eqn:B end; pair_eq; [inv_leaf I|]; inv_leaf I.
  - unfold priced. cbn. by rewrite Value_Blur.
  - unfold priced, tokens_priced. cbn. destruct P as [-> ?]. by rewrite Value_Blur.
  - unfold priced, tokens_priced in *. cbn. by rewrite Value_Blur.
  - destruct (negb _); pair_eq; inv_leaf I.
Qed.

Lemma Inv_to_api f m m' c : Inv m -> to_api f m = (m', c) -> Inv m'.
Proof. intros I. unfold to_api. destruct (af_apiStep m), (f _) as [i b]; pair_eq; inv_leaf I. Qed.
Lemma Inv_to_pricing f m m' c : Inv m -> ss_screen m = ScreenPricing -> to_pricing f m = (m', c) -> Inv m'.
Proof.
  intros I Hs. pose proof (inv_pricing _ I Hs) as P. unfold priced in P. unfold to_pricing.
  destruct (of_priceStep m) eqn:E; [destruct (f _) as [i b]..|]; pair_eq; [..|done]; inv_leaf I;
    unfold priced; cbn; by rewrite E.
Qed.
Lemma Inv_to_field f m m' c : Inv m -> to_field f m = Some (m', c) -> Inv m'.
Proof.
  intros I. unfold to_field. destruct (ss_screen m) eqn:Hs; try done; intros [= E].
  - by eapply Inv_to_api.
  - by eapply Inv_to_pricing.
  - revert E. unfold to_deposit. destruct (f _) as [i b]. pair_eq. inv_leaf I.
Qed.
Lemma Inv_Resize width height m : Inv m -> Inv (Resize width height m).
Proof.
  intros I. inv_leaf I. pose proof (inv_pricing _ I) as P. unfold priced, tokens_priced in *. cbn.
  rewrite !Value_SetWidth. by apply P.
Qed.

(** Moving the cursor keeps it where it may be. *)
Lemma Inv_moved key length (m : Model) : Inv m -> 0 <= length ->
  (ss_screen m = ScreenProviders -> length = zlen (ss_candidates m) + 2) ->
  (ss_screen m = ScreenOfferAttach -> length = zlen (of_attachOffers m)) -> Inv (set_cursor (move (ss_cursor m) key length) m).
Proof.
  intros I Hl Hp Ha. destruct (move_range (ss_cursor m) key length (inv_cursor _ I) Hl) as [H0 H1]. split; cbn; [done|..].
  - intros E. rewrite <- (Hp E). apply H1. rewrite (Hp E). by apply (inv_providers _ I).
  - intros E. rewrite <- (Ha E). apply H1. rewrite (Ha E). by apply (inv_attach _ I).
  - apply (inv_pricing _ I).
Qed.

Lemma at_index_Some {A} (l : list A) i : 0 <= i < zlen l -> exists a, at_index l i = Some a.
Proof.
  intros Hi. unfold at_index, zlen in *. destruct (i <? 0) eqn:E; bools; [lia|]. apply lookup_lt_is_Some_2. lia.
Qed.

Lemma Inv_home_key key m m' c : Inv m -> ss_screen m = ScreenHome -> home_key dependencies key m = (m', c) -> Inv m'.
Proof.
  intros I Hs. unfold home_key. assert (Inv (set_cursor (move (ss_cursor m) key 5) m)) as I' by (apply Inv_moved; try done; congruence).
  repeat match goal with |- context [if ?b then _ else _] => destruct b end; pair_eq; try done; try by apply Inv_goto.
  all: inv_leaf I'.
Qed.

(** On the Providers screen the cursor is on a row, so every key is handled. *)
Lemma Inv_providers_key key m : Inv m -> ss_screen m = ScreenProviders -> exists m', providers_key key m = Some m' /\ Inv m'.
Proof.
  intros I Hs. unfold providers_key. pose proof (zlen_nonneg (ss_candidates m)) as Hn.
  assert (Inv (set_cursor (move (ss_cursor m) key (zlen (ss_candidates m) + 2)) m)) as I'
    by (apply Inv_moved; [done|lia|done|congruence]).
  set (m1 := set_cursor _ m) in *. destruct (String.eqb key "esc"); [eexists; split; [done|by apply Inv_goto]|].
  destruct (String.eqb key "r"); [eexists; split; [done|by apply Inv_goto]|]. destruct (String.eqb key "space").
  { destruct (_ <? _) eqn:E; bools; [|by eexists]. destruct (at_index_Some (ss_candidates m1) (ss_cursor m1)) as [cand Hc].
    { pose proof (inv_cursor _ I'). cbn in *. lia. }
    rewrite Hc. eexists. split; [done|]. inv_leaf I'. }
  destruct (String.eqb key "enter"); [|by eexists].
  destruct (_ =? _); [eexists; split; [done|by apply Inv_openAPIForm]|].
  destruct (_ =? _); [eexists; split; [done|by apply Inv_openAPIForm]|by eexists].
Qed.

Lemma Inv_enter_wallet w offer m m' c : Inv m -> enter_wallet dependencies w offer m = (m', c) -> Inv m'.
Proof.
  intros I. unfold enter_wallet. destruct (attachedBackend _ _ _); [pair_eq; inv_leaf I|].
  destruct (attachableBackends _ _ _) as [|x [|y l]]; pair_eq; inv_leaf I.
Qed.
Lemma Inv_enter_backend w item m m' c : Inv m -> enter_backend dependencies w item m = (m', c) -> Inv m'.
Proof.
  intros I. unfold enter_backend. destruct (0 <? _); [pair_eq; inv_leaf I|].
  destruct (compatibleOffers _ _ _ _) as [|x [|y l]]; pair_eq; [by apply Inv_openPricing|inv_leaf I|].
  by split.
Qed.

(** On the Offers screen a key can only fail on a cursor past the rows. *)
Lemma Inv_offers_key w key m : Inv m -> ss_screen m = ScreenOffers ->
  match offers_key dependencies w key m with
  | Some (m', _) => Inv m'
  | None => (key = "e" \/ key = "enter") /\ offerRows dependencies w m <> [] /\ zlen (offerRows dependencies w m) <= ss_cursor m
  end.
Proof.
  intros I Hs. unfold offers_key. set (rows := offerRows dependencies w m). pose proof (zlen_nonneg rows) as Hn.
  assert (Inv (set_cursor (move (ss_cursor m) key (zlen rows)) m)) as I' by (apply Inv_moved; try done; congruence).
  destruct (move_range (ss_cursor m) key (zlen rows) (inv_cursor _ I) Hn) as [Hm0 Hm].
  assert (at_index rows (move (ss_cursor m) key (zlen rows)) = None -> zlen rows <= ss_cursor m) as Hout.
  { intros E. destruct (decide (zlen rows <= ss_cursor m)) as [|Hlt]; [done|].
    destruct (at_index_Some rows (move (ss_cursor m) key (zlen rows))) as [x Hx]; [lia|congruence]. }
  set (m1 := set_cursor _ m) in *. destruct (String.eqb key "esc"); [by apply Inv_goto|].
  destruct (bool_decide (rows = [])) eqn:B; cbn [negb andb]; bools.
  - rewrite !andb_false_r. destruct (_ && _); [|done]. destruct (existsb _ _); inv_leaf I'.
  - destruct (String.eqb key "e" && _) eqn:E; bools.
    + destruct (at_index rows (ss_cursor m1)) as [row|] eqn:R; cbn; [|split_and!; [left; by apply String.eqb_eq|done|by apply Hout]].
      destruct (or_wallet row); [inv_leaf I'|by apply Inv_openPricing].
    + destruct (String.eqb key "enter" && _) eqn:E'; bools.
      * destruct (at_index rows (ss_cursor m1)) as [row|] eqn:R; cbn; [|split_and!; [right; by apply String.eqb_eq|done|by apply Hout]].
        destruct (or_wallet row); [destruct (enter_wallet _ _ _ _) eqn:X; by eapply Inv_enter_wallet|].
        destruct (enter_backend _ _ _ _) eqn:X; by eapply Inv_enter_backend.
      * destruct (String.eqb key "s" && _); [|exact I']. destruct (existsb _ _); cbv iota; inv_leaf I'.
Qed.

Lemma Inv_attach_key key m : Inv m -> ss_screen m = ScreenOfferAttach -> exists m' c, attach_key key m = Some (m', c) /\ Inv m'.
Proof.
  intros I Hs. unfold attach_key. pose proof (inv_attach _ I Hs) as Hc. pose proof (zlen_nonneg (of_attachOffers m)) as Hn.
  assert (Inv (set_cursor (move (ss_cursor m) key (zlen (of_attachOffers m))) m)) as I' by (apply Inv_moved; [done..|congruence|done]).
  set (m1 := set_cursor _ m) in *. destruct (_ && _); [do 2 eexists; split; [done|by split]|].
  destruct (_ && _ && _); [|do 2 eexists; by split].
  destruct (at_index_Some (of_attachOffers m1) (ss_cursor m1)) as [offer Ho].
  { split; [apply (inv_cursor _ I')|by apply (inv_attach _ I')]. }
  rewrite Ho. do 2 eexists. split; [done|]. inv_leaf I'.
Qed.

(** The cursor was left past the rows of the Offers screen. *)
Definition stale (w : W) (m : Model) : Prop :=
  ss_screen m = ScreenOffers /\ offerRows dependencies w m <> [] /\ zlen (offerRows dependencies w m) <= ss_cursor m.

Lemma Inv_clear m : Inv m -> ss_screen m <> ScreenPricing -> Inv (clearPricing m).
Proof. intros I Hs. inv_leaf I. Qed.

Lemma Inv_screen_key w key m : Inv m ->
  match screen_key dependencies url_parse w key m with Some (m', _) => Inv m' | None => stale w m end.
Proof.
  intros I. unfold screen_key. destruct (ss_screen m) eqn:Hs.
  - destruct (home_key _ _ _) eqn:E. by eapply Inv_home_key.
  - destruct (Inv_providers_key key m I Hs) as (m' & -> & I'). exact I'.
  - destruct (String.eqb key "esc"); [by apply Inv_goto|]. destruct (String.eqb key "enter"); [|done].
    destruct (advanceAPI _ _ _) eqn:E. by eapply Inv_advanceAPI.
  - unfold review_key. destruct (String.eqb key "esc"); [by apply Inv_goto|]. destruct (_ && _ && _); [inv_leaf I|done].
  - unfold status_key. destruct (String.eqb key "esc"); [by apply Inv_goto|]. destruct (String.eqb key "r" && _); [inv_leaf I|].
    destruct (String.eqb key "q"); [destruct (ss_running m); [inv_leaf I|done]|done].
  - pose proof (Inv_offers_key w key m I Hs) as O. destruct (offers_key _ _ _ _) as [[m' c]|]; [done|]. split; [done|apply O].
  - destruct (Inv_attach_key key m I Hs) as (m' & c & -> & I'). exact I'.
  - destruct (String.eqb key "esc" && _); [by apply Inv_clear; [apply Inv_plain|]|].
    destruct (String.eqb key "enter" && _); [|done]. destruct (advancePricing _ _) eqn:E. by eapply Inv_advancePricing.
  - unfold collateral_key. destruct (String.eqb key "esc"); [by apply Inv_goto|].
    destruct (String.eqb key "d" && _); [inv_leaf I|]. destruct (String.eqb key "x" && _ && _); [inv_leaf I|].
    destruct (String.eqb key "f" && _ && _); [inv_leaf I|done].
  - unfold deposit_key. destruct (String.eqb key "esc" && _); [inv_leaf I|]. destruct (String.eqb key "enter" && _); [|done].
    destruct (is_blank _); [inv_leaf I|]. destruct (negb _); inv_leaf I.
Qed.

Lemma Inv_HandleKey w key m : Inv m ->
  match HandleKey dependencies url_parse key m w with Some (_, m', _) => Inv m' | None => stale w m end.
Proof.
  intros I. unfold HandleKey. destruct (String.eqb key "ctrl+c"); [destruct (ss_running m); [inv_leaf I|done]|].
  destruct (ss_confirmQuit m).
  - destruct (String.eqb _ "y"); [inv_leaf I|]. destruct (_ || _); [inv_leaf I|done].
  - pose proof (Inv_screen_key w key m I) as S. by destruct (screen_key _ _ _ _ _) as [[m' c]|].
Qed.

Lemma Inv_operation_done status m : Inv m -> Inv (operation_done status m).
Proof.
  intros I. unfold operation_done. set (m1 := set_status _ m). assert (Inv m1) as I1 by inv_leaf I. clearbody m1.
  assert (Inv (if bool_decide (ss_screen m1 = ScreenOfferAttach) then set_attachOffers [] (goto ScreenOffers m1) else m1)) as I2
    by (case_bool_decide; [by split|done]).
  revert I2. generalize (if bool_decide (ss_screen m1 = ScreenOfferAttach) then set_attachOffers [] (goto ScreenOffers m1) else m1).
  intros m2 I2.
  assert (Inv (if bool_decide (ss_screen m2 = ScreenPricing) then clearPricing (set_screen ScreenOffers m2) else m2)) as I3
    by (case_bool_decide; [inv_leaf I2|done]).
  revert I3. generalize (if bool_decide (ss_screen m2 = ScreenPricing) then clearPricing (set_screen ScreenOffers m2) else m2).
  intros m3 I3. case_bool_decide; [inv_leaf I3|done].
Qed.
Lemma Inv_applyAccount account failed m : Inv m -> Inv (applyAccount account failed m).
Proof. intros I. unfold applyAccount. case_bool_decide; destruct failed; inv_leaf I. Qed.

Lemma Update_sound message m w : Inv m ->
  match Update dependencies url_parse message m w with Some (_, m', _) => Inv m' | None => stale w m end.
Proof.
  intros I. destruct message as [width height|b p s l failed|failed|failed|snapshot failed| |account failed| |status failed|p|button|k|];
    cbn [Update].
  - by apply Inv_Resize.
  - unfold applyCatalog. destruct failed; [apply Inv_ask_model; inv_leaf I|by apply Inv_goto].
  - unfold applyStarted. destruct failed; inv_leaf I.
  - destruct failed; inv_leaf I.
  - unfold applySnapshot. destruct failed; inv_leaf I.
  - done.
  - by apply Inv_applyAccount.
  - done.
  - destruct failed; [inv_leaf I|]. apply Inv_operation_done. inv_leaf I.
  - destruct (to_field _ m) as [[m' c]|] eqn:E; [by eapply Inv_to_field|done].
  - destruct button; [by apply Inv_HandleKey..|done].
  - destruct (reserved _); [by apply Inv_HandleKey|]. destruct (to_field _ m) as [[m' c]|] eqn:E; [by eapply Inv_to_field|by apply Inv_HandleKey].
  - done.
Qed.

Context (candidates : list Candidate).
Abbreviation reachable := (running_program dependencies url_parse candidates).
Lemma reachable_Inv p : reachable p -> Inv (pg_model p).
Proof.
  induction 1 as [w|p q R IH S]; [by apply Inv_plain|].
  assert (forall message pending m w p', Inv m -> deliver dependencies url_parse message pending m w = Some p' -> Inv (pg_model p')) as D.
  { intros message pending m w p' I. unfold deliver. pose proof (Update_sound message m w I) as U.
    destruct (Update _ _ _ _ _) as [[[w' m'] c]|]; [|done]. by intros [= <-]. }
  destruct S; cbn in *; [by eapply D|by eapply D|done|done].
Qed.

(** ** What is published *)
Context (error_text : error -> string).
Definition publishes (c : Cmd) : bool := match c with PublishCmd _ _ => true | _ => false end.
(** Neither a publication nor the end of the program. *)
Definition plain (c : Cmd) : bool := negb (publishes c) && negb (is_quit c).
Definition reviewed (m : Model) : Prop :=
  ss_screen m = ScreenPricing /\ of_priceStep m = priceStepReview /\ ss_busy m = false.

Lemma accountCommand_quiet : plain (accountCommand dependencies) = true.
Proof. unfold accountCommand. by destruct (present _). Qed.
Lemma quiet_home key m : publishes (snd (home_key dependencies key m)) = false.
Proof. unfold home_key. repeat (match goal with |- context [if ?x then _ else _] => destruct x end; try done);
  cbn [snd]; by destruct (andb_prop _ _ accountCommand_quiet) as [->%negb_true_iff _]. Qed.
Lemma quiet_enter_wallet w offer m : plain (snd (enter_wallet dependencies w offer m)) = true.
Proof. unfold enter_wallet. destruct (attachedBackend _ _ _); [done|]. by destruct (attachableBackends _ _ _) as [|x [|y l]]. Qed.
Lemma quiet_enter_backend w item m : plain (snd (enter_backend dependencies w item m)) = true.
Proof. unfold enter_backend. destruct (0 <? _); [done|]. by destruct (compatibleOffers _ _ _ _) as [|x [|y l]]. Qed.
Lemma quiet_offers w key m m' c : offers_key dependencies w key m = Some (m', c) -> plain c = true.
Proof.
  unfold offers_key. destruct (String.eqb key "esc"); [by intros [= _ <-]|].
  destruct (String.eqb key "e" && _).
  { destruct (at_index _ _) as [row|]; [|done]. cbn. by destruct (or_wallet row); intros [= _ <-]. }
  destruct (String.eqb key "enter" && _).
  { destruct (at_index _ _) as [row|]; [|done]. cbn. destruct (or_wallet row); intros [= E].
    - pose proof (quiet_enter_wallet w (or_offer row)) as Q. specialize (Q (set_cursor (move (ss_cursor m) key (zlen (offerRows dependencies w m))) m)). by rewrite E in Q.
    - pose proof (quiet_enter_backend w (or_backend row)) as Q. specialize (Q (set_cursor (move (ss_cursor m) key (zlen (offerRows dependencies w m))) m)). by rewrite E in Q. }
  destruct (String.eqb key "s" && _); [|by intros [= _ <-]]. by destruct (existsb _ _); intros [= _ <-].
Qed.
Lemma quiet_api m : plain (snd (advanceAPI dependencies url_parse m)) = true.
Proof.
  unfold advanceAPI. destruct (af_apiStep m).
  - destruct (url_parse _) as [u|]; [|done]. by destruct (String.eqb _ _).
  - destruct (is_blank _); [done|]. by destruct (negb _).
  - by destruct (String.eqb _ _).
Qed.

(** Only the review of a price publishes, the backend and the rates of the form. *)
Lemma pricing_publishes (m m' : Model) item r : advancePricing dependencies m = (m', PublishCmd item r) ->
  of_priceStep m = priceStepReview /\ item = of_pricingBackend m /\ r = rates m /\ m' = set_busy true (set_err None m).
Proof.
  unfold advancePricing. destruct (of_priceStep m).
  1-3: by destruct (is_blank _).
  destruct (negb _); [done|]. intros Q. apply pair_equal_spec in Q as [<- [= <- <-]]. done.
Qed.
Lemma screen_publishes w key (m m' : Model) item r : screen_key dependencies url_parse w key m = Some (m', PublishCmd item r) ->
  reviewed m /\ item = of_pricingBackend m /\ r = rates m /\ m' = set_busy true (set_err None m).
Proof.
  unfold screen_key, reviewed. destruct (ss_screen m) eqn:Hs.
  - intros [= E]. pose proof (quiet_home key m) as Q. by rewrite E in Q.
  - by destruct (providers_key key m).
  - destruct (String.eqb key "esc"); [done|]. destruct (String.eqb key "enter"); [|done].
    intros [= E]. pose proof (quiet_api m) as Q. by rewrite E in Q.
  - unfold review_key. destruct (String.eqb key "esc"); [done|]. by destruct (_ && _ && _).
  - unfold status_key. destruct (String.eqb key "esc"); [done|]. destruct (String.eqb key "r" && _); [done|].
    destruct (String.eqb key "q"); [by destruct (ss_running m)|done].
  - intros E%quiet_offers. done.
  - unfold attach_key. destruct (String.eqb key "esc" && _); [done|]. destruct (String.eqb key "enter" && _ && _); [|done].
    by destruct (at_index _ _).
  - destruct (String.eqb key "esc" && _); [done|]. destruct (String.eqb key "enter" && _) eqn:B; [|done]. bools.
    intros [= E%pricing_publishes]. destruct E as (-> & -> & -> & ->). done.
  - unfold collateral_key. destruct (String.eqb key "esc"); [done|]. destruct (String.eqb key "d" && _); [done|].
    destruct (String.eqb key "x" && _ && _); [done|]. by destruct (String.eqb key "f" && _ && _).
  - unfold deposit_key. destruct (String.eqb key "esc" && _); [done|]. destruct (String.eqb key "enter" && _); [|done].
    destruct (is_blank _); [done|]. by destruct (negb _).
Qed.
Lemma HandleKey_publishes w key m w' m' item r :
  HandleKey dependencies url_parse key m w = Some (w', m', PublishCmd item r) -> reviewed m /\ item = of_pricingBackend m /\ r = rates m /\ m' = set_busy true (set_err None m).
Proof.
  unfold HandleKey. destruct (String.eqb key "ctrl+c"); [by destruct (ss_running m)|]. destruct (ss_confirmQuit m).
  - destruct (String.eqb _ "y"); [done|]. by destruct (_ || _).
  - destruct (screen_key _ _ _ _ _) as [[m1 c]|] eqn:E; [|done]. intros Q. cbn in Q. injection Q as _ -> ->.
    by eapply screen_publishes.
Qed.
Lemma to_field_quiet f m m' c : to_field f m = Some (m', c) -> plain c = true.
Proof.
  unfold to_field, to_api, to_pricing, to_deposit. destruct (ss_screen m); try done.
  - destruct (af_apiStep m), (f _) as [i b]; intros [= _ <-]; by destruct b.
  - destruct (of_priceStep m); [destruct (f _) as [i b]..|]; intros [= _ <-]; by try destruct b.
  - destruct (f _) as [i b]; intros [= _ <-]; by destruct b.
Qed.
Lemma Update_publishes message m w w' m' item r :
  Update dependencies url_parse message m w = Some (w', m', PublishCmd item r) -> reviewed m /\ item = of_pricingBackend m /\ r = rates m /\ m' = set_busy true (set_err None m).
Proof.
  pose proof accountCommand_quiet as Ha.
  destruct message as [width height|b p s l failed|failed|failed|snapshot failed| |account failed| |status failed|p|button|k|]; cbn [Update].
  - done.
  - done.
  - by destruct (ss_running _).
  - destruct failed; [done|]. intros [= _ _ E]. by rewrite E in Ha.
  - by destruct (ss_running _).
  - by destruct (ss_running _).
  - by destruct (bool_decide _).
  - destruct (bool_decide _); [|done]. intros [= _ _ E]. by rewrite E in Ha.
  - destruct failed; [done|]. intros [= _ _ E]. by rewrite E in Ha.
  - destruct (to_field _ m) as [[m1 c]|] eqn:E; [|done]. intros [= _ _ ->]. by apply to_field_quiet in E.
  - destruct button; [by apply HandleKey_publishes..|done].
  - destruct (reserved _); [by apply HandleKey_publishes|].
    destruct (to_field _ m) as [[m1 c]|] eqn:E; [|by apply HandleKey_publishes]. intros [= _ _ ->]. by apply to_field_quiet in E.
  - done.
Qed.

(** A line of the text that shows an amount. *)
Definition shown (label value text : string) : Prop := exists before after, text = before +:+ label +:+ value +:+ " MON" +:+ after.
Lemma shown_before label value before t : shown label value t -> shown label value (before +:+ t).
Proof. intros (b & a & ->). exists (before +:+ b), a. by rewrite !app_string_assoc. Qed.
Lemma shown_here label value after : shown label value (label +:+ value +:+ " MON" +:+ after).
Proof. by exists "", after. Qed.

Ltac find_shown := rewrite !app_string_assoc; repeat match goal with
  | |- shown ?l ?v (?l +:+ ?v +:+ " MON" +:+ ?a) => exact (shown_here l v a)
  | |- shown ?l ?v (?b +:+ ?t) => apply (shown_before l v b t)
  end.


(** ** Panics *)
(** The only message that stops the program with a panic is the key [e] or
    [enter] on the Offers screen when rows are left but fewer than the cursor:
    in every reachable state every other message is handled, and the rows of the
    Providers and of the attachment screens are always in range. *)
Theorem panics_only_on_stale_offers p message w : reachable p ->
  Update dependencies url_parse message (pg_model p) w = None ->
  ss_screen (pg_model p) = ScreenOffers
  /\ 0 < zlen (offerRows dependencies w (pg_model p)) <= ss_cursor (pg_model p).
Proof.
  intros R%reachable_Inv E. pose proof (Update_sound message _ w R) as S. rewrite E in S. destruct S as (Hs & Hr & Hc).
  split_and!; [done| |done]. destruct (offerRows _ _ _); [done|]. unfold zlen. cbn [length]. lia.
Qed.

(** ** The window of the Providers screen *)
Lemma in_window_rows m i : i ∈ window_rows m <-> fst (window m) <= i < snd (window m).
Proof.
  unfold window_rows. destruct (window m) as [first last]. rewrite list_elem_of_fmap. cbn. split.
  - intros (k & -> & Hk%elem_of_seq). lia.
  - intros Hi. exists (Z.to_nat (i - first)). split; [lia|]. apply elem_of_seq. lia.
Qed.

(** The row of the cursor is shown, every row shown exists, and they fit. *)
Theorem cursor_visible p : reachable p -> ss_screen (pg_model p) = ScreenProviders ->
  ss_cursor (pg_model p) ∈ window_rows (pg_model p)
  /\ (forall i, i ∈ window_rows (pg_model p) -> 0 <= i < zlen (ss_candidates (pg_model p)) + 2)
  /\ (0 < ss_height (pg_model p) -> zlen (window_rows (pg_model p)) <= Z.max 1 (ss_height (pg_model p) - 7)).
Proof.
  intros I%reachable_Inv Hs. pose proof (inv_cursor _ I) as H0. pose proof (inv_providers _ I Hs) as H1.
  pose proof (zlen_nonneg (ss_candidates (pg_model p))) as Hn.
  assert (zlen (window_rows (pg_model p)) = Z.max 0 (snd (window (pg_model p)) - fst (window (pg_model p)))) as ->.
  { unfold window_rows, zlen. destruct (window _) as [first last]. rewrite length_map, length_seq. cbn. lia. }
  split_and!; [apply in_window_rows|intros i Hi%in_window_rows; revert Hi|]; unfold window;
    repeat match goal with |- context [if ?a <? ?b then _ else _] => destruct (a <? b) eqn:? end; bools; cbn [fst snd]; lia.
Qed.

(** ** Quitting *)
Lemma screen_quits w key (m m' : Model) c : screen_key dependencies url_parse w key m = Some (m', c) -> is_quit c = true ->
  ss_screen m = ScreenHome \/ ss_running m = false.
Proof.
  intros E Hq. assert (plain c = true -> False) as Hp by (unfold plain; rewrite Hq, andb_false_r; done).
  revert E. unfold screen_key. destruct (ss_screen m) eqn:Hs.
  - by left.
  - destruct (providers_key key m); [|done]. intros [= _ <-]. done.
  - destruct (String.eqb key "esc"); [by intros [= _ <-]|]. destruct (String.eqb key "enter"); [|by intros [= _ <-]].
    intros [= E]. pose proof (quiet_api m) as Q. rewrite E in Q. by destruct Hp.
  - unfold review_key. destruct (String.eqb key "esc"); [by intros [= _ <-]|]. by destruct (_ && _ && _); intros [= _ <-].
  - unfold status_key. destruct (String.eqb key "esc"); [by intros [= _ <-]|].
    destruct (String.eqb key "r" && _); [by intros [= _ <-]|].
    destruct (String.eqb key "q"); [|by intros [= _ <-]]. destruct (ss_running m); [by intros [= _ <-]|by right].
  - intros E%quiet_offers. by destruct Hp.
  - unfold attach_key. destruct (String.eqb key "esc" && _); [by intros [= _ <-]|].
    destruct (String.eqb key "enter" && _ && _); [|by intros [= _ <-]]. destruct (at_index _ _); [by intros [= _ <-]|done].
  - destruct (String.eqb key "esc" && _); [by intros [= _ <-]|]. destruct (String.eqb key "enter" && _); [|by intros [= _ <-]].
    unfold advancePricing. destruct (of_priceStep m); [destruct (is_blank _)..|destruct (negb _)]; by intros [= _ <-].
  - unfold collateral_key. destruct (String.eqb key "esc"); [by intros [= _ <-]|].
    destruct (String.eqb key "d" && _); [by intros [= _ <-]|]. destruct (String.eqb key "x" && _ && _); [by intros [= _ <-]|].
    by destruct (String.eqb key "f" && _ && _); intros [= _ <-].
  - unfold deposit_key. destruct (String.eqb key "esc" && _); [by intros [= _ <-]|].
    destruct (String.eqb key "enter" && _); [|by intros [= _ <-]]. destruct (is_blank _); [by intros [= _ <-]|].
    by destruct (negb _); intros [= _ <-].
Qed.
Definition stopped (w : W) : W := match dp_Stop dependencies with Some stop => stop w | None => w end.
Lemma HandleKey_quits key (m : Model) w w' m' c : ss_running m = true ->
  HandleKey dependencies url_parse key m w = Some (w', m', c) -> is_quit c = true ->
  ss_screen m = ScreenHome \/ ss_running m' = false /\ w' = stopped w.
Proof.
  intros Hr. unfold HandleKey. rewrite Hr. destruct (String.eqb key "ctrl+c"); [by intros [= _ _ <-]|]. destruct (ss_confirmQuit m).
  - destruct (String.eqb _ "y"); [intros [= <- <- _]; by right|]. by destruct (_ || _); intros [= _ _ <-].
  - destruct (screen_key _ _ _ _ _) as [[m1 c1]|] eqn:E; [|done]. intros Q Hq. cbn in Q. injection Q as _ _ ->.
    destruct (screen_quits _ _ _ _ _ E Hq); [by left|congruence].
Qed.

(** While hosting, the program ends only once the provider was stopped, unless
    it is left from the menu. *)
Theorem quit_stops_hosting message (m : Model) w w' m' c : ss_running m = true ->
  Update dependencies url_parse message m w = Some (w', m', c) -> is_quit c = true ->
  ss_screen m = ScreenHome \/ ss_running m' = false /\ w' = stopped w.
Proof.
  pose proof accountCommand_quiet as Ha. intros Hr E Hq. assert (plain c = true -> False) as Hp by (unfold plain; rewrite Hq, andb_false_r; done).
  destruct message as [width height|b p s l failed|failed|failed|snapshot failed| |account failed| |status failed|p|button|k|];
    cbn [Update] in E.
  10: { destruct (to_field _ m) as [[m1 c1]|] eqn:F; [|by injection E as _ _ <-]. injection E as _ _ <-.
        apply to_field_quiet in F. by destruct Hp. }
  10: { destruct button; [by eapply HandleKey_quits..|by injection E as _ _ <-]. }
  10: { destruct (reserved _); [by eapply HandleKey_quits|].
        destruct (to_field _ m) as [[m1 c1]|] eqn:F; [|by eapply HandleKey_quits]. injection E as _ _ <-.
        apply to_field_quiet in F. by destruct Hp. }
  all: try destruct failed; injection E as _ _ <-;
    try (match type of Hq with context [if ?b then _ else _] => destruct b end); try done; by destruct Hp.
Qed.

(** In a form the question whether to quit is not shown and its answer is
    written into the field. *)
Lemma answer_swallowed (m : Model) w : ss_running m = true -> bool_decide (ss_screen m = ScreenAPI) || bool_decide (ss_screen m = ScreenPricing)
    || bool_decide (ss_screen m = ScreenCollateralDeposit) = true ->
  HandleKey dependencies url_parse "ctrl+c" m w = Some (w, set_confirmQuit true m, NoCmd)
  /\ ViewText dependencies error_text w (set_confirmQuit true m) = ViewText dependencies error_text w m
  /\ forall k, reserved (key_String k) = false -> exists m' c,
       Update dependencies url_parse (KeyPressMsg k) (set_confirmQuit true m) w = Some (w, m', c) /\ is_quit c = false.
Proof.
  intros Hr Hs. unfold HandleKey. rewrite Hr. split_and!; [done| |].
  - unfold ViewText. cbn [ss_screen set_confirmQuit session]. by destruct (ss_screen m).
  - intros k Hk. cbn [Update]. rewrite Hk. destruct (to_field (input_key k) (set_confirmQuit true m)) as [[m' c]|] eqn:F.
    + exists m', c. split; [done|]. apply to_field_quiet in F. unfold plain in F. bools. done.
    + exfalso. revert F. unfold to_field. cbn [ss_screen set_confirmQuit session]. by destruct (ss_screen m).
Qed.
End Spec.

(** ** Amounts *)
Lemma trim_zeros_left fuel : forall s, exists n, s = zero_digits n +:+ trim_left_fuel fuel ["0"] s.
Proof.
  induction fuel as [|fuel IH]; intros s; [by exists 0%nat|]. destruct s as [|c s]; [by exists 0%nat|].
  cbn [trim_left_fuel List.find]. destruct (HasPrefix (String c s) "0") eqn:P; [|by exists 0%nat].
  apply HasPrefix_split in P. destruct (IH (drop_bytes (String.length "0") (String c s))) as [n Hn]. exists (S n).
  rewrite P at 1. cbn [String.length] in *. rewrite Hn at 1. done.
Qed.
Lemma zero_digits_snoc n : zero_digits n +:+ "0" = String "0" (zero_digits n).
Proof. induction n as [|n IH]; [done|]. cbn [zero_digits]. by rewrite app_string_cons, IH. Qed.
Lemma rev_string_onto_app s : forall acc, rev_string_onto s acc = rev_string s +:+ acc.
Proof.
  induction s as [|c s IH]; intros acc; [done|]. unfold rev_string. cbn [rev_string_onto]. rewrite IH, (IH (String c "")).
  by rewrite app_string_assoc.
Qed.
Lemma rev_string_app s t : rev_string (s +:+ t) = rev_string t +:+ rev_string s.
Proof.
  induction s as [|c s IH]; [by rewrite app_string_nil_l, app_string_nil_r|]. rewrite app_string_cons. unfold rev_string at 1 3. cbn [rev_string_onto].
  by rewrite !rev_string_onto_app, IH, app_string_assoc.
Qed.
Lemma rev_zero_digits n : rev_string (zero_digits n) = zero_digits n.
Proof.
  induction n as [|n IH]; [done|]. cbn [zero_digits]. unfold rev_string. cbn [rev_string_onto].
  by rewrite rev_string_onto_app, IH, zero_digits_snoc.
Qed.
Lemma trim_zeros s : exists n, s = trim_right ["0"] s +:+ zero_digits n.
Proof.
  unfold trim_right, trim_left. destruct (trim_zeros_left (String.length (rev_string s)) (rev_string s)) as [n Hn]. exists n.
  transitivity (rev_string (rev_string s)); [by rewrite rev_string_involutive|].
  apply (f_equal rev_string) in Hn. by rewrite rev_string_app, rev_zero_digits in Hn.
Qed.

Lemma length_app_string s t : String.length (s +:+ t) = (String.length s + String.length t)%nat.
Proof. induction s as [|c s IH]; [done|]. rewrite app_string_cons. cbn [String.length]. by rewrite IH. Qed.
Lemma length_zero_digits n : String.length (zero_digits n) = n.
Proof. induction n as [|n IH]; [done|]. cbn [zero_digits String.length]. by rewrite IH. Qed.
Lemma length_digits f : forall n k, (1 <= k)%nat -> 0 <= n < 10 ^ Z.of_nat k -> (String.length (digits_fuel f n) <= k)%nat.
Proof.
  induction f as [|f IH]; intros n k Hk Hn; [cbn; lia|]. cbn [digits_fuel]. destruct (n <? 10) eqn:E; bools; [cbn; lia|].
  rewrite length_app_string. cbn [String.length]. destruct k as [|[|k]]; [lia|cbn in Hn; lia|].
  rewrite Nat2Z.inj_succ, Z.pow_succ_r in Hn by lia. pose proof (IH (n / 10) (S k) ltac:(lia)) as L.
  enough (0 <= n / 10 < 10 ^ Z.of_nat (S k)) by (apply L in H; lia).
  split; [apply Z.div_pos; lia|apply Z.div_lt_upper_bound; lia].
Qed.
Lemma BigString_digits n : 0 <= n -> BigString n <> "" /\ decimalDigits (BigString n) = true /\ digits (BigString n) = n.
Proof.
  intros Hn. unfold BigString. replace (n <? 0) with false by lia. pose proof (parse_nat_format n Hn) as P. unfold parse_nat in P.
  destruct (format_nat n) as [|c s] eqn:F; [done|]. split; [done|]. unfold decimalDigits, digits. rewrite P. split; [|done].
  by apply bool_decide_eq_true_2.
Qed.

(** A fraction of a MON, in 18 digits less the zeros at the end. *)
Lemma trimmed_fraction f : 0 < f < 10 ^ 18 ->
  let t := trim_right ["0"] (zero_digits (18 - String.length (BigString f)) +:+ BigString f) in
  t <> "" /\ decimalDigits t = true /\ go_len t <= 18 /\ digits t * 10 ^ (18 - go_len t) = f.
Proof.
  intros Hf t. destruct (BigString_digits f ltac:(lia)) as (_ & Hd & Hv).
  assert (String.length (BigString f) <= 18)%nat as Hl.
  { unfold BigString. replace (f <? 0) with false by lia. apply length_digits; [lia|]. change (Z.of_nat 18) with 18. lia. }
  set (padded := zero_digits _ +:+ BigString f) in *. destruct (trim_zeros padded) as [n Hn]. fold t in Hn.
  assert (parse_digits 0 padded = Some f) as Hp.
  { unfold padded. rewrite parse_digits_app, parse_zero_digits, Z.mul_0_l. cbn [mbind option_bind]. rewrite (proj1 (decimalDigits_digits _ Hd)).
    by rewrite Hv. }
  assert (String.length padded = 18%nat) as H18 by (unfold padded; rewrite length_app_string, length_zero_digits; lia).
  rewrite Hn, parse_digits_app in Hp. rewrite Hn, length_app_string, length_zero_digits in H18.
  destruct (parse_digits 0 t) as [v|] eqn:Hv'; [|done]. cbn [mbind option_bind] in Hp. rewrite parse_zero_digits in Hp. injection Hp as Hp.
  assert (digits t = v) as Hdt by (unfold digits; by rewrite Hv'). unfold go_len. split_and!.
  - intros E. rewrite E in Hv'. injection Hv' as <-. lia.
  - apply bool_decide_eq_true_2. by eexists.
  - lia.
  - rewrite Hdt, <- Hp. do 2 f_equal. lia.
Qed.

(** C37. Every amount the screens show is exact: [formatWei] writes an amount of
    wei of at most 256 bits as a decimal number of MON that [ParseMON], which
    reads the amounts a user enters, turns back into the same amount. *)
Theorem formatWei_exact n : 0 <= n < 2 ^ 256 -> ParseMON (formatWei (BigString n)) = Ok (BigString n).
Proof.
  intros Hn. pose proof (Z.quot_rem' n (10 ^ 18)) as Q. pose proof (Z.rem_bound_pos n (10 ^ 18) ltac:(lia) ltac:(lia)) as R.
  pose proof (Z.quot_pos n (10 ^ 18) ltac:(lia) ltac:(lia)) as Hq. destruct (BigString_digits _ Hq) as (Hne & Hd & Hv).
  assert (maxUint256 = 2 ^ 256 - 1) as Hmax by reflexivity.
  assert (forall t, decimalDigits t = true -> go_len t <= 18 -> digits t * 10 ^ (18 - go_len t) = Z.rem n (10 ^ 18) ->
            ParseMON (BigString (Z.quot n (10 ^ 18)) +:+ (if String.eqb t "" then "" else "." +:+ t)) = Ok (BigString n)) as P.
  { intros t Dt Lt Vt. rewrite (ParseMON_written _ (BigString (Z.quot n (10 ^ 18))) t) by done. rewrite wei_amount_spec by done.
    unfold mon_wei. rewrite Hv, Vt, Z.mul_comm, <- Q. by replace (maxUint256 <? n) with false by lia. }
  unfold formatWei. rewrite SetString10_BigString. replace (n <? 0) with false by lia.
  destruct (Z.rem n (10 ^ 18) =? 0) eqn:E; bools.
  - specialize (P "" eq_refl). rewrite app_string_nil_r in P. apply P; [by vm_compute|]. change (digits "") with 0. lia.
  - destruct (trimmed_fraction (Z.rem n (10 ^ 18)) ltac:(lia)) as (Ht & Dt & Lt & Vt). specialize (P _ Dt Lt Vt).
    apply String.eqb_neq in Ht. rewrite Ht in P. exact P.
Qed.
Lemma formatWei_exact_witness :
  formatWei (BigString 1500000000000000000) = "1.5" /\ ParseMON (formatWei (BigString 1500000000000000000)) = Ok (BigString 1500000000000000000).
Proof. split; [by vm_compute|]. apply (formatWei_exact 1500000000000000000). lia. Defined.

(** ** Runs of the program *)
#[local] Existing Instance HostRun.ascii_tables.
Module TuiRun.
#[export] Instance fields : TextInput := {|
  input := string * bool; key := string; paste := string; blink := unit;
  key_String k := k;
  new_input _ _ password := ("", password);
  Value := fst;
  SetValue v i := (v, snd i);
  Focus i := i; Blur i := i; SetWidth _ i := i;
  input_key k i := ((fst i +:+ k, snd i), None);
  input_paste p i := ((fst i +:+ p, snd i), None);
  input_View i := if snd i then zero_digits (String.length (fst i)) else fst i;
|}.
#[export] Instance fields_lawful : TextLaws fields.
Proof. by split. Defined.

Record World := mkWorld { backends : list Backend; wallet : list EditableOffer; hosting : bool; published : list (Backend * Rates) }.
Definition run_account (w : World) : ProviderAccountView := mkProviderAccountView 1 "" "" 0 "0xabc" "0" "0" "0" "0" 0 (wallet w).
Definition dependencies : Dependencies (W := World) :=
  mkDependencies None None
    (Some (fun w => (mkWorld (backends w) (wallet w) true (published w), Ok tt)))
    (Some (fun w => mkWorld (backends w) (wallet w) false (published w)))
    None [] (Some backends) (Some (fun w => (w, Ok (run_account w)))) None
    (Some (fun item r w => (mkWorld (backends w) (wallet w) (hosting w) (published w ++ [(item, r)]), Ok tt)))
    None None None.
Definition url_parse (_ : string) : option Url := None.
Abbreviation run := (running_program dependencies url_parse []).

(** An event: a key, the end of a pending command, a change of the world. *)
Inductive Act := Press (k : string) | Finish (i : nat) | Change (w : World).
Definition play1 (p : Program (W := World)) (e : Act) : option Program :=
  if pg_quit p then None
  else
    match e with
    | Press k => deliver dependencies url_parse (KeyPressMsg k) (pg_pending p) (pg_model p) (pg_world p)
    | Finish i =>
        c ← pg_pending p !! i;
        let rest := take i (pg_pending p) ++ drop (S i) (pg_pending p) in
        match run_cmd dependencies c (pg_world p) with
        | (w, Some message) => deliver dependencies url_parse message rest (pg_model p) w
        | (w, None) => Some (mkProgram (pg_model p) w rest false)
        end
    | Change w => Some (mkProgram (pg_model p) w (pg_pending p) false)
    end.
Fixpoint play (events : list Act) (p : Program) : option Program :=
  match events with [] => Some p | e :: rest => p ← play1 p e; play rest p end.

Lemma play1_step p e q : play1 p e = Some q -> program_step dependencies url_parse p q.
Proof.
  unfold play1. destruct p as [m w pending []]; [done|]. cbn [pg_quit pg_pending pg_model pg_world]. destruct e as [k|i|w'].
  - intros E. by eapply step_event; [|exact E].
  - destruct (pending !! i) as [c|] eqn:L; [|done]. cbn [mbind option_bind]. pose proof (take_drop_middle pending i c L) as Hp.
    destruct (run_cmd dependencies c w) as [w' [message|]] eqn:R; intros E.
    + pose proof (step_command dependencies url_parse _ _ _ m w _ _ _ R E) as S. by rewrite Hp in S.
    + injection E as <-. pose proof (step_silent dependencies url_parse (take i pending) _ (drop (S i) pending) m w _ R) as S.
      by rewrite Hp in S.
  - intros [= <-]. apply step_world.
Qed.
Lemma play_run events : forall p q, run p -> play events p = Some q -> run q.
Proof.
  induction events as [|e rest IH]; intros p q R E; [by injection E as <-|]. cbn in E.
  destruct (play1 p e) as [p'|] eqn:P; [|done]. cbn in E. eapply IH; [|exact E]. eapply program_continues; [exact R|].
  exact (play1_step _ _ _ P).
Qed.

Definition llama : Backend := mkBackend "llama" "" "ollama" "http://127.0.0.1:11434" "llama3" 0 true "".
Definition offer (id : string) : EditableOffer := mkEditableOffer id "gpt" "openai" [] "tokens_and_compute" 1 "1" "1" "1".
Definition start : Program := mkProgram (NewModel []) (mkWorld [llama] [offer "a"; offer "b"] false []) [] false.
Definition after (events : list Act) : Program := default start (play events start).
Lemma after_run events : present (play events start) = true -> run (after events).
Proof.
  unfold after. destruct (play events start) as [q|] eqn:E; [|done]. intros _. eapply play_run; [apply program_started|exact E].
Qed.

Definition open_offers : list Act := [Press "down"; Press "enter"; Finish 0].
Definition review : list Act :=
  open_offers ++ [Press "e"; Press "1"; Press "enter"; Press "2"; Press "enter"; Press "3"; Press "enter"].
Definition shrink : list Act :=
  open_offers ++ [Press "esc"; Press "down"; Press "enter"; Press "down"; Press "down"; Change (mkWorld [llama] [] false []); Finish 0].
Definition host : list Act := [Press "down"; Press "down"; Press "down"; Press "enter"; Press "r"; Finish 1; Press "esc"].

Definition enter : Msg := @KeyPressMsg fields "enter".

(** The menu leaves the program while the provider is hosting, without asking. *)
Lemma menu_quits_while_hosting :
  run (after host) /\ ss_running (pg_model (after host)) = true
  /\ option_map (fun p => (pg_quit p, hosting (pg_world p), ss_confirmQuit (pg_model p))) (play1 (after host) (Press "q")) = Some (true, true, false).
Proof. split; [apply after_run; by vm_compute|by vm_compute]. Qed.

(** A second reading of the account, begun before the publication, ends after
    it: the busy flag falls and Enter opens the same publication again. *)
Definition late_account : list Act :=
  [Press "down"; Press "enter"; Press "esc"; Press "down"; Press "enter"; Finish 0;
   Press "e"; Press "1"; Press "enter"; Press "2"; Press "enter"; Press "3"; Press "enter";
   Press "enter"; Finish 0; Press "enter"].
Lemma published_twice :
  run (after late_account)
  /\ pg_pending (after late_account) = [PublishCmd llama (mkRates "1" "2" "3"); PublishCmd llama (mkRates "1" "2" "3")].
Proof. split; [apply after_run; by vm_compute|by vm_compute]. Qed.
End TuiRun.
#[local] Existing Instances TuiRun.fields TuiRun.fields_lawful.


Lemma panics_only_on_stale_offers_witness :
  let p := TuiRun.after TuiRun.shrink in
  Update TuiRun.dependencies TuiRun.url_parse TuiRun.enter (pg_model p) (pg_world p) = None
  /\ ss_screen (pg_model p) = ScreenOffers /\ zlen (offerRows TuiRun.dependencies (pg_world p) (pg_model p)) <= ss_cursor (pg_model p).
Proof.
  intros p. assert (Update TuiRun.dependencies TuiRun.url_parse TuiRun.enter (pg_model p) (pg_world p) = None) as E by (by vm_compute).
  split; [done|]. pose proof (panics_only_on_stale_offers TuiRun.dependencies TuiRun.url_parse [] p _ _
    (TuiRun.after_run TuiRun.shrink ltac:(by vm_compute)) E) as (Hs & _ & Hc). exact (conj Hs Hc).
Defined.
