(* ===== verification/ReferencePrice.v ===== *)
(** * The reference price of MON (server/internal/api/price.go)

    A cache in front of two price providers.  A request takes the lock, decides
    whether it is the one that refreshes, fetches without the lock, stores what
    it got and releases the refresh, in steps that other requests interleave
    with.  [get] is the GET of an endpoint: an error, or the status and the
    first JSON value of the body. *)

From S2P Require Import Prelude GoStrings GoTime Wire Anthropic Backends Ollama Http.
From Stdlib Require Import Ascii.
From stdpp Require Import list relations.
Open Scope string_scope.
Open Scope list_scope.
Open Scope Z_scope.

(** ** Decimal numbers *)
(** The literal of a JSON number: sign, digits before and after the point, and
    exponent. *)
Record literal := mkLiteral { li_negative : bool; li_whole : string; li_fraction : string; li_exponent : Z }.

Fixpoint span_digits (s : string) : string * string :=
  match s with
  | String c rest => match digit_of c with
                     | Some _ => let '(digits, rest) := span_digits rest in (String c digits, rest)
                     | None => ("", s)
                     end
  | "" => ("", "")
  end.
Definition parse_exponent (s : string) : option Z :=
  match s with
  | "" => Some 0
  | String c rest =>
      if Ascii.eqb c "e" || Ascii.eqb c "E" then
        let '(negative, digits) := match rest with
                                   | String "-" r => (true, r)
                                   | String "+" r => (false, r)
                                   | _ => (false, rest)
                                   end in
        n ← parse_nat digits; Some (if negative then - n else n)
      else None
  end.
Definition parse_literal (s : string) : option literal :=
  let '(negative, s) := match s with String "-" r => (true, r) | _ => (false, s) end in
  let '(whole, s) := span_digits s in
  _ ← (match whole with "" => None | String "0" (String _ _) => None | _ => Some tt end);
  '(fraction, s) ← (match s with
                    | String "." r => let '(f, r) := span_digits r in if String.eqb f "" then None else Some (f, r)
                    | _ => Some ("", s)
                    end);
  exponent ← parse_exponent s;
  Some (mkLiteral negative whole fraction exponent).

(** A field of type [json.Number]: a number, or a string that is one. *)
Definition as_number (v : json) : option string :=
  match v with
  | JNum t => Some t
  | JStr t => _ ← parse_literal t; Some t
  | _ => None
  end.

(** [new(big.Rat).SetString]: the number [mantissa * 10 ^ exponent]; exponents
    beyond a million are refused. *)
Definition rat_limit : Z := 1000000.
Definition SetRat (s : string) : option (Z * Z) :=
  l ← parse_literal s;
  n ← parse_digits 0 (li_whole l +:+ li_fraction l);
  let mantissa := if li_negative l then - n else n in
  let exponent := li_exponent l - go_len (li_fraction l) in
  if mantissa =? 0 then Some (0, 0)
  else if rat_limit <? Z.abs exponent then None
  else Some (mantissa, exponent).
(** Comparison with [numerator / denominator]: at least that much. *)
Definition rat_at_least (r : Z * Z) (numerator denominator : Z) : bool :=
  let '(mantissa, exponent) := r in
  if 0 <=? exponent then numerator <=? mantissa * 10 ^ exponent * denominator
  else numerator * 10 ^ (- exponent) <=? mantissa * denominator.

(** ** Quotes *)
Record referencePrice := mkReferencePrice { qp_Symbol : string; qp_USDPerMON : string; qp_Source : string; qp_UpdatedAt : Z }.
Definition zero_price : referencePrice := mkReferencePrice "" "" "" 0.
Definition price_json (q : referencePrice) : json :=
  JObj [("symbol", JStr (qp_Symbol q)); ("usd_per_mon", JStr (qp_USDPerMON q)); ("source", JStr (qp_Source q));
        ("updated_at", JStr (RFC3339Nano (qp_UpdatedAt q)))].

Record ReferencePriceConfig := mkReferencePriceConfig {
  rc_Endpoint : string; rc_FallbackEndpoint : string; rc_CacheTTL : Z; rc_MaxAge : Z;
}.
Definition coinGeckoMONPriceURL : string :=
  "https://api.coingecko.com/api/v3/simple/price?ids=monad&vs_currencies=usd&include_last_updated_at=true".
Definition defiLlamaMONPriceURL : string := "https://coins.llama.fi/prices/current/coingecko:monad".
Definition NewReferencePrice (c : ReferencePriceConfig) : ReferencePriceConfig :=
  let '(endpoint, fallback) := if String.eqb (rc_Endpoint c) "" then (coinGeckoMONPriceURL, defiLlamaMONPriceURL)
                               else (rc_Endpoint c, rc_FallbackEndpoint c) in
  mkReferencePriceConfig endpoint fallback
    (if rc_CacheTTL c <=? 0 then Minute else rc_CacheTTL c) (if rc_MaxAge c <=? 0 then 15 * Minute else rc_MaxAge c).

(** Times further from now than a [time.Duration] holds are refused as well. *)
Definition validateReferencePrice (value : string) (timestamp : Z) (source : string) (now maxAge : Z) : result referencePrice :=
  let updated := timestamp * Second in
  match SetRat value with
  | Some (price, _) =>
      if (price <=? 0) || (timestamp <=? 0) || (now + Minute <? updated) || (maxAge <? now - updated)
      then Err (ErrNew "invalid or stale price")
      else Ok (mkReferencePrice "MON" value source updated)
  | None => Err (ErrNew "invalid or stale price")
  end.

Section Fetch.
Context (get : string -> result (Z * option json)).

Definition price_request (endpoint : string) : result json :=
  '(status, body) ← get endpoint;
  if negb (status =? 200) then Err (ErrNew ("price provider status " +:+ BigString status))
  else of_option body ErrEncode.

Definition gecko_fields : list (string * setter (string * Z)) :=
  [ ("usd", set_with as_number (fun v q => (v, snd q))); ("last_updated_at", set_with as_int64 (fun v q => (fst q, v))) ].
Definition gecko_payload : list (string * setter (string * Z)) :=
  [ ("monad", nested gecko_fields (fun q => q) (fun v _ => v)) ].
Definition fetchCoinGecko (endpoint : string) (now maxAge : Z) : result referencePrice :=
  body ← price_request endpoint;
  '(usd, updated) ← of_option (decode_loose gecko_payload body ("", 0)) ErrEncode;
  validateReferencePrice (TrimSpace usd) updated "CoinGecko" now maxAge.

Record coin := mkCoin { co_Price : string; co_Symbol : string; co_Timestamp : Z; co_Confidence : string }.
Definition zero_coin : coin := mkCoin "" "" 0 "".
Definition coin_fields : list (string * setter coin) :=
  [ ("price", set_with as_number (fun v c => mkCoin v (co_Symbol c) (co_Timestamp c) (co_Confidence c)));
    ("symbol", set_with as_string (fun v c => mkCoin (co_Price c) v (co_Timestamp c) (co_Confidence c)));
    ("timestamp", set_with as_int64 (fun v c => mkCoin (co_Price c) (co_Symbol c) v (co_Confidence c)));
    ("confidence", set_with as_number (fun v c => mkCoin (co_Price c) (co_Symbol c) (co_Timestamp c) v)) ].
(** A map: every value is decoded, the last one of a name counts. *)
Definition as_coins (v : json) : option (list (string * coin)) :=
  match v with
  | JObj members => mapM (fun '(name, v) => c ← match v with JNull => Some zero_coin | _ => decode_loose coin_fields v zero_coin end;
                                            Some (name, c)) members
  | _ => None
  end.
Definition llama_payload : list (string * setter (list (string * coin))) := [ ("coins", set_with as_coins (fun v _ => v)) ].
Definition coin_named (name : string) (coins : list (string * coin)) : coin :=
  match List.find (fun c => String.eqb (fst c) name) (rev coins) with Some (_, c) => c | None => zero_coin end.
Definition fetchDefiLlama (endpoint : string) (now maxAge : Z) : result referencePrice :=
  body ← price_request endpoint;
  coins ← of_option (decode_loose llama_payload body []) ErrEncode;
  let coin := coin_named "coingecko:monad" coins in
  let confident := match SetRat (co_Confidence coin) with Some r => rat_at_least r 9 10 | None => false end in
  if negb (String.eqb (co_Symbol coin) "MON") || negb confident then Err (ErrNew "invalid price confidence")
  else validateReferencePrice (TrimSpace (co_Price coin)) (co_Timestamp coin) "DefiLlama" now maxAge.

Definition fetch (c : ReferencePriceConfig) (now : Z) : result referencePrice :=
  match fetchCoinGecko (rc_Endpoint c) now (rc_MaxAge c) with
  | Ok quote => Ok quote
  | Err e =>
      if String.eqb (rc_FallbackEndpoint c) "" then Err e
      else match fetchDefiLlama (rc_FallbackEndpoint c) now (rc_MaxAge c) with
           | Ok quote => Ok quote
           | Err e' => Err (ErrWrap "primary and fallback" e')
           end
  end.
End Fetch.

(** ** The cache *)
Record PriceCache := mkPriceCache { ch_cached : referencePrice; ch_fetchedAt : option Z; ch_refreshing : bool }.
Definition empty_cache : PriceCache := mkPriceCache zero_price None false.

(** Under the lock: the quote known, and whether this request refreshes it. *)
Definition price_begin (c : ReferencePriceConfig) (now : Z) (s : PriceCache) : referencePrice * bool * PriceCache :=
  let due := match ch_fetchedAt s with None => true | Some t => rc_CacheTTL c <=? now - t end in
  let shouldFetch := due && negb (ch_refreshing s) in
  (ch_cached s, shouldFetch, mkPriceCache (ch_cached s) (ch_fetchedAt s) (shouldFetch || ch_refreshing s)).
Definition price_store (fetched : referencePrice) (s : PriceCache) : PriceCache :=
  mkPriceCache fetched (ch_fetchedAt s) (ch_refreshing s).
Definition price_release (now : Z) (s : PriceCache) : PriceCache := mkPriceCache (ch_cached s) (Some now) false.

Definition price_answer (c : ReferencePriceConfig) (now : Z) (quote : referencePrice) : Response :=
  if String.eqb (qp_USDPerMON quote) "" || (rc_MaxAge c <? now - qp_UpdatedAt quote)
  then http_error 503 "MON reference price unavailable"
  else with_headers [("Content-Type", "application/json"); ("Cache-Control", "public, max-age=60")]
         (respond_json 200 (price_json quote)).

(** The requests under way, with the time they began and the quote they will
    answer with. *)
Inductive flight := Refreshing (now : Z) (quote : referencePrice) | Releasing (now : Z) (quote : referencePrice).
Inductive price_event :=
| Began (now : Z) (refreshes : bool)
| Answered (now : Z) (quote : referencePrice) (response : Response).
Record PriceServer := mkPriceServer { ps_cache : PriceCache; ps_flights : list flight; ps_events : list price_event }.

Inductive price_step (c : ReferencePriceConfig) : PriceServer -> PriceServer -> Prop :=
| price_cached now s flights events quote s' : price_begin c now s = (quote, false, s') ->
    price_step c (mkPriceServer s flights events)
      (mkPriceServer s' flights (events ++ [Began now false; Answered now quote (price_answer c now quote)]))
| price_refresh now s flights events quote s' : price_begin c now s = (quote, true, s') ->
    price_step c (mkPriceServer s flights events) (mkPriceServer s' (Refreshing now quote :: flights) (events ++ [Began now true]))
| price_fetched get now s before quote after events fetched : fetch get c now = Ok fetched ->
    price_step c (mkPriceServer s (before ++ Refreshing now quote :: after) events)
      (mkPriceServer (price_store fetched s) (before ++ Releasing now fetched :: after) events)
| price_failed get now s before quote after events e : fetch get c now = Err e ->
    price_step c (mkPriceServer s (before ++ Refreshing now quote :: after) events)
      (mkPriceServer s (before ++ Releasing now quote :: after) events)
| price_released now s before quote after events :
    price_step c (mkPriceServer s (before ++ Releasing now quote :: after) events)
      (mkPriceServer (price_release now s) (before ++ after) (events ++ [Answered now quote (price_answer c now quote)])).
Definition price_run (c : ReferencePriceConfig) : PriceServer -> Prop := rtc (price_step c) (mkPriceServer empty_cache [] []).

(** ** What the handler answers *)
(** A quote that was valid when it was fetched, at [t]. *)
Definition quoted (c : ReferencePriceConfig) (t : Z) (q : referencePrice) : Prop :=
  qp_Symbol q = "MON" /\ (qp_Source q = "CoinGecko" \/ qp_Source q = "DefiLlama")
  /\ (exists m e, SetRat (qp_USDPerMON q) = Some (m, e) /\ 0 < m) /\ t - rc_MaxAge c <= qp_UpdatedAt q <= t + Minute.

Lemma validate_quoted value timestamp source c now q :
  source = "CoinGecko" \/ source = "DefiLlama" ->
  validateReferencePrice value timestamp source now (rc_MaxAge c) = Ok q -> quoted c now q.
Proof.
  intros Hs. unfold validateReferencePrice. destruct (SetRat value) as [[m e]|] eqn:R; [|done].
  destruct (_ || _) eqn:B; [done|]. intros [= <-]. bools. split_and!; cbn; try done; try lia. exists m, e. split; [done|lia].
Qed.

Lemma fetch_quoted get c now q : fetch get c now = Ok q -> quoted c now q.
Proof.
  unfold fetch. destruct (fetchCoinGecko _ _ _ _) as [g|e] eqn:G.
  - intros [= <-]. unfold fetchCoinGecko in G. step_ok G as body Eb. step_ok G as p Ep. destruct p as [usd updated].
    eapply validate_quoted, G. by left.
  - destruct (String.eqb _ ""); [done|]. destruct (fetchDefiLlama _ _ _ _) as [d|e'] eqn:D; [|done]. intros [= <-].
    unfold fetchDefiLlama in D. step_ok D as body Eb. step_ok D as coins Ec. destruct (_ || _) in D; [done|].
    eapply validate_quoted, D. by right.
Qed.

Definition begun (e : price_event) : list Z := match e with Began now true => [now] | _ => [] end.
Definition starts (events : list price_event) : list Z := events ≫= begun.
Definition flight_time (f : flight) : Z := match f with Refreshing now _ | Releasing now _ => now end.
Definition flight_quote (f : flight) : referencePrice := match f with Refreshing _ q | Releasing _ q => q end.
Definition known (c : ReferencePriceConfig) (q : referencePrice) : Prop := q = zero_price \/ exists t, quoted c t q.

(** Refreshes in order, each at least [ttl] after the one before. *)
Fixpoint spaced (ttl : Z) (times : list Z) : Prop :=
  match times with
  | t :: ((u :: _) as rest) => t + ttl <= u /\ spaced ttl rest
  | _ => True
  end.
Lemma spaced_snoc ttl times t : spaced ttl times -> (forall u, List.last times t = u -> times <> [] -> u + ttl <= t) -> spaced ttl (times ++ [t]).
Proof.
  induction times as [|u times IH]; intros Hs Hl; [done|]. destruct times as [|v times].
  - cbn. split; [|done]. by apply Hl.
  - destruct Hs as [H1 H2]. split; [done|]. apply (IH H2). intros x Hx _. by apply Hl.
Qed.

Record price_inv (c : ReferencePriceConfig) (s : PriceServer) : Prop := mkPriceInv {
  pi_flight : if ch_refreshing (ps_cache s) then exists f, ps_flights s = [f] /\ List.last (starts (ps_events s)) 0 = flight_time f
              else ps_flights s = [] /\ match ch_fetchedAt (ps_cache s) with
                                        | None => starts (ps_events s) = []
                                        | Some t => List.last (starts (ps_events s)) 0 = t
                                        end;
  pi_spaced : spaced (rc_CacheTTL c) (starts (ps_events s));
  pi_cached : known c (ch_cached (ps_cache s)) /\ Forall (fun f => known c (flight_quote f)) (ps_flights s);
  pi_answers : forall now q r, Answered now q r ∈ ps_events s -> r = price_answer c now q /\ known c q;
}.

Lemma starts_app l l' : starts (l ++ l') = starts l ++ starts l'.
Proof. apply bind_app. Qed.

Lemma price_step_inv c s s' : price_inv c s -> price_step c s s' -> price_inv c s'.
Proof.
  intros I S. destruct S as [now s flights events quote s' B|now s flights events quote s' B
    |get now s before quote after events fetched F|get now s before quote after events e F|now s before quote after events];
    destruct I as [If Is [Ic Iq] Ia]; cbn [ps_cache ps_flights ps_events] in *.
  - unfold price_begin in B. injection B as <- Hf <-. rewrite Hf in *. cbn [orb].
    split; cbn [ps_cache ps_flights ps_events ch_refreshing ch_cached ch_fetchedAt]; rewrite ?starts_app, ?app_nil_r; try done.
    intros n q r [Hin|Hin]%elem_of_app; [by apply Ia|]. repeat (apply elem_of_cons in Hin as [Hin|Hin]; [simplify_eq|]); [done|by apply elem_of_nil in Hin].
  - unfold price_begin in B. injection B as <- Hf <-. rewrite Hf in *. cbn [orb]. bools. rewrite H0 in If. destruct If as [-> Hl].
    split; cbn [ps_cache ps_flights ps_events ch_refreshing ch_cached ch_fetchedAt]; rewrite ?starts_app.
    + exists (Refreshing now (ch_cached s)). split; [done|]. cbn. by rewrite last_last.
    + apply spaced_snoc; [done|]. intros u Hu Hne. destruct (ch_fetchedAt s) as [t|]; [|done]. bools.
      destruct (starts events) as [|x l] using rev_ind; [done|]. rewrite last_last in Hu, Hl. lia.
    + split; [done|]. by apply Forall_singleton.
    + intros n q r [Hin|Hin]%elem_of_app; [by apply Ia|]. apply list_elem_of_singleton in Hin. done.
  - destruct (ch_refreshing s) eqn:R; [|destruct If as [If _]; by destruct before].
    destruct If as (f & Hf & Hl). destruct before as [|b before]; [|by destruct before]. injection Hf as <- ->.
    split; cbn [ps_cache ps_flights ps_events ch_refreshing ch_cached ch_fetchedAt price_store app]; try done.
    + rewrite R. by eexists.
    + apply fetch_quoted in F. split; [right; by exists now|]. apply Forall_singleton. right. by exists now.
  - destruct (ch_refreshing s) eqn:R; [|destruct If as [If _]; by destruct before].
    destruct If as (f & Hf & Hl). destruct before as [|b before]; [|by destruct before]. injection Hf as <- ->.
    split; cbn [ps_cache ps_flights ps_events app]; try done; [rewrite R; by eexists|]. split; [done|].
    apply Forall_cons in Iq as [Iq _]. by apply Forall_singleton.
  - destruct (ch_refreshing s) eqn:R; [|destruct If as [If _]; by destruct before].
    destruct If as (f & Hf & Hl). destruct before as [|b before]; [|by destruct before]. injection Hf as <- ->.
    apply Forall_cons in Iq as [Iq _]. cbn in Iq, Hl.
    split; cbn [ps_cache ps_flights ps_events ch_refreshing ch_cached ch_fetchedAt price_release app]; rewrite ?starts_app, ?app_nil_r; try done.
    intros n q r [Hin|Hin]%elem_of_app; [by apply Ia|]. apply list_elem_of_singleton in Hin. injection Hin as -> -> ->. done.
Qed.

(** The providers are asked by one request at a time, and no sooner than
    [CacheTTL] after the last time; a price that is answered is positive, comes
    from one of them and is at most [MaxAge] old. *)
Theorem reference_price_fresh c s : price_run c s ->
  (length (ps_flights s) <= 1)%nat
  /\ spaced (rc_CacheTTL c) (starts (ps_events s))
  /\ forall now q r, Answered now q r ∈ ps_events s ->
       r = http_error 503 "MON reference price unavailable"
       \/ hp_Status r = 200 /\ hp_Body r = Json (price_json q) /\ now - qp_UpdatedAt q <= rc_MaxAge c /\ exists t, quoted c t q.
Proof.
  intros R. assert (price_inv c s) as [If Is _ Ia].
  { unfold price_run in R. remember (mkPriceServer empty_cache [] []) as s0 eqn:E. assert (price_inv c s0) as I0.
    { subst. split; cbn; try done; [by split; [left|]|]. intros now q r Hin. by apply elem_of_nil in Hin. }
    clear E. induction R; [done|]. apply IHR. by eapply price_step_inv. }
  split_and!; [|done|].
  - destruct (ch_refreshing _); [destruct If as (f & -> & _)|destruct If as [-> _]]; cbn; lia.
  - intros now q r Hin. destruct (Ia now q r Hin) as [-> Hk]. unfold price_answer. destruct (_ || _) eqn:B; [by left|]. right.
    bools. split_and!; [done|done|lia|]. destruct Hk as [->|Hk]; [done|exact Hk].
Qed.
