(* ===== verification/Flags.v ===== *)
(** * Command-line flags

    What the CLI uses of the package flag: string, boolean and uint64 flags of a
    [FlagSet] that continues on errors, and the arguments [runHost] writes for
    [runLogin]. *)

From S2P Require Import Prelude GoStrings.
From Stdlib Require Import Ascii.
From stdpp Require Import gmap strings.
Open Scope string_scope.
Open Scope list_scope.
Open Scope Z_scope.

Inductive flag_kind := StringFlag | BoolFlag | Uint64Flag.
Inductive flag_value := VString (s : string) | VBool (b : bool) | VUint64 (n : Z).
(** The values that were set; [flags.Visit] visits these. *)
Definition flag_values : Type := gmap string flag_value.

(** [strconv.ParseBool] *)
Definition ParseBool (s : string) : option bool :=
  if contains ["1"; "t"; "T"; "TRUE"; "true"; "True"] s then Some true
  else if contains ["0"; "f"; "F"; "FALSE"; "false"; "False"] s then Some false
  else None.

(** [strconv.ParseUint] in base 0: a prefix gives the base, underscores may
    separate digits. *)
Definition base_digit (c : ascii) : option Z :=
  let n := byte_of (lower_ascii c) in
  if (48 <=? n) && (n <=? 57) then Some (n - 48)
  else if (97 <=? n) && (n <=? 122) then Some (n - 97 + 10)
  else None.
Fixpoint parse_base (base : Z) (acc : Z) (s : string) : option Z :=
  match s with
  | "" => Some acc
  | String "_" rest => parse_base base acc rest
  | String c rest =>
      match base_digit c with
      | Some d => if d <? base then let acc := acc * base + d in if u64_max <? acc then None else parse_base base acc rest else None
      | None => None
      end
  end.
(** [underscoreOK] from the digits on: an underscore is between digits, or
    between the prefix and a digit. *)
Fixpoint underscores_ok (after_digit : bool) (s : string) : bool :=
  match s with
  | "" => after_digit
  | String "_" rest => after_digit && match rest with String "_" _ | "" => false | _ => underscores_ok false rest end
  | String _ rest => underscores_ok true rest
  end.
Definition split_base (s : string) : Z * string :=
  match s with
  | String "0" (String c (String d rest)) =>
      if Ascii.eqb (lower_ascii c) "b" then (2, String d rest)
      else if Ascii.eqb (lower_ascii c) "o" then (8, String d rest)
      else if Ascii.eqb (lower_ascii c) "x" then (16, String d rest)
      else (8, String c (String d rest))
  | String "0" "" => (10, s)
  | String "0" rest => (8, rest)
  | _ => (10, s)
  end.
Definition ParseUint0 (s : string) : option Z :=
  match s with
  | "" => None
  | _ =>
      let '(base, digits) := split_base s in
      n ← parse_base base 0 digits;
      if ContainsByte s "_" && negb (underscores_ok (negb (base =? 10)) digits) then None else Some n
  end.

Definition parse_value (kind : flag_kind) (s : string) : option flag_value :=
  match kind with
  | StringFlag => Some (VString s)
  | BoolFlag => VBool <$> ParseBool s
  | Uint64Flag => VUint64 <$> ParseUint0 s
  end.

(** [FlagSet.Parse]: it stops at the first argument that is not a flag. *)
Inductive flag_argument := NotFlag | BadFlag | NamedFlag (name : string) (value : option string).
Definition flag_argument_of (s : string) : flag_argument :=
  let named name :=
    match name with
    | "" => BadFlag
    | String c _ => if Ascii.eqb c "-" || Ascii.eqb c "=" then BadFlag
                    else match CutByte name "=" with Some (n, v) => NamedFlag n (Some v) | None => NamedFlag name None end
    end in
  match s with
  | String "-" (String "-" "") => NotFlag
  | String "-" (String "-" name) => named name
  | String "-" "" => NotFlag
  | String "-" name => named name
  | _ => NotFlag
  end.

Section Parse.
Context (kinds : string -> option flag_kind).
Fixpoint parse_from (args : list string) (set : flag_values) : result flag_values :=
  match args with
  | [] => Ok set
  | s :: rest =>
      match flag_argument_of s with
      | NotFlag => Ok set
      | BadFlag => Err (ErrNew ("bad flag syntax: " +:+ s))
      | NamedFlag name value =>
          match kinds name with
          | None => Err (if String.eqb name "help" || String.eqb name "h" then ErrNew "flag: help requested"
                         else ErrNew ("flag provided but not defined: -" +:+ name))
          | Some BoolFlag =>
              match parse_value BoolFlag (default "true" value) with
              | Some v => parse_from rest (<[name := v]> set)
              | None => Err (ErrNew ("invalid boolean value for -" +:+ name))
              end
          | Some kind =>
              match value, rest with
              | Some text, _ =>
                  match parse_value kind text with
                  | Some v => parse_from rest (<[name := v]> set)
                  | None => Err (ErrNew ("invalid value for flag -" +:+ name))
                  end
              | None, text :: rest =>
                  match parse_value kind text with
                  | Some v => parse_from rest (<[name := v]> set)
                  | None => Err (ErrNew ("invalid value for flag -" +:+ name))
                  end
              | None, [] => Err (ErrNew ("flag needs an argument: -" +:+ name))
              end
          end
      end
  end.
End Parse.

Definition flag_specs : Type := list (string * flag_kind).
Definition kind_in (specs : flag_specs) (name : string) : option flag_kind :=
  snd <$> List.find (fun s => String.eqb (fst s) name) specs.
Definition ParseFlags (specs : flag_specs) (args : list string) : result flag_values := parse_from (kind_in specs) args ∅.

Definition string_flag (name fallback : string) (set : flag_values) : string :=
  match set !! name with Some (VString s) => s | _ => fallback end.
Definition bool_flag (name : string) (set : flag_values) : bool :=
  match set !! name with Some (VBool b) => b | _ => false end.
Definition uint_flag (name : string) (set : flag_values) : Z :=
  match set !! name with Some (VUint64 n) => n | _ => 0 end.
Definition was_set (name : string) (set : flag_values) : bool := match set !! name with Some _ => true | None => false end.

Example flags_uint : map ParseUint0 ["17"; "0x1F"; "017"; "1_000"; "0b101"; "1__0"; "_1"; "0x_1"; "08"; "0"; "18446744073709551616"]
  = [Some 17; Some 31; Some 15; Some 1000; Some 5; None; None; Some 1; None; Some 0; None].
Proof. by vm_compute. Qed.
