(* ===== verification/BackendCommands.v ===== *)
(** * The backends of the CLI (cli/cmd/myference/main.go)

    [backend add | start | stop | remove | version | list]: validation, the
    configuration file and the credential vault; the client of a configured
    backend; and the offers a provider attests.  [W] is the machine: the
    configuration file, the vault and the terminal.  The constructors of the
    clients are those of the files Ollama, OpenAI, Claude, Codex and
    CommandAgent, [url_parse] is [url.Parse], and [models] is what a client's
    [Models] answers. *)

From S2P Require Import Prelude GoStrings GoTime Wire Messages Hex Flags ProviderAccount Daemon ProviderOps ClientConfig.
From S2P Require Import Backends Ollama OpenAI CommandAgent ClientConfig.
From Stdlib Require Import Ascii.
From stdpp Require Import gmap strings.
Open Scope string_scope.
Open Scope list_scope.
Open Scope Z_scope.

Definition machineCredentialService : string := "myference.machine".
Definition signerCredentialService : string := "myference.signer".
Definition backendCredentialService : string := "myference.backend".

Definition backendUsesCredential (kind image : string) : bool :=
  String.eqb kind "openai" || String.eqb kind "kimi"
  || (String.eqb kind "codex" || String.eqb kind "claude") && negb (String.eqb image "").
Definition backendUsesWorkspace (item : Backend) : bool :=
  String.eqb (bk_Kind item) "kimi"
  || (String.eqb (bk_Kind item) "codex" || String.eqb (bk_Kind item) "claude") && negb (String.eqb (bk_Image item) "").
Definition sameOfferShape (left right : Backend) : bool :=
  String.eqb (bk_Kind left) (bk_Kind right) && String.eqb (bk_Model left) (bk_Model right)
  && Bool.eqb (backendUsesWorkspace left) (backendUsesWorkspace right).

Definition commandArguments (kind model : string) : list string :=
  if String.eqb kind "codex" then ["exec"; "--ephemeral"; "--sandbox"; "read-only"; "--skip-git-repo-check"; "--model"; model; "-"]
  else if String.eqb kind "claude" then ["-p"; "--model"; model]
  else if String.eqb kind "kimi" then ["--print"; "--model"; model]
  else [].

Section Commands.
Context {W : Type}.
#[local] Instance BC_ret : MRet (M (W := W)) := fun A a w => (w, Ok a).
#[local] Instance BC_bind : MBind (M (W := W)) := fun A B f m w => match m w with (w, Ok a) => f a w | (w, Err e) => (w, Err e) end.

(** The clients a backend may have. *)
Inductive BackendClient :=
| OllamaClient (baseURL : string)
| OpenAIClient (baseURL secret : string)
| NativeClient (kind model : string)
| CommandClient (image : string) (arguments : list string) (kind model secret : string).

(** What the commands use of the machine. *)
Record Machine := mkMachine {
  mc_LoadConfig : M (W := W) Config;
  mc_SaveConfig : Config -> M (W := W) unit;
  mc_LoadCredential : string -> string -> M (W := W) string;
  mc_SaveCredential : option (string -> string -> string -> M (W := W) unit);
  mc_DeleteCredential : option (string -> string -> M (W := W) unit);
  mc_NativeCodex : option (string -> Z -> M (W := W) BackendClient);
  mc_NativeClaude : option (string -> Z -> M (W := W) BackendClient);
  mc_Command : string -> list string -> string -> string -> string -> Z -> M (W := W) BackendClient;
  mc_Models : BackendClient -> M (W := W) (list Model);
  mc_Print : string -> M (W := W) unit;
}.
Context (m : Machine) (url_parse : string -> option Url).

Definition guard_not (b : bool) (text : string) : M (W := W) unit := lift (fail_if b (ErrNew text)).

(** ** Adding a backend *)
Record AddOptions := mkAddOptions {
  ao_Name : string; ao_Model : string; ao_Endpoint : string; ao_Kind : string; ao_Image : string; ao_Secret : string;
  ao_PriceVersion : Z; ao_PriceVersionSet : bool; ao_Replace : bool;
}.
Definition two_minutes : Z := 2 * Minute.

Definition check_native (native : option (string -> Z -> M (W := W) BackendClient)) (title model secret : string) : M (W := W) unit :=
  _ ← guard_not (negb (String.eqb secret ""))
        ("native " +:+ title +:+ " uses the existing " +:+ title +:+ " CLI login; omit --secret");
  match native with
  | None => throw (ErrNew ("native " +:+ title +:+ " backend is unavailable"))
  | Some new => client ← new model two_minutes; _ ← mc_Models m client; mret tt
  end.
Definition check_image (o : AddOptions) : M (W := W) unit :=
  _ ← mc_Command m (ao_Image o) (commandArguments (ao_Kind o) (ao_Model o)) (ao_Kind o) (ao_Model o) (ao_Secret o) two_minutes;
  mret tt.
Definition check_kind (o : AddOptions) : M (W := W) unit :=
  let kind := ao_Kind o in
  if String.eqb kind "ollama" then
    _ ← lift (Ollama.New (url_parse (ao_Endpoint o)) (ao_Endpoint o)); mret tt
  else if String.eqb kind "openai" then
    _ ← lift (OpenAI.New (url_parse (ao_Endpoint o)) (ao_Endpoint o) (ao_Secret o)); mret tt
  else if String.eqb kind "codex" then
    if String.eqb (ao_Image o) "" then check_native (mc_NativeCodex m) "Codex" (ao_Model o) (ao_Secret o)
    else _ ← guard_not (String.eqb (ao_Secret o) "") "--secret is required with a pinned Codex --image"; check_image o
  else if String.eqb kind "claude" then
    if String.eqb (ao_Image o) "" then check_native (mc_NativeClaude m) "Claude" (ao_Model o) (ao_Secret o)
    else _ ← guard_not (String.eqb (ao_Secret o) "") "--secret is required with a pinned Claude --image"; check_image o
  else
    _ ← guard_not (String.eqb (ao_Secret o) "" || String.eqb (ao_Image o) "")
          "--secret and a pinned --image are required for isolated command agents";
    check_image o.

Definition named (name : string) (b : Backend) : bool := String.eqb (bk_Name b) name.
Definition new_backend (o : AddOptions) : Backend :=
  mkBackend (ao_Name o) "" (ao_Kind o)
    (if String.eqb (ao_Kind o) "ollama" || String.eqb (ao_Kind o) "openai" then ao_Endpoint o else "")
    (ao_Model o) (ao_PriceVersion o) true (ao_Image o).
(** The new backend takes the offer of the one it replaces when that still fits. *)
Definition replacing (o : AddOptions) (previous : Backend) : Backend :=
  let item := new_backend o in
  if sameOfferShape previous item then
    mkBackend (bk_Name item) (bk_OfferID previous) (bk_Kind item) (bk_URL item) (bk_Model item)
      (if negb (String.eqb (bk_OfferID previous) "") || negb (ao_PriceVersionSet o) then bk_PriceVersion previous else bk_PriceVersion item)
      (bk_Enabled item) (bk_Image item)
  else item.
Definition credential_account (cfg : Config) (name : string) : string := cf_MachineID cfg +:+ "/" +:+ name.

Definition store_credential (cfg : Config) (item : Backend) (secret : string) : M (W := W) unit :=
  if backendUsesCredential (bk_Kind item) (bk_Image item) then
    match mc_SaveCredential m with
    | None => throw (ErrNew "credential store unavailable")
    | Some save => wrapped "store backend credential" (save backendCredentialService (credential_account cfg (bk_Name item)) secret)
    end
  else mret tt.
Definition drop_obsolete (cfg : Config) (previous : option Backend) (item : Backend) : M (W := W) unit :=
  match previous, mc_DeleteCredential m with
  | Some previous, Some delete =>
      if backendUsesCredential (bk_Kind previous) (bk_Image previous) && negb (backendUsesCredential (bk_Kind item) (bk_Image item))
      then wrapped "remove obsolete backend credential" (delete backendCredentialService (credential_account cfg (bk_Name item)))
      else mret tt
  | _, _ => mret tt
  end.

Definition backend_add (o : AddOptions) : M (W := W) unit :=
  cfg ← mc_LoadConfig m;
  _ ← guard_not (String.eqb (ao_Name o) "" || String.eqb (ao_Model o) "") "--name and --model are required";
  _ ← guard_not (negb (contains ["ollama"; "openai"; "codex"; "claude"; "kimi"] (ao_Kind o))) "unsupported backend kind";
  let existing := List.find (named (ao_Name o)) (cf_Backends cfg) in
  _ ← guard_not (match existing with Some _ => negb (ao_Replace o) | None => false end)
        "backend name already exists; use --replace to migrate it explicitly";
  _ ← check_kind o;
  let item := match existing with Some previous => replacing o previous | None => new_backend o end in
  let backends := match existing with
                  | Some _ => change_first (named (ao_Name o)) (fun _ => item) (cf_Backends cfg)
                  | None => cf_Backends cfg ++ [item]
                  end in
  _ ← store_credential cfg item (ao_Secret o);
  _ ← mc_SaveConfig m (set_backends backends cfg);
  drop_obsolete cfg existing item.

(** ** The other commands *)
Definition set_enabled (enabled : bool) (b : Backend) : Backend :=
  mkBackend (bk_Name b) (bk_OfferID b) (bk_Kind b) (bk_URL b) (bk_Model b) (bk_PriceVersion b) enabled (bk_Image b).
(** The loop over the backends: every one of the name changes. *)
Definition change_named (name : string) (f : Backend -> Backend) (cfg : Config) : M (W := W) Config :=
  if existsb (named name) (cf_Backends cfg)
  then mret (set_backends (map (fun b => if named name b then f b else b) (cf_Backends cfg)) cfg)
  else throw (ErrNew "backend not found").

Definition backend_switch (enabled : bool) (name : string) : M (W := W) unit :=
  cfg ← mc_LoadConfig m; cfg ← change_named name (set_enabled enabled) cfg; mc_SaveConfig m cfg.
Definition backend_version (name : string) (version : Z) : M (W := W) unit :=
  cfg ← mc_LoadConfig m;
  _ ← guard_not (version =? 0) "--price-version must be positive";
  cfg ← change_named name (set_version version) cfg; mc_SaveConfig m cfg.

Fixpoint remove_first (p : Backend -> bool) (backends : list Backend) : list Backend :=
  match backends with [] => [] | b :: rest => if p b then rest else b :: remove_first p rest end.
Definition backend_remove (name : string) : M (W := W) unit :=
  cfg ← mc_LoadConfig m;
  _ ← guard_not (String.eqb name "") "--name is required";
  removed ← lift (of_option (List.find (named name) (cf_Backends cfg)) (ErrNew "backend not found"));
  let uses := backendUsesCredential (bk_Kind removed) (bk_Image removed) in
  _ ← guard_not (uses && negb (match mc_DeleteCredential m with Some _ => true | None => false end)) "credential store unavailable";
  _ ← mc_SaveConfig m (set_backends (remove_first (named name) (cf_Backends cfg)) cfg);
  match mc_DeleteCredential m with
  | Some delete => if uses then wrapped "remove backend credential" (delete backendCredentialService (credential_account cfg (bk_Name removed)))
                   else mret tt
  | None => mret tt
  end.

Definition tab : string := str [9].
Definition backend_line (b : Backend) : string :=
  bk_Name b +:+ tab +:+ bk_Kind b +:+ tab +:+ bk_Model b +:+ tab +:+ (if bk_Enabled b then "enabled" else "stopped") +:+ str [10].
Definition print_backends (backends : list Backend) : M (W := W) unit :=
  fun w => (fold_left (fun w b => fst (mc_Print m (backend_line b) w)) backends w, Ok tt).
Definition backend_list : M (W := W) unit := cfg ← mc_LoadConfig m; print_backends (cf_Backends cfg).

Definition backend_flags : flag_specs :=
  [ ("config", StringFlag); ("name", StringFlag); ("model", StringFlag); ("url", StringFlag); ("kind", StringFlag);
    ("image", StringFlag); ("secret", StringFlag); ("price-version", Uint64Flag); ("replace", BoolFlag) ].
Definition add_options (set : flag_values) : AddOptions :=
  mkAddOptions (string_flag "name" "" set) (string_flag "model" "" set) (string_flag "url" "http://127.0.0.1:11434" set)
    (string_flag "kind" "ollama" set) (string_flag "image" "" set) (string_flag "secret" "" set) (uint_flag "price-version" set)
    (was_set "price-version" set) (bool_flag "replace" set).

Definition runBackendCommand (command : string) (set : flag_values) : M (W := W) unit :=
  let name := string_flag "name" "" set in
  if String.eqb command "add" then backend_add (add_options set)
  else if String.eqb command "start" || String.eqb command "stop" then backend_switch (String.eqb command "start") name
  else if String.eqb command "remove" then backend_remove name
  else if String.eqb command "version" then backend_version name (uint_flag "price-version" set)
  else if String.eqb command "list" then backend_list
  else _ ← mc_LoadConfig m; throw (ErrNew "unknown backend command").
End Commands.

(** The file of the configuration is a flag. *)
Definition runBackendWithDependencies {W} (machine : string -> Machine (W := W)) (defaultConfigPath : string) (url_parse : string -> option Url)
    (args : list string) (w : W) : W * result unit :=
  match args with
  | [] => (w, Err (ErrNew "backend command is required"))
  | command :: rest =>
      match ParseFlags backend_flags rest with
      | Err e => (w, Err e)
      | Ok set => runBackendCommand (machine (string_flag "config" defaultConfigPath set)) url_parse command set w
      end
  end.

(** ** The client of a backend, and what it attests *)
Section Discover.
Context {W : Type} (m : Machine (W := W)) (url_parse : string -> option Url).
#[local] Instance BD_ret : MRet (M (W := W)) := fun A a w => (w, Ok a).
#[local] Instance BD_bind : MBind (M (W := W)) := fun A B f m w => match m w with (w, Ok a) => f a w | (w, Err e) => (w, Err e) end.

Definition native_client (native : option (string -> Z -> M (W := W) BackendClient)) (title model : string) : M (W := W) BackendClient :=
  match native with
  | None => throw (ErrNew ("native " +:+ title +:+ " backend is unavailable"))
  | Some new => new model two_minutes
  end.
Definition backend_secret (machineID : string) (item : Backend) : M (W := W) string :=
  wrapped "load backend credential" (mc_LoadCredential m backendCredentialService (machineID +:+ "/" +:+ bk_Name item)).
Definition command_client (machineID : string) (item : Backend) : M (W := W) BackendClient :=
  secret ← backend_secret machineID item;
  mc_Command m (bk_Image item) (commandArguments (bk_Kind item) (bk_Model item)) (bk_Kind item) (bk_Model item) secret two_minutes.
Definition configuredBackendWithNatives (item : Backend) (machineID : string) : M (W := W) BackendClient :=
  let kind := bk_Kind item in
  if String.eqb kind "ollama" then
    url ← lift (Ollama.New (url_parse (bk_URL item)) (bk_URL item)); mret (OllamaClient url)
  else if String.eqb kind "openai" then
    secret ← backend_secret machineID item;
    '(url, secret) ← lift (OpenAI.New (url_parse (bk_URL item)) (bk_URL item) secret); mret (OpenAIClient url secret)
  else if String.eqb kind "codex" then
    if String.eqb (bk_Image item) "" then native_client (mc_NativeCodex m) "Codex" (bk_Model item) else command_client machineID item
  else if String.eqb kind "claude" then
    if String.eqb (bk_Image item) "" then native_client (mc_NativeClaude m) "Claude" (bk_Model item) else command_client machineID item
  else if String.eqb kind "kimi" then command_client machineID item
  else throw (ErrNew "unsupported backend kind").

Context `{Ethereum}.

(** [item.Image[strings.LastIndex(item.Image, "@")+1:]] *)
Definition image_digest (image : string) : string := TrimPrefix (List.last (SplitByte image "@") "") "@".
Definition offerCapacity (item : Backend) (discovered : Model) : OfferCapacity :=
  let offerID := EffectiveOfferID item in
  let commandAgent := backendUsesWorkspace item in
  let capabilities := ["stream"; "text"] ++ if commandAgent then ["workspace"] else [] in
  let '(evidenceKind, evidenceDigest, meteringMode) :=
    if commandAgent then ("runtime_image", image_digest (bk_Image item), "compute_only")
    else if String.eqb (bk_Kind item) "ollama" then ("ollama_digest", md_Digest discovered, "tokens_and_compute")
    else ("upstream_model", md_Name discovered, "tokens_and_compute") in
  mkOfferCapacity offerID (bk_Model item) (bk_PriceVersion item) (bk_Kind item) (Keccak256Hex offerID) (Keccak256Hex (bk_Model item))
    (Keccak256Hex (GoStrings.Join capabilities ",")) capabilities evidenceKind evidenceDigest meteringMode.

(** The loop of [discoverBackends]: the offers, and the clients by offer. *)
Fixpoint discover (items : list Backend) (machineID : string) (offers : list OfferCapacity) (clients : gmap string BackendClient)
    : M (W := W) (list OfferCapacity * gmap string BackendClient) :=
  match items with
  | [] => mret (offers, clients)
  | item :: rest =>
      if negb (bk_Enabled item) then discover rest machineID offers clients
      else
        _ ← lift (fail_if (bk_PriceVersion item =? 0) (ErrNew "backend has no finalized offer version; publish or attach an offer before serving"));
        client ← configuredBackendWithNatives item machineID;
        models ← wrapped "discover backend" (mc_Models m client);
        found ← lift (of_option (List.find (fun model => String.eqb (md_Name model) (bk_Model item)) models)
                        (ErrNew "configured model is not available"));
        discover rest machineID (offers ++ [offerCapacity item found]) (<[EffectiveOfferID item := client]> clients)
  end.
Definition discoverBackends (cfg : Config) : M (W := W) (list OfferCapacity * gmap string BackendClient) :=
  discover (cf_Backends cfg) (cf_MachineID cfg) [] ∅.

(** [printCapacity]: the same offers, whatever their version; the last model of
    the name counts. *)
Fixpoint attest (items : list Backend) (machineID : string) (capacity : Capacity) : M (W := W) Capacity :=
  match items with
  | [] => mret capacity
  | item :: rest =>
      if negb (bk_Enabled item) then attest rest machineID capacity
      else
        client ← configuredBackendWithNatives item machineID;
        models ← mc_Models m client;
        found ← lift (of_option (List.find (fun model => String.eqb (md_Name model) (bk_Model item)) (rev models))
                        (ErrNew "configured model is not installed"));
        attest rest machineID (mkCapacity (cap_Available capacity + 1) (cap_Offers capacity ++ [offerCapacity item found]))
  end.
Definition printCapacity : M (W := W) Capacity :=
  cfg ← mc_LoadConfig m; attest (cf_Backends cfg) (cf_MachineID cfg) (mkCapacity 0 []).
End Discover.
