(* ===== verification/BackendCommandsSpec.v ===== *)
(** * Correctness of the backend commands

    A configured backend that needs a credential always has one in the vault,
    whatever command is run and wherever it fails; a provider only serves
    backends with a finalized offer; what it attests of a backend is what was
    published for it. *)

From S2P Require Import Prelude GoStrings GoTime Wire Messages Hex Flags ProviderAccount Db Actions ProviderOps ProviderOpsSpec PublishSpec Sample.
From S2P Require Import Backends ClientConfig BackendCommands.
From stdpp Require Import gmap strings.
Open Scope string_scope.
Open Scope list_scope.
Open Scope Z_scope.

(** ** The machine *)
Section Vault.
Context {W : Type} (secrets : W -> gmap (string * string) string) (settings : W -> option Config).
#[local] Instance BV_ret : MRet (M (W := W)) := fun A a w => (w, Ok a).
#[local] Instance BV_bind : MBind (M (W := W)) := fun A B f m w => match m w with (w, Ok a) => f a w | (w, Err e) => (w, Err e) end.

Definition unchanged (w w' : W) : Prop := secrets w' = secrets w /\ settings w' = settings w.
Definition quiet {A} (f : M (W := W) A) : Prop := forall w, unchanged w (fst (f w)).

(** An operation on the vault or the configuration happens or fails without an
    effect; the others touch neither. *)
Class MachineLaws (m : Machine (W := W)) := {
  config_loads w : unchanged w (fst (mc_LoadConfig m w)) /\ forall c, snd (mc_LoadConfig m w) = Ok c -> settings w = Some c;
  config_saves c w : secrets (fst (mc_SaveConfig m c w)) = secrets w
    /\ settings (fst (mc_SaveConfig m c w)) = match snd (mc_SaveConfig m c w) with Ok _ => Some c | Err _ => settings w end;
  credential_saves save service account v w : mc_SaveCredential m = Some save ->
    settings (fst (save service account v w)) = settings w
    /\ secrets (fst (save service account v w)) = match snd (save service account v w) with
                                                  | Ok _ => <[(service, account) := v]> (secrets w)
                                                  | Err _ => secrets w
                                                  end;
  credential_deletes delete service account w : mc_DeleteCredential m = Some delete ->
    settings (fst (delete service account w)) = settings w
    /\ secrets (fst (delete service account w)) = match snd (delete service account w) with
                                                  | Ok _ => base.delete (service, account) (secrets w)
                                                  | Err _ => secrets w
                                                  end;
  codex_quiet new model timeout : mc_NativeCodex m = Some new -> quiet (new model timeout);
  claude_quiet new model timeout : mc_NativeClaude m = Some new -> quiet (new model timeout);
  command_quiet image arguments kind model secret timeout : quiet (mc_Command m image arguments kind model secret timeout);
  models_quiet client : quiet (mc_Models m client);
  print_quiet text : quiet (mc_Print m text);
}.
Context (m : Machine (W := W)) `{!MachineLaws m} (url_parse : string -> option Url).

Lemma unchanged_trans w1 w2 w3 : unchanged w1 w2 -> unchanged w2 w3 -> unchanged w1 w3.
Proof. unfold unchanged. intros [-> ->] [-> ->]. done. Qed.
Lemma quiet_lift {A} (r : result A) : quiet (lift r).
Proof. by intros w. Qed.
Lemma quiet_bind {A B} (f : M (W := W) A) (g : A -> M (W := W) B) : quiet f -> (forall a, quiet (g a)) -> quiet (f ≫= g).
Proof.
  intros Hf Hg w. unfold mbind, BV_bind. specialize (Hf w). destruct (f w) as [w1 [a|e]]; cbn in Hf; [|done].
  eapply unchanged_trans; [exact Hf|apply Hg].
Qed.

Lemma check_native_quiet native title model secret :
  (forall new, native = Some new -> quiet (new model two_minutes)) -> quiet (check_native m native title model secret).
Proof.
  intros Hn. apply quiet_bind; [apply quiet_lift|intros _]. destruct native as [new|]; [|apply quiet_lift].
  apply quiet_bind; [by apply Hn|intros client]. apply quiet_bind; [apply models_quiet|intros _]. by intros w.
Qed.
Lemma check_image_quiet o : quiet (check_image m o).
Proof. apply quiet_bind; [apply command_quiet|intros _]. by intros w. Qed.
Lemma check_kind_quiet o : quiet (check_kind m url_parse o).
Proof.
  unfold check_kind. destruct (String.eqb _ "ollama"); [apply quiet_bind; [apply quiet_lift|by intros _ w]|].
  destruct (String.eqb _ "openai"); [apply quiet_bind; [apply quiet_lift|by intros _ w]|].
  destruct (String.eqb _ "codex").
  { destruct (String.eqb (ao_Image o) ""); [apply check_native_quiet; intros; by apply codex_quiet|].
    apply quiet_bind; [apply quiet_lift|intros _; apply check_image_quiet]. }
  destruct (String.eqb _ "claude").
  { destruct (String.eqb (ao_Image o) ""); [apply check_native_quiet; intros; by apply claude_quiet|].
    apply quiet_bind; [apply quiet_lift|intros _; apply check_image_quiet]. }
  apply quiet_bind; [apply quiet_lift|intros _; apply check_image_quiet].
Qed.

(** ** The invariant *)
Definition has_credential (s : gmap (string * string) string) (c : Config) (b : Backend) : Prop :=
  backendUsesCredential (bk_Kind b) (bk_Image b) = true -> is_Some (s !! (backendCredentialService, credential_account c (bk_Name b))).
Definition vault_ok (s : gmap (string * string) string) (c : Config) : Prop :=
  NoDup (map bk_Name (cf_Backends c)) /\ Forall (has_credential s c) (cf_Backends c).
Definition vault_complete (w : W) : Prop := forall c, settings w = Some c -> vault_ok (secrets w) c.

(** What holds when a program returns, and that the vault is complete anyway. *)
Definition runs {A} (P : W -> Prop) (f : M (W := W) A) (Q : A -> W -> Prop) : Prop :=
  forall w, P w -> match f w with (w', Ok a) => Q a w' | (w', Err _) => vault_complete w' end.
Lemma runs_bind {A B} P (f : M (W := W) A) (g : A -> M (W := W) B) Q R : runs P f Q -> (forall a, runs (Q a) (g a) R) -> runs P (f ≫= g) R.
Proof.
  intros Hf Hg w Hw. unfold mbind, BV_bind. specialize (Hf w Hw). destruct (f w) as [w' [a|e]]; [|done]. by apply Hg.
Qed.
Lemma unchanged_complete w w' : unchanged w w' -> vault_complete w -> vault_complete w'.
Proof. unfold unchanged, vault_complete. by intros [-> ->]. Qed.
(** The database is as it was, with what is known of it. *)
Definition at_config (c : Config) (w : W) : Prop := settings w = Some c /\ vault_ok (secrets w) c.
Lemma at_complete c w : at_config c w -> vault_complete w.
Proof. intros [Hs Hv] c' Hc'. congruence. Qed.

Lemma runs_quiet {A} c (f : M (W := W) A) : quiet f -> runs (at_config c) f (fun _ => at_config c).
Proof.
  intros Hq w Hw. specialize (Hq w). destruct (f w) as [w' [a|e]]; cbn in Hq.
  - destruct Hq as [E1 E2]. unfold at_config. by rewrite E1, E2.
  - eapply unchanged_complete; [exact Hq|by eapply at_complete].
Qed.
Lemma runs_lift {A} c (r : result A) : runs (at_config c) (lift r) (fun a w => r = Ok a /\ at_config c w).
Proof. intros w Hw. unfold lift. destruct r; [done|by eapply at_complete]. Qed.
Lemma runs_load : runs vault_complete (mc_LoadConfig m) at_config.
Proof.
  intros w Hw. destruct (config_loads w) as [U L]. destruct (mc_LoadConfig m w) as [w' [c|e]]; cbn in *.
  - destruct U as [E1 E2]. split; rewrite ?E1, ?E2; [by apply L|by apply Hw, L].
  - by eapply unchanged_complete.
Qed.
(** Saving a configuration whose backends have their credentials. *)
Lemma runs_save c c' : runs (fun w => at_config c w /\ vault_ok (secrets w) c') (mc_SaveConfig m c') (fun _ => at_config c').
Proof.
  intros w [Hw Hv]. destruct (config_saves c' w) as [E1 E2]. destruct (mc_SaveConfig m c' w) as [w' [u|e]]; cbn in *.
  - split; [done|]. by rewrite E1.
  - eapply unchanged_complete; [by split|by eapply at_complete].
Qed.
Lemma runs_done {A} P (f : M (W := W) A) Q : runs P f Q -> (forall a w, Q a w -> vault_complete w) ->
  forall w, P w -> vault_complete (fst (f w)).
Proof. intros H HQ w Hw. specialize (H w Hw). destruct (f w) as [w' [a|e]]; [by eapply HQ|done]. Qed.

(** ** The commands *)
Lemma vault_ok_map s c f : vault_ok s c -> (forall b, bk_Name (f b) = bk_Name b /\ bk_Kind (f b) = bk_Kind b /\ bk_Image (f b) = bk_Image b) ->
  vault_ok s (set_backends (map f (cf_Backends c)) c).
Proof.
  intros [Hn Hf] E. split; cbn [set_backends cf_Backends].
  - rewrite map_map. assert (map (fun b => bk_Name (f b)) (cf_Backends c) = map bk_Name (cf_Backends c)) as -> by (apply map_ext; intros; apply E). done.
  - apply Forall_map. eapply Forall_impl; [exact Hf|]. intros b Hb. unfold has_credential. destruct (E b) as (-> & -> & ->). exact Hb.
Qed.
Lemma runs_change c name f : (forall b, bk_Name (f b) = bk_Name b /\ bk_Kind (f b) = bk_Kind b /\ bk_Image (f b) = bk_Image b) ->
  runs (at_config c) (change_named name f c) (fun c' w => at_config c w /\ vault_ok (secrets w) c').
Proof.
  intros E w Hw. unfold change_named. destruct (existsb _ _); [|by eapply at_complete]. split; [done|]. apply vault_ok_map; [apply Hw|].
  intros b. destruct (named name b); [apply E|done].
Qed.

Lemma remove_first_incl p l b : b ∈ remove_first p l -> b ∈ l.
Proof.
  induction l as [|x l IH]; cbn; [done|]. destruct (p x); [by right|]. intros [->|Hb]%elem_of_cons; [by left|right; by apply IH].
Qed.
Lemma remove_first_names p l : NoDup (map bk_Name l) -> NoDup (map bk_Name (remove_first p l)).
Proof.
  induction l as [|x l IH]; cbn; [done|]. rewrite NoDup_cons. intros [Hx Hl]. destruct (p x); [done|]. cbn. apply NoDup_cons. split; [|by apply IH].
  intros (b & Eb & Hb)%list_elem_of_fmap. apply Hx, list_elem_of_fmap. exists b. split; [done|]. by apply (remove_first_incl p).
Qed.
Lemma find_removed name l b : NoDup (map bk_Name l) -> List.find (named name) l = Some b ->
  bk_Name b = name /\ forall x, x ∈ remove_first (named name) l -> bk_Name x <> name.
Proof.
  induction l as [|y l IH]; cbn; [done|]. rewrite NoDup_cons. intros [Hy Hl]. destruct (named name y) eqn:N.
  - intros [= <-]. apply String.eqb_eq in N. split; [done|]. intros x Hx Ex.
    apply Hy, list_elem_of_fmap. exists x. split; [congruence|done].
  - intros F. destruct (IH Hl F) as [E Hx]. split; [done|]. intros x [->|H]%elem_of_cons; [|by apply Hx].
    intros <-. unfold named in N. by rewrite String.eqb_refl in N.
Qed.

Lemma vault_insert s c key v : vault_ok s c -> vault_ok (<[key := v]> s) c.
Proof.
  intros [Hn Hf]. split; [done|]. eapply Forall_impl; [exact Hf|]. intros b Hb U. destruct (Hb U) as [x Hx].
  destruct (decide ((backendCredentialService, credential_account c (bk_Name b)) = key)) as [<-|Hne]; [rewrite lookup_insert_eq|rewrite lookup_insert_ne by done]; eauto.
Qed.
(** A credential may go once no backend that needs it has its name. *)
Lemma vault_delete s c name : vault_ok s c ->
  (forall b, b ∈ cf_Backends c -> bk_Name b = name -> backendUsesCredential (bk_Kind b) (bk_Image b) = false) ->
  vault_ok (base.delete (backendCredentialService, credential_account c name) s) c.
Proof.
  intros [Hn Hf] Hno. split; [done|]. apply Forall_forall. intros b Hb U. rewrite Forall_forall in Hf.
  destruct (decide (bk_Name b = name)) as [E|Hne]; [by rewrite (Hno b Hb E) in U|].
  rewrite lookup_delete_ne; [by apply Hf|]. unfold credential_account. intros [= E]. apply Hne. symmetry.
  apply (inj (String.append (cf_MachineID c +:+ "/"))). by rewrite !app_string_assoc.
Qed.
Lemma runs_delete c name delete : mc_DeleteCredential m = Some delete ->
  runs (fun w => at_config c w /\ (forall b, b ∈ cf_Backends c -> bk_Name b = name -> backendUsesCredential (bk_Kind b) (bk_Image b) = false))
    (delete backendCredentialService (credential_account c name)) (fun _ => at_config c).
Proof.
  intros Hd w [[Hs Hv] Hno]. destruct (credential_deletes delete backendCredentialService (credential_account c name) w Hd) as [E1 E2].
  destruct (delete _ _ w) as [w' [u|e]]; cbn in *.
  - split; [congruence|]. rewrite E2. by apply vault_delete.
  - eapply unchanged_complete; [by split|]. by apply (at_complete c).
Qed.
Lemma runs_wrapped {A} P (f : M (W := W) A) Q prefix : runs P f Q -> runs P (wrapped prefix f) Q.
Proof. intros H w Hw. specialize (H w Hw). unfold wrapped. by destruct (f w) as [w' [a|e]]. Qed.
Lemma runs_weaken {A} P P' (f : M (W := W) A) Q : runs P f Q -> (forall w, P' w -> P w) -> runs P' f Q.
Proof. intros H Hp w Hw. apply H. by apply Hp. Qed.

Lemma replace_back p item l b : b ∈ change_first p (fun _ => item) l -> b = item \/ b ∈ l.
Proof.
  induction l as [|x l IH]; cbn; [by intros ?%elem_of_nil|]. destruct (p x); intros [->|Hb]%elem_of_cons; [by left|right; by right|right; by left|].
  destruct (IH Hb); [by left|right; by right].
Qed.
Lemma replace_names name item l : bk_Name item = name -> map bk_Name (change_first (named name) (fun _ => item) l) = map bk_Name l.
Proof.
  intros Hi. induction l as [|x l IH]; [done|]. cbn. destruct (named name x) eqn:N; cbn; [|by rewrite IH].
  apply String.eqb_eq in N. congruence.
Qed.
Lemma replace_in p item l b : List.find p l = Some b -> item ∈ change_first p (fun _ => item) l.
Proof. induction l as [|x l IH]; cbn; [done|]. destruct (p x); [by left|]. intros F. right. by apply IH. Qed.
Lemma find_none_names name l : List.find (named name) l = None -> ~ name ∈ map bk_Name l.
Proof.
  intros F (b & -> & Hb)%list_elem_of_fmap. apply List.find_none with (x := b) in F; [|by apply list_elem_of_In].
  unfold named in F. by rewrite String.eqb_refl in F.
Qed.

(** The configuration after an [add], and the backend it adds. *)
Definition added (o : AddOptions) (c : Config) (item : Backend) (c' : Config) : Prop :=
  bk_Name item = ao_Name o /\ NoDup (map bk_Name (cf_Backends c')) /\ cf_MachineID c' = cf_MachineID c
  /\ item ∈ cf_Backends c' /\ forall b, b ∈ cf_Backends c' -> b = item \/ b ∈ cf_Backends c.
Definition add_item (o : AddOptions) (existing : option Backend) : Backend :=
  match existing with Some previous => replacing o previous | None => new_backend o end.
Definition add_backends (o : AddOptions) (existing : option Backend) (l : list Backend) : list Backend :=
  match existing with
  | Some _ => change_first (named (ao_Name o)) (fun _ => add_item o existing) l
  | None => l ++ [add_item o existing]
  end.
Lemma add_item_name o existing : bk_Name (add_item o existing) = ao_Name o.
Proof. destruct existing as [previous|]; [|done]. unfold add_item, replacing. by destruct (sameOfferShape _ _). Qed.
Lemma added_config o c : NoDup (map bk_Name (cf_Backends c)) ->
  let existing := List.find (named (ao_Name o)) (cf_Backends c) in
  added o c (add_item o existing) (set_backends (add_backends o existing (cf_Backends c)) c).
Proof.
  intros Hn existing. split; [apply add_item_name|]. cbn [set_backends cf_Backends cf_MachineID]. unfold add_backends.
  destruct existing as [previous|] eqn:E.
  - split_and!; [|done|by eapply replace_in|intros b; apply replace_back]. by rewrite replace_names by apply add_item_name.
  - split_and!; [|done|apply elem_of_app; right; by apply list_elem_of_singleton|].
    + rewrite map_app. cbn. apply NoDup_app. split_and!; [done| |apply NoDup_singleton].
      intros x Hx ->%list_elem_of_singleton. exact (find_none_names _ _ E Hx).
    + intros b [Hb|Hb%list_elem_of_singleton]%elem_of_app; [by right|by left].
Qed.

Lemma runs_store c c' o item secret : added o c item c' ->
  runs (at_config c) (store_credential m c item secret) (fun _ w => at_config c w /\ vault_ok (secrets w) c').
Proof.
  intros (En & Hn & Em & Hi & Hb) w Hw. unfold store_credential. pose proof Hw as [Hs Hv].
  assert (forall s, vault_ok s c -> (backendUsesCredential (bk_Kind item) (bk_Image item) = true ->
            is_Some (s !! (backendCredentialService, credential_account c (bk_Name item)))) -> vault_ok s c') as V.
  { intros s [_ Hf] Hc. split; [done|]. rewrite Forall_forall in Hf |- *. intros b Hin U. unfold credential_account. rewrite Em.
    destruct (Hb b Hin) as [->|Hin']; [by apply Hc|by apply (Hf b Hin')]. }
  destruct (backendUsesCredential _ _) eqn:U; [|split; [done|by apply V]].
  destruct (mc_SaveCredential m) as [save|] eqn:S; [|by eapply at_complete]. unfold wrapped.
  destruct (credential_saves save backendCredentialService (credential_account c (bk_Name item)) secret w S) as [E1 E2].
  destruct (save _ _ _ w) as [w' [u|e]]; cbn in *.
  - assert (vault_ok (secrets w') c) as Hv' by (rewrite E2; by apply vault_insert). split; [split; [congruence|done]|].
    apply V; [done|]. intros _. rewrite E2, lookup_insert_eq. by eexists.
  - eapply unchanged_complete; [by split|by eapply at_complete].
Qed.

Lemma runs_drop c c' o previous item : added o c item c' ->
  runs (at_config c') (drop_obsolete m c previous item) (fun _ => at_config c').
Proof.
  intros (En & Hn & Em & Hi & Hb). unfold drop_obsolete.
  assert (runs (at_config c') (mret tt : M (W := W) unit) (fun _ => at_config c')) as Hret by (by intros w Hw).
  destruct previous as [previous|]; [|done]. destruct (mc_DeleteCredential m) as [delete|] eqn:D; [|done].
  destruct (_ && _) eqn:B; [|done]. bools. apply runs_wrapped. unfold credential_account. rewrite <- Em.
  eapply runs_weaken; [by apply runs_delete|]. intros w Hw. split; [done|]. intros b Hin Eb.
  assert (b = item) as -> by (apply (unique_key bk_Name (cf_Backends c')); [done..|congruence]). done.
Qed.

Lemma runs_ret {A} P (a : A) : runs P (mret a : M (W := W) A) (fun _ => P).
Proof. by intros w Hw. Qed.
Lemma runs_guard {A} c (r : result unit) (f : M (W := W) A) Q : runs (at_config c) f Q -> runs (at_config c) (_ ← lift r; f) Q.
Proof. intros H. eapply runs_bind; [apply runs_lift|]. intros u. eapply runs_weaken; [exact H|]. by intros w [_ Hw]. Qed.
Lemma runs_strengthen {A} P (f : M (W := W) A) Q Q' : runs P f Q -> (forall a w, Q a w -> Q' a w) -> runs P f Q'.
Proof. intros H HQ w Hw. specialize (H w Hw). destruct (f w) as [w' [a|e]]; [by apply HQ|done]. Qed.

(** What every command leaves. *)
Definition keeps (f : M (W := W) unit) : Prop := runs vault_complete f (fun _ => vault_complete).
Lemma keeps_config (f : Config -> M (W := W) unit) : (forall c, runs (at_config c) (f c) (fun _ => vault_complete)) ->
  keeps (cfg ← mc_LoadConfig m; f cfg).
Proof. intros H. eapply runs_bind; [apply runs_load|exact H]. Qed.
Lemma keeps_save c c' : runs (fun w => at_config c w /\ vault_ok (secrets w) c') (mc_SaveConfig m c') (fun _ => vault_complete).
Proof. eapply runs_strengthen; [apply runs_save|]. intros u w. apply at_complete. Qed.

Lemma backend_add_keeps o : keeps (backend_add m url_parse o).
Proof.
  apply keeps_config. intros c. do 3 apply runs_guard.
  eapply runs_bind; [apply runs_quiet, check_kind_quiet|]. intros u.
  intros w Hw. revert w Hw. set (existing := List.find (named (ao_Name o)) (cf_Backends c)).
  change (runs (at_config c)
    (_ ← store_credential m c (add_item o existing) (ao_Secret o);
     _ ← mc_SaveConfig m (set_backends (add_backends o existing (cf_Backends c)) c);
     drop_obsolete m c existing (add_item o existing)) (fun _ => vault_complete)).
  intros w Hw. pose proof (added_config o c ltac:(apply Hw)) as Ha. fold existing in Ha. revert w Hw.
  eapply runs_bind; [by eapply runs_store|]. intros u'. eapply runs_bind; [apply runs_save|]. intros u''.
  eapply runs_strengthen; [by eapply runs_drop|]. intros u3 w. apply at_complete.
Qed.
Lemma backend_switch_keeps enabled name : keeps (backend_switch m enabled name).
Proof. apply keeps_config. intros c. eapply runs_bind; [by apply runs_change|]. intros c'. apply keeps_save. Qed.
Lemma backend_version_keeps name version : keeps (backend_version m name version).
Proof.
  apply keeps_config. intros c. apply runs_guard. eapply runs_bind; [by apply runs_change|]. intros c'. apply keeps_save.
Qed.
Lemma backend_list_keeps : keeps (backend_list m).
Proof.
  apply keeps_config. intros c w Hw. unfold print_backends. cbn. apply at_complete in Hw. revert w Hw.
  induction (cf_Backends c) as [|b l IH]; intros w Hw; [done|]. cbn. apply IH. eapply unchanged_complete; [apply print_quiet|done].
Qed.
Lemma backend_remove_keeps name : keeps (backend_remove m name).
Proof.
  apply keeps_config. intros c. apply runs_guard. eapply runs_bind; [apply runs_lift|]. intros removed.
  intros w [F Hw]. revert w Hw. apply (runs_guard c).
  assert (List.find (named name) (cf_Backends c) = Some removed) as Hf by (revert F; unfold of_option; destruct (List.find _ _); congruence).
  intros w Hw. destruct (find_removed name (cf_Backends c) removed ltac:(apply Hw) Hf) as [En Hno].
  set (c' := set_backends (remove_first (named name) (cf_Backends c)) c).
  assert (vault_ok (secrets w) c') as Hv.
  { destruct Hw as [_ [Hn Hall]]. split; [by apply remove_first_names|]. rewrite Forall_forall in Hall |- *. intros b Hb.
    apply Hall. eapply remove_first_incl. exact Hb. }
  revert w Hw Hv. cut (runs (fun w => at_config c w /\ vault_ok (secrets w) c')
    (_ ← mc_SaveConfig m c';
     match mc_DeleteCredential m with
     | Some delete => if backendUsesCredential (bk_Kind removed) (bk_Image removed)
                      then wrapped "remove backend credential" (delete backendCredentialService (credential_account c (bk_Name removed)))
                      else mret tt
     | None => mret tt
     end) (fun _ => vault_complete)); [intros H w Hw Hv; by apply H|].
  eapply runs_bind; [apply runs_save|]. intros u.
  assert (runs (at_config c') (mret tt : M (W := W) unit) (fun _ => vault_complete)) as Hret by (intros w Hw; by apply at_complete in Hw).
  destruct (mc_DeleteCredential m) as [delete|] eqn:D; [|done]. destruct (backendUsesCredential _ _); [|done].
  apply runs_wrapped. eapply runs_strengthen; [|intros u' w; apply at_complete]. eapply runs_weaken; [by apply (runs_delete c')|].
  intros w Hw. split; [done|]. intros b Hb E. exfalso. apply (Hno b Hb). congruence.
Qed.

(** C21. No backend command loses a credential: when every configured backend
    that authenticates with a stored secret (an API key, or the login of a
    command agent) has one in the vault and names are unique, the same holds
    after any command with any flags, also when it fails half-way (the vault,
    the configuration file or a probe of the backend). *)
Theorem credentials_never_missing command set w :
  vault_complete w -> vault_complete (fst (runBackendCommand m url_parse command set w)).
Proof.
  intros Hw. apply (runs_done vault_complete _ (fun _ => vault_complete)); [|done|done]. unfold runBackendCommand.
  destruct (String.eqb command "add"); [apply backend_add_keeps|].
  destruct (_ || _); [apply backend_switch_keeps|]. destruct (String.eqb command "remove"); [apply backend_remove_keeps|].
  destruct (String.eqb command "version"); [apply backend_version_keeps|]. destruct (String.eqb command "list"); [apply backend_list_keeps|].
  apply keeps_config. intros c w' Hw'. by apply at_complete in Hw'.
Qed.
End Vault.

(** ** What a provider attests *)
Section Attested.
Context {W : Type} (m : Machine (W := W)) (url_parse : string -> option Url) `{Ethereum}.

(** The client that was configured for a backend, and listed its model. *)
Definition client_for (machineID : string) (item : Backend) (client : BackendClient) (model : Model) : Prop :=
  (exists w w', configuredBackendWithNatives m url_parse item machineID w = (w', Ok client))
  /\ (exists w w' models, mc_Models m client w = (w', Ok models) /\ model ∈ models) /\ md_Name model = bk_Model item.
(** An attested offer: of a finalized version, and of a model its client listed. *)
Definition attests (machineID : string) (item : Backend) (o : OfferCapacity) : Prop :=
  bk_PriceVersion item <> 0 /\ exists client model, client_for machineID item client model /\ o = offerCapacity item model.
(** The last of the backends that have this offer. *)
Definition last_offering (id : string) (items : list Backend) : option Backend :=
  List.find (fun item => String.eqb (EffectiveOfferID item) id) (rev items).
Definition registered (machineID : string) (items : list Backend) (clients clients' : gmap string BackendClient) : Prop :=
  forall id, match last_offering id items with
             | Some item => exists client model, clients' !! id = Some client /\ client_for machineID item client model
             | None => clients' !! id = clients !! id
             end.
Lemma last_offering_cons id item items :
  last_offering id (item :: items) = match last_offering id items with
                                     | Some b => Some b
                                     | None => if String.eqb (EffectiveOfferID item) id then Some item else None
                                     end.
Proof.
  unfold last_offering. cbn [rev]. induction (rev items) as [|x l IH]; [done|]. cbn [app List.find].
  by destruct (String.eqb (EffectiveOfferID x) id).
Qed.
Lemma last_offering_distinct items : NoDup (map EffectiveOfferID items) -> forall item, item ∈ items ->
  last_offering (EffectiveOfferID item) items = Some item.
Proof.
  intros Hn item Hi. unfold last_offering. destruct (List.find _ (rev items)) as [b|] eqn:F.
  - apply List.find_some in F as [Hb%in_rev Hid%String.eqb_eq]. f_equal. apply list_elem_of_In in Hb.
    by apply (unique_key EffectiveOfferID items).
  - apply (List.find_none _ _) with (x := item) in F; [by rewrite String.eqb_refl in F|]. apply in_rev. rewrite rev_involutive. by apply list_elem_of_In.
Qed.
Lemma last_offering_in items item : item ∈ items -> is_Some (last_offering (EffectiveOfferID item) items).
Proof.
  intros Hi. unfold last_offering. destruct (List.find _ (rev items)) as [b|] eqn:F; [by eexists|].
  apply (List.find_none _ _) with (x := item) in F; [by rewrite String.eqb_refl in F|]. apply in_rev. rewrite rev_involutive. by apply list_elem_of_In.
Qed.

Lemma offerCapacity_shape item model : (oc_Capabilities (offerCapacity item model), oc_MeteringMode (offerCapacity item model)) = offerShape item.
Proof.
  unfold offerCapacity, offerShape, backendUsesWorkspace. destruct (_ || _); cbn; [done|]. by destruct (String.eqb _ "ollama").
Qed.
Lemma offerCapacity_hashes item model :
  oc_OfferHash (offerCapacity item model) = Keccak256Hex (EffectiveOfferID item)
  /\ oc_ModelHash (offerCapacity item model) = Keccak256Hex (bk_Model item)
  /\ oc_CapabilityHash (offerCapacity item model) = Keccak256Hex (GoStrings.Join (fst (offerShape item)) ",")
  /\ oc_OfferID (offerCapacity item model) = EffectiveOfferID item /\ oc_PriceVersion (offerCapacity item model) = bk_PriceVersion item.
Proof.
  unfold offerCapacity, offerShape, backendUsesWorkspace. destruct (_ || _); cbn; [done|]. by destruct (String.eqb _ "ollama").
Qed.

Lemma discover_spec items machineID : forall offers clients w w' offers' clients',
  discover m url_parse items machineID offers clients w = (w', Ok (offers', clients')) ->
  exists more, offers' = offers ++ more /\ Forall2 (attests machineID) (List.filter bk_Enabled items) more
    /\ registered machineID (List.filter bk_Enabled items) clients clients'.
Proof.
  induction items as [|item rest IH]; intros offers clients w w' offers' clients' E; cbn in E.
  { injection E as _ <- <-. exists []. by rewrite app_nil_r. }
  cbn [List.filter]. destruct (bk_Enabled item) eqn:En; cbn [negb] in E; [|by eapply IH].
  unfold mbind, BD_bind, lift in E. destruct (bk_PriceVersion item =? 0) eqn:Z0; [done|]. cbn [fail_if] in E.
  destruct (configuredBackendWithNatives _ _ _ _ w) as [w1 [client|]] eqn:Ec; [|done].
  unfold wrapped in E. destruct (mc_Models m client w1) as [w2 [models|]] eqn:Em; [|done].
  destruct (List.find _ models) as [model|] eqn:F; cbn [of_option] in E; [|done].
  apply List.find_some in F as [Fm%list_elem_of_In F%String.eqb_eq].
  assert (client_for machineID item client model) as Hcl by (split_and!; [by exists w, w1|by exists w1, w2, models|done]).
  destruct (IH _ _ _ _ _ _ E) as (more & -> & Hf & Hm). exists (offerCapacity item model :: more). rewrite <- app_assoc. split; [done|]. split.
  - constructor; [|done]. split; [lia|]. by exists client, model.
  - intros id. specialize (Hm id). rewrite last_offering_cons. destruct (last_offering id (List.filter bk_Enabled rest)); [done|].
    destruct (String.eqb_spec (EffectiveOfferID item) id) as [<-|Hne]; [|by rewrite lookup_insert_ne in Hm].
    rewrite lookup_insert_eq in Hm. by exists client, model.
Qed.

End Attested.

(** ** A concrete machine *)
Module BackendRun.
Record Disk := mkDisk { dk_secrets : gmap (string * string) string; dk_config : option Config; dk_full : bool }.
Definition with_secrets s d := mkDisk s (dk_config d) (dk_full d).
(** The vault always answers; the configuration file may be on a full disk. *)
Definition machine : Machine (W := Disk) := mkMachine
  (fun d => (d, of_option (dk_config d) (ErrNew "no configuration")))
  (fun c d => if dk_full d then (d, Err (ErrNew "no space left on device")) else (mkDisk (dk_secrets d) (Some c) (dk_full d), Ok tt))
  (fun service account d => (d, of_option (dk_secrets d !! (service, account)) (ErrNew "no credential")))
  (Some (fun service account v d => (with_secrets (<[(service, account) := v]> (dk_secrets d)) d, Ok tt)))
  (Some (fun service account d => (with_secrets (base.delete (service, account) (dk_secrets d)) d, Ok tt)))
  None None
  (fun image arguments kind model secret _ d => (d, Ok (CommandClient image arguments kind model secret)))
  (fun client d => (d, Ok [mkModel "k2" "sha256:1" 0]))
  (fun _ d => (d, Ok tt)).
#[export] Instance machine_laws : MachineLaws dk_secrets dk_config machine.
Proof.
  split.
  - intros [s c f]. split; [done|]. intros c' E. destruct c; cbn in *; congruence.
  - intros c [s c' f]. cbn. by destruct f.
  - intros save service account v [s c f] [= <-]. done.
  - intros delete service account [s c f] [= <-]. done.
  - done.
  - done.
  - intros image arguments kind model secret timeout [s c f]. done.
  - intros client [s c f]. done.
  - intros text [s c f]. done.
Qed.

Definition kimi : Backend := mkBackend "agent" "" "kimi" "" "k2" 3 true "registry/kimi@sha256:11".
Definition settings : Config := mkConfig "https://broker" "acc_1" "mach_1" 10143 "0x1" "0x2" [kimi].
Definition disk full := mkDisk {[ (backendCredentialService, "mach_1/agent") := "key" ]} (Some settings) full.
Definition local_flags : flag_values :=
  {[ "name" := VString "agent"; "model" := VString "llama"; "kind" := VString "ollama"; "replace" := VBool true ]}.
Definition parse_url (s : string) : option Url := Some (mkUrl "http" "127.0.0.1:11434" "127.0.0.1").

(** The agent with a credential is replaced by a local model: the configuration
    is written, then the credential goes; on a full disk both stay. *)
Lemma credentials_never_missing_witness :
  vault_complete dk_secrets dk_config (disk false)
  /\ vault_complete dk_secrets dk_config (fst (runBackendCommand machine parse_url "add" local_flags (disk false)))
  /\ vault_complete dk_secrets dk_config (fst (runBackendCommand machine parse_url "add" local_flags (disk true)))
  /\ dk_secrets (fst (runBackendCommand machine parse_url "add" local_flags (disk false))) !! (backendCredentialService, "mach_1/agent") = None
  /\ dk_secrets (fst (runBackendCommand machine parse_url "add" local_flags (disk true))) !! (backendCredentialService, "mach_1/agent") = Some "key".
Proof.
  assert (forall full, vault_complete dk_secrets dk_config (disk full)) as V.
  { intros full c [= <-]. split; [apply NoDup_singleton|]. repeat constructor. intros _. exists "key". by vm_compute. }
  split; [apply V|]. split; [apply (credentials_never_missing dk_secrets dk_config machine parse_url "add" local_flags (disk false)), V|].
  split; [apply (credentials_never_missing dk_secrets dk_config machine parse_url "add" local_flags (disk true)), V|].
  by vm_compute.
Defined.

Definition rates : Rates := mkRates "0" "0" "1.5".
End BackendRun.
