(* ===== verification/Login.v ===== *)
(** * Signing a machine in (cli/cmd/myference/main.go)

    [myference login]: the device flow against the broker, the two credentials
    and the configuration; and what [serve] and [status] read back of them.
    [W] is the machine with its configuration file and credential vault,
    [crypto] stands for go-ethereum's keys, [url_parse] is [url.Parse] and
    [quote] is [strconv.Quote]. *)

From S2P Require Import Prelude GoStrings GoTime Receipt Wire Messages Hex Flags Http AuthHttp Backends ClientConfig AccountClient ProviderOps BackendCommands.
From Stdlib Require Import Ascii.
From stdpp Require Import gmap strings.
Open Scope string_scope.
Open Scope list_scope.
Open Scope Z_scope.

(** go-ethereum's keys: [crypto.PubkeyToAddress] of the public key,
    [crypto.FromECDSA] and [crypto.HexToECDSA]. *)
Class SignerKeys (PrivateKey : Type) := {
  PublicAddress : PrivateKey -> Address;
  FromECDSA : PrivateKey -> bytes;
  HexToECDSA : string -> option PrivateKey;
}.

Definition defaultServerURL : string := "https://api.myference.xyz".
Definition defaultWebURL : string := "https://myference.xyz".

(** ** Flags *)
Definition login_flags : flag_specs :=
  [ ("server", StringFlag); ("name", StringFlag); ("config", StringFlag); ("no-browser", BoolFlag) ].
Record LoginOptions := mkLoginOptions { lo_Server : string; lo_Name : string; lo_Config : string; lo_NoBrowser : bool }.
Definition login_options (defaultConfigPath : string) (set : flag_values) : LoginOptions :=
  mkLoginOptions (string_flag "server" defaultServerURL set) (string_flag "name" "" set) (string_flag "config" defaultConfigPath set)
    (bool_flag "no-browser" set).
Definition hostLoginArgs (serverURL path : string) (noBrowser : bool) : list string :=
  let args := ["--server"; serverURL; "--config"; path] in
  if noBrowser then args ++ ["--no-browser"] else args.

(** ** The relay of a server *)
Section Relay.
(** The parts of the parsed URL; [render] is [String] with the scheme and the
    path replaced and the query and fragment cleared. *)
Context (url_parse : string -> option Url) (url_path : string -> string) (render : string -> string -> string -> string).
Definition relayURL (serverURL : string) : result string :=
  match url_parse serverURL with
  | None => Err (ErrNew "invalid server URL")
  | Some parsed =>
      if String.eqb (ur_Host parsed) "" then Err (ErrNew "invalid server URL")
      else
        let path := TrimSuffix (url_path serverURL) "/" +:+ "/relay" in
        if String.eqb (ur_Scheme parsed) "https" then Ok (render serverURL "wss" path)
        else if String.eqb (ur_Scheme parsed) "http" then Ok (render serverURL "ws" path)
        else Err (ErrNew "server URL must use http or https")
  end.
End Relay.

Section Login.
Context {W : Type} `{Ethereum} {PrivateKey : Type} `{SignerKeys PrivateKey}.
#[local] Instance L_ret : MRet (M (W := W)) := fun A a w => (w, Ok a).
#[local] Instance L_bind : MBind (M (W := W)) := fun A B f m w => match m w with (w, Ok a) => f a w | (w, Err e) => (w, Err e) end.

(** What [login] uses of the machine; [lm_Send base] is the HTTP client for a
    server. *)
Record LoginMachine := mkLoginMachine {
  lm_Hostname : option string;
  lm_GenerateKey : M (W := W) PrivateKey;
  lm_Send : string -> Request -> M (W := W) Response;
  lm_Print : string -> M (W := W) unit;
  lm_OpenBrowser : string -> M (W := W) unit;
  lm_SaveCredential : string -> string -> string -> M (W := W) unit;
  lm_DeleteCredential : option (string -> string -> M (W := W) unit);
  lm_Wait : M (W := W) unit;
  lm_LoadConfig : string -> M (W := W) Config;
  lm_SaveConfig : string -> Config -> M (W := W) unit;
}.
Context (m : LoginMachine) (url_parse : string -> option Url) (quote : string -> string).
Context (fits : json -> bool) (status_text : Z -> string) (error_text : error -> string).

(** A call whose error is dropped. *)
Definition ignored (f : M (W := W) unit) : M (W := W) unit := fun w => (fst (f w), Ok tt).
Definition attempted {A} (f : M (W := W) A) : M (W := W) (option A) := fun w =>
  match f w with (w, Ok a) => (w, Ok (Some a)) | (w, Err _) => (w, Ok None) end.
Definition is_pending (e : error) : bool := bool_decide (e = ErrPending).
Definition newline : string := str [10].

Definition machine_name (o : LoginOptions) : result string :=
  if is_blank (lo_Name o) then
    match lm_Hostname m with
    | Some hostname => if is_blank hostname then Err (ErrNew "--name is required when the hostname is unavailable") else Ok hostname
    | None => Err (ErrNew "--name is required when the hostname is unavailable")
    end
  else Ok (lo_Name o).

Record Pending := mkPending { pn_Client : string; pn_Key : PrivateKey; pn_Authorization : ClientAuthorization }.
Definition signer_address (key : PrivateKey) : string := AddressHex (PublicAddress key).
Definition signer_secret (key : PrivateKey) : string := hex_bytes (FromECDSA key).

Definition open_browser (o : LoginOptions) (authorization : ClientAuthorization) : M (W := W) unit := fun w =>
  if lo_NoBrowser o then (w, Ok tt)
  else match lm_OpenBrowser m (ca_VerificationURI authorization) w with
  | (w, Ok _) => (w, Ok tt)
  | (w, Err _) => ignored (lm_Print m ("Browser did not open; use the URL above." +:+ newline)) w
  end.
(** Up to the approval: the key, the device authorization and the browser. *)
Definition start_login (o : LoginOptions) : M (W := W) Pending :=
  machineName ← lift (machine_name o);
  client ← lift (NewClient (url_parse (lo_Server o)) (lo_Server o));
  key ← wrapped "generate machine signer" (lm_GenerateKey m);
  authorization ← (CreateDeviceAuthorization (lm_Send m client) fits status_text error_text machineName (signer_address key) : M (W := W) ClientAuthorization);
  _ ← lm_Print m ("Approve machine " +:+ quote machineName +:+ " at " +:+ ca_VerificationURI authorization +:+ newline
                  +:+ "Code: " +:+ ca_UserCode authorization +:+ newline);
  _ ← open_browser o authorization;
  mret (mkPending client key authorization).

(** The loop of the exchange: nothing when it goes on after [fuel] waits. *)
Fixpoint await_approval (fuel : nat) (client deviceCode : string) (w : W) : option (W * result ClientToken) :=
  match ExchangeDeviceAuthorization (lm_Send m client) fits status_text error_text deviceCode w with
  | (w, Ok exchanged) => Some (w, Ok exchanged)
  | (w, Err e) =>
      if is_pending e then
        match fuel with
        | O => None
        | S fuel =>
            match lm_Wait m w with
            | (w, Err e) => Some (w, Err e)
            | (w, Ok _) => await_approval fuel client deviceCode w
            end
        end
      else Some (w, Err e)
  end.

Definition store_machine_token (machineID token : string) : M (W := W) unit := fun w =>
  match lm_SaveCredential m machineCredentialService machineID token w with
  | (w, Ok _) => (w, Ok tt)
  | (w, Err e) =>
      let w := match lm_DeleteCredential m with
               | Some delete => fst (ignored (delete signerCredentialService machineID) w)
               | None => w
               end in
      (w, Err (ErrWrap "store machine credential" e))
  end.

Definition settlement_contract (authorization : ClientAuthorization) : result Address :=
  if (ca_ChainID authorization =? 0) || negb (IsHexAddress (ca_ContractAddress authorization))
     || bool_decide (HexToAddress (ca_ContractAddress authorization) = replicate 20 0)
  then Err (ErrNew "server did not provide a valid settlement contract")
  else Ok (HexToAddress (ca_ContractAddress authorization)).
Definition new_config (o : LoginOptions) (p : Pending) (contract : Address) (machine : ClientMachine) (backends : list Backend) : Config :=
  mkConfig (lo_Server o) (cm_AccountID machine) (cm_ID machine) (ca_ChainID (pn_Authorization p)) (AddressHex contract)
    (signer_address (pn_Key p)) backends.

(** From the approval on: the credentials and the configuration. *)
Definition finish_login (o : LoginOptions) (p : Pending) (exchanged : ClientToken) : M (W := W) unit :=
  let machine := ct_Machine exchanged in
  _ ← lift (fail_if (negb (String.eqb (cm_SignerAddress machine) "") && negb (EqualFold (cm_SignerAddress machine) (signer_address (pn_Key p))))
              (ErrNew "server returned a different machine signer"));
  _ ← wrapped "store signer credential" (lm_SaveCredential m signerCredentialService (cm_ID machine) (signer_secret (pn_Key p)));
  _ ← store_machine_token (cm_ID machine) (ct_Token exchanged);
  contract ← lift (settlement_contract (pn_Authorization p));
  existing ← attempted (lm_LoadConfig m (lo_Config o));
  let backends := match existing with Some existing => cf_Backends existing | None => [] end in
  _ ← lm_SaveConfig m (lo_Config o) (new_config o p contract machine backends);
  lm_Print m ("Machine " +:+ cm_ID machine +:+ " connected to account " +:+ cm_AccountID machine +:+ "." +:+ newline).

Definition runLogin (defaultConfigPath : string) (fuel : nat) (args : list string) (w : W) : option (W * result unit) :=
  match ParseFlags login_flags args with
  | Err e => Some (w, Err e)
  | Ok set =>
      let o := login_options defaultConfigPath set in
      match start_login o w with
      | (w, Err e) => Some (w, Err e)
      | (w, Ok p) =>
          match await_approval fuel (pn_Client p) (ca_DeviceCode (pn_Authorization p)) w with
          | None => None
          | Some (w, Err e) => Some (w, Err e)
          | Some (w, Ok exchanged) => Some (finish_login o p exchanged w)
          end
      end
  end.
End Login.

(** ** What [serve] reads back *)
Section Settings.
Context {W : Type} `{Ethereum} {PrivateKey : Type} `{SignerKeys PrivateKey}.
#[local] Instance S_ret : MRet (M (W := W)) := fun A a w => (w, Ok a).
#[local] Instance S_bind : MBind (M (W := W)) := fun A B f m w => match m w with (w, Ok a) => f a w | (w, Err e) => (w, Err e) end.
Context (load_config : string -> M (W := W) Config) (load_credential : string -> string -> M (W := W) string).
Context (url_parse : string -> option Url) (url_path : string -> string) (render : string -> string -> string -> string).

(** The settings of a provider session, read by [runServe] before it starts. *)
Record ServeSettings := mkServeSettings {
  ss_Config : Config; ss_Token : string; ss_Client : string; ss_SignerKey : PrivateKey; ss_Contract : Address; ss_Relay : string;
}.
Definition settlement_domain (cfg : Config) (signerSecret : string) : result PrivateKey :=
  match HexToECDSA (TrimPrefix signerSecret "0x") with
  | Some key => if (cf_ChainID cfg =? 0) || negb (IsHexAddress (cf_ContractAddress cfg))
                then Err (ErrNew "invalid machine signer or settlement domain") else Ok key
  | None => Err (ErrNew "invalid machine signer or settlement domain")
  end.
Definition serve_settings (path : string) : M (W := W) ServeSettings :=
  cfg ← load_config path;
  token ← wrapped "load machine credential" (load_credential machineCredentialService (cf_MachineID cfg));
  client ← lift (NewClient (url_parse (cf_ServerURL cfg)) (cf_ServerURL cfg));
  signerSecret ← wrapped "load signer credential" (load_credential signerCredentialService (cf_MachineID cfg));
  signerKey ← lift (settlement_domain cfg signerSecret);
  relay ← lift (relayURL url_parse url_path render (cf_ServerURL cfg));
  mret (mkServeSettings cfg token client signerKey (HexToAddress (cf_ContractAddress cfg)) relay).

(** The signer that [status] attests with. *)
Definition status_signer (cfg : Config) : M (W := W) PrivateKey :=
  signerSecret ← wrapped "load machine signer" (load_credential signerCredentialService (cf_MachineID cfg));
  signerKey ← lift (of_option (HexToECDSA (TrimPrefix signerSecret "0x")) (ErrNew "invalid machine signer"));
  _ ← lift (fail_if (IsHexAddress (cf_SignerAddress cfg) && negb (EqualFold (cf_SignerAddress cfg) (signer_address signerKey)))
              (ErrNew "configured machine signer does not match the credential vault"));
  mret signerKey.
End Settings.
