(* ===== verification/LoginSpec.v ===== *)
(** * Correctness of signing in

    A login writes the configuration only when both credentials of the machine
    are stored; what it leaves is what [serve] and [status] need; and it ends
    when the device authorization has expired. *)

From S2P Require Import Prelude GoStrings GoTime Receipt Wire Messages Hex Flags Http AuthHttp Backends ClientConfig AccountClient ProviderOps.
From S2P Require Import BackendCommands BackendCommandsSpec Login Sample.
From Stdlib Require Import Ascii.
From stdpp Require Import gmap strings.
Open Scope string_scope.
Open Scope list_scope.
Open Scope Z_scope.

(** What go-ethereum documents of its conversions and keys. *)
Class KeyLaws (PrivateKey : Type) `{Ethereum} `{SignerKeys PrivateKey} := {
  address_parses s : IsHexAddress (AddressHex (HexToAddress s)) = true /\ HexToAddress (AddressHex (HexToAddress s)) = HexToAddress s;
  key_parses key : HexToECDSA (hex_bytes (FromECDSA key)) = Some key;
}.

Section LoginSpec.
Context {W : Type} (secrets : W -> gmap (string * string) string) (settings : W -> option Config).
Context `{Ethereum} {PrivateKey : Type} `{SignerKeys PrivateKey} `{!KeyLaws PrivateKey}.
Context (m : LoginMachine (W := W) (PrivateKey := PrivateKey)) (url_parse : string -> option Url) (quote : string -> string).
Context (fits : json -> bool) (status_text : Z -> string) (error_text : error -> string).
#[local] Instance LS_ret : MRet (M (W := W)) := fun A a w => (w, Ok a).
#[local] Instance LS_bind : MBind (M (W := W)) := fun A B f m w => match m w with (w, Ok a) => f a w | (w, Err e) => (w, Err e) end.
Abbreviation quiet := (quiet secrets settings).
Abbreviation unchanged := (unchanged secrets settings).

(** The vault and the configuration of [path]; the rest touches neither. *)
Class LoginLaws (path : string) := {
  login_key : quiet (lm_GenerateKey m);
  login_send base r : quiet (lm_Send m base r);
  login_print text : quiet (lm_Print m text);
  login_browser url : quiet (lm_OpenBrowser m url);
  login_wait : quiet (lm_Wait m);
  login_stores service account v w :
    settings (fst (lm_SaveCredential m service account v w)) = settings w
    /\ secrets (fst (lm_SaveCredential m service account v w)) = match snd (lm_SaveCredential m service account v w) with
                                                                 | Ok _ => <[(service, account) := v]> (secrets w)
                                                                 | Err _ => secrets w
                                                                 end;
  login_deletes delete service account w : lm_DeleteCredential m = Some delete -> settings (fst (delete service account w)) = settings w;
  login_loads w : unchanged w (fst (lm_LoadConfig m path w))
    /\ forall c, snd (lm_LoadConfig m path w) = Ok c -> settings w = Some c;
  login_saves c w : secrets (fst (lm_SaveConfig m path c w)) = secrets w
    /\ settings (fst (lm_SaveConfig m path c w)) = match snd (lm_SaveConfig m path c w) with Ok _ => Some c | Err _ => settings w end;
}.

(** ** The outcome *)
(** The backends the login keeps: those of the configuration, or none when
    it could not be read. *)
Definition carried (path : string) (before : option Config) (backends : list Backend) : Prop :=
  (exists c, before = Some c /\ backends = cf_Backends c)
  \/ backends = [] /\ exists w e, settings w = before /\ snd (lm_LoadConfig m path w) = Err e.
(** What the broker answered during a login that starts in [w]: the device
    authorization, asked for with the address of the new key, and the machine and token it was
    exchanged for. *)
Definition issued (o : LoginOptions) (fuel : nat) (w : W) (p : Pending) (exchanged : ClientToken) : Prop :=
  exists w1 w2, start_login m url_parse quote fits status_text error_text o w = (w1, Ok p)
  /\ await_approval m fits status_text error_text fuel (pn_Client p) (ca_DeviceCode (pn_Authorization p)) w1 = Some (w2, Ok exchanged)
  /\ (exists name before after, machine_name m o = Ok name
        /\ CreateDeviceAuthorization (lm_Send m (pn_Client p)) fits status_text error_text name (signer_address (pn_Key p)) before
           = (after, Ok (pn_Authorization p)))
  /\ exists before, ExchangeDeviceAuthorization (lm_Send m (pn_Client p)) fits status_text error_text
                      (ca_DeviceCode (pn_Authorization p)) before = (w2, Ok exchanged).
(** The machine is connected: its configuration is of the approved machine and
    domain, with the backends it had, and its credentials are in the vault. *)
Definition connection (o : LoginOptions) (backends : list Backend) (p : Pending) (exchanged : ClientToken) (contract : Address) (w : W) : Prop :=
  let machine := ct_Machine exchanged in
  settlement_contract (pn_Authorization p) = Ok contract
  /\ settings w = Some (new_config o p contract machine backends)
  /\ secrets w !! (signerCredentialService, cm_ID machine) = Some (signer_secret (pn_Key p))
  /\ secrets w !! (machineCredentialService, cm_ID machine) = Some (ct_Token exchanged)
  /\ (cm_SignerAddress machine = "" \/ EqualFold (cm_SignerAddress machine) (signer_address (pn_Key p)) = true)
  /\ NewClient (url_parse (lo_Server o)) (lo_Server o) = Ok (pn_Client p).
Lemma unchanged_refl w : unchanged w w.
Proof. done. Qed.
Lemma ignored_unchanged f w : quiet f -> unchanged w (fst (ignored f w)).
Proof. intros Hf. apply Hf. Qed.

Section Path.
Context (o : LoginOptions) `{!LoginLaws (lo_Config o)}.

Lemma start_login_unchanged w : unchanged w (fst (start_login m url_parse quote fits status_text error_text o w)).
Proof.
  revert w. change (quiet (start_login m url_parse quote fits status_text error_text o)). unfold start_login.
  apply quiet_bind; [by intros w|intros name]. apply quiet_bind; [by intros w|intros client].
  apply quiet_bind.
  { intros w. unfold wrapped. pose proof (login_key w) as U. by destruct (lm_GenerateKey m w) as [w' []]. }
  intros key. apply quiet_bind.
  { intros w. unfold CreateDeviceAuthorization, post, request.
    match goal with |- context [lm_Send m client ?r w] => pose proof (login_send client r w) as U end. by destruct (lm_Send _ _ _ _) as [w' []]. }
  intros authorization. apply quiet_bind; [apply login_print|intros _]. apply quiet_bind; [|by intros _ w].
  intros w. unfold open_browser. destruct (lo_NoBrowser o); [done|].
  pose proof (login_browser (ca_VerificationURI authorization) w) as U. destruct (lm_OpenBrowser _ _ w) as [w' []]; [done|].
  eapply unchanged_trans; [exact U|]. apply ignored_unchanged, login_print.
Qed.
Lemma start_login_client w w' p : start_login m url_parse quote fits status_text error_text o w = (w', Ok p) ->
  NewClient (url_parse (lo_Server o)) (lo_Server o) = Ok (pn_Client p)
  /\ exists name before after, machine_name m o = Ok name
     /\ CreateDeviceAuthorization (lm_Send m (pn_Client p)) fits status_text error_text name (signer_address (pn_Key p)) before
        = (after, Ok (pn_Authorization p)).
Proof.
  unfold start_login, mbind, L_bind, mret, L_ret, lift. destruct (machine_name m o) as [name|]; [|done].
  destruct (NewClient _ _) as [client|]; [|done]. destruct (wrapped _ _ w) as [w1 [key|]]; [|done].
  destruct (CreateDeviceAuthorization _ _ _ _ _ _ w1) as [w2 [authorization|]] eqn:A; [|done].
  destruct (lm_Print m _ w2) as [w3 [u|]]; [|done].
  destruct (open_browser m o authorization w3) as [w4 [u'|]]; [|done]. intros [= _ <-]. split; [done|]. by exists name, w1, w2.
Qed.

Lemma await_exchanged fuel client code t : forall w w',
  await_approval m fits status_text error_text fuel client code w = Some (w', Ok t) ->
  exists before, ExchangeDeviceAuthorization (lm_Send m client) fits status_text error_text code before = (w', Ok t).
Proof.
  induction fuel as [|fuel IH]; intros w w'; cbn [await_approval];
    destruct (ExchangeDeviceAuthorization _ _ _ _ _ w) as [w1 [x|e]] eqn:E; try (intros [= <- <-]; by exists w);
    (destruct (is_pending e); [|done]); [done|]. destruct (lm_Wait m w1) as [w2 [u|e2]]; [apply IH|done].
Qed.

Lemma await_unchanged fuel client code : forall w w' r,
  await_approval m fits status_text error_text fuel client code w = Some (w', r) -> unchanged w w'.
Proof.
  assert (forall w, unchanged w (fst (ExchangeDeviceAuthorization (lm_Send m client) fits status_text error_text code w))) as X.
  { intros w. unfold ExchangeDeviceAuthorization, post, request.
    match goal with |- context [lm_Send m client ?r w] => pose proof (login_send client r w) as U end. by destruct (lm_Send _ _ _ _) as [w' []]. }
  induction fuel as [|fuel IH]; intros w w' r; cbn [await_approval]; specialize (X w);
    destruct (ExchangeDeviceAuthorization _ _ _ _ _ w) as [w1 [t|e]]; cbn [fst] in X; try (by intros [= <- _]);
    (destruct (is_pending e); [|by intros [= <- _]]); [done|].
  pose proof (login_wait w1) as U. destruct (lm_Wait m w1) as [w2 [u|e2]]; cbn [fst] in U.
  - intros E. apply IH in E. eapply unchanged_trans; [exact X|]. by eapply unchanged_trans.
  - intros [= <- _]. by eapply unchanged_trans.
Qed.

Lemma finish_login_outcome p exchanged w w' r :
  NewClient (url_parse (lo_Server o)) (lo_Server o) = Ok (pn_Client p) ->
  finish_login m o p exchanged w = (w', r) ->
  (settings w' = settings w /\ r <> Ok tt)
  \/ exists backends contract, carried (lo_Config o) (settings w) backends /\ connection o backends p exchanged contract w'.
Proof.
  intros Hc. unfold finish_login, mbind, L_bind, lift. destruct (fail_if _ _) as [u|e] eqn:G; [|intros [= <- <-]; by left].
  pose proof (login_stores signerCredentialService (cm_ID (ct_Machine exchanged)) (signer_secret (pn_Key p)) w) as [S1 V1].
  unfold wrapped. destruct (lm_SaveCredential m signerCredentialService _ _ w) as [w1 [u1|e1]]; cbn in S1, V1; [|intros [= <- <-]; by left].
  unfold store_machine_token.
  pose proof (login_stores machineCredentialService (cm_ID (ct_Machine exchanged)) (ct_Token exchanged) w1) as [S2 V2].
  destruct (lm_SaveCredential m machineCredentialService _ _ w1) as [w2 [u2|e2]]; cbn in S2, V2.
  2: { intros [= <- <-]. left. split; [|done]. destruct (lm_DeleteCredential m) as [delete|] eqn:D; [|congruence].
       unfold ignored. cbn. rewrite (login_deletes _ _ _ w2 D). congruence. }
  destruct (settlement_contract _) as [contract|] eqn:Hs; [|intros [= <- <-]; left; split; [congruence|done]].
  unfold attempted. pose proof (login_loads w2) as [[U3 U3'] L]. destruct (lm_LoadConfig m _ w2) as [w3 loaded] eqn:EL. cbn in U3, U3', L.
  set (backends := match loaded with Ok c => cf_Backends c | Err _ => [] end).
  assert (carried (lo_Config o) (settings w) backends) as Hcarried.
  { rewrite <- S1, <- S2. subst backends. destruct loaded as [c|e]; [left; exists c; by split; [apply L|]|right; split; [done|]].
    exists w2, e. by rewrite EL. }
  replace (match (match loaded with Ok a => Some a | Err _ => None end) with Some existing => cf_Backends existing | None => [] end)
    with backends by (by destruct loaded).
  destruct loaded as [c|e3]; cbn; fold backends;
    (match goal with |- context [lm_SaveConfig m (lo_Config o) ?c w3] => pose proof (login_saves c w3) as [V4 S4] end;
     destruct (lm_SaveConfig m _ _ w3) as [w4 [u4|e4]]; cbn in S4, V4; [|intros [= <- <-]; left; split; [congruence|done]];
     intros E; right; match type of E with lm_Print m ?t w4 = _ => pose proof (login_print t w4) as [V5 S5] end; rewrite E in V5, S5; cbn in V5, S5;
     exists backends, contract; split; [exact Hcarried|]; split; [done|]; split; [congruence|]; rewrite V5, V4, U3, V2, V1;
     split; [by rewrite lookup_insert_ne, lookup_insert_eq|]; split; [by rewrite lookup_insert_eq|]; split; [|done];
     destruct (String.eqb (cm_SignerAddress _) "") eqn:E1; [left; by apply String.eqb_eq|right]; cbn in G;
     by destruct (EqualFold _ _)).
Qed.

Lemma runLogin_outcome default fuel args set w w' r :
  ParseFlags login_flags args = Ok set -> login_options default set = o ->
  runLogin m url_parse quote fits status_text error_text default fuel args w = Some (w', r) ->
  (settings w' = settings w /\ r <> Ok tt)
  \/ exists p exchanged backends contract, issued o fuel w p exchanged /\ carried (lo_Config o) (settings w) backends
     /\ connection o backends p exchanged contract w'.
Proof.
  intros Hp Ho. unfold runLogin. rewrite Hp, Ho. pose proof (start_login_unchanged w) as [_ U].
  pose proof (start_login_client w) as C. destruct (start_login _ _ _ _ _ _ o w) as [w1 [p|e]] eqn:S; cbn in U; [|intros [= <- <-]; by left].
  destruct (C _ _ eq_refl) as [Hc Ha]. destruct (await_approval _ _ _ _ _ _ _ w1) as [[w2 [exchanged|e]]|] eqn:A; [| |done].
  - pose proof (await_exchanged _ _ _ _ _ _ A) as Hx. pose proof (await_unchanged _ _ _ _ _ _ A) as [_ U2]. intros [= E].
    destruct (finish_login_outcome p exchanged w2 w' r Hc E) as [[H1 H2]|(backends & contract & H1 & H2)]; [left; split; [congruence|done]|].
    right. exists p, exchanged, backends, contract. rewrite <- U, <- U2. split; [|done]. exists w1, w2. by rewrite S.
  - apply await_unchanged in A as [_ U2]. intros [= <- <-]. left. split; [congruence|done].
Qed.
End Path.

(** ** What [serve] and [status] find *)
Section Serve.
Context (load_config : string -> M (W := W) Config) (load_credential : string -> string -> M (W := W) string).
Context (url_path : string -> string) (render : string -> string -> string -> string) (path : string).

(** The file and the vault answer with what is in them. *)
Class Readable := {
  config_read w c : settings w = Some c -> exists w', load_config path w = (w', Ok c) /\ unchanged w w';
  credential_read w service account v : secrets w !! (service, account) = Some v ->
    exists w', load_credential service account w = (w', Ok v) /\ unchanged w w';
}.
Context `{!Readable}.

Lemma NewClient_relay base client : NewClient (url_parse base) base = Ok client ->
  exists relay, relayURL url_parse url_path render base = Ok relay.
Proof.
  unfold NewClient, relayURL. destruct (url_parse base) as [u|]; [|done]. destruct (String.eqb (ur_Host u) ""); [done|].
  destruct (String.eqb (ur_Scheme u) "https"); [by eexists|]. destruct (String.eqb (ur_Scheme u) "http"); [by eexists|done].
Qed.
(** The hexadecimal text of a key has no prefix. *)
Lemma hex_no_prefix b : TrimPrefix (hex_bytes b) "0x" = hex_bytes b.
Proof.
  unfold TrimPrefix. destruct b as [|x b]; [done|]. cbn [hex_bytes HasPrefix].
  assert (0 <= Z.land x 15 < 16) as Hl by (change 15 with (Z.ones 4); rewrite Z.land_ones by lia; apply Z.mod_pos_bound; lia).
  assert (Ascii.eqb "x" (hex_digit (Z.land x 15)) = false) as ->; [|by rewrite andb_false_r].
  pose proof (hex_value_digit _ Hl) as V. apply Ascii.eqb_neq. intros E. by rewrite <- E in V.
Qed.
Lemma settlement_contract_Ok authorization contract : settlement_contract authorization = Ok contract ->
  IsHexAddress (AddressHex contract) = true /\ HexToAddress (AddressHex contract) = contract
  /\ contract <> replicate 20 0 /\ ca_ChainID authorization <> 0 /\ contract = HexToAddress (ca_ContractAddress authorization).
Proof.
  unfold settlement_contract. destruct (ca_ChainID authorization =? 0) eqn:Z0; [done|]. destruct (negb _); [done|].
  destruct (bool_decide _) eqn:B; [done|]. intros [= <-]. apply bool_decide_eq_false in B. destruct (address_parses (ca_ContractAddress authorization)). split_and!; [done..|lia|done].
Qed.

Lemma connection_serves o backends p exchanged contract w :
  connection o backends p exchanged contract w ->
  exists w' relay, serve_settings load_config load_credential url_parse url_path render path w
    = (w', Ok (mkServeSettings (new_config o p contract (ct_Machine exchanged) backends) (ct_Token exchanged) (pn_Client p) (pn_Key p) contract relay))
  /\ unchanged w w'.
Proof.
  intros (Hs & Hcfg & Hsig & Htok & _ & Hc). destruct (settlement_contract_Ok _ _ Hs) as (Hhex & Hback & _ & Hchain & _).
  destruct (NewClient_relay _ _ Hc) as [relay Hrelay].
  destruct (config_read w _ Hcfg) as (w1 & E1 & U1).
  destruct (credential_read w1 machineCredentialService (cm_ID (ct_Machine exchanged)) (ct_Token exchanged)) as (w2 & E2 & U2).
  { destruct U1 as [-> _]. done. }
  destruct (credential_read w2 signerCredentialService (cm_ID (ct_Machine exchanged)) (signer_secret (pn_Key p))) as (w3 & E3 & U3).
  { destruct U2 as [-> _]. destruct U1 as [-> _]. done. }
  exists w3, relay. split; [|eapply unchanged_trans; [exact U1|by eapply unchanged_trans]].
  unfold serve_settings, mbind, S_bind, mret, S_ret, wrapped, lift. rewrite E1.
  cbn [new_config cf_MachineID cf_ServerURL cf_ContractAddress]. rewrite E2, Hc, E3.
  assert (settlement_domain (new_config o p contract (ct_Machine exchanged) backends) (signer_secret (pn_Key p)) = Ok (pn_Key p)) as ->.
  { unfold settlement_domain, signer_secret. rewrite hex_no_prefix, key_parses. cbn [new_config cf_ChainID cf_ContractAddress].
    rewrite Hhex. replace (ca_ChainID (pn_Authorization p) =? 0) with false by lia. done. }
  by rewrite Hrelay, Hback.
Qed.
Lemma connection_status o backends p exchanged contract w :
  connection o backends p exchanged contract w ->
  snd (status_signer load_credential (new_config o p contract (ct_Machine exchanged) backends) w) = Ok (pn_Key p).
Proof.
  intros (_ & _ & Hsig & _). destruct (credential_read w _ _ _ Hsig) as (w1 & E1 & _).
  unfold status_signer, mbind, S_bind, mret, S_ret, wrapped, lift. cbn [new_config cf_MachineID cf_SignerAddress]. rewrite E1.
  unfold signer_secret. rewrite hex_no_prefix, key_parses. cbn [of_option]. unfold EqualFold. rewrite String.eqb_refl. by rewrite andb_false_r.
Qed.

End Serve.

(** ** Waiting for the approval ends *)
Section Approval.
Context (now : W -> Z) (tick deadline : Z).
(** Every wait takes at least [tick], clocks do not run back, and the broker
    has dropped the device authorization by the [deadline]. *)
Class ApprovalClock := {
  ap_tick : 0 < tick;
  ap_wait w : now w + tick <= now (fst (lm_Wait m w));
  ap_key w : now w <= now (fst (lm_GenerateKey m w));
  ap_send base r w : now w <= now (fst (lm_Send m base r w));
  ap_print text w : now w <= now (fst (lm_Print m text w));
  ap_browser url w : now w <= now (fst (lm_OpenBrowser m url w));
  ap_expired client code w e : deadline < now w ->
    snd (ExchangeDeviceAuthorization (lm_Send m client) fits status_text error_text code w) = Err e -> e <> ErrPending;
}.
Context `{!ApprovalClock}.

Lemma await_approval_terminates fuel client code : forall w, deadline < now w + Z.of_nat fuel * tick ->
  exists out, await_approval m fits status_text error_text fuel client code w = Some out.
Proof.
  pose proof ap_tick as Htick.
  assert (forall w, now w <= now (fst (ExchangeDeviceAuthorization (lm_Send m client) fits status_text error_text code w))) as X.
  { intros w. unfold ExchangeDeviceAuthorization, post, request.
    match goal with |- context [lm_Send m client ?r w] => pose proof (ap_send client r w) as U end. by destruct (lm_Send _ _ _ _) as [w' []]. }
  induction fuel as [|fuel IH]; intros w Hd; cbn [await_approval]; pose proof (ap_expired client code w) as He; specialize (X w);
    destruct (ExchangeDeviceAuthorization _ _ _ _ _ w) as [w1 [t|e]]; cbn [fst snd] in X, He; try (by eexists);
    destruct (is_pending e) eqn:Hp; try (by eexists); apply bool_decide_eq_true in Hp.
  - exfalso. apply (He e); [lia|done..].
  - pose proof (ap_wait w1) as Hw. destruct (lm_Wait m w1) as [w2 [u|e2]]; cbn [fst] in Hw; [apply IH; lia|by eexists].
Qed.
Lemma start_login_later o w : now w <= now (fst (start_login m url_parse quote fits status_text error_text o w)).
Proof.
  unfold start_login, mbind, LS_bind, L_bind, mret, L_ret, lift. destruct (machine_name m o); [|done]. destruct (NewClient _ _) as [client|]; [|done].
  unfold wrapped. pose proof (ap_key w) as Ha. destruct (lm_GenerateKey m w) as [w1 [key|]]; cbn [fst] in Ha; [|done].
  unfold CreateDeviceAuthorization, post, request.
  match goal with |- context [lm_Send m client ?r w1] => pose proof (ap_send client r w1) as Hb end.
  destruct (lm_Send _ _ _ w1) as [w2 [response|]]; cbn [fst] in Hb; [|cbn; lia].
  destruct (interpret _ _ _ _ response) as [authorization|]; [|cbn; lia].
  match goal with |- context [lm_Print m ?t w2] => pose proof (ap_print t w2) as Hc end.
  destruct (lm_Print m _ w2) as [w3 [u|]]; cbn [fst] in Hc; [|cbn; lia].
  assert (now w3 <= now (fst (open_browser m o authorization w3))) as Hd.
  { unfold open_browser. destruct (lo_NoBrowser o); [cbn; lia|]. pose proof (ap_browser (ca_VerificationURI authorization) w3) as Hd.
    destruct (lm_OpenBrowser m _ w3) as [w4 [u4|]]; cbn [fst] in Hd; [cbn; lia|]. unfold ignored. cbn [fst].
    match goal with |- context [lm_Print m ?t w4] => pose proof (ap_print t w4) end. lia. }
  destruct (open_browser m o authorization w3) as [w4 [u4|]]; cbn [fst] in Hd |- *; lia.
Qed.

(** A login ends: once the waits that are left reach beyond the expiry of the
    device authorization, it has returned, approved or not, whatever the broker
    and the user do. *)
Theorem login_terminates default fuel args w : deadline < now w + Z.of_nat fuel * tick ->
  exists out, runLogin m url_parse quote fits status_text error_text default fuel args w = Some out.
Proof.
  intros Hf. unfold runLogin. destruct (ParseFlags login_flags args) as [set|]; [|by eexists].
  pose proof (start_login_later (login_options default set) w) as Ha.
  destruct (start_login _ _ _ _ _ _ _ w) as [w1 [p|]]; cbn [fst] in Ha; [|by eexists].
  destruct (await_approval_terminates fuel (pn_Client p) (ca_DeviceCode (pn_Authorization p)) w1) as [[w2 [t|]] ->]; [lia|by eexists..].
Qed.
End Approval.
End LoginSpec.

(** The arguments [host] writes for [login] are read back. *)
Lemma host_login_args default serverURL path noBrowser :
  login_options default <$> ParseFlags login_flags (hostLoginArgs serverURL path noBrowser)
  = Ok (mkLoginOptions serverURL "" path noBrowser).
Proof.
  unfold hostLoginArgs, ParseFlags. destruct noBrowser; cbn; unfold login_options, string_flag, bool_flag;
    repeat first [rewrite lookup_insert_eq|rewrite lookup_insert_ne by done|rewrite lookup_empty]; done.
Qed.

(** ** A concrete machine *)
Module LoginRun.
#[export] Instance toy_keys : SignerKeys unit :=
  {| PublicAddress _ := replicate 20 7; FromECDSA _ := [7]; HexToECDSA s := if String.eqb s "07" then Some tt else None |}.

Lemma decode_bytes s : forall b, DecodeString s = Some b -> Forall (fun x => 0 <= x < 256) b.
Proof.
  assert (forall c x, hex_value c = Some x -> 0 <= x < 16) as V.
  { intros c x. unfold hex_value. cbv zeta. repeat match goal with |- context [if ?b then _ else _] => destruct b eqn:? end; intros [= <-]; bools; lia. }
  revert s. fix IH 1. intros [|a [|c s]] b; cbn [DecodeString]; [by intros [= <-]|done|].
  destruct (hex_value a) as [x|] eqn:Ex; [|done]. destruct (hex_value c) as [y|] eqn:Ey; [|done].
  destruct (DecodeString s) as [tail|] eqn:Es; [|done]. intros [= <-]. apply V in Ex, Ey. constructor; [lia|exact (IH s tail Es)].
Qed.
#[export] Instance toy_key_laws : KeyLaws unit.
Proof.
  assert (forall s, Forall (fun x => 0 <= x < 256) (decode_hex 20 s) /\ length (decode_hex 20 s) = 20%nat) as D.
  { intros s. unfold decode_hex, SetBytes. split.
    - apply Forall_app. split; [apply Forall_replicate; lia|]. apply Forall_drop. by destruct (DecodeString _) as [b|] eqn:E; [apply (decode_bytes _ _ E)|].
    - rewrite length_app, length_replicate, length_drop. lia. }
  split.
  - intros s. destruct (D s) as [Hb Hl]. cbn [IsHexAddress AddressHex HexToAddress toy_ethereum]. split.
    + assert (go_len (addressHex (decode_hex 20 s)) = 42) as ->; [|unfold addressHex; cbn; by destruct (hex_bytes _)].
      change (Z.of_nat (S (S (String.length (hex_bytes (decode_hex 20 s))))) = 42). by rewrite hex_bytes_length, Hl.
    + unfold decode_hex at 1. assert (TrimPrefix (addressHex (decode_hex 20 s)) "0x" = hex_bytes (decode_hex 20 s)) as -> by (unfold addressHex; by destruct (hex_bytes _)).
      rewrite DecodeString_hex_bytes by done. cbn [default]. by apply SetBytes_id.
  - by intros [].
Qed.

(** The broker approves after a minute, and drops the authorization after
    fifteen; the machine it registers is [mach_2]. *)
Record Machine := mkMachine { mn_now : Z; mn_secrets : gmap (string * string) string; mn_config : option Config }.
Definition later d s := mkMachine (mn_now s + d) (mn_secrets s) (mn_config s).
Definition with_vault v s := mkMachine (mn_now s) v (mn_config s).
Definition broker (approves : bool) (r : Request) (s : Machine) : Machine * result Response :=
  let answer status v := (later Second s, Ok (respond_json status (JObj v))) in
  if bool_decide (ht_Path r = ["auth"; "device"]) then
    answer 201 [("device_code", jstr "code"); ("user_code", jstr "AB12"); ("verification_uri", jstr "https://web/device");
                ("chain_id", num 10143); ("contract_address", jstr contract_address)]
  else if 900 * Second <? mn_now s then answer 410 []
  else if negb approves || (mn_now s <? 60 * Second) then answer 425 []
  else answer 200 [("machine", JObj [("id", jstr "mach_2"); ("account_id", jstr "acc_1"); ("name", jstr "rig"); ("signer_address", jstr (addressHex (replicate 20 7)))]);
                   ("token", jstr "mach_2.secret")].
Definition machine (approves : bool) : LoginMachine (W := Machine) (PrivateKey := unit) := mkLoginMachine
  (Some "rig") (fun s => (s, Ok tt)) (fun _ => broker approves) (fun _ s => (s, Ok tt)) (fun _ s => (s, Err (ErrNew "no browser")))
  (fun service account v s => (with_vault (<[(service, account) := v]> (mn_secrets s)) s, Ok tt))
  (Some (fun service account s => (with_vault (base.delete (service, account) (mn_secrets s)) s, Ok tt)))
  (fun s => (later (2 * Second) s, Ok tt))
  (fun _ s => (s, of_option (mn_config s) ErrNotExist))
  (fun _ c s => (mkMachine (mn_now s) (mn_secrets s) (Some c), Ok tt)).
Definition parse_url (s : string) : option Url := Some (mkUrl "https" "broker" "broker").
Definition status_line (n : Z) : string := FormatUint n.
Definition text_of (e : error) : string := "error".
Definition log_in (approves : bool) (fuel : nat) (s : Machine) :=
  runLogin (machine approves) parse_url id (fun _ => true) status_line text_of "config.json" fuel ["--server"; "https://broker"] s.

Lemma broker_quiet approves r : quiet mn_secrets mn_config (broker approves r).
Proof. intros s. unfold broker. by repeat case_match. Qed.
#[export] Instance machine_laws approves path : LoginLaws mn_secrets mn_config (machine approves) path.
Proof. split; try done; [by intros base r; apply broker_quiet|by intros delete service account s [= <-]|intros [n v [c|]]; (split; [done|]); [intros c' [= ->]; done|done]]. Qed.
#[export] Instance machine_clock approves : ApprovalClock (machine approves) (fun _ => true) status_line text_of mn_now (2 * Second) (900 * Second).
Proof.
  split; try (intros; cbn; lia); try done.
  - intros base r s. assert (0 <= Second) by done. change (mn_now s <= mn_now (fst (broker approves r s))). unfold broker. repeat case_match; cbn [fst]; unfold later; cbn [mn_now]; lia.
  - intros client code s e Hd. unfold ExchangeDeviceAuthorization, post, request. cbn [lm_Send machine]. unfold broker.
    rewrite bool_decide_eq_false_2 by done. replace (900 * Second <? mn_now s) with true by lia. cbn. by intros [= <-].
Qed.
Definition load_config (_ : string) (s : Machine) : Machine * result Config := (s, of_option (mn_config s) ErrNotExist).
Definition load_credential (service account : string) (s : Machine) : Machine * result string :=
  (s, of_option (mn_secrets s !! (service, account)) ErrNotExist).
#[export] Instance readable path : Readable mn_secrets mn_config load_config load_credential path.
Proof.
  split.
  - intros s c E. exists s. unfold load_config. by rewrite E.
  - intros s service account v E. exists s. unfold load_credential. by rewrite E.
Qed.


(** Nobody approves: the login is over after at most 451 waits. *)
Lemma login_terminates_witness : exists out, log_in false 451 (mkMachine 0 ∅ None) = Some out.
Proof.
  apply (login_terminates (machine false) parse_url id (fun _ => true) status_line text_of mn_now (2 * Second) (900 * Second)).
  vm_compute. reflexivity.
Defined.

(** A second login gets a new machine; the backends are kept, but the secrets of
    the backends stay under the name of the old machine. *)
Lemma login_loses_credentials :
  let s := mkMachine 0 (BackendRun.dk_secrets (BackendRun.disk false)) (Some BackendRun.settings) in
  vault_complete mn_secrets mn_config s
  /\ exists s', log_in true 60 s = Some (s', Ok tt) /\ ~ vault_complete mn_secrets mn_config s'.
Proof.
  split.
  - intros c [= <-]. split; [apply NoDup_singleton|]. repeat constructor. intros _. exists "key". by vm_compute.
  - eexists. split; [vm_compute; reflexivity|]. intros V. specialize (V _ eq_refl) as [_ V].
    apply Forall_cons in V as [V _]. specialize (V eq_refl). vm_compute in V. by destruct V.
Qed.
End LoginRun.
