(* ===== verification/Hosting.v ===== *)
(** * Hosting from the command line (cli/cmd/myference/main.go)

    [myference host], which signs in when needed, configures a local model,
    publishes its price and serves it; [myference offer] and [myference
    collateral], which run the provider operations; and the attestation of
    [myference status].  An operation that waits is a [Waits]: nothing when its
    fuel is used up. *)

From S2P Require Import Prelude GoStrings GoTime Wire Receipt Messages Hex Flags Http AuthHttp ProviderAccount Actions.
From S2P Require Import Backends Ollama Host ClientConfig AccountClient ProviderOps BackendCommands Login.
From Stdlib Require Import Ascii.
From stdpp Require Import gmap strings.
Open Scope string_scope.
Open Scope list_scope.
Open Scope Z_scope.

Definition Waits (W A : Type) : Type := W -> option (W * result A).
#[export] Instance Waits_ret {W} : MRet (Waits W) := fun A a w => Some (w, Ok a).
#[export] Instance Waits_bind {W} : MBind (Waits W) := fun A B f p w =>
  match p w with
  | None => None
  | Some (w, Ok a) => f a w
  | Some (w, Err e) => Some (w, Err e)
  end.
Definition once {W A} (p : M (W := W) A) : Waits W A := fun w => Some (p w).
Definition wrapped_wait {W A} (prefix : string) (p : Waits W A) : Waits W A := fun w =>
  match p w with Some (w, Err e) => Some (w, Err (ErrWrap prefix e)) | other => other end.
Definition pure_wait {W A} (r : result A) : Waits W A := fun w => Some (w, r).

(** ** A local model *)
Definition safe_character (r : string) : bool :=
  match r with
  | String c "" => let n := byte_of c in (97 <=? n) && (n <=? 122) || (48 <=? n) && (n <=? 57)
  | _ => false
  end.
Fixpoint safe_backend (rs : list string) (result : string) : string :=
  match rs with
  | [] => result
  | r :: rest =>
      if safe_character r then safe_backend rest (result +:+ r)
      else if negb (String.eqb result "") && negb (HasSuffix result "-") then safe_backend rest (result +:+ "-")
      else safe_backend rest result
  end.
Definition safeBackendName `{Unicode} (model : string) : string :=
  trim_right ["-"] (trim_left ["-"] (safe_backend (runes (to_lower model)) "")).

(** [slices.SortFunc] by the name; an installed model is listed once. *)
Fixpoint insert_by_name (m : Model) (l : list Model) : list Model :=
  match l with
  | [] => [m]
  | x :: rest => if string_leb (md_Name m) (md_Name x) then m :: l else x :: insert_by_name m rest
  end.
Definition sort_by_name (l : list Model) : list Model := foldr insert_by_name [] l.

Definition host_flags : flag_specs :=
  [ ("config", StringFlag); ("server", StringFlag); ("ollama-url", StringFlag); ("model", StringFlag); ("web", StringFlag);
    ("input-per-million", StringFlag); ("output-per-million", StringFlag); ("compute-per-second", StringFlag);
    ("setup-only", BoolFlag); ("allow-battery", BoolFlag); ("no-browser", BoolFlag) ].
Record HostOptions := mkHostOptions {
  ho_Config : string; ho_Server : string; ho_Endpoint : string; ho_Model : string; ho_Web : string; ho_Rates : Rates;
  ho_SetupOnly : bool; ho_AllowBattery : bool; ho_NoBrowser : bool;
}.
Definition rate_flags (set : flag_values) : Rates :=
  mkRates (string_flag "input-per-million" "" set) (string_flag "output-per-million" "" set) (string_flag "compute-per-second" "" set).
Definition host_options (defaultConfigPath : string) (set : flag_values) : HostOptions :=
  mkHostOptions (string_flag "config" defaultConfigPath set) (string_flag "server" defaultServerURL set)
    (string_flag "ollama-url" "http://127.0.0.1:11434" set) (string_flag "model" "" set) (string_flag "web" defaultWebURL set)
    (rate_flags set) (bool_flag "setup-only" set) (bool_flag "allow-battery" set) (bool_flag "no-browser" set).
Definition offer_flags : flag_specs :=
  [ ("config", StringFlag); ("web", StringFlag); ("backend", StringFlag); ("offer", StringFlag); ("input-per-million", StringFlag);
    ("output-per-million", StringFlag); ("compute-per-second", StringFlag); ("no-browser", BoolFlag) ].
Definition collateral_flags : flag_specs :=
  [ ("config", StringFlag); ("web", StringFlag); ("amount", StringFlag); ("no-browser", BoolFlag) ].
Definition serve_flags : flag_specs := [ ("config", StringFlag); ("allow-battery", BoolFlag) ].
Definition parseServeFlags (defaultConfigPath : string) (args : list string) : result (string * bool) :=
  set ← ParseFlags serve_flags args;
  Ok (string_flag "config" defaultConfigPath set, bool_flag "allow-battery" set).

(** The number of prices given on the command line. *)
Definition provided (rates : Rates) : nat :=
  length (List.filter (fun s => negb (String.eqb s "")) [ra_InputPerMillionMON rates; ra_OutputPerMillionMON rates; ra_ComputePerSecondMON rates]).

Section Hosting.
Context {W : Type} `{Unicode}.
#[local] Instance H_ret : MRet (M (W := W)) := fun A a w => (w, Ok a).
#[local] Instance H_bind : MBind (M (W := W)) := fun A B f m w => match m w with (w, Ok a) => f a w | (w, Err e) => (w, Err e) end.

(** What the commands use of the machine; [hm_Login] and [hm_Serve] are
    [runLogin] and [runServe], [hm_API client] the broker's client. *)
Record HostMachine := mkHostMachine {
  hm_LoadConfig : string -> M (W := W) Config;
  hm_SaveConfig : string -> Config -> M (W := W) unit;
  hm_LoadCredential : string -> string -> M (W := W) string;
  hm_Models : string -> M (W := W) (list Model);
  hm_Print : string -> M (W := W) unit;
  hm_OpenBrowser : string -> M (W := W) unit;
  hm_API : string -> ProviderAPI (W := W);
  hm_Approval : string -> string -> result string;
  hm_Wait : M (W := W) unit;
  hm_Now : W -> Z;
  hm_Login : list string -> Waits W unit;
  hm_Serve : string -> bool -> Waits W unit;
}.
Context (m : HostMachine) (url_parse : string -> option Url) (show_offers : list EditableOffer -> string)
        (show_account : ProviderAccountView -> string).

Definition serves_model (model : string) (b : Backend) : bool := String.eqb (bk_Kind b) "ollama" && String.eqb (bk_Model b) model.
Definition local_backend (name endpoint model : string) : Backend := mkBackend name "" "ollama" endpoint model 0 true "".
(** The backend that serves the model keeps its name and its offer. *)
Definition local_again (endpoint model : string) (b : Backend) : Backend :=
  mkBackend (bk_Name b) (bk_OfferID b) "ollama" endpoint model (bk_PriceVersion b) true "".
Definition select_model (requested : string) (models : list Model) : result Model :=
  match sort_by_name models with
  | [] => Err (ErrNew "Ollama has no installed models; install one with `ollama pull <model>`")
  | (first :: _) as sorted =>
      if String.eqb requested "" then Ok first
      else of_option (List.find (fun model => String.eqb (md_Name model) requested) sorted) (ErrNew "model is not installed in Ollama")
  end.
Definition local_backends (endpoint model : string) (backends : list Backend) : result (list Backend) :=
  let name := "local-" +:+ safeBackendName model in
  if existsb (serves_model model) backends then Ok (change_first (serves_model model) (local_again endpoint model) backends)
  else if existsb (named name) backends then Err (ErrNew "backend name already exists")
  else Ok (backends ++ [local_backend name endpoint model]).
Definition configureLocalHost (path endpoint requested : string) : M (W := W) Model :=
  url ← lift (Ollama.New (url_parse endpoint) endpoint);
  models ← wrapped "connect to Ollama" (hm_Models m url);
  selected ← lift (select_model requested models);
  cfg ← wrapped "login before hosting" (hm_LoadConfig m path);
  backends ← lift (local_backends endpoint (md_Name selected) (cf_Backends cfg));
  _ ← hm_SaveConfig m path (set_backends backends cfg);
  mret selected.

Definition print_approval (url : string) : M (W := W) unit :=
  hm_Print m ("Approve the exact wallet transaction at " +:+ url +:+ newline).
Definition providerOperations (path webURL : string) (noBrowser : bool) : M (W := W) (Service (W := W) * Config) :=
  cfg ← hm_LoadConfig m path;
  token ← wrapped "load machine credential" (hm_LoadCredential m machineCredentialService (cf_MachineID cfg));
  client ← lift (NewClient (url_parse (cf_ServerURL cfg)) (cf_ServerURL cfg));
  mret (mkService (Some (hm_API m client)) token (cf_MachineID cfg) (hm_Approval m webURL) (Some (hm_LoadConfig m path))
          (Some (hm_SaveConfig m path)) (Some (if noBrowser then print_approval else hm_OpenBrowser m)) (hm_Wait m) (hm_Now m), cfg).

(** ** [myference host] *)
Definition sign_in_if_new (o : HostOptions) : Waits W unit := fun w =>
  match hm_LoadConfig m (ho_Config o) w with
  | (w, Ok _) => Some (w, Ok tt)
  | (w, Err e) =>
      if errors_Is e ErrNotExist
      then wrapped_wait "connect this machine" (hm_Login m (hostLoginArgs (ho_Server o) (ho_Config o) (ho_NoBrowser o))) w
      else Some (w, Err (ErrWrap "load host configuration" e))
  end.
(** The backend that serves the model, from the configuration on the disk. *)
Definition hosted (path model : string) : M (W := W) (option Backend) :=
  cfg ← hm_LoadConfig m path; mret (List.find (serves_model model) (cf_Backends cfg)).
Definition publish_prices (fuel : nat) (o : HostOptions) (model : string) (b : Backend) : Waits W (option Backend) :=
  if (provided (ho_Rates o) =? 3)%nat then
    '(service, _) ← once (providerOperations (ho_Config o) (ho_Web o) (ho_NoBrowser o));
    _ ← (Publish service fuel b (ho_Rates o) : Waits W unit);
    once (hosted (ho_Config o) model)
  else mret (Some b).
Definition start_hosting (o : HostOptions) (b : option Backend) : Waits W unit :=
  if ho_SetupOnly o then mret tt
  else
    match b with
    | Some b => if bk_PriceVersion b =? 0
                then pure_wait (Err (ErrNew "publish pricing first with `myference offer publish` or the host pricing flags"))
                else hm_Serve m (ho_Config o) (ho_AllowBattery o)
    | None => pure_wait (Err (ErrNew "publish pricing first with `myference offer publish` or the host pricing flags"))
    end.
Definition run_host (fuel : nat) (o : HostOptions) : Waits W unit :=
  _ ← sign_in_if_new o;
  model ← once (configureLocalHost (ho_Config o) (ho_Endpoint o) (ho_Model o));
  found ← once (hosted (ho_Config o) (md_Name model));
  b ← pure_wait (of_option found (ErrNew "configured backend was not saved"));
  _ ← pure_wait (fail_if (negb (provided (ho_Rates o) =? 0)%nat && negb (provided (ho_Rates o) =? 3)%nat)
        (ErrNew "host pricing requires --input-per-million, --output-per-million, and --compute-per-second together"));
  b ← publish_prices fuel o (md_Name model) b;
  _ ← once (hm_Print m ("Configured " +:+ md_Name model +:+ " (" +:+ md_Digest model +:+ ")." +:+ newline));
  start_hosting o b.
Definition runHost (fuel : nat) (defaultConfigPath : string) (args : list string) : Waits W unit :=
  set ← pure_wait (ParseFlags host_flags args);
  run_host fuel (host_options defaultConfigPath set).

(** ** [myference offer] *)
Definition sync_text (changed : bool) : string :=
  (if changed then "Offer versions synchronized." else "Offer versions already current.") +:+ newline.
Definition offer_complete (action : string) (set : flag_values) : result unit :=
  let absent name := String.eqb (string_flag name "" set) "" in
  _ ← fail_if (String.eqb action "publish" && (absent "backend" || absent "input-per-million" || absent "output-per-million" || absent "compute-per-second"))
        (ErrNew "offer publish requires --backend, --input-per-million, --output-per-million, and --compute-per-second");
  fail_if (String.eqb action "attach" && (absent "backend" || absent "offer")) (ErrNew "offer attach requires --backend and --offer").
Definition offer_action (fuel : nat) (action : string) (set : flag_values) (service : Service (W := W)) (cfg : Config) : Waits W unit :=
  let backendName := string_flag "backend" "" set in
  let offerID := string_flag "offer" "" set in
  if String.eqb action "publish" then
    b ← pure_wait (of_option (List.find (named backendName) (cf_Backends cfg)) (ErrNew "backend not found"));
    _ ← (Publish service fuel b (rate_flags set) : Waits W unit);
    once (hm_Print m ("Offer " +:+ backendName +:+ " published and synchronized." +:+ newline))
  else if String.eqb action "attach" then
    _ ← once (Attach service backendName offerID);
    once (hm_Print m ("Attached " +:+ offerID +:+ " to " +:+ backendName +:+ "." +:+ newline))
  else if String.eqb action "list" then
    account ← (once (Account service) : Waits W ProviderAccountView);
    once (hm_Print m (show_offers (pv_Offers account)))
  else if String.eqb action "sync" then
    changed ← (once (SyncVersions service) : Waits W bool);
    once (hm_Print m (sync_text changed))
  else pure_wait (Err (ErrNew "unknown offer action")).
Definition runOffer (fuel : nat) (defaultConfigPath defaultWeb : string) (args : list string) : Waits W unit :=
  match args with
  | [] => pure_wait (Err (ErrNew "usage: myference offer <publish|attach|list|sync>"))
  | action :: rest =>
      set ← pure_wait (ParseFlags offer_flags rest);
      _ ← pure_wait (offer_complete action set);
      '(service, cfg) ← once (providerOperations (string_flag "config" defaultConfigPath set) (string_flag "web" defaultWeb set) (bool_flag "no-browser" set));
      offer_action fuel action set service cfg
  end.

(** ** [myference collateral] *)
Definition confirmed (p : Waits W unit) : Waits W unit := _ ← p; once (hm_Print m ("Collateral action confirmed." +:+ newline)).
Definition collateral_action (fuel : nat) (action amount : string) (service : Service (W := W)) : Waits W unit :=
  if String.eqb action "status" then account ← once (Account service); once (hm_Print m (show_account account))
  else if String.eqb action "deposit" then confirmed (Deposit service fuel amount)
  else if String.eqb action "request-exit" then confirmed (RequestExit service fuel)
  else if String.eqb action "finalize-exit" then confirmed (FinalizeExit service fuel)
  else pure_wait (Err (ErrNew "unknown collateral action")).
Definition runCollateral (fuel : nat) (defaultConfigPath defaultWeb : string) (args : list string) : Waits W unit :=
  match args with
  | [] => pure_wait (Err (ErrNew "usage: myference collateral <status|deposit|request-exit|finalize-exit>"))
  | action :: rest =>
      set ← pure_wait (ParseFlags collateral_flags rest);
      let amount := string_flag "amount" "" set in
      _ ← pure_wait (fail_if (String.eqb action "deposit" && String.eqb amount "") (ErrNew "collateral deposit requires --amount"));
      '(service, _) ← once (providerOperations (string_flag "config" defaultConfigPath set) (string_flag "web" defaultWeb set) (bool_flag "no-browser" set));
      collateral_action fuel action amount service
  end.
End Hosting.
