(* ===== verification/HostingSpec.v ===== *)
(** * Correctness of hosting from the command line

    A local model that is configured is served by exactly one enabled backend,
    which keeps the offer it had, and no other backend changes. *)

From S2P Require Import Prelude GoStrings GoTime Wire Receipt Messages Hex Flags Http AuthHttp ProviderAccount Actions.
From S2P Require Import Backends Ollama Host ClientConfig AccountClient ProviderOps ProviderOpsSpec BackendCommands BackendCommandsSpec Login Hosting HostSpec.
From stdpp Require Import gmap strings sorting.
Open Scope string_scope.
Open Scope list_scope.
Open Scope Z_scope.

(** ** The model that is chosen *)
Lemma insert_by_name_Permutation m l : insert_by_name m l ≡ₚ m :: l.
Proof. induction l as [|x l IH]; cbn; [done|]. destruct (string_leb _ _); [done|]. by rewrite IH, Permutation_swap. Qed.
Lemma sort_by_name_Permutation l : sort_by_name l ≡ₚ l.
Proof. induction l as [|x l IH]; [done|]. cbn [sort_by_name foldr]. by rewrite insert_by_name_Permutation, IH. Qed.
Lemma select_model_listed requested models model : select_model requested models = Ok model ->
  model ∈ models /\ (requested = "" \/ md_Name model = requested).
Proof.
  unfold select_model. pose proof (sort_by_name_Permutation models) as P. destruct (sort_by_name models) as [|first rest]; [done|].
  destruct (String.eqb requested "") eqn:R.
  - intros [= <-]. split; [rewrite <- P; by left|]. left. by apply String.eqb_eq.
  - destruct (List.find _ _) as [x|] eqn:F; cbn [of_option]; [|done]. intros [= <-]. apply List.find_some in F as [Hin Hn].
    apply list_elem_of_In in Hin. split; [by rewrite <- P|]. right. by apply String.eqb_eq.
Qed.

(** ** The backends afterwards *)
Section Backends.
Context `{Unicode}.

(** [b] serves the model from the endpoint, with the offer of the backend that
    served it before, if any. *)
Definition serves_from (endpoint model : string) (before : option Backend) (b : Backend) : Prop :=
  serves_model model b = true /\ bk_Enabled b = true /\ bk_URL b = endpoint
  /\ match before with
     | Some previous => bk_Name b = bk_Name previous /\ EffectiveOfferID b = EffectiveOfferID previous /\ bk_PriceVersion b = bk_PriceVersion previous
     | None => bk_PriceVersion b = 0
     end.

Lemma change_first_find p f l previous : List.find p l = Some previous -> (forall x, p x = true -> p (f x) = true) ->
  List.find p (change_first p f l) = Some (f previous).
Proof.
  intros F Hp. induction l as [|x l IH]; cbn in F |- *; [done|]. destruct (p x) eqn:E; cbn.
  - injection F as ->. by rewrite Hp.
  - rewrite E. by apply IH.
Qed.
Lemma change_first_others p f l x : p x = false -> (forall y, p y = true -> p (f y) = true) -> x ∈ change_first p f l <-> x ∈ l.
Proof.
  intros Hx Hp. induction l as [|y l IH]; cbn; [done|]. destruct (p y) eqn:E.
  - rewrite !elem_of_cons. split; (intros [->|Hin]; [|by right]); [by rewrite Hp in Hx|congruence].
  - rewrite !elem_of_cons. by rewrite IH.
Qed.
Lemma change_first_map {B} (key : Backend -> B) p f l : (forall x, key (f x) = key x) -> map key (change_first p f l) = map key l.
Proof. intros E. induction l as [|x l IH]; cbn; [done|]. destruct (p x); cbn; [by rewrite E|by rewrite IH]. Qed.
Lemma find_app_none {A} (p : A -> bool) l x : existsb p l = false -> p x = true -> List.find p (l ++ [x]) = Some x.
Proof. induction l as [|y l IH]; cbn; intros E Hx; [by rewrite Hx|]. destruct (p y); [done|]. by apply IH. Qed.

Lemma local_again_serves endpoint model b : serves_model model (local_again endpoint model b) = true.
Proof. unfold serves_model. cbn. by rewrite String.eqb_refl. Qed.
Lemma local_backends_spec endpoint model l l' : local_backends endpoint model l = Ok l' ->
  NoDup (map bk_Name l) ->
  NoDup (map bk_Name l')
  /\ (forall b, serves_model model b = false -> b ∈ l' <-> b ∈ l)
  /\ exists b, List.find (serves_model model) l' = Some b /\ serves_from endpoint model (List.find (serves_model model) l) b.
Proof.
  unfold local_backends. destruct (existsb (serves_model model) l) eqn:E; [|destruct (existsb (named _) l) eqn:N; [done|]]; intros [= <-] Hn.
  - split; [by rewrite change_first_map|]. split; [intros b Hb; apply change_first_others; [done|intros; apply local_again_serves]|].
    apply existsb_find in E as [previous F]. exists (local_again endpoint model previous). split.
    + apply change_first_find; [done|intros; apply local_again_serves].
    + rewrite F. split; [apply local_again_serves|done].
  - split; [|split].
    + rewrite map_app. apply NoDup_app. split_and!; [done| |apply NoDup_singleton]. cbn. intros x Hx ->%list_elem_of_singleton.
      apply list_elem_of_fmap in Hx as (b & Eb & Hb). apply not_true_iff_false in N. apply N, existsb_exists. exists b.
      split; [by apply list_elem_of_In|]. unfold named. by rewrite Eb, String.eqb_refl.
    + intros b Hb. rewrite elem_of_app, list_elem_of_singleton. split; [|by left]. intros [?| ->]; [done|].
      exfalso. revert Hb. unfold serves_model. cbn. by rewrite String.eqb_refl.
    + assert (serves_model model (local_backend ("local-" +:+ safeBackendName model) endpoint model) = true) as S by (unfold serves_model; cbn; apply String.eqb_refl).
      eexists. split; [by apply find_app_none|]. assert (List.find (serves_model model) l = None) as ->.
      { destruct (List.find _ l) as [x|] eqn:F; [|done]. apply List.find_some in F as [Hin Hx]. apply not_true_iff_false in E.
        destruct E. apply existsb_exists. by exists x. }
      done.
Qed.
End Backends.

(** ** The configuration *)
Section Local.
Context {W : Type} `{Unicode} (secrets : W -> gmap (string * string) string) (settings : W -> option Config).
Context (m : HostMachine (W := W)) (url_parse : string -> option Url) (path : string).
#[local] Instance HS_ret : MRet (M (W := W)) := fun A a w => (w, Ok a).
#[local] Instance HS_bind : MBind (M (W := W)) := fun A B f m w => match m w with (w, Ok a) => f a w | (w, Err e) => (w, Err e) end.

Class HostLaws := {
  host_loads w : unchanged secrets settings w (fst (hm_LoadConfig m path w))
    /\ forall c, snd (hm_LoadConfig m path w) = Ok c -> settings w = Some c;
  host_saves c w : secrets (fst (hm_SaveConfig m path c w)) = secrets w
    /\ settings (fst (hm_SaveConfig m path c w)) = match snd (hm_SaveConfig m path c w) with Ok _ => Some c | Err _ => settings w end;
  host_models url : quiet secrets settings (hm_Models m url);
}.
Context `{!HostLaws}.

(** A local backend needs no credential. *)
Lemma vault_ok_local endpoint model s c l' : local_backends endpoint model (cf_Backends c) = Ok l' ->
  vault_ok s c -> vault_ok s (set_backends l' c).
Proof.
  intros E [Hn Hf]. destruct (local_backends_spec _ _ _ _ E Hn) as (Hn' & Ho & _). split; [done|].
  rewrite Forall_forall in Hf |- *. intros b Hb. destruct (serves_model model b) eqn:S; [|by apply Hf, Ho].
  unfold serves_model in S. apply andb_true_iff in S as [S _]. apply String.eqb_eq in S. unfold has_credential, backendUsesCredential. by rewrite S.
Qed.

(** [configureLocalHost] chooses a model the local server lists, the
    requested one if one is requested, and saves a configuration in which it
    is served by an enabled backend at the given endpoint; a backend that
    served it before keeps its name, offer and price version; every other
    backend is as before, names stay unique, and no credential goes missing.
    When it fails, the configuration is as it was. *)
Theorem local_host_configured endpoint requested w w' r :
  vault_complete secrets settings w ->
  configureLocalHost m url_parse path endpoint requested w = (w', r) ->
  vault_complete secrets settings w'
  /\ match r with
     | Err _ => settings w' = settings w
     | Ok model => (requested = "" \/ md_Name model = requested)
         /\ (exists url w1, model ∈ match hm_Models m url w1 with (_, Ok models) => models | _ => [] end)
         /\ exists c l' b, settings w = Some c /\ settings w' = Some (set_backends l' c)
              /\ List.find (serves_model (md_Name model)) l' = Some b
              /\ serves_from endpoint (md_Name model) (List.find (serves_model (md_Name model)) (cf_Backends c)) b
              /\ forall other, serves_model (md_Name model) other = false -> other ∈ l' <-> other ∈ cf_Backends c
     end.
Proof.
  intros Hv. unfold configureLocalHost, mbind, H_bind, mret, H_ret, lift, wrapped.
  destruct (Ollama.New _ _) as [url|]; [|by intros [= <- <-]].
  pose proof (host_models url w) as U1. destruct (hm_Models m url w) as [w1 [models|]] eqn:EM; cbn in U1;
    [|intros [= <- <-]; split; [by eapply unchanged_complete|apply U1]].
  destruct (select_model requested models) as [model|] eqn:S; [|intros [= <- <-]; split; [by eapply unchanged_complete|apply U1]].
  destruct (select_model_listed _ _ _ S) as [Hin Hreq].
  pose proof (host_loads w1) as [U2 L]. destruct (hm_LoadConfig m path w1) as [w2 [c|]]; cbn in U2, L.
  2: { intros [= <- <-]. pose proof (unchanged_trans _ _ _ _ _ U1 U2) as U. split; [by eapply unchanged_complete|apply U]. }
  specialize (L c eq_refl). pose proof (unchanged_trans _ _ _ _ _ U1 U2) as U. destruct U1 as [_ U1].
  destruct (local_backends endpoint _ _) as [l'|] eqn:B; [|intros [= <- <-]; split; [by eapply unchanged_complete|apply U]].
  rewrite U1 in L. pose proof (Hv c L) as Hc. destruct (local_backends_spec _ _ _ _ B ltac:(apply Hc)) as (_ & Ho & b & Hf & Hb).
  pose proof (host_saves (set_backends l' c) w2) as [V3 S3]. destruct (hm_SaveConfig m path _ w2) as [w3 [u|e]]; cbn in V3, S3; intros [= <- <-].
  - split.
    + intros c' Hc'. assert (c' = set_backends l' c) as -> by congruence. rewrite V3. destruct U as [-> _]. by eapply vault_ok_local.
    + split; [done|]. split; [exists url, w; by rewrite EM|]. by exists c, l', b.
  - destruct U as [Us Ut]. split; [|congruence]. intros c' Hc'. rewrite V3, Us. apply Hv. congruence.
Qed.
End Local.

(** ** A concrete machine *)
Module HostingRun.
Import BackendRun.
#[local] Existing Instance HostRun.ascii_tables.
Definition api : ProviderAPI (W := Disk) :=
  mkProviderAPI (fun _ w => (w, Err ErrDisconnected)) (fun _ _ w => (w, Err ErrDisconnected)) (fun _ _ w => (w, Err ErrDisconnected))
    (fun _ _ w => (w, Err ErrDisconnected)).
Definition host : HostMachine (W := Disk) := mkHostMachine
  (fun _ => mc_LoadConfig machine) (fun _ => mc_SaveConfig machine) (mc_LoadCredential machine)
  (fun _ d => (d, Ok [mkModel "qwen3:8b" "sha256:2" 5; mkModel "llama3.2:1b" "sha256:1" 7])) (mc_Print machine) (fun _ d => (d, Ok tt))
  (fun _ => api) (fun _ id => Ok id) (fun d => (d, Ok tt)) (fun _ => 0) (fun _ d => Some (d, Ok tt)) (fun _ _ d => Some (d, Ok tt)).
#[export] Instance host_laws : HostLaws dk_secrets dk_config host "config.json".
Proof.
  split.
  - intros w. apply (config_loads dk_secrets dk_config (m := machine)).
  - intros c w. apply (config_saves dk_secrets dk_config (m := machine)).
  - intros url w. done.
Qed.

(** The first model of the list by name, under a name of its own. *)
Lemma local_host_configured_witness :
  exists w' model l', configureLocalHost host parse_url "config.json" "http://127.0.0.1:11434" "" (disk false) = (w', Ok model)
  /\ md_Name model = "llama3.2:1b" /\ dk_config w' = Some (set_backends l' settings) /\ map bk_Name l' = ["agent"; "local-llama3-2-1b"]
  /\ vault_complete dk_secrets dk_config w'.
Proof.
  assert (vault_complete dk_secrets dk_config (disk false)) as V.
  { intros c [= <-]. split; [apply NoDup_singleton|]. repeat constructor. intros _. exists "key". by vm_compute. }
  eexists _, _, _. split; [vm_compute; reflexivity|]. split; [reflexivity|]. split; [vm_compute; reflexivity|]. split; [reflexivity|].
  eapply (local_host_configured dk_secrets dk_config host parse_url "config.json" "http://127.0.0.1:11434" "" (disk false)); [exact V|].
  vm_compute. reflexivity.
Defined.
End HostingRun.
