(* ===== verification/Serve.v ===== *)
(** * A provider session of the CLI (cli/cmd/myference/main.go)

    [myference serve]: what it starts and, whatever happens, stops again; the
    loop that reconnects to the relay; the watchers of the stop request, the
    status, the configuration and the offer versions; and how the terminal UI
    starts and stops it.  The machine [W] carries the record of what the
    session did ([acts]), which no operation of the machine changes. *)

From S2P Require Import Prelude GoStrings GoTime Wire Receipt Messages Hex Flags ProviderAccount Backends.
From S2P Require Daemon.
From S2P Require Import ClientConfig ProviderOps BackendCommands Login Hosting.
From stdpp Require Import gmap strings.
Open Scope string_scope.
Open Scope list_scope.
Open Scope Z_scope.

(** ** What a session does *)
Inductive Watcher := StopWatcher | StatusWatcher | ConfigWatcher | VersionWatcher.
Inductive Scope := ServeScope | StatusScope | WatchScope.
Inductive Act :=
| Spawned (watcher : Watcher)
| Cancelled (scope : Scope)
| PlatformStarted
| PlatformRestored
| StatusWritten
| StatusRemoved
| Connected
| Slept (delay : Z).

(** The delays of the loop are int64 numbers of nanoseconds; [%s] of those a
    session uses, whole seconds below a minute. *)
Definition second : Z := 1000000000.
Definition duration_text (d : Z) : string := FormatUint (d / second) +:+ "s".
Definition wrap_int64 (n : Z) : Z := (n + 2 ^ 63) mod 2 ^ 64 - 2 ^ 63.
Definition next_delay (maximum delay : Z) : Z :=
  if delay <? maximum then let delay := wrap_int64 (delay * 2) in if maximum <? delay then maximum else delay else delay.
Definition initial_delay (initial : Z) : Z := if initial <=? 0 then second else initial.
Definition maximum_delay (initial maximum : Z) : Z := if maximum <? initial_delay initial then initial_delay initial else maximum.

Section Serve.
Context {W : Type} `{Ethereum} {PrivateKey : Type} `{SignerKeys PrivateKey}.
Definition S : Type := W * list Act.
Definition SM (A : Type) : Type := S -> S * result A.
#[local] Instance SM_ret : MRet SM := fun A a s => (s, Ok a).
#[local] Instance SM_bind : MBind SM := fun A B f p s => match p s with (s, Ok a) => f a s | (s, Err e) => (s, Err e) end.
Definition act (a : Act) : SM unit := fun s => ((s.1, s.2 ++ [a]), Ok tt).
(** An operation of the machine; it is recorded when it succeeds. *)
Definition run {A} (p : M (W := W) A) : SM A := fun s => let '(w, r) := p s.1 in ((w, s.2), r).
Definition recorded {A} (a : Act) (p : M (W := W) A) : SM A := x ← run p; _ ← act a; mret x.
Definition failing {A} (prefix : string) (p : SM A) : SM A := fun s =>
  match p s with (s, Err e) => (s, Err (ErrWrap prefix e)) | other => other end.

(** [connect] is [daemon.Serve] on a connection to the relay, from its dialling
    to its end; [sv_Sleep] waits for the timer, and tells whether it ran out
    before the context was done. *)
Record ServeMachine := mkServeMachine {
  sm_RemoveStop : M (W := W) unit;
  sm_StartPlatform : Config -> M (W := W) unit;
  sm_RestorePlatform : M (W := W) unit;
  sm_PreparePlatform : Config -> M (W := W) unit;
  sm_Print : string -> M (W := W) unit;
  sm_WriteStatus : Daemon.Config PrivateKey -> M (W := W) unit;
  sm_RemoveStatus : M (W := W) unit;
  sm_Connect : Daemon.Config PrivateKey -> gmap string BackendClient -> M (W := W) unit;
  sm_Done : W -> bool;
  sm_Sleep : Z -> W -> W * bool;
}.
Context (m : ServeMachine) (backends : Machine (W := W)) (load_config : string -> M (W := W) Config).
Context (url_parse : string -> option Url) (url_path : string -> string) (render : string -> string -> string -> string).
Context (error_text : error -> string).

(** ** The loop of the connections *)
(** At most [fuel] waits: nothing when it goes on. *)
Fixpoint reconnect (fuel : nat) (connect : M (W := W) unit) (maximum delay : Z) (s : S) : option (S * result unit) :=
  let '(w, r) := connect s.1 in
  let s := (w, s.2 ++ [Connected]) in
  if sm_Done m w then Some (s, Ok tt)
  else
    let text := "relay disconnected: " +:+ (match r with Ok _ => "<nil>" | Err e => error_text e end) +:+ "; retrying in "
                +:+ duration_text delay +:+ newline in
    match run (sm_Print m text) s with
    | (s, Err e) => Some (s, Err e)
    | (s, Ok _) =>
        let '(w, elapsed) := sm_Sleep m delay s.1 in
        let s := (w, s.2 ++ [Slept delay]) in
        if negb elapsed then Some (s, Ok tt)
        else match fuel with O => None | Datatypes.S fuel => reconnect fuel connect maximum (next_delay maximum delay) s end
    end.
Definition serveWithReconnect (fuel : nat) (initialDelay maximumDelay : Z) (connect : M (W := W) unit) (s : S) : option (S * result unit) :=
  reconnect fuel connect (maximum_delay initialDelay maximumDelay) (initial_delay initialDelay) s.

(** ** Deferred calls *)
Definition deferred (cleanup : result unit -> SM unit) (body : S -> option (S * result unit)) (s : S) : option (S * result unit) :=
  match body s with
  | None => None
  | Some (s, r) => Some (cleanup r s)
  end.
Definition cancel (scope : Scope) (r : result unit) : SM unit := fun s => let '(s, _) := act (Cancelled scope) s in (s, r).
Definition restore_platform (r : result unit) : SM unit := fun s =>
  match recorded PlatformRestored (sm_RestorePlatform m) s with
  | (s, Ok _) => (s, r)
  | (s, Err e) =>
      let s := (s.1, s.2 ++ [PlatformRestored]) in
      (s, Err (match r with
               | Ok _ => ErrWrap "restore provider host" e
               | Err first => ErrWrap (error_text first +:+ "; restore provider host") e
               end))
  end.
(** The status watcher is stopped and awaited before its file goes. *)
Definition remove_status (r : result unit) : SM unit := fun s =>
  let '(s, _) := act (Cancelled StatusScope) s in
  let '(w, removed) := sm_RemoveStatus m s.1 in
  ((w, s.2 ++ [StatusRemoved]),
   match removed, r with Err e, Ok _ => Err (ErrWrap "remove provider status" e) | _, _ => r end).

(** ** The session *)
Definition provider_config (st : ServeSettings (PrivateKey := PrivateKey)) (offers : list OfferCapacity) : Daemon.Config PrivateKey :=
  Daemon.mkConfig (ss_Relay st) (ss_Token st) (cf_MachineID (ss_Config st)) offers 0 0 (Some (ss_SignerKey st))
    (cf_ChainID (ss_Config st)) (BytesToAddress (ss_Contract st)).

Definition prepare_session (st : ServeSettings (PrivateKey := PrivateKey)) : SM (Daemon.Config PrivateKey * gmap string BackendClient) :=
  let cfg := ss_Config st in
  _ ← failing "prepare provider backends" (run (sm_PreparePlatform m cfg));
  found ← run (discoverBackends backends url_parse cfg);
  let '(offers, clients) := found in
  _ ← (fun s => (s, fail_if (bool_decide (length offers = 0%nat)) (ErrNew "no enabled backends")));
  _ ← run (sm_Print m ("serving " +:+ FormatUint (Z.of_nat (length offers)) +:+ " offer(s) from machine " +:+ cf_MachineID cfg +:+ newline));
  _ ← failing "initialize provider status" (recorded StatusWritten (sm_WriteStatus m (provider_config st offers)));
  _ ← act (Spawned StatusWatcher);
  mret (provider_config st offers, clients).

Definition watch_and_serve (fuel : nat) (config : Daemon.Config PrivateKey) (clients : gmap string BackendClient) : S -> option (S * result unit) :=
  deferred (cancel WatchScope) (fun s =>
    let '(s, _) := act (Spawned ConfigWatcher) s in
    let '(s, _) := act (Spawned VersionWatcher) s in
    serveWithReconnect fuel second (30 * second) (sm_Connect m config clients) s).
Definition serve_platform (fuel : nat) (st : ServeSettings (PrivateKey := PrivateKey)) : S -> option (S * result unit) :=
  deferred restore_platform (fun s =>
    match prepare_session st s with
    | (s, Err e) => Some (s, Err e)
    | (s, Ok (config, clients)) => deferred remove_status (watch_and_serve fuel config clients) s
    end).
Definition runServe (fuel : nat) (path : string) : S -> option (S * result unit) := fun s =>
  let '(s, _) := run (ignored (sm_RemoveStop m)) s in
  deferred (cancel ServeScope) (fun s =>
    let '(s, _) := act (Spawned StopWatcher) s in
    match run (serve_settings load_config (mc_LoadCredential backends) url_parse url_path render path) s with
    | (s, Err e) => Some (s, Err e)
    | (s, Ok st) =>
        match failing "prepare provider host" (recorded PlatformStarted (sm_StartPlatform m (ss_Config st))) s with
        | (s, Err e) => Some (s, Err e)
        | (s, Ok _) => serve_platform fuel st s
        end
    end) s.

(** ** The watchers, one tick each *)
(** [watchStopRequest]: whether the session is to stop; [stat] tells whether the
    file is there, [remove] removes it. *)
Definition stop_tick (stat : W -> bool) (remove : M (W := W) unit) (w : W) : W * bool :=
  if stat w then (fst (ignored remove w), true) else (w, false).
Definition status_tick (write : M (W := W) unit) (w : W) : W :=
  match write w with
  | (w, Ok _) => w
  | (w, Err e) => fst (ignored (sm_Print m ("provider status update failed: " +:+ error_text e +:+ newline)) w)
  end.
(** The daemon is given the backends of the configuration. *)
Definition reloadBackends {D} (update : list OfferCapacity -> gmap string BackendClient -> D -> D * result unit) (cfg : Config) (d : D) (w : W)
    : W * (D * result unit) :=
  match wrapped "prepare changed backends" (sm_PreparePlatform m cfg) w with
  | (w, Err e) => (w, (d, Err e))
  | (w, Ok _) =>
      match discoverBackends backends url_parse cfg w with
      | (w, Err e) => (w, (d, Err e))
      | (w, Ok (offers, clients)) => (w, update offers clients d)
      end
  end.
(** [modified] is the time the file was last written, when it is there; [last]
    the time of the version that was read. *)
Definition config_tick {D} (update : list OfferCapacity -> gmap string BackendClient -> D -> D * result unit) (modified : W -> option Z) (path : string)
    (last : Z) (d : D) (w : W) : W * (Z * D) :=
  match modified w with
  | None => (w, (last, d))
  | Some now =>
      if negb (last <? now) then (w, (last, d))
      else
        let '(w, (d, r)) := match load_config path w with
                            | (w, Err e) => (w, (d, Err e))
                            | (w, Ok cfg) => reloadBackends update cfg d w
                            end in
        let text := match r with Ok _ => "backend capacity updated" | Err e => "backend reload failed: " +:+ error_text e end in
        (fst (ignored (sm_Print m (text +:+ newline)) w), (now, d))
  end.
Definition version_tick (syncVersions : M (W := W) bool) (w : W) : W :=
  match syncVersions w with
  | (w, Err e) => fst (ignored (sm_Print m ("offer version sync failed: " +:+ error_text e +:+ newline)) w)
  | (w, Ok changed) => if changed then fst (ignored (sm_Print m ("offer versions synchronized" +:+ newline)) w) else w
  end.
End Serve.

(** ** From the terminal UI *)
(** What [Start] hears of the session it has started, until it returns: the
    session ends, its status file is read, or ten seconds are over. *)
Inductive StartEvent := SessionEnded (r : result unit) (canceled : bool) | StatusRead (startedAt : option Z) | StartTimeout.
(** Whether a session is running afterwards, and what [Start] returns. *)
Fixpoint start_loop (startedAfter : Z) (events : list StartEvent) : option (bool * result unit) :=
  match events with
  | [] => None
  | SessionEnded r canceled :: _ => Some (false, if canceled then Ok tt else r)
  | StatusRead (Some startedAt) :: rest => if startedAfter <? startedAt then Some (true, Ok tt) else start_loop startedAfter rest
  | StatusRead None :: rest => start_loop startedAfter rest
  | StartTimeout :: _ => Some (false, Err (ErrNew "provider startup timed out"))
  end.
(** [startedAfter] is a second before the call. *)
Definition Start (now : Z) (running : bool) (events : list StartEvent) : option (bool * result unit) :=
  if running then Some (true, Ok tt) else start_loop (now - Second) events.
