(* ===== verification/ServeSpec.v ===== *)
(** * Correctness of a provider session

    Whatever fails, a session undoes exactly what it did, in the opposite order;
    it reconnects with delays that double from one second to thirty; it ends
    once it is cancelled; and what the configuration watcher gives the daemon is
    what the configuration says. *)

From S2P Require Import Prelude GoStrings GoTime Wire Receipt Messages Hex Flags ProviderAccount Backends.
From S2P Require Daemon.
From S2P Require Import ClientConfig ProviderOps BackendCommands Login Hosting Serve LoginSpec BackendCommandsSpec Sample.
From stdpp Require Import gmap strings.
Open Scope string_scope.
Open Scope list_scope.
Open Scope Z_scope.

(** ** The delays *)
Definition backoff (initial maximum : Z) (n : nat) : Z := Z.min maximum (initial * 2 ^ Z.of_nat n).
(** What the loop does in [n] rounds that are followed by another. *)
Definition rounds (initial maximum : Z) (n : nat) : list Act :=
  concat (map (fun k => [Connected; Slept (backoff initial maximum k)]) (seq 0 n)).

Lemma next_backoff initial maximum n : 0 < initial <= maximum -> maximum < 2 ^ 62 ->
  next_delay maximum (backoff initial maximum n) = backoff initial maximum (Datatypes.S n).
Proof.
  intros Hi Hm. unfold next_delay, backoff. rewrite Nat2Z.inj_succ, Z.pow_succ_r by lia.
  pose proof (Z.pow_pos_nonneg 2 (Z.of_nat n) ltac:(lia) ltac:(lia)) as Hp.
  assert (initial <= initial * 2 ^ Z.of_nat n) by nia.
  destruct (Z.min maximum (initial * 2 ^ Z.of_nat n) <? maximum) eqn:E.
  - rewrite Z.min_r in * by lia. assert (wrap_int64 (initial * 2 ^ Z.of_nat n * 2) = initial * 2 ^ Z.of_nat n * 2) as ->.
    { unfold wrap_int64. rewrite Z.mod_small by lia. lia. }
    destruct (maximum <? _) eqn:F; lia.
  - lia.
Qed.
Lemma rounds_succ initial maximum n : rounds initial maximum (Datatypes.S n) = rounds initial maximum n ++ [Connected; Slept (backoff initial maximum n)].
Proof. unfold rounds. rewrite seq_S, map_app, concat_app. cbn. done. Qed.
(** The loop ends on a connection or in a wait. *)
Definition loop_acts (initial maximum : Z) (acts : list Act) : Prop :=
  exists n, acts = rounds initial maximum n ++ [Connected] \/ acts = rounds initial maximum (Datatypes.S n).

Section Session.
Context {W : Type} `{Ethereum} {PrivateKey : Type} `{SignerKeys PrivateKey}.
Context (m : ServeMachine (W := W) (PrivateKey := PrivateKey)) (backends : Machine (W := W)) (load_config : string -> M (W := W) Config).
Context (url_parse : string -> option Url) (url_path : string -> string) (render : string -> string -> string -> string).
Context (error_text : error -> string).

Lemma reconnect_acts fuel connect initial maximum : 0 < initial <= maximum -> maximum < 2 ^ 62 ->
  forall n w before s' r, reconnect m error_text fuel connect maximum (backoff initial maximum n) (w, before ++ rounds initial maximum n) = Some (s', r) ->
  exists more, s'.2 = before ++ more /\ loop_acts initial maximum more.
Proof.
  intros Hi Hm. induction fuel as [|fuel IH]; intros n w before s' r; cbn [reconnect];
    destruct (connect w) as [w1 r1] eqn:EC; cbn [fst snd]; rewrite EC;
    (destruct (sm_Done m w1); [intros [= <- _]; eexists; split; [cbn; by rewrite <- app_assoc|]; exists n; by left|]);
    unfold run; cbn [fst snd]; match goal with |- context [sm_Print m ?t w1] => destruct (sm_Print m t w1) as [w2 [u|e]] end; cbn [fst snd];
    try (intros [= <- _]; eexists; split; [cbn; by rewrite <- app_assoc|]; exists n; by left);
    (destruct (sm_Sleep m _ w2) as [w3 elapsed]; cbn [fst snd];
     assert (((before ++ rounds initial maximum n) ++ [Connected]) ++ [Slept (backoff initial maximum n)]
             = before ++ rounds initial maximum (Datatypes.S n)) as -> by (rewrite rounds_succ, <- !app_assoc; done);
     (destruct elapsed; cbn [negb]; [|intros [= <- _]; eexists; split; [done|]; exists n; by right])).
  - done.
  - rewrite next_backoff by done. apply IH.
Qed.
Lemma serveWithReconnect_acts fuel connect initial maximum w before s' r :
  0 < initial <= maximum -> maximum < 2 ^ 62 ->
  serveWithReconnect m error_text fuel initial maximum connect (w, before) = Some (s', r) ->
  exists more, s'.2 = before ++ more /\ loop_acts initial maximum more.
Proof.
  intros Hi Hm. unfold serveWithReconnect. assert (maximum_delay initial maximum = maximum /\ initial_delay initial = backoff initial maximum 0) as [-> ->].
  { unfold maximum_delay, initial_delay, backoff. destruct (initial <=? 0) eqn:E; [lia|]. destruct (maximum <? initial) eqn:F; [lia|].
    split; [done|]. cbn. lia. }
  intros E. apply (reconnect_acts fuel connect initial maximum Hi Hm 0 w before s' r). by rewrite app_nil_r.
Qed.

(** ** What a session does *)
Definition undone (acts : list Act) : Prop :=
  acts = [Spawned StopWatcher; Cancelled ServeScope]
  \/ acts = [Spawned StopWatcher; PlatformStarted; PlatformRestored; Cancelled ServeScope]
  \/ exists loop, loop_acts second (30 * second) loop
       /\ acts = [Spawned StopWatcher; PlatformStarted; StatusWritten; Spawned StatusWatcher; Spawned ConfigWatcher; Spawned VersionWatcher]
                 ++ loop ++ [Cancelled WatchScope; Cancelled StatusScope; StatusRemoved; PlatformRestored; Cancelled ServeScope].

Lemma prepare_session_acts st s s' r : prepare_session m backends url_parse st s = (s', r) ->
  s'.2 = match r with Ok _ => s.2 ++ [StatusWritten; Spawned StatusWatcher] | Err _ => s.2 end.
Proof.
  unfold prepare_session, failing, recorded, run, act, mbind, SM_bind, mret, SM_ret. destruct s as [w a]. cbn [fst snd].
  destruct (sm_PreparePlatform m (ss_Config st) w) as [w1 [u1|]]; cbn [fst snd]; [|by intros [= <- <-]].
  destruct (discoverBackends backends url_parse (ss_Config st) w1) as [w2 [[offers clients]|]]; cbn [fst snd]; [|by intros [= <- <-]].
  destruct (bool_decide _); cbn [fst snd fail_if]; [by intros [= <- <-]|].
  destruct (sm_Print m _ w2) as [w3 [u3|]]; cbn [fst snd]; [|by intros [= <- <-]].
  destruct (sm_WriteStatus m _ w3) as [w4 [u4|]]; cbn [fst snd]; intros [= <- <-]; cbn; [by rewrite <- app_assoc|done].
Qed.
Lemma restore_platform_acts r s : (restore_platform m error_text r s).1.2 = s.2 ++ [PlatformRestored].
Proof. unfold restore_platform, recorded, run, act, mbind, SM_bind, mret, SM_ret. destruct (sm_RestorePlatform m s.1) as [w [u|e]]; done. Qed.
Lemma remove_status_acts r s : (remove_status m r s).1.2 = s.2 ++ [Cancelled StatusScope; StatusRemoved].
Proof. unfold remove_status, act. cbn. destruct (sm_RemoveStatus m s.1) as [w removed]. cbn. by rewrite <- app_assoc. Qed.

Lemma watch_and_serve_acts fuel config clients s s' r : watch_and_serve m error_text fuel config clients s = Some (s', r) ->
  exists loop, loop_acts second (30 * second) loop
    /\ s'.2 = s.2 ++ [Spawned ConfigWatcher; Spawned VersionWatcher] ++ loop ++ [Cancelled WatchScope].
Proof.
  unfold watch_and_serve, deferred, act. destruct s as [w a]. cbn [fst snd].
  destruct (serveWithReconnect _ _ _ _ _ _ _) as [[s1 r1]|] eqn:E; [|done]. apply serveWithReconnect_acts in E as (loop & Es & Hl); [|done..].
  unfold cancel, act. intros [= <- <-]. exists loop. split; [done|]. cbn [fst snd]. rewrite Es, <- !app_assoc. done.
Qed.
Lemma serve_platform_acts fuel st s s' r : serve_platform m backends url_parse error_text fuel st s = Some (s', r) ->
  s'.2 = s.2 ++ [PlatformRestored]
  \/ exists loop, loop_acts second (30 * second) loop
       /\ s'.2 = s.2 ++ [StatusWritten; Spawned StatusWatcher; Spawned ConfigWatcher; Spawned VersionWatcher] ++ loop
                 ++ [Cancelled WatchScope; Cancelled StatusScope; StatusRemoved; PlatformRestored].
Proof.
  unfold serve_platform, deferred. destruct (prepare_session m backends url_parse st s) as [s1 [[config clients]|e]] eqn:P; apply prepare_session_acts in P.
  - destruct (watch_and_serve m error_text fuel config clients s1) as [[s2 r2]|] eqn:E; [|done]. apply watch_and_serve_acts in E as (loop & Hl & Es).
    pose proof (remove_status_acts r2 s2) as R. destruct (remove_status m r2 s2) as [s3 r3]. cbn [fst] in R. intros [= E]. right. exists loop. split; [done|].
    pose proof (restore_platform_acts r3 s3) as R'. rewrite E in R'. cbn [fst] in R'. rewrite R', R, Es, P, <- !app_assoc. done.
  - intros [= E]. left. pose proof (restore_platform_acts (Err e) s1) as R. rewrite E in R. cbn [fst] in R. by rewrite R, P.
Qed.

(** C18. A provider session undoes what it did, in the opposite order and exactly
    once, whatever fails: the preparation of the host is restored if it was
    made, the status file is removed if it was written, and every watcher it
    started is cancelled; between them it connects again and again, and the
    waits between the connections are one second, then two, doubling up to
    thirty and no further. *)
Theorem session_undone fuel path w s' r :
  runServe m backends load_config url_parse url_path render error_text fuel path (w, []) = Some (s', r) -> undone s'.2.
Proof.
  unfold runServe, run, deferred, act, cancel. cbn [fst snd]. destruct (ignored _ w) as [w1 r1]. cbn [fst snd app].
  destruct (serve_settings _ _ _ _ _ _ w1) as [w2 [st|e]]; cbn [fst snd]; [|intros [= <- <-]; by left].
  unfold failing, recorded, mbind, SM_bind, run, act, mret, SM_ret. cbn [fst snd].
  destruct (sm_StartPlatform m (ss_Config st) w2) as [w3 [u|e]]; cbn [fst snd]; [|intros [= <- <-]; by left].
  destruct (serve_platform _ _ _ _ _ _ _) as [[s1 r2]|] eqn:E; [|done]. intros [= <- <-]. cbn [fst snd].
  apply serve_platform_acts in E as [->|(loop & Hl & ->)]; cbn [fst snd app]; right; [by left|right].
  exists loop. split; [done|]. cbn [app]. by rewrite <- app_assoc.
Qed.

(** ** It ends *)
Section Ending.
Context (now : W -> Z) (stop : Z).
(** No clock runs back during an operation. *)
Definition later {A} (f : M (W := W) A) : Prop := forall w, now w <= now (fst (f w)).
(** The context is done after [stop], and a wait that runs out takes its time. *)
Class SessionClock := {
  sc_done w : stop < now w -> sm_Done m w = true;
  sc_sleep delay w : (sm_Sleep m delay w).2 = true -> now w + delay <= now (sm_Sleep m delay w).1;
  sc_connect config clients : later (sm_Connect m config clients);
  sc_print text : later (sm_Print m text);
  sc_stop : later (sm_RemoveStop m);
  sc_start c : later (sm_StartPlatform m c);
  sc_prepare c : later (sm_PreparePlatform m c);
  sc_status c : later (sm_WriteStatus m c);
  sc_config path : later (load_config path);
  sc_credential service account : later (mc_LoadCredential backends service account);
  sc_codex new model timeout : mc_NativeCodex backends = Some new -> later (new model timeout);
  sc_claude new model timeout : mc_NativeClaude backends = Some new -> later (new model timeout);
  sc_command image arguments kind model secret timeout : later (mc_Command backends image arguments kind model secret timeout);
  sc_models client : later (mc_Models backends client);
}.
Context `{!SessionClock}.

Lemma reconnect_ends fuel config clients maximum : forall delay s, second <= delay -> second <= maximum ->
  (forall d, second <= d -> second <= next_delay maximum d) ->
  stop < now s.1 + Z.of_nat fuel * second ->
  exists out, reconnect m error_text fuel (sm_Connect m config clients) maximum delay s = Some out.
Proof.
  assert (0 < second) as Hpos by done.
  induction fuel as [|fuel IH]; intros delay [w a] Hd Hmax Hnext Hs; cbn [fst] in Hs; cbn [reconnect fst snd];
    pose proof (sc_connect config clients w) as Hc; destruct (sm_Connect m config clients w) as [w1 r1] eqn:EC; cbn [fst snd] in *;
    destruct (sm_Done m w1) eqn:Hdone; try (by eexists); unfold run; cbn [fst snd];
    match goal with |- context [sm_Print m ?t w1] => pose proof (sc_print t w1) as Hp; destruct (sm_Print m t w1) as [w2 [u|e]] end;
    cbn [fst snd] in *; try (by eexists); pose proof (sc_sleep delay w2) as Hsl; destruct (sm_Sleep m delay w2) as [w3 [|]]; cbn [fst snd negb] in *;
    try (by eexists); specialize (Hsl eq_refl).
  - rewrite sc_done in Hdone; [done|lia].
  - apply IH; [by apply Hnext|done..|cbn [fst]; lia].
Qed.

Lemma later_bind {A B} (f : M (W := W) A) (g : A -> M (W := W) B) : later f -> (forall a, later (g a)) -> later (fun w =>
  match f w with (w, Ok a) => g a w | (w, Err e) => (w, Err e) end).
Proof. intros Hf Hg w. specialize (Hf w). destruct (f w) as [w1 [a|e]]; cbn [fst] in *; [|done]. specialize (Hg a w1). lia. Qed.
Lemma later_pure {A} (r : result A) : later (fun w => (w, r)).
Proof. by intros w. Qed.
Lemma later_wrapped {A} prefix (f : M (W := W) A) : later f -> later (wrapped prefix f).
Proof. intros Hf w. specialize (Hf w). unfold wrapped. by destruct (f w) as [w1 [a|e]]. Qed.

Lemma serve_settings_later path : later (serve_settings load_config (mc_LoadCredential backends) url_parse url_path render path).
Proof.
  unfold serve_settings. apply later_bind; [apply sc_config|intros cfg]. apply later_bind; [apply later_wrapped, sc_credential|intros token].
  apply later_bind; [apply later_pure|intros client]. apply later_bind; [apply later_wrapped, sc_credential|intros secret].
  apply later_bind; [apply later_pure|intros key]. apply later_bind; [apply later_pure|intros relay]. apply later_pure.
Qed.
Lemma client_later item machineID : later (configuredBackendWithNatives backends url_parse item machineID).
Proof.
  assert (later (command_client backends machineID item)) as Hc.
  { apply later_bind; [apply later_wrapped, sc_credential|intros secret; apply sc_command]. }
  assert (forall native title, (forall new, native = Some new -> later (new (bk_Model item) two_minutes)) -> later (native_client native title (bk_Model item))) as Hn.
  { intros [new|] title Hnew; [by apply Hnew|apply later_pure]. }
  unfold configuredBackendWithNatives. repeat case_match; try done.
  - apply later_bind; [apply later_pure|intros url; apply later_pure].
  - apply later_bind; [apply later_wrapped, sc_credential|intros secret]. apply later_bind; [apply later_pure|intros [url s]; apply later_pure].
  - apply Hn. intros new. apply sc_codex.
  - apply Hn. intros new. apply sc_claude.
  - apply later_pure.
Qed.
Lemma discover_later items machineID : forall offers clients, later (discover backends url_parse items machineID offers clients).
Proof.
  induction items as [|item items IH]; intros offers clients; cbn [discover]; [apply later_pure|].
  destruct (negb (bk_Enabled item)); [apply IH|]. apply later_bind; [apply later_pure|intros _].
  apply later_bind; [apply client_later|intros client]. apply later_bind; [apply later_wrapped, sc_models|intros models].
  apply later_bind; [apply later_pure|intros found]. apply IH.
Qed.
Lemma prepare_session_later st s : now s.1 <= now (fst (prepare_session m backends url_parse st s)).1.
Proof.
  unfold prepare_session, failing, recorded, run, act, mbind, SM_bind, mret, SM_ret. destruct s as [w a]. cbn [fst snd].
  pose proof (sc_prepare (ss_Config st) w) as L1. destruct (sm_PreparePlatform m (ss_Config st) w) as [w1 [u1|]]; cbn [fst snd] in *; [|done].
  pose proof (discover_later (cf_Backends (ss_Config st)) (cf_MachineID (ss_Config st)) [] ∅ w1) as L2. unfold discoverBackends.
  destruct (discover _ _ _ _ _ _ w1) as [w2 [[offers clients]|]]; cbn [fst snd] in *; [|lia].
  destruct (bool_decide _); cbn [fst snd fail_if]; [lia|].
  match goal with |- context [sm_Print m ?t w2] => pose proof (sc_print t w2) as L3 end. destruct (sm_Print m _ w2) as [w3 [u3|]]; cbn [fst snd] in *; [|lia].
  pose proof (sc_status (provider_config st offers) w3) as L4. destruct (sm_WriteStatus m _ w3) as [w4 [u4|]]; cbn [fst snd] in *; lia.
Qed.

(** A provider session ends once it is cancelled: with more waits left than
    seconds to the cancellation it has returned, whether or not the relay ever
    answers. *)
Theorem session_ends fuel path w : stop < now w + Z.of_nat fuel * second ->
  exists out, runServe m backends load_config url_parse url_path render error_text fuel path (w, []) = Some out.
Proof.
  intros Hf. unfold runServe, run, deferred, act, cancel, ignored. cbn [fst snd]. pose proof (sc_stop w) as L1.
  destruct (sm_RemoveStop m w) as [w1 r1]. cbn [fst snd] in *. pose proof (serve_settings_later path w1) as L2.
  destruct (serve_settings _ _ _ _ _ _ w1) as [w2 [st|e]]; cbn [fst snd] in *; [|by eexists].
  unfold failing, recorded, mbind, SM_bind, run, act, mret, SM_ret. cbn [fst snd]. pose proof (sc_start (ss_Config st) w2) as L3.
  destruct (sm_StartPlatform m (ss_Config st) w2) as [w3 [u|e]]; cbn [fst snd] in *; [|by eexists].
  unfold serve_platform, deferred. match goal with |- context [prepare_session m backends url_parse st ?s] => pose proof (prepare_session_later st s) as L4 end.
  destruct (prepare_session _ _ _ _ _) as [[w4 a4] [[config clients]|e]]; cbn [fst snd] in *.
  - unfold watch_and_serve, deferred, act, serveWithReconnect. cbn [fst snd].
    match goal with |- context [reconnect m error_text fuel ?c ?mx ?d ?s] =>
      destruct (reconnect_ends fuel config clients mx d s) as [[s5 r5] E5]; [done|done| |cbn [fst]; lia|rewrite E5] end.
    { assert (1000000000 <= 30 * 1000000000) by done. unfold next_delay, wrap_int64. change (maximum_delay second (30 * second)) with 30000000000.
      change second with 1000000000. intros d Hd. destruct (d <? 30000000000) eqn:E; [|done]. apply Z.ltb_lt in E. rewrite Z.mod_small by (change (2 ^ 63) with 9223372036854775808; change (2 ^ 64) with 18446744073709551616; lia). destruct (_ <? _); lia. }
    destruct (Serve.cancel WatchScope r5 s5) as [s6 r6]. destruct (remove_status m r6 s6) as [s7 r7]. destruct (restore_platform m error_text r7 s7) as [s8 r8].
    by eexists.
  - destruct (restore_platform m error_text (Err e) (w4, a4)) as [s8 r8]. by eexists.
Qed.
End Ending.

(** ** The configuration that is served *)
(** When the watcher reports that the capacity was updated, the daemon offers
    what the configuration says, with a client for every offer; a failing
    reload leaves the daemon as it was. *)
Lemma reload_as_configured (now : Z) (serve : BackendClient -> Daemon.Backend) cfg (d d' : Daemon.Daemon PrivateKey) w w' r :
  reloadBackends m backends url_parse (fun offers clients => Daemon.UpdateBackends now offers (serve <$> clients)) cfg d w = (w', (d', r)) ->
  match r with
  | Err _ => d' = d
  | Ok _ => exists w1 clients, discoverBackends backends url_parse cfg w1 = (w', Ok (Daemon.cf_Offers (Daemon.dm_config d'), clients))
                /\ Daemon.dm_backends d' = serve <$> clients
  end.
Proof.
  unfold reloadBackends, wrapped. destruct (sm_PreparePlatform m cfg w) as [w1 [u|e]]; [|by intros [= <- <- <-]].
  destruct (discoverBackends backends url_parse cfg w1) as [w2 [[offers clients]|e]] eqn:D; [|by intros [= <- <- <-]].
  unfold Daemon.UpdateBackends. destruct (if bool_decide _ then _ else _); [|by intros [= <- <- <-]]. intros [= <- <- <-].
  exists w1, clients. by rewrite D.
Qed.
End Session.

(** ** Starting a session from the terminal

    [Start] reports success only for a session that wrote its status after the
    call began, which then runs, or for one that ended by itself without an
    error or was cancelled; whatever it reports about an ended session or after
    the timeout, none is running. *)
Definition stale (after : Z) (e : StartEvent) : Prop :=
  match e with StatusRead (Some startedAt) => startedAt <= after | StatusRead None => True | _ => False end.
Lemma start_loop_spec after events running r :
  start_loop after events = Some (running, r) <->
  exists seen e rest, events = seen ++ e :: rest /\ Forall (stale after) seen
  /\ match e with
     | StatusRead started => (exists t, started = Some t /\ after < t) /\ running = true /\ r = Ok tt
     | SessionEnded ended canceled => running = false /\ r = (if canceled then Ok tt else ended)
     | StartTimeout => running = false /\ r = Err (ErrNew "provider startup timed out")
     end.
Proof.
  split.
  - induction events as [|e events IH]; [done|]. cbn [start_loop]. destruct e as [ended canceled|[t|]|].
    + intros [= <- <-]. by exists [], (SessionEnded ended canceled), events.
    + destruct (after <? t) eqn:E.
      * intros [= <- <-]. exists [], (StatusRead (Some t)), events. split_and!; [done|constructor|exists t; split; [done|lia]|done|done].
      * intros (seen & e & rest & -> & Hs & He)%IH. exists (StatusRead (Some t) :: seen), e, rest.
        split_and!; [done|constructor; [cbn; lia|done]|done].
    + intros (seen & e & rest & -> & Hs & He)%IH. exists (StatusRead None :: seen), e, rest. split_and!; [done|by constructor|done].
    + intros [= <- <-]. by exists [], StartTimeout, events.
  - intros (seen & e & rest & -> & Hs & He). induction Hs as [|x seen Hx Hs IH]; cbn [app start_loop].
    + destruct e as [ended canceled|[t|]|]; [by destruct He as [-> ->]| | |by destruct He as [-> ->]].
      * destruct He as ((t' & [= <-] & Ht) & -> & ->). by replace (after <? t) with true by lia.
      * by destruct He as ((t' & [=] & _) & _).
    + destruct x as [|[t|]|]; try done. cbn in Hx. by replace (after <? t) with false by lia.
Qed.

(** ** A concrete session *)
Module ServeRun.
Import BackendRun.
#[local] Existing Instance LoginRun.toy_keys.
Definition backends : BackendCommands.Machine (W := Z) := BackendCommands.mkMachine
  (fun now => (now, Ok settings)) (fun _ now => (now, Ok tt))
  (fun service _ now => (now, Ok (if String.eqb service signerCredentialService then "07" else "secret")))
  None None None None
  (fun image arguments kind model secret _ now => (now, Ok (CommandClient image arguments kind model secret)))
  (fun _ now => (now, Ok [mkModel "k2" "sha256:1" 0])) (fun _ now => (now, Ok tt)).
Definition provider : Config := mkConfig "https://broker" "acc_1" "mach_1" 10143 contract_address "" [kimi].
(** The relay cannot be reached; the user stops the session after ten seconds. *)
Definition session : ServeMachine (W := Z) (PrivateKey := unit) := mkServeMachine
  (fun now => (now, Ok tt)) (fun _ now => (now, Ok tt)) (fun now => (now, Ok tt)) (fun _ now => (now, Ok tt)) (fun _ now => (now, Ok tt))
  (fun _ now => (now, Ok tt)) (fun now => (now, Ok tt)) (fun _ _ now => (now, Err ErrDisconnected))
  (fun now => 10 * second <? now) (fun delay now => (now + delay, true)).
Definition load_config (_ : string) (now : Z) : Z * result Config := (now, Ok provider).
Definition serve (fuel : nat) := runServe session backends load_config LoginRun.parse_url (fun _ => "/")
  (fun _ scheme path => scheme +:+ "://broker" +:+ path) LoginRun.text_of fuel "config.json" (0, []).

Lemma session_undone_witness : exists s' r, serve 11 = Some (s', r) /\ undone s'.2
  /\ take 14 s'.2 = [Spawned StopWatcher; PlatformStarted; StatusWritten; Spawned StatusWatcher; Spawned ConfigWatcher; Spawned VersionWatcher;
                     Connected; Slept second; Connected; Slept (2 * second); Connected; Slept (4 * second); Connected; Slept (8 * second)].
Proof.
  eexists _, _. split; [vm_compute; reflexivity|]. split; [|vm_compute; reflexivity].
  apply (session_undone session backends load_config LoginRun.parse_url (fun _ => "/") (fun _ scheme path => scheme +:+ "://broker" +:+ path)
           LoginRun.text_of 11 "config.json" 0 _ (Ok tt)). vm_compute. reflexivity.
Defined.

Lemma session_ends_witness : exists out, serve 11 = Some out.
Proof.
  assert (SessionClock session backends load_config (fun now : Z => now) (10 * second)) as C by (split; unfold later; intros; cbn [fst session sm_Done sm_Sleep backends mc_NativeCodex mc_NativeClaude] in *; try done; try (by apply Z.ltb_lt); cbn; lia).
  apply (session_ends session backends load_config LoginRun.parse_url (fun _ => "/") (fun _ scheme path => scheme +:+ "://broker" +:+ path)
           LoginRun.text_of (fun now => now) (10 * second)). vm_compute. reflexivity.
Defined.
End ServeRun.
