(* ===== verification/Cli.v ===== *)
(** * The commands of the CLI (cli/cmd/myference/main.go)

    What [main] runs, the merge of discovered and configured backends for the
    terminal UI, the attestation that [status] prints, and the hook that denies
    the tools of an agent. *)

From S2P Require Import Prelude GoStrings GoTime Wire Receipt Messages Hex Flags ProviderAccount Backends Host.
From S2P Require Import ClientConfig ProviderOps BackendCommands Login Hosting Serve.
From Stdlib Require Import Ascii.
From stdpp Require Import gmap strings.
Open Scope string_scope.
Open Scope list_scope.
Open Scope Z_scope.

(** ** Entry *)
Inductive applicationEntryMode := entryCommand | entryTUI | entryUsage.
Definition entryMode (args : list string) (stdinTTY stdoutTTY : bool) : applicationEntryMode :=
  match args with
  | _ :: _ => entryCommand
  | [] => if stdinTTY && stdoutTTY then entryTUI else entryUsage
  end.
Definition environmentOr (value : option string) (fallback : string) : string :=
  let value := TrimSpace (default "" value) in if String.eqb value "" then fallback else value.
Definition config_flags : flag_specs := [ ("config", StringFlag) ].
Definition parseConfigFlag (defaultConfigPath : string) (args : list string) : result string :=
  set ← ParseFlags config_flags args; Ok (string_flag "config" defaultConfigPath set).
Definition status_flags : flag_specs := [ ("config", StringFlag); ("json", BoolFlag) ].
(** [filepath.Join] of the user's configuration directory, when it is known. *)
Definition defaultConfigPath (join : list string -> string) (dir : option string) : string :=
  match dir with Some dir => join [dir; "myference"; "config.json"] | None => "myference.json" end.

(** ** Candidates of the terminal UI *)
Section Candidates.
Context `{Unicode}.
(** [slices.SortFunc], which may order equal candidates in any way. *)
Context (sort_slice : list Candidate -> list Candidate).

(** Nothing when the kind is empty: the slice is out of range. *)
Definition configured_candidate (item : Backend) : option Candidate :=
  match bk_Kind item with
  | "" => None
  | String c rest =>
      Some (identified (mkCandidate "" (bk_Kind item) (ToUpper (String c "") +:+ rest) (bk_URL item) (bk_Model item) "" (bk_Image item)
                          StateReady "" 0 (bk_Enabled item)))
  end.
Definition set_selected (selected : bool) (c : Candidate) : Candidate :=
  mkCandidate (ca_ID c) (ca_Kind c) (ca_Name c) (ca_URL c) (ca_Model c) (ca_Digest c) (ca_Image c) (ca_State c) (ca_Hint c)
    (ca_Size c) selected.
Definition with_id (id : string) (c : Candidate) : bool := String.eqb (ca_ID c) id.
Fixpoint select_first (id : string) (selected : bool) (l : list Candidate) : list Candidate :=
  match l with
  | [] => []
  | c :: rest => if with_id id c then set_selected selected c :: rest else c :: select_first id selected rest
  end.
Definition merge_candidate (l : list Candidate) (candidate : Candidate) : list Candidate :=
  if existsb (with_id (ca_ID candidate)) l then select_first (ca_ID candidate) (ca_Selected candidate) l else l ++ [candidate].
Fixpoint merge_backends (l : list Candidate) (backends : list Backend) : option (list Candidate) :=
  match backends with
  | [] => Some l
  | item :: rest => candidate ← configured_candidate item; merge_backends (merge_candidate l candidate) rest
  end.
Definition mergeConfiguredCandidates (discovered : list Candidate) (backends : list Backend) : option (list Candidate) :=
  sort_slice <$> merge_backends discovered backends.
End Candidates.

(** ** The attestation of [status --json] *)
Section Status.
Context {W : Type} `{Ethereum} {PrivateKey : Type} `{SignerKeys PrivateKey}.
#[local] Instance ST_ret : MRet (M (W := W)) := fun A a w => (w, Ok a).
#[local] Instance ST_bind : MBind (M (W := W)) := fun A B f m w => match m w with (w, Ok a) => f a w | (w, Err e) => (w, Err e) end.
(** [render] is [json.Marshal], [TextHash] [accounts.TextHash], [Sign]
    [crypto.Sign]; the release and the platform are constants of the build. *)
Context (load_credential : string -> string -> M (W := W) string) (render_json : json -> string).
Context (TextHash : bytes -> bytes) (Sign : bytes -> PrivateKey -> result bytes) (now : W -> Z).
Context (goos goarch version commit : string).

Record StatusDocument := mkStatusDocument {
  sd_machine_id : string; sd_account_id : string; sd_signer_address : string; sd_backends : Z; sd_capacity : Capacity;
  sd_capacity_payload : string; sd_capacity_sha256 : string; sd_generated_at : string; sd_attestation_message : string;
  sd_attestation_signature : string;
}.
(** [time.RFC3339] *)
Definition RFC3339 (t : Z) : string := RFC3339Nano (t - t mod Second).
Definition attestation_message (machineID generatedAt capacitySHA256 : string) : string :=
  GoStrings.Join ["myference-status:v2"; machineID; goos; goarch; version; commit; generatedAt; capacitySHA256] ":".
Definition valid_capacity (capacity : Capacity) : bool :=
  is_ok (CapacityValidate capacity) && (cap_Available capacity =? Z.of_nat (length (cap_Offers capacity)) mod 2 ^ 32).
Definition writeStatusJSON (cfg : Config) (capacity : Capacity) : M (W := W) StatusDocument :=
  _ ← lift (fail_if (negb (valid_capacity capacity)) (ErrNew "invalid live capacity"));
  let capacityJSON := string_bytes (render_json (Marshal capacity)) in
  let capacitySHA256 := hex_bytes (Sum256 capacityJSON) in
  signerKey ← status_signer load_credential cfg;
  generatedAt ← (fun w => (w, Ok (RFC3339 (now w))));
  let message := attestation_message (cf_MachineID cfg) generatedAt capacitySHA256 in
  signature ← lift (Sign (TextHash (string_bytes message)) signerKey);
  mret (mkStatusDocument (cf_MachineID cfg) (cf_AccountID cfg) (signer_address signerKey) (Z.of_nat (length (cf_Backends cfg))) capacity
          (b64_encode capacityJSON) capacitySHA256 generatedAt message ("0x" +:+ hex_bytes (add_v 27 signature))).
End Status.

(** ** The hook of an agent's tools *)
Definition deny_decision : json :=
  JObj [("hookSpecificOutput", JObj [("hookEventName", JStr "PreToolUse"); ("permissionDecision", JStr "deny");
         ("permissionDecisionReason", JStr "Myference model-only provider blocks all Codex tools.")])].
(** [input] is what can be read of the input, at most a byte beyond the limit;
    [write] writes the marker. *)
Definition runCodexDenyTool {W} (marker : option string) (input : result string) (write : string -> string -> M (W := W) unit) (w : W)
    : W * result json :=
  let marker := TrimSpace (default "" marker) in
  if String.eqb marker "" then (w, Err (ErrNew "Codex tool marker is not configured"))
  else
    match input with
    | Err e => (w, Err e)
    | Ok raw =>
        if 1048576 <? go_len raw then (w, Err (ErrNew "Codex tool hook input is too large"))
        else match write marker "blocked" w with
             | (w, Err e) => (w, Err e)
             | (w, Ok _) => (w, Ok deny_decision)
             end
    end.

(** ** Dispatch *)
(** The commands, each with the arguments after its name. *)
Record Commands W := mkCommands {
  cm_login : list string -> Waits W unit; cm_backend : list string -> Waits W unit; cm_host : list string -> Waits W unit;
  cm_offer : list string -> Waits W unit; cm_collateral : list string -> Waits W unit; cm_capacity : string -> Waits W unit;
  cm_status : string -> bool -> Waits W unit; cm_serve : string -> bool -> Waits W unit; cm_service : list string -> Waits W unit;
  cm_deny_tool : Waits W unit;
}.
(** [canceled] is [errors.Is(err, context.Canceled)]. *)
Definition unless_canceled {W} (canceled : error -> bool) (p : Waits W unit) : Waits W unit := fun w =>
  match p w with
  | Some (w, Err e) => Some (w, if canceled e then Ok tt else Err e)
  | other => other
  end.
Definition run_command {W} (c : Commands W) (canceled : error -> bool) (defaultPath : string) (args : list string) : Waits W unit :=
  match args with
  | [] => pure_wait (Err (ErrNew "usage: myference login | host | backend | offer | collateral | capacity | status | serve | service"))
  | command :: rest =>
      if String.eqb command "login" then cm_login W c rest
      else if String.eqb command "backend" then cm_backend W c rest
      else if String.eqb command "host" then cm_host W c rest
      else if String.eqb command "offer" then cm_offer W c rest
      else if String.eqb command "collateral" then cm_collateral W c rest
      else if String.eqb command "capacity" || String.eqb command "publish" then
        path ← pure_wait (parseConfigFlag defaultPath rest); cm_capacity W c path
      else if String.eqb command "status" then
        set ← pure_wait (ParseFlags status_flags rest);
        cm_status W c (string_flag "config" defaultPath set) (bool_flag "json" set)
      else if String.eqb command "serve" then
        options ← pure_wait (parseServeFlags defaultPath rest);
        unless_canceled canceled (cm_serve W c (fst options) (snd options))
      else if String.eqb command "service" then cm_service W c rest
      else if String.eqb command "internal" then
        match rest with
        | ["codex-deny-tool"] => cm_deny_tool W c
        | _ => pure_wait (Err (ErrNew "unknown internal command"))
        end
      else pure_wait (Err (ErrNew "unknown command"))
  end.
Definition runApplication {W} (c : Commands W) (canceled : error -> bool) (defaultPath : string) (launchTUI : option (Waits W unit))
    (args : list string) (stdinTTY stdoutTTY : bool) : Waits W unit :=
  match entryMode args stdinTTY stdoutTTY with
  | entryTUI => match launchTUI with
                | Some launch => launch
                | None => pure_wait (Err (ErrNew "interactive hosting UI is unavailable"))
                end
  | _ => run_command c canceled defaultPath args
  end.
