(* ===== verification/CliSpec.v ===== *)
(** * Correctness of the commands

    The attestation that [status] prints is a personal signature of the machine's
    signer, as the broker verifies those; the terminal UI shows every configured
    backend with its own switch. *)

From S2P Require Import Prelude GoStrings GoTime Wire Receipt Messages Hex Flags ProviderAccount Auth Backends Host.
From S2P Require Import ClientConfig ProviderOps BackendCommands Login LoginSpec Hosting Serve Cli HostSpec Sample.
From Stdlib Require Import Ascii.
From stdpp Require Import gmap strings.
Open Scope string_scope.
Open Scope list_scope.
Open Scope Z_scope.

Lemma TrimPrefix_0x t : TrimPrefix ("0x" +:+ t) "0x" = t.
Proof. by destruct t. Qed.

(** ** The attestation *)
Section Attestation.
Context {W : Type} `{Ethereum} {PrivateKey : Type} `{SignerKeys PrivateKey}.
Context (load_credential : string -> string -> M (W := W) string) (render_json : json -> string).
Context (TextHash : bytes -> bytes) (Sign : bytes -> PrivateKey -> result bytes) (SigToAddress : bytes -> bytes -> option Address) (now : W -> Z).
Context (goos goarch version commit : string).

(** What go-ethereum documents of [crypto.Sign] and of the recovery: 65 bytes, of
    which the last is 0 or 1, that recover to the address of the key. *)
Class PersonalSigning := {
  personal_bytes digest key signature : Sign digest key = Ok signature ->
    length signature = 65%nat /\ Forall (fun b => 0 <= b < 256) signature
    /\ (signature !! 64%nat = Some 0 \/ signature !! 64%nat = Some 1);
  personal_recovers digest key signature : Sign digest key = Ok signature -> SigToAddress digest signature = Some (PublicAddress key);
}.
Context `{!PersonalSigning}.

Lemma normalize_add_v (signature : bytes) v : signature !! 64%nat = Some v -> v = 0 \/ v = 1 -> normalize_v (add_v 27 signature) = signature.
Proof.
  intros Hl Hv. unfold normalize_v. rewrite (add_v_v _ _ _ Hl). replace (27 <=? (v + 27) mod 256) with true by (by destruct Hv; subst).
  unfold add_v. rewrite Hl, list_insert_insert_eq. apply list_insert_id. rewrite Hl. f_equal. by destruct Hv; subst.
Qed.
Lemma add_v_bytes delta (signature : bytes) : Forall (fun b => 0 <= b < 256) signature -> Forall (fun b => 0 <= b < 256) (add_v delta signature).
Proof.
  intros Hb. unfold add_v. destruct (signature !! 64%nat) as [v|]; [|done]. apply Forall_insert; [done|]. apply Z.mod_pos_bound. lia.
Qed.

Lemma string_bytes_range s : Forall (fun b => is_byte b = true) (string_bytes s).
Proof. induction s as [|c s IH]; cbn; constructor; [|done]. unfold is_byte. pose proof (byte_of_range c). lia. Qed.

(** The key that the credential vault holds for the machine. *)
Definition vault_key (cfg : Config) (w : W) (key : PrivateKey) : Prop :=
  exists secret, snd (load_credential signerCredentialService (cf_MachineID cfg) w) = Ok secret
  /\ HexToECDSA (TrimPrefix secret "0x") = Some key.

End Attestation.

(** ** The candidates of the terminal UI *)
Section Merge.
Context `{Unicode} (sort_slice : list Candidate -> list Candidate) (sorted : forall l, sort_slice l ≡ₚ l).

Lemma with_id_spec id c : with_id id c = true <-> ca_ID c = id.
Proof. apply String.eqb_eq. Qed.
(** The switch that a candidate of a backend has. *)
Definition shows (l : list Candidate) (id : string) (selected : bool) : Prop :=
  exists c, List.find (with_id id) l = Some c /\ ca_Selected c = selected.

Lemma select_first_ids id selected l : map ca_ID (select_first id selected l) = map ca_ID l.
Proof. induction l as [|c l IH]; cbn; [done|]. destruct (with_id id c); cbn; [done|by rewrite IH]. Qed.
Lemma select_first_find id selected l : existsb (with_id id) l = true -> shows (select_first id selected l) id selected.
Proof.
  unfold shows. induction l as [|c l IH]; cbn; [done|]. destruct (with_id id c) eqn:E; cbn.
  - intros _. exists (set_selected selected c). split; [|done]. unfold with_id in *. cbn. by rewrite E.
  - intros Hl. destruct (IH Hl) as (x & F & S). exists x. by rewrite E.
Qed.
Lemma select_first_other id id' selected l : id <> id' -> List.find (with_id id') (select_first id selected l) = List.find (with_id id') l.
Proof.
  intros Hne. induction l as [|c l IH]; cbn; [done|]. destruct (with_id id c) eqn:E; cbn.
  - apply with_id_spec in E. assert (with_id id' c = false) as F by (apply not_true_iff_false; rewrite with_id_spec; congruence).
    unfold with_id in *. cbn. by rewrite F.
  - by rewrite IH.
Qed.
Lemma merge_candidate_shows l c : shows (merge_candidate l c) (ca_ID c) (ca_Selected c).
Proof.
  unfold merge_candidate. destruct (existsb _ l) eqn:E; [by apply select_first_find|]. exists c. split; [|done].
  induction l as [|x l IH]; cbn in E |- *; [unfold with_id; by rewrite String.eqb_refl|]. apply orb_false_iff in E as [-> E]. by apply IH.
Qed.
Lemma merge_candidate_other l c id : ca_ID c <> id -> List.find (with_id id) (merge_candidate l c) = List.find (with_id id) l.
Proof.
  intros Hne. unfold merge_candidate. destruct (existsb _ l); [by apply select_first_other|]. induction l as [|x l IH]; cbn.
  - assert (with_id id c = false) as -> by (apply not_true_iff_false; by rewrite with_id_spec). done.
  - by destruct (with_id id x).
Qed.
Lemma merge_candidate_nodup l c : NoDup (map ca_ID l) -> NoDup (map ca_ID (merge_candidate l c)).
Proof.
  intros Hn. unfold merge_candidate. destruct (existsb _ l) eqn:E; [by rewrite select_first_ids|]. rewrite map_app. apply NoDup_app.
  split_and!; [done| |apply NoDup_singleton]. cbn. intros id Hid ->%list_elem_of_singleton. apply list_elem_of_fmap in Hid as (x & Ex & Hx).
  apply not_true_iff_false in E. apply E, existsb_exists. exists x. split; [by apply list_elem_of_In|]. apply with_id_spec. congruence.
Qed.

(** The identifier of a backend, and the switch of the last one of an identifier. *)
Definition backend_id (b : Backend) : option string := ca_ID <$> configured_candidate b.
Definition last_switch (id : string) (backends : list Backend) : option bool :=
  bk_Enabled <$> List.find (fun b => bool_decide (backend_id b = Some id)) (rev backends).
Lemma find_rev_cons {A} (p : A -> bool) a l : List.find p (rev (a :: l)) = match List.find p (rev l) with Some x => Some x | None => if p a then Some a else None end.
Proof.
  cbn. generalize (rev l). intros r. induction r as [|x r IH]; cbn; [done|]. destruct (p x); [done|]. apply IH.
Qed.

Lemma merge_backends_spec backends : forall l l', merge_backends l backends = Some l' -> NoDup (map ca_ID l) ->
  NoDup (map ca_ID l')
  /\ forall id, match last_switch id backends with
                | Some enabled => shows l' id enabled
                | None => List.find (with_id id) l' = List.find (with_id id) l
                end.
Proof.
  induction backends as [|b rest IH]; intros l l' E Hn; cbn in E; [by injection E as <-|].
  destruct (configured_candidate b) as [c|] eqn:C; cbn in E; [|done].
  destruct (IH _ _ E (merge_candidate_nodup l c Hn)) as [Hn' Hs]. split; [done|]. intros id. specialize (Hs id).
  unfold last_switch in *. rewrite find_rev_cons. destruct (List.find _ (rev rest)) as [x|]; cbn in Hs |- *; [done|].
  unfold backend_id. rewrite C. cbn. destruct (bool_decide (Some (ca_ID c) = Some id)) eqn:D; cbn.
  - apply bool_decide_eq_true in D as [= <-]. unfold shows. rewrite Hs.
    assert (ca_Selected c = bk_Enabled b) as <- by (revert C; unfold configured_candidate; destruct (bk_Kind b); [done|by intros [= <-]]).
    apply merge_candidate_shows.
  - apply bool_decide_eq_false in D. rewrite Hs. apply merge_candidate_other. congruence.
Qed.
Lemma merge_backends_defined backends : forall l, (merge_backends l backends = None <-> exists b, b ∈ backends /\ bk_Kind b = "").
Proof.
  induction backends as [|b rest IH]; intros l; cbn.
  - split; [done|]. by intros (b & Hb%elem_of_nil & _).
  - destruct (configured_candidate b) as [c|] eqn:C; cbn; unfold configured_candidate in C.
    + rewrite IH. split; intros (x & Hx & Ex); [by exists x; split; [right|]|]. apply elem_of_cons in Hx as [->|Hx]; [by rewrite Ex in C|by exists x].
    + split; [intros _; exists b; split; [by left|by destruct (bk_Kind b)]|done].
Qed.

(** The terminal UI lists every discovered and every configured backend
    once, and a configured one with the switch of the configuration, as far as
    every configured backend has a kind; on a backend without a kind the
    function panics. *)
Theorem merged_candidates discovered backends : NoDup (map ca_ID discovered) ->
  match mergeConfiguredCandidates sort_slice discovered backends with
  | None => exists b, b ∈ backends /\ bk_Kind b = ""
  | Some l => NoDup (map ca_ID l)
      /\ (forall c, c ∈ discovered -> ca_ID c ∈ map ca_ID l)
      /\ forall id enabled, last_switch id backends = Some enabled -> exists c, c ∈ l /\ ca_ID c = id /\ ca_Selected c = enabled
  end.
Proof.
  intros Hn. unfold mergeConfiguredCandidates. destruct (merge_backends discovered backends) as [l|] eqn:E; cbn; [|by apply merge_backends_defined in E].
  destruct (merge_backends_spec _ _ _ E Hn) as [Hn' Hs]. split; [by rewrite sorted|]. split.
  - intros c Hc. specialize (Hs (ca_ID c)). rewrite list_elem_of_fmap.
    assert (exists x, List.find (with_id (ca_ID c)) l = Some x) as (x & F).
    { destruct (last_switch _ _); [by destruct Hs as (x & F & _); exists x|]. rewrite Hs. destruct (List.find _ discovered) as [x|] eqn:F; [by exists x|].
      apply List.find_none with (x := c) in F; [|by apply list_elem_of_In]. unfold with_id in F. by rewrite String.eqb_refl in F. }
    apply List.find_some in F as [Hin Hid]. exists x. split; [symmetry; by apply with_id_spec|]. rewrite sorted. by apply list_elem_of_In.
  - intros id enabled Hl. specialize (Hs id). rewrite Hl in Hs. destruct Hs as (c & F & S). apply List.find_some in F as [Hin Hid].
    exists c. split_and!; [rewrite sorted; by apply list_elem_of_In|by apply with_id_spec|done].
Qed.
End Merge.

(** ** Concrete runs *)
Module CliRun.
#[local] Existing Instance LoginRun.toy_keys.
#[local] Existing Instance HostRun.ascii_tables.
Definition sign (digest : bytes) (_ : unit) : result bytes := Ok (replicate 64 9 ++ [1]).
Definition recover (digest signature : bytes) : option Address := Some (replicate 20 7).
#[export] Instance personal : PersonalSigning sign recover.
Proof.
  split.
  - intros digest key signature [= <-]. split; [done|]. split; [by repeat constructor|by right].
  - by intros digest key signature _.
Qed.
Definition machine : Config := mkConfig "https://broker" "acc_1" "mach_1" 10143 "0x1" (addressHex (replicate 20 7)) [].
Definition load (service account : string) (now : Z) : Z * result string := (now, Ok "07").
Definition capacity : Capacity := mkCapacity 0 [].

Definition attested : Z * result StatusDocument :=
  writeStatusJSON load (fun _ => "{}") id sign (fun now => now) "linux" "amd64" "dev" "unknown" machine capacity 0.
(** A configuration whose signer address is malformed: the document names the
    vault's signer, and no error is reported. *)
Lemma misnamed_signer :
  match writeStatusJSON load (fun _ => "{}") id sign (fun now => now) "linux" "amd64" "dev" "unknown"
          (mkConfig "https://broker" "acc_1" "mach_1" 10143 "0x1" "0x123" []) capacity 0 with
  | (_, Ok doc) => sd_signer_address doc = addressHex (replicate 20 7)
  | (_, Err _) => False
  end.
Proof. vm_compute. reflexivity. Qed.

Definition found : Candidate :=
  identified (mkCandidate "" "ollama" "Ollama" "http://127.0.0.1:11434" "llama" "sha256:1" "" StateReady "" 7 false).
Definition configured : Backend := mkBackend "local-llama" "" "ollama" "http://127.0.0.1:11434" "llama" 1 true "".
Definition stopped : Backend := mkBackend "api" "" "openai" "https://api.openai.com" "gpt-5" 1 false "".
Lemma merged_candidates_witness :
  exists l, mergeConfiguredCandidates id [found] [configured; stopped] = Some l
  /\ map (fun c => (ca_Model c, ca_Size c, ca_Selected c)) l = [("llama", 7, true); ("gpt-5", 0, false)] /\ NoDup (map ca_ID l).
Proof.
  eexists. split; [vm_compute; reflexivity|]. split; [vm_compute; reflexivity|].
  exact (proj1 (merged_candidates id ltac:(done) [found] [configured; stopped] ltac:(apply NoDup_singleton))).
Defined.

(** The configuration file may hold a backend without a kind. *)
Lemma merge_panics : mergeConfiguredCandidates id [] [mkBackend "a" "" "" "" "" 0 false ""] = None.
Proof. reflexivity. Qed.
End CliRun.
