(* ===== verification/ChainClient.v ===== *)
(** * The chain client (server/internal/chain/client.go)

    The client signs with one key for one chain and one contract.  Its calls go
    through the bindings of the contract, whose code is generated: [Market] is
    what the client uses of them and of the node, over the world [W].  The ABI
    of the bindings parses and the chain is known, so that binding a contract
    and the options of a transaction do not fail. *)

From S2P Require Import Prelude GoStrings GoTime Wire Receipt Messages Proposals Db Hex Store Settlement ProviderOps Login.
From stdpp Require Import gmap strings.
Open Scope string_scope.
Open Scope list_scope.
Open Scope Z_scope.

(** The transactions the client can send, with their arguments. *)
Inductive Call :=
| CallDeposit | CallDepositBond | CallClaim | CallRequestBondExit | CallFinalizeBondExit
| CallSetProviderSigner (signer : Address) (allowed : bool)
| CallRequestWithdrawal (amount : Z)
| CallRequestSessionClose (sessionID : bytes) | CallFinalizeSessionClose (sessionID : bytes)
| CallPublishOffer (offerID modelHash capabilityHash : bytes) (inputPerMillion outputPerMillion computePerSecond : Z)
| CallOpenSession (sessionID : bytes) (allowance expiresAt : Z)
| CallSettleReceipt (receipt : ChainReceipt) (providerSignature settlementSignature : bytes)
| CallSettleReceipts (receipts : list ChainReceipt) (providerSignatures settlementSignatures : list bytes).

Section Client.
Context {W Transaction PrivateKey : Type} `{Ethereum} `{SignerKeys PrivateKey}.
#[local] Instance CC_ret : MRet (M (W := W)) := fun A a w => (w, Ok a).
#[local] Instance CC_bind : MBind (M (W := W)) := fun A B f m w => match m w with (w, Ok a) => f a w | (w, Err e) => (w, Err e) end.

(** [mk_Send contract value noSend call] builds the transaction of the bindings,
    and sends it unless [noSend]; [mk_WaitMined] gives the status of its
    receipt. *)
Record Market := mkMarket {
  mk_ChainID : M (W := W) Z;
  mk_Deploy : Address -> Address -> Address -> Z -> Z -> Z -> M (W := W) (Address * Transaction);
  mk_SettlementSigner : Address -> M (W := W) Address;
  mk_FeeBasisPoints : Address -> M (W := W) Z;
  mk_FeeVersion : Address -> M (W := W) Z;
  mk_MinimumBond : Address -> M (W := W) Z;
  mk_HashReceipt : Address -> ChainReceipt -> M (W := W) bytes;
  mk_SettledRequests : Address -> bytes -> M (W := W) bool;
  mk_Claimable : Address -> Address -> M (W := W) Z;
  mk_Send : Address -> option Z -> bool -> Call -> M (W := W) Transaction;
  mk_WaitMined : Transaction -> M (W := W) Z;
}.
Context (m : Market) (Sign : bytes -> PrivateKey -> result bytes).

Record Client := mkClient { cl_chainID : Z; cl_key : PrivateKey; cl_contract : option Address }.
Definition cl_address (c : Client) : Address := PublicAddress (cl_key c).
Definition ContractAddress (c : Client) : Address := default (replicate 20 0) (cl_contract c).
Definition bound (c : Client) : M (W := W) Address := lift (of_option (cl_contract c) (ErrNew "contract is not bound")).

(** After the connection: the chain and the key. *)
Definition dialed (privateKey : string) : M (W := W) Client :=
  chainID ← mk_ChainID m;
  key ← lift (of_option (HexToECDSA (TrimPrefix privateKey "0x")) (ErrNew "invalid private key"));
  mret (mkClient chainID key None).
Definition Bind (address : Address) (c : Client) : Client := mkClient (cl_chainID c) (cl_key c) (Some address).

Record Terms := mkTerms {
  tm_ChainID : Z; tm_Contract : Address; tm_SettlementSigner : Address; tm_MinimumBond : Z; tm_FeeBasisPoints : Z; tm_FeeVersion : Z;
}.
Definition ReceiptTerms (c : Client) : M (W := W) Terms :=
  match cl_contract c with
  | Some contract =>
      if negb ((0 <=? cl_chainID c) && (cl_chainID c <? u64_mod)) then throw (ErrNew "contract is not bound to a supported chain")
      else
        settlementSigner ← mk_SettlementSigner m contract;
        feeBasisPoints ← mk_FeeBasisPoints m contract;
        feeVersion ← mk_FeeVersion m contract;
        minimumBond ← mk_MinimumBond m contract;
        mret (mkTerms (cl_chainID c) contract settlementSigner minimumBond feeBasisPoints feeVersion)
  | None => throw (ErrNew "contract is not bound to a supported chain")
  end.

Definition wait_mined (transaction : Transaction) : M (W := W) unit :=
  status ← mk_WaitMined m transaction;
  lift (fail_if (negb (status =? 1)) ErrTransactionReverted).
Definition Deploy (owner feeRecipient settlementSigner : Address) (minimumBond bondExitDelay feeDelay : Z) (c : Client)
    : M (W := W) (Address * Client) :=
  deployed ← mk_Deploy m owner feeRecipient settlementSigner minimumBond bondExitDelay feeDelay;
  _ ← wait_mined (snd deployed);
  mret (fst deployed, Bind (fst deployed) c).

(** The client sends one transaction at a time; it holds its lock until the
    transaction is mined. *)
Definition transact (c : Client) (value : option Z) (call : Call) : M (W := W) unit :=
  contract ← bound c;
  transaction ← mk_Send m contract value false call;
  wait_mined transaction.
Definition Deposit (c : Client) (value : Z) : M (W := W) unit := transact c (Some value) CallDeposit.
Definition DepositBond (c : Client) (value : Z) : M (W := W) unit := transact c (Some value) CallDepositBond.
Definition SetProviderSigner (c : Client) (signer : Address) (allowed : bool) : M (W := W) unit :=
  transact c None (CallSetProviderSigner signer allowed).
Definition RequestWithdrawal (c : Client) (amount : Z) : M (W := W) unit := transact c None (CallRequestWithdrawal amount).
Definition Claim (c : Client) : M (W := W) unit := transact c None CallClaim.
Definition RequestBondExit (c : Client) : M (W := W) unit := transact c None CallRequestBondExit.
Definition FinalizeBondExit (c : Client) : M (W := W) unit := transact c None CallFinalizeBondExit.
Definition RequestSessionClose (c : Client) (sessionID : bytes) : M (W := W) unit := transact c None (CallRequestSessionClose sessionID).
Definition FinalizeSessionClose (c : Client) (sessionID : bytes) : M (W := W) unit := transact c None (CallFinalizeSessionClose sessionID).
Definition PublishOffer (c : Client) (offerID modelHash capabilityHash : bytes) (inputPerMillion outputPerMillion computePerSecond : Z) : M (W := W) unit :=
  transact c None (CallPublishOffer offerID modelHash capabilityHash inputPerMillion outputPerMillion computePerSecond).
Definition OpenSession (c : Client) (sessionID : bytes) (allowance expiresAt : Z) : M (W := W) unit :=
  transact c None (CallOpenSession sessionID allowance expiresAt).
Definition SettleReceipt (c : Client) (receipt : ChainReceipt) (providerSignature settlementSignature : bytes) : M (W := W) unit :=
  transact c None (CallSettleReceipt receipt providerSignature settlementSignature).

Definition HashReceipt (c : Client) (receipt : ChainReceipt) : M (W := W) bytes := contract ← bound c; mk_HashReceipt m contract receipt.
Definition SignReceipt (c : Client) (receipt : ChainReceipt) : M (W := W) bytes :=
  digest ← HashReceipt c receipt;
  signature ← lift (Sign digest (cl_key c));
  mret (add_v 27 signature).
Definition PrepareSettlement (c : Client) (receipts : list ChainReceipt) (providerSignatures settlementSignatures : list bytes)
    : M (W := W) Transaction :=
  contract ← bound c;
  mk_Send m contract None true (CallSettleReceipts receipts providerSignatures settlementSignatures).
Definition SettlementState (c : Client) (requestID : bytes) (provider : Address) : M (W := W) (bool * Z) :=
  contract ← bound c;
  settled ← mk_SettledRequests m contract requestID;
  claimable ← mk_Claimable m contract provider;
  mret (settled, claimable).
End Client.
