(* ===== verification/Views.v ===== *)
(** * What accounts and the public see of the market (store/marketplace.go, store/operations.go, store/analytics.go and their handlers in api/)

    The queries behind the public list of models, the offers of one model and the
    requests of one account; the balances, sessions, machines and offers of an
    account, whose machines come from one query with a row per backend that a
    loop groups; and what an account spent and earned, with one point per day
    for the last thirty days.  Texts are ordered byte by byte; times read from the
    database are written in UTC. *)

From S2P Require Import Prelude GoStrings GoTime Wire Receipt Messages Db Hex Auth Store Http AuthHttp ProviderAccount.
From Stdlib Require Import Ascii.
From stdpp Require Import gmap strings.
Open Scope string_scope.
Open Scope list_scope.
Open Scope Z_scope.

(** * The market and the activity of an account *)

(** ** Results *)
Record MarketModel := mkMarketModel {
  mm_Model : string; mm_AvailableProviders : Z; mm_TotalCapacity : Z; mm_MinimumInputPerMillion : string;
  mm_MinimumOutputPerMillion : string; mm_MinimumComputePerSecond : string; mm_Stale : bool;
}.
Record MarketOffer := mkMarketOffer {
  mo_MachineID : string; mo_ProviderAddress : string; mo_OfferID : string; mo_Model : string;
  mo_Capabilities : list string; mo_PriceVersion : Z; mo_InputPerMillion : string; mo_OutputPerMillion : string;
  mo_ComputePerSecond : string; mo_Capacity : Z; mo_LatencyMilliseconds : Z; mo_SuccessBasisPoints : Z;
  mo_Reputation : Z; mo_EvidenceKind : string; mo_EvidenceDigest : string; mo_MeteringMode : string;
  mo_Available : bool; mo_Stale : bool; mo_UpdatedAt : Z;
}.
Record MarketModelDetail := mkMarketModelDetail { md_Model : string; md_Offers : list MarketOffer }.
Record AccountActivity := mkAccountActivity {
  aa_RequestID : string; aa_SessionID : string; aa_AccountID : string; aa_State : string; aa_MachineID : string;
  aa_OfferID : string; aa_Model : string; aa_PriceVersion : Z; aa_UpdatedAt : Z; aa_TransactionHash : string;
}.

(** ** Queries *)
(** [ORDER BY] several columns: [before] compares two rows. *)
Section Order.
Context {R : Type} (before : R -> R -> bool).
Fixpoint insert_with (row : R) (rows : list R) : list R :=
  match rows with
  | [] => [row]
  | other :: rest => if before row other then row :: rows else other :: insert_with row rest
  end.
Definition order_with (rows : list R) : list R := foldr insert_with [] rows.
End Order.
(** [GROUP BY column ORDER BY column] *)
Definition distinct_strings (values : list string) : list string := nodup String.string_dec (sort_strings values).
(** [min(value)]: NULL over no row. *)
Definition min_nullable {R} (value : R -> Z) (t : list R) : option Z :=
  foldr (fun row acc => Some (match acc with Some m => Z.min (value row) m | None => value row end)) None t.

(** [prs.updated_at >= $1] *)
Definition up_to_date (cutoff : Z) (r : RoutingRow) : bool := cutoff <=? rt_updated_at r.
Definition available (cutoff : Z) (r : RoutingRow) : bool := rt_healthy r && (0 <? rt_capacity r) && up_to_date cutoff r.
Definition of_model (name : string) (d : Db) : list RoutingRow :=
  select (fun r => String.eqb (rt_model r) name) (select rt_confirmed_bond (routing d)).

Definition market_model (cutoff : Z) (name : string) (rows : list RoutingRow) : result MarketModel :=
  input ← scan (min_nullable rt_input rows);
  output ← scan (min_nullable rt_output rows);
  compute ← scan (min_nullable rt_compute rows);
  Ok (mkMarketModel name (affected (available cutoff) rows)
        (sum_where (fun r => rt_healthy r && up_to_date cutoff r) rt_capacity rows)
        (BigString input) (BigString output) (BigString compute) (forallb (fun r => negb (up_to_date cutoff r)) rows)).
Definition MarketplaceModels (now staleAfter : Z) (d : Db) : result (list MarketModel) :=
  let cutoff := now - staleAfter in
  mapM (fun name => market_model cutoff name (of_model name d))
    (distinct_strings (map rt_model (select rt_confirmed_bond (routing d)))).

(** [ORDER BY prs.input_per_million,prs.output_per_million,prs.machine_id] *)
Definition cheaper (a b : RoutingRow * AccountRow) : bool :=
  let '(a, b) := (fst a, fst b) in
  (rt_input a <? rt_input b)
  || (rt_input a =? rt_input b)
     && ((rt_output a <? rt_output b) || (rt_output a =? rt_output b) && string_leb (rt_machine a) (rt_machine b)).
(** The join with the machine and its account. *)
Definition with_account (d : Db) (r : RoutingRow) : list (RoutingRow * AccountRow) :=
  m ← List.filter (fun m => String.eqb (mc_id m) (rt_machine r)) (machines d);
  map (fun a => (r, a)) (List.filter (fun a => String.eqb (ac_id a) (mc_account m)) (accounts d)).
Definition market_offer (cutoff : Z) (row : RoutingRow * AccountRow) : MarketOffer :=
  let '(r, a) := row in
  mkMarketOffer (rt_machine r) (ac_wallet a) (rt_offer r) (rt_model r) (rt_capabilities r) (rt_price_version r)
    (BigString (rt_input r)) (BigString (rt_output r)) (BigString (rt_compute r)) (rt_capacity r) (rt_latency r)
    (rt_success r) (rt_reputation r) (rt_evidence_kind r) (rt_evidence_digest r) (rt_metering_mode r)
    (available cutoff r) (negb (up_to_date cutoff r)) (rt_updated_at r).
Definition MarketplaceModelOf (now : Z) (modelName : string) (staleAfter : Z) (d : Db) : result MarketModelDetail :=
  let cutoff := now - staleAfter in
  let rows := order_with cheaper (of_model modelName d ≫= with_account d) in
  if bool_decide (rows = []) then Err ErrNoRows
  else Ok (mkMarketModelDetail modelName (map (market_offer cutoff) rows)).

(** [LEFT JOIN]: one row with NULLs when nothing matches. *)
Definition left_join {R} (p : R -> bool) (t : list R) : list (option R) :=
  match List.filter p t with [] => [None] | found => map Some found end.
Definition activity_row (d : Db) (s : SessionRow) (r : RequestRow) : list AccountActivity :=
  rp ← left_join (fun rp => String.eqb (pr_request rp) (rq_id r)) (proposals d);
  cs ← left_join (fun cs => String.eqb (ct_request cs) (rq_id r)) (chain_settlements d);
  mret (mkAccountActivity (rq_id r) (rq_session r) (se_account s) (state_name (rq_state r)) (default "" (rq_machine r))
          (default "" (rq_offer r)) (from_option pr_model "" rp) (default 0 (rq_price_version r)) (rq_updated_at r)
          (from_option ct_transaction_hash "" cs)).
(** The newest [limit] requests of the account. *)
Definition AccountActivityOf (accountID : string) (limit : Z) (d : Db) : list AccountActivity :=
  let limit := if (limit <=? 0) || (200 <? limit) then 100 else limit in
  let joined :=
    r ← requests d;
    s ← List.filter (fun s => String.eqb (se_id s) (rq_session r) && String.eqb (se_account s) accountID) (sessions d);
    activity_row d s r in
  take (Z.to_nat limit) (order_desc aa_UpdatedAt joined).

(** ** The handlers *)
Definition market_model_json (m : MarketModel) : json :=
  JObj (member "model" (jstr (mm_Model m)) ++ member "available_providers" (num (mm_AvailableProviders m))
        ++ member "total_capacity" (num (mm_TotalCapacity m))
        ++ member "minimum_input_per_million_wei" (jstr (mm_MinimumInputPerMillion m))
        ++ member "minimum_output_per_million_wei" (jstr (mm_MinimumOutputPerMillion m))
        ++ member "minimum_compute_per_second_wei" (jstr (mm_MinimumComputePerSecond m))
        ++ member "stale" (JBool (mm_Stale m))).
Definition market_offer_json (o : MarketOffer) : json :=
  JObj (member "machine_id" (jstr (mo_MachineID o)) ++ member "provider_address" (jstr (mo_ProviderAddress o))
        ++ member "offer_id" (jstr (mo_OfferID o)) ++ member "model" (jstr (mo_Model o))
        ++ member "capabilities" (strings_json (mo_Capabilities o)) ++ member "price_version" (num (mo_PriceVersion o))
        ++ member "input_per_million_wei" (jstr (mo_InputPerMillion o))
        ++ member "output_per_million_wei" (jstr (mo_OutputPerMillion o))
        ++ member "compute_per_second_wei" (jstr (mo_ComputePerSecond o)) ++ member "capacity" (num (mo_Capacity o))
        ++ member "latency_milliseconds" (num (mo_LatencyMilliseconds o))
        ++ member "success_basis_points" (num (mo_SuccessBasisPoints o)) ++ member "reputation" (num (mo_Reputation o))
        ++ member "evidence_kind" (jstr (mo_EvidenceKind o)) ++ member "evidence_digest" (jstr (mo_EvidenceDigest o))
        ++ member "metering_mode" (jstr (mo_MeteringMode o)) ++ member "available" (JBool (mo_Available o))
        ++ member "stale" (JBool (mo_Stale o)) ++ member "updated_at" (jstr (RFC3339Nano (mo_UpdatedAt o)))).
Definition detail_json (v : MarketModelDetail) : json :=
  JObj (member "model" (jstr (md_Model v)) ++ member "offers" (JArr (map market_offer_json (md_Offers v)))).
Definition activity_json (a : AccountActivity) : json :=
  JObj (member "request_id" (jstr (aa_RequestID a)) ++ member "session_id" (jstr (aa_SessionID a))
        ++ member "account_id" (jstr (aa_AccountID a)) ++ member "state" (jstr (aa_State a))
        ++ member "machine_id" (jstr (aa_MachineID a)) ++ member "offer_id" (jstr (aa_OfferID a))
        ++ member "model" (jstr (aa_Model a)) ++ member "price_version" (num (aa_PriceVersion a))
        ++ member "updated_at" (jstr (RFC3339Nano (aa_UpdatedAt a)))
        ++ (if String.eqb (aa_TransactionHash a) "" then [] else member "transaction_hash" (jstr (aa_TransactionHash a)))).

Definition marketJSON (r : result json) : Response :=
  match r with
  | Err _ => http_error 503 "marketplace unavailable"
  | Ok value => respond_json 200 value
  end.
Definition stale_after (staleAfter : Z) : Z := if staleAfter <=? 0 then 30 * Second else staleAfter.

Definition models (now staleAfter : Z) (d : Db) : Response :=
  marketJSON ((fun v => JArr (map market_model_json v)) <$> MarketplaceModels now (stale_after staleAfter) d).
Definition model_detail (now staleAfter : Z) (r : Request) (d : Db) : Response :=
  let name := TrimSpace (path_value 2 (ht_Path r)) in
  if String.eqb name "" then http_error 400 "model is required"
  else
    match MarketplaceModelOf now name (stale_after staleAfter) d with
    | Err ErrNoRows => http_error 404 "model not found"
    | other => marketJSON (detail_json <$> other)
    end.
Definition activity (now : Z) (r : Request) (d : Db) : Response :=
  match browserAccount now r d with
  | Err _ => http_error 401 "authentication required"
  | Ok accountID => marketJSON (Ok (JArr (map activity_json (AccountActivityOf accountID 100 d))))
  end.

Inductive MarketEndpoint := ListModels | ShowModel | ShowActivity.
Definition market_routes : list (pattern * MarketEndpoint) :=
  [ (route "GET" [Lit "api"; Lit "models"], ListModels); (route "GET" [Lit "api"; Lit "models"; Wild], ShowModel);
    (route "GET" [Lit "api"; Lit "activity"], ShowActivity) ].
Definition NewMarketplace (now staleAfter : Z) (r : Request) (d : Db) : Response :=
  match find_route market_routes (ht_Method r) (ht_Path r) with
  | Some ListModels => models now staleAfter d
  | Some ShowModel => model_detail now staleAfter r d
  | Some ShowActivity => activity now r d
  | None => no_route market_routes (ht_Path r)
  end.

(** * The operations of an account *)

Record OperationSession := mkOperationSession {
  os_SessionID : string; os_AllowanceWei : string; os_SpentWei : string; os_ExpiresAt : Z; os_CloseAvailableAt : Z;
  os_Finalized : bool;
}.
Record OperationBackend := mkOperationBackend {
  ob_ID : string; ob_OfferHashes : list string; ob_Kind : string; ob_Model : string; ob_Enabled : bool;
  ob_Healthy : bool; ob_Capacity : Z;
}.
Record OperationMachine := mkOperationMachine {
  om_ID : string; om_Name : string; om_Revoked : bool; om_Backends : list OperationBackend;
}.
Record OperationOffer := mkOperationOffer {
  oo_OfferID : string; oo_ModelHash : string; oo_CapabilityHash : string; oo_Version : Z; oo_InputPerMillionWei : string;
  oo_OutputPerMillionWei : string; oo_ComputePerSecondWei : string;
}.
Record AccountOperations := mkAccountOperations {
  ao_ChainID : Z; ao_ContractAddress : string; ao_ExplorerURL : string; ao_Confirmations : Z; ao_WalletAddress : string;
  ao_CustomerBalanceWei : string; ao_ProviderBondWei : string; ao_ClaimableWei : string; ao_ProviderEarningsWei : string;
  ao_BondExitAvailableAt : Z; ao_Sessions : list OperationSession; ao_Machines : list OperationMachine;
  ao_Offers : list OperationOffer;
}.

(** ** Queries *)
(** [chain_id=$1 AND lower(contract_address)=lower($2) AND lower(owner)=lower($3)] *)
Definition on_contract (chainID : Z) (contractAddress wallet : string) (chain : Z) (contract owner : string) : bool :=
  (chain =? chainID) && lower_eq contract contractAddress && lower_eq owner wallet.

(** The balance, the bond, the claimable amount and the exit time of the wallet. *)
Definition account_balances (chainID : Z) (contractAddress wallet : string) (d : Db) : result (string * string * string * Z) :=
  match query_row (fun r => on_contract chainID contractAddress wallet (ca_chain r) (ca_contract r) (ca_address r)) (chain_accounts d) with
  | Ok r => Ok (BigString (ca_customer_balance r), BigString (ca_provider_bond r), BigString (ca_claimable r), ca_bond_exit_available_at r)
  | Err ErrNoRows => Ok ("0", "0", "0", 0)
  | Err e => Err e
  end.
Definition account_earnings (chainID : Z) (contractAddress wallet : string) (d : Db) : string :=
  BigString (sum_where (fun r => on_contract chainID contractAddress wallet (ct_chain r) (ct_contract r) (ct_provider r))
               ct_provider_amount (chain_settlements d)).
Definition account_sessions (chainID : Z) (contractAddress wallet : string) (d : Db) : list OperationSession :=
  map (fun r => mkOperationSession (cs_session r) (BigString (cs_allowance r)) (BigString (cs_spent r)) (cs_expires_at r)
                  (cs_close_available_at r) (cs_finalized r))
    (order_desc cs_expires_at
       (select (fun r => on_contract chainID contractAddress wallet (cs_chain r) (cs_contract r) (cs_customer r)) (chain_sessions d))).
(** [ORDER BY offer_id,version DESC] *)
Definition offer_before (a b : ChainOfferRow) : bool :=
  string_ltb (co_offer a) (co_offer b) || String.eqb (co_offer a) (co_offer b) && (co_version b <=? co_version a).
Definition account_chain_offers (chainID : Z) (contractAddress wallet : string) (d : Db) : list OperationOffer :=
  map (fun r => mkOperationOffer (co_offer r) (co_model_hash r) (co_capability_hash r) (co_version r) (BigString (co_input r))
                  (BigString (co_output r)) (BigString (co_compute r)))
    (order_with offer_before
       (select (fun r => on_contract chainID contractAddress wallet (co_chain r) (co_contract r) (co_provider r)) (chain_offers d))).

(** *** Machines and backends *)
(** The routing state of one backend: whether an offer is healthy, the
    capacity, and the hashes of the offers that can be routed to, which
    [string_agg(DISTINCT ... ORDER BY ...)] joins with commas. *)
Definition backend_state (machineID : string) (b : BackendRow) (d : Db) : bool * Z * string :=
  let rows := select (fun r => String.eqb (rt_machine r) machineID && String.eqb (rt_model r) (bk_model b)
                               && hash_is (rt_backend_kind r) (bk_kind b)) (routing d) in
  (existsb rt_healthy rows, sum_where (fun _ => true) rt_capacity rows,
   GoStrings.Join (distinct_strings (omap rt_offer_hash
     (select (fun r => rt_confirmed_bond r && rt_healthy r && (0 <? rt_capacity r)) rows))) ",").

(** A row of the query: the machine, and its backend unless it has none. *)
Record MachineBackendRow := mkMachineBackendRow { mb_machine : MachineRow; mb_backend : option (BackendRow * (bool * Z * string)) }.
Definition machine_rows (d : Db) (m : MachineRow) : list MachineBackendRow :=
  map (fun b => mkMachineBackendRow m ((fun b => (b, backend_state (mc_id m) b d)) <$> b))
    (left_join (fun b => String.eqb (bk_machine b) (mc_id m)) (backends d)).
(** [ORDER BY m.created_at,b.id], where NULL comes last. *)
Definition row_before (a b : MachineBackendRow) : bool :=
  let '(x, y) := (mc_created_at (mb_machine a), mc_created_at (mb_machine b)) in
  (x <? y)
  || (x =? y)
     && match mb_backend a, mb_backend b with
        | _, None => true
        | None, Some _ => false
        | Some (a, _), Some (b, _) => string_leb (bk_id a) (bk_id b)
        end.
Definition machine_backend_rows (accountID : string) (d : Db) : list MachineBackendRow :=
  order_with row_before (select (fun m => String.eqb (mc_account m) accountID) (machines d) ≫= machine_rows d).

Definition active_offers (offerHashes : string) : list string :=
  if String.eqb offerHashes "" then [] else SplitByte offerHashes ",".
Definition operation_backend (row : BackendRow * (bool * Z * string)) : OperationBackend :=
  let '(b, (healthy, capacity, offerHashes)) := row in
  mkOperationBackend (bk_id b) (active_offers offerHashes) (bk_kind b) (bk_model b) (bk_enabled b) healthy (capacity mod u32_mod).
Definition add_backends (more : list OperationBackend) (m : OperationMachine) : OperationMachine :=
  mkOperationMachine (om_ID m) (om_Name m) (om_Revoked m) (om_Backends m ++ more).

(** The loop over the rows: [indices] has the place of each machine in the view. *)
Definition group_row (state : gmap string nat * list OperationMachine) (row : MachineBackendRow) : gmap string nat * list OperationMachine :=
  let '(indices, found) := state in
  let m := mb_machine row in
  let '(index, indices, found) :=
    match indices !! mc_id m with
    | Some index => (index, indices, found)
    | None => (length found, <[mc_id m := length found]> indices,
               found ++ [mkOperationMachine (mc_id m) (mc_name m) (negb (is_null (mc_revoked_at m))) []])
    end in
  match mb_backend row with
  | Some backend => (indices, alter (add_backends [operation_backend backend]) index found)
  | None => (indices, found)
  end.
Definition group_machines (rows : list MachineBackendRow) : list OperationMachine := snd (foldl group_row (∅, []) rows).

Definition AccountOperationsOf (accountID : string) (chainID : Z) (contractAddress explorerURL : string) (confirmations : Z) (d : Db)
    : result AccountOperations :=
  wallet ← account_wallet accountID d;
  _ ← bigint chainID;
  '(customer, bond, claimable, exit) ← account_balances chainID contractAddress wallet d;
  Ok (mkAccountOperations chainID (ToLower contractAddress) explorerURL confirmations wallet customer bond claimable
        (account_earnings chainID contractAddress wallet d) exit (account_sessions chainID contractAddress wallet d)
        (group_machines (machine_backend_rows accountID d)) (account_chain_offers chainID contractAddress wallet d)).

(** ** The handler *)
Definition session_view_json (s : OperationSession) : json :=
  JObj (member "session_id" (jstr (os_SessionID s)) ++ member "allowance_wei" (jstr (os_AllowanceWei s))
        ++ member "spent_wei" (jstr (os_SpentWei s)) ++ member "expires_at" (num (os_ExpiresAt s))
        ++ member "close_available_at" (num (os_CloseAvailableAt s)) ++ member "finalized" (JBool (os_Finalized s))).
Definition backend_view_json (b : OperationBackend) : json :=
  JObj (member "id" (jstr (ob_ID b)) ++ member "offer_hashes" (strings_json (ob_OfferHashes b)) ++ member "kind" (jstr (ob_Kind b))
        ++ member "model" (jstr (ob_Model b)) ++ member "enabled" (JBool (ob_Enabled b)) ++ member "healthy" (JBool (ob_Healthy b))
        ++ member "capacity" (num (ob_Capacity b))).
Definition machine_view_json (m : OperationMachine) : json :=
  JObj (member "id" (jstr (om_ID m)) ++ member "name" (jstr (om_Name m)) ++ member "revoked" (JBool (om_Revoked m))
        ++ member "backends" (JArr (map backend_view_json (om_Backends m)))).
Definition chain_offer_json (o : OperationOffer) : json :=
  JObj (member "offer_id" (jstr (oo_OfferID o)) ++ member "model_hash" (jstr (oo_ModelHash o))
        ++ member "capability_hash" (jstr (oo_CapabilityHash o)) ++ member "version" (num (oo_Version o))
        ++ member "input_per_million_wei" (jstr (oo_InputPerMillionWei o))
        ++ member "output_per_million_wei" (jstr (oo_OutputPerMillionWei o))
        ++ member "compute_per_second_wei" (jstr (oo_ComputePerSecondWei o))).
Definition operations_json (v : AccountOperations) : json :=
  JObj (member "chain_id" (num (ao_ChainID v)) ++ member "contract_address" (jstr (ao_ContractAddress v))
        ++ member "explorer_url" (jstr (ao_ExplorerURL v)) ++ member "confirmations" (num (ao_Confirmations v))
        ++ member "wallet_address" (jstr (ao_WalletAddress v)) ++ member "customer_balance_wei" (jstr (ao_CustomerBalanceWei v))
        ++ member "provider_bond_wei" (jstr (ao_ProviderBondWei v)) ++ member "claimable_wei" (jstr (ao_ClaimableWei v))
        ++ member "provider_earnings_wei" (jstr (ao_ProviderEarningsWei v))
        ++ member "bond_exit_available_at" (num (ao_BondExitAvailableAt v))
        ++ member "sessions" (JArr (map session_view_json (ao_Sessions v)))
        ++ member "machines" (JArr (map machine_view_json (ao_Machines v)))
        ++ member "offers" (JArr (map chain_offer_json (ao_Offers v)))).

Record OperationsConfig := mkOperationsConfig {
  oc_ChainID : Z; oc_ContractAddress : string; oc_ExplorerURL : string; oc_Confirmations : Z;
}.
Definition NewOperations (now : Z) (config : OperationsConfig) (r : Request) (d : Db) : Response :=
  if negb (String.eqb (ht_Method r) "GET") || bool_decide (ht_Path r <> ["api"; "account"; "operations"]) then not_found
  else
    match browserAccount now r d with
    | Err _ => http_error 401 "authentication required"
    | Ok accountID =>
        match AccountOperationsOf accountID (oc_ChainID config) (oc_ContractAddress config) (oc_ExplorerURL config)
                (oc_Confirmations config) d with
        | Err _ => http_error 503 "account operations unavailable"
        | Ok view => respond_json 200 (operations_json view)
        end
    end.

(** * The analytics of an account

    [Clock] is the clock of one call: the loops over the days read it each time. *)

Record AnalyticsTotals := mkAnalyticsTotals {
  at_SettledRequests : Z; at_InputTokens : Z; at_OutputTokens : Z; at_ComputeMilliseconds : Z;
  at_ProviderChargesWei : string; at_ProtocolFeesWei : string; at_TotalSpentWei : string; at_GrossRevenueWei : string;
  at_TotalSlashedWei : string;
}.
Record AnalyticsDay := mkAnalyticsDay {
  ay_Date : string; ay_CustomerRequests : Z; ay_CustomerSpentWei : string; ay_ProviderRequests : Z;
  ay_ProviderRevenueWei : string;
}.
Record UsageRecord := mkUsageRecord {
  us_RequestID : string; us_Model : string; us_ProviderAmountWei : string; us_FeeAmountWei : string;
  us_TotalChargeWei : string; us_TransactionHash : string; us_InputTokens : Z; us_OutputTokens : Z;
  us_ComputeMilliseconds : Z; us_CompletedAt : Z;
}.
Record ProviderSettlement := mkProviderSettlement {
  ps_RequestID : string; ps_Model : string; ps_RevenueWei : string; ps_TransactionHash : string; ps_InputTokens : Z;
  ps_OutputTokens : Z; ps_ComputeMilliseconds : Z; ps_CompletedAt : Z;
}.
Record SlashRecord := mkSlashRecord {
  sl_RequestID : string; sl_AmountWei : string; sl_TransactionHash : string; sl_BlockNumber : Z; sl_IndexedAt : Z;
}.
Record AccountAnalytics := mkAccountAnalytics {
  an_Customer : AnalyticsTotals; an_Provider : AnalyticsTotals; an_Daily : list AnalyticsDay; an_Usage : list UsageRecord;
  an_Settlements : list ProviderSettlement; an_Slashes : list SlashRecord;
}.

(** ** The settlements of an account *)
Definition on_chain (chainID : Z) (contract : string) (cs : ChainSettlementRow) : bool :=
  (ct_chain cs =? chainID) && lower_eq (ct_contract cs) contract.
(** The join of the settlements of the contract with the proposals of their requests. *)
Definition settled_proposals (chainID : Z) (contract : string) (d : Db) : list (ChainSettlementRow * ProposalRow) :=
  cs ← List.filter (on_chain chainID contract) (chain_settlements d);
  map (fun rp => (cs, rp)) (List.filter (fun rp => String.eqb (pr_request rp) (ct_request cs)) (proposals d)).
(** As a customer, by the session of the proposal; as a provider, by its machine. *)
Definition customer_base (accountID : string) (chainID : Z) (contract : string) (d : Db) : list (ChainSettlementRow * ProposalRow) :=
  row ← settled_proposals chainID contract d;
  map (fun _ => row) (List.filter (fun se => String.eqb (se_id se) (pr_session (snd row)) && String.eqb (se_account se) accountID) (sessions d)).
Definition provider_base (accountID : string) (chainID : Z) (contract : string) (d : Db) : list (ChainSettlementRow * ProposalRow) :=
  row ← settled_proposals chainID contract d;
  map (fun _ => row) (List.filter (fun m => String.eqb (mc_id m) (pr_machine (snd row)) && String.eqb (mc_account m) accountID) (machines d)).

Definition all {R} (_ : R) : bool := true.
Definition provider_amount (row : ChainSettlementRow * ProposalRow) : Z := ct_provider_amount (fst row).
Definition fee_amount (row : ChainSettlementRow * ProposalRow) : Z := ct_fee_amount (fst row).
Definition charge (row : ChainSettlementRow * ProposalRow) : Z := ct_provider_amount (fst row) + ct_fee_amount (fst row).
Definition completed (row : ChainSettlementRow * ProposalRow) : Z := pr_completed_at (snd row).

(** ** Totals *)
(** Scanning a number into a [uint64]. *)
Definition scan_uint64 (n : Z) : result Z := if (0 <=? n) && (n <? u64_mod) then Ok n else Err ErrEncode.
Definition scan_usage (rows : list (ChainSettlementRow * ProposalRow)) : result (Z * Z * Z * Z) :=
  input ← scan_uint64 (sum_where all (fun row => pr_input_tokens (snd row)) rows);
  output ← scan_uint64 (sum_where all (fun row => pr_output_tokens (snd row)) rows);
  compute ← scan_uint64 (sum_where all (fun row => pr_compute (snd row)) rows);
  Ok (affected all rows, input, output, compute).
Definition scanTotals (rows : list (ChainSettlementRow * ProposalRow)) : result AnalyticsTotals :=
  '(count, input, output, compute) ← scan_usage rows;
  Ok (mkAnalyticsTotals count input output compute (BigString (sum_where all provider_amount rows))
        (BigString (sum_where all fee_amount rows)) (BigString (sum_where all charge rows)) "0" "0").
Definition scanProviderTotals (slashed : string) (rows : list (ChainSettlementRow * ProposalRow)) : result AnalyticsTotals :=
  '(count, input, output, compute) ← scan_usage rows;
  Ok (mkAnalyticsTotals count input output compute "0" "0" "0" (BigString (sum_where all provider_amount rows)) slashed).
Definition own_slash (chainID : Z) (contract wallet : string) (r : ChainSlashRow) : bool :=
  on_contract chainID contract wallet (cl_chain r) (cl_contract r) (cl_provider r).

(** ** Days *)
(** [GROUP BY] the day of the completion in UTC: each day with its rows. *)
Definition by_day (rows : list (ChainSettlementRow * ProposalRow)) : list (string * list (ChainSettlementRow * ProposalRow)) :=
  map (fun date => (date, List.filter (fun row => String.eqb (DateOnly (completed row)) date) rows))
    (distinct_strings (map (fun row => DateOnly (completed row)) rows)).
Definition thirty_days : Z := 30 * day_length.
Definition recent (now : Z) (row : ChainSettlementRow * ProposalRow) : bool := now - thirty_days <=? completed row.

Definition zero_day (date : string) : AnalyticsDay := mkAnalyticsDay date 0 "0" 0 "0".
Definition set_customer (count : Z) (spent : string) (p : AnalyticsDay) : AnalyticsDay :=
  mkAnalyticsDay (ay_Date p) count spent (ay_ProviderRequests p) (ay_ProviderRevenueWei p).
Definition set_provider (count : Z) (revenue : string) (p : AnalyticsDay) : AnalyticsDay :=
  mkAnalyticsDay (ay_Date p) (ay_CustomerRequests p) (ay_CustomerSpentWei p) count revenue.
(** The offsets 29, ..., 0. *)
Definition offsets : list nat := rev (seq 0 30).
Definition date_of (now : Z) (offset : nat) : string := DateOnly (now - Z.of_nat offset * day_length).

Definition points (now : nat -> Z) : gmap string AnalyticsDay :=
  foldl (fun m offset => let date := date_of (now offset) offset in <[date := zero_day date]> m) ∅ offsets.
(** A row of a day that has no point is dropped. *)
Definition fill (set : Z -> string -> AnalyticsDay -> AnalyticsDay) (value : ChainSettlementRow * ProposalRow -> Z)
    (days : list (string * list (ChainSettlementRow * ProposalRow))) (m : gmap string AnalyticsDay) : gmap string AnalyticsDay :=
  foldl (fun m day => alter (set (affected all (snd day)) (BigString (sum_where all value (snd day)))) (fst day) m) m days.

(** The clock of one call: when the days of the points are computed, when the
    two queries run, and when the days of the view are computed. *)
Record Clock := mkClock { ck_points : nat -> Z; ck_customer : Z; ck_provider : Z; ck_view : nat -> Z }.
(** [None]: a day of the view has no point, and the handler panics on it. *)
Definition loadDailyAnalytics (now : Clock) (accountID : string) (chainID : Z) (contract : string) (d : Db) : option (list AnalyticsDay) :=
  let m := fill set_customer charge (by_day (List.filter (recent (ck_customer now)) (customer_base accountID chainID contract d)))
             (points (ck_points now)) in
  let m := fill set_provider provider_amount (by_day (List.filter (recent (ck_provider now)) (provider_base accountID chainID contract d))) m in
  mapM (fun offset => m !! date_of (ck_view now offset) offset) offsets.

(** ** Recent rows *)
Definition usage_record (row : ChainSettlementRow * ProposalRow) : UsageRecord :=
  let '(cs, rp) := row in
  mkUsageRecord (pr_request rp) (pr_model rp) (BigString (ct_provider_amount cs)) (BigString (ct_fee_amount cs)) (BigString (charge row))
    (ct_transaction_hash cs) (pr_input_tokens rp) (pr_output_tokens rp) (pr_compute rp) (pr_completed_at rp).
Definition provider_settlement (row : ChainSettlementRow * ProposalRow) : ProviderSettlement :=
  let '(cs, rp) := row in
  mkProviderSettlement (pr_request rp) (pr_model rp) (BigString (ct_provider_amount cs)) (ct_transaction_hash cs) (pr_input_tokens rp)
    (pr_output_tokens rp) (pr_compute rp) (pr_completed_at rp).
Definition slash_record (r : ChainSlashRow) : SlashRecord :=
  mkSlashRecord (cl_request r) (BigString (cl_amount r)) (cl_transaction_hash r) (cl_block_number r) (cl_indexed_at r).
Definition loadRecentAnalytics (accountID wallet : string) (chainID : Z) (contract : string) (d : Db)
    : list UsageRecord * list ProviderSettlement * list SlashRecord :=
  (map usage_record (take 100 (order_desc completed (customer_base accountID chainID contract d))),
   map provider_settlement (take 100 (order_desc completed (provider_base accountID chainID contract d))),
   map slash_record (take 100 (order_desc cl_indexed_at (select (own_slash chainID contract wallet) (chain_slashes d))))).

(** The view, an error, or [None] when the daily loop panics. *)
Definition AccountAnalyticsOf (now : Clock) (accountID : string) (chainID : Z) (contract : string) (d : Db) : option (result AccountAnalytics) :=
  let totals :=
    wallet ← account_wallet accountID d;
    _ ← bigint chainID;
    customer ← scanTotals (customer_base accountID chainID contract d);
    provider ← scanProviderTotals (BigString (sum_where (own_slash chainID contract wallet) cl_amount (chain_slashes d)))
                 (provider_base accountID chainID contract d);
    Ok (wallet, customer, provider) in
  match totals with
  | Err e => Some (Err e)
  | Ok (wallet, customer, provider) =>
      daily ← loadDailyAnalytics now accountID chainID contract d;
      let '(usage, settlements, slashes) := loadRecentAnalytics accountID wallet chainID contract d in
      Some (Ok (mkAccountAnalytics customer provider daily usage settlements slashes))
  end.

(** ** The handler *)
Definition totals_json (t : AnalyticsTotals) : json :=
  JObj (member "settled_requests" (num (at_SettledRequests t)) ++ member "input_tokens" (num (at_InputTokens t))
        ++ member "output_tokens" (num (at_OutputTokens t)) ++ member "compute_milliseconds" (num (at_ComputeMilliseconds t))
        ++ member "provider_charges_wei" (jstr (at_ProviderChargesWei t)) ++ member "protocol_fees_wei" (jstr (at_ProtocolFeesWei t))
        ++ member "total_spent_wei" (jstr (at_TotalSpentWei t)) ++ member "gross_revenue_wei" (jstr (at_GrossRevenueWei t))
        ++ member "total_slashed_wei" (jstr (at_TotalSlashedWei t))).
Definition day_json (p : AnalyticsDay) : json :=
  JObj (member "date" (jstr (ay_Date p)) ++ member "customer_requests" (num (ay_CustomerRequests p))
        ++ member "customer_spent_wei" (jstr (ay_CustomerSpentWei p)) ++ member "provider_requests" (num (ay_ProviderRequests p))
        ++ member "provider_revenue_wei" (jstr (ay_ProviderRevenueWei p))).
Definition usage_json (u : UsageRecord) : json :=
  JObj (member "request_id" (jstr (us_RequestID u)) ++ member "model" (jstr (us_Model u))
        ++ member "provider_amount_wei" (jstr (us_ProviderAmountWei u)) ++ member "fee_amount_wei" (jstr (us_FeeAmountWei u))
        ++ member "total_charge_wei" (jstr (us_TotalChargeWei u)) ++ member "transaction_hash" (jstr (us_TransactionHash u))
        ++ member "input_tokens" (num (us_InputTokens u)) ++ member "output_tokens" (num (us_OutputTokens u))
        ++ member "compute_milliseconds" (num (us_ComputeMilliseconds u)) ++ member "completed_at" (jstr (RFC3339Nano (us_CompletedAt u)))).
Definition settlement_json (s : ProviderSettlement) : json :=
  JObj (member "request_id" (jstr (ps_RequestID s)) ++ member "model" (jstr (ps_Model s)) ++ member "revenue_wei" (jstr (ps_RevenueWei s))
        ++ member "transaction_hash" (jstr (ps_TransactionHash s)) ++ member "input_tokens" (num (ps_InputTokens s))
        ++ member "output_tokens" (num (ps_OutputTokens s)) ++ member "compute_milliseconds" (num (ps_ComputeMilliseconds s))
        ++ member "completed_at" (jstr (RFC3339Nano (ps_CompletedAt s)))).
Definition slash_json (s : SlashRecord) : json :=
  JObj (member "request_id" (jstr (sl_RequestID s)) ++ member "amount_wei" (jstr (sl_AmountWei s))
        ++ member "transaction_hash" (jstr (sl_TransactionHash s)) ++ member "block_number" (num (sl_BlockNumber s))
        ++ member "indexed_at" (jstr (RFC3339Nano (sl_IndexedAt s)))).
Definition analytics_json (v : AccountAnalytics) : json :=
  JObj (member "customer" (totals_json (an_Customer v)) ++ member "provider" (totals_json (an_Provider v))
        ++ member "daily" (JArr (map day_json (an_Daily v))) ++ member "usage" (JArr (map usage_json (an_Usage v)))
        ++ member "settlements" (JArr (map settlement_json (an_Settlements v))) ++ member "slashes" (JArr (map slash_json (an_Slashes v)))).
(** [None]: the handler panicked and the connection is dropped. *)
Definition NewAnalytics (clock : Clock) (now : Z) (chainID : Z) (contract : string) (r : Request) (d : Db) : option Response :=
  if negb (String.eqb (ht_Method r) "GET") || bool_decide (ht_Path r <> ["api"; "account"; "analytics"]) then Some not_found
  else
    match browserAccount now r d with
    | Err _ => Some (http_error 401 "authentication required")
    | Ok accountID =>
        view ← AccountAnalyticsOf clock accountID chainID contract d;
        Some (match view with Err _ => http_error 503 "account analytics unavailable" | Ok view => respond_json 200 (analytics_json view) end)
    end.
