(* ===== verification/Startup.v ===== *)
(** * Starting the server (server/cmd/myference-server/main.go, runtime.go)

    The settings of the environment, the chain runtime with the connections it
    opens and closes, the two background loops, the routes of the server with the
    handlers behind them, its answer to browsers of the web origin, and [run]
    itself; and the command that applies the migrations
    (server/cmd/myference-migrate/main.go).  What is opened and closed is
    recorded beside the world [W]. *)

From S2P Require Import Prelude GoStrings GoTime Wire Receipt Messages Proposals Db Hex Auth Store Settlement Indexer Http AuthHttp.
From S2P Require Import ProviderAccount Actions ProviderOps Login ChainClient Views.
From stdpp Require Import gmap strings.
Open Scope string_scope.
Open Scope list_scope.
Open Scope Z_scope.

(** ** Settings *)
Record chainConfig := mkChainConfig { cc_RPCURL : string; cc_ContractAddress : string; cc_SettlementPrivateKey : string; cc_StartBlock : Z }.
Definition loadChainConfig `{Ethereum} (getenv : string -> string) : result chainConfig :=
  let rpc := TrimSpace (getenv "MYFERENCE_RPC_URL") in
  let contract := TrimSpace (getenv "MYFERENCE_CONTRACT_ADDRESS") in
  let key := TrimSpace (getenv "MYFERENCE_SETTLEMENT_PRIVATE_KEY") in
  let missing := Err (ErrNew "MYFERENCE_RPC_URL, MYFERENCE_CONTRACT_ADDRESS, MYFERENCE_SETTLEMENT_PRIVATE_KEY, and MYFERENCE_CHAIN_START_BLOCK are required") in
  match ParseUint (TrimSpace (getenv "MYFERENCE_CHAIN_START_BLOCK")) with
  | None => missing
  | Some start =>
      if String.eqb rpc "" || negb (IsHexAddress contract) || bool_decide (HexToAddress contract = replicate 20 0) || String.eqb key ""
      then missing else Ok (mkChainConfig rpc contract key start)
  end.
Definition envOr (getenv : string -> string) (name fallback : string) : string :=
  let value := getenv name in if negb (String.eqb value "") then value else fallback.
Definition listenAddress (getenv : string -> string) : string :=
  let address := TrimSpace (getenv "MYFERENCE_LISTEN_ADDR") in
  if negb (String.eqb address "") then address
  else
    let port := TrimSpace (getenv "PORT") in
    if negb (String.eqb port "") then "0.0.0.0:" +:+ port else "127.0.0.1:8080".
(** Whether the server speaks TLS. *)
Definition tls_pair (certificate key : string) : result bool :=
  if negb (Bool.eqb (String.eqb certificate "") (String.eqb key ""))
  then Err (ErrNew "MYFERENCE_TLS_CERT and MYFERENCE_TLS_KEY must be configured together")
  else Ok (negb (String.eqb certificate "")).

(** What [run] gives to the handlers: one chain, one contract and one origin. *)
Record ServerSettings := mkServerSettings {
  st_Auth : HTTPConfig; st_Provider : ProviderAccountConfig; st_Operations : OperationsConfig; st_Origin : string;
}.
Definition server_settings (getenv : string -> string) (config : chainConfig) (terms : Terms) : ServerSettings :=
  let origin := envOr getenv "MYFERENCE_WEB_ORIGIN" "http://127.0.0.1:5173" in
  let explorer := envOr getenv "MYFERENCE_EXPLORER_URL" "https://testnet.monadexplorer.com" in
  let contract := cc_ContractAddress config in
  mkServerSettings
    (mkHTTPConfig (envOr getenv "MYFERENCE_AUTH_DOMAIN" "localhost") (TrimSuffix origin "/" +:+ "/devices") contract [origin] 10143
       (12 * Hour) (HasPrefix origin "https://"))
    (mkProviderAccountConfig 10143 contract explorer 2 (BigString (tm_MinimumBond terms)))
    (mkOperationsConfig 10143 contract explorer 2) origin.

(** ** The chain runtime *)
Inductive Resource :=
| ChainRpc | QueueDatabase | IndexerRpc | IndexerDatabase
| AuthDatabase | StoreDatabase | EventsDatabase.
#[export] Instance Resource_eq_dec : EqDecision Resource.
Proof. solve_decision. Defined.
(** The goroutines that the server starts. *)
Inductive Routine := Indexing | Settling | Listening.
#[export] Instance Routine_eq_dec : EqDecision Routine.
Proof. solve_decision. Defined.
(** [Applied]: a migration was executed; [StopRuntime]: the context of the
    background loops was cancelled, which waits for nothing; [ShutDown]:
    [server.Shutdown] was called. *)
Inductive Use :=
| Opened (r : Resource) | Closed (r : Resource) | Started (routine : Routine) | StopRuntime | ShutDown | Applied (path : string).
#[export] Instance Use_eq_dec : EqDecision Use.
Proof. solve_decision. Defined.

Section Runtime.
Context {W Transaction PrivateKey : Type} `{Ethereum} `{SignerKeys PrivateKey}.
Definition R (A : Type) : Type := W * list Use -> (W * list Use) * result A.
#[local] Instance R_ret : MRet R := fun A a s => (s, Ok a).
#[local] Instance R_bind : MBind R := fun A B f p s => match p s with (s, Ok a) => f a s | (s, Err e) => (s, Err e) end.
Definition use (u : Use) : R unit := fun s => ((s.1, s.2 ++ [u]), Ok tt).
Definition call {A} (p : M (W := W) A) : R A := fun s => let '(w, r) := p s.1 in ((w, s.2), r).
(** A connection that is opened: nothing is open when that fails. *)
Definition open (r : Resource) (p : M (W := W) unit) : R unit := _ ← call p; use (Opened r).
(** [body], after which what [closing] says is closed if it fails. *)
Definition or_close {A} (closing : list Resource) (body : R A) : R A := fun s =>
  match body s with
  | (s, Err e) => ((s.1, s.2 ++ map Closed closing), Err e)
  | other => other
  end.

(** What the runtime uses of the node and the database. *)
Record Endpoints := mkEndpoints {
  ep_DialChain : M (W := W) unit;
  ep_Market : Market (W := W) (Transaction := Transaction);
  ep_OpenQueue : M (W := W) unit;
  ep_PingQueue : M (W := W) unit;
  ep_DialIndexer : M (W := W) unit;
  ep_IndexerChainID : M (W := W) Z;
  ep_OpenIndexer : M (W := W) unit;
  ep_PingIndexer : M (W := W) unit;
  ep_FeeRecipient : Address -> M (W := W) Address;
}.
Context (ep : Endpoints).

Definition Dial (privateKey : string) : R (Client (PrivateKey := PrivateKey)) :=
  _ ← open ChainRpc (ep_DialChain ep);
  or_close [ChainRpc] (call (dialed (ep_Market ep) privateKey)).
Definition OpenSettlementQueue : R unit :=
  _ ← open QueueDatabase (ep_OpenQueue ep);
  or_close [QueueDatabase] (call (ep_PingQueue ep)).
Definition OpenIndexer (contract : Address) (startBlock confirmations : Z) : R Indexer :=
  _ ← open IndexerRpc (ep_DialIndexer ep);
  chainID ← or_close [IndexerRpc] (call (ep_IndexerChainID ep));
  _ ← or_close [IndexerRpc] (open IndexerDatabase (ep_OpenIndexer ep));
  _ ← or_close [IndexerRpc; IndexerDatabase] (call (ep_PingIndexer ep));
  feeRecipient ← or_close [IndexerRpc; IndexerDatabase] (call (ep_FeeRecipient ep contract));
  mret (mkIndexer (AddressHex contract) chainID startBlock confirmations (AddressHex feeRecipient)).

Record chainRuntime := mkChainRuntime { cr_client : Client (PrivateKey := PrivateKey); cr_terms : Terms; cr_indexer : Indexer }.
Definition check_terms (allowLocal : string) (client : Client (PrivateKey := PrivateKey)) (terms : Terms) : result unit :=
  _ ← fail_if (negb (tm_ChainID terms =? 10143) && negb (String.eqb (ToLower (TrimSpace allowLocal)) "true"))
        (ErrNew "settlement RPC is not Monad testnet chain 10143");
  fail_if (bool_decide (tm_SettlementSigner terms <> cl_address client))
    (ErrNew "settlement private key does not match the contract settlement signer").
Definition openChainRuntime (allowLocal : string) (config : chainConfig) : R chainRuntime :=
  client ← Dial (cc_SettlementPrivateKey config);
  let contract := HexToAddress (cc_ContractAddress config) in
  or_close [ChainRpc] (
    let client := Bind contract client in
    terms ← call (ReceiptTerms (ep_Market ep) client);
    _ ← (fun s => (s, check_terms allowLocal client terms));
    _ ← OpenSettlementQueue;
    indexer ← or_close [QueueDatabase] (OpenIndexer contract (cc_StartBlock config) 2);
    mret (mkChainRuntime client terms indexer)).
(** [chainRuntime.Run] starts the two loops and returns. *)
Definition start_loops : R unit := _ ← use (Started Indexing); use (Started Settling).
(** [chainRuntime.Close]. *)
Definition CloseRuntime : list Resource := [IndexerRpc; IndexerDatabase; QueueDatabase; ChainRpc].

(** ** The server *)
(** How serving ends: the listener fails, or a signal shuts the server down. *)
Inductive Ended := ServeFailed (e : error) | Signalled (shutdown : result unit).
Definition ErrServerClosed : error := ErrNew "http: Server closed".
Definition serve_result (ended : Ended) : result unit :=
  match ended with
  | ServeFailed e => if errors_Is e ErrServerClosed then Ok tt else Err e
  | Signalled shutdown => shutdown
  end.

(** What [run] uses of the database and the network; [sv_Serve] is told whether
    it speaks TLS and where it listens. *)
Record ServerEndpoints := mkServerEndpoints {
  sv_OpenAuth : M (W := W) unit;
  sv_PingAuth : M (W := W) unit;
  sv_OpenStore : M (W := W) unit;
  sv_PingStore : M (W := W) unit;
  sv_OpenEvents : M (W := W) unit;
  sv_PingEvents : M (W := W) unit;
  sv_Serve : bool -> string -> ServerSettings -> chainRuntime -> W -> W * Ended;
}.
Context (sv : ServerEndpoints).
Definition OpenAuth : R unit :=
  _ ← open AuthDatabase (sv_OpenAuth sv);
  or_close [AuthDatabase] (call (sv_PingAuth sv)).
Definition OpenStore : R unit :=
  _ ← open StoreDatabase (sv_OpenStore sv);
  or_close [StoreDatabase] (call (sv_PingStore sv)).
Definition OpenEvents : R unit :=
  _ ← open EventsDatabase (sv_OpenEvents sv);
  or_close [EventsDatabase] (call (sv_PingEvents sv)).
(** [defer]: what [uses] says is done when [body] returns, with or without an
    error. *)
Definition deferred {A} (uses : list Use) (body : R A) : R A := fun s =>
  let '(s, r) := body s in ((s.1, s.2 ++ uses), r).

Definition returned {A} (r : result A) : R A := fun s => (s, r).
Definition serving (tls : bool) (address : string) (settings : ServerSettings) (runtime : chainRuntime) : R Ended := fun s =>
  let '(w, ended) := sv_Serve sv tls address settings runtime s.1 in
  ((w, s.2 ++ match ended with ServeFailed _ => [] | Signalled _ => [ShutDown] end), Ok ended).

Definition run (getenv : string -> string) : R unit :=
  if String.eqb (getenv "MYFERENCE_DATABASE_URL") "" then returned (Err (ErrNew "MYFERENCE_DATABASE_URL is required"))
  else
    config ← returned (loadChainConfig getenv);
    _ ← OpenAuth;
    deferred [Closed AuthDatabase] (
      _ ← OpenStore;
      deferred [Closed StoreDatabase] (
        runtime ← openChainRuntime (getenv "MYFERENCE_ALLOW_LOCAL_CHAIN") config;
        deferred (map Closed CloseRuntime) (
          deferred [StopRuntime] (
            _ ← start_loops;
            _ ← OpenEvents;
            deferred [Closed EventsDatabase] (
              tls ← returned (tls_pair (getenv "MYFERENCE_TLS_CERT") (getenv "MYFERENCE_TLS_KEY"));
              _ ← use (Started Listening);
              ended ← serving tls (listenAddress getenv) (server_settings getenv config (cr_terms runtime)) runtime;
              returned (serve_result ended)))))).

(** ** The migrations *)
Section Migrate.
Context (glob : result (list string)) (read_file : string -> M (W := W) string) (execute : string -> M (W := W) unit).
Definition ApplyMigration (path : string) : R unit :=
  text ← call (read_file path);
  _ ← call (execute text);
  use (Applied path).
Fixpoint apply_migrations (paths : list string) : R unit :=
  match paths with
  | [] => mret tt
  | path :: rest => _ ← ApplyMigration path; apply_migrations rest
  end.
Definition migrate (getenv : string -> string) : R unit :=
  if String.eqb (getenv "MYFERENCE_DATABASE_URL") "" then returned (Err (ErrNew "MYFERENCE_DATABASE_URL is required"))
  else
    paths ← returned glob;
    match paths with
    | [] => returned (Err (ErrNew "no SQL migrations found in migrations/"))
    | _ => _ ← OpenStore; deferred [Closed StoreDatabase] (apply_migrations (sort_strings paths))
    end.
End Migrate.
End Runtime.

(** ** The background loops, one tick each *)
Section Ticks.
Context {Transaction : Type} (TransactionHash : Transaction -> string) (MarshalBinary : Transaction -> result bytes)
  (UnmarshalBinary : bytes -> result Transaction)
  (PrepareSettlement : list ChainReceipt -> list bytes -> list bytes -> result Transaction).
(** Every second the chain is indexed; every other second at most one receipt
    is settled.  Errors are logged. *)
Definition index_tick (decode : Log -> result ChainEvent) (node : Node) (CodeAt : Z -> result bytes) (head : result Z) (now : Z)
    (s : Indexer * Db) : Indexer * Db :=
  let '(i, d, _) := Sync s.1 decode node CodeAt head now s.2 in (i, d).
Definition settle_tick (rpc : Rpc (Transaction := Transaction)) (now : Z) (d : Db) : Db :=
  let '(d, _, _, _) := SettleBatch TransactionHash MarshalBinary UnmarshalBinary PrepareSettlement rpc now 1 d in d.
End Ticks.

(** ** The loops beside the server

    A loop waits for its ticker or for the context: when both are ready the
    choice is arbitrary, and nothing waits for a loop to return.  [pr_main] is
    what the server has still to do, [pr_done] what it did. *)
Inductive LoopState := Idle | Waiting | Ticking | Returned.
Record Process := mkProcess { pr_main : list Use; pr_done : list Use; pr_index : LoopState; pr_settle : LoopState }.
Definition started (u : Use) (p : Process) : Process :=
  match u with
  | Started Indexing => mkProcess (pr_main p) (pr_done p) Waiting (pr_settle p)
  | Started Settling => mkProcess (pr_main p) (pr_done p) (pr_index p) Waiting
  | _ => p
  end.
Inductive loop_step (uses : list Use) : LoopState -> LoopState -> Prop :=
| loop_tick : loop_step uses Waiting Ticking
| loop_done : loop_step uses Ticking Waiting
| loop_return : In StopRuntime uses -> loop_step uses Waiting Returned.
Inductive process_step : Process -> Process -> Prop :=
| main_step u rest before index settle :
    process_step (mkProcess (u :: rest) before index settle) (started u (mkProcess rest (before ++ [u]) index settle))
| index_step main before index index' settle : loop_step before index index' ->
    process_step (mkProcess main before index settle) (mkProcess main before index' settle)
| settle_step main before index settle settle' : loop_step before settle settle' ->
    process_step (mkProcess main before index settle) (mkProcess main before index settle').

(** ** Routes *)
Inductive Handler :=
| HealthH | RelayH | OpenAIH | AnthropicH | AuthH | OperationsH | AnalyticsH | ReferencePriceH | ProviderAccountH | ProviderActionsH
| MarketplaceH | EventsH.
Definition any (segments : list string) : pattern := mkPattern "" (map Lit segments) false.
Definition below (segments : list string) : pattern := mkPattern "" (map Lit segments) true.
(** More specific patterns first. *)
Definition newRootHandler : list (pattern * Handler) :=
  [ (mkPattern "GET" [Lit "healthz"] false, HealthH); (any ["relay"], RelayH); (any ["v1"; "chat"; "completions"], OpenAIH);
    (any ["v1"; "messages"], AnthropicH); (below ["auth"], AuthH); (any ["api"; "account"; "operations"], OperationsH);
    (any ["api"; "account"; "analytics"], AnalyticsH); (any ["api"; "reference-price"], ReferencePriceH);
    (any ["api"; "provider"; "account"], ProviderAccountH); (below ["api"; "provider"; "machines"], ProviderAccountH);
    (any ["api"; "provider"; "actions"], ProviderActionsH); (below ["api"; "provider"; "actions"], ProviderActionsH);
    (below ["api"], MarketplaceH); (any ["events"], EventsH) ].
(** No response: the handler panicked and the connection is dropped. *)
Definition serve_route {S} (handlers : Handler -> Request -> S -> S * option Response) (r : Request) (s : S) : S * option Response :=
  match find_route newRootHandler (ht_Method r) (ht_Path r) with
  | Some HealthH => (s, Some (mkResponse 200 KeepCookie (Text ("ok" +:+ newline)) []))
  | Some h => handlers h r s
  | None => (s, Some (no_route newRootHandler (ht_Path r)))
  end.

Definition cors_headers (origin : string) : list (string * string) :=
  [ ("Access-Control-Allow-Origin", origin); ("Access-Control-Allow-Credentials", "true");
    ("Access-Control-Allow-Methods", "GET, POST, DELETE, OPTIONS");
    ("Access-Control-Allow-Headers", "Authorization, Content-Type, X-Myference-Max-Spend");
    ("Vary", "Origin"); ("Vary", "Access-Control-Request-Method"); ("Vary", "Access-Control-Request-Headers") ].
(** A header the handler sets replaces the one set before it. *)
Definition cors_response (origin : string) (response : Response) : Response :=
  with_headers (List.filter (fun h => negb (contains (map fst (hp_Headers response)) (fst h))) (cors_headers origin)) response.
Definition allowWebOrigin {S} (next : Request -> S -> S * option Response) (origin : string) (r : Request) (s : S) : S * option Response :=
  if String.eqb (ht_Origin r) origin then
    if String.eqb (ht_Method r) "OPTIONS" then (s, Some (with_headers (cors_headers origin) (write_header 204)))
    else let '(s, response) := next r s in (s, option_map (cors_response origin) response)
  else next r s.

(** ** The handlers

    The routes that answer from the database and the store of provider actions;
    those that stream or call out, [streams], are Relay.v, Broker.v,
    Anthropic.v, Realtime.v and ReferencePrice.v. *)
Record Site := mkSite { si_Db : Db; si_Actions : Items }.
(** What one request reads of the clocks and the random source. *)
Record Moment := mkMoment {
  mo_Now : Z; mo_Purged : Z; mo_Entropy : Entropy; mo_Random : result bytes; mo_Clock : Clock;
}.
Definition streaming (h : Handler) : bool :=
  match h with RelayH | OpenAIH | AnthropicH | EventsH | ReferencePriceH => true | _ => false end.

Section Handlers.
Context `{Ethereum} (TextHash : bytes -> bytes) (SigToAddress : bytes -> bytes -> option Address).
Context (streams : Handler -> Request -> Site -> Site * option Response).
Definition server_handlers (st : ServerSettings) (m : Moment) (h : Handler) (r : Request) (s : Site) : Site * option Response :=
  let d := si_Db s in
  match h with
  | AuthH =>
      let '(d', response) := serve TextHash SigToAddress (with_defaults (st_Auth st)) (mo_Now m) (mo_Entropy m) r d in
      (mkSite d' (si_Actions s), Some response)
  | OperationsH => (s, Some (NewOperations (mo_Now m) (st_Operations st) r d))
  | AnalyticsH =>
      (s, NewAnalytics (mo_Clock m) (mo_Now m) (oc_ChainID (st_Operations st)) (oc_ContractAddress (st_Operations st)) r d)
  | ProviderAccountH => (s, Some (NewProviderAccount (mo_Now m) (st_Provider st) r d))
  | ProviderActionsH =>
      let '(items, response) := serve_actions (st_Provider st) (mo_Now m) (mo_Purged m) (mo_Random m) r d (si_Actions s) in
      (mkSite d items, Some response)
  | MarketplaceH => (s, Some (NewMarketplace (mo_Now m) (30 * Second) r d))
  | other => streams other r s
  end.
Definition server_handler (st : ServerSettings) (m : Moment) : Request -> Site -> Site * option Response :=
  allowWebOrigin (serve_route (server_handlers st m)) (st_Origin st).
End Handlers.
