(* ===== verification/StartupSpec.v ===== *)
(** * Correctness of the start of the server

    The chain runtime is opened with the key that the contract names, on the
    chain it may use, and a start that fails leaves no connection open; the
    settlement loop keeps the ledger sound. *)

From S2P Require Import Prelude GoStrings GoTime Wire Receipt Messages Proposals Db Hex Auth Store Settlement Indexer Ledger Http AuthHttp.
From S2P Require Import ProviderAccount Actions ActionsSpec ProviderOps Login ChainClient Views Startup Sample LoginSpec.
From stdpp Require Import gmap strings.
Open Scope string_scope.
Open Scope list_scope.
Open Scope Z_scope.

Section Runtime.
Context {W Transaction PrivateKey : Type} `{Ethereum} `{SignerKeys PrivateKey}.
Context (ep : Endpoints (W := W) (Transaction := Transaction)).

(** Every connection that was opened is closed, once. *)
Definition all_closed (uses : list Use) : Prop :=
  forall r, length (filter (fun u => u = Opened r) uses) = length (filter (fun u => u = Closed r) uses)
    /\ (length (filter (fun u => u = Closed r) uses) <= 1)%nat.
Definition open_uses : list Use := [Opened ChainRpc; Opened QueueDatabase; Opened IndexerRpc; Opened IndexerDatabase].

Ltac closed := let r := fresh in intros r; destruct r; vm_compute; (split; [reflexivity|lia]).

Lemma Dial_uses key s s' r : Dial (PrivateKey := PrivateKey) ep key s = (s', r) ->
  match r with
  | Ok _ => s'.2 = s.2 ++ [Opened ChainRpc]
  | Err _ => s'.2 = s.2 \/ s'.2 = s.2 ++ [Opened ChainRpc; Closed ChainRpc]
  end.
Proof.
  unfold Dial, open, or_close, call, use, mbind, R_bind. destruct s as [w u]. cbn [fst snd].
  destruct (ep_DialChain ep w) as [w1 [x|]]; cbn [fst snd]; [|intros [= <- <-]; by left].
  destruct (dialed _ _ w1) as [w2 [c|]]; cbn [fst snd]; intros [= <- <-]; cbn [fst snd]; [done|right; by rewrite <- app_assoc].
Qed.
Lemma OpenSettlementQueue_uses s s' r : OpenSettlementQueue ep s = (s', r) ->
  match r with
  | Ok _ => s'.2 = s.2 ++ [Opened QueueDatabase]
  | Err _ => s'.2 = s.2 \/ s'.2 = s.2 ++ [Opened QueueDatabase; Closed QueueDatabase]
  end.
Proof.
  unfold OpenSettlementQueue, open, or_close, call, use, mbind, R_bind. destruct s as [w u]. cbn [fst snd].
  destruct (ep_OpenQueue ep w) as [w1 [x|]]; cbn [fst snd]; [|intros [= <- <-]; by left].
  destruct (ep_PingQueue ep w1) as [w2 [c|]]; cbn [fst snd]; intros [= <- <-]; cbn [fst snd]; [done|right; by rewrite <- app_assoc].
Qed.
Lemma OpenIndexer_uses contract start confirmations s s' r : OpenIndexer ep contract start confirmations s = (s', r) ->
  match r with
  | Ok i => s'.2 = s.2 ++ [Opened IndexerRpc; Opened IndexerDatabase] /\ ix_contract i = AddressHex contract
  | Err _ => s'.2 = s.2 \/ s'.2 = s.2 ++ [Opened IndexerRpc; Closed IndexerRpc]
      \/ s'.2 = s.2 ++ [Opened IndexerRpc; Opened IndexerDatabase; Closed IndexerRpc; Closed IndexerDatabase]
  end.
Proof.
  unfold OpenIndexer, open, or_close, call, use, mbind, R_bind, mret, R_ret. destruct s as [w u]. cbn [fst snd map].
  destruct (ep_DialIndexer ep w) as [w1 [x|]]; cbn [fst snd map]; [|intros [= <- <-]; by left].
  destruct (ep_IndexerChainID ep w1) as [w2 [chain|]]; cbn [fst snd map]; [|intros [= <- <-]; right; left; cbn; by rewrite <- app_assoc].
  destruct (ep_OpenIndexer ep w2) as [w3 [y|]]; cbn [fst snd map]; [|intros [= <- <-]; right; left; cbn; by rewrite <- app_assoc].
  destruct (ep_PingIndexer ep w3) as [w4 [z|]]; cbn [fst snd map]; [|intros [= <- <-]; right; right; cbn; by rewrite <- !app_assoc].
  destruct (ep_FeeRecipient ep contract w4) as [w5 [fee|]]; cbn [fst snd map]; intros [= <- <-]; cbn [fst snd ix_contract];
    [split; [by rewrite <- app_assoc|done]|right; right; by rewrite <- !app_assoc].
Qed.

(** What a runtime that was opened is. *)
Definition runtime_sound (allowLocal : string) (config : chainConfig) (rt : chainRuntime (PrivateKey := PrivateKey)) : Prop :=
  tm_SettlementSigner (cr_terms rt) = cl_address (cr_client rt)
  /\ (tm_ChainID (cr_terms rt) = 10143 \/ ToLower (TrimSpace allowLocal) = "true")
  /\ tm_ChainID (cr_terms rt) = cl_chainID (cr_client rt)
  /\ tm_Contract (cr_terms rt) = HexToAddress (cc_ContractAddress config)
  /\ ix_contract (cr_indexer rt) = AddressHex (HexToAddress (cc_ContractAddress config)).

Lemma check_terms_Ok allowLocal client terms u : check_terms (PrivateKey := PrivateKey) allowLocal client terms = Ok u ->
  tm_SettlementSigner terms = cl_address client /\ (tm_ChainID terms = 10143 \/ ToLower (TrimSpace allowLocal) = "true").
Proof.
  unfold check_terms. intros E. step_ok E as v Ev. destruct v. apply fail_if_Ok in Ev. apply fail_if_Ok in E.
  apply bool_decide_eq_false in E. split; [by destruct (decide (tm_SettlementSigner terms = cl_address client))|].
  apply andb_false_iff in Ev as [Ev%negb_false_iff|Ev%negb_false_iff]; [left; by apply Z.eqb_eq|right; by apply String.eqb_eq].
Qed.
Lemma ReceiptTerms_Ok client w w' terms : ReceiptTerms (PrivateKey := PrivateKey) (ep_Market ep) client w = (w', Ok terms) ->
  tm_ChainID terms = cl_chainID client /\ cl_contract client = Some (tm_Contract terms).
Proof.
  unfold ReceiptTerms, mbind, CC_bind, mret, CC_ret, throw. destruct (cl_contract client) as [contract|]; [|done]. destruct (negb _); [done|].
  destruct (mk_SettlementSigner _ _ w) as [w1 [a|]]; [|done]. destruct (mk_FeeBasisPoints _ _ w1) as [w2 [b|]]; [|done].
  destruct (mk_FeeVersion _ _ w2) as [w3 [c|]]; [|done]. destruct (mk_MinimumBond _ _ w3) as [w4 [d|]]; [|done]. by intros [= _ <-].
Qed.

(** What a start of the runtime that fails leaves of its connections. *)
Definition runtime_failures : list (list Use) := [
  []; [Opened ChainRpc; Closed ChainRpc];
  [Opened ChainRpc; Opened QueueDatabase; Closed QueueDatabase; Closed ChainRpc];
  [Opened ChainRpc; Opened QueueDatabase; Opened IndexerRpc; Closed IndexerRpc; Closed QueueDatabase; Closed ChainRpc];
  [Opened ChainRpc; Opened QueueDatabase; Opened IndexerRpc; Opened IndexerDatabase; Closed IndexerRpc; Closed IndexerDatabase;
   Closed QueueDatabase; Closed ChainRpc] ].

(** The chain runtime is opened soundly or not at all. *)
Lemma openChainRuntime_uses allowLocal config s s' r :
  openChainRuntime ep allowLocal config s = (s', r) ->
  match r with
  | Ok rt => runtime_sound allowLocal config rt /\ s'.2 = s.2 ++ open_uses
  | Err _ => exists trace, trace ∈ runtime_failures /\ s'.2 = s.2 ++ trace
  end.
Proof.
  unfold openChainRuntime, mbind. unfold R_bind at 1.
  assert (forall trace u, bool_decide (trace ∈ runtime_failures) = true -> exists t, t ∈ runtime_failures /\ u ++ trace = u ++ t) as Hf.
  { intros trace u Ht. exists trace. by apply bool_decide_eq_true in Ht. }
  destruct (Dial ep (cc_SettlementPrivateKey config) s) as [s1 [client|e1]] eqn:E1; apply Dial_uses in E1.
  2: { intros [= <- <-]. destruct E1 as [E1|E1]; rewrite E1; [exists []; split; [left|by rewrite app_nil_r]|by apply Hf]. }
  unfold or_close at 1. unfold R_bind at 1. unfold call at 1.
  destruct (ReceiptTerms (ep_Market ep) _ s1.1) as [w2 [terms|e2]] eqn:E2; cbn [fst snd map].
  2: { intros [= <- <-]. cbn [snd]. rewrite E1, <- app_assoc. by apply Hf. }
  apply ReceiptTerms_Ok in E2 as [Hchain Hcontract]. cbn [cl_contract Bind cl_chainID] in Hchain, Hcontract. injection Hcontract as Hcontract.
  unfold R_bind at 1. destruct (check_terms allowLocal _ terms) as [u3|e3] eqn:E3; cbn [fst snd map].
  2: { intros [= <- <-]. cbn [snd]. rewrite E1, <- app_assoc. by apply Hf. }
  apply check_terms_Ok in E3 as [Hsigner Hlocal].
  unfold R_bind at 1. destruct (OpenSettlementQueue ep _) as [s4 [u4|e4]] eqn:E4; apply OpenSettlementQueue_uses in E4; cbn [snd] in E4; rewrite E1 in E4; cbn [app] in E4.
  2: { intros [= <- <-]. cbn [snd map]. destruct E4 as [->| ->]; rewrite <- !app_assoc; by apply Hf. }
  unfold R_bind at 1, or_close. destruct (OpenIndexer ep _ _ _ s4) as [s5 [i|e5]] eqn:E5; apply OpenIndexer_uses in E5; rewrite E4 in E5; cbn [app] in E5.
  - intros [= <- <-]. destruct E5 as [E5 Hi]. split; [by repeat split|]. by rewrite E5, <- !app_assoc.
  - intros [= <- <-]. cbn [snd map]. destruct E5 as [->|[->| ->]]; rewrite <- !app_assoc; by apply Hf.
Qed.

(** ** The server *)
Context (sv : ServerEndpoints (W := W) (PrivateKey := PrivateKey)).
Definition opens (r : Resource) (p : R (W := W) unit) : Prop := forall s s' res, p s = (s', res) ->
  match res with
  | Ok _ => s'.2 = s.2 ++ [Opened r]
  | Err _ => s'.2 = s.2 \/ s'.2 = s.2 ++ [Opened r; Closed r]
  end.
Ltac opening := intros s s' res; unfold open, or_close, call, use, mbind, R_bind; destruct s as [w u]; cbn [fst snd];
  repeat (match goal with |- context [match ?x ?v with pair _ _ => _ end] => destruct (x v) as [? [?|]] end; cbn [fst snd map]);
  intros [= <- <-]; cbn [fst snd]; rewrite <- ?app_assoc; auto.
Lemma OpenAuth_opens : opens AuthDatabase (OpenAuth sv).
Proof. unfold OpenAuth. opening. Qed.
Lemma OpenStore_opens : opens StoreDatabase (OpenStore sv).
Proof. unfold OpenStore. opening. Qed.
Lemma OpenEvents_opens : opens EventsDatabase (OpenEvents sv).
Proof. unfold OpenEvents. opening. Qed.

(** Everything the server does when it comes to serve. *)
Definition served_uses (ended : Ended) : list Use :=
  [Opened AuthDatabase; Opened StoreDatabase] ++ open_uses ++ [Started Indexing; Started Settling; Opened EventsDatabase; Started Listening]
  ++ match ended with ServeFailed _ => [] | Signalled _ => [ShutDown] end
  ++ [Closed EventsDatabase; StopRuntime] ++ map Closed CloseRuntime ++ [Closed StoreDatabase; Closed AuthDatabase].

Ltac refused := split; [closed|right; split; [by apply (bool_decide_unpack _)|eauto]].

(** C30. The server serves soundly or not at all, and leaves no connection open.
    It listens only when its key service, its store, its chain runtime and its
    event stream are open and both or neither of the TLS files are given; the
    settlement key is then the one the contract names as its settlement signer,
    the chain is Monad testnet unless a local chain was allowed, and the indexer
    reads the same contract.  However it ends, by a listener that fails, a
    signal, or a step of the start that fails, every connection that was opened
    is closed exactly once; and when it served, in the order of [served_uses]: a
    signal shuts the listener down first, and the background loops are told to
    stop before the connections of the chain runtime are closed.  They are told,
    not awaited: see [tick_over_closed_queue]. *)
Theorem server_run getenv w s' r :
  run ep sv getenv (w, []) = (s', r) ->
  all_closed s'.2 /\
  ((exists config rt tls w1 w2 ended, loadChainConfig getenv = Ok config
      /\ runtime_sound (getenv "MYFERENCE_ALLOW_LOCAL_CHAIN") config rt
      /\ tls_pair (getenv "MYFERENCE_TLS_CERT") (getenv "MYFERENCE_TLS_KEY") = Ok tls
      /\ sv_Serve sv tls (listenAddress getenv) (server_settings getenv config (cr_terms rt)) rt w1 = (w2, ended)
      /\ s' = (w2, served_uses ended) /\ r = serve_result ended)
   \/ ((Started Listening ∉ s'.2) /\ exists e, r = Err e)).
Proof.
  unfold run. destruct (String.eqb _ ""); [intros [= <- <-]; cbn [snd]; refused|].
  unfold mbind. unfold R_bind at 1. unfold returned at 1. destruct (loadChainConfig getenv) as [config|e] eqn:EC.
  2: { intros [= <- <-]; cbn [snd]; refused. }
  unfold R_bind at 1. destruct (OpenAuth sv (w, [])) as [s1 [u1|e1]] eqn:E1; apply OpenAuth_opens in E1; cbn [snd app] in E1.
  2: { intros [= <- <-]. destruct E1 as [E1|E1]; rewrite E1; refused. }
  unfold deferred at 1. unfold R_bind at 1. destruct (OpenStore sv s1) as [s2 [u2|e2]] eqn:E2; apply OpenStore_opens in E2; rewrite E1 in E2; cbn [app] in E2.
  2: { intros [= <- <-]. cbn [snd]. destruct E2 as [E2|E2]; rewrite E2; refused. }
  unfold deferred at 1. unfold R_bind at 1.
  destruct (openChainRuntime ep _ config s2) as [s3 [rt|e3]] eqn:E3; apply openChainRuntime_uses in E3; rewrite E2 in E3.
  2: { intros [= <- <-]. cbn [fst snd]. destruct E3 as (trace & Ht & ->).
       repeat (apply elem_of_cons in Ht as [->|Ht]; [refused|]). by apply elem_of_nil in Ht. }
  destruct E3 as [Hsound E3]. unfold deferred at 1. unfold deferred at 1. unfold start_loops, mbind. unfold R_bind at 1. unfold R_bind at 1. unfold use at 1.
  unfold R_bind at 1, use at 1. cbn [fst snd].
  destruct (OpenEvents sv _) as [s4 [u4|e4]] eqn:E4; apply OpenEvents_opens in E4; cbn [snd] in E4; rewrite E3 in E4.
  2: { intros [= <- <-]. cbn [fst snd]. destruct E4 as [E4|E4]; rewrite E4; refused. }
  unfold deferred at 1. unfold R_bind at 1. unfold returned at 1. destruct (tls_pair _ _) as [tls|e5] eqn:E5.
  2: { intros [= <- <-]. cbn [fst snd]. rewrite E4. refused. }
  unfold R_bind at 1, use, R_bind at 1, deferred, serving, returned. cbn [fst snd].
  destruct (sv_Serve sv tls _ _ rt s4.1) as [w6 ended] eqn:E6. intros [= <- <-]. cbn [fst snd]. rewrite E4.
  split; [destruct ended; closed|]. left. exists config, rt, tls, s4.1, w6, ended. split_and!; [done..| |done]. f_equal. by destruct ended.
Qed.

(** The loops are not awaited: the settlement loop may be in a tick when the
    queue it works on has been closed. *)
Lemma tick_over_closed_queue : exists p,
  rtc process_step (mkProcess (served_uses (Signalled (Ok tt))) [] Idle Idle) p
  /\ pr_settle p = Ticking /\ In (Closed QueueDatabase) (pr_done p).
Proof.
  eexists. split.
  - do 8 (eapply rtc_l; [apply main_step|]; cbn [started pr_main pr_done pr_index pr_settle app]).
    eapply rtc_l; [apply settle_step, loop_tick|].
    do 8 (eapply rtc_l; [apply main_step|]; cbn [started pr_main pr_done pr_index pr_settle app]). apply rtc_refl.
  - split; [reflexivity|]. cbn. tauto.
Qed.

(** ** The migrations *)
Section Migrate.
Context (glob : result (list string)) (read_file : string -> M (W := W) string) (execute : string -> M (W := W) unit).
Lemma apply_migrations_uses paths : forall s s' r, apply_migrations read_file execute paths s = (s', r) ->
  exists k, s'.2 = s.2 ++ map Applied (take k paths) /\ match r with Ok _ => k = length paths | Err _ => (k < length paths)%nat end.
Proof.
  induction paths as [|path rest IH]; intros s s' r; cbn [apply_migrations].
  { intros [= <- <-]. exists 0%nat. by rewrite app_nil_r. }
  unfold ApplyMigration, mbind, R_bind, call, use. destruct (read_file path s.1) as [w1 [text|e]]; cbn [fst snd].
  2: { intros [= <- <-]. exists 0%nat. rewrite app_nil_r. split; [done|cbn; lia]. }
  destruct (execute text w1) as [w2 [u|e]]; cbn [fst snd].
  2: { intros [= <- <-]. exists 0%nat. rewrite app_nil_r. split; [done|cbn; lia]. }
  intros E. apply IH in E as (k & -> & Hr). exists (S k). cbn [take map fst snd]. rewrite <- app_assoc. split; [done|].
  destruct r; cbn [length]; lia.
Qed.
(** The migrations are applied once each, in the order of their names; an error
    leaves a prefix of them applied.  The database is closed again. *)
Lemma migrations_applied getenv w s' r :
  migrate sv glob read_file execute getenv (w, []) = (s', r) ->
  let applied k paths := [Opened StoreDatabase] ++ map Applied (take k (sort_strings paths)) ++ [Closed StoreDatabase] in
  match r with
  | Ok _ => exists paths, glob = Ok paths /\ paths <> [] /\ s'.2 = applied (length (sort_strings paths)) paths
  | Err _ => s'.2 = [] \/ exists paths k, glob = Ok paths /\ (k = 0 \/ k < length (sort_strings paths))%nat /\ s'.2 = applied k paths
  end.
Proof.
  unfold migrate. destruct (String.eqb _ ""); [intros [= <- <-]; by left|]. unfold mbind, returned. unfold R_bind at 1.
  destruct glob as [[|p paths]|e]; [intros [= <- <-]; by left| |intros [= <- <-]; by left]. intros E.
  unfold R_bind in E. destruct (OpenStore sv (w, [])) as [s1 [u1|e1]] eqn:E1; apply OpenStore_opens in E1; cbn [snd app] in E1.
  2: { injection E as <- <-. destruct E1 as [->| ->]; [by left|]. right. exists (p :: paths), 0%nat. auto. }
  unfold deferred in E. destruct (apply_migrations _ _ _ s1) as [s2 r2] eqn:E2. apply apply_migrations_uses in E2 as (k & E2 & Hk).
  injection E as <- <-. cbn [snd map]. rewrite E2, E1. destruct r2.
  - exists (p :: paths). subst k. done.
  - right. exists (p :: paths), k. auto.
Qed.
End Migrate.
End Runtime.

(** ** Accounts

    A request of the browser acts for the account of its session cookie, when its
    origin is the web application's ([acts_for]); the routes of the provider
    actions ask for the cookie or a machine's bearer token, and not for an
    origin. *)
Section Accounts.
Context `{Ethereum} (TextHash : bytes -> bytes) (SigToAddress : bytes -> bytes -> option Address).
Context (streams : Handler -> Request -> Site -> Site * option Response) (st : ServerSettings) (m : Moment).
Abbreviation handle := (server_handler TextHash SigToAddress streams st m).

Definition authenticated_as (r : Request) (d : Db) (account : string) : Prop :=
  exists source machineID, identity (mo_Now m) r d = Ok (source, machineID, account).
Definition streamed (r : Request) : bool :=
  match find_route newRootHandler (ht_Method r) (ht_Path r) with Some h => streaming h | None => false end.

(** The web origin only adds headers, or answers its preflight. *)
Lemma handle_cases (P : Site -> Prop) r s s' response :
  P s -> (forall response', serve_route (server_handlers TextHash SigToAddress streams st m) r s = (s', response') -> P s') ->
  handle r s = (s', response) -> P s'.
Proof.
  unfold server_handler, allowWebOrigin. intros Hs Hr. destruct (String.eqb _ _); [|by apply Hr].
  destruct (String.eqb _ "OPTIONS"); [by intros [= <- <-]|].
  destruct (serve_route _ r s) as [s1 resp] eqn:E. intros [= <- _]. by eapply Hr.
Qed.
Lemma route_cases (P : Site -> Prop) r s s' response :
  streamed r = false -> P s ->
  (forall d response', serve TextHash SigToAddress (with_defaults (st_Auth st)) (mo_Now m) (mo_Entropy m) r (si_Db s) = (d, response') ->
     P (mkSite d (si_Actions s))) ->
  (forall items response', serve_actions (st_Provider st) (mo_Now m) (mo_Purged m) (mo_Random m) r (si_Db s) (si_Actions s) = (items, response') ->
     P (mkSite (si_Db s) items)) ->
  serve_route (server_handlers TextHash SigToAddress streams st m) r s = (s', response) -> P s'.
Proof.
  unfold streamed, serve_route. intros Hst Hs Ha Hp. destruct (find_route _ _ _) as [h|]; [|by intros [= <- _]].
  destruct h; try discriminate Hst; cbn [server_handlers]; try (by intros [= <- _]).
  - destruct (serve _ _ _ _ _ r _) as [d resp] eqn:E. intros [= <- _]. by eapply Ha.
  - destruct (serve_actions _ _ _ _ r _ _) as [items resp] eqn:E. intros [= <- _]. by eapply Hp.
Qed.

(** The provider actions of an account are as they were but for those that
    expired. *)
Definition actions_kept (account : string) (s s' : Site) : Prop :=
  forall id a, si_Actions s !! id = Some a -> pa_AccountID a = account ->
    si_Actions s' !! id = Some a \/ si_Actions s' !! id = None /\ pa_ExpiresAt a <= Z.max (mo_Now m) (mo_Purged m).
Lemma actions_kept_refl account s : actions_kept account s s.
Proof. by left. Qed.

(** C24. Only its owner's requests change an account, whatever the route, method
    and body, of all the routes of the server that do not stream.  A request that
    does not carry the cookie of a live session of the account from the web
    application's origin leaves the account's API keys and stream tickets as they
    were, ends none of its sessions and approves no device in its name.  A request
    that carries neither the cookie of a live session of the account nor the
    token of one of its machines leaves each of its provider actions exactly as it
    was, unless it had expired; here the origin does not matter, since the routes
    of the provider actions take the cookie from any origin:
    [foreign_origin_submits].  The identifiers of the keys and of the sessions are
    distinct, as their tables require, and the identifier that a new action
    draws at random is not in use. *)
Theorem requests_act_for_their_account r s s' response account :
  NoDup (map ak_id (api_keys (si_Db s))) -> NoDup (map bs_id (browser_sessions (si_Db s))) ->
  (forall drawn, providerActionID (mo_Random m) = Ok drawn -> si_Actions s !! drawn = None) ->
  streamed r = false -> handle r s = (s', response) ->
  (~ acts_for (with_defaults (st_Auth st)) (mo_Now m) r (si_Db s) account -> untouched account (si_Db s) (si_Db s'))
  /\ (~ authenticated_as r (si_Db s) account -> actions_kept account s s').
Proof.
  intros Hk Hb Hdraw Hst E. split; intros Hacts; revert E.
  - apply (handle_cases (fun s' => untouched account (si_Db s) (si_Db s'))); [apply untouched_refl|]. intros response'.
    apply (route_cases (fun s' => untouched account (si_Db s) (si_Db s'))); [done|apply untouched_refl| |by intros; apply untouched_refl].
    intros d resp E. by eapply requests_act_for_their_session, E.
  - apply (handle_cases (actions_kept account s)); [apply actions_kept_refl|]. intros response'.
    apply (route_cases (actions_kept account s)); [done|apply actions_kept_refl|by intros; left|].
    intros items resp E id a Ha Hacc. cbn [si_Actions]. eapply actions_account_isolated, E; [|exact Ha|].
    + intros drawn Hd ->. specialize (Hdraw _ Hd). congruence.
    + intros source machineID other Hi ->. apply Hacts. rewrite <- Hacc. by exists source, machineID.
Qed.

(** The routes of an account refuse a request that acts for nobody. *)
Definition of_account (h : Handler) : bool :=
  match h with OperationsH | AnalyticsH | ProviderAccountH | ProviderActionsH => true | _ => false end.
Definition refusal (response : option Response) : Prop := exists resp, response = Some resp /\ In (hp_Status resp) [401; 404; 405].
Lemma refusal_cors origin response : refusal response -> refusal (option_map (cors_response origin) response).
Proof. intros (resp & -> & Hs). by exists (cors_response origin resp). Qed.
Lemma refusal_no_route {A} (routes : list (pattern * A)) path : refusal (Some (no_route routes path)).
Proof. unfold no_route. destruct (path_known _ _); eexists; (split; [done|]); cbn; auto. Qed.
Lemma strangers_refused r s s' response h :
  find_route newRootHandler (ht_Method r) (ht_Path r) = Some h -> of_account h = true ->
  is_ok (machineAccount r (si_Db s)) = false -> is_ok (browserAccount (mo_Now m) r (si_Db s)) = false ->
  ht_Method r <> "OPTIONS" -> handle r s = (s', response) -> s' = s /\ refusal response.
Proof.
  intros Hf Ho Hm Hb Hopt.
  assert (forall s' response, serve_route (server_handlers TextHash SigToAddress streams st m) r s = (s', response) ->
    s' = s /\ refusal response) as Hroute.
  { clear s' response. intros s' response. unfold serve_route. rewrite Hf. destruct (machineAccount r (si_Db s)) as [x|e1] eqn:Em; [done|].
    destruct (browserAccount (mo_Now m) r (si_Db s)) as [y|e2] eqn:Eb; [done|].
    assert (forall e, refusal (Some (http_error 401 e))) as H401 by (intros e; eexists; split; [done|cbn; auto]).
    assert (refusal (Some not_found)) as H404 by (eexists; split; [done|cbn; auto]).
    assert (identity (mo_Now m) r (si_Db s) = Err e1 \/ identity (mo_Now m) r (si_Db s) = Err e2) as Hid.
    { unfold identity. destruct (negb _); [left; by rewrite Em|right; by rewrite Eb]. }
    destruct h; try discriminate Ho; cbn [server_handlers].
    - intros [= <- <-]. split; [done|]. unfold NewOperations. destruct (_ || _); [done|]. by rewrite Eb.
    - intros [= <- <-]. split; [done|]. unfold NewAnalytics. destruct (_ || _); [done|]. by rewrite Eb.
    - intros [= <- <-]. split; [done|]. unfold NewProviderAccount.
      destruct (find_route provider_routes _ _) as [[]|]; [| |apply refusal_no_route].
      + unfold account. destruct (negb _); rewrite ?Em, ?Eb; apply H401.
      + unfold versions. rewrite Em. apply H401.
    - unfold serve_actions. destruct s as [d items].
      destruct (find_route NewProviderActions _ _) as [[]|]; [| | |intros [= <- <-]; split; [done|apply refusal_no_route]].
      + unfold create. cbn in Hid |- *. destruct Hid as [-> | ->]; intros [= <- <-]; (split; [done|apply H401]).
      + unfold get. cbn in Hid |- *. destruct Hid as [-> | ->]; intros [= <- <-]; (split; [done|apply H401]).
      + unfold submitted. cbn in Hid |- *. destruct Hid as [-> | ->]; intros [= <- <-]; (split; [done|apply H401]). }
  unfold server_handler, allowWebOrigin. destruct (String.eqb _ _); [|apply Hroute].
  destruct (String.eqb_spec (ht_Method r) "OPTIONS"); [done|]. destruct (serve_route _ r s) as [s1 resp] eqn:E.
  intros [= <- <-]. destruct (Hroute _ _ eq_refl) as [-> Hr]. split; [done|by apply refusal_cors].
Qed.
End Accounts.

(** ** The settlement loop *)
Lemma settle_tick_ok {T} th mb um prep (rpc : Rpc (Transaction := T)) now d : db_ok d -> db_ok (settle_tick th mb um prep rpc now d).
Proof.
  intros Hd. unfold settle_tick, SettleBatch. destruct (1 <=? 0); [done|].
  destruct (pendingBroadcast um d) as [[[hash tx]|]|]; [by destruct (Broadcast _ _) as [? []]| |done].
  destruct (settle_transaction _ _ _ _ _ _) as [[tx d']|] eqn:E; [|done].
  destruct (Broadcast _ _) as [? []]; by apply (settle_transaction_ok _ _ _ _ _ _ _ _ Hd E).
Qed.

(** ** A concrete node *)
Module StartRun.
Import LoginRun.
Definition returns {A} (a : A) : M (W := unit) A := fun w => (w, Ok a).
Definition refuses {A} : M (W := unit) A := fun w => (w, Err (ErrNew "connection refused")).
(** A node of chain [chain], with a contract whose settlement signer is the key. *)
Definition market (chain : Z) : Market (W := unit) (Transaction := unit) :=
  mkMarket (returns chain) (fun _ _ _ _ _ _ => refuses) (fun _ => returns (replicate 20 7)) (fun _ => returns 500) (fun _ => returns 1)
    (fun _ => returns 10) (fun _ _ => refuses) (fun _ _ => refuses) (fun _ _ => refuses) (fun _ _ _ _ => refuses) (fun _ => refuses).
(** [indexed] is whether the database answers the indexer. *)
Definition endpoints (chain : Z) (indexed : bool) : Endpoints (W := unit) (Transaction := unit) :=
  mkEndpoints (returns tt) (market chain) (returns tt) (returns tt) (returns tt) (returns chain) (returns tt)
    (if indexed then returns tt else refuses) (fun _ => returns (replicate 20 68)).
Definition config : chainConfig := mkChainConfig "http://127.0.0.1:8545" contract_address "0x07" 5.
Definition environment (name : string) : string :=
  if String.eqb name "MYFERENCE_DATABASE_URL" then "postgres://localhost/myference"
  else if String.eqb name "MYFERENCE_RPC_URL" then cc_RPCURL config
  else if String.eqb name "MYFERENCE_CONTRACT_ADDRESS" then contract_address
  else if String.eqb name "MYFERENCE_SETTLEMENT_PRIVATE_KEY" then "0x07"
  else if String.eqb name "MYFERENCE_CHAIN_START_BLOCK" then "5"
  else if String.eqb name "MYFERENCE_WEB_ORIGIN" then "https://app"
  else "".
(** [streams] is whether the database answers the event stream; the server is
    shut down by a signal. *)
Definition server (streams : bool) : ServerEndpoints (W := unit) (PrivateKey := unit) :=
  mkServerEndpoints (returns tt) (returns tt) (returns tt) (returns tt) (returns tt) (if streams then returns tt else refuses)
    (fun _ _ _ _ w => (w, Signalled (Ok tt))).
Definition start (chain : Z) (indexed streams : bool) := run (endpoints chain indexed) (server streams) environment (tt, []).

Lemma server_run_witness :
  (start 10143 true true).1.2 = served_uses (Signalled (Ok tt)) /\ (start 10143 true true).2 = Ok tt
  /\ all_closed (start 10143 true false).1.2 /\ In (Opened EventsDatabase) (start 10143 true false).1.2
  /\ all_closed (start 10143 false true).1.2 /\ (Started Listening ∉ (start 10143 false true).1.2)
  /\ all_closed (start 31337 true true).1.2.
Proof.
  assert (forall chain indexed streams, all_closed (start chain indexed streams).1.2) as Hc.
  { intros chain indexed streams. unfold start.
    destruct (run (endpoints chain indexed) (server streams) environment (tt, [])) as [s' r] eqn:E.
    exact (proj1 (server_run (endpoints chain indexed) (server streams) environment tt s' r E)). }
  split; [vm_compute; reflexivity|]. split; [vm_compute; reflexivity|]. split; [apply Hc|].
  split; [vm_compute; tauto|]. split; [apply Hc|]. split; [apply (bool_decide_unpack _); vm_compute; exact I|apply Hc].
Defined.

(** The settings of the server, and a provider whose action waits for its
    wallet while it tries to revoke a customer's API key. *)
Definition settings : ServerSettings := server_settings environment config (mkTerms 10143 (replicate 20 51) (replicate 20 7) 500 1 10).
Definition moment : Moment := mkMoment 10 10 Web.entropy (Ok (replicate 24 2)) (mkClock (fun _ => 10) 10 10 (fun _ => 10)).
Definition site : Site := mkSite Web.two_accounts (w_items ActionsSpec.Run.w2).
Definition nothing (h : Handler) (r : Request) (s : Site) : Site * option Response := (s, None).
Abbreviation answer r := (server_handler toy_text_hash toy_recover nothing settings moment r site).
Definition anonymous : Request :=
  mkRequest "POST" ["api"; "provider"; "actions"; ActionsSpec.Run.id; "submitted"] "https://app" "" "application/json" None
    (Some (JObj [("transaction_hashes", JArr [JStr ActionsSpec.Run.transaction])])).

(** The same request with the provider's cookie, from a page of another site. *)
Definition foreign : Request :=
  mkRequest "POST" ["api"; "provider"; "actions"; ActionsSpec.Run.id; "submitted"] "https://evil" "" "text/plain" (Some "session_p.secret")
    (Some (JObj [("transaction_hashes", JArr [JStr ActionsSpec.Run.transaction])])).
Definition waiting_site : Site := mkSite Web.two_accounts (w_items ActionsSpec.Run.w1).

(** The routes of the provider actions take the session cookie from any origin. *)
Lemma foreign_origin_submits :
  let '(s', response) := server_handler toy_text_hash toy_recover nothing settings moment foreign waiting_site in
  option_map hp_Status response = Some 200
  /\ option_map pa_Status (si_Actions waiting_site !! ActionsSpec.Run.id) = Some ActionPendingWallet
  /\ option_map pa_Status (si_Actions s' !! ActionsSpec.Run.id) = Some ActionPendingChain.
Proof. vm_compute. split_and!; reflexivity. Qed.

Lemma requests_act_for_their_account_witness :
  untouched "customer" (si_Db site) (si_Db (answer Web.revoke_other).1)
  /\ option_map hp_Status (answer Web.revoke_other).2 = Some 401
  /\ actions_kept moment "provider" site (answer anonymous).1
  /\ option_map hp_Status (answer anonymous).2 = Some 401.
Proof.
  assert (forall r account, streamed r = false ->
    (~ acts_for (with_defaults (st_Auth settings)) (mo_Now moment) r (si_Db site) account ->
       untouched account (si_Db site) (si_Db (answer r).1))
    /\ (~ authenticated_as moment r (si_Db site) account -> actions_kept moment account site (answer r).1)) as Hkept.
  { intros r account Hs. destruct (answer r) as [s' response] eqn:E.
    apply (requests_act_for_their_account toy_text_hash toy_recover nothing settings moment r site s' response account);
      [by apply (bool_decide_unpack _)|by apply (bool_decide_unpack _)| |exact Hs|exact E].
    intros drawn Hd. vm_compute in Hd. injection Hd as <-. vm_compute. reflexivity. }
  split.
  { apply (Hkept Web.revoke_other "customer"); [vm_compute; reflexivity|]. intros [_ (session & Ha & Hc)].
    vm_compute in Ha. injection Ha as <-. discriminate Hc. }
  split; [vm_compute; reflexivity|]. split; [|vm_compute; reflexivity].
  apply (Hkept anonymous "provider"); [vm_compute; reflexivity|]. intros (source & machine & Hi).
  vm_compute in Hi. discriminate Hi.
Defined.
End StartRun.
