(* ===== verification/ViewsSpec.v ===== *)
(** * Correctness of the views

    The list of models agrees with the offers of each model, and with what the
    router may choose; the rows of the query are grouped into the machines of the
    account, each once with its backends in order, and the hashes of the offers
    survive being joined with commas; the points of the last thirty days are exact
    as long as one UTC day lasts, and the totals add up. *)

From S2P Require Import Prelude GoStrings GoTime Wire Receipt Messages Router Db Hex Auth Store Indexer Http AuthHttp ProviderAccount Views Sample.
From Stdlib Require Import Ascii.
From stdpp Require Import gmap strings sorting.
Open Scope string_scope.
Open Scope list_scope.
Open Scope Z_scope.

(** * The market *)

(** ** Orders *)
Section Order.
Context {R : Type} (before : R -> R -> bool).
Lemma insert_with_Permutation row rows : insert_with before row rows ≡ₚ row :: rows.
Proof.
  induction rows as [|x rows IH]; cbn [insert_with]; [done|]. destruct (before row x); [done|]. rewrite IH. constructor.
Qed.
Lemma order_with_Permutation rows : order_with before rows ≡ₚ rows.
Proof. unfold order_with. induction rows as [|x rows IH]; cbn [foldr]; [done|]. by rewrite insert_with_Permutation, IH. Qed.

Context (total : forall a b, before a b = true \/ before b a = true) (trans : forall a b c, before a b = true -> before b c = true -> before a c = true).
Lemma order_with_sorted rows : StronglySorted (fun a b => before a b = true) (order_with before rows).
Proof.
  induction rows as [|x rows IH]; [constructor|]. unfold order_with in *. cbn [foldr]. induction IH as [|y l Hl IHl Hy]; cbn [insert_with]; [by repeat constructor|].
  destruct (before x y) eqn:E.
  - constructor; [by constructor|]. constructor; [done|]. eapply Forall_impl; [exact Hy|]. intros z Hz. by apply (trans x y z).
  - constructor; [done|]. rewrite insert_with_Permutation. constructor; [|done]. by destruct (total x y); [congruence|].
Qed.
(** Filtering commutes with sorting. *)
Lemma filter_insert_with p x l : StronglySorted (fun a b => before a b = true) l ->
  List.filter p (insert_with before x l) = if p x then insert_with before x (List.filter p l) else List.filter p l.
Proof.
  induction 1 as [|y l Hl IH Hy]; cbn [insert_with List.filter]; [by destruct (p x)|]. destruct (before x y) eqn:E; cbn [List.filter].
  - destruct (p x); [|done]. destruct (p y); cbn [insert_with]; [by rewrite E|]. clear IH Hl.
    destruct (List.filter p l) as [|z rest] eqn:Ef; [done|]. cbn [insert_with].
    assert (In z l) as Hz by (apply (filter_In p); rewrite Ef; by left). rewrite (Forall_forall _ l) in Hy.
    rewrite (trans x y z); [done|done|]. apply Hy. by apply list_elem_of_In.
  - rewrite IH. destruct (p y), (p x); cbn [insert_with]; try done. by rewrite E.
Qed.
Lemma filter_order_with p rows : List.filter p (order_with before rows) = order_with before (List.filter p rows).
Proof.
  unfold order_with. induction rows as [|x rows IH]; [done|]. cbn [foldr List.filter]. rewrite filter_insert_with by apply order_with_sorted.
  rewrite IH. by destruct (p x).
Qed.
End Order.

Lemma order_with_map {A B} (f : A -> B) before before' l : (forall a b, before (f a) (f b) = before' a b) ->
  order_with before (map f l) = map f (order_with before' l).
Proof.
  intros H. unfold order_with. induction l as [|x l IH]; [done|]. cbn [map foldr]. rewrite IH. generalize (foldr (insert_with before') [] l). clear IH.
  intros m. induction m as [|y m IH]; cbn [insert_with map]; [done|]. rewrite H. destruct (before' x y); [done|]. cbn [map]. by rewrite IH.
Qed.

(** ** Texts *)
Lemma string_leb_total a b : string_leb a b = true \/ string_leb b a = true.
Proof. unfold string_leb, string_ltb. rewrite (string_cmp_antisym a b). destruct (string_cmp a b); cbn; auto. Qed.
Lemma string_leb_trans a b c : string_leb a b = true -> string_leb b c = true -> string_leb a c = true.
Proof.
  unfold string_leb, string_ltb. rewrite (string_cmp_antisym a b), (string_cmp_antisym b c), (string_cmp_antisym a c).
  destruct (string_cmp a b) eqn:E1; [apply string_cmp_eq in E1 as ->; done| |done].
  destruct (string_cmp b c) eqn:E2; [apply string_cmp_eq in E2 as <-; by rewrite E1|by rewrite (string_cmp_lt_trans _ _ _ E1 E2)|done].
Qed.
Lemma distinct_strings_spec l x : x ∈ distinct_strings l <-> x ∈ l.
Proof. unfold distinct_strings. rewrite !list_elem_of_In, nodup_In, <- !list_elem_of_In. by rewrite sort_strings_Permutation. Qed.
Lemma distinct_strings_NoDup l : NoDup (distinct_strings l).
Proof. apply NoDup_ListNoDup, NoDup_nodup. Qed.


(** ** Minima and sums *)
Lemma min_nullable_spec {R} (value : R -> Z) rows : rows <> [] ->
  exists m, min_nullable value rows = Some m /\ (exists r, r ∈ rows /\ value r = m) /\ forall r, r ∈ rows -> m <= value r.
Proof.
  unfold min_nullable. induction rows as [|r rows IH]; [done|]. intros _. cbn [foldr]. destruct rows as [|r' rows].
  - exists (value r). cbn. split_and!; [done|exists r; split; [by left|done]|]. intros x Hx%list_elem_of_singleton. subst. lia.
  - destruct IH as (m & -> & (x & Hx & Ex) & Hm); [done|]. exists (Z.min (value r) m). split_and!; [done| |].
    + destruct (Z.le_ge_cases (value r) m); [exists r; split; [by left|lia]|exists x; split; [by right|lia]].
    + intros y [->|Hy]%elem_of_cons; [lia|]. specialize (Hm y Hy). lia.
Qed.
Lemma affected_Permutation {R} (p : R -> bool) l k : l ≡ₚ k -> affected p l = affected p k.
Proof. unfold affected, select. induction 1; cbn [List.filter]; repeat (destruct (p _)); cbn [length]; lia. Qed.
Lemma sum_where_Permutation {R} (p : R -> bool) value l k : l ≡ₚ k -> sum_where p value l = sum_where p value k.
Proof. unfold sum_where. induction 1; cbn [foldr]; lia. Qed.
Lemma affected_map {R S} (f : R -> S) p l : affected p (map f l) = affected (fun r => p (f r)) l.
Proof. unfold affected, select. induction l as [|r l IH]; [done|]. cbn [map List.filter]. destruct (p (f r)); cbn [length]; lia. Qed.

(** ** What the market is meant to show *)
(** Every routing row has its machine, and the machine its account: the foreign
    keys of the tables. *)
Definition joins_once (d : Db) : Prop :=
  forall r, r ∈ routing d -> exists m a, List.filter (fun m => String.eqb (mc_id m) (rt_machine r)) (machines d) = [m]
    /\ List.filter (fun a => String.eqb (ac_id a) (mc_account m)) (accounts d) = [a].
(** The CHECK constraint of the capacity. *)
Definition capacities (d : Db) : Prop := forall r, r ∈ routing d -> 0 <= rt_capacity r.

Lemma of_model_spec name d r : r ∈ of_model name d <-> r ∈ routing d /\ rt_confirmed_bond r = true /\ rt_model r = name.
Proof. unfold of_model. rewrite !select_spec, String.eqb_eq. tauto. Qed.
Lemma with_account_once d r : joins_once d -> r ∈ routing d -> exists a, with_account d r = [(r, a)].
Proof. intros H Hr. destruct (H r Hr) as (m & a & Em & Ea). exists a. unfold with_account. rewrite Em. cbn. by rewrite Ea. Qed.
Lemma joined_rows d rows : joins_once d -> (forall r, r ∈ rows -> r ∈ routing d) -> map fst (rows ≫= with_account d) = rows.
Proof.
  intros Hj. induction rows as [|r rows IH]; intros H; [done|]. rewrite bind_cons, map_app, IH by (intros x Hx; apply H; by right).
  destruct (with_account_once d r Hj) as [a ->]; [apply H; by left|]. done.
Qed.

Lemma cheaper_total a b : cheaper a b = true \/ cheaper b a = true.
Proof.
  unfold cheaper. destruct (string_leb_total (rt_machine (fst a)) (rt_machine (fst b))) as [E|E]; rewrite E; rewrite !orb_true_iff, !andb_true_iff, !orb_true_iff, !Z.ltb_lt, !Z.eqb_eq; lia.
Qed.
Lemma cheaper_trans a b c : cheaper a b = true -> cheaper b c = true -> cheaper a c = true.
Proof.
  unfold cheaper. rewrite !orb_true_iff, !andb_true_iff, !orb_true_iff, !andb_true_iff, !Z.ltb_lt, !Z.eqb_eq.
  intros [H1|[E1 [H1|[F1 H1]]]] [H2|[E2 [H2|[F2 H2]]]]; try (left; lia); right; (split; [lia|]); try (left; lia).
  right. split; [lia|]. by eapply string_leb_trans.
Qed.
Lemma cheaper_input a b : cheaper a b = true -> rt_input (fst a) <= rt_input (fst b).
Proof. unfold cheaper. rewrite orb_true_iff, andb_true_iff, Z.ltb_lt, Z.eqb_eq. lia. Qed.

(** The entry of a model, when the model has an offer. *)
Definition minimum (value : RoutingRow -> Z) (rows : list RoutingRow) : Z := default 0 (min_nullable value rows).
Definition entry (cutoff : Z) (d : Db) (name : string) : MarketModel :=
  let rows := of_model name d in
  mkMarketModel name (affected (available cutoff) rows) (sum_where (fun r => rt_healthy r && up_to_date cutoff r) rt_capacity rows)
    (BigString (minimum rt_input rows)) (BigString (minimum rt_output rows)) (BigString (minimum rt_compute rows))
    (forallb (fun r => negb (up_to_date cutoff r)) rows).
Lemma market_model_entry cutoff d name : of_model name d <> [] -> market_model cutoff name (of_model name d) = Ok (entry cutoff d name).
Proof.
  intros H. unfold market_model, entry, minimum.
  destruct (min_nullable_spec rt_input _ H) as (? & -> & _), (min_nullable_spec rt_output _ H) as (? & -> & _), (min_nullable_spec rt_compute _ H) as (? & -> & _).
  done.
Qed.
Definition listed (d : Db) : list string := distinct_strings (map rt_model (select rt_confirmed_bond (routing d))).
Lemma listed_spec d name : name ∈ listed d <-> of_model name d <> [].
Proof.
  unfold listed. rewrite distinct_strings_spec, list_elem_of_fmap. split.
  - intros (r & -> & [Hr Hb]%select_spec) E. apply (not_elem_of_nil r). rewrite <- E. by apply of_model_spec.
  - intros H. destruct (of_model name d) as [|r rows] eqn:E; [done|]. assert (r ∈ of_model name d) as (Hr & Hb & <-)%of_model_spec by (rewrite E; by left).
    exists r. split; [done|by apply select_spec].
Qed.
Lemma mapM_Ok {A B} (f : A -> result B) (g : A -> B) l : (forall x, x ∈ l -> f x = Ok (g x)) -> mapM f l = Ok (map g l).
Proof.
  induction l as [|x l IH]; intros H; [done|]. cbn. rewrite H by by left. cbn. rewrite IH by (intros y Hy; apply H; by right). done.
Qed.
Lemma MarketplaceModels_entries now staleAfter d : MarketplaceModels now staleAfter d = Ok (map (entry (now - staleAfter) d) (listed d)).
Proof. unfold MarketplaceModels. apply mapM_Ok. intros name Hname%listed_spec. by apply market_model_entry. Qed.

(** [m] summarises the offers of its model. *)
Definition summarises (m : MarketModel) (detail : MarketModelDetail) : Prop :=
  mm_Model m = md_Model detail
  /\ mm_AvailableProviders m = Z.of_nat (length (List.filter mo_Available (md_Offers detail)))
  /\ mm_TotalCapacity m = foldr Z.add 0 (map mo_Capacity (List.filter mo_Available (md_Offers detail)))
  /\ (mo_InputPerMillion <$> head (md_Offers detail)) = Some (mm_MinimumInputPerMillion m)
  /\ mm_Stale m = forallb mo_Stale (md_Offers detail).

Lemma affected_offers cutoff (rows : list (RoutingRow * AccountRow)) :
  affected (available cutoff) (map fst rows) = Z.of_nat (length (List.filter mo_Available (map (market_offer cutoff) rows))).
Proof.
  unfold affected, select. f_equal. induction rows as [|[r a] rows IH]; [done|]. cbn [map List.filter fst market_offer mo_Available].
  destruct (available cutoff r); cbn [length]; by rewrite IH.
Qed.
Lemma capacity_offers cutoff (rows : list (RoutingRow * AccountRow)) : (forall p, p ∈ rows -> 0 <= rt_capacity (fst p)) ->
  sum_where (fun r => rt_healthy r && up_to_date cutoff r) rt_capacity (map fst rows)
  = foldr Z.add 0 (map mo_Capacity (List.filter mo_Available (map (market_offer cutoff) rows))).
Proof.
  unfold sum_where. induction rows as [|[r a] rows IH]; intros H; [done|]. cbn [map foldr fst List.filter market_offer mo_Available].
  rewrite IH by (intros p Hp; apply H; by right). assert (0 <= rt_capacity r) by (apply (H (r, a)); by left). unfold available.
  destruct (rt_healthy r), (up_to_date cutoff r); cbn [andb]; rewrite ?andb_false_r; try done. rewrite andb_true_r.
  destruct (Z.ltb_spec 0 (rt_capacity r)); cbn [map foldr mo_Capacity]; lia.
Qed.
Lemma stale_offers cutoff (rows : list (RoutingRow * AccountRow)) :
  forallb (fun r => negb (up_to_date cutoff r)) (map fst rows) = forallb mo_Stale (map (market_offer cutoff) rows).
Proof. induction rows as [|[r a] rows IH]; [done|]. cbn [map forallb fst market_offer mo_Stale]. by rewrite IH. Qed.
Lemma forallb_Permutation {R} (p : R -> bool) l k : l ≡ₚ k -> forallb p l = forallb p k.
Proof. induction 1; cbn [forallb]; [done|congruence|by rewrite !andb_assoc, (andb_comm (p y))|congruence]. Qed.

Lemma detail_summarised now staleAfter d name : joins_once d -> capacities d -> of_model name d <> [] ->
  exists detail, MarketplaceModelOf now name staleAfter d = Ok detail /\ summarises (entry (now - staleAfter) d name) detail.
Proof.
  intros Hj Hc Hne. unfold MarketplaceModelOf. set (cutoff := now - staleAfter). set (rows := order_with cheaper (of_model name d ≫= with_account d)).
  assert (map fst rows ≡ₚ of_model name d) as Hp.
  { unfold rows. rewrite order_with_Permutation. rewrite joined_rows; [done|done|]. by intros r [Hr _]%of_model_spec. }
  pose proof (order_with_sorted cheaper cheaper_total cheaper_trans (of_model name d ≫= with_account d)) as Hs. fold rows in Hs.
  rewrite bool_decide_eq_false_2 by (intros ->; apply Hne; symmetry in Hp; by apply Permutation_nil_r in Hp). eexists. split; [done|].
  unfold summarises, entry. cbn [mm_Model mm_AvailableProviders mm_TotalCapacity mm_MinimumInputPerMillion mm_Stale md_Model md_Offers]. split_and!; [done|..].
  - by rewrite <- affected_offers, (affected_Permutation _ _ _ Hp).
  - rewrite <- capacity_offers by (intros p Hpr; apply Hc; assert (fst p ∈ map fst rows) as Hin by (apply list_elem_of_fmap; by exists p); rewrite Hp in Hin; by apply of_model_spec in Hin as [? _]).
    by rewrite (sum_where_Permutation _ _ _ _ Hp).
  - destruct (min_nullable_spec rt_input _ Hne) as (m & Em & (r & Hr & Er) & Hm). unfold minimum. rewrite Em. cbn [default].
    destruct rows as [|[x a] rest]; [symmetry in Hp; by apply Permutation_nil_r in Hp|]. cbn. do 2 f_equal.
    assert (x ∈ of_model name d) as Hx by (rewrite <- Hp; by left). rewrite <- Hp in Hr. apply list_elem_of_fmap in Hr as (p & -> & Hpr).
    assert (rt_input x <= rt_input (fst p)).
    { apply StronglySorted_inv in Hs as [_ Hs]. rewrite Forall_forall in Hs. apply elem_of_cons in Hpr as [->|Hpr]; [done|]. by apply (cheaper_input (x, a)), Hs. }
    specialize (Hm x Hx). lia.
  - by rewrite <- stale_offers, (forallb_Permutation _ _ _ Hp).
Qed.

(** The list of models and the offers of a model agree: the list always
    comes out, each model in it once; the number of available providers, the
    total capacity, the lowest input price and the staleness of an entry are those of the
    offers that the page of the model shows, cheapest first; and a model outside the list has no
    page. *)
Theorem models_match_offers now staleAfter d :
  joins_once d -> capacities d ->
  exists listing, MarketplaceModels now staleAfter d = Ok listing /\ NoDup (map mm_Model listing)
  /\ forall name, match MarketplaceModelOf now name staleAfter d with
       | Ok detail => exists m, m ∈ listing /\ mm_Model m = name /\ summarises m detail
       | Err e => e = ErrNoRows /\ forall m, m ∈ listing -> mm_Model m <> name
       end.
Proof.
  intros Hj Hc. exists (map (entry (now - staleAfter) d) (listed d)). split; [apply MarketplaceModels_entries|]. split.
  - rewrite map_map. cbn. rewrite map_id. apply distinct_strings_NoDup.
  - intros name. destruct (decide (of_model name d = [])) as [E|E].
    + unfold MarketplaceModelOf. rewrite E. cbn. split; [done|]. intros m (x & -> & Hx%listed_spec)%list_elem_of_fmap. cbn. by intros ->.
    + destruct (detail_summarised now staleAfter d name Hj Hc E) as (detail & -> & Hd). exists (entry (now - staleAfter) d name).
      split_and!; [|done|done]. apply list_elem_of_fmap. exists name. split; [done|by apply listed_spec].
Qed.

(** ** Routing *)
(** What the router may choose is in the list. *)
Lemma scan_candidates_elem rows : forall candidates c, scan_candidates rows = Ok candidates -> c ∈ candidates -> exists r, r ∈ rows /\ scan_candidate r = Ok c.
Proof.
  induction rows as [|r rows IH]; intros candidates c E Hc; cbn [scan_candidates] in E; [injection E as <-; by apply elem_of_nil in Hc|].
  step_ok E as x E1. step_ok E as tail E2. injection E as <-. apply elem_of_cons in Hc as [->|Hc]; [exists r; split; [by left|done]|].
  destruct (IH _ _ E2 Hc) as (r' & Hr' & E'). exists r'. split; [by right|done].
Qed.
Lemma scan_candidate_fields r c : scan_candidate r = Ok c ->
  cand_Model c = rt_model r /\ cand_ConfirmedBond c = rt_confirmed_bond r /\ cand_Healthy c = rt_healthy r /\ cand_Capacity c = rt_capacity r.
Proof.
  unfold scan_candidate. cbv zeta. destruct (SetString10 _) as [v|]; [|done]. destruct (v <? 0); [done|]. destruct (_ || _); [done|]. by intros [= <-].
Qed.
Lemma candidate_listed now staleAfter d model candidates c :
  RoutingCandidates model d = Ok candidates -> c ∈ candidates -> cand_ConfirmedBond c = true ->
  exists listing m, MarketplaceModels now staleAfter d = Ok listing /\ m ∈ listing /\ mm_Model m = model.
Proof.
  intros E Hc Hb. destruct (scan_candidates_elem _ _ _ E Hc) as (r & [Hr Em%String.eqb_eq]%select_spec & Er).
  apply scan_candidate_fields in Er as (_ & Eb & _). exists (map (entry (now - staleAfter) d) (listed d)), (entry (now - staleAfter) d model).
  split_and!; [apply MarketplaceModels_entries| |done]. apply list_elem_of_fmap. exists model. split; [done|]. apply listed_spec. intros En.
  apply (not_elem_of_nil r). rewrite <- En. apply of_model_spec. split_and!; [done|congruence|done].
Qed.

(** ** A concrete market *)
Module MarketRun.
Lemma models_match_offers_witness :
  exists listing m, MarketplaceModels 100 60 db_ready = Ok listing /\ listing = [m]
    /\ m = mkMarketModel "llama" 0 0 "2" "3" "5" true
    /\ (fun d => map mo_MachineID (md_Offers d)) <$> MarketplaceModelOf 100 "llama" 60 db_ready = Ok [machine_id]
    /\ MarketplaceModels 100 90 db_ready = Ok [mkMarketModel "llama" 1 1 "2" "3" "5" false].
Proof.
  destruct (models_match_offers 100 60 db_ready) as (listing & E & _ & _).
  - intros r Hr. apply list_elem_of_singleton in Hr as ->. do 2 eexists. split; by vm_compute.
  - intros r Hr. apply list_elem_of_singleton in Hr as ->. by vm_compute.
  - exists listing. eexists. split; [exact E|]. split; [|split; [reflexivity|split; by vm_compute]].
    assert (Ok listing = Ok [mkMarketModel "llama" 0 0 "2" "3" "5" true]) as [= ->]; [|done]. rewrite <- E. by vm_compute.
Defined.
End MarketRun.

(** * The operations *)

(** ** Grouping *)
(** The backends of one machine, in the order of the rows. *)
Definition backends_of (id : string) (rows : list MachineBackendRow) : list OperationBackend :=
  map operation_backend (omap mb_backend (List.filter (fun row => String.eqb (mc_id (mb_machine row)) id) rows)).
Definition shown (m : MachineRow) (rows : list MachineBackendRow) : OperationMachine :=
  mkOperationMachine (mc_id m) (mc_name m) (negb (is_null (mc_revoked_at m))) (backends_of (mc_id m) rows).

(** The machines of the rows, each when it appears first. *)
Definition first_machines (rows : list MachineBackendRow) : list MachineRow :=
  foldl (fun found row => if existsb (fun m => String.eqb (mc_id m) (mc_id (mb_machine row))) found then found else found ++ [mb_machine row]) [] rows.
(** What the loop has after some rows: the place of each machine, and the
    machines of those rows with their backends. *)
Definition grouped (rows : list MachineBackendRow) (state : gmap string nat * list OperationMachine) : Prop :=
  snd state = map (fun m => shown m rows) (first_machines rows)
  /\ (forall id index, fst state !! id = Some index <-> map mc_id (first_machines rows) !! index = Some id).

Lemma backends_of_snoc id rows row :
  backends_of id (rows ++ [row])
  = backends_of id rows ++ (if String.eqb (mc_id (mb_machine row)) id then map operation_backend (option_list (mb_backend row)) else []).
Proof.
  unfold backends_of. rewrite List.filter_app, omap_app, map_app. f_equal. cbn [List.filter]. destruct (String.eqb _ _); [|done].
  cbn. by destruct (mb_backend row).
Qed.

Lemma known_machine rows id : existsb (fun m => String.eqb (mc_id m) id) rows = true <-> id ∈ map mc_id rows.
Proof.
  rewrite existsb_exists, list_elem_of_fmap. split; intros (m & H1 & H2).
  - apply String.eqb_eq in H2. exists m. split; [done|by apply list_elem_of_In].
  - exists m. split; [by apply list_elem_of_In|by apply String.eqb_eq].
Qed.
Lemma first_machines_snoc rows row :
  first_machines (rows ++ [row])
  = if decide (mc_id (mb_machine row) ∈ map mc_id (first_machines rows)) then first_machines rows else first_machines rows ++ [mb_machine row].
Proof.
  unfold first_machines at 1. rewrite foldl_app. cbn [foldl]. fold (first_machines rows).
  destruct (existsb _ _) eqn:E; [by rewrite decide_True by by apply known_machine|]. rewrite decide_False; [done|].
  intros H%known_machine. congruence.
Qed.
Lemma first_machines_spec rows :
  NoDup (map mc_id (first_machines rows))
  /\ (forall m, m ∈ first_machines rows -> exists row, row ∈ rows /\ m = mb_machine row)
  /\ (forall row, row ∈ rows -> mc_id (mb_machine row) ∈ map mc_id (first_machines rows)).
Proof.
  induction rows as [|row rows (IH1 & IH2 & IH3)] using rev_ind.
  - split_and!; [constructor|by intros m Hm%elem_of_nil|by intros row Hr%elem_of_nil].
  - rewrite first_machines_snoc. destruct (decide _) as [H|H]; split_and!.
    + done.
    + intros m Hm. destruct (IH2 m Hm) as (r & Hr & ->). exists r. split; [|done]. apply elem_of_app. by left.
    + intros r [Hr| ->%list_elem_of_singleton]%elem_of_app; [by apply IH3|done].
    + rewrite map_app. apply NoDup_app. split_and!; [done| |apply NoDup_singleton]. by intros x Hx ->%list_elem_of_singleton.
    + intros m [Hm| ->%list_elem_of_singleton]%elem_of_app; [destruct (IH2 m Hm) as (r & Hr & ->); exists r; rewrite elem_of_app; eauto|].
      exists row. rewrite elem_of_app, list_elem_of_singleton. eauto.
    + intros r [Hr| ->%list_elem_of_singleton]%elem_of_app; rewrite map_app, elem_of_app; [left; by apply IH3|right; by left].
Qed.
Lemma backends_of_new rows id : id ∉ map mc_id (first_machines rows) -> backends_of id rows = [].
Proof.
  intros H. unfold backends_of. destruct (List.filter _ _) as [|row rest] eqn:E; [done|]. exfalso.
  assert (In row (row :: rest)) as Hr by by left. rewrite <- E in Hr. apply filter_In in Hr as [Hr <-%String.eqb_eq].
  apply H, first_machines_spec. by apply list_elem_of_In.
Qed.

Lemma alter_shown bs index ms rows id : NoDup (map mc_id ms) -> map mc_id ms !! index = Some id ->
  alter (add_backends bs) index (map (fun m => shown m rows) ms)
  = map (fun m => if String.eqb id (mc_id m) then add_backends bs (shown m rows) else shown m rows) ms.
Proof.
  intros Hnd Hi. apply list_eq. intros k. rewrite list_lookup_fmap. destruct (decide (k = index)) as [->|Hk].
  - rewrite list_lookup_alter_eq, list_lookup_fmap. rewrite list_lookup_fmap in Hi. destruct (ms !! index) as [m|]; [|done].
    injection Hi as <-. cbn. by rewrite String.eqb_refl.
  - rewrite list_lookup_alter_ne, list_lookup_fmap by done. destruct (ms !! k) as [m|] eqn:E; [|done]. cbn.
    destruct (String.eqb_spec id (mc_id m)) as [->|]; [|done]. destruct Hk. eapply (NoDup_lookup _ _ _ (mc_id m) Hnd); [|done].
    by rewrite list_lookup_fmap, E.
Qed.
Lemma shown_snoc m rows row :
  shown m (rows ++ [row])
  = if String.eqb (mc_id (mb_machine row)) (mc_id m) then add_backends (map operation_backend (option_list (mb_backend row))) (shown m rows)
    else shown m rows.
Proof.
  unfold shown, add_backends. rewrite backends_of_snoc. destruct (String.eqb _ _); cbn; [done|by rewrite app_nil_r].
Qed.

Lemma group_row_grouped rows row state : grouped rows state -> grouped (rows ++ [row]) (group_row state row).
Proof.
  destruct state as [indices found]. intros [Hf Hi]. cbn [fst snd] in *. unfold group_row.
  destruct (first_machines_spec rows) as (Hnd & _ & _). set (id := mc_id (mb_machine row)).
  assert (exists index indices' ms, map mc_id ms !! index = Some id /\ NoDup (map mc_id ms) /\ first_machines (rows ++ [row]) = ms
    /\ (forall x k, indices' !! x = Some k <-> map mc_id ms !! k = Some x)
    /\ match indices !! id with Some index => (index, indices, found) | None => (length found, <[id := length found]> indices,
         found ++ [mkOperationMachine id (mc_name (mb_machine row)) (negb (is_null (mc_revoked_at (mb_machine row)))) []]) end
       = (index, indices', map (fun m => shown m rows) ms)) as (index & indices' & ms & Hix & Hms & Efirst & Hi' & ->).
  { rewrite first_machines_snoc. fold id. destruct (indices !! id) as [index|] eqn:E.
    - apply Hi in E. exists index, indices, (first_machines rows). rewrite decide_True by by eapply list_elem_of_lookup_2. by rewrite Hf.
    - assert (id ∉ map mc_id (first_machines rows)) as Hn.
      { intros [k Hk]%list_elem_of_lookup. apply Hi in Hk. congruence. }
      exists (length found), (<[id := length found]> indices), (first_machines rows ++ [mb_machine row]). rewrite decide_False by done.
      assert (length found = length (map mc_id (first_machines rows))) as El by by rewrite Hf, !length_map.
      rewrite !map_app. cbn [map]. fold id. split_and!; [rewrite El; by apply list_lookup_middle| |done| |].
      + apply NoDup_app. split_and!; [done| |apply NoDup_singleton]. by intros x Hx ->%list_elem_of_singleton.
      + intros x k. rewrite lookup_snoc_Some. destruct (decide (x = id)) as [->|Hx].
        * rewrite lookup_insert_eq, El. split; [intros [= <-]; right; done|]. intros [[_ Hk]|[-> _]]; [|done]. destruct Hn. by eapply list_elem_of_lookup_2.
        * rewrite lookup_insert_ne by done. rewrite Hi. split; [intros Hk; left; split; [by eapply lookup_lt_Some|done]|]. intros [[_ Hk]|[_ Hk]]; [done|]. by destruct Hx.
      + do 2 f_equal. rewrite Hf. f_equal. cbn. unfold shown. by rewrite backends_of_new. }
  unfold grouped. rewrite Efirst.
  assert (map (fun m => shown m (rows ++ [row])) ms
    = alter (add_backends (map operation_backend (option_list (mb_backend row)))) index (map (fun m => shown m rows) ms)) as ->.
  { rewrite (alter_shown _ _ _ _ id) by done. apply map_ext. intros m. apply shown_snoc. }
  destruct (mb_backend row) as [backend|]; cbn [fst snd option_list map]; split; [done|done| |done].
  apply list_eq. intros k. destruct (decide (k = index)) as [->|Hk]; [|by rewrite list_lookup_alter_ne].
  rewrite list_lookup_alter_eq. destruct (map (fun m => shown m rows) ms !! index) as [m|]; [|done]. destruct m. unfold add_backends. cbn. by rewrite app_nil_r.
Qed.

(** The view has the machines in the order of their first rows, each once with
    all its backends. *)
Lemma group_machines_spec rows : group_machines rows = map (fun m => shown m rows) (first_machines rows).
Proof.
  assert (grouped rows (foldl group_row (∅, []) rows)) as [H _]; [|exact H].
  induction rows as [|row rows IH] using rev_ind.
  - split; [done|]. intros id index. cbn. by rewrite lookup_empty.
  - rewrite foldl_app. cbn [foldl]. by apply group_row_grouped.
Qed.

(** ** The machines of an account *)
Lemma row_before_total a b : row_before a b = true \/ row_before b a = true.
Proof.
  unfold row_before. rewrite (Z.eqb_sym (mc_created_at (mb_machine b))).
  destruct (Z.ltb_spec (mc_created_at (mb_machine a)) (mc_created_at (mb_machine b))); [by left|].
  destruct (Z.eqb_spec (mc_created_at (mb_machine a)) (mc_created_at (mb_machine b))) as [->|]; [|right; apply orb_true_iff; left; apply Z.ltb_lt; lia].
  rewrite Z.ltb_irrefl. cbn [orb andb]. destruct (mb_backend a) as [[x p]|], (mb_backend b) as [[y q]|]; auto using string_leb_total.
Qed.
Lemma row_before_trans a b c : row_before a b = true -> row_before b c = true -> row_before a c = true.
Proof.
  unfold row_before. rewrite !orb_true_iff, !andb_true_iff, !Z.ltb_lt, !Z.eqb_eq. intros [H1|[E1 H1]] [H2|[E2 H2]]; [left; lia..|].
  right. split; [lia|]. destruct (mb_backend a) as [[x p]|], (mb_backend b) as [[y q]|], (mb_backend c) as [[z r]|]; try done. by eapply string_leb_trans.
Qed.
(** What the account is meant to see of a machine. *)
Definition by_id (a b : BackendRow) : bool := string_leb (bk_id a) (bk_id b).
Definition backend_offers (machineID : string) (b : BackendRow) (d : Db) : list RoutingRow :=
  select (fun r => String.eqb (rt_machine r) machineID && String.eqb (rt_model r) (bk_model b) && hash_is (rt_backend_kind r) (bk_kind b)) (routing d).
Definition backend_view (machineID : string) (d : Db) (b : BackendRow) : OperationBackend :=
  let rows := backend_offers machineID b d in
  mkOperationBackend (bk_id b)
    (distinct_strings (omap rt_offer_hash (select (fun r => rt_confirmed_bond r && rt_healthy r && (0 <? rt_capacity r)) rows)))
    (bk_kind b) (bk_model b) (bk_enabled b) (existsb rt_healthy rows) (sum_where (fun _ => true) rt_capacity rows mod u32_mod).
Definition machine_view (d : Db) (m : MachineRow) : OperationMachine :=
  mkOperationMachine (mc_id m) (mc_name m) (negb (is_null (mc_revoked_at m)))
    (map (backend_view (mc_id m) d) (order_with by_id (select (fun b => String.eqb (bk_machine b) (mc_id m)) (backends d)))).
(** Offer hashes are not empty and have no comma: they are hexadecimal. *)
Definition plain_hashes (d : Db) : Prop :=
  forall r h, r ∈ routing d -> rt_offer_hash r = Some h -> h <> "" /\ ContainsByte h "," = false.

Lemma active_offers_join hashes : (forall h, h ∈ hashes -> h <> "" /\ ContainsByte h "," = false) -> active_offers (GoStrings.Join hashes ",") = hashes.
Proof.
  intros H. unfold active_offers. destruct hashes as [|h hashes]; [done|]. assert (h <> "") as Hh by (apply H; by left).
  destruct (String.eqb_spec (GoStrings.Join (h :: hashes) ",") "") as [E|_].
  - destruct h as [|c h]; [done|]. by destruct hashes.
  - apply SplitByte_Join; [done|]. apply Forall_forall. intros x Hx. by apply H.
Qed.
Lemma operation_backend_view d machineID b : plain_hashes d -> operation_backend (b, backend_state machineID b d) = backend_view machineID d b.
Proof.
  intros H. unfold operation_backend, backend_state, backend_view, backend_offers. cbv zeta. f_equal. apply active_offers_join.
  intros h Hh. apply distinct_strings_spec, list_elem_of_omap in Hh as (r & Hr & Eh). apply select_spec in Hr as [Hr _]. apply select_spec in Hr as [Hr _]. by apply (H r).
Qed.

Lemma machine_rows_of d m row : row ∈ machine_rows d m -> mb_machine row = m.
Proof. unfold machine_rows. intros (b & -> & _)%list_elem_of_fmap. done. Qed.
Lemma machine_rows_some d m : machine_rows d m <> [].
Proof. unfold machine_rows, left_join. by destruct (List.filter _ _). Qed.
Lemma filter_machine_rows d id ms :
  List.filter (fun row => String.eqb (mc_id (mb_machine row)) id) (ms ≫= machine_rows d)
  = List.filter (fun m => String.eqb (mc_id m) id) ms ≫= machine_rows d.
Proof.
  induction ms as [|m ms IH]; [done|]. rewrite bind_cons, List.filter_app, IH.
  assert (List.filter (fun row => String.eqb (mc_id (mb_machine row)) id) (machine_rows d m) = if String.eqb (mc_id m) id then machine_rows d m else []) as ->.
  { assert (forall row, row ∈ machine_rows d m -> mb_machine row = m) as H by apply machine_rows_of. revert H.
    induction (machine_rows d m) as [|row rows IHr]; intros H; cbn [List.filter]; [by destruct (String.eqb _ _)|].
    rewrite H by by left. rewrite IHr by (intros r Hr; apply H; by right). by destruct (String.eqb _ _). }
  cbn [List.filter]. by destruct (String.eqb _ _).
Qed.
Lemma select_NoDup_map {A B} (f : A -> B) p l : NoDup (map f l) -> NoDup (map f (select p l)).
Proof.
  induction l as [|x l IH]; [done|]. cbn [map select List.filter]. intros [Hx Hl]%NoDup_cons. fold (select p l). destruct (p x); [|by apply IH].
  cbn [map]. apply NoDup_cons. split; [|by apply IH]. intros (y & E & [Hy _]%select_spec)%list_elem_of_fmap. apply Hx. rewrite E. apply list_elem_of_fmap. by exists y.
Qed.
Lemma filter_own_id m ms : NoDup (map mc_id ms) -> m ∈ ms -> List.filter (fun x => String.eqb (mc_id x) (mc_id m)) ms = [m].
Proof.
  intros Hnd Hm. induction ms as [|x ms IH]; [by apply elem_of_nil in Hm|]. cbn [map] in Hnd. apply NoDup_cons in Hnd as [Hx Hnd]. cbn [List.filter].
  apply elem_of_cons in Hm as [->|Hm].
  - rewrite String.eqb_refl. f_equal. destruct (List.filter _ ms) as [|y rest] eqn:E; [done|]. exfalso.
    assert (In y (y :: rest)) as Hy by by left. rewrite <- E in Hy. apply filter_In in Hy as [Hy E2%String.eqb_eq].
    apply Hx. rewrite <- E2. apply list_elem_of_fmap. exists y. split; [done|by apply list_elem_of_In].
  - rewrite (proj2 (String.eqb_neq _ _)); [by apply IH|]. intros E. apply Hx. rewrite E. apply list_elem_of_fmap. by exists m.
Qed.
Lemma machine_backends d m : plain_hashes d ->
  map operation_backend (omap mb_backend (order_with row_before (machine_rows d m)))
  = map (backend_view (mc_id m) d) (order_with by_id (select (fun b => String.eqb (bk_machine b) (mc_id m)) (backends d))).
Proof.
  intros H. unfold machine_rows, left_join, select. destruct (List.filter _ _) as [|b bs]; [done|]. generalize (b :: bs). clear b bs. intros bs.
  rewrite map_map. cbn. rewrite (order_with_map _ row_before by_id).
  - induction (order_with by_id bs) as [|b l IH]; [done|]. cbn. rewrite IH. f_equal. by apply operation_backend_view.
  - intros a b. unfold row_before. cbn. by rewrite Z.ltb_irrefl, Z.eqb_refl.
Qed.

(** An account sees exactly its machines: although the query returns a row
    per backend and may interleave machines created at the same time, every
    machine of the account is in the view once, under its name and whether it is
    revoked, with all its backends in order, each with the capacity and the
    distinct hashes of the offers that can be routed to it, and with no machine
    or backend of another account. *)
Theorem machines_of_account accountID d :
  NoDup (map mc_id (machines d)) -> plain_hashes d ->
  NoDup (map om_ID (group_machines (machine_backend_rows accountID d)))
  /\ forall v, v ∈ group_machines (machine_backend_rows accountID d)
       <-> exists m, m ∈ machines d /\ mc_account m = accountID /\ v = machine_view d m.
Proof.
  intros Hnd Hh. rewrite group_machines_spec. set (rows := machine_backend_rows accountID d).
  set (own := select (fun m => String.eqb (mc_account m) accountID) (machines d)).
  destruct (first_machines_spec rows) as (H1 & H2 & H3).
  assert (forall m, m ∈ own <-> m ∈ machines d /\ mc_account m = accountID) as Hown by (intros m; unfold own; by rewrite select_spec, String.eqb_eq).
  assert (NoDup (map mc_id own)) as Hnown by (by apply select_NoDup_map).
  assert (forall m, m ∈ own -> shown m rows = machine_view d m) as Hview.
  { intros m Hm. unfold shown, machine_view. f_equal. unfold backends_of, rows, machine_backend_rows. fold own.
    rewrite filter_order_with by eauto using row_before_total, row_before_trans. rewrite filter_machine_rows, filter_own_id by done.
    rewrite bind_cons, app_nil_r. by apply machine_backends. }
  assert (forall m, m ∈ first_machines rows <-> m ∈ own) as Hfirst.
  { assert (forall row, row ∈ rows <-> exists m, m ∈ own /\ row ∈ machine_rows d m) as Hrows.
    { intros row. unfold rows, machine_backend_rows. fold own. rewrite order_with_Permutation, list_elem_of_bind. split; intros (m & ? & ?); by exists m. }
    assert (forall m, m ∈ first_machines rows -> m ∈ own) as Hfo.
    { intros m (row & (m' & Hm' & Hrow)%Hrows & ->)%H2. by rewrite (machine_rows_of _ _ _ Hrow). }
    intros m. split; [apply Hfo|]. intros Hm. destruct (machine_rows d m) as [|row rest] eqn:E; [by destruct (machine_rows_some d m)|].
    assert (row ∈ machine_rows d m) as Hr by (rewrite E; by left). assert (mc_id (mb_machine row) ∈ map mc_id (first_machines rows)) as Hin by (apply H3, Hrows; eauto).
    rewrite (machine_rows_of _ _ _ Hr) in Hin. apply list_elem_of_fmap in Hin as (x & Ex & Hx). pose proof (Hfo x Hx) as Hxo.
    replace m with x; [done|]. assert ([m] = [x]) as [= ->]; [|done]. by rewrite <- (filter_own_id m own), <- (filter_own_id x own), Ex. }
  split.
  - rewrite map_map. exact H1.
  - intros v. rewrite list_elem_of_fmap. split.
    + intros (m & -> & Hm%Hfirst). exists m. rewrite Hview by done. apply Hown in Hm as [? ?]. done.
    + intros (m & Hm & Ha & ->). assert (m ∈ own) as Ho by by apply Hown. exists m. rewrite Hview by done. split; [done|by apply Hfirst].
Qed.

(** ** A concrete account *)
Module OperationsRun.
(** Two machines of one time whose backends interleave. *)
Definition db_two : Db := Eval vm_compute in
  set_backends [mkBackendRow "b1" machine_id "ollama" "llama" true; mkBackendRow "b2" "m2" "claude" "opus" true; mkBackendRow "b3" machine_id "codex" "gpt" false]
    (set_machines (map (fun m => mkMachineRow (mc_id m) (mc_account m) (mc_name m) 3 (mc_revoked_at m) (mc_signer m)) (machines db_ready)
                   ++ [mkMachineRow "m2" "provider" "second" 3 (Some 9) None; mkMachineRow "m3" "customer" "other" 1 None None]) db_ready).

Lemma machines_of_account_witness :
  exists v, v ∈ group_machines (machine_backend_rows "provider" db_two)
    /\ om_ID v = machine_id /\ map (fun b => (ob_ID b, ob_OfferHashes b)) (om_Backends v) = [("b1", [Keccak256Hex "o1"]); ("b3", [])]
    /\ map om_ID (group_machines (machine_backend_rows "provider" db_two)) = [machine_id; "m2"].
Proof.
  eexists. split.
  - apply (machines_of_account "provider" db_two).
    + apply (bool_decide_unpack _). by vm_compute.
    + intros r h Hr Hh. apply list_elem_of_singleton in Hr as ->. injection Hh as <-. split; [done|by vm_compute].
    + eexists. split; [left|]. split; [reflexivity|]. reflexivity.
  - split_and!; by vm_compute.
Defined.
End OperationsRun.

(** * The analytics *)

(** ** Dates *)
Definition dated (days : Z) : Prop := let '(year, _, _) := civil days in 0 <= year <= 9999.

Lemma DateOnly_start t : DateOnly t = DateOnly (t / day_length * day_length).
Proof. unfold DateOnly. by rewrite Z.div_mul. Qed.
Lemma RFC3339Nano_midnight days : RFC3339Nano (days * day_length) = DateOnly (days * day_length) +:+ "T00:00:00Z".
Proof.
  unfold RFC3339Nano, DateOnly. rewrite Z.div_mul, Z.mod_mul by done. destruct (civil days) as [[year month] day].
  by rewrite !app_string_assoc.
Qed.
Lemma DateOnly_inj t u : dated (t / day_length) -> dated (u / day_length) -> DateOnly t = DateOnly u -> t / day_length = u / day_length.
Proof.
  unfold dated. intros Ht Hu E. rewrite (DateOnly_start t), (DateOnly_start u) in E.
  assert (RFC3339Nano (t / day_length * day_length) = RFC3339Nano (u / day_length * day_length)) as E' by by rewrite !RFC3339Nano_midnight, E.
  apply (f_equal ParseRFC3339) in E'. rewrite !ParseRFC3339_RFC3339Nano in E' by by rewrite Z.div_mul.
  injection E' as E'. apply Z.mul_reg_r in E'; [done|done].
Qed.

(** ** The points of the days *)
(** The date [offset] days before the day [D]. *)
Definition date (D : Z) (offset : nat) : string := DateOnly ((D - Z.of_nat offset) * day_length).
Lemma date_of_day now D offset : now / day_length = D -> date_of now offset = date D offset.
Proof.
  intros <-. unfold date_of, date. rewrite DateOnly_start. do 2 f_equal.
  replace (now - Z.of_nat offset * day_length) with (now + (- Z.of_nat offset) * day_length) by lia. by rewrite Z.div_add.
Qed.
(** Every day that a point may have is between the years 0 and 9999. *)
Definition dated_window (D : Z) : Prop := forall offset, offset ∈ offsets -> dated (D - Z.of_nat offset).

Lemma offsets_spec offset : offset ∈ offsets <-> (offset < 30)%nat.
Proof. unfold offsets. rewrite list_elem_of_In, <- in_rev, in_seq. lia. Qed.

Lemma fold_insert {A} (key : A -> string) l : forall (m : gmap string AnalyticsDay) x,
  foldl (fun m a => <[key a := zero_day (key a)]> m) m l !! x = if decide (x ∈ map key l) then Some (zero_day x) else m !! x.
Proof.
  induction l as [|a l IH]; intros m x; cbn [foldl map]; [by rewrite decide_False by apply not_elem_of_nil|].
  rewrite IH. destruct (decide (x ∈ map key l)) as [Hl|Hl]; [by rewrite decide_True by (by right)|].
  destruct (decide (x = key a)) as [->|Hx].
  - by rewrite lookup_insert_eq, decide_True by left.
  - rewrite lookup_insert_ne by done. by rewrite decide_False by (rewrite elem_of_cons; tauto).
Qed.
Lemma points_lookup now D offset : (forall k, now k / day_length = D) -> offset ∈ offsets ->
  points now !! date D offset = Some (zero_day (date D offset)).
Proof.
  intros Hnow Ho. unfold points. rewrite fold_insert, decide_True; [done|]. apply list_elem_of_fmap.
  exists offset. split; [|done]. by rewrite (date_of_day (now offset) D).
Qed.

Lemma fold_alter (g : string -> AnalyticsDay -> AnalyticsDay) l : forall (m : gmap string AnalyticsDay) x, NoDup l ->
  foldl (fun m date => alter (g date) date m) m l !! x = (if decide (x ∈ l) then g x else id) <$> m !! x.
Proof.
  induction l as [|a l IH]; intros m x Hl; cbn [foldl]; [rewrite decide_False by apply not_elem_of_nil; by rewrite option_fmap_id|].
  apply NoDup_cons in Hl as [Ha Hl]. rewrite IH by done. destruct (decide (x = a)) as [->|Hx].
  - rewrite (decide_False (P := a ∈ l)), option_fmap_id, lookup_alter_eq, decide_True by (done || by left). done.
  - rewrite lookup_alter_ne by done. destruct (decide (x ∈ l)); [rewrite decide_True by (by right)|rewrite decide_False by (rewrite elem_of_cons; tauto)]; done.
Qed.
Definition on_date (x : string) (rows : list (ChainSettlementRow * ProposalRow)) := List.filter (fun row => String.eqb (DateOnly (completed row)) x) rows.
Lemma fill_lookup set value rows m x :
  fill set value (by_day rows) m !! x
  = (if decide (on_date x rows = []) then id else set (affected all (on_date x rows)) (BigString (sum_where all value (on_date x rows)))) <$> m !! x.
Proof.
  unfold fill, by_day. set (l := distinct_strings _).
  assert (forall l m, foldl (fun m day => alter (set (affected all (snd day)) (BigString (sum_where all value (snd day)))) (fst day) m) m
      (map (fun date => (date, on_date date rows)) l)
    = foldl (fun m date => alter ((fun x => set (affected all (on_date x rows)) (BigString (sum_where all value (on_date x rows)))) date) date m) m l) as ->.
  { clear. induction l as [|a l IH]; intros m; cbn; [done|]. apply IH. }
  rewrite fold_alter by apply distinct_strings_NoDup. f_equal.
  assert (x ∈ l <-> on_date x rows <> []) as E.
  { unfold l. rewrite distinct_strings_spec, list_elem_of_fmap. unfold on_date. split.
    - intros (row & -> & Hr) E. eapply (@not_elem_of_nil _ row). rewrite <- E. apply list_elem_of_In, filter_In.
      split; [by apply list_elem_of_In|apply String.eqb_refl].
    - intros Hne. destruct (List.filter _ rows) as [|row rest] eqn:Ef; [done|]. exists row.
      assert (In row (row :: rest)) as Hin by by left. rewrite <- Ef in Hin. apply filter_In in Hin as [Hin Hx%String.eqb_eq].
      split; [done|by apply list_elem_of_In]. }
  destruct (decide (x ∈ l)) as [Hx|Hx], (decide (on_date x rows = [])) as [He|He]; try done; tauto.
Qed.

(** ** What the points are meant to be *)
(** The settlements completed on the day [D - offset], and their figures. *)
Definition day_rows (D : Z) (offset : nat) (rows : list (ChainSettlementRow * ProposalRow)) :=
  List.filter (fun row => completed row / day_length =? D - Z.of_nat offset) rows.
Definition exact_day (D : Z) (customer provider : list (ChainSettlementRow * ProposalRow)) (offset : nat) : AnalyticsDay :=
  let '(c, p) := (day_rows D offset customer, day_rows D offset provider) in
  mkAnalyticsDay (date D offset) (Z.of_nat (length c)) (BigString (foldr Z.add 0 (map charge c)))
    (Z.of_nat (length p)) (BigString (foldr Z.add 0 (map provider_amount p))).
Definition dated_rows (rows : list (ChainSettlementRow * ProposalRow)) : Prop := Forall (fun row => dated (completed row / day_length)) rows.

Lemma affected_all {R} (rows : list R) : affected all rows = Z.of_nat (length rows).
Proof. unfold affected, select. do 2 f_equal. induction rows as [|row rows IH]; cbn; [done|by rewrite IH]. Qed.
Lemma sum_all {R} (value : R -> Z) rows : sum_where all value rows = foldr Z.add 0 (map value rows).
Proof. induction rows as [|row rows IH]; cbn; [done|]. by rewrite <- IH. Qed.

(** The thirty days before the query hold every settlement of the days shown. *)
Lemma on_date_exact now D offset rows : now / day_length = D -> offset ∈ offsets -> dated (D - Z.of_nat offset) -> dated_rows rows ->
  on_date (date D offset) (List.filter (recent now) rows) = day_rows D offset rows.
Proof.
  intros Hnow Ho Hd Hrows. apply offsets_spec in Ho. unfold on_date, day_rows.
  induction Hrows as [|row rows Hrow Hrows IH]; [done|]. cbn [List.filter].
  assert (completed row / day_length = D - Z.of_nat offset <-> DateOnly (completed row) = date D offset) as Hdate.
  { split; [intros E; rewrite DateOnly_start, E; done|]. unfold date. intros E. apply DateOnly_inj in E; rewrite ?Z.div_mul in *; done. }
  destruct (Z.eqb_spec (completed row / day_length) (D - Z.of_nat offset)) as [E|E].
  - assert (recent now row = true) as ->.
    { unfold recent, thirty_days. apply Z.leb_le. pose proof (Z.div_mod now day_length ltac:(done)). pose proof (Z.mod_pos_bound now day_length ltac:(done)).
      pose proof (Z.div_mod (completed row) day_length ltac:(done)). pose proof (Z.mod_pos_bound (completed row) day_length ltac:(done)).
      change day_length with 86400000000 in *. lia. }
    cbn [List.filter]. rewrite (proj2 (String.eqb_eq _ _)) by by apply Hdate. by rewrite IH.
  - destruct (recent now row); [|done]. cbn [List.filter]. rewrite (proj2 (String.eqb_neq _ _)) by (intros H; apply E; by apply Hdate). done.
Qed.

Lemma fill_customer_exact rows m x p : m !! x = Some p -> p = zero_day x ->
  fill set_customer charge (by_day rows) m !! x
  = Some (mkAnalyticsDay x (Z.of_nat (length (on_date x rows))) (BigString (foldr Z.add 0 (map charge (on_date x rows)))) 0 "0").
Proof.
  intros Hm ->. rewrite fill_lookup, Hm, affected_all, sum_all. by destruct (decide _) as [->|].
Qed.
Lemma fill_provider_exact rows m x count spent : m !! x = Some (mkAnalyticsDay x count spent 0 "0") ->
  fill set_provider provider_amount (by_day rows) m !! x
  = Some (mkAnalyticsDay x count spent (Z.of_nat (length (on_date x rows))) (BigString (foldr Z.add 0 (map provider_amount (on_date x rows))))).
Proof.
  intros Hm. rewrite fill_lookup, Hm, affected_all, sum_all. by destruct (decide _) as [->|].
Qed.

(** A clock that stays within the day [D]. *)
Record one_day (D : Z) (now : Clock) : Prop := mkOneDay {
  od_points offset : ck_points now offset / day_length = D; od_customer : ck_customer now / day_length = D;
  od_provider : ck_provider now / day_length = D; od_view offset : ck_view now offset / day_length = D;
}.

Lemma daily_points D now accountID chainID contract d :
  one_day D now -> dated_window D ->
  dated_rows (customer_base accountID chainID contract d) -> dated_rows (provider_base accountID chainID contract d) ->
  loadDailyAnalytics now accountID chainID contract d
  = Some (map (exact_day D (customer_base accountID chainID contract d) (provider_base accountID chainID contract d)) offsets).
Proof.
  intros Hnow Hd Hc Hp. unfold loadDailyAnalytics. apply mapM_Some_2. apply Forall2_fmap_r, Forall_Forall2_diag, Forall_forall. intros offset Ho.
  rewrite (date_of_day _ D) by apply (od_view _ _ Hnow).
  erewrite fill_provider_exact; [|eapply fill_customer_exact; [apply points_lookup; [apply (od_points _ _ Hnow)|done]|done]].
  rewrite !(on_date_exact _ D) by (done || apply Hnow || by apply Hd). done.
Qed.

(** ** What the account did on a day *)
(** A settlement of the contract whose request was completed on the day [day],
    by a proposal that is the account's. *)
Definition settled_on (own : ProposalRow -> bool) (chainID : Z) (contract : string) (d : Db) (day : Z) (cs : ChainSettlementRow) : bool :=
  (ct_chain cs =? chainID) && EqualFold (ct_contract cs) contract
  && existsb (fun rp => String.eqb (pr_request rp) (ct_request cs) && (pr_completed_at rp / day_length =? day) && own rp) (proposals d).
(** The proposal is of a session, or a machine, of the account. *)
Definition in_own_session (accountID : string) (d : Db) (rp : ProposalRow) : bool :=
  existsb (fun se => String.eqb (se_id se) (pr_session rp) && String.eqb (se_account se) accountID) (sessions d).
Definition on_own_machine (accountID : string) (d : Db) (rp : ProposalRow) : bool :=
  existsb (fun m => String.eqb (mc_id m) (pr_machine rp) && String.eqb (mc_account m) accountID) (machines d).
Definition total (value : ChainSettlementRow -> Z) (l : list ChainSettlementRow) : Z := foldr Z.add 0 (map value l).

Lemma filter_key {R} (key : R -> string) k (q : R -> bool) l : NoDup (map key l) ->
  List.filter (fun r => String.eqb (key r) k && q r) l = []
  \/ exists r, List.filter (fun r => String.eqb (key r) k && q r) l = [r].
Proof.
  induction l as [|r l IH]; intros Hn; [by left|]. cbn [map List.filter] in *. apply NoDup_cons in Hn as [Hr Hn].
  destruct (String.eqb_spec (key r) k) as [<-|]; cbn [andb]; [|by apply IH]. destruct (q r); [|by apply IH]. right. exists r. f_equal.
  destruct (List.filter _ l) as [|x rest] eqn:E; [done|]. exfalso. assert (In x (x :: rest)) as Hx by by left. rewrite <- E in Hx.
  apply filter_In in Hx as [Hx [Ek _]%andb_true_iff]. apply String.eqb_eq in Ek. apply Hr, list_elem_of_fmap. exists x. split; [done|by apply list_elem_of_In].
Qed.
Lemma existsb_filter {R} (p : R -> bool) l : existsb p l = match List.filter p l with [] => false | _ :: _ => true end.
Proof. induction l as [|r l IH]; [done|]. cbn. by destruct (p r). Qed.

(** A join that finds at most one proposal and one owner for each settlement. *)
Section Joined.
Context {X : Type} (owners : ProposalRow -> list X) (own : ProposalRow -> bool) (proposals : list ProposalRow) (day : Z).
Context (one : forall rp, owners rp = [] /\ own rp = false \/ exists x, owners rp = [x] /\ own rp = true).
Context (once : NoDup (map pr_request proposals)).
Definition joined (settlements : list ChainSettlementRow) : list (ChainSettlementRow * ProposalRow) :=
  row ← (cs ← settlements; map (fun rp => (cs, rp)) (List.filter (fun rp => String.eqb (pr_request rp) (ct_request cs)) proposals));
  map (fun _ => row) (owners (snd row)).

Lemma joined_day settlements :
  map fst (List.filter (fun row => completed row / day_length =? day) (joined settlements))
  = List.filter (fun cs => existsb (fun rp => String.eqb (pr_request rp) (ct_request cs) && (pr_completed_at rp / day_length =? day) && own rp) proposals) settlements.
Proof.
  unfold joined. induction settlements as [|cs settlements IH]; [done|]. rewrite !bind_cons, bind_app, List.filter_app, map_app, IH. cbn [List.filter].
  match goal with |- ?a ++ ?b = (if ?c then _ else _) => cut (a = if c then [cs] else []); [intros ->; by destruct c|] end. clear IH.
  destruct (filter_key pr_request (ct_request cs) (fun _ => true) proposals once) as [E|[rp E]];
    rewrite (filter_ext _ (fun rp => String.eqb (pr_request rp) (ct_request cs))) in E by (intros rp'; apply andb_true_r); rewrite E.
  - cbn. rewrite existsb_filter. assert (forall q, List.filter (fun rp => String.eqb (pr_request rp) (ct_request cs) && q rp) proposals = []) as Hq.
    { intros q. clear -E. induction proposals as [|rp l IH]; [done|]. cbn in *. destruct (String.eqb _ _); [done|]. by apply IH. }
    rewrite (filter_ext _ (fun rp => String.eqb (pr_request rp) (ct_request cs) && ((pr_completed_at rp / day_length =? day) && own rp))) by (intros rp; by rewrite andb_assoc).
    by rewrite Hq.
  - assert (existsb (fun rp => String.eqb (pr_request rp) (ct_request cs) && (pr_completed_at rp / day_length =? day) && own rp) proposals
      = (pr_completed_at rp / day_length =? day) && own rp) as ->.
    { apply eq_iff_eq_true. rewrite existsb_exists. split.
      - intros (x & Hx & Hp). rewrite !andb_true_iff in Hp. destruct Hp as [[Hk Hd] Ho]. assert (In x [rp]) as Hin by (rewrite <- E; by apply filter_In).
        destruct Hin as [->|[]]. by rewrite Hd, Ho.
      - intros Hp. assert (In rp [rp]) as Hin by by left. rewrite <- E in Hin. apply filter_In in Hin as [Hin Hk]. exists rp. by rewrite Hk, <- andb_assoc. }
    cbn. rewrite app_nil_r. destruct (one rp) as [[-> ->]|(x & -> & ->)]; [by rewrite andb_false_r|].
    rewrite andb_true_r. cbn. unfold completed. cbn. by destruct (_ =? day).
Qed.
End Joined.

(** The owner of a proposal: one row, or none. *)
Lemma one_owner {R} (key account : R -> string) accountID k l : NoDup (map key l) ->
  let owners := List.filter (fun r => String.eqb (key r) k && String.eqb (account r) accountID) l in
  let own := existsb (fun r => String.eqb (key r) k && String.eqb (account r) accountID) l in
  owners = [] /\ own = false \/ exists x, owners = [x] /\ own = true.
Proof.
  intros Hn. cbv zeta. rewrite existsb_filter. destruct (filter_key key k (fun r => String.eqb (account r) accountID) l Hn) as [->|[r ->]]; [by left|right; by exists r].
Qed.
Lemma filter_on_chain own chainID contract d day :
  List.filter (fun cs => existsb (fun rp => String.eqb (pr_request rp) (ct_request cs) && (pr_completed_at rp / day_length =? day) && own rp) (proposals d))
    (List.filter (on_chain chainID contract) (chain_settlements d))
  = List.filter (settled_on own chainID contract d day) (chain_settlements d).
Proof.
  unfold settled_on. induction (chain_settlements d) as [|cs l IH]; [done|]. cbn [List.filter]. unfold on_chain at 1, lower_eq at 1.
  destruct (_ && EqualFold _ _); cbn [List.filter andb]; [|done]. destruct (existsb _ _); [by f_equal|done].
Qed.

(** The identifiers of the tables that the queries join are their keys. *)
Record keyed_tables (d : Db) : Prop := mkKeyedTables {
  kt_proposals : NoDup (map pr_request (proposals d));
  kt_sessions : NoDup (map se_id (sessions d));
  kt_machines : NoDup (map mc_id (machines d));
}.
Definition own_sessions (accountID : string) (d : Db) (rp : ProposalRow) : list SessionRow :=
  List.filter (fun se => String.eqb (se_id se) (pr_session rp) && String.eqb (se_account se) accountID) (sessions d).
Definition own_machines (accountID : string) (d : Db) (rp : ProposalRow) : list MachineRow :=
  List.filter (fun m => String.eqb (mc_id m) (pr_machine rp) && String.eqb (mc_account m) accountID) (machines d).
Lemma customer_day accountID chainID contract d D offset : keyed_tables d ->
  map fst (day_rows D offset (customer_base accountID chainID contract d))
  = List.filter (settled_on (in_own_session accountID d) chainID contract d (D - Z.of_nat offset)) (chain_settlements d).
Proof.
  intros Hk. rewrite <- filter_on_chain. apply (joined_day (own_sessions accountID d)); [|apply Hk]. intros rp. apply (one_owner se_id se_account). apply Hk.
Qed.
Lemma provider_day accountID chainID contract d D offset : keyed_tables d ->
  map fst (day_rows D offset (provider_base accountID chainID contract d))
  = List.filter (settled_on (on_own_machine accountID d) chainID contract d (D - Z.of_nat offset)) (chain_settlements d).
Proof.
  intros Hk. rewrite <- filter_on_chain. apply (joined_day (own_machines accountID d)); [|apply Hk]. intros rp. apply (one_owner mc_id mc_account). apply Hk.
Qed.
Lemma base_dated {X} (owners : ProposalRow -> list X) chainID contract d : Forall (fun rp => dated (pr_completed_at rp / day_length)) (proposals d) ->
  dated_rows (row ← settled_proposals chainID contract d; map (fun _ => row) (owners (snd row))).
Proof.
  intros Hd. apply Forall_forall. intros row. rewrite list_elem_of_bind. intros (row' & (x & -> & _)%list_elem_of_fmap & Hr).
  unfold settled_proposals in Hr. apply list_elem_of_bind in Hr as (cs & (rp & -> & Hrp)%list_elem_of_fmap & _).
  rewrite Forall_forall in Hd. apply Hd. apply list_elem_of_In in Hrp. apply filter_In in Hrp as [Hrp _]. by apply list_elem_of_In.
Qed.
(** C36. The daily analytics are exact: while one UTC day [D] lasts, an account
    gets thirty points, of the days [D - 29] to [D] in this order.  The point
    of a day counts the contract's settlements whose request was completed on
    that UTC day in one of the account's sessions, and sums what they cost, the
    providers' amounts and the fees; and it counts those completed on one of the
    account's machines, and sums the providers' amounts.  Each settlement of the
    table counts once at most, and none is missing although the queries only
    read the last thirty times 24 hours.  Assumed are the primary keys of the
    joined tables, and times within the years 0 to 9999.  (Over midnight the
    handler can panic: [midnight_panics].) *)
Theorem daily_exact D now accountID chainID contract d :
  one_day D now -> dated_window D -> keyed_tables d ->
  Forall (fun rp => dated (pr_completed_at rp / day_length)) (proposals d) ->
  exists daily, loadDailyAnalytics now accountID chainID contract d = Some daily /\ length daily = 30%nat
  /\ forall i, (i < 30)%nat ->
     let day := D - 29 + Z.of_nat i in
     let bought := List.filter (settled_on (in_own_session accountID d) chainID contract d day) (chain_settlements d) in
     let sold := List.filter (settled_on (on_own_machine accountID d) chainID contract d day) (chain_settlements d) in
     exists point, daily !! i = Some point
     /\ ParseRFC3339 (ay_Date point +:+ "T00:00:00Z") = Some (day * day_length)
     /\ ay_CustomerRequests point = Z.of_nat (length bought)
     /\ ay_CustomerSpentWei point = BigString (total (fun cs => ct_provider_amount cs + ct_fee_amount cs) bought)
     /\ ay_ProviderRequests point = Z.of_nat (length sold)
     /\ ay_ProviderRevenueWei point = BigString (total ct_provider_amount sold).
Proof.
  intros Hnow Hd Hk Hp. eexists. split; [apply (daily_points D); [done..|by apply (base_dated (own_sessions accountID d))|by apply (base_dated (own_machines accountID d))]|]. split; [by rewrite length_map|].
  intros i Hi day bought sold. assert (offsets !! i = Some (29 - i)%nat) as Hoff by (do 30 (destruct i as [|i]; [done|]); lia).
  eexists. split; [rewrite list_lookup_fmap, Hoff; reflexivity|]. unfold exact_day, bought, sold.
  assert (D - Z.of_nat (29 - i) = day) as Eday by (unfold day; lia).
  rewrite <- Eday, <- customer_day, <- provider_day, !length_map by done. unfold total. rewrite !map_map.
  split_and!; [|done..]. cbn [ay_Date]. unfold date. rewrite <- RFC3339Nano_midnight, ParseRFC3339_RFC3339Nano; [done|].
  rewrite Z.div_mul by done. apply Hd, offsets_spec. lia.
Qed.

(** ** Totals *)
(** What a customer spent is what the providers got for it and the fees. *)
Lemma totals_add_up rows t : scanTotals rows = Ok t ->
  at_SettledRequests t = Z.of_nat (length rows)
  /\ exists provider fee, at_ProviderChargesWei t = BigString provider /\ at_ProtocolFeesWei t = BigString fee
     /\ at_TotalSpentWei t = BigString (provider + fee).
Proof.
  unfold scanTotals, scan_usage. intros E. step_ok E as [[[count i] o] c] Eu. injection E as <-.
  step_ok Eu as i' E1. step_ok Eu as o' E2. step_ok Eu as c' E3. injection Eu as <- <- <- <-. cbn [at_SettledRequests at_ProviderChargesWei at_ProtocolFeesWei at_TotalSpentWei].
  split; [apply affected_all|]. exists (sum_where all provider_amount rows), (sum_where all fee_amount rows). split_and!; [done|done|].
  f_equal. rewrite !sum_all. unfold charge, provider_amount, fee_amount. clear.
  induction rows as [|row rows IH]; [done|]. cbn [map foldr]. rewrite IH. lia.
Qed.

(** ** A concrete account *)
Module AnalyticsRun.
Definition db_settled : Db := Eval vm_compute in value_of (sample_event (ReceiptSettled request_id session_id provider_wallet 8 2) db_prepared).
Definition noon : Z := 1700049600 * Second.
Definition still (t : Z) : Clock := mkClock (fun _ => t) t t (fun _ => t).

(** The last point but one shows the request that was settled the day before. *)
Lemma daily_exact_witness :
  exists points point, loadDailyAnalytics (still noon) "customer" 1 contract_address db_settled = Some points
  /\ length points = 30%nat /\ points !! 28%nat = Some point /\ ay_CustomerRequests point = 1 /\ ay_CustomerSpentWei point = "10".
Proof.
  destruct (daily_exact (noon / day_length) (still noon) "customer" 1 contract_address db_settled) as (points & E & Hl & H).
  - split; done.
  - intros offset Ho. apply offsets_spec in Ho. do 30 (destruct offset as [|offset]; [vm_compute; split; discriminate|]). lia.
  - split; apply (bool_decide_unpack _); by vm_compute.
  - apply Forall_cons. split; [vm_compute; split; discriminate|apply Forall_nil_2].
  - destruct (H 28%nat) as (point & Hp & _ & Hc & Hs & _); [lia|]. exists points, point.
    split_and!; [done|done|done|rewrite Hc; by vm_compute|rewrite Hs; by vm_compute].
Defined.

(** A clock that passes midnight between the queries and the view. *)
Definition late : Clock := mkClock (fun _ => 1700006399 * Second) (1700006399 * Second) (1700006399 * Second) (fun _ => 1700006400 * Second).
Lemma midnight_panics : loadDailyAnalytics late "customer" 1 contract_address db_settled = None.
Proof. by vm_compute. Qed.
End AnalyticsRun.
