(* ===== verification/WindowsHost.v ===== *)
(** * Preparing the backends of a Windows host (cli/internal/platform/windows/docker.go, ollama.go, cli/cmd/myference/platform_windows.go)

    Before a provider advertises capacity, Docker Desktop is started when its
    engine does not answer, the images of the command agents are pulled, and the
    models of Ollama are loaded.  [W] is the machine; processes, the terminal of
    the clock and HTTP are the record [Host].  The second half shows that a
    preparation that succeeds has done all that, and that waiting for Docker
    ends. *)

From S2P Require Import Prelude GoStrings Wire Receipt Messages Anthropic Db Backends Ollama CommandAgent ClientConfig ProviderOps.
From S2P Require Tuning.
From Stdlib Require Import Ascii.
From stdpp Require Import gmap strings.
Open Scope string_scope.
Open Scope list_scope.
Open Scope Z_scope.

(** The parts of [url.Parse] that the constructor reads. *)
Record HostUrl := mkHostUrl { hu_Scheme : string; hu_Hostname : string; hu_User : bool; hu_RawQuery : string; hu_Fragment : string }.

Record DockerRuntime := mkDockerRuntime { DockerPath : string; DesktopPath : string }.
Record DockerStatus := mkDockerStatus {
  ds_DockerPath : string; ds_DesktopPath : string; ds_EngineReady : bool; ds_EngineOS : string;
  ds_MissingImages : list string; ds_Error : string;
}.

(** [uniqueImages]: trimmed, without blanks and repetitions, sorted. *)
Fixpoint unique (seen images : list string) : list string :=
  match images with
  | [] => []
  | image :: rest =>
      let image := TrimSpace image in
      if negb (String.eqb image "") && negb (contains seen image) then image :: unique (image :: seen) rest else unique seen rest
  end.
Definition uniqueImages (images : list string) : list string := sort_strings (unique [] images).
(** [immutableDockerImage] *)
Definition immutableDockerImage (image : string) : bool := pinnedImage image.

Definition dockerDesktopCandidates (getenv : string -> string) (join : list string -> string) : list string :=
  let below name path := if String.eqb (getenv name) "" then [] else [join (getenv name :: path)] in
  below "ProgramFiles" ["Docker"; "Docker"; "Docker Desktop.exe"] ++ below "LOCALAPPDATA" ["Docker"; "Docker Desktop.exe"].
(** [look] is [LookPath], and [is_file] whether the path is one of a file. *)
Definition DiscoverDockerRuntime (look : string -> string) (is_file : string -> bool) (getenv : string -> string) (join : list string -> string)
    : DockerRuntime :=
  let dockerPath := look "docker.exe" in
  let dockerPath := if String.eqb dockerPath "" then look "docker" else dockerPath in
  mkDockerRuntime dockerPath (default "" (List.find is_file (dockerDesktopCandidates getenv join))).

(** The enabled backends that run an agent, each image once. *)
Definition command_agent (b : Backend) : bool := bk_Enabled b && contains ["codex"; "claude"; "kimi"] (bk_Kind b).
Fixpoint agent_images (seen : list string) (backends : list Backend) : list string :=
  match backends with
  | [] => []
  | b :: rest =>
      if command_agent b && negb (contains seen (bk_Image b)) then bk_Image b :: agent_images (bk_Image b :: seen) rest
      else agent_images seen rest
  end.
Definition commandAgentImages (c : Config) : list string := agent_images [] (cf_Backends c).

Definition SelectInstalledModel (quote : string -> string) (installed : list string) (requested : string) : result string :=
  let models := sort_strings installed in
  if negb (String.eqb requested "") then
    if contains models requested then Ok requested else Err (ErrNew ("model " +:+ quote requested +:+ " is not installed in Ollama"))
  else match models with
       | [] => Err (ErrNew "Ollama has no installed models; install one with `ollama pull <model>`")
       | model :: _ => Ok model
       end.

Section Host.
Context {W : Type}.
#[local] Instance WH_ret : MRet (M (W := W)) := fun A a w => (w, Ok a).
#[local] Instance WH_bind : MBind (M (W := W)) := fun A B f m w => match m w with (w, Ok a) => f a w | (w, Err e) => (w, Err e) end.

(** [ht_Run] is a command of the Docker CLI: its output and its error;
    [ht_Wait] waits 250 milliseconds unless the deadline comes first. *)
Record Host := mkHost {
  ht_Run : list string -> W -> W * (string * option error);
  ht_Start : string -> M (W := W) unit;
  ht_Wait : M (W := W) unit;
  ht_Get : string -> M (W := W) Reply;
  ht_Post : string -> json -> M (W := W) Reply;
}.
Context (h : Host) (quote : string -> string) (error_text : error -> string) (duration_text : Z -> string).

(** ** Docker *)
Definition cleanCommandError (output : string) (e : option error) : string :=
  let message := TrimSpace output in
  if negb (String.eqb message "") then message else match e with Some e => error_text e | None => "unknown Docker error" end.
Definition commandFailure (prefix output : string) (e : option error) : string := prefix +:+ ": " +:+ cleanCommandError output e.

Definition engineOS (w : W) : W * (string * string * option error) :=
  let '(w, (output, e)) := ht_Run h ["info"; "--format"; "{{.OSType}}"] w in (w, (ToLower (TrimSpace output), output, e)).
Definition inspect (image : string) : W -> W * (string * option error) := ht_Run h ["image"; "inspect"; image].

Fixpoint missing_images (images : list string) (w : W) : W * list string :=
  match images with
  | [] => (w, [])
  | image :: rest =>
      let '(w, (_, e)) := inspect image w in
      let '(w, missing) := missing_images rest w in
      (w, if is_null e then missing else image :: missing)
  end.
Definition Status (r : DockerRuntime) (images : list string) (w : W) : W * DockerStatus :=
  let status := mkDockerStatus (DockerPath r) (DesktopPath r) in
  if is_blank (DockerPath r) then (w, status false "" [] "Docker CLI was not found; install Docker Desktop")
  else
    let '(w, (osType, output, e)) := engineOS w in
    match e with
    | Some _ => (w, status false "" [] (commandFailure "Docker engine is unavailable" output e))
    | None =>
        if negb (String.eqb osType "linux")
        then (w, status true osType [] "Docker Desktop is using Windows containers; switch to Linux containers")
        else let '(w, missing) := missing_images (uniqueImages images) w in (w, status true osType missing "")
    end.

(** The loop until the engine answers, at most [fuel] waits: nothing when it goes on. *)
Fixpoint await_engine (fuel : nat) (timeout : Z) (w : W) : option (W * result string) :=
  let '(w, (osType, output, e)) := engineOS w in
  match e with
  | None => Some (w, Ok osType)
  | Some _ =>
      match ht_Wait h w with
      | (w, Err _) => Some (w, Err (ErrNew ("Docker Desktop did not become ready within " +:+ duration_text timeout +:+ ": " +:+ cleanCommandError output e)))
      | (w, Ok _) => match fuel with O => None | S fuel => await_engine fuel timeout w end
      end
  end.
(** The engine, started when it does not answer. *)
Definition engine (fuel : nat) (r : DockerRuntime) (timeout : Z) (w : W) : option (W * result string) :=
  let '(w, (osType, output, e)) := engineOS w in
  match e with
  | None => Some (w, Ok osType)
  | Some _ =>
      if is_blank (DesktopPath r)
      then Some (w, Err (ErrNew ("Docker engine is unavailable and Docker Desktop could not be found: " +:+ cleanCommandError output e)))
      else match ht_Start h (DesktopPath r) w with
           | (w, Err e) => Some (w, Err (ErrWrap "start Docker Desktop" e))
           | (w, Ok _) => await_engine fuel timeout w
           end
  end.
Definition prepare_image (image : string) (w : W) : W * result unit :=
  if negb (immutableDockerImage image) then (w, Err (ErrNew ("command-agent image must be digest-pinned: " +:+ quote image)))
  else
    let '(w, (_, e)) := inspect image w in
    if is_null e then (w, Ok tt)
    else
      let '(w, (output, e)) := ht_Run h ["pull"; image] w in
      if negb (is_null e) then (w, Err (ErrNew ("pull digest-pinned command-agent image " +:+ quote image +:+ ": " +:+ cleanCommandError output e)))
      else
        let '(w, (output, e)) := inspect image w in
        if negb (is_null e) then (w, Err (ErrNew ("verify pulled command-agent image " +:+ quote image +:+ ": " +:+ cleanCommandError output e)))
        else (w, Ok tt).
Fixpoint prepare_images (images : list string) : M (W := W) unit :=
  match images with
  | [] => mret tt
  | image :: rest => _ ← prepare_image image; prepare_images rest
  end.
Definition Prepare (fuel : nat) (r : DockerRuntime) (images : list string) (timeout : Z) (w : W) : option (W * result unit) :=
  if is_blank (DockerPath r) then Some (w, Err (ErrNew "Docker CLI was not found; install Docker Desktop"))
  else if timeout <=? 0 then Some (w, Err (ErrNew "Docker startup timeout must be positive"))
  else
    match engine fuel r timeout w with
    | None => None
    | Some (w, Err e) => Some (w, Err e)
    | Some (w, Ok osType) =>
        if negb (String.eqb osType "linux")
        then Some (w, Err (ErrNew ("Docker Desktop is using " +:+ quote osType +:+ " containers; switch to Linux containers")))
        else Some (prepare_images (uniqueImages images) w)
    end.

(** ** Ollama *)
Context (url_parse : string -> option HostUrl) (loopback_ip : string -> bool) (first_json : Reply -> result json).
Definition isLoopbackHost (host : string) : bool := EqualFold host "localhost" || loopback_ip host.
Definition NewOllamaHostClient (baseURL : string) : result string :=
  match url_parse baseURL with
  | None => Err (ErrNew "parse")
  | Some u =>
      if negb (String.eqb (hu_Scheme u) "http") || hu_User u || negb (String.eqb (hu_RawQuery u) "") || negb (String.eqb (hu_Fragment u) "")
         || negb (isLoopbackHost (hu_Hostname u))
      then Err (ErrNew "Ollama URL must use loopback HTTP") else Ok (trim_slashes baseURL)
  end.
Definition ollamaStatusError : Reply -> error := status_error "Ollama returned ".

Definition host_model_fields : list (string * setter string) := [ ("name", set_with as_string (fun v _ => v)) ].
Definition as_host_models (v : json) : option (list string) :=
  match v with JArr items => mapM (fun i => decode_loose host_model_fields i "") items | _ => None end.
Definition host_payload_fields : list (string * setter (list string)) := [ ("models", set_with as_host_models (fun v _ => v)) ].
Definition InstalledModels (baseURL : string) : M (W := W) (list string) :=
  reply ← ht_Get h (baseURL +:+ "/api/tags");
  lift (_ ← fail_if (negb (rp_OK reply)) (ollamaStatusError reply);
        v ← first_json reply;
        names ← of_option (decode_loose host_payload_fields v []) ErrEncode;
        Ok (sort_strings (List.filter (fun name => negb (String.eqb name "")) (map TrimSpace names)))).

Definition preload_json (model : string) (config : Tuning.Config) : json :=
  JObj (member "model" (jstr model) ++ member "prompt" (jstr "") ++ member "stream" (JBool false)
        ++ member "keep_alive" (jstr (Tuning.cf_KeepAlive config))
        ++ member "options" (JObj (member "num_ctx" (num (Tuning.cf_ContextLength config))))).
Definition error_fields : list (string * setter string) := [ ("error", set_with as_string (fun v _ => v)) ].
Definition Preload (baseURL model : string) (config : Tuning.Config) : M (W := W) unit :=
  _ ← lift (_ ← fail_if (is_blank model) (ErrNew "preload model is required"); Tuning.Validate config);
  reply ← ht_Post h (baseURL +:+ "/api/generate") (preload_json model config);
  lift (_ ← fail_if (negb (rp_OK reply)) (ollamaStatusError reply);
        v ← first_json reply;
        message ← of_option (decode_loose error_fields v "") ErrEncode;
        fail_if (negb (String.eqb message "")) (ErrNew message)).

(** ** All backends *)
Definition failing {A} (prefix : string) (p : M (W := W) A) : M (W := W) A := fun w =>
  match p w with (w, Err e) => (w, Err (ErrWrap prefix e)) | other => other end.
Definition prepare_ollama (config : Tuning.Config) (b : Backend) : M (W := W) unit :=
  let name := quote (bk_Name b) in
  client ← failing ("configure Ollama backend " +:+ name) (lift (NewOllamaHostClient (bk_URL b)));
  models ← failing ("discover Ollama backend " +:+ name +:+ " before preload") (InstalledModels client);
  model ← failing ("select Ollama backend " +:+ name +:+ " model") (lift (SelectInstalledModel quote models (bk_Model b)));
  failing ("preload Ollama backend " +:+ name) (Preload client model config).
Fixpoint prepare_ollamas (config : Tuning.Config) (backends : list Backend) : M (W := W) unit :=
  match backends with
  | [] => mret tt
  | b :: rest =>
      if negb (bk_Enabled b) || negb (String.eqb (bk_Kind b) "ollama") then prepare_ollamas config rest
      else _ ← prepare_ollama config b; prepare_ollamas config rest
  end.
Definition prepareWindowsBackends (fuel : nat) (docker : DockerRuntime) (timeout : Z) (c : Config) (config : Tuning.Config) (w : W)
    : option (W * result unit) :=
  let images := commandAgentImages c in
  match (if bool_decide (images = []) then Some (w, Ok tt) else Prepare fuel docker images timeout w) with
  | None => None
  | Some (w, Err e) => Some (w, Err (ErrWrap "prepare Docker command agents" e))
  | Some (w, Ok _) => Some (prepare_ollamas config (cf_Backends c) w)
  end.
End Host.

(** ** Images *)
Lemma unique_spec images : forall seen image, image ∈ unique seen images <-> (image ∉ seen) /\ image <> "" /\ image ∈ map TrimSpace images.
Proof.
  induction images as [|x images IH]; intros seen image; cbn [unique map].
  - split; [by intros H%elem_of_nil|by intros (_ & _ & H%elem_of_nil)].
  - rewrite elem_of_cons. destruct (String.eqb_spec (TrimSpace x) "") as [E|E]; cbn [negb andb].
    + rewrite IH. split; [naive_solver|]. intros (H1 & H2 & [H3|H3]); [congruence|done].
    + destruct (contains seen (TrimSpace x)) eqn:Ec; cbn [negb]; [apply contains_spec in Ec|apply not_true_iff_false in Ec; rewrite contains_spec in Ec].
      * rewrite IH. split; [naive_solver|]. intros (H1 & H2 & [->|H3]); [done|done].
      * rewrite elem_of_cons, IH. rewrite not_elem_of_cons. destruct (decide (image = TrimSpace x)) as [->|Hne]; naive_solver.
Qed.
Lemma uniqueImages_spec images image : image ∈ uniqueImages images <-> image <> "" /\ image ∈ map TrimSpace images.
Proof. unfold uniqueImages. rewrite sort_strings_Permutation, unique_spec. pose proof (not_elem_of_nil image). tauto. Qed.
Lemma agent_images_spec backends : forall seen image,
  image ∈ agent_images seen backends <-> (image ∉ seen) /\ exists b, b ∈ backends /\ command_agent b = true /\ bk_Image b = image.
Proof.
  induction backends as [|b backends IH]; intros seen image; cbn [agent_images].
  - split; [by intros H%elem_of_nil|by intros (_ & b & H%elem_of_nil & _)].
  - destruct (command_agent b) eqn:Eb; cbn [andb]; [|rewrite IH; split; intros (H1 & x & H2 & H3); (split; [done|]); exists x; [split; [by right|done]|];
      destruct H3 as [H3 H4]; apply elem_of_cons in H2 as [->|H2]; [congruence|done]].
    destruct (contains seen (bk_Image b)) eqn:Ec; cbn [negb]; [apply contains_spec in Ec|apply not_true_iff_false in Ec; rewrite contains_spec in Ec].
    + rewrite IH. split; intros (H1 & x & H2 & H3 & H4); (split; [done|]); exists x; [split_and!; [by right|done|done]|].
      apply elem_of_cons in H2 as [->|H2]; [congruence|done].
    + rewrite elem_of_cons, IH, not_elem_of_cons. split.
      * intros [->|((Hn & Hs) & x & H2 & H3 & H4)]; (split; [done|]); [exists b|exists x]; (split_and!; [|done|done]); [by left|by right].
      * intros (Hs & x & [->|H2]%elem_of_cons & H3 & H4); [by left|]. destruct (decide (image = bk_Image b)); [by left|right]. split; [done|by exists x].
Qed.

Section HostSpec.
Context {W : Type} (h : Host (W := W)) (quote : string -> string) (error_text : error -> string) (duration_text : Z -> string).
Context (url_parse : string -> option HostUrl) (loopback_ip : string -> bool) (first_json : Reply -> result json).
Abbreviation prepare_images := (prepare_images h quote error_text).
Abbreviation prepare_ollamas := (prepare_ollamas h quote url_parse loopback_ip first_json).

(** *** What Docker does with images *)
Context (present : W -> string -> Prop).
(** An image that inspection finds is there, and neither inspecting nor pulling
    images nor a request to Ollama removes one. *)
Class DockerLaws := {
  dl_inspect image w w' output : inspect h image w = (w', (output, None)) -> present w' image;
  dl_keeps arguments image w : (exists i, arguments = ["image"; "inspect"; i] \/ arguments = ["pull"; i]) ->
    present w image -> present (fst (ht_Run h arguments w)) image;
  dl_get url image w : present w image -> present (fst (ht_Get h url w)) image;
  dl_post url v image w : present w image -> present (fst (ht_Post h url v w)) image;
}.
Context {laws : DockerLaws}.

Lemma inspect_keeps i image w : present w image -> present (fst (inspect h i w)) image.
Proof. intros H. apply dl_keeps; [|done]. exists i. by left. Qed.
Lemma prepare_image_keeps i image w : present w image -> present (fst (prepare_image h quote error_text i w)) image.
Proof.
  intros H. unfold prepare_image. destruct (negb _); [done|]. pose proof (inspect_keeps i image w H) as H1. destruct (inspect h i w) as [w1 [o1 e1]]. cbn [fst] in H1.
  destruct (is_null e1); [done|]. assert (present (fst (ht_Run h ["pull"; i] w1)) image) as H2 by (apply dl_keeps; [exists i; by right|done]).
  destruct (ht_Run h _ w1) as [w2 [o2 e2]]. cbn [fst] in H2. destruct (negb _); [done|]. pose proof (inspect_keeps i image w2 H2) as H3.
  destruct (inspect h i w2) as [w3 [o3 e3]]. cbn [fst] in H3. by destruct (negb _).
Qed.
Lemma prepare_image_Ok i w w' u : prepare_image h quote error_text i w = (w', Ok u) -> immutableDockerImage i = true /\ present w' i.
Proof.
  unfold prepare_image. destruct (immutableDockerImage i); cbn [negb]; [|done]. intros E. split; [done|]. revert E.
  destruct (inspect h i w) as [w1 [o1 [e1|]]] eqn:E1; cbn [is_null]; [|intros [= <- _]; by eapply dl_inspect].
  destruct (ht_Run h _ w1) as [w2 [o2 [e2|]]]; cbn [is_null negb]; [done|].
  destruct (inspect h i w2) as [w3 [o3 [e3|]]] eqn:E3; cbn [is_null negb]; [done|]. intros [= <- _]. by eapply dl_inspect.
Qed.
Lemma prepare_images_Ok images : forall w w' u, prepare_images images w = (w', Ok u) ->
  (forall image, image ∈ images -> immutableDockerImage image = true /\ present w' image)
  /\ (forall image, present w image -> present w' image).
Proof.
  induction images as [|i images IH]; intros w w' u; cbn [WindowsHost.prepare_images]; unfold mbind, WH_bind, mret, WH_ret.
  - intros [= <- _]. split; [by intros image H%elem_of_nil|done].
  - pose proof (fun image => prepare_image_keeps i image w) as Hk. destruct (prepare_image h quote error_text i w) as [w1 [u1|]] eqn:E1; [|done]. cbn [fst] in Hk.
    intros E. destruct (IH _ _ _ E) as [Himages Hkeeps]. apply prepare_image_Ok in E1 as [Hp Hi]. split; [|by eauto].
    intros image [->|Hin]%elem_of_cons; [split; [done|by apply Hkeeps]|by apply Himages].
Qed.

(** *** Ollama *)
Lemma SelectInstalledModel_Ok installed requested model : SelectInstalledModel quote installed requested = Ok model ->
  model ∈ installed /\ (requested = "" \/ model = requested).
Proof.
  unfold SelectInstalledModel. destruct (String.eqb_spec requested "") as [->|Hr]; cbn [negb].
  - destruct (sort_strings installed) as [|x l] eqn:E; [done|]. intros [= <-]. split; [|by left]. rewrite <- (sort_strings_Permutation installed), E. by left.
  - destruct (contains _ _) eqn:Ec; [|done]. intros [= <-]. apply contains_spec in Ec. rewrite sort_strings_Permutation in Ec. auto.
Qed.
Lemma get_keeps url image w : present w image -> present (fst (InstalledModels h first_json url w)) image.
Proof. intros H. apply (dl_get (url +:+ "/api/tags")) in H. unfold InstalledModels, mbind, WH_bind. by destruct (ht_Get h _ w) as [w1 [r|]]. Qed.
Lemma preload_keeps url model config image w : present w image -> present (fst (Preload h first_json url model config w)) image.
Proof.
  intros H. pose proof (dl_post (url +:+ "/api/generate") (preload_json model config) image w H). unfold Preload, mbind at 1 2, WH_bind, lift.
  destruct (mbind (M := result) _ _) as [u|]; [|done]. by destruct (ht_Post h _ _ w) as [w1 [r|]].
Qed.
Lemma prepare_ollama_keeps config b w w' : prepare_ollama h quote url_parse loopback_ip first_json config b w = (w', Ok tt) ->
  forall image, present w image -> present w' image.
Proof.
  unfold prepare_ollama, mbind, WH_bind, failing, lift. destruct (NewOllamaHostClient _ _ _) as [client|]; [|done].
  pose proof (fun image => get_keeps client image w) as Hg. destruct (InstalledModels _ _ _ w) as [w1 [models|]]; [|done]. cbn [fst] in Hg.
  destruct (SelectInstalledModel _ _ _) as [model|]; [|done].
  pose proof (fun image => preload_keeps client model config image w1) as Hp. destruct (Preload _ _ _ _ _ w1) as [w2 [[]|]]; [|done]. cbn [fst] in Hp.
  intros [= <-]. by eauto.
Qed.
Lemma prepare_ollamas_keeps config backends : forall w w', prepare_ollamas config backends w = (w', Ok tt) ->
  forall image, present w image -> present w' image.
Proof.
  induction backends as [|b backends IH]; intros w w' E; cbn [WindowsHost.prepare_ollamas] in E; [by injection E as <-|].
  destruct (_ || _); [by apply IH|]. unfold mbind, WH_bind in E. destruct (prepare_ollama _ _ _ _ _ _ b w) as [w1 [[]|]] eqn:E1; [|done].
  intros image Hi. eapply IH; [exact E|]. by eapply prepare_ollama_keeps.
Qed.
Lemma images_prepared fuel docker timeout c config w w' :
  prepareWindowsBackends h quote error_text duration_text url_parse loopback_ip first_json fuel docker timeout c config w = Some (w', Ok tt) ->
  (forall b, b ∈ cf_Backends c -> command_agent b = true -> TrimSpace (bk_Image b) <> "" ->
     immutableDockerImage (TrimSpace (bk_Image b)) = true /\ present w' (TrimSpace (bk_Image b)))
  /\ exists w1, prepare_ollamas config (cf_Backends c) w1 = (w', Ok tt).
Proof.
  unfold prepareWindowsBackends. intros E.
  assert (forall b, b ∈ cf_Backends c -> command_agent b = true -> bk_Image b ∈ commandAgentImages c) as Himages.
  { intros b Hb Hc. apply agent_images_spec. split; [apply not_elem_of_nil|]. by exists b. }
  destruct (bool_decide (commandAgentImages c = [])) eqn:En.
  - apply bool_decide_eq_true in En. injection E as E. split; [|by exists w].
    intros b Hb Hc. apply Himages in Hc; [|done]. rewrite En in Hc. by apply elem_of_nil in Hc.
  - destruct (Prepare _ _ _ _ _ _ _ _ w) as [[w1 [[]|]]|] eqn:Ep; [|done..]. injection E as E. split; [|by exists w1].
    intros b Hb Hc Hne. revert Ep. unfold Prepare. destruct (is_blank _); [done|]. destruct (timeout <=? 0); [done|].
    destruct (engine _ _ _ _ _ _ w) as [[w0 [os|]]|]; [|done..]. destruct (negb _); [done|]. intros [= Ep]. apply prepare_images_Ok in Ep as [Hi _].
    destruct (Hi (TrimSpace (bk_Image b))) as [Hp Hpres]; [|split; [done|by eapply prepare_ollamas_keeps]].
    apply uniqueImages_spec. split; [done|]. apply list_elem_of_fmap. exists (bk_Image b). split; [done|by apply Himages].
Qed.
End HostSpec.

(** ** What a preparation did *)
(** An exchange with a server over HTTP, with what came of it. *)
Inductive Exchange := Got (url : string) (reply : result Reply) | Posted (url : string) (body : json) (reply : result Reply).
(** The same host, writing down its exchanges. *)
Definition recording {W} (h : Host (W := W)) : Host (W := W * list Exchange) :=
  mkHost (fun arguments '(w, es) => let '(w, out) := ht_Run h arguments w in ((w, es), out))
    (fun path '(w, es) => let '(w, out) := ht_Start h path w in ((w, es), out))
    (fun '(w, es) => let '(w, out) := ht_Wait h w in ((w, es), out))
    (fun url '(w, es) => let '(w, out) := ht_Get h url w in ((w, es ++ [Got url out]), out))
    (fun url v '(w, es) => let '(w, out) := ht_Post h url v w in ((w, es ++ [Posted url v out]), out)).

Section Recorded.
Context {W : Type} (h : Host (W := W)) (quote : string -> string) (error_text : error -> string) (duration_text : Z -> string).
Context (url_parse : string -> option HostUrl) (loopback_ip : string -> bool) (first_json : Reply -> result json).
Context (present : W -> string -> Prop) {laws : DockerLaws h present}.
Abbreviation present_now := (fun w => present (fst w)).

#[export] Instance recording_laws : DockerLaws (recording h) present_now.
Proof.
  split.
  - intros image [w es] w' output. unfold inspect. cbn. destruct (ht_Run h _ w) as [w1 out] eqn:E. intros [= <- ->]. by eapply dl_inspect.
  - intros arguments image [w es] Ha Hp. pose proof (dl_keeps h present arguments image w Ha Hp) as H. cbn. by destruct (ht_Run h _ w).
  - intros url image [w es] Hp. pose proof (dl_get h present url image w Hp) as H. cbn. by destruct (ht_Get h _ w).
  - intros url v image [w es] Hp. pose proof (dl_post h present url v image w Hp) as H. cbn. by destruct (ht_Post h _ _ w).
Qed.

(** Plain HTTP to this machine, without credentials, query or fragment. *)
Definition on_loopback (url : string) : Prop :=
  exists u, url_parse url = Some u /\ hu_Scheme u = "http" /\ hu_User u = false /\ hu_RawQuery u = "" /\ hu_Fragment u = ""
    /\ (EqualFold (hu_Hostname u) "localhost" = true \/ loopback_ip (hu_Hostname u) = true).
(** A reply that lists [model] among the installed ones. *)
Definition lists (reply : Reply) (model : string) : Prop :=
  rp_OK reply = true /\ exists v names, first_json reply = Ok v /\ decode_loose host_payload_fields v [] = Some names
    /\ model ∈ map TrimSpace names.
(** A reply that reports no failure. *)
Definition accepts (reply : Reply) : Prop :=
  rp_OK reply = true /\ exists v, first_json reply = Ok v /\ decode_loose error_fields v "" = Some "".
(** Among these exchanges, the server of the backend listed its models and then
    loaded the configured one, or an installed one when none is configured, with
    the keep-alive time and the context length of the configuration. *)
Definition loaded (config : Tuning.Config) (b : Backend) (es : list Exchange) : Prop :=
  exists model tags reply before after,
    es = before ++ [Got (trim_slashes (bk_URL b) +:+ "/api/tags") (Ok tags);
                    Posted (trim_slashes (bk_URL b) +:+ "/api/generate")
                      (JObj [("model", jstr model); ("prompt", jstr ""); ("stream", JBool false);
                             ("keep_alive", jstr (Tuning.cf_KeepAlive config));
                             ("options", JObj [("num_ctx", num (Tuning.cf_ContextLength config))])]) (Ok reply)] ++ after
    /\ lists tags model /\ model <> "" /\ (bk_Model b = "" \/ model = bk_Model b) /\ accepts reply.

Lemma NewOllamaHostClient_Ok url client : NewOllamaHostClient url_parse loopback_ip url = Ok client -> on_loopback url /\ client = trim_slashes url.
Proof.
  unfold NewOllamaHostClient, on_loopback, isLoopbackHost. destruct (url_parse url) as [u|]; [|done].
  destruct (String.eqb_spec (hu_Scheme u) "http") as [E1|]; [|done]. destruct (hu_User u) eqn:E2; [done|].
  destruct (String.eqb_spec (hu_RawQuery u) "") as [E3|]; [|done]. destruct (String.eqb_spec (hu_Fragment u) "") as [E4|]; [|done].
  destruct (EqualFold _ _ || loopback_ip _) eqn:E5; [|done]. apply orb_true_iff in E5. cbn. intros [= <-]. split; [|done]. by exists u.
Qed.
Lemma InstalledModels_Ok base w es w' models : InstalledModels (recording h) first_json base (w, es) = (w', Ok models) ->
  exists tags w1, w' = (w1, es ++ [Got (base +:+ "/api/tags") (Ok tags)]) /\ forall model, model ∈ models -> lists tags model /\ model <> "".
Proof.
  unfold InstalledModels, mbind at 1, WH_bind, lift. cbn. destruct (ht_Get h _ w) as [w1 [reply|e]] eqn:E; [|done].
  unfold mbind, result_bind, fail_if, of_option. intros [= <- Em]. exists reply, w1. split; [done|]. intros model Hin. revert Em. unfold lists.
  destruct (rp_OK reply); [|done]. cbn [negb]. destruct (first_json reply) as [v|]; [|done].
  destruct (decode_loose _ v []) as [names|] eqn:Ed; [|done]. intros [= <-]. rewrite sort_strings_Permutation in Hin.
  apply list_elem_of_In, filter_In in Hin as [Hin Hne]. split; [|by destruct (String.eqb_spec model "")].
  split; [done|]. exists v, names. by rewrite list_elem_of_In.
Qed.
Lemma Preload_Ok base model config w es w' : Preload (recording h) first_json base model config (w, es) = (w', Ok tt) ->
  exists reply w1, w' = (w1, es ++ [Posted (base +:+ "/api/generate") (preload_json model config) (Ok reply)]) /\ accepts reply.
Proof.
  unfold Preload, mbind at 1 2, WH_bind, lift. destruct (mbind (M := result) _ _) as [u|]; [|done]. cbn.
  destruct (ht_Post h _ _ w) as [w1 [reply|e]] eqn:E; [|done].
  unfold mbind, result_bind, fail_if, of_option. intros [= <- Em]. exists reply, w1. split; [done|]. revert Em. unfold accepts.
  destruct (rp_OK reply); [|done]. cbn [negb]. destruct (first_json reply) as [v|]; [|done].
  destruct (decode_loose _ v "") as [message|] eqn:Ed; [|done]. destruct (String.eqb_spec message "") as [->|]; [|done].
  intros _. split; [done|]. by exists v.
Qed.

Lemma loaded_later config b es later : loaded config b es -> loaded config b (es ++ later).
Proof.
  intros (model & tags & reply & before & after & -> & H). exists model, tags, reply, before, (after ++ later). split; [|done].
  by rewrite <- !app_assoc.
Qed.
Lemma prepare_ollama_loads config b w es w' :
  prepare_ollama (recording h) quote url_parse loopback_ip first_json config b (w, es) = (w', Ok tt) ->
  (on_loopback (bk_URL b) /\ loaded config b (snd w')) /\ exists later, snd w' = es ++ later.
Proof.
  unfold prepare_ollama, mbind, WH_bind, failing, lift. destruct (NewOllamaHostClient _ _ _) as [client|] eqn:Ec; [|done].
  apply NewOllamaHostClient_Ok in Ec as [Hl ->].
  destruct (InstalledModels _ _ _ (w, es)) as [w1 [models|]] eqn:Em; [|done]. apply InstalledModels_Ok in Em as (tags & w2 & -> & Hm).
  destruct (SelectInstalledModel _ _ _) as [model|] eqn:Es; [|done]. apply SelectInstalledModel_Ok in Es as [Hin Hreq].
  destruct (Preload _ _ _ _ _ _) as [w3 [[]|]] eqn:Ep; [|done]. apply Preload_Ok in Ep as (reply & w4 & -> & Ha).
  intros [= <-]. cbn [snd]. rewrite <- app_assoc. split; [|by eexists]. split; [done|]. destruct (Hm model Hin) as [Hlists Hne].
  exists model, tags, reply, es, []. by rewrite app_nil_r.
Qed.
Lemma prepare_ollamas_load config backends : forall w es w',
  prepare_ollamas (recording h) quote url_parse loopback_ip first_json config backends (w, es) = (w', Ok tt) ->
  (forall b, b ∈ backends -> bk_Enabled b = true -> bk_Kind b = "ollama" -> on_loopback (bk_URL b) /\ loaded config b (snd w'))
  /\ exists later, snd w' = es ++ later.
Proof.
  induction backends as [|b backends IH]; intros w es w' E; cbn [WindowsHost.prepare_ollamas] in E.
  - injection E as <-. split; [by intros b H%elem_of_nil|]. exists []. by rewrite app_nil_r.
  - destruct (negb (bk_Enabled b) || negb (String.eqb (bk_Kind b) "ollama")) eqn:Eb.
    + destruct (IH _ _ _ E) as [H1 H2]. split; [|done]. intros x [->|Hx]%elem_of_cons He Hk; [|by apply H1]. rewrite He, Hk in Eb. done.
    + unfold mbind, WH_bind in E. destruct (prepare_ollama _ _ _ _ _ _ b (w, es)) as [[w1 es1] [[]|]] eqn:E1; [|done].
      apply prepare_ollama_loads in E1 as [[Hl Hb] [l1 El]]. cbn [snd] in Hb, El. subst es1. destruct (IH _ _ _ E) as [H1 [l2 E2]]. split.
      * intros x [->|Hx]%elem_of_cons; [|by apply H1]. intros _ _. split; [done|]. rewrite E2. by apply loaded_later.
      * exists (l1 ++ l2). by rewrite E2, <- app_assoc.
Qed.

End Recorded.

(** ** Waiting for Docker *)
Section Wait.
Context {W : Type} (h : Host (W := W)) (quote : string -> string) (error_text : error -> string) (duration_text : Z -> string).
(** Every wait takes at least [tick] and fails when the deadline has come;
    clocks do not run back. *)
Context (now : W -> Z) (tick deadline : Z).
Class DockerClock := {
  dc_tick : 0 < tick;
  dc_run arguments w : now w <= now (fst (ht_Run h arguments w));
  dc_start path w : now w <= now (fst (ht_Start h path w));
  dc_wait w w' u : ht_Wait h w = (w', Ok u) -> now w + tick <= now w' <= deadline;
}.
Context {clock : DockerClock}.

Lemma engineOS_later w : now w <= now (fst (engineOS h w)).
Proof. unfold engineOS. pose proof (dc_run ["info"; "--format"; "{{.OSType}}"] w) as H. by destruct (ht_Run h _ w) as [w' [o e]]. Qed.
Lemma await_engine_ends fuel timeout : forall w, deadline < now w + Z.of_nat fuel * tick ->
  exists out, await_engine h error_text duration_text fuel timeout w = Some out.
Proof.
  pose proof dc_tick as Ht. induction fuel as [|fuel IH]; intros w Hd; cbn [await_engine]; pose proof (engineOS_later w) as He;
    destruct (engineOS h w) as [w1 [[os output] [e|]]]; try (by eexists); cbn [fst] in He;
    destruct (ht_Wait h w1) as [w2 [u|e2]] eqn:E; try (by eexists); apply dc_wait in E; [lia|apply IH; lia].
Qed.
(** A preparation ends: the waits that fit before the deadline are enough
    fuel; for the two minutes of the CLI, 480 of a quarter of a second. *)
Lemma Prepare_ends fuel docker images timeout w : deadline < now w + Z.of_nat fuel * tick ->
  exists out, Prepare h quote error_text duration_text fuel docker images timeout w = Some out.
Proof.
  intros Hd. unfold Prepare. destruct (is_blank _); [by eexists|]. destruct (timeout <=? 0); [by eexists|].
  assert (exists out, engine h error_text duration_text fuel docker timeout w = Some out) as [[w1 [os|e]] ->]; [|destruct (negb _); by eexists|by eexists].
  unfold engine. pose proof (engineOS_later w) as He. destruct (engineOS h w) as [w1 [[os output] [e|]]]; [|by eexists]. cbn [fst] in He.
  destruct (is_blank _); [by eexists|]. pose proof (dc_start (DesktopPath docker) w1) as Hs. destruct (ht_Start h _ w1) as [w2 [u|e2]]; [|by eexists]. cbn [fst] in Hs.
  apply await_engine_ends. lia.
Qed.
End Wait.

(** ** A concrete machine *)
Module HostRun.
(** Docker Desktop answers [hm_clock] three ticks after it was started. *)
Record Machine := mkMachine { hm_clock : Z; hm_ready : option Z; hm_images : list string; hm_loaded : list string }.
Definition failed (w : Machine) : Machine * (string * option error) := (w, ("", Some (ErrNew "exit status 1"))).
Definition docker_run (arguments : list string) (w : Machine) : Machine * (string * option error) :=
  match arguments with
  | ["info"; _; _] => if match hm_ready w with Some t => t <=? hm_clock w | None => false end then (w, ("Linux" +:+ String (of_byte 10) "", None)) else failed w
  | ["image"; _; image] => if contains (hm_images w) image then (w, ("[]", None)) else failed w
  | ["pull"; image] => (mkMachine (hm_clock w) (hm_ready w) (image :: hm_images w) (hm_loaded w), ("", None))
  | _ => failed w
  end.
Definition ok (body : string) : Reply := mkReply true "200 OK" body None false.
Definition host : Host (W := Machine) :=
  mkHost docker_run (fun _ w => (mkMachine (hm_clock w) (Some (hm_clock w + 3)) (hm_images w) (hm_loaded w), Ok tt))
    (fun w => if 10 <=? hm_clock w then (w, Err (ErrNew "context deadline exceeded"))
              else (mkMachine (hm_clock w + 1) (hm_ready w) (hm_images w) (hm_loaded w), Ok tt))
    (fun _ w => (w, Ok (ok "tags")))
    (fun _ v w => (mkMachine (hm_clock w) (hm_ready w) (hm_images w) ("loaded" :: hm_loaded w), Ok (ok "loaded"))).
Definition answer (r : Reply) : result json :=
  if String.eqb (rp_Body r) "tags" then Ok (JObj [("models", JArr [JObj [("name", JStr "qwen3:8b")]; JObj [("name", JStr "llama3.2")]])])
  else Ok (JObj []).
Definition parse (url : string) : option HostUrl := Some (mkHostUrl "http" "localhost" false "" "").
Definition image : string := "ghcr.io/agent@sha256:" +:+ GoStrings.Join (repeat "ab" 32) "".
Definition agent : Backend := mkBackend "agent" "" "kimi" "" "k2" 1 true image.
Definition local : Backend := mkBackend "local" "" "ollama" "http://localhost:11434/" "" 1 true "".
Definition config_with (backends : list Backend) : Config := mkConfig "https://api" "a1" "m1" 10143 "" "" backends.
Definition prepare (docker : DockerRuntime) (backends : list Backend) : option ((Machine * list Exchange) * result unit) :=
  prepareWindowsBackends (recording host) (fun s => s) (fun _ => "error") (fun _ => "2m0s") parse (fun _ => false) answer 11 docker 120 (config_with backends)
    Tuning.DefaultConfig (mkMachine 0 None [] [], []).
Definition desktop : DockerRuntime := mkDockerRuntime "docker.exe" "Docker Desktop.exe".

#[export] Instance docker_laws : DockerLaws host (fun w image => image ∈ hm_images w).
Proof.
  split; try done.
  - intros i w w' output. unfold inspect. cbn. destruct (contains _ _) eqn:E; [|done]. intros [= <- _]. by apply contains_spec.
  - intros arguments i w [x [->| ->]] Hi; cbn; [by destruct (contains _ _)|by right].
Qed.
#[export] Instance docker_clock : DockerClock host hm_clock 1 10.
Proof.
  split; [lia| |intros; cbn; lia|].
  - intros arguments w. cbn. unfold docker_run. repeat case_match; cbn; lia.
  - intros w w' u. cbn. destruct (Z.leb_spec 10 (hm_clock w)); [done|]. intros [= <- _]. cbn. lia.
Qed.


(** A host whose only backend is the native Codex CLI, which runs no image, is
    refused when Docker is not installed. *)
Definition native : Backend := mkBackend "codex" "" "codex" "" "gpt-5.6-terra" 1 true "".
Lemma native_needs_docker :
  option_map snd (prepare (mkDockerRuntime "" "") [native])
  = Some (Err (ErrWrap "prepare Docker command agents" (ErrNew "Docker CLI was not found; install Docker Desktop"))).
Proof. by vm_compute. Qed.
End HostRun.
