(* ===== verification/Services.v ===== *)
(** * The provider as a service of the system (cli/internal/platform/windows/service.go, darwin/lifecycle.go, cli/cmd/myference/platform_windows.go, platform_darwin.go)

    [myference service]: a scheduled task of Windows, or an agent of launchd
    described by a property list.  Every file operation and every command is an
    effect (Effects.v) on the files and the commands run so far: it may fail,
    and the process may die before it.  The second half shows that installing
    never leaves a torn property list, and that launchd reads in it the paths
    that were meant, except for what XML has no character for. *)

From S2P Require Import Prelude GoStrings Wire Messages Flags Effects Disk ClientConfig Backends ProviderOps Host.
From Stdlib Require Import Ascii.
From stdpp Require Import gmap strings.
Open Scope string_scope.
Open Scope list_scope.
Open Scope Z_scope.

(** The files, and the commands that ran. *)
Record System := mkSystem { sy_Disk : Disk; sy_Commands : list (list string) }.
Definition on_files {A} (m : Eff Disk A) : Eff System A := fun fates s =>
  let '(fates, d, outcome) := m fates (sy_Disk s) in (fates, mkSystem d (sy_Commands s), outcome).
Definition run (command : list string) : Eff System unit :=
  effect (fun s => (mkSystem (sy_Disk s) (sy_Commands s ++ [command]), Ok tt)).
(** [os.Remove] *)
Definition remove_file (path : string) : Eff Disk unit :=
  effect (fun d => match dk_Files d !! path with None => (d, Err ErrNotExist) | Some _ => (set_files (delete path) d, Ok tt) end).
(** [defer os.Remove(path)] *)
Definition finally_remove {A} (path : string) (m : Eff System A) : Eff System A :=
  r ← try m; _ ← try (on_files (remove_file path)); of_result r.

(** ** Windows *)
Record Service := mkService { sv_Executable : string; sv_ConfigPath : string; sv_Installer : string }.
Section Windows.
(** [filepath.Dir] and [filepath.Join] of Windows; whether [os.Stat] succeeds. *)
Context (dir : string -> string) (join : list string -> string) (stat : string -> bool).
Definition DiscoverService (executable : result string) (configPath : string) : result Service :=
  executable ← executable;
  let candidates := [ join [dir executable; "packaging"; "windows"; "install.ps1"]; join [dir executable; "install-windows.ps1"];
                      join [dir executable; "install.ps1"] ] in
  installer ← of_option (List.find stat candidates) (ErrNew "Windows service installer not found beside the CLI");
  Ok (mkService executable configPath installer).

Definition powerShell (args : list string) : Eff System unit := run (["powershell.exe"; "-NoProfile"; "-ExecutionPolicy"; "Bypass"] ++ args).
Definition service_install (s : Service) : Eff System unit :=
  powerShell ["-File"; sv_Installer s; "-Executable"; sv_Executable s; "-Config"; sv_ConfigPath s].
Definition service_uninstall (s : Service) : Eff System unit :=
  powerShell ["-File"; sv_Installer s; "-Executable"; sv_Executable s; "-Config"; sv_ConfigPath s; "-Remove"].
Definition service_start (s : Service) : Eff System unit :=
  _ ← try (on_files (remove_file (sv_ConfigPath s +:+ ".stop")));
  powerShell ["-Command"; "Start-ScheduledTask -TaskName 'Myference Provider'"].
Definition service_stop (s : Service) : Eff System unit :=
  _ ← on_files (write_file (sv_ConfigPath s +:+ ".stop") ("stop" +:+ String (of_byte 10) ""));
  powerShell ["-Command"; "$deadline=(Get-Date).AddSeconds(35); while((Get-ScheduledTask -TaskName 'Myference Provider').State -eq 'Running' -and (Get-Date) -lt $deadline){Start-Sleep -Milliseconds 500}; if((Get-ScheduledTask -TaskName 'Myference Provider').State -eq 'Running'){Stop-ScheduledTask -TaskName 'Myference Provider'}"].
Definition service_status (s : Service) : Eff System unit :=
  powerShell ["-Command"; "Get-ScheduledTask -TaskName 'Myference Provider' | Format-List TaskName,State"].
End Windows.

(** ** launchd *)
Definition serviceLabel : string := "com.myference.provider".
Record Lifecycle := mkLifecycle { lc_Executable : string; lc_ConfigPath : string; lc_PlistPath : string; lc_LogPath : string }.
Definition New (executable configPath plistPath logPath : string) : result Lifecycle :=
  if forallb (fun path => HasPrefix path "/") [executable; configPath; plistPath; logPath]
  then Ok (mkLifecycle executable configPath plistPath logPath) else Err (ErrNew "launchd lifecycle paths must be absolute").

(** [xml.EscapeText], rune by rune; what XML has no character for is U+FFFD. *)
Definition xml_character (rune : string) : bool :=
  match rune with
  | String c "" => 32 <=? byte_of c
  | _ => negb (String.eqb rune (str [239; 191; 190]) || String.eqb rune (str [239; 191; 191]))
  end.
Definition entities : list (string * string) :=
  [ (str [34], "#34"); (str [39], "#39"); (str [38], "amp"); (str [60], "lt"); (str [62], "gt"); (str [9], "#x9"); (str [10], "#xA"); (str [13], "#xD") ].
Definition escape_rune (rune : string) : string :=
  match List.find (fun e => String.eqb (fst e) rune) entities with
  | Some (_, name) => String "&" (name +:+ ";")
  | None => if xml_character rune then rune else replacement
  end.
Definition escape (value : string) : string := GoStrings.Join (map escape_rune (runes value)) "".

Section Darwin.
Context (uid : Z).
Definition line : string := String (of_byte 10) "".
Definition quoted (s : string) : string := str [34] +:+ s +:+ str [34].
Definition plist (l : Lifecycle) : string :=
  "<?xml version=" +:+ quoted "1.0" +:+ " encoding=" +:+ quoted "UTF-8" +:+ "?>" +:+ line
  +:+ "<!DOCTYPE plist PUBLIC " +:+ quoted "-//Apple//DTD PLIST 1.0//EN" +:+ " " +:+ quoted "http://www.apple.com/DTDs/PropertyList-1.0.dtd" +:+ ">" +:+ line
  +:+ "<plist version=" +:+ quoted "1.0" +:+ "><dict>" +:+ line
  +:+ "<key>Label</key><string>" +:+ serviceLabel +:+ "</string>" +:+ line
  +:+ "<key>ProgramArguments</key><array><string>" +:+ escape (lc_Executable l)
  +:+ "</string><string>serve</string><string>--config</string><string>" +:+ escape (lc_ConfigPath l) +:+ "</string></array>" +:+ line
  +:+ "<key>KeepAlive</key><true/><key>RunAtLoad</key><true/><key>ProcessType</key><string>Background</string>" +:+ line
  +:+ "<key>StandardOutPath</key><string>" +:+ escape (lc_LogPath l) +:+ "</string><key>StandardErrorPath</key><string>" +:+ escape (lc_LogPath l)
  +:+ "</string>" +:+ line +:+ "</dict></plist>" +:+ line.
Definition domain : string := "gui/" +:+ FormatUint uid.
Definition service : string := domain +:+ "/" +:+ serviceLabel.

(** [Chmod], [Sync] and [Close] can fail, and change no content. *)
Definition Install (temporary : string) (l : Lifecycle) : Eff System unit :=
  _ ← on_files (mkdir_all (path_Dir (lc_PlistPath l)));
  _ ← on_files (create_file temporary);
  finally_remove temporary
    (_ ← on_files (store temporary (plist l));
     _ ← on_files sync;
     _ ← on_files sync;
     _ ← on_files sync;
     _ ← run ["plutil"; "-lint"; temporary];
     _ ← try (run ["launchctl"; "bootout"; domain; lc_PlistPath l]);
     _ ← on_files (rename temporary (lc_PlistPath l));
     run ["launchctl"; "bootstrap"; domain; lc_PlistPath l]).
Definition Start (l : Lifecycle) : Eff System unit :=
  _ ← try (run ["launchctl"; "bootstrap"; domain; lc_PlistPath l]); run ["launchctl"; "kickstart"; "-k"; service].
Definition Stop (l : Lifecycle) : Eff System unit := run ["launchctl"; "bootout"; domain; lc_PlistPath l].
Definition Status : Eff System unit := run ["launchctl"; "print"; service].
Definition Uninstall (l : Lifecycle) : Eff System unit :=
  _ ← try (run ["launchctl"; "bootout"; domain; lc_PlistPath l]);
  r ← try (on_files (remove_file (lc_PlistPath l)));
  match r with Err ErrNotExist => mret tt | other => of_result other end.
End Darwin.

(** ** The command *)
Inductive ServiceAction := InstallAction | StartAction | StopAction | StatusAction | UninstallAction.
Definition service_action (name : string) : result ServiceAction :=
  if String.eqb name "install" then Ok InstallAction else if String.eqb name "start" then Ok StartAction
  else if String.eqb name "stop" then Ok StopAction else if String.eqb name "status" then Ok StatusAction
  else if String.eqb name "uninstall" then Ok UninstallAction else Err (ErrNew "unknown service action").
(** The name of the action and the path of the configuration. *)
Definition service_arguments (defaultConfigPath command : string) (args : list string) : result (string * string) :=
  match args with
  | action :: rest =>
      if negb (String.eqb command "service") then Err (ErrNew "usage: myference service <install|start|stop|status|uninstall> [--config path]")
      else set ← ParseFlags [("config", StringFlag)] rest; Ok (action, string_flag "config" defaultConfigPath set)
  | [] => Err (ErrNew "usage: myference service <install|start|stop|status|uninstall> [--config path]")
  end.
Definition windows_command (dir : string -> string) (join : list string -> string) (stat : string -> bool) (executable : result string)
    (defaultConfigPath command : string) (args : list string) : Eff System unit :=
  '(name, path) ← of_result (service_arguments defaultConfigPath command args);
  service ← of_result (DiscoverService dir join stat executable path);
  action ← of_result (service_action name);
  match action with
  | InstallAction => service_install service
  | StartAction => service_start service
  | StopAction => service_stop service
  | StatusAction => service_status service
  | UninstallAction => service_uninstall service
  end.
Definition darwin_command (uid : Z) (temporary : string) (executable home : result string) (defaultConfigPath command : string)
    (args : list string) : Eff System unit :=
  '(name, path) ← of_result (service_arguments defaultConfigPath command args);
  executable ← of_result executable;
  home ← of_result home;
  let logPath := path_Clean (home +:+ "/Library/Logs/Myference/provider.log") in
  _ ← on_files (mkdir_all (path_Dir logPath));
  l ← of_result (New executable path (path_Clean (home +:+ "/Library/LaunchAgents/com.myference.provider.plist")) logPath);
  action ← of_result (service_action name);
  match action with
  | InstallAction => Install uid temporary l
  | StartAction => Start uid l
  | StopAction => Stop uid l
  | StatusAction => Status uid
  | UninstallAction => Uninstall uid l
  end.

(** ** The property list is read back *)
(** The texts of the [<string>] elements of a document, with their entities
    replaced: each starts after [<string>] and ends at the next [<]. *)
Definition entity (name : string) : string :=
  match List.find (fun e => String.eqb (snd e) name) entities with Some (text, _) => text | None => "" end.
Definition unescape_part (part : string) : string :=
  match CutByte part ";" with Some (name, rest) => entity name +:+ rest | None => part end.
Definition unescape (s : string) : string :=
  match SplitByte s "&" with
  | first :: parts => first +:+ GoStrings.Join (map unescape_part parts) ""
  | [] => ""
  end.
Definition element_text (part : string) : option string :=
  if HasPrefix part "string>" then Some (unescape (TrimPrefix part "string>")) else None.
Definition plist_strings (text : string) : list string := omap element_text (SplitByte text "<").

(** The characters that XML has; another is lost, and U+FFFD stands in its place. *)
Definition in_xml (rune : string) : bool := xml_character rune || contains (map fst entities) rune.
Definition readable (s : string) : string := GoStrings.Join (map (fun rune => if in_xml rune then rune else replacement) (runes s)) "".
(** A text of characters that XML has. *)
Definition xml_text (s : string) : Prop := utf8 s /\ Forall (fun rune => in_xml rune = true) (runes s).

Lemma split_runes_join : forall s, GoStrings.Join (split_runes s) "" = s.
Proof.
  assert (forall (r : string) l, GoStrings.Join (r :: l) "" = r +:+ GoStrings.Join l "") as J.
  { intros r [|x l]; cbn; [by rewrite app_string_nil_r|done]. }
  fix IH 1. intros [|a s]; [done|]. cbn [split_runes]. destruct (byte_of a <? 128); [rewrite J, IH; done|].
  destruct s as [|b s]; [done|]. destruct (byte_of a <? 224); [rewrite J, IH; done|].
  destruct s as [|c s]; [done|]. destruct (byte_of a <? 240); [rewrite J, IH; done|].
  destruct s as [|d s]; [done|]. rewrite J, IH. done.
Qed.

(** A character is one byte below 128, or all its bytes are at least 128. *)
Definition rune_bytes (rune : string) : Prop :=
  (exists c, rune = String c "") \/ (rune <> "" /\ forall c, byte_of c < 128 -> ContainsByte rune c = false).
Lemma high_bytes bytes : bytes <> [] -> Forall (fun c => 128 <= byte_of c) bytes -> rune_bytes (fold_right String "" bytes).
Proof.
  intros Hne H. right. split; [by destruct bytes|]. intros c Hc. induction H as [|x l Hx H IH]; [done|]. cbn. destruct (Ascii.eqb_spec c x) as [->|_]; [lia|].
  destruct l as [|y l]; [done|by apply IH].
Qed.
Lemma runes_bytes : forall s, Forall rune_bytes (split_runes (coerce_utf8 s)).
Proof.
  assert (forall s, Forall rune_bytes (split_runes s) -> Forall rune_bytes (split_runes (replacement +:+ s))) as R.
  { intros s H. change (replacement +:+ s) with (String (of_byte 239) (String (of_byte 191) (String (of_byte 189) s))). cbn [split_runes].
    replace (byte_of (of_byte 239) <? 128) with false by done. replace (byte_of (of_byte 239) <? 224) with false by done.
    replace (byte_of (of_byte 239) <? 240) with true by done. constructor; [|done].
    by apply (high_bytes [of_byte 239; of_byte 191; of_byte 189]); [|repeat constructor]. }
  enough (forall n s, (String.length s <= n)%nat -> Forall rune_bytes (split_runes (coerce_utf8 s))) as H by (intros s; by apply (H (String.length s))).
  induction n as [|n IH]; intros [|a s] Hn; cbn [String.length] in Hn; [constructor|lia|constructor|]. cbn [coerce_utf8]. destruct (byte_of a <? 128) eqn:Ea.
  { cbn [split_runes]. rewrite Ea. constructor; [left; by exists a|apply IH; cbn [String.length] in *; lia]. }
  destruct s as [|b s]; [apply R, IH; cbn [String.length] in *; lia|].
  destruct (in_range 194 223 a && in_range 128 191 b) eqn:E2.
  { unfold in_range in E2. rewrite !andb_true_iff, !Z.leb_le in E2. cbn [split_runes]. rewrite Ea. replace (byte_of a <? 224) with true by lia. constructor; [|apply IH; cbn [String.length] in *; lia].
    apply (high_bytes [a; b]); [done|]. repeat constructor; lia. }
  destruct s as [|c s]; [apply R, IH; cbn [String.length] in *; lia|].
  destruct (second_of_three a b && in_range 128 191 c) eqn:E3.
  { unfold second_of_three, in_range in E3. assert (224 <= byte_of a <= 239 /\ 128 <= byte_of b /\ 128 <= byte_of c) as (Ha & Hb & Hc).
    { clear -E3. rewrite !andb_true_iff, !orb_true_iff, !andb_true_iff, !orb_true_iff, !andb_true_iff, !Z.leb_le, !Z.eqb_eq in E3. lia. }
    cbn [split_runes]. rewrite Ea. replace (byte_of a <? 224) with false by lia. replace (byte_of a <? 240) with true by lia. constructor; [|apply IH; cbn [String.length] in *; lia].
    apply (high_bytes [a; b; c]); [done|]. repeat constructor; lia. }
  destruct s as [|d s]; [apply R, IH; cbn [String.length] in *; lia|].
  destruct (second_of_four a b && in_range 128 191 c && in_range 128 191 d) eqn:E4; [|apply R, IH; cbn [String.length] in *; lia].
  unfold second_of_four, in_range in E4. assert (240 <= byte_of a /\ 128 <= byte_of b /\ 128 <= byte_of c /\ 128 <= byte_of d) as (Ha & Hb & Hc & Hd).
  { clear -E4. rewrite !andb_true_iff, !orb_true_iff, !andb_true_iff, !Z.leb_le, !Z.eqb_eq in E4. lia. }
  cbn [split_runes]. rewrite Ea. replace (byte_of a <? 224) with false by lia. replace (byte_of a <? 240) with false by lia. constructor; [|apply IH; cbn [String.length] in *; lia].
  apply (high_bytes [a; b; c; d]); [done|]. repeat constructor; lia.
Qed.

(** ** Entities *)
Lemma Join_empty_cons r l : GoStrings.Join (r :: l) "" = r +:+ GoStrings.Join l "".
Proof. destruct l as [|x l]; cbn; [by rewrite app_string_nil_r|done]. Qed.
Lemma SplitByte_plain plain rest sep first parts : ContainsByte plain sep = false -> SplitByte rest sep = first :: parts ->
  SplitByte (plain +:+ rest) sep = (plain +:+ first) :: parts.
Proof.
  induction plain as [|c plain IH]; intros H E; [done|]. cbn [ContainsByte] in H. apply orb_false_iff in H as [Hc Hp]. rewrite !app_string_cons. cbn [SplitByte].
  rewrite Ascii.eqb_sym in Hc. rewrite Hc, IH by done. done.
Qed.
Lemma unescape_plain plain rest : ContainsByte plain "&" = false -> unescape (plain +:+ rest) = plain +:+ unescape rest.
Proof.
  intros H. unfold unescape. destruct (SplitByte_no_sep rest "&") as [Hne _]. destruct (SplitByte rest "&") as [|first parts] eqn:E; [done|].
  rewrite (SplitByte_plain _ _ _ _ _ H E). by rewrite app_string_assoc.
Qed.
Lemma unescape_entity text name rest : (text, name) ∈ entities -> unescape (String "&" (name +:+ ";") +:+ rest) = text +:+ unescape rest.
Proof.
  intros H. assert (ContainsByte name "&" = false /\ ContainsByte name ";" = false /\ entity name = text) as (H1 & H2 & H3).
  { unfold entities in H. repeat (apply elem_of_cons in H as [[= -> ->]|H]; [done|]). by apply elem_of_nil in H. }
  unfold unescape. rewrite app_string_cons. cbn [SplitByte]. rewrite Ascii.eqb_refl. destruct (SplitByte_no_sep rest "&") as [Hne _].
  destruct (SplitByte rest "&") as [|first parts] eqn:E; [done|]. rewrite app_string_assoc.
  rewrite (SplitByte_plain name (";" +:+ rest) "&" (";" +:+ first) parts); [|done|by apply (SplitByte_plain ";")].
  cbn [map]. rewrite app_string_nil_l, Join_empty_cons. unfold unescape_part at 1. change (";" +:+ first) with (String ";" first). rewrite CutByte_app by done.
  rewrite H3. by rewrite app_string_assoc.
Qed.

Lemma rune_escaped rune rest : rune_bytes rune ->
  unescape (escape_rune rune +:+ rest) = (if in_xml rune then rune else replacement) +:+ unescape rest
  /\ ContainsByte (escape_rune rune) "<" = false.
Proof.
  intros Hb. unfold escape_rune, in_xml. destruct (List.find _ entities) as [[text name]|] eqn:E.
  - apply List.find_some in E as [Hin <-%String.eqb_eq]. cbn [fst]. apply list_elem_of_In in Hin.
    assert (contains (map fst entities) text = true) as -> by (apply contains_spec, list_elem_of_fmap; by exists (text, name)). rewrite orb_true_r.
    split; [by apply unescape_entity|]. unfold entities in Hin. repeat (apply elem_of_cons in Hin as [[= -> ->]|Hin]; [done|]). by apply elem_of_nil in Hin.
  - assert (contains (map fst entities) rune = false) as Hn.
    { apply not_true_iff_false. intros (e & -> & He)%contains_spec%list_elem_of_fmap. apply list_elem_of_In in He. apply (List.find_none _ _ E) in He.
      by rewrite String.eqb_refl in He. }
    rewrite Hn, orb_false_r. destruct (xml_character rune); [|split; [by apply unescape_plain|done]].
    assert (ContainsByte rune "&" = false /\ ContainsByte rune "<" = false) as [H1 H2]; [|split; [by apply unescape_plain|done]].
    destruct Hb as [[c ->]|[_ Hb]]; [|split; by apply Hb]. cbn [ContainsByte]. rewrite !orb_false_r.
    split; [destruct (Ascii.eqb_spec "&" c) as [<-|]|destruct (Ascii.eqb_spec "<" c) as [<-|]]; done.
Qed.
(** Escaping is undone by the reader as far as XML has the characters, and no tag
    can start in an escaped text. *)
Lemma unescape_escape s : unescape (escape s) = readable s /\ ContainsByte (escape s) "<" = false.
Proof.
  unfold escape, readable, runes. pose proof (runes_bytes s) as Hb.
  induction Hb as [|r l Hr Hl [IH1 IH2]]; [done|]. cbn [map]. rewrite !Join_empty_cons.
  destruct (rune_escaped r (GoStrings.Join (map escape_rune l) "") Hr) as [-> H2]. by rewrite IH1, ContainsByte_app, H2, IH2.
Qed.
Lemma readable_text s : xml_text s -> readable s = s.
Proof.
  intros [Hu Hx]. apply String.eqb_eq in Hu. unfold readable, runes in *. rewrite Hu in *. rewrite <- (split_runes_join s) at 2.
  f_equal. induction Hx as [|r l Hr Hl IH]; [done|]. cbn [map]. by rewrite Hr, IH.
Qed.

(** ** The strings of the list *)
Lemma TrimPrefix_app_same p t : TrimPrefix (p +:+ t) p = t.
Proof. unfold TrimPrefix. rewrite HasPrefix_app. induction p as [|c p IH]; [done|]. exact IH. Qed.
Lemma tag_text s : element_text ("string>" +:+ escape s) = Some (readable s).
Proof. unfold element_text. rewrite HasPrefix_app. rewrite TrimPrefix_app_same. by destruct (unescape_escape s) as [-> _]. Qed.
Lemma SplitByte_last P X sep init last first parts : SplitByte P sep = init ++ [last] -> SplitByte X sep = first :: parts ->
  SplitByte (P +:+ X) sep = init ++ (last +:+ first) :: parts.
Proof.
  revert init last. induction P as [|c P IH]; intros init last HP HX.
  - cbn [SplitByte] in HP. destruct init as [|x init]; [injection HP as <-; by rewrite !app_string_nil_l|]. injection HP as _ HP. by destruct init.
  - rewrite app_string_cons. cbn [SplitByte] in *. destruct (Ascii.eqb c sep).
    + destruct init as [|x init].
      { injection HP as _ HP. by destruct (SplitByte_no_sep P sep) as [Hne _]. }
      injection HP as <- HP. by rewrite (IH init last HP HX).
    + destruct (SplitByte_no_sep P sep) as [Hne _]. destruct (SplitByte P sep) as [|part rest] eqn:E; [done|].
      destruct init as [|x init]; injection HP as HP1 HP2; subst.
      * by rewrite (IH [] part eq_refl HX), app_string_cons.
      * by rewrite (IH (part :: init) last eq_refl HX).
Qed.
Lemma plist_strings_piece P s X init : SplitByte P "<" = init ++ ["string>"] ->
  plist_strings (P +:+ escape s +:+ String "<" X) = omap element_text init ++ readable s :: plist_strings X.
Proof.
  intros HP. destruct (unescape_escape s) as [_ Hp]. unfold plist_strings.
  rewrite (SplitByte_last P _ "<" init "string>" (escape s) (SplitByte X "<")) by (done || by apply SplitByte_app). rewrite omap_app. f_equal.
  change (omap element_text (?x :: ?l)) with (match element_text x with Some y => y :: omap element_text l | None => omap element_text l end).
  by rewrite tag_text.
Qed.
(** The fixed parts of the list, around the three paths. *)
Definition plist_head : string :=
  "<?xml version=" +:+ quoted "1.0" +:+ " encoding=" +:+ quoted "UTF-8" +:+ "?>" +:+ line
  +:+ "<!DOCTYPE plist PUBLIC " +:+ quoted "-//Apple//DTD PLIST 1.0//EN" +:+ " " +:+ quoted "http://www.apple.com/DTDs/PropertyList-1.0.dtd" +:+ ">" +:+ line
  +:+ "<plist version=" +:+ quoted "1.0" +:+ "><dict>" +:+ line
  +:+ "<key>Label</key><string>" +:+ serviceLabel +:+ "</string>" +:+ line +:+ "<key>ProgramArguments</key><array><string>".
Definition plist_arguments : string := "/string><string>serve</string><string>--config</string><string>".
Definition plist_output : string :=
  "/string></array>" +:+ line
  +:+ "<key>KeepAlive</key><true/><key>RunAtLoad</key><true/><key>ProcessType</key><string>Background</string>" +:+ line
  +:+ "<key>StandardOutPath</key><string>".
Definition plist_error : string := "/string><key>StandardErrorPath</key><string>".
Definition plist_end : string := "/string>" +:+ line +:+ "</dict></plist>" +:+ line.
Lemma plist_parts l : plist l
  = plist_head +:+ escape (lc_Executable l) +:+ String "<" (plist_arguments +:+ escape (lc_ConfigPath l) +:+ String "<" (plist_output
      +:+ escape (lc_LogPath l) +:+ String "<" (plist_error +:+ escape (lc_LogPath l) +:+ String "<" plist_end))).
Proof. reflexivity. Qed.

(** The strings of the list are those that were meant, in their places. *)
Lemma plist_strings_spec l : plist_strings (plist l)
  = [serviceLabel; readable (lc_Executable l); "serve"; "--config"; readable (lc_ConfigPath l); "Background";
     readable (lc_LogPath l); readable (lc_LogPath l)].
Proof.
  rewrite plist_parts.
  rewrite (plist_strings_piece plist_head _ _ (removelast (SplitByte plist_head "<"))) by by vm_compute.
  rewrite (plist_strings_piece plist_arguments _ _ (removelast (SplitByte plist_arguments "<"))) by by vm_compute.
  rewrite (plist_strings_piece plist_output _ _ (removelast (SplitByte plist_output "<"))) by by vm_compute.
  rewrite (plist_strings_piece plist_error _ _ (removelast (SplitByte plist_error "<"))) by by vm_compute.
  reflexivity.
Qed.

(** ** Installing *)
Lemma triple_on_files {A} (P : System -> Prop) (m : Eff Disk A) Q E C :
  (forall commands, triple (fun d => P (mkSystem d commands)) m (fun a d => Q a (mkSystem d commands)) (fun e d => E e (mkSystem d commands))
     (fun d => C (mkSystem d commands))) -> triple P (on_files m) Q E C.
Proof.
  intros H fates [d commands] Hs. specialize (H commands fates d Hs). unfold on_files. cbn [sy_Disk sy_Commands].
  by destruct (m fates d) as [[fates' d'] [a|e|]].
Qed.
Lemma triple_run (P : System -> Prop) command (Q : unit -> System -> Prop) (E : error -> System -> Prop) (C : System -> Prop) :
  (forall s, P s -> Q tt (mkSystem (sy_Disk s) (sy_Commands s ++ [command]))) -> (forall s e, P s -> E e s) -> (forall s, P s -> C s) ->
  triple P (run command) Q E C.
Proof. intros HQ HE HC. by apply triple_effect. Qed.

Section Install.
Context (uid : Z) (temporary : string) (l : Lifecycle) (before : System) (apart : lc_PlistPath l <> temporary).
Definition file_at (path : string) (s : System) : option string := dk_Files (sy_Disk s) !! path.
(** What launchd reads for a path: the path when XML has its characters, and
    otherwise the path with U+FFFD for those it has not. *)
Definition read_as (path read : string) : Prop := (xml_text path -> read = path) /\ read = readable path.
(** launchd reads the service that was meant, and the list was checked. *)
Definition installed (s : System) : Prop :=
  (exists text executable config log, file_at (lc_PlistPath l) s = Some text
     /\ plist_strings text = [serviceLabel; executable; "serve"; "--config"; config; "Background"; log; log]
     /\ read_as (lc_Executable l) executable /\ read_as (lc_ConfigPath l) config /\ read_as (lc_LogPath l) log)
  /\ ["plutil"; "-lint"; temporary] ∈ sy_Commands s.
Definition untouched (s : System) : Prop := file_at (lc_PlistPath l) s = file_at (lc_PlistPath l) before.
Definition loaded (s : System) : Prop := last (sy_Commands s) = Some ["launchctl"; "bootstrap"; domain uid; lc_PlistPath l].
Let either (s : System) : Prop := untouched s \/ installed s.
Let stored (s : System) : Prop := untouched s /\ file_at temporary s = Some (plist l).

Lemma sync_keeps (P : System -> Prop) : (forall s, P s -> either s) -> triple P (on_files sync) (fun _ => P) (fun _ => either) either.
Proof. intros HP. apply triple_on_files. intros commands. by apply triple_effect; [|intros d e Hd; by apply HP|intros d Hd; by apply HP]. Qed.
Lemma removing (P : System -> Prop) : (forall s files, P s -> files !! lc_PlistPath l = file_at (lc_PlistPath l) s -> P (mkSystem (mkDisk (dk_Directories (sy_Disk s)) files) (sy_Commands s))) ->
  (forall s, P s -> either s) -> triple P (try (on_files (remove_file temporary))) (fun _ => P) (fun _ => either) either.
Proof.
  intros HP Hei. apply triple_try, triple_on_files. intros commands. apply triple_effect; [|done|by intros d Hd; apply Hei].
  intros d Hd. destruct (dk_Files d !! temporary) eqn:E; [|done]. apply (HP _ (delete temporary (dk_Files d)) Hd). by rewrite lookup_delete_ne.
Qed.

Lemma write_and_load : triple untouched
  (_ ← on_files (store temporary (plist l)); _ ← on_files sync; _ ← on_files sync; _ ← on_files sync; _ ← run ["plutil"; "-lint"; temporary];
   _ ← try (run ["launchctl"; "bootout"; domain uid; lc_PlistPath l]); _ ← on_files (rename temporary (lc_PlistPath l));
   run ["launchctl"; "bootstrap"; domain uid; lc_PlistPath l])
  (fun _ s => installed s /\ loaded s) (fun _ => either) either.
Proof.
  assert (forall s, stored s -> either s) as Hs by (intros s [Hu _]; by left).
  eapply (triple_bind _ _ _ (fun _ => stored)).
  { apply triple_on_files. intros commands. apply triple_effect; [|by left|by left]. intros d Hd. split; [|apply lookup_insert_eq].
    unfold untouched, file_at in *. cbn in *. by rewrite lookup_insert_ne. }
  intros []. do 3 (eapply triple_bind; [by apply sync_keeps|intros []]).
  eapply (triple_bind _ _ _ (fun _ s => stored s /\ ["plutil"; "-lint"; temporary] ∈ sy_Commands s)).
  { apply triple_run; [|by intros s e Hst; apply Hs|by intros s Hst; apply Hs]. intros s Hst. split; [done|]. cbn. apply elem_of_app. right. by left. }
  intros []. eapply (triple_bind _ _ _ (fun _ s => stored s /\ ["plutil"; "-lint"; temporary] ∈ sy_Commands s)).
  { apply triple_try, triple_run; [|done|by intros s [Hst _]; apply Hs]. intros s [Hst Hl]. split; [done|]. cbn. apply elem_of_app. by left. }
  intros r. eapply (triple_bind _ _ _ (fun _ => installed)).
  { apply triple_on_files. intros commands. apply triple_effect; [|by intros d e [Hst _]; apply Hs|by intros d [Hst _]; apply Hs].
    intros d [[Hu Ht] Hl]. unfold file_at in Ht. cbn in Ht. rewrite Ht. split; [|done]. exists (plist l), (readable (lc_Executable l)), (readable (lc_ConfigPath l)), (readable (lc_LogPath l)).
    split_and!; [apply lookup_insert_eq|apply plist_strings_spec|split; [apply readable_text|done]..]. }
  intros []. apply triple_run; [|by right|by right]. intros s [Hr Hl]. split; [|by apply last_snoc]. split; [done|]. cbn. apply elem_of_app. by left.
Qed.

End Install.

(** ** A concrete machine *)
Module ServiceRun.
Definition lifecycle : Lifecycle :=
  mkLifecycle "/Applications/R&D <beta>/myference" "/Users/o'brien/config.json" "/Users/u/Library/LaunchAgents/com.myference.provider.plist" "/Users/u/provider.log".
Definition temporary : string := "/Users/u/Library/LaunchAgents/.myference-launchd-1".
Definition before : System := mkSystem (mkDisk ∅ {[lc_PlistPath lifecycle := "old"]}) [].
Definition after (fates : list Fate) : System := snd (fst (Install 501 temporary lifecycle fates before)).

(** A path with a control byte is installed without an error, and launchd runs
    another path. *)
Definition control : Lifecycle :=
  mkLifecycle ("/opt/a" +:+ String (of_byte 1) "" +:+ "b") "/Users/u/config.json" "/Users/u/Library/LaunchAgents/com.myference.provider.plist" "/Users/u/provider.log".
Lemma control_byte_misread :
  match Install 501 temporary control [] before with
  | (_, s, Done _) => match plist_strings <$> file_at (lc_PlistPath control) s with
                      | Some (_ :: executable :: _) => executable = "/opt/a" +:+ replacement +:+ "b" /\ executable <> lc_Executable control
                      | _ => False end
  | _ => False
  end.
Proof. vm_compute. split; [reflexivity|discriminate]. Qed.
End ServiceRun.
