(* ===== verification/LocalState.v ===== *)
(** * What the CLI keeps on its machine

    The credential stores (cli/internal/credential: store_windows.go,
    store_darwin.go, store_unsupported.go) behind one interface, and the status
    file of a provider (cli/internal/provider/status.go) as effects on a disk
    (Disk.v).  The Windows credential manager, the [security] command of macOS
    and the text of a JSON value are parameters; a wide string is represented by
    the UTF-8 text it encodes. *)

From S2P Require Import Prelude GoStrings GoTime Wire Receipt Messages Proposals Effects Disk Daemon ProviderOps.
From Stdlib Require Import Ascii.
From stdpp Require Import gmap strings.
Open Scope string_scope.
Open Scope list_scope.
Open Scope Z_scope.

(** ** Credential keys *)
Definition ErrInvalidCredentialKey : error := ErrNew "credential service, account, and secret are required".
Definition ErrUnsupportedPlatform : error := ErrNew "secure credential storage is supported on Windows and macOS only".
Definition invalid (service account : string) : bool :=
  String.eqb service "" || String.eqb account "" || ContainsByte service zero || ContainsByte account zero.

(** ** The interface

    What the commands use of a credential store.  [key] is the entry a service
    and an account name; [secrets] the secrets by entry; [storable] the secrets
    that come back as they were. *)
Record CredentialStore {W : Type} := mkCredentialStore {
  vs_Save : string -> string -> string -> M (W := W) unit;
  vs_Load : string -> string -> M (W := W) string;
  vs_Delete : string -> string -> M (W := W) unit;
}.
Arguments CredentialStore : clear implicits.
Class StoreLaws {W K : Type} `{Countable K} (store : CredentialStore W) (key : string -> string -> K)
    (secrets : W -> gmap K string) (storable : string -> Prop) := {
  store_saves service account secret w : storable secret ->
    let '(w', r) := vs_Save store service account secret w in
    secrets w' = match r with Ok _ => <[key service account := secret]> (secrets w) | Err _ => secrets w end;
  store_loads service account w :
    let '(w', r) := vs_Load store service account w in
    secrets w' = secrets w /\ forall v, r = Ok v -> secrets w !! key service account = Some v;
  store_deletes service account w :
    let '(w', r) := vs_Delete store service account w in
    secrets w' = match r with Ok _ => delete (key service account) (secrets w) | Err _ => secrets w end;
}.

Section Interface.
Context {W K : Type} `{Countable K} (store : CredentialStore W) (key : string -> string -> K).
Context (secrets : W -> gmap K string) (storable : string -> Prop) {laws : StoreLaws store key secrets storable}.

Inductive StoreOp := SaveOp (service account secret : string) | LoadOp (service account : string) | DeleteOp (service account : string).
Definition store_op (op : StoreOp) (w : W) : W :=
  match op with
  | SaveOp service account secret => fst (vs_Save store service account secret w)
  | LoadOp service account => fst (vs_Load store service account w)
  | DeleteOp service account => fst (vs_Delete store service account w)
  end.
Definition store_ops (ops : list StoreOp) (w : W) : W := fold_left (fun w op => store_op op w) ops w.
(** The operation saves what can be saved, and does not change the entry [k]. *)
Definition apart (k : K) (op : StoreOp) : Prop :=
  match op with
  | SaveOp service account secret => key service account <> k /\ storable secret
  | LoadOp _ _ => True
  | DeleteOp service account => key service account <> k
  end.

Lemma store_op_apart k op w : apart k op -> secrets (store_op op w) !! k = secrets w !! k.
Proof.
  destruct op as [s a v|s a|s a]; cbn [apart store_op].
  - intros [Hk Hv]. pose proof (store_saves s a v w Hv) as L. destruct (vs_Save _ _ _ _ _) as [w' [u|e]]; cbn [fst]; rewrite L; [|done].
    by rewrite lookup_insert_ne.
  - intros _. pose proof (store_loads s a w) as L. destruct (vs_Load _ _ _ _) as [w' r]; cbn [fst]. by destruct L as [-> _].
  - intros Hk. pose proof (store_deletes s a w) as L. destruct (vs_Delete _ _ _ _) as [w' [u|e]]; cbn [fst]; rewrite L; [|done].
    by rewrite lookup_delete_ne.
Qed.
Lemma store_ops_apart k ops : forall w, Forall (apart k) ops -> secrets (store_ops ops w) !! k = secrets w !! k.
Proof.
  induction ops as [|op ops IH]; intros w Ho; [done|]. apply Forall_cons in Ho as [H1 H2].
  cbn. fold (store_ops ops (store_op op w)). rewrite IH by done. by apply store_op_apart.
Qed.

(** A secret that was saved is the one that is loaded, whatever is done to other
    entries in between, until it is deleted; then nothing is loaded. *)
Definition keeps_secrets : Prop := forall service account secret ops w w1 w2 r,
  storable secret -> vs_Save store service account secret w = (w1, Ok tt) -> Forall (apart (key service account)) ops ->
  vs_Load store service account (store_ops ops w1) = (w2, r) ->
  (forall v, r = Ok v -> v = secret)
  /\ forall w3 ops' w4 r', vs_Delete store service account w2 = (w3, Ok tt) -> Forall (apart (key service account)) ops' ->
       vs_Load store service account (store_ops ops' w3) = (w4, r') -> is_ok r' = false.
Lemma laws_keep_secrets : keeps_secrets.
Proof.
  intros service account secret ops w w1 w2 r Hs Hsave Hops Hload.
  pose proof (store_saves service account secret w Hs) as L1. rewrite Hsave in L1.
  pose proof (store_loads service account (store_ops ops w1)) as L2. rewrite Hload in L2. destruct L2 as [_ L2].
  split.
  - intros v Hv. specialize (L2 v Hv). rewrite store_ops_apart, L1, lookup_insert_eq in L2 by done. congruence.
  - intros w3 ops' w4 r' Hd Hops' Hload'. pose proof (store_deletes service account w2) as L3. rewrite Hd in L3.
    pose proof (store_loads service account (store_ops ops' w3)) as L4. rewrite Hload' in L4. destruct L4 as [_ L4].
    destruct r' as [v|e]; [|done]. specialize (L4 v eq_refl). by rewrite store_ops_apart, L3, lookup_delete_eq in L4.
Qed.
End Interface.

(** ** The Windows credential manager (store_windows.go) *)
Lemma substring_all s : String.substring 0 (String.length s) s = s.
Proof. induction s as [|c s IH]; cbn; [done|]. by rewrite IH. Qed.

Definition credTypeGeneric : Z := 1.
Definition credPersistLocalMachine : Z := 2.
(** The fields that are set; [None] is a nil pointer. *)
Record credential := mkCredential {
  cr_Type : Z; cr_TargetName : option string; cr_CredentialBlobSize : Z; cr_CredentialBlob : string; cr_Persist : Z;
  cr_UserName : option string;
}.
(** [syscall.UTF16PtrFromString]; the error is dropped. *)
Definition UTF16PtrFromString (s : string) : option string := if ContainsByte s zero then None else Some (coerce_utf8 s).
Definition cred_target (service account : string) : option string := UTF16PtrFromString (service +:+ ":" +:+ account).

Section Windows.
Context {W : Type} (credWriteW : credential -> M (W := W) unit) (credReadW : option string -> Z -> M (W := W) credential)
  (credDeleteW : option string -> Z -> M (W := W) unit).
Definition cred_Save (service account secret : string) : M (W := W) unit :=
  if invalid service account || String.eqb secret "" then throw ErrInvalidCredentialKey
  else credWriteW (mkCredential credTypeGeneric (cred_target service account) (go_len secret mod 2 ^ 32) secret credPersistLocalMachine
         (UTF16PtrFromString account)).
Definition cred_Load (service account : string) : M (W := W) string :=
  if invalid service account then throw ErrInvalidCredentialKey
  else fun w =>
    match credReadW (cred_target service account) credTypeGeneric w with
    | (w, Ok entry) => (w, Ok (String.substring 0 (Z.to_nat (cr_CredentialBlobSize entry)) (cr_CredentialBlob entry)))
    | (w, Err e) => (w, Err e)
    end.
Definition cred_Delete (service account : string) : M (W := W) unit :=
  if invalid service account then throw ErrInvalidCredentialKey
  else credDeleteW (cred_target service account) credTypeGeneric.
Definition cred_store : CredentialStore W := mkCredentialStore W cred_Save cred_Load cred_Delete.

(** The credential manager: generic credentials by the name of their target,
    under the form [folded] in which names are compared. *)
Class CredentialManager (folded : string -> string) (stored : W -> gmap string credential) := {
  manager_writes c name w : cr_Type c = credTypeGeneric -> cr_TargetName c = Some name ->
    let '(w', r) := credWriteW c w in
    stored w' = match r with Ok _ => <[folded name := c]> (stored w) | Err _ => stored w end;
  manager_reads name w :
    let '(w', r) := credReadW (Some name) credTypeGeneric w in
    stored w' = stored w /\ forall c, r = Ok c -> stored w !! folded name = Some c;
  manager_deletes name w :
    let '(w', r) := credDeleteW (Some name) credTypeGeneric w in
    stored w' = match r with Ok _ => delete (folded name) (stored w) | Err _ => stored w end;
}.
Context {folded : string -> string} {stored : W -> gmap string credential} {manager : CredentialManager folded stored}.

Definition cred_entry (service account : string) : string := folded (coerce_utf8 (service +:+ ":" +:+ account)).
Definition cred_content (c : credential) : string := String.substring 0 (Z.to_nat (cr_CredentialBlobSize c)) (cr_CredentialBlob c).
Definition cred_storable (secret : string) : Prop := go_len secret < 2 ^ 32.

Lemma content_saved secret t user : cred_storable secret ->
  cred_content (mkCredential credTypeGeneric t (go_len secret mod 2 ^ 32) secret credPersistLocalMachine user) = secret.
Proof.
  unfold cred_storable, cred_content, go_len. cbn [cr_CredentialBlobSize cr_CredentialBlob]. intros Hs.
  rewrite Z.mod_small by (split; [lia|done]). rewrite Nat2Z.id. apply substring_all.
Qed.
Lemma target_valid service account : invalid service account = false ->
  cred_target service account = Some (coerce_utf8 (service +:+ ":" +:+ account)).
Proof.
  unfold invalid, cred_target, UTF16PtrFromString. intros Hi. bools. rewrite !ContainsByte_app.
  destruct (ContainsByte service zero); [done|]. by destruct (ContainsByte account zero).
Qed.

#[export] Instance cred_store_laws : StoreLaws cred_store cred_entry (fun w => cred_content <$> stored w) cred_storable.
Proof.
  split; intros service account; cbn [cred_store vs_Save vs_Load vs_Delete].
  - intros secret w Hs. unfold cred_Save. destruct (_ || _) eqn:G; [done|]. bools.
    pose proof (manager_writes (mkCredential credTypeGeneric (cred_target service account) (go_len secret mod 2 ^ 32) secret
      credPersistLocalMachine (UTF16PtrFromString account)) _ w eq_refl (target_valid _ _ ltac:(done))) as L.
    destruct (credWriteW _ w) as [w' [u|e]]; rewrite L; [|done]. rewrite fmap_insert. by rewrite content_saved.
  - intros w. unfold cred_Load. destruct (invalid _ _) eqn:G; [done|]. rewrite target_valid by done.
    pose proof (manager_reads (coerce_utf8 (service +:+ ":" +:+ account)) w) as L.
    destruct (credReadW _ _ w) as [w' [c|e]]; destruct L as [-> L]; (split; [done|]); [|done].
    intros v [= <-]. unfold cred_entry. by rewrite lookup_fmap, (L c).
  - intros w. unfold cred_Delete. destruct (invalid _ _) eqn:G; [done|]. rewrite target_valid by done.
    pose proof (manager_deletes (coerce_utf8 (service +:+ ":" +:+ account)) w) as L.
    destruct (credDeleteW _ _ w) as [w' [u|e]]; rewrite L; [|done]. by rewrite fmap_delete.
Qed.
End Windows.

(** Entries of different services, which hold no colon, or of different
    accounts are different where names are compared as they are. *)
Lemma entries_distinct s1 a1 s2 a2 :
  ContainsByte s1 ":" = false -> ContainsByte s2 ":" = false -> utf8 (s1 +:+ ":" +:+ a1) -> utf8 (s2 +:+ ":" +:+ a2) ->
  cred_entry (folded := fun s => s) s1 a1 = cred_entry (folded := fun s => s) s2 a2 -> s1 = s2 /\ a1 = a2.
Proof.
  unfold cred_entry, utf8, valid_utf8. intros H1 H2 U1%String.eqb_eq U2%String.eqb_eq E. rewrite U1, U2 in E.
  assert (forall s a, ContainsByte s ":" = false -> CutByte (s +:+ ":" +:+ a) ":" = Some (s, a)) as Hc by (intros s a; apply CutByte_app).
  apply (f_equal (fun s => CutByte s ":")) in E. rewrite !Hc in E by done. by injection E.
Qed.

(** ** The keychain of macOS (store_darwin.go) *)
Section Darwin.
(** The runs of [security add-generic-password -U], [find-generic-password -w]
    and [delete-generic-password]. *)
Context {W : Type} (add : string -> string -> string -> M (W := W) unit) (find : string -> string -> M (W := W) string)
  (remove : string -> string -> M (W := W) unit).
Definition keychain_Save (service account secret : string) : M (W := W) unit :=
  if invalid service account || String.eqb secret "" then throw ErrInvalidCredentialKey else add service account secret.
Definition keychain_Load (service account : string) : M (W := W) string :=
  if invalid service account then throw ErrInvalidCredentialKey
  else fun w => let '(w, output) := find service account w in (w, TrimSpace <$> output).
Definition keychain_Delete (service account : string) : M (W := W) unit :=
  if invalid service account then throw ErrInvalidCredentialKey else remove service account.
Definition keychain_store : CredentialStore W := mkCredentialStore W keychain_Save keychain_Load keychain_Delete.

(** The keychain; [printed] is what [security] prints for a password. *)
Class Keychain (printed : string -> string) (stored : W -> gmap (string * string) string) := {
  keychain_adds service account secret w :
    let '(w', r) := add service account secret w in
    stored w' = match r with Ok _ => <[(service, account) := secret]> (stored w) | Err _ => stored w end;
  keychain_finds service account w :
    let '(w', r) := find service account w in
    stored w' = stored w /\ forall output, r = Ok output -> exists v, stored w !! (service, account) = Some v /\ output = printed v;
  keychain_removes service account w :
    let '(w', r) := remove service account w in
    stored w' = match r with Ok _ => delete (service, account) (stored w) | Err _ => stored w end;
}.
Context {printed : string -> string} {stored : W -> gmap (string * string) string} {keychain : Keychain printed stored}.
(** The blanks around a secret are lost. *)
Definition keychain_storable (secret : string) : Prop := TrimSpace (printed secret) = secret.
#[export] Instance keychain_store_laws :
  StoreLaws keychain_store pair (fun w => (fun v => TrimSpace (printed v)) <$> stored w) keychain_storable.
Proof.
  split; intros service account; cbn [keychain_store vs_Save vs_Load vs_Delete].
  - intros secret w Hs. unfold keychain_Save. destruct (_ || _); [done|]. pose proof (keychain_adds service account secret w) as L.
    destruct (add _ _ _ w) as [w' [u|e]]; rewrite L; [|done]. rewrite fmap_insert. by rewrite Hs.
  - intros w. unfold keychain_Load. destruct (invalid _ _); [done|]. pose proof (keychain_finds service account w) as L.
    destruct (find _ _ w) as [w' [o|e]]; destruct L as [-> L]; (split; [done|]); [|done].
    intros v [= <-]. destruct (L o eq_refl) as (u & Hu & ->). by rewrite lookup_fmap, Hu.
  - intros w. unfold keychain_Delete. destruct (invalid _ _); [done|]. pose proof (keychain_removes service account w) as L.
    destruct (remove _ _ w) as [w' [u|e]]; rewrite L; [|done]. by rewrite fmap_delete.
Qed.
End Darwin.

(** ** Other platforms (store_unsupported.go) *)
Section Unsupported.
Context {W : Type}.
Definition unsupported_Save (service account secret : string) : M (W := W) unit :=
  throw (if invalid service account || String.eqb secret "" then ErrInvalidCredentialKey else ErrUnsupportedPlatform).
Definition unsupported_Load (service account : string) : M (W := W) string :=
  throw (if invalid service account then ErrInvalidCredentialKey else ErrUnsupportedPlatform).
Definition unsupported_Delete (service account : string) : M (W := W) unit :=
  throw (if invalid service account then ErrInvalidCredentialKey else ErrUnsupportedPlatform).
Definition unsupported_store : CredentialStore W := mkCredentialStore W unsupported_Save unsupported_Load unsupported_Delete.
#[export] Instance unsupported_store_laws : StoreLaws unsupported_store pair (fun _ => ∅) (fun _ => True).
Proof. by split. Qed.
End Unsupported.

(** ** Both stores keep secrets *)
Section Kept.
Context {W1 W2 : Type} (credWriteW : credential -> M (W := W1) unit) (credReadW : option string -> Z -> M (W := W1) credential)
  (credDeleteW : option string -> Z -> M (W := W1) unit) (folded : string -> string) (credentials : W1 -> gmap string credential).
Context (add : string -> string -> string -> M (W := W2) unit) (find : string -> string -> M (W := W2) string)
  (remove : string -> string -> M (W := W2) unit) (printed : string -> string) (passwords : W2 -> gmap (string * string) string).

(** The credential stores give back what they were given: on Windows a secret
    shorter than 4 GiB, on macOS one without blanks around it, is loaded exactly
    as it was saved, whatever is saved, loaded and deleted under other entries
    in between, until it is deleted; after that nothing is loaded for it. *)
Theorem secrets_kept :
  CredentialManager credWriteW credReadW credDeleteW folded credentials -> Keychain add find remove printed passwords ->
  keeps_secrets (cred_store credWriteW credReadW credDeleteW) (cred_entry (folded := folded)) cred_storable
  /\ keeps_secrets (keychain_store add find remove) pair (keychain_storable (printed := printed)).
Proof.
  intros Hm Hk. split.
  - apply (laws_keep_secrets _ _ (fun w => cred_content <$> credentials w)), cred_store_laws; exact Hm.
  - apply (laws_keep_secrets _ _ (fun w => (fun v => TrimSpace (printed v)) <$> passwords w)), keychain_store_laws; exact Hk.
Qed.
End Kept.

(** ** The status file (status.go) *)
Definition zero_offer_status : OfferStatus := mkOfferStatus "" "" false "".
Definition offer_status_fields : list (string * setter OfferStatus) := [
    ("offerId", set_with as_string (fun v s => mkOfferStatus v (os_Model s) (os_Healthy s) (os_Error s)));
    ("model", set_with as_string (fun v s => mkOfferStatus (os_OfferID s) v (os_Healthy s) (os_Error s)));
    ("healthy", set_with as_bool (fun v s => mkOfferStatus (os_OfferID s) (os_Model s) v (os_Error s)));
    ("error", set_with as_string (fun v s => mkOfferStatus (os_OfferID s) (os_Model s) (os_Healthy s) v)) ].
Definition as_offers (v : json) : option (list OfferStatus) :=
  match v with JArr items => mapM (fun item => decode_struct offer_status_fields item zero_offer_status) items | _ => None end.
Definition zero_request_status : RequestStatus := mkRequestStatus "" "" "" "" 0 0 0 "" "" zero_time zero_time.
Definition request_status_fields : list (string * setter RequestStatus) := [
    ("requestId", set_with as_string (fun v s => mkRequestStatus v (st_OfferID s) (st_Model s) (st_State s) (st_InputTokens s) (st_OutputTokens s) (st_ComputeMilliseconds s) (st_EarningsWei s) (st_Error s) (st_StartedAt s) (st_CompletedAt s)));
    ("offerId", set_with as_string (fun v s => mkRequestStatus (st_RequestID s) v (st_Model s) (st_State s) (st_InputTokens s) (st_OutputTokens s) (st_ComputeMilliseconds s) (st_EarningsWei s) (st_Error s) (st_StartedAt s) (st_CompletedAt s)));
    ("model", set_with as_string (fun v s => mkRequestStatus (st_RequestID s) (st_OfferID s) v (st_State s) (st_InputTokens s) (st_OutputTokens s) (st_ComputeMilliseconds s) (st_EarningsWei s) (st_Error s) (st_StartedAt s) (st_CompletedAt s)));
    ("state", set_with as_string (fun v s => mkRequestStatus (st_RequestID s) (st_OfferID s) (st_Model s) v (st_InputTokens s) (st_OutputTokens s) (st_ComputeMilliseconds s) (st_EarningsWei s) (st_Error s) (st_StartedAt s) (st_CompletedAt s)));
    ("inputTokens", set_with (as_uint 64) (fun v s => mkRequestStatus (st_RequestID s) (st_OfferID s) (st_Model s) (st_State s) v (st_OutputTokens s) (st_ComputeMilliseconds s) (st_EarningsWei s) (st_Error s) (st_StartedAt s) (st_CompletedAt s)));
    ("outputTokens", set_with (as_uint 64) (fun v s => mkRequestStatus (st_RequestID s) (st_OfferID s) (st_Model s) (st_State s) (st_InputTokens s) v (st_ComputeMilliseconds s) (st_EarningsWei s) (st_Error s) (st_StartedAt s) (st_CompletedAt s)));
    ("computeMilliseconds", set_with (as_uint 64) (fun v s => mkRequestStatus (st_RequestID s) (st_OfferID s) (st_Model s) (st_State s) (st_InputTokens s) (st_OutputTokens s) v (st_EarningsWei s) (st_Error s) (st_StartedAt s) (st_CompletedAt s)));
    ("earningsWei", set_with as_string (fun v s => mkRequestStatus (st_RequestID s) (st_OfferID s) (st_Model s) (st_State s) (st_InputTokens s) (st_OutputTokens s) (st_ComputeMilliseconds s) v (st_Error s) (st_StartedAt s) (st_CompletedAt s)));
    ("error", set_with as_string (fun v s => mkRequestStatus (st_RequestID s) (st_OfferID s) (st_Model s) (st_State s) (st_InputTokens s) (st_OutputTokens s) (st_ComputeMilliseconds s) (st_EarningsWei s) v (st_StartedAt s) (st_CompletedAt s)));
    ("startedAt", set_with as_time (fun v s => mkRequestStatus (st_RequestID s) (st_OfferID s) (st_Model s) (st_State s) (st_InputTokens s) (st_OutputTokens s) (st_ComputeMilliseconds s) (st_EarningsWei s) (st_Error s) v (st_CompletedAt s)));
    ("completedAt", set_with as_time (fun v s => mkRequestStatus (st_RequestID s) (st_OfferID s) (st_Model s) (st_State s) (st_InputTokens s) (st_OutputTokens s) (st_ComputeMilliseconds s) (st_EarningsWei s) (st_Error s) (st_StartedAt s) v)) ].
Definition as_requests (v : json) : option (list RequestStatus) :=
  match v with JArr items => mapM (fun item => decode_struct request_status_fields item zero_request_status) items | _ => None end.
Definition zero_status : StatusSnapshot := mkStatusSnapshot false zero_time zero_time 0 0 0 0 "" [] [].
Definition status_fields : list (string * setter StatusSnapshot) := [
    ("connected", set_with as_bool (fun v s => mkStatusSnapshot v (sn_StartedAt s) (sn_UpdatedAt s) (sn_Requests s) (sn_InputTokens s) (sn_OutputTokens s) (sn_ComputeMilliseconds s) (sn_RunEarningsWei s) (sn_RecentRequests s) (sn_Offers s)));
    ("startedAt", set_with as_time (fun v s => mkStatusSnapshot (sn_Connected s) v (sn_UpdatedAt s) (sn_Requests s) (sn_InputTokens s) (sn_OutputTokens s) (sn_ComputeMilliseconds s) (sn_RunEarningsWei s) (sn_RecentRequests s) (sn_Offers s)));
    ("updatedAt", set_with as_time (fun v s => mkStatusSnapshot (sn_Connected s) (sn_StartedAt s) v (sn_Requests s) (sn_InputTokens s) (sn_OutputTokens s) (sn_ComputeMilliseconds s) (sn_RunEarningsWei s) (sn_RecentRequests s) (sn_Offers s)));
    ("requests", set_with (as_uint 64) (fun v s => mkStatusSnapshot (sn_Connected s) (sn_StartedAt s) (sn_UpdatedAt s) v (sn_InputTokens s) (sn_OutputTokens s) (sn_ComputeMilliseconds s) (sn_RunEarningsWei s) (sn_RecentRequests s) (sn_Offers s)));
    ("inputTokens", set_with (as_uint 64) (fun v s => mkStatusSnapshot (sn_Connected s) (sn_StartedAt s) (sn_UpdatedAt s) (sn_Requests s) v (sn_OutputTokens s) (sn_ComputeMilliseconds s) (sn_RunEarningsWei s) (sn_RecentRequests s) (sn_Offers s)));
    ("outputTokens", set_with (as_uint 64) (fun v s => mkStatusSnapshot (sn_Connected s) (sn_StartedAt s) (sn_UpdatedAt s) (sn_Requests s) (sn_InputTokens s) v (sn_ComputeMilliseconds s) (sn_RunEarningsWei s) (sn_RecentRequests s) (sn_Offers s)));
    ("computeMilliseconds", set_with (as_uint 64) (fun v s => mkStatusSnapshot (sn_Connected s) (sn_StartedAt s) (sn_UpdatedAt s) (sn_Requests s) (sn_InputTokens s) (sn_OutputTokens s) v (sn_RunEarningsWei s) (sn_RecentRequests s) (sn_Offers s)));
    ("runEarningsWei", set_with as_string (fun v s => mkStatusSnapshot (sn_Connected s) (sn_StartedAt s) (sn_UpdatedAt s) (sn_Requests s) (sn_InputTokens s) (sn_OutputTokens s) (sn_ComputeMilliseconds s) v (sn_RecentRequests s) (sn_Offers s)));
    ("recentRequests", set_with as_requests (fun v s => mkStatusSnapshot (sn_Connected s) (sn_StartedAt s) (sn_UpdatedAt s) (sn_Requests s) (sn_InputTokens s) (sn_OutputTokens s) (sn_ComputeMilliseconds s) (sn_RunEarningsWei s) v (sn_Offers s)));
    ("offers", set_with as_offers (fun v s => mkStatusSnapshot (sn_Connected s) (sn_StartedAt s) (sn_UpdatedAt s) (sn_Requests s) (sn_InputTokens s) (sn_OutputTokens s) (sn_ComputeMilliseconds s) (sn_RunEarningsWei s) (sn_RecentRequests s) v)) ].

Definition offer_status_json (s : OfferStatus) : json :=
  JObj (member "offerId" (jstr (os_OfferID s)) ++ member "model" (jstr (os_Model s)) ++ member "healthy" (JBool (os_Healthy s))
        ++ omit_if (String.eqb (os_Error s) "") "error" (jstr (os_Error s))).
(** [omitempty] has no effect on a time. *)
Definition request_status_json (s : RequestStatus) : json :=
  JObj (member "requestId" (jstr (st_RequestID s)) ++ omit_if (String.eqb (st_OfferID s) "") "offerId" (jstr (st_OfferID s))
        ++ omit_if (String.eqb (st_Model s) "") "model" (jstr (st_Model s)) ++ member "state" (jstr (st_State s))
        ++ omit_if (st_InputTokens s =? 0) "inputTokens" (num (st_InputTokens s))
        ++ omit_if (st_OutputTokens s =? 0) "outputTokens" (num (st_OutputTokens s))
        ++ omit_if (st_ComputeMilliseconds s =? 0) "computeMilliseconds" (num (st_ComputeMilliseconds s))
        ++ omit_if (String.eqb (st_EarningsWei s) "") "earningsWei" (jstr (st_EarningsWei s))
        ++ omit_if (String.eqb (st_Error s) "") "error" (jstr (st_Error s))
        ++ member "startedAt" (time_json (st_StartedAt s)) ++ member "completedAt" (time_json (st_CompletedAt s))).
(** The copy of no offers is a nil slice. *)
Definition status_json (s : StatusSnapshot) : json :=
  JObj (member "connected" (JBool (sn_Connected s)) ++ member "startedAt" (time_json (sn_StartedAt s))
        ++ member "updatedAt" (time_json (sn_UpdatedAt s)) ++ member "requests" (num (sn_Requests s))
        ++ member "inputTokens" (num (sn_InputTokens s)) ++ member "outputTokens" (num (sn_OutputTokens s))
        ++ member "computeMilliseconds" (num (sn_ComputeMilliseconds s))
        ++ omit_if (String.eqb (sn_RunEarningsWei s) "") "runEarningsWei" (jstr (sn_RunEarningsWei s))
        ++ omit_if (bool_decide (sn_RecentRequests s = [])) "recentRequests" (JArr (map request_status_json (sn_RecentRequests s)))
        ++ member "offers" (match sn_Offers s with [] => JNull | offers => JArr (map offer_status_json offers) end)).

(** [Time.MarshalJSON] refuses a year of more than four digits. *)
Definition time_encodable (t : Z) : bool := let '(year, _, _) := civil (t / day_length) in (0 <=? year) && (year <=? 9999).
Definition status_times (s : StatusSnapshot) : list Z :=
  sn_StartedAt s :: sn_UpdatedAt s :: (sn_RecentRequests s ≫= fun r => [st_StartedAt r; st_CompletedAt r]).

Section StatusFile.
(** [parse] decodes the first JSON value within the first 4 MiB of a text. *)
Context (parse : string -> option json) (marshal : json -> string).
Definition encode_status (s : StatusSnapshot) : result string :=
  if forallb time_encodable (status_times s) then Ok (marshal (status_json s))
  else Err (ErrNew "Time.MarshalJSON: year outside of range [0,9999]").
Definition WriteStatusFile (path temporary : string) (s : StatusSnapshot) : Eff Disk unit :=
  if String.eqb path "" then fail (ErrNew "provider status path is required")
  else
    _ ← wrap "create provider status directory" (mkdir_all (path_Dir path));
    replace_file temporary (encode_status s) (wrap "replace provider status" (rename temporary path)).
Definition decode_status (text : string) : result StatusSnapshot :=
  s ← of_option (parse text ≫= fun v => decode_struct status_fields v zero_status) ErrEncode;
  _ ← fail_if (sn_StartedAt s =? zero_time) (ErrNew "provider status start time is missing");
  Ok s.
Definition LoadStatusFile (path : string) : Eff Disk StatusSnapshot := text ← read_file path; of_result (decode_status text).
(** [os.Remove]; an absent file is no error. *)
Definition RemoveStatusFile (path : string) : Eff Disk unit :=
  removed ← try (effect (fun d => match dk_Files d !! path with
                                   | None => (d, Err ErrNotExist)
                                   | Some _ => (set_files (delete path) d, Ok tt)
                                   end));
  match removed with
  | Ok _ | Err ErrNotExist => mret tt
  | Err e => fail e
  end.

(** *** The snapshot is read back *)
Definition offer_status_representable (s : OfferStatus) : Prop := Forall utf8 [os_OfferID s; os_Model s; os_Error s].
Definition request_status_representable (s : RequestStatus) : Prop :=
  Forall utf8 [st_RequestID s; st_OfferID s; st_Model s; st_State s; st_EarningsWei s; st_Error s]
  /\ Forall uint64 [st_InputTokens s; st_OutputTokens s; st_ComputeMilliseconds s].
Definition status_representable (s : StatusSnapshot) : Prop :=
  utf8 (sn_RunEarningsWei s) /\ Forall uint64 [sn_Requests s; sn_InputTokens s; sn_OutputTokens s; sn_ComputeMilliseconds s]
  /\ Forall request_status_representable (sn_RecentRequests s) /\ Forall offer_status_representable (sn_Offers s).

Lemma time_encodable_json t : time_encodable t = true -> json_time t.
Proof. unfold time_encodable, json_time. destruct (civil _) as [[y m] d]. intros. bools. lia. Qed.
Lemma as_time_json t : time_encodable t = true -> as_time (time_json t) = Some t.
Proof. intros Ht. by apply ParseRFC3339_RFC3339Nano, time_encodable_json. Qed.

Ltac status_projections :=
  cbv beta; cbn [os_OfferID os_Model os_Healthy os_Error st_RequestID st_OfferID st_Model st_State st_InputTokens st_OutputTokens
    st_ComputeMilliseconds st_EarningsWei st_Error st_StartedAt st_CompletedAt sn_Connected sn_StartedAt sn_UpdatedAt sn_Requests
    sn_InputTokens sn_OutputTokens sn_ComputeMilliseconds sn_RunEarningsWei sn_RecentRequests sn_Offers].
(** The next member is decoded: a text, a number, a flag or a time. *)
Ltac decoded_value := first [by apply as_string_jstr | apply as_uint_num; unfold uint64, u64_mod in *; lia | reflexivity | by apply as_time_json].
Ltac next_member fields := erewrite (decode_member fields); [|reflexivity|discriminate|decoded_value]; status_projections.
Ltac next_omitted fields :=
  erewrite (decode_omit fields);
    [|reflexivity|discriminate|decoded_value
     |first [let E := fresh in intros E%String.eqb_eq; rewrite E; reflexivity|let E := fresh in intros E%Z.eqb_eq; rewrite E; reflexivity]];
  status_projections.

Lemma decode_offer_status s : offer_status_representable s ->
  decode_struct offer_status_fields (offer_status_json s) zero_offer_status = Some s.
Proof.
  destruct s as [offer model healthy text]. unfold offer_status_representable, offer_status_json, zero_offer_status.
  cbn [decode_struct]. status_projections. rewrite !Forall_cons. intros Hs. destruct_and?.
  rewrite <- (app_nil_r (omit_if _ "error" _)). do 3 next_member offer_status_fields. next_omitted offer_status_fields. done.
Qed.
Lemma decode_request_status s : request_status_representable s -> time_encodable (st_StartedAt s) = true ->
  time_encodable (st_CompletedAt s) = true ->
  decode_struct request_status_fields (request_status_json s) zero_request_status = Some s.
Proof.
  destruct s as [id offer model state i o c earnings text started completed].
  unfold request_status_representable, request_status_json, zero_request_status. cbn [decode_struct]. status_projections.
  rewrite !Forall_cons. intros [Hs Hn] T1 T2. destruct_and?. rewrite <- (app_nil_r (member "completedAt" _)).
  next_member request_status_fields. do 2 next_omitted request_status_fields. next_member request_status_fields.
  do 5 next_omitted request_status_fields. do 2 next_member request_status_fields. done.
Qed.
Lemma as_offer_statuses_of l : Forall offer_status_representable l -> as_offers (JArr (map offer_status_json l)) = Some l.
Proof.
  cbn [as_offers]. induction 1 as [|s l Hs _ IH]; [done|]. cbn [map mapM]. rewrite decode_offer_status, IH by done. done.
Qed.
Lemma as_requests_of l : Forall request_status_representable l ->
  forallb time_encodable (l ≫= fun r => [st_StartedAt r; st_CompletedAt r]) = true ->
  as_requests (JArr (map request_status_json l)) = Some l.
Proof.
  cbn [as_requests]. induction 1 as [|s l Hs _ IH]; [done|]. rewrite bind_cons. cbn [app forallb map mapM]. intros Ht. bools.
  rewrite decode_request_status, IH by done. done.
Qed.

Lemma decode_status_json s : status_representable s -> forallb time_encodable (status_times s) = true ->
  decode_struct status_fields (status_json s) zero_status = Some s.
Proof.
  destruct s as [connected started updated n i o c earnings requests offers].
  unfold status_representable, status_json, status_times, zero_status. cbn [decode_struct forallb]. status_projections.
  rewrite !Forall_cons. intros (He & Hn & Hr & Ho) Ht. bools. destruct_and?.
  do 7 next_member status_fields. next_omitted status_fields.
  erewrite (decode_omit status_fields); [|reflexivity|discriminate|by apply as_requests_of|by intros ->%bool_decide_eq_true]. status_projections.
  rewrite <- (app_nil_r (member "offers" _)). destruct offers as [|offer offers]; [done|].
  erewrite (decode_member status_fields); [|reflexivity|discriminate|by apply as_offer_statuses_of]. done.
Qed.

(** What a reader of the file finds. *)
Definition shown (d : Disk) (path : string) : result StatusSnapshot :=
  text ← of_option (dk_Files d !! path) ErrNotExist; decode_status text.
Lemma LoadStatusFile_shown path d :
  LoadStatusFile path [] d = ([], d, match shown d path with Ok s => Done s | Err e => Failed e end).
Proof.
  unfold LoadStatusFile, shown, Disk.read_file, effect, mbind, eff_bind, result_bind. destruct (dk_Files d !! path) as [text|]; cbn; [|done].
  by destruct (decode_status text).
Qed.

(** A reader of the status never sees half a snapshot: whatever file operation
    of the writer fails, the file shows what it showed before; when the writer
    returns, it shows exactly the snapshot it was given, with every request,
    offer, count and time; after a crash it shows one of the two. *)
Theorem status_never_torn path temporary s d :
  parse (marshal (status_json s)) = Some (status_json s) -> path <> temporary -> status_representable s ->
  sn_StartedAt s <> zero_time ->
  triple (fun w => w = d) (WriteStatusFile path temporary s)
    (fun _ w => shown w path = Ok s) (fun _ w => shown w path = shown d path)
    (fun w => shown w path = shown d path \/ shown w path = Ok s).
Proof.
  intros Hparse Hne Hr Hz. unfold WriteStatusFile. destruct (String.eqb path ""); [apply triple_fail; by intros w ->|].
  assert (forall w, written path (encode_status s) w -> shown w path = Ok s) as Hnew.
  { intros w (text & He & Hw). unfold shown. rewrite Hw. change (decode_status text = Ok s). unfold encode_status in He.
    destruct (forallb _ _) eqn:T; [|done]. injection He as <-. unfold decode_status. rewrite Hparse.
    change (Some ?v ≫= ?f) with (f v). cbv beta. rewrite decode_status_json by done. cbn.
    by rewrite (proj2 (Z.eqb_neq _ _) Hz). }
  assert (forall w, kept temporary d w -> shown w path = shown d path) as Hold by (intros w E; unfold shown; by rewrite E).
  assert (triple (fun w => w = d) (wrap "create provider status directory" (mkdir_all (path_Dir path)))
    (fun _ => kept temporary d) (fun _ => kept temporary d) (kept temporary d)) as Hm by apply triple_wrap, mkdir_all_kept.
  eapply triple_bind; [eapply triple_conseq; [exact Hm|done|intros a w Hw; exact Hw|auto..]|].
  intros []. eapply triple_conseq; [apply (replace_file_spec path temporary (encode_status s) d Hne)|done|by intros a w []; auto|auto|].
  - intros P Q Hp. by apply triple_wrap.
  - intros w Hs. destruct (Hs path Hne) as [E|[_ E]]; [left; unfold shown; by rewrite E|right; by apply Hnew].
Qed.

(** A status that was removed is gone, and an error leaves it as it was. *)
Lemma RemoveStatusFile_gone path d :
  triple (fun w => w = d) (RemoveStatusFile path) (fun _ w => shown w path = Err ErrNotExist \/ w = d) (fun _ w => w = d)
    (fun w => w = d).
Proof.
  eapply (triple_bind _ _ _ (fun r w => match r with Ok _ => shown w path = Err ErrNotExist | Err _ => w = d end)).
  - apply triple_try, triple_effect; [|by intros w e ->|by intros w ->]. intros w ->.
    destruct (dk_Files d !! path) as [text|]; [|done]. unfold shown. cbn. by rewrite lookup_delete_eq.
  - intros [[]|e]; [apply triple_ret; by left|]. destruct e; try (apply triple_fail; done). apply triple_ret. by right.
Qed.
End StatusFile.

(** ** Concrete stores *)
Module LocalRun.
(** A credential manager that never fails. *)
Definition Manager : Type := gmap string credential.
Definition credWriteW (c : credential) (w : Manager) : Manager * result unit :=
  match cr_TargetName c with
  | Some name => (<[name := c]> w, Ok tt)
  | None => (w, Err (ErrNew "the parameter is incorrect"))
  end.
Definition credReadW (name : option string) (kind : Z) (w : Manager) : Manager * result credential :=
  (w, of_option (name ≫= fun n => w !! n) (ErrNew "element not found")).
Definition credDeleteW (name : option string) (kind : Z) (w : Manager) : Manager * result unit :=
  match name with
  | Some n => match w !! n with Some _ => (delete n w, Ok tt) | None => (w, Err (ErrNew "element not found")) end
  | None => (w, Err (ErrNew "the parameter is incorrect"))
  end.
#[export] Instance manager_laws : CredentialManager credWriteW credReadW credDeleteW (fun s => s) (fun w => w).
Proof.
  split.
  - intros c name w _ E. unfold credWriteW. by rewrite E.
  - intros name w. unfold credReadW. split; [done|]. intros c. change (Some name ≫= ?f) with (f name). cbv beta.
    destruct (w !! name) eqn:E; cbn; [|done]. intros [= <-]. exact E.
  - intros name w. unfold credDeleteW. by destruct (w !! name).
Qed.
Definition vault : CredentialStore Manager := cred_store credWriteW credReadW credDeleteW.
Definition others : list StoreOp :=
  [SaveOp "myference.signer" "mach_1" "0x02"; SaveOp "myference.backend" "mach_1/kimi" "key"; DeleteOp "myference.machine" "mach_2";
   LoadOp "myference.signer" "mach_1"].
Definition saved_state : Manager := fst (vs_Save vault "myference.machine" "mach_1" "mach_1.secret" ∅).

(** A keychain; a password is printed on a line. *)
Definition newline : string := String "010" "".
Definition Passwords : Type := gmap (string * string) string.
Definition add (service account secret : string) (w : Passwords) : Passwords * result unit := (<[(service, account) := secret]> w, Ok tt).
Definition find (service account : string) (w : Passwords) : Passwords * result string :=
  (w, (fun v => v +:+ newline) <$> of_option (w !! (service, account)) (ErrNew "exit status 44")).
Definition remove (service account : string) (w : Passwords) : Passwords * result unit := (delete (service, account) w, Ok tt).
#[export] Instance keychain_laws : Keychain add find remove (fun v => v +:+ newline) (fun w => w).
Proof.
  split; [done| |done]. intros service account w. unfold find. split; [done|]. intros output.
  destruct (w !! (service, account)) as [v|] eqn:E; cbn; [|done]. intros [= <-]. by exists v.
Qed.

(** The token of a machine, between the secrets of its signer and its backend. *)
Lemma secrets_kept_witness :
  snd (vs_Load vault "myference.machine" "mach_1" (store_ops vault others saved_state)) = Ok "mach_1.secret"
  /\ (forall v, snd (vs_Load vault "myference.machine" "mach_1" (store_ops vault others saved_state)) = Ok v -> v = "mach_1.secret")
  /\ snd (vs_Load vault "myference.machine" "mach_1"
       (fst (vs_Delete vault "myference.machine" "mach_1" (store_ops vault others saved_state)))) = Err (ErrNew "element not found").
Proof.
  split; [vm_compute; reflexivity|]. split; [|vm_compute; reflexivity].
  destruct (vs_Load vault "myference.machine" "mach_1" (store_ops vault others saved_state)) as [w2 r] eqn:E.
  assert (vs_Save vault "myference.machine" "mach_1" "mach_1.secret" ∅ = (saved_state, Ok tt)) as Hs by (vm_compute; reflexivity).
  refine (proj1 (proj1 (secrets_kept credWriteW credReadW credDeleteW (fun s => s) (fun w => w) add find remove (fun v => v +:+ newline)
    (fun w => w) manager_laws keychain_laws) "myference.machine" "mach_1" "mach_1.secret" others ∅ saved_state w2 r _ Hs _ E)).
  - vm_compute. reflexivity.
  - repeat constructor; vm_compute; first [reflexivity|discriminate].
Defined.

Definition path : string := "/home/u/.myference/status.json".
Definition temporary : string := "/home/u/.myference/.myference-status-1.tmp".
Definition snapshot : StatusSnapshot :=
  mkStatusSnapshot true (1700000000 * Second) (1700000001 * Second) 1 3 4 0 "58"
    [mkRequestStatus "r1" "o1" "llama" "active" 0 0 0 "" "" (1700000001 * Second) zero_time] [mkOfferStatus "o1" "llama" true ""].
Definition parse (text : string) : option json := if String.eqb text "{new}" then Some (status_json snapshot) else None.
Definition marshal (v : json) : string := "{new}".
Definition disk : Disk := mkDisk ∅ {[path := "{old}"]}.
Definition after (fates : list Fate) : Disk := snd (fst (WriteStatusFile marshal path temporary snapshot fates disk)).

Lemma status_never_torn_witness :
  shown parse (after []) path = Ok snapshot
  /\ shown parse (after [Proceed; Proceed; Proceed; Fault ErrDisconnected]) path = shown parse disk path
  /\ shown parse disk path = Err ErrEncode.
Proof.
  assert (status_representable snapshot) as Hr by (repeat constructor; vm_compute; intuition discriminate).
  pose proof (status_never_torn parse marshal path temporary snapshot disk eq_refl ltac:(discriminate) Hr ltac:(discriminate)) as H.
  split; [exact (H [] _ eq_refl)|]. split; [|vm_compute; reflexivity].
  exact (H [Proceed; Proceed; Proceed; Fault ErrDisconnected] _ eq_refl).
Defined.
End LocalRun.
