(* ===== verification/WindowsRunner.v ===== *)
(** * The native runner of Windows (cli/internal/platform/windows/runner_windows.go)

    What Tuning.v takes as single effects on the running Ollama processes, down
    to the commands and calls of the system: the reports of [powercfg] and
    PowerShell and how they are read, [taskkill], processes by identifier with
    their priority classes, and the thread that keeps the host awake.  [parse]
    decodes the whole of a JSON text of at most 16 MiB, [render] is the text
    [ConvertTo-Json] writes. *)

From S2P Require Import Prelude GoStrings Wire Effects Tuning Ollama Anthropic.
From Stdlib Require Import Ascii.
From stdpp Require Import list.
Open Scope string_scope.
Open Scope list_scope.
Open Scope Z_scope.

(** ** The active power scheme *)
Definition hex_digit (c : ascii) : bool :=
  let n := byte_of c in (48 <=? n) && (n <=? 57) || (65 <=? n) && (n <=? 70) || (97 <=? n) && (n <=? 102).
(** [n] hexadecimal digits and what follows them. *)
Fixpoint hex_digits (n : nat) (s : string) : option (string * string) :=
  match n, s with
  | O, _ => Some ("", s)
  | S n, String c s => if hex_digit c then '(digits, rest) ← hex_digits n s; Some (String c digits, rest) else None
  | S _, "" => None
  end.
Definition dash (s : string) : option string := match s with String "-" s => Some s | _ => None end.
(** A match of [powerSchemePattern] at the start of a text. *)
Fixpoint scheme_groups (sizes : list nat) (s : string) : option string :=
  match sizes with
  | [] => None
  | [n] => '(digits, _) ← hex_digits n s; Some digits
  | n :: sizes => '(digits, s) ← hex_digits n s; s ← dash s; rest ← scheme_groups sizes s; Some (digits +:+ "-" +:+ rest)
  end.
Definition scheme_at (s : string) : option string := scheme_groups [8; 4; 4; 4; 12]%nat s.
(** [FindString]: the leftmost match. *)
Fixpoint FindString (s : string) : string :=
  match scheme_at s with
  | Some found => found
  | None => match s with String _ s => FindString s | "" => "" end
  end.
Definition parseActivePowerScheme (output : string) : result string :=
  let found := FindString output in
  if String.eqb found "" then Err (ErrNew "active power scheme GUID was not reported by powercfg") else Ok (ToLower found).

(** ** The processes *)
Record ProcessSnapshot := mkProcessSnapshot { px_PID : Z; px_Name : string; px_Executable : string }.
Definition item_fields : list (string * setter ProcessSnapshot) :=
  [ ("ProcessId", set_with as_int64 (fun v p => mkProcessSnapshot v (px_Name p) (px_Executable p)));
    ("Name", set_with as_string (fun v p => mkProcessSnapshot (px_PID p) v (px_Executable p)));
    ("ExecutablePath", set_with as_string (fun v p => mkProcessSnapshot (px_PID p) (px_Name p) v)) ].
Definition decode_item (v : json) : option ProcessSnapshot := decode_loose item_fields v (mkProcessSnapshot 0 "" "").
Definition as_items (v : json) : option (list ProcessSnapshot) :=
  match v with JArr items => mapM decode_item items | JNull => Some [] | _ => None end.
Definition real_process (p : ProcessSnapshot) : bool := (0 <? px_PID p) && negb (String.eqb (px_Name p) "").

Section Parse.
Context (parse : string -> option json).
Definition parseProcessSnapshots (text : string) : result (list ProcessSnapshot) :=
  let raw := TrimSpace text in
  if String.eqb raw "" || String.eqb raw "null" then Ok []
  else
    values ← of_option (match raw with
                        | String "[" _ => parse raw ≫= as_items
                        | _ => v ← parse raw; item ← decode_item v; Some [item]
                        end) ErrEncode;
    Ok (List.filter real_process values).
End Parse.

Definition trimExecutableSuffix (name : string) : string := TrimSuffix (TrimSpace (ToLower name)) ".exe".
Definition named_ollama (name : string) : bool := EqualFold (trimExecutableSuffix name) "ollama".

(** ** Priority classes *)
Definition priorityNormal : Z := 32.
Definition priorityAboveNormal : Z := 32768.
Definition priorityHigh : Z := 128.
(** The name of a class ([processPriority]) and the class of a name
    ([setProcessPriority]). *)
Definition class_name (class : Z) : string :=
  if class =? priorityHigh then "High" else if class =? priorityAboveNormal then "AboveNormal" else "Normal".
Definition class_of (priority : string) : result Z :=
  if String.eqb priority "AboveNormal" then Ok priorityAboveNormal
  else if String.eqb priority "High" then Ok priorityHigh
  else if String.eqb priority "Normal" then Ok priorityNormal
  else Err (ErrNew "unsupported process priority").

(** ** The host *)
Record WindowsProcess := mkWindowsProcess {
  wp_PID : Z; wp_Name : string; wp_Path : string; wp_Class : Z; wp_Environment : list string; wp_Parent : Z;
}.
(** [hh_Keeper]: the runner has a thread that keeps the host awake. *)
Record Host := mkHost {
  hh_Journal : option JournalFile; hh_Scheme : string; hh_Keeper : bool; hh_Processes : list WindowsProcess; hh_NextPID : Z;
}.
Definition set_host_scheme v (h : Host) := mkHost (hh_Journal h) v (hh_Keeper h) (hh_Processes h) (hh_NextPID h).
Definition set_keeper v (h : Host) := mkHost (hh_Journal h) (hh_Scheme h) v (hh_Processes h) (hh_NextPID h).
Definition set_processes v (h : Host) := mkHost (hh_Journal h) (hh_Scheme h) (hh_Keeper h) v (hh_NextPID h).
Definition with_class (class : Z) (p : WindowsProcess) : WindowsProcess :=
  mkWindowsProcess (wp_PID p) (wp_Name p) (wp_Path p) class (wp_Environment p) (wp_Parent p).
Definition has_pid (pid : Z) (p : WindowsProcess) : bool := wp_PID p =? pid.
(** [pid] is [root] or was started, through others, by it. *)
Fixpoint started_by (fuel : nat) (processes : list WindowsProcess) (root pid : Z) : bool :=
  (pid =? root)
  || match fuel with
     | O => false
     | S fuel => match List.find (has_pid pid) processes with
                 | Some p => started_by fuel processes root (wp_Parent p)
                 | None => false
                 end
     end.
(** The file name of a path. *)
Definition base_name (path : string) : string := List.last (SplitByte path "\") "".

Section Runner.
Context (parse : string -> option json) (render : json -> string).
Context (scheme_report : string -> string).  (* what powercfg /getactivescheme prints *)
Context (environ : list string) (pid : Z).
Abbreviation Run := (Eff Host).

(** *** Commands *)
Definition getactivescheme : Run string := effect (fun h => (h, Ok (scheme_report (hh_Scheme h)))).
Definition powercfg (arguments : list string) : Run unit :=
  effect (fun h => match arguments with
                   | ["/setactive"; scheme] => (set_host_scheme scheme h, Ok tt)
                   | _ => (h, Err (ErrNew "Invalid Parameters"))
                   end).
(** [Get-CimInstance Win32_Process | Select-Object ... | ConvertTo-Json]: one
    process is an object, several are an array. *)
Definition process_json (p : WindowsProcess) : json :=
  JObj [ ("ProcessId", num (wp_PID p)); ("Name", JStr (wp_Name p));
         ("ExecutablePath", if String.eqb (wp_Path p) "" then JNull else JStr (wp_Path p)) ].
Definition process_report (processes : list WindowsProcess) : string :=
  match processes with
  | [] => ""
  | [p] => render (process_json p)
  | _ => render (JArr (map process_json processes))
  end.
Definition get_processes : Run string := effect (fun h => (h, Ok (process_report (hh_Processes h)))).
(** [taskkill /PID pid /T /F]: the process and those it started. *)
Definition taskkill (pid : Z) : Run unit :=
  effect (fun h =>
    if existsb (has_pid pid) (hh_Processes h)
    then (set_processes (List.filter (fun p => negb (started_by (length (hh_Processes h)) (hh_Processes h) pid (wp_PID p)))
                           (hh_Processes h)) h, Ok tt)
    else (h, Err (ErrNew "the process was not found"))).
(** [command.Start] of an executable; the result is its identifier. *)
Definition start_process (executable : string) (environment : list string) : Run Z :=
  effect (fun h => (mkHost (hh_Journal h) (hh_Scheme h) (hh_Keeper h)
                      (hh_Processes h ++ [mkWindowsProcess (hh_NextPID h) (base_name executable) executable priorityNormal environment pid])
                      (hh_NextPID h + 1), Ok (hh_NextPID h))).

(** *** Kernel calls *)
Definition OpenProcess (pid : Z) : Run unit :=
  effect (fun h => (h, if existsb (has_pid pid) (hh_Processes h) then Ok tt else Err (ErrNew "The parameter is incorrect."))).
Definition GetPriorityClass (pid : Z) : Run Z :=
  effect (fun h => (h, of_option (wp_Class <$> List.find (has_pid pid) (hh_Processes h)) (ErrNew "The handle is invalid."))).
Definition SetPriorityClass (pid class : Z) : Run unit :=
  effect (fun h => (set_processes (map (fun p => if has_pid pid p then with_class class p else p) (hh_Processes h)) h, Ok tt)).
(** The status of [GetSystemPowerStatus]: the state of the AC line, if the call
    succeeds. *)
Definition nativeACPower (line : option Z) : option bool :=
  match line with
  | None => None
  | Some ac => if ac =? 255 then None else Some (ac =? 1)
  end.

(** *** The runner *)
Definition processes : Run (list ProcessSnapshot) :=
  output ← get_processes; of_result (parseProcessSnapshots parse output).
(** A process that cannot be opened counts as normal; so does a class that
    cannot be read, whose value is then 0. *)
Definition processPriority (pid : Z) : Run string :=
  opened ← try (OpenProcess pid);
  match opened with
  | Err _ => mret "Normal"
  | Ok _ => class ← try (GetPriorityClass pid); mret (class_name (match class with Ok v => v | Err _ => 0 end))
  end.
Definition setProcessPriority (pid : Z) (priority : string) : Run unit :=
  class ← of_result (class_of priority);
  _ ← OpenProcess pid;
  SetPriorityClass pid class.
Fixpoint set_each_priority (priority : string) (l : list ProcessSnapshot) : Run unit :=
  match l with
  | [] => mret tt
  | p :: rest =>
      _ ← (if named_ollama (px_Name p) then setProcessPriority (px_PID p) priority else mret tt);
      set_each_priority priority rest
  end.
Definition native_setRunningOllamaPriority (priority : string) : Run unit :=
  l ← processes; set_each_priority priority l.

(** The executable and the priority found so far. *)
Fixpoint capture_each (l : list ProcessSnapshot) (found : string * string) : Run (string * string) :=
  match l with
  | [] => mret found
  | p :: rest =>
      if named_ollama (px_Name p) && String.eqb (fst found) "" then
        priority ← processPriority (px_PID p);
        capture_each rest (px_Executable p, priority)
      else capture_each rest found
  end.
Definition native_Snapshot (c : Config) (line : option Z) : Run HostSnapshot :=
  _ ← of_result (Validate c);
  output ← wrap "read active power scheme" getactivescheme;
  scheme ← of_result (parseActivePowerScheme output);
  report ← wrap "list processes" get_processes;
  l ← of_result (parseProcessSnapshots parse report);
  power ← of_result (of_option (nativeACPower line) (ErrNew "could not determine AC/battery state"));
  '(executable, priority) ← capture_each l ("", "");
  mret (mkHostSnapshot power
    (mkJournal "provider" pid scheme (mkOllamaSettings executable priority (originalOllamaEnvironment environ)) [])).

Definition native_startKeepAwake : Run unit := fun fates h =>
  if hh_Keeper h then (fates, h, Done tt) else effect (fun h => (set_keeper true h, Ok tt)) fates h.
Definition native_stopKeepAwake : Run unit := sure (set_keeper false).

Fixpoint kill_each (l : list ProcessSnapshot) : Run unit :=
  match l with
  | [] => mret tt
  | p :: rest =>
      _ ← (if named_ollama (px_Name p) then (_ ← try (taskkill (px_PID p)); mret tt) else mret tt);
      kill_each rest
  end.
Definition native_restartOllama (executable : string) (environment : list (string * option string)) (priority : string) : Run unit :=
  l ← processes;
  _ ← kill_each l;
  started ← wrap "restart Ollama" (start_process executable (mergeEnvironment environ environment));
  if negb (String.eqb priority "") then setProcessPriority started priority else mret tt.

Definition native_Apply (snapshot : RecoveryJournal) (o : Operation) : Run unit :=
  match op_Kind o with
  | OperationPowerPlan => powercfg (op_Args o)
  | OperationKeepAwake => native_startKeepAwake
  | OperationOllamaEnvironment =>
      if String.eqb (ol_Executable (rj_Ollama snapshot)) "" then mret tt
      else native_restartOllama (ol_Executable (rj_Ollama snapshot)) (environmentValues (op_Environment o)) ""
  | OperationProcessPriority => native_setRunningOllamaPriority (op_Priority o)
  end.

Fixpoint native_restore_loop (j : RecoveryJournal) (stages : list string) (ollama awake power : bool) : Run unit :=
  match stages with
  | [] => mret tt
  | stage :: rest =>
      if (String.eqb stage (kind_name OperationProcessPriority)
          || String.eqb stage (kind_name OperationOllamaEnvironment)) && negb ollama
      then
        _ ← (if negb (String.eqb (ol_Executable (rj_Ollama j)) "")
             then native_restartOllama (ol_Executable (rj_Ollama j)) (ol_Environment (rj_Ollama j)) (ol_Priority (rj_Ollama j))
             else mret tt);
        native_restore_loop j rest true awake power
      else if String.eqb stage (kind_name OperationKeepAwake) && negb awake
      then _ ← native_stopKeepAwake; native_restore_loop j rest ollama true power
      else if String.eqb stage (kind_name OperationPowerPlan) && negb power
      then _ ← wrap "restore power scheme" (powercfg ["/setactive"; rj_ActivePowerScheme j]);
           native_restore_loop j rest ollama awake true
      else native_restore_loop j rest ollama awake power
  end.
Definition native_Restore (j : RecoveryJournal) : Run unit := native_restore_loop j (RollbackStages j) false false false.
End Runner.

(** ** Optional executables *)
Section Optional.
(** [is_file]: [os.Stat] finds a file that is not a directory. *)
Context (is_file : string -> bool).
(** The executables that are started, in order. *)
Fixpoint optional_executables (seen paths : list string) : list string :=
  match paths with
  | [] => []
  | path :: rest =>
      let key := ToLower (TrimSpace path) in
      if String.eqb key "" || contains seen key then optional_executables seen rest
      else (if is_file path then [path] else []) ++ optional_executables (key :: seen) rest
  end.
Definition restartOptionalExecutables (paths : list string) : list string := optional_executables [] paths.
End Optional.

(** ** Reading the reports *)
Lemma hex_digits_app n : forall s t d r, hex_digits n s = Some (d, r) -> hex_digits n (s +:+ t) = Some (d, r +:+ t).
Proof.
  induction n as [|n IH]; intros s t d r; [by intros [= <- <-]|]. destruct s as [|c s]; [done|]. cbn [hex_digits].
  rewrite app_string_cons. cbn [hex_digits]. destruct (hex_digit c); [|done].
  destruct (hex_digits n s) as [[d' r']|] eqn:E; [|done]. intros [= <- <-]. by rewrite (IH _ t _ _ E).
Qed.
Lemma dash_char c s : dash (String c s) = if Ascii.eqb c "-" then Some s else None.
Proof. by destruct c as [[] [] [] [] [] [] [] []]. Qed.
Lemma scheme_groups_cons n m sizes s : scheme_groups (n :: m :: sizes) s =
  match hex_digits n s with
  | Some (digits, String c rest) =>
      if Ascii.eqb c "-" then match scheme_groups (m :: sizes) rest with Some more => Some (digits +:+ "-" +:+ more) | None => None end
      else None
  | _ => None
  end.
Proof.
  change (scheme_groups (n :: m :: sizes) s) with
    ('(digits, s) ← hex_digits n s; s ← dash s; rest ← scheme_groups (m :: sizes) s; Some (digits +:+ "-" +:+ rest)).
  destruct (hex_digits n s) as [[d [|c r]]|]; [done| |done]. cbn [mbind option_bind]. rewrite dash_char. by destruct (Ascii.eqb c "-").
Qed.
Lemma scheme_groups_app sizes : forall s t d, scheme_groups sizes s = Some d -> scheme_groups sizes (s +:+ t) = Some d.
Proof.
  induction sizes as [|n [|m sizes] IH]; intros s t d; [done|..].
  - cbn [scheme_groups]. destruct (hex_digits n s) as [[d' r]|] eqn:E; [|done]. intros [= <-]. by rewrite (hex_digits_app _ _ t _ _ E).
  - rewrite !scheme_groups_cons. destruct (hex_digits n s) as [[d' [|c r]]|] eqn:E; [done| |done].
    rewrite (hex_digits_app _ _ t _ _ E), app_string_cons. destruct (Ascii.eqb c "-"); [|done].
    destruct (scheme_groups (m :: sizes) r) as [x|] eqn:E2; [|done]. by rewrite (IH _ t _ E2).
Qed.

(** A label in which no scheme can begin: within eight characters of each of its
    positions there is one that is no digit. *)
Fixpoint breaks (n : nat) (s : string) : bool :=
  match n, s with S n, String c s => negb (hex_digit c) || breaks n s | _, _ => false end.
Fixpoint label_clear (s : string) : bool :=
  match s with "" => true | String _ rest => breaks 8 s && label_clear rest end.
Lemma breaks_digits n : forall s t, breaks n s = true -> hex_digits n (s +:+ t) = None.
Proof.
  induction n as [|n IH]; intros s t; [done|]. destruct s as [|c s]; [done|]. rewrite app_string_cons. cbn [breaks hex_digits].
  destruct (hex_digit c); [|done]. cbn. intros Hb. by rewrite IH.
Qed.
Lemma FindString_label label t : label_clear label = true -> FindString (label +:+ t) = FindString t.
Proof.
  induction label as [|c label IH]; [done|]. cbn [label_clear]. intros [Hb Hl]%andb_true_iff.
  pose proof (breaks_digits 8 (String c label) t Hb) as Hd. rewrite app_string_cons in Hd |- *. cbn [FindString].
  unfold scheme_at. cbn [scheme_groups]. rewrite Hd. cbn [mbind option_bind]. by apply IH.
Qed.

(** A power scheme as [powercfg] knows it: a GUID in lower case. *)
Definition is_scheme (s : string) : Prop := scheme_at s = Some s /\ ToLower s = s /\ s <> "".
Lemma report_parsed label scheme rest : label_clear label = true -> is_scheme scheme ->
  parseActivePowerScheme (label +:+ scheme +:+ rest) = Ok scheme.
Proof.
  intros Hl (Hs & Ht & Hne). unfold parseActivePowerScheme. rewrite FindString_label by done.
  assert (FindString (scheme +:+ rest) = scheme) as ->.
  { pose proof (scheme_groups_app _ scheme rest scheme Hs) as Hg. destruct scheme as [|c s]; [done|]. rewrite app_string_cons in *.
    cbn [FindString]. unfold scheme_at. by rewrite Hg. }
  rewrite (proj2 (String.eqb_neq _ _) Hne). by rewrite Ht.
Qed.

Lemma as_int64_unsigned c s : c <> "-"%char ->
  as_int64 (JNum (String c s)) = (n ← ParseUint (String c s); if n <=? i64_max then Some n else None).
Proof. intros Hc. destruct c as [[] [] [] [] [] [] [] []]; try done. Qed.
Lemma as_int64_num n : 0 <= n <= i64_max -> as_int64 (num n) = Some n.
Proof.
  intros Hn. unfold num. assert (is_u64 n = true) as Hu by (rewrite is_u64_spec; unfold i64_max, u64_mod in *; lia).
  apply ParseUint_FormatUint in Hu. destruct (FormatUint n) as [|c s]; [done|]. rewrite as_int64_unsigned by (by intros ->).
  rewrite Hu. cbn [mbind option_bind]. by rewrite (proj2 (Z.leb_le _ _)) by lia.
Qed.
Lemma decode_process p : 0 <= wp_PID p <= i64_max ->
  decode_item (process_json p) = Some (mkProcessSnapshot (wp_PID p) (wp_Name p) (wp_Path p)).
Proof.
  intros Hp. unfold decode_item, process_json. cbn [decode_loose decode_known].
  change (find_field item_fields "ProcessId") with (Some (set_with as_int64 (fun v p => mkProcessSnapshot v (px_Name p) (px_Executable p)))).
  change (find_field item_fields "Name") with (Some (set_with as_string (fun v p => mkProcessSnapshot (px_PID p) v (px_Executable p)))).
  change (find_field item_fields "ExecutablePath") with (Some (set_with as_string (fun v p => mkProcessSnapshot (px_PID p) (px_Name p) v))).
  unfold set_with at 1. unfold num at 1. fold (num (wp_PID p)). rewrite as_int64_num by done. cbn.
  destruct (String.eqb_spec (wp_Path p) "") as [->|]; done.
Qed.

(** ** The host and the machine of Tuning.v *)
Definition is_ollama (p : WindowsProcess) : bool := (0 <? wp_PID p) && named_ollama (wp_Name p).
Definition reported (p : WindowsProcess) : Process := mkProcess (wp_Path p) (wp_Environment p) (class_name (wp_Class p)).
Definition machine_of (h : Host) : Machine :=
  mkMachine (hh_Journal h) (hh_Scheme h) (hh_Keeper h) (map reported (List.filter is_ollama (hh_Processes h))).

(** Processes have identifiers of their own below the next one, and the name of
    a process is the file name of its executable. *)
Record host_ok (h : Host) : Prop := mkHostOk {
  ho_pids : NoDup (map wp_PID (hh_Processes h));
  ho_range : Forall (fun p => 0 <= wp_PID p < hh_NextPID h) (hh_Processes h);
  ho_next : 0 < hh_NextPID h;
  ho_names : Forall (fun p => wp_Path p <> "" -> wp_Name p = base_name (wp_Path p)) (hh_Processes h);
}.

Section Agreement.
Context (parse : string -> option json) (render : json -> string) (label : string) (rest_of : string -> string).
Context (environ : list string) (pid : Z).
(** What [powercfg] prints of the active scheme, in the language of the host. *)
Definition report_of (scheme : string) : string := label +:+ scheme +:+ rest_of scheme.

(** The text of the report of the processes is read back as the value it was
    printed from. *)
Definition printed (v : json) (first : ascii) : Prop :=
  parse (TrimSpace (render v)) = Some v /\ exists rest, TrimSpace (render v) = String first rest.
Definition listable (h : Host) : Prop :=
  hh_NextPID h <= i64_max
  /\ match hh_Processes h with
     | [] => True
     | [p] => printed (process_json p) "{"
     | l => printed (JArr (map process_json l)) "["
     end.

(** Without failures the two programs do the same to the machine. *)
Definition agree {A} (c : Eff Host A) (a : Eff Machine A) (h : Host) : Prop :=
  exists h' o, c [] h = ([], h', o) /\ a [] (machine_of h) = ([], machine_of h', o) /\ host_ok h'.
Lemma agree_ret {A} (x : A) h : host_ok h -> agree (mret x) (mret x) h.
Proof. intros Hh. by exists h, (Done x). Qed.
Lemma agree_fail {A} e h : host_ok h -> agree (fail (A := A) e) (fail e) h.
Proof. intros Hh. by exists h, (Failed e). Qed.
Lemma agree_bind {A B} (c : Eff Host A) (a : Eff Machine A) (f : A -> Eff Host B) (g : A -> Eff Machine B) h :
  agree c a h -> (forall x h', c [] h = ([], h', Done x) -> host_ok h' -> agree (f x) (g x) h') -> agree (c ≫= f) (a ≫= g) h.
Proof.
  intros (h1 & o & E1 & E2 & Hh) Hf. unfold agree, mbind, eff_bind. rewrite E1, E2.
  destruct o as [x|e|]; [by apply Hf|by exists h1, (Failed e)|by exists h1, Halted].
Qed.
Lemma agree_wrap {A} prefix (c : Eff Host A) a h : agree c a h -> agree (wrap prefix c) (wrap prefix a) h.
Proof.
  intros (h1 & o & E1 & E2 & Hh). unfold agree, wrap. rewrite E1, E2. destruct o; eauto 6.
Qed.
Lemma agree_of_result {A} (r : result A) h : host_ok h -> agree (of_result r) (of_result r) h.
Proof. destruct r; [apply agree_ret|apply agree_fail]. Qed.

(** *** The list of processes *)
Definition snap (p : WindowsProcess) : ProcessSnapshot := mkProcessSnapshot (wp_PID p) (wp_Name p) (wp_Path p).
Definition listed (h : Host) : list ProcessSnapshot := List.filter real_process (map snap (hh_Processes h)).

Lemma decode_processes l : Forall (fun p => 0 <= wp_PID p <= i64_max) l -> mapM decode_item (map process_json l) = Some (map snap l).
Proof. induction 1 as [|p l Hp _ IH]; [done|]. cbn [map mapM]. by rewrite decode_process, IH. Qed.
Lemma processes_parsed h : host_ok h -> listable h ->
  parseProcessSnapshots parse (process_report render (hh_Processes h)) = Ok (listed h).
Proof.
  intros Hh [Hn Hp]. assert (Forall (fun p => 0 <= wp_PID p <= i64_max) (hh_Processes h)) as Hr.
  { eapply Forall_impl; [apply (ho_range h Hh)|]. cbn. intros p. lia. }
  unfold listed. destruct (hh_Processes h) as [|p [|q l]]; [done|..]; destruct Hp as [Hp (rest & Ht)];
    unfold process_report, parseProcessSnapshots; rewrite Ht in Hp |- *; cbn [String.eqb orb]; rewrite Hp.
  - apply Forall_cons in Hr as [Hr _]. cbn [mbind option_bind]. rewrite decode_process by done. done.
  - cbn [mbind option_bind as_items]. by rewrite decode_processes.
Qed.
Lemma listed_ollama p h : In p (hh_Processes h) -> is_ollama p = true -> In (snap p) (listed h).
Proof.
  intros Hin Ho. apply List.filter_In. split; [by apply in_map|]. unfold is_ollama in Ho. apply andb_true_iff in Ho as [Hp Hn].
  unfold real_process, snap. cbn. rewrite Hp. destruct (String.eqb_spec (wp_Name p) "") as [E|]; [|done]. rewrite E in Hn. by vm_compute in Hn.
Qed.
Lemma processes_run h : host_ok h -> listable h -> processes parse render [] h = ([], h, Done (listed h)).
Proof.
  intros Hh Hl. unfold processes, get_processes, effect, mbind, eff_bind, of_result. by rewrite processes_parsed.
Qed.

(** *** Killing *)
Lemma set_processes_same h : set_processes (hh_Processes h) h = h.
Proof. by destruct h. Qed.
Lemma filter_true {T} (l : list T) : List.filter (fun _ => true) l = l.
Proof. induction l as [|x l IH]; [done|]. cbn. by rewrite IH. Qed.
Lemma filter_filter {T} (f g : T -> bool) l : List.filter g (List.filter f l) = List.filter (fun x => f x && g x) l.
Proof. induction l as [|x l IH]; [done|]. cbn. destruct (f x); cbn; [|done]. destruct (g x); by rewrite IH. Qed.
Lemma filter_rejected {T} (f : T -> bool) l : (forall x, In x l -> f x = false) -> List.filter f l = [].
Proof. intros Hf. induction l as [|x l IH]; [done|]. cbn. rewrite (Hf x) by (by left). apply IH. intros y Hy. apply Hf. by right. Qed.

Lemma taskkill_run n h : exists keep r,
  try (taskkill n) [] h = ([], set_processes (List.filter keep (hh_Processes h)) h, Done r)
  /\ forall p, In p (hh_Processes h) -> wp_PID p = n -> keep p = false.
Proof.
  unfold try, taskkill, effect. destruct (existsb _ _) eqn:E.
  - eexists _, (Ok tt). split; [reflexivity|]. intros p _ <-. cbn beta.
    destruct (length (hh_Processes h)); cbn [started_by]; by rewrite Z.eqb_refl.
  - exists (fun _ => true), (Err (ErrNew "the process was not found")). rewrite filter_true, set_processes_same. split; [done|].
    intros p Hp Hn. assert (existsb (has_pid n) (hh_Processes h) = true) as Hx; [|congruence].
    apply existsb_exists. exists p. split; [done|]. by apply Z.eqb_eq.
Qed.
Lemma kill_each_run l : forall h, exists keep,
  kill_each l [] h = ([], set_processes (List.filter keep (hh_Processes h)) h, Done tt)
  /\ forall p s, In p (hh_Processes h) -> In s l -> named_ollama (px_Name s) = true -> wp_PID p = px_PID s -> keep p = false.
Proof.
  induction l as [|s l IH]; intros h.
  { exists (fun _ => true). by rewrite filter_true, set_processes_same. }
  cbn [kill_each]. unfold mbind at 1, eff_bind at 1. destruct (named_ollama (px_Name s)) eqn:N.
  - destruct (taskkill_run (px_PID s) h) as (k1 & r & E1 & H1). unfold mbind, eff_bind. rewrite E1.
    destruct (IH (set_processes (List.filter k1 (hh_Processes h)) h)) as (k2 & E2 & H2). cbn [mret eff_ret]. rewrite E2.
    cbn [set_processes hh_Processes hh_Journal hh_Scheme hh_Keeper hh_NextPID]. rewrite filter_filter.
    exists (fun p => k1 p && k2 p). split; [done|]. intros p s' Hp [<-|Hs'] Hn Hpid; [by rewrite H1|].
    destruct (k1 p) eqn:K; [|done]. cbn. apply (H2 p s'); [|done..]. cbn. by apply List.filter_In.
  - destruct (IH h) as (k & E & H1). unfold mret, eff_ret. rewrite E. exists k. split; [done|].
    intros p s' Hp [<-|Hs'] Hn Hpid; [congruence|]. by apply (H1 p s').
Qed.
Lemma kill_all_run l : forall kept m, exists m', kill_all kept l [] m = ([], m', Done tt)
  /\ set_ollama kept m' = set_ollama kept m /\ (mc_ollama m = kept ++ l -> m' = set_ollama kept m).
Proof.
  induction l as [|p l IH]; intros kept m; cbn [kill_all].
  { exists m. split_and!; [done..|]. rewrite app_nil_r. destruct m. cbn. by intros ->. }
  unfold mbind, eff_bind, try, effect. destruct (IH kept (set_ollama (kept ++ l) m)) as (m' & E & E1 & E2). rewrite E.
  exists m'. split_and!; [done|by rewrite E1|]. intros _. by rewrite E2.
Qed.

Lemma host_ok_filter keep h : host_ok h -> host_ok (set_processes (List.filter keep (hh_Processes h)) h).
Proof.
  intros [H1 H2 H3 H4]. assert (forall (P : WindowsProcess -> Prop) l, Forall P l -> Forall P (List.filter keep l)) as Hf.
  { intros P l. induction 1 as [|x l Hx _ IH]; cbn; [done|]. destruct (keep x); auto. }
  split; cbn; auto. clear H2 H3 H4. induction (hh_Processes h) as [|p l IH]; cbn; [done|]. cbn in H1. apply NoDup_cons in H1 as [Hn H1].
  destruct (keep p); [|auto]. cbn. apply NoDup_cons. split; [|auto]. intros Hin. apply Hn.
  apply list_elem_of_fmap in Hin as (q & -> & Hq). apply list_elem_of_fmap. exists q. split; [done|].
  apply list_elem_of_In, List.filter_In in Hq as [Hq _]. by apply list_elem_of_In.
Qed.
Lemma killed_machine h : host_ok h -> exists h',
  kill_each (listed h) [] h = ([], h', Done tt) /\ kill_all [] (mc_ollama (machine_of h)) [] (machine_of h) = ([], machine_of h', Done tt)
  /\ host_ok h' /\ hh_NextPID h' = hh_NextPID h /\ List.filter is_ollama (hh_Processes h') = [].
Proof.
  intros Hh. destruct (kill_each_run (listed h) h) as (keep & E & Hk). eexists. split; [exact E|].
  destruct (kill_all_run (mc_ollama (machine_of h)) [] (machine_of h)) as (m' & E2 & _ & Em).
  assert (List.filter is_ollama (List.filter keep (hh_Processes h)) = []) as Hnone.
  { apply filter_rejected. intros p Hp. apply List.filter_In in Hp as [Hp Hkeep]. destruct (is_ollama p) eqn:O; [|done].
    rewrite (Hk p (snap p) Hp) in Hkeep; [done|by apply listed_ollama| |done]. unfold is_ollama in O. by apply andb_true_iff in O as [_ O]. }
  split_and!; [|by apply host_ok_filter|done|done]. rewrite E2, Em by done. unfold machine_of. cbn. by rewrite Hnone.
Qed.

(** *** Priorities *)
Lemma class_of_name priority class : class_of priority = Ok class -> class_name class = priority.
Proof.
  unfold class_of. destruct (String.eqb_spec priority "AboveNormal") as [->|]; [by intros [= <-]|].
  destruct (String.eqb_spec priority "High") as [->|]; [by intros [= <-]|].
  destruct (String.eqb_spec priority "Normal") as [->|]; [by intros [= <-]|done].
Qed.
Lemma class_of_valid priority :
  valid_priority priority = match class_of priority with Ok _ => true | Err _ => false end
  /\ (valid_priority priority = false -> class_of priority = Err (ErrNew "unsupported process priority")).
Proof.
  unfold valid_priority, class_of, contains. cbn [existsb].
  destruct (String.eqb_spec priority "AboveNormal") as [->|]; [by vm_compute|].
  destruct (String.eqb_spec priority "High") as [->|]; [by vm_compute|].
  destruct (String.eqb_spec priority "Normal") as [->|]; [by vm_compute|].
  done.
Qed.
(** The processes named [n] get the class. *)
Definition reclass (n class : Z) (h : Host) : Host :=
  set_processes (map (fun p => if has_pid n p then with_class class p else p) (hh_Processes h)) h.
Lemma setProcessPriority_run n priority h : existsb (has_pid n) (hh_Processes h) = true ->
  setProcessPriority n priority [] h =
  match class_of priority with Ok class => ([], reclass n class h, Done tt) | Err e => ([], h, Failed e) end.
Proof.
  intros E. unfold setProcessPriority, OpenProcess, SetPriorityClass, effect, mbind, eff_bind, of_result.
  destruct (class_of priority); [|done]. cbn [mret eff_ret]. by rewrite E.
Qed.
Lemma host_ok_reclass n class h : host_ok h -> host_ok (reclass n class h).
Proof.
  intros [H1 H2 H3 H4]. unfold reclass. split; cbn; [| |done|].
  - rewrite map_map. erewrite map_ext; [exact H1|]. intros p. by destruct (has_pid n p).
  - apply Forall_map. eapply Forall_impl; [exact H2|]. intros p Hp. by destruct (has_pid n p).
  - apply Forall_map. eapply Forall_impl; [exact H4|]. intros p Hp. by destruct (has_pid n p).
Qed.

Lemma has_pid_first class p l : NoDup (map wp_PID (p :: l)) ->
  map (fun q => if has_pid (wp_PID p) q then with_class class q else q) l = l.
Proof.
  intros Hn. cbn in Hn. apply NoDup_cons in Hn as [Hn _]. rewrite <- (map_id l) at 2. apply map_ext_in. intros q Hq. unfold has_pid.
  destruct (Z.eqb_spec (wp_PID q) (wp_PID p)) as [E|]; [|done]. destruct Hn. apply list_elem_of_fmap. exists q.
  split; [done|by apply list_elem_of_In].
Qed.
Lemma is_ollama_real p : is_ollama p = real_process (snap p) && named_ollama (wp_Name p).
Proof.
  unfold is_ollama, real_process, snap. cbn. destruct (String.eqb_spec (wp_Name p) "") as [En|]; cbn; [|by rewrite andb_true_r].
  rewrite En. vm_compute (named_ollama ""). by rewrite !andb_false_r.
Qed.
(** The Ollama processes of [todo], among the processes of the host, get the
    class one after another. *)
Lemma set_each_run priority class todo : class_of priority = Ok class -> forall before h,
  hh_Processes h = before ++ todo -> NoDup (map wp_PID (hh_Processes h)) ->
  set_each_priority priority (List.filter real_process (map snap todo)) [] h =
  ([], set_processes (before ++ map (fun p => if is_ollama p then with_class class p else p) todo) h, Done tt).
Proof.
  intros Hc. induction todo as [|p todo IH]; intros before h E Hn.
  { cbn. by rewrite <- E, set_processes_same. }
  cbn [map List.filter]. pose proof (is_ollama_real p) as Ho.
  assert (forall q, before ++ q :: todo = (before ++ [q]) ++ todo) as Ha by (intros q; by rewrite <- app_assoc).
  rewrite Ho. destruct (real_process (snap p)) eqn:R; cbn [andb].
  2: { rewrite (IH (before ++ [p]) h); [|by rewrite E, Ha|done]. by rewrite <- app_assoc. }
  cbn [set_each_priority]. unfold mbind, eff_bind. change (px_Name (snap p)) with (wp_Name p). destruct (named_ollama (wp_Name p)).
  2: { cbn [mret eff_ret]. rewrite (IH (before ++ [p]) h); [|by rewrite E, Ha|done]. by rewrite <- app_assoc. }
  change (px_PID (snap p)) with (wp_PID p). rewrite setProcessPriority_run.
  2: { rewrite E. apply existsb_exists. exists p. split; [apply in_app_iff; right; by left|]. apply Z.eqb_refl. }
  rewrite Hc. assert (hh_Processes (reclass (wp_PID p) class h) = (before ++ [with_class class p]) ++ todo) as Er.
  { unfold reclass. cbn. rewrite E in Hn |- *. rewrite map_app in Hn |- *. cbn [map]. unfold has_pid at 2. rewrite Z.eqb_refl.
    apply NoDup_app in Hn as (_ & Hd & Hn2).
    rewrite (has_pid_first class p todo Hn2). rewrite <- app_assoc. f_equal.
    rewrite <- (map_id before) at 2. apply map_ext_in. intros q Hq. unfold has_pid.
    destruct (Z.eqb_spec (wp_PID q) (wp_PID p)) as [Eq|]; [|done]. exfalso.
    apply (Hd (wp_PID q)); [apply list_elem_of_fmap; exists q; split; [done|by apply list_elem_of_In]|rewrite Eq; by left]. }
  rewrite (IH (before ++ [with_class class p]) (reclass (wp_PID p) class h)); [|done|].
  - rewrite <- app_assoc. done.
  - unfold reclass. cbn. rewrite map_map. erewrite map_ext; [exact Hn|]. intros q. by destruct (has_pid _ q).
Qed.
Lemma set_each_fails priority e todo h : class_of priority = Err e ->
  set_each_priority priority (List.filter real_process (map snap todo)) [] h =
  ([], h, match List.filter is_ollama todo with [] => Done tt | _ => Failed e end).
Proof.
  intros Hc. induction todo as [|p todo IH]; [done|]. cbn [map List.filter].
  assert (is_ollama p = real_process (snap p) && named_ollama (wp_Name p)) as -> by apply is_ollama_real.
  destruct (real_process (snap p)); cbn [andb]; [|done]. cbn [set_each_priority]. unfold mbind, eff_bind.
  change (px_Name (snap p)) with (wp_Name p). destruct (named_ollama (wp_Name p)); [|done].
  unfold setProcessPriority, mbind, eff_bind, of_result. by rewrite Hc.
Qed.
Definition with_priority (priority : string) (p : Process) : Process := mkProcess (ps_Executable p) (ps_Environment p) priority.
Lemma set_priorities_run priority todo : forall done m, mc_ollama m = done ++ todo ->
  set_priorities done priority todo [] m = ([], set_ollama (done ++ map (with_priority priority) todo) m, Done tt).
Proof.
  induction todo as [|p todo IH]; intros before m E; cbn [set_priorities].
  { cbn. rewrite <- E. by destruct m. }
  unfold mbind, eff_bind, effect. rewrite (IH (before ++ [with_priority priority p])); [|by rewrite <- app_assoc].
  by rewrite <- app_assoc.
Qed.
Lemma reclassed_machine priority class h : class_of priority = Ok class ->
  machine_of (set_processes (map (fun p => if is_ollama p then with_class class p else p) (hh_Processes h)) h)
  = set_ollama (map (with_priority priority) (mc_ollama (machine_of h))) (machine_of h).
Proof.
  intros Hc%class_of_name. unfold machine_of, set_ollama. cbn. f_equal. rewrite map_map. induction (hh_Processes h) as [|p l IH]; [done|]. cbn.
  destruct (is_ollama p) eqn:O; [|by rewrite O]. replace (is_ollama (with_class class p)) with true. cbn. rewrite IH. f_equal.
  unfold reported, with_priority. cbn. by rewrite Hc.
Qed.
Lemma host_ok_reclassed class h : host_ok h ->
  host_ok (set_processes (map (fun p => if is_ollama p then with_class class p else p) (hh_Processes h)) h).
Proof.
  intros [H1 H2 H3 H4]. split; cbn; [| |done|].
  - rewrite map_map. erewrite map_ext; [exact H1|]. intros p. by destruct (is_ollama p).
  - apply Forall_map. eapply Forall_impl; [exact H2|]. intros p Hp. by destruct (is_ollama p).
  - apply Forall_map. eapply Forall_impl; [exact H4|]. intros p Hp. by destruct (is_ollama p).
Qed.

Lemma agree_set_priority priority h : host_ok h -> listable h ->
  agree (native_setRunningOllamaPriority parse render priority) (setRunningOllamaPriority priority) h.
Proof.
  intros Hh Hl. unfold agree, native_setRunningOllamaPriority, setRunningOllamaPriority, list_processes, mbind, eff_bind.
  rewrite processes_run by done. unfold effect at 1. destruct (class_of_valid priority) as [Hv Hbad].
  destruct (class_of priority) as [class|e] eqn:C.
  - unfold listed. rewrite (set_each_run priority class (hh_Processes h) C [] h eq_refl (ho_pids h Hh)). cbn [app].
    eexists _, _. split; [reflexivity|]. split; [|by apply host_ok_reclassed]. rewrite (reclassed_machine priority class h C).
    pose proof (set_priorities_run priority (mc_ollama (machine_of h)) [] (machine_of h) eq_refl) as Hs. cbn [app] in Hs.
    destruct (mc_ollama (machine_of h)) as [|q l] eqn:E; [|by rewrite Hv, Hs]. cbn. rewrite <- E. by destruct (machine_of h).
  - unfold listed. rewrite (set_each_fails priority e) by done. exists h, (match List.filter is_ollama (hh_Processes h) with [] => Done tt | _ => Failed e end).
    split; [done|]. split; [|done]. unfold machine_of at 1. cbn [mc_ollama]. specialize (Hbad Hv). injection Hbad as ->.
    destruct (List.filter is_ollama (hh_Processes h)); [done|]. cbn [map]. by rewrite Hv.
Qed.

(** *** Restarting Ollama *)
Definition names_ollama (executable : string) : Prop := named_ollama (base_name executable) = true.
Definition started (executable : string) (environment : list string) (h : Host) : Host :=
  mkHost (hh_Journal h) (hh_Scheme h) (hh_Keeper h)
    (hh_Processes h ++ [mkWindowsProcess (hh_NextPID h) (base_name executable) executable priorityNormal environment pid]) (hh_NextPID h + 1).
Lemma host_ok_started executable environment h : host_ok h -> host_ok (started executable environment h).
Proof.
  intros [H1 H2 H3 H4]. split; cbn.
  - rewrite map_app. cbn. apply NoDup_app. split_and!; [done| |apply NoDup_singleton].
    intros n Hn Hin. apply list_elem_of_singleton in Hin as ->. apply list_elem_of_fmap in Hn as (p & E & Hp).
    rewrite Forall_forall in H2. specialize (H2 p Hp). lia.
  - apply Forall_app. split; [eapply Forall_impl; [exact H2|]; cbn; lia|]. apply Forall_cons. cbn. split; [lia|done].
  - lia.
  - apply Forall_app. split; [done|]. apply Forall_cons. done.
Qed.
Definition newcomer (executable : string) (environment : list string) (class : Z) (h : Host) : WindowsProcess :=
  mkWindowsProcess (hh_NextPID h) (base_name executable) executable class environment pid.
Lemma newcomer_machine executable environment class h : host_ok h -> names_ollama executable ->
  machine_of (set_processes (hh_Processes h ++ [newcomer executable environment class h]) (started executable environment h))
  = set_ollama (mc_ollama (machine_of h) ++ [mkProcess executable environment (class_name class)]) (machine_of h).
Proof.
  intros [_ _ Hn _] Ho. unfold machine_of, started, set_ollama. cbn. f_equal. rewrite List.filter_app, map_app. cbn.
  unfold is_ollama at 2. cbn. unfold names_ollama in Ho. by rewrite Ho, (proj2 (Z.ltb_lt _ _) Hn).
Qed.
Lemma started_machine executable environment h : host_ok h -> names_ollama executable ->
  machine_of (started executable environment h)
  = set_ollama (mc_ollama (machine_of h) ++ [mkProcess executable environment default_priority]) (machine_of h).
Proof. apply (newcomer_machine executable environment priorityNormal h). Qed.
Lemma reclass_started executable environment class h : host_ok h ->
  reclass (hh_NextPID h) class (started executable environment h)
  = set_processes (hh_Processes h ++ [newcomer executable environment class h]) (started executable environment h).
Proof.
  intros [_ H2 _ _]. unfold reclass, started, set_processes. cbn. f_equal. rewrite map_app. cbn. unfold has_pid at 2. cbn. rewrite Z.eqb_refl.
  f_equal. rewrite <- (map_id (hh_Processes h)) at 2. apply map_ext_in. intros p Hp. unfold has_pid.
  destruct (Z.eqb_spec (wp_PID p) (hh_NextPID h)) as [E|]; [|done]. rewrite Forall_forall in H2.
  apply list_elem_of_In in Hp. specialize (H2 p Hp). lia.
Qed.

Lemma agree_restart executable environment priority h : host_ok h -> listable h -> names_ollama executable ->
  agree (native_restartOllama parse render environ pid executable environment priority)
    (restartOllama environ executable environment priority) h.
Proof.
  intros Hh Hl Ho. unfold agree, native_restartOllama, restartOllama, list_processes, mbind, eff_bind. rewrite processes_run by done.
  unfold effect at 1. destruct (killed_machine h Hh) as (h1 & E1 & E2 & Hh1 & Hn1 & Hf1). rewrite E1, E2.
  unfold wrap, start_process, effect. set (env := mergeEnvironment environ environment). fold (started executable env h1).
  rewrite <- (started_machine executable env h1 Hh1 Ho).
  pose proof (host_ok_started executable env h1 Hh1) as Hh2. destruct (String.eqb priority ""); cbn [negb].
  { by exists (started executable env h1), (Done tt). }
  destruct (class_of_valid priority) as [Hv Hbad]. rewrite setProcessPriority_run.
  2: { cbn. apply existsb_exists. eexists. split; [apply in_app_iff; right; by left|]. apply Z.eqb_refl. }
  destruct (class_of priority) as [class|e] eqn:C; rewrite Hv; cbn [negb].
  - eexists _, _. split; [reflexivity|]. split; [|by apply host_ok_reclass]. rewrite reclass_started by done.
    rewrite newcomer_machine, started_machine by done. assert (mc_ollama (machine_of h1) = []) as -> by (cbn; by rewrite Hf1).
    by rewrite (class_of_name priority class C).
  - specialize (Hbad Hv). injection Hbad as ->. by eexists _, _.
Qed.

(** *** Staying awake and the power plan *)
Lemma agree_start_awake h : host_ok h -> agree native_startKeepAwake startKeepAwake h.
Proof.
  intros Hh. unfold agree, native_startKeepAwake, startKeepAwake, effect. destruct (hh_Keeper h) eqn:K.
  - exists h, (Done tt). split_and!; [done| |done]. unfold machine_of, set_awake. cbn. by rewrite K.
  - eexists _, _. split_and!; [reflexivity|done|]. by destruct Hh.
Qed.
Lemma agree_stop_awake h : host_ok h -> agree native_stopKeepAwake stopKeepAwake h.
Proof. intros Hh. eexists _, _. split_and!; [reflexivity|done|]. by destruct Hh. Qed.
Lemma agree_set_scheme scheme h : host_ok h -> agree (powercfg ["/setactive"; scheme]) (set_active scheme) h.
Proof. intros Hh. eexists _, _. split_and!; [reflexivity|done|]. by destruct Hh. Qed.

Lemma agree_Apply c o snapshot h : host_ok h -> listable h -> o ∈ plan_operations c ->
  (ol_Executable (rj_Ollama snapshot) <> "" -> names_ollama (ol_Executable (rj_Ollama snapshot))) ->
  agree (native_Apply parse render environ pid snapshot o) (Apply environ snapshot o) h.
Proof.
  intros Hh Hl Ho Hn. unfold native_Apply, Apply. unfold plan_operations in Ho. apply elem_of_app in Ho as [Ho|Ho].
  { destruct (cf_PerformancePowerPlan c); [|by apply elem_of_nil in Ho]. apply list_elem_of_singleton in Ho as ->. by apply agree_set_scheme. }
  repeat (apply elem_of_cons in Ho as [->|Ho]; cbn [op_Kind]).
  - by apply agree_start_awake.
  - destruct (String.eqb_spec (ol_Executable (rj_Ollama snapshot)) ""); [by apply agree_ret|]. apply agree_restart; auto.
  - by apply agree_set_priority.
  - by apply elem_of_nil in Ho.
Qed.

Lemma agree_restore j stages : (ol_Executable (rj_Ollama j) <> "" -> names_ollama (ol_Executable (rj_Ollama j))) ->
  forall h ollama awake power, host_ok h -> (ollama = false -> listable h) ->
  agree (native_restore_loop parse render environ pid j stages ollama awake power) (restore_loop environ j stages ollama awake power) h.
Proof.
  intros Hn. induction stages as [|stage stages IH]; intros h ollama awake power Hh Hl; cbn [native_restore_loop restore_loop].
  { by apply agree_ret. }
  destruct ((String.eqb stage _ || String.eqb stage _) && negb ollama) eqn:E1.
  { apply agree_bind; [|intros x h' _ Hh'; by apply IH].
    destruct (String.eqb_spec (ol_Executable (rj_Ollama j)) ""); [by apply agree_ret|]. apply agree_restart; auto.
    apply andb_true_iff in E1 as [_ E1]. apply Hl. by destruct ollama. }
  destruct (String.eqb stage _ && negb awake).
  { apply agree_bind; [by apply agree_stop_awake|]. intros x h' [= <-] Hh'. apply IH; [done|]. intros Ho. by destruct (Hl Ho). }
  destruct (String.eqb stage _ && negb power); [|by apply IH].
  apply agree_bind; [by apply agree_wrap, agree_set_scheme|]. intros x h' [= <-] Hh'. apply IH; [done|]. intros Ho. by destruct (Hl Ho).
Qed.

(** *** The snapshot *)
Lemma processPriority_run p h : NoDup (map wp_PID (hh_Processes h)) -> In p (hh_Processes h) ->
  processPriority (wp_PID p) [] h = ([], h, Done (class_name (wp_Class p))).
Proof.
  intros Hn Hp. assert (List.find (has_pid (wp_PID p)) (hh_Processes h) = Some p) as Hf.
  { induction (hh_Processes h) as [|q l IH]; [done|]. cbn in Hn |- *. apply NoDup_cons in Hn as [Hq Hn]. unfold has_pid at 1.
    destruct (Z.eqb_spec (wp_PID q) (wp_PID p)) as [E|]; [|destruct Hp as [->|Hp]; [done|by apply IH]].
    destruct Hp as [->|Hp]; [done|]. destruct Hq. rewrite E. apply list_elem_of_fmap. exists p. split; [done|by apply list_elem_of_In]. }
  unfold processPriority, OpenProcess, GetPriorityClass, try, effect, mbind, eff_bind.
  assert (existsb (has_pid (wp_PID p)) (hh_Processes h) = true) as Hx.
  { apply existsb_exists. exists p. split; [done|apply Z.eqb_refl]. }
  rewrite Hx. cbn. rewrite Hf. done.
Qed.
(** What the loop finds among Ollama processes. *)
Definition found_among (l : list Process) (found : string * string) : string * string :=
  if negb (String.eqb (fst found) "") then found
  else match List.find (fun p => negb (String.eqb (ps_Executable p) "")) l with
       | Some p => (ps_Executable p, ps_Priority p)
       | None => ("", match last l with Some p => ps_Priority p | None => snd found end)
       end.
Lemma capture_each_run h : NoDup (map wp_PID (hh_Processes h)) -> forall todo found, (forall p, In p todo -> In p (hh_Processes h)) ->
  capture_each (List.filter real_process (map snap todo)) found [] h
  = ([], h, Done (found_among (map reported (List.filter is_ollama todo)) found)).
Proof.
  intros Hn. induction todo as [|p todo IH]; intros found Hin.
  { cbn. unfold found_among. cbn. destruct found as [e r]. cbn. by destruct (String.eqb_spec e "") as [->|]. }
  cbn [map List.filter]. rewrite is_ollama_real. destruct (real_process (snap p)); cbn [andb]; [|apply IH; intros q Hq; apply Hin; by right].
  cbn [capture_each]. change (px_Name (snap p)) with (wp_Name p). destruct (named_ollama (wp_Name p)); cbn [andb].
  2: { apply IH. intros q Hq. apply Hin. by right. }
  destruct (String.eqb_spec (fst found) "") as [Ef|Ef].
  - unfold mbind, eff_bind. change (px_PID (snap p)) with (wp_PID p). rewrite processPriority_run by (done || (apply Hin; by left)).
    rewrite IH by (intros q Hq; apply Hin; by right). cbn [map].
    set (l := map reported (List.filter is_ollama todo)).
    enough (found_among l (px_Executable (snap p), class_name (wp_Class p)) = found_among (reported p :: l) found) as -> by done.
    unfold found_among. rewrite Ef. cbn. destruct (String.eqb_spec (wp_Path p) "") as [->|]; cbn; [|done].
    destruct (List.find _ _); [done|]. destruct l as [|q l]; [done|]. change (last (?x :: q :: l)) with (last (q :: l)).
    by destruct (last (q :: l)) eqn:E; [|apply last_None in E].
  - rewrite IH by (intros q Hq; apply Hin; by right). unfold found_among. by rewrite (proj2 (String.eqb_neq _ _) Ef).
Qed.

Lemma agree_Snapshot c line h : host_ok h -> listable h -> label_clear label = true -> is_scheme (hh_Scheme h) ->
  agree (native_Snapshot parse render report_of environ pid c line) (Snapshot environ pid (nativeACPower line) c) h.
Proof.
  intros Hh Hl Hlabel Hs. unfold native_Snapshot, Snapshot. apply agree_bind; [by apply agree_of_result|]. intros u h0 E0 _.
  assert (h0 = h) as -> by (unfold of_result in E0; destruct (Validate c); by injection E0).
  exists h. unfold getactivescheme, get_processes, wrap, effect, mbind, eff_bind. unfold report_of. rewrite report_parsed by done.
  cbn [of_result mret eff_ret]. rewrite processes_parsed by done. cbn [of_result mret eff_ret].
  destruct (nativeACPower line) as [power|]; cbn [of_option of_result mret eff_ret]; [|by eexists].
  unfold listed. rewrite capture_each_run by (done || apply (ho_pids h Hh)). unfold found_among. cbn [fst String.eqb negb].
  exists (Done (mkHostSnapshot power (capture environ pid (hh_Scheme h) (mc_ollama (machine_of h))))). split; [|done].
  unfold capture. cbn [machine_of mc_ollama]. by destruct (List.find _ _).
Qed.
(** The executable the snapshot finds is one of Ollama. *)
Lemma captured_names_ollama scheme h : host_ok h -> 
  let journal := capture environ pid scheme (mc_ollama (machine_of h)) in
  ol_Executable (rj_Ollama journal) <> "" -> names_ollama (ol_Executable (rj_Ollama journal)).
Proof.
  intros Hh journal. unfold journal, capture. destruct (List.find _ _) as [q|] eqn:F; [|done]. cbn. intros Hq.
  apply List.find_some in F as [Hin _]. cbn in Hin. apply in_map_iff in Hin as (p & <- & Hp). apply List.filter_In in Hp as [Hp Ho].
  cbn in *. pose proof (ho_names h Hh) as Hnames. rewrite Forall_forall in Hnames. apply list_elem_of_In in Hp.
  unfold names_ollama. rewrite <- (Hnames p Hp Hq). unfold is_ollama in Ho. by apply andb_true_iff in Ho as [_ Ho].
Qed.

(** C25. The native runner is the one the tuning of a session is proved with.  On a
    host whose commands succeed, taking the snapshot, applying each operation of
    a plan and restoring a journal, down to the reports that are parsed, the
    processes that are killed with those they started, the identifiers and the
    priority classes, end with the same result as the operations of Tuning.v and
    leave the machine they describe: the same journal, power scheme and
    keep-awake request, and Ollama processes with the same executables,
    environments and priorities. *)
Theorem native_runner_agrees h :
  host_ok h -> listable h ->
  (forall c line, label_clear label = true -> is_scheme (hh_Scheme h) ->
     agree (native_Snapshot parse render report_of environ pid c line) (Snapshot environ pid (nativeACPower line) c) h)
  /\ (forall c o snapshot, o ∈ plan_operations c ->
        (ol_Executable (rj_Ollama snapshot) <> "" -> names_ollama (ol_Executable (rj_Ollama snapshot))) ->
        agree (native_Apply parse render environ pid snapshot o) (Apply environ snapshot o) h)
  /\ (forall j, (ol_Executable (rj_Ollama j) <> "" -> names_ollama (ol_Executable (rj_Ollama j))) ->
        agree (native_Restore parse render environ pid j) (Restore environ j) h).
Proof.
  intros Hh Hl. split_and!.
  - intros c line Hlabel Hs. by apply agree_Snapshot.
  - intros c o snapshot Ho Hn. by eapply agree_Apply.
  - intros j Hn. by apply agree_restore.
Qed.
End Agreement.

(** Optional executables are files, named in the order of the list and started
    once each, whatever the case and the blanks of their paths. *)
Lemma optional_once is_file paths :
  let started := restartOptionalExecutables is_file paths in
  NoDup (map (fun path => ToLower (TrimSpace path)) started) /\ Forall (fun path => is_file path = true) started /\ sublist started paths.
Proof.
  unfold restartOptionalExecutables. cut (forall seen,
    NoDup (map (fun path => ToLower (TrimSpace path)) (optional_executables is_file seen paths))
    /\ Forall (fun path => is_file path = true /\ contains seen (ToLower (TrimSpace path)) = false) (optional_executables is_file seen paths)
    /\ sublist (optional_executables is_file seen paths) paths).
  { intros Hall. destruct (Hall []) as (H1 & H2 & H3). split_and!; [done| |done]. eapply Forall_impl; [exact H2|]. by intros x []. }
  induction paths as [|path paths IH]; intros seen; cbn [optional_executables].
  { split_and!; constructor. }
  destruct (_ || _) eqn:G.
  { destruct (IH seen) as (H1 & H2 & H3). split_and!; [done..|]. by apply sublist_cons. }
  apply orb_false_iff in G as [_ G]. destruct (IH (ToLower (TrimSpace path) :: seen)) as (H1 & H2 & H3).
  assert (forall x, contains (ToLower (TrimSpace path) :: seen) x = String.eqb x (ToLower (TrimSpace path)) || contains seen x) as Hc
    by (intros x; unfold contains; cbn; by rewrite ?(String.eqb_sym x)).
  assert (Forall (fun x => is_file x = true /\ contains seen (ToLower (TrimSpace x)) = false)
            (optional_executables is_file (ToLower (TrimSpace path) :: seen) paths)) as H2'.
  { eapply Forall_impl; [exact H2|]. intros x [Hx Hs]. split; [done|]. rewrite Hc in Hs. by apply orb_false_iff in Hs as [_ Hs]. }
  destruct (is_file path) eqn:F; cbn [app].
  2: { split_and!; [done..|]. by apply sublist_cons. }
  split_and!.
  - cbn [map]. apply NoDup_cons. split; [|done]. intros Hin. apply list_elem_of_fmap in Hin as (x & E & Hx).
    rewrite Forall_forall in H2. destruct (H2 x Hx) as [_ Hs]. by rewrite Hc, <- E, String.eqb_refl in Hs.
  - by apply Forall_cons.
  - by apply sublist_skip.
Qed.

(** ** A concrete host *)
Module RunnerRun.
Definition path : string := "C:\apps\Ollama.exe".
Definition balanced : string := "381b4222-f694-41f0-9685-ff5bb260df2e".
(** Ollama runs at high priority with a process it started; it was tuned, and
    the journal says what it was before. *)
Definition windows_host : Host := mkHost None balanced true
  [ mkWindowsProcess 0 "System Idle Process" "" 32 [] 0; mkWindowsProcess 10 "Ollama.exe" path 128 ["OLLAMA_NUM_PARALLEL=1"] 4;
    mkWindowsProcess 11 "Ollama.exe" path 32 [] 10; mkWindowsProcess 12 "explorer.exe" "C:\explorer.exe" 32 [] 4 ] 20.
Definition environ : list string := ["PATH=C:\"; "OLLAMA_NUM_PARALLEL=4"].
Definition report : json := JArr (map process_json (hh_Processes windows_host)).
Definition render (v : json) : string := "[processes]".
Definition parse (text : string) : option json := if String.eqb text "[processes]" then Some report else None.
Definition label : string := "Power Scheme GUID: ".
Definition rest_of (scheme : string) : string := "  (Balanced)".
Definition journal : RecoveryJournal := mkJournal "provider" 7 "8c5e7fda-e8bf-4a96-9a85-a6e23a8c635c"
  (mkOllamaSettings path "AboveNormal" [("OLLAMA_NUM_PARALLEL", Some "8"); ("OLLAMA_KV_CACHE_TYPE", None)])
  ["power-plan"; "keep-awake"; "ollama-environment"; "process-priority"].
Definition restored : Host := snd (fst (native_Restore parse render environ 7 journal [] windows_host)).

Lemma host_is_ok : host_ok windows_host.
Proof.
  split; [apply (bool_decide_unpack _); vm_compute; exact I| |done|].
  - repeat (apply Forall_cons; split; [cbn; lia|]). apply Forall_nil_2.
  - repeat (apply Forall_cons; split; [first [intros _; vm_compute; reflexivity | intros []; reflexivity]|]). apply Forall_nil_2.
Qed.
Lemma native_runner_agrees_witness :
  snd (native_Snapshot parse render (report_of label rest_of) environ 7 DefaultConfig (Some 1) [] windows_host)
  = Done (mkHostSnapshot true (mkJournal "provider" 7 balanced
      (mkOllamaSettings path "High" (originalOllamaEnvironment environ)) []))
  /\ machine_of restored = mkMachine None "8c5e7fda-e8bf-4a96-9a85-a6e23a8c635c" false
       [mkProcess path ["PATH=C:\"; "OLLAMA_NUM_PARALLEL=8"] "AboveNormal"]
  /\ snd (Restore environ journal [] (machine_of windows_host)) = Done tt
  /\ snd (fst (Restore environ journal [] (machine_of windows_host))) = machine_of restored.
Proof.
  split; [vm_compute; reflexivity|]. split; [vm_compute; reflexivity|].
  assert (listable parse render windows_host) as Hl.
  { split; [vm_compute; discriminate|]. split; [vm_compute; reflexivity|]. exists "processes]". vm_compute. reflexivity. }
  destruct (native_runner_agrees parse render label rest_of environ 7 windows_host host_is_ok Hl) as (_ & _ & Hr).
  destruct (Hr journal ltac:(intros _; vm_compute; reflexivity)) as (h' & o & E1 & E2 & _).
  assert (h' = restored) as -> by (unfold restored; rewrite E1; reflexivity).
  split; [|rewrite E2; reflexivity]. rewrite E2. cbn [snd].
  assert (snd (native_Restore parse render environ 7 journal [] windows_host) = Done tt) as Hd by (vm_compute; reflexivity).
  rewrite E1 in Hd. exact Hd.
Defined.
End RunnerRun.
